(* ===== verification/_CoqProject ===== *)
-Q . S2P
Prelude.v
Bitmap.v
UserCopy.v
KState.v
ProcTable.v
FileSyscalls.v
ProcSyscalls.v
WaitExit.v
Exec.v
Dispatch.v
Dumbvm.v
LoadElf.v
LoadElfSpec.v
KHeapRefs.v
KHeap.v
KHeapSpec.v
Synch.v
Semaphore.v
ThreadList.v
Sched.v
SchedSpec.v
SfsDisk.v
SfsFile.v
SfsTrunc.v
SfsDir.v
SfsMap.v
KArray.v
SfsOwn.v
SfsInode.v
SfsVnops.v
SfsMount.v
SfsErrors.v
Vnode.v
VfsList.v
VfsLookup.v
VfsSpec.v
VfsRefs.v
VfsNames.v
SemFs.v
SemFsSpec.v
SemFsSystem.v
SemFsNames.v
SemPV.v
CString.v
Printf.v
PrintfSpec.v
PrintfFormat.v
KLib.v
Qsort.v
UMalloc.v
UMallocSpec.v
Shell.v
ShellSpec.v
LongLong.v
QDivRem.v
