(* ===== verification/Prelude.v ===== *)
(** * The OS/161 SHELL kernel

    A verification of the kernel of OS/161 2.0.3 with the SHELL project (paths below are
    relative to src/os161-base-2.0.3/). The project adds processes, system calls and a
    page allocator to a small MIPS kernel; the development covers these, and the parts of
    the base system they run on: threads and locks, user copies, the ELF loader, the kernel
    heap, the VFS layer, the SFS and semaphore file systems, the part of the C library
    that the kernel and libc share, and the compiler's 64-bit arithmetic. Of userland it
    covers the shell, which is what the kernel is there to run, and the heap and sorting
    routine of libc.

    ** How the code is modelled

    Integers are values of [Z] with the wrap-around written out ([u32], [s32], ...). Code
    that changes state is a function of the monad [K S A] of this file: it ends with a
    value ([Done]), with an error number ([Fail], the state being what the failing code
    left behind), or stops the kernel ([Halt]: a failed [KASSERT], [panic], an access out
    of bounds or through a bad pointer). A theorem that gives [Done] or [Fail] therefore
    also says that no assertion fails. Loops are structural recursion on the data or on
    a counter; where the C loop has no evident bound the definition takes fuel and
    [Halt OutOfFuel] marks its exhaustion, so that the same theorems show that the fuel
    is enough:
    - [find_page], [find_holder] and [unlink] of KHeap.v run on [LISTFUEL] = 4097 steps;
      there are never more than 16 * 256 page references ([refs_bound]);
    - the circular scans of ProcTable.v ([find_loop], [proc_init_loop]) have one step per
      slot of the process table;
    - the loops over argv of Exec.v have one step per byte of the buffer, and every
      string takes at least one;
    - [array_preallocate] (KArray.v) has 40 steps; a 32-bit number doubles at most 32
      times, and the requests for which the C loop does not end are a theorem of its own;
    - [uiomovezeros] (SfsDisk.v) has as many steps as bytes;
    - the loops that empty a list of threads ([exorcise], [grab_all], [wake_all],
      [put_back] of Sched.v) have one step per thread of the system and one more;
    - [read_loop] (SemPV.v) has one step up to the next wait, since a pass either satisfies
      the read or leaves the semaphore empty;
    - the string functions (CString.v) and [atoi] (Printf.v) run until a terminator and
      take their fuel as an argument, [None] being that it was not enough; their theorems
      give a bound from the lengths of the strings;
    - [qsort] (Qsort.v) has one more step than elements, and its theorem shows that this is
      enough; [search] (UMalloc.v) has one step per header that fits into the heap, and
      [digit_loop] (Printf.v) one per place of the buffer for numbers.
    Concurrent code is a step relation in which one step of one thread is one statement
    (Synch.v, Semaphore.v) or one stretch of code between two points where other threads
    may run (WaitExit.v), and the invariants are proved by induction on runs.

    Pointers that alias are addresses in stores (KState.v, SfsInode.v): two descriptors
    with the same pointer share one open file. Code outside the model appears as a class
    of operations with the laws the client relies on: [Vfs] and [Loader] for what the
    system calls use, [Disk] for the answers of the hardware (any answers), [Pages] for the
    page allocator below the heap, of which dumbvm is an instance, [Executable] for the file
    that the ELF loader reads, [Kmem] for the outcomes of [kmalloc] in the VFS layer, and
    [FileSystems] with its laws [FsLaws] for the tables of operations behind vnodes. The
    semaphore file system is shown to fulfil these laws for all outcomes of [kmalloc]; SFS
    breaks one of them on a volume whose root is not a directory ([sfs_getroot]). In the
    same way [Unix] with [UnixLaws] stands for the system calls below the shell, and [Sbrk]
    with [SbrkLaws] for the break below the user's heap, which this kernel does not have
    (its dispatcher answers [ENOSYS], and [malloc] then ends the program). Reference
    counts of vnodes are unbounded in Vnode.v.

    ** The files

    - Prelude: integers, the monad [K], shared lemmas and tactics.
    - Bitmap: kern/lib/bitmap.c. KArray: kern/lib/array.c.
    - UserCopy: kern/vm/copyinout.c. Copies never touch kernel memory on behalf of a user
      address, stop at the faulting byte, and strings round-trip.
    - KState: the data shared by processes and files (kern/include/proc.h and
      syscall_SHELL.h), memory as an oracle of [kmalloc] outcomes.
    - ProcTable: kern/proc/proc.c. The table of processes is well formed after every
      operation, pids are unique, a destroyed process leaves no trace.
    - FileSyscalls: kern/syscall/syscall_FILE.c. What open, close, dup2, read, write, lseek,
      chdir and getcwd do to descriptors, open files and their counts, on every branch.
    - ProcSyscalls, WaitExit: kern/syscall/syscall_PROC.c. fork, exit, waitpid one after the
      other and interleaved.
    - Exec: kern/syscall/exec.c, runprogram.c. The arguments reach the new program
      unchanged; a failure leaves the old one running.
    - Dispatch: kern/arch/mips/syscall/syscall.c.
    - Dumbvm: kern/arch/mips/vm/dumbvm.c, ram.c. Runs of pages do not overlap; copied
      address spaces are disjoint and equal in content; faults are resolved as the regions say.
    - LoadElf, LoadElfSpec: kern/syscall/loadelf.c on the address spaces of Dumbvm. After a
      successful load the memory of every segment, seen through the page faults, is the
      contents of the file followed by zeros.
    - KHeapRefs, KHeap, KHeapSpec: kern/vm/kmalloc.c. Blocks never overlap, are given back
      exactly once, and their contents are left alone.
    - Synch, Semaphore: kern/thread/synch.c, spinlock.c and the wait channels of thread.c.
      Mutual exclusion, no lost wake-up, progress.
    - ThreadList, Sched, SchedSpec: kern/thread/threadlist.c and thread.c. Doubly linked
      lists as cells with pointers; the run queues, wait channels, zombie lists and current
      threads of all processors partition the threads after every operation.
    - SfsDisk, SfsFile, SfsTrunc, SfsDir, SfsMap, SfsOwn, SfsInode, SfsVnops, SfsMount,
      SfsErrors: kern/fs/sfs with kern/lib/uio.c, kern/dev/lamebus/lhd.c and
      kern/vfs/vnode.c. From blocks on a disk that may fail, to files as bytes, to a
      directory as a finite map, to a volume of files with link and reference counts: each
      vnode operation is shown to refine the operation on the abstract tree of names and
      files, and [sfs_sync] followed by a mount gives the same tree. The lemmas of the
      files up to SfsMount are about disks that report no error ([Reliable]); SfsErrors
      has the theorems, which are about every disk and except the calls during which the
      disk reports an error. What an error leads to is described for single blocks
      ([sfs_readblock_retries], [sfs_writeblock_lost] in SfsDisk).
    - Vnode, VfsList, VfsLookup, VfsSpec, VfsRefs, VfsNames: kern/vfs. Vnode has reference
      counts, devices and the interface to file systems; VfsList the list of devices and
      mounted volumes; VfsLookup pathnames, the current directory and the calls of
      vfspath.c. VfsSpec is a calculus of weakest preconditions for what these calls do to
      references; VfsRefs draws from it that every sequence of calls leaves each reference
      count equal to the references that are held, over every file system with [FsLaws];
      VfsNames says what names mean.
    - SemFs, SemFsSpec, SemFsSystem, SemFsNames, SemPV: kern/fs/semfs. SemFs has the
      operations; SemFsSpec proves that they fulfil [FsLaws], so that SemFsSystem runs the
      calls of vfspath.c on a concrete file system, with memory that may run out (which one
      assertion of [vfs_open] does not survive); SemFsNames says that the directory is
      a finite map of names to semaphores; in SemPV the reads, writes and truncations of
      several threads are interleaved.
    - CString: common/libc/string. Printf, PrintfSpec, PrintfFormat: common/libc/printf and
      common/libc/stdlib/atoi.c. Overlapping blocks, words of a string, numbers that are
      printed and read back, and the text that a format stands for in a buffer of any
      length; PrintfFormat gives formats a meaning of their own, with which the engine is
      compared.
    - KLib: kern/lib/bswap.c, time.c and kgets.c. Byte order, times, lines from the console.
    - Qsort, UMalloc, UMallocSpec: userland/lib/libc/stdlib. The array is sorted; the blocks of
      a program whose requests stay below 2 GB never overlap, and freeing a block twice is
      caught.
    - Shell, ShellSpec: userland/bin/sh/sh.c. The table of jobs has exactly the children that
      the shell has not waited for, over system calls as documented; and what becomes of it
      over [waitpid] as this kernel has it.
    - LongLong, QDivRem: common/gcc-millicode. Each routine equals the operation on [Z].

    ** What is not modelled

    The registers and stacks of a context switch, and interrupt priority levels; device
    drivers other than the disk, trap entry and other code that is about registers of the
    hardware; console output; the kernel menu and tests; other userland programs. Locks that bracket
    a single access are not state of the sequential models: the VFS big lock and the
    heap's spinlock make the operations below them sequential, and kmalloc is an oracle of
    outcomes above KHeap. *)

From stdpp Require Import base numbers list gmap.
From Stdlib Require Import ZArith Lia.

Open Scope Z_scope.

(** ** Fixed-width integers

    C integers are values of [Z]; the wrap-around of an operation is written
    out with [u8], [u16], [u32], [u64] (unsigned) and [s32], [s64] (two's
    complement). *)

Definition wrapu (w z : Z) : Z := z mod 2 ^ w.

Definition wraps (w z : Z) : Z := (z + 2 ^ (w - 1)) mod 2 ^ w - 2 ^ (w - 1).

Abbreviation u8 := (wrapu 8).
Abbreviation u16 := (wrapu 16).
Abbreviation u32 := (wrapu 32).
Abbreviation u64 := (wrapu 64).
Abbreviation s32 := (wraps 32).
Abbreviation s64 := (wraps 64).

(** [DIVROUNDUP] and [ROUNDUP] of kern/include/lib.h on 32-bit unsigned operands. *)
Definition DIVROUNDUP (a b : Z) : Z := u32 (a + b - 1) / b.

(** ** Error numbers, kern/include/kern/errno.h *)

Definition ENOSYS : Z := 1.
Definition ENOMEM : Z := 3.
Definition EFAULT : Z := 6.
Definition ENAMETOOLONG : Z := 7.
Definition EINVAL : Z := 8.
Definition ENPROC : Z := 12.
Definition ENOEXEC : Z := 13.
Definition E2BIG : Z := 14.
Definition ESRCH : Z := 15.
Definition ECHILD : Z := 16.
Definition ENOTDIR : Z := 17.
Definition EISDIR : Z := 18.
Definition ENOENT : Z := 19.
Definition ENOTEMPTY : Z := 21.
Definition EEXIST : Z := 22.
Definition EXDEV : Z := 24.
Definition ENODEV : Z := 25.
Definition ENXIO : Z := 26.
Definition EBUSY : Z := 27.
Definition EMFILE : Z := 28.
Definition ENFILE : Z := 29.
Definition EBADF : Z := 30.
Definition EIO : Z := 32.
Definition ESPIPE : Z := 33.
Definition ENOSPC : Z := 36.
Definition EFBIG : Z := 38.

(** ** Outcomes of kernel code

    A kernel function either returns normally ([Done]), returns a nonzero error
    number ([Fail]; the state it leaves behind is kept, because C does not roll
    back), or never returns to its caller ([Halt]): a failed [KASSERT], an
    explicit [panic], a fault on a bad pointer, or sleeping for a resource
    nobody will ever give back. *)

Inductive halt :=
| KAssert        (* KASSERT failed *)
| PanicCall      (* panic() *)
| NullDeref      (* NULL pointer dereferenced in the kernel *)
| OutOfBounds    (* array accessed outside its bounds *)
| UseAfterFree   (* memory accessed after kfree *)
| BadFree        (* kfree of an address kmalloc did not return *)
| Blocked        (* sleeps for an event that cannot come in the current state *)
| OutOfFuel.     (* the fuel of a modelled loop ran out *)

Inductive outcome (S A : Type) :=
| Done (a : A) (s : S)
| Fail (e : Z) (s : S)
| Halt (h : halt).
Arguments Done {S A} a s.
Arguments Fail {S A} e s.
Arguments Halt {S A} h.

#[global] Instance halt_eq_dec : EqDecision halt.
Proof. solve_decision. Defined.

#[global] Instance outcome_eq_dec (S A : Type) `{EqDecision S} `{EqDecision A} :
  EqDecision (outcome S A).
Proof. solve_decision. Defined.

Definition K (S A : Type) : Type := S -> outcome S A.

Definition kret {S A} (a : A) : K S A := fun s => Done a s.

Definition kfail {S A} (e : Z) : K S A := fun s => Fail e s.

Definition khalt {S A} (h : halt) : K S A := fun _ => Halt h.

Definition kbind {S A B} (m : K S A) (f : A -> K S B) : K S B :=
  fun s => match m s with
           | Done a s' => f a s'
           | Fail e s' => Fail e s'
           | Halt h => Halt h
           end.

Definition kget {S} : K S S := fun s => Done s s.

Definition kput {S} (s : S) : K S unit := fun _ => Done tt s.

Definition kmodify {S} (f : S -> S) : K S unit := fun s => Done tt (f s).

(** [KASSERT(b)] *)
Definition kassert {S} (b : bool) : K S unit := if b then kret tt else khalt KAssert.

(** [attempt m] runs [m] and hands its error number to the caller, for code that
    inspects the result instead of returning it. *)
Definition attempt {S A} (m : K S A) : K S (Z + A) :=
  fun s => match m s with
           | Done a s' => Done (inr a) s'
           | Fail e s' => Done (inl e) s'
           | Halt h => Halt h
           end.

Declare Scope k_scope.
Delimit Scope k_scope with k.

Notation "x <- m ;; f" := (kbind m (fun x => f))
  (at level 100, m at next level, right associativity) : k_scope.
Notation "m ;;; f" := (kbind m (fun _ => f))
  (at level 100, right associativity) : k_scope.

(** ** Tactics *)

(** Unfold the monad and compute. *)
Ltac kunfold :=
  unfold kbind, kret, kfail, khalt, kget, kput, kmodify, kassert, attempt in *;
  cbn beta iota in *.

(** Case on the scrutinee of the innermost [match] of the goal or a hypothesis. *)
Ltac case_goal :=
  match goal with
  | |- context [match ?x with _ => _ end] =>
      lazymatch x with
      | context [match _ with _ => _ end] => fail
      | _ => destruct x eqn:?
      end
  end.

Ltac case_hyp H :=
  match type of H with
  | context [match ?x with _ => _ end] =>
      lazymatch x with
      | context [match _ with _ => _ end] => fail
      | _ => destruct x eqn:?
      end
  end.

(** Turn boolean tests of the code into propositions. *)
Ltac bool_to_prop :=
  repeat match goal with
  | H : (_ && _)%bool = true |- _ => apply andb_prop in H; destruct H
  | H : (_ || _)%bool = false |- _ => apply orb_false_elim in H; destruct H
  | H : negb _ = true |- _ => apply negb_true_iff in H
  | H : negb _ = false |- _ => apply negb_false_iff in H
  | H : (_ =? _) = true |- _ => apply Z.eqb_eq in H
  | H : (_ =? _) = false |- _ => apply Z.eqb_neq in H
  | H : (_ <? _) = true |- _ => apply Z.ltb_lt in H
  | H : (_ <? _) = false |- _ => apply Z.ltb_ge in H
  | H : (_ <=? _) = true |- _ => apply Z.leb_le in H
  | H : (_ <=? _) = false |- _ => apply Z.leb_gt in H
  end.

Lemma kbind_done {S A B} (m : K S A) (f : A -> K S B) s a s' : m s = Done a s' -> kbind m f s = f a s'.
Proof. intros E. unfold kbind. by rewrite E. Qed.

(** ** Lemmas on fixed-width integers *)

Lemma wrapu_range w z : 0 <= w -> 0 <= wrapu w z < 2 ^ w.
Proof. intros. apply Z.mod_pos_bound. lia. Qed.

Lemma wrapu_small w z : 0 <= z < 2 ^ w -> wrapu w z = z.
Proof. apply Z.mod_small. Qed.

Lemma wraps_small w z :
  0 < w -> - 2 ^ (w - 1) <= z < 2 ^ (w - 1) -> wraps w z = z.
Proof.
  intros Hw Hz. unfold wraps.
  assert (2 ^ w = 2 * 2 ^ (w - 1)) by (rewrite <- Z.pow_succ_r by lia; f_equal; lia).
  rewrite Z.mod_small; lia.
Qed.

Lemma wraps_range w z : 0 < w -> - 2 ^ (w - 1) <= wraps w z < 2 ^ (w - 1).
Proof.
  intros Hw. unfold wraps.
  assert (2 ^ w = 2 * 2 ^ (w - 1)) by (rewrite <- Z.pow_succ_r by lia; f_equal; lia).
  pose proof (Z.mod_pos_bound (z + 2 ^ (w - 1)) (2 ^ w)). lia.
Qed.

(** A word put together from a high part and low bits. *)
Lemma lor_disjoint a b n : 0 <= n -> 0 <= b < 2 ^ n -> Z.lor (a * 2 ^ n) b = a * 2 ^ n + b.
Proof.
  intros Hn Hb. symmetry. apply Z.add_nocarry_lor. apply Z.bits_inj'. intros i Hi.
  rewrite Z.land_spec, Z.bits_0. destruct (Z.lt_ge_cases i n).
  - by rewrite Z.mul_pow2_bits_low.
  - rewrite <- (Z.mod_small b (2 ^ n)) by lia. rewrite Z.mod_pow2_bits_high by lia. apply andb_false_r.
Qed.

Lemma DIVROUNDUP_spec a b :
  0 < b -> 0 <= a -> a + b - 1 < 2 ^ 32 ->
  a <= b * DIVROUNDUP a b < a + b.
Proof.
  intros. unfold DIVROUNDUP. rewrite wrapu_small by lia.
  pose proof (Z.div_mod (a + b - 1) b). pose proof (Z.mod_pos_bound (a + b - 1) b). lia.
Qed.

(** ** Lemmas on lists indexed by [Z] *)

Lemma list_insert_total_lookup {A} `{Inhabited A} (l : list A) i j x :
  (i < length l)%nat ->
  <[i := x]> l !!! j = if decide (i = j) then x else l !!! j.
Proof.
  intros Hi. rewrite !list_lookup_total_alt. case_decide; subst.
  - by rewrite list_lookup_insert_eq.
  - by rewrite list_lookup_insert_ne.
Qed.

Lemma Forall_insert_total {A} (P : A -> Prop) (l : list A) i x :
  Forall P l -> P x -> Forall P (<[i := x]> l).
Proof. intros. by apply Forall_insert. Qed.

Lemma list_to_map_is_Some `{Countable A} {B} (l : list (A * B)) k x :
  (k, x) ∈ l -> is_Some ((list_to_map l : gmap A B) !! k).
Proof.
  induction l as [|[k' x'] l IH]; intros Hin; [by apply not_elem_of_nil in Hin|].
  cbn. apply lookup_insert_is_Some'. apply elem_of_cons in Hin as [E|Hin]; [left; congruence|right; auto].
Qed.

Create HintDb os161.
#[export] Hint Resolve wrapu_range wraps_range Forall_insert_total : os161.
