(* ===== verification/Bitmap.v ===== *)
(** * Fixed-size bitmaps, kern/lib/bitmap.c

    The bitmap is the state of the free-block map of SFS. The data is the
    array [v] of bytes the C code keeps; [bit] reads one bit of it and [wf] is
    the representation invariant [bitmap_create] establishes. *)

From stdpp Require Import base numbers list.
From Stdlib Require Import ZArith Lia.
From S2P Require Import Prelude.

Open Scope Z_scope.
Open Scope k_scope.

Definition BITS_PER_WORD : Z := 8.
Definition WORD_ALLBITS : Z := 255.

(** kern/lib/bitmap.c:50-53 (struct bitmap). *)
Record bitmap := mkbitmap { nbits : Z; v : list Z }.

(** The mask [((WORD_TYPE)1) << offset]. *)
Definition bmask (offset : Z) : Z := u8 (Z.shiftl 1 offset).

(** kern/lib/bitmap.c:84-86 (bitmap_create): the loop that marks the leftover
    bits of the last word, [n] iterations from [j]. *)
Fixpoint mark_leftover (n : nat) (j w : Z) : Z :=
  match n with
  | O => w
  | S n' => mark_leftover n' (j + 1) (Z.lor w (bmask j))
  end.

(** kern/lib/bitmap.c:56-90 (bitmap_create). [ok1] and [ok2] say whether the
    two [kmalloc] calls return memory. *)
Definition bitmap_create (ok1 ok2 : bool) (n : Z) : outcome unit (option bitmap) :=
  let words := DIVROUNDUP n BITS_PER_WORD in
  if negb ok1 then Done None tt else
  if negb ok2 then Done None tt else
  let v0 := replicate (Z.to_nat words) 0 in
  if n / BITS_PER_WORD <? words then
    let ix := words - 1 in
    let overbits := u32 (n - ix * BITS_PER_WORD) in
    if negb (n / BITS_PER_WORD =? words - 1) then Halt KAssert else
    if negb ((0 <? overbits) && (overbits <? BITS_PER_WORD)) then Halt KAssert else
    let w := mark_leftover (Z.to_nat (BITS_PER_WORD - overbits)) overbits
                           (v0 !!! Z.to_nat ix) in
    Done (Some (mkbitmap n (<[Z.to_nat ix := w]> v0))) tt
  else Done (Some (mkbitmap n v0)) tt.

(** kern/lib/bitmap.c:92-96 (bitmap_getdata). *)
Definition bitmap_getdata (b : bitmap) : list Z := v b.

(** kern/lib/bitmap.c:107-116 (bitmap_alloc): the inner loop, which looks for
    the first clear bit of word [w] from [offset]; [None] is falling out of it. *)
Fixpoint alloc_offset (n : nat) (w offset : Z) : option Z :=
  match n with
  | O => None
  | S n' => if Z.land w (bmask offset) =? 0 then Some offset
            else alloc_offset n' w (offset + 1)
  end.

(** kern/lib/bitmap.c:105-120 (bitmap_alloc): the outer loop over the words. *)
Fixpoint alloc_word (n : nat) (ix : Z) : K bitmap Z :=
  match n with
  | O => kfail ENOSPC
  | S n' =>
      b <- kget ;;
      let w := v b !!! Z.to_nat ix in
      if negb (w =? WORD_ALLBITS) then
        match alloc_offset 8 w 0 with
        | Some offset =>
            kput (mkbitmap (nbits b) (<[Z.to_nat ix := Z.lor w (bmask offset)]> (v b))) ;;;
            (let index := u32 (ix * BITS_PER_WORD + offset) in
             kassert (index <? nbits b) ;;;
             kret index)
        | None => khalt KAssert
        end
      else alloc_word n' (ix + 1)
  end.

(** kern/lib/bitmap.c:98-121 (bitmap_alloc). *)
Definition bitmap_alloc : K bitmap Z :=
  fun b => alloc_word (Z.to_nat (DIVROUNDUP (nbits b) BITS_PER_WORD)) 0 b.

(** kern/lib/bitmap.c:123-132 (bitmap_translate). *)
Definition bitmap_translate (bitno : Z) : Z * Z :=
  (bitno / BITS_PER_WORD, bmask (bitno mod BITS_PER_WORD)).

(** kern/lib/bitmap.c:134-145 (bitmap_mark). *)
Definition bitmap_mark (index : Z) : K bitmap unit :=
  b <- kget ;;
  kassert (index <? nbits b) ;;;
  (let '(ix, mask) := bitmap_translate index in
   kassert (Z.land (v b !!! Z.to_nat ix) mask =? 0) ;;;
   kput (mkbitmap (nbits b)
           (<[Z.to_nat ix := Z.lor (v b !!! Z.to_nat ix) mask]> (v b)))).

(** kern/lib/bitmap.c:147-158 (bitmap_unmark). *)
Definition bitmap_unmark (index : Z) : K bitmap unit :=
  b <- kget ;;
  kassert (index <? nbits b) ;;;
  (let '(ix, mask) := bitmap_translate index in
   kassert (negb (Z.land (v b !!! Z.to_nat ix) mask =? 0)) ;;;
   kput (mkbitmap (nbits b)
           (<[Z.to_nat ix := u8 (Z.land (v b !!! Z.to_nat ix) (Z.lnot mask))]> (v b)))).

(** kern/lib/bitmap.c:161-169 (bitmap_isset). *)
Definition bitmap_isset (b : bitmap) (index : Z) : Z :=
  let '(ix, mask) := bitmap_translate index in
  Z.land (v b !!! Z.to_nat ix) mask.

(** ** Specification *)

(** Bit [i] of the map. *)
Definition bit (b : bitmap) (i : Z) : bool :=
  Z.testbit (v b !!! Z.to_nat (i / 8)) (i mod 8).

(** The representation invariant: the size is a size [bitmap_create] computes
    with no overflow, the array has exactly the words needed, each a byte, and
    the bits after the last one are set. *)
Definition wf (b : bitmap) : Prop :=
  0 <= nbits b < 2 ^ 32 - 7 /\
  Z.of_nat (length (v b)) = DIVROUNDUP (nbits b) 8 /\
  Forall (fun w => 0 <= w < 256) (v b) /\
  (forall i, nbits b <= i < 8 * Z.of_nat (length (v b)) -> bit b i = true).

(** ** Lemmas *)

Lemma bmask_pow o : 0 <= o < 8 -> bmask o = 2 ^ o.
Proof.
  intros. unfold bmask. rewrite Z.shiftl_1_l. apply wrapu_small.
  split; [lia |]. apply Z.pow_lt_mono_r; lia.
Qed.

Lemma land_pow2 w o : 0 <= o -> Z.land w (2 ^ o) = if Z.testbit w o then 2 ^ o else 0.
Proof.
  intros Ho. apply Z.bits_inj'. intros n Hn.
  rewrite Z.land_spec, Z.pow2_bits_eqb by lia.
  destruct (Z.eqb_spec o n) as [->|Hne].
  - destruct (Z.testbit w n); [by rewrite Z.pow2_bits_true by lia | by rewrite Z.bits_0].
  - rewrite andb_false_r. destruct (Z.testbit w o);
      [by rewrite Z.pow2_bits_false by lia | by rewrite Z.bits_0].
Qed.

Lemma land_bmask_0 w o : 0 <= o < 8 -> (Z.land w (bmask o) =? 0) = negb (Z.testbit w o).
Proof.
  intros Ho. rewrite bmask_pow, land_pow2 by lia.
  destruct (Z.testbit w o); [|done].
  apply Z.eqb_neq. pose proof (Z.pow_pos_nonneg 2 o). lia.
Qed.

Lemma byte_iff w : 0 <= w < 256 <-> 0 <= w /\ (forall n, 8 <= n -> Z.testbit w n = false).
Proof.
  split.
  - intros Hw. split; [lia|]. intros n Hn.
    destruct (Z.eq_dec w 0) as [->|Hz]; [apply Z.bits_0|].
    apply Z.bits_above_log2; [lia|].
    assert (Z.log2 w < 8) by (apply Z.log2_lt_pow2; lia). lia.
  - intros [H0 Hb]. split; [done|].
    destruct (Z.eq_dec w 0) as [->|Hz]; [lia|].
    change 256 with (2 ^ 8). apply Z.log2_lt_pow2; [lia|].
    destruct (Z.lt_ge_cases (Z.log2 w) 8) as [|Hge]; [done|].
    specialize (Hb _ Hge). rewrite Z.bit_log2 in Hb by lia. done.
Qed.

Lemma byte_lor w o : 0 <= w < 256 -> 0 <= o < 8 -> 0 <= Z.lor w (bmask o) < 256.
Proof.
  rewrite !byte_iff. intros [H0 Hb] Ho. rewrite bmask_pow by lia.
  split; [apply Z.lor_nonneg; lia|].
  intros n Hn. rewrite Z.lor_spec, Hb, Z.pow2_bits_false by lia. done.
Qed.

Lemma byte_ldiff w m : 0 <= w < 256 -> 0 <= Z.land w (Z.lnot m) < 256.
Proof.
  rewrite !byte_iff. intros [H0 Hb].
  split; [apply Z.land_nonneg; lia|].
  intros n Hn. by rewrite Z.land_spec, Hb.
Qed.

Lemma byte_allbits w :
  0 <= w < 256 -> w <> WORD_ALLBITS -> exists o, 0 <= o < 8 /\ Z.testbit w o = false.
Proof.
  intros Hw Hne.
  destruct (decide (Forall (fun o => Z.testbit w o = true) (seqZ 0 8))) as [Hall|Hn].
  - destruct Hne. apply Z.bits_inj'. intros n Hn. change WORD_ALLBITS with (Z.ones 8).
    destruct (Z.lt_ge_cases n 8).
    + rewrite Z.ones_spec_low by lia. rewrite Forall_forall in Hall.
      apply Hall. apply elem_of_seqZ. lia.
    + rewrite Z.ones_spec_high by lia. by apply byte_iff.
  - apply not_Forall_Exists in Hn; [|apply _].
    apply Exists_exists in Hn as (o & Ho & Hb). apply elem_of_seqZ in Ho.
    exists o. split; [lia|]. by apply not_true_is_false.
Qed.

Lemma allbits_set o : 0 <= o < 8 -> Z.testbit WORD_ALLBITS o = true.
Proof. intros. change WORD_ALLBITS with (Z.ones 8). by apply Z.ones_spec_low. Qed.

(** The effect of setting or clearing the bits of one word. *)
Lemma bit_insert b ix w i :
  0 <= i -> (Z.to_nat ix < length (v b))%nat -> 0 <= ix ->
  bit (mkbitmap (nbits b) (<[Z.to_nat ix := w]> (v b))) i =
  if decide (i / 8 = ix) then Z.testbit w (i mod 8) else bit b i.
Proof.
  intros Hi Hl Hix. unfold bit. cbn.
  rewrite list_insert_total_lookup by done.
  assert (0 <= i / 8) by (apply Z.div_pos; lia).
  repeat case_decide; try done; lia.
Qed.

Lemma wf_length b : wf b -> nbits b <= 8 * Z.of_nat (length (v b)) < nbits b + 8.
Proof.
  intros (Hn & Hl & _). rewrite Hl. apply DIVROUNDUP_spec; lia.
Qed.

Lemma wf_index b i : wf b -> 0 <= i < nbits b -> (Z.to_nat (i / 8) < length (v b))%nat.
Proof.
  intros Hwf Hi. pose proof (wf_length b Hwf).
  assert (0 <= i / 8) by (apply Z.div_pos; lia).
  assert (i / 8 < Z.of_nat (length (v b))) by (apply Z.div_lt_upper_bound; lia). lia.
Qed.

Lemma wf_byte b i : wf b -> 0 <= v b !!! i < 256.
Proof.
  intros (_ & _ & Hb & _). rewrite list_lookup_total_alt.
  destruct (v b !! i) eqn:E; cbn; [|lia]. by eapply Forall_lookup_1 in Hb.
Qed.

(** Replacing one word by a byte that keeps the leftover bits set keeps [wf]. *)
Lemma wf_insert b ix w :
  wf b -> 0 <= ix -> (Z.to_nat ix < length (v b))%nat -> 0 <= w < 256 ->
  (forall o, 0 <= o < 8 -> nbits b <= 8 * ix + o -> Z.testbit w o = true) ->
  wf (mkbitmap (nbits b) (<[Z.to_nat ix := w]> (v b))).
Proof.
  intros (Hn & Hl & Hb & Hleft) Hix Hlt Hw Hover.
  repeat split; cbn; try rewrite length_insert; auto with os161; try lia.
  intros i Hi. rewrite bit_insert by lia. case_decide; [|by apply Hleft].
  apply Hover; [apply Z.mod_pos_bound; lia|].
  pose proof (Z.div_mod i 8). lia.
Qed.

Lemma bit_split b ix o : 0 <= o < 8 -> bit b (8 * ix + o) = Z.testbit (v b !!! Z.to_nat ix) o.
Proof.
  intros Ho. unfold bit. rewrite (Z.mul_comm 8), Z.div_add_l, Z.div_small, Z.add_0_r by lia.
  by rewrite Z.add_comm, Z.mod_add, Z.mod_small by lia.
Qed.

Lemma wf_leftover b ix o :
  wf b -> 0 <= o < 8 -> (Z.to_nat ix < length (v b))%nat -> nbits b <= 8 * ix + o ->
  Z.testbit (v b !!! Z.to_nat ix) o = true.
Proof. intros (_ & _ & _ & Hleft) ???. rewrite <- bit_split by lia. apply Hleft. lia. Qed.

Lemma isset_bit b i : bitmap_isset b i <> 0 <-> bit b i = true.
Proof.
  unfold bitmap_isset, bitmap_translate, bit, BITS_PER_WORD.
  rewrite <- Z.eqb_neq, land_bmask_0 by (apply Z.mod_pos_bound; lia).
  by destruct (Z.testbit _ _).
Qed.

(** [alloc_offset] finds the first clear bit. *)
Lemma alloc_offset_spec n w o :
  0 <= o -> o + Z.of_nat n <= 8 ->
  match alloc_offset n w o with
  | Some o' => o <= o' < o + Z.of_nat n /\ Z.testbit w o' = false /\
               forall k, o <= k < o' -> Z.testbit w k = true
  | None => forall k, o <= k < o + Z.of_nat n -> Z.testbit w k = true
  end.
Proof.
  revert o. induction n as [|n IH]; intros o Ho Hle; cbn [alloc_offset]; [lia|].
  rewrite land_bmask_0 by lia. destruct (Z.testbit w o) eqn:Eo; cbn [negb].
  - specialize (IH (o + 1)). destruct (alloc_offset n w (o + 1)).
    + destruct IH as (Hr & Hc & Hall); [lia..|]. repeat split; [lia..|done|].
      intros k Hk. destruct (Z.eq_dec k o) as [->|]; [done|apply Hall; lia].
    + intros k Hk. destruct (Z.eq_dec k o) as [->|]; [done|apply IH; lia].
  - repeat split; [lia..|done|]. lia.
Qed.

(** What allocating from word [ix] on does, when every earlier bit is set. *)
Lemma alloc_word_spec n ix b :
  wf b -> 0 <= ix -> ix + Z.of_nat n = Z.of_nat (length (v b)) ->
  (forall k, 0 <= k < 8 * ix -> bit b k = true) ->
  match alloc_word n ix b with
  | Done i b' =>
      0 <= i < nbits b /\ bit b i = false /\ (forall k, 0 <= k < i -> bit b k = true) /\
      wf b' /\ nbits b' = nbits b /\
      (forall j, 0 <= j -> bit b' j = if decide (j = i) then true else bit b j)
  | Fail e b' => e = ENOSPC /\ b' = b /\ forall k, 0 <= k < nbits b -> bit b k = true
  | Halt _ => False
  end.
Proof.
  intros Hwf. revert ix. induction n as [|n IH]; intros ix Hix Hlen Hset; cbn [alloc_word]; kunfold.
  { repeat split. intros k Hk. apply Hset. pose proof (wf_length b Hwf). lia. }
  pose proof (wf_byte b (Z.to_nat ix) Hwf) as Hbyte.
  set (w := v b !!! Z.to_nat ix) in *.
  pose proof (fun o => bit_split b ix o) as Hbit. fold w in Hbit.
  destruct (Z.eqb_spec w WORD_ALLBITS) as [Hall|Hne]; cbn [negb].
  - apply IH; [lia..|]. intros k Hk. destruct (Z.lt_ge_cases k (8 * ix)); [apply Hset; lia|].
    replace k with (8 * ix + (k - 8 * ix)) by lia. rewrite Hbit, Hall by lia. apply allbits_set. lia.
  - pose proof (alloc_offset_spec 8 w 0 ltac:(lia) ltac:(lia)) as Ho.
    destruct (alloc_offset 8 w 0) as [o|].
    2: { destruct (byte_allbits w) as (o & Hlt & Hf); [done..|]. rewrite Ho in Hf by lia. done. }
    destruct Ho as (Hlt & Hclr & Hfirst). unfold BITS_PER_WORD in *.
    assert (Hin : 8 * ix + o < nbits b).
    { destruct (Z.lt_ge_cases (8 * ix + o) (nbits b)); [done|].
      destruct Hwf as (_ & _ & _ & Hleft). rewrite <- Hbit, Hleft in Hclr by lia. done. }
    pose proof Hwf as ((Hn0 & Hn1) & _).
    rewrite wrapu_small by lia.
    destruct (Z.ltb_spec (ix * 8 + o) (nbits b)); [|lia]. cbn.
    split_and!; try lia.
    + by replace (ix * 8 + o) with (8 * ix + o) by lia; rewrite Hbit.
    + intros k Hk. destruct (Z.lt_ge_cases k (8 * ix)); [apply Hset; lia|].
      replace k with (8 * ix + (k - 8 * ix)) by lia. rewrite Hbit by lia. apply Hfirst. lia.
    + apply wf_insert; auto using byte_lor; [lia|].
      intros o' Ho' Hge. rewrite Z.lor_spec. apply orb_true_iff. left. rewrite <- Hbit by lia.
      destruct Hwf as (_ & _ & _ & Hleft). apply Hleft. lia.
    + intros j Hj. rewrite bit_insert by lia.
      pose proof (Z.div_mod j 8 ltac:(lia)). pose proof (Z.mod_pos_bound j 8 ltac:(lia)).
      destruct (decide (j / 8 = ix)) as [Hq|Hq].
      * assert (bit b j = Z.testbit w (j mod 8)) as -> by (rewrite <- Hbit by lia; f_equal; lia).
        rewrite Z.lor_spec, bmask_pow, Z.pow2_bits_eqb by lia.
        destruct (Z.eqb_spec o (j mod 8)), (decide (j = ix * 8 + o)); try lia;
          by rewrite ?orb_true_r, ?orb_false_r.
      * destruct (decide (j = ix * 8 + o)); [|done]. subst j.
        rewrite Z.div_add_l, Z.div_small in Hq by lia. lia.
Qed.

Lemma mark_leftover_spec n j w :
  0 <= j -> j + Z.of_nat n <= 8 -> 0 <= w < 256 ->
  0 <= mark_leftover n j w < 256 /\
  (forall o, 0 <= o < 8 ->
     Z.testbit (mark_leftover n j w) o =
     if decide (j <= o < j + Z.of_nat n) then true else Z.testbit w o).
Proof.
  revert j w. induction n as [|n IH]; intros j w Hj Hle Hw; cbn [mark_leftover].
  { split; [done|]. intros. case_decide; [lia|done]. }
  destruct (IH (j + 1) (Z.lor w (bmask j))) as [Hb Ht]; [lia..|by apply byte_lor; lia|].
  split; [done|]. intros o Ho. rewrite Ht by done.
  rewrite Z.lor_spec, bmask_pow, Z.pow2_bits_eqb by lia.
  destruct (Z.eqb_spec j o); repeat case_decide; try lia; auto using orb_true_r, orb_false_r.
Qed.

Lemma bit_zeros n nb i :
  0 <= i < 8 * Z.of_nat n -> bit (mkbitmap nb (replicate n 0)) i = false.
Proof.
  intros Hi. unfold bit. cbn. assert (i / 8 < Z.of_nat n) by (apply Z.div_lt_upper_bound; lia).
  rewrite lookup_total_replicate_2 by lia. apply Z.bits_0.
Qed.

(** ** Properties *)

(** When its two allocations succeed, [bitmap_create] returns (none of its
    assertions fails) a well-formed map of the requested size with every bit
    clear. *)
Lemma bitmap_create_spec n :
  0 <= n < 2 ^ 32 - 7 ->
  exists b, bitmap_create true true n = Done (Some b) tt /\
            wf b /\ nbits b = n /\ (forall i, 0 <= i < n -> bit b i = false).
Proof.
  intros Hn. unfold bitmap_create, BITS_PER_WORD. cbn [negb].
  pose proof (DIVROUNDUP_spec n 8) as Hd. set (w := DIVROUNDUP n 8) in *.
  pose proof (Z.div_mod n 8 ltac:(lia)). pose proof (Z.mod_pos_bound n 8 ltac:(lia)).
  destruct (Z.ltb_spec (n / 8) w) as [Hlt|Hge].
  - rewrite (proj2 (Z.eqb_eq _ _)) by lia. cbn [negb].
    rewrite wrapu_small by lia.
    destruct (Z.ltb_spec 0 (n - (w - 1) * 8)), (Z.ltb_spec (n - (w - 1) * 8) 8); try lia.
    cbn [negb andb]. eexists. split; [done|].
    rewrite (lookup_total_replicate_2) by lia.
    edestruct (mark_leftover_spec (Z.to_nat (8 - (n - (w - 1) * 8))) (n - (w - 1) * 8) 0)
      as [Hb Ht]; [lia..|].
    assert (Hbit : forall i, 0 <= i < 8 * w ->
      bit (mkbitmap n (<[Z.to_nat (w - 1) := mark_leftover (Z.to_nat (8 - (n - (w - 1) * 8)))
             (n - (w - 1) * 8) 0]> (replicate (Z.to_nat w) 0))) i = bool_decide (n <= i)).
    { intros i Hi.
      pose proof (Z.div_mod i 8 ltac:(lia)). pose proof (Z.mod_pos_bound i 8 ltac:(lia)).
      rewrite (bit_insert (mkbitmap n (replicate (Z.to_nat w) 0)))
        by (cbn; rewrite ?length_replicate; lia).
      case_decide.
      - rewrite Ht by lia. rewrite Z.bits_0. case_decide; case_bool_decide; lia || done.
      - rewrite bit_zeros by lia. symmetry. apply bool_decide_eq_false. lia. }
    repeat split; cbn; rewrite ?length_insert, ?length_replicate; try lia.
    + apply Forall_insert; [|done]. apply Forall_replicate. lia.
    + intros i Hi. rewrite Hbit by lia. apply bool_decide_eq_true. lia.
    + intros i Hi. rewrite Hbit by lia. apply bool_decide_eq_false. lia.
  - eexists. split; [done|]. repeat split; cbn; rewrite ?length_replicate; try lia.
    + apply Forall_replicate. lia.
    + intros. apply bit_zeros. lia.
Qed.

(** On a well-formed map [bitmap_alloc] never trips an assertion: it hands
    out the least clear index and sets exactly that bit, or, exactly when every
    bit is set, fails with ENOSPC leaving the map alone. The invariant is kept. *)
Lemma bitmap_alloc_spec b :
  wf b ->
  match bitmap_alloc b with
  | Done i b' =>
      0 <= i < nbits b /\ bit b i = false /\ (forall k, 0 <= k < i -> bit b k = true) /\
      wf b' /\ nbits b' = nbits b /\
      (forall j, 0 <= j -> bit b' j = if decide (j = i) then true else bit b j)
  | Fail e b' => e = ENOSPC /\ b' = b /\ forall k, 0 <= k < nbits b -> bit b k = true
  | Halt _ => False
  end.
Proof.
  intros Hwf. unfold bitmap_alloc. apply alloc_word_spec; [done|lia| |lia].
  pose proof Hwf as (_ & -> & _). unfold BITS_PER_WORD.
  pose proof (DIVROUNDUP_spec (nbits b) 8). destruct Hwf. lia.
Qed.

(** [bitmap_unmark] of a set bit clears exactly that bit. *)
Lemma bitmap_unmark_spec b i :
  wf b -> 0 <= i < nbits b -> bit b i = true ->
  exists b', bitmap_unmark i b = Done tt b' /\ wf b' /\ nbits b' = nbits b /\
    forall j, 0 <= j -> bit b' j = if decide (j = i) then false else bit b j.
Proof.
  intros Hwf Hi Hbit. unfold bitmap_unmark, bitmap_translate, BITS_PER_WORD. kunfold.
  pose proof (Z.div_mod i 8 ltac:(lia)) as Hdm. pose proof (Z.mod_pos_bound i 8 ltac:(lia)) as Hm.
  pose proof (wf_index b i Hwf Hi) as Hlt. pose proof (Z.div_pos i 8 ltac:(lia) ltac:(lia)).
  rewrite (proj2 (Z.ltb_lt _ _)) by lia.
  rewrite land_bmask_0 by lia. unfold bit in Hbit. rewrite Hbit. cbn.
  pose proof (wf_byte b (Z.to_nat (i / 8)) Hwf) as Hb.
  rewrite wrapu_small by (apply (byte_ldiff _ (bmask (i mod 8))) in Hb; lia).
  assert (Hbits : forall o, 0 <= o < 8 ->
    Z.testbit (Z.land (v b !!! Z.to_nat (i / 8)) (Z.lnot (bmask (i mod 8)))) o =
    if decide (o = i mod 8) then false else Z.testbit (v b !!! Z.to_nat (i / 8)) o).
  { intros o Ho. rewrite Z.land_spec, Z.lnot_spec, bmask_pow, Z.pow2_bits_eqb by lia.
    destruct (Z.eqb_spec (i mod 8) o); case_decide; try lia;
      by rewrite ?andb_false_r, ?andb_true_r. }
  eexists. split; [done|]. split; [|split; [done|]].
  - apply wf_insert; auto using byte_ldiff. intros o Ho Hge. rewrite Hbits by done.
    case_decide; [lia|]. apply wf_leftover; lia || done.
  - intros j Hj. rewrite bit_insert by lia.
    pose proof (Z.div_mod j 8 ltac:(lia)). pose proof (Z.mod_pos_bound j 8 ltac:(lia)).
    unfold bit. destruct (decide (j / 8 = i / 8)) as [Hq|].
    + rewrite Hq, Hbits by lia. repeat case_decide; subst; lia || done.
    + case_decide; [subst; lia|done].
Qed.

(** [bitmap_mark] of a clear bit sets exactly that bit. *)
Lemma bitmap_mark_spec b i :
  wf b -> 0 <= i < nbits b -> bit b i = false ->
  exists b', bitmap_mark i b = Done tt b' /\ wf b' /\ nbits b' = nbits b /\
    forall j, 0 <= j -> bit b' j = if decide (j = i) then true else bit b j.
Proof.
  intros Hwf Hi Hbit. unfold bitmap_mark, bitmap_translate, BITS_PER_WORD. kunfold.
  pose proof (Z.div_mod i 8 ltac:(lia)) as Hdm. pose proof (Z.mod_pos_bound i 8 ltac:(lia)) as Hm.
  pose proof (wf_index b i Hwf Hi) as Hlt. pose proof (Z.div_pos i 8 ltac:(lia) ltac:(lia)).
  rewrite (proj2 (Z.ltb_lt _ _)) by lia.
  rewrite land_bmask_0 by lia. unfold bit in Hbit. rewrite Hbit. cbn.
  pose proof (wf_byte b (Z.to_nat (i / 8)) Hwf) as Hb.
  eexists. split; [done|]. split; [|split; [done|]].
  - apply wf_insert; auto using byte_lor. intros o Ho Hge.
    rewrite Z.lor_spec. apply orb_true_iff. left. apply wf_leftover; lia || done.
  - intros j Hj. rewrite bit_insert by lia.
    pose proof (Z.div_mod j 8 ltac:(lia)). pose proof (Z.mod_pos_bound j 8 ltac:(lia)).
    unfold bit. destruct (decide (j / 8 = i / 8)) as [Hq|].
    + rewrite Hq, Z.lor_spec, bmask_pow, Z.pow2_bits_eqb by lia.
      destruct (Z.eqb_spec (i mod 8) (j mod 8)); case_decide; subst; try lia;
        by rewrite ?orb_true_r, ?orb_false_r.
    + case_decide; [subst; lia|done].
Qed.

(** A map of ten bits, two of them set. *)
Definition demo_map : bitmap := mkbitmap 10 [3; 252].

Lemma bitmap_alloc_demo :
  bitmap_alloc demo_map = Done 2 (mkbitmap 10 [7; 252]) /\
  match bitmap_alloc demo_map with
  | Done i b' =>
      0 <= i < nbits demo_map /\ bit demo_map i = false /\ (forall k, 0 <= k < i -> bit demo_map k = true) /\
      wf b' /\ nbits b' = nbits demo_map /\
      (forall j, 0 <= j -> bit b' j = if decide (j = i) then true else bit demo_map j)
  | Fail e b' => e = ENOSPC /\ b' = demo_map /\ forall k, 0 <= k < nbits demo_map -> bit demo_map k = true
  | Halt _ => False
  end.
Proof.
  split; [reflexivity|]. apply (bitmap_alloc_spec demo_map).
  split_and!; [cbn; lia|cbn; lia|reflexivity|repeat constructor; lia|].
  intros i Hi. cbn in Hi. assert (i = 10 \/ i = 11 \/ i = 12 \/ i = 13 \/ i = 14 \/ i = 15) as Hc by lia.
  repeat destruct Hc as [->|Hc]; try subst i; reflexivity.
Defined.
