(* ===== verification/UserCopy.v ===== *)
(** * User/kernel memory copying, kern/vm/copyinout.c

    [mem] is the machine's virtual memory as the running kernel sees it: an
    address maps to a byte when it can be accessed, and to nothing when touching
    it faults. It covers user space (below [USERSPACETOP]) and the kernel's own
    memory above, because the protection the code gives is that user-supplied
    addresses never reach the latter.

    A fault during a copy takes the [tm_badfaultfunc]/[longjmp] path and makes
    the function return EFAULT; the bytes already stored stay stored. *)

From stdpp Require Import base numbers list gmap.
From Stdlib Require Import ZArith Lia.
From S2P Require Import Prelude.

Open Scope Z_scope.

Abbreviation mem := (gmap Z Z).

Definition USERSPACETOP : Z := 2147483648.

(** kern/vm/copyinout.c:116-143 (copycheck): the error number, or [stoplen]. *)
Definition copycheck (userptr len : Z) : Z + Z :=
  let bot := userptr in
  let top := u32 (bot + len - 1) in
  if top <? bot then inl EFAULT else
  if USERSPACETOP <=? bot then inl EFAULT else
  if USERSPACETOP <=? top then inr (USERSPACETOP - bot) else inr len.

(** The loads of a [memcpy] of [n] bytes from address [a]; [None] is a fault. *)
Fixpoint load_bytes (m : mem) (a : Z) (n : nat) : option (list Z) :=
  match n with
  | O => Some []
  | S n' =>
      match m !! a with
      | None => None
      | Some c =>
          match load_bytes m (a + 1) n' with
          | None => None
          | Some l => Some (c :: l)
          end
      end
  end.

(** The stores of a [memcpy] to address [a]. The boolean says whether it went
    through; a fault leaves the bytes stored so far. *)
Fixpoint store_bytes (m : mem) (a : Z) (l : list Z) : bool * mem :=
  match l with
  | [] => (true, m)
  | c :: l' =>
      match m !! a with
      | None => (false, m)
      | Some _ => store_bytes (<[a := c]> m) (a + 1) l'
      end
  end.

(** kern/vm/copyinout.c:152-179 (copyin): the error number, or the bytes put
    into [dest]. *)
Definition copyin (m : mem) (usersrc len : Z) : Z + list Z :=
  match copycheck usersrc len with
  | inl e => inl e
  | inr stoplen =>
      if negb (stoplen =? len) then inl EFAULT else
      match load_bytes m usersrc (Z.to_nat len) with
      | None => inl EFAULT
      | Some l => inr l
      end
  end.

(** kern/vm/copyinout.c:188-215 (copyout). [src] is the whole block, so [len] is
    its length. *)
Definition copyout (m : mem) (src : list Z) (userdest : Z) : Z * mem :=
  let len := Z.of_nat (length src) in
  match copycheck userdest len with
  | inl e => (e, m)
  | inr stoplen =>
      if negb (stoplen =? len) then (EFAULT, m) else
      let '(ok, m') := store_bytes m userdest src in
      ((if ok then 0 else EFAULT), m')
  end.

(** kern/vm/copyinout.c:240-254 (copystr): the loop and what follows it. [rd i]
    loads [src[i]], [wr i c] stores [dest[i] = c]; either may fault. Returns the
    error number or [gotlen], and the memory written. *)
Fixpoint copystr_loop {D : Type} (rd : Z -> option Z) (wr : Z -> Z -> D -> option D)
    (n : nat) (i maxlen stoplen : Z) (d : D) : (Z + Z) * D :=
  match n with
  | O => (inl (if stoplen <? maxlen then EFAULT else ENAMETOOLONG), d)
  | S n' =>
      match rd i with
      | None => (inl EFAULT, d)
      | Some c =>
          match wr i c d with
          | None => (inl EFAULT, d)
          | Some d' =>
              if c =? 0 then (inr (i + 1), d')
              else copystr_loop rd wr n' (i + 1) maxlen stoplen d'
          end
      end
  end.

(** kern/vm/copyinout.c:233-255 (copystr). *)
Definition copystr {D : Type} (rd : Z -> option Z) (wr : Z -> Z -> D -> option D)
    (maxlen stoplen : Z) (d : D) : (Z + Z) * D :=
  copystr_loop rd wr (Z.to_nat (Z.min maxlen stoplen)) 0 maxlen stoplen d.

(** kern/vm/copyinout.c:265-288 (copyinstr): the error number or [actual], and
    the bytes stored into [dest]. *)
Definition copyinstr (m : mem) (usersrc len : Z) : (Z + Z) * list Z :=
  match copycheck usersrc len with
  | inl e => (inl e, [])
  | inr stoplen =>
      copystr (fun i => m !! (usersrc + i)) (fun _ c l => Some (l ++ [c])) len stoplen []
  end.

(** kern/vm/copyinout.c:298-321 (copyoutstr). [src] is the kernel buffer from the
    string's first byte on; reading past it would leave the buffer, so a caller
    passes [len] at most its length. *)
Definition copyoutstr (m : mem) (src : list Z) (userdest len : Z) : (Z + Z) * mem :=
  match copycheck userdest len with
  | inl e => (inl e, m)
  | inr stoplen =>
      copystr (fun i => src !! Z.to_nat i)
              (fun i c m' => match m' !! (userdest + i) with
                             | None => None
                             | Some _ => Some (<[userdest + i := c]> m')
                             end)
              len stoplen m
  end.

(** ** Specification vocabulary *)

(** Every address of [[a, a+n)] can be accessed. *)
Definition mapped (m : mem) (a n : Z) : Prop :=
  forall i, a <= i < a + n -> is_Some (m !! i).

(** The bytes [l] stand at [a] in [m]. *)
Definition bytes_at (m : mem) (a : Z) (l : list Z) : Prop :=
  forall i, (i < length l)%nat -> m !! (a + Z.of_nat i) = l !! i.

(** [m] and [m'] differ at most on [[a, a+n)], and the same addresses are mapped. *)
Definition only_changes (m m' : mem) (a n : Z) : Prop :=
  (forall x, ~ (a <= x < a + n) -> m' !! x = m !! x) /\
  (forall x, is_Some (m' !! x) <-> is_Some (m !! x)).

(** The [n] bytes of [l] from position [pos] (with [l] a kernel buffer). *)
Definition is_cstring (s : list Z) : Prop := Forall (fun c => c <> 0) s.

(** ** Lemmas *)

Lemma copycheck_ok a n s :
  0 <= a < 2 ^ 32 -> 0 < n < 2 ^ 32 ->
  copycheck a n = inr s <->
  a < USERSPACETOP /\ a + n <= 2 ^ 32 /\ s = Z.min n (USERSPACETOP - a).
Proof.
  intros Ha Hn. unfold copycheck, USERSPACETOP.
  assert (Hcase : a + n <= 2 ^ 32 \/ 2 ^ 32 < a + n) by lia.
  destruct Hcase as [Hc|Hc].
  - rewrite wrapu_small by lia.
    repeat (case_match; bool_to_prop); split; intros; simplify_eq; try lia;
      f_equal; lia.
  - assert (u32 (a + n - 1) = a + n - 1 - 2 ^ 32) as ->.
    { unfold wrapu. symmetry. apply Z.mod_unique with 1; lia. }
    rewrite (proj2 (Z.ltb_lt _ _)) by lia. split; [done | lia].
Qed.

(** A zero-length range is always rejected: [bot+len-1] lies below [bot]. *)
Lemma copycheck_zero a : 0 <= a < 2 ^ 32 -> copycheck a 0 <> inr 0.
Proof.
  intros Ha. unfold copycheck, USERSPACETOP.
  destruct (Z.eq_dec a 0) as [->|].
  - vm_compute. done.
  - rewrite wrapu_small by lia. rewrite (proj2 (Z.ltb_lt _ _)) by lia. done.
Qed.

Lemma load_bytes_spec m a n l :
  load_bytes m a n = Some l <-> length l = n /\ bytes_at m a l.
Proof.
  revert a l. induction n as [|n IH]; intros a l; cbn [load_bytes].
  - split.
    + intros [= <-]. split; [done|]. intros i Hi. cbn in Hi. lia.
    + intros [Hl _]. by destruct l.
  - split.
    + destruct (m !! a) as [c|] eqn:Ea; [|done].
      destruct (load_bytes m (a + 1) n) as [l'|] eqn:El; [|done]. intros [= <-].
      apply IH in El as [Hl Hb]. split; [cbn; lia|].
      intros [|i] Hi; cbn in Hi.
      * by rewrite Z.add_0_r.
      * change ((c :: l') !! S i) with (l' !! i). rewrite <- Hb by lia. f_equal. lia.
    + intros [Hl Hb]. destruct l as [|c l]; [done|]. cbn in Hl.
      pose proof (Hb 0%nat ltac:(cbn; lia)) as H0. rewrite Z.add_0_r in H0. rewrite H0. cbn.
      assert (load_bytes m (a + 1) n = Some l) as ->; [|done].
      apply IH. split; [lia|]. intros i Hi.
      pose proof (Hb (S i) ltac:(cbn; lia)) as Hi'.
      change ((c :: l) !! S i) with (l !! i) in Hi'. rewrite <- Hi'. f_equal. lia.
Qed.

Lemma load_bytes_mapped m a n :
  mapped m a (Z.of_nat n) -> exists l, load_bytes m a n = Some l.
Proof.
  revert a. induction n as [|n IH]; intros a Hm; cbn [load_bytes]; [eauto|].
  destruct (Hm a ltac:(lia)) as [c ->].
  destruct (IH (a + 1)) as [l ->]; [|eauto]. intros i Hi. apply Hm. lia.
Qed.

Lemma mapped_insert m a x c n : mapped m a n -> mapped (<[x := c]> m) a n.
Proof. intros Hm i Hi. rewrite lookup_insert_is_Some. destruct (decide (x = i)); auto. Qed.

Lemma store_bytes_changes m a l :
  only_changes m (store_bytes m a l).2 a (Z.of_nat (length l)).
Proof.
  revert m a. induction l as [|c l IH]; intros m a; cbn [store_bytes].
  { split; done. }
  destruct (m !! a) eqn:Ea; [|split; done].
  destruct (IH (<[a := c]> m) (a + 1)) as [Hout Hdom]. split.
  - intros x Hx. cbn [length] in Hx. rewrite Hout by lia. rewrite lookup_insert_ne; [done|lia].
  - intros x. rewrite Hdom, lookup_insert_is_Some. destruct (decide (a = x)) as [<-|]; [rewrite Ea|]; split; intros; eauto; tauto.
Qed.

Lemma store_bytes_spec m a l :
  mapped m a (Z.of_nat (length l)) ->
  (store_bytes m a l).1 = true /\ bytes_at (store_bytes m a l).2 a l.
Proof.
  revert m a. induction l as [|c l IH]; intros m a Hm; cbn [store_bytes].
  { split; [done|]. intros i Hi. cbn in Hi. lia. }
  destruct (Hm a ltac:(cbn [length]; lia)) as [c0 ->].
  destruct (IH (<[a := c]> m) (a + 1)) as [Hok Hb].
  { apply mapped_insert. intros i Hi. apply Hm. cbn [length]. lia. }
  split; [done|]. intros [|i] Hi; cbn in Hi.
  - rewrite Z.add_0_r. destruct (store_bytes_changes (<[a := c]> m) (a + 1) l) as [Hout _].
    rewrite Hout by lia. by rewrite lookup_insert_eq.
  - change ((c :: l) !! S i) with (l !! i). rewrite <- Hb by lia. f_equal. lia.
Qed.

Lemma store_bytes_unmapped m a l :
  (store_bytes m a l).1 = true -> mapped m a (Z.of_nat (length l)).
Proof.
  revert m a. induction l as [|c l IH]; intros m a; cbn [store_bytes].
  { intros _ i Hi. cbn in Hi. lia. }
  destruct (m !! a) eqn:Ea; [|done]. intros Hok. apply IH in Hok.
  intros i Hi. cbn [length] in Hi. destruct (decide (i = a)) as [->|]; [by rewrite Ea|].
  specialize (Hok i ltac:(lia)). rewrite lookup_insert_ne in Hok by done. done.
Qed.

Lemma only_changes_refl m a n : only_changes m m a n.
Proof. split; done. Qed.

Lemma only_changes_trans m1 m2 m3 a1 n1 a2 n2 a n :
  only_changes m1 m2 a1 n1 -> only_changes m2 m3 a2 n2 ->
  (forall x, a1 <= x < a1 + n1 \/ a2 <= x < a2 + n2 -> a <= x < a + n) ->
  only_changes m1 m3 a n.
Proof.
  intros [H1 D1] [H2 D2] Hin. split.
  - intros x Hx. rewrite H2, H1; [done|..]; intros ?; apply Hx, Hin; auto.
  - intros x. by rewrite D2, D1.
Qed.

Lemma only_changes_insert m a c x n :
  is_Some (m !! x) -> a <= x < a + n -> only_changes m (<[x := c]> m) a n.
Proof.
  intros Hx Hin. split.
  - intros y Hy. apply lookup_insert_ne. intros ->. done.
  - intros y. rewrite lookup_insert_is_Some. destruct (decide (x = y)) as [<-|]; tauto.
Qed.

Lemma only_changes_mapped m m' a n b k :
  only_changes m m' a n -> mapped m b k -> mapped m' b k.
Proof. intros [_ Hd] Hm i Hi. apply Hd. auto. Qed.

Lemma only_changes_bytes m m' a n b l :
  only_changes m m' a n -> bytes_at m b l ->
  b + Z.of_nat (length l) <= a \/ a + n <= b -> bytes_at m' b l.
Proof. intros [Ho _] Hb Hdisj i Hi. rewrite Ho by lia. by apply Hb. Qed.

Lemma bytes_at_app m a l1 l2 :
  bytes_at m a (l1 ++ l2) <->
  bytes_at m a l1 /\ bytes_at m (a + Z.of_nat (length l1)) l2.
Proof.
  unfold bytes_at. rewrite length_app. split.
  - intros H. split; intros i Hi.
    + rewrite H by lia. by rewrite lookup_app_l.
    + specialize (H (length l1 + i)%nat ltac:(lia)). rewrite lookup_app_r in H by lia.
      rewrite Nat.add_sub_swap, Nat.sub_diag in H by lia. cbn in H. rewrite <- H. f_equal. lia.
  - intros [H1 H2] i Hi. destruct (decide (i < length l1)%nat).
    + rewrite lookup_app_l by done. by apply H1.
    + rewrite lookup_app_r by lia. rewrite <- H2 by lia. f_equal. lia.
Qed.

Lemma bytes_at_mapped m a l : bytes_at m a l -> mapped m a (Z.of_nat (length l)).
Proof.
  intros H i Hi. specialize (H (Z.to_nat (i - a)) ltac:(lia)).
  replace (a + Z.of_nat (Z.to_nat (i - a))) with i in H by lia. rewrite H.
  apply lookup_lt_is_Some. lia.
Qed.

(** The string loop on a terminated string that fits: every byte is passed on
    once, in order, and the loop stops at the terminator. *)
Lemma copystr_loop_found {D} rd wr n i ml sl (d : D) s ds :
  is_cstring s -> (length s < n)%nat ->
  (forall k, (k < length s)%nat -> rd (i + Z.of_nat k) = s !! k) ->
  rd (i + Z.of_nat (length s)) = Some 0 ->
  ds 0%nat = d ->
  (forall k c, (s ++ [0]) !! k = Some c -> wr (i + Z.of_nat k) c (ds k) = Some (ds (S k))) ->
  copystr_loop rd wr n i ml sl d = (inr (i + Z.of_nat (length s) + 1), ds (S (length s))).
Proof.
  revert n i d ds. induction s as [|c s IH]; intros n i d ds Hs Hn Hrd Hend <- Hwr.
  - destruct n as [|n]; [cbn in Hn; lia|]. cbn [copystr_loop]. cbn in Hend.
    rewrite Z.add_0_r in Hend. rewrite Hend.
    pose proof (Hwr 0%nat 0 eq_refl) as H0. rewrite Z.add_0_r in H0. rewrite H0. cbn.
    by rewrite Z.add_0_r.
  - apply Forall_cons_1 in Hs as [Hc Hs]. destruct n as [|n]; [cbn in Hn; lia|].
    cbn [copystr_loop].
    pose proof (Hrd 0%nat ltac:(cbn; lia)) as H0. rewrite Z.add_0_r in H0. rewrite H0.
    change ((c :: s) !! 0%nat) with (Some c). cbv iota.
    pose proof (Hwr 0%nat c eq_refl) as Hw0. rewrite Z.add_0_r in Hw0. rewrite Hw0.
    rewrite (proj2 (Z.eqb_neq _ _)) by done.
    rewrite (IH n (i + 1) _ (fun k => ds (S k))); try done.
    + cbn [length]. do 2 f_equal. lia.
    + cbn in Hn. lia.
    + intros k Hk. change (s !! k) with ((c :: s) !! S k).
      rewrite <- (Hrd (S k)) by (cbn; lia). f_equal. lia.
    + rewrite <- Hend. f_equal. cbn [length]. lia.
    + intros k c' Hk. rewrite <- (Hwr (S k) c' Hk). f_equal. lia.
Qed.

(** The string loop when the bound is reached before a terminator. *)
Lemma copystr_loop_long {D} rd wr n i ml sl (d : D) s ds :
  is_cstring s -> length s = n ->
  (forall k, (k < length s)%nat -> rd (i + Z.of_nat k) = s !! k) ->
  ds 0%nat = d ->
  (forall k c, s !! k = Some c -> wr (i + Z.of_nat k) c (ds k) = Some (ds (S k))) ->
  copystr_loop rd wr n i ml sl d =
    (inl (if sl <? ml then EFAULT else ENAMETOOLONG), ds n).
Proof.
  revert n i d ds. induction s as [|c s IH]; intros n i d ds Hs Hn Hrd <- Hwr.
  - by destruct n.
  - apply Forall_cons_1 in Hs as [Hc Hs]. destruct n as [|n]; [done|]. cbn [copystr_loop].
    pose proof (Hrd 0%nat ltac:(cbn; lia)) as H0. rewrite Z.add_0_r in H0. rewrite H0.
    change ((c :: s) !! 0%nat) with (Some c). cbv iota.
    pose proof (Hwr 0%nat c eq_refl) as Hw0. rewrite Z.add_0_r in Hw0. rewrite Hw0.
    rewrite (proj2 (Z.eqb_neq _ _)) by done.
    apply (IH n (i + 1) _ (fun k => ds (S k))); try done.
    + cbn in Hn. lia.
    + intros k Hk. change (s !! k) with ((c :: s) !! S k).
      rewrite <- (Hrd (S k)) by (cbn; lia). f_equal. lia.
    + intros k c' Hk. rewrite <- (Hwr (S k) c' Hk). f_equal. lia.
Qed.

Lemma copyinstr_found m a len s :
  0 <= a < 2 ^ 32 -> 0 < len < 2 ^ 32 -> a + len <= 2 ^ 32 ->
  is_cstring s -> bytes_at m a (s ++ [0]) ->
  Z.of_nat (length s) < len -> a + Z.of_nat (length s) < USERSPACETOP ->
  copyinstr m a len = (inr (Z.of_nat (length s) + 1), s ++ [0]).
Proof.
  intros Ha Hlen Hwrap Hs Hb Hfit Htop. unfold copyinstr.
  rewrite (proj2 (copycheck_ok a len (Z.min len (USERSPACETOP - a)) Ha Hlen)) by lia.
  unfold copystr. apply bytes_at_app in Hb as [Hb1 Hb2].
  rewrite (copystr_loop_found _ _ _ _ _ _ _ s (fun k => take k (s ++ [0]))); try done.
  - f_equal. apply take_ge. rewrite length_app. cbn. lia.
  - lia.
  - specialize (Hb2 0%nat ltac:(cbn; lia)). cbn in Hb2. rewrite Z.add_0_r in Hb2.
    by rewrite Z.add_0_l, Hb2.
  - intros k c Hk. f_equal. by rewrite (take_S_r _ _ c).
Qed.

Lemma store_bytes_snoc m a l c :
  mapped m a (Z.of_nat (length l) + 1) ->
  (store_bytes m a (l ++ [c])).2 = <[a + Z.of_nat (length l) := c]> (store_bytes m a l).2.
Proof.
  revert m a. induction l as [|d l IH]; intros m a Hm; cbn [store_bytes app].
  - destruct (Hm a ltac:(cbn; lia)) as [x ->]. cbn. by rewrite Z.add_0_r.
  - destruct (Hm a ltac:(cbn [length]; lia)) as [x ->].
    rewrite IH; [f_equal; cbn [length]; lia|].
    apply mapped_insert. intros i Hi. apply Hm. cbn [length]. lia.
Qed.

(** What [copyoutstr] does with a terminated string that fits: it stores exactly
    the string and its terminator. *)
Lemma copyoutstr_found m s rest a len :
  0 <= a -> is_cstring s -> a + Z.of_nat (length s) < USERSPACETOP ->
  Z.of_nat (length s) < len < 2 ^ 31 ->
  mapped m a (Z.of_nat (length s) + 1) ->
  copyoutstr m (s ++ 0 :: rest) a len =
    (inr (Z.of_nat (length s) + 1), (store_bytes m a (s ++ [0])).2).
Proof.
  intros Ha Hs Htop Hlen Hm. unfold copyoutstr, USERSPACETOP in *.
  rewrite (proj2 (copycheck_ok a len (Z.min len (USERSPACETOP - a)) ltac:(lia) ltac:(lia)))
    by (unfold USERSPACETOP; lia).
  unfold copystr, USERSPACETOP.
  rewrite (copystr_loop_found _ _ _ _ _ _ _ s (fun k => (store_bytes m a (take k (s ++ [0]))).2));
    try done.
  - do 3 f_equal. apply take_ge. rewrite length_app. cbn. lia.
  - lia.
  - intros k Hk. rewrite Z.add_0_l, Nat2Z.id. by apply lookup_app_l.
  - rewrite Z.add_0_l, Nat2Z.id, lookup_app_r, Nat.sub_diag by lia. done.
  - intros k c Hk. assert (k < length (s ++ [0%Z]))%nat as Hlt by eauto using lookup_lt_Some.
    rewrite length_app in Hlt. cbn in Hlt. rewrite Z.add_0_l.
    assert (length (take k (s ++ [0])) = k) as Htk by (rewrite length_take, length_app; cbn; lia).
    rewrite (take_S_r _ _ c) by done.
    rewrite store_bytes_snoc, Htk by (rewrite Htk; intros i Hi; apply Hm; lia).
    destruct (store_bytes_changes m a (take k (s ++ [0]))) as [_ Hd].
    destruct (proj2 (Hd (a + Z.of_nat k)) ltac:(apply Hm; lia)) as [x ->]. done.
Qed.

Lemma copyin_cases m a len :
  0 <= a < 2 ^ 32 -> 0 < len < 2 ^ 32 ->
  match copyin m a len with
  | inr l => a + len <= USERSPACETOP /\ Z.of_nat (length l) = len /\ bytes_at m a l
  | inl e => e = EFAULT /\ ~ (a + len <= USERSPACETOP /\ mapped m a len)
  end.
Proof.
  intros Ha Hlen. unfold copyin.
  destruct (copycheck a len) as [e|s] eqn:Ec.
  - assert (e = EFAULT) as -> by (unfold copycheck in Ec; repeat case_match; congruence).
    split; [done|]. intros [Htop _].
    rewrite (proj2 (copycheck_ok a len (Z.min len (USERSPACETOP - a)) Ha Hlen)) in Ec; [done|].
    unfold USERSPACETOP in *. lia.
  - apply copycheck_ok in Ec as (Hu & Hw & ->); [|done..].
    destruct (Z.eqb_spec (Z.min len (USERSPACETOP - a)) len); cbn [negb].
    + destruct (load_bytes m a (Z.to_nat len)) as [l|] eqn:El.
      * apply load_bytes_spec in El as [Hl Hb]. split_and!; [lia..|done].
      * split; [done|]. intros [_ Hm].
        destruct (load_bytes_mapped m a (Z.to_nat len)) as [l Hl]; [|congruence].
        by rewrite Z2Nat.id by lia.
    + split; [done|]. lia.
Qed.

Lemma copyout_frame m src a :
  0 <= a < 2 ^ 32 -> Z.of_nat (length src) < 2 ^ 32 ->
  let m' := (copyout m src a).2 in
  only_changes m m' a (Z.of_nat (length src)) /\
  (forall x, USERSPACETOP <= x -> m' !! x = m !! x).
Proof.
  intros Ha Hlen. cbv zeta. unfold copyout.
  destruct (copycheck a _) as [e|s] eqn:Ec; [split; [apply only_changes_refl|done]|].
  destruct (Z.eqb_spec s (Z.of_nat (length src))) as [->|]; cbn [negb];
    [|split; [apply only_changes_refl|done]].
  pose proof (store_bytes_changes m a src) as Hch.
  destruct (store_bytes m a src) as [ok m']. cbn in *. split; [done|].
  intros x Hx. apply Hch. intros Hin.
  apply copycheck_ok in Ec; [|lia..]. lia.
Qed.

Lemma copyout_cases m src a :
  0 <= a < 2 ^ 32 -> 0 < Z.of_nat (length src) < 2 ^ 32 ->
  let '(e, m') := copyout m src a in
  (e = 0 /\ a + Z.of_nat (length src) <= USERSPACETOP /\ bytes_at m' a src) \/
  (e = EFAULT /\ ~ (a + Z.of_nat (length src) <= USERSPACETOP /\
                    mapped m a (Z.of_nat (length src)))).
Proof.
  intros Ha Hlen. unfold copyout. set (len := Z.of_nat (length src)) in *.
  destruct (copycheck a len) as [e|s] eqn:Ec.
  - right. assert (e = EFAULT) as -> by (unfold copycheck in Ec; repeat case_match; congruence).
    split; [done|]. intros [Htop _].
    rewrite (proj2 (copycheck_ok a len (Z.min len (USERSPACETOP - a)) Ha Hlen)) in Ec; [done|].
    unfold USERSPACETOP in *. lia.
  - apply copycheck_ok in Ec as (Hu & Hw & ->); [|done..].
    destruct (Z.eqb_spec (Z.min len (USERSPACETOP - a)) len); cbn [negb];
      [|right; split; [done|lia]].
    pose proof (store_bytes_unmapped m a src) as Hun. pose proof (store_bytes_spec m a src) as Hst.
    destruct (store_bytes m a src) as [[] m'] eqn:Es; cbn in *.
    + left. split_and!; [done|lia|]. apply Hst. by apply Hun.
    + right. split; [done|]. intros [_ Hm]. by apply Hst in Hm as [].
Qed.

(** ** Properties *)

(** [copyin] on a non-empty range succeeds exactly when the range lies in
    user space and is mapped, and then returns the bytes found there; otherwise
    it returns EFAULT. *)
Theorem copyin_spec m a len :
  0 <= a < 2 ^ 32 -> 0 < len < 2 ^ 32 ->
  match copyin m a len with
  | inr l => a + len <= USERSPACETOP /\ Z.of_nat (length l) = len /\ bytes_at m a l
  | inl e => e = EFAULT /\ ~ (a + len <= USERSPACETOP /\ mapped m a len)
  end.
Proof. apply copyin_cases. Qed.

(** [copyout] never changes kernel memory: whatever address and data it is
    given, every byte at or above USERSPACETOP, and every byte outside the
    destination range, is as before, and no address becomes mapped or unmapped. *)
Theorem copyout_safe m src a :
  0 <= a < 2 ^ 32 -> Z.of_nat (length src) < 2 ^ 32 ->
  let m' := (copyout m src a).2 in
  only_changes m m' a (Z.of_nat (length src)) /\
  (forall x, USERSPACETOP <= x -> m' !! x = m !! x).
Proof. apply copyout_frame. Qed.

(** [copyout] of a non-empty block succeeds exactly when the destination lies
    in user space and is mapped, and then the block stands there. *)
Theorem copyout_spec m src a :
  0 <= a < 2 ^ 32 -> 0 < Z.of_nat (length src) < 2 ^ 32 ->
  let '(e, m') := copyout m src a in
  (e = 0 /\ a + Z.of_nat (length src) <= USERSPACETOP /\ bytes_at m' a src) \/
  (e = EFAULT /\ ~ (a + Z.of_nat (length src) <= USERSPACETOP /\
                    mapped m a (Z.of_nat (length src)))).
Proof. apply copyout_cases. Qed.

(** Strings survive the crossing: [copyoutstr] of a terminated string to
    mapped user memory stores it, changing nothing else, and [copyinstr] from
    the same address reads back the same bytes and the same length (terminator
    included). *)
Theorem copystr_roundtrip m s rest a len1 len2 :
  0 <= a -> is_cstring s ->
  a + Z.of_nat (length s) < USERSPACETOP ->
  Z.of_nat (length s) < len1 < 2 ^ 31 -> Z.of_nat (length s) < len2 < 2 ^ 31 ->
  mapped m a (Z.of_nat (length s) + 1) ->
  exists m', copyoutstr m (s ++ 0 :: rest) a len1 = (inr (Z.of_nat (length s) + 1), m') /\
    only_changes m m' a (Z.of_nat (length s) + 1) /\
    bytes_at m' a (s ++ [0]) /\
    copyinstr m' a len2 = (inr (Z.of_nat (length s) + 1), s ++ [0]).
Proof.
  intros Ha Hs Htop Hl1 Hl2 Hm. eexists. split; [by apply copyoutstr_found|].
  assert (Hlen : Z.of_nat (length (s ++ [0])) = Z.of_nat (length s) + 1)
    by (rewrite length_app; cbn; lia).
  assert (Hb : bytes_at (store_bytes m a (s ++ [0])).2 a (s ++ [0])).
  { apply store_bytes_spec. by rewrite Hlen. }
  split_and!; [|done|].
  - rewrite <- Hlen. apply store_bytes_changes.
  - unfold USERSPACETOP in *. apply copyinstr_found; try done; unfold USERSPACETOP; lia.
Qed.

(** A memory with a page of zeros at [a]. *)
Definition zero_page (a : Z) (n : nat) : mem :=
  list_to_map (map (fun i => (a + Z.of_nat i, 0)) (seq 0 n)).

Lemma copyin_spec_witness :
  match copyin (zero_page 4096 8) 4096 4 with
  | inr l => 4096 + 4 <= USERSPACETOP /\ Z.of_nat (length l) = 4 /\ bytes_at (zero_page 4096 8) 4096 l
  | inl e => e = EFAULT /\ ~ (4096 + 4 <= USERSPACETOP /\ mapped (zero_page 4096 8) 4096 4)
  end.
Proof. apply copyin_spec; lia. Defined.

Lemma copyout_safe_witness :
  let m' := (copyout (zero_page 4096 8) [1; 2] 4096).2 in
  only_changes (zero_page 4096 8) m' 4096 2 /\
  (forall x, USERSPACETOP <= x -> m' !! x = zero_page 4096 8 !! x).
Proof. apply (copyout_safe (zero_page 4096 8) [1; 2] 4096); cbn; lia. Defined.

Lemma copyout_spec_witness :
  let '(e, m') := copyout (zero_page 4096 8) [1; 2] 4096 in
  (e = 0 /\ 4096 + 2 <= USERSPACETOP /\ bytes_at m' 4096 [1; 2]) \/
  (e = EFAULT /\ ~ (4096 + 2 <= USERSPACETOP /\ mapped (zero_page 4096 8) 4096 2)).
Proof. apply (copyout_spec (zero_page 4096 8) [1; 2] 4096); cbn; lia. Defined.

Lemma copystr_roundtrip_witness :
  exists m', copyoutstr (zero_page 4096 8) ([104; 105] ++ 0 :: [7]) 4096 4 = (inr 3, m') /\
    only_changes (zero_page 4096 8) m' 4096 3 /\
    bytes_at m' 4096 ([104; 105] ++ [0]) /\
    copyinstr m' 4096 16 = (inr 3, [104; 105] ++ [0]).
Proof.
  apply (copystr_roundtrip (zero_page 4096 8) [104; 105] [7] 4096 4 16);
    unfold USERSPACETOP; cbn; try lia; [by repeat constructor|].
  intros i Hi. assert (i = 4096 \/ i = 4097 \/ i = 4098) as [-> | [-> | ->]] by lia; vm_compute; eauto.
Defined.
