(* ===== verification/KState.v ===== *)
(** * Shared kernel state

    The data the process and file code shares: [struct proc], [struct openfile],
    the process table, the system file table and the threads' [t_proc] links.
    Pointers are addresses in stores ([procs], [ofiles]), so two file
    descriptors, or two processes, that hold the same pointer alias the same
    object. A missing address is memory that has been freed.

    The VFS and address-space calls the process code makes go through the
    interface [Vfs]; [W] is the state behind it. *)

From stdpp Require Import base numbers list gmap strings.
From Stdlib Require Import ZArith Lia.
From S2P Require Import Prelude.
From S2P Require Import UserCopy.

Open Scope Z_scope.
Open Scope k_scope.

(** ** Constants *)

Definition OPEN_MAX : Z := 128.
Definition SYSTEM_OPEN_MAX : Z := 10 * OPEN_MAX.
Definition PROC_MAX : Z := 100.
Definition PATH_MAX : Z := 1024.

Definition O_RDONLY : Z := 0.
Definition O_WRONLY : Z := 1.
Definition O_RDWR : Z := 2.
Definition O_ACCMODE : Z := 3.
Definition O_APPEND : Z := 32.

(** ** Locks and condition variables as data: the owner and the queue of the
    wait channel. *)

(** kern/include/synch.h: [struct lock]. *)
Record lock := mklock { lk_owner : option Z; lk_wchan : list Z }.

(** kern/include/synch.h: [struct cv]. *)
Record cv := mkcv { cv_wchan : list Z }.

Definition new_lock : lock := mklock None [].
Definition new_cv : cv := mkcv [].

(** ** Objects *)

(** Address of a [struct openfile]: a slot of the static [systemFileTable], or
    memory from [kmalloc] (the console files of [console_init]). *)
Inductive ofptr := Sys (i : Z) | Heap (a : Z).

#[global] Instance ofptr_eq_dec : EqDecision ofptr.
Proof. solve_decision. Defined.

#[global] Program Instance ofptr_countable : Countable ofptr :=
  inj_countable' (fun p => match p with Sys i => inl i | Heap a => inr a end)
                 (fun x => match x with inl i => Sys i | inr a => Heap a end) _.
Next Obligation. by intros []. Qed.

(** kern/include/syscall_SHELL.h:30-36 (struct openfile). [vn] is [None] for a
    NULL vnode pointer, [oflock] is [None] for a NULL lock pointer. *)
Record openfile := mkof {
  vn : option Z;
  offset : Z;
  mode_open : Z;
  count_refs : Z;
  oflock : option lock
}.

(** kern/include/proc.h:79-106 (struct proc). The spinlock [p_lock] is not a
    field: it only brackets accesses that are single steps here. [children_list]
    is the chain of [struct child_list] cells, in order. *)
Record proc := mkproc {
  p_name : string;
  p_numthreads : Z;
  p_addrspace : option Z;
  p_cwd : option Z;
  p_status : Z;
  p_pid : Z;
  parent_pid : Z;
  children_list : list Z;
  p_cv : option cv;
  p_locklock : option lock;
  fileTable : list (option ofptr)
}.

#[global] Instance lock_eq_dec : EqDecision lock.
Proof. solve_decision. Defined.

#[global] Instance cv_eq_dec : EqDecision cv.
Proof. solve_decision. Defined.

#[global] Instance openfile_eq_dec : EqDecision openfile.
Proof. solve_decision. Defined.

#[global] Instance proc_eq_dec : EqDecision proc.
Proof. solve_decision. Defined.

(** Kernel state. [ptable] and [last_pid] are the fields [proc] and [last_pid]
    of [processTable] (kern/proc/proc.c:70-75); [oracle] lists the outcomes of
    the next [kmalloc] calls ([true]: memory was found), and every later call
    succeeds; [nextaddr] supplies fresh addresses;
    [umem] is the memory visible to the running thread. *)
Record kstate (W : Type) := mkk {
  procs : gmap Z proc;
  ptable : list (option Z);
  last_pid : Z;
  is_active : bool;
  ofiles : gmap ofptr openfile;
  t_proc : gmap Z Z;
  curthread : Z;
  kproc : option Z;
  nextaddr : Z;
  oracle : list bool;
  umem : mem;
  world : W
}.
Arguments mkk {W}.
Arguments procs {W}. Arguments ptable {W}. Arguments last_pid {W}.
Arguments is_active {W}. Arguments ofiles {W}. Arguments t_proc {W}.
Arguments curthread {W}. Arguments kproc {W}. Arguments nextaddr {W}.
Arguments oracle {W}. Arguments umem {W}. Arguments world {W}.

(** ** Field updates *)

Section updates.
Context {W : Type}.
Implicit Type s : kstate W.

Definition set_procs f s := mkk (f (procs s)) (ptable s) (last_pid s) (is_active s) (ofiles s)
  (t_proc s) (curthread s) (kproc s) (nextaddr s) (oracle s) (umem s) (world s).
Definition set_ptable f s := mkk (procs s) (f (ptable s)) (last_pid s) (is_active s) (ofiles s)
  (t_proc s) (curthread s) (kproc s) (nextaddr s) (oracle s) (umem s) (world s).
Definition set_last_pid z s := mkk (procs s) (ptable s) z (is_active s) (ofiles s)
  (t_proc s) (curthread s) (kproc s) (nextaddr s) (oracle s) (umem s) (world s).
Definition set_active b s := mkk (procs s) (ptable s) (last_pid s) b (ofiles s)
  (t_proc s) (curthread s) (kproc s) (nextaddr s) (oracle s) (umem s) (world s).
Definition set_ofiles f s := mkk (procs s) (ptable s) (last_pid s) (is_active s) (f (ofiles s))
  (t_proc s) (curthread s) (kproc s) (nextaddr s) (oracle s) (umem s) (world s).
Definition set_t_proc f s := mkk (procs s) (ptable s) (last_pid s) (is_active s) (ofiles s)
  (f (t_proc s)) (curthread s) (kproc s) (nextaddr s) (oracle s) (umem s) (world s).
Definition set_curthread t s := mkk (procs s) (ptable s) (last_pid s) (is_active s) (ofiles s)
  (t_proc s) t (kproc s) (nextaddr s) (oracle s) (umem s) (world s).
Definition set_kproc k s := mkk (procs s) (ptable s) (last_pid s) (is_active s) (ofiles s)
  (t_proc s) (curthread s) k (nextaddr s) (oracle s) (umem s) (world s).
Definition set_nextaddr z s := mkk (procs s) (ptable s) (last_pid s) (is_active s) (ofiles s)
  (t_proc s) (curthread s) (kproc s) z (oracle s) (umem s) (world s).
Definition set_oracle l s := mkk (procs s) (ptable s) (last_pid s) (is_active s) (ofiles s)
  (t_proc s) (curthread s) (kproc s) (nextaddr s) l (umem s) (world s).
Definition set_umem m s := mkk (procs s) (ptable s) (last_pid s) (is_active s) (ofiles s)
  (t_proc s) (curthread s) (kproc s) (nextaddr s) (oracle s) m (world s).
Definition set_world (w : W) s := mkk (procs s) (ptable s) (last_pid s) (is_active s) (ofiles s)
  (t_proc s) (curthread s) (kproc s) (nextaddr s) (oracle s) (umem s) w.
End updates.

Definition p_set_name x p := mkproc x (p_numthreads p) (p_addrspace p) (p_cwd p) (p_status p)
  (p_pid p) (parent_pid p) (children_list p) (p_cv p) (p_locklock p) (fileTable p).
Definition p_set_numthreads x p := mkproc (p_name p) x (p_addrspace p) (p_cwd p) (p_status p)
  (p_pid p) (parent_pid p) (children_list p) (p_cv p) (p_locklock p) (fileTable p).
Definition p_set_addrspace x p := mkproc (p_name p) (p_numthreads p) x (p_cwd p) (p_status p)
  (p_pid p) (parent_pid p) (children_list p) (p_cv p) (p_locklock p) (fileTable p).
Definition p_set_cwd x p := mkproc (p_name p) (p_numthreads p) (p_addrspace p) x (p_status p)
  (p_pid p) (parent_pid p) (children_list p) (p_cv p) (p_locklock p) (fileTable p).
Definition p_set_status x p := mkproc (p_name p) (p_numthreads p) (p_addrspace p) (p_cwd p) x
  (p_pid p) (parent_pid p) (children_list p) (p_cv p) (p_locklock p) (fileTable p).
Definition p_set_pid x p := mkproc (p_name p) (p_numthreads p) (p_addrspace p) (p_cwd p)
  (p_status p) x (parent_pid p) (children_list p) (p_cv p) (p_locklock p) (fileTable p).
Definition p_set_parent x p := mkproc (p_name p) (p_numthreads p) (p_addrspace p) (p_cwd p)
  (p_status p) (p_pid p) x (children_list p) (p_cv p) (p_locklock p) (fileTable p).
Definition p_set_children x p := mkproc (p_name p) (p_numthreads p) (p_addrspace p) (p_cwd p)
  (p_status p) (p_pid p) (parent_pid p) x (p_cv p) (p_locklock p) (fileTable p).
Definition p_set_cv x p := mkproc (p_name p) (p_numthreads p) (p_addrspace p) (p_cwd p)
  (p_status p) (p_pid p) (parent_pid p) (children_list p) x (p_locklock p) (fileTable p).
Definition p_set_locklock x p := mkproc (p_name p) (p_numthreads p) (p_addrspace p) (p_cwd p)
  (p_status p) (p_pid p) (parent_pid p) (children_list p) (p_cv p) x (fileTable p).
Definition p_set_fileTable f p := mkproc (p_name p) (p_numthreads p) (p_addrspace p) (p_cwd p)
  (p_status p) (p_pid p) (parent_pid p) (children_list p) (p_cv p) (p_locklock p)
  (f (fileTable p)).

Definition of_set_vn x o := mkof x (offset o) (mode_open o) (count_refs o) (oflock o).
Definition of_set_offset x o := mkof (vn o) x (mode_open o) (count_refs o) (oflock o).
Definition of_set_mode x o := mkof (vn o) (offset o) x (count_refs o) (oflock o).
Definition of_set_refs x o := mkof (vn o) (offset o) (mode_open o) x (oflock o).
Definition of_set_lock x o := mkof (vn o) (offset o) (mode_open o) (count_refs o) x.

(** ** Memory accesses *)

Section access.
Context {W : Type}.

(** One [kmalloc] call: did it return memory? *)
Definition kmalloc : K (kstate W) bool :=
  s <- kget ;;
  match oracle s with
  | [] => kret true
  | ok :: rest => kput (set_oracle rest s) ;;; kret ok
  end.

(** A fresh address, for a [kmalloc] that succeeded. *)
Definition fresh_addr : K (kstate W) Z :=
  s <- kget ;; kput (set_nextaddr (nextaddr s + 1) s) ;;; kret (nextaddr s).

(** Read [*a] for a [struct proc *a]. *)
Definition proc_read (a : Z) : K (kstate W) proc :=
  s <- kget ;;
  match procs s !! a with
  | Some p => kret p
  | None => khalt UseAfterFree
  end.

(** Update [*a]. *)
Definition proc_update (a : Z) (f : proc -> proc) : K (kstate W) unit :=
  p <- proc_read a ;; kmodify (set_procs (fun m => <[a := f p]> m)).

(** [processTable.proc[i]] *)
Definition ptable_read (i : Z) : K (kstate W) (option Z) :=
  s <- kget ;;
  match ptable s !! Z.to_nat i with
  | Some e => if i <? 0 then khalt OutOfBounds else kret e
  | None => khalt OutOfBounds
  end.

(** [processTable.proc[i] = e] *)
Definition ptable_write (i : Z) (e : option Z) : K (kstate W) unit :=
  ptable_read i ;;; kmodify (set_ptable (fun l => <[Z.to_nat i := e]> l)).

Definition of_read (a : ofptr) : K (kstate W) openfile :=
  s <- kget ;;
  match ofiles s !! a with
  | Some o => kret o
  | None => khalt UseAfterFree
  end.

Definition of_update (a : ofptr) (f : openfile -> openfile) : K (kstate W) unit :=
  o <- of_read a ;; kmodify (set_ofiles (fun m => <[a := f o]> m)).

(** [curproc], that is [curthread->t_proc]. *)
Definition curproc (s : kstate W) : option Z := t_proc s !! curthread s.

(** [curproc->...]: the address of the current process; a fault when it has none. *)
Definition get_curproc : K (kstate W) Z :=
  s <- kget ;;
  match curproc s with
  | Some a => kret a
  | None => khalt NullDeref
  end.

End access.

(** ** The interface to the VFS and VM layers *)

(** What a [VOP_READ] or [VOP_WRITE] leaves in the caller's [uio]: the error
    number, the advanced offset, the residue, and for a read the bytes put into
    the buffer. *)
Record ioresult := mkio { io_err : Z; io_offset : Z; io_resid : Z; io_data : list Z }.

(** The operations the system calls use. [vfs_open] returns the error number or
    the vnode; [vop_stat] the error number or [st_size]. *)
Class Vfs (W : Type) := {
  vfs_open : string -> Z -> Z -> W -> (Z + Z) * W;
  vfs_close : Z -> W -> W;
  vop_incref : Z -> W -> W;
  vop_decref : Z -> W -> W;
  vop_read : Z -> Z -> Z -> W -> ioresult * W;        (* vnode, offset, length *)
  vop_write : Z -> Z -> list Z -> W -> ioresult * W;  (* vnode, offset, buffer *)
  vop_stat : Z -> W -> (Z + Z) * W;
  vop_isseekable : Z -> W -> bool;
  vfs_setcurdir : Z -> W -> Z * W;
  vfs_getcwd : mem -> Z -> Z -> W -> (Z * Z * mem) * W;
    (* user memory, buffer, length: error, uio_resid, the memory afterwards *)
  as_create : W -> option Z * W;
  as_copy : Z -> W -> (Z + Z) * W;
  as_destroy : Z -> W -> W;
  as_activate : option Z -> W -> W
}.

(** The contract of uio-based I/O ([kern/include/uio.h]): the offset advances by
    exactly the amount the residue shrinks, and never past the request. *)
Class VfsLaws (W : Type) `{Vfs W} := {
  read_advances : forall vn off len w,
    0 <= len ->
    let r := fst (vop_read vn off len w) in
    io_offset r - off = len - io_resid r /\ 0 <= io_resid r <= len /\
    Z.of_nat (length (io_data r)) = len - io_resid r;
  write_advances : forall vn off buf w,
    let r := fst (vop_write vn off buf w) in
    io_offset r - off = Z.of_nat (length buf) - io_resid r /\
    0 <= io_resid r <= Z.of_nat (length buf)
}.

Definition lift_world {W A} (f : W -> A * W) : K (kstate W) A :=
  fun s => let '(a, w) := f (world s) in Done a (set_world w s).

Definition lift_world_ {W} (f : W -> W) : K (kstate W) unit :=
  fun s => Done tt (set_world (f (world s)) s).

(** ** Creating and destroying locks and condition variables *)

Section objects.
Context {W : Type}.

(** kern/thread/synch.c:141-176 (lock_create): memory for the lock, its name and
    its wait channel. *)
Definition lock_create : K (kstate W) (option lock) :=
  ok <- kmalloc ;;
  if negb ok then kret None else
  ok <- kmalloc ;;
  if negb ok then kret None else
  ok <- kmalloc ;;
  if negb ok then kret None else
  kret (Some new_lock).

(** kern/thread/synch.c:178-191 (lock_destroy); [wchan_destroy] asserts that
    nobody sleeps on the channel. *)
Definition lock_destroy (l : option lock) : K (kstate W) unit :=
  match l with
  | None => khalt KAssert
  | Some l => kassert (match lk_wchan l with [] => true | _ => false end)
  end.

(** kern/thread/synch.c:193-228 (lock_acquire) for one thread: it gets the lock,
    fails an assertion, or sleeps. [Synch] models the sleeping itself. *)
Definition lock_acquire (l : option lock) : K (kstate W) lock :=
  s <- kget ;;
  match l with
  | None => khalt KAssert
  | Some l =>
      kassert (negb (bool_decide (lk_owner l = Some (curthread s)))) ;;;
      match lk_owner l with
      | Some _ => khalt Blocked
      | None => kret (mklock (Some (curthread s)) (lk_wchan l))
      end
  end.

(** kern/thread/synch.c:230-255 (lock_release): the first sleeper is woken. *)
Definition lock_release (l : option lock) : K (kstate W) lock :=
  s <- kget ;;
  match l with
  | None => khalt KAssert
  | Some l =>
      kassert (bool_decide (lk_owner l = Some (curthread s))) ;;;
      kret (mklock None (tail (lk_wchan l)))
  end.

(** kern/thread/synch.c:279-309 (cv_create). *)
Definition cv_create : K (kstate W) (option cv) :=
  ok <- kmalloc ;;
  if negb ok then kret None else
  ok <- kmalloc ;;
  if negb ok then kret None else
  ok <- kmalloc ;;
  if negb ok then kret None else
  kret (Some new_cv).

(** kern/thread/synch.c:311-323 (cv_destroy). *)
Definition cv_destroy (c : option cv) : K (kstate W) unit :=
  match c with
  | None => khalt KAssert
  | Some c => kassert (match cv_wchan c with [] => true | _ => false end)
  end.

End objects.

(** ** Lemmas *)

Section lemmas.
Context {W : Type}.
Implicit Types s : kstate W.

(** Two states with equal fields. *)
Lemma kstate_ext s s' :
  procs s = procs s' -> ptable s = ptable s' -> last_pid s = last_pid s' -> is_active s = is_active s' ->
  ofiles s = ofiles s' -> t_proc s = t_proc s' -> curthread s = curthread s' -> kproc s = kproc s' ->
  nextaddr s = nextaddr s' -> oracle s = oracle s' -> umem s = umem s' -> world s = world s' -> s = s'.
Proof. destruct s, s'. cbn. congruence. Qed.

Lemma kmalloc_nil s : oracle s = [] -> kmalloc s = Done true s.
Proof. intros H. unfold kmalloc. kunfold. by rewrite H. Qed.

Lemma kmalloc_cons s ok rest : oracle s = ok :: rest -> kmalloc s = Done ok (set_oracle rest s).
Proof. intros H. unfold kmalloc. kunfold. by rewrite H. Qed.

Lemma lock_create_nil s : oracle s = [] -> lock_create s = Done (Some new_lock) s.
Proof. intros H. unfold lock_create, kbind. by repeat (rewrite kmalloc_nil by done; cbn [negb]). Qed.

Lemma kmalloc_any s : exists b o, kmalloc s = Done b (set_oracle o s).
Proof.
  unfold kmalloc. kunfold. destruct (oracle s) eqn:E; [|eauto].
  exists true, []. rewrite <- E. by destruct s.
Qed.

Lemma lock_create_any s : exists l o, lock_create s = Done l (set_oracle o s).
Proof.
  unfold lock_create, kbind. destruct (kmalloc_any s) as ([] & o & ->); [|eauto]. cbn [negb].
  destruct (kmalloc_any (set_oracle o s)) as ([] & o1 & ->); [|eauto]. cbn [negb].
  destruct (kmalloc_any (set_oracle o1 (set_oracle o s))) as ([] & o2 & ->); eauto.
Qed.

Lemma cv_create_nil s : oracle s = [] -> cv_create s = Done (Some new_cv) s.
Proof. intros H. unfold cv_create, kbind. by repeat (rewrite kmalloc_nil by done; cbn [negb]). Qed.

Lemma of_read_eq s a o : ofiles s !! a = Some o -> of_read a s = Done o s.
Proof. intros H. unfold of_read. kunfold. by rewrite H. Qed.

Lemma of_update_eq s a o f :
  ofiles s !! a = Some o -> of_update a f s = Done tt (set_ofiles (fun m => <[a := f o]> m) s).
Proof. intros H. unfold of_update, kbind. by rewrite (of_read_eq _ _ _ H). Qed.

Lemma get_curproc_eq s a : curproc s = Some a -> get_curproc s = Done a s.
Proof. intros H. unfold get_curproc. kunfold. by rewrite H. Qed.

Lemma proc_read_eq s a p : procs s !! a = Some p -> proc_read a s = Done p s.
Proof. intros H. unfold proc_read. kunfold. by rewrite H. Qed.

Lemma proc_update_eq s a p f :
  procs s !! a = Some p ->
  proc_update a f s = Done tt (set_procs (fun m => <[a := f p]> m) s).
Proof. intros H. unfold proc_update. unfold kbind. by rewrite (proc_read_eq _ _ _ H). Qed.

End lemmas.

(** ** A concrete VFS

    For evaluating the system calls on examples: vnode 1 is the console (not
    seekable, reads give nothing), every other vnode is a file of zeros of size
    [st_size]; opening the console gives vnode 1, any other name vnode 2, an
    empty name an error; vnode 3 is on a broken disk, writing to it fails. *)

Definition demo_size : Z := 10.

#[global] Instance demo_vfs : Vfs unit := {
  vfs_open name flags mode w :=
    (if String.eqb name "" then inl EINVAL else if String.eqb name "con:" then inr 1 else inr 2, w);
  vfs_close v w := w;
  vop_incref v w := w;
  vop_decref v w := w;
  vop_read v off len w :=
    let n := if v =? 1 then 0 else Z.max 0 (Z.min len (demo_size - off)) in
    (mkio 0 (off + n) (len - n) (replicate (Z.to_nat n) 0), w);
  vop_write v off buf w :=
    (if v =? 3 then mkio EIO off (Z.of_nat (length buf)) []
     else mkio 0 (off + Z.of_nat (length buf)) 0 [], w);
  vop_stat v w := (inr demo_size, w);
  vop_isseekable v w := negb (v =? 1);
  vfs_setcurdir v w := (0, w);
  vfs_getcwd m buf len w := ((0, len, m), w);
  as_create w := (Some 1, w);
  as_copy a w := (inr a, w);
  as_destroy a w := w;
  as_activate a w := w
}.

#[global] Instance demo_vfs_laws : VfsLaws unit.
Proof.
  split.
  - intros v off len w Hlen. cbn. destruct (v =? 1); cbn; rewrite ?length_replicate; lia.
  - intros v off buf w. cbn. destruct (v =? 3); cbn; lia.
Qed.

(** Memory from [kmalloc] that happens to be zero. *)
Definition zero_proc : proc := mkproc "" 0 None None 0 0 0 [] None None [].

(** The kernel before [proc_bootstrap]. *)
Definition cold : kstate unit := mkk ∅ [] 0 false ∅ ∅ 0 None 100 [] ∅ tt.
