(* ===== verification/ProcTable.v ===== *)
(** * Processes and the process table, kern/proc/proc.c

    One definition per function of proc.c, over the shared state of [KState].
    [processTable.proc] is the list [ptable] of [PROC_MAX+1] entries, entry 0
    for the kernel process. *)

From stdpp Require Import base numbers list gmap strings.
From Stdlib Require Import ZArith Lia.
From S2P Require Import Prelude.
From S2P Require Import UserCopy.
From S2P Require Import KState.

Open Scope Z_scope.
Open Scope k_scope.

Section ops.
Context {W : Type} {HV : Vfs W}.

(** The index after [i] in the circular scan: slot 0 is skipped. *)
Definition wrap_pid (i : Z) : Z := if PROC_MAX <? i then 1 else i.

(** kern/proc/proc.c:89-96 (find_valid_pid): the scan. *)
Fixpoint find_loop (fuel : nat) (index last : Z) : K (kstate W) Z :=
  match fuel with
  | O => khalt OutOfFuel
  | S fuel' =>
      if index =? last then kret index else
      e <- ptable_read index ;;
      match e with
      | None => kret index
      | Some _ => find_loop fuel' (wrap_pid (index + 1)) last
      end
  end.

Definition scan_fuel : nat := Z.to_nat (PROC_MAX + 1).

(** kern/proc/proc.c:85-105 (find_valid_pid). *)
Definition find_valid_pid : K (kstate W) Z :=
  s <- kget ;;
  index <- find_loop scan_fuel (wrap_pid (last_pid s + 1)) (last_pid s) ;;
  if index =? last_pid s then kret (-1) else kret index.

(** kern/proc/proc.c:117-134 (proc_add): 0, or -1. *)
Definition proc_add (pid : Z) (a : option Z) : K (kstate W) Z :=
  if (pid <=? 0) || (PROC_MAX + 1 <? pid) || bool_decide (a = None) then kret (-1) else
  ptable_write pid a ;;;
  kmodify (set_last_pid pid) ;;;
  kret 0.

(** kern/proc/proc.c:144-152 (proc_remove). *)
Definition proc_remove (pid : Z) : K (kstate W) unit := ptable_write pid None.

(** kern/proc/proc.c:182-197 (proc_search). The entry is dereferenced without a
    test for NULL. *)
Definition proc_search (pid : Z) : K (kstate W) (option Z) :=
  if (pid <=? 0) || (PROC_MAX <? pid) then kret None else
  e <- ptable_read pid ;;
  match e with
  | None => khalt NullDeref
  | Some a =>
      p <- proc_read a ;;
      if negb (p_pid p =? pid) then kret None else kret (Some a)
  end.

(** [proc->fileTable[fd] = o] for the process at [a]. *)
Definition set_fd (a fd : Z) (o : option ofptr) : K (kstate W) unit :=
  proc_update a (p_set_fileTable (fun l => <[Z.to_nat fd := o]> l)).

(** kern/proc/proc.c:210-246 (console_init): 0, or -1. A failed [vfs_open] or
    [lock_create] frees the openfile and leaves the pointer in the table. *)
Definition console_init (a fd flag : Z) : K (kstate W) Z :=
  ok <- kmalloc ;;
  if negb ok then kret (-1) else
  ok <- kmalloc ;;
  if negb ok then set_fd a fd None ;;; kret (-1) else
  oa <- fresh_addr ;;
  set_fd a fd (Some (Heap oa)) ;;;
  r <- lift_world (vfs_open "con:" flag 420) ;;
  match r with
  | inl _ => kret (-1)
  | inr v =>
      l <- lock_create ;;
      match l with
      | None => lift_world_ (vfs_close v) ;;; kret (-1)
      | Some l =>
          kmodify (set_ofiles (fun m => <[Heap oa := mkof (Some v) 0 flag 1 (Some l)]> m)) ;;;
          kret 0
      end
  end.

(** kern/proc/proc.c:266-275 (proc_init): the scan that takes the slot it finds. *)
Fixpoint proc_init_loop (fuel : nat) (a index last : Z) : K (kstate W) unit :=
  match fuel with
  | O => khalt OutOfFuel
  | S fuel' =>
      if index =? last then kret tt else
      e <- ptable_read index ;;
      match e with
      | None =>
          ptable_write index (Some a) ;;;
          kmodify (set_last_pid index) ;;;
          proc_update a (p_set_pid index)
      | Some _ => proc_init_loop fuel' a (wrap_pid (index + 1)) last
      end
  end.

(** kern/proc/proc.c:257-302 (proc_init). *)
Definition proc_init (a : Z) : K (kstate W) Z :=
  proc_update a (p_set_pid (-1)) ;;;
  s <- kget ;;
  proc_init_loop scan_fuel a (wrap_pid (last_pid s + 1)) (last_pid s) ;;;
  p <- proc_read a ;;
  if p_pid p <=? 0 then kret (p_pid p) else
  proc_update a (p_set_status 0) ;;;
  proc_update a (p_set_parent (-1)) ;;;
  proc_update a (p_set_children []) ;;;
  c <- cv_create ;;
  proc_update a (p_set_cv c) ;;;
  l <- lock_create ;;
  proc_update a (p_set_locklock l) ;;;
  match c, l with
  | Some _, Some _ => kret (p_pid p)
  | _, _ => kret (-1)
  end.

(** [kfree] of a [struct proc]. *)
Definition proc_free (a : Z) : K (kstate W) unit :=
  proc_read a ;;; kmodify (set_procs (fun m => delete a m)).

(** kern/proc/proc.c:357-398 (proc_create). [g] is what the memory [kmalloc]
    returns holds; the fields the function does not set keep its values. *)
Definition proc_create (g : proc) (name : string) : K (kstate W) (option Z) :=
  ok <- kmalloc ;;
  if negb ok then kret None else
  ok <- kmalloc ;;
  if negb ok then kret None else
  a <- fresh_addr ;;
  kmodify (set_procs (fun m =>
    <[a := mkproc name 0 None None (p_status g) (p_pid g) (parent_pid g) (children_list g)
                  (p_cv g) (p_locklock g) (replicate (Z.to_nat OPEN_MAX) None)]> m)) ;;;
  if String.eqb name "[kernel]" then kret (Some a) else
  r <- proc_init a ;;
  if r <=? 0 then proc_free a ;;; kret None else kret (Some a).

(** kern/proc/proc.c:672-695 (add_new_child): 0, or -1 with the list unchanged. *)
Definition add_new_child (a child_pid : Z) : K (kstate W) Z :=
  p <- proc_read a ;;
  ok <- kmalloc ;;
  if negb ok then kret (-1) else
  proc_update a (p_set_children (children_list p ++ [child_pid])) ;;;
  kret 0.

(** kern/proc/proc.c:710-726 (destroy_child_list): the loop over the cells. *)
Fixpoint destroy_child_loop (a : Z) (app : list Z) : K (kstate W) Z :=
  match app with
  | [] => kret 0
  | pid :: rest =>
      proc_update a (p_set_children rest) ;;;
      child <- proc_search pid ;;
      match child with
      | None => kret (-1)
      | Some c => proc_update c (p_set_parent (-1)) ;;; destroy_child_loop a rest
      end
  end.

(** kern/proc/proc.c:705-729 (destroy_child_list). *)
Definition destroy_child_list (a : Z) : K (kstate W) Z :=
  p <- proc_read a ;; destroy_child_loop a (children_list p).

(** kern/proc/proc.c:742-753 (remove_child_from_list): the list without the first
    cell for [child_pid]; [None] when there is none. *)
Fixpoint remove_child (l : list Z) (child_pid : Z) : option (list Z) :=
  match l with
  | [] => None
  | x :: rest =>
      if x =? child_pid then Some rest
      else match remove_child rest child_pid with
           | None => None
           | Some rest' => Some (x :: rest')
           end
  end.

(** kern/proc/proc.c:737-756 (remove_child_from_list). *)
Definition remove_child_from_list (a child_pid : Z) : K (kstate W) Z :=
  p <- proc_read a ;;
  match remove_child (children_list p) child_pid with
  | None => kret (-1)
  | Some l => proc_update a (p_set_children l) ;;; kret 0
  end.

(** kern/proc/proc.c:769-776 (is_child): the search loop. *)
Fixpoint is_child_loop (l : list Z) (child_pid : Z) : Z :=
  match l with
  | [] => -1
  | x :: rest => if x =? child_pid then 0 else is_child_loop rest child_pid
  end.

(** kern/proc/proc.c:765-777 (is_child). *)
Definition is_child (a child_pid : Z) : K (kstate W) Z :=
  p <- proc_read a ;; kret (is_child_loop (children_list p) child_pid).

(** kern/proc/proc.c:339-341 (proc_deinit): the parent's [struct proc]; the
    kernel process is not found by [proc_search]. *)
Definition find_parent (ppid : Z) : K (kstate W) (option Z) :=
  parent <- proc_search ppid ;;
  s <- kget ;;
  match kproc s with
  | None => khalt NullDeref
  | Some k =>
      kp <- proc_read k ;;
      kret (if ppid =? p_pid kp then Some k else parent)
  end.

(** kern/proc/proc.c:311-352 (proc_deinit). *)
Definition proc_deinit (a : Z) : K (kstate W) Z :=
  p <- proc_read a ;;
  let index := p_pid p in
  if (index <=? 0) || (PROC_MAX <? index) then kret (-1) else
  ptable_write index None ;;;
  cv_destroy (p_cv p) ;;;
  lock_destroy (p_locklock p) ;;;
  r <- destroy_child_list a ;;
  if r =? -1 then kret (-1) else
  p <- proc_read a ;;
  if parent_pid p =? -1 then kret 0 else
  parent <- find_parent (parent_pid p) ;;
  match parent with
  | None => kret (-1)
  | Some pa =>
      r <- remove_child_from_list pa (p_pid p) ;;
      if r =? -1 then kret (-1) else kret 0
  end.

(** kern/proc/proc.c:652-665 (proc_setas): the old address space. *)
Definition proc_setas (newas : option Z) : K (kstate W) (option Z) :=
  s <- kget ;;
  match curproc s with
  | None => khalt KAssert
  | Some a =>
      p <- proc_read a ;;
      proc_update a (p_set_addrspace newas) ;;;
      kret (p_addrspace p)
  end.

(** kern/proc/proc.c:632-646 (proc_getas). *)
Definition proc_getas : K (kstate W) (option Z) :=
  s <- kget ;;
  match curproc s with
  | None => kret None
  | Some a => p <- proc_read a ;; kret (p_addrspace p)
  end.

(** kern/proc/proc.c:406-491 (proc_destroy). [as_deactivate] does nothing in
    this configuration. *)
Definition proc_destroy (a : Z) : K (kstate W) unit :=
  s <- kget ;;
  kassert (negb (bool_decide (kproc s = Some a))) ;;;
  p <- proc_read a ;;
  match p_cwd p with
  | Some v => lift_world_ (vop_decref v) ;;; proc_update a (p_set_cwd None)
  | None => kret tt
  end ;;;
  match p_addrspace p with
  | Some asp =>
      (if bool_decide (curproc s = Some a)
       then proc_setas None ;;; kret tt
       else proc_update a (p_set_addrspace None)) ;;;
      lift_world_ (as_destroy asp)
  | None => kret tt
  end ;;;
  kassert (p_numthreads p =? 0) ;;;
  r <- proc_deinit a ;;
  if negb (r =? 0) then khalt PanicCall else
  proc_free a.

(** kern/proc/proc.c:496-517 (proc_bootstrap). *)
Definition proc_bootstrap (g : proc) : K (kstate W) unit :=
  k <- proc_create g "[kernel]" ;;
  kmodify (set_kproc k) ;;;
  match k with
  | None => khalt PanicCall
  | Some _ =>
      kmodify (set_ptable (fun _ => k :: replicate (Z.to_nat PROC_MAX) None)) ;;;
      kmodify (set_active true) ;;;
      kmodify (set_last_pid 0)
  end.

(** kern/proc/proc.c:525-565 (proc_create_runprogram). *)
Definition proc_create_runprogram (g : proc) (name : string) : K (kstate W) (option Z) :=
  np <- proc_create g name ;;
  match np with
  | None => kret None
  | Some a =>
      proc_update a (p_set_addrspace None) ;;;
      r <- console_init a 0 O_RDONLY ;;
      if r =? -1 then kret None else
      r <- console_init a 1 O_WRONLY ;;
      if r =? -1 then kret None else
      r <- console_init a 2 O_WRONLY ;;
      if r =? -1 then kret None else
      c <- get_curproc ;;
      cp <- proc_read c ;;
      match p_cwd cp with
      | Some v => lift_world_ (vop_incref v) ;;; proc_update a (p_set_cwd (Some v))
      | None => kret tt
      end ;;;
      kret (Some a)
  end.

(** kern/proc/proc.c:576-592 (proc_addthread). *)
Definition proc_addthread (a t : Z) : K (kstate W) Z :=
  s <- kget ;;
  kassert (bool_decide (t_proc s !! t = None)) ;;;
  p <- proc_read a ;;
  proc_update a (p_set_numthreads (u32 (p_numthreads p + 1))) ;;;
  kmodify (set_t_proc (fun m => <[t := a]> m)) ;;;
  kret 0.

(** kern/proc/proc.c:603-620 (proc_remthread). *)
Definition proc_remthread (t : Z) : K (kstate W) unit :=
  s <- kget ;;
  match t_proc s !! t with
  | None => khalt KAssert
  | Some a =>
      p <- proc_read a ;;
      kassert (0 <? p_numthreads p) ;;;
      proc_update a (p_set_numthreads (p_numthreads p - 1)) ;;;
      kmodify (set_t_proc (fun m => delete t m))
  end.

End ops.

(** ** Specification vocabulary *)

Section spec.
Context {W : Type} {HV : Vfs W}.
Implicit Types s : kstate W.

(** Entry [i] of the process table. *)
Definition slot s (i : Z) : option Z := default None (ptable s !! Z.to_nat i).

(** The slot [k] steps after [last] in circular order, slot 0 left out. *)
Definition circ (last k : Z) : Z := if PROC_MAX <? last + k then last + k - PROC_MAX else last + k.

(** The table is set up: its size is right, the cursor is one of its indices,
    and, while no process has been created yet (cursor 0), there is room. *)
Definition table_ok s : Prop :=
  length (ptable s) = Z.to_nat (PROC_MAX + 1) /\
  0 <= last_pid s <= PROC_MAX /\
  (last_pid s = 0 -> exists i, 1 <= i <= PROC_MAX /\ slot s i = None).

(** [a] is the address of a process in slot [i], with contents [p]. *)
Definition at_pid s (i a : Z) (p : proc) : Prop :=
  1 <= i <= PROC_MAX /\ slot s i = Some a /\ procs s !! a = Some p.

(** [a] is a process of the system: in the table, or the kernel process. *)
Definition registered s (a : Z) (p : proc) : Prop :=
  (exists i, at_pid s i a p) \/ (kproc s = Some a /\ procs s !! a = Some p).

(** The process table invariant:
    - an entry points to a live [struct proc] that knows its own index;
    - the kernel process is live, and its [p_pid], which nothing initialises, is
      not one that means a user process or "no parent";
    - children lists are lists of distinct pids of other live processes, each of
      which names the list's owner as its parent;
    - a process with a parent is in its parent's list. *)
Record family_ok s : Prop := {
  fo_table : table_ok s;
  fo_live : forall i a, 1 <= i <= PROC_MAX -> slot s i = Some a ->
    exists p, procs s !! a = Some p /\ p_pid p = i;
  fo_kproc : exists k kp, kproc s = Some k /\ procs s !! k = Some kp /\
    (p_pid kp <= 0 \/ PROC_MAX < p_pid kp) /\ p_pid kp <> -1;
  fo_nodup : forall a p, registered s a p -> NoDup (children_list p);
  fo_child : forall a p c, registered s a p -> c ∈ children_list p ->
    c <> p_pid p /\ exists ca cp, at_pid s c ca cp /\ parent_pid cp = p_pid p;
  fo_parent : forall i a p, at_pid s i a p -> parent_pid p <> -1 ->
    exists pa pp, registered s pa pp /\ p_pid pp = parent_pid p /\ i ∈ children_list pp;
  fo_fresh : forall a p, procs s !! a = Some p -> a < nextaddr s
}.

(** [s'] is [s] with another process store. *)
Definition procs_only s s' : Prop := s' = set_procs (fun _ => procs s') s.

(** ** Lemmas: single accesses *)

Lemma ptable_read_eq s i :
  length (ptable s) = Z.to_nat (PROC_MAX + 1) -> 0 <= i <= PROC_MAX ->
  ptable_read i s = Done (slot s i) s.
Proof.
  intros Hlen Hi. unfold ptable_read, slot, PROC_MAX in *. kunfold.
  destruct (ptable s !! Z.to_nat i) eqn:E.
  - by rewrite (proj2 (Z.ltb_ge _ _)) by lia.
  - apply lookup_ge_None in E. lia.
Qed.

Lemma ptable_write_eq s i e :
  length (ptable s) = Z.to_nat (PROC_MAX + 1) -> 0 <= i <= PROC_MAX ->
  ptable_write i e s = Done tt (set_ptable (fun l => <[Z.to_nat i := e]> l) s).
Proof.
  intros Hlen Hi. unfold ptable_write. unfold kbind at 1. by rewrite ptable_read_eq.
Qed.

Lemma slot_write s i j e :
  length (ptable s) = Z.to_nat (PROC_MAX + 1) -> 0 <= i <= PROC_MAX -> 0 <= j ->
  slot (set_ptable (fun l => <[Z.to_nat i := e]> l) s) j = if decide (i = j) then e else slot s j.
Proof.
  intros Hlen Hi Hj. unfold slot. cbn. unfold PROC_MAX in *. case_decide; subst.
  - rewrite list_lookup_insert_eq by lia. done.
  - rewrite list_lookup_insert_ne by lia. done.
Qed.

Lemma wrap_circ last k :
  0 <= last <= PROC_MAX -> 1 <= k < PROC_MAX -> wrap_pid (circ last k + 1) = circ last (k + 1).
Proof.
  intros Hl Hk. unfold wrap_pid, circ, PROC_MAX in *.
  repeat (case_match; bool_to_prop); lia.
Qed.

Lemma circ_range last k :
  0 <= last <= PROC_MAX -> 1 <= k <= PROC_MAX -> 1 <= circ last k <= PROC_MAX.
Proof.
  intros Hl Hk. unfold circ, PROC_MAX in *. case_match; bool_to_prop; lia.
Qed.

Lemma circ_last last k :
  0 <= last <= PROC_MAX -> 1 <= k <= PROC_MAX -> circ last k = last <-> 1 <= last /\ k = PROC_MAX.
Proof.
  intros Hl Hk. unfold circ, PROC_MAX in *. case_match; bool_to_prop; lia.
Qed.

Lemma circ_inv last i :
  0 <= last <= PROC_MAX -> 1 <= i <= PROC_MAX ->
  exists k, 1 <= k <= PROC_MAX /\ circ last k = i.
Proof.
  intros Hl Hi. exists (if last <? i then i - last else i + PROC_MAX - last).
  unfold circ, PROC_MAX in *. repeat (case_match; bool_to_prop); lia.
Qed.

(** ** Lemmas: the circular scan *)

Lemma find_loop_spec s fuel k :
  table_ok s -> 1 <= k <= PROC_MAX -> PROC_MAX - k < Z.of_nat fuel ->
  (forall j, 1 <= j < k -> slot s (circ (last_pid s) j) <> None) ->
  exists k', k <= k' <= PROC_MAX /\
    find_loop fuel (circ (last_pid s) k) (last_pid s) s = Done (circ (last_pid s) k') s /\
    (forall j, 1 <= j < k' -> slot s (circ (last_pid s) j) <> None) /\
    (circ (last_pid s) k' = last_pid s \/ slot s (circ (last_pid s) k') = None).
Proof.
  intros (Hlen & Hlast & Hroom). revert k.
  induction fuel as [|fuel IH]; intros k Hk Hfuel Hused; [lia|]. cbn [find_loop].
  pose proof (circ_range (last_pid s) k Hlast Hk) as Hr.
  destruct (Z.eqb_spec (circ (last_pid s) k) (last_pid s)) as [Heq|Hne].
  { exists k. unfold kret. split_and!; [lia..|done|done|by left]. }
  unfold kbind. rewrite ptable_read_eq by (done || lia).
  destruct (slot s (circ (last_pid s) k)) eqn:Es.
  2: { exists k. split_and!; [lia..|done|done|by right]. }
  assert (Hused' : forall j, 1 <= j < k + 1 -> slot s (circ (last_pid s) j) <> None).
  { intros j Hj. destruct (Z.eq_dec j k) as [->|]; [by rewrite Es|apply Hused; lia]. }
  assert (k < PROC_MAX).
  { destruct (Z.eq_dec k PROC_MAX) as [->|]; [|lia].
    destruct (Z.eq_dec (last_pid s) 0) as [H0|H0].
    - destruct (Hroom H0) as (i & Hi & Hfree).
      destruct (circ_inv (last_pid s) i Hlast Hi) as (j & Hj & <-).
      destruct (Hused' j ltac:(lia)). done.
    - destruct Hne. apply circ_last; lia. }
  rewrite wrap_circ by lia.
  destruct (IH (k + 1)) as (k' & Hk' & Hrun & Hres); [lia..|done|].
  exists k'. split_and!; [lia..| |apply Hres|apply Hres]. done.
Qed.

Lemma wrap_start s : table_ok s -> wrap_pid (last_pid s + 1) = circ (last_pid s) 1.
Proof.
  intros (_ & Hl & _). unfold wrap_pid, circ, PROC_MAX in *. repeat (case_match; bool_to_prop); lia.
Qed.

(** Both scans visit the same slots; the one in [proc_init] takes what it finds. *)
Lemma proc_init_loop_find fuel a p index s :
  length (ptable s) = Z.to_nat (PROC_MAX + 1) -> 1 <= index <= PROC_MAX ->
  procs s !! a = Some p ->
  forall i s', find_loop fuel index (last_pid s) s = Done i s' ->
  s' = s /\
  proc_init_loop fuel a index (last_pid s) s =
    if i =? last_pid s then Done tt s
    else Done tt (set_procs (fun m => <[a := p_set_pid i p]> m)
            (set_last_pid i (set_ptable (fun l => <[Z.to_nat i := Some a]> l) s))).
Proof.
  intros Hlen Hi Hp. revert index Hi. induction fuel as [|fuel IH]; intros index Hi i s'; [done|].
  cbn [find_loop proc_init_loop]. destruct (Z.eqb_spec index (last_pid s)) as [->|Hne].
  { unfold kret. intros [= <- <-]. by rewrite Z.eqb_refl. }
  unfold kbind at 1 2. rewrite ptable_read_eq by (done || lia).
  destruct (slot s index) as [a'|].
  - intros Hrun. apply IH in Hrun; [done|]. unfold wrap_pid, PROC_MAX in *.
    case_match; bool_to_prop; lia.
  - unfold kret. intros [= <- <-]. rewrite (proj2 (Z.eqb_neq _ _)) by done. split; [done|].
    unfold kbind. rewrite ptable_write_eq by (done || lia). unfold kmodify.
    by erewrite proc_update_eq.
Qed.

Lemma find_valid_pid_run s :
  table_ok s ->
  exists r, find_valid_pid s = Done r s /\
    ((r = -1 /\ forall i, 1 <= i <= PROC_MAX -> i <> last_pid s -> slot s i <> None) \/
     (r <> last_pid s /\ exists k, 1 <= k <= PROC_MAX /\ r = circ (last_pid s) k /\ slot s r = None /\
        forall j, 1 <= j < k -> slot s (circ (last_pid s) j) <> None)).
Proof.
  intros Hok. pose proof Hok as (Hlen & Hlast & _).
  unfold find_valid_pid, kbind, kget. rewrite wrap_start by done.
  destruct (find_loop_spec s scan_fuel 1 Hok) as (k & Hk & -> & Hused & Hend);
    [unfold scan_fuel, PROC_MAX in *; lia..|].
  destruct (Z.eqb_spec (circ (last_pid s) k) (last_pid s)) as [Heq|Hne]; eexists; (split; [done|]).
  - left. split; [done|]. intros i Hi Hil.
    apply circ_last in Heq as [? ->]; [|lia..].
    destruct (circ_inv (last_pid s) i Hlast Hi) as (j & Hj & <-).
    apply Hused. destruct (Z.eq_dec j PROC_MAX) as [->|]; [|lia].
    destruct Hil. apply circ_last; unfold PROC_MAX in *; lia.
  - right. destruct Hend as [|Hfree]; [done|]. split; [done|]. exists k. split_and!; auto; lia.
Qed.

(** ** Lemmas: destroying a process *)

Lemma at_pid_inj s i j a p q :
  family_ok s -> at_pid s i a p -> at_pid s j a q -> i = j.
Proof.
  intros Hf (Hi & Hsi & Hpi) (Hj & Hsj & Hpj).
  destruct (fo_live s Hf i a Hi Hsi) as (? & ? & <-).
  destruct (fo_live s Hf j a Hj Hsj) as (? & ? & <-). congruence.
Qed.

Lemma at_pid_self s i a p : family_ok s -> at_pid s i a p -> p_pid p = i.
Proof.
  intros Hf (Hi & Hs & Hp). destruct (fo_live s Hf i a Hi Hs) as (? & ? & ?). congruence.
Qed.

Lemma proc_search_eq s i a p :
  length (ptable s) = Z.to_nat (PROC_MAX + 1) -> at_pid s i a p -> p_pid p = i ->
  proc_search i s = Done (Some a) s.
Proof.
  intros Hlen (Hi & Hs & Hp) Hpid. unfold proc_search, PROC_MAX in *.
  destruct (Z.leb_spec i 0), (Z.ltb_spec 100 i); try lia. cbn [orb].
  unfold kbind. rewrite ptable_read_eq by (done || unfold PROC_MAX; lia). rewrite Hs.
  rewrite (proc_read_eq _ _ _ Hp). by rewrite (proj2 (Z.eqb_eq _ _) Hpid).
Qed.

(** The addresses of the processes with pids [cs]. *)
Definition addr_of_any s (cs : list Z) (x : Z) : bool :=
  existsb (fun c => bool_decide (slot s c = Some x)) cs.

Lemma addr_of_any_iff s cs x : addr_of_any s cs x = true <-> exists c, c ∈ cs /\ slot s c = Some x.
Proof.
  unfold addr_of_any. rewrite existsb_exists. split; intros (c & Hc & Hs); exists c;
    rewrite list_elem_of_In in *; (split; [done|]); by apply bool_decide_eq_true in Hs || apply bool_decide_eq_true.
Qed.

Lemma p_set_children_id p : children_list p = [] -> p_set_children [] p = p.
Proof. destruct p. cbn. by intros ->. Qed.

(** [destroy_child_list] empties the list and makes every child an orphan. *)
Lemma destroy_child_loop_spec app : forall s a p,
  length (ptable s) = Z.to_nat (PROC_MAX + 1) ->
  procs s !! a = Some p -> children_list p = app -> NoDup app ->
  (forall c, c ∈ app -> exists ca cp, at_pid s c ca cp /\ p_pid cp = c /\ ca <> a) ->
  exists s', destroy_child_loop a app s = Done 0 s' /\ procs_only s s' /\
    procs s' !! a = Some (p_set_children [] p) /\
    forall x, x <> a ->
      procs s' !! x = (fun q => if addr_of_any s app x then p_set_parent (-1) q else q) <$> procs s !! x.
Proof.
  induction app as [|c app IH]; intros s a p Hlen Hp Happ Hnd Hch; cbn [destroy_child_loop].
  { exists s. unfold kret. split_and!; [done|by destruct s|by rewrite p_set_children_id|].
    intros x Hx. unfold addr_of_any. cbn. by destruct (procs s !! x). }
  destruct (Hch c) as (ca & cp & Hat & Hpid & Hne); [by left|].
  apply NoDup_cons in Hnd as [Hcn Hnd].
  unfold kbind. rewrite (proc_update_eq _ _ _ _ Hp). pose proof Hat as (Hc & Hslot & Hcp).
  set (s1 := set_procs (fun m => <[a := p_set_children app p]> m) s).
  assert (Hcp1 : procs s1 !! ca = Some cp) by (cbn; by rewrite lookup_insert_ne).
  rewrite (proc_search_eq s1 c ca cp) by done.
  rewrite (proc_update_eq _ _ _ _ Hcp1).
  set (s2 := set_procs (fun m => <[ca := p_set_parent (-1) cp]> m) s1).
  destruct (IH s2 a (p_set_children app p)) as (s' & Hrun & Hpo & Ha & Hx); [done| |done|done| |].
  - cbn. by rewrite lookup_insert_ne, lookup_insert_eq.
  - intros d Hd. destruct (Hch d) as (da & dp & Hdat & Hdpid & Hdne); [by right|].
    destruct Hdat as (Hd1 & Hdslot & Hdp). exists da, dp. unfold at_pid.
    split_and!; try done; try lia. cbn. rewrite !lookup_insert_ne; try done.
    intros ->. rewrite Hcp in Hdp. injection Hdp as <-. congruence.
  - exists s'. rewrite Hrun. split_and!; [done| |done|].
    + unfold procs_only in *. rewrite Hpo. by destruct s.
    + intros x Hxa. rewrite Hx by done. cbn [procs s2 s1 set_procs].
      change (addr_of_any s2 app x) with (addr_of_any s app x).
      unfold addr_of_any at 2. cbn [existsb]. fold (addr_of_any s app x).
      destruct (decide (ca = x)) as [<-|Hcx].
      * rewrite lookup_insert_eq, Hcp. cbn. rewrite bool_decide_eq_true_2 by done. cbn.
        by destruct (addr_of_any s app ca).
      * rewrite lookup_insert_ne by done. rewrite lookup_insert_ne by done.
        rewrite (bool_decide_eq_false_2 (slot s c = Some x)) by congruence. done.
Qed.

Lemma remove_child_spec l i :
  NoDup l -> i ∈ l ->
  exists l', remove_child l i = Some l' /\ NoDup l' /\ forall c, c ∈ l' <-> c ∈ l /\ c <> i.
Proof.
  induction l as [|x l IH]; intros Hnd Hi; [by apply not_elem_of_nil in Hi|].
  apply NoDup_cons in Hnd as [Hx Hnd]. cbn [remove_child].
  destruct (Z.eqb_spec x i) as [->|Hne].
  - exists l. split_and!; [done..|]. intros c. rewrite elem_of_cons.
    split; [|naive_solver]. intros Hc. split; [auto|]. by intros ->.
  - apply elem_of_cons in Hi as [|Hi]; [done|]. destruct (IH Hnd Hi) as (l' & -> & Hnd' & Hl').
    exists (x :: l'). split_and!; [done| |].
    + apply NoDup_cons. split; [|done]. rewrite Hl'. tauto.
    + intros c. rewrite !elem_of_cons, Hl'. naive_solver.
Qed.

(** The address of the parent of a process. *)
Definition parent_addr s (p : proc) : option Z :=
  if parent_pid p =? -1 then None
  else if (1 <=? parent_pid p) && (parent_pid p <=? PROC_MAX) then slot s (parent_pid p)
  else kproc s.

(** A child of [p] becomes an orphan. *)
Definition orphan s (p : proc) (x : Z) (q : proc) : proc :=
  if addr_of_any s (children_list p) x then p_set_parent (-1) q else q.

(** What becomes of another process [q], at [x], when process [p] with pid [i]
    goes away: a child becomes an orphan, the parent forgets [i]. *)
Definition bereaved s i (p : proc) (x : Z) (q : proc) : proc :=
  let q1 := orphan s p x q in
  if bool_decide (parent_addr s p = Some x)
  then p_set_children (default (children_list q) (remove_child (children_list q) i)) q1
  else q1.

(** [s'] is [s] without process [a]: its slot is free, its memory is gone, its
    children are orphans and its parent has forgotten it. *)
Definition destroyed s i a p s' : Prop :=
  s' = mkk (procs s') (<[Z.to_nat i := None]> (ptable s)) (last_pid s) (is_active s) (ofiles s)
           (t_proc s) (curthread s) (kproc s) (nextaddr s) (oracle s) (umem s) (world s') /\
  procs s' !! a = None /\
  forall x, x <> a -> procs s' !! x = bereaved s i p x <$> procs s !! x.

(** The process is not in use: no thread, nobody waiting for it. *)
Definition idle p : Prop :=
  p_numthreads p = 0 /\
  (exists c, p_cv p = Some c /\ cv_wchan c = []) /\
  (exists l, p_locklock p = Some l /\ lk_wchan l = []).

Lemma registered_procs s a p : registered s a p -> procs s !! a = Some p.
Proof. intros [[? (_ & _ & ?)]|[_ ?]]; done. Qed.

Lemma registered_range s a p :
  family_ok s -> registered s a p ->
  (1 <= p_pid p <= PROC_MAX /\ slot s (p_pid p) = Some a) \/
  (kproc s = Some a /\ (p_pid p <= 0 \/ PROC_MAX < p_pid p) /\ p_pid p <> -1).
Proof.
  intros Hf [[i Ha]|[Hk Hp]].
  - left. rewrite (at_pid_self _ _ _ _ Hf Ha). by destruct Ha as (? & ? & _).
  - right. destruct (fo_kproc s Hf) as (k & kp & Hk' & Hkp & Hkr & ?). simplify_eq. done.
Qed.

Lemma registered_pid s a p b q :
  family_ok s -> registered s a p -> registered s b q -> p_pid p = p_pid q -> a = b.
Proof.
  intros Hf Ha Hb Hpid. apply registered_range in Ha, Hb; try done. rewrite Hpid in *.
  destruct Ha as [[? ?]|(? & ? & ?)], Hb as [[? ?]|(? & ? & ?)]; try lia; congruence.
Qed.

Lemma parent_addr_eq s a p pa pp :
  family_ok s -> registered s pa pp -> p_pid pp = parent_pid p -> parent_pid p <> -1 ->
  procs s !! a = Some p -> parent_addr s p = Some pa.
Proof.
  intros Hf Hreg Hpid Hne Hp. unfold parent_addr. rewrite (proj2 (Z.eqb_neq _ _)) by done.
  apply registered_range in Hreg; [|done]. rewrite Hpid in Hreg.
  destruct Hreg as [[? ?]|(? & ? & ?)];
    destruct (Z.leb_spec 1 (parent_pid p)), (Z.leb_spec (parent_pid p) PROC_MAX); (done || lia).
Qed.

Lemma family_kproc_ne s i a p k : family_ok s -> at_pid s i a p -> kproc s = Some k -> k <> a.
Proof.
  intros Hf Hat Hk ->. destruct (fo_kproc s Hf) as (k & kp & Hk' & Hkp & Hkr & _).
  pose proof (at_pid_self _ _ _ _ Hf Hat). destruct Hat as (? & ? & ?). simplify_eq. lia.
Qed.

(** The state just after [proc_deinit] has cleared the table entry. *)
Abbreviation unslotted s i := (set_ptable (fun l => <[Z.to_nat i := None]> l) s).

Lemma family_kids s i a p d :
  family_ok s -> at_pid s i a p -> d ∈ children_list p ->
  exists ca cp, at_pid s d ca cp /\ p_pid cp = d /\ ca <> a /\ d <> i.
Proof.
  intros Hf Hat Hd. pose proof (at_pid_self _ _ _ _ Hf Hat) as Hpid.
  destruct (fo_child s Hf a p d) as (Hdp & ca & cp & Hcat & _); [left; eauto|done|].
  exists ca, cp. pose proof (at_pid_self _ _ _ _ Hf Hcat). split_and!; [done..| |by rewrite <- Hpid].
  intros ->. pose proof (at_pid_inj _ _ _ _ _ _ Hf Hcat Hat). congruence.
Qed.

Lemma slot_unslotted s i j :
  table_ok s -> 1 <= i <= PROC_MAX -> 0 <= j -> j <> i -> slot (unslotted s i) j = slot s j.
Proof. intros (Hlen & _) Hi Hj Hne. rewrite slot_write by (done || lia). by rewrite decide_False. Qed.

Lemma addr_of_any_unslotted s i a p x :
  family_ok s -> at_pid s i a p ->
  addr_of_any (unslotted s i) (children_list p) x = addr_of_any s (children_list p) x.
Proof.
  intros Hf Hat. apply Bool.eq_iff_eq_true. rewrite !addr_of_any_iff.
  split; intros (d & Hd & Hs); exists d; (split; [done|]);
    destruct (family_kids _ _ _ _ _ Hf Hat Hd) as (? & ? & (? & ? & ?) & ? & ? & ?);
    destruct Hat; rewrite slot_unslotted in * by (apply Hf || lia || done); done.
Qed.

Lemma deinit_children s i a p :
  family_ok s -> at_pid s i a p ->
  exists s1, destroy_child_list a (unslotted s i) = Done 0 s1 /\
    procs_only (unslotted s i) s1 /\
    procs s1 !! a = Some (p_set_children [] p) /\
    forall x, x <> a -> procs s1 !! x = orphan s p x <$> procs s !! x.
Proof.
  intros Hf Hat. pose proof Hat as (Hi & Hslot & Hp). destruct (fo_table s Hf) as (Hlen & _).
  unfold destroy_child_list, kbind. rewrite (proc_read_eq (unslotted s i) a p) by done.
  destruct (destroy_child_loop_spec (children_list p) (unslotted s i) a p)
    as (s1 & -> & Hpo & Ha1 & Hx1); try done.
  { cbn. by rewrite length_insert. }
  { apply (fo_nodup s Hf a). left. eauto. }
  { intros d Hd. destruct (family_kids _ _ _ _ _ Hf Hat Hd) as (ca & cp & (? & ? & ?) & ? & ? & ?).
    exists ca, cp. split_and!; try done. split_and!; try done; try lia.
    rewrite slot_unslotted; [done|apply Hf|lia..|done]. }
  exists s1. split_and!; try done. intros x Hx. rewrite Hx1 by done. cbn.
  unfold orphan. by rewrite (addr_of_any_unslotted _ _ _ _ _ Hf Hat).
Qed.

Lemma orphan_pid s p x q : p_pid (orphan s p x q) = p_pid q.
Proof. unfold orphan. by case_match. Qed.

Lemma orphan_children s p x q : children_list (orphan s p x q) = children_list q.
Proof. unfold orphan. by case_match. Qed.

Lemma find_parent_run s s1 i a p pa pp :
  family_ok s -> at_pid s i a p -> parent_pid p <> -1 ->
  registered s pa pp -> p_pid pp = parent_pid p -> pa <> a ->
  procs_only (unslotted s i) s1 ->
  (forall x, x <> a -> procs s1 !! x = orphan s p x <$> procs s !! x) ->
  find_parent (parent_pid p) s1 = Done (Some pa) s1.
Proof.
  intros Hf Hat Hne Hreg Hpid Hpa Hpo Hx. destruct (fo_table s Hf) as (Hlen & _).
  destruct (fo_kproc s Hf) as (k & kp & Hk & Hkp & Hkr & Hk1).
  pose proof (family_kproc_ne _ _ _ _ _ Hf Hat Hk) as Hka.
  assert (Hkp1 : procs s1 !! k = Some (orphan s p k kp)) by (rewrite Hx, Hkp by done; done).
  assert (Hpp1 : procs s1 !! pa = Some (orphan s p pa pp))
    by (rewrite Hx, (registered_procs _ _ _ Hreg) by done; done).
  assert (Hk1' : kproc s1 = Some k) by (by rewrite Hpo).
  assert (Hpt : ptable s1 = ptable (unslotted s i)) by (by rewrite Hpo).
  unfold find_parent, kbind, kget.
  destruct (registered_range _ _ _ Hf Hreg) as [[Hr Hs]|(Hk' & Hr & _)]; rewrite Hpid in *.
  - rewrite (proc_search_eq s1 (parent_pid p) pa (orphan s p pa pp)).
    + rewrite Hk1', (proc_read_eq _ _ _ Hkp1), orphan_pid, (proj2 (Z.eqb_neq _ _)) by lia. done.
    + rewrite Hpt. cbn. by rewrite length_insert.
    + split_and!; [lia..| |done]. unfold slot. rewrite Hpt. fold (slot (unslotted s i) (parent_pid p)).
      destruct Hat as (Hi & Hsi & Hp).
      rewrite slot_unslotted; [done|apply Hf|lia..|congruence].
    + by rewrite orphan_pid.
  - assert (k = pa) as -> by congruence. unfold proc_search.
    rewrite (proj2 (orb_true_iff (_ <=? _) _)) by (rewrite Z.leb_le, Z.ltb_lt; lia).
    unfold kret. rewrite Hk1', (proc_read_eq _ _ _ Hkp1), orphan_pid.
    pose proof (registered_procs _ _ _ Hreg). simplify_eq. by rewrite Hpid, Z.eqb_refl.
Qed.

Lemma family_parent s i a p :
  family_ok s -> at_pid s i a p -> parent_pid p <> -1 ->
  exists pa pp, registered s pa pp /\ p_pid pp = parent_pid p /\ i ∈ children_list pp /\ pa <> a.
Proof.
  intros Hf Hat Hpar. destruct (fo_parent s Hf i a p Hat Hpar) as (pa & pp & Hreg & Hppid & Hin).
  destruct (fo_child s Hf pa pp i Hreg Hin) as (Hine & _). exists pa, pp. split_and!; try done.
  intros ->. apply Hine. destruct Hat as (Hi & Hs & Hp).
  pose proof (registered_procs _ _ _ Hreg). simplify_eq. symmetry.
  apply (at_pid_self s i a p); done.
Qed.

Lemma proc_deinit_run s i a p :
  family_ok s -> at_pid s i a p -> idle p ->
  exists s1, proc_deinit a s = Done 0 s1 /\ procs_only (unslotted s i) s1 /\
    is_Some (procs s1 !! a) /\
    forall x, x <> a -> procs s1 !! x = bereaved s i p x <$> procs s !! x.
Proof.
  intros Hf Hat (Hth & (c & Hc & Hcw) & (l & Hl & Hlw)).
  pose proof Hat as (Hi & Hslot & Hp). pose proof (at_pid_self _ _ _ _ Hf Hat) as Hpid.
  destruct (fo_table s Hf) as (Hlen & _ & _).
  unfold proc_deinit, kbind. rewrite (proc_read_eq _ _ _ Hp). rewrite Hpid.
  destruct (Z.leb_spec i 0), (Z.ltb_spec PROC_MAX i); try lia. cbn [orb].
  rewrite ptable_write_eq by (done || lia).
  rewrite Hc, Hl. unfold cv_destroy, lock_destroy. rewrite Hcw, Hlw. cbn [kassert]. unfold kret.
  destruct (deinit_children s i a p Hf Hat) as (s1 & -> & Hpo & Ha1 & Hx1).
  rewrite (proj2 (Z.eqb_neq 0 (-1))) by done. rewrite (proc_read_eq _ _ _ Ha1).
  cbn [parent_pid p_pid p_set_children].
  destruct (Z.eqb_spec (parent_pid p) (-1)) as [Horph|Hpar].
  - exists s1. split_and!; [done|done|by rewrite Ha1|]. intros x Hxa. rewrite Hx1 by done.
    apply option_fmap_ext. intros q. unfold bereaved, parent_addr. by rewrite Horph.
  - destruct (family_parent _ _ _ _ Hf Hat Hpar) as (pa & pp & Hreg & Hppid & Hin & Hpa).
    rewrite (find_parent_run s s1 i a p pa pp) by done.
    unfold remove_child_from_list, kbind. pose proof (registered_procs _ _ _ Hreg) as Hpp.
    assert (Hpp1 : procs s1 !! pa = Some (orphan s p pa pp)) by (rewrite Hx1, Hpp by done; done).
    rewrite (proc_read_eq _ _ _ Hpp1), orphan_children, Hpid.
    destruct (remove_child_spec (children_list pp) i) as (cl & Hrem & _ & _);
      [by apply (fo_nodup s Hf pa)|done|].
    rewrite Hrem, (proc_update_eq _ _ _ _ Hpp1). cbn [Z.eqb].
    eexists. split_and!; [done|by unfold procs_only; rewrite Hpo|cbn; by rewrite lookup_insert_ne, Ha1|].
    intros x Hxa. cbn [procs set_procs]. unfold bereaved.
    rewrite (parent_addr_eq s a p pa pp) by done. destruct (decide (pa = x)) as [<-|Hpx].
    + rewrite lookup_insert_eq, Hpp. cbn. by rewrite bool_decide_eq_true_2, Hrem by done.
    + rewrite lookup_insert_ne, Hx1 by done. by rewrite bool_decide_eq_false_2 by congruence.
Qed.

(** ** The family invariant depends on the kinship fields only *)

Definition kin (p : proc) : Z * Z * list Z := (p_pid p, parent_pid p, children_list p).

(** [s'] has the table of [s] and processes with the same kinship fields. *)
Record kin_le s s' : Prop := {
  kl_ptable : ptable s' = ptable s;
  kl_last : last_pid s' = last_pid s;
  kl_kproc : kproc s' = kproc s;
  kl_next : nextaddr s <= nextaddr s';
  kl_procs : forall x, kin <$> procs s' !! x = kin <$> procs s !! x
}.

#[global] Instance kin_le_preorder : PreOrder kin_le.
Proof.
  split.
  - intros s. by split.
  - intros s1 s2 s3 [] []. split; [congruence..|lia|congruence].
Qed.

Lemma kin_lookup s s' x p' :
  kin_le s s' -> procs s' !! x = Some p' ->
  exists p, procs s !! x = Some p /\ kin p = kin p'.
Proof.
  intros Hk Hp. pose proof (kl_procs _ _ Hk x) as H. rewrite Hp in H. cbn in H.
  destruct (procs s !! x) as [p|]; cbn in H; [|done]. injection H as H. exists p.
  unfold kin. split; [done|]. congruence.
Qed.

Lemma kin_lookup_r s s' x p :
  kin_le s s' -> procs s !! x = Some p ->
  exists p', procs s' !! x = Some p' /\ kin p = kin p'.
Proof.
  intros Hk Hp. pose proof (kl_procs _ _ Hk x) as H. rewrite Hp in H. cbn in H.
  destruct (procs s' !! x) as [p'|]; cbn in H; [|done]. injection H as H. exists p'.
  unfold kin. split; [done|]. congruence.
Qed.

Lemma kin_at_pid s s' i x p :
  kin_le s s' -> at_pid s i x p -> exists p', at_pid s' i x p' /\ kin p = kin p'.
Proof.
  intros Hk (Hi & Hs & Hp). destruct (kin_lookup_r _ _ _ _ Hk Hp) as (p' & Hp' & Hkin).
  exists p'. split; [|done]. split_and!; try done; try lia.
  unfold slot. by rewrite (kl_ptable _ _ Hk).
Qed.

Lemma kin_at_pid_back s s' i x p' :
  kin_le s s' -> at_pid s' i x p' -> exists p, at_pid s i x p /\ kin p = kin p'.
Proof.
  intros Hk (Hi & Hs & Hp). destruct (kin_lookup _ _ _ _ Hk Hp) as (p & Hp' & Hkin).
  exists p. split; [|done]. split_and!; try done; try lia.
  unfold slot in *. by rewrite <- (kl_ptable _ _ Hk).
Qed.

Lemma kin_registered s s' x p :
  kin_le s s' -> registered s x p -> exists p', registered s' x p' /\ kin p = kin p'.
Proof.
  intros Hk [[i Hat]|[Hkp Hp]].
  - destruct (kin_at_pid _ _ _ _ _ Hk Hat) as (p' & ? & ?). exists p'. split; [left; eauto|done].
  - destruct (kin_lookup_r _ _ _ _ Hk Hp) as (p' & ? & ?). exists p'.
    split; [right; by rewrite (kl_kproc _ _ Hk)|done].
Qed.

Lemma kin_registered_back s s' x p' :
  kin_le s s' -> registered s' x p' -> exists p, registered s x p /\ kin p = kin p'.
Proof.
  intros Hk [[i Hat]|[Hkp Hp]].
  - destruct (kin_at_pid_back _ _ _ _ _ Hk Hat) as (p & ? & ?). exists p. split; [left; eauto|done].
  - destruct (kin_lookup _ _ _ _ Hk Hp) as (p & ? & ?). exists p.
    split; [right; by rewrite <- (kl_kproc _ _ Hk)|done].
Qed.

#[global] Instance family_ok_proper : Proper (kin_le ==> impl) family_ok.
Proof.
  intros s s' Hk Hf. pose proof Hk as [Hpt Hlast Hkp Hnext Hprocs].
  assert (Hslot : forall i, slot s' i = slot s i) by (intros; unfold slot; by rewrite Hpt).
  split.
  - destruct (fo_table s Hf) as (? & ? & Hroom). unfold table_ok. rewrite Hpt, Hlast.
    split_and!; try done; try lia. intros H0'. destruct (Hroom H0') as (i & ?). exists i. by rewrite Hslot.
  - intros i a Hi Hs. rewrite Hslot in Hs. destruct (fo_live s Hf i a Hi Hs) as (p & Hp & Hpid).
    destruct (kin_lookup_r _ _ _ _ Hk Hp) as (p' & ? & Hkin). exists p'. split; [done|].
    unfold kin in Hkin. congruence.
  - destruct (fo_kproc s Hf) as (k & kp & ? & Hp & ?).
    destruct (kin_lookup_r _ _ _ _ Hk Hp) as (kp' & ? & Hkin). exists k, kp'. unfold kin in Hkin.
    injection Hkin as <- ? ?. by rewrite Hkp.
  - intros a p' Hreg. destruct (kin_registered_back _ _ _ _ Hk Hreg) as (p & Hr & Hkin).
    injection Hkin as _ _ <-. by apply (fo_nodup s Hf a).
  - intros a p' c Hreg. destruct (kin_registered_back _ _ _ _ Hk Hreg) as (p & Hr & Hkin).
    injection Hkin as <- _ <-. intros Hc. destruct (fo_child s Hf a p c Hr Hc) as (? & ca & cp & Hat & ?).
    split; [done|]. destruct (kin_at_pid _ _ _ _ _ Hk Hat) as (cp' & Hat' & Hkin').
    injection Hkin' as _ ? _. exists ca, cp'. split; congruence.
  - intros i a p' Hat. destruct (kin_at_pid_back _ _ _ _ _ Hk Hat) as (p & Hr & Hkin).
    injection Hkin as _ <- _. intros Hne.
    destruct (fo_parent s Hf i a p Hr Hne) as (pa & pp & Hreg & ? & ?).
    destruct (kin_registered _ _ _ _ Hk Hreg) as (pp' & Hreg' & Hkin').
    injection Hkin' as Hpid' _ Hch'. exists pa, pp'. by rewrite <- Hpid', <- Hch'.
  - intros a p' Hp. destruct (kin_lookup _ _ _ _ Hk Hp) as (p & Hp' & _).
    pose proof (fo_fresh s Hf a p Hp'). lia.
Qed.

(** ** A destroyed process leaves a consistent family *)

Lemma bereaved_pid s i p x q : p_pid (bereaved s i p x q) = p_pid q.
Proof. unfold bereaved. case_match; cbn; apply orphan_pid. Qed.

Lemma bereaved_parent s i p x q :
  parent_pid (bereaved s i p x q) =
  if addr_of_any s (children_list p) x then -1 else parent_pid q.
Proof. unfold bereaved, orphan. repeat case_match; done. Qed.

Lemma bereaved_children s i a p x q :
  family_ok s -> at_pid s i a p -> registered s x q ->
  NoDup (children_list (bereaved s i p x q)) /\
  forall c, c ∈ children_list (bereaved s i p x q) <-> c ∈ children_list q /\ c <> i.
Proof.
  intros Hf Hat Hreg. pose proof (fo_nodup s Hf x q Hreg) as Hnd.
  assert (Hmem : i ∈ children_list q -> parent_addr s p = Some x).
  { intros Hin. destruct (fo_child s Hf x q i Hreg Hin) as (_ & ca & cp & Hcat & Hpar).
    destruct Hat as (Hi & Hs & Hp), Hcat as (_ & Hs' & Hp').
    assert (ca = a) as -> by congruence. assert (cp = p) as -> by congruence.
    apply (parent_addr_eq s a p x q); try done.
    apply registered_range in Hreg; [|done]. rewrite Hpar. unfold PROC_MAX in *. lia. }
  unfold bereaved. case_bool_decide as Hpa.
  - cbn. destruct (decide (i ∈ children_list q)) as [Hin|Hnin].
    + destruct (remove_child_spec _ _ Hnd Hin) as (l' & -> & ? & ?). done.
    + assert (remove_child (children_list q) i = None) as ->.
      { clear -Hnin. induction (children_list q) as [|y l IH]; [done|]. cbn.
        rewrite not_elem_of_cons in Hnin. destruct Hnin as [Hne Hnin].
        rewrite (proj2 (Z.eqb_neq _ _)) by done. by rewrite IH. }
      cbn. split; [done|]. intros c. split; [|tauto]. intros Hc. split; [done|]. by intros ->.
  - rewrite orphan_children. split; [done|]. intros c. split; [|tauto]. intros Hc.
    split; [done|]. intros ->. auto.
Qed.

Lemma destroyed_slot s i a p s' j :
  family_ok s -> at_pid s i a p -> destroyed s i a p s' -> 1 <= j <= PROC_MAX ->
  slot s' j = if decide (j = i) then None else slot s j.
Proof.
  intros Hf (Hi & _) (Hs' & _) Hj. transitivity (slot (unslotted s i) j); [unfold slot; by rewrite Hs'|]. destruct (fo_table s Hf) as (Hlen & _).
  rewrite slot_write by (done || lia). repeat case_decide; congruence.
Qed.

Lemma destroyed_at_pid s i a p s' j b q :
  family_ok s -> at_pid s i a p -> destroyed s i a p s' ->
  at_pid s j b q -> j <> i -> at_pid s' j b (bereaved s i p b q).
Proof.
  intros Hf Hat Hd Hq Hne. pose proof Hq as (Hj & Hs & Hp).
  assert (b <> a) by (intros ->; by apply Hne, (at_pid_inj s j i a q p)).
  split_and!; try lia.
  - rewrite (destroyed_slot s i a p s') by done. by rewrite decide_False.
  - destruct Hd as (_ & _ & Hx). by rewrite Hx, Hp.
Qed.

Lemma destroyed_at_pid_back s i a p s' j b q' :
  family_ok s -> at_pid s i a p -> destroyed s i a p s' -> at_pid s' j b q' ->
  exists q, at_pid s j b q /\ b <> a /\ j <> i /\ q' = bereaved s i p b q.
Proof.
  intros Hf Hat Hd (Hj & Hs & Hp). rewrite (destroyed_slot s i a p s') in Hs by done.
  case_decide as Hji; [done|]. destruct (fo_live s Hf j b Hj Hs) as (q & Hq & Hpid).
  assert (Hqat : at_pid s j b q) by done.
  assert (b <> a) by (intros ->; by apply Hji, (at_pid_inj s j i a q p)).
  destruct Hd as (_ & _ & Hx). rewrite Hx, Hq in Hp by done. injection Hp as <-. eauto.
Qed.

Lemma destroyed_registered s i a p s' x q :
  family_ok s -> at_pid s i a p -> destroyed s i a p s' ->
  registered s x q -> x <> a -> registered s' x (bereaved s i p x q).
Proof.
  intros Hf Hat Hd [[j Hj]|[Hk Hq]] Hx.
  - left. exists j. apply (destroyed_at_pid s i a p s'); try done. intros ->.
    destruct Hat as (_ & ? & _), Hj as (_ & ? & _). congruence.
  - right. pose proof Hd as (Hs' & _ & Hother). rewrite Hother, Hq by done. by rewrite Hs'.
Qed.

Lemma destroyed_registered_back s i a p s' x q' :
  family_ok s -> at_pid s i a p -> destroyed s i a p s' -> registered s' x q' ->
  exists q, registered s x q /\ x <> a /\ q' = bereaved s i p x q.
Proof.
  intros Hf Hat Hd [[j Hj]|[Hk Hq]].
  - destruct (destroyed_at_pid_back s i a p s' j x q') as (q & ? & ? & ? & ?); try done.
    exists q. split; [left; eauto|done].
  - destruct Hd as (Hs' & Hgone & Hother). rewrite Hs' in Hk. cbn in Hk.
    pose proof (family_kproc_ne _ _ _ _ _ Hf Hat Hk) as Hx. rewrite Hother in Hq by done.
    destruct (procs s !! x) as [q|] eqn:E; [|done]. injection Hq as <-. exists q.
    split; [right; done|done].
Qed.

Lemma destroyed_family s i a p s' :
  family_ok s -> at_pid s i a p -> destroyed s i a p s' -> family_ok s'.
Proof.
  intros Hf Hat Hd. pose proof Hat as (Hi & Hs & Hp). pose proof Hd as (Hs' & Hgone & Hother).
  pose proof (at_pid_self _ _ _ _ Hf Hat) as Hpid.
  split.
  - destruct (fo_table s Hf) as (Hlen & Hlast & _). unfold table_ok. rewrite Hs' at 1 2 3 4. cbn.
    rewrite length_insert. split_and!; try lia. intros _. exists i. split; [done|].
    rewrite (destroyed_slot s i a p s') by done. by rewrite decide_True.
  - intros j b Hj Hb. rewrite (destroyed_slot s i a p s') in Hb by done. case_decide; [done|].
    destruct (fo_live s Hf j b Hj Hb) as (q & Hq & Hqpid).
    destruct (destroyed_at_pid s i a p s' j b q) as (_ & _ & H'); try done.
    exists (bereaved s i p b q). by rewrite bereaved_pid.
  - destruct (fo_kproc s Hf) as (k & kp & Hk & Hkp & Hr).
    pose proof (family_kproc_ne _ _ _ _ _ Hf Hat Hk). exists k, (bereaved s i p k kp).
    rewrite bereaved_pid, Hother, Hkp by done. by rewrite Hs'.
  - intros x q' Hreg. destruct (destroyed_registered_back s i a p s' x q') as (q & ? & ? & ->); try done.
    by apply (bereaved_children s i a p x q).
  - intros x q' c Hreg Hc.
    destruct (destroyed_registered_back s i a p s' x q') as (q & Hq & Hxa & ->); try done.
    rewrite bereaved_pid. apply (bereaved_children s i a p x q) in Hc as [Hc Hci]; try done.
    destruct (fo_child s Hf x q c Hq Hc) as (Hne & ca & cp & Hcat & Hpar). split; [done|].
    exists ca, (bereaved s i p ca cp). split; [by apply (destroyed_at_pid s i a p s')|].
    rewrite bereaved_parent. destruct (addr_of_any s (children_list p) ca) eqn:Ha; [|done].
    apply addr_of_any_iff in Ha as (d & Hd1 & Hd2).
    destruct (fo_child s Hf a p d) as (_ & da & dp & Hdat & Hdpar); [left; eauto|done|].
    destruct Hdat as (? & ? & ?), Hcat as (? & ? & ?). simplify_eq.
    destruct Hxa. apply (registered_pid s x q a p); [done|done|left; eauto|congruence].
  - intros j b q' Hj Hpar.
    destruct (destroyed_at_pid_back s i a p s' j b q') as (q & Hq & Hba & Hji & ->); try done.
    rewrite bereaved_parent in *. destruct (addr_of_any s (children_list p) b) eqn:Hany; [done|].
    destruct (fo_parent s Hf j b q Hq Hpar) as (pa & pp & Hreg & Hppid & Hin).
    assert (Hpaa : pa <> a).
    { intros ->. pose proof (registered_procs _ _ _ Hreg). simplify_eq.
      apply not_true_iff_false in Hany. destruct Hany. apply addr_of_any_iff.
      exists j. by destruct Hq as (_ & ? & _). }
    exists pa, (bereaved s i p pa pp). rewrite bereaved_pid.
    split; [by apply (destroyed_registered s i a p s')|]. split; [done|].
    by apply (bereaved_children s i a p pa pp).
  - intros x q' Hq. rewrite Hs'. cbn. destruct (decide (x = a)) as [->|Hxa]; [congruence|].
    rewrite Hother in Hq by done. destruct (procs s !! x) eqn:E; [|done]. by eapply (fo_fresh s Hf).
Qed.

Lemma kin_le_update s a p f :
  procs s !! a = Some p -> kin (f p) = kin p -> kin_le s (set_procs (fun m => <[a := f p]> m) s).
Proof.
  intros Hp Hk. split; cbn; try done. intros x. destruct (decide (a = x)) as [<-|Hx].
  - rewrite lookup_insert_eq, Hp. cbn. by rewrite Hk.
  - by rewrite lookup_insert_ne.
Qed.

Lemma kin_le_world s w : kin_le s (set_world w s).
Proof. by split. Qed.

Lemma p_set_cwd_id p : p_cwd p = None -> p_set_cwd None p = p.
Proof. destruct p. cbn. by intros ->. Qed.

Lemma p_set_addrspace_id p : p_addrspace p = None -> p_set_addrspace None p = p.
Proof. destruct p. cbn. by intros ->. Qed.

(** [proc_destroy] releases the working directory and the address space: only
    those fields of [*a], and the VFS, change. *)
Lemma release_cwd s a p :
  procs s !! a = Some p ->
  exists w, match p_cwd p with
    | Some v => lift_world_ (vop_decref v) ;;; proc_update a (p_set_cwd None)
    | None => kret tt
    end s = Done tt (set_procs (fun m => <[a := p_set_cwd None p]> m) (set_world w s)).
Proof.
  intros Hp. destruct (p_cwd p) as [v|] eqn:E.
  - eexists. unfold kbind, lift_world_. rewrite proc_update_eq with (p := p) by done. done.
  - exists (world s). unfold kret. f_equal. rewrite p_set_cwd_id by done.
    unfold set_procs, set_world. cbn. rewrite insert_id by done. by destruct s.
Qed.

Lemma release_addrspace s a p cur :
  procs s !! a = Some p -> curproc s = cur ->
  exists w, match p_addrspace p with
    | Some asp =>
        (if bool_decide (cur = Some a)
         then proc_setas None ;;; kret tt
         else proc_update a (p_set_addrspace None)) ;;;
        lift_world_ (as_destroy asp)
    | None => kret tt
    end s = Done tt (set_procs (fun m => <[a := p_set_addrspace None p]> m) (set_world w s)).
Proof.
  intros Hp Hcur. destruct (p_addrspace p) as [asp|] eqn:E.
  - exists (as_destroy asp (world s)). unfold kbind at 1. case_bool_decide as Hc.
    + unfold proc_setas, kbind, kget. rewrite Hcur, Hc.
      by rewrite (proc_read_eq _ _ _ Hp), (proc_update_eq _ _ _ _ Hp).
    + by rewrite (proc_update_eq _ _ _ _ Hp).
  - exists (world s). unfold kret. f_equal. rewrite p_set_addrspace_id by done.
    unfold set_procs, set_world. cbn. rewrite insert_id by done. by destruct s.
Qed.

Lemma proc_destroy_run s i a p :
  family_ok s -> at_pid s i a p -> idle p ->
  exists s', proc_destroy a s = Done tt s' /\ destroyed s i a p s'.
Proof.
  intros Hf Hat Hidle. pose proof Hat as (Hi & Hslot & Hp). pose proof Hidle as (Hth & _).
  unfold proc_destroy. unfold kbind at 1, kget. unfold kbind at 1.
  rewrite bool_decide_eq_false_2 by (intros Hk; by apply (family_kproc_ne _ _ _ _ _ Hf Hat Hk)).
  cbn [negb kassert]. unfold kret at 1. unfold kbind at 1. rewrite (proc_read_eq _ _ _ Hp).
  destruct (release_cwd s a p Hp) as (w1 & Hcwd). unfold kbind at 1. rewrite Hcwd. clear Hcwd.
  set (p1 := p_set_cwd None p). set (s1 := set_procs _ _).
  assert (Hp1 : procs s1 !! a = Some p1) by (cbn; by rewrite lookup_insert_eq).
  destruct (release_addrspace s1 a p1 (curproc s) Hp1 eq_refl) as (w2 & Has).
  unfold kbind at 1. change (p_addrspace p) with (p_addrspace p1). rewrite Has. clear Has.
  set (p2 := p_set_addrspace None p1). set (s2 := set_procs _ _).
  assert (Hp2 : procs s2 !! a = Some p2) by (cbn; by rewrite lookup_insert_eq).
  assert (Hat2 : at_pid s2 i a p2) by done.
  assert (Hf2 : family_ok s2).
  { apply (family_ok_proper s); [|done]. transitivity s1.
    - transitivity (set_world w1 s); [apply kin_le_world|by apply kin_le_update].
    - transitivity (set_world w2 s1); [apply kin_le_world|by apply kin_le_update]. }
  destruct (proc_deinit_run s2 i a p2 Hf2 Hat2 Hidle) as (s3 & Hrun & Hpo & [p3 Hp3] & Hx).
  exists (set_procs (fun m => delete a m) s3). split.
  - unfold kbind. rewrite Hth. cbn [Z.eqb kassert].
    unfold kret. rewrite Hrun. cbn [Z.eqb negb]. unfold proc_free, kbind.
    by rewrite (proc_read_eq _ _ _ Hp3).
  - split_and!.
    + rewrite Hpo. done.
    + cbn. by rewrite lookup_delete_eq.
    + intros x Hxa. cbn. rewrite lookup_delete_ne, Hx by done. cbn. by rewrite !lookup_insert_ne.
Qed.

(** ** Creating a process *)

(** The [struct proc] of a new process with pid [i]. *)
Definition fresh_proc (name : string) (i : Z) : proc :=
  mkproc name 0 None None 0 i (-1) [] (Some new_cv) (Some new_lock)
         (replicate (Z.to_nat OPEN_MAX) None).

(** [s] with a new process [p], in slot [i]. *)
Definition enrolled s (i : Z) (p : proc) : kstate W :=
  set_procs (fun m => <[nextaddr s := p]> m)
    (set_last_pid i (set_ptable (fun l => <[Z.to_nat i := Some (nextaddr s)]> l)
      (set_nextaddr (nextaddr s + 1) s))).

Lemma set_procs_insert s a p q :
  set_procs (fun m => <[a := p]> m) (set_procs (fun m => <[a := q]> m) s) =
  set_procs (fun m => <[a := p]> m) s.
Proof. unfold set_procs. cbn. by rewrite insert_insert_eq. Qed.

Lemma lookup_set_procs s a p : procs (set_procs (fun m => <[a := p]> m) s) !! a = Some p.
Proof. cbn. by rewrite lookup_insert_eq. Qed.

(** The scan reads the table and nothing else. *)
Lemma find_loop_ptable fuel j l s s1 :
  ptable s1 = ptable s ->
  find_loop fuel j l s1 = match find_loop fuel j l s with
                          | Done x _ => Done x s1 | Fail e _ => Fail e s1 | Halt h => Halt h end.
Proof.
  intros Hpt. revert j. induction fuel as [|fuel IH]; intros j; [done|]. cbn [find_loop].
  destruct (j =? l); [done|]. unfold kbind, ptable_read. unfold kbind, kget. rewrite Hpt.
  destruct (ptable s !! Z.to_nat j) as [[e|]|], (j <? 0); try done. apply IH.
Qed.

(** [proc_init] up to the point where it has, or has not, found a slot. *)
Lemma proc_init_scan s a p i :
  table_ok s -> procs s !! a = Some p -> find_valid_pid s = Done i s ->
  (proc_update a (p_set_pid (-1)) ;;; s <- kget ;;
   proc_init_loop scan_fuel a (wrap_pid (last_pid s + 1)) (last_pid s)) s =
  Done tt (if i =? -1 then set_procs (fun m => <[a := p_set_pid (-1) p]> m) s
           else set_procs (fun m => <[a := p_set_pid i p]> m)
                  (set_last_pid i (set_ptable (fun l => <[Z.to_nat i := Some a]> l) s))).
Proof.
  intros Hok Hp Hfind. pose proof Hok as (Hlen & Hlast & _).
  unfold kbind at 1. rewrite (proc_update_eq _ _ _ _ Hp). set (s1 := set_procs _ s).
  unfold kbind, kget. cbn [last_pid s1 set_procs].
  unfold find_valid_pid, kbind, kget in Hfind. rewrite wrap_start in * by done.
  destruct (find_loop_spec s scan_fuel 1) as (k & Hk & Hrun' & _);
    [done|unfold scan_fuel, PROC_MAX in *; lia..|].
  rewrite Hrun' in Hfind.
  pose proof (find_loop_ptable scan_fuel (circ (last_pid s) 1) (last_pid s) s s1 eq_refl) as Hrun.
  rewrite Hrun' in Hrun.
  pose proof (circ_range (last_pid s) 1 Hlast ltac:(unfold PROC_MAX; lia)) as Hr.
  pose proof (circ_range (last_pid s) k Hlast ltac:(lia)) as Hrk.
  destruct (proc_init_loop_find scan_fuel a (p_set_pid (-1) p) (circ (last_pid s) 1) s1
    Hlen Hr (lookup_set_procs _ _ _) _ _ Hrun) as [_ Hinit].
  change (last_pid s1) with (last_pid s) in Hinit. rewrite Hinit.
  destruct (Z.eqb_spec (circ (last_pid s) k) (last_pid s)) as [Heq|Hne]; injection Hfind as <-.
  - done.
  - rewrite (proj2 (Z.eqb_neq _ (-1))) by lia. unfold s1. f_equal.
    unfold set_procs, set_last_pid, set_ptable. cbn. by rewrite insert_insert_eq.
Qed.

Lemma find_valid_pid_ptable s s1 i :
  ptable s1 = ptable s -> last_pid s1 = last_pid s ->
  find_valid_pid s = Done i s -> find_valid_pid s1 = Done i s1.
Proof.
  intros Hpt Hl. unfold find_valid_pid, kbind, kget. rewrite Hl, (find_loop_ptable _ _ _ s s1) by done.
  destruct (find_loop scan_fuel (wrap_pid (last_pid s + 1)) (last_pid s) s); try done.
  unfold kret. case_match; congruence.
Qed.

Lemma find_valid_pid_range s i : table_ok s -> find_valid_pid s = Done i s -> i <> -1 -> 1 <= i <= PROC_MAX.
Proof.
  intros Hok Hfind Hi. pose proof Hok as (_ & Hlast & _).
  destruct (find_valid_pid_run s Hok) as (r & Hr & [[-> _]|(Hne & k & Hk & -> & _)]);
    rewrite Hfind in Hr; [congruence|]. injection Hr as ->. by apply circ_range.
Qed.

Lemma proc_init_full s a p :
  table_ok s -> procs s !! a = Some p -> find_valid_pid s = Done (-1) s ->
  proc_init a s = Done (-1) (set_procs (fun m => <[a := p_set_pid (-1) p]> m) s).
Proof.
  intros Hok Hp Hfind. pose proof (proc_init_scan s a p (-1) Hok Hp Hfind) as Hscan.
  unfold proc_init, kbind, kget in *. destruct (proc_update a (p_set_pid (-1)) s) as [[] s2|?|?]; try done.
  rewrite Hscan. cbn [Z.eqb Pos.eqb].
  by rewrite (proc_read_eq _ a (p_set_pid (-1) p)) by apply lookup_set_procs.
Qed.

(** The rest of [proc_init] once a slot has been taken. *)
Lemma proc_init_found s a p i :
  table_ok s -> procs s !! a = Some p -> find_valid_pid s = Done i s -> i <> -1 ->
  proc_init a s =
  (c <- cv_create ;; proc_update a (p_set_cv c) ;;;
   l <- lock_create ;; proc_update a (p_set_locklock l) ;;;
   match c, l with Some _, Some _ => kret i | _, _ => kret (-1) end)
  (set_procs (fun m => <[a := p_set_children [] (p_set_parent (-1) (p_set_status 0 (p_set_pid i p)))]> m)
    (set_last_pid i (set_ptable (fun l => <[Z.to_nat i := Some a]> l) s))).
Proof.
  intros Hok Hp Hfind Hi. pose proof (proc_init_scan s a p i Hok Hp Hfind) as Hscan.
  pose proof (find_valid_pid_range s i Hok Hfind Hi) as Hr.
  unfold proc_init. unfold kbind in Hscan. do 3 (unfold kbind at 1).
  destruct (proc_update a (p_set_pid (-1)) s) as [[] s2|?|?]; try done. unfold kget in *.
  rewrite Hscan, (proj2 (Z.eqb_neq i (-1))) by done.
  repeat (unfold kbind at 1; first
    [ rewrite (proc_read_eq _ a _ (lookup_set_procs _ _ _))
    | rewrite (proc_update_eq _ a _ _ (lookup_set_procs _ _ _)), ?set_procs_insert ];
    cbn [p_pid p_set_pid]; rewrite ?(proj2 (Z.leb_gt i 0)) by lia). done.
Qed.

(** [proc_create] up to the call of [proc_init]. *)
Lemma proc_create_prefix g name s s1 s0 :
  kmalloc s = Done true s1 -> kmalloc s1 = Done true s0 -> name <> "[kernel]"%string ->
  exists p0, p_name p0 = name /\ p_numthreads p0 = 0 /\ p_addrspace p0 = None /\ p_cwd p0 = None /\
    fileTable p0 = replicate (Z.to_nat OPEN_MAX) None /\
  proc_create g name s =
  (r <- proc_init (nextaddr s0) ;;
   if r <=? 0 then proc_free (nextaddr s0) ;;; kret None else kret (Some (nextaddr s0)))
  (set_procs (fun m => <[nextaddr s0 := p0]> m) (set_nextaddr (nextaddr s0 + 1) s0)).
Proof.
  intros H1 H2 Hname. eexists (mkproc name 0 None None _ _ _ _ _ _ _). do 5 (split; [done|]).
  unfold proc_create. unfold kbind at 1. rewrite H1. unfold kbind at 1. cbn [negb]. rewrite H2.
  cbn [negb]. unfold kbind at 1, fresh_addr at 1, kbind at 1, kget, kbind at 1, kput, kret at 1.
  unfold kbind at 1, kmodify. by rewrite (proj2 (String.eqb_neq _ _) Hname).
Qed.

(** [proc_create] when memory does not run out. *)
Lemma proc_create_run g name s i :
  table_ok s -> oracle s = [] -> name <> "[kernel]"%string ->
  (forall a p, procs s !! a = Some p -> a < nextaddr s) ->
  find_valid_pid s = Done i s ->
  proc_create g name s =
    if i =? -1 then Done None (set_nextaddr (nextaddr s + 1) s)
    else Done (Some (nextaddr s)) (enrolled s i (fresh_proc name i)).
Proof.
  intros Hok Hor Hname Hfresh Hfind.
  assert (Hnew : procs s !! nextaddr s = None).
  { destruct (procs s !! nextaddr s) eqn:E; [|done]. apply Hfresh in E. lia. }
  destruct (proc_create_prefix g name s s s) as (p0 & Hn & Ht & Ha & Hc & Hft & ->);
    [by apply kmalloc_nil..|done|].
  set (s1 := set_procs _ _). unfold kbind at 1.
  pose proof (lookup_set_procs (set_nextaddr (nextaddr s + 1) s) (nextaddr s) p0) as Hp1. fold s1 in Hp1.
  pose proof (find_valid_pid_ptable s s1 i eq_refl eq_refl Hfind) as Hfind1.
  destruct (Z.eqb_spec i (-1)) as [->|Hi].
  - rewrite (proc_init_full s1 _ _ Hok Hp1 Hfind1). cbn [Z.leb Z.compare]. unfold proc_free, kbind.
    rewrite (proc_read_eq _ (nextaddr s) (p_set_pid (-1) p0)) by apply lookup_set_procs.
    unfold kmodify, kret. f_equal. unfold s1, set_procs, set_nextaddr. cbn.
    by rewrite !delete_insert_eq, delete_id.
  - rewrite (proc_init_found s1 _ _ i Hok Hp1 Hfind1 Hi).
    pose proof (find_valid_pid_range s i Hok Hfind Hi) as Hr. unfold kbind.
    rewrite cv_create_nil by done. rewrite (proc_update_eq _ _ _ _ (lookup_set_procs _ _ _)).
    rewrite lock_create_nil by done. rewrite (proc_update_eq _ _ _ _ (lookup_set_procs _ _ _)).
    unfold kret. rewrite (proj2 (Z.leb_gt i 0)) by lia. rewrite !set_procs_insert. f_equal.
    unfold s1, enrolled, set_procs, set_nextaddr, set_last_pid, set_ptable. cbn.
    rewrite insert_insert_eq. unfold fresh_proc. destruct p0. cbn in *. by subst.
Qed.

Lemma fresh_not_live s : family_ok s -> procs s !! nextaddr s = None.
Proof.
  intros Hf. destruct (procs s !! nextaddr s) eqn:E; [|done]. apply (fo_fresh s Hf) in E. lia.
Qed.

Lemma registered_not_fresh s x q : family_ok s -> registered s x q -> x <> nextaddr s.
Proof. intros Hf Hr ->. apply registered_procs in Hr. by rewrite fresh_not_live in Hr. Qed.

Lemma enrolled_slot s i p j :
  table_ok s -> 1 <= i <= PROC_MAX -> 1 <= j ->
  slot (enrolled s i p) j = if decide (i = j) then Some (nextaddr s) else slot s j.
Proof. intros (Hlen & _) Hi Hj. apply (slot_write (set_nextaddr (nextaddr s + 1) s)); (done || lia). Qed.

Lemma enrolled_registered s i p x q :
  family_ok s -> 1 <= i <= PROC_MAX -> slot s i = None ->
  registered s x q -> registered (enrolled s i p) x q.
Proof.
  intros Hf Hi Hfree Hr. pose proof (registered_not_fresh _ _ _ Hf Hr) as Hx.
  destruct Hr as [[j (Hj & Hs & Hq)]|[Hk Hq]].
  - left. exists j. split_and!; [lia..| |cbn; by rewrite lookup_insert_ne].
    rewrite enrolled_slot by (apply Hf || lia). rewrite decide_False by congruence. done.
  - right. split; [done|]. cbn. by rewrite lookup_insert_ne.
Qed.

Lemma enrolled_at_pid s i p j x q :
  family_ok s -> 1 <= i <= PROC_MAX -> slot s i = None ->
  at_pid (enrolled s i p) j x q <-> (j = i /\ x = nextaddr s /\ q = p) \/ at_pid s j x q.
Proof.
  intros Hf Hi Hfree. split.
  - intros (Hj & Hs & Hq). rewrite enrolled_slot in Hs by (apply Hf || lia). cbn in Hq.
    case_decide as Hij.
    + left. injection Hs as <-. rewrite lookup_insert_eq in Hq. by injection Hq as <-.
    + right. destruct (fo_live s Hf j x Hj Hs) as (q' & Hq' & _).
      rewrite lookup_insert_ne in Hq; [done|]. intros <-. by rewrite fresh_not_live in Hq'.
  - intros [(-> & -> & ->)|Hat].
    + split_and!; [lia..| |cbn; by rewrite lookup_insert_eq].
      rewrite enrolled_slot by (apply Hf || lia). by rewrite decide_True.
    + pose proof Hat as (Hj & Hs & Hq). split_and!; [lia..| |].
      * rewrite enrolled_slot by (apply Hf || lia). rewrite decide_False by congruence. done.
      * cbn. rewrite lookup_insert_ne; [done|]. intros <-. by rewrite fresh_not_live in Hq.
Qed.

Lemma enrolled_registered_back s i p x q :
  family_ok s -> 1 <= i <= PROC_MAX -> slot s i = None -> registered (enrolled s i p) x q ->
  (x = nextaddr s /\ q = p) \/ registered s x q.
Proof.
  intros Hf Hi Hfree [[j Hat]|[Hk Hq]].
  - apply enrolled_at_pid in Hat as [(_ & -> & ->)|Hat]; [by left|right; left; eauto|done..].
  - right. right. cbn in *. split; [done|]. destruct (fo_kproc s Hf) as (k & kp & Hk' & Hkp & _).
    rewrite lookup_insert_ne in Hq; [done|]. intros <-. simplify_eq. by rewrite fresh_not_live in Hkp.
Qed.

(** A new process without relatives keeps the family consistent. *)
Lemma enrolled_family s i p :
  family_ok s -> 1 <= i <= PROC_MAX -> slot s i = None ->
  p_pid p = i -> parent_pid p = -1 -> children_list p = [] -> family_ok (enrolled s i p).
Proof.
  intros Hf Hi Hfree Hpid Hpar Hkids. split.
  - destruct (fo_table s Hf) as (Hlen & _). unfold table_ok. cbn. rewrite length_insert.
    split_and!; [done|lia..].
  - intros j a Hj Hs. rewrite enrolled_slot in Hs by (apply Hf || lia). case_decide.
    + injection Hs as <-. exists p. cbn. rewrite lookup_insert_eq. by subst.
    + destruct (fo_live s Hf j a Hj Hs) as (q & Hq & ?). exists q. cbn. split; [|done].
      rewrite lookup_insert_ne; [done|]. intros <-. by rewrite fresh_not_live in Hq.
  - destruct (fo_kproc s Hf) as (k & kp & Hk & Hkp & ?). exists k, kp. split_and!; try done; try tauto.
    cbn. rewrite lookup_insert_ne; [done|]. intros <-. by rewrite fresh_not_live in Hkp.
  - intros x q Hr. apply enrolled_registered_back in Hr as [[_ ->]|Hr]; try done.
    + rewrite Hkids. constructor.
    + by apply (fo_nodup s Hf x).
  - intros x q c Hr Hc. apply enrolled_registered_back in Hr as [[_ ->]|Hr]; try done.
    + rewrite Hkids in Hc. by apply not_elem_of_nil in Hc.
    + destruct (fo_child s Hf x q c Hr Hc) as (? & ca & cp & Hat & ?). split; [done|].
      exists ca, cp. split; [|done]. apply enrolled_at_pid; auto.
  - intros j x q Hat Hne. apply enrolled_at_pid in Hat as [(_ & _ & ->)|Hat]; try done.
    destruct (fo_parent s Hf j x q Hat Hne) as (pa & pp & Hr & ?). exists pa, pp.
    split; [by apply enrolled_registered|done].
  - intros x q Hq. cbn in *. destruct (decide (nextaddr s = x)) as [->|Hx]; [lia|].
    rewrite lookup_insert_ne in Hq by done. apply (fo_fresh s Hf) in Hq. lia.
Qed.

(** ** Theorems *)

(** C39. [find_valid_pid] always terminates and changes nothing: it returns the
    first free slot after [last_pid] in circular order (slot 0 left out), and -1
    when every slot other than [last_pid] itself is taken. Slot [last_pid] is
    never returned, free or not. *)
Theorem find_valid_pid_spec s :
  table_ok s ->
  exists r, find_valid_pid s = Done r s /\
    ((r = -1 /\ forall i, 1 <= i <= PROC_MAX -> i <> last_pid s -> slot s i <> None) \/
     (r <> last_pid s /\ exists k, 1 <= k <= PROC_MAX /\ r = circ (last_pid s) k /\ slot s r = None /\
        forall j, 1 <= j < k -> slot s (circ (last_pid s) j) <> None)).
Proof. apply find_valid_pid_run. Qed.

(** C28. While memory lasts, [proc_create] either finds no pid and returns NULL
    with the table and every process as they were, or returns a new process in a
    free slot that knows its pid, has no relatives, no threads and an empty file
    table; every other process and slot is unchanged and the process table
    invariant still holds. *)
Theorem proc_create_spec g name s :
  family_ok s -> oracle s = [] -> name <> "[kernel]"%string ->
  (proc_create g name s = Done None (set_nextaddr (nextaddr s + 1) s) /\
   forall i, 1 <= i <= PROC_MAX -> i <> last_pid s -> slot s i <> None) \/
  (exists i, 1 <= i <= PROC_MAX /\ slot s i = None /\ i <> last_pid s /\
     proc_create g name s = Done (Some (nextaddr s)) (enrolled s i (fresh_proc name i)) /\
     family_ok (enrolled s i (fresh_proc name i))).
Proof.
  intros Hf Hor Hname. pose proof (fo_table s Hf) as Hok. pose proof Hok as (_ & Hlast & _).
  destruct (find_valid_pid_run s Hok) as (r & Hr & Hcase).
  rewrite (proc_create_run g name s r Hok Hor Hname (fo_fresh s Hf) Hr).
  destruct Hcase as [[-> Hfull]|(Hne & k & Hk & Hrk & Hfree & _)].
  - left. done.
  - right. exists r. pose proof (circ_range (last_pid s) k Hlast Hk).
    rewrite (proj2 (Z.eqb_neq r (-1))) by lia. split_and!; [lia..|done|done|done|].
    apply enrolled_family; (done || lia).
Qed.

(** C27. [proc_destroy] of a process without threads or waiters returns: the
    process's memory and slot are released, its children have no parent any
    more, its parent's list no longer has it, nothing else changes, and the
    process table invariant still holds. *)
Theorem proc_destroy_spec s i a p :
  family_ok s -> at_pid s i a p -> idle p ->
  exists s', proc_destroy a s = Done tt s' /\ destroyed s i a p s' /\ family_ok s'.
Proof.
  intros Hf Hat Hidle. destruct (proc_destroy_run s i a p Hf Hat Hidle) as (s' & Hrun & Hd).
  exists s'. split_and!; [done|done|]. by apply (destroyed_family s i a p).
Qed.


(** The state [proc_bootstrap] leaves: the kernel process alone in slot 0. *)
Definition booted (g : proc) s : kstate W :=
  mkk {[ nextaddr s := mkproc "[kernel]" 0 None None (p_status g) (p_pid g) (parent_pid g)
           (children_list g) (p_cv g) (p_locklock g) (replicate (Z.to_nat OPEN_MAX) None) ]}
    (Some (nextaddr s) :: replicate (Z.to_nat PROC_MAX) None) 0 true (ofiles s) (t_proc s)
    (curthread s) (Some (nextaddr s)) (nextaddr s + 1) (oracle s) (umem s) (world s).

Lemma booted_slot g s i : 1 <= i <= PROC_MAX -> slot (booted g s) i = None.
Proof.
  intros Hi. unfold slot, booted. cbn [ptable]. destruct (Z.to_nat i) as [|n] eqn:E; [lia|].
  change (default None (replicate (Z.to_nat PROC_MAX) None !! n) = (None : option Z)).
  by rewrite lookup_replicate_2 by (unfold PROC_MAX in *; lia).
Qed.

Lemma booted_family g s :
  (p_pid g <= 0 \/ PROC_MAX < p_pid g) -> p_pid g <> -1 -> children_list g = [] ->
  family_ok (booted g s).
Proof.
  intros Hpid Hne Hkids.
  assert (Hreg : forall a p, registered (booted g s) a p -> children_list p = []).
  { intros a p [[i (Hi & Hs & _)]|[_ Hp]]; [by rewrite booted_slot in Hs|].
    cbn in Hp. by apply lookup_singleton_Some in Hp as [_ <-]. }
  split.
  - split_and!; cbn; [|unfold PROC_MAX; lia..|].
    { by rewrite length_replicate. }
    intros _. exists 1. split; [unfold PROC_MAX; lia|apply booted_slot; unfold PROC_MAX; lia].
  - intros i a Hi Hs. by rewrite booted_slot in Hs.
  - eexists _, _. split_and!; [done|cbn; by rewrite lookup_singleton_eq|done|done].
  - intros a p Hr. rewrite (Hreg a p Hr). constructor.
  - intros a p c Hr Hc. rewrite (Hreg a p Hr) in Hc. by apply not_elem_of_nil in Hc.
  - intros i a p (Hi & Hs & _). by rewrite booted_slot in Hs.
  - intros a p Hp. cbn in *. apply lookup_singleton_Some in Hp as [<- _]. lia.
Qed.

(** [proc_bootstrap], with memory available, sets up the process table so
    that its invariant holds, provided the memory it gets for the kernel process
    happens to hold a [p_pid] that is neither a user pid nor -1 and an empty
    children list: nothing initialises these fields. *)
Theorem proc_bootstrap_spec g s :
  procs s = ∅ -> oracle s = [] ->
  (p_pid g <= 0 \/ PROC_MAX < p_pid g) -> p_pid g <> -1 -> children_list g = [] ->
  proc_bootstrap g s = Done tt (booted g s) /\ family_ok (booted g s).
Proof.
  intros Hp Hor Hpid Hne Hkids. split; [|by apply booted_family].
  unfold proc_bootstrap, proc_create.
  unfold kbind at 1. unfold kbind at 1. rewrite kmalloc_nil by done. cbn [negb].
  unfold kbind at 1. rewrite kmalloc_nil by done. cbn [negb].
  unfold kbind, fresh_addr, kget, kput, kmodify, kret. cbn [String.eqb Ascii.eqb Bool.eqb].
  unfold kbind, booted, set_procs, set_nextaddr, set_kproc, set_ptable, set_active, set_last_pid. cbn.
  by rewrite Hp.
Qed.

(** When [proc_init] finds a pid but its condition variable cannot be
    allocated, [proc_create] frees the [struct proc] and returns NULL but leaves
    the process table pointing at the freed memory. *)
Theorem proc_create_dangling g name s i rest :
  family_ok s -> oracle s = true :: true :: false :: rest -> name <> "[kernel]"%string ->
  find_valid_pid s = Done i s -> i <> -1 ->
  exists s', proc_create g name s = Done None s' /\
    slot s' i = Some (nextaddr s) /\ procs s' !! nextaddr s = None /\ ~ family_ok s'.
Proof.
  intros Hf Hor Hname Hfind Hi. pose proof (fo_table s Hf) as Hok.
  destruct (proc_create_prefix g name s _ _ (kmalloc_cons s _ _ Hor)
    (kmalloc_cons (set_oracle (true :: false :: rest) s) _ _ eq_refl) Hname)
    as (p0 & _ & _ & _ & _ & _ & ->). cbn [nextaddr set_oracle]. set (s1 := set_procs _ _).
  assert (Hp1 : procs s1 !! nextaddr s = Some p0) by apply lookup_set_procs.
  pose proof (find_valid_pid_ptable s s1 i eq_refl eq_refl Hfind) as Hfind1.
  pose proof (find_valid_pid_range s i Hok Hfind Hi) as Hr.
  unfold kbind at 1. rewrite (proc_init_found s1 _ _ i Hok Hp1 Hfind1 Hi). unfold kbind.
  unfold cv_create at 1, kbind. erewrite kmalloc_cons by done. cbn [negb kret]. unfold kret.
  erewrite (proc_update_eq _ (nextaddr s)) by apply lookup_set_procs.
  match goal with |- context [lock_create ?x] => destruct (lock_create_any x) as (l & o & ->) end.
  erewrite (proc_update_eq _ (nextaddr s)) by apply lookup_set_procs. cbn [Z.leb Z.compare].
  unfold proc_free, kbind. erewrite (proc_read_eq _ (nextaddr s)) by apply lookup_set_procs.
  unfold kmodify. match goal with |- exists s', Done None ?x = _ /\ _ => set (s' := x) end.
  assert (Hs' : slot s' i = Some (nextaddr s)).
  { transitivity (slot (enrolled s i p0) i); [done|].
    rewrite enrolled_slot by (done || lia). by rewrite decide_True. }
  assert (Hgone : procs s' !! nextaddr s = None) by (cbn; by rewrite lookup_delete_eq).
  exists s'. split_and!; try done. intros Hf'.
  destruct (fo_live s' Hf' i (nextaddr s) Hr Hs') as (? & ? & _). congruence.
Qed.

(** [proc_add] accepts pid [PROC_MAX + 1], one past the end of the table. *)
Lemma proc_add_past_end s a :
  length (ptable s) = Z.to_nat (PROC_MAX + 1) ->
  proc_add (PROC_MAX + 1) (Some a) s = Halt OutOfBounds.
Proof.
  intros Hlen. unfold proc_add, ptable_write, ptable_read. kunfold.
  rewrite bool_decide_eq_false_2 by done. unfold PROC_MAX in *. change (100 + 1) with 101 in *.
  change ((101 <=? 0) || (101 <? 101) || false) with false. cbv beta iota.
  destruct (ptable s !! Z.to_nat 101) eqn:E; [|done]. apply lookup_lt_Some in E. lia.
Qed.

(** [proc_search] of a pid in range that no process has follows a NULL pointer. *)
Lemma proc_search_free s i :
  length (ptable s) = Z.to_nat (PROC_MAX + 1) -> 1 <= i <= PROC_MAX -> slot s i = None ->
  proc_search i s = Halt NullDeref.
Proof.
  intros Hlen Hi Hs. unfold proc_search. destruct (Z.leb_spec i 0), (Z.ltb_spec PROC_MAX i); try lia.
  cbn [orb]. unfold kbind. by rewrite ptable_read_eq, Hs by (done || lia).
Qed.

End spec.

(** ** Concrete states *)

(** The kernel after [proc_bootstrap], and with one process. *)
Definition boot : kstate unit := booted zero_proc cold.
Definition boot1 : kstate unit := enrolled boot 1 (fresh_proc "sh" 1).

Lemma boot_family : family_ok boot.
Proof. apply booted_family; cbn; [lia|done|done]. Qed.

Lemma boot1_family : family_ok boot1.
Proof.
  apply enrolled_family; try done. apply boot_family.
Qed.

Lemma find_valid_pid_spec_witness : find_valid_pid boot1 = Done 2 boot1 /\
  exists r, find_valid_pid boot1 = Done r boot1 /\
    ((r = -1 /\ forall i, 1 <= i <= PROC_MAX -> i <> last_pid boot1 -> slot boot1 i <> None) \/
     (r <> last_pid boot1 /\ exists k, 1 <= k <= PROC_MAX /\ r = circ (last_pid boot1) k /\
        slot boot1 r = None /\ forall j, 1 <= j < k -> slot boot1 (circ (last_pid boot1) j) <> None)).
Proof. split; [reflexivity|]. apply (find_valid_pid_spec boot1). apply boot1_family. Defined.

Lemma proc_create_spec_witness :
  proc_create zero_proc "cat" boot1 = Done (Some 102) (enrolled boot1 2 (fresh_proc "cat" 2)) /\
  ((proc_create zero_proc "cat" boot1 = Done None (set_nextaddr (nextaddr boot1 + 1) boot1) /\
    forall i, 1 <= i <= PROC_MAX -> i <> last_pid boot1 -> slot boot1 i <> None) \/
   (exists i, 1 <= i <= PROC_MAX /\ slot boot1 i = None /\ i <> last_pid boot1 /\
     proc_create zero_proc "cat" boot1 =
       Done (Some (nextaddr boot1)) (enrolled boot1 i (fresh_proc "cat" i)) /\
     family_ok (enrolled boot1 i (fresh_proc "cat" i)))).
Proof.
  split; [vm_compute; reflexivity|].
  apply (proc_create_spec zero_proc "cat" boot1); [apply boot1_family|reflexivity|discriminate].
Defined.

Lemma proc_destroy_spec_witness :
  exists s', proc_destroy 101 boot1 = Done tt s' /\
    destroyed boot1 1 101 (fresh_proc "sh" 1) s' /\ family_ok s'.
Proof.
  apply (proc_destroy_spec boot1 1 101 (fresh_proc "sh" 1)); [apply boot1_family| |].
  - split_and!; [discriminate|discriminate|reflexivity|reflexivity].
  - split_and!; [reflexivity|eexists; split; reflexivity|eexists; split; reflexivity].
Defined.

Lemma proc_bootstrap_spec_witness :
  proc_bootstrap zero_proc cold = Done tt (booted zero_proc cold) /\ family_ok (booted zero_proc cold).
Proof.
  apply (proc_bootstrap_spec zero_proc cold); [reflexivity|reflexivity|cbn; lia|discriminate|reflexivity].
Defined.

Lemma proc_create_dangling_witness :
  exists s', proc_create zero_proc "cat" (set_oracle [true; true; false] boot1) = Done None s' /\
    slot s' 2 = Some 102 /\ procs s' !! 102 = None /\ ~ family_ok s'.
Proof.
  apply (proc_create_dangling zero_proc "cat" (set_oracle [true; true; false] boot1) 2 []);
    [|reflexivity|discriminate|reflexivity|discriminate].
  apply (family_ok_proper boot1); [|apply boot1_family]. split; try reflexivity.
Defined.
