(* ===== verification/FileSyscalls.v ===== *)
(** * File system calls, kern/syscall/syscall_FILE.c

    One definition per system call, over the shared state of [KState]. A call
    returns its [*retval] ([Done]) or an error number ([Fail]).  The per-process
    table [fileTable] holds pointers to [struct openfile]; two descriptors that
    hold the same pointer share the offset and the reference count. *)

From stdpp Require Import base numbers list gmap strings.
From Stdlib Require Import ZArith Lia.
From S2P Require Import Prelude.
From S2P Require Import UserCopy.
From S2P Require Import KState.
From S2P Require Import ProcTable.

Open Scope Z_scope.
Open Scope k_scope.

(** The C string at the start of a buffer. *)
Fixpoint cstr (l : list Z) : string :=
  match l with
  | [] => EmptyString
  | c :: l' => if c =? 0 then EmptyString
               else String (Ascii.ascii_of_N (Z.to_N c)) (cstr l')
  end.

Definition SEEK_SET : Z := 0.
Definition SEEK_CUR : Z := 1.
Definition SEEK_END : Z := 2.

Section ops.
Context {W : Type} {HV : Vfs W}.

(** [curproc->fileTable[fd]] *)
Definition fd_read (fd : Z) : K (kstate W) (option ofptr) :=
  a <- get_curproc ;;
  p <- proc_read a ;;
  match fileTable p !! Z.to_nat fd with
  | Some e => kret e
  | None => khalt OutOfBounds
  end.

(** [curproc->fileTable[fd] = e] *)
Definition fd_write (fd : Z) (e : option ofptr) : K (kstate W) unit :=
  fd_read fd ;;;
  a <- get_curproc ;;
  set_fd a fd e.

(** [lock_acquire(of->lock)], [lock_release(of->lock)]. *)
Definition of_lock (o : ofptr) : K (kstate W) unit :=
  f <- of_read o ;; l <- lock_acquire (oflock f) ;; of_update o (of_set_lock (Some l)).

Definition of_unlock (o : ofptr) : K (kstate W) unit :=
  f <- of_read o ;; l <- lock_release (oflock f) ;; of_update o (of_set_lock (Some l)).

(** kern/syscall/syscall_FILE.c:60-64 (sys_write_SHELL): the checks on [fd] that
    every call starts with. *)
Definition fd_lookup (fd : Z) : K (kstate W) ofptr :=
  if (fd <? 0) || (OPEN_MAX <=? fd) then kfail EBADF else
  e <- fd_read fd ;;
  match e with
  | None => kfail EBADF
  | Some o => kret o
  end.

(** The vnode of an open file; the VFS dereferences it. *)
Definition the_vnode (o : openfile) : K (kstate W) Z :=
  match vn o with
  | Some v => kret v
  | None => khalt NullDeref
  end.

(** kern/syscall/syscall_FILE.c:57-102 (sys_write_SHELL). The error path returns
    with the lock held. *)
Definition sys_write_SHELL (fd buf buflen : Z) : K (kstate W) Z :=
  o <- fd_lookup fd ;;
  f <- of_read o ;;
  if mode_open f =? O_RDONLY then kfail EBADF else
  ok <- kmalloc ;;
  if negb ok then kfail ENOMEM else
  s <- kget ;;
  match copyin (umem s) buf buflen with
  | inl _ => kfail EFAULT
  | inr kbuffer =>
      of_lock o ;;;
      v <- the_vnode f ;;
      r <- lift_world (vop_write v (offset f) kbuffer) ;;
      if negb (io_err r =? 0) then kfail (io_err r) else
      of_update o (of_set_offset (io_offset r)) ;;;
      of_unlock o ;;;
      kret (s32 (io_offset r - offset f))
  end.

(** kern/syscall/syscall_FILE.c:118-169 (sys_read_SHELL). The kernel buffer has
    [buflen+1] bytes, computed in 32 bits; [VOP_READ] is given [buflen]. *)
Definition sys_read_SHELL (fd buf buflen : Z) : K (kstate W) Z :=
  o <- fd_lookup fd ;;
  f <- of_read o ;;
  if mode_open f =? O_WRONLY then kfail EBADF else
  if buf =? 0 then kfail EFAULT else
  ok <- kmalloc ;;
  if negb ok then kfail ENOMEM else
  let kbuffer_size := u32 (buflen + 1) in
  of_lock o ;;;
  v <- the_vnode f ;;
  r <- lift_world (vop_read v (offset f) buflen) ;;
  if kbuffer_size <? Z.of_nat (length (io_data r)) then khalt OutOfBounds else
  if negb (io_err r =? 0) then of_unlock o ;;; kfail (io_err r) else
  of_update o (of_set_offset (io_offset r)) ;;;
  s <- kget ;;
  let retval := s32 (buflen - io_resid r) in
  let '(err, m) := copyout (umem s) (io_data r) buf in
  kput (set_umem m s) ;;;
  if negb (err =? 0) then of_unlock o ;;; kfail EFAULT else
  of_unlock o ;;;
  kret retval.

(** kern/syscall/syscall_FILE.c:232-238 (sys_open_SHELL): the search for a free
    entry of [systemFileTable], from [index] on. *)
Fixpoint find_free_of (fuel : nat) (index : Z) : K (kstate W) (option ofptr) :=
  match fuel with
  | O => kret None
  | S fuel' =>
      f <- of_read (Sys index) ;;
      match vn f with
      | None => kret (Some (Sys index))
      | Some _ => find_free_of fuel' (index + 1)
      end
  end.

(** kern/syscall/syscall_FILE.c:245-250 (sys_open_SHELL): the search for a free
    descriptor; [OPEN_MAX] when there is none. *)
Fixpoint find_free_fd (fuel : nat) (fd : Z) : K (kstate W) Z :=
  match fuel with
  | O => kret fd
  | S fuel' =>
      e <- fd_read fd ;;
      match e with
      | None => kret fd
      | Some _ => find_free_fd fuel' (fd + 1)
      end
  end.

(** kern/syscall/syscall_FILE.c:281-306 (sys_open_SHELL): access mode and lock.
    The error paths [kfree] an entry of the static table. *)
Definition open_finish (o : ofptr) (openflags : Z) : K (kstate W) unit :=
  let acc := Z.land openflags O_ACCMODE in
  if negb ((acc =? O_RDONLY) || (acc =? O_WRONLY) || (acc =? O_RDWR)) then
    f <- of_read o ;; v <- the_vnode f ;; lift_world_ (vfs_close v) ;;; khalt BadFree
  else
  of_update o (of_set_mode acc) ;;;
  l <- lock_create ;;
  of_update o (of_set_lock l) ;;;
  match l with
  | None => f <- of_read o ;; v <- the_vnode f ;; lift_world_ (vfs_close v) ;;; khalt BadFree
  | Some _ => kret tt
  end.

(** kern/syscall/syscall_FILE.c:261-276 (sys_open_SHELL): the initial offset. *)
Definition open_offset (o : ofptr) (openflags : Z) : K (kstate W) unit :=
  if negb (Z.land openflags O_APPEND =? 0) then
    f <- of_read o ;;
    v <- the_vnode f ;;
    r <- lift_world (vop_stat v) ;;
    match r with
    | inl _ => khalt BadFree
    | inr size => of_update o (of_set_offset size)
    end
  else of_update o (of_set_offset 0).

(** kern/syscall/syscall_FILE.c:199-311 (sys_open_SHELL). *)
Definition sys_open_SHELL (pathname openflags mode : Z) : K (kstate W) Z :=
  if pathname =? 0 then kfail EFAULT else
  ok <- kmalloc ;;
  if negb ok then kfail ENOMEM else
  s <- kget ;;
  match copyinstr (umem s) pathname PATH_MAX with
  | (inl _, _) => kfail EFAULT
  | (inr _, kbuffer) =>
      r <- lift_world (vfs_open (cstr kbuffer) openflags mode) ;;
      match r with
      | inl err => kfail err
      | inr v =>
          ofp <- find_free_of (Z.to_nat SYSTEM_OPEN_MAX) 0 ;;
          match ofp with
          | None => kfail ENFILE
          | Some o =>
              of_update o (of_set_vn (Some v)) ;;;
              fd <- find_free_fd (Z.to_nat (OPEN_MAX - 3)) 3 ;;
              (if fd <? OPEN_MAX then fd_write fd (Some o) else kret tt) ;;;
              if fd =? OPEN_MAX - 1 then kfail EMFILE else
              e <- fd_read fd ;;
              match e with
              | None => khalt NullDeref
              | Some o =>
                  open_offset o openflags ;;;
                  of_update o (of_set_refs 1) ;;;
                  open_finish o openflags ;;;
                  kret fd
              end
          end
      end
  end.

(** kern/syscall/syscall_FILE.c:330-348 (sys_close_SHELL), and 587-600 of
    [sys_dup2_SHELL]: drop one reference through descriptor [fd]; [last] tests
    whether the decremented count is that of the last reference. *)
Definition drop_ref (last : Z -> bool) (fd : Z) (o : ofptr) : K (kstate W) unit :=
  of_lock o ;;;
  fd_write fd None ;;;
  f <- of_read o ;;
  let refs := u32 (count_refs f - 1) in
  of_update o (of_set_refs refs) ;;;
  (if last refs then
     v <- the_vnode f ;;
     of_update o (of_set_vn None) ;;;
     lift_world_ (vfs_close v)
   else kret tt) ;;;
  of_unlock o.

(** kern/syscall/syscall_FILE.c:321-349 (sys_close_SHELL). *)
Definition sys_close_SHELL (fd : Z) : K (kstate W) Z :=
  o <- fd_lookup fd ;;
  drop_ref (fun refs => negb (0 <? refs)) fd o ;;;
  kret 0.

(** kern/syscall/syscall_FILE.c:361-368 (sys_remove_SHELL). *)
Definition sys_remove_SHELL (pathname : Z) : K (kstate W) Z := kret 0.

(** kern/syscall/syscall_FILE.c:378-418 (sys_chdir_SHELL). *)
Definition sys_chdir_SHELL (pathname : Z) : K (kstate W) Z :=
  s <- kget ;;
  kassert (bool_decide (is_Some (curproc s))) ;;;
  ok <- kmalloc ;;
  if negb ok then kfail ENOMEM else
  s <- kget ;;
  match copyinstr (umem s) pathname PATH_MAX with
  | (inl err, _) => kfail err
  | (inr _, kbuffer) =>
      r <- lift_world (vfs_open (cstr kbuffer) O_RDONLY 420) ;;
      match r with
      | inl err => kfail err
      | inr v =>
          err <- lift_world (vfs_setcurdir v) ;;
          lift_world_ (vfs_close v) ;;;
          if negb (err =? 0) then kfail err else kret 0
      end
  end.

(** kern/syscall/syscall_FILE.c:431-459 (sys_getcwd_SHELL). *)
Definition sys_getcwd_SHELL (buf buflen : Z) : K (kstate W) Z :=
  s <- kget ;;
  kassert (bool_decide (is_Some (curproc s))) ;;;
  r <- lift_world (vfs_getcwd (umem s) buf buflen) ;;
  let '(err, resid, m) := r in
  kmodify (set_umem m) ;;;
  if negb (err =? 0) then kfail err else kret (s32 (buflen - resid)).

(** kern/syscall/syscall_FILE.c:505-541 (sys_lseek_SHELL): the new position, or
    the error number; all in 64 bits. *)
Definition seek_target (v old pos whence : Z) : K (kstate W) (Z + Z) :=
  if whence =? SEEK_SET then
    kret (if pos <? 0 then inl EINVAL else inr pos)
  else if whence =? SEEK_CUR then
    kret (if (pos <? 0) && (old <? s64 (- pos)) then inl EINVAL else inr (s64 (old + pos)))
  else if whence =? SEEK_END then
    r <- lift_world (vop_stat v) ;;
    kret (match r with
          | inl err => inl err
          | inr size =>
              if (pos <? 0) && (size <? s64 (- pos)) then inl EINVAL
              else inr (s64 (size - pos))
          end)
  else kret (inl EINVAL).

(** kern/syscall/syscall_FILE.c:481-553 (sys_lseek_SHELL): the result in two
    32-bit halves, most significant first. *)
Definition sys_lseek_SHELL (fd pos whence : Z) : K (kstate W) (Z * Z) :=
  s <- kget ;;
  kassert (bool_decide (is_Some (curproc s))) ;;;
  o <- fd_lookup fd ;;
  f <- of_read o ;;
  v <- the_vnode f ;;
  s <- kget ;;
  if negb (vop_isseekable v (world s)) then kfail ESPIPE else
  of_lock o ;;;
  r <- seek_target v (offset f) pos whence ;;
  match r with
  | inl err => of_unlock o ;;; kfail err
  | inr retval =>
      of_update o (of_set_offset retval) ;;;
      of_unlock o ;;;
      kret (s32 (Z.shiftr retval 32), s32 (Z.land retval 4294967295))
  end.

(** kern/syscall/syscall_FILE.c:567-614 (sys_dup2_SHELL). *)
Definition sys_dup2_SHELL (oldfd newfd : Z) : K (kstate W) Z :=
  s <- kget ;;
  kassert (bool_decide (is_Some (curproc s))) ;;;
  if (oldfd <? 0) || (OPEN_MAX <=? oldfd) || (newfd <? 0) || (OPEN_MAX <=? newfd)
  then kfail EBADF else
  e <- fd_read oldfd ;;
  match e with
  | None => kfail EBADF
  | Some _ =>
      if oldfd =? newfd then kret newfd else
      e' <- fd_read newfd ;;
      match e' with
      | Some o' => drop_ref (fun refs => refs =? 0) newfd o'
      | None => kret tt
      end ;;;
      e <- fd_read oldfd ;;
      match e with
      | None => khalt NullDeref
      | Some o =>
          of_lock o ;;;
          f <- of_read o ;;
          of_update o (of_set_refs (u32 (count_refs f + 1))) ;;;
          of_unlock o ;;;
          fd_write newfd (Some o) ;;;
          kret newfd
      end
  end.

End ops.

(** ** Specification vocabulary *)

(** How many descriptors of the table [l] refer to [o]. *)
Definition count_fd (o : ofptr) (l : list (option ofptr)) : Z :=
  Z.of_nat (length (filter (fun e => e = Some o) l)).

(** How many descriptors of all processes refer to [o]. *)
Definition total_refs (m : gmap Z proc) (o : ofptr) : Z :=
  map_fold (fun _ p acc => count_fd o (fileTable p) + acc) 0 m.

(** 1 when [e] refers to [o], else 0. *)
Definition refers (e : option ofptr) (o : ofptr) : Z := if decide (e = Some o) then 1 else 0.

(** The state with descriptor [fd] of process [a] set to [e]. *)
Abbreviation with_fd s a p fd e :=
  (set_procs (fun m => <[a := p_set_fileTable (fun l => <[Z.to_nat fd := e]> l) p]> m) s).

(** [lseek]'s result in two 32-bit halves, most significant first. *)
Abbreviation halves r := (s32 (Z.shiftr r 32), s32 (Z.land r 4294967295)).

(** The state after a seek to [new]. *)
Abbreviation seeked s o f new := (set_ofiles (fun m => <[o := of_set_offset new f]> m) s).

Section spec.
Context {W : Type} {HV : Vfs W}.
Implicit Types s : kstate W.

(** [a] is the current process, with contents [p]. *)
Definition current s (a : Z) (p : proc) : Prop := curproc s = Some a /\ procs s !! a = Some p.

(** Descriptor [fd] of the current process refers to [o], an open file [f] on
    vnode [v]. *)
Record open_at s (a : Z) (p : proc) (fd : Z) (o : ofptr) (f : openfile) (v : Z) : Prop := {
  oa_current : current s a p;
  oa_fd : 0 <= fd < OPEN_MAX;
  oa_entry : fileTable p !! Z.to_nat fd = Some (Some o);
  oa_file : ofiles s !! o = Some f;
  oa_vnode : vn f = Some v;
  oa_lock : oflock f = Some new_lock
}.

(** The file table invariant, between system calls: tables have [OPEN_MAX]
    entries, the system table has all its entries, every descriptor refers to an
    open file whose lock is free, and the reference count of an open file is the
    number of descriptors that refer to it. *)
Record file_ok s : Prop := {
  fi_tables : forall a p, procs s !! a = Some p -> length (fileTable p) = Z.to_nat OPEN_MAX;
  fi_size : OPEN_MAX * Z.of_nat (size (procs s)) < 2 ^ 32;
  fi_sys : forall i, 0 <= i < SYSTEM_OPEN_MAX -> is_Some (ofiles s !! Sys i);
  fi_open : forall o, 0 < total_refs (procs s) o ->
    exists f v, ofiles s !! o = Some f /\ vn f = Some v /\ oflock f = Some new_lock;
  fi_refs : forall o f v, ofiles s !! o = Some f -> vn f = Some v ->
    count_refs f = total_refs (procs s) o
}.

(** ** Lemmas: counting references *)

Lemma count_fd_nonneg o l : 0 <= count_fd o l.
Proof. unfold count_fd. lia. Qed.

Lemma count_fd_le o l : count_fd o l <= Z.of_nat (length l).
Proof. unfold count_fd. pose proof (length_filter (fun e => e = Some o) l). lia. Qed.

Lemma count_fd_cons o e l : count_fd o (e :: l) = refers e o + count_fd o l.
Proof. unfold count_fd, refers. rewrite filter_cons. case_decide; cbn [length]; lia. Qed.

Lemma count_fd_insert o l i e e' :
  l !! i = Some e -> count_fd o (<[i := e']> l) = count_fd o l - refers e o + refers e' o.
Proof.
  revert i. induction l as [|x l IH]; intros [|i] Hi; cbn in Hi; try done.
  - injection Hi as ->. cbn [insert list_insert]. rewrite !count_fd_cons. lia.
  - change (<[S i := e']> (x :: l)) with (x :: <[i := e']> l). rewrite !count_fd_cons, (IH i) by done. lia.
Qed.

Lemma count_fd_elem o l i : l !! i = Some (Some o) -> 0 < count_fd o l.
Proof.
  intros Hi. pose proof (count_fd_insert o l i (Some o) None Hi) as H.
  pose proof (count_fd_nonneg o (<[i := None]> l)). unfold refers in H.
  rewrite decide_True, decide_False in H by done. lia.
Qed.

Lemma total_refs_insert m a p o :
  m !! a = None -> total_refs (<[a := p]> m) o = count_fd o (fileTable p) + total_refs m o.
Proof.
  intros H. unfold total_refs. rewrite map_fold_insert_L; [done| |done]. intros. lia.
Qed.

Lemma total_refs_delete m a p o :
  m !! a = Some p -> total_refs m o = count_fd o (fileTable p) + total_refs (delete a m) o.
Proof.
  intros H. rewrite <- (insert_delete_id m a p H) at 1.
  rewrite total_refs_insert; [done|]. apply lookup_delete_eq.
Qed.

Lemma total_refs_update m a p p' o :
  m !! a = Some p ->
  total_refs (<[a := p']> m) o =
  total_refs m o - count_fd o (fileTable p) + count_fd o (fileTable p').
Proof.
  intros H. rewrite (total_refs_delete m a p) by done.
  rewrite (total_refs_delete (<[a := p']> m) a p') by apply lookup_insert_eq.
  rewrite delete_insert_eq. lia.
Qed.

Lemma total_refs_nonneg m o : 0 <= total_refs m o.
Proof.
  induction m as [|i x m Hi IH] using map_ind.
  - unfold total_refs. rewrite map_fold_empty. lia.
  - rewrite total_refs_insert by done. pose proof (count_fd_nonneg o (fileTable x)). lia.
Qed.

Lemma total_refs_ge m a p o : m !! a = Some p -> count_fd o (fileTable p) <= total_refs m o.
Proof.
  intros H. rewrite (total_refs_delete m a p) by done.
  pose proof (total_refs_nonneg (delete a m) o). lia.
Qed.

Lemma total_refs_bound m o :
  (forall a p, m !! a = Some p -> length (fileTable p) = Z.to_nat OPEN_MAX) ->
  total_refs m o <= OPEN_MAX * Z.of_nat (size m).
Proof.
  induction m as [|i x m Hi IH] using map_ind; intros Hlen.
  - unfold total_refs. rewrite map_fold_empty, map_size_empty. lia.
  - rewrite total_refs_insert, map_size_insert_None by done.
    pose proof (Hlen i x (lookup_insert_eq _ _ _)) as Hx.
    pose proof (count_fd_le o (fileTable x)). unfold OPEN_MAX in *.
    assert (total_refs m o <= 128 * Z.of_nat (size m)); [|lia].
    apply IH. intros a p Hp. apply (Hlen a). rewrite lookup_insert_ne; [done|]. by intros ->; rewrite Hi in Hp.
Qed.

Lemma refs_of_open s a p fd o f v :
  file_ok s -> open_at s a p fd o f v -> 0 < total_refs (procs s) o.
Proof.
  intros Hok [[_ Hp] _ He _ _ _]. pose proof (count_fd_elem _ _ _ He).
  pose proof (total_refs_ge _ _ _ o Hp). lia.
Qed.

Lemma refs_range s a p fd o f v :
  file_ok s -> open_at s a p fd o f v -> 1 <= count_refs f < 2 ^ 32.
Proof.
  intros Hok Hat. pose proof (refs_of_open _ _ _ _ _ _ _ Hok Hat).
  rewrite (fi_refs s Hok o f v) by apply Hat.
  pose proof (total_refs_bound (procs s) o (fi_tables s Hok)). pose proof (fi_size s Hok). lia.
Qed.

(** A descriptor of the current process in a consistent state. *)
Lemma descriptor_cases s a p fd :
  file_ok s -> current s a p -> 0 <= fd < OPEN_MAX ->
  fileTable p !! Z.to_nat fd = Some None \/ exists o f v, open_at s a p fd o f v.
Proof.
  intros Hok Hc Hfd. pose proof Hc as [_ Hp].
  destruct (fileTable p !! Z.to_nat fd) as [[o|]|] eqn:E.
  - right. destruct (fi_open s Hok o) as (f & v & ? & ? & ?).
    { pose proof (count_fd_elem _ _ _ E). pose proof (total_refs_ge _ _ _ o Hp). lia. }
    exists o, f, v. by split.
  - by left.
  - apply lookup_ge_None in E. pose proof (fi_tables s Hok a p Hp). lia.
Qed.

(** ** Lemmas: single steps *)

Lemma fd_read_eq s a p fd e :
  current s a p -> fileTable p !! Z.to_nat fd = Some e -> fd_read fd s = Done e s.
Proof.
  intros [Hc Hp] He. unfold fd_read, kbind.
  by rewrite (get_curproc_eq _ _ Hc), (proc_read_eq _ _ _ Hp), He.
Qed.

Lemma fd_write_eq s a p fd e e' :
  current s a p -> fileTable p !! Z.to_nat fd = Some e ->
  fd_write fd e' s =
  Done tt (set_procs (fun m => <[a := p_set_fileTable (fun l => <[Z.to_nat fd := e']> l) p]> m) s).
Proof.
  intros Hcur He. pose proof Hcur as [Hc Hp]. unfold fd_write, kbind.
  rewrite (fd_read_eq _ _ _ _ _ Hcur He), (get_curproc_eq _ _ Hc). unfold set_fd.
  by rewrite (proc_update_eq _ _ _ _ Hp).
Qed.

Lemma fd_lookup_eq s a p fd o f v :
  open_at s a p fd o f v -> fd_lookup fd s = Done o s.
Proof.
  intros [Hc Hfd He _ _ _]. unfold fd_lookup.
  rewrite (proj2 (orb_false_iff (fd <? 0) (OPEN_MAX <=? fd))) by (rewrite Z.ltb_ge, Z.leb_gt; lia).
  unfold kbind. by rewrite (fd_read_eq _ _ _ _ _ Hc He).
Qed.

Lemma fd_lookup_bad s a p fd :
  current s a p -> ~ 0 <= fd < OPEN_MAX \/ fileTable p !! Z.to_nat fd = Some None ->
  fd_lookup fd s = Fail EBADF s.
Proof.
  intros Hc Hbad. unfold fd_lookup. destruct (Z.ltb_spec fd 0); [done|].
  destruct (Z.leb_spec OPEN_MAX fd); [done|]. cbn [orb]. unfold kbind.
  destruct Hbad as [|He]; [lia|]. by rewrite (fd_read_eq _ _ _ _ _ Hc He).
Qed.

(** The file with its lock held by the current thread. *)
Definition held s (f : openfile) : openfile := of_set_lock (Some (mklock (Some (curthread s)) [])) f.

Lemma of_lock_eq s o f :
  ofiles s !! o = Some f -> oflock f = Some new_lock ->
  of_lock o s = Done tt (set_ofiles (fun m => <[o := held s f]> m) s).
Proof.
  intros Ho Hl. unfold of_lock, kbind. rewrite (of_read_eq _ _ _ Ho), Hl.
  unfold lock_acquire, kbind, kget. cbn [lk_owner new_lock].
  rewrite bool_decide_eq_false_2 by done. cbn [negb kassert]. unfold kret.
  by rewrite (of_update_eq _ _ _ _ Ho).
Qed.

Lemma of_unlock_eq s o f :
  ofiles s !! o = Some f -> oflock f = Some (mklock (Some (curthread s)) []) ->
  of_unlock o s = Done tt (set_ofiles (fun m => <[o := of_set_lock (Some new_lock) f]> m) s).
Proof.
  intros Ho Hl. unfold of_unlock, kbind. rewrite (of_read_eq _ _ _ Ho), Hl.
  unfold lock_release, kbind, kget. cbn [lk_owner].
  rewrite bool_decide_eq_true_2 by done. cbn [kassert tail lk_wchan]. unfold kret.
  by rewrite (of_update_eq _ _ _ _ Ho).
Qed.

Lemma set_ofiles_insert s o f g :
  set_ofiles (fun m => <[o := f]> m) (set_ofiles (fun m => <[o := g]> m) s) =
  set_ofiles (fun m => <[o := f]> m) s.
Proof. unfold set_ofiles. cbn. by rewrite insert_insert_eq. Qed.

Lemma lookup_set_ofiles s o f : ofiles (set_ofiles (fun m => <[o := f]> m) s) !! o = Some f.
Proof. cbn. by rewrite lookup_insert_eq. Qed.

Lemma set_ofiles_id s o f : ofiles s !! o = Some f -> set_ofiles (fun m => <[o := f]> m) s = s.
Proof. intros H. unfold set_ofiles. rewrite insert_id by done. by destruct s. Qed.

Lemma of_set_lock_id f l : oflock f = Some l -> of_set_lock (Some l) f = f.
Proof. destruct f. cbn. by intros ->. Qed.

(** The state after the reference of descriptor [fd] to [o] has been dropped;
    the last reference closes the vnode and frees the entry. *)
Definition dropped s (a : Z) (p : proc) (fd : Z) (o : ofptr) (f : openfile) (v : Z) : kstate W :=
  let last := count_refs f =? 1 in
  set_world (if last then vfs_close v (world s) else world s)
    (set_ofiles (fun m => <[o := of_set_refs (count_refs f - 1)
                                   (if last then of_set_vn None f else f)]> m)
      (with_fd s a p fd None)).

Lemma drop_ref_eq s a p fd o f v last :
  file_ok s -> open_at s a p fd o f v -> (forall r, 0 <= r -> last r = (r =? 0)) ->
  drop_ref last fd o s = Done tt (dropped s a p fd o f v).
Proof.
  intros Hok Hat Hlast. pose proof (refs_range _ _ _ _ _ _ _ Hok Hat) as Hr.
  destruct Hat as [Hc Hfd He Ho Hv Hl]. unfold drop_ref.
  unfold kbind at 1. rewrite (of_lock_eq _ _ _ Ho Hl). set (s1 := set_ofiles _ s).
  unfold kbind at 1. rewrite (fd_write_eq s1 a p fd (Some o) None) by done. set (s2 := set_procs _ s1).
  unfold kbind at 1. rewrite (of_read_eq s2 o (held s f)) by apply lookup_set_ofiles.
  cbn [count_refs held of_set_lock]. rewrite wrapu_small by lia.
  unfold kbind at 1. rewrite (of_update_eq s2 o (held s f)) by apply lookup_set_ofiles.
  unfold kbind at 1. rewrite Hlast by lia.
  destruct (Z.eqb_spec (count_refs f - 1) 0) as [H0|H0].
  - unfold the_vnode. cbn [vn held of_set_lock]. rewrite Hv. unfold kbind, kret.
    erewrite (of_update_eq _ o) by apply lookup_set_ofiles. unfold lift_world_.
    rewrite set_ofiles_insert.
    erewrite of_unlock_eq; [|apply lookup_set_ofiles|done]. unfold dropped.
    rewrite (proj2 (Z.eqb_eq _ _)) by lia. f_equal.
    unfold set_ofiles, set_world, s2, s1, set_procs, set_ofiles. cbn. rewrite !insert_insert_eq.
    do 3 f_equal. destruct f. cbn in *. by subst.
  - unfold kret. erewrite of_unlock_eq; [|apply lookup_set_ofiles|done].
    rewrite set_ofiles_insert. unfold dropped. rewrite (proj2 (Z.eqb_neq _ 1)) by lia. f_equal.
    unfold set_ofiles, set_world, s2, s1, set_procs, set_ofiles. cbn. rewrite !insert_insert_eq.
    do 3 f_equal. destruct f. cbn in *. by subst.
Qed.

(** Changing one descriptor changes the reference counts by what the old and the
    new entry refer to. *)
Lemma total_refs_with_fd s a p fd e e' x :
  procs s !! a = Some p -> fileTable p !! Z.to_nat fd = Some e ->
  total_refs (procs (with_fd s a p fd e')) x = total_refs (procs s) x - refers e x + refers e' x.
Proof.
  intros Hp He. cbn. rewrite (total_refs_update _ _ p) by done. cbn [fileTable p_set_fileTable].
  rewrite (count_fd_insert _ _ _ e) by done. lia.
Qed.

(** The invariant after one descriptor went from [e] to [e'] and the files [o]
    of [s] became [om]. *)
Lemma file_ok_with_fd s s' a p fd e e' :
  file_ok s -> procs s !! a = Some p -> fileTable p !! Z.to_nat fd = Some e ->
  procs s' = procs (with_fd s a p fd e') ->
  (forall x, is_Some (ofiles s !! x) -> is_Some (ofiles s' !! x)) ->
  (forall x, 0 < total_refs (procs s) x - refers e x + refers e' x ->
     exists f v, ofiles s' !! x = Some f /\ vn f = Some v /\ oflock f = Some new_lock) ->
  (forall x f v, ofiles s' !! x = Some f -> vn f = Some v ->
     count_refs f = total_refs (procs s) x - refers e x + refers e' x) ->
  file_ok s'.
Proof.
  intros Hok Hp He Hps Hdom Hopen Hrefs. split.
  - intros b q Hq. rewrite Hps in Hq. cbn in Hq. destruct (decide (a = b)) as [<-|Hne].
    + rewrite lookup_insert_eq in Hq. injection Hq as <-. cbn. rewrite length_insert.
      by apply (fi_tables s Hok a).
    + rewrite lookup_insert_ne in Hq by done. by apply (fi_tables s Hok b).
  - rewrite Hps. cbn. rewrite map_size_insert_Some by eauto. apply Hok.
  - intros i Hi. apply Hdom, (fi_sys s Hok i Hi).
  - intros x. rewrite Hps, (total_refs_with_fd _ _ _ _ e) by done. apply Hopen.
  - intros x f v Hx Hv. rewrite Hps, (total_refs_with_fd _ _ _ _ e) by done. by apply (Hrefs x f v).
Qed.

(** Changing the offset, the mode and the VFS state only. *)
Lemma file_ok_same_refs s s' o f f' :
  file_ok s -> ofiles s !! o = Some f -> vn f' = vn f -> count_refs f' = count_refs f ->
  oflock f' = oflock f -> procs s' = procs s -> ofiles s' = <[o := f']> (ofiles s) -> file_ok s'.
Proof.
  intros Hok Ho Hv Hr Hl Hp Hof.
  assert (Hold : forall x g', ofiles s' !! x = Some g' -> exists g, ofiles s !! x = Some g /\
    vn g' = vn g /\ count_refs g' = count_refs g /\ oflock g' = oflock g).
  { intros x g'. rewrite Hof. destruct (decide (o = x)) as [<-|Hne].
    - rewrite lookup_insert_eq. intros [= <-]. eauto.
    - rewrite lookup_insert_ne by done. eauto. }
  split; rewrite ?Hp; try apply Hok.
  - intros i Hi. rewrite Hof. apply lookup_insert_is_Some'. right. by apply (fi_sys s Hok).
  - intros x Hx. destruct (fi_open s Hok x Hx) as (g & v & Hg & Hvg & Hlg).
    rewrite Hof. destruct (decide (o = x)) as [<-|Hne].
    + exists f', v. rewrite lookup_insert_eq. simplify_eq. split_and!; congruence.
    + exists g, v. by rewrite lookup_insert_ne.
  - intros x g' v Hx Hvx. destruct (Hold x g' Hx) as (g & Hg & E1 & E2 & E3).
    rewrite E2. apply (fi_refs s Hok x g v); congruence.
Qed.

Lemma refers_self o : refers (Some o) o = 1.
Proof. unfold refers. by rewrite decide_True. Qed.

Lemma refers_none o : refers None o = 0.
Proof. unfold refers. by rewrite decide_False. Qed.

Lemma refers_other o x : o <> x -> refers (Some o) x = 0.
Proof. intros H. unfold refers. by rewrite decide_False by congruence. Qed.

Lemma dropped_file_ok s a p fd o f v :
  file_ok s -> open_at s a p fd o f v -> file_ok (dropped s a p fd o f v).
Proof.
  intros Hok Hat. pose proof (refs_range _ _ _ _ _ _ _ Hok Hat) as Hr.
  pose proof (fi_refs s Hok o f v (oa_file _ _ _ _ _ _ _ Hat) (oa_vnode _ _ _ _ _ _ _ Hat)) as Hcnt.
  destruct Hat as [[Hcp Hp] Hfd He Ho Hv Hl].
  apply (file_ok_with_fd s _ a p fd (Some o) None); try done.
  - intros x Hx. apply lookup_insert_is_Some'. by right.
  - intros x. rewrite refers_none. cbn [dropped ofiles set_world set_ofiles].
    destruct (decide (o = x)) as [<-|Hne].
    + rewrite refers_self, lookup_insert_eq. intros Hpos.
      rewrite (proj2 (Z.eqb_neq _ 1)) by lia. by exists (of_set_refs (count_refs f - 1) f), v.
    + rewrite refers_other, lookup_insert_ne by done. intros Hpos. apply (fi_open s Hok). lia.
  - intros x g w. rewrite refers_none. cbn [dropped ofiles set_world set_ofiles].
    destruct (decide (o = x)) as [<-|Hne].
    + rewrite refers_self, lookup_insert_eq. intros [= <-]. destruct (Z.eqb_spec (count_refs f) 1); [done|].
      cbn. lia.
    + rewrite refers_other, lookup_insert_ne by done. intros Hg Hw. rewrite (fi_refs s Hok x g w) by done. lia.
Qed.

(** ** Lemmas: dup2 *)

(** [newfd] made to refer to [o] as well. *)
Definition duped s (a : Z) (p : proc) (newfd : Z) (o : ofptr) (f : openfile) : kstate W :=
  set_ofiles (fun m => <[o := of_set_refs (count_refs f + 1) f]> m) (with_fd s a p newfd (Some o)).

Lemma duped_bound s a p newfd o f v :
  file_ok s -> current s a p -> ofiles s !! o = Some f -> vn f = Some v ->
  fileTable p !! Z.to_nat newfd = Some None -> 0 <= count_refs f /\ count_refs f + 1 < 2 ^ 32.
Proof.
  intros Hok [Hc Hp] Ho Hv He. rewrite (fi_refs s Hok o f v) by done.
  pose proof (total_refs_nonneg (procs s) o). pose proof (fi_size s Hok).
  pose proof (total_refs_with_fd s a p newfd None (Some o) o Hp He) as Hn.
  rewrite refers_none, refers_self in Hn.
  pose proof (total_refs_bound (procs (with_fd s a p newfd (Some o))) o) as Hb.
  cbn [procs set_procs] in Hb, Hn. rewrite map_size_insert_Some in Hb by eauto. split; [lia|].
  assert (total_refs (procs s) o - 0 + 1 <= OPEN_MAX * Z.of_nat (size (procs s))); [|lia].
  rewrite <- Hn. apply Hb. intros b q. destruct (decide (a = b)) as [<-|Hne].
  - rewrite lookup_insert_eq. intros [= <-]. cbn. rewrite length_insert. by apply (fi_tables s Hok a).
  - rewrite lookup_insert_ne by done. apply (fi_tables s Hok).
Qed.

Lemma duped_file_ok s a p newfd o f v :
  file_ok s -> current s a p -> ofiles s !! o = Some f -> vn f = Some v -> oflock f = Some new_lock ->
  fileTable p !! Z.to_nat newfd = Some None -> file_ok (duped s a p newfd o f).
Proof.
  intros Hok Hcur Ho Hv Hl He. pose proof (fi_refs s Hok o f v Ho Hv) as Hcnt.
  apply (file_ok_with_fd s _ a p newfd None (Some o)); try done; try apply Hcur.
  - intros x Hx. apply lookup_insert_is_Some'. by right.
  - intros x. rewrite refers_none. cbn [duped ofiles set_ofiles]. destruct (decide (o = x)) as [<-|Hne].
    + intros _. rewrite lookup_insert_eq. by exists (of_set_refs (count_refs f + 1) f), v.
    + rewrite refers_other, lookup_insert_ne by done. intros. apply (fi_open s Hok). lia.
  - intros x g w. rewrite refers_none. cbn [duped ofiles set_ofiles]. destruct (decide (o = x)) as [<-|Hne].
    + rewrite refers_self, lookup_insert_eq. intros [= <-] _. cbn. lia.
    + rewrite refers_other, lookup_insert_ne by done. intros Hg Hw. rewrite (fi_refs s Hok x g w) by done. lia.
Qed.

(** The second half of [sys_dup2_SHELL]: [newfd] is free. *)
Lemma dup2_tail s a p oldfd newfd o f v :
  file_ok s -> open_at s a p oldfd o f v -> fileTable p !! Z.to_nat newfd = Some None ->
  (e <- fd_read oldfd ;;
   match e with
   | None => khalt NullDeref
   | Some o =>
       of_lock o ;;;
       f <- of_read o ;;
       of_update o (of_set_refs (u32 (count_refs f + 1))) ;;;
       of_unlock o ;;;
       fd_write newfd (Some o) ;;;
       kret newfd
   end) s = Done newfd (duped s a p newfd o f).
Proof.
  intros Hok [Hc Hfd He Ho Hv Hl] Hnew.
  pose proof (duped_bound s a p newfd o f v Hok Hc Ho Hv Hnew) as Hb.
  unfold kbind at 1. rewrite (fd_read_eq _ _ _ _ _ Hc He).
  unfold kbind at 1. rewrite (of_lock_eq _ _ _ Ho Hl). unfold kbind.
  erewrite of_read_eq by apply lookup_set_ofiles.
  erewrite of_update_eq by apply lookup_set_ofiles. rewrite set_ofiles_insert.
  erewrite of_unlock_eq; [|apply lookup_set_ofiles|done]. rewrite set_ofiles_insert.
  rewrite (fd_write_eq _ a p newfd None) by done. unfold kret, duped. f_equal.
  cbn [count_refs held of_set_lock]. rewrite wrapu_small by lia.
  unfold set_procs, set_ofiles. cbn. do 2 f_equal. destruct f. cbn in *. by subst.
Qed.

(** The current process after one of its descriptors was dropped. *)
Lemma dropped_current s a p fd o f v :
  current s a p ->
  current (dropped s a p fd o f v) a (p_set_fileTable (fun l => <[Z.to_nat fd := None]> l) p).
Proof. intros [Hc Hp]. split; [done|]. cbn. by rewrite lookup_insert_eq. Qed.

(** Another descriptor survives the drop; it may have shared the file. *)
Lemma dropped_open_at s a p fd o f v fd2 o2 f2 v2 :
  file_ok s -> open_at s a p fd o f v -> open_at s a p fd2 o2 f2 v2 -> fd <> fd2 ->
  exists f2', open_at (dropped s a p fd o f v) a (p_set_fileTable (fun l => <[Z.to_nat fd := None]> l) p)
                fd2 o2 f2' v2 /\ offset f2' = offset f2 /\ mode_open f2' = mode_open f2.
Proof.
  intros Hok Hat Hat2 Hne. pose proof (dropped_file_ok _ _ _ _ _ _ _ Hok Hat) as Hok'.
  pose proof (dropped_current s a p fd o f v (oa_current _ _ _ _ _ _ _ Hat)) as Hc'.
  pose proof (oa_fd _ _ _ _ _ _ _ Hat). destruct Hat2 as [_ Hfd2 He2 Ho2 Hv2 Hl2].
  assert (He2' : fileTable (p_set_fileTable (fun l => <[Z.to_nat fd := None]> l) p) !! Z.to_nat fd2
                 = Some (Some o2)) by (cbn; rewrite list_lookup_insert_ne by lia; done).
  destruct (descriptor_cases _ _ _ fd2 Hok' Hc' Hfd2) as [Hbad|(o' & f' & v' & Hat')]; [congruence|].
  assert (o' = o2) as -> by (destruct Hat' as [_ _ E _ _ _]; congruence).
  exists f'. pose proof Hat' as [_ _ _ Hf' Hv' _]. cbn in Hf'.
  destruct (decide (o = o2)) as [->|Hno].
  - rewrite lookup_insert_eq in Hf'. injection Hf' as <-. pose proof (oa_file _ _ _ _ _ _ _ Hat).
    simplify_eq. destruct (count_refs f2 =? 1); cbn in *; [done|]. simplify_eq. done.
  - rewrite lookup_insert_ne in Hf' by done. simplify_eq. done.
Qed.

Lemma duped_open_at s a p oldfd newfd o f v fd :
  file_ok s -> open_at s a p oldfd o f v -> 0 <= newfd < OPEN_MAX ->
  fileTable p !! Z.to_nat newfd = Some None -> fd = oldfd \/ fd = newfd ->
  open_at (duped s a p newfd o f) a (p_set_fileTable (fun l => <[Z.to_nat newfd := Some o]> l) p)
    fd o (of_set_refs (count_refs f + 1) f) v.
Proof.
  intros Hok [[Hc Hp] Hfd He Ho Hv Hl] Hnew Hn Hcase. split; try done.
  - split; [done|]. cbn. by rewrite lookup_insert_eq.
  - destruct Hcase as [->| ->]; lia.
  - cbn. destruct (decide (Z.to_nat newfd = Z.to_nat fd)) as [E|E].
    + rewrite E, list_lookup_insert_eq; [done|]. apply lookup_lt_Some in Hn. lia.
    + rewrite list_lookup_insert_ne by done. destruct Hcase as [->| ->]; [done|lia].
  - cbn. by rewrite lookup_insert_eq.
Qed.

(** [sys_dup2_SHELL] on two different descriptors: [newfd] is closed when it was
    open, then both refer to the file of [oldfd]. *)
Lemma dup2_run s a p oldfd newfd o f v :
  file_ok s -> open_at s a p oldfd o f v -> 0 <= newfd < OPEN_MAX -> oldfd <> newfd ->
  exists s' f',
    sys_dup2_SHELL oldfd newfd s = Done newfd s' /\ file_ok s' /\
    open_at s' a (p_set_fileTable (fun l => <[Z.to_nat newfd := Some o]> l) p) oldfd o f' v /\
    open_at s' a (p_set_fileTable (fun l => <[Z.to_nat newfd := Some o]> l) p) newfd o f' v /\
    offset f' = offset f /\ mode_open f' = mode_open f /\ umem s' = umem s /\
    (forall b, b <> a -> procs s' !! b = procs s !! b).
Proof.
  intros Hok Hat Hnew Hne. pose proof Hat as [Hc Hfd He Ho Hv Hl]. pose proof Hc as [Hcp Hp].
  unfold sys_dup2_SHELL. unfold kbind at 1, kget. unfold kbind at 1.
  rewrite Hcp, bool_decide_eq_true_2 by done. cbn [kassert]. unfold kret at 1.
  replace ((oldfd <? 0) || (OPEN_MAX <=? oldfd) || (newfd <? 0) || (OPEN_MAX <=? newfd)) with false
    by (repeat (rewrite (proj2 (Z.ltb_ge _ _)) by lia); repeat (rewrite (proj2 (Z.leb_gt _ _)) by lia); done).
  unfold kbind at 1. rewrite (fd_read_eq _ _ _ _ _ Hc He). rewrite (proj2 (Z.eqb_neq _ _)) by done.
  unfold kbind at 1.
  destruct (descriptor_cases s a p newfd Hok Hc Hnew) as [Hnone|(o' & f0 & v0 & Hat0)].
  - rewrite (fd_read_eq _ _ _ _ _ Hc Hnone). unfold kbind at 1, kret at 1.
    rewrite (dup2_tail s a p oldfd newfd o f v) by done.
    exists (duped s a p newfd o f), (of_set_refs (count_refs f + 1) f).
    split_and!; try done; try (apply (duped_open_at s a p oldfd); auto).
    + by apply (duped_file_ok s a p newfd o f v).
    + intros b Hb. cbn. by rewrite lookup_insert_ne.
  - rewrite (fd_read_eq _ _ _ _ _ Hc (oa_entry _ _ _ _ _ _ _ Hat0)). unfold kbind at 1.
    rewrite (drop_ref_eq s a p newfd o' f0 v0) by done.
    destruct (dropped_open_at s a p newfd o' f0 v0 oldfd o f v) as (f1 & Hat1 & Hoff & Hmode); [done..|].
    pose proof (dropped_file_ok _ _ _ _ _ _ _ Hok Hat0) as Hok1.
    set (p1 := p_set_fileTable (fun l => <[Z.to_nat newfd := None]> l) p) in *.
    set (s1 := dropped s a p newfd o' f0 v0) in *.
    assert (Hfree : fileTable p1 !! Z.to_nat newfd = Some None).
    { cbn. rewrite list_lookup_insert_eq; [done|]. rewrite (fi_tables s Hok a) by done. lia. }
    rewrite (dup2_tail s1 a p1 oldfd newfd o f1 v) by done.
    assert (Hp' : p_set_fileTable (fun l => <[Z.to_nat newfd := Some o]> l) p1 =
                  p_set_fileTable (fun l => <[Z.to_nat newfd := Some o]> l) p).
    { unfold p1, p_set_fileTable. cbn. by rewrite list_insert_insert_eq. }
    exists (duped s1 a p1 newfd o f1), (of_set_refs (count_refs f1 + 1) f1). rewrite <- Hp'.
    split_and!; try done; try (apply (duped_open_at s1 a p1 oldfd); auto).
    + pose proof Hat1 as []. by apply (duped_file_ok s1 a p1 newfd o f1 v).
    + intros b Hb. cbn. by rewrite !lookup_insert_ne.
Qed.

(** ** Lemmas: lseek *)

(** [seek_target] touches the VFS state only. *)
Definition seek_pure (v old pos whence : Z) (w : W) : (Z + Z) * W :=
  match seek_target v old pos whence (mkk ∅ [] 0 false ∅ ∅ 0 None 0 [] ∅ w) with
  | Done r s => (r, world s)
  | _ => (inl 0, w)
  end.

Lemma seek_target_eq v old pos whence s :
  seek_target v old pos whence s =
  let '(r, w) := seek_pure v old pos whence (world s) in Done r (set_world w s).
Proof.
  assert (Hs : set_world (world s) s = s) by (by destruct s).
  unfold seek_pure, seek_target. repeat (case_match; try done; simplify_eq);
    unfold kret, kbind, lift_world in *; cbn in *; simplify_eq; cbn; rewrite ?Hs; try done.
  - destruct (vop_stat v (world s)); simplify_eq. done.
  - destruct (vop_stat v (world s)); simplify_eq.
  - destruct (vop_stat v (world s)); simplify_eq.
Qed.

Lemma lseek_run s a p fd o f v pos whence r w :
  open_at s a p fd o f v -> vop_isseekable v (world s) = true ->
  seek_pure v (offset f) pos whence (world s) = (r, w) ->
  sys_lseek_SHELL fd pos whence s =
  match r with
  | inl err => Fail err (set_world w s)
  | inr new => Done (halves new) (set_world w (set_ofiles (fun m => <[o := of_set_offset new f]> m) s))
  end.
Proof.
  intros Hat Hseek Hr. pose proof Hat as [[Hc Hp] Hfd He Ho Hv Hl].
  unfold sys_lseek_SHELL. unfold kbind at 1, kget. unfold kbind at 1.
  rewrite Hc, bool_decide_eq_true_2 by done. cbn [kassert]. unfold kret at 1.
  unfold kbind at 1. rewrite (fd_lookup_eq _ _ _ _ _ _ _ Hat).
  unfold kbind at 1. rewrite (of_read_eq _ _ _ Ho). unfold kbind at 1, the_vnode. rewrite Hv.
  unfold kret at 1. unfold kbind at 1. rewrite Hseek. cbn [negb].
  unfold kbind at 1. rewrite (of_lock_eq _ _ _ Ho Hl). unfold kbind at 1. rewrite seek_target_eq.
  cbn [world set_ofiles]. rewrite Hr. destruct r as [err|new].
  - unfold kbind. erewrite of_unlock_eq; [|cbn; by rewrite lookup_insert_eq|done].
    unfold kfail. f_equal. unfold set_ofiles, set_world. cbn. rewrite insert_insert_eq.
    replace (of_set_lock (Some new_lock) (held s f)) with f by (destruct f; cbn in *; by subst).
    by rewrite insert_id.
  - unfold kbind. erewrite of_update_eq by (cbn; by rewrite lookup_insert_eq).
    erewrite of_unlock_eq; [|cbn; by rewrite lookup_insert_eq|done].
    unfold kret. f_equal. unfold set_ofiles, set_world. cbn. rewrite !insert_insert_eq.
    do 2 f_equal. destruct f; cbn in *; by subst.
Qed.

Lemma lseek_bad s a p fd pos whence :
  current s a p -> ~ 0 <= fd < OPEN_MAX \/ fileTable p !! Z.to_nat fd = Some None ->
  sys_lseek_SHELL fd pos whence s = Fail EBADF s.
Proof.
  intros Hc Hbad. unfold sys_lseek_SHELL. unfold kbind at 1, kget. unfold kbind at 1.
  pose proof Hc as [Hcp _]. rewrite Hcp, bool_decide_eq_true_2 by done. cbn [kassert]. unfold kret at 1.
  unfold kbind at 1. by rewrite (fd_lookup_bad _ _ _ _ Hc Hbad).
Qed.

(** ** Theorems *)

(** C29. [close] of an open descriptor returns 0: the descriptor becomes free,
    exactly one reference to the file goes away, and the vnode is closed and the
    table entry freed exactly when that was the last one; the reference counts
    stay exact. On anything else it returns EBADF and changes nothing. *)
Theorem sys_close_spec s a p fd :
  file_ok s -> current s a p ->
  (exists o f v, open_at s a p fd o f v /\
     sys_close_SHELL fd s = Done 0 (dropped s a p fd o f v) /\
     file_ok (dropped s a p fd o f v) /\
     (vn <$> ofiles (dropped s a p fd o f v) !! o = Some None <-> total_refs (procs s) o = 1)) \/
  (~ (exists o f v, open_at s a p fd o f v) /\ sys_close_SHELL fd s = Fail EBADF s).
Proof.
  intros Hok Hc. unfold sys_close_SHELL, kbind.
  assert (Hcase : (exists o f v, open_at s a p fd o f v) \/
    (~ (exists o f v, open_at s a p fd o f v) /\
     (~ 0 <= fd < OPEN_MAX \/ fileTable p !! Z.to_nat fd = Some None))).
  { assert (Hd : 0 <= fd < OPEN_MAX \/ ~ 0 <= fd < OPEN_MAX) by lia. destruct Hd as [Hfd|Hfd].
    - destruct (descriptor_cases s a p fd Hok Hc Hfd) as [Hn|Ho]; [right|by left].
      split; [|by right]. intros (o & f & v & [_ _ He _ _ _]). congruence.
    - right. split; [|by left]. intros (o & f & v & [_ Hfd' _ _ _ _]). done. }
  destruct Hcase as [(o & f & v & Hat)|[Hno Hbad]].
  - left. exists o, f, v. rewrite (fd_lookup_eq _ _ _ _ _ _ _ Hat).
    rewrite (drop_ref_eq s a p fd o f v); [|done|done|].
    + split_and!; [done|done|by apply dropped_file_ok|].
      pose proof Hat as [_ _ _ Ho Hv _]. rewrite <- (fi_refs s Hok o f v Ho Hv).
      unfold dropped. cbn. rewrite lookup_insert_eq. cbn.
      destruct (Z.eqb_spec (count_refs f) 1); cbn; split; try done. rewrite Hv. done.
    + intros r Hr. destruct (Z.ltb_spec 0 r), (Z.eqb_spec r 0); (done || lia).
  - right. split; [done|]. by rewrite (fd_lookup_bad _ _ _ _ Hc Hbad).
Qed.

(** [dup2(oldfd, newfd)] of an open descriptor onto another one returns
    [newfd]; afterwards both refer to the same open file (same vnode, offset and
    mode), whatever [newfd] referred to before has lost one reference, every
    reference count is exact and no other process is touched. *)
Theorem sys_dup2_spec s a p oldfd newfd o f v :
  file_ok s -> open_at s a p oldfd o f v -> 0 <= newfd < OPEN_MAX -> oldfd <> newfd ->
  exists s' f',
    sys_dup2_SHELL oldfd newfd s = Done newfd s' /\ file_ok s' /\
    open_at s' a (p_set_fileTable (fun l => <[Z.to_nat newfd := Some o]> l) p) oldfd o f' v /\
    open_at s' a (p_set_fileTable (fun l => <[Z.to_nat newfd := Some o]> l) p) newfd o f' v /\
    offset f' = offset f /\ mode_open f' = mode_open f /\ umem s' = umem s /\
    (forall b, b <> a -> procs s' !! b = procs s !! b).
Proof. apply dup2_run. Qed.

Lemma seek_set_pure v old pos w :
  0 <= pos -> seek_pure v old pos SEEK_SET w = (inr pos, w).
Proof. intros H. unfold seek_pure, seek_target. cbn. by rewrite (proj2 (Z.ltb_ge _ _)). Qed.

(** Descriptors made by [dup2] share one seek position: an [lseek] through
    the new one moves the old one. *)
Theorem dup2_shares_offset s a p oldfd newfd o f v pos :
  file_ok s -> open_at s a p oldfd o f v -> 0 <= newfd < OPEN_MAX -> oldfd <> newfd -> 0 <= pos ->
  (forall w, vop_isseekable v w = true) ->
  exists s' p' f',
    (sys_dup2_SHELL oldfd newfd ;;; sys_lseek_SHELL newfd pos SEEK_SET) s = Done (halves pos) s' /\
    open_at s' a p' oldfd o f' v /\ offset f' = pos.
Proof.
  intros Hok Hat Hnew Hne Hpos Hseek.
  destruct (dup2_run s a p oldfd newfd o f v) as (s1 & f1 & Hrun & Hok1 & Hold & Hn & _); [done..|].
  unfold kbind. rewrite Hrun.
  rewrite (lseek_run s1 _ _ newfd o f1 v pos SEEK_SET (inr pos) (world s1) Hn); [|done|].
  2: by apply seek_set_pure.
  eexists _, _, (of_set_offset pos f1). split_and!; [done| |done].
  destruct Hold as [Hc Hfd He Ho Hv Hl]. split; try done. cbn. by rewrite lookup_insert_eq.
Qed.

Lemma halves_join r :
  - 2 ^ 63 <= r < 2 ^ 63 -> (halves r).1 * 2 ^ 32 + u32 (halves r).2 = r.
Proof.
  intros Hr. cbn [fst snd]. rewrite Z.shiftr_div_pow2 by lia.
  change 4294967295 with (Z.ones 32). rewrite Z.land_ones by lia.
  pose proof (Z.div_mod r (2 ^ 32) ltac:(lia)). pose proof (Z.mod_pos_bound r (2 ^ 32) ltac:(lia)).
  rewrite wraps_small.
  2: lia. 2: { split; [apply Z.div_le_lower_bound; lia|apply Z.div_lt_upper_bound; lia]. }
  unfold wrapu, wraps.
  rewrite Zminus_mod, Zmod_mod, <- Zminus_mod.
  replace (r mod 2 ^ 32 + 2 ^ (32 - 1) - 2 ^ (32 - 1)) with (r mod 2 ^ 32) by lia.
  rewrite Zmod_mod. lia.
Qed.

(** [lseek] on a seekable file. SEEK_SET moves to [pos] and SEEK_CUR to
    [offset + pos] when that is not negative; otherwise, and for an unknown
    [whence], it returns EINVAL and the state is unchanged (the lock is free
    again). The two 32-bit results, put together, are the new position. *)
Theorem sys_lseek_spec s a p fd o f v pos :
  open_at s a p fd o f v -> vop_isseekable v (world s) = true ->
  - 2 ^ 63 < pos < 2 ^ 63 -> 0 <= offset f < 2 ^ 63 -> offset f + pos < 2 ^ 63 ->
  sys_lseek_SHELL fd pos SEEK_SET s =
    (if pos <? 0 then Fail EINVAL s else Done (halves pos) (seeked s o f pos)) /\
  sys_lseek_SHELL fd pos SEEK_CUR s =
    (if offset f + pos <? 0 then Fail EINVAL s
     else Done (halves (offset f + pos)) (seeked s o f (offset f + pos))) /\
  (forall whence, whence <> SEEK_SET -> whence <> SEEK_CUR -> whence <> SEEK_END ->
     sys_lseek_SHELL fd pos whence s = Fail EINVAL s) /\
  (forall new, - 2 ^ 63 <= new < 2 ^ 63 -> (halves new).1 * 2 ^ 32 + u32 (halves new).2 = new).
Proof.
  intros Hat Hseek Hpos Hoff Hsum.
  assert (Hw : set_world (world s) s = s) by (by destruct s).
  assert (Hw' : forall new, set_world (world s) (seeked s o f new) = seeked s o f new) by done.
  split_and!; [| | |apply halves_join].
  - rewrite (lseek_run s a p fd o f v pos SEEK_SET (if pos <? 0 then inl EINVAL else inr pos) (world s));
      [|done|done|done]. destruct (pos <? 0); by rewrite ?Hw, ?Hw'.
  - rewrite (lseek_run s a p fd o f v pos SEEK_CUR
      (if offset f + pos <? 0 then inl EINVAL else inr (offset f + pos)) (world s)); [|done|done|].
    + destruct (offset f + pos <? 0); by rewrite ?Hw, ?Hw'.
    + unfold seek_pure, seek_target. cbn. rewrite (wraps_small 64 (- pos)), (wraps_small 64 (_ + _)) by lia.
      destruct (Z.ltb_spec pos 0), (Z.ltb_spec (offset f) (- pos)), (Z.ltb_spec (offset f + pos) 0);
        cbn; (done || lia).
  - intros whence H1 H2 H3. rewrite (lseek_run s a p fd o f v pos whence (inl EINVAL) (world s)) by
      (done || unfold seek_pure, seek_target; rewrite !(proj2 (Z.eqb_neq _ _)) by done; done).
    by rewrite Hw.
Qed.

(** [lseek] with SEEK_END goes to the end of the file MINUS [pos]: seeking by
    a positive [pos] lands before the end, by a negative one after it. *)
Theorem sys_lseek_end s a p fd o f v pos size w :
  open_at s a p fd o f v -> vop_isseekable v (world s) = true ->
  vop_stat v (world s) = (inr size, w) ->
  0 <= size < 2 ^ 62 -> - size <= pos < 2 ^ 62 ->
  sys_lseek_SHELL fd pos SEEK_END s =
  Done (halves (size - pos)) (set_world w (seeked s o f (size - pos))).
Proof.
  intros Hat Hseek Hstat Hsize Hpos.
  apply (lseek_run s a p fd o f v pos SEEK_END (inr (size - pos)) w); [done|done|].
  unfold seek_pure, seek_target. cbn. unfold kbind, lift_world. cbn. rewrite Hstat. cbn.
  rewrite (wraps_small 64 (- pos)), (wraps_small 64 (_ - _)) by lia.
  destruct (Z.ltb_spec pos 0), (Z.ltb_spec size (- pos)); cbn; (done || lia).
Qed.

(** ** Reading and writing *)

(** The result of [sys_read_SHELL] after the checks, when [VOP_READ] gave [r]. *)
Lemma read_run s a p fd o f v buf buflen r w :
  open_at s a p fd o f v -> mode_open f <> O_WRONLY -> buf <> 0 -> oracle s = [] ->
  vop_read v (offset f) buflen (world s) = (r, w) ->
  Z.of_nat (length (io_data r)) <= u32 (buflen + 1) ->
  sys_read_SHELL fd buf buflen s =
  if negb (io_err r =? 0) then Fail (io_err r) (set_world w s)
  else let '(err, m) := copyout (umem s) (io_data r) buf in
       let s' := set_umem m (set_world w (seeked s o f (io_offset r))) in
       if negb (err =? 0) then Fail EFAULT s' else Done (s32 (buflen - io_resid r)) s'.
Proof.
  intros Hat Hm Hbuf Hor Hr Hlen. pose proof Hat as [Hc Hfd He Ho Hv Hl].
  unfold sys_read_SHELL. unfold kbind at 1. rewrite (fd_lookup_eq _ _ _ _ _ _ _ Hat).
  unfold kbind at 1. rewrite (of_read_eq _ _ _ Ho). rewrite (proj2 (Z.eqb_neq _ _) Hm).
  rewrite (proj2 (Z.eqb_neq _ _) Hbuf). unfold kbind at 1. rewrite kmalloc_nil by done. cbn [negb].
  unfold kbind at 1. rewrite (of_lock_eq _ _ _ Ho Hl). unfold kbind at 1, the_vnode. rewrite Hv.
  unfold kret at 1. unfold kbind at 1, lift_world. cbn [world set_ofiles]. rewrite Hr.
  rewrite (proj2 (Z.ltb_ge _ _)) by lia. destruct (io_err r =? 0); cbn [negb].
  - unfold kbind at 1. erewrite of_update_eq by (cbn; by rewrite lookup_insert_eq).
    unfold kbind at 1, kget. cbn [umem set_ofiles set_world].
    destruct (copyout (umem s) (io_data r) buf) as [err m]. unfold kbind at 1, kput.
    assert (Hu : forall A (k : K (kstate W) A), (of_unlock o ;;; k) (set_umem m (set_ofiles
        (fun m0 => <[o := of_set_offset (io_offset r) (held s f)]> m0)
        (set_world w (set_ofiles (fun m => <[o := held s f]> m) s)))) =
      k (set_umem m (set_world w (seeked s o f (io_offset r))))).
    { intros A k. unfold kbind. erewrite of_unlock_eq; [|cbn; by rewrite lookup_insert_eq|done].
      f_equal. unfold set_umem, set_ofiles, set_world. cbn. rewrite !insert_insert_eq.
      do 2 f_equal. destruct f; cbn in *; by subst. }
    destruct (err =? 0); cbn [negb]; by rewrite Hu.
  - unfold kbind. erewrite of_unlock_eq; [|cbn; by rewrite lookup_insert_eq|done].
    unfold kfail. f_equal. unfold set_ofiles, set_world. cbn. rewrite insert_insert_eq.
    replace (of_set_lock (Some new_lock) (held s f)) with f by (destruct f; cbn in *; by subst).
    by rewrite insert_id.
Qed.

Lemma seeked_file_ok s s' a p fd o f v new :
  file_ok s -> open_at s a p fd o f v -> procs s' = procs s ->
  ofiles s' = ofiles (seeked s o f new) -> file_ok s'.
Proof.
  intros Hok [_ _ _ Ho _ _] Hp Hof.
  by apply (file_ok_same_refs s s' o f (of_set_offset new f)).
Qed.

Lemma seeked_open_at s s' a p fd o f v new :
  open_at s a p fd o f v -> curproc s' = curproc s -> procs s' = procs s ->
  ofiles s' = ofiles (seeked s o f new) -> open_at s' a p fd o (of_set_offset new f) v.
Proof.
  intros [[Hc Hp] Hfd He Ho Hv Hl] Ec Ep Ef. split; try done.
  - split; congruence.
  - rewrite Ef. apply lookup_set_ofiles.
Qed.

Lemma seeked_self s a p fd o f v new :
  open_at s a p fd o f v -> open_at (seeked s o f new) a p fd o (of_set_offset new f) v.
Proof. intros H. by apply (seeked_open_at s). Qed.

(** [read] of a file that still has data: when the buffer lies in mapped user
    memory it returns the number [n] of bytes read, the seek position has moved by
    exactly [n], the bytes are in the buffer and no other memory has changed; the
    lock is free and the reference counts are exact. *)
Theorem sys_read_spec `{!VfsLaws W} s a p fd o f v buf buflen r w :
  file_ok s -> open_at s a p fd o f v -> mode_open f <> O_WRONLY -> oracle s = [] ->
  0 < buf < 2 ^ 32 -> 0 < buflen < 2 ^ 31 ->
  vop_read v (offset f) buflen (world s) = (r, w) -> io_err r = 0 ->
  io_resid r < buflen -> buf + (buflen - io_resid r) <= USERSPACETOP ->
  mapped (umem s) buf (buflen - io_resid r) ->
  exists s', let n := buflen - io_resid r in
    sys_read_SHELL fd buf buflen s = Done n s' /\ 0 < n <= buflen /\ file_ok s' /\
    open_at s' a p fd o (of_set_offset (offset f + n) f) v /\
    bytes_at (umem s') buf (io_data r) /\ only_changes (umem s) (umem s') buf n.
Proof.
  intros Hok Hat Hm Hor Hbuf Hlen Hr Herr Hn Htop Hmap.
  pose proof (read_advances v (offset f) buflen (world s) ltac:(lia)) as Hadv.
  rewrite Hr in Hadv. cbn in Hadv. destruct Hadv as (Hoff & Hres & Hdata).
  rewrite (read_run s a p fd o f v buf buflen r w) by
    (done || lia || (rewrite wrapu_small by lia; lia)).
  rewrite Herr. cbn [Z.eqb negb]. rewrite <- Hdata in *.
  pose proof (copyout_cases (umem s) (io_data r) buf ltac:(lia) ltac:(lia)) as Hco.
  pose proof (copyout_frame (umem s) (io_data r) buf ltac:(lia) ltac:(lia)) as [Hch _].
  destruct (copyout (umem s) (io_data r) buf) as [err m]. cbn [snd] in Hch.
  destruct Hco as [(-> & _ & Hb)|(_ & Hno)]; [|by destruct Hno]. cbn [Z.eqb negb].
  eexists. rewrite wraps_small by lia. split_and!; try done; try lia.
  - by eapply (seeked_file_ok s _ a p fd o f v (io_offset r)).
  - replace (offset f + Z.of_nat (length (io_data r))) with (io_offset r) by lia.
    by eapply (seeked_open_at s).
Qed.

(** [read] at the end of the file, where [VOP_READ] transfers nothing,
    returns EFAULT instead of 0, however good the buffer is: [copyout] refuses
    zero bytes. *)
Theorem sys_read_eof `{!VfsLaws W} s a p fd o f v buf buflen r w :
  open_at s a p fd o f v -> mode_open f <> O_WRONLY -> oracle s = [] ->
  0 < buf < 2 ^ 32 -> 0 < buflen < 2 ^ 31 ->
  vop_read v (offset f) buflen (world s) = (r, w) -> io_err r = 0 -> io_resid r = buflen ->
  exists s', sys_read_SHELL fd buf buflen s = Fail EFAULT s'.
Proof.
  intros Hat Hm Hor Hbuf Hlen Hr Herr Hn.
  pose proof (read_advances v (offset f) buflen (world s) ltac:(lia)) as Hadv.
  rewrite Hr in Hadv. cbn in Hadv. destruct Hadv as (Hoff & Hres & Hdata).
  rewrite (read_run s a p fd o f v buf buflen r w) by
    (done || lia || (rewrite wrapu_small by lia; lia)).
  rewrite Herr. cbn [Z.eqb negb]. assert (io_data r = []) as -> by (apply nil_length_inv; lia).
  unfold copyout. change (Z.of_nat (length [])) with 0. pose proof (copycheck_zero buf ltac:(lia)) as Hz.
  destruct (copycheck buf 0) as [e|n] eqn:Ec.
  - assert (e = EFAULT) as -> by (unfold copycheck in Ec; repeat case_match; congruence). eauto.
  - destruct (Z.eqb_spec n 0) as [->|]; [done|]. eauto.
Qed.

(** [read] with a length of 2^32-1 allocates a buffer of [buflen + 1 = 0]
    bytes, so that any byte [VOP_READ] delivers is written past its end. *)
Theorem sys_read_overflow s a p fd o f v buf r w :
  open_at s a p fd o f v -> mode_open f <> O_WRONLY -> oracle s = [] -> buf <> 0 ->
  vop_read v (offset f) (2 ^ 32 - 1) (world s) = (r, w) -> io_data r <> [] ->
  sys_read_SHELL fd buf (2 ^ 32 - 1) s = Halt OutOfBounds.
Proof.
  intros Hat Hm Hor Hbuf Hr Hdata. pose proof Hat as [Hc Hfd He Ho Hv Hl].
  unfold sys_read_SHELL. unfold kbind at 1. rewrite (fd_lookup_eq _ _ _ _ _ _ _ Hat).
  unfold kbind at 1. rewrite (of_read_eq _ _ _ Ho). rewrite (proj2 (Z.eqb_neq _ _) Hm).
  rewrite (proj2 (Z.eqb_neq _ _) Hbuf). unfold kbind at 1. rewrite kmalloc_nil by done. cbn [negb].
  unfold kbind at 1. rewrite (of_lock_eq _ _ _ Ho Hl). unfold kbind at 1, the_vnode. rewrite Hv.
  unfold kret at 1. unfold kbind at 1, lift_world. cbn [world set_ofiles]. rewrite Hr.
  change (u32 (2 ^ 32 - 1 + 1)) with 0.
  destruct (io_data r); [done|]. rewrite (proj2 (Z.ltb_lt _ _)) by (cbn [length]; lia). done.
Qed.

(** [sys_write_SHELL] after the checks, when [VOP_WRITE] gave [r]. *)
Lemma write_run s a p fd o f v buf buflen data r w :
  open_at s a p fd o f v -> mode_open f <> O_RDONLY -> oracle s = [] ->
  copyin (umem s) buf buflen = inr data ->
  vop_write v (offset f) data (world s) = (r, w) ->
  sys_write_SHELL fd buf buflen s =
  if negb (io_err r =? 0)
  then Fail (io_err r) (set_world w (set_ofiles (fun m => <[o := held s f]> m) s))
  else Done (s32 (io_offset r - offset f)) (set_world w (seeked s o f (io_offset r))).
Proof.
  intros Hat Hm Hor Hin Hr. pose proof Hat as [Hc Hfd He Ho Hv Hl].
  unfold sys_write_SHELL. unfold kbind at 1. rewrite (fd_lookup_eq _ _ _ _ _ _ _ Hat).
  unfold kbind at 1. rewrite (of_read_eq _ _ _ Ho). rewrite (proj2 (Z.eqb_neq _ _) Hm).
  unfold kbind at 1. rewrite kmalloc_nil by done. cbn [negb]. unfold kbind at 1, kget. rewrite Hin.
  unfold kbind at 1. rewrite (of_lock_eq _ _ _ Ho Hl). unfold kbind at 1, the_vnode. rewrite Hv.
  unfold kret at 1. unfold kbind at 1, lift_world. cbn [world set_ofiles]. rewrite Hr.
  destruct (io_err r =? 0); cbn [negb]; [|done].
  unfold kbind. erewrite of_update_eq by (cbn; by rewrite lookup_insert_eq).
  erewrite of_unlock_eq; [|cbn; by rewrite lookup_insert_eq|done].
  unfold kret. f_equal. unfold set_ofiles, set_world. cbn. rewrite !insert_insert_eq.
  do 2 f_equal. destruct f; cbn in *; by subst.
Qed.

(** A successful [write] hands the VFS exactly the bytes of the user buffer,
    returns the number [n] of bytes the VFS took and moves the seek position by
    exactly [n]; user memory, the reference counts and the lock are as before. *)
Theorem sys_write_spec `{!VfsLaws W} s a p fd o f v buf buflen data r w :
  file_ok s -> open_at s a p fd o f v -> mode_open f <> O_RDONLY -> oracle s = [] ->
  0 <= buf < 2 ^ 32 -> 0 < buflen < 2 ^ 31 ->
  buf + buflen <= USERSPACETOP -> bytes_at (umem s) buf data -> Z.of_nat (length data) = buflen ->
  vop_write v (offset f) data (world s) = (r, w) -> io_err r = 0 ->
  exists s', let n := buflen - io_resid r in
    sys_write_SHELL fd buf buflen s = Done n s' /\ 0 <= n <= buflen /\ file_ok s' /\
    open_at s' a p fd o (of_set_offset (offset f + n) f) v /\ umem s' = umem s.
Proof.
  intros Hok Hat Hm Hor Hbuf Hlen Htop Hb Hdl Hr Herr.
  pose proof (write_advances v (offset f) data (world s)) as Hadv.
  rewrite Hr in Hadv. cbn in Hadv. destruct Hadv as (Hoff & Hres).
  pose proof (copyin_cases (umem s) buf buflen Hbuf ltac:(lia)) as Hin.
  destruct (copyin (umem s) buf buflen) as [e|l] eqn:Ein.
  { destruct Hin as [_ []]. split; [lia|]. rewrite <- Hdl. by apply bytes_at_mapped. }
  destruct Hin as (_ & Hll & Hbl). assert (l = data) as ->.
  { apply list_eq. intros i. destruct (decide (i < length data)%nat) as [Hi|Hi].
    - rewrite <- Hbl, <- Hb by lia. done.
    - rewrite !lookup_ge_None_2 by lia. done. }
  rewrite (write_run s a p fd o f v buf buflen data r w) by done. rewrite Herr. cbn [Z.eqb negb].
  replace (io_offset r - offset f) with (buflen - io_resid r) by lia.
  eexists. rewrite wraps_small by lia. split_and!; try done; try lia.
  - by eapply (seeked_file_ok s _ a p fd o f v (io_offset r)).
  - replace (offset f + (buflen - io_resid r)) with (io_offset r) by lia. by eapply (seeked_open_at s).
Qed.

(** When [VOP_WRITE] fails, [write] returns the error with the file's lock
    still held: from then on closing the file, from any descriptor of any
    process, fails an assertion if the same thread tries and blocks for ever if
    another one does. *)
Theorem sys_write_error_deadlock s a p fd o f v buf buflen data r w :
  open_at s a p fd o f v -> mode_open f <> O_RDONLY -> oracle s = [] ->
  copyin (umem s) buf buflen = inr data ->
  vop_write v (offset f) data (world s) = (r, w) -> io_err r <> 0 ->
  exists s', sys_write_SHELL fd buf buflen s = Fail (io_err r) s' /\
    sys_close_SHELL fd s' = Halt KAssert /\
    forall t b q fd', t <> curthread s -> t_proc s !! t = Some b -> procs s !! b = Some q ->
      0 <= fd' < OPEN_MAX -> fileTable q !! Z.to_nat fd' = Some (Some o) ->
      sys_close_SHELL fd' (set_curthread t s') = Halt Blocked.
Proof.
  intros Hat Hm Hor Hin Hr Herr. pose proof Hat as [[Hc Hp] Hfd He Ho Hv Hl].
  rewrite (write_run s a p fd o f v buf buflen data r w) by done.
  rewrite (proj2 (Z.eqb_neq _ _) Herr). cbn [negb]. eexists. split; [done|].
  set (s' := set_world _ _).
  assert (Hgo : forall fd' s2, ofiles s2 !! o = Some (held s f) -> fd_lookup fd' s2 = Done o s2 ->
    sys_close_SHELL fd' s2 = if bool_decide (curthread s2 = curthread s) then Halt KAssert else Halt Blocked).
  { intros fd' s2 Hs2 Hlook. unfold sys_close_SHELL, kbind at 1. rewrite Hlook.
    unfold kbind at 1, drop_ref. unfold kbind at 1, of_lock. unfold kbind at 1.
    rewrite (of_read_eq _ _ _ Hs2). unfold kbind at 1, lock_acquire. cbn [oflock held of_set_lock].
    unfold kbind at 1, kget, kbind at 1. cbn [lk_owner].
    case_bool_decide as E1; case_bool_decide as E2; try congruence; done. }
  assert (Ho' : ofiles s' !! o = Some (held s f)) by (cbn; by rewrite lookup_insert_eq).
  split.
  - rewrite (Hgo fd s' Ho'); [by rewrite bool_decide_eq_true_2|].
    unfold fd_lookup. rewrite (proj2 (Z.ltb_ge _ _)), (proj2 (Z.leb_gt _ _)) by lia. cbn [orb].
    unfold kbind. by rewrite (fd_read_eq s' a p fd (Some o)).
  - intros t b q fd' Ht Htp Hq Hfd' He'. rewrite (Hgo fd' (set_curthread t s') Ho').
    + by rewrite bool_decide_eq_false_2.
    + unfold fd_lookup. rewrite (proj2 (Z.ltb_ge _ _)), (proj2 (Z.leb_gt _ _)) by lia. cbn [orb].
      unfold kbind. by rewrite (fd_read_eq (set_curthread t s') b q fd' (Some o)).
Qed.

(** ** Opening files *)

(** [i] is the first free entry of the system file table. *)
Definition first_free_of s (i : Z) : Prop :=
  0 <= i < SYSTEM_OPEN_MAX /\ vn <$> ofiles s !! Sys i = Some None /\
  forall j, 0 <= j < i -> vn <$> ofiles s !! Sys j <> Some None.

(** [fd] is the first free descriptor from 3 on, [OPEN_MAX] if there is none. *)
Definition first_free_fd (p : proc) (fd : Z) : Prop :=
  3 <= fd <= OPEN_MAX /\ (fd < OPEN_MAX -> fileTable p !! Z.to_nat fd = Some None) /\
  forall k, 3 <= k < fd -> fileTable p !! Z.to_nat k <> Some None.

Lemma find_free_of_spec s fuel i :
  (forall j, i <= j < i + Z.of_nat fuel -> is_Some (ofiles s !! Sys j)) ->
  (find_free_of fuel i s = Done None s /\
   forall j, i <= j < i + Z.of_nat fuel -> vn <$> ofiles s !! Sys j <> Some None) \/
  (exists k, i <= k < i + Z.of_nat fuel /\ find_free_of fuel i s = Done (Some (Sys k)) s /\
   vn <$> ofiles s !! Sys k = Some None /\
   forall j, i <= j < k -> vn <$> ofiles s !! Sys j <> Some None).
Proof.
  revert i. induction fuel as [|fuel IH]; intros i Hdom; cbn [find_free_of].
  { left. split; [done|]. lia. }
  destruct (Hdom i ltac:(lia)) as [f Hf]. unfold kbind. rewrite (of_read_eq _ _ _ Hf).
  destruct (vn f) as [v|] eqn:Ev.
  - assert (Hi : vn <$> ofiles s !! Sys i <> Some None) by (rewrite Hf; cbn; congruence).
    destruct (IH (i + 1)) as [[Hrun Hall]|(k & Hk & Hrun & Hfree & Hall)].
    { intros j Hj. apply Hdom. lia. }
    + left. rewrite Hrun. split; [done|]. intros j Hj.
      destruct (Z.eq_dec j i) as [->|]; [done|]. apply Hall. lia.
    + right. exists k. rewrite Hrun. split_and!; try done; try lia. intros j Hj.
      destruct (Z.eq_dec j i) as [->|]; [done|]. apply Hall. lia.
  - right. exists i. split_and!; try done; try lia. rewrite Hf. cbn. by rewrite Ev.
Qed.

Lemma find_free_fd_spec s a p fuel fd :
  current s a p -> 0 <= fd -> (Z.to_nat fd + fuel <= length (fileTable p))%nat ->
  exists fd', fd <= fd' <= fd + Z.of_nat fuel /\ find_free_fd fuel fd s = Done fd' s /\
    (fd' < fd + Z.of_nat fuel -> fileTable p !! Z.to_nat fd' = Some None) /\
    forall k, fd <= k < fd' -> fileTable p !! Z.to_nat k <> Some None.
Proof.
  intros Hc. revert fd. induction fuel as [|fuel IH]; intros fd Hfd Hlen; cbn [find_free_fd].
  { exists fd. split_and!; try done; lia. }
  destruct (lookup_lt_is_Some_2 (fileTable p) (Z.to_nat fd)) as [e He]; [lia|].
  unfold kbind. rewrite (fd_read_eq _ _ _ _ _ Hc He). destruct e as [o|].
  - destruct (IH (fd + 1)) as (fd' & Hr & Hrun & Hfree & Hall); [lia|lia|].
    exists fd'. rewrite Hrun. split_and!; try done; try lia.
    + intros ?. apply Hfree. lia.
    + intros k Hk. destruct (Z.eq_dec k fd) as [->|]; [congruence|]. apply Hall. lia.
  - exists fd. split_and!; try done; try lia.
Qed.

(** The initial seek position: the file size for O_APPEND, else 0. *)
Definition open_pos (v openflags : Z) (w : W) : (Z + Z) * W :=
  if Z.land openflags O_APPEND =? 0 then (inr 0, w) else vop_stat v w.

(** The state after entry [i] of the system table and descriptor [fd] were given
    to the new open file. *)
Definition opened s (a : Z) (p : proc) (fd i v off acc : Z) (w : W) : kstate W :=
  set_world w (set_ofiles (fun m => <[Sys i := mkof (Some v) off acc 1 (Some new_lock)]> m)
    (with_fd s a p fd (Some (Sys i)))).

Lemma open_offset_eq s o f v openflags off w :
  ofiles s !! o = Some f -> vn f = Some v -> open_pos v openflags (world s) = (inr off, w) ->
  open_offset o openflags s = Done tt (set_world w (set_ofiles (fun m => <[o := of_set_offset off f]> m) s)).
Proof.
  intros Ho Hv Hpos. unfold open_offset, open_pos in *.
  destruct (Z.land openflags O_APPEND =? 0); cbn [negb].
  - injection Hpos as <- <-. rewrite (of_update_eq _ _ _ _ Ho). by destruct s.
  - unfold kbind. rewrite (of_read_eq _ _ _ Ho). unfold the_vnode. rewrite Hv. unfold kret, lift_world.
    rewrite Hpos. by rewrite (of_update_eq _ _ f).
Qed.

Lemma open_finish_eq s o f openflags :
  ofiles s !! o = Some f -> oracle s = [] -> Z.land openflags O_ACCMODE <> 3 ->
  open_finish o openflags s =
  Done tt (set_ofiles (fun m => <[o := of_set_lock (Some new_lock) (of_set_mode (Z.land openflags O_ACCMODE) f)]> m) s).
Proof.
  intros Ho Hor Hacc. unfold open_finish.
  assert (0 <= Z.land openflags O_ACCMODE < 4).
  { unfold O_ACCMODE. change 3 with (Z.ones 2). rewrite Z.land_ones by lia. by apply Z.mod_pos_bound. }
  set (acc := Z.land openflags O_ACCMODE) in *. unfold O_RDONLY, O_WRONLY, O_RDWR.
  replace (negb ((acc =? 0) || (acc =? 1) || (acc =? 2))) with false.
  2: { destruct (Z.eqb_spec acc 0), (Z.eqb_spec acc 1), (Z.eqb_spec acc 2); (done || lia). }
  unfold kbind. rewrite (of_update_eq _ _ _ _ Ho). rewrite lock_create_nil by done.
  erewrite of_update_eq by apply lookup_set_ofiles. by rewrite set_ofiles_insert.
Qed.

Lemma opened_file_ok s a p fd i v off acc w :
  file_ok s -> current s a p -> fileTable p !! Z.to_nat fd = Some None ->
  vn <$> ofiles s !! Sys i = Some None -> file_ok (opened s a p fd i v off acc w).
Proof.
  intros Hok [Hc Hp] He Hfree.
  assert (H0 : total_refs (procs s) (Sys i) = 0).
  { pose proof (total_refs_nonneg (procs s) (Sys i)).
    destruct (Z.eq_dec (total_refs (procs s) (Sys i)) 0); [done|].
    destruct (fi_open s Hok (Sys i)) as (f & v' & Hf & Hv & _); [lia|].
    rewrite Hf in Hfree. cbn in Hfree. congruence. }
  apply (file_ok_with_fd s _ a p fd None (Some (Sys i))); try done.
  - intros x Hx. apply lookup_insert_is_Some'. by right.
  - intros x. rewrite refers_none. cbn [opened ofiles set_world set_ofiles].
    destruct (decide (Sys i = x)) as [<-|Hne].
    + intros _. rewrite lookup_insert_eq. by eexists _, v.
    + rewrite refers_other, lookup_insert_ne by done. intros. apply (fi_open s Hok). lia.
  - intros x g u. rewrite refers_none. cbn [opened ofiles set_world set_ofiles].
    destruct (decide (Sys i = x)) as [<-|Hne].
    + rewrite refers_self, lookup_insert_eq, H0. by intros [= <-] _.
    + rewrite refers_other, lookup_insert_ne by done. intros Hg Hu. rewrite (fi_refs s Hok x g u) by done. lia.
Qed.

Lemma opened_open_at s a p fd i v off acc w :
  current s a p -> 0 <= fd < OPEN_MAX -> fileTable p !! Z.to_nat fd = Some None ->
  open_at (opened s a p fd i v off acc w) a (p_set_fileTable (fun l => <[Z.to_nat fd := Some (Sys i)]> l) p)
    fd (Sys i) (mkof (Some v) off acc 1 (Some new_lock)) v.
Proof.
  intros [Hc Hp] Hfd He. split; try done.
  - split; [done|]. cbn. by rewrite lookup_insert_eq.
  - cbn. rewrite list_lookup_insert_eq; [done|]. by apply lookup_lt_Some in He.
  - cbn. by rewrite lookup_insert_eq.
Qed.

(** [sys_open_SHELL] up to the search for a table entry. *)
Lemma open_prefix s pathname openflags mode n kb v w :
  oracle s = [] -> pathname <> 0 -> copyinstr (umem s) pathname PATH_MAX = (inr n, kb) ->
  vfs_open (cstr kb) openflags mode (world s) = (inr v, w) ->
  sys_open_SHELL pathname openflags mode s =
  (ofp <- find_free_of (Z.to_nat SYSTEM_OPEN_MAX) 0 ;;
   match ofp with
   | None => kfail ENFILE
   | Some o =>
       of_update o (of_set_vn (Some v)) ;;;
       fd <- find_free_fd (Z.to_nat (OPEN_MAX - 3)) 3 ;;
       (if fd <? OPEN_MAX then fd_write fd (Some o) else kret tt) ;;;
       if fd =? OPEN_MAX - 1 then kfail EMFILE else
       e <- fd_read fd ;;
       match e with
       | None => khalt NullDeref
       | Some o =>
           open_offset o openflags ;;;
           of_update o (of_set_refs 1) ;;;
           open_finish o openflags ;;;
           kret fd
       end
   end) (set_world w s).
Proof.
  intros Hor Hpath Hin Hopen. unfold sys_open_SHELL. rewrite (proj2 (Z.eqb_neq _ _) Hpath).
  unfold kbind at 1. rewrite kmalloc_nil by done. cbn [negb]. unfold kbind at 1, kget. rewrite Hin.
  unfold kbind at 1, lift_world. by rewrite Hopen.
Qed.

(** [sys_open_SHELL] from the assignment of descriptor [fd] on. *)
Lemma open_some s a p fd i g v openflags off w' :
  current s a p -> 3 <= fd < OPEN_MAX - 1 -> fileTable p !! Z.to_nat fd = Some None ->
  length (fileTable p) = Z.to_nat OPEN_MAX ->
  ofiles s !! Sys i = Some g -> vn g = Some v -> oracle s = [] ->
  open_pos v openflags (world s) = (inr off, w') -> Z.land openflags O_ACCMODE <> 3 ->
  ((if fd <? OPEN_MAX then fd_write fd (Some (Sys i)) else kret tt) ;;;
   if fd =? OPEN_MAX - 1 then kfail EMFILE else
   e <- fd_read fd ;;
   match e with
   | None => khalt NullDeref
   | Some o =>
       open_offset o openflags ;;;
       of_update o (of_set_refs 1) ;;;
       open_finish o openflags ;;;
       kret fd
   end) s = Done fd (opened s a p fd i v off (Z.land openflags O_ACCMODE) w').
Proof.
  intros Hcur Hfd He Hlen Hg Hv Hor Hpos Hacc. rewrite (proj2 (Z.ltb_lt _ _)) by lia. unfold kbind at 1.
  rewrite (fd_write_eq s a p fd None) by done.
  rewrite (proj2 (Z.eqb_neq _ _)) by lia. set (s3 := set_procs _ s).
  unfold kbind at 1.
  rewrite (fd_read_eq s3 a (p_set_fileTable (fun l => <[Z.to_nat fd := Some (Sys i)]> l) p) fd (Some (Sys i))).
  2: { split; [apply Hcur|]. cbn. by rewrite lookup_insert_eq. }
  2: { cbn. rewrite list_lookup_insert_eq; [done|]. rewrite Hlen. lia. }
  unfold kbind. rewrite (open_offset_eq s3 (Sys i) g v openflags off w') by done.
  erewrite of_update_eq by (cbn; by rewrite lookup_insert_eq).
  erewrite open_finish_eq by (done || (cbn; by rewrite lookup_insert_eq)).
  unfold kret, opened. f_equal. unfold s3, set_world, set_procs, set_ofiles. cbn.
  rewrite !insert_insert_eq. do 2 f_equal. destruct g. cbn in *. by subst.
Qed.


End spec.

(** ** Concrete states *)

(** An entry of the static [systemFileTable] at boot, and the whole table. *)
Definition zero_of : openfile := mkof None 0 0 0 None.

Definition systemFileTable0 : gmap ofptr openfile :=
  list_to_map (map (fun i => (Sys (Z.of_nat i), zero_of)) (seq 0 (Z.to_nat SYSTEM_OPEN_MAX))).

Lemma systemFileTable0_lookup o f : systemFileTable0 !! o = Some f -> f = zero_of.
Proof.
  intros H. apply elem_of_list_to_map_2 in H. apply list_elem_of_fmap in H as (i & E & _). congruence.
Qed.

Lemma systemFileTable0_dom i : 0 <= i < SYSTEM_OPEN_MAX -> is_Some (systemFileTable0 !! Sys i).
Proof.
  intros Hi. unfold systemFileTable0. apply (list_to_map_is_Some _ _ zero_of).
  apply list_elem_of_fmap. exists (Z.to_nat i). rewrite Z2Nat.id by lia. split; [done|].
  apply elem_of_seq. lia.
Qed.

Lemma count_fd_empty o n : count_fd o (replicate n None) = 0.
Proof. induction n as [|n IH]; [done|]. cbn [replicate]. by rewrite count_fd_cons, IH, refers_none. Qed.

Lemma total_refs_empty m o :
  map_Forall (fun _ p => fileTable p = replicate (Z.to_nat OPEN_MAX) None) m -> total_refs m o = 0.
Proof.
  induction m as [|i x m Hi IH] using map_ind; intros Hall; [done|].
  apply map_Forall_insert in Hall as [Hx Hall]; [|done].
  by rewrite total_refs_insert, Hx, count_fd_empty, IH.
Qed.

(** At boot every descriptor is free. *)
Lemma init_file_ok {W} (s : kstate W) :
  map_Forall (fun _ p => fileTable p = replicate (Z.to_nat OPEN_MAX) None) (procs s) ->
  OPEN_MAX * Z.of_nat (size (procs s)) < 2 ^ 32 -> ofiles s = systemFileTable0 -> file_ok s.
Proof.
  intros Hall Hsize Hof. split; [| |rewrite Hof..].
  - intros a p Hp. rewrite (Hall a p Hp). by rewrite length_replicate.
  - done.
  - apply systemFileTable0_dom.
  - intros o. rewrite total_refs_empty by done. lia.
  - intros o f v Hf. rewrite (systemFileTable0_lookup o f Hf). done.
Qed.

(** The kernel with process 1 running in thread 5, and the same with the file
    at vnode 2 open read-write as descriptor 3. *)
Definition demo_p : proc := fresh_proc "sh" 1.

Definition demo0 : kstate unit :=
  set_ofiles (fun _ => systemFileTable0) (set_t_proc (fun _ => {[5 := 101]})
    (set_curthread 5 (set_umem (<[4096 := 97]> (zero_page 4096 2000)) boot1))).

Definition demo3 : kstate unit := opened demo0 101 demo_p 3 0 2 0 O_RDWR tt.

Definition demo_p3 : proc := p_set_fileTable (fun l => <[3%nat := Some (Sys 0)]> l) demo_p.
Definition demo_f : openfile := mkof (Some 2) 0 O_RDWR 1 (Some new_lock).

Lemma demo0_current : current demo0 101 demo_p.
Proof. split; reflexivity. Qed.

Lemma demo0_file_ok : file_ok demo0.
Proof.
  apply init_file_ok; [|vm_compute; reflexivity|reflexivity].
  apply map_Forall_lookup. intros a p Hp. unfold demo0, boot1, enrolled, boot, booted in Hp. cbn in Hp.
  apply lookup_insert_Some in Hp as [[_ <-]|[_ Hp]]; [done|].
  by apply lookup_singleton_Some in Hp as [_ <-].
Qed.

Lemma demo3_file_ok : file_ok demo3.
Proof.
  apply opened_file_ok; [apply demo0_file_ok|apply demo0_current|reflexivity|vm_compute; reflexivity].
Qed.

Lemma demo3_open : open_at demo3 101 demo_p3 3 (Sys 0) demo_f 2.
Proof. apply opened_open_at; [apply demo0_current|unfold OPEN_MAX; lia|reflexivity]. Qed.

(** ** Witnesses *)

Lemma sys_close_spec_witness :
  (exists o f v, open_at demo3 101 demo_p3 3 o f v /\
     sys_close_SHELL 3 demo3 = Done 0 (dropped demo3 101 demo_p3 3 o f v) /\
     file_ok (dropped demo3 101 demo_p3 3 o f v) /\
     (vn <$> ofiles (dropped demo3 101 demo_p3 3 o f v) !! o = Some None <->
      total_refs (procs demo3) o = 1)) \/
  (~ (exists o f v, open_at demo3 101 demo_p3 3 o f v) /\ sys_close_SHELL 3 demo3 = Fail EBADF demo3).
Proof. apply (sys_close_spec demo3 101 demo_p3 3); [apply demo3_file_ok|apply demo3_open]. Defined.

Lemma sys_dup2_spec_witness :
  exists s' f',
    sys_dup2_SHELL 3 7 demo3 = Done 7 s' /\ file_ok s' /\
    open_at s' 101 (p_set_fileTable (fun l => <[Z.to_nat 7 := Some (Sys 0)]> l) demo_p3) 3 (Sys 0) f' 2 /\
    open_at s' 101 (p_set_fileTable (fun l => <[Z.to_nat 7 := Some (Sys 0)]> l) demo_p3) 7 (Sys 0) f' 2 /\
    offset f' = offset demo_f /\ mode_open f' = mode_open demo_f /\ umem s' = umem demo3 /\
    (forall b, b <> 101 -> procs s' !! b = procs demo3 !! b).
Proof.
  apply (sys_dup2_spec demo3 101 demo_p3 3 7 (Sys 0) demo_f 2);
    [apply demo3_file_ok|apply demo3_open|unfold OPEN_MAX; lia|lia].
Defined.

Lemma dup2_shares_offset_witness :
  exists s' p' f',
    (sys_dup2_SHELL 3 7 ;;; sys_lseek_SHELL 7 40 SEEK_SET) demo3 = Done (halves 40) s' /\
    open_at s' 101 p' 3 (Sys 0) f' 2 /\ offset f' = 40.
Proof.
  apply (dup2_shares_offset demo3 101 demo_p3 3 7 (Sys 0) demo_f 2 40);
    [apply demo3_file_ok|apply demo3_open|unfold OPEN_MAX; lia|lia|lia|reflexivity].
Defined.

Lemma sys_lseek_spec_witness :
  sys_lseek_SHELL 3 (-4) SEEK_SET demo3 =
    (if -4 <? 0 then Fail EINVAL demo3 else Done (halves (-4)) (seeked demo3 (Sys 0) demo_f (-4))) /\
  sys_lseek_SHELL 3 (-4) SEEK_CUR demo3 =
    (if offset demo_f + -4 <? 0 then Fail EINVAL demo3
     else Done (halves (offset demo_f + -4)) (seeked demo3 (Sys 0) demo_f (offset demo_f + -4))) /\
  (forall whence, whence <> SEEK_SET -> whence <> SEEK_CUR -> whence <> SEEK_END ->
     sys_lseek_SHELL 3 (-4) whence demo3 = Fail EINVAL demo3) /\
  (forall new, - 2 ^ 63 <= new < 2 ^ 63 -> (halves new).1 * 2 ^ 32 + u32 (halves new).2 = new).
Proof.
  apply (sys_lseek_spec demo3 101 demo_p3 3 (Sys 0) demo_f 2 (-4));
    [apply demo3_open|reflexivity|lia|cbn; lia|cbn; lia].
Defined.

Lemma sys_lseek_end_witness :
  sys_lseek_SHELL 3 4 SEEK_END demo3 =
  Done (halves (10 - 4)) (set_world tt (seeked demo3 (Sys 0) demo_f (10 - 4))).
Proof.
  apply (sys_lseek_end demo3 101 demo_p3 3 (Sys 0) demo_f 2 4 10 tt);
    [apply demo3_open|reflexivity|reflexivity|lia|lia].
Defined.

Lemma demo_mapped n : 0 <= n <= 2000 -> mapped (umem demo3) 4096 n.
Proof.
  intros Hn i Hi. unfold demo3, opened. cbn [umem set_world set_ofiles set_procs demo0 set_t_proc
    set_curthread set_umem]. apply lookup_insert_is_Some'. right. unfold zero_page.
  apply (list_to_map_is_Some _ _ 0). apply list_elem_of_fmap. exists (Z.to_nat (i - 4096)).
  split; [f_equal; lia|]. apply elem_of_seq. lia.
Qed.

Lemma sys_read_spec_witness :
  exists s', let n := 4 - 0 in
    sys_read_SHELL 3 4096 4 demo3 = Done n s' /\ 0 < n <= 4 /\ file_ok s' /\
    open_at s' 101 demo_p3 3 (Sys 0) (of_set_offset (offset demo_f + n) demo_f) 2 /\
    bytes_at (umem s') 4096 [0; 0; 0; 0] /\ only_changes (umem demo3) (umem s') 4096 n.
Proof.
  apply (sys_read_spec demo3 101 demo_p3 3 (Sys 0) demo_f 2 4096 4 (mkio 0 4 0 [0; 0; 0; 0]) tt);
    [apply demo3_file_ok|apply demo3_open|discriminate|reflexivity|lia|lia|reflexivity|reflexivity
    |cbn; lia|unfold USERSPACETOP; cbn; lia|apply demo_mapped; cbn; lia].
Defined.

Lemma sys_read_eof_witness : exists s', sys_read_SHELL 3 4096 4 (seeked demo3 (Sys 0) demo_f 10) = Fail EFAULT s'.
Proof.
  apply (sys_read_eof (seeked demo3 (Sys 0) demo_f 10) 101 demo_p3 3 (Sys 0) (of_set_offset 10 demo_f)
           2 4096 4 (mkio 0 10 4 []) tt);
    [|discriminate|reflexivity|lia|lia|reflexivity|reflexivity|reflexivity].
  apply seeked_self, demo3_open.
Defined.

Lemma sys_read_overflow_witness : sys_read_SHELL 3 4096 (2 ^ 32 - 1) demo3 = Halt OutOfBounds.
Proof.
  apply (sys_read_overflow demo3 101 demo_p3 3 (Sys 0) demo_f 2 4096
           (mkio 0 10 (2 ^ 32 - 11) [0; 0; 0; 0; 0; 0; 0; 0; 0; 0]) tt);
    [apply demo3_open|discriminate|reflexivity|discriminate|reflexivity|discriminate].
Defined.

Lemma sys_write_spec_witness :
  exists s', let n := 1 - 0 in
    sys_write_SHELL 3 4096 1 demo3 = Done n s' /\ 0 <= n <= 1 /\ file_ok s' /\
    open_at s' 101 demo_p3 3 (Sys 0) (of_set_offset (offset demo_f + n) demo_f) 2 /\ umem s' = umem demo3.
Proof.
  apply (sys_write_spec demo3 101 demo_p3 3 (Sys 0) demo_f 2 4096 1 [97] (mkio 0 1 0 []) tt);
    [apply demo3_file_ok|apply demo3_open|discriminate|reflexivity|lia|lia|unfold USERSPACETOP; lia
    | |reflexivity|reflexivity|reflexivity].
  intros i Hi. destruct i; [|cbn in Hi; lia]. vm_compute; reflexivity.
Defined.


Lemma sys_write_error_deadlock_witness :
  exists s', sys_write_SHELL 3 4096 1 (opened demo0 101 demo_p 3 0 3 0 O_RDWR tt) = Fail EIO s' /\
    sys_close_SHELL 3 s' = Halt KAssert /\
    forall t b q fd', t <> 5 -> ({[5 := 101]} : gmap Z Z) !! t = Some b ->
      procs (opened demo0 101 demo_p 3 0 3 0 O_RDWR tt) !! b = Some q ->
      0 <= fd' < OPEN_MAX -> fileTable q !! Z.to_nat fd' = Some (Some (Sys 0)) ->
      sys_close_SHELL fd' (set_curthread t s') = Halt Blocked.
Proof.
  apply (sys_write_error_deadlock (opened demo0 101 demo_p 3 0 3 0 O_RDWR tt) 101 demo_p3 3 (Sys 0)
           (mkof (Some 3) 0 O_RDWR 1 (Some new_lock)) 3 4096 1 [97] (mkio EIO 0 1 []) tt);
    [|discriminate|reflexivity|vm_compute; reflexivity|reflexivity|discriminate].
  apply opened_open_at; [apply demo0_current|unfold OPEN_MAX; lia|reflexivity].
Defined.
