(* ===== verification/ProcSyscalls.v ===== *)
(** * Process system calls, kern/syscall/syscall_PROC.c

    getpid, waitpid, exit and fork over the shared state of [KState], together
    with the part of [thread_fork] they rely on. Each call is written for one
    thread that is not interrupted; [waitpid] and [exit] are built from the steps
    between which other threads can run, and [WaitExit] interleaves those. *)

From stdpp Require Import base numbers list gmap strings.
From Stdlib Require Import ZArith Lia.
From S2P Require Import Prelude.
From S2P Require Import UserCopy.
From S2P Require Import KState.
From S2P Require Import ProcTable.

Open Scope Z_scope.
Open Scope k_scope.

(** kern/include/kern/wait.h:54-57 (_WWHAT). *)
Definition WWHAT (x : Z) : Z := Z.land x 3.

(** kern/include/kern/wait.h:68-68 (WEXITSTATUS): an arithmetic shift. *)
Definition WEXITSTATUS (x : Z) : Z := Z.shiftr x 2.

(** kern/include/kern/wait.h:65-65 (WIFEXITED). *)
Definition WIFEXITED (x : Z) : bool := WWHAT x =? 0.

(** kern/include/kern/wait.h:74-74 (_MKWAIT_EXIT) on a 32-bit [int]. *)
Definition MKWAIT_EXIT (x : Z) : Z := Z.lor (s32 (Z.shiftl x 2)) 0.

Definition WNOHANG : Z := 1.

(** A 32-bit word in memory, most significant byte first. *)
Definition be32 (v : Z) : list Z :=
  [u8 (Z.shiftr v 24); u8 (Z.shiftr v 16); u8 (Z.shiftr v 8); u8 v].

Section ops.
Context {W : Type} {HV : Vfs W}.

(** [*p = v] by the kernel itself for an [int *p]: the address may be anything
    that is mapped, a fault on it is fatal. *)
Definition raw_store (p v : Z) : K (kstate W) unit :=
  s <- kget ;;
  let '(ok, m) := store_bytes (umem s) p (be32 v) in
  if ok then kput (set_umem m s) else khalt PanicCall.

(** kern/syscall/syscall_PROC.c:47-55 (sys_getpid_SHELL). *)
Definition sys_getpid_SHELL : K (kstate W) Z :=
  s <- kget ;;
  match curproc s with
  | None => khalt KAssert
  | Some a => p <- proc_read a ;; kret (p_pid p)
  end.

(** kern/syscall/syscall_PROC.c:71-111 (sys_waitpid_SHELL): everything before the
    decision to sleep. [inl] is a value returned at once, [inr] the process to
    wait for. *)
Definition waitpid_check (pid status options : Z) : K (kstate W) (Z + Z) :=
  s <- kget ;;
  match curproc s with
  | None => khalt KAssert
  | Some cur =>
      p <- proc_read cur ;;
      if pid =? p_pid p then kfail ECHILD else
      if status =? 0 then kret (inl pid) else
      if (status =? 1073741824) || (status =? 2147483648) then kfail EFAULT else
      if negb (Z.rem (s32 status) 4 =? 0) then kfail EFAULT else
      r <- is_child cur pid ;;
      if r =? -1 then kfail ECHILD else
      if options =? 0 then
        e <- proc_search pid ;;
        match e with
        | None => kfail ESRCH
        | Some c => kret (inr c)
        end
      else if options =? WNOHANG then raw_store status 0 ;;; kret (inl pid)
      else kfail EINVAL
  end.

(** kern/syscall/syscall_PROC.c:113-118 (sys_waitpid_SHELL), the same in lines
    126-134: hand over the status and destroy the process. *)
Definition waitpid_finish (c status : Z) : K (kstate W) Z :=
  p <- proc_read c ;;
  raw_store status (p_status p) ;;;
  proc_destroy c ;;;
  kret (p_pid p).

(** kern/syscall/syscall_PROC.c:121-122 (sys_waitpid_SHELL) with [cv_wait]
    (kern/thread/synch.c:325-360) up to its [wchan_sleep]: the lock is taken and
    given back, and the thread is on the channel of [p_cv]. *)
Definition waitpid_sleep (c : Z) : K (kstate W) unit :=
  p <- proc_read c ;;
  l <- lock_acquire (p_locklock p) ;;
  proc_update c (p_set_locklock (Some l)) ;;;
  s <- kget ;;
  match p_cv p with
  | None => khalt KAssert
  | Some cv =>
      l' <- lock_release (Some l) ;;
      proc_update c (fun p => p_set_locklock (Some l') (p_set_cv (Some (mkcv (cv_wchan cv ++ [curthread s]))) p))
  end.

(** kern/syscall/syscall_PROC.c:122-134 (sys_waitpid_SHELL): from the return of
    [wchan_sleep] on. *)
Definition waitpid_resume (c status : Z) : K (kstate W) Z :=
  p <- proc_read c ;;
  l <- lock_acquire (p_locklock p) ;;
  l' <- lock_release (Some l) ;;
  proc_update c (p_set_locklock (Some l')) ;;;
  waitpid_finish c status.

(** kern/syscall/syscall_PROC.c:69-135 (sys_waitpid_SHELL) for a thread that runs
    alone: it sleeps in [cv_wait] with nobody to wake it. *)
Definition sys_waitpid_SHELL (pid status options : Z) : K (kstate W) Z :=
  r <- waitpid_check pid status options ;;
  match r with
  | inl v => kret v
  | inr c =>
      p <- proc_read c ;;
      if p_numthreads p =? 0 then waitpid_finish c status
      else waitpid_sleep c ;;; khalt Blocked
  end.

(** kern/syscall/syscall_PROC.c:149-153 (sys_exit_SHELL): the process whose last
    thread this is. *)
Definition exit_detach (exitcode : Z) : K (kstate W) Z :=
  a <- get_curproc ;;
  proc_update a (p_set_status (MKWAIT_EXIT exitcode)) ;;;
  s <- kget ;;
  proc_remthread (curthread s) ;;;
  kret a.

(** kern/syscall/syscall_PROC.c:156-158 (sys_exit_SHELL): the threads woken. *)
Definition exit_signal (a : Z) : K (kstate W) (list Z) :=
  p <- proc_read a ;;
  l <- lock_acquire (p_locklock p) ;;
  match p_cv p with
  | None => khalt KAssert
  | Some cv =>
      l' <- lock_release (Some l) ;;
      proc_update a (fun p => p_set_locklock (Some l') (p_set_cv (Some (mkcv (tail (cv_wchan cv)))) p)) ;;;
      kret (take 1 (cv_wchan cv))
  end.

(** kern/syscall/syscall_PROC.c:146-165 (sys_exit_SHELL), up to [thread_exit],
    which finds the thread detached; the result is the list of threads woken. *)
Definition sys_exit_SHELL (exitcode : Z) : K (kstate W) (list Z) :=
  a <- exit_detach exitcode ;; exit_signal a.

(** kern/thread/thread.c:495-548 (thread_fork) as the process code sees it: memory
    for the thread, its name and its stack, then the new thread, attached to
    [proc]. *)
Definition thread_fork (proc : Z) : K (kstate W) Z :=
  ok <- kmalloc ;;
  if negb ok then kfail ENOMEM else
  ok <- kmalloc ;;
  if negb ok then kfail ENOMEM else
  ok <- kmalloc ;;
  if negb ok then kfail ENOMEM else
  t <- fresh_addr ;;
  r <- proc_addthread proc t ;;
  if negb (r =? 0) then kfail r else kret t.

(** kern/syscall/syscall_PROC.c:191-253 (sys_fork_SHELL): what follows the search
    for a pid; [g] is what the memory for the new process holds. *)
Definition fork_body (g : proc) (index : Z) : K (kstate W) Z :=
  if index <=? 0 then kfail ENPROC else
  cur <- get_curproc ;;
  p <- proc_read cur ;;
  np <- proc_create_runprogram g (p_name p) ;;
  match np with
  | None => kfail ENOMEM
  | Some n =>
      match p_addrspace p with
      | None => khalt NullDeref
      | Some asp =>
          r <- lift_world (as_copy asp) ;;
          match r with
          | inl err => proc_destroy n ;;; kfail err
          | inr newas =>
              proc_update n (p_set_addrspace (Some newas)) ;;;
              ok <- kmalloc ;;
              if negb ok then proc_destroy n ;;; kfail ENOMEM else
              q <- proc_read n ;;
              r <- add_new_child cur (p_pid q) ;;
              if r =? -1 then proc_destroy n ;;; kfail ENOMEM else
              proc_update n (p_set_parent (p_pid p)) ;;;
              r <- proc_add index (Some n) ;;
              if r =? -1 then kfail ENOMEM else
              r <- attempt (thread_fork n) ;;
              match r with
              | inl err => proc_destroy n ;;; kfail err
              | inr _ => q <- proc_read n ;; kret (p_pid q)
              end
          end
      end
  end.

(** kern/syscall/syscall_PROC.c:184-254 (sys_fork_SHELL). *)
Definition sys_fork_SHELL (g : proc) : K (kstate W) Z :=
  s <- kget ;;
  kassert (bool_decide (is_Some (curproc s))) ;;;
  index <- find_valid_pid ;;
  fork_body g index.

End ops.

(** ** Theorems *)

(** The exit status survives its encoding: for every exit code that fits in
    30 bits, what [waitpid] stores is recognised as a normal exit and decodes to
    the code; larger codes are cut to 30 bits. *)
Theorem exit_status_roundtrip code :
  WIFEXITED (MKWAIT_EXIT code) = true /\
  WEXITSTATUS (MKWAIT_EXIT code) = wraps 30 code /\
  (- 2 ^ 29 <= code < 2 ^ 29 -> WEXITSTATUS (MKWAIT_EXIT code) = code).
Proof.
  unfold MKWAIT_EXIT, WIFEXITED, WEXITSTATUS, WWHAT. rewrite Z.lor_0_r, Z.shiftl_mul_pow2 by lia.
  assert (E : s32 (code * 2 ^ 2) = 4 * wraps 30 code).
  { unfold wraps. replace (code * 2 ^ 2 + 2 ^ (32 - 1)) with (4 * (code + 2 ^ (30 - 1))) by lia.
    change (2 ^ 32) with (4 * 2 ^ 30). rewrite Z.mul_mod_distr_l by lia. lia. }
  rewrite E. split_and!.
  - change 3 with (Z.ones 2). rewrite Z.land_ones by lia.
    change (2 ^ 2) with 4. by rewrite Z.mul_comm, Z.mod_mul.
  - rewrite Z.shiftr_div_pow2 by lia. change (2 ^ 2) with 4. by rewrite Z.mul_comm, Z.div_mul.
  - intros Hc. rewrite wraps_small by lia. rewrite Z.shiftr_div_pow2 by lia.
    change (2 ^ 2) with 4. by rewrite Z.mul_comm, Z.div_mul.
Qed.

Section spec.
Context {W : Type} {HV : Vfs W}.
Implicit Types s : kstate W.

(** A status pointer that [waitpid] accepts and that is mapped. *)
Definition good_status s (status : Z) : Prop :=
  status <> 0 /\ status <> 1073741824 /\ status <> 2147483648 /\
  Z.rem (s32 status) 4 = 0 /\ mapped (umem s) status 4.

Lemma be32_length v : length (be32 v) = 4%nat.
Proof. done. Qed.

Lemma raw_store_eq s p v :
  mapped (umem s) p 4 ->
  exists m, raw_store p v s = Done tt (set_umem m s) /\ bytes_at m p (be32 v) /\
    only_changes (umem s) m p 4.
Proof.
  intros Hm. unfold raw_store, kbind, kget.
  pose proof (store_bytes_spec (umem s) p (be32 v) Hm) as [Hok Hb].
  pose proof (store_bytes_changes (umem s) p (be32 v)) as Hch.
  destruct (store_bytes (umem s) p (be32 v)) as [ok m]. cbn in *. subst. eauto.
Qed.

Lemma is_child_loop_in l c : is_child_loop l c = if bool_decide (c ∈ l) then 0 else -1.
Proof.
  induction l as [|x l IH]; [done|]. cbn [is_child_loop]. rewrite IH.
  destruct (Z.eqb_spec x c) as [->|Hne].
  - rewrite bool_decide_eq_true_2; [done|]. by left.
  - do 2 case_bool_decide; try done.
    + match goal with H : c ∉ x :: l |- _ => destruct H end. by right.
    + match goal with H : c ∈ x :: l |- _ => apply elem_of_cons in H as []; done end.
Qed.

Lemma waitpid_check_child s pa pp c ca cp status :
  family_ok s -> curproc s = Some pa -> registered s pa pp -> c ∈ children_list pp ->
  at_pid s c ca cp -> good_status s status ->
  waitpid_check c status 0 s = Done (inr ca) s.
Proof.
  intros Hf Hc Hreg Hin Hat (H0 & H1 & H2 & H4 & _). unfold waitpid_check, kbind at 1, kget. rewrite Hc.
  destruct (fo_child s Hf pa pp c Hreg Hin) as (Hne & _). pose proof (registered_procs _ _ _ Hreg) as Hpp.
  unfold kbind at 1. rewrite (proc_read_eq _ _ _ Hpp). rewrite (proj2 (Z.eqb_neq _ _) Hne).
  rewrite (proj2 (Z.eqb_neq _ _) H0), (proj2 (Z.eqb_neq _ _) H1), (proj2 (Z.eqb_neq _ _) H2), H4.
  cbn [orb negb Z.eqb]. unfold kbind, is_child. unfold kbind. rewrite (proc_read_eq _ _ _ Hpp).
  unfold kret. rewrite is_child_loop_in, bool_decide_eq_true_2 by done. cbn [Z.eqb].
  destruct (fo_table s Hf) as (Hlen & _).
  by rewrite (proc_search_eq s c ca cp Hlen Hat (at_pid_self _ _ _ _ Hf Hat)).
Qed.

Lemma kin_le_umem s m : kin_le s (set_umem m s).
Proof. by split. Qed.

(** [waitpid] for a child that has no threads left. *)
Lemma waitpid_idle s pa pp c ca cp status :
  family_ok s -> curproc s = Some pa -> registered s pa pp -> c ∈ children_list pp ->
  at_pid s c ca cp -> idle cp -> good_status s status ->
  exists m s', sys_waitpid_SHELL c status 0 s = Done c s' /\
    bytes_at m status (be32 (p_status cp)) /\ only_changes (umem s) m status 4 /\
    destroyed (set_umem m s) c ca cp s' /\ family_ok s'.
Proof.
  intros Hf Hc Hreg Hin Hat Hidle Hst. unfold sys_waitpid_SHELL, kbind at 1.
  rewrite (waitpid_check_child s pa pp c ca cp status) by done.
  pose proof Hat as (_ & _ & Hcp). unfold kbind at 1. rewrite (proc_read_eq _ _ _ Hcp).
  destruct Hidle as (Hth & Hrest). rewrite Hth. cbn [Z.eqb]. unfold waitpid_finish, kbind.
  rewrite (proc_read_eq _ _ _ Hcp).
  destruct (raw_store_eq s status (p_status cp)) as (m & -> & Hb & Hch); [apply Hst|].
  assert (Hf1 : family_ok (set_umem m s)) by (by rewrite <- kin_le_umem).
  destruct (proc_destroy_run (set_umem m s) c ca cp Hf1 Hat) as (s' & -> & Hd); [done|].
  exists m, s'. unfold kret. rewrite (at_pid_self _ _ _ _ Hf Hat). split_and!; try done.
  by apply (destroyed_family (set_umem m s) c ca cp s' Hf1 Hat).
Qed.

(** The state after the only thread of process [ca] has exited. *)
Definition exited s (ca : Z) (cp : proc) (code : Z) : kstate W :=
  set_procs (fun m => <[ca := p_set_numthreads 0 (p_set_status (MKWAIT_EXIT code) cp)]> m)
    (set_t_proc (fun m => delete (curthread s) m) s).

Lemma exit_run s ca cp code :
  curproc s = Some ca -> procs s !! ca = Some cp -> p_numthreads cp = 1 ->
  p_cv cp = Some new_cv -> p_locklock cp = Some new_lock ->
  sys_exit_SHELL code s = Done [] (exited s ca cp code).
Proof.
  intros Hc Hp Hth Hcv Hl. unfold sys_exit_SHELL, exit_detach, kbind.
  rewrite (get_curproc_eq _ _ Hc), (proc_update_eq _ _ _ _ Hp). unfold kget. cbn [curthread set_procs].
  unfold proc_remthread, kbind, kget. cbn [t_proc set_procs]. unfold curproc in Hc. rewrite Hc.
  rewrite (proc_read_eq _ ca _ (lookup_set_procs _ _ _)). cbn [p_numthreads p_set_status]. rewrite Hth.
  cbn [Z.ltb Z.compare kassert]. unfold kret.
  rewrite (proc_update_eq _ ca _ _ (lookup_set_procs _ _ _)), set_procs_insert. unfold kmodify.
  unfold exit_signal, kbind.
  rewrite (proc_read_eq _ ca (p_set_numthreads (1 - 1) (p_set_status (MKWAIT_EXIT code) cp))) by apply lookup_set_procs.
  cbn [p_locklock p_cv p_set_numthreads p_set_status]. rewrite Hcv, Hl.
  unfold lock_acquire, lock_release, kbind, kget. cbn [lk_owner new_lock].
  rewrite bool_decide_eq_false_2 by done. cbn [negb kassert]. unfold kret. cbn [lk_owner].
  rewrite bool_decide_eq_true_2 by done. cbn [kassert]. unfold kret.
  rewrite (proc_update_eq _ ca (p_set_numthreads (1 - 1) (p_set_status (MKWAIT_EXIT code) cp))) by apply lookup_set_procs.
  cbn [take cv_wchan new_cv lk_wchan tail]. unfold exited. f_equal.
  unfold set_procs, set_t_proc. cbn. rewrite insert_insert_eq. do 2 f_equal. destruct cp. cbn in *. by subst.
Qed.

Lemma exited_family s ca cp code :
  family_ok s -> procs s !! ca = Some cp -> family_ok (exited s ca cp code).
Proof.
  intros Hf Hp. apply (family_ok_proper (set_t_proc (fun m => delete (curthread s) m) s)).
  - apply kin_le_update with (f := fun p => p_set_numthreads 0 (p_set_status (MKWAIT_EXIT code) p)); done.
  - apply (family_ok_proper s); [by split|done].
Qed.

(** C1. A child that exits before its parent waits for it: [exit] by the child's
    only thread, then [waitpid] by the parent, return the child's pid, store the
    encoded exit code at the parent's status pointer and nothing else, and
    release the child's memory and pid; the process table invariant holds. *)
Theorem exit_then_waitpid s c ca cp code tp pa pp status :
  family_ok s -> at_pid s c ca cp -> curproc s = Some ca -> p_numthreads cp = 1 ->
  p_cv cp = Some new_cv -> p_locklock cp = Some new_lock ->
  tp <> curthread s -> t_proc s !! tp = Some pa -> registered s pa pp -> c ∈ children_list pp ->
  good_status s status ->
  exists s1 s2, sys_exit_SHELL code s = Done [] s1 /\
    sys_waitpid_SHELL c status 0 (set_curthread tp s1) = Done c s2 /\
    bytes_at (umem s2) status (be32 (MKWAIT_EXIT code)) /\
    only_changes (umem s) (umem s2) status 4 /\
    slot s2 c = None /\ procs s2 !! ca = None /\ family_ok s2.
Proof.
  intros Hf Hat Hc Hth Hcv Hl Htp Hpa Hreg Hin Hst. pose proof Hat as (Hcr & Hs & Hcp).
  rewrite (exit_run s ca cp code) by done.
  set (s1 := set_curthread tp (exited s ca cp code)).
  assert (Hf1 : family_ok s1).
  { apply (family_ok_proper (exited s ca cp code)); [by split|by apply exited_family]. }
  set (cp1 := p_set_numthreads 0 (p_set_status (MKWAIT_EXIT code) cp)).
  assert (Hat1 : at_pid s1 c ca cp1).
  { split_and!; try done; try lia. cbn. by rewrite lookup_insert_eq. }
  assert (Hne : pa <> ca).
  { intros ->. destruct (fo_child s Hf ca pp c Hreg Hin) as (Hne & _).
    pose proof (registered_procs _ _ _ Hreg). apply Hne. symmetry.
    assert (pp = cp) as -> by congruence. by apply (at_pid_self s c ca cp). }
  assert (Hreg1 : registered s1 pa pp).
  { destruct Hreg as [[i (? & ? & ?)]|[? ?]].
    - left. exists i. split_and!; try done; try lia. cbn. by rewrite lookup_insert_ne.
    - right. split; [done|]. cbn. by rewrite lookup_insert_ne. }
  destruct (waitpid_idle s1 pa pp c ca cp1 status Hf1) as (m & s2 & Hrun & Hb & Hch & Hd & Hf2); try done.
  - unfold curproc. cbn. by rewrite lookup_delete_ne.
  - split_and!; [done|by exists new_cv|by exists new_lock].
  - exists (exited s ca cp code), s2. fold s1. split_and!; try done.
    + destruct Hd as (-> & _). done.
    + destruct Hd as (-> & _). done.
    + rewrite (destroyed_slot (set_umem m s1) c ca cp1 s2) by (done || by rewrite <- kin_le_umem).
      by rewrite decide_True.
    + by destruct Hd as (_ & ? & _).
Qed.

(** ** Fork *)

(** Process [n], with pid [i], becomes a child of [pa]. *)
Definition adopted s (i n : Z) (np : proc) (pa : Z) (pp : proc) : kstate W :=
  set_procs (fun m => <[n := p_set_parent (p_pid pp) np]>
                        (<[pa := p_set_children (children_list pp ++ [i]) pp]> m)) s.

Lemma adopted_lookup s i n np pa pp x :
  n <> pa ->
  procs (adopted s i n np pa pp) !! x =
  if decide (x = n) then Some (p_set_parent (p_pid pp) np)
  else if decide (x = pa) then Some (p_set_children (children_list pp ++ [i]) pp)
  else procs s !! x.
Proof.
  intros Hne. cbn. repeat case_decide; subst.
  - by rewrite lookup_insert_eq.
  - by rewrite lookup_insert_ne, lookup_insert_eq.
  - by rewrite !lookup_insert_ne.
Qed.

(** A process of the new state, with the process it was in the old one. *)
Lemma adopted_back s i n np pa pp x q' :
  n <> pa -> procs s !! n = Some np -> procs s !! pa = Some pp ->
  procs (adopted s i n np pa pp) !! x = Some q' ->
  exists q, procs s !! x = Some q /\ p_pid q' = p_pid q /\
    (q' = q \/ (x = n /\ q = np /\ q' = p_set_parent (p_pid pp) np) \/
     (x = pa /\ q = pp /\ q' = p_set_children (children_list pp ++ [i]) pp)).
Proof.
  intros Hne Hn Hpa. rewrite adopted_lookup by done.
  repeat case_decide; intros Hq; simplify_eq; eauto 10.
Qed.

Lemma adopted_forth s i n np pa pp x q :
  n <> pa -> procs s !! n = Some np -> procs s !! pa = Some pp -> procs s !! x = Some q ->
  exists q', procs (adopted s i n np pa pp) !! x = Some q' /\ p_pid q' = p_pid q /\
    (forall c, c ∈ children_list q -> c ∈ children_list q') /\
    (x <> n -> parent_pid q' = parent_pid q).
Proof.
  intros Hne Hn Hpa Hx. rewrite adopted_lookup by done. repeat case_decide; subst; simplify_eq;
    eexists; (split; [done|]); cbn; split_and!; try done. intros c Hc. apply elem_of_app. by left.
Qed.

Lemma adopted_registered_back s i n np pa pp :
  n <> pa -> procs s !! n = Some np -> procs s !! pa = Some pp ->
  forall x q', registered (adopted s i n np pa pp) x q' ->
  exists q, registered s x q /\ p_pid q' = p_pid q /\
    (q' = q \/ (x = n /\ q = np /\ q' = p_set_parent (p_pid pp) np) \/
     (x = pa /\ q = pp /\ q' = p_set_children (children_list pp ++ [i]) pp)).
Proof.
  intros Hne Hn Hpa x q' [[j (Hj & Hsj & Hq)]|[Hk Hq]];
    destruct (adopted_back s i n np pa pp x q') as (q & Hq0 & ? & ?); try done; exists q;
    (split; [|done]); [left; by exists j|by right].
Qed.

Lemma adopted_registered s i n np pa pp :
  n <> pa -> procs s !! n = Some np -> procs s !! pa = Some pp ->
  forall x q, registered s x q -> exists q', registered (adopted s i n np pa pp) x q' /\
    p_pid q' = p_pid q /\ (forall c, c ∈ children_list q -> c ∈ children_list q').
Proof.
  intros Hne Hn Hpa x q Hr.
  destruct (adopted_forth s i n np pa pp x q) as (q' & Hq' & ? & ? & _); try done.
  { by apply registered_procs. }
  exists q'. split; [|done]. destruct Hr as [[j (? & ? & ?)]|[? ?]]; [left; by exists j|by right].
Qed.

Lemma adopted_at_pid s i n np pa pp :
  n <> pa -> procs s !! n = Some np -> procs s !! pa = Some pp ->
  forall j x q, at_pid s j x q -> exists q', at_pid (adopted s i n np pa pp) j x q' /\
    (x <> n -> parent_pid q' = parent_pid q).
Proof.
  intros Hne Hn Hpa j x q (? & ? & Hq).
  destruct (adopted_forth s i n np pa pp x q) as (q' & ? & _ & _ & ?); try done. exists q'. done.
Qed.

Lemma adopted_family s i n np pa pp :
  family_ok s -> at_pid s i n np -> parent_pid np = -1 -> registered s pa pp -> pa <> n ->
  family_ok (adopted s i n np pa pp).
Proof.
  intros Hf Hat Horph Hreg Hne. pose proof Hat as (Hi & Hs & Hn).
  pose proof (registered_procs _ _ _ Hreg) as Hpa. pose proof (at_pid_self _ _ _ _ Hf Hat) as Hpid.
  assert (Hne' : n <> pa) by congruence.
  assert (Hnotin : i ∉ children_list pp).
  { intros Hin. destruct (fo_child s Hf pa pp i Hreg Hin) as (_ & ca & cp & (_ & ? & ?) & Hpar).
    assert (ca = n) as -> by congruence. assert (cp = np) as -> by congruence.
    pose proof (registered_range _ _ _ Hf Hreg). unfold PROC_MAX in *. lia. }
  assert (Hipp : i <> p_pid pp).
  { intros ->. apply Hne. apply (registered_pid s pa pp n np); [done|done|left; eauto|congruence]. }
  pose proof (adopted_registered_back s i n np pa pp Hne' Hn Hpa) as Hrb.
  pose proof (adopted_registered s i n np pa pp Hne' Hn Hpa) as Hrf.
  pose proof (adopted_at_pid s i n np pa pp Hne' Hn Hpa) as Hatf.
  assert (Hself : at_pid (adopted s i n np pa pp) i n (p_set_parent (p_pid pp) np)).
  { split_and!; try done; try lia. rewrite adopted_lookup by done. by rewrite decide_True. }
  split.
  - exact (fo_table s Hf).
  - intros j x Hj Hx. destruct (fo_live s Hf j x Hj Hx) as (q & Hq & Hqp).
    destruct (adopted_forth s i n np pa pp x q) as (q' & ? & ? & _); try done. exists q'. split; congruence.
  - destruct (fo_kproc s Hf) as (k & kp & Hk & Hkp & ? & ?).
    destruct (adopted_forth s i n np pa pp k kp) as (q' & ? & E & _); try done. exists k, q'. by rewrite E.
  - intros x q' Hr. destruct (Hrb x q' Hr) as (q & Hq & _ & [->|[(_ & -> & ->)|(_ & -> & ->)]]).
    + by apply (fo_nodup s Hf x _ Hq).
    + by apply (fo_nodup s Hf x _ Hq).
    + apply NoDup_app. split_and!; [by apply (fo_nodup s Hf x _ Hq)| |apply NoDup_singleton].
      intros d Hd Hd'. apply list_elem_of_singleton in Hd' as ->. done.
  - intros x q' c Hr Hc. destruct (Hrb x q' Hr) as (q & Hq & Epid & Hcase). rewrite Epid.
    assert (Hold : c ∈ children_list q -> c <> p_pid q /\ exists ca cp,
      at_pid (adopted s i n np pa pp) c ca cp /\ parent_pid cp = p_pid q).
    { intros Hcq. destruct (fo_child s Hf x q c Hq Hcq) as (? & ca & cp & Hca & Hpar). split; [done|].
      destruct (Hatf c ca cp Hca) as (cp' & ? & Hp'). exists ca, cp'. split; [done|].
      rewrite Hp'; [done|]. intros ->. destruct Hca as (_ & _ & Hcp). assert (cp = np) as -> by congruence.
      pose proof (registered_range _ _ _ Hf Hq). unfold PROC_MAX in *. lia. }
    destruct Hcase as [->|[(_ & -> & ->)|(_ & -> & ->)]]; [auto|auto|].
    cbn in Hc. apply elem_of_app in Hc as [Hc|Hc]; [auto|]. apply list_elem_of_singleton in Hc as ->.
    split; [done|]. exists n, (p_set_parent (p_pid pp) np). done.
  - intros j x q' (Hj & Hsj & Hq') Hpar.
    destruct (adopted_back s i n np pa pp x q') as (q & Hq & _ & Hcase); try done.
    destruct (decide (x = n)) as [->|Hxn].
    + assert (j = i) as -> by (apply (at_pid_inj s j i n q np); done).
      rewrite adopted_lookup in Hq' by done. rewrite decide_True in Hq' by done. injection Hq' as <-.
      exists pa, (p_set_children (children_list pp ++ [i]) pp). split_and!; [|done|].
      * destruct Hreg as [[k (? & ? & ?)]|[? ?]]; [left; exists k|right];
          (split_and!; try done; try lia; rewrite adopted_lookup by done;
           rewrite decide_False, decide_True by done; done).
      * cbn. apply elem_of_app. right. by apply list_elem_of_singleton.
    + assert (Hpp : parent_pid q' = parent_pid q) by (destruct Hcase as [->|[(? & _)|(_ & -> & ->)]]; done).
      rewrite Hpp in *. destruct (fo_parent s Hf j x q) as (pb & pq & Hrq & ? & ?); try done.
      destruct (Hrf pb pq Hrq) as (pq' & Hrq' & E & Hsub). exists pb, pq'. rewrite E. auto.
  - intros x q' Hq'. destruct (adopted_back s i n np pa pp x q') as (q & Hq & _); try done.
    by apply (fo_fresh s Hf x q).
Qed.

(** The console opens: what [proc_create_runprogram] needs of the VFS. *)
Definition console_opens : Prop :=
  forall flag w, exists v w', vfs_open "con:" flag 420 w = (inr v, w').

(** An open file of the console, opened for [flag] with one reference. *)
Definition console_file (flag : Z) (f : openfile) : Prop :=
  exists v w w', vfs_open "con:" flag 420 w = (inr v, w') /\ f = mkof (Some v) 0 flag 1 (Some new_lock).

(** One console descriptor: only [*a]'s table, the open files, the VFS state and
    the allocator move. *)
Lemma console_init_run s a p fd flag :
  console_opens -> procs s !! a = Some p -> oracle s = [] ->
  exists f w, console_file flag f /\ console_init a fd flag s =
    Done 0 (set_ofiles (fun m => <[Heap (nextaddr s) := f]> m)
      (set_world w (set_procs (fun m => <[a := p_set_fileTable (fun l => <[Z.to_nat fd := Some (Heap (nextaddr s))]> l) p]> m)
        (set_nextaddr (nextaddr s + 1) s)))).
Proof.
  intros Hcon Hp Hor. destruct (Hcon flag (world s)) as (v & w & Hv).
  exists (mkof (Some v) 0 flag 1 (Some new_lock)), w. split; [by exists v, (world s), w|].
  unfold console_init. do 2 (unfold kbind at 1; rewrite kmalloc_nil by done; cbn [negb]).
  unfold kbind at 1, fresh_addr, kbind at 1, kget, kbind at 1, kput, kret at 1.
  unfold kbind at 1, set_fd. rewrite (proc_update_eq _ a p) by done.
  unfold kbind at 1, lift_world. cbn [world set_procs set_nextaddr]. rewrite Hv.
  unfold kbind. by rewrite lock_create_nil.
Qed.

(** The three console files of a new process, at the addresses after [n]. *)
Definition console_files (n : Z) (m m' : gmap ofptr openfile) : Prop :=
  exists f0 f1 f2, console_file O_RDONLY f0 /\ console_file O_WRONLY f1 /\ console_file O_WRONLY f2 /\
    m' = <[Heap (n + 1 + 1 + 1) := f2]> (<[Heap (n + 1 + 1) := f1]> (<[Heap (n + 1) := f0]> m)).

(** The new process of [proc_create_runprogram]: three console descriptors and
    the working directory of its creator. *)
Definition runprogram_proc (name : string) (i n : Z) (cwd : option Z) (q : proc) : Prop :=
  q = mkproc name 0 None cwd 0 i (-1) [] (Some new_cv) (Some new_lock)
        (Some (Heap (n + 1)) :: Some (Heap (n + 1 + 1)) :: Some (Heap (n + 1 + 1 + 1)) :: replicate (Z.to_nat OPEN_MAX - 3) None).

Lemma create_runprogram_run g name s i cur p :
  console_opens -> family_ok s -> oracle s = [] -> name <> "[kernel]"%string ->
  find_valid_pid s = Done i s -> i <> -1 -> curproc s = Some cur -> procs s !! cur = Some p ->
  exists s' q, proc_create_runprogram g name s = Done (Some (nextaddr s)) s' /\
    runprogram_proc name i (nextaddr s) (p_cwd p) q /\ console_files (nextaddr s) (ofiles s) (ofiles s') /\
    s' = mkk (<[nextaddr s := q]> (procs s)) (<[Z.to_nat i := Some (nextaddr s)]> (ptable s)) i
             (is_active s) (ofiles s') (t_proc s) (curthread s) (kproc s) (nextaddr s + 4) [] (umem s)
             (world s').
Proof.
  intros Hcon Hf Hor Hname Hfind Hi Hcur Hp.
  assert (Hne : cur <> nextaddr s) by (pose proof (fo_fresh s Hf cur p Hp); lia).
  unfold proc_create_runprogram. unfold kbind at 1.
  rewrite (proc_create_run g name s i (fo_table s Hf) Hor Hname (fo_fresh s Hf) Hfind).
  rewrite (proj2 (Z.eqb_neq i (-1))) by done. unfold enrolled. set (n := nextaddr s) in *.
  unfold kbind at 1. rewrite (proc_update_eq _ n _ _ (lookup_set_procs _ _ _)), set_procs_insert.
  do 3 (unfold kbind at 1; match goal with |- context [console_init n ?fd ?fl ?x] =>
    eassert (Hq : procs x !! n = Some _) by (cbn; apply lookup_insert_eq);
    destruct (console_init_run x n _ fd fl Hcon Hq Hor) as (? & ? & ? & ->); clear Hq end; cbn [Z.eqb]).
  unfold kbind at 1. rewrite (get_curproc_eq _ cur) by done. unfold kbind at 1.
  rewrite (proc_read_eq _ cur p) by (cbn; by rewrite !lookup_insert_ne by done).
  destruct (p_cwd p) as [v|] eqn:Ecwd; unfold kbind, kret, lift_world_.
  - erewrite proc_update_eq by (cbn; apply lookup_insert_eq).
    eexists _, _. split_and!; [done|reflexivity|do 3 eexists; split_and!; [| | |reflexivity]; eassumption|].
    apply kstate_ext; cbn [procs ptable last_pid is_active ofiles t_proc curthread kproc nextaddr oracle
      umem world set_procs set_world set_ofiles set_nextaddr set_last_pid set_ptable]; try done; [|lia].
    by rewrite !insert_insert_eq.
  - eexists _, _. split_and!; [done|reflexivity|do 3 eexists; split_and!; [| | |reflexivity]; eassumption|].
    apply kstate_ext; cbn [procs ptable last_pid is_active ofiles t_proc curthread kproc nextaddr oracle
      umem world set_procs set_world set_ofiles set_nextaddr set_last_pid set_ptable]; try done; [|lia].
    by rewrite !insert_insert_eq.
Qed.

(** Descriptors 0, 1 and 2 of a new process, and the other open files. *)
Lemma console_files_at s s' l fd flag :
  console_files (nextaddr s) (ofiles s) (ofiles s') -> nextaddr s + 4 < nextaddr s' ->
  (fd, flag) ∈ [(0, O_RDONLY); (1, O_WRONLY); (2, O_WRONLY)] ->
  nextaddr s < nextaddr s + 1 + fd < nextaddr s' /\
  (Some (Heap (nextaddr s + 1)) :: Some (Heap (nextaddr s + 1 + 1)) :: Some (Heap (nextaddr s + 1 + 1 + 1)) :: l)
    !! Z.to_nat fd = Some (Some (Heap (nextaddr s + 1 + fd))) /\
  exists f, ofiles s' !! Heap (nextaddr s + 1 + fd) = Some f /\ console_file flag f.
Proof.
  intros (f0 & f1 & f2 & H0 & H1 & H2 & Hm) Hn Hfd. rewrite Hm.
  repeat (apply elem_of_cons in Hfd as [Hfd|Hfd]); [..|by apply not_elem_of_nil in Hfd];
    injection Hfd as -> ->; (split_and!; [lia|lia| |]).
  - by rewrite Z.add_0_r.
  - exists f0. split; [|done]. rewrite Z.add_0_r, !lookup_insert_ne by (intros [=]; lia).
    apply lookup_insert_eq.
  - done.
  - exists f1. split; [|done]. rewrite lookup_insert_ne by (intros [=]; lia). apply lookup_insert_eq.
  - by replace (nextaddr s + 1 + 2) with (nextaddr s + 1 + 1 + 1) by lia.
  - exists f2. split; [|done]. replace (nextaddr s + 1 + 2) with (nextaddr s + 1 + 1 + 1) by lia.
    apply lookup_insert_eq.
Qed.

Lemma console_files_frame s s' x :
  console_files (nextaddr s) (ofiles s) (ofiles s') ->
  (forall fd, 0 <= fd < 3 -> x <> Heap (nextaddr s + 1 + fd)) -> ofiles s' !! x = ofiles s !! x.
Proof.
  intros (f0 & f1 & f2 & _ & _ & _ & ->) Hx. rewrite !lookup_insert_ne; [done|..];
    intros <-; [apply (Hx 0)|apply (Hx 1)|apply (Hx 2)]; try lia; f_equal; lia.
Qed.

(** The state a successful fork leaves: process [np] at the fresh address, in
    slot [i], the caller with one more child, and one new thread. *)
Definition forked s s' (i cur : Z) (p np : proc) (t : Z) : Prop :=
  procs s' = <[nextaddr s := np]> (<[cur := p_set_children (children_list p ++ [i]) p]> (procs s)) /\
  ptable s' = <[Z.to_nat i := Some (nextaddr s)]> (ptable s) /\ last_pid s' = i /\
  t_proc s' = <[t := nextaddr s]> (t_proc s) /\ curthread s' = curthread s /\ kproc s' = kproc s /\
  nextaddr s + 4 < nextaddr s' /\ umem s' = umem s.

Lemma forked_family s s' i cur p np t :
  family_ok s -> registered s cur p -> 1 <= i <= PROC_MAX -> slot s i = None ->
  p_pid np = i -> parent_pid np = p_pid p -> children_list np = [] ->
  forked s s' i cur p np t -> family_ok s'.
Proof.
  intros Hf Hreg Hi Hfree Hpid Hpar Hkids (Hprocs & Hpt & Hlast & _ & _ & Hk & Hnext & _).
  pose proof (registered_not_fresh _ _ _ Hf Hreg) as Hne.
  set (q := p_set_parent (-1) np). set (s1 := enrolled s i q).
  assert (Hf1 : family_ok s1) by (by apply enrolled_family).
  assert (Hat1 : at_pid s1 i (nextaddr s) q) by (apply enrolled_at_pid; auto).
  assert (Hreg1 : registered s1 cur p) by (by apply enrolled_registered).
  apply (family_ok_proper (adopted s1 i (nextaddr s) q cur p)); [|by apply adopted_family].
  split; try done.
  - cbn. lia.
  - intros x. rewrite adopted_lookup by congruence. rewrite Hprocs. repeat case_decide; subst.
    + rewrite lookup_insert_eq. cbn. unfold kin. cbn. by rewrite <- Hpar.
    + by rewrite lookup_insert_ne, lookup_insert_eq by congruence.
    + rewrite !lookup_insert_ne by congruence. cbn. by rewrite lookup_insert_ne by congruence.
Qed.

Lemma thread_fork_run s n q :
  oracle s = [] -> procs s !! n = Some q -> t_proc s !! nextaddr s = None ->
  thread_fork n s = Done (nextaddr s)
    (set_t_proc (fun m => <[nextaddr s := n]> m)
      (set_procs (fun m => <[n := p_set_numthreads (u32 (p_numthreads q + 1)) q]> m)
        (set_nextaddr (nextaddr s + 1) s))).
Proof.
  intros Hor Hq Ht. unfold thread_fork.
  do 3 (unfold kbind at 1; rewrite kmalloc_nil by done; cbn [negb]).
  unfold kbind at 1, fresh_addr, kbind at 1, kget, kbind at 1, kput, kret at 1.
  unfold kbind at 1, proc_addthread, kbind at 1, kget. cbn [t_proc set_nextaddr].
  rewrite bool_decide_eq_true_2 by done. cbn [kassert]. unfold kbind, kret.
  by rewrite (proc_read_eq _ n q), (proc_update_eq _ n q) by done.
Qed.

Lemma fork_run g s i cur p asp :
  console_opens -> (forall w, exists na w', as_copy asp w = (inr na, w')) ->
  family_ok s -> oracle s = [] -> curproc s = Some cur -> procs s !! cur = Some p ->
  p_name p <> "[kernel]"%string -> p_addrspace p = Some asp ->
  (forall t a, t_proc s !! t = Some a -> t < nextaddr s) ->
  find_valid_pid s = Done i s -> i <> -1 ->
  exists s' na w t, sys_fork_SHELL g s = Done i s' /\
    as_copy asp w = (inr na, world s') /\ console_files (nextaddr s) (ofiles s) (ofiles s') /\
    forked s s' i cur p
      (mkproc (p_name p) 1 (Some na) (p_cwd p) 0 i (p_pid p) [] (Some new_cv) (Some new_lock)
        (Some (Heap (nextaddr s + 1)) :: Some (Heap (nextaddr s + 1 + 1)) :: Some (Heap (nextaddr s + 1 + 1 + 1)) ::
         replicate (Z.to_nat OPEN_MAX - 3) None)) t.
Proof.
  intros Hcon Hcopy Hf Hor Hcur Hp Hname Has Hth Hfind Hi.
  pose proof (find_valid_pid_range s i (fo_table s Hf) Hfind Hi) as Hir.
  assert (Hne : cur <> nextaddr s) by (pose proof (fo_fresh s Hf cur p Hp); lia).
  unfold sys_fork_SHELL. unfold kbind at 1, kget. unfold kbind at 1.
  rewrite Hcur, bool_decide_eq_true_2 by done. cbn [kassert]. unfold kret at 1.
  unfold kbind at 1. rewrite Hfind. unfold fork_body. rewrite (proj2 (Z.leb_gt i 0)) by lia.
  unfold kbind at 1. rewrite (get_curproc_eq _ _ Hcur). unfold kbind at 1. rewrite (proc_read_eq _ _ _ Hp).
  destruct (create_runprogram_run g (p_name p) s i cur p) as (s1 & q & E1 & Hq & Hfs & Hs1); try done.
  unfold kbind at 1. rewrite E1. clear E1. rewrite Has. set (n := nextaddr s) in *.
  unfold kbind at 1, lift_world. destruct (Hcopy (world s1)) as (na & w2 & Hna). rewrite Hna.
  assert (Hn1 : procs s1 !! n = Some q) by (rewrite Hs1; cbn; apply lookup_insert_eq).
  assert (Hcur1 : procs s1 !! cur = Some p) by (rewrite Hs1; cbn; by rewrite lookup_insert_ne).
  assert (Hor1 : oracle s1 = []) by (by rewrite Hs1).
  assert (Hlen1 : length (ptable s1) = Z.to_nat (PROC_MAX + 1)).
  { rewrite Hs1. cbn. rewrite length_insert. apply Hf. }
  assert (Hnext1 : nextaddr s1 = n + 4) by (by rewrite Hs1).
  unfold kbind at 1. rewrite (proc_update_eq _ n q) by done.
  unfold kbind at 1. rewrite kmalloc_nil by done. cbn [negb].
  unfold kbind at 1. rewrite (proc_read_eq _ n (p_set_addrspace (Some na) q)) by (cbn; apply lookup_insert_eq).
  unfold kbind at 1, add_new_child. unfold kbind at 1.
  rewrite (proc_read_eq _ cur p) by (cbn; by rewrite lookup_insert_ne).
  unfold kbind at 1. rewrite kmalloc_nil by done. cbn [negb].
  unfold kbind at 1. rewrite (proc_update_eq _ cur p) by (cbn; by rewrite lookup_insert_ne).
  unfold kret at 1. cbn [Z.eqb].
  unfold kbind at 1. rewrite (proc_update_eq _ n (p_set_addrspace (Some na) q))
    by (cbn; rewrite lookup_insert_ne by done; apply lookup_insert_eq).
  unfold kbind at 1, proc_add. rewrite (proj2 (Z.leb_gt i 0)), (proj2 (Z.ltb_ge (PROC_MAX + 1) i)) by lia.
  rewrite bool_decide_eq_false_2 by done. cbn [orb]. unfold kbind at 1.
  rewrite ptable_write_eq by (done || lia). unfold kbind at 1, kmodify, kret at 1. cbn [Z.eqb].
  unfold kbind at 1, attempt.
  erewrite (thread_fork_run _ n) by (done || (cbn; apply lookup_insert_eq) ||
    (cbn; rewrite Hs1; cbn; destruct (t_proc s !! (n + 4)) eqn:E; [apply Hth in E; lia|done])).
  unfold kbind at 1. erewrite (proc_read_eq _ n) by (cbn; apply lookup_insert_eq). unfold kret.
  unfold runprogram_proc in Hq. subst q. cbn [p_pid p_set_numthreads p_set_parent p_set_addrspace].
  eexists _, na, _, (n + 4). split_and!; [done|exact Hna|exact Hfs|]. unfold forked.
  cbn [procs ptable last_pid t_proc curthread kproc nextaddr umem world set_procs set_world set_t_proc
    set_ofiles set_nextaddr set_last_pid set_ptable].
  rewrite Hnext1, Hs1. cbn [procs ptable last_pid t_proc curthread kproc nextaddr umem].
  split_and!; try done; [|by rewrite list_insert_insert_eq|lia].
  rewrite !insert_insert_eq. apply map_eq. intros x. destruct (decide (n = x)) as [<-|Hxn].
  - by rewrite !lookup_insert_eq.
  - rewrite !(lookup_insert_ne _ n x) by done. destruct (decide (cur = x)) as [<-|Hxc].
    + by rewrite !lookup_insert_eq.
    + by rewrite !(lookup_insert_ne _ cur x), (lookup_insert_ne _ n x) by done.
Qed.

(** C2. [fork] succeeds when memory lasts (the oracle is empty: no allocation of the
    call fails), the console opens, [as_copy] can copy the caller's address space
    and a pid [i] is free, and then returns [i] to the parent, the only process
    besides the new one that it changes. The new process sits in slot [i] with
    its parent's name and working directory, the address space that [as_copy] of
    the caller's returned, one thread, no children and the caller as its parent;
    the caller's list of children has [i] at the end; the process table invariant
    holds. Of the parent's open files the child has none: descriptors 0, 1 and 2
    are three new files, each the console as [vfs_open] opened it, for reading,
    writing and writing, at offset 0 with one reference; the other descriptors are
    free, and no open file that was there is changed. *)
Theorem sys_fork_spec g s i cur p asp :
  console_opens -> (forall w, exists na w', as_copy asp w = (inr na, w')) ->
  family_ok s -> oracle s = [] -> curproc s = Some cur -> registered s cur p ->
  p_name p <> "[kernel]"%string -> p_addrspace p = Some asp ->
  (forall t a, t_proc s !! t = Some a -> t < nextaddr s) ->
  find_valid_pid s = Done i s -> i <> -1 ->
  exists s' n np t, sys_fork_SHELL g s = Done i s' /\ slot s i = None /\
    at_pid s' i n np /\ p_name np = p_name p /\ p_cwd np = p_cwd p /\ p_numthreads np = 1 /\
    parent_pid np = p_pid p /\ children_list np = [] /\ t_proc s' !! t = Some n /\
    procs s' !! cur = Some (p_set_children (children_list p ++ [i]) p) /\
    (forall x, x <> n -> x <> cur -> procs s' !! x = procs s !! x) /\
    (exists na w, as_copy asp w = (inr na, world s') /\ p_addrspace np = Some na) /\
    (forall fd flag, (fd, flag) ∈ [(0, O_RDONLY); (1, O_WRONLY); (2, O_WRONLY)] ->
       nextaddr s < n + 1 + fd < nextaddr s' /\
       fileTable np !! Z.to_nat fd = Some (Some (Heap (n + 1 + fd))) /\
       exists f, ofiles s' !! Heap (n + 1 + fd) = Some f /\ console_file flag f) /\
    (forall x, (forall fd, 0 <= fd < 3 -> x <> Heap (n + 1 + fd)) -> ofiles s' !! x = ofiles s !! x) /\
    (forall fd, 3 <= fd < OPEN_MAX -> fileTable np !! Z.to_nat fd = Some None) /\ family_ok s'.
Proof.
  intros Hcon Hcopy Hf Hor Hcur Hreg Hname Has Hth Hfind Hi.
  pose proof (registered_procs _ _ _ Hreg) as Hp.
  destruct (fork_run g s i cur p asp) as (s' & na & w & t & Hrun & Hna & Hfs & Hforked); try done.
  pose proof (find_valid_pid_range s i (fo_table s Hf) Hfind Hi) as Hir.
  assert (Hfree : slot s i = None).
  { destruct (find_valid_pid_run s (fo_table s Hf)) as (r & Hr & [[-> _]|(_ & k & _ & _ & Hs & _)]); congruence. }
  pose proof (registered_not_fresh _ _ _ Hf Hreg) as Hne.
  pose proof Hforked as (Hprocs & Hpt & _ & Htp & _).
  eexists s', (nextaddr s), _, t. split_and!; [done|done| | | | | | | | | | | | | |].
  - split_and!; [lia..| |rewrite Hprocs; apply lookup_insert_eq].
    unfold slot. rewrite Hpt, list_lookup_insert_eq; [done|]. destruct (fo_table s Hf) as (-> & _). lia.
  - done. - done. - done. - done. - done.
  - rewrite Htp. apply lookup_insert_eq.
  - rewrite Hprocs. by rewrite lookup_insert_ne, lookup_insert_eq by congruence.
  - intros x Hxn Hxc. rewrite Hprocs. by rewrite !lookup_insert_ne by congruence.
  - by exists na, w.
  - intros fd flag Hfd. apply console_files_at; [done|apply Hforked|done].
  - intros x. by apply console_files_frame.
  - intros fd Hfd. cbn [fileTable]. replace (Z.to_nat fd) with (S (S (S (Z.to_nat (fd - 3))))) by lia.
    change (replicate (Z.to_nat OPEN_MAX - 3) (None : option ofptr) !! Z.to_nat (fd - 3) = Some None).
    apply lookup_replicate_2. lia.
  - by refine (forked_family s s' i cur p _ t Hf Hreg Hir Hfree _ _ _ Hforked).
Qed.

(** [waitpid] with a NULL status pointer returns the pid it was given at once,
    with no state change, whatever the pid and the options: it neither waits nor
    checks that there is such a process. *)
Theorem waitpid_null_status s a p pid options :
  curproc s = Some a -> procs s !! a = Some p -> pid <> p_pid p ->
  sys_waitpid_SHELL pid 0 options s = Done pid s.
Proof.
  intros Hc Hp Hne. unfold sys_waitpid_SHELL, waitpid_check, kbind, kget. rewrite Hc.
  rewrite (proc_read_eq _ _ _ Hp), (proj2 (Z.eqb_neq _ _) Hne). done.
Qed.

(** [waitpid] stores through the caller's status pointer itself, not with
    [copyout]: an aligned kernel address other than 0x80000000 is accepted, and
    with WNOHANG any parent can write zeros to kernel memory. *)
Theorem waitpid_writes_kernel s pa pp c status :
  curproc s = Some pa -> procs s !! pa = Some pp -> c ∈ children_list pp -> c <> p_pid pp ->
  USERSPACETOP < status < 2 ^ 32 -> good_status s status ->
  exists s', sys_waitpid_SHELL c status WNOHANG s = Done c s' /\
    bytes_at (umem s') status [0; 0; 0; 0].
Proof.
  intros Hc Hp Hin Hne Hk (H0 & H1 & H2 & H4 & Hm). unfold sys_waitpid_SHELL, waitpid_check.
  unfold kbind at 1, kbind at 1, kget. rewrite Hc. unfold kbind at 1. rewrite (proc_read_eq _ _ _ Hp).
  rewrite (proj2 (Z.eqb_neq _ _) Hne), (proj2 (Z.eqb_neq _ _) H0), (proj2 (Z.eqb_neq _ _) H1),
    (proj2 (Z.eqb_neq _ _) H2), H4. cbn [orb negb Z.eqb]. unfold kbind, is_child. unfold kbind.
  rewrite (proc_read_eq _ _ _ Hp). unfold kret.
  rewrite is_child_loop_in, bool_decide_eq_true_2 by done. cbn [Z.eqb].
  change (WNOHANG =? 0) with false. change (WNOHANG =? WNOHANG) with true. cbv beta iota.
  destruct (raw_store_eq s status 0 Hm) as (m & -> & Hb & _). eexists. split; [done|]. exact Hb.
Qed.

End spec.

(** ** Concrete states *)

(** Process 1 with child 2, each with one thread (5 and 6), an address space and
    mapped memory at 4096 and at 0x80001000. *)
Definition duo_p1 : proc :=
  mkproc "sh" 1 (Some 9) None 0 1 (-1) [2] (Some new_cv) (Some new_lock) (replicate (Z.to_nat OPEN_MAX) None).
Definition duo_p2 : proc :=
  mkproc "cat" 1 (Some 9) None 0 2 1 [] (Some new_cv) (Some new_lock) (replicate (Z.to_nat OPEN_MAX) None).

Definition duo_base : kstate unit :=
  enrolled (enrolled boot 1 (p_set_parent (-1) (p_set_children [] duo_p1))) 2 (p_set_parent (-1) duo_p2).

Definition duo : kstate unit :=
  set_curthread 6 (set_t_proc (fun _ => {[5 := 101; 6 := 102]})
    (set_umem (zero_page 4096 64 ∪ zero_page 2147487744 64)
      (adopted duo_base 2 102 (p_set_parent (-1) duo_p2) 101 (p_set_parent (-1) (p_set_children [] duo_p1))))).

Lemma duo_base_family : family_ok duo_base.
Proof.
  repeat (apply enrolled_family; try done). apply boot_family.
Qed.

Lemma duo_family : family_ok duo.
Proof.
  apply (family_ok_proper (adopted duo_base 2 102 (p_set_parent (-1) duo_p2) 101
    (p_set_parent (-1) (p_set_children [] duo_p1)))); [by split|].
  apply adopted_family; [apply duo_base_family| |done| |done].
  - split_and!; [lia|unfold PROC_MAX; lia|reflexivity|reflexivity].
  - left. exists 1. split_and!; [lia|unfold PROC_MAX; lia|reflexivity|reflexivity].
Qed.

Lemma duo_at1 : at_pid duo 1 101 duo_p1.
Proof. split_and!; [lia|unfold PROC_MAX; lia|reflexivity|vm_compute; reflexivity]. Qed.

Lemma duo_at2 : at_pid duo 2 102 duo_p2.
Proof. split_and!; [lia|unfold PROC_MAX; lia|reflexivity|vm_compute; reflexivity]. Qed.

(** A word of the mapped memory. *)
Lemma duo_mapped a : (4096 <= a <= 4156 \/ 2147487744 <= a <= 2147487804) -> mapped (umem duo) a 4.
Proof.
  intros Ha i Hi. unfold duo. cbn [umem set_curthread set_t_proc set_umem]. rewrite lookup_union_is_Some.
  destruct Ha; [left|right]; unfold zero_page; apply (list_to_map_is_Some _ _ 0); apply list_elem_of_fmap.
  - exists (Z.to_nat (i - 4096)). split; [f_equal; lia|]. apply elem_of_seq. lia.
  - exists (Z.to_nat (i - 2147487744)). split; [f_equal; lia|]. apply elem_of_seq. lia.
Qed.

Lemma exit_then_waitpid_witness :
  exists s1 s2, sys_exit_SHELL 7 duo = Done [] s1 /\
    sys_waitpid_SHELL 2 4096 0 (set_curthread 5 s1) = Done 2 s2 /\
    bytes_at (umem s2) 4096 (be32 (MKWAIT_EXIT 7)) /\
    only_changes (umem duo) (umem s2) 4096 4 /\
    slot s2 2 = None /\ procs s2 !! 102 = None /\ family_ok s2.
Proof.
  apply (exit_then_waitpid duo 2 102 duo_p2 7 5 101 duo_p1 4096);
    [apply duo_family|apply duo_at2|reflexivity|reflexivity|reflexivity|reflexivity|discriminate
    |reflexivity|left; exists 1; apply duo_at1|by left|].
  split_and!; [discriminate|discriminate|discriminate|reflexivity|apply duo_mapped; lia].
Defined.

Lemma waitpid_null_status_witness : sys_waitpid_SHELL 77 0 0 duo = Done 77 duo.
Proof.
  apply (waitpid_null_status duo 102 duo_p2 77 0); [reflexivity|vm_compute; reflexivity|discriminate].
Defined.

Lemma waitpid_writes_kernel_witness :
  exists s', sys_waitpid_SHELL 2 2147487744 WNOHANG (set_curthread 5 duo) = Done 2 s' /\
    bytes_at (umem s') 2147487744 [0; 0; 0; 0].
Proof.
  apply (waitpid_writes_kernel (set_curthread 5 duo) 101 duo_p1 2 2147487744);
    [reflexivity|vm_compute; reflexivity|by left|discriminate|unfold USERSPACETOP; lia|].
  split_and!; [discriminate|discriminate|discriminate|reflexivity|apply duo_mapped; lia].
Defined.

Lemma sys_fork_spec_witness :
  exists s' n np t, sys_fork_SHELL zero_proc duo = Done 3 s' /\ slot duo 3 = None /\
    at_pid s' 3 n np /\ p_name np = p_name duo_p2 /\ p_cwd np = p_cwd duo_p2 /\ p_numthreads np = 1 /\
    parent_pid np = p_pid duo_p2 /\ children_list np = [] /\ t_proc s' !! t = Some n /\
    procs s' !! 102 = Some (p_set_children (children_list duo_p2 ++ [3]) duo_p2) /\
    (forall x, x <> n -> x <> 102 -> procs s' !! x = procs duo !! x) /\
    (exists na w, as_copy 9 w = (inr na, world s') /\ p_addrspace np = Some na) /\
    (forall fd flag, (fd, flag) ∈ [(0, O_RDONLY); (1, O_WRONLY); (2, O_WRONLY)] ->
       nextaddr duo < n + 1 + fd < nextaddr s' /\
       fileTable np !! Z.to_nat fd = Some (Some (Heap (n + 1 + fd))) /\
       exists f, ofiles s' !! Heap (n + 1 + fd) = Some f /\ console_file flag f) /\
    (forall x, (forall fd, 0 <= fd < 3 -> x <> Heap (n + 1 + fd)) -> ofiles s' !! x = ofiles duo !! x) /\
    (forall fd, 3 <= fd < OPEN_MAX -> fileTable np !! Z.to_nat fd = Some None) /\ family_ok s'.
Proof.
  apply (sys_fork_spec zero_proc duo 3 102 duo_p2 9);
    [intros flag w; exists 1, w; reflexivity|intros w; exists 9, w; reflexivity|apply duo_family
    |reflexivity|reflexivity|left; exists 2; apply duo_at2|discriminate|reflexivity| |reflexivity|discriminate].
  intros t a. unfold duo. cbn [t_proc set_curthread set_t_proc set_umem].
  rewrite lookup_insert_Some, lookup_singleton_Some. cbn. intros [[<- _]|[_ [<- _]]]; lia.
Defined.

(** Two forks at once. Thread 6 (process 2) finds pid [i] free; before it goes on,
    thread 5 (process 1) forks. Then thread 6 goes on with [i]. *)
Definition fork_race : K (kstate unit) (Z * Z) :=
  i <- find_valid_pid ;;
  kmodify (set_curthread 5) ;;;
  c1 <- sys_fork_SHELL zero_proc ;;
  kmodify (set_curthread 6) ;;;
  c2 <- fork_body zero_proc i ;;
  kret (c1, c2).

(** Two concurrent forks corrupt the process table. Both return, with pids 3
    and 4, but slot 3 now holds the process with pid 4: [proc_add] stores the
    second child at the index found before the first fork. The process with pid 3
    is in no slot any more. *)
Theorem fork_race_corrupts :
  exists s', fork_race duo = Done (3, 4) s' /\
    p_pid <$> (slot s' 3 ≫= fun a => procs s' !! a) = Some 4 /\
    slot s' 3 = slot s' 4 /\ ~ family_ok s'.
Proof.
  assert (Hrun : exists s', fork_race duo = Done (3, 4) s' /\
    p_pid <$> (slot s' 3 ≫= fun a => procs s' !! a) = Some 4 /\ slot s' 3 = slot s' 4).
  { destruct (fork_race duo) as [r s'| |] eqn:E; [|exfalso; vm_compute in E; done..].
    assert (C : match fork_race duo with
      | Done r s => (r, p_pid <$> (slot s 3 ≫= fun a => procs s !! a), slot s 3, slot s 4)
      | _ => (0, 0, None, None, None) end = (3, 4, Some 4, Some 108, Some 108)) by (vm_compute; reflexivity).
    rewrite E in C. exists s'. injection C as -> H1 H2 H3.
    split; [reflexivity|split; [exact H1|congruence]]. }
  destruct Hrun as (s' & Hr & Hp & Hs). exists s'. split; [exact Hr|split; [exact Hp|split; [exact Hs|]]]. intros Hf.
  destruct (slot s' 3) as [a|] eqn:E3; [|done].
  destruct (fo_live s' Hf 3 a ltac:(unfold PROC_MAX; lia) E3) as (p & Hlp & Hpid).
  cbn in Hp. rewrite Hlp in Hp. cbn in Hp. congruence.
Qed.
