(* ===== verification/WaitExit.v ===== *)
(** * waitpid and exit, interleaved

    A parent's thread [tp] in [waitpid(c, status, 0)] and the only thread [tc] of
    its child [c] in [exit(code)], on two processors. The points between which
    the other thread can run are the ones where no lock is held: before and after
    the test of [p_numthreads] in kern/syscall/syscall_PROC.c, the sleep in
    [cv_wait], and between [proc_remthread] and [lock_acquire] in [exit]. The
    steps are the definitions of [ProcSyscalls] that those stretches of code
    translate to. *)

From stdpp Require Import base numbers list gmap strings relations.
From Stdlib Require Import ZArith Lia.
From S2P Require Import Prelude.
From S2P Require Import UserCopy.
From S2P Require Import KState.
From S2P Require Import ProcTable.
From S2P Require Import ProcSyscalls.

Open Scope Z_scope.
Open Scope k_scope.

(** Where the waiting thread is. *)
Inductive wpc :=
| WStart                (* about to call waitpid *)
| WSawRunning (ca : Z)  (* found p_numthreads nonzero *)
| WAsleep (ca : Z)      (* on the channel of p_cv *)
| WWoken (ca : Z)       (* woken, not yet running *)
| WReturned (r : Z).    (* back from waitpid *)

(** Where the exiting thread is. *)
Inductive epc :=
| EStart                (* about to call exit *)
| EDetached (a : Z)     (* proc_remthread done *)
| EGone                 (* signalled and dead *)
| ECrashed (h : halt).  (* the kernel stopped in this thread *)

Section steps.
Context {W : Type} {HV : Vfs W}.
Variables tp tc c status code : Z.

(** A configuration of the two threads. *)
Record conf := mkconf { ks : kstate W; wp : wpc; ep : epc }.

(** A signalled waiter becomes runnable. *)
Definition wake (woken : list Z) (w : wpc) : wpc :=
  match w with
  | WAsleep ca => if bool_decide (tp ∈ woken) then WWoken ca else w
  | _ => w
  end.

(** kern/syscall/syscall_PROC.c:69-165 (sys_waitpid_SHELL): the steps of the two
    calls. *)
Inductive step : conf -> conf -> Prop :=
| step_sees_running s s' ca p e :
    waitpid_check c status 0 (set_curthread tp s) = Done (inr ca) s' ->
    procs s' !! ca = Some p -> p_numthreads p <> 0 ->
    step (mkconf s WStart e) (mkconf s' (WSawRunning ca) e)
| step_reap s s' s'' ca p r e :
    waitpid_check c status 0 (set_curthread tp s) = Done (inr ca) s' ->
    procs s' !! ca = Some p -> p_numthreads p = 0 ->
    waitpid_finish ca status s' = Done r s'' ->
    step (mkconf s WStart e) (mkconf s'' (WReturned r) e)
| step_sleep s s' ca e :
    waitpid_sleep ca (set_curthread tp s) = Done tt s' ->
    step (mkconf s (WSawRunning ca) e) (mkconf s' (WAsleep ca) e)
| step_resume s s' ca r e :
    waitpid_resume ca status (set_curthread tp s) = Done r s' ->
    step (mkconf s (WWoken ca) e) (mkconf s' (WReturned r) e)
| step_detach s s' w a :
    exit_detach code (set_curthread tc s) = Done a s' ->
    step (mkconf s w EStart) (mkconf s' w (EDetached a))
| step_signal s s' w a woken :
    exit_signal a (set_curthread tc s) = Done woken s' ->
    step (mkconf s w (EDetached a)) (mkconf s' (wake woken w) EGone)
| step_crash s w a h :
    exit_signal a (set_curthread tc s) = Halt h ->
    step (mkconf s w (EDetached a)) (mkconf s w (ECrashed h)).

Implicit Types s : kstate W.

(** Parent and child before either call: the child has one thread and nobody
    waits for it. *)
Record pair_ok s (pa : Z) (pp : proc) (ca : Z) (cp : proc) : Prop := {
  po_family : family_ok s;
  po_parent : registered s pa pp;
  po_child : at_pid s c ca cp;
  po_kin : c ∈ children_list pp;
  po_tp : t_proc s !! tp = Some pa;
  po_tc : t_proc s !! tc = Some ca;
  po_threads : p_numthreads cp = 1;
  po_cv : p_cv cp = Some new_cv;
  po_lock : p_locklock cp = Some new_lock;
  po_status : good_status s status;
  po_distinct : tp <> tc
}.

(** Changing the thread on the processor, or the child's fields that are not
    kinship, keeps the family. *)
Lemma kin_le_curthread s t : kin_le s (set_curthread t s).
Proof. by split. Qed.

Lemma check_child s pa pp ca cp :
  family_ok s -> registered s pa pp -> at_pid s c ca cp -> c ∈ children_list pp ->
  t_proc s !! tp = Some pa -> good_status s status ->
  waitpid_check c status 0 (set_curthread tp s) = Done (inr ca) (set_curthread tp s).
Proof.
  intros Hf Hreg Hat Hin Htp Hst.
  apply (waitpid_check_child (set_curthread tp s) pa pp c ca cp); try done. by rewrite <- kin_le_curthread.
Qed.

(** [s'] is [s] with [*ca] replaced by [cp]; the threads' links and the thread on
    the processor may differ. *)
Record only_child s s' (ca : Z) (cp : proc) : Prop := {
  oc_procs : procs s' = <[ca := cp]> (procs s);
  oc_ptable : ptable s' = ptable s;
  oc_last : last_pid s' = last_pid s;
  oc_kproc : kproc s' = kproc s;
  oc_next : nextaddr s' = nextaddr s;
  oc_umem : umem s' = umem s
}.

Lemma only_child_trans s s1 s2 ca x y :
  only_child s s1 ca x -> only_child s1 s2 ca y -> only_child s s2 ca y.
Proof. intros [] []. split; try congruence. rewrite oc_procs1, oc_procs0. by rewrite insert_insert_eq. Qed.

(** The child's [struct proc] with the waiter on its channel. *)
Definition waited (cp : proc) : proc := p_set_cv (Some (mkcv [tp])) cp.

(** The child's [struct proc] once it has exited. *)
Definition dead (cp : proc) : proc := p_set_numthreads 0 (p_set_status (MKWAIT_EXIT code) cp).

Lemma sleep_run s ca cp :
  procs s !! ca = Some cp -> p_cv cp = Some new_cv -> p_locklock cp = Some new_lock ->
  exists s', waitpid_sleep ca (set_curthread tp s) = Done tt s' /\
    only_child s s' ca (waited cp) /\ t_proc s' = t_proc s.
Proof.
  intros Hp Hcv Hl. exists (set_procs (fun m => <[ca := waited cp]> m) (set_curthread tp s)). split; [|by split].
  unfold waitpid_sleep, kbind. rewrite (proc_read_eq (set_curthread tp s) ca cp) by done.
  rewrite Hl, Hcv. unfold lock_acquire, kbind, kget. cbn [lk_owner new_lock].
  rewrite bool_decide_eq_false_2 by done. cbn [negb kassert]. unfold kret. cbn [lk_wchan].
  rewrite (proc_update_eq (set_curthread tp s) ca cp) by done.
  unfold lock_release, kbind, kget. cbn [lk_owner curthread set_procs set_curthread].
  rewrite bool_decide_eq_true_2 by done. cbn [kassert]. unfold kret.
  erewrite proc_update_eq by apply lookup_set_procs. rewrite set_procs_insert. f_equal.
  unfold set_procs. do 2 f_equal. destruct cp. cbn in *. by subst.
Qed.

Lemma detach_run s ca cp :
  procs s !! ca = Some cp -> t_proc s !! tc = Some ca -> p_numthreads cp = 1 ->
  exists s', exit_detach code (set_curthread tc s) = Done ca s' /\
    only_child s s' ca (dead cp) /\ t_proc s' = delete tc (t_proc s).
Proof.
  intros Hp Htc Hth. exists (set_t_proc (fun m => delete tc m)
    (set_procs (fun m => <[ca := dead cp]> m) (set_curthread tc s))). split; [|by split].
  unfold exit_detach, kbind. rewrite (get_curproc_eq _ ca) by done.
  rewrite (proc_update_eq (set_curthread tc s) ca cp) by done. unfold kget. cbn [curthread set_procs set_curthread].
  unfold proc_remthread, kbind, kget. cbn [t_proc set_procs set_curthread]. rewrite Htc.
  rewrite (proc_read_eq _ ca _ (lookup_set_procs _ _ _)). cbn [p_numthreads p_set_status]. rewrite Hth.
  cbn [Z.ltb Z.compare kassert]. unfold kret.
  by rewrite (proc_update_eq _ ca _ _ (lookup_set_procs _ _ _)), set_procs_insert.
Qed.

(** The child with the waiters [q] on its channel. *)
Lemma signal_run s ca cp q :
  procs s !! ca = Some cp -> p_cv cp = Some (mkcv q) -> p_locklock cp = Some new_lock ->
  exists s', exit_signal ca (set_curthread tc s) = Done (take 1 q) s' /\
    only_child s s' ca (p_set_cv (Some (mkcv (tail q))) cp) /\ t_proc s' = t_proc s.
Proof.
  intros Hp Hcv Hl.
  exists (set_procs (fun m => <[ca := p_set_cv (Some (mkcv (tail q))) cp]> m) (set_curthread tc s)).
  split; [|by split]. unfold exit_signal, kbind.
  rewrite (proc_read_eq (set_curthread tc s) ca cp) by done. rewrite Hcv, Hl.
  unfold lock_acquire, lock_release, kbind, kget. cbn [lk_owner new_lock].
  rewrite bool_decide_eq_false_2 by done. cbn [negb kassert]. unfold kret. cbn [lk_owner].
  rewrite bool_decide_eq_true_2 by done. cbn [kassert]. unfold kret.
  rewrite (proc_update_eq _ ca cp) by done. cbn [cv_wchan]. do 2 f_equal.
  unfold set_procs. do 2 f_equal. destruct cp. cbn in *. by subst.
Qed.

Lemma resume_run s ca cp :
  family_ok s -> at_pid s c ca cp -> p_numthreads cp = 0 -> p_cv cp = Some (mkcv []) ->
  p_locklock cp = Some new_lock -> mapped (umem s) status 4 ->
  exists s', waitpid_resume ca status (set_curthread tp s) = Done c s' /\
    bytes_at (umem s') status (be32 (p_status cp)) /\ only_changes (umem s) (umem s') status 4 /\
    slot s' c = None /\ procs s' !! ca = None /\ family_ok s'.
Proof.
  intros Hf Hat Hth Hcv Hl Hm. pose proof Hat as (Hc & Hs & Hp). set (s0 := set_curthread tp s).
  destruct (raw_store_eq s0 status (p_status cp) Hm) as (m & Hst & Hb & Hch).
  assert (Hfm : family_ok (set_umem m s0)) by (apply (family_ok_proper s); [by split|done]).
  destruct (proc_destroy_run (set_umem m s0) c ca cp Hfm Hat) as (s' & Hrun & Hd).
  { split_and!; [done|eauto|eauto]. }
  exists s'. pose proof Hd as (E & Hgone & _). split_and!.
  - unfold waitpid_resume, kbind. rewrite (proc_read_eq s0 ca cp) by done. rewrite Hl.
    unfold lock_acquire, lock_release, kbind, kget. cbn [lk_owner new_lock].
    rewrite bool_decide_eq_false_2 by done. cbn [negb kassert]. unfold kret. cbn [lk_owner].
    rewrite bool_decide_eq_true_2 by done. cbn [kassert]. unfold kret.
    rewrite (proc_update_eq s0 ca cp) by done.
    assert (E0 : set_procs (fun m0 => <[ca := p_set_locklock (Some (mklock None (tail (lk_wchan new_lock)))) cp]> m0) s0 = s0).
    { replace (p_set_locklock _ cp) with cp by (destruct cp; cbn in *; by subst).
      apply kstate_ext; try done. cbn [procs set_procs]. by rewrite insert_id. }
    cbn [lk_wchan]. rewrite E0. unfold waitpid_finish, kbind.
    rewrite (proc_read_eq s0 ca cp) by done. rewrite Hst, Hrun.
    unfold kret. by rewrite (at_pid_self _ _ _ _ Hf Hat).
  - by rewrite E.
  - by rewrite E.
  - rewrite (destroyed_slot (set_umem m s0) c ca cp s') by done. by rewrite decide_True.
  - done.
  - by apply (destroyed_family (set_umem m s0) c ca cp s').
Qed.

Lemma child_ne_parent s pa pp ca cp :
  family_ok s -> registered s pa pp -> at_pid s c ca cp -> c ∈ children_list pp -> pa <> ca.
Proof.
  intros Hf Hreg Hat Hin ->. destruct (fo_child s Hf ca pp c Hreg Hin) as (Hne & _).
  pose proof (registered_procs _ _ _ Hreg). destruct Hat as (Hi & Hs & Hcp). apply Hne. symmetry.
  assert (pp = cp) as -> by congruence. by apply (at_pid_self s c ca cp).
Qed.

(** What [only_child] keeps when the child's kinship fields stay. *)
Lemma only_child_family s s' ca cp cp' :
  family_ok s -> at_pid s c ca cp -> kin cp' = kin cp -> only_child s s' ca cp' ->
  family_ok s' /\ at_pid s' c ca cp' /\
  (forall pa pp, pa <> ca -> registered s pa pp -> registered s' pa pp).
Proof.
  intros Hf (Hi & Hs & Hcp) Hkin [Hp Hpt Hl Hk Hn _]. split_and!.
  - apply (family_ok_proper s); [|done]. split; try done; [lia|]. intros x. rewrite Hp.
    destruct (decide (ca = x)) as [<-|Hx]; [rewrite lookup_insert_eq, Hcp; cbn; by rewrite Hkin|].
    by rewrite lookup_insert_ne.
  - split_and!; try lia; [unfold slot in *; by rewrite Hpt|by rewrite Hp, lookup_insert_eq].
  - intros pa pp Hne [[i (? & ? & ?)]|[? ?]]; [left; exists i|right].
    + split_and!; try done; try lia; [unfold slot in *; by rewrite Hpt|by rewrite Hp, lookup_insert_ne].
    + by rewrite Hk, Hp, lookup_insert_ne.
Qed.

(** ** Theorems *)

(** From the moment the parent is asleep: what the exit does to it. [s'] is the
    only state in which a run can end. *)
Definition woken_run (s s1 : kstate W) (ca : Z) (s' : kstate W) : Prop :=
  sn step (mkconf s1 (WAsleep ca) EStart) /\
  (forall x, rtc step (mkconf s1 (WAsleep ca) EStart) x -> nf step x -> x = mkconf s' (WReturned c) EGone) /\
  bytes_at (umem s') status (be32 (MKWAIT_EXIT code)) /\ only_changes (umem s) (umem s') status 4 /\
  slot s' c = None /\ procs s' !! ca = None /\ family_ok s'.

(** A configuration with one successor. *)
Lemma only_step x y :
  (forall z, step x z -> z = y) -> sn step y ->
  sn step x /\ (step x y -> forall z, rtc step x z -> nf step z -> rtc step y z).
Proof.
  intros Hdet Hsn. split.
  - constructor. intros z Hz. by rewrite (Hdet z Hz).
  - intros Hxy z Hz Hnf. inversion Hz as [? E|? w ? Hw Hr]; subst; [destruct Hnf; by exists y|].
    by rewrite <- (Hdet w Hw).
Qed.

Lemma asleep_run s s1 ca cp :
  family_ok s -> at_pid s c ca cp -> t_proc s !! tc = Some ca -> p_numthreads cp = 1 ->
  p_locklock cp = Some new_lock -> only_child s s1 ca (waited cp) -> t_proc s1 = t_proc s ->
  mapped (umem s) status 4 -> exists s', woken_run s s1 ca s'.
Proof.
  intros Hf Hat Htc Hth Hl Ho1 Ht1 Hm. pose proof Hat as (Hcr & Hs & Hcp).
  assert (H1 : procs s1 !! ca = Some (waited cp)) by (rewrite (oc_procs _ _ _ _ Ho1); apply lookup_insert_eq).
  destruct (detach_run s1 ca (waited cp) H1) as (s2 & Hdet & Ho2 & Ht2); [by rewrite Ht1|done|].
  assert (H2 : procs s2 !! ca = Some (dead (waited cp))) by (rewrite (oc_procs _ _ _ _ Ho2); apply lookup_insert_eq).
  destruct (signal_run s2 ca _ [tp] H2 eq_refl Hl) as (s3 & Hsig & Ho3 & Ht3).
  pose proof (only_child_trans _ _ _ _ _ _ (only_child_trans _ _ _ _ _ _ Ho1 Ho2) Ho3) as Ho.
  destruct (only_child_family s s3 ca cp (p_set_cv (Some (mkcv [])) (dead (waited cp))) Hf Hat eq_refl Ho)
    as (Hf3 & Hat3 & _).
  assert (Hm3 : mapped (umem s3) status 4) by (by rewrite (oc_umem _ _ _ _ Ho)).
  destruct (resume_run s3 ca _ Hf3 Hat3 eq_refl eq_refl Hl Hm3) as (s' & Hres & Hb & Hch & Hrest).
  exists s'. unfold woken_run. rewrite (oc_umem _ _ _ _ Ho) in Hch.
  set (x1 := mkconf s1 (WAsleep ca) EStart). set (x2 := mkconf s2 (WAsleep ca) (EDetached ca)).
  set (x3 := mkconf s3 (WWoken ca) EGone). set (x4 := mkconf s' (WReturned c) EGone).
  assert (Hnf : nf step x4) by (intros [z Hz]; inversion Hz).
  destruct (only_step x3 x4) as [Hn3 Hr3]; [|by apply nf_sn|].
  { intros z Hz. inversion Hz; subst. rewrite Hres in *. by simplify_eq. }
  assert (H23 : step x2 x3).
  { pose proof (step_signal s2 s3 (WAsleep ca) ca [tp] Hsig) as H. cbn [wake take] in H.
    by rewrite bool_decide_eq_true_2 in H by by left. }
  destruct (only_step x2 x3) as [Hn2 Hr2]; [|done|].
  { intros z Hz. inversion Hz; subst; rewrite Hsig in *; [|done]. simplify_eq. cbn [wake take].
    by rewrite bool_decide_eq_true_2 by by left. }
  destruct (only_step x1 x2) as [Hn1 Hr1]; [|done|].
  { intros z Hz. inversion Hz; subst. rewrite Hdet in *. by simplify_eq. }
  split_and!; try done; try apply Hrest. intros x Hx Hx'.
  apply Hr1 in Hx; [|by apply step_detach|done]. apply Hr2 in Hx; [|by apply H23|done].
  apply Hr3 in Hx; [|by apply step_resume|done]. inversion Hx as [? E|? w ? Hw Hr]; subst; [done|inversion Hw].
Qed.

(** The exiting thread never goes back to its start, so a run that ends before
    [exit] begins is the parent's alone. *)
Lemma asleep_unique s pa pp ca cp s1 s2 ca' :
  pair_ok s pa pp ca cp -> waitpid_sleep ca (set_curthread tp (set_curthread tp s)) = Done tt s1 ->
  rtc step (mkconf s WStart EStart) (mkconf s2 (WAsleep ca') EStart) -> s2 = s1 /\ ca' = ca.
Proof.
  intros [Hf Hreg Hat Hin Htp Htc Hth Hcv Hl Hst Hd] Hsleep Hrun. pose proof Hat as (Hcr & Hs & Hcp).
  pose proof (check_child s pa pp ca cp Hf Hreg Hat Hin Htp Hst) as Hchk.
  assert (Hinv : forall x, rtc step (mkconf s WStart EStart) x -> ep x = EStart ->
    x = mkconf s WStart EStart \/ x = mkconf (set_curthread tp s) (WSawRunning ca) EStart \/
    x = mkconf s1 (WAsleep ca) EStart).
  { apply (rtc_ind_r (fun x => ep x = EStart -> _)); [by left|].
    intros y z _ Hyz IH Hz. assert (Hy : ep y = EStart) by (by inversion Hyz; subst).
    destruct (IH Hy) as [->|[->| ->]]; inversion Hyz; subst; try done.
    - rewrite Hchk in *. right; left. by simplify_eq.
    - rewrite Hchk in *. simplify_eq. cbn in *. simplify_eq. lia.
    - rewrite Hsleep in *. right; right. by simplify_eq. }
  destruct (Hinv _ Hrun eq_refl) as [?|[?|?]]; by simplify_eq.
Qed.

(** C3. A parent that is asleep in [waitpid] before its child starts to exit is
    woken by the exit. The parent can get there, in one way only; and from there,
    whatever the order of the steps, every run of the two threads ends, always
    with the child gone and the parent back from [waitpid]: the pid returned is
    the child's, the encoded exit code is at the status pointer and no other
    memory has changed, the child's pid and memory are released and the process
    table invariant holds. *)
Theorem waitpid_then_exit s pa pp ca cp :
  pair_ok s pa pp ca cp ->
  exists s1 s', rtc step (mkconf s WStart EStart) (mkconf s1 (WAsleep ca) EStart) /\
    (forall s2 ca', rtc step (mkconf s WStart EStart) (mkconf s2 (WAsleep ca') EStart) -> s2 = s1 /\ ca' = ca) /\
    woken_run s s1 ca s'.
Proof.
  intros Hok. pose proof Hok as [Hf Hreg Hat Hin Htp Htc Hth Hcv Hl Hst Hd]. pose proof Hat as (Hcr & Hs & Hcp).
  pose proof (check_child s pa pp ca cp Hf Hreg Hat Hin Htp Hst) as Hchk.
  destruct (sleep_run (set_curthread tp s) ca cp Hcp Hcv Hl) as (s1 & Hsleep & Ho1 & Ht1).
  destruct (asleep_run (set_curthread tp s) s1 ca cp) as (s' & Hwoken);
    [by rewrite <- kin_le_curthread|done..|apply Hst|].
  exists s1, s'. split_and!; [|by intros; apply (asleep_unique s pa pp ca cp)|exact Hwoken].
  eapply rtc_l; [eapply step_sees_running; [exact Hchk|exact Hcp|lia]|].
  eapply rtc_l; [eapply step_sleep; exact Hsleep|]. done.
Qed.

(** C40. Lost wakeup: if the child exits between the parent's test of
    [p_numthreads] and its [cv_wait], the signal finds nobody. The child is gone,
    the parent is asleep and no step is possible any more: [waitpid] never
    returns. *)
Theorem waitpid_lost_wakeup s pa pp ca cp :
  pair_ok s pa pp ca cp ->
  exists s', rtc step (mkconf s WStart EStart) (mkconf s' (WAsleep ca) EGone) /\
    forall st, ~ step (mkconf s' (WAsleep ca) EGone) st.
Proof.
  intros [Hf Hreg Hat Hin Htp Htc Hth Hcv Hl Hst Hd]. pose proof Hat as (Hcr & Hs & Hcp).
  pose proof (check_child s pa pp ca cp Hf Hreg Hat Hin Htp Hst) as Hchk.
  destruct (detach_run (set_curthread tp s) ca cp Hcp Htc Hth) as (s1 & Hdet & Ho1 & Ht1).
  assert (H1 : procs s1 !! ca = Some (dead cp)) by (rewrite (oc_procs _ _ _ _ Ho1); apply lookup_insert_eq).
  destruct (signal_run s1 ca (dead cp) [] H1 Hcv Hl) as (s2 & Hsig & Ho2 & Ht2).
  assert (H2 : procs s2 !! ca = Some (p_set_cv (Some (mkcv [])) (dead cp)))
    by (rewrite (oc_procs _ _ _ _ Ho2); apply lookup_insert_eq).
  destruct (sleep_run s2 ca _ H2 eq_refl Hl) as (s3 & Hsleep & _).
  exists s3. split; [|intros st Hstep; inversion Hstep].
  eapply rtc_l; [eapply step_sees_running; [exact Hchk|exact Hcp|lia]|].
  eapply rtc_l; [eapply step_detach; exact Hdet|]. eapply rtc_l; [eapply step_signal; exact Hsig|].
  apply rtc_once. by apply step_sleep.
Qed.

(** Use after free: if the parent calls [waitpid] after the child's
    [proc_remthread] but before it has signalled, it sees no threads and destroys
    the child; the exiting thread then follows its pointer into freed memory. *)
Theorem waitpid_use_after_free s pa pp ca cp :
  pair_ok s pa pp ca cp ->
  exists s', rtc step (mkconf s WStart EStart) (mkconf s' (WReturned c) (ECrashed UseAfterFree)).
Proof.
  intros [Hf Hreg Hat Hin Htp Htc Hth Hcv Hl Hst Hd]. pose proof Hat as (Hcr & Hs & Hcp).
  pose proof (child_ne_parent _ _ _ _ _ Hf Hreg Hat Hin) as Hne.
  destruct (detach_run s ca cp Hcp Htc Hth) as (s1 & Hdet & Ho1 & Ht1).
  destruct (only_child_family s s1 ca cp (dead cp) Hf Hat eq_refl Ho1) as (Hf1 & Hat1 & Hreg1).
  assert (Htp1 : t_proc s1 !! tp = Some pa) by (rewrite Ht1, lookup_delete_ne by done; done).
  assert (Hst1 : good_status s1 status).
  { destruct Hst as (? & ? & ? & ? & Hm). split_and!; try done. by rewrite (oc_umem _ _ _ _ Ho1). }
  pose proof (check_child s1 pa pp ca (dead cp) Hf1 (Hreg1 _ _ Hne Hreg) Hat1 Hin Htp1 Hst1) as Hchk.
  set (s0 := set_curthread tp s1) in *.
  destruct (raw_store_eq s0 status (p_status (dead cp))) as (m & Hraw & _); [apply Hst1|].
  assert (Hfm : family_ok (set_umem m s0)) by (apply (family_ok_proper s1); [by split|done]).
  destruct (proc_destroy_run (set_umem m s0) c ca (dead cp) Hfm Hat1) as (s2 & Hrun & Hd2).
  { split_and!; [done|exists new_cv; done|exists new_lock; done]. }
  exists s2. eapply rtc_l; [eapply step_detach; exact Hdet|].
  eapply rtc_l; [eapply (step_reap s1 s0 s2 ca (dead cp) c); [exact Hchk|apply Hat1|done|]|].
  - unfold waitpid_finish, kbind. rewrite (proc_read_eq s0 ca (dead cp)) by apply Hat1.
    rewrite Hraw, Hrun. unfold kret. by rewrite (at_pid_self _ _ _ _ Hf1 Hat1).
  - apply rtc_once, step_crash. destruct Hd2 as (_ & Hgone & _). unfold exit_signal, kbind, proc_read.
    unfold kbind, kget. cbn [procs set_curthread]. by rewrite Hgone.
Qed.

End steps.

(** ** Witnesses *)

Lemma duo_pair : pair_ok 5 6 2 4096 duo 101 duo_p1 102 duo_p2.
Proof.
  split; [apply duo_family|left; exists 1; apply duo_at1|apply duo_at2|by left|reflexivity|reflexivity
    |reflexivity|reflexivity|reflexivity| |discriminate].
  split_and!; [discriminate|discriminate|discriminate|reflexivity|apply duo_mapped; lia].
Qed.

Lemma waitpid_then_exit_witness :
  exists s1 s', rtc (step 5 6 2 4096 7) (mkconf duo WStart EStart) (mkconf s1 (WAsleep 102) EStart) /\
    (forall s2 ca', rtc (step 5 6 2 4096 7) (mkconf duo WStart EStart) (mkconf s2 (WAsleep ca') EStart) ->
       s2 = s1 /\ ca' = 102) /\
    woken_run 5 6 2 4096 7 duo s1 102 s'.
Proof. apply (waitpid_then_exit 5 6 2 4096 7 duo 101 duo_p1 102 duo_p2). apply duo_pair. Defined.

Lemma waitpid_lost_wakeup_witness :
  exists s', rtc (step 5 6 2 4096 7) (mkconf duo WStart EStart) (mkconf s' (WAsleep 102) EGone) /\
    forall st, ~ step 5 6 2 4096 7 (mkconf s' (WAsleep 102) EGone) st.
Proof. apply (waitpid_lost_wakeup 5 6 2 4096 7 duo 101 duo_p1 102 duo_p2). apply duo_pair. Defined.

Lemma waitpid_use_after_free_witness :
  exists s', rtc (step 5 6 2 4096 7) (mkconf duo WStart EStart) (mkconf s' (WReturned 2) (ECrashed UseAfterFree)).
Proof. apply (waitpid_use_after_free 5 6 2 4096 7 duo 101 duo_p1 102 duo_p2). apply duo_pair. Defined.
