(* ===== verification/Exec.v ===== *)
(** * execv, kern/syscall/exec.c and [sys_execv_SHELL]

    The argument buffer that carries argv from the old program's memory to the
    new one's, [loadexec], [runprogram] and the system call. [ab_data] holds the
    first [len] bytes of the buffer, the only ones that are ever read. *)

From stdpp Require Import base numbers list gmap strings.
From Stdlib Require Import ZArith Lia.
From S2P Require Import Prelude.
From S2P Require Import UserCopy.
From S2P Require Import KState.
From S2P Require Import ProcTable.
From S2P Require Import FileSyscalls.
From S2P Require Import ProcSyscalls.

Open Scope Z_scope.
Open Scope k_scope.

Definition PAGE_SIZE : Z := 4096.
Definition ARG_MAX : Z := 65536.

(** kern/include/exec.h:39-47 (argbuf_t). *)
Record argbuf := mkab {
  ab_data : option (list Z);
  ab_len : Z;
  ab_max : Z;
  ab_nargs : Z;
  ab_tooksem : bool
}.

(** kern/syscall/exec.c:53-62 (argbuf_init). *)
Definition argbuf_init : argbuf := mkab None 0 0 0 false.

(** The word whose big-endian bytes are given. *)
Definition of_be32 (l : list Z) : Z := foldl (fun acc b => acc * 256 + b) 0 l.

(** kern/syscall/exec.c:80-108 (argbuf_copyin): the loop over argv; [None] when
    the fuel runs out. *)
Fixpoint argbuf_copyin_loop (fuel : nat) (m : mem) (buf : argbuf) (uargv : Z) : option (Z * argbuf) :=
  match fuel with
  | O => None
  | S fuel' =>
      match copyin m uargv 4 with
      | inl e => Some (e, buf)
      | inr bytes =>
          let thisarg := of_be32 bytes in
          if thisarg =? 0 then Some (0, buf) else
          match copyinstr m thisarg (ab_max buf - ab_len buf) with
          | (inl e, _) => Some (if e =? ENAMETOOLONG then E2BIG else e, buf)
          | (inr thisarglen, str) =>
              argbuf_copyin_loop fuel' m
                (mkab (Some (default [] (ab_data buf) ++ str)) (ab_len buf + thisarglen) (ab_max buf)
                      (ab_nargs buf + 1) (ab_tooksem buf))
                (u32 (uargv + 4))
          end
      end
  end.

(** kern/syscall/exec.c:73-111 (argbuf_copyin): every string takes at least one
    byte, so [max + 1] rounds are enough. *)
Definition argbuf_copyin (m : mem) (buf : argbuf) (uargv : Z) : option (Z * argbuf) :=
  argbuf_copyin_loop (S (Z.to_nat (ab_max buf - ab_len buf))) m buf uargv.

(** kern/syscall/exec.c:151-173 (argbuf_copyout): the loop over the strings. *)
Fixpoint argbuf_copyout_loop (fuel : nat) (data : list Z) (len ustringbase pos uargv_i : Z) : K mem (Z * Z) :=
  match fuel with
  | O => khalt OutOfFuel
  | S fuel' =>
      if negb (pos <? len) then kret (pos, uargv_i) else
      let thisarg := u32 (ustringbase + pos) in
      m <- kget ;;
      let '(e, m1) := copyout m (be32 thisarg) uargv_i in
      kput m1 ;;;
      if negb (e =? 0) then kfail e else
      let '(r, m2) := copyoutstr m1 (drop (Z.to_nat pos) data) thisarg (len - pos) in
      kput m2 ;;;
      match r with
      | inl e => kfail e
      | inr thisarglen => argbuf_copyout_loop fuel' data len ustringbase (pos + thisarglen) (u32 (uargv_i + 4))
      end
  end.

(** kern/syscall/exec.c:124-189 (argbuf_copyout): the new stack pointer, argc and
    the address of argv. *)
Definition argbuf_copyout (buf : argbuf) (ustackp : Z) : K mem (Z * Z * Z) :=
  let ustack := u32 (ustackp - ab_len buf) in
  let ustringbase := u32 (ustack - Z.land ustack 3) in
  let uargvbase := u32 (ustringbase - u32 (4 * (ab_nargs buf + 1))) in
  r <- argbuf_copyout_loop (S (Z.to_nat (ab_len buf))) (default [] (ab_data buf)) (ab_len buf) ustringbase 0 uargvbase ;;
  let '(pos, uargv_i) := r in
  kassert (pos =? ab_len buf) ;;;
  m <- kget ;;
  let '(e, m1) := copyout m (be32 0) uargv_i in
  kput m1 ;;;
  if negb (e =? 0) then kfail e else
  kret (uargvbase, ab_nargs buf, uargvbase).

(** What [exec.c] uses of the rest of the kernel: the program loader, the stack
    and the counting semaphore [execthrottle]. [load_elf] returns the entry point
    and the memory of the new program. *)
Class Loader (W : Type) := {
  load_elf : Z -> W -> (Z + Z * mem) * W;
  as_define_stack : Z -> W -> (Z + Z) * W;
  execthrottle : W -> Z;
  set_execthrottle : Z -> W -> W
}.

Section ops.
Context {W : Type} {HV : Vfs W} {HL : Loader W}.

(** kern/syscall/exec.c:201-210 (argbuf_allocate). *)
Definition argbuf_allocate (buf : argbuf) (size : Z) : K (kstate W) (Z * argbuf) :=
  ok <- kmalloc ;;
  if ok then kret (0, mkab (Some []) (ab_len buf) size (ab_nargs buf) (ab_tooksem buf))
  else kret (ENOMEM, mkab None (ab_len buf) (ab_max buf) (ab_nargs buf) (ab_tooksem buf)).

(** kern/syscall/exec.c:219-236 (argbuf_cleanup). *)
Definition argbuf_cleanup (buf : argbuf) : K (kstate W) argbuf :=
  (if ab_tooksem buf then lift_world_ (fun w => set_execthrottle (execthrottle w + 1) w) else kret tt) ;;;
  kret (mkab None 0 0 0 false).

(** [P(execthrottle)] *)
Definition throttle : K (kstate W) unit :=
  s <- kget ;;
  if execthrottle (world s) <=? 0 then khalt Blocked
  else lift_world_ (fun w => set_execthrottle (execthrottle w - 1) w).

(** [argbuf_copyin] on the memory of the current process. *)
Definition do_copyin (buf : argbuf) (uargv : Z) : K (kstate W) (Z * argbuf) :=
  s <- kget ;;
  match argbuf_copyin (umem s) buf uargv with
  | None => khalt OutOfFuel
  | Some r => kret r
  end.

(** kern/syscall/exec.c:247-285 (argbuf_fromuser): its result and the buffer. *)
Definition argbuf_fromuser (buf : argbuf) (uargv : Z) : K (kstate W) (Z * argbuf) :=
  r <- argbuf_allocate buf PAGE_SIZE ;;
  let '(result, buf) := r in
  if negb (result =? 0) then kret (result, buf) else
  r <- do_copyin buf uargv ;;
  let '(result, buf) := r in
  if negb (result =? E2BIG) then kret (result, buf) else
  argbuf_cleanup buf ;;;
  throttle ;;;
  r <- argbuf_allocate (mkab None 0 0 0 true) ARG_MAX ;;
  let '(result, buf) := r in
  if negb (result =? 0) then kret (result, buf) else
  do_copyin buf uargv.

(** [as_activate()] of the current process's address space. *)
Definition activate : K (kstate W) unit :=
  a <- proc_getas ;; lift_world_ (as_activate a).

(** kern/syscall/exec.c:297-374 (loadexec): entry point and stack pointer. *)
Definition loadexec (path : string) : K (kstate W) (Z * Z) :=
  ok <- kmalloc ;;
  if negb ok then kfail ENOMEM else
  r <- lift_world (vfs_open path O_RDONLY 0) ;;
  match r with
  | inl err => kfail err
  | inr v =>
      newas <- lift_world as_create ;;
      match newas with
      | None => lift_world_ (vfs_close v) ;;; kfail ENOMEM
      | Some na =>
          oldas <- proc_setas (Some na) ;;
          activate ;;;
          r <- lift_world (load_elf v) ;;
          lift_world_ (vfs_close v) ;;;
          match r with
          | inl err =>
              proc_setas oldas ;;; activate ;;; lift_world_ (as_destroy na) ;;; kfail err
          | inr (entrypoint, newmem) =>
              r <- lift_world (as_define_stack na) ;;
              match r with
              | inl err =>
                  proc_setas oldas ;;; activate ;;; lift_world_ (as_destroy na) ;;; kfail err
              | inr stackptr =>
                  match oldas with
                  | Some oa => lift_world_ (as_destroy oa)
                  | None => kret tt
                  end ;;;
                  kmodify (set_umem newmem) ;;;
                  kret (entrypoint, stackptr)
              end
          end
      end
  end.

(** kern/syscall/runprogram.c:55-107 (runprogram): the arguments it enters user
    mode with (stack pointer, entry point). *)
Definition runprogram (progname : string) : K (kstate W) (Z * Z) :=
  r <- lift_world (vfs_open progname O_RDONLY 0) ;;
  match r with
  | inl err => kfail err
  | inr v =>
      a <- proc_getas ;;
      kassert (bool_decide (a = None)) ;;;
      newas <- lift_world as_create ;;
      match newas with
      | None => lift_world_ (vfs_close v) ;;; kfail ENOMEM
      | Some na =>
          proc_setas (Some na) ;;;
          activate ;;;
          r <- lift_world (load_elf v) ;;
          lift_world_ (vfs_close v) ;;;
          match r with
          | inl err => kfail err
          | inr (entrypoint, newmem) =>
              kmodify (set_umem newmem) ;;;
              r <- lift_world (as_define_stack na) ;;
              match r with
              | inl err => kfail err
              | inr stackptr => kret (stackptr, entrypoint)
              end
          end
      end
  end.

(** Run code on the memory the current thread sees. *)
Definition on_umem {A} (f : K mem A) : K (kstate W) A :=
  fun s => match f (umem s) with
           | Done a m => Done a (set_umem m s)
           | Fail e m => Fail e (set_umem m s)
           | Halt h => Halt h
           end.

(** kern/syscall/syscall_PROC.c:267-334 (sys_execv_SHELL): what the new program is
    entered with (argc, argv, stack pointer, entry point). *)
Definition sys_execv_SHELL (progname argv : Z) : K (kstate W) (Z * Z * Z * Z) :=
  s <- kget ;;
  kassert (bool_decide (is_Some (curproc s))) ;;;
  ok <- kmalloc ;;
  if negb ok then kfail ENOMEM else
  s <- kget ;;
  match copyinstr (umem s) progname PATH_MAX with
  | (inl err, _) => kfail err
  | (inr _, kpath) =>
      r <- argbuf_fromuser argbuf_init argv ;;
      let '(err, kargv) := r in
      if negb (err =? 0) then argbuf_cleanup kargv ;;; kfail err else
      r <- attempt (loadexec (cstr kpath)) ;;
      match r with
      | inl err => argbuf_cleanup kargv ;;; kfail err
      | inr (entrypoint, stackptr) =>
          r <- attempt (on_umem (argbuf_copyout kargv stackptr)) ;;
          match r with
          | inl _ => khalt PanicCall
          | inr (ustack, argc, uargv) =>
              argbuf_cleanup kargv ;;;
              kret (argc, uargv, ustack, entrypoint)
          end
      end
  end.

End ops.

(** ** Specification vocabulary *)

(** The strings of [args], each with its terminator, one after the other. *)
Definition flat (args : list (list Z)) : list Z := concat (map (fun a => a ++ [0]) args).

(** The words of an array, in memory order. *)
Definition words (l : list Z) : list Z := concat (map be32 l).

(** A valid argv array stands at [uargv] in [m]: pointers to the strings [args],
    then a NULL. *)
Definition argv_at (m : mem) (uargv : Z) (args : list (list Z)) : Prop :=
  exists ptrs, Forall2 (fun p a => 0 < p /\ is_cstring a /\ bytes_at m p (a ++ [0]) /\
                          p + Z.of_nat (length a) < USERSPACETOP) ptrs args /\
    bytes_at m uargv (words (ptrs ++ [0])) /\ 0 <= uargv /\
    uargv + 4 * (Z.of_nat (length args) + 1) <= USERSPACETOP.

(** ** Lemmas: words *)

Lemma of_be32_be32 p : 0 <= p < 2 ^ 32 -> of_be32 (be32 p) = p.
Proof.
  intros Hp. unfold of_be32, be32, wrapu. cbn [foldl]. rewrite !Z.shiftr_div_pow2 by lia.
  change (2 ^ 8) with 256. change (2 ^ 16) with (256 * 256). change (2 ^ 24) with (256 * (256 * 256)).
  rewrite <- !Z.div_div by lia.
  pose proof (Z.div_mod p 256 ltac:(lia)). pose proof (Z.div_mod (p / 256) 256 ltac:(lia)).
  pose proof (Z.div_mod (p / 256 / 256) 256 ltac:(lia)).
  rewrite (Z.mod_small (p / 256 / 256 / 256) 256); [lia|]. split; [repeat apply Z.div_pos; lia|].
  apply Z.div_lt_upper_bound; [lia|]. apply Z.div_lt_upper_bound; [lia|].
  apply Z.div_lt_upper_bound; lia.
Qed.

Lemma words_length l : Z.of_nat (length (words l)) = 4 * Z.of_nat (length l).
Proof. unfold words. induction l as [|x l IH]; [done|]. cbn [map concat]. rewrite length_app. cbn [length be32 app] in *. lia. Qed.

Lemma words_cons x l : words (x :: l) = be32 x ++ words l.
Proof. done. Qed.

Lemma words_app l1 l2 : words (l1 ++ l2) = words l1 ++ words l2.
Proof. unfold words. by rewrite map_app, concat_app. Qed.

Lemma flat_cons a args : flat (a :: args) = a ++ 0 :: flat args.
Proof. unfold flat. cbn [map concat]. by rewrite <- app_assoc. Qed.

Lemma copyin_bytes m a l :
  0 <= a -> 0 < Z.of_nat (length l) -> a + Z.of_nat (length l) <= USERSPACETOP -> bytes_at m a l ->
  copyin m a (Z.of_nat (length l)) = inr l.
Proof.
  intros Ha Hl Htop Hb. unfold USERSPACETOP in *.
  pose proof (copyin_cases m a (Z.of_nat (length l)) ltac:(lia) ltac:(lia)) as Hc.
  destruct (copyin m a (Z.of_nat (length l))) as [e|l'].
  - destruct Hc as [_ []]. split; [unfold USERSPACETOP; lia|]. by apply bytes_at_mapped.
  - destruct Hc as (_ & Hl' & Hb'). f_equal. apply list_eq. intros i.
    destruct (decide (i < length l)%nat) as [Hi|Hi].
    + rewrite <- Hb', <- Hb by lia. done.
    + rewrite !lookup_ge_None_2 by lia. done.
Qed.

(** ** Lemmas: fetching argv *)

(** The buffer after [args] have been added to it. *)
Definition add_args (buf : argbuf) (args : list (list Z)) : argbuf :=
  mkab (match args with [] => ab_data buf | _ => Some (default [] (ab_data buf) ++ flat args) end)
       (ab_len buf + Z.of_nat (length (flat args))) (ab_max buf)
       (ab_nargs buf + Z.of_nat (length args)) (ab_tooksem buf).

(** The first [length args] rounds of the loop, when [args] fit. *)
Lemma copyin_loop_prefix args : forall fuel m buf uargv ptrs,
  Forall2 (fun p a => 0 < p /\ is_cstring a /\ bytes_at m p (a ++ [0]) /\
             p + Z.of_nat (length a) < USERSPACETOP) ptrs args ->
  bytes_at m uargv (words ptrs) -> 0 <= uargv ->
  uargv + 4 * (Z.of_nat (length args) + 1) <= USERSPACETOP ->
  ab_len buf + Z.of_nat (length (flat args)) <= ab_max buf -> 0 <= ab_len buf -> ab_max buf < 2 ^ 31 ->
  argbuf_copyin_loop (length args + fuel) m buf uargv =
  argbuf_copyin_loop fuel m (add_args buf args) (uargv + 4 * Z.of_nat (length args)).
Proof.
  induction args as [|a args IH]; intros fuel m buf uargv ptrs Hall Hb Hu Htop Hfit Hlen Hmax.
  - cbn [length plus Nat.add]. rewrite Z.mul_0_r, Z.add_0_r. f_equal. unfold add_args. cbn.
    rewrite !Z.add_0_r. by destruct buf.
  - apply Forall2_cons_inv_r in Hall as (p & ptrs' & (Hp & Hs & Hpb & Hpt) & Hall & ->).
    rewrite words_cons in Hb. apply bytes_at_app in Hb as [Hb1 Hb2].
    change (Z.of_nat (length (be32 p))) with 4 in Hb2. unfold add_args. rewrite flat_cons in *.
    rewrite length_app in *. cbn [length Nat.add argbuf_copyin_loop] in *.
    change 4 with (Z.of_nat (length (be32 p))) at 1.
    rewrite (copyin_bytes m uargv (be32 p)); [|lia|cbn; lia|cbn in *; lia|exact Hb1].
    unfold USERSPACETOP in *. rewrite of_be32_be32 by lia. rewrite (proj2 (Z.eqb_neq p 0)) by lia.
    rewrite (copyinstr_found m p (ab_max buf - ab_len buf) a) by (done || (unfold USERSPACETOP; lia)).
    rewrite (wrapu_small 32 (uargv + 4)) by lia.
    rewrite (IH fuel m _ (uargv + 4) ptrs') by (done || (cbn; lia)).
    replace (uargv + 4 + 4 * Z.of_nat (length args)) with (uargv + 4 * Z.of_nat (S (length args))) by lia.
    f_equal. unfold add_args. cbn. f_equal; [|lia|lia].
    destruct args; [done|]. cbn [default]. by rewrite <- !app_assoc.
Qed.

Lemma Forall2_length_args {m} {ptrs : list Z} {args : list (list Z)} :
  Forall2 (fun p a => 0 < p /\ is_cstring a /\ bytes_at m p (a ++ [0]) /\
             p + Z.of_nat (length a) < USERSPACETOP) ptrs args -> length ptrs = length args.
Proof. apply Forall2_length. Qed.

Lemma flat_nonempty args : (length args <= length (flat args))%nat.
Proof. induction args as [|a args IH]; [done|]. rewrite flat_cons, length_app. cbn. lia. Qed.

Lemma copyin_run m buf uargv args :
  argv_at m uargv args -> ab_len buf + Z.of_nat (length (flat args)) <= ab_max buf ->
  0 <= ab_len buf -> ab_max buf < 2 ^ 31 ->
  argbuf_copyin m buf uargv = Some (0, add_args buf args).
Proof.
  intros (ptrs & Hall & Hb & Hu & Htop) Hfit Hlen Hmax. unfold argbuf_copyin.
  pose proof (flat_nonempty args) as Hne. pose proof (Forall2_length_args Hall) as Hl.
  rewrite words_app in Hb. apply bytes_at_app in Hb as [Hb1 Hb2]. rewrite words_length, Hl in Hb2.
  replace (S (Z.to_nat (ab_max buf - ab_len buf)))
    with (length args + S (Z.to_nat (ab_max buf - ab_len buf) - length args))%nat by lia.
  rewrite (copyin_loop_prefix args _ m buf uargv ptrs) by done. cbn [argbuf_copyin_loop].
  change 4 with (Z.of_nat (length (be32 0))) at 2.
  rewrite (copyin_bytes m _ (be32 0)); [done|lia|cbn; lia|cbn in *; lia|exact Hb2].
Qed.

(** ** Lemmas: delivering argv *)

(** The addresses the strings get, the first at [base + pos]. *)
Fixpoint ptrs_of (base pos : Z) (args : list (list Z)) : list Z :=
  match args with
  | [] => []
  | a :: rest => (base + pos) :: ptrs_of base (pos + Z.of_nat (length a) + 1) rest
  end.

(** [m'] differs from [m] only at addresses in [P], and maps the same addresses. *)
Definition changes_in (m m' : mem) (P : Z -> Prop) : Prop :=
  (forall x, ~ P x -> m' !! x = m !! x) /\ (forall x, is_Some (m' !! x) <-> is_Some (m !! x)).

Lemma changes_in_only m m' a n (P : Z -> Prop) :
  only_changes m m' a n -> (forall x, a <= x < a + n -> P x) -> changes_in m m' P.
Proof. intros [H1 H2] HP. split; [|done]. intros x Hx. apply H1. intros Hin. auto. Qed.

Lemma changes_in_trans m1 m2 m3 P : changes_in m1 m2 P -> changes_in m2 m3 P -> changes_in m1 m3 P.
Proof.
  intros [A1 B1] [A2 B2]. split.
  - intros x Hx. by rewrite A2, A1.
  - intros x. by rewrite B2.
Qed.

Lemma changes_in_mono m m' (P Q : Z -> Prop) : changes_in m m' P -> (forall x, P x -> Q x) -> changes_in m m' Q.
Proof. intros [A B] H. split; [|done]. intros x Hx. apply A. auto. Qed.

Lemma changes_in_bytes m m' P a l :
  changes_in m m' P -> bytes_at m a l -> (forall x, a <= x < a + Z.of_nat (length l) -> ~ P x) ->
  bytes_at m' a l.
Proof. intros [A _] Hb HP i Hi. rewrite A by (apply HP; lia). by apply Hb. Qed.

Lemma changes_in_mapped m m' P a n : changes_in m m' P -> mapped m a n -> mapped m' a n.
Proof. intros [_ B] Hm i Hi. apply B, Hm, Hi. Qed.

Lemma copyout_word m a v :
  0 <= a -> a + 4 <= USERSPACETOP -> mapped m a 4 ->
  exists m', copyout m (be32 v) a = (0, m') /\ bytes_at m' a (be32 v) /\ only_changes m m' a 4.
Proof.
  intros Ha Htop Hm. unfold USERSPACETOP in *.
  pose proof (copyout_cases m (be32 v) a ltac:(lia) ltac:(cbn; lia)) as Hc.
  pose proof (copyout_frame m (be32 v) a ltac:(lia) ltac:(cbn; lia)) as [Hf _].
  destruct (copyout m (be32 v) a) as [e m']. cbn [snd] in Hf.
  destruct Hc as [(-> & _ & Hb)|(_ & [])]; [eauto|]. by split; [unfold USERSPACETOP; cbn; lia|].
Qed.

Lemma copyout_string m s rest a len :
  0 <= a -> is_cstring s -> a + Z.of_nat (length s) < USERSPACETOP -> Z.of_nat (length s) < len < 2 ^ 31 ->
  mapped m a (Z.of_nat (length s) + 1) ->
  exists m', copyoutstr m (s ++ 0 :: rest) a len = (inr (Z.of_nat (length s) + 1), m') /\
    bytes_at m' a (s ++ [0]) /\ only_changes m m' a (Z.of_nat (length s) + 1).
Proof.
  intros Ha Hs Htop Hlen Hm. rewrite copyoutstr_found by done. eexists. split; [done|].
  assert (El : Z.of_nat (length (s ++ [0])) = Z.of_nat (length s) + 1) by (rewrite length_app; cbn; lia).
  split; [apply store_bytes_spec; by rewrite El|]. rewrite <- El. apply store_bytes_changes.
Qed.

Lemma copyout_loop_spec args : forall fuel pre m base pos uargv_i len,
  Forall is_cstring args -> pos = Z.of_nat (length pre) -> len = pos + Z.of_nat (length (flat args)) ->
  0 <= uargv_i -> uargv_i + 4 * (Z.of_nat (length args) + 1) <= base -> base + len <= USERSPACETOP ->
  mapped m uargv_i (4 * Z.of_nat (length args)) -> mapped m (base + pos) (Z.of_nat (length (flat args))) ->
  (length args < fuel)%nat ->
  exists m', argbuf_copyout_loop fuel (pre ++ flat args) len base pos uargv_i m =
      Done (len, uargv_i + 4 * Z.of_nat (length args)) m' /\
    bytes_at m' uargv_i (words (ptrs_of base pos args)) /\ bytes_at m' (base + pos) (flat args) /\
    changes_in m m' (fun x => uargv_i <= x < uargv_i + 4 * Z.of_nat (length args) \/
                              base + pos <= x < base + len).
Proof.
  induction args as [|a args IH]; intros fuel pre m base pos uargv_i len Hcs Hpos Hlen Hu Hub Htop Hmu Hms Hfuel;
    (destruct fuel as [|fuel]; [cbn in Hfuel; lia|]); cbn [argbuf_copyout_loop].
  - cbn [flat map concat length] in *. rewrite (proj2 (Z.ltb_ge _ _)) by lia. cbn [negb]. exists m. unfold kret.
    split_and!; [f_equal; f_equal; lia|intros i Hi; cbn in Hi; lia..|].
    split; done.
  - apply Forall_cons in Hcs as [Ha Hcs]. rewrite flat_cons in *. rewrite length_app in *. cbn [length] in *.
    unfold USERSPACETOP in *.
    rewrite (proj2 (Z.ltb_lt _ _)) by lia. cbn [negb]. rewrite wrapu_small by lia. unfold kbind at 1, kget.
    destruct (copyout_word m uargv_i (base + pos)) as (m1 & -> & Hb1 & Hc1);
      [lia|unfold USERSPACETOP; lia|intros i Hi; apply Hmu; lia|].
    unfold kbind at 1, kput. cbn [Z.eqb negb].
    rewrite Hpos, Nat2Z.id, drop_app_length, <- Hpos.
    destruct (copyout_string m1 a (flat args) (base + pos) (len - pos)) as (m2 & -> & Hb2 & Hc2);
      [lia|done|unfold USERSPACETOP; lia|lia| |].
    { intros i Hi. apply Hc1. apply Hms. lia. }
    unfold kbind at 1. rewrite (wrapu_small 32 (uargv_i + 4)) by lia.
    destruct (IH fuel (pre ++ a ++ [0]) m2 base (pos + (Z.of_nat (length a) + 1)) (uargv_i + 4) len)
      as (m3 & Hrun & Hw & Hf & Hc3); try done; try lia.
    { rewrite !length_app. cbn. lia. }
    { intros i Hi. apply Hc2, Hc1, Hmu. lia. }
    { intros i Hi. apply Hc2, Hc1, Hms. lia. }
    exists m3. rewrite <- !app_assoc in Hrun. cbn [app] in Hrun. rewrite Hrun. cbn [ptrs_of]. split_and!.
    + f_equal. f_equal. lia.
    + rewrite words_cons. apply bytes_at_app. split.
      * apply (changes_in_bytes _ _ _ _ _ Hc3); [|cbn; lia].
        apply (only_changes_bytes _ _ _ _ _ _ Hc2 Hb1). cbn. lia.
      * replace (pos + Z.of_nat (length a) + 1) with (pos + (Z.of_nat (length a) + 1)) by lia. exact Hw.
    + change (a ++ 0 :: flat args) with (a ++ [0] ++ flat args). rewrite app_assoc. apply bytes_at_app. split.
      * apply (changes_in_bytes _ _ _ _ _ Hc3 Hb2). rewrite length_app. cbn. lia.
      * rewrite length_app. cbn [length]. replace (base + pos + Z.of_nat (length a + 1))
          with (base + (pos + (Z.of_nat (length a) + 1))) by lia. exact Hf.
    + eapply changes_in_trans; [|eapply changes_in_trans].
      * apply (changes_in_only _ _ _ _ _ Hc1). lia.
      * apply (changes_in_only _ _ _ _ _ Hc2). lia.
      * apply (changes_in_mono _ _ _ _ Hc3). lia.
Qed.

Lemma ptrs_of_ok args : forall m base pos,
  Forall is_cstring args -> bytes_at m (base + pos) (flat args) -> 0 < base + pos ->
  base + pos + Z.of_nat (length (flat args)) <= USERSPACETOP ->
  Forall2 (fun p a => 0 < p /\ is_cstring a /\ bytes_at m p (a ++ [0]) /\
             p + Z.of_nat (length a) < USERSPACETOP) (ptrs_of base pos args) args.
Proof.
  induction args as [|a args IH]; intros m base pos Hcs Hb Hpos Htop; [constructor|].
  apply Forall_cons in Hcs as [Ha Hcs]. rewrite flat_cons in *.
  change (a ++ 0 :: flat args) with (a ++ [0] ++ flat args) in *. rewrite app_assoc in *.
  apply bytes_at_app in Hb as [Hb1 Hb2]. rewrite !length_app in *. cbn [length] in *.
  cbn [ptrs_of]. constructor; [split_and!; (done || lia)|].
  apply IH; [done| |lia|lia].
  replace (base + (pos + Z.of_nat (length a) + 1)) with (base + pos + Z.of_nat (length a + 1)) by lia. exact Hb2.
Qed.

Lemma ptrs_of_length base pos args : length (ptrs_of base pos args) = length args.
Proof. revert pos. induction args as [|a args IH]; intros pos; [done|]. cbn. by rewrite IH. Qed.

(** Where [argbuf_copyout] puts things below the stack top [top]. *)
Definition string_base (top len : Z) : Z := (top - len) - (top - len) mod 4.
Definition argv_base (top len n : Z) : Z := string_base top len - 4 * (n + 1).

Lemma copyout_run args m top tooksem mx :
  let len := Z.of_nat (length (flat args)) in let n := Z.of_nat (length args) in
  Forall is_cstring args -> 0 < argv_base top len n -> top <= USERSPACETOP ->
  mapped m (argv_base top len n) (top - argv_base top len n) ->
  exists m', argbuf_copyout (mkab (Some (flat args)) len mx n tooksem) top m =
      Done (argv_base top len n, n, argv_base top len n) m' /\
    argv_at m' (argv_base top len n) args /\
    (forall x, ~ (argv_base top len n <= x < top) -> m' !! x = m !! x).
Proof.
  intros len n Hcs Hpos Htop Hm. unfold argv_base, string_base in *.
  pose proof (Z.mod_pos_bound (top - len) 4 ltac:(lia)) as Hmod. set (r := (top - len) mod 4) in *.
  set (base := top - len - r) in *. unfold USERSPACETOP in *.
  unfold argbuf_copyout. cbn [ab_len ab_nargs ab_data default id from_option].
  rewrite (wrapu_small 32 (top - len)) by lia.
  change 3 with (Z.ones 2). rewrite Z.land_ones by lia. change (2 ^ 2) with 4. fold r.
  fold base. rewrite (wrapu_small 32 base), (wrapu_small 32 (4 * (n + 1))), (wrapu_small 32 (base - 4 * (n + 1))) by lia.
  unfold kbind at 1.
  destruct (copyout_loop_spec args (S (Z.to_nat len)) [] m base 0 (base - 4 * (n + 1)) len)
    as (m1 & Hrun & Hw & Hf & Hc); try done; try (unfold USERSPACETOP; lia).
  { intros i Hi. apply Hm. lia. }
  { intros i Hi. apply Hm. lia. }
  { pose proof (flat_nonempty args). lia. }
  cbn [app] in Hrun. rewrite Hrun. fold n. unfold kbind at 1. rewrite Z.eqb_refl. cbn [kassert]. unfold kret at 1.
  unfold kbind at 1, kget.
  destruct (copyout_word m1 (base - 4 * (n + 1) + 4 * n) 0) as (m2 & -> & Hb2 & Hc2);
    [lia|unfold USERSPACETOP; lia|intros i Hi; apply Hc, Hm; lia|].
  unfold kbind, kput. cbn [Z.eqb negb]. unfold kret. exists m2. split_and!; [done| |].
  - exists (ptrs_of base 0 args). split_and!; [| |lia|unfold USERSPACETOP; lia].
    + apply ptrs_of_ok; [done| |lia|unfold USERSPACETOP; lia].
      apply (only_changes_bytes _ _ _ _ _ _ Hc2 Hf). lia.
    + rewrite words_app. apply bytes_at_app. rewrite words_length, ptrs_of_length. fold n. split; [|exact Hb2].
      apply (only_changes_bytes _ _ _ _ _ _ Hc2 Hw). rewrite words_length, ptrs_of_length. lia.
  - intros x Hx. destruct Hc2 as [Hc2 _], Hc as [Hc _]. rewrite Hc2, Hc by lia. done.
Qed.

(** ** Theorems *)

(** C31. argv survives execv: when an argv array with strings [args] that fit in
    one page stands in the old memory, [argbuf_copyin] collects them, and
    [argbuf_copyout] onto any stack with room, whatever else the new memory
    holds, builds a valid argv with exactly the same strings, word aligned below
    the old top, with argc the number of strings, and touches nothing else. *)
Theorem argv_roundtrip m uargv args :
  argv_at m uargv args -> Z.of_nat (length (flat args)) <= PAGE_SIZE ->
  exists buf, argbuf_copyin m (mkab (Some []) 0 PAGE_SIZE 0 false) uargv = Some (0, buf) /\
    forall m2 top, let base := argv_base top (Z.of_nat (length (flat args))) (Z.of_nat (length args)) in
      0 < base -> top <= USERSPACETOP -> mapped m2 base (top - base) ->
      exists m', argbuf_copyout buf top m2 = Done (base, Z.of_nat (length args), base) m' /\
        argv_at m' base args /\ base mod 4 = 0 /\
        (forall x, ~ (base <= x < top) -> m' !! x = m2 !! x).
Proof.
  intros Hargv Hfit. pose proof Hargv as (ptrs & Hall & _).
  exists (mkab (Some (flat args)) (Z.of_nat (length (flat args))) PAGE_SIZE (Z.of_nat (length args)) false).
  split.
  - rewrite (copyin_run m _ uargv args Hargv); [|done|done|done]. unfold add_args. cbn.
    by destruct args.
  - intros m2 top base Hbase Htop Hm.
    assert (Hcs : Forall is_cstring args).
    { clear -Hall. induction Hall as [|p a ptrs args (_ & ? & _) Hall IH]; constructor; done. }
    destruct (copyout_run args m2 top false PAGE_SIZE Hcs Hbase Htop Hm) as (m' & Hrun & Hat & Hsame).
    exists m'. split_and!; try done. subst base. unfold argv_base, string_base.
    set (x := top - Z.of_nat (length (flat args))). pose proof (Z.div_mod x 4 ltac:(lia)).
    replace (x - x mod 4 - 4 * (Z.of_nat (length args) + 1))
      with ((x / 4 - (Z.of_nat (length args) + 1)) * 4) by lia. by apply Z.mod_mul.
Qed.

Lemma copystr_loop_bound {D} rd wr n i ml sl (d : D) k d' :
  copystr_loop rd wr n i ml sl d = (inr k, d') -> i < k <= i + Z.of_nat n.
Proof.
  revert i d. induction n as [|n IH]; intros i d H; [done|]. cbn [copystr_loop] in H.
  destruct (rd i) as [c|]; [|done]. destruct (wr i c d) as [d1|]; [|done].
  destruct (c =? 0); [injection H as <- _; lia|]. apply IH in H. lia.
Qed.

Lemma copyinstr_bound m a len n str : copyinstr m a len = (inr n, str) -> 0 < n <= Z.max 0 len.
Proof.
  unfold copyinstr, copystr. destruct (copycheck a len) as [e|s]; [done|]. intros H.
  apply copystr_loop_bound in H. lia.
Qed.

(** [argbuf_copyin] always terminates: whatever the user memory holds, the
    loop ends within [max - len + 1] rounds, with [len] still at most [max]. *)
Theorem argbuf_copyin_total m buf uargv :
  0 <= ab_len buf <= ab_max buf ->
  exists err buf', argbuf_copyin m buf uargv = Some (err, buf') /\
    ab_len buf <= ab_len buf' <= ab_max buf' /\ ab_max buf' = ab_max buf.
Proof.
  unfold argbuf_copyin. intros Hb.
  assert (Hfuel : (Z.to_nat (ab_max buf - ab_len buf) < S (Z.to_nat (ab_max buf - ab_len buf)))%nat) by lia.
  remember (S (Z.to_nat (ab_max buf - ab_len buf))) as fuel eqn:Ef. clear Ef.
  revert buf uargv Hb Hfuel. induction fuel as [|fuel IH]; intros buf uargv Hb Hfuel; [lia|].
  assert (Hend : forall e : Z, exists err buf', Some (e, buf) = Some (err, buf') /\
    ab_len buf <= ab_len buf' <= ab_max buf' /\ ab_max buf' = ab_max buf) by (intros e; exists e, buf; split_and!; (done || lia)).
  cbn [argbuf_copyin_loop].
  destruct (copyin m uargv 4) as [e|bytes]; [apply Hend|].
  destruct (of_be32 bytes =? 0); [apply Hend|].
  destruct (copyinstr m (of_be32 bytes) (ab_max buf - ab_len buf)) as [[e|n] str] eqn:E; [apply Hend|].
  apply copyinstr_bound in E.
  destruct (IH (mkab (Some (default [] (ab_data buf) ++ str)) (ab_len buf + n) (ab_max buf)
    (ab_nargs buf + 1) (ab_tooksem buf)) (u32 (uargv + 4))) as (err & buf' & Hrun & H1 & H2); [cbn; lia..|].
  exists err, buf'. cbn in *. split_and!; [done|lia..].
Qed.

Lemma copycheck_empty a : 0 < a < 2 ^ 32 -> copycheck a 0 = inl EFAULT.
Proof.
  intros Ha. unfold copycheck. rewrite wrapu_small by lia. by rewrite (proj2 (Z.ltb_lt _ _)) by lia.
Qed.

Section spec.
Context {W : Type} {HV : Vfs W} {HL : Loader W}.
Implicit Types s : kstate W.

Lemma allocate_nil s buf size :
  oracle s = [] ->
  argbuf_allocate buf size s = Done (0, mkab (Some []) (ab_len buf) size (ab_nargs buf) (ab_tooksem buf)) s.
Proof. intros H. unfold argbuf_allocate, kbind. by rewrite kmalloc_nil. Qed.

(** When the first strings of argv fill the one-page buffer exactly and there
    is one more, [argbuf_fromuser] returns EFAULT instead of starting over with
    the large buffer: [copyinstr] with no room left reports EFAULT, not
    ENAMETOOLONG. *)
Theorem argbuf_fromuser_full s uargv args b :
  oracle s = [] -> argv_at (umem s) uargv (args ++ [b]) ->
  Z.of_nat (length (flat args)) = PAGE_SIZE ->
  exists buf, argbuf_fromuser argbuf_init uargv s = Done (EFAULT, buf) s.
Proof.
  intros Hor (ptrs & Hall & Hb & Hu & Htop) Hfull.
  apply Forall2_app_inv_r in Hall as (ps & pb & Hps & Hpb & ->).
  apply Forall2_cons_inv_r in Hpb as (p & pb' & (Hp & _ & _ & Hpt) & Hnil & ->).
  apply Forall2_nil_inv_r in Hnil as ->.
  unfold argbuf_fromuser, kbind at 1. rewrite allocate_nil by done. cbn [Z.eqb negb].
  unfold kbind at 1, do_copyin, kbind at 1, kget. cbn [ab_len ab_nargs ab_tooksem argbuf_init].
  pose proof (Forall2_length_args Hps) as Hl. rewrite length_app in Htop. cbn [length] in Htop.
  rewrite !words_app in Hb. apply bytes_at_app in Hb as [Hb1 Hb3].
  apply bytes_at_app in Hb1 as [Hb1 Hb2]. rewrite words_length, Hl in Hb2.
  assert (E : argbuf_copyin (umem s) (mkab (Some []) 0 PAGE_SIZE 0 false) uargv =
    Some (EFAULT, add_args (mkab (Some []) 0 PAGE_SIZE 0 false) args)).
  { unfold argbuf_copyin. cbn [ab_max ab_len]. pose proof (flat_nonempty args).
    replace (S (Z.to_nat (PAGE_SIZE - 0))) with (length args + S (Z.to_nat PAGE_SIZE - length args))%nat
      by (unfold PAGE_SIZE in *; lia).
    rewrite (copyin_loop_prefix args _ (umem s) _ uargv ps) by (done || lia || (cbn; unfold PAGE_SIZE in *; lia)).
    cbn [argbuf_copyin_loop]. change 4 with (Z.of_nat (length (be32 p))) at 2.
    unfold USERSPACETOP in *.
    rewrite (copyin_bytes (umem s) _ (be32 p)); [|lia|cbn; lia|unfold USERSPACETOP; cbn; lia|exact Hb2].
    rewrite of_be32_be32 by lia. rewrite (proj2 (Z.eqb_neq p 0)) by lia.
    cbn [ab_max ab_len add_args]. rewrite Hfull. change (PAGE_SIZE - (0 + PAGE_SIZE)) with 0.
    unfold copyinstr. rewrite copycheck_empty by lia. done. }
  rewrite E. unfold kret. change (negb (EFAULT =? E2BIG)) with true. cbv beta iota. eauto.
Qed.

(** [loadexec] when every step succeeds. *)
Lemma loadexec_run s a p path v w1 na w2 entry newmem w3 top w4 :
  oracle s = [] -> curproc s = Some a -> procs s !! a = Some p ->
  vfs_open path O_RDONLY 0 (world s) = (inr v, w1) -> as_create w1 = (Some na, w2) ->
  load_elf v (as_activate (Some na) w2) = (inr (entry, newmem), w3) ->
  as_define_stack na (vfs_close v w3) = (inr top, w4) ->
  exists w, loadexec path s = Done (entry, top)
    (set_umem newmem (set_world w (set_procs (fun m => <[a := p_set_addrspace (Some na) p]> m) s))).
Proof.
  intros Hor Hc Hp Hopen Hcreate Hload Hstack. unfold loadexec.
  unfold kbind at 1. rewrite kmalloc_nil by done. cbn [negb].
  unfold kbind at 1, lift_world at 1. rewrite Hopen. unfold kbind at 1, lift_world at 1. cbn [world set_world].
  rewrite Hcreate. unfold kbind at 1, proc_setas, kbind at 1, kget.
  change (curproc (set_world w2 (set_world w1 s))) with (curproc s). rewrite Hc.
  unfold kbind at 1. rewrite (proc_read_eq _ a p) by done. unfold kbind at 1.
  rewrite (proc_update_eq _ a p) by done. unfold kret at 1.
  unfold kbind at 1, activate, kbind at 1, proc_getas, kbind at 1, kget.
  match goal with |- context [curproc ?x] => change (curproc x) with (curproc s) end. rewrite Hc.
  unfold kbind at 1. rewrite (proc_read_eq _ a _ (lookup_set_procs _ _ _)). unfold kret at 1.
  unfold lift_world_ at 1. cbn [p_addrspace p_set_addrspace world set_procs set_world].
  unfold kbind at 1, lift_world at 1. cbn [world set_world]. rewrite Hload.
  unfold kbind at 1, lift_world_ at 1. cbn [world set_world].
  unfold kbind at 1, lift_world at 1. cbn [world set_world]. rewrite Hstack.
  destruct (p_addrspace p); unfold kbind, lift_world_, kmodify, kret; eexists; reflexivity.
Qed.

(** A failed load leaves the caller as it was: when the program cannot be
    loaded, [loadexec] returns the loader's error with the old address space
    back in place and every process and the user memory unchanged. *)
Theorem loadexec_restores s a p path v w1 na w2 err w3 :
  oracle s = [] -> curproc s = Some a -> procs s !! a = Some p ->
  vfs_open path O_RDONLY 0 (world s) = (inr v, w1) -> as_create w1 = (Some na, w2) ->
  load_elf v (as_activate (Some na) w2) = (inl err, w3) ->
  loadexec path s =
  Fail err (set_world (as_destroy na (as_activate (p_addrspace p) (vfs_close v w3))) s).
Proof.
  intros Hor Hc Hp Hopen Hcreate Hload. unfold loadexec.
  unfold kbind at 1. rewrite kmalloc_nil by done. cbn [negb].
  unfold kbind at 1, lift_world at 1. rewrite Hopen. unfold kbind at 1, lift_world at 1. cbn [world set_world].
  rewrite Hcreate. unfold kbind at 1, proc_setas, kbind at 1, kget.
  change (curproc (set_world w2 (set_world w1 s))) with (curproc s). rewrite Hc.
  unfold kbind at 1. rewrite (proc_read_eq _ a p) by done. unfold kbind at 1.
  rewrite (proc_update_eq _ a p) by done. unfold kret at 1.
  unfold kbind at 1, activate, kbind at 1, proc_getas, kbind at 1, kget.
  match goal with |- context [curproc ?x] => change (curproc x) with (curproc s) end. rewrite Hc.
  unfold kbind at 1. rewrite (proc_read_eq _ a _ (lookup_set_procs _ _ _)). unfold kret at 1.
  unfold lift_world_ at 1. cbn [p_addrspace p_set_addrspace world set_procs set_world].
  unfold kbind at 1, lift_world at 1. cbn [world set_world]. rewrite Hload.
  unfold kbind at 1, lift_world_ at 1. cbn [world set_world]. unfold kbind at 1. unfold kbind at 1.
  match goal with |- context [curproc ?x] => change (curproc x) with (curproc s) end. rewrite Hc.
  unfold kbind at 1. rewrite (proc_read_eq _ a (p_set_addrspace (Some na) p)) by (cbn; apply lookup_insert_eq).
  unfold kbind at 1. rewrite (proc_update_eq _ a (p_set_addrspace (Some na) p)) by (cbn; apply lookup_insert_eq).
  unfold kret at 1. unfold kbind at 1. unfold kbind at 1. unfold kbind at 1.
  match goal with |- context [curproc ?x] => change (curproc x) with (curproc s) end. rewrite Hc.
  unfold kbind at 1. rewrite (proc_read_eq _ a _ (lookup_set_procs _ _ _)). unfold kret at 1.
  cbn [p_addrspace p_set_addrspace]. unfold kbind, lift_world_, kfail.
  f_equal. apply kstate_ext; try done. cbn [procs set_world set_procs]. rewrite insert_insert_eq.
  replace (p_set_addrspace (p_addrspace p) (p_set_addrspace (Some na) p)) with p by (by destruct p).
  by rewrite insert_id.
Qed.

(** C4. [execv], end to end: when the path is readable, argv fits in one page and
    the program loads, the new program is entered at its entry point with argc
    and argv naming exactly the strings the caller passed, and the process runs
    in the new address space. *)
Theorem sys_execv_spec s a p progname n kpath argv args v w1 na w2 entry newmem w3 top w4 :
  let base := argv_base top (Z.of_nat (length (flat args))) (Z.of_nat (length args)) in
  oracle s = [] -> curproc s = Some a -> procs s !! a = Some p ->
  copyinstr (umem s) progname PATH_MAX = (inr n, kpath) ->
  argv_at (umem s) argv args -> Z.of_nat (length (flat args)) <= PAGE_SIZE ->
  vfs_open (cstr kpath) O_RDONLY 0 (world s) = (inr v, w1) -> as_create w1 = (Some na, w2) ->
  load_elf v (as_activate (Some na) w2) = (inr (entry, newmem), w3) ->
  as_define_stack na (vfs_close v w3) = (inr top, w4) ->
  0 < base -> top <= USERSPACETOP -> mapped newmem base (top - base) ->
  exists s', sys_execv_SHELL progname argv s = Done (Z.of_nat (length args), base, base, entry) s' /\
    argv_at (umem s') base args /\ procs s' !! a = Some (p_set_addrspace (Some na) p) /\
    (forall b, b <> a -> procs s' !! b = procs s !! b).
Proof.
  intros base Hor Hc Hp Hpath Hargv Hfit Hopen Hcreate Hload Hstack Hbase Htop Hm.
  unfold sys_execv_SHELL. unfold kbind at 1, kget. unfold kbind at 1.
  rewrite Hc, bool_decide_eq_true_2 by done. cbn [kassert]. unfold kret at 1.
  unfold kbind at 1. rewrite kmalloc_nil by done. cbn [negb]. unfold kbind at 1. rewrite Hpath.
  unfold kbind at 1, argbuf_fromuser, kbind at 1. rewrite allocate_nil by done. cbn [Z.eqb negb].
  unfold kbind at 1, do_copyin, kbind at 1, kget. cbn [ab_len ab_nargs ab_tooksem argbuf_init].
  rewrite (copyin_run (umem s) _ argv args Hargv) by done. unfold kret at 1.
  change (negb (0 =? E2BIG)) with true. cbv beta iota. unfold kret at 1. cbn [Z.eqb negb].
  unfold kbind at 1, attempt.
  destruct (loadexec_run s a p (cstr kpath) v w1 na w2 entry newmem w3 top w4) as (w & ->); try done.
  unfold kbind at 1, attempt, on_umem. cbn [umem set_umem].
  pose proof Hargv as (ptrs & Hall & _).
  assert (Hcs : Forall is_cstring args).
  { clear -Hall. induction Hall as [|q b ptrs args (_ & ? & _) Hall IH]; constructor; done. }
  destruct (copyout_run args newmem top false PAGE_SIZE Hcs Hbase Htop Hm) as (m' & Hrun & Hat & _).
  replace (add_args (mkab (Some []) 0 PAGE_SIZE 0 false) args)
    with (mkab (Some (flat args)) (Z.of_nat (length (flat args))) PAGE_SIZE (Z.of_nat (length args)) false)
    by (by destruct args).
  rewrite Hrun. unfold argbuf_cleanup, kbind, kret. cbn [ab_tooksem]. eexists. split; [done|].
  split_and!; [exact Hat|cbn; apply lookup_insert_eq|]. intros b Hb. cbn. by rewrite lookup_insert_ne.
Qed.

End spec.

(** ** Concrete states and witnesses *)

(** A loader for which every vnode but the console is a program with a page of
    stack below 8192. *)
#[global] Instance demo_loader : Loader unit := {
  load_elf v w := (if v =? 1 then inl ENOEXEC else inr (4194304, zero_page 8064 128), w);
  as_define_stack a w := (inr 8192, w);
  execthrottle w := 1;
  set_execthrottle n w := w
}.

(** User memory with a path at 4096 and argv = [["hi"]] at 4104. *)
Definition argv_mem : mem :=
  (store_bytes (zero_page 4096 1100) 4096
     ([97; 0; 0; 0; 0; 0; 0; 0] ++ be32 4112 ++ be32 0 ++ [104; 105; 0])).2.

Lemma argv_mem_ok : argv_at argv_mem 4104 [[104; 105]].
Proof.
  exists [4112]. split_and!; [|apply (load_bytes_spec _ _ 8); vm_compute; reflexivity|lia|unfold USERSPACETOP; cbn; lia].
  constructor; [|constructor]. split_and!; [lia|repeat constructor; lia| |unfold USERSPACETOP; cbn; lia].
  apply (load_bytes_spec _ _ 3). vm_compute. reflexivity.
Qed.

Lemma zero_page_mapped a k b n :
  a <= b -> b + n <= a + Z.of_nat k -> mapped (zero_page a k) b n.
Proof.
  intros Ha Hn i Hi. unfold zero_page. apply (list_to_map_is_Some _ _ 0), list_elem_of_fmap.
  exists (Z.to_nat (i - a)). split; [f_equal; lia|]. apply elem_of_seq. lia.
Qed.

Lemma argv_roundtrip_witness :
  exists buf, argbuf_copyin argv_mem (mkab (Some []) 0 PAGE_SIZE 0 false) 4104 = Some (0, buf) /\
    forall m2 top, let base := argv_base top 3 1 in
      0 < base -> top <= USERSPACETOP -> mapped m2 base (top - base) ->
      exists m', argbuf_copyout buf top m2 = Done (base, 1, base) m' /\
        argv_at m' base [[104; 105]] /\ base mod 4 = 0 /\
        (forall x, ~ (base <= x < top) -> m' !! x = m2 !! x).
Proof. apply (argv_roundtrip argv_mem 4104 [[104; 105]]); [apply argv_mem_ok|cbn; unfold PAGE_SIZE; lia]. Defined.

Lemma argbuf_copyin_total_witness :
  exists err buf', argbuf_copyin argv_mem (mkab (Some []) 0 2 0 false) 4104 = Some (err, buf') /\
    0 <= ab_len buf' <= ab_max buf' /\ ab_max buf' = 2.
Proof. apply (argbuf_copyin_total argv_mem (mkab (Some []) 0 2 0 false) 4104). cbn. lia. Defined.

(** argv = [[4095 times "a"; "b"]]. *)
Definition full_mem : mem :=
  (store_bytes (zero_page 4096 4200) 4096
     (be32 4112 ++ be32 8208 ++ be32 0 ++ be32 0 ++ replicate (Z.to_nat 4095) 97 ++ [0; 98; 0])).2.

Lemma full_mem_ok : argv_at full_mem 4096 ([replicate (Z.to_nat 4095) 97] ++ [[98]]).
Proof.
  exists [4112; 8208]. split_and!;
    [|apply (load_bytes_spec _ _ 12); vm_compute; reflexivity|lia|unfold USERSPACETOP; cbn; lia].
  constructor; [|constructor; [|constructor]].
  - split_and!; [lia|apply Forall_replicate; lia| |rewrite length_replicate; unfold USERSPACETOP; lia].
    apply (load_bytes_spec _ _ (Z.to_nat 4096)). vm_compute. reflexivity.
  - split_and!; [lia|repeat constructor; lia| |unfold USERSPACETOP; cbn; lia].
    apply (load_bytes_spec _ _ 2). vm_compute. reflexivity.
Qed.

Lemma argbuf_fromuser_full_witness :
  exists buf, argbuf_fromuser argbuf_init 4096 (set_umem full_mem duo) = Done (EFAULT, buf) (set_umem full_mem duo).
Proof.
  apply (argbuf_fromuser_full (set_umem full_mem duo) 4096 [replicate (Z.to_nat 4095) 97] [98]);
    [reflexivity|exact full_mem_ok|vm_compute; reflexivity].
Defined.

Lemma loadexec_restores_witness :
  loadexec "con:" duo =
  Fail ENOEXEC (set_world (as_destroy 1 (as_activate (p_addrspace duo_p2) (vfs_close 1 tt))) duo).
Proof.
  apply (loadexec_restores duo 102 duo_p2 "con:" 1 tt 1 tt ENOEXEC tt);
    [reflexivity|reflexivity|vm_compute; reflexivity|reflexivity|reflexivity|reflexivity].
Defined.

Lemma sys_execv_spec_witness :
  exists s', sys_execv_SHELL 4096 4104 (set_umem argv_mem duo) =
      Done (1, argv_base 8192 3 1, argv_base 8192 3 1, 4194304) s' /\
    argv_at (umem s') (argv_base 8192 3 1) [[104; 105]] /\
    procs s' !! 102 = Some (p_set_addrspace (Some 1) duo_p2) /\
    (forall b, b <> 102 -> procs s' !! b = procs duo !! b).
Proof.
  apply (sys_execv_spec (set_umem argv_mem duo) 102 duo_p2 4096 2 [97; 0] 4104 [[104; 105]] 2 tt 1 tt
           4194304 (zero_page 8064 128) tt 8192 tt);
    [reflexivity|reflexivity|vm_compute; reflexivity|vm_compute; reflexivity|exact argv_mem_ok
    |cbn; unfold PAGE_SIZE; lia|reflexivity|reflexivity|reflexivity|reflexivity|vm_compute; reflexivity
    |unfold USERSPACETOP; lia|apply zero_page_mapped; vm_compute; discriminate].
Defined.
