(* ===== verification/Dispatch.v ===== *)
(** * System call dispatch, kern/arch/mips/syscall/syscall.c

    [syscall] decodes the registers of the trapframe, calls the handler and
    encodes the result; [enter_forked_process] starts the child of a fork. The
    handlers are those of [FileSyscalls], [ProcSyscalls] and [Exec]. *)

From stdpp Require Import base numbers list gmap strings.
From Stdlib Require Import ZArith Lia.
From S2P Require Import Prelude.
From S2P Require Import UserCopy.
From S2P Require Import KState.
From S2P Require Import ProcTable.
From S2P Require Import FileSyscalls.
From S2P Require Import ProcSyscalls.
From S2P Require Import Exec.

Open Scope Z_scope.
Open Scope k_scope.

(** kern/arch/mips/include/trapframe.h:39-75 (struct trapframe): the registers the
    system call code reads or writes; the other saved registers are [tf_rest]. *)
Record trapframe := mktf {
  tf_v0 : Z; tf_v1 : Z;
  tf_a0 : Z; tf_a1 : Z; tf_a2 : Z; tf_a3 : Z;
  tf_sp : Z; tf_epc : Z;
  tf_rest : list Z
}.

(** kern/include/kern/syscall.h:50-53 (SYS_fork) and further: call numbers. *)
Definition SYS_fork : Z := 0.
Definition SYS_execv : Z := 2.
Definition SYS__exit : Z := 3.
Definition SYS_waitpid : Z := 4.
Definition SYS_getpid : Z := 5.
Definition SYS_open : Z := 45.
Definition SYS_dup2 : Z := 48.
Definition SYS_close : Z := 49.
Definition SYS_read : Z := 50.
Definition SYS_write : Z := 55.
Definition SYS_lseek : Z := 59.
Definition SYS_remove : Z := 68.
Definition SYS_chdir : Z := 74.
Definition SYS___getcwd : Z := 76.
Definition SYS___time : Z := 113.
Definition SYS_reboot : Z := 119.

(** What the dispatcher uses of the machine: the clock and the shutdown code. *)
Class Machine (W : Type) := {
  gettime : W -> (Z * Z) * W;   (* seconds, nanoseconds *)
  shutdown : W -> W
}.

(** How a call that does not fail ends: with two return registers, or by leaving
    the calling program for good. *)
Inductive callres :=
| Value (low32 upp32 : Z)
| Exited (woken : list Z)
| NewProgram (argc argv stack entry : Z)
| MachineDown (code : Z).

(** How [syscall] ends. *)
Inductive sysres :=
| Resume (tf : trapframe)
| NoReturn (r : callres).

Section ops.
Context {W : Type} {HV : Vfs W} {HL : Loader W} {HM : Machine W}.

(** kern/syscall/time_syscalls.c:38-58 (sys___time): a 64-bit and a 32-bit copy. *)
Definition sys___time (user_seconds_ptr user_nanoseconds_ptr : Z) : K (kstate W) Z :=
  ts <- lift_world gettime ;;
  let '(sec, nsec) := ts in
  s <- kget ;;
  let '(e, m) := copyout (umem s) (be32 (Z.shiftr sec 32) ++ be32 sec) user_seconds_ptr in
  kput (set_umem m s) ;;;
  if negb (e =? 0) then kfail e else
  s <- kget ;;
  let '(e, m) := copyout (umem s) (be32 nsec) user_nanoseconds_ptr in
  kput (set_umem m s) ;;;
  if negb (e =? 0) then kfail e else kret 0.

(** kern/main/main.c:179-209 (sys_reboot): it does not come back. *)
Definition sys_reboot (code : Z) : K (kstate W) callres :=
  if negb ((code =? 0) || (code =? 1) || (code =? 2)) then kfail EINVAL else
  lift_world_ shutdown ;;; kret (MachineDown code).

(** [*(int32_t * )p] read by the kernel itself: a fault is fatal. *)
Definition raw_load (p : Z) : K (kstate W) Z :=
  s <- kget ;;
  match load_bytes (umem s) p 4 with
  | Some l => kret (s32 (of_be32 l))
  | None => khalt PanicCall
  end.

(** kern/arch/mips/syscall/syscall.c:172-174 (syscall): the 64-bit position from
    two 32-bit registers. *)
Definition reg_pos (a2 a3 : Z) : Z := Z.lor (s64 (Z.shiftl a2 32)) a3.

(** kern/arch/mips/syscall/syscall.c:108-248 (syscall): the switch. [g] is what
    the memory for the new process of a fork holds. *)
Definition dispatch (g : proc) (tf : trapframe) : K (kstate W) callres :=
  let callno := s32 (tf_v0 tf) in
  let value (m : K (kstate W) Z) := v <- m ;; kret (Value v 0) in
  if callno =? SYS_reboot then sys_reboot (s32 (tf_a0 tf))
  else if callno =? SYS___time then value (sys___time (tf_a0 tf) (tf_a1 tf))
  else if callno =? SYS_write then value (sys_write_SHELL (s32 (tf_a0 tf)) (tf_a1 tf) (tf_a2 tf))
  else if callno =? SYS_read then value (sys_read_SHELL (s32 (tf_a0 tf)) (tf_a1 tf) (tf_a2 tf))
  else if callno =? SYS_open then value (sys_open_SHELL (tf_a0 tf) (s32 (tf_a1 tf)) (tf_a2 tf))
  else if callno =? SYS_close then value (sys_close_SHELL (s32 (tf_a0 tf)))
  else if callno =? SYS_remove then value (sys_remove_SHELL (tf_a0 tf))
  else if callno =? SYS_chdir then value (sys_chdir_SHELL (tf_a0 tf))
  else if callno =? SYS_lseek then
    whence <- raw_load (u32 (tf_sp tf + 16)) ;;
    r <- sys_lseek_SHELL (s32 (tf_a0 tf)) (reg_pos (tf_a2 tf) (tf_a3 tf)) whence ;;
    kret (Value (fst r) (snd r))
  else if callno =? SYS_dup2 then value (sys_dup2_SHELL (s32 (tf_a0 tf)) (s32 (tf_a1 tf)))
  else if callno =? SYS___getcwd then value (sys_getcwd_SHELL (tf_a0 tf) (tf_a1 tf))
  else if callno =? SYS_getpid then value sys_getpid_SHELL
  else if callno =? SYS_waitpid then
    value (sys_waitpid_SHELL (s32 (tf_a0 tf)) (tf_a1 tf) (s32 (tf_a2 tf)))
  else if callno =? SYS__exit then
    woken <- sys_exit_SHELL (s32 (tf_a0 tf)) ;; kret (Exited woken)
  else if callno =? SYS_fork then value (sys_fork_SHELL g)
  else if callno =? SYS_execv then
    r <- sys_execv_SHELL (tf_a0 tf) (tf_a1 tf) ;;
    let '(argc, argv, stack, entry) := r in kret (NewProgram argc argv stack entry)
  else kfail ENOSYS.

(** kern/arch/mips/syscall/syscall.c:82-278 (syscall): the trapframe afterwards. *)
Definition syscall (g : proc) (tf : trapframe) : K (kstate W) sysres :=
  r <- attempt (dispatch g tf) ;;
  match r with
  | inl err =>
      kret (Resume (mktf (u32 err) (tf_v1 tf) (tf_a0 tf) (tf_a1 tf) (tf_a2 tf) 1 (tf_sp tf)
                         (u32 (tf_epc tf + 4)) (tf_rest tf)))
  | inr (Value low32 upp32) =>
      kret (Resume (mktf (u32 low32) (u32 upp32) (tf_a0 tf) (tf_a1 tf) (tf_a2 tf) 0 (tf_sp tf)
                         (u32 (tf_epc tf + 4)) (tf_rest tf)))
  | inr r => kret (NoReturn r)
  end.

(** kern/arch/mips/syscall/syscall.c:288-307 (enter_forked_process): the frame the
    child enters user mode with. *)
Definition enter_forked_process (tf : trapframe) : K (kstate W) trapframe :=
  activate ;;;
  kret (mktf 0 (tf_v1 tf) (tf_a0 tf) (tf_a1 tf) (tf_a2 tf) 0 (tf_sp tf) (u32 (tf_epc tf + 4)) (tf_rest tf)).

End ops.

(** ** Theorems *)

Section spec.
Context {W : Type} {HV : Vfs W} {HL : Loader W} {HM : Machine W}.
Implicit Types s : kstate W.

(** The numbers of the calls that are implemented. *)
Definition implemented : list Z :=
  [SYS_reboot; SYS___time; SYS_write; SYS_read; SYS_open; SYS_close; SYS_remove; SYS_chdir; SYS_lseek;
   SYS_dup2; SYS___getcwd; SYS_getpid; SYS_waitpid; SYS__exit; SYS_fork; SYS_execv].

(** Any system call number that is not implemented is refused: the program
    resumes after the trap with ENOSYS in v0 and the error flag in a3, all other
    registers and the whole kernel state unchanged. *)
Theorem syscall_unknown g tf s :
  s32 (tf_v0 tf) ∉ implemented ->
  syscall g tf s =
  Done (Resume (mktf ENOSYS (tf_v1 tf) (tf_a0 tf) (tf_a1 tf) (tf_a2 tf) 1 (tf_sp tf)
                     (u32 (tf_epc tf + 4)) (tf_rest tf))) s.
Proof.
  intros Hn. unfold syscall, kbind, attempt, dispatch. unfold implemented in Hn.
  repeat (rewrite not_elem_of_cons in Hn; destruct Hn as [?Hne Hn]).
  rewrite !(proj2 (Z.eqb_neq _ _)) by done. unfold kfail, kret. done.
Qed.

Lemma reg_pos_join pos :
  - 2 ^ 63 <= pos < 2 ^ 63 -> reg_pos (u32 (Z.shiftr pos 32)) (u32 pos) = pos.
Proof.
  intros Hp. unfold reg_pos, wrapu. rewrite Z.shiftl_mul_pow2, Z.shiftr_div_pow2 by lia.
  pose proof (Z.div_mod pos (2 ^ 32) ltac:(lia)) as Hd.
  pose proof (Z.mod_pos_bound pos (2 ^ 32) ltac:(lia)) as Hm.
  assert (E : s64 ((pos / 2 ^ 32) mod 2 ^ 32 * 2 ^ 32) = pos / 2 ^ 32 * 2 ^ 32).
  { unfold wraps. pose proof (Z.div_mod (pos / 2 ^ 32) (2 ^ 32) ltac:(lia)) as Hq.
    pose proof (Z.mod_pos_bound (pos / 2 ^ 32) (2 ^ 32) ltac:(lia)).
    assert (- 2 ^ 31 <= pos / 2 ^ 32 < 2 ^ 31)
      by (split; [apply Z.div_le_lower_bound; lia|apply Z.div_lt_upper_bound; lia]).
    replace ((pos / 2 ^ 32) mod 2 ^ 32 * 2 ^ 32 + 2 ^ (64 - 1))
      with (pos / 2 ^ 32 * 2 ^ 32 + 2 ^ 63 + (- (pos / 2 ^ 32 / 2 ^ 32)) * 2 ^ 64) by lia.
    rewrite Z.mod_add by lia. rewrite Z.mod_small by lia. lia. }
  rewrite E, lor_disjoint by lia. lia.
Qed.

(** [lseek] through the registers: the 64-bit position goes in as two words
    in a2 and a3 and comes back as two words in v0 and v1. For a seekable file
    and SEEK_SET on the stack, the program resumes with no error and the words of
    the new position, which is the one it asked for. *)
Theorem syscall_lseek g tf s a p fd o f v pos :
  open_at s a p fd o f v -> vop_isseekable v (world s) = true ->
  s32 (tf_v0 tf) = SYS_lseek -> s32 (tf_a0 tf) = fd ->
  0 <= pos < 2 ^ 63 -> tf_a2 tf = u32 (Z.shiftr pos 32) -> tf_a3 tf = u32 pos ->
  bytes_at (umem s) (u32 (tf_sp tf + 16)) (be32 SEEK_SET) ->
  exists tf', syscall g tf s = Done (Resume tf') (seeked s o f pos) /\
    tf_a3 tf' = 0 /\ tf_v0 tf' * 2 ^ 32 + tf_v1 tf' = pos /\
    tf_epc tf' = u32 (tf_epc tf + 4) /\ tf_sp tf' = tf_sp tf /\ tf_rest tf' = tf_rest tf.
Proof.
  intros Hat Hseek Hno Hfd Hpos H2 H3 Hw. unfold syscall, kbind at 1, attempt, dispatch.
  rewrite Hno, Hfd, H2, H3. cbn [Z.eqb Pos.eqb SYS_lseek SYS_reboot SYS___time SYS_write SYS_read SYS_open
    SYS_close SYS_remove SYS_chdir]. unfold kbind at 1, raw_load. unfold kbind at 1, kget.
  rewrite (proj2 (load_bytes_spec (umem s) (u32 (tf_sp tf + 16)) 4 (be32 SEEK_SET))) by done.
  unfold kret at 1. change (s32 (of_be32 (be32 SEEK_SET))) with SEEK_SET. unfold kbind at 1.
  rewrite reg_pos_join by lia.
  rewrite (lseek_run s a p fd o f v pos SEEK_SET (inr pos) (world s)); [|done|done|apply seek_set_pure; lia].
  unfold kret. cbn [fst snd]. eexists. split; [done|]. cbn [tf_a3 tf_v0 tf_v1 tf_epc tf_sp tf_rest].
  split_and!; try done. pose proof (halves_join pos ltac:(lia)) as Hj. cbn [fst snd] in Hj.
  rewrite (wrapu_small 32 (s32 (Z.shiftr pos 32))); [exact Hj|].
  rewrite Z.shiftr_div_pow2 by lia. rewrite wraps_small.
  - split; [apply Z.div_pos; lia|apply Z.div_lt_upper_bound; lia].
  - lia.
  - split; [apply Z.le_trans with 0; [lia|apply Z.div_pos; lia]|apply Z.div_lt_upper_bound; lia].
Qed.

(** [lseek] fetches its [whence] argument straight from the user stack: with
    a stack pointer whose argument slot is not mapped the kernel stops, whatever
    the other registers hold. *)
Theorem syscall_lseek_bad_stack g tf s :
  s32 (tf_v0 tf) = SYS_lseek -> umem s !! u32 (tf_sp tf + 16) = None ->
  syscall g tf s = Halt PanicCall.
Proof.
  intros Hno Hm. unfold syscall, kbind at 1, attempt, dispatch. rewrite Hno.
  cbn [Z.eqb Pos.eqb SYS_lseek SYS_reboot SYS___time SYS_write SYS_read SYS_open
    SYS_close SYS_remove SYS_chdir]. unfold kbind at 1, raw_load. unfold kbind at 1, kget.
  cbn [load_bytes]. by rewrite Hm.
Qed.

(** A successful fork returns twice: the parent resumes with the child's pid,
    the child with 0, both after the trap instruction, without an error, with the
    same stack pointer, arguments and saved registers. *)
Theorem fork_returns_twice g tf s pid s' :
  s32 (tf_v0 tf) = SYS_fork -> sys_fork_SHELL g s = Done pid s' -> 0 < pid < 2 ^ 31 ->
  exists tfp tfc, syscall g tf s = Done (Resume tfp) s' /\
    (forall s2 a p, curproc s2 = Some a -> procs s2 !! a = Some p ->
       exists s3, enter_forked_process tf s2 = Done tfc s3) /\
    tf_v0 tfp = pid /\ tf_v0 tfc = 0 /\ tf_a3 tfp = 0 /\ tf_a3 tfc = 0 /\
    tf_epc tfp = u32 (tf_epc tf + 4) /\ tf_epc tfc = tf_epc tfp /\ tf_sp tfp = tf_sp tfc /\
    tf_rest tfp = tf_rest tfc /\ tf_a0 tfp = tf_a0 tfc /\ tf_a1 tfp = tf_a1 tfc /\ tf_a2 tfp = tf_a2 tfc.
Proof.
  intros Hno Hfork Hpid. unfold syscall, kbind at 1, attempt, dispatch. rewrite Hno.
  cbn [Z.eqb Pos.eqb SYS_lseek SYS_reboot SYS___time SYS_write SYS_read SYS_open SYS_close SYS_remove
    SYS_chdir SYS_dup2 SYS___getcwd SYS_getpid SYS_waitpid SYS__exit SYS_fork].
  unfold kbind at 1. rewrite Hfork. unfold kret. rewrite (wrapu_small 32 pid) by lia.
  eexists _, (mktf 0 (tf_v1 tf) (tf_a0 tf) (tf_a1 tf) (tf_a2 tf) 0 (tf_sp tf) (u32 (tf_epc tf + 4)) (tf_rest tf)).
  split; [done|]. split; [|split_and!; reflexivity].
  intros s2 a p Hc Hp. unfold enter_forked_process, activate, proc_getas, kbind, kget. rewrite Hc.
  rewrite (proc_read_eq _ _ _ Hp). unfold kret, lift_world_. eauto.
Qed.

End spec.

(** ** Witnesses *)

#[global] Instance demo_machine : Machine unit := { gettime w := ((1000, 5), w); shutdown w := w }.

Lemma syscall_unknown_witness :
  syscall zero_proc (mktf 200 0 1 2 3 4 8192 4096 []) duo =
  Done (Resume (mktf ENOSYS 0 1 2 3 1 8192 (u32 (4096 + 4)) [])) duo.
Proof.
  apply (syscall_unknown zero_proc (mktf 200 0 1 2 3 4 8192 4096 []) duo).
  change (s32 (tf_v0 (mktf 200 0 1 2 3 4 8192 4096 []))) with 200. unfold implemented.
  repeat (rewrite not_elem_of_cons; split; [discriminate|]). apply not_elem_of_nil.
Defined.

Lemma syscall_lseek_witness :
  exists tf', syscall zero_proc (mktf 59 0 3 0 0 40 4100 8192 []) demo3 =
      Done (Resume tf') (seeked demo3 (Sys 0) demo_f 40) /\
    tf_a3 tf' = 0 /\ tf_v0 tf' * 2 ^ 32 + tf_v1 tf' = 40 /\
    tf_epc tf' = u32 (8192 + 4) /\ tf_sp tf' = 4100 /\ tf_rest tf' = [].
Proof.
  apply (syscall_lseek zero_proc (mktf 59 0 3 0 0 40 4100 8192 []) demo3 101 demo_p3 3 (Sys 0) demo_f 2 40);
    [apply demo3_open|reflexivity|reflexivity|reflexivity|lia|reflexivity|reflexivity|].
  apply (load_bytes_spec _ _ 4). vm_compute. reflexivity.
Defined.

Lemma syscall_lseek_bad_stack_witness :
  syscall zero_proc (mktf 59 0 3 0 0 40 0 8192 []) demo3 = Halt PanicCall.
Proof.
  apply (syscall_lseek_bad_stack zero_proc (mktf 59 0 3 0 0 40 0 8192 []) demo3);
    [reflexivity|vm_compute; reflexivity].
Defined.

(** The state in which the fork of [duo] returns. *)
Definition duo_forked : kstate unit :=
  match sys_fork_SHELL zero_proc duo with Done _ s => s | _ => duo end.

Lemma fork_returns_twice_witness :
  exists tfp tfc, syscall zero_proc (mktf 0 0 1 2 3 4 8192 4096 []) duo = Done (Resume tfp) duo_forked /\
    (forall s2 a p, curproc s2 = Some a -> procs s2 !! a = Some p ->
       exists s3, enter_forked_process (mktf 0 0 1 2 3 4 8192 4096 []) s2 = Done tfc s3) /\
    tf_v0 tfp = 3 /\ tf_v0 tfc = 0 /\ tf_a3 tfp = 0 /\ tf_a3 tfc = 0 /\
    tf_epc tfp = u32 (4096 + 4) /\ tf_epc tfc = tf_epc tfp /\ tf_sp tfp = tf_sp tfc /\
    tf_rest tfp = tf_rest tfc /\ tf_a0 tfp = tf_a0 tfc /\ tf_a1 tfp = tf_a1 tfc /\ tf_a2 tfp = tf_a2 tfc.
Proof.
  apply (fork_returns_twice zero_proc (mktf 0 0 1 2 3 4 8192 4096 []) duo 3 duo_forked);
    [reflexivity|vm_compute; reflexivity|lia].
Defined.
