(* ===== verification/Dumbvm.v ===== *)
(** * Physical pages and address spaces, kern/arch/mips/vm/dumbvm.c and ram.c

    The page allocator of the SHELL configuration (a table of free pages in front
    of [ram_stealmem]), address spaces with two regions and a stack, and the TLB
    refill. Physical memory is a function from physical addresses to bytes; the
    kernel reaches it through kseg0, so a kernel virtual address is a physical
    address plus [MIPS_KSEG0]. *)

From stdpp Require Import base numbers list gmap.
From Stdlib Require Import ZArith Lia.
From S2P Require Import Prelude.

Open Scope Z_scope.
Open Scope k_scope.

Definition PAGE_SIZE : Z := 4096.
Definition PAGE_FRAME : Z := 4294963200.   (* 0xfffff000 *)
Definition MIPS_KSEG0 : Z := 2147483648.
Definition USERSTACK : Z := 2147483648.
Definition DUMBVM_STACKPAGES : Z := 18.
Definition NUM_TLB : nat := 64.
Definition TLBLO_DIRTY : Z := 1024.
Definition TLBLO_VALID : Z := 512.

Definition VM_FAULT_READ : Z := 0.
Definition VM_FAULT_WRITE : Z := 1.
Definition VM_FAULT_READONLY : Z := 2.

(** kern/arch/mips/vm/dumbvm.c:79-85 (bitmap_freePages): the allocator's tables,
    with [firstpaddr] and [lastpaddr] of ram.c, physical memory and the TLB. *)
Record vmstate := mkvm {
  freePages : list Z;
  sizePages : list Z;
  active : bool;
  firstpaddr : Z;
  lastpaddr : Z;
  phys : Z -> Z;
  tlb : list (Z * Z)      (* entryhi, entrylo *)
}.

Definition set_free f vm := mkvm (f (freePages vm)) (sizePages vm) (active vm) (firstpaddr vm)
  (lastpaddr vm) (phys vm) (tlb vm).
Definition set_size f vm := mkvm (freePages vm) (f (sizePages vm)) (active vm) (firstpaddr vm)
  (lastpaddr vm) (phys vm) (tlb vm).
Definition set_first x vm := mkvm (freePages vm) (sizePages vm) (active vm) x
  (lastpaddr vm) (phys vm) (tlb vm).
Definition set_phys f vm := mkvm (freePages vm) (sizePages vm) (active vm) (firstpaddr vm)
  (lastpaddr vm) (f (phys vm)) (tlb vm).
Definition set_tlb f vm := mkvm (freePages vm) (sizePages vm) (active vm) (firstpaddr vm)
  (lastpaddr vm) (phys vm) (f (tlb vm)).

(** kern/include/addrspace.h:60-68 (struct addrspace). *)
Record addrspace := mkas {
  as_vbase1 : Z; as_pbase1 : Z; as_npages1 : Z;
  as_vbase2 : Z; as_pbase2 : Z; as_npages2 : Z;
  as_stackpbase : Z
}.

(** ** The page allocator *)

(** kern/arch/mips/vm/ram.c:94-110 (ram_stealmem). *)
Definition ram_stealmem (npages : Z) : K vmstate Z :=
  vm <- kget ;;
  let size := u32 (npages * PAGE_SIZE) in
  if lastpaddr vm <? u32 (firstpaddr vm + size) then kret 0 else
  kput (set_first (u32 (firstpaddr vm + size)) vm) ;;;
  kret (firstpaddr vm).

(** kern/arch/mips/vm/dumbvm.c:111-138 (vm_bootstrap); [ok]: both tables could be
    allocated. *)
Definition vm_bootstrap (ok : bool) : K vmstate unit :=
  vm <- kget ;;
  let number_ram_pages := Z.to_nat (s32 (lastpaddr vm) / PAGE_SIZE) in
  if negb ok then kret tt else
  kput (mkvm (replicate number_ram_pages 0) (replicate number_ram_pages 0) true (firstpaddr vm)
             (lastpaddr vm) (phys vm) (tlb vm)).

(** kern/arch/mips/vm/dumbvm.c:184-200 (getfreeppages): the search over the table
    from index [i] on; [prev] is the entry before. *)
Fixpoint find_run (npages prev : Z) (l : list Z) (i start_tmp : Z) : Z :=
  match l with
  | [] => -1
  | b :: l' =>
      if b =? 0 then find_run npages b l' (i + 1) start_tmp else
      let start_tmp := if (i =? 0) || (prev =? 0) then i else start_tmp in
      if s32 npages <=? i - start_tmp + 1 then start_tmp
      else find_run npages b l' (i + 1) start_tmp
  end.

(** kern/arch/mips/vm/dumbvm.c:204-206 (getfreeppages): entries [i] up to [i+n-1]
    become [x]. *)
Fixpoint fill (n : nat) (i : nat) (x : Z) (l : list Z) : list Z :=
  match n with
  | O => l
  | S n' => fill n' (S i) x (<[i := x]> l)
  end.

(** kern/arch/mips/vm/dumbvm.c:169-217 (getfreeppages). The loop that clears the
    entries starts at 0. *)
Definition getfreeppages (npages : Z) : K vmstate Z :=
  vm <- kget ;;
  if negb (active vm) then kret 0 else
  let start_adr := find_run npages 0 (freePages vm) 0 (-1) in
  if start_adr =? -1 then kret 0 else
  kput (set_size (fun l => <[Z.to_nat start_adr := npages]> l)
    (set_free (fill (Z.to_nat (start_adr + s32 npages)) 0 0) vm)) ;;;
  kret (u32 (start_adr * PAGE_SIZE)).

(** kern/arch/mips/vm/dumbvm.c:227-254 (getppages). *)
Definition getppages (npages : Z) : K vmstate Z :=
  addr <- getfreeppages npages ;;
  addr <- (if addr =? 0 then ram_stealmem npages else kret addr) ;;
  vm <- kget ;;
  if negb (addr =? 0) && active vm then
    if Z.of_nat (length (sizePages vm)) <=? addr / PAGE_SIZE then khalt OutOfBounds else
    kput (set_size (fun l => <[Z.to_nat (addr / PAGE_SIZE) := npages]> l) vm) ;;;
    kret addr
  else kret addr.

(** kern/arch/mips/vm/dumbvm.c:257-268 (alloc_kpages): a kernel virtual address. *)
Definition alloc_kpages (npages : Z) : K vmstate Z :=
  pa <- getppages npages ;;
  if pa =? 0 then kret 0 else kret (u32 (pa + MIPS_KSEG0)).

(** kern/arch/mips/vm/dumbvm.c:278-300 (freeppages). *)
Definition freeppages (paddr size : Z) : K vmstate unit :=
  vm <- kget ;;
  if negb (active vm) then kret tt else
  let start_addr := paddr / PAGE_SIZE in
  let stop := u32 (start_addr + size) in
  if (start_addr <? stop) && (Z.of_nat (length (freePages vm)) <? stop) then khalt OutOfBounds else
  kput (set_free (fill (Z.to_nat (stop - start_addr)) (Z.to_nat start_addr) 1) vm).

(** kern/arch/mips/vm/dumbvm.c:308-326 (free_kpages). *)
Definition free_kpages (addr : Z) : K vmstate unit :=
  vm <- kget ;;
  if negb (active vm) then kret tt else
  let paddr := u32 (addr - MIPS_KSEG0) in
  match sizePages vm !! Z.to_nat (paddr / PAGE_SIZE) with
  | None => khalt OutOfBounds
  | Some size => freeppages paddr size
  end.

(** ** Address spaces *)

(** kern/arch/mips/vm/dumbvm.c:438-455 (as_create); [ok]: memory was found. *)
Definition as_create (ok : bool) : option addrspace :=
  if ok then Some (mkas 0 0 0 0 0 0 0) else None.

(** kern/arch/mips/vm/dumbvm.c:457-462 (as_destroy): only the structure itself is
    freed, no physical page is given back. *)
Definition as_destroy (a : addrspace) : K vmstate unit := kret tt.

(** kern/arch/mips/vm/dumbvm.c:491-530 (as_define_region): error number and result. *)
Definition as_define_region (a : addrspace) (vaddr sz : Z) : Z * addrspace :=
  let sz := u32 (sz + Z.land vaddr (4294967295 - PAGE_FRAME)) in
  let vaddr := Z.land vaddr PAGE_FRAME in
  let sz := Z.land (u32 (sz + PAGE_SIZE - 1)) PAGE_FRAME in
  let npages := sz / PAGE_SIZE in
  if as_vbase1 a =? 0 then
    (0, mkas vaddr (as_pbase1 a) npages (as_vbase2 a) (as_pbase2 a) (as_npages2 a) (as_stackpbase a))
  else if as_vbase2 a =? 0 then
    (0, mkas (as_vbase1 a) (as_pbase1 a) (as_npages1 a) vaddr (as_pbase2 a) npages (as_stackpbase a))
  else (ENOSYS, a).

(** [bzero] and [memmove] on physical memory. *)
Definition bzero (a n : Z) (m : Z -> Z) : Z -> Z :=
  fun x => if (a <=? x) && (x <? a + n) then 0 else m x.

Definition memmove (dst src n : Z) (m : Z -> Z) : Z -> Z :=
  fun x => if (dst <=? x) && (x <? dst + n) then m (src + (x - dst)) else m x.

(** kern/arch/mips/vm/dumbvm.c:532-537 (as_zero_region). *)
Definition as_zero_region (paddr npages : Z) : K vmstate unit :=
  kmodify (set_phys (bzero paddr (u32 (npages * PAGE_SIZE)))).

(** kern/arch/mips/vm/dumbvm.c:539-568 (as_prepare_load): error number and the
    address space, whose fields keep what was assigned before a failure. *)
Definition as_prepare_load (a : addrspace) : K vmstate (Z * addrspace) :=
  kassert (as_pbase1 a =? 0) ;;;
  kassert (as_pbase2 a =? 0) ;;;
  kassert (as_stackpbase a =? 0) ;;;
  p1 <- getppages (as_npages1 a) ;;
  let a := mkas (as_vbase1 a) p1 (as_npages1 a) (as_vbase2 a) (as_pbase2 a) (as_npages2 a) (as_stackpbase a) in
  if p1 =? 0 then kret (ENOMEM, a) else
  p2 <- getppages (as_npages2 a) ;;
  let a := mkas (as_vbase1 a) (as_pbase1 a) (as_npages1 a) (as_vbase2 a) p2 (as_npages2 a) (as_stackpbase a) in
  if p2 =? 0 then kret (ENOMEM, a) else
  p3 <- getppages DUMBVM_STACKPAGES ;;
  let a := mkas (as_vbase1 a) (as_pbase1 a) (as_npages1 a) (as_vbase2 a) (as_pbase2 a) (as_npages2 a) p3 in
  if p3 =? 0 then kret (ENOMEM, a) else
  as_zero_region (as_pbase1 a) (as_npages1 a) ;;;
  as_zero_region (as_pbase2 a) (as_npages2 a) ;;;
  as_zero_region (as_stackpbase a) DUMBVM_STACKPAGES ;;;
  kret (0, a).

(** kern/arch/mips/vm/dumbvm.c:570-576 (as_complete_load). *)
Definition as_complete_load (a : addrspace) : K vmstate unit := kret tt.

(** kern/arch/mips/vm/dumbvm.c:578-585 (as_define_stack). *)
Definition as_define_stack (a : addrspace) : K vmstate Z :=
  kassert (negb (as_stackpbase a =? 0)) ;;; kret USERSTACK.

(** kern/arch/mips/vm/dumbvm.c:587-628 (as_copy); [ok]: [as_create] found memory. *)
Definition as_copy (ok : bool) (old : addrspace) : K vmstate addrspace :=
  match as_create ok with
  | None => kfail ENOMEM
  | Some new =>
      r <- as_prepare_load (mkas (as_vbase1 old) 0 (as_npages1 old) (as_vbase2 old) 0 (as_npages2 old) 0) ;;
      let '(err, new) := r in
      if negb (err =? 0) then kfail ENOMEM else
      kassert (negb (as_pbase1 new =? 0)) ;;;
      kassert (negb (as_pbase2 new =? 0)) ;;;
      kassert (negb (as_stackpbase new =? 0)) ;;;
      kmodify (set_phys (memmove (as_pbase1 new) (as_pbase1 old) (u32 (as_npages1 old * PAGE_SIZE)))) ;;;
      kmodify (set_phys (memmove (as_pbase2 new) (as_pbase2 old) (u32 (as_npages2 old * PAGE_SIZE)))) ;;;
      kmodify (set_phys (memmove (as_stackpbase new) (as_stackpbase old) (DUMBVM_STACKPAGES * PAGE_SIZE))) ;;;
      kret new
  end.

(** ** Address translation *)

(** kern/arch/mips/vm/dumbvm.c:394-412 (vm_fault): the physical page of a virtual
    page. *)
Definition translate (a : addrspace) (faultaddress : Z) : option Z :=
  let vtop1 := u32 (as_vbase1 a + as_npages1 a * PAGE_SIZE) in
  let vtop2 := u32 (as_vbase2 a + as_npages2 a * PAGE_SIZE) in
  let stackbase := USERSTACK - DUMBVM_STACKPAGES * PAGE_SIZE in
  if (as_vbase1 a <=? faultaddress) && (faultaddress <? vtop1)
  then Some (u32 (faultaddress - as_vbase1 a + as_pbase1 a))
  else if (as_vbase2 a <=? faultaddress) && (faultaddress <? vtop2)
  then Some (u32 (faultaddress - as_vbase2 a + as_pbase2 a))
  else if (stackbase <=? faultaddress) && (faultaddress <? USERSTACK)
  then Some (u32 (faultaddress - stackbase + as_stackpbase a))
  else None.

(** The assertions of [vm_fault] on the address space. *)
Definition as_valid (a : addrspace) : bool :=
  negb (as_vbase1 a =? 0) && negb (as_pbase1 a =? 0) && negb (as_npages1 a =? 0) &&
  negb (as_vbase2 a =? 0) && negb (as_pbase2 a =? 0) && negb (as_npages2 a =? 0) &&
  negb (as_stackpbase a =? 0) &&
  (Z.land (as_vbase1 a) PAGE_FRAME =? as_vbase1 a) && (Z.land (as_pbase1 a) PAGE_FRAME =? as_pbase1 a) &&
  (Z.land (as_vbase2 a) PAGE_FRAME =? as_vbase2 a) && (Z.land (as_pbase2 a) PAGE_FRAME =? as_pbase2 a) &&
  (Z.land (as_stackpbase a) PAGE_FRAME =? as_stackpbase a).

(** kern/arch/mips/vm/dumbvm.c:420-431 (vm_fault): the first invalid TLB entry gets
    the mapping; [None] when every entry is valid. *)
Fixpoint tlb_refill (ehi elo : Z) (l : list (Z * Z)) : option (list (Z * Z)) :=
  match l with
  | [] => None
  | (h, e) :: l' =>
      if Z.land e TLBLO_VALID =? 0 then Some ((ehi, elo) :: l')
      else match tlb_refill ehi elo l' with
           | None => None
           | Some r => Some ((h, e) :: r)
           end
  end.

(** kern/arch/mips/vm/dumbvm.c:337-436 (vm_fault). [cur] is the current process's
    address space, [None] when there is no process or it has none. *)
Definition vm_fault (cur : option addrspace) (faulttype faultaddress : Z) : K vmstate unit :=
  let faultaddress := Z.land faultaddress PAGE_FRAME in
  if faulttype =? VM_FAULT_READONLY then khalt PanicCall else
  if negb ((faulttype =? VM_FAULT_READ) || (faulttype =? VM_FAULT_WRITE)) then kfail EINVAL else
  match cur with
  | None => kfail EFAULT
  | Some a =>
      kassert (as_valid a) ;;;
      match translate a faultaddress with
      | None => kfail EFAULT
      | Some paddr =>
          kassert (Z.land paddr PAGE_FRAME =? paddr) ;;;
          vm <- kget ;;
          match tlb_refill faultaddress (Z.lor (Z.lor paddr TLBLO_DIRTY) TLBLO_VALID) (tlb vm) with
          | None => kfail EFAULT
          | Some t => kput (set_tlb (fun _ => t) vm)
          end
      end
  end.

(** kern/arch/mips/vm/dumbvm.c:464-483 (as_activate): every TLB entry becomes
    invalid. *)
Definition as_activate (cur : option addrspace) : K vmstate unit :=
  match cur with
  | None => kret tt
  | Some _ => kmodify (set_tlb (fun l => imap (fun i _ => ((524288 + Z.of_nat i) * 4096, 0)) l))
  end.

(** ** Searching and filling the table *)

(** Page [k] is free in the table [L]. *)
Definition is_free (L : list Z) (k : Z) : Prop :=
  0 <= k /\ exists x, L !! Z.to_nat k = Some x /\ x <> 0.

Definition free_run (L : list Z) (s n : Z) : Prop :=
  0 <= s /\ forall k, s <= k < s + n -> is_free L k.

Lemma is_free_length L k : is_free L k -> 0 <= k < Z.of_nat (length L).
Proof. intros [H0 (x & E & _)]. apply lookup_lt_Some in E. lia. Qed.

(** The state of the search at index [i]. *)
Definition run_inv (L : list Z) (n prev i start : Z) : Prop :=
  (forall s, s + n <= i -> ~ free_run L s n) /\
  (prev <> 0 -> 0 <= start < i /\ i - start < n /\
                (forall k, start <= k < i -> is_free L k) /\ ~ is_free L (start - 1)) /\
  (0 < i -> prev = 0 -> ~ is_free L (i - 1)).

Lemma find_run_gen n L : 0 < n < 2 ^ 31 ->
  forall l done prev start,
  L = done ++ l -> run_inv L n prev (Z.of_nat (length done)) start ->
  (Z.of_nat (length done) = 0 -> prev = 0) ->
  let r := find_run n prev l (Z.of_nat (length done)) start in
  (r = -1 /\ forall s, ~ free_run L s n) \/ (0 <= r /\ free_run L r n).
Proof.
  intros Hn. assert (En : s32 n = n) by (apply wraps_small; lia).
  induction l as [|b l IH]; intros done prev start EL (Hno & Hrun & Hgap) Hz; cbn zeta; cbn [find_run].
  - left. split; [done|]. intros s Hs. apply (Hno s); [|done].
    destruct (is_free_length L (s + n - 1)); [apply Hs; lia|].
    rewrite EL, app_nil_r in *. lia.
  - assert (Eb : L !! Z.to_nat (Z.of_nat (length done)) = Some b).
    { rewrite Nat2Z.id, EL. apply list_lookup_middle. done. }
    set (i := Z.of_nat (length done)) in *.
    assert (Hi : 0 <= i) by lia.
    assert (Ei : Z.of_nat (length (done ++ [b])) = i + 1) by (rewrite length_app; cbn; lia).
    destruct (b =? 0) eqn:Ebz; bool_to_prop.
    + assert (Hnb : ~ is_free L i) by (intros (_ & x & E & ?); congruence).
      rewrite <- Ei. apply IH; [by rewrite EL, <- app_assoc| |lia]. rewrite Ei. split_and!.
      * intros s Hs Hr. destruct (decide (s + n <= i)) as [Hle|]; [by apply (Hno s Hle)|].
        apply Hnb, Hr. lia.
      * lia.
      * intros _ _. by replace (i + 1 - 1) with i by lia.
    + assert (Hb : is_free L i) by (split; [lia|eauto]).
      set (st := if ((i =? 0) || (prev =? 0))%bool then i else start).
      assert (Hst : 0 <= st <= i /\ (forall k, st <= k <= i -> is_free L k) /\ ~ is_free L (st - 1)).
      { unfold st. destruct (i =? 0) eqn:E0; [|destruct (prev =? 0) eqn:Ep]; bool_to_prop; cbn [orb].
        - split_and!; [lia|lia|intros k Hk; by replace k with i by lia|intros [? _]; lia].
        - split_and!; [lia|lia|intros k Hk; by replace k with i by lia|apply Hgap; [lia|done]].
        - destruct (Hrun Ep) as (? & ? & Hf & Hm). split_and!; [lia|lia| |done].
          intros k Hk. destruct (decide (k = i)) as [->|]; [done|apply Hf; lia]. }
      destruct Hst as (Hst0 & Hfr & Hm). rewrite En.
      destruct (n <=? i - st + 1) eqn:Ele; bool_to_prop.
      * right. split; [lia|]. assert (Esn : i - st + 1 = n).
        { destruct (decide (i - st + 1 = n)) as [|Hne]; [done|exfalso].
          apply (Hno st); [lia|]. split; [lia|]. intros k Hk. apply Hfr. lia. }
        split; [lia|]. intros k Hk. apply Hfr. lia.
      * rewrite <- Ei. apply IH; [by rewrite EL, <- app_assoc| |lia]. rewrite Ei. split_and!.
        -- intros s Hs Hr. destruct (decide (s + n <= i)) as [Hle|]; [by apply (Hno s Hle)|].
           apply Hm. apply Hr. lia.
        -- intros _. split_and!; [lia|lia|lia| |done]. intros k Hk. apply Hfr. lia.
        -- lia.
Qed.

Lemma find_run_spec n L : 0 < n < 2 ^ 31 ->
  let r := find_run n 0 L 0 (-1) in
  (r = -1 /\ forall s, ~ free_run L s n) \/ (0 <= r /\ free_run L r n).
Proof.
  intros Hn. apply (find_run_gen n L Hn L [] 0 (-1)); [done| |done].
  split_and!; cbn; try lia. intros s Hs [H0 _]. lia.
Qed.

Lemma fill_length n i x l : length (fill n i x l) = length l.
Proof. revert i l. induction n as [|n IH]; intros i l; cbn; [done|]. by rewrite IH, length_insert. Qed.

Lemma fill_lookup n i x l j :
  fill n i x l !! j =
  if decide (i <= j < i + n)%nat then (if decide (j < length l)%nat then Some x else None) else l !! j.
Proof.
  revert i l. induction n as [|n IH]; intros i l; cbn [fill].
  - rewrite decide_False by lia. done.
  - rewrite IH, length_insert.
    destruct (decide (i = j)) as [->|Hne].
    + rewrite decide_False by lia. destruct (decide (j <= j < j + S n)%nat); [|lia].
      case_decide; [by rewrite list_lookup_insert_eq|].
      apply lookup_ge_None. rewrite length_insert. lia.
    + rewrite list_lookup_insert_ne by done.
      repeat case_decide; try lia; done.
Qed.

(** ** The allocator's invariant

    [live] maps the first page of each block handed out since the tables became
    active to its number of pages. Pages the table calls free lie below
    [firstpaddr] and outside every live block; live blocks are pairwise disjoint
    and their sizes are recorded. *)
Record vm_ok (live : gmap Z Z) (vm : vmstate) : Prop := {
  ok_active : active vm = true;
  ok_len_free : Z.of_nat (length (freePages vm)) = lastpaddr vm / PAGE_SIZE;
  ok_len_size : Z.of_nat (length (sizePages vm)) = lastpaddr vm / PAGE_SIZE;
  ok_first : 0 < firstpaddr vm <= lastpaddr vm /\ firstpaddr vm mod PAGE_SIZE = 0;
  ok_last : lastpaddr vm <= 2 ^ 29;
  ok_free : forall k, is_free (freePages vm) k -> 0 < k < firstpaddr vm / PAGE_SIZE;
  ok_live : forall p n, live !! p = Some n ->
    0 < p /\ 0 < n /\ p + n <= firstpaddr vm / PAGE_SIZE /\
    sizePages vm !! Z.to_nat p = Some n /\
    forall k, p <= k < p + n -> ~ is_free (freePages vm) k;
  ok_disjoint : forall p n q m, live !! p = Some n -> live !! q = Some m -> p <> q ->
    p + n <= q \/ q + m <= p
}.

(** What no page operation changes. *)
Definition same_frame (vm vm' : vmstate) : Prop :=
  phys vm' = phys vm /\ tlb vm' = tlb vm /\ lastpaddr vm' = lastpaddr vm.

Lemma is_free_fill0 m L k : is_free (fill m 0 0 L) k <-> is_free L k /\ Z.of_nat m <= k.
Proof.
  unfold is_free. rewrite fill_lookup. split.
  - intros [H0 (x & E & Hx)]. destruct (decide (0 <= Z.to_nat k < 0 + m)%nat); [|eauto with lia].
    destruct (decide (Z.to_nat k < length L)%nat); congruence.
  - intros [[H0 (x & E & Hx)] Hm]. rewrite decide_False by lia. eauto.
Qed.

Lemma is_free_fill1 m i L k : (i + m <= length L)%nat ->
  is_free (fill m i 1 L) k <-> is_free L k \/ Z.of_nat i <= k < Z.of_nat (i + m).
Proof.
  intros Hl. unfold is_free. rewrite fill_lookup. split.
  - intros [H0 (x & E & Hx)]. destruct (decide (i <= Z.to_nat k < i + m)%nat); [right; lia|eauto].
  - intros H. destruct (decide (i <= Z.to_nat k < i + m)%nat) as [Hd|Hd].
    + rewrite decide_True by lia. split; [destruct H as [[? _]|?]; lia|]. exists 1. done.
    + destruct H as [[H0 H]|H]; [done|lia].
Qed.

Lemma pages_mul k : k * PAGE_SIZE / PAGE_SIZE = k.
Proof. apply Z.div_mul. done. Qed.

(** A block of [n] pages at [p] that no live block and no other free page touches
    becomes live. *)
Lemma vm_ok_take live vm p n free' :
  vm_ok live vm -> 0 < p -> 0 < n -> p + n <= firstpaddr vm / PAGE_SIZE ->
  (forall k, p <= k < p + n -> forall q m, live !! q = Some m -> ~ q <= k < q + m) ->
  length free' = length (freePages vm) ->
  (forall k, is_free free' k -> is_free (freePages vm) k /\ ~ p <= k < p + n) ->
  vm_ok (<[p := n]> live)
    (set_size (fun l => <[Z.to_nat p := n]> l) (set_free (fun _ => free') vm)).
Proof.
  intros [Ha Hlf Hls Hf Hl Hfr Hlv Hd] Hp Hn Hpn Hsep Hlen Hfree.
  assert (Hpl : (Z.to_nat p < length (sizePages vm))%nat).
  { assert (firstpaddr vm / PAGE_SIZE <= lastpaddr vm / PAGE_SIZE) by (apply Z.div_le_mono; [done|lia]). lia. }
  split; cbn.
  - done.
  - by rewrite Hlen.
  - by rewrite length_insert.
  - done.
  - done.
  - intros k Hk. apply Hfr. by apply Hfree.
  - intros q m Hq. apply lookup_insert_Some in Hq as [[<- <-]|[Hne Hq]].
    + split_and!; try lia; [by apply list_lookup_insert_eq|].
      intros k Hk F. by apply Hfree in F as [_ []].
    + destruct (Hlv q m Hq) as (Hq0 & Hm0 & Hqm & Es & Hnf). split_and!; try done.
      * rewrite list_lookup_insert_ne by lia. done.
      * intros k Hk F. apply (Hnf k Hk). by apply Hfree.
  - assert (Hpq : forall q m, live !! q = Some m -> p <> q -> p + n <= q \/ q + m <= p).
    { intros q m Hq Hne. destruct (Hlv q m Hq) as (? & ? & _).
      destruct (decide (p < q)) as [|].
      - destruct (decide (p + n <= q)) as [|]; [lia|]. exfalso. apply (Hsep q) with q m; [lia|done|lia].
      - destruct (decide (q + m <= p)) as [|]; [lia|]. exfalso. apply (Hsep p) with q m; [lia|done|lia]. }
    intros q m q' m' Hq Hq' Hne.
    apply lookup_insert_Some in Hq as [[<- <-]|[Hne1 Hq]];
      apply lookup_insert_Some in Hq' as [[<- <-]|[Hne2 Hq']]; [done| | |].
    + by apply Hpq.
    + destruct (Hpq q m); [done|lia|lia|lia].
    + by apply (Hd q m q' m').
Qed.

Lemma getfreeppages_ok live vm n :
  vm_ok live vm -> 0 < n <= 2 ^ 19 ->
  (getfreeppages n vm = Done 0 vm /\ forall s, ~ free_run (freePages vm) s n) \/
  (exists p vm', getfreeppages n vm = Done (p * PAGE_SIZE) vm' /\ 0 < p /\
     free_run (freePages vm) p n /\ vm_ok (<[p := n]> live) vm' /\ same_frame vm vm' /\
     firstpaddr vm' = firstpaddr vm /\
     (forall k, is_free (freePages vm') k <-> is_free (freePages vm) k /\ p + n <= k)).
Proof.
  intros Hok Hn. unfold getfreeppages. kunfold. rewrite (ok_active _ _ Hok). cbn [negb].
  assert (En : s32 n = n) by (apply wraps_small; lia).
  destruct (find_run_spec n (freePages vm)) as [[Er Hno]|[Hr Hrun]]; [lia| |].
  - left. rewrite Er. done.
  - right. set (p := find_run n 0 (freePages vm) 0 (-1)) in *.
    assert (Hp0 : 0 < p) by (destruct (ok_free _ _ Hok p); [apply Hrun; lia|done]).
    assert (Hpn : p + n <= firstpaddr vm / PAGE_SIZE).
    { destruct (ok_free _ _ Hok (p + n - 1)); [apply Hrun; lia|lia]. }
    assert (Hmul : p * PAGE_SIZE < 2 ^ 32).
    { destruct (ok_first _ _ Hok) as [? _]. pose proof (ok_last _ _ Hok).
      pose proof (Z.mul_div_le (firstpaddr vm) PAGE_SIZE ltac:(done)). unfold PAGE_SIZE in *. lia. }
    destruct (p =? -1) eqn:E; bool_to_prop; [lia|].
    eexists p, _. rewrite wrapu_small by (unfold PAGE_SIZE in *; lia).
    assert (Hfree : forall k, is_free (fill (Z.to_nat (p + n)) 0 0 (freePages vm)) k <->
                              is_free (freePages vm) k /\ p + n <= k).
    { intros k. rewrite is_free_fill0. by rewrite Z2Nat.id by lia. }
    rewrite En. split_and!; [done|done|done| |done|done|done].
    apply (vm_ok_take live vm p n (fill (Z.to_nat (p + n)) 0 0 (freePages vm))); try done; try lia.
    + intros k Hk q m Hq Hin. destruct (ok_live _ _ Hok q m Hq) as (_ & _ & _ & _ & Hnf).
      apply (Hnf k Hin). apply Hrun. lia.
    + apply fill_length.
    + intros k Hk. apply Hfree in Hk as [? ?]. split; [done|lia].
Qed.

Lemma ram_stealmem_ok live vm n :
  vm_ok live vm -> 0 < n <= 2 ^ 19 ->
  (ram_stealmem n vm = Done 0 vm /\ lastpaddr vm < firstpaddr vm + n * PAGE_SIZE) \/
  (exists p vm', ram_stealmem n vm = Done (p * PAGE_SIZE) vm' /\ 0 < p /\
     firstpaddr vm = p * PAGE_SIZE /\ vm' = set_first (firstpaddr vm + n * PAGE_SIZE) vm /\
     firstpaddr vm + n * PAGE_SIZE <= lastpaddr vm).
Proof.
  intros Hok Hn. destruct (ok_first _ _ Hok) as [Hf Hm]. pose proof (ok_last _ _ Hok).
  apply Z_div_exact_full_2 in Hm; [|done].
  unfold ram_stealmem. kunfold. unfold PAGE_SIZE in *.
  rewrite (wrapu_small 32 (n * 4096)), wrapu_small by lia.
  destruct (lastpaddr vm <? firstpaddr vm + n * 4096) eqn:E; bool_to_prop; [by left|right].
  exists (firstpaddr vm / 4096). eexists. split_and!; [|lia|lia|done|done].
  f_equal. lia.
Qed.

(** Pages taken from the end of the used memory. *)
Lemma vm_ok_steal live vm p n :
  vm_ok live vm -> 0 < n -> firstpaddr vm = p * PAGE_SIZE -> firstpaddr vm + n * PAGE_SIZE <= lastpaddr vm ->
  vm_ok live (set_first (firstpaddr vm + n * PAGE_SIZE) vm).
Proof.
  intros [Ha Hlf Hls [Hf Hm] Hl Hfr Hlv Hd] Hn Ep Hle. unfold PAGE_SIZE in *.
  assert (firstpaddr vm / 4096 <= (firstpaddr vm + n * 4096) / 4096) by (apply Z.div_le_mono; lia).
  split; cbn; try done.
  - split; [lia|]. unfold PAGE_SIZE. rewrite Ep, <- Z.mul_add_distr_r. apply Z_mod_mult.
  - intros k Hk. apply Hfr in Hk. unfold PAGE_SIZE. lia.
  - intros q m Hq. destruct (Hlv q m Hq) as (? & ? & ? & ? & ?). unfold PAGE_SIZE. split_and!; try done. lia.
Qed.

(** The whole behaviour of [getppages] in terms of the invariant. *)
Lemma getppages_ok live vm n :
  vm_ok live vm -> 0 < n <= 2 ^ 19 ->
  (getppages n vm = Done 0 vm /\ (forall s, ~ free_run (freePages vm) s n) /\
     lastpaddr vm < firstpaddr vm + n * PAGE_SIZE) \/
  (exists p vm', getppages n vm = Done (p * PAGE_SIZE) vm' /\ 0 < p /\ live !! p = None /\
     vm_ok (<[p := n]> live) vm' /\ same_frame vm vm' /\
     (forall k, is_free (freePages vm') k -> is_free (freePages vm) k)).
Proof.
  intros Hok Hn. unfold getppages. kunfold.
  destruct (getfreeppages_ok live vm n Hok Hn) as [[-> Hno]|(p & vm1 & -> & Hp & Hrun & Hok1 & Hsf & Hfp & Hfr)].
  - cbn [Z.eqb]. destruct (ram_stealmem_ok live vm n Hok Hn) as [[-> Hfull]|(p & vm1 & -> & Hp & Ep & -> & Hle)].
    + left. cbn. done.
    + right. pose proof (vm_ok_steal live vm p n Hok ltac:(lia) Ep Hle) as Hok1.
      pose proof (ok_len_size _ _ Hok1) as Hlen. cbn [sizePages lastpaddr set_first] in Hlen.
      cbn [active sizePages set_first].
      rewrite (ok_active _ _ Hok). rewrite pages_mul.
      assert (Hpl : p + n <= lastpaddr vm / PAGE_SIZE).
      { apply Z.div_le_lower_bound; [done|]. lia. }
      assert (Ezp : (p * PAGE_SIZE =? 0) = false) by (apply Z.eqb_neq; unfold PAGE_SIZE; lia).
      rewrite Ezp. cbn [negb andb].
      destruct (Z.of_nat (length (sizePages vm)) <=? p) eqn:E; bool_to_prop; [lia|].
      assert (Hfd : forall q m, live !! q = Some m -> q + m <= p).
      { intros q m Hq. destruct (ok_live _ _ Hok q m Hq) as (_ & _ & Hqm & _).
        by rewrite Ep, pages_mul in Hqm. }
      eexists p, _. split_and!; [done|done| | |done|done].
      * destruct (live !! p) as [m|] eqn:Ei; [|done]. destruct (ok_live _ _ Hok p m Ei) as (_ & ? & _).
        apply Hfd in Ei. lia.
      * apply (vm_ok_take live (set_first (firstpaddr vm + n * PAGE_SIZE) vm) p n (freePages vm)); try done; try lia; cbn [firstpaddr set_first freePages].
        -- rewrite Ep. rewrite <- Z.mul_add_distr_r, pages_mul. lia.
        -- intros k Hk q m Hq Hin. apply Hfd in Hq. lia.
        -- intros k Hk. split; [done|]. apply (ok_free _ _ Hok) in Hk. rewrite Ep, pages_mul in Hk. lia.
  - right. assert (Ezp : (p * PAGE_SIZE =? 0) = false) by (apply Z.eqb_neq; unfold PAGE_SIZE; lia).
    rewrite Ezp. cbn beta iota. rewrite Ezp, (ok_active _ _ Hok1), pages_mul. cbn [negb andb].
    destruct (ok_live _ _ Hok1 p n ltac:(by rewrite lookup_insert_eq)) as (_ & _ & _ & Es & _).
    pose proof (lookup_lt_Some _ _ _ Es).
    destruct (Z.of_nat (length (sizePages vm1)) <=? p) eqn:E; bool_to_prop; [lia|].
    eexists p, vm1. split_and!; [|done| |done|done|].
    + f_equal. destruct vm1; unfold set_size; cbn in *. by rewrite list_insert_id.
    + destruct (live !! p) as [m|] eqn:Ei; [|done]. destruct (ok_live _ _ Hok p m Ei) as (_ & ? & _ & _ & Hnf).
      exfalso. apply (Hnf p); [lia|]. apply Hrun. lia.
    + intros k Hk. by apply Hfr in Hk as [? _].
Qed.

Lemma alloc_kpages_ok (live : gmap Z Z) (vm : vmstate) (n : Z) : vm_ok live vm -> 0 < n <= 2 ^ 19 ->
  (alloc_kpages n vm = Done 0 vm /\ (forall s, ~ free_run (freePages vm) s n) /\
     lastpaddr vm < firstpaddr vm + n * PAGE_SIZE) \/
  (exists p vm', alloc_kpages n vm = Done (MIPS_KSEG0 + p * PAGE_SIZE) vm' /\ live !! p = None /\
     vm_ok (<[p := n]> live) vm' /\ same_frame vm vm' /\
     forall q m, live !! q = Some m -> p + n <= q \/ q + m <= p).
Proof.
  intros Hok Hn. unfold alloc_kpages. kunfold.
  destruct (getppages_ok live vm n Hok Hn) as [(-> & Hno & Hfull)|(p & vm' & -> & Hp & Hnone & Hok' & Hsf & _)].
  - by left.
  - right. exists p, vm'.
    destruct (ok_live _ _ Hok' p n (lookup_insert_eq live p n)) as (_ & _ & Hle & _).
    pose proof (ok_last _ _ Hok'). destruct (ok_first _ _ Hok') as [Hf _].
    assert (0 < p * PAGE_SIZE < 2 ^ 29).
    { unfold PAGE_SIZE in *. pose proof (Z.mul_div_le (firstpaddr vm') 4096 ltac:(lia)). lia. }
    destruct (p * PAGE_SIZE =? 0) eqn:E; bool_to_prop; [lia|].
    split_and!; [|done|done|done|].
    + rewrite wrapu_small by (unfold MIPS_KSEG0; lia). by rewrite Z.add_comm.
    + intros q m Hq. assert (p <> q) by congruence.
      apply (ok_disjoint _ _ Hok' p n q m); [by rewrite lookup_insert_eq|by rewrite lookup_insert_ne|done].
Qed.

Lemma free_kpages_ok (live : gmap Z Z) (vm : vmstate) (p n : Z)
    (Hok : vm_ok live vm) (Hp : live !! p = Some n) :
  exists vm', free_kpages (MIPS_KSEG0 + p * PAGE_SIZE) vm = Done tt vm' /\
    vm_ok (delete p live) vm' /\ same_frame vm vm' /\
    (forall k, is_free (freePages vm') k <-> is_free (freePages vm) k \/ p <= k < p + n) /\
    forall m, 0 < m <= n -> exists a vm'', getppages m vm' = Done a vm'' /\ a <> 0.
Proof.
  destruct (ok_live _ _ Hok p n Hp) as (Hp0 & Hn0 & Hpn & Es & Hnf).
  pose proof (ok_last _ _ Hok) as Hl. destruct (ok_first _ _ Hok) as [Hf Hfm].
  pose proof (ok_len_free _ _ Hok) as Hlf.
  assert (Hdiv : firstpaddr vm / PAGE_SIZE <= lastpaddr vm / PAGE_SIZE <= 2 ^ 17).
  { split; [apply Z.div_le_mono; [done|lia]|apply Z.div_le_upper_bound; [done|unfold PAGE_SIZE; lia]]. }
  set (vm' := set_free (fill (Z.to_nat n) (Z.to_nat p) 1) vm).
  assert (Hfree : forall k, is_free (freePages vm') k <-> is_free (freePages vm) k \/ p <= k < p + n).
  { intros k. cbn. rewrite is_free_fill1 by lia.
    by rewrite Nat2Z.inj_add, !Z2Nat.id by lia. }
  assert (Hok' : vm_ok (delete p live) vm').
  { destruct Hok as [Ha Hlf' Hls _ _ Hfr Hlv Hd]. split; try done.
    - cbn. by rewrite fill_length.
    - intros k Hk. apply Hfree in Hk as [Hk|Hk]; [by apply Hfr|cbn; lia].
    - intros q m Hq. apply lookup_delete_Some in Hq as [Hne Hq].
      destruct (Hlv q m Hq) as (? & ? & ? & ? & Hnq). split_and!; try done.
      intros k Hk Fk. apply Hfree in Fk as [Fk|Fk]; [by apply (Hnq k)|].
      destruct (Hd p n q m); [done|done|done|lia|lia].
    - intros q m q' m' Hq Hq'. apply lookup_delete_Some in Hq as [? Hq].
      apply lookup_delete_Some in Hq' as [? Hq']. by apply Hd. }
  exists vm'. split_and!; try done.
  - unfold free_kpages, freeppages. kunfold. rewrite (ok_active _ _ Hok). cbn [negb].
    replace (MIPS_KSEG0 + p * PAGE_SIZE - MIPS_KSEG0) with (p * PAGE_SIZE) by lia.
    rewrite (wrapu_small 32 (p * PAGE_SIZE)) by (unfold PAGE_SIZE in *; lia).
    rewrite pages_mul, Es, (ok_active _ _ Hok). cbn [negb]. rewrite wrapu_small by lia.
    destruct (p <? p + n) eqn:E1; bool_to_prop; [|lia].
    destruct (Z.of_nat (length (freePages vm)) <? p + n) eqn:E2; bool_to_prop; [lia|].
    cbn [andb]. by replace (p + n - p) with n by lia.
  - intros m Hm. destruct (getppages_ok (delete p live) vm' m Hok') as [(_ & Hno & _)|(a & vm'' & E & Ha & _)]; [lia| |].
    + exfalso. apply (Hno p). split; [lia|]. intros k Hk. apply Hfree. lia.
    + exists (a * PAGE_SIZE), vm''. split; [done|unfold PAGE_SIZE; lia].
Qed.

(** C24. Page allocation. In a state where the live blocks are disjoint and recorded,
    [alloc_kpages] of 1 to 2^19 pages either returns 0 and changes nothing, and then
    no run of that many free pages exists and the memory never used is too small; or
    it returns the kernel address of a block that overlaps no live block, and the
    invariant holds with the block added. Memory contents and TLB stay as they are. *)
Theorem alloc_kpages_spec (live : gmap Z Z) (vm : vmstate) (n : Z)
    (Hok : vm_ok live vm) (Hn : 0 < n <= 2 ^ 19) :
  (alloc_kpages n vm = Done 0 vm /\ (forall s, ~ free_run (freePages vm) s n) /\
     lastpaddr vm < firstpaddr vm + n * PAGE_SIZE) \/
  (exists p vm', alloc_kpages n vm = Done (MIPS_KSEG0 + p * PAGE_SIZE) vm' /\
     vm_ok (<[p := n]> live) vm' /\ same_frame vm vm' /\
     forall q m, live !! q = Some m -> p + n <= q \/ q + m <= p).
Proof.
  destruct (alloc_kpages_ok live vm n Hok Hn) as [?|(p & vm' & E & _ & Hr)]; [by left|right]. by exists p, vm'.
Qed.

(** Freeing. [free_kpages] on the kernel address of a live block ends normally,
    removes exactly that block from the live ones, makes exactly its pages free, and
    after it an allocation of up to that many pages succeeds. *)
Theorem free_kpages_spec (live : gmap Z Z) (vm : vmstate) (p n : Z)
    (Hok : vm_ok live vm) (Hp : live !! p = Some n) :
  exists vm', free_kpages (MIPS_KSEG0 + p * PAGE_SIZE) vm = Done tt vm' /\
    vm_ok (delete p live) vm' /\ same_frame vm vm' /\
    (forall k, is_free (freePages vm') k <-> is_free (freePages vm) k \/ p <= k < p + n) /\
    forall m, 0 < m <= n -> exists a vm'', getppages m vm' = Done a vm'' /\ a <> 0.
Proof. exact (free_kpages_ok live vm p n Hok Hp). Qed.

(** The allocator forgets pages: when [getfreeppages] finds a run of [n] pages, it
    marks every page from page 0 up to the end of the run as not free, so pages that
    were free below the run are neither live nor free afterwards. *)
Theorem getfreeppages_forgets (live : gmap Z Z) (vm vm' : vmstate) (n a k : Z)
    (Hok : vm_ok live vm) (Hn : 0 < n <= 2 ^ 19)
    (Hget : getfreeppages n vm = Done a vm') (Ha : a <> 0)
    (Hk : is_free (freePages vm) k) (Hbelow : k * PAGE_SIZE < a) :
  ~ is_free (freePages vm') k /\
  forall q m, (<[a / PAGE_SIZE := n]> live) !! q = Some m -> ~ q <= k < q + m.
Proof.
  destruct (getfreeppages_ok live vm n Hok Hn) as [[E _]|(p & vm1 & E & Hp & Hrun & Hok1 & _ & _ & Hfr)];
    rewrite E in Hget; injection Hget as <- <-; [done|].
  rewrite pages_mul. unfold PAGE_SIZE in Hbelow. split.
  - intros F. apply Hfr in F as [_ ?]. lia.
  - intros q m Hq Hin. apply lookup_insert_Some in Hq as [[<- <-]|[_ Hq]]; [lia|].
    destruct (ok_live _ _ Hok q m Hq) as (_ & _ & _ & _ & Hnf). by apply (Hnf k Hin).
Qed.

(** [vm_bootstrap] establishes the invariant with no live block. *)
Lemma vm_bootstrap_ok (vm : vmstate) :
  0 < firstpaddr vm <= lastpaddr vm -> firstpaddr vm mod PAGE_SIZE = 0 -> lastpaddr vm <= 2 ^ 29 ->
  exists vm', vm_bootstrap true vm = Done tt vm' /\ vm_ok ∅ vm'.
Proof.
  intros Hf Hm Hl. unfold vm_bootstrap. kunfold. cbn [negb].
  assert (0 <= lastpaddr vm / PAGE_SIZE) by (apply Z.div_pos; [lia|done]).
  rewrite (wraps_small 32) by lia. eexists. split; [done|]. split; cbn; try done.
  - rewrite length_replicate. lia.
  - rewrite length_replicate. lia.
  - intros k [_ (x & E & Hx)]. apply lookup_replicate in E as [-> _]. done.
Qed.

(** ** Copying an address space *)

(** Address [x] lies in the block of [n] pages at page [p]. *)
Definition in_block (p n x : Z) : Prop := p * PAGE_SIZE <= x < (p + n) * PAGE_SIZE.

(** The three regions of [a] are live blocks and do not wrap around the end of the
    address range. *)
Record as_ok (live : gmap Z Z) (a : addrspace) (p1 p2 p3 : Z) : Prop := {
  as_ok_p : as_pbase1 a = p1 * PAGE_SIZE /\ as_pbase2 a = p2 * PAGE_SIZE /\ as_stackpbase a = p3 * PAGE_SIZE;
  as_ok_l : live !! p1 = Some (as_npages1 a) /\ live !! p2 = Some (as_npages2 a) /\
            live !! p3 = Some DUMBVM_STACKPAGES;
  as_ok_v : 0 <= as_vbase1 a /\ as_vbase1 a + as_npages1 a * PAGE_SIZE < 2 ^ 32 /\
            0 <= as_vbase2 a /\ as_vbase2 a + as_npages2 a * PAGE_SIZE < 2 ^ 32;
  as_ok_ne : p1 <> p2 /\ p1 <> p3 /\ p2 <> p3
}.

Lemma live_range live vm p n x : vm_ok live vm -> live !! p = Some n -> in_block p n x ->
  0 < x < 2 ^ 29.
Proof.
  intros Hok Hp [H1 H2]. destruct (ok_live _ _ Hok p n Hp) as (? & ? & Hpn & _).
  pose proof (ok_last _ _ Hok). destruct (ok_first _ _ Hok) as [? _].
  pose proof (Z.mul_div_le (firstpaddr vm) PAGE_SIZE ltac:(done)). unfold PAGE_SIZE in *. lia.
Qed.

Lemma live_npages live vm p n : vm_ok live vm -> live !! p = Some n -> 0 < n <= 2 ^ 17.
Proof.
  intros Hok Hp. destruct (ok_live _ _ Hok p n Hp) as (? & ? & Hpn & _).
  pose proof (ok_last _ _ Hok). destruct (ok_first _ _ Hok) as [? _].
  pose proof (Z.mul_div_le (firstpaddr vm) PAGE_SIZE ltac:(done)). unfold PAGE_SIZE in *. lia.
Qed.

Lemma live_sep live vm p n q m x : vm_ok live vm -> live !! p = Some n -> live !! q = Some m ->
  p <> q -> in_block p n x -> ~ in_block q m x.
Proof.
  intros Hok Hp Hq Hne Hx Hy. unfold in_block, PAGE_SIZE in *.
  destruct (ok_disjoint _ _ Hok p n q m); [done|done|done|lia|lia].
Qed.

(** A translated address lies in one of the three blocks, at the offset the virtual
    address has in its region. *)
Lemma translate_ok live vm a p1 p2 p3 va pa :
  vm_ok live vm -> as_ok live a p1 p2 p3 -> translate a va = Some pa ->
  exists p n, live !! p = Some n /\ in_block p n pa /\ (p = p1 \/ p = p2 \/ p = p3).
Proof.
  intros Hok [(E1 & E2 & E3) (L1 & L2 & L3) (V1 & W1 & V2 & W2) _] Ht.
  pose proof (live_npages _ _ _ _ Hok L1). pose proof (live_npages _ _ _ _ Hok L2).
  assert (Hr : forall p n, live !! p = Some n -> 0 < p * PAGE_SIZE /\ (p + n) * PAGE_SIZE <= 2 ^ 29).
  { intros p n Hp. pose proof (live_npages _ _ _ _ Hok Hp).
    pose proof (live_range _ _ _ _ (p * PAGE_SIZE) Hok Hp).
    pose proof (live_range _ _ _ _ ((p + n) * PAGE_SIZE - 1) Hok Hp).
    unfold in_block, PAGE_SIZE in *. lia. }
  pose proof (Hr _ _ L1). pose proof (Hr _ _ L2). pose proof (Hr _ _ L3).
  unfold translate in Ht. rewrite E1, E2, E3 in Ht.
  rewrite (wrapu_small 32 (as_vbase1 a + _)) in Ht by (unfold PAGE_SIZE in *; lia).
  rewrite (wrapu_small 32 (as_vbase2 a + _)) in Ht by (unfold PAGE_SIZE in *; lia).
  unfold in_block, PAGE_SIZE, USERSTACK, DUMBVM_STACKPAGES in *.
  repeat case_hyp Ht; bool_to_prop; try done; injection Ht as <-; rewrite wrapu_small by lia.
  - exists p1, (as_npages1 a). split_and!; [done|lia|lia|auto].
  - exists p2, (as_npages2 a). split_and!; [done|lia|lia|auto].
  - exists p3, 18. split_and!; [done|lia|lia|auto].
Qed.

Lemma bzero_out p n m x : ~ in_block p n x -> bzero (p * PAGE_SIZE) (n * PAGE_SIZE) m x = m x.
Proof.
  unfold in_block, bzero. intros H. destruct (_ && _)%bool eqn:E; [|done]. bool_to_prop.
  exfalso. apply H. unfold PAGE_SIZE in *. lia.
Qed.

Lemma bzero_in p n m x : in_block p n x -> bzero (p * PAGE_SIZE) (n * PAGE_SIZE) m x = 0.
Proof.
  unfold in_block, bzero. intros H. destruct (_ && _)%bool eqn:E; [done|]. apply andb_false_iff in E as [E|E]; bool_to_prop; unfold PAGE_SIZE in *; lia.
Qed.

Lemma bzero_zero a n m x : m x = 0 -> bzero a n m x = 0.
Proof. unfold bzero. by destruct (_ && _)%bool. Qed.

Lemma memmove_out p src n m x : ~ in_block p n x ->
  memmove (p * PAGE_SIZE) src (n * PAGE_SIZE) m x = m x.
Proof.
  unfold in_block, memmove. intros H. destruct (_ && _)%bool eqn:E; [|done]. bool_to_prop.
  exfalso. apply H. unfold PAGE_SIZE in *. lia.
Qed.

Lemma memmove_in p src n m off : 0 <= off < n * PAGE_SIZE ->
  memmove (p * PAGE_SIZE) src (n * PAGE_SIZE) m (p * PAGE_SIZE + off) = m (src + off).
Proof.
  intros H. unfold memmove. destruct (_ && _)%bool eqn:E.
  - f_equal. lia.
  - apply andb_false_iff in E as [E|E]; bool_to_prop; unfold PAGE_SIZE in *; lia.
Qed.

Lemma vm_ok_phys live vm f : vm_ok live vm -> vm_ok live (set_phys f vm).
Proof. by intros []. Qed.

(** Compute the projections of an address space under construction. *)
Ltac asproj :=
  unfold kassert, kret; cbn beta iota;
  cbn [as_vbase1 as_pbase1 as_npages1 as_vbase2 as_pbase2 as_npages2 as_stackpbase Z.eqb negb].

(** The three blocks of a new address space. *)
Lemma as_prepare_load_ok live vm v1 n1 v2 n2 :
  vm_ok live vm -> 0 < n1 <= 2 ^ 19 -> 0 < n2 <= 2 ^ 19 ->
  (exists vm' live' a, as_prepare_load (mkas v1 0 n1 v2 0 n2 0) vm = Done (ENOMEM, a) vm' /\
     phys vm' = phys vm /\ vm_ok live' vm' /\ live ⊆ live') \/
  (exists p1 p2 p3 vm', let a := mkas v1 (p1 * PAGE_SIZE) n1 v2 (p2 * PAGE_SIZE) n2 (p3 * PAGE_SIZE) in
     as_prepare_load (mkas v1 0 n1 v2 0 n2 0) vm = Done (0, a) vm' /\
     0 < p1 /\ 0 < p2 /\ 0 < p3 /\
     live !! p1 = None /\ <[p1 := n1]> live !! p2 = None /\ <[p2 := n2]> (<[p1 := n1]> live) !! p3 = None /\
     vm_ok (<[p3 := DUMBVM_STACKPAGES]> (<[p2 := n2]> (<[p1 := n1]> live))) vm' /\
     (forall x, ~ in_block p1 n1 x -> ~ in_block p2 n2 x -> ~ in_block p3 DUMBVM_STACKPAGES x ->
       phys vm' x = phys vm x) /\
     (forall x, in_block p1 n1 x \/ in_block p2 n2 x \/ in_block p3 DUMBVM_STACKPAGES x -> phys vm' x = 0) /\
     tlb vm' = tlb vm).
Proof.
  intros Hok Hn1 Hn2. unfold as_prepare_load, as_zero_region. kunfold. asproj. unfold kret.
  assert (Hnz : forall p, 0 < p -> (p * PAGE_SIZE =? 0) = false) by (intros p Hp; apply Z.eqb_neq; unfold PAGE_SIZE; lia).
  destruct (getppages_ok live vm n1 Hok Hn1) as [(-> & _)|(p1 & vm1 & -> & Hp1 & N1 & Hok1 & (F1 & T1 & _) & _)].
  { left. cbn. eexists vm, live, _. split_and!; done. }
  asproj. rewrite Hnz by done. asproj.
  destruct (getppages_ok _ vm1 n2 Hok1 Hn2) as [(-> & _)|(p2 & vm2 & -> & Hp2 & N2 & Hok2 & (F2 & T2 & _) & _)].
  { left. cbn. eexists vm1, _, _. split_and!; [done|done|exact Hok1|by apply insert_subseteq]. }
  asproj. rewrite Hnz by done. asproj.
  destruct (getppages_ok _ vm2 DUMBVM_STACKPAGES Hok2 ltac:(by unfold DUMBVM_STACKPAGES))
    as [(-> & _)|(p3 & vm3 & -> & Hp3 & N3 & Hok3 & (F3 & T3 & _) & _)].
  { left. cbn. eexists vm2, _, _. split_and!; [done|congruence|exact Hok2|].
    etrans; by apply insert_subseteq. }
  asproj. rewrite Hnz by done. asproj.
  right. eexists p1, p2, p3, _. split_and!; [done|done|done|done|done|done|done|by do 3 apply vm_ok_phys| | |cbn; congruence];
    cbn [phys set_phys];
    (assert (Hw : forall n, 0 < n <= 2 ^ 19 -> u32 (n * PAGE_SIZE) = n * PAGE_SIZE)
       by (intros n Hn; apply wrapu_small; unfold PAGE_SIZE; lia));
    rewrite !Hw by (done || by unfold DUMBVM_STACKPAGES).
  - intros x X1 X2 X3. rewrite !bzero_out by done. congruence.
  - intros x [X|[X|X]]; [do 2 apply bzero_zero|apply bzero_zero|]; by apply bzero_in.
Qed.

Lemma u32_pages n : 0 < n <= 2 ^ 19 -> u32 (n * PAGE_SIZE) = n * PAGE_SIZE.
Proof. intros. apply wrapu_small. unfold PAGE_SIZE. lia. Qed.

(** Copying three pairwise disjoint blocks to three fresh ones: each new block holds
    what the old one held, addresses outside the new blocks keep their contents. *)
Lemma copy_blocks (live : gmap Z Z) vm m0 p1 p2 p3 q1 q2 q3 n1 n2 n3 :
  vm_ok live vm ->
  live !! p1 = Some n1 -> live !! p2 = Some n2 -> live !! p3 = Some n3 ->
  live !! q1 = Some n1 -> live !! q2 = Some n2 -> live !! q3 = Some n3 ->
  q1 <> q2 -> q1 <> q3 -> q2 <> q3 ->
  (forall p, p = p1 \/ p = p2 \/ p = p3 -> forall q, q = q1 \/ q = q2 \/ q = q3 -> p <> q) ->
  let m := memmove (q3 * PAGE_SIZE) (p3 * PAGE_SIZE) (n3 * PAGE_SIZE)
            (memmove (q2 * PAGE_SIZE) (p2 * PAGE_SIZE) (n2 * PAGE_SIZE)
              (memmove (q1 * PAGE_SIZE) (p1 * PAGE_SIZE) (n1 * PAGE_SIZE) m0)) in
  (forall off, 0 <= off < n1 * PAGE_SIZE -> m (q1 * PAGE_SIZE + off) = m0 (p1 * PAGE_SIZE + off)) /\
  (forall off, 0 <= off < n2 * PAGE_SIZE -> m (q2 * PAGE_SIZE + off) = m0 (p2 * PAGE_SIZE + off)) /\
  (forall off, 0 <= off < n3 * PAGE_SIZE -> m (q3 * PAGE_SIZE + off) = m0 (p3 * PAGE_SIZE + off)) /\
  (forall x, ~ in_block q1 n1 x -> ~ in_block q2 n2 x -> ~ in_block q3 n3 x -> m x = m0 x).
Proof.
  intros Hok L1 L2 L3 M1 M2 M3 D12 D13 D23 Hpq m.
  assert (Hin : forall p n off, 0 <= off < n * PAGE_SIZE -> in_block p n (p * PAGE_SIZE + off))
    by (intros; unfold in_block, PAGE_SIZE in *; lia).
  assert (Hsep : forall p n q k x, live !! p = Some n -> live !! q = Some k -> p <> q ->
            in_block p n x -> ~ in_block q k x) by (intros p n q k x; by apply (live_sep live vm)).
  unfold m. split_and!.
  - intros off Ho. rewrite !memmove_out by (eapply Hsep; [exact M1|done|done|by apply Hin]).
    by apply memmove_in.
  - intros off Ho. rewrite memmove_out by (eapply Hsep; [exact M2|done|done|by apply Hin]).
    rewrite memmove_in by done.
    rewrite memmove_out by (eapply Hsep; [exact L2|done|apply Hpq; auto|by apply Hin]). done.
  - intros off Ho. rewrite memmove_in by done.
    rewrite !memmove_out by (eapply Hsep; [exact L3|done|apply Hpq; auto|by apply Hin]). done.
  - intros x X1 X2 X3. by rewrite !memmove_out.
Qed.

(** Three fresh blocks added to the live ones. *)
Lemma fresh_three (live : gmap Z Z) q1 q2 q3 n1 n2 n3 :
  live !! q1 = None -> <[q1 := n1]> live !! q2 = None -> <[q2 := n2]> (<[q1 := n1]> live) !! q3 = None ->
  let live' := <[q3 := n3]> (<[q2 := n2]> (<[q1 := n1]> live)) in
  live ⊆ live' /\ live' !! q1 = Some n1 /\ live' !! q2 = Some n2 /\ live' !! q3 = Some n3 /\
  (q1 <> q2 /\ q1 <> q3 /\ q2 <> q3) /\
  (forall p n q, live !! p = Some n -> q = q1 \/ q = q2 \/ q = q3 -> p <> q).
Proof.
  intros N1 N2 N3 live'. pose proof N2 as [N2' Q12]%lookup_insert_None.
  pose proof N3 as [[N3' Q13]%lookup_insert_None Q23]%lookup_insert_None. unfold live'. split_and!; try done.
  - etrans; [by apply (insert_subseteq live q1 n1)|]. etrans; by apply insert_subseteq.
  - rewrite !lookup_insert_ne by done. apply lookup_insert_eq.
  - rewrite lookup_insert_ne by done. apply lookup_insert_eq.
  - apply lookup_insert_eq.
  - intros p n q Hp [->|[->| ->]] ->; congruence.
Qed.

(** The addresses [a] and [b] with the same regions translate. *)
Lemma translate_pair live vm a b p1 p2 p3 q1 q2 q3 va :
  vm_ok live vm -> as_ok live a p1 p2 p3 -> as_ok live b q1 q2 q3 ->
  as_vbase1 b = as_vbase1 a -> as_vbase2 b = as_vbase2 a ->
  as_npages1 b = as_npages1 a -> as_npages2 b = as_npages2 a ->
  (translate a va = None /\ translate b va = None) \/
  (exists p q n off, translate a va = Some (p * PAGE_SIZE + off) /\ translate b va = Some (q * PAGE_SIZE + off) /\
     0 <= off < n * PAGE_SIZE /\
     ((p, q, n) = (p1, q1, as_npages1 a) \/ (p, q, n) = (p2, q2, as_npages2 a) \/ (p, q, n) = (p3, q3, DUMBVM_STACKPAGES))).
Proof.
  intros Hok [(E1 & E2 & E3) (L1 & L2 & L3) (V1 & W1 & V2 & W2) _] [(G1 & G2 & G3) (M1 & M2 & M3) _ _] B1 B2 C1 C2.
  assert (Hr : forall p n off, live !! p = Some n -> 0 <= off < n * PAGE_SIZE -> u32 (off + p * PAGE_SIZE) = p * PAGE_SIZE + off).
  { intros p n off Hp Ho. pose proof (live_range _ _ _ _ (p * PAGE_SIZE + off) Hok Hp).
    rewrite Z.add_comm. apply wrapu_small. unfold in_block, PAGE_SIZE in *. lia. }
  pose proof (live_npages _ _ _ _ Hok L1). pose proof (live_npages _ _ _ _ Hok L2).
  unfold translate. rewrite E1, E2, E3, G1, G2, G3, B1, B2, C1, C2.
  rewrite (wrapu_small 32 (as_vbase1 a + _)) by (unfold PAGE_SIZE in *; lia).
  rewrite (wrapu_small 32 (as_vbase2 a + _)) by (unfold PAGE_SIZE in *; lia).
  rewrite C1 in M1. rewrite C2 in M2.
  destruct ((as_vbase1 a <=? va) && (va <? as_vbase1 a + as_npages1 a * PAGE_SIZE))%bool eqn:T1; bool_to_prop.
  { right. exists p1, q1, (as_npages1 a), (va - as_vbase1 a).
    rewrite (Hr p1 (as_npages1 a)), (Hr q1 (as_npages1 a)) by (done || lia). split_and!; auto; lia. }
  destruct ((as_vbase2 a <=? va) && (va <? as_vbase2 a + as_npages2 a * PAGE_SIZE))%bool eqn:T2; bool_to_prop.
  { right. exists p2, q2, (as_npages2 a), (va - as_vbase2 a).
    rewrite (Hr p2 (as_npages2 a)), (Hr q2 (as_npages2 a)) by (done || lia). split_and!; auto; lia. }
  destruct ((USERSTACK - DUMBVM_STACKPAGES * PAGE_SIZE <=? va) && (va <? USERSTACK))%bool eqn:T3; bool_to_prop; [right|by left].
  exists p3, q3, DUMBVM_STACKPAGES, (va - (USERSTACK - DUMBVM_STACKPAGES * PAGE_SIZE)).
  rewrite (Hr p3 DUMBVM_STACKPAGES), (Hr q3 DUMBVM_STACKPAGES) by (done || lia). split_and!; auto; lia.
Qed.

(** C25. Copying an address space, as [fork] does. Either memory is short: [ENOMEM],
    no byte of memory changes and the old blocks stay live; or the copy translates
    exactly the addresses the original does, to bytes with the same contents; the
    original's contents are unchanged; and no address of the copy shares a byte with
    any address of the original, so neither process sees the other's later writes. *)
Theorem as_copy_spec (live : gmap Z Z) (vm : vmstate) (old : addrspace) (p1 p2 p3 : Z)
    (Hok : vm_ok live vm) (Has : as_ok live old p1 p2 p3) :
  (exists vm' live', as_copy true old vm = Fail ENOMEM vm' /\ phys vm' = phys vm /\
     vm_ok live' vm' /\ live ⊆ live') \/
  (exists new q1 q2 q3 vm' live', as_copy true old vm = Done new vm' /\
     vm_ok live' vm' /\ live ⊆ live' /\ as_ok live' new q1 q2 q3 /\
     (forall va, translate old va = None /\ translate new va = None \/
        exists pa pa', translate old va = Some pa /\ translate new va = Some pa' /\
          phys vm' pa' = phys vm pa /\ phys vm' pa = phys vm pa) /\
     (forall va va' pa pa', translate old va = Some pa -> translate new va' = Some pa' -> pa <> pa')).
Proof.
  pose proof Has as Has0. destruct Has0 as [(E1 & E2 & E3) (L1 & L2 & L3) Hv (D12 & D13 & D23)].
  pose proof (live_npages _ _ _ _ Hok L1) as B1. pose proof (live_npages _ _ _ _ Hok L2) as B2.
  unfold as_copy. cbn [as_create]. kunfold.
  destruct (as_prepare_load_ok live vm (as_vbase1 old) (as_npages1 old) (as_vbase2 old) (as_npages2 old) Hok)
    as [(vm' & live' & a & -> & Hph & Hok' & Hsub)|(q1 & q2 & q3 & vm1 & -> & Q1 & Q2 & Q3 & N1 & N2 & N3 & Hok1 & Hout & _)];
    [lia|lia| |].
  { left. eexists vm', live'. cbn. split_and!; done. }
  right. asproj.
  assert (Hnz : forall p, 0 < p -> (p * PAGE_SIZE =? 0) = false) by (intros p Hp; apply Z.eqb_neq; unfold PAGE_SIZE; lia).
  rewrite !Hnz by done. asproj. rewrite !u32_pages by lia. rewrite E1, E2, E3.
  destruct (fresh_three live q1 q2 q3 _ _ DUMBVM_STACKPAGES N1 N2 N3) as (Hsub & M1 & M2 & M3 & Q & Hne).
  set (live' := <[q3 := DUMBVM_STACKPAGES]> (<[q2 := as_npages2 old]> (<[q1 := as_npages1 old]> live))) in *.
  pose proof (fun p n (H : live !! p = Some n) => lookup_weaken _ _ _ _ H Hsub) as Hw.
  assert (Hne' : forall p, p = p1 \/ p = p2 \/ p = p3 -> forall q, q = q1 \/ q = q2 \/ q = q3 -> p <> q).
  { intros p [->|[->| ->]] q; by eapply Hne. }
  destruct (copy_blocks live' vm1 (phys vm1) p1 p2 p3 q1 q2 q3 _ _ _ Hok1 (Hw _ _ L1) (Hw _ _ L2) (Hw _ _ L3) M1 M2 M3)
    as (C1 & C2 & C3 & Cout); [apply Q|apply Q|apply Q|done|].
  assert (Hasold : as_ok live' old p1 p2 p3) by (split; auto).
  eexists _, q1, q2, q3, _, live'.
  assert (Hasnew : as_ok live' (mkas (as_vbase1 old) (q1 * PAGE_SIZE) (as_npages1 old) (as_vbase2 old)
            (q2 * PAGE_SIZE) (as_npages2 old) (q3 * PAGE_SIZE)) q1 q2 q3) by (split; cbn; auto).
  assert (Hkeep : forall p n x, (p = p1 \/ p = p2 \/ p = p3) -> live' !! p = Some n -> in_block p n x ->
            ~ in_block q1 (as_npages1 old) x /\ ~ in_block q2 (as_npages2 old) x /\ ~ in_block q3 DUMBVM_STACKPAGES x).
  { intros p n x Hp Lp Hx. split_and!; apply (live_sep live' vm1 p n); auto. }
  split_and!; [done|by repeat apply vm_ok_phys|done|exact Hasnew| |].
  - intros va. cbn [phys set_phys].
    destruct (translate_pair live' vm1 old _ p1 p2 p3 q1 q2 q3 va Hok1 Hasold Hasnew)
      as [?|(p & q & n & off & T & T' & Ho & Hpqn)]; [done|done|done|done|by left|right].
    exists (p * PAGE_SIZE + off), (q * PAGE_SIZE + off).
    assert (Hlp : live' !! p = Some n /\ (p = p1 \/ p = p2 \/ p = p3))
      by (destruct Hpqn as [[= -> -> ->]|[[= -> -> ->]|[= -> -> ->]]]; auto).
    destruct (Hkeep p n (p * PAGE_SIZE + off)) as (X1 & X2 & X3); [apply Hlp|apply Hlp|unfold in_block, PAGE_SIZE in *; lia|].
    split_and!; [done|done| |rewrite Cout by done; by apply Hout].
    rewrite <- (Hout (p * PAGE_SIZE + off)) by done.
    destruct Hpqn as [[= -> -> ->]|[[= -> -> ->]|[= -> -> ->]]]; auto.
  - intros va va' pa pa' T T' <-.
    destruct (translate_ok _ _ _ _ _ _ _ _ Hok1 Hasold T) as (p & n & Lp & Bp & Ip).
    destruct (translate_ok _ _ _ _ _ _ _ _ Hok1 Hasnew T') as (q & m & Lq & Bq & Iq).
    by apply (live_sep live' vm1 p n q m pa); auto.
Qed.

(** ** Address translation *)

(** The lookup the processor makes in the TLB: the valid entry of the page, with the
    page offset added. *)
Fixpoint tlb_lookup (l : list (Z * Z)) (va : Z) : option Z :=
  match l with
  | [] => None
  | (h, e) :: l' =>
      if negb (Z.land e TLBLO_VALID =? 0) && (Z.land h PAGE_FRAME =? Z.land va PAGE_FRAME)
      then Some (Z.land e PAGE_FRAME + va mod PAGE_SIZE)
      else tlb_lookup l' va
  end.

Lemma land_frame x : 0 <= x < 2 ^ 32 -> Z.land x PAGE_FRAME = x / PAGE_SIZE * PAGE_SIZE.
Proof.
  intros Hx. change PAGE_FRAME with (Z.ldiff (Z.ones 32) (Z.ones 12)).
  change PAGE_SIZE with (2 ^ 12).
  rewrite <- (Z.shiftr_div_pow2 x 12), <- (Z.shiftl_mul_pow2 _ 12), <- (Z.ldiff_ones_r x 12) by done.
  apply Z.bits_inj'. intros i Hi. rewrite Z.land_spec, !Z.ldiff_spec.
  destruct (Z.lt_ge_cases i 32).
  - rewrite (Z.ones_spec_low 32) by lia. by rewrite andb_true_l.
  - replace (Z.testbit x i) with false; [done|].
    rewrite <- (Z.mod_small x (2 ^ 32)) by lia. by rewrite Z.mod_pow2_bits_high.
Qed.

(** The entry written for a page-aligned physical address. *)
Lemma elo_spec k : 0 <= k -> k * PAGE_SIZE < 2 ^ 32 ->
  let elo := Z.lor (Z.lor (k * PAGE_SIZE) TLBLO_DIRTY) TLBLO_VALID in
  (Z.land elo TLBLO_VALID =? 0) = false /\ Z.land elo PAGE_FRAME = k * PAGE_SIZE.
Proof.
  intros Hk Hb elo. assert (E : elo = k * PAGE_SIZE + 1536).
  { unfold elo. rewrite <- Z.lor_assoc. change PAGE_SIZE with (2 ^ 12). by apply lor_disjoint. }
  split.
  - unfold elo. rewrite Z.land_lor_distr_l. change (Z.land TLBLO_VALID TLBLO_VALID) with 512.
    apply Z.eqb_neq. intros F. apply Z.lor_eq_0_iff in F as [_ F]. done.
  - rewrite E. unfold PAGE_SIZE in *. rewrite land_frame by lia. unfold PAGE_SIZE.
    rewrite Z.div_add_l by done. change (1536 / 4096) with 0. lia.
Qed.

Lemma tlb_refill_spec ehi elo l l' :
  tlb_refill ehi elo l = Some l' ->
  (Z.land elo TLBLO_VALID =? 0) = false ->
  length l' = length l /\
  forall va, tlb_lookup l va = None \/ Z.land va PAGE_FRAME <> Z.land ehi PAGE_FRAME ->
    tlb_lookup l' va = if Z.land va PAGE_FRAME =? Z.land ehi PAGE_FRAME
                       then Some (Z.land elo PAGE_FRAME + va mod PAGE_SIZE) else tlb_lookup l va.
Proof.
  intros Hr He. revert l' Hr. induction l as [|[h e] l IH]; intros l' Hr; cbn in Hr; [done|].
  destruct (Z.land e TLBLO_VALID =? 0) eqn:Ee.
  - injection Hr as <-. split; [done|]. intros va Hva. cbn. rewrite He, Ee. cbn [negb andb].
    rewrite Z.eqb_sym. done.
  - destruct (tlb_refill ehi elo l) as [r|]; [|done]. injection Hr as <-.
    destruct (IH r eq_refl) as [Hl IHva]. split; [cbn; lia|]. intros va Hva. cbn in *. rewrite Ee in *. cbn [negb andb] in *.
    destruct (Z.land h PAGE_FRAME =? Z.land va PAGE_FRAME) eqn:Eh; [|by apply IHva].
    destruct Hva as [?|Hva]; [done|]. destruct (Z.land va PAGE_FRAME =? _) eqn:Ev; [bool_to_prop; done|done].
Qed.

Lemma tlb_refill_None ehi elo l :
  tlb_refill ehi elo l = None <-> Forall (fun en => Z.land en.2 TLBLO_VALID <> 0) l.
Proof.
  induction l as [|[h e] l IH]; cbn; [by split|].
  rewrite Forall_cons. cbn. destruct (Z.land e TLBLO_VALID =? 0) eqn:E; bool_to_prop.
  - split; [done|]. by intros [? _].
  - destruct (tlb_refill ehi elo l); rewrite <- IH; naive_solver.
Qed.

Lemma frame_split x : 0 <= x < 2 ^ 32 ->
  exists k, Z.land x PAGE_FRAME = k * PAGE_SIZE /\ x = k * PAGE_SIZE + x mod PAGE_SIZE /\
            0 <= k /\ 0 <= x mod PAGE_SIZE < PAGE_SIZE.
Proof.
  intros Hx. exists (x / PAGE_SIZE). rewrite land_frame by done.
  pose proof (Z.div_mod x PAGE_SIZE ltac:(done)). pose proof (Z.mod_pos_bound x PAGE_SIZE ltac:(done)).
  pose proof (Z.div_pos x PAGE_SIZE ltac:(lia) ltac:(done)). split_and!; lia.
Qed.

(** Page-aligned bases: an address is translated with the offset of its page. *)
Lemma translate_page live vm a p1 p2 p3 va :
  vm_ok live vm -> as_ok live a p1 p2 p3 -> as_valid a = true -> 0 <= va < 2 ^ 32 ->
  (translate a va = None /\ translate a (Z.land va PAGE_FRAME) = None) \/
  (exists k, translate a (Z.land va PAGE_FRAME) = Some (k * PAGE_SIZE) /\
             translate a va = Some (k * PAGE_SIZE + va mod PAGE_SIZE) /\ 0 < k /\ k * PAGE_SIZE < 2 ^ 29).
Proof.
  intros Hok [(E1 & E2 & E3) (L1 & L2 & L3) (V1 & W1 & V2 & W2) _] Hval Hva.
  pose proof (live_npages _ _ _ _ Hok L1). pose proof (live_npages _ _ _ _ Hok L2).
  unfold as_valid in Hval. bool_to_prop.
  destruct (frame_split (as_vbase1 a)) as (b1 & F1 & _); [unfold PAGE_SIZE in *; lia|].
  destruct (frame_split (as_vbase2 a)) as (b2 & F2 & _); [unfold PAGE_SIZE in *; lia|].
  destruct (frame_split va Hva) as (k & -> & Ek & Hk & Hoff).
  assert (B1 : as_vbase1 a = b1 * PAGE_SIZE) by congruence.
  assert (B2 : as_vbase2 a = b2 * PAGE_SIZE) by congruence.
  assert (Hr : forall p n j, live !! p = Some n -> 0 <= j < n ->
            0 < p + j /\ (p + j) * PAGE_SIZE + PAGE_SIZE <= 2 ^ 29).
  { intros p n j Hp Hj. pose proof (live_range _ _ _ _ ((p + j) * PAGE_SIZE) Hok Hp).
    pose proof (live_range _ _ _ _ ((p + j) * PAGE_SIZE + PAGE_SIZE - 1) Hok Hp).
    unfold in_block, PAGE_SIZE in *. lia. }
  set (o := va mod PAGE_SIZE) in *. clearbody o. clear F1 F2. subst va.
  unfold translate. rewrite E1, E2, E3, B1, B2 in *.
  rewrite !(wrapu_small 32 (b1 * PAGE_SIZE + _)), !(wrapu_small 32 (b2 * PAGE_SIZE + _)) by (unfold PAGE_SIZE in *; lia).
  assert (Hfin : forall b p n, live !! p = Some n -> b <= k < b + n -> exists k0,
    Some (u32 (k * PAGE_SIZE - b * PAGE_SIZE + p * PAGE_SIZE)) = Some (k0 * PAGE_SIZE) /\
    Some (u32 (k * PAGE_SIZE + o - b * PAGE_SIZE + p * PAGE_SIZE)) = Some (k0 * PAGE_SIZE + o) /\
    0 < k0 /\ k0 * PAGE_SIZE < 2 ^ 29).
  { intros b p n Hp Hb. exists (p + (k - b)). pose proof (Hr p n (k - b) Hp). unfold PAGE_SIZE in *.
    rewrite !wrapu_small by lia. split_and!; [f_equal; lia|f_equal; lia|lia|lia]. }
  unfold USERSTACK, DUMBVM_STACKPAGES in *.
  assert (Hle : forall b, (b * PAGE_SIZE <=? k * PAGE_SIZE + o) = (b <=? k)) by (intros; unfold PAGE_SIZE in *; lia).
  assert (Hle' : forall b, (b * PAGE_SIZE <=? k * PAGE_SIZE) = (b <=? k)) by (intros; unfold PAGE_SIZE in *; lia).
  assert (Hlt : forall b, (k * PAGE_SIZE + o <? b * PAGE_SIZE) = (k <? b)) by (intros; unfold PAGE_SIZE in *; lia).
  assert (Hlt' : forall b, (k * PAGE_SIZE <? b * PAGE_SIZE) = (k <? b)) by (intros; unfold PAGE_SIZE in *; lia).
  rewrite <- !Z.mul_add_distr_r. change (2147483648 - 18 * PAGE_SIZE) with (524270 * PAGE_SIZE).
  change 2147483648 with (524288 * PAGE_SIZE). rewrite !Hle, !Hle', !Hlt, !Hlt'.
  repeat case_goal; bool_to_prop; try lia; [| | |by left]; right;
    eapply Hfin; eauto; lia.
Qed.

Lemma vm_fault_ok (live : gmap Z Z) (vm : vmstate) (a : addrspace) (p1 p2 p3 ft va : Z)
    (Hok : vm_ok live vm) (Has : as_ok live a p1 p2 p3) (Hval : as_valid a = true)
    (Hft : ft = VM_FAULT_READ \/ ft = VM_FAULT_WRITE) (Hva : 0 <= va < 2 ^ 32)
    (Hmiss : tlb_lookup (tlb vm) va = None) :
  match translate a va with
  | None => vm_fault (Some a) ft va vm = Fail EFAULT vm
  | Some pa =>
      (vm_fault (Some a) ft va vm = Fail EFAULT vm /\
         Forall (fun en => Z.land en.2 TLBLO_VALID <> 0) (tlb vm)) \/
      exists t, vm_fault (Some a) ft va vm = Done tt (set_tlb (fun _ => t) vm) /\
        length t = length (tlb vm) /\ tlb_lookup t va = Some pa /\
        (forall va', Z.land va' PAGE_FRAME <> Z.land va PAGE_FRAME -> tlb_lookup t va' = tlb_lookup (tlb vm) va') /\
        (exists elo, tlb_refill (Z.land va PAGE_FRAME) elo (tlb vm) = Some t /\ (Z.land elo TLBLO_VALID =? 0) = false)
  end.
Proof.
  assert (Eft : (ft =? VM_FAULT_READONLY) = false /\
                negb ((ft =? VM_FAULT_READ) || (ft =? VM_FAULT_WRITE))%bool = false) by (by destruct Hft as [-> | ->]).
  destruct Eft as [Eft Eft']. unfold vm_fault. rewrite Eft, Eft', Hval. kunfold.
  destruct (translate_page live vm a p1 p2 p3 va Hok Has Hval Hva) as [[-> ->]|(k & -> & -> & Hk & Hb)]; [done|].
  destruct (elo_spec k) as [Hv Hf]; [lia|lia|].
  assert (Eal : (Z.land (k * PAGE_SIZE) PAGE_FRAME =? k * PAGE_SIZE) = true).
  { apply Z.eqb_eq. rewrite land_frame by (unfold PAGE_SIZE in *; lia). by rewrite pages_mul. }
  assert (Ehi : forall x, Z.land (Z.land x PAGE_FRAME) PAGE_FRAME = Z.land x PAGE_FRAME)
    by (intros; by rewrite <- Z.land_assoc, Z.land_diag).
  rewrite Eal. asproj. destruct (tlb_refill _ _ (tlb vm)) as [t|] eqn:Er.
  - right. exists t. destruct (tlb_refill_spec _ _ _ _ Er Hv) as [Hl Hlook]. split_and!; [done|done| | |by eexists].
    + rewrite Hlook by auto. by rewrite Ehi, Z.eqb_refl, Hf.
    + intros va' Hne. rewrite Hlook; [|right; by rewrite Ehi]. rewrite Ehi.
      by destruct (Z.eqb_spec (Z.land va' PAGE_FRAME) (Z.land va PAGE_FRAME)).
  - left. split; [done|]. by apply tlb_refill_None in Er.
Qed.

(** Page faults. When an address of the running process misses in the TLB,
    [vm_fault] maps it: the processor's next lookup of the address gives the byte its
    region assigns to it, addresses on other pages are looked up as before, and
    nothing else changes. An address outside the three regions gives [EFAULT] with no
    change; the only other failure is a TLB in which every entry is valid. *)
Theorem vm_fault_spec (live : gmap Z Z) (vm : vmstate) (a : addrspace) (p1 p2 p3 ft va : Z)
    (Hok : vm_ok live vm) (Has : as_ok live a p1 p2 p3) (Hval : as_valid a = true)
    (Hft : ft = VM_FAULT_READ \/ ft = VM_FAULT_WRITE) (Hva : 0 <= va < 2 ^ 32)
    (Hmiss : tlb_lookup (tlb vm) va = None) :
  match translate a va with
  | None => vm_fault (Some a) ft va vm = Fail EFAULT vm
  | Some pa =>
      (vm_fault (Some a) ft va vm = Fail EFAULT vm /\
         Forall (fun en => Z.land en.2 TLBLO_VALID <> 0) (tlb vm)) \/
      exists t, vm_fault (Some a) ft va vm = Done tt (set_tlb (fun _ => t) vm) /\
        length t = length (tlb vm) /\ tlb_lookup t va = Some pa /\
        forall va', Z.land va' PAGE_FRAME <> Z.land va PAGE_FRAME -> tlb_lookup t va' = tlb_lookup (tlb vm) va'
  end.
Proof.
  pose proof (vm_fault_ok live vm a p1 p2 p3 ft va Hok Has Hval Hft Hva Hmiss) as H. destruct (translate a va); [|done].
  destruct H as [H|(t & ? & ? & ? & ? & _)]; [by left|]. right. by exists t.
Qed.

(** [as_activate] empties the TLB: no mapping of the previous process survives. *)
Lemma as_activate_flushes a vm :
  exists vm', as_activate (Some a) vm = Done tt vm' /\ length (tlb vm') = length (tlb vm) /\
    forall va, tlb_lookup (tlb vm') va = None.
Proof.
  unfold as_activate. kunfold. eexists. split; [done|]. cbn. split; [apply length_imap|]. intros va.
  enough (H : forall l (f : nat -> Z), tlb_lookup (imap (fun i (_ : Z * Z) => (f i, 0)) l) va = None) by apply H.
  induction l as [|x l IH]; intros f; [done|]. rewrite imap_cons. cbn. apply (IH (fun i => f (S i))).
Qed.

(** [as_define_region] covers the bytes it is asked for with whole pages. *)
Lemma as_define_region_covers a vaddr sz :
  as_vbase1 a = 0 -> 0 <= vaddr -> 0 <= sz -> vaddr + sz + PAGE_SIZE < 2 ^ 32 ->
  exists b n, as_define_region a vaddr sz =
      (0, mkas (b * PAGE_SIZE) (as_pbase1 a) n (as_vbase2 a) (as_pbase2 a) (as_npages2 a) (as_stackpbase a)) /\
    b * PAGE_SIZE <= vaddr < (b + 1) * PAGE_SIZE /\ vaddr + sz <= (b + n) * PAGE_SIZE < vaddr + sz + PAGE_SIZE.
Proof.
  intros H1 Hv Hs Hb. unfold as_define_region. rewrite H1. cbn [Z.eqb].
  change (4294967295 - PAGE_FRAME) with (Z.ones 12). rewrite Z.land_ones by done. change (2 ^ 12) with PAGE_SIZE.
  destruct (frame_split vaddr) as (b & -> & Ev & Hb0 & Ho); [unfold PAGE_SIZE in *; lia|].
  set (o := vaddr mod PAGE_SIZE) in *. clearbody o. subst vaddr.
  rewrite (wrapu_small 32 (sz + o)) by (unfold PAGE_SIZE in *; lia).
  rewrite wrapu_small by (unfold PAGE_SIZE in *; lia).
  destruct (frame_split (sz + o + PAGE_SIZE - 1)) as (n & -> & En & Hn0 & Hn); [unfold PAGE_SIZE in *; lia|].
  rewrite pages_mul. exists b, n. split; [done|]. unfold PAGE_SIZE in *. lia.
Qed.

(** ** The invariant as a test, and concrete instances *)

#[global] Instance is_free_dec L k : Decision (is_free L k).
Proof.
  unfold is_free. apply and_dec; [apply _|].
  destruct (L !! Z.to_nat k) as [x|].
  - destruct (decide (x = 0)) as [->|H]; [right; intros (y & [= <-] & ?); done|left; eauto].
  - right. by intros (x & ? & _).
Defined.

Definition vm_okb (live : gmap Z Z) (vm : vmstate) : bool :=
  let fp := firstpaddr vm / PAGE_SIZE in
  active vm && (Z.of_nat (length (freePages vm)) =? lastpaddr vm / PAGE_SIZE) &&
  (Z.of_nat (length (sizePages vm)) =? lastpaddr vm / PAGE_SIZE) &&
  (0 <? firstpaddr vm) && (firstpaddr vm <=? lastpaddr vm) && (firstpaddr vm mod PAGE_SIZE =? 0) &&
  (lastpaddr vm <=? 2 ^ 29) &&
  bool_decide (Forall (fun k => is_free (freePages vm) k -> 0 < k < fp) (seqZ 0 (Z.of_nat (length (freePages vm))))) &&
  bool_decide (map_Forall (fun p n => 0 < p /\ 0 < n /\ p + n <= fp /\ sizePages vm !! Z.to_nat p = Some n /\
                              Forall (fun k => ~ is_free (freePages vm) k) (seqZ p n)) live) &&
  bool_decide (map_Forall (fun p n => map_Forall (fun q m => p = q \/ p + n <= q \/ q + m <= p) live) live).

Lemma vm_okb_sound live vm : vm_okb live vm = true -> vm_ok live vm.
Proof.
  unfold vm_okb. intros H. repeat (apply andb_prop in H as [H ?]).
  repeat match goal with H : bool_decide _ = true |- _ => apply bool_decide_eq_true in H end. bool_to_prop.
  split; try done.
  - intros k Hk. rewrite Forall_forall in *.
    match goal with H : forall x, x ∈ seqZ 0 _ -> _ |- _ => apply H; [|done] end.
    apply elem_of_seqZ. apply is_free_length in Hk. lia.
  - intros p n Hp. match goal with H : map_Forall _ live, H' : map_Forall (fun _ _ => map_Forall _ _) live |- _ =>
      destruct (H p n Hp) as (? & ? & ? & ? & Hnf) end.
    split_and!; try done. intros k Hk. rewrite Forall_forall in Hnf. apply Hnf, elem_of_seqZ. lia.
  - intros p n q m Hp Hq Hne. match goal with H' : map_Forall (fun _ _ => map_Forall _ _) live |- _ =>
      destruct (H' p n Hp q m Hq); [done|auto] end.
Qed.

(** 128 pages of memory, 50 of them used: three blocks of a process are live, pages
    12, 20 and 21 are free. *)
Definition demo_live : gmap Z Z := {[ 30 := 1; 31 := 2; 33 := 18 ]}.
Definition demo_vm : vmstate :=
  mkvm (<[12%nat := 1]> (<[20%nat := 1]> (<[21%nat := 1]> (replicate 128 0))))
       (<[30%nat := 1]> (<[31%nat := 2]> (<[33%nat := 18]> (replicate 128 0)))) true
       (51 * 4096) (128 * 4096) (fun x => x mod 256) (replicate 64 (0, 0)).
Definition demo_as : addrspace := mkas 4194304 (30 * 4096) 1 268435456 (31 * 4096) 2 (33 * 4096).

Lemma demo_vm_ok : vm_ok demo_live demo_vm.
Proof. apply vm_okb_sound. vm_compute. reflexivity. Qed.

Lemma demo_as_ok : as_ok demo_live demo_as 30 31 33.
Proof. split; vm_compute; split_and!; done. Qed.

(** Two pages are asked for: 20 and 21 are handed out. *)
Lemma alloc_kpages_spec_witness :
  vm_ok demo_live demo_vm /\
  exists p vm', alloc_kpages 2 demo_vm = Done (MIPS_KSEG0 + p * PAGE_SIZE) vm' /\ vm_ok (<[p := 2]> demo_live) vm'.
Proof.
  split; [apply demo_vm_ok|].
  destruct (alloc_kpages_spec demo_live demo_vm 2 demo_vm_ok ltac:(lia)) as [[E _]|(p & vm' & E & Hok & _)].
  - exfalso. vm_compute in E. discriminate E.
  - exists p, vm'. exact (conj E Hok).
Defined.

Lemma free_kpages_spec_witness :
  demo_live !! 31 = Some 2 /\
  exists vm', free_kpages (MIPS_KSEG0 + 31 * PAGE_SIZE) demo_vm = Done tt vm' /\ vm_ok (delete 31 demo_live) vm'.
Proof.
  split; [reflexivity|].
  destruct (free_kpages_spec demo_live demo_vm 31 2 demo_vm_ok eq_refl) as (vm' & E & Hok & _).
  exists vm'. exact (conj E Hok).
Defined.

(** Page 12 is free before and lost after two pages are handed out. *)
Lemma getfreeppages_forgets_witness :
  exists vm', getfreeppages 2 demo_vm = Done (20 * PAGE_SIZE) vm' /\
    is_free (freePages demo_vm) 12 /\ ~ is_free (freePages vm') 12.
Proof.
  eexists. split; [vm_compute; reflexivity|].
  assert (F : is_free (freePages demo_vm) 12) by (split; [lia|exists 1; split; [reflexivity|lia]]).
  split; [exact F|].
  eapply (getfreeppages_forgets demo_live demo_vm _ 2 (20 * PAGE_SIZE) 12 demo_vm_ok);
    [lia|vm_compute; reflexivity|discriminate|exact F|reflexivity].
Defined.

Lemma as_copy_spec_witness :
  exists new vm', as_copy true demo_as demo_vm = Done new vm' /\
    forall va va' pa pa', translate demo_as va = Some pa -> translate new va' = Some pa' -> pa <> pa'.
Proof.
  destruct (as_copy_spec demo_live demo_vm demo_as 30 31 33 demo_vm_ok demo_as_ok)
    as [(vm' & l & E & _)|(new & q1 & q2 & q3 & vm' & l & E & _ & _ & _ & _ & Hsep)].
  - exfalso. apply (f_equal (fun o => match o with Done _ _ => true | _ => false end)) in E.
    vm_compute in E. discriminate E.
  - exists new, vm'. exact (conj E Hsep).
Defined.

Lemma vm_fault_spec_witness :
  exists t, vm_fault (Some demo_as) VM_FAULT_WRITE 4194400 demo_vm = Done tt (set_tlb (fun _ => t) demo_vm) /\
    tlb_lookup t 4194400 = Some (30 * 4096 + 96).
Proof.
  pose proof (vm_fault_spec demo_live demo_vm demo_as 30 31 33 VM_FAULT_WRITE 4194400 demo_vm_ok demo_as_ok
    eq_refl (or_intror eq_refl) ltac:(lia) eq_refl) as H.
  change (translate demo_as 4194400) with (Some (30 * 4096 + 96)) in H.
  destruct H as [[E _]|(t & E & _ & Hl & _)].
  - exfalso. vm_compute in E. discriminate E.
  - exists t. exact (conj E Hl).
Defined.
