(* ===== verification/LoadElf.v ===== *)
(** * The ELF loader, kern/syscall/loadelf.c

    [load_elf] reads the headers of an executable, sets up the regions of the address space
    (Dumbvm.v) and copies the segments into it. The bytes go to user addresses, through the
    TLB and page faults, as any [copyout] does. *)

From stdpp Require Import base numbers functions list gmap.
From Stdlib Require Import ZArith Lia.
From stdpp Require Import list_relations.
From S2P Require Import Prelude UserCopy Dumbvm.

Open Scope Z_scope.
Open Scope k_scope.

(** [VOP_READ] of the executable at an offset, for so many bytes: the chunks the file
    system hands to [uiomove], one after the other, and the error number at the end. *)
Class Executable := exe_read : Z -> Z -> list (list Z) * option Z.

(** What vnode.h says of [vop_read], for a file with the contents [image] that can be
    read: the bytes from the offset on, as many as asked for or there are. *)
Class Readable {X : Executable} (image : list Z) : Prop :=
  exe_bytes off len : 0 <= off -> 0 <= len ->
    snd (exe_read off len) = None /\ concat (fst (exe_read off len)) = take (Z.to_nat len) (drop (Z.to_nat off) image).

(** ** Headers, kern/include/elf.h *)

Definition get8 (l : list Z) (i : nat) : Z := default 0 (l !! i).
Definition get16 (l : list Z) (i : nat) : Z := get8 l i * 256 + get8 l (i + 1).
Definition get32 (l : list Z) (i : nat) : Z := get16 l i * 65536 + get16 l (i + 2).

(** kern/include/elf.h:51-66 (Elf32_Ehdr): the fields the loader looks at. *)
Record Elf_Ehdr := mkeh {
  e_ident : list Z;
  e_type : Z;
  e_machine : Z;
  e_version : Z;
  e_entry : Z;
  e_phoff : Z;
  e_phentsize : Z;
  e_phnum : Z
}.

(** kern/include/elf.h:168-177 (Elf32_Phdr). *)
Record Elf_Phdr := mkph {
  p_type : Z;
  p_offset : Z;
  p_vaddr : Z;
  p_filesz : Z;
  p_memsz : Z;
  p_flags : Z
}.

(** The structures as they lie in the file, the most significant byte first. *)
Definition SIZEOF_EHDR : Z := 52.
Definition SIZEOF_PHDR : Z := 32.

Definition ehdr_of (l : list Z) : Elf_Ehdr :=
  mkeh (take 16 l) (get16 l 16) (get16 l 18) (get32 l 20) (get32 l 24) (get32 l 28) (get16 l 42) (get16 l 44).

Definition phdr_of (l : list Z) : Elf_Phdr :=
  mkph (get32 l 0) (get32 l 4) (get32 l 8) (get32 l 16) (get32 l 20) (get32 l 24).

Definition PT_NULL : Z := 0.
Definition PT_LOAD : Z := 1.
Definition PT_PHDR : Z := 6.
Definition PT_MIPS_REGINFO : Z := 1879048192.
Definition ET_EXEC : Z := 2.
Definition EM_MIPS : Z := 8.
Definition EV_CURRENT : Z := 1.

(** kern/syscall/loadelf.c:192-203 (load_elf): a 32-bit executable for this processor:
    "\177ELF", ELFCLASS32, ELFDATA2MSB, EV_CURRENT. *)
Definition ehdr_ok (eh : Elf_Ehdr) : bool :=
  bool_decide (take 7 (e_ident eh) = [127; 69; 76; 70; 1; 2; 1]) &&
  (e_version eh =? EV_CURRENT) && (e_type eh =? ET_EXEC) && (e_machine eh =? EM_MIPS).

(** ** Memory *)

(** Machine and address space. *)
Record lstate := mkl { l_vm : vmstate; l_as : addrspace }.

Definition on_vm {A} (m : K vmstate A) : K lstate A :=
  fun s => match m (l_vm s) with
           | Done a vm => Done a (mkl vm (l_as s))
           | Fail e vm => Fail e (mkl vm (l_as s))
           | Halt h => Halt h
           end.

Definition set_as (a : addrspace) (s : lstate) : lstate := mkl (l_vm s) a.

Definition put_phys (pa c : Z) (m : Z -> Z) : Z -> Z := fun x => if x =? pa then c else m x.

(** A store to a user address: through the TLB, or after the fault has been handled. *)
Definition user_store (va c : Z) : K lstate unit :=
  s <- kget ;;
  match tlb_lookup (tlb (l_vm s)) va with
  | Some pa => on_vm (kmodify (set_phys (put_phys pa c)))
  | None =>
      on_vm (vm_fault (Some (l_as s)) VM_FAULT_WRITE va) ;;;
      s <- kget ;;
      match tlb_lookup (tlb (l_vm s)) va with
      | Some pa => on_vm (kmodify (set_phys (put_phys pa c)))
      | None => kfail EFAULT
      end
  end.

Fixpoint user_stores (va : Z) (l : list Z) : K lstate unit :=
  match l with
  | [] => kret tt
  | c :: l' => user_store va c ;;; user_stores (va + 1) l'
  end.

(** [copyout] of UserCopy.v, with the memory behind a TLB: a fault that is not resolved
    makes it return EFAULT. *)
Definition copyout_tlb (src : list Z) (userdest : Z) : K lstate unit :=
  let len := Z.of_nat (length src) in
  match copycheck userdest len with
  | inl e => kfail e
  | inr stoplen =>
      if negb (stoplen =? len) then kfail EFAULT else
      r <- attempt (user_stores userdest src) ;;
      match r with inl _ => kfail EFAULT | inr _ => kret tt end
  end.

(** [uiomove] of each chunk to a user buffer at [va]. *)
Fixpoint move_chunks (va : Z) (chunks : list (list Z)) : K lstate unit :=
  match chunks with
  | [] => kret tt
  | c :: chunks' =>
      (if (length c =? 0)%nat then kret tt else copyout_tlb c va) ;;;
      move_chunks (va + Z.of_nat (length c)) chunks'
  end.

Section LoadElf.
Context {X : Executable}.

(** [VOP_READ] into a structure of the kernel; a short read is ENOEXEC. *)
Definition read_struct (off size : Z) : K lstate (list Z) :=
  let '(chunks, err) := exe_read off size in
  match err with
  | Some e => kfail e
  | None =>
      if Z.of_nat (length (concat chunks)) <? size then kfail ENOEXEC else kret (concat chunks)
  end.

(** kern/syscall/loadelf.c:77-146 (load_segment); the rest of the segment is not filled,
    since the pages are zero. *)
Definition load_segment (offset vaddr memsize filesize : Z) : K lstate unit :=
  let filesize := if memsize <? filesize then memsize else filesize in
  let '(chunks, err) := exe_read offset filesize in
  move_chunks vaddr chunks ;;;
  match err with
  | Some e => kfail e
  | None => if negb (filesize - Z.of_nat (length (concat chunks)) =? 0) then kfail ENOEXEC else kret tt
  end.

(** kern/syscall/loadelf.c:220-244 (load_elf): the loop over the program headers, here and
    at line 265; they differ in what they do with a segment to be loaded. [n] headers are left. *)
Fixpoint phdr_loop (act : Elf_Phdr -> K lstate unit) (eh : Elf_Ehdr) (n : nat) (i : Z) : K lstate unit :=
  match n with
  | O => kret tt
  | S n' =>
      let offset := u32 (e_phoff eh + i * e_phentsize eh) in
      l <- read_struct offset SIZEOF_PHDR ;;
      let ph := phdr_of l in
      (if (p_type ph =? PT_NULL) || (p_type ph =? PT_PHDR) || (p_type ph =? PT_MIPS_REGINFO) then kret tt
       else if p_type ph =? PT_LOAD then act ph
       else kfail ENOEXEC) ;;;
      phdr_loop act eh n' (i + 1)
  end.

(** kern/syscall/loadelf.c:246-253 (load_elf): the region of a segment. *)
Definition define_segment (ph : Elf_Phdr) : K lstate unit :=
  s <- kget ;;
  let '(e, a) := as_define_region (l_as s) (p_vaddr ph) (p_memsz ph) in
  kput (set_as a s) ;;;
  if negb (e =? 0) then kfail e else kret tt.

(** kern/syscall/loadelf.c:291-297 (load_elf): the contents of a segment. *)
Definition load_one (ph : Elf_Phdr) : K lstate unit :=
  load_segment (p_offset ph) (p_vaddr ph) (p_memsz ph) (p_filesz ph).

(** [as_prepare_load] and [as_complete_load] on the current address space. *)
Definition prepare_load : K lstate unit :=
  s <- kget ;;
  r <- on_vm (as_prepare_load (l_as s)) ;;
  let '(e, a) := r in
  kmodify (set_as a) ;;;
  if negb (e =? 0) then kfail e else kret tt.

Definition complete_load : K lstate unit := s <- kget ;; on_vm (as_complete_load (l_as s)).

(** kern/syscall/loadelf.c:153-307 (load_elf). *)
Definition load_elf : K lstate Z :=
  l <- read_struct 0 SIZEOF_EHDR ;;
  let eh := ehdr_of l in
  if negb (ehdr_ok eh) then kfail ENOEXEC else
  phdr_loop define_segment eh (Z.to_nat (e_phnum eh)) 0 ;;;
  prepare_load ;;;
  phdr_loop load_one eh (Z.to_nat (e_phnum eh)) 0 ;;;
  complete_load ;;;
  kret (e_entry eh).

End LoadElf.
