(* ===== verification/LoadElfSpec.v ===== *)
(** * What the ELF loader puts into memory *)

From stdpp Require Import base numbers functions list gmap.
From Stdlib Require Import ZArith Lia.
From stdpp Require Import list_relations.
From S2P Require Import Prelude UserCopy Dumbvm LoadElf.

Open Scope Z_scope.
Open Scope k_scope.

(** ** The TLB *)

Definition valid (en : Z * Z) : bool := negb (Z.land en.2 TLBLO_VALID =? 0).

(** The pages that have a valid entry. *)
Definition tlb_pages (t : list (Z * Z)) : list Z := (fun en => Z.land en.1 PAGE_FRAME) <$> filter valid t.

Lemma tlb_pages_cons en t : tlb_pages (en :: t) = (if valid en then [Z.land en.1 PAGE_FRAME] else []) ++ tlb_pages t.
Proof. unfold tlb_pages. rewrite filter_cons. by destruct (valid en). Qed.

Lemma refill_pages ehi elo t t' : tlb_refill ehi elo t = Some t' -> (Z.land elo TLBLO_VALID =? 0) = false ->
  tlb_pages t' ≡ₚ Z.land ehi PAGE_FRAME :: tlb_pages t.
Proof.
  intros Hr He. revert t' Hr. induction t as [|[h e] t IH]; intros t' Hr; cbn in Hr; [done|].
  rewrite tlb_pages_cons. unfold valid at 1. cbn [snd]. destruct (Z.land e TLBLO_VALID =? 0) eqn:Ee.
  - injection Hr as <-. rewrite tlb_pages_cons. unfold valid at 1. cbn [snd fst]. by rewrite He.
  - destruct (tlb_refill ehi elo t) as [r|]; [|done]. injection Hr as <-. rewrite tlb_pages_cons. unfold valid at 1. cbn [snd fst negb]. rewrite Ee.
    cbn [negb app]. rewrite (IH r eq_refl). constructor.
Qed.

Lemma lookup_pages t va : tlb_lookup t va = None -> Z.land va PAGE_FRAME ∉ tlb_pages t.
Proof.
  induction t as [|[h e] t IH]; cbn [tlb_lookup]; [intros _; apply not_elem_of_nil|]. rewrite tlb_pages_cons. unfold valid at 1. cbn [snd fst].
  destruct (negb (Z.land e TLBLO_VALID =? 0)) eqn:E; cbn [andb]; [|done]. destruct (Z.eqb_spec (Z.land h PAGE_FRAME) (Z.land va PAGE_FRAME)) as [|Hne]; [done|].
  intros Hn. cbn. intros [?|?]%elem_of_cons; [congruence|by apply IH].
Qed.

Lemma lookup_same_page t va va' : Z.land va' PAGE_FRAME = Z.land va PAGE_FRAME ->
  tlb_lookup t va' = (fun pa => pa - va mod PAGE_SIZE + va' mod PAGE_SIZE) <$> tlb_lookup t va.
Proof.
  intros E. induction t as [|[h e] t IH]; cbn [tlb_lookup]; [done|]. rewrite E. destruct (_ && _)%bool; [|done]. cbn. f_equal. lia.
Qed.

Lemma full_pages t : Forall (fun en => Z.land en.2 TLBLO_VALID <> 0) t -> length (tlb_pages t) = length t.
Proof.
  induction 1 as [|en t Hen _ IH]; [done|]. rewrite tlb_pages_cons. unfold valid. rewrite (proj2 (Z.eqb_neq _ _)) by done. cbn. by rewrite IH.
Qed.

(** The TLB tells what the address space says, of the pages [R]; there is room for all of
    them. *)
Record tlb_ok (a : addrspace) (R : list Z) (t : list (Z * Z)) : Prop := {
  tlb_len : length t = 64%nat;
  tlb_true : forall va pa, 0 <= va < 2 ^ 32 -> tlb_lookup t va = Some pa -> translate a va = Some pa;
  tlb_nodup : NoDup (tlb_pages t);
  tlb_in : forall p, p ∈ tlb_pages t -> p ∈ R;
  tlb_room : (length R <= 64)%nat
}.

Section Stores.
Context (live : gmap Z Z) (a : addrspace) (p1 p2 p3 : Z) (Has : as_ok live a p1 p2 p3) (Hval : as_valid a = true) (R : list Z).

(** Memory and TLB while the segments are copied. *)
Definition loading (vm : vmstate) : Prop := vm_ok live vm /\ tlb_ok a R (tlb vm).

Lemma user_store_ok vm va c pa : loading vm -> 0 <= va < 2 ^ 32 -> translate a va = Some pa -> Z.land va PAGE_FRAME ∈ R ->
  exists vm', user_store va c (mkl vm a) = Done tt (mkl vm' a) /\ loading vm' /\ phys vm' = put_phys pa c (phys vm).
Proof.
  intros [Hok Ht] Hva Hpa Hin. unfold user_store, on_vm. kunfold. cbn [l_vm l_as]. destruct (tlb_lookup (tlb vm) va) as [pa'|] eqn:E.
  - apply (tlb_true _ _ _ Ht va) in E as E'; [|done]. replace pa' with pa by congruence. eexists. split; [done|]. split; [|done].
    split; [by apply vm_ok_phys|done].
  - pose proof (vm_fault_ok live vm a p1 p2 p3 VM_FAULT_WRITE va Hok Has Hval (or_intror eq_refl) Hva E) as Hf. rewrite Hpa in Hf.
    cbn [l_vm l_as]. pose proof (lookup_pages _ _ E) as Hnew. destruct Ht as [T1 T2 T3 T4 T5].
    assert (Hcons : NoDup (Z.land va PAGE_FRAME :: tlb_pages (tlb vm))) by (by apply NoDup_cons).
    assert (Hsub : forall p, p ∈ Z.land va PAGE_FRAME :: tlb_pages (tlb vm) -> p ∈ R) by (intros p [->|?]%elem_of_cons; [done|by apply T4]).
    destruct Hf as [[_ Hfull]|(t & -> & Hl & Hlook & Hother & elo & Hr & He)].
    + exfalso. apply full_pages in Hfull. pose proof (submseteq_length _ _ (NoDup_submseteq _ _ Hcons Hsub)) as Hle. cbn in Hle. lia.
    + cbn [l_vm l_as tlb set_tlb]. rewrite Hlook. eexists. split; [done|]. split; [|done]. split; [apply vm_ok_phys; by destruct Hok|].
      change (tlb_ok a R t). pose proof (refill_pages _ _ _ _ Hr He) as Hp. rewrite <- Z.land_assoc, Z.land_diag in Hp. split; [congruence| |by rewrite Hp|intros p; rewrite Hp; apply Hsub|done].
      intros va' pa' Hva' Hl'. destruct (decide (Z.land va' PAGE_FRAME = Z.land va PAGE_FRAME)) as [Heq|Hne].
      * rewrite (lookup_same_page t va va' Heq), Hlook in Hl'. cbn in Hl'. injection Hl' as <-.
        destruct (translate_page live vm a p1 p2 p3 va Hok Has Hval Hva) as [[? _]|(k & Ek & Ek' & _)]; [congruence|].
        destruct (translate_page live vm a p1 p2 p3 va' Hok Has Hval Hva') as [[_ F]|(k' & F & F' & _)]; rewrite Heq in F; [congruence|].
        rewrite F'. rewrite Ek in F. injection F as F. rewrite Ek' in Hpa. injection Hpa as <-. f_equal. lia.
      * apply T2; [done|]. by rewrite <- Hother.
Qed.

(** Virtual addresses from [vb] on are physical ones from [pb] on, for [n] pages. *)
Definition region (vb pb n : Z) : Prop :=
  0 <= vb /\ vb + n * PAGE_SIZE <= USERSPACETOP /\
  forall va, vb <= va < vb + n * PAGE_SIZE -> translate a va = Some (va - vb + pb) /\ Z.land va PAGE_FRAME ∈ R.

(** [bs] at the physical address [dst]. *)
Definition blit (dst : Z) (bs : list Z) (m : Z -> Z) : Z -> Z :=
  fun x => if (dst <=? x) && (x <? dst + Z.of_nat (length bs)) then get8 bs (Z.to_nat (x - dst)) else m x.

Definition same_mem (m m' : Z -> Z) : Prop := forall x, m x = m' x.

Lemma blit_nil dst m x : blit dst [] m x = m x.
Proof. unfold blit. change (Z.of_nat (length [])) with 0. destruct (Z.leb_spec dst x), (Z.ltb_spec x (dst + 0)); try lia; done. Qed.

Lemma blit_cons dst c bs m x : blit (dst + 1) bs (put_phys dst c m) x = blit dst (c :: bs) m x.
Proof.
  unfold blit, put_phys, get8. cbn [length]. destruct (Z.eqb_spec x dst) as [->|Hne].
  - rewrite (proj2 (Z.leb_gt (dst + 1) dst)) by lia. cbn [andb]. rewrite Z.leb_refl, (proj2 (Z.ltb_lt _ _)) by lia. cbn [andb]. by rewrite Z.sub_diag.
  - destruct (Z.leb_spec (dst + 1) x), (Z.leb_spec dst x); try lia; cbn [andb]; [|done].
    replace (dst + 1 + Z.of_nat (length bs)) with (dst + Z.of_nat (S (length bs))) by lia. destruct (_ <? _); [|done].
    by replace (Z.to_nat (x - dst)) with (S (Z.to_nat (x - (dst + 1)))) by lia.
Qed.

Lemma blit_ext dst bs m m' : same_mem m m' -> same_mem (blit dst bs m) (blit dst bs m').
Proof. intros E x. unfold blit. by destruct (_ && _)%bool. Qed.

Lemma blit_app dst bs bs' m x : blit (dst + Z.of_nat (length bs)) bs' (blit dst bs m) x = blit dst (bs ++ bs') m x.
Proof.
  unfold blit, get8. rewrite length_app. destruct (Z.leb_spec (dst + Z.of_nat (length bs)) x); cbn [andb].
  - rewrite (proj2 (Z.leb_le dst x)) by lia. cbn [andb]. replace (dst + Z.of_nat (length bs) + Z.of_nat (length bs')) with (dst + Z.of_nat (length bs + length bs')) by lia.
    destruct (_ <? _); [by rewrite lookup_app_r by lia; do 2 f_equal; lia|]. by rewrite (proj2 (Z.ltb_ge _ _)) by lia.
  - rewrite (proj2 (Z.ltb_lt x (dst + Z.of_nat (length bs)))) by lia. destruct (Z.leb_spec dst x); cbn [andb]; [|done].
    rewrite (proj2 (Z.ltb_lt _ _)) by lia. by rewrite lookup_app_l by lia.
Qed.

Lemma user_stores_ok vb pb n bs : region vb pb n -> forall vm va, loading vm -> vb <= va -> va + Z.of_nat (length bs) <= vb + n * PAGE_SIZE ->
  exists vm', user_stores va bs (mkl vm a) = Done tt (mkl vm' a) /\ loading vm' /\ same_mem (phys vm') (blit (va - vb + pb) bs (phys vm)).
Proof.
  intros (Hvb & Htop & HR). induction bs as [|c bs IH]; intros vm va Hl Hlo Hhi; cbn [user_stores].
  - eexists. split; [done|]. split; [done|]. intros x. by rewrite blit_nil.
  - cbn [length] in Hhi. destruct (HR va ltac:(lia)) as [Hpa Hin]. unfold USERSPACETOP in Htop.
    destruct (user_store_ok vm va c _ Hl ltac:(lia) Hpa Hin) as (vm1 & E1 & Hl1 & Hp1). unfold kbind. rewrite E1.
    destruct (IH vm1 (va + 1) Hl1 ltac:(lia) ltac:(lia)) as (vm2 & E2 & Hl2 & Hp2). rewrite E2. eexists. split; [done|]. split; [done|].
    intros x. rewrite Hp2, Hp1. replace (va + 1 - vb + pb) with (va - vb + pb + 1) by lia. apply blit_cons.
Qed.

Lemma copycheck_user va len : 0 <= va -> 0 < len -> va + len <= USERSPACETOP -> copycheck va len = inr len.
Proof.
  intros. unfold copycheck, USERSPACETOP in *. rewrite wrapu_small by lia. rewrite !(proj2 (Z.ltb_ge _ _)), !(proj2 (Z.leb_gt _ _)) by lia. done.
Qed.

Lemma move_chunks_ok vb pb n chunks : region vb pb n -> forall vm va, loading vm -> vb <= va ->
  va + Z.of_nat (length (concat chunks)) <= vb + n * PAGE_SIZE ->
  exists vm', move_chunks va chunks (mkl vm a) = Done tt (mkl vm' a) /\ loading vm' /\ same_mem (phys vm') (blit (va - vb + pb) (concat chunks) (phys vm)).
Proof.
  intros Hreg. pose proof Hreg as (Hvb & Htop & _). induction chunks as [|c chunks IH]; intros vm va Hl Hlo Hhi; cbn [move_chunks concat].
  - eexists. split; [done|]. split; [done|]. intros x. by rewrite blit_nil.
  - cbn [concat] in Hhi. rewrite length_app in Hhi.
    assert (exists vm1, (if (length c =? 0)%nat then kret tt else copyout_tlb c va) (mkl vm a) = Done tt (mkl vm1 a) /\ loading vm1 /\ same_mem (phys vm1) (blit (va - vb + pb) c (phys vm)))
      as (vm1 & E1 & Hl1 & Hp1).
    { destruct (Nat.eqb_spec (length c) 0) as [Hz|Hz].
      - apply nil_length_inv in Hz as ->. eexists. split; [done|]. split; [done|]. intros x. by rewrite blit_nil.
      - unfold copyout_tlb. rewrite copycheck_user by lia. rewrite Z.eqb_refl. cbn [negb].
        destruct (user_stores_ok vb pb n c Hreg vm va Hl Hlo ltac:(lia)) as (vm1 & E & H1). exists vm1. kunfold. by rewrite E. }
    unfold kbind. rewrite E1. destruct (IH vm1 (va + Z.of_nat (length c)) Hl1 ltac:(lia) ltac:(lia)) as (vm2 & E2 & Hl2 & Hp2). rewrite E2.
    eexists. split; [done|]. split; [done|]. intros x. rewrite Hp2. rewrite (blit_ext _ _ _ _ Hp1).
    replace (va + Z.of_nat (length c) - vb + pb) with (va - vb + pb + Z.of_nat (length c)) by lia. apply blit_app.
Qed.

End Stores.

(** ** The headers *)

(** [act] on every element of a list. *)
Fixpoint each {A} (act : A -> K lstate unit) (l : list A) : K lstate unit :=
  match l with [] => kret tt | x :: l' => act x ;;; each act l' end.

Definition skipped (ph : Elf_Phdr) : bool := (p_type ph =? PT_NULL) || (p_type ph =? PT_PHDR) || (p_type ph =? PT_MIPS_REGINFO).
Definition loaded (ph : Elf_Phdr) : bool := p_type ph =? PT_LOAD.

Definition phoff (eh : Elf_Ehdr) (i : Z) : Z := u32 (e_phoff eh + i * e_phentsize eh).

(** The program headers of an executable, and the segments to be loaded. *)
Definition phdrs (image : list Z) (eh : Elf_Ehdr) (i n : Z) : list Elf_Phdr :=
  (fun j => phdr_of (take 32 (drop (Z.to_nat (phoff eh j)) image))) <$> seqZ i n.

Definition ehdr (image : list Z) : Elf_Ehdr := ehdr_of (take 52 image).

Definition segments (image : list Z) : list Elf_Phdr := filter loaded (phdrs image (ehdr image) 0 (e_phnum (ehdr image))).

Section Headers.
Context {X : Executable} (image : list Z) {HX : Readable image}.

Lemma read_struct_eq off size (s : lstate) : 0 <= off -> 0 <= size -> off + size <= Z.of_nat (length image) ->
  read_struct off size s = Done (take (Z.to_nat size) (drop (Z.to_nat off) image)) s.
Proof.
  intros Ho Hs Hl. destruct (exe_bytes off size Ho Hs) as [E1 E2]. unfold read_struct. destruct (exe_read off size) as [chunks err]. cbn in *. rewrite E1, E2.
  rewrite (proj2 (Z.ltb_ge _ _)); [done|]. rewrite length_take, length_drop. lia.
Qed.

Lemma phoff_pos eh i : 0 <= phoff eh i.
Proof. unfold phoff. apply wrapu_range. lia. Qed.

Lemma phdr_loop_eq act eh n : forall i s, (forall j, i <= j < i + Z.of_nat n -> phoff eh j + 32 <= Z.of_nat (length image)) ->
  phdr_loop act eh n i s = each (fun ph => if skipped ph then kret tt else if loaded ph then act ph else kfail ENOEXEC) (phdrs image eh i (Z.of_nat n)) s.
Proof.
  induction n as [|n IH]; intros i s Hl; cbn [phdr_loop]; [by rewrite (seqZ_nil i (Z.of_nat 0) ltac:(lia)) || (unfold phdrs; by rewrite seqZ_nil by lia)|].
  unfold phdrs. rewrite (seqZ_cons i) by lia. rewrite fmap_cons. cbn [each]. unfold kbind at 1. fold (phoff eh i). unfold SIZEOF_PHDR.
  rewrite read_struct_eq; [|apply phoff_pos|lia|apply Hl; lia]. change (Z.to_nat 32) with 32%nat. set (ph := phdr_of _). unfold kbind at 1 2. unfold skipped, loaded.
  match goal with |- match ?x with _ => _ end = match ?y with _ => _ end => change y with x; destruct x as [[] s'| |] end; [|done|done].
  rewrite IH by (intros; apply Hl; lia). unfold phdrs. do 3 f_equal; lia.
Qed.

Lemma each_loaded (act : Elf_Phdr -> K lstate unit) l s : Forall (fun ph => skipped ph || loaded ph) l ->
  each (fun ph => if skipped ph then kret tt else if loaded ph then act ph else kfail ENOEXEC) l s = each act (filter loaded l) s.
Proof.
  intros Hl. revert s. induction Hl as [|ph l Hph _ IH]; intros s; cbn [each]; [done|]. rewrite filter_cons. unfold kbind at 1.
  destruct (skipped ph) eqn:Es.
  - rewrite decide_False; [apply IH|]. unfold loaded. unfold skipped, PT_NULL, PT_PHDR, PT_MIPS_REGINFO, PT_LOAD in *. bool_to_prop. intros ?%Is_true_true. bool_to_prop. lia.
  - cbn [orb] in Hph. apply Is_true_true in Hph. rewrite Hph, decide_True by done. cbn [each]. unfold kbind. destruct (act ph s) as [[] s'| |]; [apply IH|done|done].
Qed.

End Headers.

(** ** Regions *)

Definition STACKBASE : Z := USERSTACK - DUMBVM_STACKPAGES * PAGE_SIZE.

(** The first page of a segment and the number of its pages. *)
Definition first_page (ph : Elf_Phdr) : Z := p_vaddr ph / PAGE_SIZE.
Definition npages (ph : Elf_Phdr) : Z := (p_vaddr ph + p_memsz ph - 1) / PAGE_SIZE - first_page ph + 1.

(** A segment that lies in user memory below the stack, and its bytes in the file. *)
Record seg_ok (image : list Z) (ph : Elf_Phdr) : Prop := {
  seg_lo : PAGE_SIZE <= p_vaddr ph;
  seg_mem : 0 < p_memsz ph;
  seg_hi : p_vaddr ph + p_memsz ph <= STACKBASE;
  seg_off : 0 <= p_offset ph;
  seg_fil : 0 <= p_filesz ph;
  seg_img : p_offset ph + Z.min (p_filesz ph) (p_memsz ph) <= Z.of_nat (length image)
}.

Definition contents (image : list Z) (ph : Elf_Phdr) : list Z :=
  take (Z.to_nat (Z.min (p_filesz ph) (p_memsz ph))) (drop (Z.to_nat (p_offset ph)) image).

Lemma seg_pages image ph : seg_ok image ph ->
  0 < first_page ph /\ 0 < npages ph /\ first_page ph * PAGE_SIZE <= p_vaddr ph /\
  p_vaddr ph + p_memsz ph <= (first_page ph + npages ph) * PAGE_SIZE <= STACKBASE.
Proof.
  intros [S1 S2 S3 S4 S5 S6]. unfold npages, first_page. change STACKBASE with (524270 * PAGE_SIZE) in *.
  pose proof (Z.div_mod (p_vaddr ph) PAGE_SIZE ltac:(done)). pose proof (Z.mod_pos_bound (p_vaddr ph) PAGE_SIZE ltac:(done)).
  pose proof (Z.div_mod (p_vaddr ph + p_memsz ph - 1) PAGE_SIZE ltac:(done)). pose proof (Z.mod_pos_bound (p_vaddr ph + p_memsz ph - 1) PAGE_SIZE ltac:(done)).
  unfold PAGE_SIZE in *. lia.
Qed.

(** What [as_define_region] computes. *)
Lemma define_eq image ph a : seg_ok image ph -> as_vbase1 a = 0 ->
  as_define_region a (p_vaddr ph) (p_memsz ph) =
    (0, mkas (first_page ph * PAGE_SIZE) (as_pbase1 a) (npages ph) (as_vbase2 a) (as_pbase2 a) (as_npages2 a) (as_stackpbase a)).
Proof.
  intros Hs Ha. destruct (Hs) as [S1 S2 S3 S4 S5 S6]. change STACKBASE with (524270 * PAGE_SIZE) in *.
  destruct (as_define_region_covers a (p_vaddr ph) (p_memsz ph)) as (b & n & -> & Hlo & Hhi); [done|unfold PAGE_SIZE in *; lia..|].
  assert (Hb : b = first_page ph).
  { unfold first_page. pose proof (Z.div_mod (p_vaddr ph) PAGE_SIZE ltac:(done)). pose proof (Z.mod_pos_bound (p_vaddr ph) PAGE_SIZE ltac:(done)). unfold PAGE_SIZE in *. lia. }
  assert (Hn : n = npages ph).
  { unfold npages. rewrite <- Hb. pose proof (Z.div_mod (p_vaddr ph + p_memsz ph - 1) PAGE_SIZE ltac:(done)).
    pose proof (Z.mod_pos_bound (p_vaddr ph + p_memsz ph - 1) PAGE_SIZE ltac:(done)). unfold PAGE_SIZE in *. lia. }
  by rewrite Hb, Hn.
Qed.

Lemma define_eq2 image ph a : seg_ok image ph -> as_vbase1 a <> 0 -> as_vbase2 a = 0 ->
  as_define_region a (p_vaddr ph) (p_memsz ph) =
    (0, mkas (as_vbase1 a) (as_pbase1 a) (as_npages1 a) (first_page ph * PAGE_SIZE) (as_pbase2 a) (npages ph) (as_stackpbase a)).
Proof.
  intros Hs H1 H2. pose proof (define_eq image ph (mkas 0 0 0 0 0 0 0) Hs eq_refl) as E. unfold as_define_region in *. cbn [as_vbase1 Z.eqb] in E.
  rewrite (proj2 (Z.eqb_neq _ _)), H2 by done. cbn [Z.eqb]. injection E as E1 E2. by rewrite E1, E2.
Qed.

(** The segments of an executable that can be loaded: two, without a page in common, in as
    many pages as the TLB has entries. *)
Record loadable (image : list Z) (s1 s2 : Elf_Phdr) : Prop := {
  ld_len : 52 <= Z.of_nat (length image);
  ld_ehdr : ehdr_ok (ehdr image) = true;
  ld_num : 0 <= e_phnum (ehdr image);
  ld_phdrs : forall j, 0 <= j < e_phnum (ehdr image) -> phoff (ehdr image) j + 32 <= Z.of_nat (length image);
  ld_types : Forall (fun ph => skipped ph || loaded ph) (phdrs image (ehdr image) 0 (e_phnum (ehdr image)));
  ld_segs : segments image = [s1; s2];
  ld_s1 : seg_ok image s1;
  ld_s2 : seg_ok image s2;
  ld_disj : first_page s1 + npages s1 <= first_page s2 \/ first_page s2 + npages s2 <= first_page s1;
  ld_room : npages s1 + npages s2 <= 64
}.

Definition new_as (s1 s2 : Elf_Phdr) (p1 p2 p3 : Z) : addrspace :=
  mkas (first_page s1 * PAGE_SIZE) (p1 * PAGE_SIZE) (npages s1) (first_page s2 * PAGE_SIZE) (p2 * PAGE_SIZE) (npages s2) (p3 * PAGE_SIZE).

Definition blank_as : addrspace := mkas 0 0 0 0 0 0 0.

(** The pages of both segments. *)
Definition seg_vpages (s1 s2 : Elf_Phdr) : list Z :=
  (fun k => k * PAGE_SIZE) <$> (seqZ (first_page s1) (npages s1) ++ seqZ (first_page s2) (npages s2)).

Section Regions.
Context (image : list Z) (s1 s2 : Elf_Phdr) (HL : loadable image s1 s2).
Context (live : gmap Z Z) (vm : vmstate) (p1 p2 p3 : Z) (Hok : vm_ok live vm) (Has : as_ok live (new_as s1 s2 p1 p2 p3) p1 p2 p3).
Local Abbreviation a := (new_as s1 s2 p1 p2 p3).

Lemma new_as_valid : as_valid a = true.
Proof.
  destruct (seg_pages _ _ (ld_s1 _ _ _ HL)) as (F1 & N1 & _ & T1). destruct (seg_pages _ _ (ld_s2 _ _ _ HL)) as (F2 & N2 & _ & T2).
  destruct Has as [_ (L1 & L2 & L3) _ _]. cbn in L1, L2.
  assert (Hp : forall p n, live !! p = Some n -> 0 < n -> 0 < p * PAGE_SIZE < 2 ^ 29).
  { intros p n Hl Hn. apply (live_range live vm p n _ Hok Hl). unfold in_block, PAGE_SIZE. lia. }
  pose proof (Hp _ _ L1 N1) as P1. pose proof (Hp _ _ L2 N2) as P2. pose proof (Hp _ _ L3 ltac:(done)) as P3.
  change STACKBASE with (524270 * PAGE_SIZE) in *.
  assert (Hal : forall k, 0 <= k * PAGE_SIZE < 2 ^ 32 -> (Z.land (k * PAGE_SIZE) PAGE_FRAME =? k * PAGE_SIZE) = true).
  { intros k Hk. rewrite land_frame by done. apply Z.eqb_eq. by rewrite pages_mul. }
  unfold as_valid, new_as. cbn [as_vbase1 as_pbase1 as_npages1 as_vbase2 as_pbase2 as_npages2 as_stackpbase].
  rewrite !Hal by (unfold PAGE_SIZE in *; lia). rewrite !(proj2 (Z.eqb_neq _ _)) by (unfold PAGE_SIZE in *; lia). done.
Qed.

Lemma vpage_in va s : (s = s1 \/ s = s2) -> first_page s * PAGE_SIZE <= va < (first_page s + npages s) * PAGE_SIZE -> 0 <= va < 2 ^ 32 ->
  Z.land va PAGE_FRAME ∈ seg_vpages s1 s2.
Proof.
  intros Hs Hva Hr. rewrite land_frame by done. unfold seg_vpages. apply list_elem_of_fmap. exists (va / PAGE_SIZE). split; [done|].
  rewrite elem_of_app, !elem_of_seqZ. pose proof (Z.div_mod va PAGE_SIZE ltac:(done)). pose proof (Z.mod_pos_bound va PAGE_SIZE ltac:(done)).
  unfold PAGE_SIZE in *. destruct Hs as [->| ->]; [left|right]; lia.
Qed.

Lemma region1 : region a (seg_vpages s1 s2) (first_page s1 * PAGE_SIZE) (p1 * PAGE_SIZE) (npages s1).
Proof.
  destruct (seg_pages _ _ (ld_s1 _ _ _ HL)) as (F1 & N1 & _ & T1). change STACKBASE with (524270 * PAGE_SIZE) in *. destruct Has as [_ (L1 & _ & _) _ _]. cbn in L1.
  split; [unfold PAGE_SIZE in *; lia|]. split; [unfold USERSPACETOP, PAGE_SIZE in *; lia|]. intros va Hva.
  split; [|apply (vpage_in va s1); [by left|lia|unfold PAGE_SIZE in *; lia]]. unfold translate, new_as. cbn [as_vbase1 as_pbase1 as_npages1].
  rewrite (wrapu_small 32 (first_page s1 * PAGE_SIZE + _)) by (unfold PAGE_SIZE in *; lia).
  rewrite (proj2 (Z.leb_le _ _)), (proj2 (Z.ltb_lt _ _)) by lia. cbn [andb]. f_equal. apply wrapu_small.
  pose proof (live_range live vm p1 (npages s1) (va - first_page s1 * PAGE_SIZE + p1 * PAGE_SIZE) Hok L1) as Hr. unfold in_block, PAGE_SIZE in *. lia.
Qed.

Lemma region2 : region a (seg_vpages s1 s2) (first_page s2 * PAGE_SIZE) (p2 * PAGE_SIZE) (npages s2).
Proof.
  destruct (seg_pages _ _ (ld_s1 _ _ _ HL)) as (F1 & N1 & _ & T1). destruct (seg_pages _ _ (ld_s2 _ _ _ HL)) as (F2 & N2 & _ & T2). pose proof (ld_disj _ _ _ HL) as Hd.
  change STACKBASE with (524270 * PAGE_SIZE) in *. destruct Has as [_ (_ & L2 & _) _ _]. cbn in L2.
  split; [unfold PAGE_SIZE in *; lia|]. split; [unfold USERSPACETOP, PAGE_SIZE in *; lia|]. intros va Hva.
  split; [|apply (vpage_in va s2); [by right|lia|unfold PAGE_SIZE in *; lia]]. unfold translate, new_as. cbn [as_vbase1 as_pbase1 as_npages1 as_vbase2 as_pbase2 as_npages2].
  rewrite (wrapu_small 32 (first_page s1 * PAGE_SIZE + _)), (wrapu_small 32 (first_page s2 * PAGE_SIZE + _)) by (unfold PAGE_SIZE in *; lia).
  destruct (Z.leb_spec (first_page s1 * PAGE_SIZE) va), (Z.ltb_spec va (first_page s1 * PAGE_SIZE + npages s1 * PAGE_SIZE)); cbn [andb]; try (unfold PAGE_SIZE in *; lia);
    rewrite (proj2 (Z.leb_le _ _)), (proj2 (Z.ltb_lt _ _)) by lia; cbn [andb]; f_equal; apply wrapu_small;
    pose proof (live_range live vm p2 (npages s2) (va - first_page s2 * PAGE_SIZE + p2 * PAGE_SIZE) Hok L2) as Hr; unfold in_block, PAGE_SIZE in *; lia.
Qed.

Lemma empty_tlb_ok t : length t = 64%nat -> Forall (fun en => valid en = false) t -> tlb_ok a (seg_vpages s1 s2) t.
Proof.
  intros Hl Ht. assert (Hp : tlb_pages t = [] /\ forall va, tlb_lookup t va = None).
  { clear Hl. induction Ht as [|[h e] t He _ [IH1 IH2]]; [done|]. split; [rewrite tlb_pages_cons; by rewrite He|]. intros va. cbn [tlb_lookup].
    unfold valid in He. cbn [snd] in He. rewrite He. cbn [andb]. apply IH2. }
  destruct Hp as [Hp Hn]. split; [done| |rewrite Hp; constructor|intros p; rewrite Hp; by intros ?%not_elem_of_nil|].
  - intros va pa _. by rewrite Hn.
  - unfold seg_vpages. rewrite length_fmap, length_app, !length_seqZ. pose proof (ld_room _ _ _ HL).
    destruct (seg_pages _ _ (ld_s1 _ _ _ HL)) as (_ & N1 & _). destruct (seg_pages _ _ (ld_s2 _ _ _ HL)) as (_ & N2 & _). lia.
Qed.

End Regions.

(** ** Loading *)

(** The byte a program finds at a virtual address. *)
Definition user_byte (vm : vmstate) (a : addrspace) (va : Z) : option Z := phys vm <$> translate a va.

Section Load.
Context {X : Executable} (image : list Z) {HX : Readable image} (s1 s2 : Elf_Phdr) (HL : loadable image s1 s2).

Lemma load_one_ok live a p1 p2 p3 R pb ph vm : as_ok live a p1 p2 p3 -> as_valid a = true -> seg_ok image ph ->
  region a R (first_page ph * PAGE_SIZE) pb (npages ph) -> loading live a R vm ->
  exists vm', load_one ph (mkl vm a) = Done tt (mkl vm' a) /\ loading live a R vm' /\
    same_mem (phys vm') (blit (p_vaddr ph - first_page ph * PAGE_SIZE + pb) (contents image ph) (phys vm)).
Proof.
  intros Has Hval Hs Hreg Hl. destruct (seg_pages _ _ Hs) as (F & N & Hlo & Hhi & _). destruct (Hs) as [S1 S2 S3 S4 S5 S6].
  unfold load_one, load_segment. set (fs := if p_memsz ph <? p_filesz ph then p_memsz ph else p_filesz ph).
  assert (Efs : fs = Z.min (p_filesz ph) (p_memsz ph)) by (unfold fs; destruct (Z.ltb_spec (p_memsz ph) (p_filesz ph)); lia).
  destruct (exe_bytes (p_offset ph) fs) as [E1 E2]; [done|lia|]. destruct (exe_read (p_offset ph) fs) as [chunks err]. cbn [fst snd] in *. subst err. rewrite Efs in E2. fold (contents image ph) in E2.
  assert (Hlen : Z.of_nat (length (concat chunks)) = fs) by (rewrite E2; unfold contents; rewrite length_take, length_drop; lia).
  destruct (move_chunks_ok live a p1 p2 p3 Has Hval R _ _ _ chunks Hreg vm (p_vaddr ph) Hl Hlo) as (vm' & E & Hl' & Hp); [unfold PAGE_SIZE in *; lia|].
  unfold kbind. rewrite E, Hlen, Z.sub_diag. cbn [Z.eqb negb]. exists vm'. rewrite <- E2. done.
Qed.

Lemma define_ok vm : phdr_loop define_segment (ehdr image) (Z.to_nat (e_phnum (ehdr image))) 0 (mkl vm blank_as) =
  Done tt (mkl vm (mkas (first_page s1 * PAGE_SIZE) 0 (npages s1) (first_page s2 * PAGE_SIZE) 0 (npages s2) 0)).
Proof.
  pose proof (ld_num _ _ _ HL). rewrite (phdr_loop_eq image) by (intros; apply (ld_phdrs _ _ _ HL); lia). rewrite Z2Nat.id by done.
  rewrite each_loaded by apply (ld_types _ _ _ HL). fold (segments image). rewrite (ld_segs _ _ _ HL). cbn [each]. unfold define_segment. kunfold. cbn [l_as].
  rewrite (define_eq image s1) by (done || apply (ld_s1 _ _ _ HL)). cbn [Z.eqb negb]. cbv beta iota. cbn [l_as set_as l_vm].
  destruct (seg_pages _ _ (ld_s1 _ _ _ HL)) as (F1 & _). rewrite (define_eq2 image s2); [done|apply (ld_s2 _ _ _ HL)|cbn; unfold PAGE_SIZE; lia|done].
Qed.

Lemma load_loop_eq s : phdr_loop load_one (ehdr image) (Z.to_nat (e_phnum (ehdr image))) 0 s = (load_one s1 ;;; load_one s2 ;;; kret tt) s.
Proof.
  pose proof (ld_num _ _ _ HL). rewrite (phdr_loop_eq image) by (intros; apply (ld_phdrs _ _ _ HL); lia). rewrite Z2Nat.id by done.
  rewrite each_loaded by apply (ld_types _ _ _ HL). fold (segments image). by rewrite (ld_segs _ _ _ HL).
Qed.

(** The bytes of a segment in memory that was zero. *)
Lemma seg_bytes (m : Z -> Z) ph pb : seg_ok image ph -> (forall j, 0 <= j < npages ph * PAGE_SIZE -> m (pb + j) = 0) ->
  forall j, 0 <= j < p_memsz ph -> blit (p_vaddr ph - first_page ph * PAGE_SIZE + pb) (contents image ph) m (p_vaddr ph + j - first_page ph * PAGE_SIZE + pb) =
    if decide (j < p_filesz ph) then get8 image (Z.to_nat (p_offset ph + j)) else 0.
Proof.
  intros Hs Hz j Hj. destruct (seg_pages _ _ Hs) as (F & N & Hlo & Hhi & _). destruct (Hs) as [S1 S2 S3 S4 S5 S6]. unfold blit, get8, contents.
  rewrite (proj2 (Z.leb_le _ _)) by lia. cbn [andb]. rewrite length_take, length_drop. destruct (decide (j < p_filesz ph)).
  - rewrite (proj2 (Z.ltb_lt _ _)) by lia. rewrite lookup_take_lt by lia. rewrite lookup_drop. do 2 f_equal. lia.
  - rewrite (proj2 (Z.ltb_ge _ _)) by lia. replace (p_vaddr ph + j - first_page ph * PAGE_SIZE + pb) with (pb + (p_vaddr ph + j - first_page ph * PAGE_SIZE)) by lia. apply Hz. lia.
Qed.

Lemma blit_out dst bs m x : ~ (dst <= x < dst + Z.of_nat (length bs)) -> blit dst bs m x = m x.
Proof. intros Hx. unfold blit. destruct (Z.leb_spec dst x), (Z.ltb_spec x (dst + Z.of_nat (length bs))); try done. lia. Qed.

Lemma contents_len ph : seg_ok image ph -> Z.of_nat (length (contents image ph)) <= p_memsz ph.
Proof. intros []. unfold contents. rewrite length_take. lia. Qed.

Lemma blit_block ph p m x : seg_ok image ph -> ~ in_block p (npages ph) x ->
  blit (p_vaddr ph - first_page ph * PAGE_SIZE + p * PAGE_SIZE) (contents image ph) m x = m x.
Proof.
  intros Hs Hx. destruct (seg_pages _ _ Hs) as (F & N & Hlo & Hhi & _). pose proof (contents_len ph Hs). apply blit_out. unfold in_block in Hx. unfold PAGE_SIZE in *. lia.
Qed.

(** The address space that is being set up. *)
Record prepared live vm live' vm1 (p1 p2 p3 : Z) : Prop := {
  pr_as : as_ok live' (new_as s1 s2 p1 p2 p3) p1 p2 p3;
  pr_vm : vm_ok live' vm1;
  pr_sub : live ⊆ live';
  pr_new : live !! p1 = None /\ live !! p2 = None /\ live !! p3 = None;
  pr_tlb : tlb vm1 = tlb vm;
  pr_zero : forall x, in_block p1 (npages s1) x \/ in_block p2 (npages s2) x \/ in_block p3 DUMBVM_STACKPAGES x -> phys vm1 x = 0;
  pr_out : forall x, ~ in_block p1 (npages s1) x -> ~ in_block p2 (npages s2) x -> ~ in_block p3 DUMBVM_STACKPAGES x -> phys vm1 x = phys vm x
}.

Lemma prepare_ok live vm : vm_ok live vm ->
  let a0 := mkas (first_page s1 * PAGE_SIZE) 0 (npages s1) (first_page s2 * PAGE_SIZE) 0 (npages s2) 0 in
  (exists s' live', prepare_load (mkl vm a0) = Fail ENOMEM s' /\ phys (l_vm s') = phys vm /\ vm_ok live' (l_vm s') /\ live ⊆ live') \/
  (exists vm1 p1 p2 p3 live', prepare_load (mkl vm a0) = Done tt (mkl vm1 (new_as s1 s2 p1 p2 p3)) /\ prepared live vm live' vm1 p1 p2 p3).
Proof.
  intros Hok a0. destruct (seg_pages _ _ (ld_s1 _ _ _ HL)) as (F1 & N1 & _ & T1). destruct (seg_pages _ _ (ld_s2 _ _ _ HL)) as (F2 & N2 & _ & T2).
  pose proof (ld_room _ _ _ HL) as Hroom. unfold prepare_load, on_vm. kunfold. cbn [l_vm l_as].
  destruct (as_prepare_load_ok live vm (first_page s1 * PAGE_SIZE) (npages s1) (first_page s2 * PAGE_SIZE) (npages s2) Hok)
    as [(vm' & live' & a & E & Hph & Hok' & Hsub)|(p1 & p2 & p3 & vm1 & E & P1 & P2 & P3 & M1 & M2 & M3 & Hok1 & Hout & Hzero & Htlb)]; [lia|lia| |].
  - left. unfold a0. rewrite E. cbn [Z.eqb negb]. by eexists _, live'.
  - right. unfold a0. rewrite E. cbn [Z.eqb negb]. destruct (fresh_three live p1 p2 p3 _ _ DUMBVM_STACKPAGES M1 M2 M3) as (Hsub & L1 & L2 & L3 & Q & _).
    eexists vm1, p1, p2, p3, _. split; [done|]. change STACKBASE with (524270 * PAGE_SIZE) in *. split; [|exact Hok1|done| |done|done|done].
    + split; cbn; [done|done| |done]. unfold PAGE_SIZE in *. lia.
    + apply lookup_insert_None in M2 as [M2 _]. apply lookup_insert_None in M3 as [M3 _]. by apply lookup_insert_None in M3 as [M3 _].
Qed.

Lemma loaded_bytes live vm live' vm1 vm3 p1 p2 p3 : prepared live vm live' vm1 p1 p2 p3 ->
  (forall x, phys vm3 x = blit (p_vaddr s2 - first_page s2 * PAGE_SIZE + p2 * PAGE_SIZE) (contents image s2)
                            (blit (p_vaddr s1 - first_page s1 * PAGE_SIZE + p1 * PAGE_SIZE) (contents image s1) (phys vm1)) x) ->
  let a := new_as s1 s2 p1 p2 p3 in
  (forall ph j, ph = s1 \/ ph = s2 -> 0 <= j < p_memsz ph ->
     user_byte vm3 a (p_vaddr ph + j) = Some (if decide (j < p_filesz ph) then get8 image (Z.to_nat (p_offset ph + j)) else 0)) /\
  (forall va, STACKBASE <= va < USERSTACK -> user_byte vm3 a va = Some 0) /\
  (forall p n x, live !! p = Some n -> in_block p n x -> phys vm3 x = phys vm x).
Proof.
  intros [PA PV PS PN PT PZ PO] Hp a. subst a. destruct (PA) as [_ (L1 & L2 & L3) _ (D12 & D13 & D23)]. cbn in L1, L2.
  destruct (seg_pages _ _ (ld_s1 _ _ _ HL)) as (F1 & N1 & Lo1 & T1 & U1). destruct (seg_pages _ _ (ld_s2 _ _ _ HL)) as (F2 & N2 & Lo2 & T2 & U2).
  assert (Hsep : forall p n q m x, live' !! p = Some n -> live' !! q = Some m -> p <> q -> in_block p n x -> ~ in_block q m x) by (intros p n q m x H1 H2 H3 H4; exact (live_sep live' vm1 p n q m x PV H1 H2 H3 H4)).
  split; [|split].
  - intros ph j [->| ->] Hj; unfold user_byte.
    + destruct (region1 image s1 s2 HL live' vm1 p1 p2 p3 PV PA) as (_ & _ & HR). destruct (HR (p_vaddr s1 + j)) as [-> _]; [unfold PAGE_SIZE in *; lia|]. cbn [fmap option_fmap option_map].
      assert (Hb : in_block p1 (npages s1) (p_vaddr s1 + j - first_page s1 * PAGE_SIZE + p1 * PAGE_SIZE)) by (unfold in_block, PAGE_SIZE in *; lia).
      rewrite Hp, blit_block; [|apply (ld_s2 _ _ _ HL)|by apply (Hsep p1 (npages s1))]. f_equal. apply seg_bytes; [apply (ld_s1 _ _ _ HL)| |done].
      intros i Hi. apply PZ. left. unfold in_block, PAGE_SIZE in *. lia.
    + destruct (region2 image s1 s2 HL live' vm1 p1 p2 p3 PV PA) as (_ & _ & HR). destruct (HR (p_vaddr s2 + j)) as [-> _]; [unfold PAGE_SIZE in *; lia|]. cbn [fmap option_fmap option_map].
      rewrite Hp. f_equal. apply seg_bytes; [apply (ld_s2 _ _ _ HL)| |done]. intros i Hi.
      assert (Hb : in_block p2 (npages s2) (p2 * PAGE_SIZE + i)) by (unfold in_block, PAGE_SIZE in *; lia).
      rewrite blit_block; [|apply (ld_s1 _ _ _ HL)|apply (Hsep p2 (npages s2)); [done|done|by apply not_eq_sym|done]]. apply PZ. by right; left.
  - intros va Hva. unfold user_byte, translate. cbn [new_as as_vbase1 as_pbase1 as_npages1 as_vbase2 as_pbase2 as_npages2 as_stackpbase].
    rewrite (wrapu_small 32 (first_page s1 * PAGE_SIZE + _)), (wrapu_small 32 (first_page s2 * PAGE_SIZE + _)) by (change STACKBASE with (524270 * PAGE_SIZE) in *; unfold PAGE_SIZE in *; lia).
    rewrite !(andb_comm (_ <=? va)). rewrite !(proj2 (Z.ltb_ge va _)) by lia. cbn [andb]. rewrite (proj2 (Z.ltb_lt va USERSTACK)), (proj2 (Z.leb_le _ va)) by (unfold STACKBASE in *; lia). cbn [andb fmap option_fmap option_map].
    fold STACKBASE. assert (Hb : in_block p3 DUMBVM_STACKPAGES (va - STACKBASE + p3 * PAGE_SIZE)) by (unfold in_block, STACKBASE, USERSTACK, DUMBVM_STACKPAGES, PAGE_SIZE in *; lia).
    rewrite wrapu_small by (pose proof (live_range live' vm1 _ _ _ PV L3 Hb); lia).
    rewrite Hp, !blit_block; [f_equal; apply PZ; by right; right|apply (ld_s1 _ _ _ HL)|apply (Hsep p3 DUMBVM_STACKPAGES); [done|done|by apply not_eq_sym|done]|apply (ld_s2 _ _ _ HL)|apply (Hsep p3 DUMBVM_STACKPAGES); [done|done|by apply not_eq_sym|done]].
  - intros p n x Hpn Hx. destruct PN as (Q1 & Q2 & Q3). pose proof (lookup_weaken _ _ _ _ Hpn PS) as Hpn'.
    assert (X1 : ~ in_block p1 (npages s1) x) by (apply (Hsep p n); [done|done|congruence|done]).
    assert (X2 : ~ in_block p2 (npages s2) x) by (apply (Hsep p n); [done|done|congruence|done]).
    assert (X3 : ~ in_block p3 DUMBVM_STACKPAGES x) by (apply (Hsep p n); [done|done|congruence|done]).
    rewrite Hp, !blit_block; [by apply PO|apply (ld_s1 _ _ _ HL)|done|apply (ld_s2 _ _ _ HL)|done].
Qed.

Lemma load_elf_eq vm : load_elf (mkl vm blank_as) =
  (prepare_load ;;; load_one s1 ;;; load_one s2 ;;; complete_load ;;; kret (e_entry (ehdr image)))
    (mkl vm (mkas (first_page s1 * PAGE_SIZE) 0 (npages s1) (first_page s2 * PAGE_SIZE) 0 (npages s2) 0)).
Proof.
  unfold load_elf. unfold kbind at 1. rewrite (read_struct_eq image) by (unfold SIZEOF_EHDR; pose proof (ld_len _ _ _ HL); lia).
  rewrite drop_0. change (ehdr_of (take (Z.to_nat SIZEOF_EHDR) image)) with (ehdr image). rewrite (ld_ehdr _ _ _ HL). cbn [negb]. unfold kbind at 1. rewrite define_ok.
  unfold kbind. destruct (prepare_load _) as [[] s| |]; [|done|done]. rewrite load_loop_eq. unfold kbind, kret. destruct (load_one s1 s) as [[] s'| |]; [|done|done].
  by destruct (load_one s2 s') as [[] s''| |].
Qed.

Lemma load_elf_ok live vm : vm_ok live vm -> length (tlb vm) = 64%nat -> Forall (fun en => valid en = false) (tlb vm) ->
  (exists s' live', load_elf (mkl vm blank_as) = Fail ENOMEM s' /\ phys (l_vm s') = phys vm /\ vm_ok live' (l_vm s') /\ live ⊆ live') \/
  (exists vm' p1 p2 p3 live', let a := new_as s1 s2 p1 p2 p3 in
     load_elf (mkl vm blank_as) = Done (e_entry (ehdr image)) (mkl vm' a) /\
     vm_ok live' vm' /\ live ⊆ live' /\ as_ok live' a p1 p2 p3 /\ as_valid a = true /\
     (forall ph j, ph = s1 \/ ph = s2 -> 0 <= j < p_memsz ph ->
        user_byte vm' a (p_vaddr ph + j) = Some (if decide (j < p_filesz ph) then get8 image (Z.to_nat (p_offset ph + j)) else 0)) /\
     (forall va, STACKBASE <= va < USERSTACK -> user_byte vm' a va = Some 0) /\
     (forall p n x, live !! p = Some n -> in_block p n x -> phys vm' x = phys vm x)).
Proof.
  intros Hok Htl Htv. destruct (prepare_ok live vm Hok) as [(s' & live' & E & Hf)|(vm1 & p1 & p2 & p3 & live' & E & HP)].
  { left. exists s', live'. split; [|done]. rewrite load_elf_eq. unfold kbind. by rewrite E. }
  right. pose proof (pr_as _ _ _ _ _ _ _ HP) as PA. pose proof (pr_vm _ _ _ _ _ _ _ HP) as PV. pose proof (new_as_valid image s1 s2 HL live' vm1 p1 p2 p3 PV PA) as Hval.
  assert (Hl1 : loading live' (new_as s1 s2 p1 p2 p3) (seg_vpages s1 s2) vm1).
  { split; [done|]. rewrite (pr_tlb _ _ _ _ _ _ _ HP). by apply (empty_tlb_ok image). }
  destruct (load_one_ok live' _ p1 p2 p3 _ _ s1 vm1 PA Hval (ld_s1 _ _ _ HL) (region1 image s1 s2 HL live' vm1 p1 p2 p3 PV PA) Hl1) as (vm2 & E2 & Hl2 & Hp2).
  destruct (load_one_ok live' _ p1 p2 p3 _ _ s2 vm2 PA Hval (ld_s2 _ _ _ HL) (region2 image s1 s2 HL live' vm1 p1 p2 p3 PV PA) Hl2) as (vm3 & E3 & Hl3 & Hp3).
  exists vm3, p1, p2, p3, live'. split; [rewrite load_elf_eq; unfold kbind; by rewrite E, E2, E3|].
  split; [apply Hl3|]. split; [apply (pr_sub _ _ _ _ _ _ _ HP)|]. split; [done|]. split; [done|].
  apply (loaded_bytes live vm live' vm1); [done|]. intros x. rewrite Hp3. by apply blit_ext.
Qed.

End Load.

(** C26. Loading a program. For an executable with two segments that fit below the stack,
    [load_elf] either runs out of memory, and then no byte of memory has changed; or it
    returns the entry point of the file with an address space in which every byte of every
    segment is the byte of the file or, past the part that is in the file, zero; the stack
    is zero; and the memory of everybody else is as it was. Every byte is stored through
    the TLB, whose 64 entries are enough for these pages. *)
Theorem load_elf_spec {X : Executable} (image : list Z) (HX : Readable image) (s1 s2 : Elf_Phdr) (live : gmap Z Z) (vm : vmstate)
    (HL : loadable image s1 s2) (Hok : vm_ok live vm) (Hlen : length (tlb vm) = 64%nat) (Hempty : Forall (fun en => valid en = false) (tlb vm)) :
  (exists s' live', load_elf (mkl vm blank_as) = Fail ENOMEM s' /\ phys (l_vm s') = phys vm /\ vm_ok live' (l_vm s') /\ live ⊆ live') \/
  (exists vm' p1 p2 p3 live', let a := new_as s1 s2 p1 p2 p3 in
     load_elf (mkl vm blank_as) = Done (e_entry (ehdr image)) (mkl vm' a) /\
     vm_ok live' vm' /\ live ⊆ live' /\ as_ok live' a p1 p2 p3 /\ as_valid a = true /\
     (forall ph j, ph = s1 \/ ph = s2 -> 0 <= j < p_memsz ph ->
        user_byte vm' a (p_vaddr ph + j) = Some (if decide (j < p_filesz ph) then get8 image (Z.to_nat (p_offset ph + j)) else 0)) /\
     (forall va, STACKBASE <= va < USERSTACK -> user_byte vm' a va = Some 0) /\
     (forall p n x, live !! p = Some n -> in_block p n x -> phys vm' x = phys vm x)).
Proof. exact (load_elf_ok image s1 s2 HL live vm Hok Hlen Hempty). Qed.

(** A file that is too short for the header, or whose header is not that of a MIPS
    executable, is refused before anything is set up. *)
Theorem load_elf_refuses {X : Executable} (image : list Z) (HX : Readable image) (s : lstate)
    (Hbad : Z.of_nat (length image) < 52 \/ ehdr_ok (ehdr image) = false) : load_elf s = Fail ENOEXEC s.
Proof.
  unfold load_elf, kbind. destruct (Z.lt_ge_cases (Z.of_nat (length image)) 52) as [Hs|Hl].
  - destruct (exe_bytes 0 52) as [E1 E2]; [done|done|]. unfold read_struct, SIZEOF_EHDR. destruct (exe_read 0 52) as [chunks err]. cbn in *. rewrite E1, E2.
    rewrite (proj2 (Z.ltb_lt _ _)); [done|]. rewrite length_take, length_drop. lia.
  - destruct Hbad as [?|Hbad]; [lia|]. rewrite (read_struct_eq image) by (unfold SIZEOF_EHDR; lia). rewrite drop_0.
    change (ehdr_of (take (Z.to_nat SIZEOF_EHDR) image)) with (ehdr image). by rewrite Hbad.
Qed.

(** ** A program *)

Definition mem_exe (image : list Z) : Executable := fun off len => ([take (Z.to_nat len) (drop (Z.to_nat off) image)], None).

Lemma mem_readable image : Readable (X := mem_exe image) image.
Proof. intros off len _ _. cbn. by rewrite app_nil_r. Qed.

Definition demo_ehdr (phnum : Z) : list Z :=
  [127; 69; 76; 70; 1; 2; 1; 0; 0; 0; 0; 0; 0; 0; 0; 0] ++ [0; 2] ++ [0; 8] ++ [0; 0; 0; 1] ++ [0; 64; 0; 0] ++ [0; 0; 0; 52] ++
  [0; 0; 0; 0] ++ [0; 0; 0; 0] ++ [0; 52] ++ [0; 32] ++ [0; phnum] ++ [0; 0; 0; 0; 0; 0].

Definition demo_text : list Z :=
  [0; 0; 0; 1] ++ [0; 0; 0; 116] ++ [0; 64; 0; 0] ++ [0; 64; 0; 0] ++ [0; 0; 0; 4] ++ [0; 0; 0; 4] ++ [0; 0; 0; 5] ++ [0; 0; 16; 0].

Definition demo_data : list Z :=
  [0; 0; 0; 1] ++ [0; 0; 0; 120] ++ [16; 0; 0; 0] ++ [16; 0; 0; 0] ++ [0; 0; 0; 2] ++ [0; 0; 0; 8] ++ [0; 0; 0; 6] ++ [0; 0; 16; 0].

Definition demo_image : list Z := demo_ehdr 2 ++ demo_text ++ demo_data ++ [1; 2; 3; 4] ++ [5; 6].

Definition text_seg : Elf_Phdr := mkph 1 116 4194304 4 4 5.
Definition data_seg : Elf_Phdr := mkph 1 120 268435456 2 8 6.

Lemma demo_loadable : loadable demo_image text_seg data_seg.
Proof.
  split.
  - by apply Z.leb_le.
  - vm_compute. reflexivity.
  - by apply Z.leb_le.
  - intros j Hj. change (e_phnum (ehdr demo_image)) with 2 in Hj. assert (j = 0 \/ j = 1) as [->| ->] by lia; by apply Z.leb_le.
  - vm_compute. repeat constructor.
  - vm_compute. reflexivity.
  - by split; (apply Z.leb_le || apply Z.ltb_lt).
  - by split; (apply Z.leb_le || apply Z.ltb_lt).
  - left. by apply Z.leb_le.
  - by apply Z.leb_le.
Qed.

Definition entry_of {S} (o : outcome S Z) : option Z := match o with Done e _ => Some e | _ => None end.

(** In the memory of Dumbvm.v: the last byte of the data is zero. *)
Lemma load_elf_spec_witness :
  exists vm' a, load_elf (X := mem_exe demo_image) (mkl demo_vm blank_as) = Done 4194304 (mkl vm' a) /\ user_byte vm' a 268435457 = Some 6 /\ user_byte vm' a 268435463 = Some 0.
Proof.
  destruct (load_elf_spec (X := mem_exe demo_image) demo_image (mem_readable demo_image) text_seg data_seg demo_live demo_vm demo_loadable demo_vm_ok)
    as [(s' & live' & E & _)|(vm' & p1 & p2 & p3 & live' & E & _ & _ & _ & _ & Hb & _)]; [reflexivity|vm_compute; repeat constructor| |].
  - exfalso. apply (f_equal entry_of) in E. vm_compute in E. discriminate E.
  - exists vm', (new_as text_seg data_seg p1 p2 p3). split; [exact E|].
    split; [apply (Hb data_seg 1); [by right|vm_compute; split; congruence]|apply (Hb data_seg 7); [by right|vm_compute; split; congruence]].
Defined.

(** An executable with one segment: [vm_fault] asserts that there are two. *)
Definition one_segment : list Z := demo_ehdr 1 ++ demo_text ++ demo_data ++ [1; 2; 3; 4].

Example one_segment_halts : load_elf (X := mem_exe one_segment) (mkl demo_vm blank_as) = Halt KAssert.
Proof. vm_compute. reflexivity. Qed.
