(* ===== verification/KHeapRefs.v ===== *)
(** * The kernel heap: page references

    [kmalloc] (kern/vm/kmalloc.c) keeps a [struct pageref] for every page it cuts into
    blocks. The structures themselves live in pages of 256 that are allocated on demand
    and never given back; [kheaproots] has a bitmap of those in use. This file models
    their allocation and the state of the heap; KHeap.v has the rest.

    Pages come from the page allocator, of which the heap needs what the class [Pages]
    says; Dumbvm.v provides it. The heap is protected by one spinlock, so its operations
    are sequential; the lock is released around the calls of the page allocator, which
    does not call back. *)

From stdpp Require Import base numbers list gmap.
From Stdlib Require Import ZArith Lia.
From S2P Require Import Prelude Bitmap Dumbvm.

Open Scope Z_scope.
Open Scope k_scope.

(** ** The page allocator *)

(** What the heap expects of [alloc_kpages] and [free_kpages]: [pages_ok live p] says
    that the runs of pages in [live] (first page and length) are allocated. *)
Class Pages := {
  pages : Type;
  pages_alloc : Z -> K pages Z;
  pages_free : Z -> K pages unit;
  pages_ok : gmap Z Z -> pages -> Prop;
  pages_range : forall live p a n, pages_ok live p -> live !! a = Some n -> 0 < a /\ 0 < n /\ a + n <= 2 ^ 17;
  pages_disjoint : forall live p a n b m, pages_ok live p -> live !! a = Some n -> live !! b = Some m -> a <> b ->
    a + n <= b \/ b + m <= a;
  pages_alloc_ok : forall live p n, pages_ok live p -> 0 < n <= 2 ^ 19 ->
    (exists p', pages_alloc n p = Done 0 p' /\ pages_ok live p') \/
    (exists a p', pages_alloc n p = Done (MIPS_KSEG0 + a * PAGE_SIZE) p' /\ live !! a = None /\ pages_ok (<[a := n]> live) p');
  pages_free_ok : forall live p a n, pages_ok live p -> live !! a = Some n ->
    exists p', pages_free (MIPS_KSEG0 + a * PAGE_SIZE) p = Done tt p' /\ pages_ok (delete a live) p'
}.

#[global] Instance dumbvm_pages : Pages.
Proof.
  refine {| pages := vmstate; pages_alloc := alloc_kpages; pages_free := free_kpages; pages_ok := vm_ok |}.
  - intros live p a n Hok Ha. destruct (ok_live _ _ Hok a n Ha) as (? & ? & Hle & _). pose proof (ok_last _ _ Hok).
    destruct (ok_first _ _ Hok) as [? _]. unfold PAGE_SIZE in *. Z.div_mod_to_equations. lia.
  - intros live p a n b m Hok. apply (ok_disjoint _ _ Hok).
  - intros live p n Hok Hn. destruct (alloc_kpages_ok live p n Hok Hn) as [(-> & _)|(a & p' & -> & Ha & Hok' & _)].
    + left. by exists p.
    + right. by exists a, p'.
  - intros live p a n Hok Ha. destruct (free_kpages_ok live p a n Hok Ha) as (p' & -> & ? & _). by exists p'.
Defined.

(** ** The state of the heap *)

Definition NSIZES : Z := 8.
Definition sizes : list Z := [16; 32; 64; 128; 256; 512; 1024; 2048].
Definition LARGEST_SUBPAGE_SIZE : Z := 2048.
Definition INVALID_OFFSET : Z := 65535.
Definition NPAGEREFS_PER_PAGE : Z := 256.
Definition INUSE_WORDS : Z := 8.
Definition NUM_PAGEREFPAGES : Z := 16.
Definition TOTAL_PAGEREFS : Z := 4096.
Definition PAGEREF_SIZE : Z := 16.

(** kern/vm/kmalloc.c:146-152 (struct pageref). *)
Record pageref := mkpr {
  next_samesize : Z;
  next_all : Z;
  pageaddr_and_blocktype : Z;
  freelist_offset : Z;
  nfree : Z
}.

(** kern/vm/kmalloc.c:194-198 (struct kheap_root); [page] is 0 for [NULL]. *)
Record kheap_root := mkroot { page : Z; pagerefs_inuse : list Z; numinuse : Z }.

(** kern/vm/kmalloc.c:213-213 (kheaproots), with the other variables of the file
    (lines 345-346), the page references by address, the words of the heap pages
    ([hmem], of which the first word of a free block is its link) and the page
    allocator. *)
Record kheap `{Pages} := mkheap {
  kheaproots : list kheap_root;
  prs : Z -> pageref;
  sizebases : list Z;
  allbase : Z;
  hmem : Z -> Z;
  hpages : pages
}.

Section Refs.
Context `{Pages}.

Definition set_roots f h := mkheap _ (f (kheaproots h)) (prs h) (sizebases h) (allbase h) (hmem h) (hpages h).
Definition set_prs f h := mkheap _ (kheaproots h) (f (prs h)) (sizebases h) (allbase h) (hmem h) (hpages h).
Definition set_sizebases f h := mkheap _ (kheaproots h) (prs h) (f (sizebases h)) (allbase h) (hmem h) (hpages h).
Definition set_allbase x h := mkheap _ (kheaproots h) (prs h) (sizebases h) x (hmem h) (hpages h).
Definition set_hmem f h := mkheap _ (kheaproots h) (prs h) (sizebases h) (allbase h) (f (hmem h)) (hpages h).
Definition set_hpages p h := mkheap _ (kheaproots h) (prs h) (sizebases h) (allbase h) (hmem h) p.

Definition on_pages {A} (m : K pages A) : K kheap A :=
  fun h => match m (hpages h) with
           | Done a p => Done a (set_hpages p h)
           | Fail e p => Fail e (set_hpages p h)
           | Halt x => Halt x
           end.

Definition get_root (w : Z) : K kheap kheap_root :=
  fun h => match kheaproots h !! Z.to_nat w with
           | Some r => Done r h
           | None => Halt OutOfBounds
           end.

Definition put_root (w : Z) (r : kheap_root) : K kheap unit := kmodify (set_roots <[Z.to_nat w := r]>).

(** kern/vm/kmalloc.c:218-251 (allocpagerefpage). *)
Definition allocpagerefpage (w : Z) : K kheap unit :=
  root <- get_root w ;;
  kassert (page root =? 0) ;;;
  va <- on_pages (pages_alloc 1) ;;
  if va =? 0 then kret tt else
  kassert (va mod PAGE_SIZE =? 0) ;;;
  root <- get_root w ;;
  if negb (page root =? 0) then
    on_pages (pages_free va) ;;;
    root <- get_root w ;;
    kassert (negb (page root =? 0))
  else put_root w (mkroot va (pagerefs_inuse root) (numinuse root)).

(** kern/vm/kmalloc.c:279-291 (allocpageref): the first clear bit of a word, [n] bits
    from [j]; [None] is the end of the loop. *)
Fixpoint free_bit (n : nat) (j w : Z) : option Z :=
  match n with
  | O => None
  | S n' => if Z.land w (2 ^ j) =? 0 then Some j else free_bit n' (j + 1) w
  end.

Inductive found := Full | Stuck | At (i j : Z).

(** kern/vm/kmalloc.c:274-293 (allocpageref): the search through the words of a root;
    [Stuck] is the assertion after the inner loop. *)
Fixpoint free_ref (ws : list Z) (i : Z) : found :=
  match ws with
  | [] => Full
  | w :: ws' =>
      if w =? 4294967295 then free_ref ws' (i + 1) else
      match free_bit 32 0 w with
      | Some j => At i j
      | None => Stuck
      end
  end.

(** kern/vm/kmalloc.c:265-294 (allocpageref): the loop over the roots, [n] from [w]. *)
Fixpoint alloc_roots (n : nat) (w : Z) : K kheap Z :=
  match n with
  | O => kret 0
  | S n' =>
      root <- get_root w ;;
      if NPAGEREFS_PER_PAGE <=? numinuse root then alloc_roots n' (w + 1) else
      match free_ref (pagerefs_inuse root) 0 with
      | Full => alloc_roots n' (w + 1)
      | Stuck => khalt KAssert
      | At i j =>
          put_root w (mkroot (page root)
                        (<[Z.to_nat i := Z.lor (pagerefs_inuse root !!! Z.to_nat i) (2 ^ j)]> (pagerefs_inuse root))
                        (numinuse root + 1)) ;;;
          (if page root =? 0 then allocpagerefpage w else kret tt) ;;;
          root <- get_root w ;;
          if page root =? 0 then kret 0 else kret (page root + PAGEREF_SIZE * (i * 32 + j))
      end
  end.

(** kern/vm/kmalloc.c:256-298 (allocpageref); 0 is [NULL]. *)
Definition allocpageref : K kheap Z := alloc_roots (Z.to_nat NUM_PAGEREFPAGES) 0.

(** kern/vm/kmalloc.c:313-336 (freepageref): the loop over the roots, [n] from [w]. *)
Fixpoint free_roots (n : nat) (w p : Z) : K kheap unit :=
  match n with
  | O => khalt KAssert
  | S n' =>
      root <- get_root w ;;
      if page root =? 0 then
        kassert (numinuse root =? 0) ;;;
        free_roots n' (w + 1) p
      else
        let j := u32 ((p - page root) / PAGEREF_SIZE) in
        if j <? NPAGEREFS_PER_PAGE then
          let i := j / 32 in
          let k := 2 ^ (j mod 32) in
          kassert (negb (Z.land (pagerefs_inuse root !!! Z.to_nat i) k =? 0)) ;;;
          kassert (0 <? numinuse root) ;;;
          put_root w (mkroot (page root)
                        (<[Z.to_nat i := Z.land (pagerefs_inuse root !!! Z.to_nat i) (Z.lnot k)]> (pagerefs_inuse root))
                        (numinuse root - 1))
        else free_roots n' (w + 1) p
  end.

(** kern/vm/kmalloc.c:303-337 (freepageref). *)
Definition freepageref (p : Z) : K kheap unit := free_roots (Z.to_nat NUM_PAGEREFPAGES) 0 p.

(** ** Bits *)

Lemma testbit_small w n i : 0 <= n -> 0 <= w < 2 ^ n -> n <= i -> Z.testbit w i = false.
Proof.
  intros Hn Hw Hi. destruct (decide (w = 0)) as [->|]; [apply Z.bits_0|]. apply Z.bits_above_log2; [lia|].
  apply Z.log2_lt_pow2; [lia|]. eapply Z.lt_le_trans; [apply Hw|]. apply Z.pow_le_mono_r; lia.
Qed.

Lemma small_testbit w n : 0 <= n -> 0 <= w -> (forall i, n <= i -> Z.testbit w i = false) -> w < 2 ^ n.
Proof.
  intros Hn Hw Hb. destruct (Z.lt_ge_cases w (2 ^ n)) as [|Hge]; [done|]. exfalso.
  assert (0 < w) by (pose proof (Z.pow_pos_nonneg 2 n); lia). apply Z.log2_le_pow2 in Hge; [|done].
  specialize (Hb (Z.log2 w) Hge). rewrite Z.bit_log2 in Hb; done.
Qed.

Lemma word_lor w j : 0 <= w < 2 ^ 32 -> 0 <= j < 32 -> 0 <= Z.lor w (2 ^ j) < 2 ^ 32.
Proof.
  intros Hw Hj. assert (0 <= Z.lor w (2 ^ j)) by (apply Z.lor_nonneg; split; [lia|apply Z.pow_nonneg; lia]).
  split; [done|]. apply small_testbit; [lia|done|]. intros i Hi.
  rewrite Z.lor_spec, (testbit_small w 32), Z.pow2_bits_false by lia. done.
Qed.

Lemma word_clear w k : 0 <= w < 2 ^ 32 -> 0 <= Z.land w (Z.lnot k) < 2 ^ 32.
Proof.
  intros Hw. assert (0 <= Z.land w (Z.lnot k)) by (apply Z.land_nonneg; left; lia).
  split; [done|]. apply small_testbit; [lia|done|]. intros i Hi. by rewrite Z.land_spec, (testbit_small w 32) by lia.
Qed.

Lemma free_bit_ok n j w : 0 <= j ->
  match free_bit n j w with
  | Some k => j <= k < j + Z.of_nat n /\ Z.testbit w k = false
  | None => forall k, j <= k < j + Z.of_nat n -> Z.testbit w k = true
  end.
Proof.
  revert j. induction n as [|n IH]; intros j Hj; cbn [free_bit]; [intros; lia|].
  rewrite land_pow2 by done. destruct (Z.testbit w j) eqn:E.
  - destruct (Z.eqb_spec (2 ^ j) 0) as [E0|_]; [pose proof (Z.pow_pos_nonneg 2 j); lia|].
    specialize (IH (j + 1) ltac:(lia)). destruct (free_bit n (j + 1) w).
    + split; [lia|apply IH].
    + intros k Hk. destruct (decide (k = j)) as [->|]; [done|]. apply IH. lia.
  - cbn. split; [lia|done].
Qed.

Lemma free_ref_ok ws i : Forall (fun w => 0 <= w < 2 ^ 32) ws ->
  match free_ref ws i with
  | Full => Forall (fun w => w = 4294967295) ws
  | Stuck => False
  | At i' j => i <= i' < i + Z.of_nat (length ws) /\ 0 <= j < 32 /\ Z.testbit (ws !!! Z.to_nat (i' - i)) j = false
  end.
Proof.
  intros Hf. revert i. induction Hf as [|w ws Hw Hf IH]; intros i; cbn [free_ref]; [constructor|].
  destruct (Z.eqb_spec w 4294967295) as [E|E].
  - specialize (IH (i + 1)). destruct (free_ref ws (i + 1)) as [| |i' j]; [by constructor|done|]. destruct IH as (? & ? & Hb).
    cbn [length]. split; [lia|]. split; [done|]. destruct (Z.to_nat (i' - i)) as [|k] eqn:Ek; [lia|]. cbn. by replace k with (Z.to_nat (i' - (i + 1))) by lia.
  - pose proof (free_bit_ok 32 0 w) as Hb. destruct (free_bit 32 0 w) as [j|].
    + destruct Hb as [? Hb]; [done|]. cbn [length]. split; [lia|]. split; [lia|]. by rewrite Z.sub_diag.
    + apply E. apply Z.bits_inj'. intros k Hk. change 4294967295 with (Z.ones 32). destruct (decide (k < 32)) as [|].
      * rewrite Hb, Z.ones_spec_low by lia. done.
      * rewrite Z.ones_spec_high, (testbit_small w 32) by lia. done.
Qed.

(** ** Counting *)

Fixpoint count (f : Z -> bool) (n : nat) : Z :=
  match n with
  | O => 0
  | S n' => count f n' + (if f (Z.of_nat n') then 1 else 0)
  end.

Lemma count_range f n : 0 <= count f n <= Z.of_nat n.
Proof. induction n as [|n IH]; cbn [count]; [done|]. destruct (f _); lia. Qed.

Lemma count_one f g n j : f j = false -> g j = true -> (forall i, 0 <= i -> i <> j -> g i = f i) ->
  count g n = count f n + (if decide (0 <= j < Z.of_nat n) then 1 else 0).
Proof.
  intros Hf Hg Hne. induction n as [|n IH]; cbn [count].
  - rewrite decide_False by lia. done.
  - rewrite IH. destruct (decide (Z.of_nat n = j)) as [<-|Hj].
    + rewrite Hf, Hg. rewrite decide_False, decide_True by lia. lia.
    + rewrite Hne by (done || lia). repeat case_decide; lia.
Qed.

Lemma count_all f n : (forall j, 0 <= j < Z.of_nat n -> f j = true) -> count f n = Z.of_nat n.
Proof. induction n as [|n IH]; intros Hf; cbn [count]; [done|]. rewrite IH by (intros; apply Hf; lia). rewrite Hf by lia. lia. Qed.

Lemma count_pos f n j : 0 <= j < Z.of_nat n -> f j = true -> 0 < count f n.
Proof.
  induction n as [|n IH]; intros Hj Hf; cbn [count]; [lia|]. pose proof (count_range f n).
  destruct (decide (j = Z.of_nat n)) as [<-|]; [rewrite Hf; lia|]. assert (0 < count f n) by (apply IH; [lia|done]).
  destruct (f (Z.of_nat n)); lia.
Qed.

(** ** The invariant *)

Definition inuse (r : kheap_root) (j : Z) : bool := Z.testbit (pagerefs_inuse r !!! Z.to_nat (j / 32)) (j mod 32).

Record root_ok (r : kheap_root) : Prop := {
  rt_len : length (pagerefs_inuse r) = 8%nat;
  rt_words : Forall (fun w => 0 <= w < 2 ^ 32) (pagerefs_inuse r);
  rt_num : numinuse r = count (inuse r) 256
}.

Definition paddr (a : Z) : Z := MIPS_KSEG0 + a * PAGE_SIZE.

(** Reference [r] is in use. *)
Definition ref_at (R : list kheap_root) (r : Z) : Prop :=
  exists w rt j, R !! w = Some rt /\ page rt <> 0 /\ 0 <= j < 256 /\ inuse rt j = true /\ r = page rt + PAGEREF_SIZE * j.

(** Page [a] holds references. *)
Definition root_page (R : list kheap_root) (a : Z) : Prop := exists w rt, R !! w = Some rt /\ page rt <> 0 /\ page rt = paddr a.

(** The roots: the first [n] have a page of their own; at most the next one has lost
    references to pages that could not be allocated, and not all of them. *)
Record roots_ok (live : gmap Z Z) (R : list kheap_root) : Prop := {
  ro_len : length R = 16%nat;
  ro_root : forall w rt, R !! w = Some rt -> root_ok rt;
  ro_page : forall w rt, R !! w = Some rt -> page rt <> 0 -> exists a, page rt = paddr a /\ live !! a = Some 1;
  ro_inj : forall w w' rt rt', R !! w = Some rt -> R !! w' = Some rt' -> page rt <> 0 -> page rt' = page rt -> w' = w;
  ro_order : exists n, (n <= 16)%nat /\ (forall w rt, R !! w = Some rt -> page rt <> 0 <-> (w < n)%nat) /\
    (forall w rt, R !! w = Some rt -> (n < w)%nat -> numinuse rt = 0) /\
    (forall rt, R !! n = Some rt -> numinuse rt < 256)
}.

(** Changing bit [j] of word [i]. *)
Lemma inuse_word r pg i j n w b : length (pagerefs_inuse r) = 8%nat -> 0 <= i < 8 -> 0 <= j < 32 ->
  (forall k, 0 <= k -> Z.testbit w k = if decide (k = j) then b else Z.testbit (pagerefs_inuse r !!! Z.to_nat i) k) ->
  forall k, 0 <= k -> inuse (mkroot pg (<[Z.to_nat i := w]> (pagerefs_inuse r)) n) k = if decide (k = i * 32 + j) then b else inuse r k.
Proof.
  intros Hl Hi Hj Hw k Hk. unfold inuse. cbn [pagerefs_inuse]. rewrite list_insert_total_lookup by lia.
  pose proof (Z.div_mod k 32 ltac:(lia)). pose proof (Z.mod_pos_bound k 32 ltac:(lia)). pose proof (Z.div_pos k 32 Hk ltac:(lia)).
  destruct (decide (Z.to_nat i = Z.to_nat (k / 32))) as [E|E].
  - assert (k / 32 = i) as -> by lia. rewrite Hw by lia. repeat case_decide; (done || lia).
  - rewrite decide_False; [done|]. intros ->. apply E. f_equal. Z.div_mod_to_equations. lia.
Qed.

Lemma inuse_set r pg i j : root_ok r -> 0 <= i < 8 -> 0 <= j < 32 -> inuse r (i * 32 + j) = false ->
  let r' := mkroot pg (<[Z.to_nat i := Z.lor (pagerefs_inuse r !!! Z.to_nat i) (2 ^ j)]> (pagerefs_inuse r)) (numinuse r + 1) in
  root_ok r' /\ forall k, 0 <= k -> inuse r' k = if decide (k = i * 32 + j) then true else inuse r k.
Proof.
  intros [Hl Hw Hn] Hi Hj Hf r'.
  assert (Hb : forall k, 0 <= k -> inuse r' k = if decide (k = i * 32 + j) then true else inuse r k).
  { apply inuse_word; try done. intros k Hk. rewrite Z.lor_spec, Z.pow2_bits_eqb by lia.
    case_decide as E; [rewrite E, Z.eqb_refl; apply orb_true_r|]. rewrite (proj2 (Z.eqb_neq j k)) by done. apply orb_false_r. }
  split; [|done]. split; cbn [pagerefs_inuse numinuse r'].
  - by rewrite length_insert.
  - apply Forall_insert; [done|]. apply word_lor; [|done]. eapply Forall_lookup_total_1; [done|lia].
  - fold r'. rewrite Hn, (count_one (inuse r) (inuse r') 256 (i * 32 + j)); [rewrite decide_True by lia; done|done| |].
    + rewrite Hb, decide_True by lia. done.
    + intros k Hk Hne. by rewrite Hb, decide_False by done.
Qed.

Lemma inuse_clear r j : root_ok r -> 0 <= j < 256 -> inuse r j = true ->
  let r' := mkroot (page r) (<[Z.to_nat (j / 32) := Z.land (pagerefs_inuse r !!! Z.to_nat (j / 32)) (Z.lnot (2 ^ (j mod 32)))]> (pagerefs_inuse r))
              (numinuse r - 1) in
  root_ok r' /\ (forall k, 0 <= k -> inuse r' k = if decide (k = j) then false else inuse r k) /\ 0 < numinuse r.
Proof.
  intros [Hl Hw Hn] Hj Hf r'. pose proof (Z.div_mod j 32 ltac:(lia)) as Ej. pose proof (Z.mod_pos_bound j 32 ltac:(lia)).
  assert (0 <= j / 32 < 8) by (Z.div_mod_to_equations; lia).
  assert (Hb : forall k, 0 <= k -> inuse r' k = if decide (k = j) then false else inuse r k).
  { intros k Hk. unfold r'. rewrite (inuse_word r (page r) (j / 32) (j mod 32) _ _ false); try done.
    - replace (j / 32 * 32 + j mod 32) with j by lia. done.
    - intros b Hb'. rewrite Z.land_spec, Z.lnot_spec, Z.pow2_bits_eqb by lia.
      case_decide as E; [rewrite E, Z.eqb_refl; apply andb_false_r|]. rewrite (proj2 (Z.eqb_neq (j mod 32) b)) by done. apply andb_true_r. }
  split; [|split; [done|rewrite Hn; by eapply count_pos]]. split; cbn [pagerefs_inuse numinuse r'].
  - by rewrite length_insert.
  - apply Forall_insert; [done|]. apply word_clear. eapply Forall_lookup_total_1; [done|lia].
  - fold r'. rewrite Hn, (count_one (inuse r') (inuse r) 256 j); [rewrite decide_True by lia; lia| |done|].
    + rewrite Hb, decide_True by lia. done.
    + intros k Hk Hne. by rewrite Hb, decide_False by done.
Qed.

(** ** References *)

Lemma page_slots a b j k : 0 <= j < 256 -> 0 <= k < 256 -> paddr a + PAGEREF_SIZE * j = paddr b + PAGEREF_SIZE * k -> a = b /\ j = k.
Proof. unfold paddr, PAGEREF_SIZE, PAGE_SIZE. lia. Qed.

Lemma paddr_inj a b : paddr a = paddr b -> a = b.
Proof. unfold paddr, PAGE_SIZE. lia. Qed.

Lemma ref_unique live R w w' rt rt' j j' : roots_ok live R -> R !! w = Some rt -> R !! w' = Some rt' -> page rt <> 0 -> page rt' <> 0 ->
  0 <= j < 256 -> 0 <= j' < 256 -> page rt + PAGEREF_SIZE * j = page rt' + PAGEREF_SIZE * j' -> w' = w /\ j' = j.
Proof.
  intros Hok Hw Hw' Hp Hp' Hj Hj' E. destruct (ro_page _ _ Hok w rt Hw Hp) as (a & Ea & _), (ro_page _ _ Hok w' rt' Hw' Hp') as (b & Eb & _).
  rewrite Ea, Eb in E. apply page_slots in E as [-> ->]; [|done|done]. split; [|done]. apply (ro_inj _ _ Hok w w' rt rt'); congruence.
Qed.

Lemma root_has_free rt : root_ok rt -> numinuse rt < 256 ->
  exists i j, free_ref (pagerefs_inuse rt) 0 = At i j /\ 0 <= i < 8 /\ 0 <= j < 32 /\ inuse rt (i * 32 + j) = false.
Proof.
  intros [Hl Hw Hn] Hlt. pose proof (free_ref_ok (pagerefs_inuse rt) 0 Hw) as Hf. destruct (free_ref _ _) as [| |i j]; [|done|].
  - exfalso. rewrite count_all in Hn; [lia|]. intros j Hj. unfold inuse.
    assert (E : pagerefs_inuse rt !!! Z.to_nat (j / 32) = 4294967295).
    { eapply (Forall_lookup_total_1 (fun w => w = 4294967295)); [done|]. rewrite Hl. Z.div_mod_to_equations. lia. }
    rewrite E. change 4294967295 with (Z.ones 32). apply Z.ones_spec_low. Z.div_mod_to_equations. lia.
  - destruct Hf as (Hi & Hj & Hb). rewrite Hl in Hi. exists i, j. split; [done|]. split; [lia|]. split; [done|]. unfold inuse.
    rewrite Z.div_add_l, (Z.div_small j), Z.add_0_r by lia. rewrite Z.add_comm, Z.mod_add, Z.mod_small by lia.
    by rewrite Z.sub_0_r in Hb.
Qed.

(** What [allocpageref] does: a reference that was not in use, maybe in a new page; or
    none. The last case is a root all of whose references have been lost. *)
Inductive ref_alloc (live : gmap Z Z) (R : list kheap_root) : Z -> gmap Z Z -> list kheap_root -> Prop :=
| ref_old r R' : r <> 0 -> roots_ok live R' -> ~ ref_at R r -> ref_at R' r -> (forall r', ref_at R r' -> ref_at R' r') ->
    (forall b, root_page R' b <-> root_page R b) -> ref_alloc live R r live R'
| ref_new a r R' : r <> 0 -> live !! a = None -> roots_ok (<[a := 1]> live) R' -> ~ ref_at R r -> ref_at R' r ->
    (forall r', ref_at R r' -> ref_at R' r') -> (forall b, root_page R' b <-> root_page R b \/ b = a) ->
    ref_alloc live R r (<[a := 1]> live) R'
| ref_none R' : roots_ok live R' -> (forall r', ref_at R r' -> ref_at R' r') -> (forall b, root_page R' b <-> root_page R b) ->
    ref_alloc live R 0 live R'
| ref_lost w rt R' : R' !! w = Some rt -> page rt = 0 -> numinuse rt = 256 -> ref_alloc live R 0 live R'.

Lemma lookup_put (R : list kheap_root) w rt rt' w' x : R !! w = Some rt ->
  <[w := rt']> R !! w' = Some x <-> (w' = w /\ x = rt') \/ (w' <> w /\ R !! w' = Some x).
Proof.
  intros Hw. pose proof (lookup_lt_Some _ _ _ Hw). destruct (decide (w' = w)) as [->|Hne].
  - rewrite list_lookup_insert_eq by done. naive_solver.
  - rewrite list_lookup_insert_ne by done. naive_solver.
Qed.

(** A bit of a root that has a page. *)
Lemma put_bit live R w rt rt' : roots_ok live R -> R !! w = Some rt -> page rt <> 0 -> page rt' = page rt -> root_ok rt' ->
  roots_ok live (<[w := rt']> R) /\ forall b, root_page (<[w := rt']> R) b <-> root_page R b.
Proof.
  intros [Rl Rr Rp Ri (n & Hn & Ho & Hz & Hb)] Hw Hp Ep Hrt. split.
  - split.
    + by rewrite length_insert.
    + intros w' x [[-> ->]|[_ Hx]]%(lookup_put _ _ _ _ _ _ Hw); [done|by eapply Rr].
    + intros w' x [[-> ->]|[_ Hx]]%(lookup_put _ _ _ _ _ _ Hw); [rewrite Ep; by apply (Rp w)|by eapply Rp].
    + intros w1 w2 x1 x2 [[-> ->]|[? Hx1]]%(lookup_put _ _ _ _ _ _ Hw) [[-> ->]|[? Hx2]]%(lookup_put _ _ _ _ _ _ Hw); rewrite ?Ep; try done.
      * by apply Ri.
      * intros Hx E. symmetry. apply (Ri w w1 rt x1); [done|done|congruence|congruence].
      * by apply Ri.
    + assert (Hwn : (w < n)%nat) by (by apply (Ho w rt)). exists n. split; [done|]. split_and!.
      * intros w' x [[-> ->]|[_ Hx]]%(lookup_put _ _ _ _ _ _ Hw); [by rewrite Ep|by apply Ho].
      * intros w' x [[-> ->]|[_ Hx]]%(lookup_put _ _ _ _ _ _ Hw); [lia|by apply Hz].
      * intros x [[-> ->]|[_ Hx]]%(lookup_put _ _ _ _ _ _ Hw); [lia|by apply Hb].
  - intros b. split; intros (w' & x & Hx & Hpx & Ex).
    + apply (lookup_put _ _ _ _ _ _ Hw) in Hx as [[-> ->]|[_ Hx]]; [exists w, rt; by rewrite <- Ep|by exists w', x].
    + destruct (decide (w' = w)) as [->|Hne]; [|exists w', x; split; [|done]; apply (lookup_put _ _ _ _ _ _ Hw); by right].
      exists w, rt'. split; [apply (lookup_put _ _ _ _ _ _ Hw); by left|]. rewrite Ep. split; [done|]. congruence.
Qed.

Lemma ref_at_put R w rt rt' : R !! w = Some rt -> (page rt <> 0 -> page rt' = page rt) ->
  (forall k, 0 <= k -> inuse rt k = true -> inuse rt' k = true) -> forall r, ref_at R r -> ref_at (<[w := rt']> R) r.
Proof.
  intros Hw Hp Hin r (w' & x & j & Hx & Hpx & Hj & Hb & ->). destruct (decide (w' = w)) as [->|Hne].
  - assert (x = rt) as -> by congruence. exists w, rt', j. rewrite Hp by done. split; [by apply (lookup_put _ _ _ _ _ _ Hw); left|].
    split; [done|]. split; [done|]. split; [|done]. apply Hin; [lia|done].
  - exists w', x, j. split; [apply (lookup_put _ _ _ _ _ _ Hw); by right|done].
Qed.

Lemma first_pageless live R w rt : roots_ok live R -> R !! w = Some rt -> page rt = 0 ->
  (forall w' x, R !! w' = Some x -> (w' < w)%nat -> page x <> 0) ->
  (forall w' x, R !! w' = Some x -> page x <> 0 <-> (w' < w)%nat) /\ (forall w' x, R !! w' = Some x -> (w < w')%nat -> numinuse x = 0) /\
  numinuse rt < 256.
Proof.
  intros [Rl _ _ _ (n & Hn & Ho & Hz & Hb)] Hw Hp Hbelow. pose proof (lookup_lt_Some _ _ _ Hw) as Hlt.
  assert (w = n) as ->; [|by split_and!; [| |apply Hb]]. destruct (Nat.lt_trichotomy w n) as [H1|[H1|H1]]; [|done|].
  - by apply (Ho w rt Hw) in H1.
  - destruct (R !! n) as [x|] eqn:Ex; [|apply lookup_ge_None in Ex; lia]. pose proof (Hbelow n x Ex H1) as H2. apply (Ho n x Ex) in H2. lia.
Qed.

(** The first root without a page gets one. *)
Lemma put_page live R w rt rt' a : roots_ok live R -> R !! w = Some rt -> page rt = 0 ->
  (forall w' x, R !! w' = Some x -> (w' < w)%nat -> page x <> 0) ->
  0 < a -> live !! a = None -> page rt' = paddr a -> root_ok rt' ->
  roots_ok (<[a := 1]> live) (<[w := rt']> R) /\ forall b, root_page (<[w := rt']> R) b <-> root_page R b \/ b = a.
Proof.
  intros Hok Hw Hp Hbelow Ha0 Ha Ep Hrt. destruct (first_pageless live R w rt Hok Hw Hp Hbelow) as (Ho & Hz & _).
  pose proof Hok as [Rl Rr Rp Ri _]. assert (Hpa : paddr a <> 0) by (unfold paddr, MIPS_KSEG0, PAGE_SIZE; lia).
  assert (Hnew : forall w' x, R !! w' = Some x -> page x <> paddr a).
  { intros w' x Hx E. destruct (Rp w' x Hx) as (b & Eb & Hb); [congruence|]. rewrite E in Eb. apply paddr_inj in Eb as <-. congruence. }
  pose proof (lookup_lt_Some _ _ _ Hw) as Hlt. split.
  - split.
    + by rewrite length_insert.
    + intros w' x [[-> ->]|[_ Hx]]%(lookup_put _ _ _ _ _ _ Hw); [done|by eapply Rr].
    + intros w' x [[-> ->]|[_ Hx]]%(lookup_put _ _ _ _ _ _ Hw) Hpx; [exists a; split; [done|apply lookup_insert_eq]|].
      destruct (Rp w' x Hx Hpx) as (b & Eb & Hb). exists b. split; [done|]. rewrite lookup_insert_ne; [done|]. intros ->. congruence.
    + intros w1 w2 x1 x2 [[-> ->]|[? Hx1]]%(lookup_put _ _ _ _ _ _ Hw) [[-> ->]|[? Hx2]]%(lookup_put _ _ _ _ _ _ Hw); try done.
      * intros _ E. rewrite Ep in E. by apply Hnew in Hx2.
      * intros _ E. rewrite Ep in E. by apply Hnew in Hx1.
      * by apply Ri.
    + exists (S w). split; [lia|]. split_and!.
      * intros w' x [[-> ->]|[Hne Hx]]%(lookup_put _ _ _ _ _ _ Hw); [rewrite Ep; split; [lia|done]|]. rewrite (Ho w' x Hx). lia.
      * intros w' x [[-> ->]|[Hne Hx]]%(lookup_put _ _ _ _ _ _ Hw) Hgt; [lia|]. apply (Hz w'); [done|lia].
      * intros x [[? ->]|[Hne Hx]]%(lookup_put _ _ _ _ _ _ Hw); [lia|]. rewrite (Hz (S w)); [lia|done|lia].
  - intros b. split.
    + intros (w' & x & [[-> ->]|[_ Hx]]%(lookup_put _ _ _ _ _ _ Hw) & Hpx & Ex); [right; rewrite Ep in Ex; by apply paddr_inj in Ex|].
      left. by exists w', x.
    + intros [(w' & x & Hx & Hpx & Ex)| ->].
      * exists w', x. split; [|done]. apply (lookup_put _ _ _ _ _ _ Hw). right. split; [|done]. intros ->. congruence.
      * exists w, rt'. split; [apply (lookup_put _ _ _ _ _ _ Hw); by left|]. split; [congruence|done].
Qed.

(** The first root without a page loses a reference. *)
Lemma put_lost live R w rt rt' : roots_ok live R -> R !! w = Some rt -> page rt = 0 ->
  (forall w' x, R !! w' = Some x -> (w' < w)%nat -> page x <> 0) ->
  page rt' = 0 -> root_ok rt' -> numinuse rt' < 256 ->
  roots_ok live (<[w := rt']> R) /\ forall b, root_page (<[w := rt']> R) b <-> root_page R b.
Proof.
  intros Hok Hw Hp Hbelow Ep Hrt Hlt'. destruct (first_pageless live R w rt Hok Hw Hp Hbelow) as (Ho & Hz & _).
  pose proof Hok as [Rl Rr Rp Ri _]. pose proof (lookup_lt_Some _ _ _ Hw) as Hlt. split.
  - split.
    + by rewrite length_insert.
    + intros w' x [[-> ->]|[_ Hx]]%(lookup_put _ _ _ _ _ _ Hw); [done|by eapply Rr].
    + intros w' x [[-> ->]|[_ Hx]]%(lookup_put _ _ _ _ _ _ Hw); [done|by eapply Rp].
    + intros w1 w2 x1 x2 [[-> ->]|[? Hx1]]%(lookup_put _ _ _ _ _ _ Hw) [[-> ->]|[? Hx2]]%(lookup_put _ _ _ _ _ _ Hw); try done; [congruence|by apply Ri].
    + exists w. split; [lia|]. split_and!.
      * intros w' x [[-> ->]|[Hne Hx]]%(lookup_put _ _ _ _ _ _ Hw); [split; [done|lia]|by apply Ho].
      * intros w' x [[-> ->]|[Hne Hx]]%(lookup_put _ _ _ _ _ _ Hw) Hgt; [lia|by apply (Hz w')].
      * intros x [[_ ->]|[Hne Hx]]%(lookup_put _ _ _ _ _ _ Hw); done.
  - intros b. split; intros (w' & x & Hx & Hpx & Ex).
    + apply (lookup_put _ _ _ _ _ _ Hw) in Hx as [[-> ->]|[_ Hx]]; [done|by exists w', x].
    + exists w', x. split; [|done]. apply (lookup_put _ _ _ _ _ _ Hw). right. split; [congruence|done].
Qed.

Definition put_heap (R : list kheap_root) (p : pages) (h : kheap) : kheap := set_hpages p (set_roots (fun _ => R) h).

Lemma alloc_roots_ok live h n w : pages_ok live (hpages h) -> roots_ok live (kheaproots h) -> 0 <= w -> w + Z.of_nat n = 16 ->
  (forall w' x, kheaproots h !! w' = Some x -> Z.of_nat w' < w -> page x <> 0) ->
  exists r live' R' p', alloc_roots n w h = Done r (put_heap R' p' h) /\ pages_ok live' p' /\ ref_alloc live (kheaproots h) r live' R'.
Proof.
  intros Hpg Hok. revert w. induction n as [|n IH]; intros w Hw0 Hn Hbelow; cbn [alloc_roots].
  { exists 0, live, (kheaproots h), (hpages h). split; [by destruct h|]. split; [done|]. by apply ref_none. }
  pose proof (ro_len _ _ Hok) as Hlen. destruct (kheaproots h !! Z.to_nat w) as [rt|] eqn:Ew; [|apply lookup_ge_None in Ew; lia].
  pose proof (ro_root _ _ Hok _ rt Ew) as Hrt. unfold get_root at 1. kunfold. rewrite Ew.
  assert (Hnext : page rt <> 0 -> exists r live' R' p', alloc_roots n (w + 1) h = Done r (put_heap R' p' h) /\ pages_ok live' p' /\
             ref_alloc live (kheaproots h) r live' R').
  { intros Hp. apply IH; [lia|lia|]. intros w' x Hx Hlt. destruct (decide (Z.of_nat w' = w)) as [E|]; [|apply (Hbelow w'); [done|lia]].
    assert (x = rt) as -> by (rewrite <- E, Nat2Z.id in Ew; congruence). done. }
  assert (Hb : forall w' x, kheaproots h !! w' = Some x -> (w' < Z.to_nat w)%nat -> page x <> 0) by (intros w' x Hx ?; apply (Hbelow w'); [done|lia]).
  destruct (Z.leb_spec NPAGEREFS_PER_PAGE (numinuse rt)) as [Hfull|Hfree].
  { apply Hnext. intros Hp. destruct (first_pageless live _ _ rt Hok Ew Hp Hb) as (_ & _ & ?). unfold NPAGEREFS_PER_PAGE in Hfull. lia. }
  destruct (root_has_free rt Hrt Hfree) as (i & j & -> & Hi & Hj & Hbit).
  destruct (inuse_set rt (page rt) i j Hrt Hi Hj Hbit) as [Hrt' Hin]. set (rt' := mkroot _ _ _) in *.
  assert (Hmono : forall pg, (page rt <> 0 -> pg = page rt) -> forall r', ref_at (kheaproots h) r' ->
             ref_at (<[Z.to_nat w := mkroot pg (pagerefs_inuse rt') (numinuse rt')]> (kheaproots h)) r').
  { intros pg Hpg'. apply (ref_at_put _ _ rt); [done|done|]. intros k Hk Hb'. change (inuse rt' k = true). rewrite Hin by done. by case_decide. }
  assert (Hwl : (Z.to_nat w < length (kheaproots h))%nat) by lia.
  assert (Hset : inuse rt' (i * 32 + j) = true) by (rewrite Hin, decide_True by lia; done).
  unfold put_root. kunfold. destruct (Z.eqb_spec (page rt) 0) as [Hp|Hp].
  - unfold allocpagerefpage, get_root, on_pages. kunfold. cbn [kheaproots set_roots hpages]. rewrite list_lookup_insert_eq by done.
    change (page rt') with (page rt). rewrite Hp. cbn [Z.eqb]. unfold kret. cbn [hpages set_roots].
    destruct (pages_alloc_ok live (hpages h) 1 Hpg) as [(p' & -> & Hpg')|(a & p' & -> & Ha & Hpg')]; [lia| |].
    + cbn [Z.eqb]. cbn [kheaproots set_roots set_hpages]. rewrite list_lookup_insert_eq by done. change (page rt') with (page rt).
      rewrite Hp. cbn [Z.eqb]. exists 0, live, (<[Z.to_nat w := rt']> (kheaproots h)), p'. split; [done|]. split; [done|].
      destruct (decide (numinuse rt' < 256)) as [Hlt|Hge].
      * destruct (put_lost live _ _ rt rt' Hok Ew Hp Hb) as [? ?]; [done|done|done|]. apply ref_none; [done| |done].
        intros r' Hr'. by apply (Hmono (page rt)).
      * apply (ref_lost _ _ (Z.to_nat w) rt'); [by apply list_lookup_insert_eq|done|].
        cbn in Hge |- *. unfold NPAGEREFS_PER_PAGE in Hfree. lia.
    + destruct (pages_range _ _ a 1 Hpg' (lookup_insert_eq _ _ _)) as (Ha0 & _ & Ha1). fold (paddr a).
      assert (Hpa : paddr a <> 0) by (unfold paddr, MIPS_KSEG0, PAGE_SIZE; lia).
      rewrite (proj2 (Z.eqb_neq _ _)) by done. assert (Em : (paddr a mod PAGE_SIZE =? 0) = true).
      { apply Z.eqb_eq. unfold paddr, PAGE_SIZE, MIPS_KSEG0. Z.div_mod_to_equations. lia. }
      rewrite Em. unfold kret. cbn [kheaproots set_roots set_hpages]. rewrite list_lookup_insert_eq by done. change (page rt') with (page rt).
      rewrite Hp. unfold put_root. kunfold. cbn [Z.eqb negb kheaproots set_roots set_hpages]. rewrite list_insert_insert_eq, list_lookup_insert_eq by done. cbn [page].
      rewrite (proj2 (Z.eqb_neq _ _)) by done. set (rt2 := mkroot (paddr a) _ _).
      destruct (put_page live _ _ rt rt2 a Hok Ew Hp Hb Ha0 Ha) as [Hok' Hrp]; [done|by destruct Hrt'; split|].
      exists (paddr a + PAGEREF_SIZE * (i * 32 + j)), (<[a := 1]> live), (<[Z.to_nat w := rt2]> (kheaproots h)), p'.
      split; [unfold put_heap, set_hpages, set_roots; cbn; by rewrite list_insert_insert_eq|]. split; [done|]. apply ref_new; try done.
      * unfold paddr, MIPS_KSEG0, PAGE_SIZE, PAGEREF_SIZE. lia.
      * intros (w' & x & k & Hx & Hpx & Hk & _ & E). destruct (ro_page _ _ Hok w' x Hx Hpx) as (b & Eb & Hlb). rewrite Eb in E.
        apply page_slots in E as [<- _]; [congruence|lia|done].
      * exists (Z.to_nat w), rt2, (i * 32 + j). split; [by apply list_lookup_insert_eq|]. split; [done|]. split; [lia|]. done.
      * intros r'. by apply Hmono.
  - unfold get_root. kunfold. cbn [kheaproots set_roots]. rewrite list_lookup_insert_eq by done. change (page rt') with (page rt).
    rewrite (proj2 (Z.eqb_neq _ _)) by done. destruct (put_bit live _ _ rt rt' Hok Ew Hp) as [Hok' Hrp]; [done|done|].
    exists (page rt + PAGEREF_SIZE * (i * 32 + j)), live, (<[Z.to_nat w := rt']> (kheaproots h)), (hpages h). split; [done|]. split; [done|].
    apply ref_old; try done.
    + destruct (ro_page _ _ Hok _ rt Ew Hp) as (a & -> & Hla). destruct (pages_range _ _ a 1 Hpg Hla).
      unfold paddr, MIPS_KSEG0, PAGE_SIZE, PAGEREF_SIZE. lia.
    + intros (w' & x & k & Hx & Hpx & Hk & Hbk & E).
      destruct (ref_unique live _ _ w' rt x (i * 32 + j) k Hok Ew Hx) as [-> ->]; try done; [lia|]. congruence.
    + exists (Z.to_nat w), rt', (i * 32 + j). split; [by apply list_lookup_insert_eq|]. split; [done|]. split; [lia|]. done.
    + intros r'. by apply (Hmono (page rt)).
Qed.

Lemma allocpageref_ok live h : pages_ok live (hpages h) -> roots_ok live (kheaproots h) ->
  exists r live' R' p', allocpageref h = Done r (put_heap R' p' h) /\ pages_ok live' p' /\ ref_alloc live (kheaproots h) r live' R'.
Proof. intros Hp Hok. apply alloc_roots_ok; try done; intros; lia. Qed.

(** What [freepageref] does: the reference, and no other, is no longer in use. *)
Record ref_free (live : gmap Z Z) (R R' : list kheap_root) (r : Z) : Prop := {
  rf_ok : roots_ok live R';
  rf_not : ~ ref_at R' r;
  rf_other : forall r', ref_at R r' -> r' <> r -> ref_at R' r';
  rf_pages : forall b, root_page R' b <-> root_page R b
}.

Lemma free_roots_ok live h n w r w0 rt j : pages_ok live (hpages h) -> roots_ok live (kheaproots h) ->
  kheaproots h !! w0 = Some rt -> page rt <> 0 -> 0 <= j < 256 -> inuse rt j = true -> r = page rt + PAGEREF_SIZE * j ->
  0 <= w <= Z.of_nat w0 -> w + Z.of_nat n = 16 ->
  exists R', free_roots n w r h = Done tt (set_roots (fun _ => R') h) /\ ref_free live (kheaproots h) R' r.
Proof.
  intros Hpg Hok Hw0 Hp Hj Hb ->. destruct (ro_order _ _ Hok) as (m & _ & Hord & _). revert w.
  induction n as [|n IH]; intros w Hw Hn; cbn [free_roots]. { pose proof (lookup_lt_Some _ _ _ Hw0). rewrite (ro_len _ _ Hok) in *. lia. }
  pose proof (ro_len _ _ Hok) as Hlen. destruct (kheaproots h !! Z.to_nat w) as [x|] eqn:Ex; [|apply lookup_ge_None in Ex; pose proof (lookup_lt_Some _ _ _ Hw0); lia].
  unfold get_root at 1. kunfold. rewrite Ex. assert (Hpx : page x <> 0).
  { apply (Hord _ _ Ex). apply (Hord _ _ Hw0) in Hp. lia. }
  rewrite (proj2 (Z.eqb_neq _ _)) by done. destruct (ro_page _ _ Hok _ _ Hw0 Hp) as (a & Ea & Hla), (ro_page _ _ Hok _ _ Ex Hpx) as (b & Eb & Hlb).
  destruct (pages_range _ _ a 1 Hpg Hla) as (? & _ & ?), (pages_range _ _ b 1 Hpg Hlb) as (? & _ & ?).
  destruct (decide (Z.to_nat w = w0)) as [Ew|Ew].
  - assert (x = rt) as -> by congruence.
    replace (page rt + PAGEREF_SIZE * j - page rt) with (j * PAGEREF_SIZE) by lia. rewrite Z.div_mul by done. rewrite wrapu_small by lia.
    rewrite (proj2 (Z.ltb_lt _ _)) by (unfold NPAGEREFS_PER_PAGE; lia).
    destruct (inuse_clear rt j (ro_root _ _ Hok _ _ Hw0) Hj Hb) as (Hrt' & Hin & Hpos).
    assert (Et : (Z.land (pagerefs_inuse rt !!! Z.to_nat (j / 32)) (2 ^ (j mod 32)) =? 0) = false).
    { rewrite land_pow2 by (apply Z.mod_pos_bound; lia). unfold inuse in Hb. rewrite Hb. apply Z.eqb_neq.
      pose proof (Z.pow_pos_nonneg 2 (j mod 32)). pose proof (Z.mod_pos_bound j 32). lia. }
    rewrite Et. cbn [negb]. unfold kret. rewrite (proj2 (Z.ltb_lt _ _)) by lia. unfold kret, put_root, kmodify. set (rt' := mkroot _ _ _) in *.
    rewrite Ew. eexists. split; [done|]. destruct (put_bit live _ _ rt rt' Hok Hw0 Hp) as [Hok' Hrp]; [done|done|].
    split; try done.
    + intros (w' & y & k & [[-> ->]|[Hne Hy]]%(lookup_put _ _ _ _ _ _ Hw0) & Hpy & Hk & Hbk & E).
      * assert (k = j) as -> by (unfold PAGEREF_SIZE in E; cbn [page rt'] in E; lia). rewrite Hin, decide_True in Hbk by lia. done.
      * destruct (ref_unique live _ _ w' rt y j k Hok Hw0 Hy) as [? _]; done.
    + intros r' (w' & y & k & Hy & Hpy & Hk & Hbk & ->) Hne. destruct (decide (w' = w0)) as [->|Hw'].
      * assert (y = rt) as -> by congruence. exists w0, rt', k. split; [apply (lookup_put _ _ _ _ _ _ Hw0); by left|].
        split; [done|]. split; [done|]. split; [|done]. rewrite Hin, decide_False; [done|congruence|lia].
      * exists w', y, k. split; [apply (lookup_put _ _ _ _ _ _ Hw0); by right|done].
  - assert (Hab : a <> b). { intros <-. apply Ew. apply (ro_inj _ _ Hok w0 _ rt x); [done|done|done|congruence]. }
    assert (Eu : (u32 ((page rt + PAGEREF_SIZE * j - page x) / PAGEREF_SIZE) <? NPAGEREFS_PER_PAGE) = false).
    { apply Z.ltb_ge. rewrite Ea, Eb. unfold NPAGEREFS_PER_PAGE, paddr, PAGEREF_SIZE, PAGE_SIZE.
      replace (MIPS_KSEG0 + a * 4096 + 16 * j - (MIPS_KSEG0 + b * 4096)) with (((a - b) * 256 + j) * 16) by lia. rewrite Z.div_mul by done.
      unfold wrapu. destruct (Z.lt_ge_cases b a); [rewrite Z.mod_small by lia; lia|].
      rewrite <- (Z.mod_add _ 1) by lia. rewrite Z.mod_small by lia. lia. }
    rewrite Eu. apply IH; lia.
Qed.

Lemma freepageref_ok live h r : pages_ok live (hpages h) -> roots_ok live (kheaproots h) -> ref_at (kheaproots h) r ->
  exists R', freepageref r h = Done tt (set_roots (fun _ => R') h) /\ ref_free live (kheaproots h) R' r.
Proof. intros Hp Hok (w & rt & j & Hw & Hpw & Hj & Hb & ->). eapply free_roots_ok; try done; lia. Qed.

(** There are no more references than slots. *)
Lemma refs_bound live R L : roots_ok live R -> NoDup L -> (forall r, r ∈ L -> ref_at R r) -> Z.of_nat (length L) <= TOTAL_PAGEREFS.
Proof.
  intros Hok Hnd HL. set (slots := fun x => (fun j => page x + PAGEREF_SIZE * j) <$> seqZ 0 256).
  assert (Hsub : L ⊆+ flat_map slots R).
  { apply NoDup_submseteq; [done|]. intros r (w & rt & j & Hw & _ & Hj & _ & ->)%HL. apply list_elem_of_In, in_flat_map. exists rt.
    split; [apply list_elem_of_In; by eapply list_elem_of_lookup_2|]. apply list_elem_of_In, list_elem_of_fmap. exists j.
    split; [done|]. apply elem_of_seqZ. lia. }
  assert (Hl : forall l, length (flat_map slots l) = (256 * length l)%nat).
  { induction l as [|x l IH]; [done|]. cbn [flat_map]. rewrite length_app, IH. unfold slots at 1. rewrite length_fmap, length_seqZ. cbn [length]. lia. }
  apply submseteq_length in Hsub. rewrite Hl, (ro_len _ _ Hok) in Hsub. unfold TOTAL_PAGEREFS. lia.
Qed.

End Refs.
