(* ===== verification/KHeap.v ===== *)
(** * The kernel heap

    [kmalloc] and [kfree] of kern/vm/kmalloc.c, in the configuration the kernel is built
    with (no guard bands, no labels, no consistency checks). Requests below 2048 bytes
    are served from pages cut into blocks of one of eight sizes, each page with a list of
    its free blocks threaded through their first words; larger ones get whole pages.

    [heap_ok h A] says that the heap is well formed and that the blocks in [A] (address
    and size) are the ones in use. The theorems say that [kmalloc] returns a block that
    overlaps no block in use, that [kfree] gives back exactly the block it is given, and
    that neither touches the contents of another block. *)

From stdpp Require Import base numbers list gmap.
From Stdlib Require Import ZArith Lia.
From S2P Require Import Prelude Dumbvm KHeapRefs.

Open Scope Z_scope.
Open Scope k_scope.

(** kern/vm/kmalloc.c:156-156 (PR_PAGEADDR). *)
Definition PR_PAGEADDR (pr : pageref) : Z := Z.land (pageaddr_and_blocktype pr) PAGE_FRAME.

(** kern/vm/kmalloc.c:157-157 (PR_BLOCKTYPE). *)
Definition PR_BLOCKTYPE (pr : pageref) : Z := Z.land (pageaddr_and_blocktype pr) (4294967295 - PAGE_FRAME).

(** kern/vm/kmalloc.c:158-158 (MKPAB). *)
Definition MKPAB (pa blk : Z) : Z := Z.lor (Z.land pa PAGE_FRAME) (Z.land blk (4294967295 - PAGE_FRAME)).

Definition set_next_samesize x p := mkpr x (next_all p) (pageaddr_and_blocktype p) (freelist_offset p) (nfree p).
Definition set_next_all x p := mkpr (next_samesize p) x (pageaddr_and_blocktype p) (freelist_offset p) (nfree p).
Definition set_free_list off n p := mkpr (next_samesize p) (next_all p) (pageaddr_and_blocktype p) off n.

(** A function changed at one point. *)
Definition at_put {A} (a : Z) (x : A) (m : Z -> A) : Z -> A := fun b => if b =? a then x else m b.

(** kern/vm/kmalloc.c:43-53 (fill_deadbeef): [n] words from [a]. *)
Fixpoint fill_deadbeef (n : nat) (a : Z) (m : Z -> Z) : Z -> Z :=
  match n with
  | O => m
  | S n' => fill_deadbeef n' (a + 4) (at_put a 0xdeadbeef m)
  end.

(** kern/vm/kmalloc.c:856-860 (blocktype): the loop; [None] is the end of the table. *)
Fixpoint blocktype_loop (l : list Z) (i clientsz : Z) : option Z :=
  match l with
  | [] => None
  | s :: l' => if clientsz <=? s then Some i else blocktype_loop l' (i + 1) clientsz
  end.

Section Heap.
Context `{Pages}.

(** kern/vm/kmalloc.c:851-867 (blocktype). *)
Definition blocktype (clientsz : Z) : K kheap Z :=
  match blocktype_loop sizes 0 clientsz with
  | Some i => kret i
  | None => khalt PanicCall
  end.

Definition get_pr (r : Z) : K kheap pageref := fun h => Done (prs h r) h.
Definition put_pr (r : Z) (p : pageref) : K kheap unit := kmodify (set_prs (at_put r p)).

(** kern/vm/kmalloc.c:830-836 (remove_lists): one of its two loops. [prev] is the
    reference whose field [guy] points to, [None] for the head of the list. *)
Fixpoint unlink (fuel : nat) (base : kheap -> Z) (setbase : Z -> kheap -> kheap) (next : pageref -> Z)
    (setnext : Z -> pageref -> pageref) (prev : option Z) (pr : Z) : K kheap unit :=
  match fuel with
  | O => khalt OutOfFuel
  | S fuel' =>
      h <- kget ;;
      let cur := match prev with None => base h | Some q => next (prs h q) end in
      if cur =? 0 then kret tt else
      if cur =? pr then
        match prev with
        | None => kmodify (setbase (next (prs h pr)))
        | Some q => put_pr q (setnext (next (prs h pr)) (prs h q))
        end
      else unlink fuel' base setbase next setnext (Some cur) pr
  end.

(** Enough steps to go through any list of page references. *)
Definition LISTFUEL : nat := Z.to_nat (TOTAL_PAGEREFS + 1).

Definition size_base (t : Z) (h : kheap) : Z := sizebases h !!! Z.to_nat t.
Definition set_size_base (t x : Z) : kheap -> kheap := set_sizebases <[Z.to_nat t := x]>.

(** kern/vm/kmalloc.c:822-845 (remove_lists). *)
Definition remove_lists (pr blktype : Z) : K kheap unit :=
  kassert ((0 <=? blktype) && (blktype <? NSIZES)) ;;;
  unlink LISTFUEL (size_base blktype) (set_size_base blktype) next_samesize set_next_samesize None pr ;;;
  unlink LISTFUEL allbase set_allbase next_all set_next_all None pr.

(** kern/vm/kmalloc.c:914-920 (subpage_kmalloc): the search for a page of the right type
    with a free block; 0 if there is none. *)
Fixpoint find_page (fuel : nat) (pr blktype : Z) : K kheap Z :=
  match fuel with
  | O => khalt OutOfFuel
  | S fuel' =>
      if pr =? 0 then kret 0 else
      p <- get_pr pr ;;
      kassert (PR_BLOCKTYPE p =? blktype) ;;;
      if 0 <? nfree p then kret pr else find_page fuel' (next_samesize p) blktype
  end.

(** kern/vm/kmalloc.c:922-953 (subpage_kmalloc): from the label [doalloc] on. *)
Definition doalloc (pr : Z) : K kheap Z :=
  p <- get_pr pr ;;
  kassert (freelist_offset p <? PAGE_SIZE) ;;;
  let prpage := PR_PAGEADDR p in
  let fla := prpage + freelist_offset p in
  h <- kget ;;
  let fl := hmem h fla in
  let n := u16 (nfree p - 1) in
  (if negb (fl =? 0) then
     kassert (0 <? n) ;;;
     kassert (u32 (fl - prpage) <? PAGE_SIZE) ;;;
     put_pr pr (set_free_list (u16 (fl - prpage)) n p)
   else
     kassert (n =? 0) ;;;
     put_pr pr (set_free_list INVALID_OFFSET n p)) ;;;
  kret fla.

(** kern/vm/kmalloc.c:1001-1005 (subpage_kmalloc): the loop that links the blocks of a
    new page, [k] of them from number [i]; the address of the last block. *)
Fixpoint link_blocks (k : nat) (i fla size fl : Z) : K kheap Z :=
  match k with
  | O => kret fl
  | S k' =>
      let fl := fla + i * size in
      let next := fla + (i - 1) * size in
      kmodify (set_hmem (at_put fl next)) ;;;
      kassert (negb (fl =? next)) ;;;
      link_blocks k' (i + 1) fla size fl
  end.

(** kern/vm/kmalloc.c:989-1014 (subpage_kmalloc): a new page [prpage] with its
    reference [pr]. *)
Definition setup_page (pr prpage blktype : Z) : K kheap unit :=
  p <- get_pr pr ;;
  let size := sizes !!! Z.to_nat blktype in
  let n := u16 (PAGE_SIZE / size) in
  put_pr pr (mkpr (next_samesize p) (next_all p) (MKPAB prpage blktype) (freelist_offset p) n) ;;;
  kmodify (set_hmem (at_put prpage 0)) ;;;
  fl <- link_blocks (Z.to_nat (n - 1)) 1 prpage size prpage ;;
  let off := u16 (fl - prpage) in
  kassert (off =? (n - 1) * size) ;;;
  h <- kget ;;
  put_pr pr (mkpr (size_base blktype h) (allbase h) (MKPAB prpage blktype) off n) ;;;
  kmodify (set_size_base blktype pr) ;;;
  kmodify (set_allbase pr).

(** kern/vm/kmalloc.c:873-1018 (subpage_kmalloc); 0 is [NULL]. *)
Definition subpage_kmalloc (sz : Z) : K kheap Z :=
  blktype <- blocktype sz ;;
  h <- kget ;;
  pr <- find_page LISTFUEL (size_base blktype h) blktype ;;
  if negb (pr =? 0) then doalloc pr else
  prpage <- on_pages (pages_alloc 1) ;;
  if prpage =? 0 then kret 0 else
  kassert (prpage mod PAGE_SIZE =? 0) ;;;
  pr <- allocpageref ;;
  if pr =? 0 then
    on_pages (pages_free prpage) ;;;
    kret 0
  else
    setup_page pr prpage blktype ;;;
    doalloc pr.

(** kern/vm/kmalloc.c:1072-1084 (subpage_kfree): the page that holds [ptraddr]; 0 if
    there is none. *)
Fixpoint find_holder (fuel : nat) (pr ptraddr : Z) : K kheap Z :=
  match fuel with
  | O => khalt OutOfFuel
  | S fuel' =>
      if pr =? 0 then kret 0 else
      p <- get_pr pr ;;
      let prpage := PR_PAGEADDR p in
      let blktype := PR_BLOCKTYPE p in
      kassert ((0 <=? blktype) && (blktype <? NSIZES)) ;;;
      if (prpage <=? ptraddr) && (ptraddr <? u32 (prpage + PAGE_SIZE)) then kret pr
      else find_holder fuel' (next_all p) ptraddr
  end.

(** kern/vm/kmalloc.c:1092-1141 (subpage_kfree): the block at [ptraddr] goes back to the
    free list of its page [pr]; whether all blocks of the page are free now. *)
Definition free_block (pr ptraddr : Z) : K kheap bool :=
  p <- get_pr pr ;;
  let prpage := PR_PAGEADDR p in
  let size := sizes !!! Z.to_nat (PR_BLOCKTYPE p) in
  let offset := ptraddr - prpage in
  if (PAGE_SIZE <=? offset) || negb (offset mod size =? 0) then khalt PanicCall else
  kmodify (set_hmem (fill_deadbeef (Z.to_nat (size / 4)) ptraddr)) ;;;
  let fla := prpage + offset in
  (if freelist_offset p =? INVALID_OFFSET then
     kmodify (set_hmem (at_put fla 0))
   else
     let next := prpage + freelist_offset p in
     kmodify (set_hmem (at_put fla next)) ;;;
     kassert (negb (fla =? next))) ;;;
  let n := u16 (nfree p + 1) in
  put_pr pr (set_free_list (u16 offset) n p) ;;;
  kassert (n <=? PAGE_SIZE / size) ;;;
  kret (n =? PAGE_SIZE / size).

(** kern/vm/kmalloc.c:1024-1160 (subpage_kfree): whether the pointer was a block of a
    page of the heap (the C function returns 0 then, and -1 otherwise). *)
Definition subpage_kfree (ptr : Z) : K kheap bool :=
  h <- kget ;;
  pr <- find_holder LISTFUEL (allbase h) ptr ;;
  if pr =? 0 then kret false else
  p <- get_pr pr ;;
  empty <- free_block pr ptr ;;
  (if empty : bool then
     remove_lists pr (PR_BLOCKTYPE p) ;;;
     freepageref pr ;;;
     on_pages (pages_free (PR_PAGEADDR p))
   else kret tt) ;;;
  kret true.

(** kern/vm/kmalloc.c:1169-1206 (kmalloc); 0 is [NULL]. *)
Definition kmalloc (sz : Z) : K kheap Z :=
  if LARGEST_SUBPAGE_SIZE <=? sz then
    let npages := u32 (sz + PAGE_SIZE - 1) / PAGE_SIZE in
    address <- on_pages (pages_alloc npages) ;;
    if address =? 0 then kret 0 else
    kassert (address mod PAGE_SIZE =? 0) ;;;
    kret address
  else subpage_kmalloc sz.

(** kern/vm/kmalloc.c:1211-1224 (kfree). *)
Definition kfree (ptr : Z) : K kheap unit :=
  if ptr =? 0 then kret tt else
  ours <- subpage_kfree ptr ;;
  if negb ours then
    kassert (ptr mod PAGE_SIZE =? 0) ;;;
    on_pages (pages_free ptr)
  else kret tt.

(** ** Lists *)

Fixpoint chain (next : Z -> Z) (a : Z) (l : list Z) : Prop :=
  match l with
  | [] => a = 0
  | x :: l' => a = x /\ x <> 0 /\ chain next (next x) l'
  end.

Lemma chain_ext next next' a l : (forall x, x ∈ l -> next' x = next x) -> chain next a l -> chain next' a l.
Proof.
  revert a. induction l as [|x l IH]; intros a Hext; cbn; [done|]. intros (? & ? & Hc). split; [done|]. split; [done|].
  rewrite Hext by left. apply IH; [|done]. intros y Hy. apply Hext. by right.
Qed.

(** ** Pages of blocks *)

Definition pbase (h : kheap) (r : Z) : Z := PR_PAGEADDR (prs h r).
Definition btype (h : kheap) (r : Z) : Z := PR_BLOCKTYPE (prs h r).
Definition bsize (t : Z) : Z := sizes !!! Z.to_nat t.
Definition nblocks (t : Z) : Z := PAGE_SIZE / bsize t.

(** [p] is a block of a page at [base] of type [t]. *)
Definition block_of (base t p : Z) : Prop := exists k, 0 <= k < nblocks t /\ p = base + k * bsize t.

#[global] Instance block_of_dec base t p : Decision (block_of base t p).
Proof.
  refine (cast_if (decide (Exists (fun k => p = base + k * bsize t) (seqZ 0 (nblocks t))))).
  - abstract (apply Exists_exists in e as (k & Hk & ->); apply elem_of_seqZ in Hk; exists k; split; [lia|done]).
  - abstract (intros (k & Hk & ->); apply n; apply Exists_exists; exists k; split; [apply elem_of_seqZ; lia|done]).
Defined.

Lemma sizes_cases t : 0 <= t < NSIZES ->
  t = 0 /\ bsize t = 16 /\ nblocks t = 256 \/ t = 1 /\ bsize t = 32 /\ nblocks t = 128 \/ t = 2 /\ bsize t = 64 /\ nblocks t = 64 \/
  t = 3 /\ bsize t = 128 /\ nblocks t = 32 \/ t = 4 /\ bsize t = 256 /\ nblocks t = 16 \/ t = 5 /\ bsize t = 512 /\ nblocks t = 8 \/
  t = 6 /\ bsize t = 1024 /\ nblocks t = 4 \/ t = 7 /\ bsize t = 2048 /\ nblocks t = 2.
Proof.
  unfold NSIZES. intros Ht. assert (Hc : t = 0 \/ t = 1 \/ t = 2 \/ t = 3 \/ t = 4 \/ t = 5 \/ t = 6 \/ t = 7) by lia.
  destruct Hc as [->|[->|[->|[->|[->|[->|[->| ->]]]]]]]; vm_compute; naive_solver.
Qed.

Lemma block_size t : 0 <= t < NSIZES -> 16 <= bsize t <= 2048 /\ bsize t mod 16 = 0 /\ nblocks t * bsize t = PAGE_SIZE /\ 2 <= nblocks t <= 256.
Proof. intros Ht. destruct (sizes_cases t Ht) as [(_&->&->)|[(_&->&->)|[(_&->&->)|[(_&->&->)|[(_&->&->)|[(_&->&->)|[(_&->&->)|(_&->&->)]]]]]]]; done. Qed.

Lemma block_range base t p : 0 <= t < NSIZES -> block_of base t p -> base <= p /\ p + bsize t <= base + PAGE_SIZE.
Proof. intros Ht (k & Hk & ->). destruct (block_size t Ht) as (? & _ & Hn & _). nia. Qed.

Lemma block_sep base t p q : 0 <= t < NSIZES -> block_of base t p -> block_of base t q -> p <> q -> p + bsize t <= q \/ q + bsize t <= p.
Proof.
  intros Ht (k & Hk & ->) (k' & Hk' & ->) Hne. destruct (block_size t Ht) as (? & _ & _ & _). assert (k <> k') by congruence.
  destruct (Z.lt_ge_cases k k'); [left|right]; nia.
Qed.

(** The free list of a page: [q] is its reference, [m] the memory. *)
Record page_ok (live : gmap Z Z) (m : Z -> Z) (q : pageref) (F : list Z) : Prop := {
  po_type : 0 <= PR_BLOCKTYPE q < NSIZES;
  po_page : exists a, PR_PAGEADDR q = paddr a /\ live !! a = Some 1;
  po_off : freelist_offset q = INVALID_OFFSET \/ 0 <= freelist_offset q < PAGE_SIZE;
  po_list : chain m (if freelist_offset q =? INVALID_OFFSET then 0 else PR_PAGEADDR q + freelist_offset q) F;
  po_free : forall f, f ∈ F -> block_of (PR_PAGEADDR q) (PR_BLOCKTYPE q) f;
  po_nodup : NoDup F;
  po_nfree : nfree q = Z.of_nat (length F)
}.

Lemma blocks_count base t F : 0 <= t < NSIZES -> NoDup F -> (forall f, f ∈ F -> block_of base t f) -> Z.of_nat (length F) <= nblocks t.
Proof.
  intros Ht Hnd HF. set (all := (fun k => base + k * bsize t) <$> seqZ 0 (nblocks t)).
  assert (Hs : F ⊆+ all).
  { apply NoDup_submseteq; [done|]. intros f (k & Hk & ->)%HF. apply list_elem_of_fmap. exists k. split; [done|]. apply elem_of_seqZ. lia. }
  apply submseteq_length in Hs. unfold all in Hs. rewrite length_fmap, length_seqZ in Hs.
  destruct (block_size _ Ht) as (_ & _ & _ & ?). lia.
Qed.

Lemma page_count live m q F : page_ok live m q F -> Z.of_nat (length F) <= nblocks (PR_BLOCKTYPE q).
Proof. intros [Ht _ _ _ Hf Hnd _]. by apply (blocks_count (PR_PAGEADDR q)). Qed.

(** A page with a block in use has fewer free blocks. *)
Lemma page_room live m q F p : page_ok live m q F -> block_of (PR_PAGEADDR q) (PR_BLOCKTYPE q) p -> p ∉ F ->
  Z.of_nat (length F) < nblocks (PR_BLOCKTYPE q).
Proof.
  intros [Ht _ _ _ Hf Hnd _] Hp Hn. enough (Z.of_nat (length (p :: F)) <= nblocks (PR_BLOCKTYPE q)) by (cbn [length] in *; lia).
  apply (blocks_count (PR_PAGEADDR q)); [done|by constructor|]. intros f [->|Hf']%elem_of_cons; [done|by apply Hf].
Qed.

(** If there are as many free blocks as blocks, every block is free. *)
Lemma page_all_free live m q F p : page_ok live m q F -> Z.of_nat (length F) = nblocks (PR_BLOCKTYPE q) ->
  block_of (PR_PAGEADDR q) (PR_BLOCKTYPE q) p -> p ∈ F.
Proof. intros Hok Hl Hp. destruct (decide (p ∈ F)) as [|Hn]; [done|]. pose proof (page_room live m q F p Hok Hp Hn). lia. Qed.

(** ** The heap *)

(** The parts of the heap: [L] lists the references to pages of blocks, [F] the free
    blocks of each. *)
Record parts (live : gmap Z Z) (L : list Z) (F : Z -> list Z) (h : kheap) : Prop := {
  pa_pages : pages_ok live (hpages h);
  pa_roots : roots_ok live (kheaproots h);
  pa_all : chain (fun r => next_all (prs h r)) (allbase h) L;
  pa_nodup : NoDup L;
  pa_bases : length (sizebases h) = 8%nat;
  pa_same : forall t, 0 <= t < NSIZES -> chain (fun r => next_samesize (prs h r)) (size_base t h) (filter (fun r => btype h r = t) L);
  pa_ref : forall r, r ∈ L -> ref_at (kheaproots h) r;
  pa_page : forall r, r ∈ L -> page_ok live (hmem h) (prs h r) (F r);
  pa_inj : forall r r', r ∈ L -> r' ∈ L -> pbase h r = pbase h r' -> r = r';
  pa_root : forall r a, r ∈ L -> pbase h r = paddr a -> ~ root_page (kheaproots h) a
}.

(** A block in use: in a page of blocks, or whole pages. *)
Definition small_block (L : list Z) (F : Z -> list Z) (h : kheap) (p n : Z) : Prop :=
  exists r, (r ∈ L) /\ block_of (pbase h r) (btype h r) p /\ (p ∉ F r) /\ n = bsize (btype h r).
Definition big_block (live : gmap Z Z) (L : list Z) (h : kheap) (p n : Z) : Prop :=
  exists a k, live !! a = Some k /\ (forall r, r ∈ L -> pbase h r <> paddr a) /\ ~ root_page (kheaproots h) a /\ p = paddr a /\ n = k * PAGE_SIZE.

Definition blocks_are (live : gmap Z Z) (L : list Z) (F : Z -> list Z) (h : kheap) (A : gmap Z Z) : Prop :=
  forall p n, A !! p = Some n <-> small_block L F h p n \/ big_block live L h p n.

Definition heap_ok (A : gmap Z Z) (h : kheap) : Prop :=
  exists live L F, parts live L F h /\ blocks_are live L F h A.

Lemma at_put_eq {A} a (x : A) m : at_put a x m a = x.
Proof. unfold at_put. by rewrite Z.eqb_refl. Qed.

Lemma at_put_ne {A} a b (x : A) m : b <> a -> at_put a x m b = m b.
Proof. intros Hne. unfold at_put. by rewrite (proj2 (Z.eqb_neq _ _)). Qed.

(** *** Where the blocks are *)

Lemma paddr_sep a b x : paddr a <= x < paddr a + PAGE_SIZE -> paddr b <= x < paddr b + PAGE_SIZE -> a = b.
Proof. unfold paddr, PAGE_SIZE. lia. Qed.

Lemma parts_base live L F h r : parts live L F h -> r ∈ L -> exists a, pbase h r = paddr a /\ live !! a = Some 1.
Proof. intros Hp Hr. exact (po_page _ _ _ _ (pa_page _ _ _ _ Hp r Hr)). Qed.

Lemma parts_type live L F h r : parts live L F h -> r ∈ L -> 0 <= btype h r < NSIZES.
Proof. intros Hp Hr. exact (po_type _ _ _ _ (pa_page _ _ _ _ Hp r Hr)). Qed.

(** The block of a page of blocks is in that page, and in no other. *)
Lemma small_in live L F h r p : parts live L F h -> r ∈ L -> block_of (pbase h r) (btype h r) p ->
  exists a, pbase h r = paddr a /\ live !! a = Some 1 /\ paddr a <= p /\ p + bsize (btype h r) <= paddr a + PAGE_SIZE /\ 16 <= bsize (btype h r).
Proof.
  intros Hp Hr Hb. destruct (parts_base _ _ _ _ r Hp Hr) as (a & Ea & Ha). pose proof (parts_type _ _ _ _ r Hp Hr) as Ht. destruct (block_range _ _ _ Ht Hb). destruct (block_size _ Ht) as (? & _). rewrite Ea in *.
  exists a. split_and!; (done || lia).
Qed.

(** Blocks of different pages do not meet. *)
Lemma small_sep live L F h r r' p q : parts live L F h -> r ∈ L -> r' ∈ L -> r <> r' ->
  block_of (pbase h r) (btype h r) p -> block_of (pbase h r') (btype h r') q ->
  p + bsize (btype h r) <= q \/ q + bsize (btype h r') <= p.
Proof.
  intros Hp Hr Hr' Hne Hb Hb'. destruct (small_in _ _ _ _ _ _ Hp Hr Hb) as (a & Ea & _ & ? & ? & ?), (small_in _ _ _ _ _ _ Hp Hr' Hb') as (b & Eb & _ & ? & ? & ?).
  assert (a <> b) by (intros ->; apply Hne; eapply pa_inj; [done|done|done|congruence]). unfold paddr, PAGE_SIZE in *. lia.
Qed.

(** Every block in use lies in a run of pages; two blocks of one run are in one page of
    blocks. *)
Lemma block_span live L F h p n : parts live L F h -> small_block L F h p n \/ big_block live L h p n ->
  exists a k, live !! a = Some k /\ paddr a <= p /\ p + n <= paddr a + k * PAGE_SIZE /\ 16 <= n.
Proof.
  intros Hp [(r & Hr & Hb & _ & ->)|(a & k & Ha & _ & _ & -> & ->)].
  - destruct (small_in _ _ _ _ _ _ Hp Hr Hb) as (a & Ea & Ha & ? & ? & ?). exists a, 1. split_and!; (done || lia).
  - exists a, k. destruct (pages_range _ _ _ _ (pa_pages _ _ _ _ Hp) Ha) as (? & ? & ?). split_and!; try done; unfold PAGE_SIZE; lia.
Qed.

Lemma blocks_disjoint A h p n q m : heap_ok A h -> A !! p = Some n -> A !! q = Some m -> p <> q -> p + n <= q \/ q + m <= p.
Proof.
  intros (live & L & F & Hp & Hb) HA HA' Hne. pose proof (proj1 (Hb p n) HA) as H1. pose proof (proj1 (Hb q m) HA') as H2.
  destruct (block_span _ _ _ _ _ _ Hp H1) as (a & k & Ha & ? & ? & ?), (block_span _ _ _ _ _ _ Hp H2) as (b & k' & Hb' & ? & ? & ?).
  destruct (decide (a = b)) as [<-|Hab].
  2:{ destruct (pages_disjoint _ _ _ _ _ _ (pa_pages _ _ _ _ Hp) Ha Hb' Hab); unfold paddr, PAGE_SIZE in *; lia. }
  destruct (pages_range _ _ _ _ (pa_pages _ _ _ _ Hp) Ha) as (? & ? & ?).
  destruct H1 as [(r & Hr & Hbr & _ & ->)|(a1 & k1 & Ha1 & Hn1 & _ & -> & ->)], H2 as [(r' & Hr' & Hbr' & _ & ->)|(a2 & k2 & Ha2 & Hn2 & _ & -> & ->)].
  - destruct (decide (r = r')) as [<-|Hrr]; [|by eapply small_sep].
    apply (block_sep (pbase h r)); [|done|done|done]. by apply (parts_type _ _ _ _ _ Hp).
  - destruct (small_in _ _ _ _ _ _ Hp Hr Hbr) as (c & Ec & Hc & ? & ? & ?). assert (c <> a2) by (intros ->; by apply (Hn2 r Hr)).
    destruct (pages_disjoint _ _ _ _ _ _ (pa_pages _ _ _ _ Hp) Hc Ha2) as [?|?]; [done| |]; unfold paddr, PAGE_SIZE in *; lia.
  - destruct (small_in _ _ _ _ _ _ Hp Hr' Hbr') as (c & Ec & Hc & ? & ? & ?). assert (c <> a1) by (intros ->; by apply (Hn1 r' Hr')).
    destruct (pages_disjoint _ _ _ _ _ _ (pa_pages _ _ _ _ Hp) Hc Ha1) as [?|?]; [done| |]; unfold paddr, PAGE_SIZE in *; lia.
  - assert (a1 <> a2) by congruence.
    destruct (pages_disjoint _ _ _ _ _ _ (pa_pages _ _ _ _ Hp) Ha1 Ha2) as [?|?]; [done| |]; unfold paddr, PAGE_SIZE in *; lia.
Qed.

(** *** Whole pages *)

Lemma page_live live live' m q F : page_ok live m q F -> (forall a, PR_PAGEADDR q = paddr a -> live' !! a = live !! a) -> page_ok live' m q F.
Proof. intros [? (a & Ea & Ha) ? ? ? ? ?] Hl. split; try done. exists a. split; [done|]. by rewrite Hl. Qed.

Lemma roots_live live live' R : roots_ok live R -> (forall a, root_page R a -> live' !! a = live !! a) -> roots_ok live' R.
Proof.
  intros [? ? Hp ? ?] Hl. split; try done. intros w rt Hw Hne. destruct (Hp w rt Hw Hne) as (a & Ea & Ha). exists a.
  split; [done|]. rewrite Hl; [done|]. by exists w, rt.
Qed.

Lemma root_page_live live R a : roots_ok live R -> root_page R a -> live !! a = Some 1.
Proof. intros Hok (w & rt & Hw & Hne & E). destruct (ro_page _ _ Hok w rt Hw Hne) as (b & Eb & Hb). rewrite E in Eb. by apply paddr_inj in Eb as <-. Qed.

(** A run of pages is allocated: a new block. *)
Lemma big_alloc live L F h A a n p' : parts live L F h -> blocks_are live L F h A -> live !! a = None -> pages_ok (<[a := n]> live) p' ->
  A !! paddr a = None /\ parts (<[a := n]> live) L F (set_hpages p' h) /\
  blocks_are (<[a := n]> live) L F (set_hpages p' h) (<[paddr a := n * PAGE_SIZE]> A).
Proof.
  intros Hp Hb Ha Hpg. assert (Hr : ~ root_page (kheaproots h) a) by (intros Hr%(root_page_live live); [congruence|apply Hp]).
  assert (HL : forall r, r ∈ L -> pbase h r <> paddr a).
  { intros r Hr' E. destruct (parts_base _ _ _ _ r Hp Hr') as (b & Eb & Hlb). rewrite E in Eb. apply paddr_inj in Eb as <-. congruence. }
  assert (Hnone : A !! paddr a = None).
  { destruct (A !! paddr a) as [m|] eqn:E; [|done]. apply Hb in E as [(r & Hr' & Hbr & _)|(b & k & Hlb & _ & _ & E & _)].
    - destruct (small_in _ _ _ _ _ _ Hp Hr' Hbr) as (c & Ec & Hlc & ? & ? & ?). assert (c = a) as -> by (unfold paddr, PAGE_SIZE in *; lia). congruence.
    - apply paddr_inj in E as ->. congruence. }
  split; [done|]. assert (Hl : forall b, is_Some (live !! b) -> (<[a := n]> live) !! b = live !! b) by (intros b [x Hx]; apply lookup_insert_ne; congruence).
  pose proof Hp as [P1 P2 P3 P4 P5 P6 P7 P8 P9 P10]. split.
  - split; try done.
    + apply (roots_live live); [done|]. intros b Hrb. apply Hl. rewrite (root_page_live live _ b P2 Hrb). done.
    + intros r Hr'. apply (page_live live); [by apply P8|]. intros b Eb. apply Hl.
      destruct (parts_base _ _ _ _ r Hp Hr') as (c & Ec & Hc). change (pbase h r = paddr b) in Eb. rewrite Eb in Ec. apply paddr_inj in Ec as ->. by rewrite Hc.
  - intros q m. split.
    + intros [[<- <-]|[Hne HA]]%lookup_insert_Some.
      * right. exists a, n. split; [apply lookup_insert_eq|done].
      * apply Hb in HA as [?|(b & k & Hlb & ?)]; [by left|right]. exists b, k. split; [|done]. rewrite Hl; [done|]. by rewrite Hlb.
    + intros [Hs|(b & k & Hlb & Hnb & Hrb & -> & ->)].
      * assert (HA : A !! q = Some m) by (apply Hb; by left). rewrite lookup_insert_ne; [done|]. intros <-. congruence.
      * apply lookup_insert_Some in Hlb as [[<- <-]|[Hne Hlb]]; [by rewrite lookup_insert_eq|].
        rewrite lookup_insert_ne by (intros E; apply paddr_inj in E; congruence). apply Hb. right. by exists b, k.
Qed.

(** A run of pages that is a block is freed. *)
Lemma big_free live L F h A a k p' : parts live L F h -> blocks_are live L F h A -> live !! a = Some k ->
  (forall r, r ∈ L -> pbase h r <> paddr a) -> ~ root_page (kheaproots h) a -> pages_ok (delete a live) p' ->
  parts (delete a live) L F (set_hpages p' h) /\ blocks_are (delete a live) L F (set_hpages p' h) (delete (paddr a) A).
Proof.
  intros Hp Hb Ha HL Hr Hpg. pose proof Hp as [P1 P2 P3 P4 P5 P6 P7 P8 P9 P10]. split.
  - split; try done.
    + apply (roots_live live); [done|]. intros b Hrb. apply lookup_delete_ne. intros <-. done.
    + intros r Hr'. apply (page_live live); [by apply P8|]. intros b Eb. apply lookup_delete_ne. intros <-. by apply (HL r).
  - intros q m. split.
    + intros [Hne HA]%lookup_delete_Some. apply Hb in HA as [?|(b & c & Hlb & Hnb & Hrb & -> & ->)]; [by left|right].
      exists b, c. split; [|done]. rewrite lookup_delete_ne; [done|]. congruence.
    + intros [Hs|(b & c & Hlb & Hnb & Hrb & -> & ->)].
      * rewrite lookup_delete_ne; [apply Hb; by left|]. intros <-. destruct Hs as (r & Hr' & Hbr & _).
        destruct (small_in _ _ _ _ _ _ Hp Hr' Hbr) as (c & Ec & Hlc & ? & ? & ?). apply (HL r Hr'). rewrite Ec. f_equal. unfold paddr, PAGE_SIZE in *. lia.
      * apply lookup_delete_Some in Hlb as [Hne Hlb]. rewrite lookup_delete_ne by (intros E; apply paddr_inj in E; congruence).
        apply Hb. right. by exists b, c.
Qed.

End Heap.
