(* ===== verification/KHeapSpec.v ===== *)
(** * The kernel heap: correctness

    What each part of [kmalloc] and [kfree] (KHeap.v) does to the heap, as a change of
    the pages of blocks, their free lists and the blocks in use; and the theorems on the
    two functions. *)

From stdpp Require Import base numbers list gmap.
From Stdlib Require Import ZArith Lia.
From S2P Require Import Prelude Dumbvm KHeapRefs KHeap.

Open Scope Z_scope.
Open Scope k_scope.

Section Spec.
Context `{Pages}.

(** A block in use at an address of page [r] is a block of that page. *)
Lemma block_owner live L F h r p n : parts live L F h -> r ∈ L -> block_of (pbase h r) (btype h r) p ->
  small_block L F h p n \/ big_block live L h p n <-> (p ∉ F r) /\ n = bsize (btype h r).
Proof.
  intros Hp Hr Hb. split; [|intros [? ->]; left; by exists r]. destruct (small_in _ _ _ _ _ _ Hp Hr Hb) as (c & Ec & Hlc & ? & ? & ?).
  intros [(r' & Hr' & Hb' & Hn & ->)|(a & k & Ha & Hn & _ & -> & ->)].
  - destruct (decide (r' = r)) as [->|Hne]; [done|]. destruct (block_size _ (parts_type _ _ _ _ r' Hp Hr')) as (? & _).
    destruct (small_sep _ _ _ _ r' r p p Hp Hr' Hr Hne Hb' Hb); lia.
  - destruct (Hn r Hr). rewrite Ec. f_equal. unfold paddr, PAGE_SIZE in *. lia.
Qed.

Lemma block_lookup live L F h A r p : parts live L F h -> blocks_are live L F h A -> r ∈ L -> block_of (pbase h r) (btype h r) p ->
  A !! p = if decide (p ∈ F r) then None else Some (bsize (btype h r)).
Proof.
  intros Hp Hb Hr Hbp. apply option_eq. intros n. rewrite (Hb p n), (block_owner _ _ _ _ r) by done. case_decide; naive_solver.
Qed.

(** ** One page changes *)

(** The heap with another reference [q] at [r] and other memory. *)
Definition put_page (r : Z) (q : pageref) (m : Z -> Z) (h : kheap) : kheap := set_prs (at_put r q) (set_hmem (fun _ => m) h).

Definition same_links (q q' : pageref) : Prop :=
  next_all q' = next_all q /\ next_samesize q' = next_samesize q /\ pageaddr_and_blocktype q' = pageaddr_and_blocktype q.

Lemma put_links r q m h x : same_links (prs h r) q -> same_links (prs h x) (prs (put_page r q m h) x).
Proof.
  intros Hq. cbn. destruct (decide (x = r)) as [->|Hne]; [by rewrite at_put_eq|]. rewrite at_put_ne by done. done.
Qed.

Lemma put_base r q m h x : same_links (prs h r) q -> pbase (put_page r q m h) x = pbase h x.
Proof. intros (_ & _ & E)%(put_links _ _ m _ x). unfold pbase, PR_PAGEADDR. by rewrite E. Qed.

Lemma put_type r q m h x : same_links (prs h r) q -> btype (put_page r q m h) x = btype h x.
Proof. intros (_ & _ & E)%(put_links _ _ m _ x). unfold btype, PR_BLOCKTYPE. by rewrite E. Qed.

Lemma filter_type h h' t (L : list Z) : (forall r, r ∈ L -> btype h' r = btype h r) -> filter (fun r => btype h' r = t) L = filter (fun r => btype h r = t) L.
Proof. intros E. induction L as [|r L IH]; [done|]. rewrite !filter_cons, E by left. rewrite IH; [done|]. intros x Hx. apply E. by right. Qed.

Lemma page_mem live m m' q F : page_ok live m q F -> (forall f, f ∈ F -> m' f = m f) -> page_ok live m' q F.
Proof. intros [? ? ? Hc ? ? ?] E. split; try done. by apply (chain_ext m). Qed.

(** The free list of page [r] becomes [l]. *)
Lemma parts_put live L F h r q m l : parts live L F h -> r ∈ L -> same_links (prs h r) q ->
  (forall r' f, r' ∈ L -> r' <> r -> f ∈ F r' -> m f = hmem h f) -> page_ok live m q l ->
  parts live L (at_put r l F) (put_page r q m h).
Proof.
  intros Hp Hr Hq Hm Hl. pose proof Hp as [P1 P2 P3 P4 P5 P6 P7 P8 P9 P10]. split; try done.
  - apply (chain_ext (fun x => next_all (prs h x))); [|done]. intros x _. apply (put_links _ _ m _ x Hq).
  - intros t Ht. rewrite (filter_type h) by (intros; by apply put_type). apply (chain_ext (fun x => next_samesize (prs h x))); [|by apply P6].
    intros x _. apply (put_links _ _ m _ x Hq).
  - intros r' Hr'. cbn. destruct (decide (r' = r)) as [->|Hne]; [by rewrite !at_put_eq|]. rewrite !at_put_ne by done.
    apply (page_mem _ (hmem h)); [by apply P8|]. intros f. by apply (Hm r').
  - intros r1 r2. rewrite !put_base by done. apply P9.
  - intros r1 a. rewrite put_base by done. apply P10.
Qed.

(** Which blocks are in use then: those of [r] that are not in [l], and the same
    elsewhere. *)
Lemma blocks_put live L F h A r q m l A' : parts live L F h -> blocks_are live L F h A -> r ∈ L -> same_links (prs h r) q ->
  parts live L (at_put r l F) (put_page r q m h) ->
  (forall p, block_of (pbase h r) (btype h r) p -> A' !! p = if decide (p ∈ l) then None else Some (bsize (btype h r))) ->
  (forall p, ~ block_of (pbase h r) (btype h r) p -> A' !! p = A !! p) ->
  blocks_are live L (at_put r l F) (put_page r q m h) A'.
Proof.
  intros Hp Hb Hr Hq Hp' Hin Hout p n. destruct (decide (block_of (pbase h r) (btype h r) p)) as [Hbp|Hbp].
  - rewrite (block_owner _ _ _ _ r p n Hp' Hr) by (by rewrite put_base, put_type). rewrite at_put_eq, put_type, Hin by done.
    case_decide; naive_solver.
  - rewrite Hout by done. rewrite (Hb p n). apply Morphisms_Prop.or_iff_morphism.
    + split; intros (r' & Hr' & Hb' & Hn & ->); exists r'; rewrite put_base, put_type in * by done; destruct (decide (r' = r)) as [->|Hne]; try done;
        rewrite at_put_ne in * by done; done.
    + split; intros (a & k & Ha & Hn & Hk & -> & ->); exists a, k; split_and!; try done; intros r' Hr'; specialize (Hn r' Hr'); by rewrite put_base in *.
Qed.

(** ** A block is taken *)

Lemma doalloc_ok live L F h A r f l : parts live L F h -> blocks_are live L F h A -> r ∈ L -> F r = f :: l ->
  exists q, doalloc r h = Done f (put_page r q (hmem h) h) /\ parts live L (at_put r l F) (put_page r q (hmem h) h) /\
    blocks_are live L (at_put r l F) (put_page r q (hmem h) h) (<[f := bsize (btype h r)]> A) /\ A !! f = None /\ block_of (pbase h r) (btype h r) f.
Proof.
  intros Hp Hb Hr Ef. pose proof (pa_page _ _ _ _ Hp r Hr) as Hpo. rewrite Ef in Hpo. pose proof (parts_base _ _ _ _ r Hp Hr) as (a & Ea & Hla).
  destruct (pages_range _ _ _ _ (pa_pages _ _ _ _ Hp) Hla) as (Ha0 & _ & Ha1).
  pose proof Hpo as [Ht _ Ho Hc Hf Hnd Hn]. cbn [chain] in Hc. destruct Hc as (Efl & Hf0 & Hc).
  assert (Eo : (freelist_offset (prs h r) =? INVALID_OFFSET) = false) by (destruct (freelist_offset (prs h r) =? INVALID_OFFSET); congruence).
  rewrite Eo in Efl. apply Z.eqb_neq in Eo. destruct Ho as [?|Ho]; [done|].
  assert (Hfb : block_of (pbase h r) (btype h r) f) by (apply Hf; left).
  assert (HAf : A !! f = None).
  { destruct (A !! f) as [n|] eqn:E; [|done]. apply Hb, (block_owner _ _ _ _ r) in E; [|done..]. rewrite Ef in E. destruct E as [[] _]. left. }
  pose proof (page_count _ _ _ _ Hpo) as Hcnt. destruct (block_size _ Ht) as (_ & _ & _ & Hnb).
  cbn [length] in Hn, Hcnt. assert (Eu : u16 (nfree (prs h r) - 1) = Z.of_nat (length l)) by (rewrite wrapu_small; lia).
  set (off := match l with [] => INVALID_OFFSET | g :: _ => g - pbase h r end).
  exists (set_free_list off (Z.of_nat (length l)) (prs h r)).
  assert (Hoff : forall g, g ∈ l -> 0 <= g - pbase h r < PAGE_SIZE).
  { intros g Hg. destruct (small_in _ _ _ _ r g Hp Hr) as (b & Eb & _ & ? & ? & ?); [apply Hf; by right|]. rewrite Eb. lia. }
  assert (Hrun : doalloc r h = Done f (put_page r (set_free_list off (Z.of_nat (length l)) (prs h r)) (hmem h) h)).
  { unfold doalloc, get_pr, put_pr. kunfold. rewrite (proj2 (Z.ltb_lt _ _)) by lia. fold (pbase h r). change (PR_PAGEADDR (prs h r)) with (pbase h r) in Efl.
    rewrite Efl, Eu. unfold kret. destruct l as [|g l].
    - cbn in Hc. rewrite Hc. cbn. by destruct h.
    - cbn [chain] in Hc. destruct Hc as (-> & Hg0 & _). rewrite (proj2 (Z.eqb_neq _ _)) by done. cbn [negb]. rewrite (proj2 (Z.ltb_lt _ _)) by (cbn [length]; lia).
      specialize (Hoff g ltac:(left)). unfold PAGE_SIZE in *. unfold kret. rewrite (wrapu_small 32), (wrapu_small 16), (proj2 (Z.ltb_lt _ _)) by lia. unfold kret. by destruct h. }
  split; [done|]. assert (Hlinks : same_links (prs h r) (set_free_list off (Z.of_nat (length l)) (prs h r))) by done.
  match goal with |- ?P /\ _ => assert (Hp' : P) end.
  { apply parts_put; [done|done|done|done|]. split; try done.
    - by exists a.
    - cbn. unfold off. destruct l as [|g l]; [by left|right; apply Hoff; left].
    - cbn. unfold off. destruct l as [|g l]; [done|]. cbn [chain] in Hc. destruct Hc as (_ & ? & ?). specialize (Hoff g ltac:(left)).
      rewrite (proj2 (Z.eqb_neq _ _)) by (unfold INVALID_OFFSET, PAGE_SIZE in *; lia). unfold pbase, PR_PAGEADDR. cbn. split; [lia|done].
    - intros g Hg. apply Hf. by right.
    - by inversion Hnd. }
  split; [done|]. split; [|done]. apply NoDup_cons in Hnd as [Hnf _].
  apply (blocks_put _ _ F _ A); try done; intros p Hbp.
  - destruct (decide (p = f)) as [->|Hne]; [rewrite lookup_insert_eq, decide_False by done; done|]. rewrite lookup_insert_ne by done.
    rewrite (block_lookup _ _ F _ _ r) by done. rewrite Ef. do 2 case_decide; set_solver.
  - rewrite lookup_insert_ne; [done|]. by intros <-.
Qed.

(** ** A block is given back *)

Lemma fill_outside n a m x : x < a \/ a + 4 * Z.of_nat n <= x -> fill_deadbeef n a m x = m x.
Proof. revert a m. induction n as [|n IH]; intros a m Hx; cbn [fill_deadbeef]; [done|]. rewrite IH by lia. apply at_put_ne. lia. Qed.

Lemma chain_head next a l : chain next a l -> a <> 0 -> a ∈ l.
Proof. destruct l as [|x l]; cbn; [done|]. intros [-> _] _. left. Qed.

Lemma free_block_ok live L F h A r p : parts live L F h -> blocks_are live L F h A -> r ∈ L -> block_of (pbase h r) (btype h r) p -> p ∉ F r ->
  exists q m, free_block r p h = Done (Z.of_nat (length (p :: F r)) =? nblocks (btype h r)) (put_page r q m h) /\
    same_links (prs h r) q /\ parts live L (at_put r (p :: F r) F) (put_page r q m h) /\
    blocks_are live L (at_put r (p :: F r) F) (put_page r q m h) (delete p A) /\
    forall x, x < p \/ p + bsize (btype h r) <= x -> m x = hmem h x.
Proof.
  intros Hp Hb Hr Hbp Hn. pose proof (pa_page _ _ _ _ Hp r Hr) as Hpo. destruct (small_in _ _ _ _ _ _ Hp Hr Hbp) as (a & Ea & Hla & Hp1 & Hp2 & _).
  destruct (pages_range _ _ _ _ (pa_pages _ _ _ _ Hp) Hla) as (Ha0 & _ & Ha1). pose proof (parts_type _ _ _ _ r Hp Hr) as Ht.
  pose proof (page_room _ _ _ _ p Hpo Hbp Hn) as Hroom. fold (btype h r) in Hroom. destruct (block_size _ Ht) as (Hs & Hs16 & _ & Hnb).
  pose proof Hpo as [_ _ Ho Hc Hf Hnd Hnf]. fold (pbase h r) (btype h r) in Hc, Hf.
  set (next := if freelist_offset (prs h r) =? INVALID_OFFSET then 0 else pbase h r + freelist_offset (prs h r)) in Hc.
  assert (Hnext : next <> p).
  { intros E. apply Hn. rewrite <- E. apply (chain_head _ _ _ Hc). rewrite E. unfold paddr, MIPS_KSEG0, PAGE_SIZE in *. lia. }
  set (m := at_put p next (fill_deadbeef (Z.to_nat (bsize (btype h r) / 4)) p (hmem h))).
  set (q := set_free_list (p - pbase h r) (Z.of_nat (length (p :: F r))) (prs h r)). exists q, m.
  assert (Hm : forall x, x < p \/ p + bsize (btype h r) <= x -> m x = hmem h x).
  { intros x Hx. unfold m. rewrite at_put_ne by lia. apply fill_outside. rewrite Z2Nat.id by (apply Z.div_pos; lia). Z.div_mod_to_equations. lia. }
  assert (Hlinks : same_links (prs h r) q) by done. split; [|split; [done|]].
  { unfold free_block, get_pr, put_pr. kunfold. fold (pbase h r) (btype h r) (bsize (btype h r)). fold (nblocks (btype h r)).
    assert (Eg : (PAGE_SIZE <=? p - pbase h r) || negb ((p - pbase h r) mod bsize (btype h r) =? 0) = false).
    { rewrite Ea. apply orb_false_iff. split; [apply Z.leb_gt; lia|]. destruct Hbp as (k & Hk & ->). rewrite Ea.
      replace (paddr a + k * bsize (btype h r) - paddr a) with (k * bsize (btype h r)) by lia. by rewrite Z.mod_mul by lia. }
    rewrite Eg. replace (pbase h r + (p - pbase h r)) with p by lia.
    assert (Hu1 : u16 (p - pbase h r) = p - pbase h r) by (rewrite Ea; apply wrapu_small; unfold PAGE_SIZE in *; lia).
    assert (Hu2 : u16 (nfree (prs h r) + 1) = Z.of_nat (length (p :: F r))) by (rewrite Hnf; cbn [length]; rewrite wrapu_small; lia).
    rewrite Hu1, Hu2. unfold m, next. destruct (Z.eqb_spec (freelist_offset (prs h r)) INVALID_OFFSET) as [E|E].
    - rewrite (proj2 (Z.leb_le _ _)) by (cbn [length]; lia). done.
    - unfold next in Hnext. rewrite (proj2 (Z.eqb_neq _ _)) by done. cbn [negb]. unfold kret.
      rewrite (proj2 (Z.leb_le _ _)) by (cbn [length]; lia). done. }
  match goal with |- ?P /\ _ => assert (Hp' : P) end.
  { apply parts_put; [done|done|done| |].
    - intros r' f Hr' Hne Hfr. apply Hm. assert (Hbf : block_of (pbase h r') (btype h r') f) by (apply (pa_page _ _ _ _ Hp r' Hr'); done).
      destruct (block_size _ (parts_type _ _ _ _ r' Hp Hr')) as (? & _).
      destruct (small_sep _ _ _ _ r' r f p Hp Hr' Hr Hne Hbf Hbp); lia.
    - split; try done.
      + by exists a.
      + right. cbn. rewrite Ea. lia.
      + cbn [q set_free_list freelist_offset]. change (PR_PAGEADDR q) with (pbase h r). rewrite Ea. rewrite (proj2 (Z.eqb_neq _ _)) by (unfold INVALID_OFFSET, PAGE_SIZE in *; lia).
        cbn [chain]. split; [lia|]. split; [unfold paddr, MIPS_KSEG0, PAGE_SIZE in *; lia|]. unfold m at 2. rewrite at_put_eq.
        apply (chain_ext (hmem h)); [|done]. intros f Hfr. apply Hm. destruct (block_sep _ _ f p Ht (Hf f Hfr) Hbp); [by intros ->|lia|lia].
      + intros f [->|Hfr]%elem_of_cons; [done|by apply Hf].
      + by constructor. }
  split; [done|]. split; [|done]. apply (blocks_put _ _ F _ A); try done; intros x Hx.
  - destruct (decide (x = p)) as [->|Hne]; [rewrite lookup_delete_eq, decide_True by left; done|]. rewrite lookup_delete_ne by done.
    rewrite (block_lookup _ _ F _ _ r) by done. do 2 case_decide; set_solver.
  - rewrite lookup_delete_ne; [done|]. by intros <-.
Qed.

(** ** A page is cut into blocks *)

Lemma mkpab_ok a t : 0 < a < 2 ^ 17 -> 0 <= t < NSIZES ->
  Z.land (MKPAB (paddr a) t) PAGE_FRAME = paddr a /\ Z.land (MKPAB (paddr a) t) (4294967295 - PAGE_FRAME) = t.
Proof.
  unfold NSIZES. intros Ha Ht. change (4294967295 - PAGE_FRAME) with (Z.ones 12). unfold MKPAB.
  change (4294967295 - PAGE_FRAME) with (Z.ones 12). rewrite Z.land_ones, (Z.mod_small t) by lia.
  assert (Ep : paddr a = (2 ^ 19 + a) * 2 ^ 12) by (unfold paddr, MIPS_KSEG0, PAGE_SIZE; lia).
  assert (Ef : Z.land (paddr a) PAGE_FRAME = paddr a).
  { rewrite land_frame by (rewrite Ep; lia). rewrite Ep. change PAGE_SIZE with (2 ^ 12). by rewrite Z.div_mul by lia. }
  rewrite Ef. assert (E : Z.lor (paddr a) t = paddr a + t).
  { rewrite Z.add_nocarry_lxor, Z.lxor_lor; [done| |]; apply Z.bits_inj'; intros n Hn; rewrite Z.land_spec, Z.bits_0;
      (destruct (Z.lt_ge_cases n 12) as [|]; [rewrite Ep, Z.mul_pow2_bits_low by lia; done|rewrite (testbit_small t 12) by lia; apply andb_false_r]). }
  rewrite E. split.
  - rewrite land_frame by (rewrite Ep; lia). rewrite Ep. change PAGE_SIZE with (2 ^ 12). rewrite Z.div_add_l, Z.div_small by lia. lia.
  - rewrite Z.land_ones, Ep, Z.add_comm, Z.mod_add, Z.mod_small by lia. done.
Qed.

(** The blocks of a page, the last one first. *)
Fixpoint all_blocks (base size : Z) (n : nat) : list Z :=
  match n with
  | O => []
  | S n' => (base + Z.of_nat n' * size) :: all_blocks base size n'
  end.

Lemma elem_all_blocks base size n p : p ∈ all_blocks base size n <-> exists k, 0 <= k < Z.of_nat n /\ p = base + k * size.
Proof.
  induction n as [|n IH]; cbn [all_blocks].
  - split; [by intros ?%elem_of_nil|]. intros (k & ? & _). lia.
  - rewrite elem_of_cons, IH. split.
    + intros [->|(k & ? & ->)]; [exists (Z.of_nat n)|exists k]; (split; [lia|done]).
    + intros (k & Hk & ->). destruct (decide (k = Z.of_nat n)) as [->|]; [by left|right]. exists k. split; [lia|done].
Qed.

Lemma length_all_blocks base size n : length (all_blocks base size n) = n.
Proof. induction n as [|n IH]; cbn [all_blocks length]; lia. Qed.

Lemma nodup_all_blocks base size n : 0 < size -> NoDup (all_blocks base size n).
Proof.
  intros Hs. induction n as [|n IH]; cbn [all_blocks]; constructor; [|done]. intros (k & ? & E)%elem_all_blocks. nia.
Qed.

Lemma chain_all_blocks m base size n : 0 < base -> 0 < size -> m base = 0 ->
  (forall j, 1 <= j < Z.of_nat n -> m (base + j * size) = base + (j - 1) * size) ->
  chain m (if n is O then 0 else base + (Z.of_nat n - 1) * size) (all_blocks base size n).
Proof.
  intros Hb Hs H0. induction n as [|n IH]; intros Hm; cbn [all_blocks chain]; [done|].
  split; [f_equal; f_equal; lia|]. split; [nia|]. specialize (IH ltac:(intros; apply Hm; lia)). destruct n as [|n].
  - cbn. by rewrite Z.add_0_r.
  - rewrite Hm by lia. done.
Qed.

(** The links are written below the blocks [i], ..., [i + k - 1]. *)
Lemma link_blocks_ok k i fla size h : 0 < size -> 0 < i ->
  exists m, link_blocks k i fla size (fla + (i - 1) * size) h = Done (fla + (i - 1 + Z.of_nat k) * size) (set_hmem (fun _ => m) h) /\
    (forall j, i <= j < i + Z.of_nat k -> m (fla + j * size) = fla + (j - 1) * size) /\
    (forall x, x < fla + i * size \/ fla + (i + Z.of_nat k) * size <= x -> m x = hmem h x).
Proof.
  intros Hs. revert i h. induction k as [|k IH]; intros i h Hi; cbn [link_blocks].
  - exists (hmem h). split; [by destruct h; rewrite Z.add_0_r|]. split; [lia|done].
  - kunfold. rewrite (proj2 (Z.eqb_neq _ _)) by nia. cbn [negb]. unfold kret.
    set (h1 := set_hmem _ h). destruct (IH (i + 1) h1 ltac:(lia)) as (m & E & Hin & Hout). exists m.
    replace (i + 1 - 1) with i in E by lia. rewrite E. split; [f_equal; f_equal; f_equal; lia|]. split.
    + intros j Hj. destruct (decide (j = i)) as [->|]; [|apply Hin; lia]. rewrite Hout by (left; nia). cbn. by rewrite at_put_eq.
    + intros x Hx. rewrite Hout by nia. cbn. apply at_put_ne. nia.
Qed.

Lemma setup_page_ok r a t h : 0 < a < 2 ^ 17 -> 0 <= t < NSIZES -> length (sizebases h) = 8%nat ->
  exists pm m, setup_page r (paddr a) t h = Done tt (mkheap _ (kheaproots h) pm (<[Z.to_nat t := r]> (sizebases h)) r m (hpages h)) /\
    pm r = mkpr (size_base t h) (allbase h) (MKPAB (paddr a) t) ((nblocks t - 1) * bsize t) (nblocks t) /\
    (forall x, x <> r -> pm x = prs h x) /\
    chain m (paddr a + (nblocks t - 1) * bsize t) (all_blocks (paddr a) (bsize t) (Z.to_nat (nblocks t))) /\
    (forall x, x < paddr a \/ paddr a + PAGE_SIZE <= x -> m x = hmem h x).
Proof.
  intros Ha Ht Hlen. destruct (block_size t Ht) as (Hs & _ & Hmul & Hn). unfold setup_page, get_pr, put_pr. kunfold.
  fold (bsize t). fold (nblocks t). rewrite (wrapu_small 16 (nblocks t)) by lia.
  match goal with |- context [link_blocks _ _ _ _ _ ?s] => set (h1 := s) end.
  destruct (link_blocks_ok (Z.to_nat (nblocks t - 1)) 1 (paddr a) (bsize t) h1 ltac:(lia) ltac:(lia)) as (m & E & Hin & Hout).
  replace (paddr a + (1 - 1) * bsize t) with (paddr a) in E by lia. rewrite E.
  replace (paddr a + (1 - 1 + Z.of_nat (Z.to_nat (nblocks t - 1))) * bsize t) with (paddr a + (nblocks t - 1) * bsize t) by (rewrite Z2Nat.id by lia; f_equal; f_equal; lia).
  replace (paddr a + (nblocks t - 1) * bsize t - paddr a) with ((nblocks t - 1) * bsize t) by lia.
  rewrite (wrapu_small 16) by (unfold PAGE_SIZE in Hmul; nia). rewrite Z.eqb_refl. unfold kret. cbn.
  eexists _, m. split; [done|]. cbn [prs set_size_base set_sizebases set_prs set_hmem h1 kmodify]. split; [by rewrite at_put_eq|]. split; [intros x Hx; by rewrite !at_put_ne|].
  assert (H0 : m (paddr a) = 0) by (rewrite Hout by nia; cbn; by rewrite at_put_eq). split.
  - pose proof (chain_all_blocks m (paddr a) (bsize t) (Z.to_nat (nblocks t))) as Hc. destruct (Z.to_nat (nblocks t)) as [|k] eqn:Ek; [lia|].
    replace (Z.of_nat (S k)) with (nblocks t) in Hc by lia. apply Hc; [unfold paddr, MIPS_KSEG0, PAGE_SIZE; lia|lia|done|]. intros j Hj. apply Hin. lia.
  - intros x Hx. rewrite Hout by (unfold PAGE_SIZE in *; nia). cbn. apply at_put_ne. unfold PAGE_SIZE in *. lia.
Qed.

(** A page that was a block by itself joins the pages of blocks: none of its blocks is
    in use. *)
Lemma adopt_ok live L F h A a t r : parts live L F h -> blocks_are live L F h A -> live !! a = Some 1 ->
  (forall r', r' ∈ L -> pbase h r' <> paddr a) -> ~ root_page (kheaproots h) a -> r <> 0 -> r ∉ L -> ref_at (kheaproots h) r -> 0 <= t < NSIZES ->
  exists h' f l, setup_page r (paddr a) t h = Done tt h' /\ parts live (r :: L) (at_put r (f :: l) F) h' /\
    blocks_are live (r :: L) (at_put r (f :: l) F) h' (delete (paddr a) A) /\ btype h' r = t /\
    (forall x, x < paddr a \/ paddr a + PAGE_SIZE <= x -> hmem h' x = hmem h x).
Proof.
  intros Hp Hb Hla HL Hra Hr0 HrL Hr Ht. pose proof Hp as [P1 P2 P3 P4 P5 P6 P7 P8 P9 P10].
  destruct (pages_range _ _ _ _ P1 Hla) as (Ha0 & _ & Ha1). destruct (block_size t Ht) as (Hs & _ & Hmul & Hn).
  destruct (setup_page_ok r a t h ltac:(lia) Ht P5) as (pm & m & E & Er & Ex & Hc & Hm). set (h' := mkheap _ _ _ _ _ _ _) in E.
  destruct (all_blocks (paddr a) (bsize t) (Z.to_nat (nblocks t))) as [|f l] eqn:El.
  { pose proof (length_all_blocks (paddr a) (bsize t) (Z.to_nat (nblocks t))) as El'. rewrite El in El'. cbn in El'. lia. }
  exists h', f, l. rewrite <- El in *. split; [done|]. destruct (mkpab_ok a t ltac:(lia) Ht) as [Epa Ety].
  assert (Eb : pbase h' r = paddr a) by (unfold pbase, PR_PAGEADDR; cbn; rewrite Er; done).
  assert (Et : btype h' r = t) by (unfold btype, PR_BLOCKTYPE; cbn; rewrite Er; done).
  assert (Hne : forall x, x ∈ L -> x <> r) by (intros x Hx ->; done).
  assert (Eb' : forall x, x ∈ L -> pbase h' x = pbase h x) by (intros x Hx; unfold pbase; cbn; by rewrite Ex by auto).
  assert (Et' : forall x, x ∈ L -> btype h' x = btype h x) by (intros x Hx; unfold btype; cbn; by rewrite Ex by auto).
  assert (Hlen : length (all_blocks (paddr a) (bsize t) (Z.to_nat (nblocks t))) = Z.to_nat (nblocks t)) by apply length_all_blocks.
  assert (Hall : forall p, block_of (paddr a) t p <-> p ∈ all_blocks (paddr a) (bsize t) (Z.to_nat (nblocks t))).
  { intros p. rewrite elem_all_blocks, Z2Nat.id by lia. done. }
  split; [|split; [|done]].
  - split; try done.
    + cbn. split; [done|]. split; [done|]. rewrite Er. cbn. apply (chain_ext (fun x => next_all (prs h x))); [|done]. intros x Hx. by rewrite Ex by auto.
    + by constructor.
    + cbn. by rewrite length_insert.
    + intros t' Ht'. rewrite filter_cons, (filter_type h) by done. unfold size_base. cbn [sizebases h'].
      assert (Hc' : chain (fun x => next_samesize (pm x)) (size_base t' h) (filter (fun x => btype h x = t') L)).
      { apply (chain_ext (fun x => next_samesize (prs h x))); [|by apply P6]. intros x [_ Hx]%list_elem_of_filter. by rewrite Ex by auto. }
      rewrite Et. unfold NSIZES in *. destruct (decide (t = t')) as [<-|Hne'].
      * rewrite list_lookup_total_insert_eq by lia. cbn. split; [done|]. split; [done|]. by rewrite Er.
      * rewrite list_lookup_total_insert_ne by lia. done.
    + intros x [->|Hx]%elem_of_cons; [done|by apply P7].
    + intros x [->|Hx]%elem_of_cons.
      * rewrite at_put_eq. cbn [hmem h' prs]. rewrite Er. split; cbn [freelist_offset nfree].
        -- change (0 <= Z.land (MKPAB (paddr a) t) (4294967295 - PAGE_FRAME) < NSIZES). by rewrite Ety.
        -- exists a. done.
        -- right. nia.
        -- rewrite (proj2 (Z.eqb_neq _ _)) by (unfold INVALID_OFFSET, PAGE_SIZE in *; nia). unfold PR_PAGEADDR. cbn [pageaddr_and_blocktype]. by rewrite Epa.
        -- unfold PR_PAGEADDR, PR_BLOCKTYPE. cbn [pageaddr_and_blocktype]. rewrite Epa, Ety. intros g. by rewrite Hall.
        -- apply nodup_all_blocks. lia.
        -- lia.
      * rewrite at_put_ne by auto. cbn [hmem h' prs]. rewrite Ex by auto. apply (page_mem _ (hmem h)); [by apply P8|]. intros g Hg. apply Hm.
        assert (Hbg : block_of (pbase h x) (btype h x) g) by (by apply (po_free _ _ _ _ (P8 x Hx))).
        destruct (small_in _ _ _ _ _ _ Hp Hx Hbg) as (c & Ec & _ & ? & ? & ?). assert (c <> a) by (intros ->; by apply (HL x)). unfold paddr, PAGE_SIZE in *. lia.
    + intros x y [->|Hx]%elem_of_cons [->|Hy]%elem_of_cons; rewrite ?Eb, ?Eb' by done; try done.
      * intros E'. by destruct (HL y Hy).
      * intros E'. by destruct (HL x Hx).
      * by apply P9.
    + intros x b [->|Hx]%elem_of_cons; [rewrite Eb; intros <-%paddr_inj; done|]. rewrite Eb' by done. by apply P10.
  - intros p n. split.
    + intros [Hpa HA]%lookup_delete_Some. apply Hb in HA as [(x & Hx & Hbx & Hnx & ->)|(b & k & Hlb & Hnb & Hrb & -> & ->)].
      * left. exists x. rewrite Eb', Et', at_put_ne by auto. split; [by right|done].
      * right. exists b, k. split; [done|]. split; [|done]. intros x [->|Hx]%elem_of_cons; [rewrite Eb; done|]. rewrite Eb' by done. by apply Hnb.
    + intros [(x & [->|Hx]%elem_of_cons & Hbx & Hnx & ->)|(b & k & Hlb & Hnb & Hrb & -> & ->)].
      * rewrite at_put_eq, Eb, Et in *. by apply Hall in Hbx.
      * rewrite Eb', Et', at_put_ne in * by auto. apply lookup_delete_Some. split; [|apply Hb; left; by exists x].
        intros <-. destruct (small_in _ _ _ _ _ _ Hp Hx Hbx) as (c & Ec & _ & ? & ? & ?). apply (HL x Hx). rewrite Ec. f_equal. unfold paddr, PAGE_SIZE in *. lia.
      * apply lookup_delete_Some. split.
        -- intros <-%paddr_inj. apply (Hnb r); [left|done].
        -- apply Hb. right. exists b, k. split; [done|]. split; [|done]. intros x Hx. rewrite <- Eb' by done. apply Hnb. by right.
Qed.

(** ** A page leaves the lists *)

Lemma unlink_ok base setbase next setnext pr l2 h fuel prev l1 :
  chain (fun x => next (prs h x)) (match prev with None => base h | Some q => next (prs h q) end) (l1 ++ pr :: l2) -> pr ∉ l1 -> (length l1 < fuel)%nat ->
  unlink fuel base setbase next setnext prev pr h =
    Done tt (match (match last l1 with Some q => Some q | None => prev end) with
             | None => setbase (next (prs h pr)) h
             | Some q => set_prs (at_put q (setnext (next (prs h pr)) (prs h q))) h
             end).
Proof.
  revert fuel prev. induction l1 as [|x l1 IH]; intros [|fuel] prev Hc Hn Hf; cbn [length] in Hf; try lia; cbn [unlink]; kunfold;
    cbn [app chain] in Hc; destruct Hc as (-> & Hx & Hc); rewrite (proj2 (Z.eqb_neq _ 0)) by done.
  - rewrite Z.eqb_refl. by destruct prev.
  - rewrite (proj2 (Z.eqb_neq _ _)) by (intros ->; apply Hn; left). rewrite IH; [|done|intros ?; apply Hn; by right|lia].
    f_equal. destruct l1 as [|y l1]; [done|]. cbn [last]. destruct l1; [done|]. by destruct (last _) eqn:E; [|apply last_None in E].
Qed.

(** A list with one element cut out. *)
Lemma chain_cut nx nx' a l1 r l2 : chain nx a (l1 ++ r :: l2) -> NoDup (l1 ++ r :: l2) ->
  (forall x, x ∈ l1 ++ l2 -> last l1 <> Some x -> nx' x = nx x) -> (forall q, last l1 = Some q -> nx' q = nx r) ->
  chain nx' (if last l1 is Some _ then a else nx r) (l1 ++ l2).
Proof.
  revert a. induction l1 as [|x l1 IH]; intros a Hc Hnd Hext Hq; cbn [app chain] in *.
  - destruct Hc as (-> & _ & Hc). apply (chain_ext nx); [|done]. intros y Hy. by apply Hext.
  - destruct Hc as (-> & Hx & Hc). apply NoDup_cons in Hnd as [Hxn Hnd]. destruct l1 as [|y l1].
    + cbn in *. split; [done|]. split; [done|]. rewrite Hq by done. destruct Hc as (E & _ & Hc). apply (chain_ext nx); [|done].
      intros z Hz. apply Hext; [by right|]. intros [= ->]. apply Hxn. by right.
    + change (last (x :: y :: l1)) with (last (y :: l1)) in *. destruct (last (y :: l1)) as [q|] eqn:El; [|by apply last_None in El].
      split; [done|]. split; [done|]. rewrite Hext; [| |].
      * apply IH; [done|done| |done]. intros z Hz. apply Hext. by right.
      * left.
      * intros [= ->]. apply Hxn, elem_of_app. left. apply last_Some in El as [l' ->]. apply elem_of_app. right. left.
Qed.

(** What does not change when pages leave the lists. *)
Record relinked (h h' : kheap) : Prop := {
  rl_roots : kheaproots h' = kheaproots h;
  rl_mem : hmem h' = hmem h;
  rl_pages : hpages h' = hpages h;
  rl_bases : length (sizebases h') = length (sizebases h);
  rl_pab : forall x, pageaddr_and_blocktype (prs h' x) = pageaddr_and_blocktype (prs h x);
  rl_off : forall x, freelist_offset (prs h' x) = freelist_offset (prs h x);
  rl_free : forall x, nfree (prs h' x) = nfree (prs h x)
}.

Lemma relinked_trans h h1 h2 : relinked h h1 -> relinked h1 h2 -> relinked h h2.
Proof. intros [] []. split; congruence. Qed.

Lemma relinked_base h h' x : relinked h h' -> pbase h' x = pbase h x.
Proof. intros Hr. unfold pbase, PR_PAGEADDR. by rewrite (rl_pab _ _ Hr). Qed.

Lemma relinked_type h h' x : relinked h h' -> btype h' x = btype h x.
Proof. intros Hr. unfold btype, PR_BLOCKTYPE. by rewrite (rl_pab _ _ Hr). Qed.

Lemma unlink_all_ok h L1 r L2 fuel : chain (fun x => next_all (prs h x)) (allbase h) (L1 ++ r :: L2) -> NoDup (L1 ++ r :: L2) -> (length L1 < fuel)%nat ->
  exists h', unlink fuel allbase set_allbase next_all set_next_all None r h = Done tt h' /\ relinked h h' /\
    chain (fun x => next_all (prs h' x)) (allbase h') (L1 ++ L2) /\ sizebases h' = sizebases h /\
    forall x, next_samesize (prs h' x) = next_samesize (prs h x).
Proof.
  intros Hc Hnd Hf. rewrite (unlink_ok _ _ _ _ _ L2 _ _ None L1); [|done| |done].
  2:{ intros Hin. apply NoDup_app in Hnd as (_ & Hd & _). apply (Hd r Hin). left. }
  pose proof (chain_cut _ (fun x => next_all (prs (match last L1 with Some q => set_prs (at_put q (set_next_all (next_all (prs h r)) (prs h q))) h
    | None => set_allbase (next_all (prs h r)) h end) x)) _ _ _ _ Hc Hnd) as Hcut.
  eexists. split; [done|]. destruct (last L1) as [q|]; cbn in *.
  - split; [split; try done; intros x; cbn; by destruct (decide (x = q)) as [->|?]; rewrite ?at_put_eq, ?at_put_ne by done|].
    split; [apply Hcut|split; [done|]].
    + intros x _ Hx. rewrite at_put_ne; [done|]. congruence.
    + intros q' [= ->]. by rewrite at_put_eq.
    + intros x. by destruct (decide (x = q)) as [->|?]; rewrite ?at_put_eq, ?at_put_ne by done.
  - split; [done|]. split; [by apply Hcut|done].
Qed.

Lemma unlink_size_ok h t l1 r l2 fuel : chain (fun x => next_samesize (prs h x)) (size_base t h) (l1 ++ r :: l2) -> NoDup (l1 ++ r :: l2) -> (length l1 < fuel)%nat ->
  0 <= t < NSIZES -> length (sizebases h) = 8%nat ->
  exists h', unlink fuel (size_base t) (set_size_base t) next_samesize set_next_samesize None r h = Done tt h' /\ relinked h h' /\
    chain (fun x => next_samesize (prs h' x)) (size_base t h') (l1 ++ l2) /\ allbase h' = allbase h /\
    (forall x, next_all (prs h' x) = next_all (prs h x)) /\
    (forall x, x ∉ l1 -> next_samesize (prs h' x) = next_samesize (prs h x)) /\
    (forall t', 0 <= t' < NSIZES -> t' <> t -> size_base t' h' = size_base t' h).
Proof.
  intros Hc Hnd Hf Ht Hlen. unfold NSIZES in *. rewrite (unlink_ok _ _ _ _ _ l2 _ _ None l1); [|done| |done].
  2:{ intros Hin. apply NoDup_app in Hnd as (_ & Hd & _). apply (Hd r Hin). left. }
  pose proof (chain_cut _ (fun x => next_samesize (prs (match last l1 with Some q => set_prs (at_put q (set_next_samesize (next_samesize (prs h r)) (prs h q))) h
    | None => set_size_base t (next_samesize (prs h r)) h end) x)) _ _ _ _ Hc Hnd) as Hcut.
  eexists. split; [done|]. destruct (last l1) as [q|] eqn:El; cbn in Hcut |- *.
  - split; [split; try done; intros x; cbn; by destruct (decide (x = q)) as [->|?]; rewrite ?at_put_eq, ?at_put_ne by done|].
    split; [apply Hcut|split; [done|split; [|split; [|done]]]].
    + intros x _ Hx. rewrite at_put_ne; [done|]. congruence.
    + intros q' [= ->]. by rewrite at_put_eq.
    + intros x. by destruct (decide (x = q)) as [->|?]; rewrite ?at_put_eq, ?at_put_ne by done.
    + intros x Hx. rewrite at_put_ne; [done|]. intros ->. apply Hx. apply last_Some in El as [l' ->]. apply elem_of_app. right. left.
  - split; [split; try done; cbn; by rewrite length_insert|]. split; [|split; [done|split; [done|split; [done|]]]].
    + unfold size_base, set_size_base. cbn. rewrite list_lookup_total_insert_eq by lia. by apply Hcut.
    + intros t' Ht' Hne. unfold size_base, set_size_base. cbn. rewrite list_lookup_total_insert_ne by lia. done.
Qed.

Lemma list_fuel live L F h : parts live L F h -> (length L < LISTFUEL)%nat.
Proof.
  intros Hp. pose proof (refs_bound live (kheaproots h) L (pa_roots _ _ _ _ Hp) (pa_nodup _ _ _ _ Hp) (pa_ref _ _ _ _ Hp)) as Hle. clear Hp.
  unfold LISTFUEL. apply Nat2Z.inj_lt. rewrite Z2Nat.id; unfold TOTAL_PAGEREFS in *; lia.
Qed.

Lemma remove_lists_ok live L1 r L2 F h : parts live (L1 ++ r :: L2) F h ->
  exists h', remove_lists r (btype h r) h = Done tt h' /\ relinked h h' /\ parts live (L1 ++ L2) F h'.
Proof.
  intros Hp. pose proof (list_fuel _ _ _ _ Hp) as Hfuel. assert (HrL : r ∈ L1 ++ r :: L2) by (apply elem_of_app; right; left).
  assert (Hsub : forall x, x ∈ L1 ++ L2 -> x ∈ L1 ++ r :: L2) by (intros x [?|?]%elem_of_app; apply elem_of_app; [by left|right; by right]).
  pose proof Hp as [P1 P2 P3 P4 P5 P6 P7 P8 P9 P10]. pose proof (parts_type _ _ _ _ r Hp HrL) as Ht. set (t := btype h r) in *.
  assert (Ef : filter (fun x => btype h x = t) (L1 ++ r :: L2) = filter (fun x => btype h x = t) L1 ++ r :: filter (fun x => btype h x = t) L2).
  { rewrite filter_app, filter_cons, decide_True by done. done. }
  pose proof (P6 t Ht) as Hsame. rewrite Ef in Hsame. rewrite length_app in Hfuel. cbn [length] in Hfuel.
  pose proof (length_filter (fun x => btype h x = t) L1) as Hlf.
  destruct (unlink_size_ok h t _ r _ LISTFUEL Hsame) as (h1 & E1 & Hr1 & C1 & A1 & N1 & S1 & B1); [rewrite <- Ef; by apply NoDup_filter|lia|done|done|].
  destruct (unlink_all_ok h1 L1 r L2 LISTFUEL) as (h2 & E2 & Hr2 & C2 & A2 & N2); [|done|lia|].
  { rewrite A1. apply (chain_ext (fun x => next_all (prs h x))); [|done]. intros x _. apply N1. }
  pose proof (relinked_trans _ _ _ Hr1 Hr2) as Hr. exists h2. split.
  { unfold remove_lists. unfold NSIZES in *. kunfold. rewrite (proj2 (Z.leb_le _ _)), (proj2 (Z.ltb_lt _ _)) by lia. cbn [andb]. unfold kret. rewrite E1. done. }
  split; [done|]. split.
  - by rewrite (rl_pages _ _ Hr).
  - by rewrite (rl_roots _ _ Hr).
  - done.
  - apply NoDup_app in P4 as (? & Hd & [_ ?]%NoDup_cons). apply NoDup_app. split; [done|]. split; [|done]. intros x Hx Hx2. apply (Hd x Hx). by right.
  - by rewrite (rl_bases _ _ Hr).
  - intros t' Ht'. rewrite (filter_type h) by (intros; by apply relinked_type). unfold size_base. rewrite A2. fold (size_base t' h1).
    apply (chain_ext (fun x => next_samesize (prs h1 x))); [intros x _; apply N2|]. destruct (decide (t' = t)) as [->|Hne].
    + by rewrite filter_app.
    + rewrite B1 by done. pose proof (P6 t' Ht') as Hc. rewrite filter_app, filter_cons, decide_False, <- filter_app in Hc by done.
      apply (chain_ext (fun x => next_samesize (prs h x))); [|done]. intros x [Hx _]%list_elem_of_filter. apply S1.
      intros [Hx' _]%list_elem_of_filter. congruence.
  - intros x Hx. rewrite (rl_roots _ _ Hr). by apply P7, Hsub.
  - intros x Hx. destruct (P8 x (Hsub x Hx)) as [G1 G2 G3 G4 G5 G6 G7]. pose proof (relinked_base _ _ x Hr) as Eb. pose proof (relinked_type _ _ x Hr) as Et.
    unfold pbase, btype in Eb, Et. split; rewrite ?Eb, ?Et, ?(rl_off _ _ Hr), ?(rl_free _ _ Hr), ?(rl_mem _ _ Hr); done.
  - intros x y Hx Hy. rewrite !(relinked_base _ _ _ Hr). apply P9; by apply Hsub.
  - intros x b Hx. rewrite (relinked_base _ _ _ Hr), (rl_roots _ _ Hr). by apply P10, Hsub.
Qed.

(** A page without blocks in use becomes a block by itself. *)
Lemma disown_blocks live L1 r L2 F h h' A a : parts live (L1 ++ r :: L2) F h -> blocks_are live (L1 ++ r :: L2) F h A ->
  (forall p, block_of (pbase h r) (btype h r) p -> p ∈ F r) -> pbase h r = paddr a -> relinked h h' ->
  A !! paddr a = None /\ blocks_are live (L1 ++ L2) F h' (<[paddr a := PAGE_SIZE]> A).
Proof.
  intros Hp Hb Hall Ea Hr. assert (HrL : r ∈ L1 ++ r :: L2) by (apply elem_of_app; right; left).
  assert (Hnr : forall x, x ∈ L1 ++ L2 <-> (x ∈ L1 ++ r :: L2) /\ x <> r).
  { intros x. pose proof (pa_nodup _ _ _ _ Hp) as (? & Hd & [? ?]%NoDup_cons)%NoDup_app. rewrite !elem_of_app, elem_of_cons. split.
    - intros [Hx|Hx]; (split; [by auto|]); intros ->; [by apply (Hd r Hx); left|done].
    - intros [[?|[->|?]] ?]; by auto. }
  pose proof (parts_type _ _ _ _ r Hp HrL) as Ht. destruct (block_size _ Ht) as (_ & _ & _ & Hn).
  assert (H0 : block_of (pbase h r) (btype h r) (paddr a)) by (exists 0; split; [lia|rewrite Ea; lia]).
  assert (HA0 : A !! paddr a = None) by (rewrite (block_lookup _ _ F _ _ r) by done; rewrite decide_True; [done|by apply Hall]).
  split; [done|]. destruct (parts_base _ _ _ _ r Hp HrL) as (a' & Ea' & Hla). rewrite Ea in Ea'. apply paddr_inj in Ea' as <-.
  intros p n. split.
  - intros [[<- <-]|[Hne HA]]%lookup_insert_Some.
    + right. exists a, 1. split; [done|]. split; [|split; [rewrite (rl_roots _ _ Hr); by apply (pa_root _ _ _ _ Hp r)|split; [done|lia]]].
      intros x [Hx Hxr]%Hnr E. rewrite (relinked_base _ _ _ Hr) in E. apply Hxr. apply (pa_inj _ _ _ _ Hp); [done|done|congruence].
    + apply Hb in HA as [(x & Hx & Hbx & Hnx & ->)|(b & k & Hlb & Hnb & Hrb & -> & ->)].
      * left. exists x. rewrite (relinked_base _ _ _ Hr), (relinked_type _ _ _ Hr). split; [|done]. apply Hnr. split; [done|]. intros ->. by apply Hnx, Hall.
      * right. exists b, k. split; [done|]. split; [|by rewrite (rl_roots _ _ Hr)]. intros x [Hx _]%Hnr. rewrite (relinked_base _ _ _ Hr). by apply Hnb.
  - intros [(x & [Hx Hxr]%Hnr & Hbx & Hnx & ->)|(b & k & Hlb & Hnb & Hrb & -> & ->)]; rewrite lookup_insert_Some.
    + rewrite (relinked_base _ _ _ Hr), (relinked_type _ _ _ Hr) in *. right. assert (HA : A !! p = Some (bsize (btype h x))) by (apply Hb; left; by exists x).
      split; [congruence|done].
    + destruct (decide (b = a)) as [->|Hba]; [left; split; [done|]; rewrite Hla in Hlb; injection Hlb as <-; lia|]. right.
      split; [intros E%paddr_inj; congruence|]. apply Hb. right. exists b, k. split; [done|]. split; [|by rewrite (rl_roots _ _ Hr) in Hrb]. intros x Hx.
      destruct (decide (x = r)) as [->|Hxr]; [rewrite Ea; intros E%paddr_inj; congruence|]. rewrite <- (relinked_base _ _ _ Hr). apply Hnb, Hnr. done.
Qed.

(** ** Page references come and go *)

(** The pages that are not pages of references stay as they are. *)
Definition same_pages (live live' : gmap Z Z) (R R' : list kheap_root) : Prop :=
  forall b k, live' !! b = Some k /\ ~ root_page R' b <-> live !! b = Some k /\ ~ root_page R b.

Lemma parts_roots live live' L F h A R' p' : parts live L F h -> blocks_are live L F h A -> pages_ok live' p' -> roots_ok live' R' ->
  (forall r, r ∈ L -> ref_at R' r) -> same_pages live live' (kheaproots h) R' ->
  parts live' L F (put_heap R' p' h) /\ blocks_are live' L F (put_heap R' p' h) A.
Proof.
  intros Hp Hb Hpg Hro HL Hsame. pose proof Hp as [P1 P2 P3 P4 P5 P6 P7 P8 P9 P10].
  assert (Hpage : forall r a, r ∈ L -> pbase h r = paddr a -> live' !! a = Some 1 /\ ~ root_page R' a).
  { intros r a Hr Ea. destruct (parts_base _ _ _ _ r Hp Hr) as (b & Eb & Hlb). rewrite Ea in Eb. apply paddr_inj in Eb as <-.
    apply Hsame. split; [done|by apply (P10 r)]. }
  split.
  - split; try done.
    + intros r Hr. destruct (parts_base _ _ _ _ r Hp Hr) as (b & Eb & Hlb). apply (page_live live); [by apply P8|]. intros a Ea. change (pbase h r = paddr a) in Ea.
      rewrite (proj1 (Hpage r a Hr Ea)). rewrite Ea in Eb. apply paddr_inj in Eb as ->. done.
    + intros r a Hr Ea. by apply (Hpage r a Hr).
  - intros p n. rewrite (Hb p n). apply Morphisms_Prop.or_iff_morphism; [done|]. split; intros (a & k & Ha & Hn & Hr & -> & ->); exists a, k.
    + destruct (proj2 (Hsame a k) (conj Ha Hr)). done.
    + destruct (proj1 (Hsame a k) (conj Ha Hr)). done.
Qed.

(** [allocpageref]: a reference that was not in use, none, or the loss of the last
    reference of a page that is not there. *)
Definition worn (h : kheap) : Prop := exists w rt, kheaproots h !! w = Some rt /\ page rt = 0 /\ numinuse rt = 256.

Lemma heap_allocpageref live L F h A : parts live L F h -> blocks_are live L F h A ->
  exists r live' R' p', allocpageref h = Done r (put_heap R' p' h) /\ pages_ok live' p' /\
    (r = 0 /\ live' = live /\ worn (put_heap R' p' h) \/
     (parts live' L F (put_heap R' p' h) /\ blocks_are live' L F (put_heap R' p' h) A /\ same_pages live live' (kheaproots h) R' /\
      (r = 0 /\ live' = live \/ r <> 0 /\ (r ∉ L) /\ ref_at R' r))).
Proof.
  intros Hp Hb. destruct (allocpageref_ok live h (pa_pages _ _ _ _ Hp) (pa_roots _ _ _ _ Hp)) as (r & live' & R' & p' & E & Hpg & Hr).
  exists r, live', R', p'. split; [done|]. split; [done|]. pose proof (pa_ref _ _ _ _ Hp) as HL.
  assert (Hold : (forall b, root_page R' b <-> root_page (kheaproots h) b) -> same_pages live live (kheaproots h) R') by (intros Hrp b k; by rewrite Hrp).
  destruct Hr as [r R' Hr0 Hok Hnew Hin Hmono Hrp|a r R' Hr0 Ha Hok Hnew Hin Hmono Hrp|R' Hok Hmono Hrp|w rt R' Hw Hpw Hn].
  - right. destruct (parts_roots live live L F h A R' p' Hp Hb Hpg Hok) as [? ?]; [by auto|by apply Hold|].
    split; [done|]. split; [done|]. split; [by apply Hold|]. right. split; [done|]. split; [|done]. intros Hr%HL. done.
  - right. assert (Hs : same_pages live (<[a := 1]> live) (kheaproots h) R').
    { intros b k. rewrite Hrp, lookup_insert_Some. destruct (decide (a = b)) as [<-|]; naive_solver congruence. }
    destruct (parts_roots live (<[a := 1]> live) L F h A R' p' Hp Hb Hpg Hok) as [? ?]; [by auto|done|].
    split; [done|]. split; [done|]. split; [done|]. right. split; [done|]. split; [|done]. intros Hr%HL. done.
  - right. destruct (parts_roots live live L F h A R' p' Hp Hb Hpg Hok) as [? ?]; [by auto|by apply Hold|].
    split; [done|]. split; [done|]. split; [by apply Hold|]. by left.
  - left. split; [done|]. split; [done|]. by exists w, rt.
Qed.

Lemma heap_freepageref live L F h A r : parts live L F h -> blocks_are live L F h A -> ref_at (kheaproots h) r -> r ∉ L ->
  exists R', freepageref r h = Done tt (put_heap R' (hpages h) h) /\ parts live L F (put_heap R' (hpages h) h) /\
    blocks_are live L F (put_heap R' (hpages h) h) A /\ forall b, root_page R' b <-> root_page (kheaproots h) b.
Proof.
  intros Hp Hb Hr HrL. destruct (freepageref_ok live h r (pa_pages _ _ _ _ Hp) (pa_roots _ _ _ _ Hp) Hr) as (R' & E & [Hok _ Hoth Hrp]).
  exists R'. split; [done|]. destruct (parts_roots live live L F h A R' (hpages h)) as [? ?]; try done.
  - apply Hp.
  - intros x Hx. apply Hoth; [by apply (pa_ref _ _ _ _ Hp)|]. intros ->. done.
  - intros b k. by rewrite Hrp.
Qed.

(** ** The searches *)

Lemma chain_nonzero next a l x : chain next a l -> x ∈ l -> x <> 0.
Proof. revert a. induction l as [|y l IH]; intros a; cbn; [by intros _ ?%elem_of_nil|]. intros (_ & ? & Hc) [->|Hx]%elem_of_cons; [done|by eapply IH]. Qed.

Lemma find_page_ok live L F h t : parts live L F h -> forall l fuel a, chain (fun x => next_samesize (prs h x)) a l -> (length l < fuel)%nat ->
  (forall x, x ∈ l -> (x ∈ L) /\ btype h x = t) ->
  exists r, find_page fuel a t h = Done r h /\ (r = 0 \/ r <> 0 /\ (r ∈ L) /\ btype h r = t /\ exists f l', F r = f :: l').
Proof.
  intros Hp. induction l as [|x l IH]; intros [|fuel] a Hc Hf Hl; cbn [length] in Hf; try lia; cbn [find_page chain] in *.
  - subst a. exists 0. by auto.
  - destruct Hc as (-> & Hx & Hc). rewrite (proj2 (Z.eqb_neq _ _)) by done. unfold get_pr. kunfold. destruct (Hl x ltac:(left)) as [HxL Et].
    fold (btype h x). rewrite Et, Z.eqb_refl. unfold kret. rewrite (po_nfree _ _ _ _ (pa_page _ _ _ _ Hp x HxL)). destruct (F x) as [|f l'] eqn:EF.
    + cbn. apply IH; [done|lia|]. intros y Hy. apply Hl. by right.
    + rewrite (proj2 (Z.ltb_lt _ _)) by (cbn [length]; lia). exists x. split; [done|]. right. by eauto 6.
Qed.

Lemma find_holder_ok live L F h p : parts live L F h -> forall l fuel a, chain (fun x => next_all (prs h x)) a l -> (length l < fuel)%nat ->
  (forall x, x ∈ l -> x ∈ L) ->
  exists r, find_holder fuel a p h = Done r h /\
    (r = 0 /\ (forall x, x ∈ l -> p < pbase h x \/ pbase h x + PAGE_SIZE <= p) \/ r <> 0 /\ (r ∈ l) /\ pbase h r <= p < pbase h r + PAGE_SIZE).
Proof.
  intros Hp. induction l as [|x l IH]; intros [|fuel] a Hc Hf Hl; cbn [length] in Hf; try lia; cbn [find_holder chain] in *.
  - subst a. exists 0. split; [done|]. left. split; [done|]. by intros ? ?%elem_of_nil.
  - destruct Hc as (-> & Hx & Hc). rewrite (proj2 (Z.eqb_neq _ _)) by done. unfold get_pr. kunfold. assert (HxL : x ∈ L) by (apply Hl; left).
    fold (btype h x) (pbase h x). pose proof (parts_type _ _ _ _ x Hp HxL) as Ht. rewrite (proj2 (Z.leb_le _ _)), (proj2 (Z.ltb_lt _ _)) by lia. cbn [andb]. unfold kret.
    destruct (parts_base _ _ _ _ x Hp HxL) as (c & Ec & Hlc). destruct (pages_range _ _ _ _ (pa_pages _ _ _ _ Hp) Hlc) as (? & _ & ?).
    assert (Eu : u32 (pbase h x + PAGE_SIZE) = pbase h x + PAGE_SIZE) by (rewrite Ec; apply wrapu_small; unfold paddr, MIPS_KSEG0, PAGE_SIZE; lia).
    rewrite Eu. destruct (Z.leb_spec (pbase h x) p), (Z.ltb_spec p (pbase h x + PAGE_SIZE)); cbn [andb].
    1: exists x; split; [done|]; right; split; [done|]; split; [left|lia].
    all: destruct (IH fuel _ Hc ltac:(lia)) as (r & E & Hr); [intros y Hy; apply Hl; by right|]; exists r; split; [done|];
      destruct Hr as [[-> Hr]|(? & ? & ?)]; [left; split; [done|]; intros y [->|Hy]%elem_of_cons; [lia|by apply Hr]|right; split; [done|]; split; [by right|done]].
Qed.

(** ** [kfree] *)

(** The contents of the blocks in [A] are the same. *)
Definition contents_kept (A : gmap Z Z) (h h' : kheap) : Prop :=
  forall q n x, A !! q = Some n -> q <= x < q + n -> hmem h' x = hmem h x.

Lemma in_page h r p a : pbase h r = paddr a -> pbase h r <= p < pbase h r + PAGE_SIZE -> forall r' b, pbase h r' = paddr b ->
  pbase h r' <= p < pbase h r' + PAGE_SIZE -> pbase h r = pbase h r'.
Proof. intros -> Hp r' b -> Hp'. f_equal. by eapply paddr_sep. Qed.

(** The blocks of one page are all free: the page goes back. *)
Lemma release_page live L F h A r : parts live L F h -> blocks_are live L F h A -> r ∈ L ->
  (forall p, block_of (pbase h r) (btype h r) p -> p ∈ F r) ->
  exists h', kbind (remove_lists r (btype h r)) (fun _ => kbind (freepageref r) (fun _ => on_pages (pages_free (pbase h r)))) h = Done tt h' /\
    heap_ok A h' /\ hmem h' = hmem h.
Proof.
  intros Hp Hb HrL Hall. destruct (parts_base _ _ _ _ r Hp HrL) as (a & Ea & Hla). destruct (list_elem_of_split _ _ HrL) as (L1 & L2 & ->).
  destruct (remove_lists_ok live L1 r L2 F h Hp) as (h1 & E1 & Hr1 & Hp1).
  destruct (disown_blocks live L1 r L2 F h h1 A a Hp Hb Hall Ea Hr1) as [HA Hb1].
  assert (HrL' : r ∉ L1 ++ L2).
  { pose proof (pa_nodup _ _ _ _ Hp) as (_ & Hd & [? _]%NoDup_cons)%NoDup_app. intros [Hx|Hx]%elem_of_app; [apply (Hd r Hx); left|done]. }
  destruct (heap_freepageref live _ F h1 _ r Hp1 Hb1) as (R' & E2 & Hp2 & Hb2 & Hrp); [rewrite (rl_roots _ _ Hr1); by apply (pa_ref _ _ _ _ Hp)|done|].
  destruct (pages_free_ok live (hpages h1) a 1 (pa_pages _ _ _ _ Hp1) Hla) as (p' & E3 & Hpg).
  destruct (big_free live _ F _ _ a 1 p' Hp2 Hb2 Hla) as [Hp3 Hb3]; [| |done|].
  - intros x Hx Ex. change (pbase h1 x = paddr a) in Ex. rewrite (relinked_base _ _ _ Hr1) in Ex. apply HrL'. replace r with x; [done|].
    apply (pa_inj _ _ _ _ Hp); [|done|congruence]. apply elem_of_app in Hx as [?|?]; apply elem_of_app; [by left|right; by right].
  - cbn. rewrite Hrp, (rl_roots _ _ Hr1). by apply (pa_root _ _ _ _ Hp r).
  - eexists. split; [unfold kbind; rewrite E1, E2; unfold on_pages; cbn [hpages put_heap set_hpages]; rewrite Ea; unfold paddr at 1; rewrite E3; done|].
    split; [|by cbn; rewrite (rl_mem _ _ Hr1)]. exists (delete a live), (L1 ++ L2), F. split; [done|]. by rewrite delete_insert_id in Hb3.
Qed.

Lemma kfree_ok A h p n : heap_ok A h -> A !! p = Some n ->
  exists h', kfree p h = Done tt h' /\ heap_ok (delete p A) h' /\ contents_kept (delete p A) h h'.
Proof.
  intros Hh HA. pose proof Hh as (live & L & F & Hp & Hb). pose proof (proj1 (Hb p n) HA) as Hblk.
  destruct (block_span _ _ _ _ _ _ Hp Hblk) as (a0 & k0 & Ha0 & Hp0 & _). destruct (pages_range _ _ _ _ (pa_pages _ _ _ _ Hp) Ha0) as (? & ? & ?).
  assert (Hpz : p <> 0) by (unfold paddr, MIPS_KSEG0, PAGE_SIZE in *; lia). unfold kfree, subpage_kfree. rewrite (proj2 (Z.eqb_neq _ _)) by done. kunfold.
  destruct (find_holder_ok live L F h p Hp L LISTFUEL (allbase h) (pa_all _ _ _ _ Hp) (list_fuel _ _ _ _ Hp)) as (r & -> & Hr); [done|].
  destruct Hblk as [(x & Hx & Hbx & Hnx & ->)|(a & k & Hla & Hna & Hra & -> & ->)].
  - pose proof (parts_type _ _ _ _ x Hp Hx) as Ht. destruct (block_range _ _ _ Ht Hbx) as [? ?], (block_size _ Ht) as (? & _).
    destruct Hr as [[-> Hr]|(Hr0 & HrL & Hpr)]; [destruct (Hr x Hx); lia|].
    assert (r = x) as ->.
    { apply (pa_inj _ _ _ _ Hp); [done|done|]. destruct (parts_base _ _ _ _ r Hp HrL) as (b & Eb & _), (parts_base _ _ _ _ x Hp Hx) as (c & Ec & _).
      apply (in_page h r p b Eb Hpr x c Ec). lia. }
    rewrite (proj2 (Z.eqb_neq _ _)) by done. destruct (free_block_ok live L F h A x p Hp Hb Hx Hbx Hnx) as (q & m & Ef & Hq & Hp1 & Hb1 & Hm).
    unfold get_pr. kunfold. rewrite Ef. fold (btype h x) (pbase h x). set (h1 := put_page x q m h) in *.
    assert (Hkept : contents_kept (delete p A) h h1).
    { intros y j z [Hne Hy]%lookup_delete_Some Hz. apply Hm. destruct (blocks_disjoint A h p _ y j Hh HA Hy Hne); lia. }
    destruct (Z.eqb_spec (Z.of_nat (length (p :: F x))) (nblocks (btype h x))) as [Efull|Hroom].
    + destruct (release_page live L _ h1 _ x Hp1 Hb1 Hx) as (h2 & E2 & Hh2 & Hm2).
      { intros y Hy. apply (page_all_free live (hmem h1) (prs h1 x)); [by apply Hp1| |done]. rewrite at_put_eq. change (PR_BLOCKTYPE (prs h1 x)) with (btype h1 x).
        unfold h1. by rewrite put_type. }
      unfold h1 in E2. rewrite put_type, put_base in E2 by done. fold h1 in E2. unfold kbind in E2. rewrite E2. cbn [negb]. exists h2. split; [done|]. split; [done|].
      intros y j z Hy Hz. rewrite Hm2. by eapply Hkept.
    + unfold kret. cbn [negb]. exists h1. split; [done|]. split; [|done]. by exists live, L, (at_put x (p :: F x) F).
  - destruct Hr as [[-> Hr]|(Hr0 & HrL & Hpr)].
    2:{ destruct (parts_base _ _ _ _ r Hp HrL) as (b & Eb & _). destruct (Hna r HrL). rewrite Eb in *. f_equal. unfold paddr, PAGE_SIZE in *. lia. }
    cbn [Z.eqb negb]. unfold kret. cbn [negb]. assert (Em : (paddr a mod PAGE_SIZE =? 0) = true).
    { apply Z.eqb_eq. unfold paddr, MIPS_KSEG0, PAGE_SIZE. Z.div_mod_to_equations. lia. }
    rewrite Em. unfold kret, on_pages. destruct (pages_free_ok live (hpages h) a k (pa_pages _ _ _ _ Hp) Hla) as (p' & E & Hpg). unfold paddr at 1. rewrite E.
    destruct (big_free live L F h A a k p' Hp Hb Hla Hna Hra Hpg) as [Hp' Hb']. eexists. split; [done|]. split; [by exists (delete a live), L, F|done].
Qed.

(** ** [kmalloc] *)

Lemma blocktype_ok sz h : sz < LARGEST_SUBPAGE_SIZE -> exists t, blocktype sz h = Done t h /\ 0 <= t < NSIZES /\ sz <= bsize t.
Proof.
  unfold LARGEST_SUBPAGE_SIZE, NSIZES. intros Hsz. unfold blocktype, sizes. cbn [blocktype_loop].
  repeat match goal with
  | |- context [match (if sz <=? ?c then _ else _) with Some _ => _ | None => _ end] =>
      destruct (Z.leb_spec sz c) as [Hle|?]; [eexists; split; [done|]; split; [lia|apply Hle]|]
  end. lia.
Qed.

(** [p] is a new block of at least [sz] bytes. *)
Definition new_block (A : gmap Z Z) (sz : Z) (h : kheap) (p : Z) (h' : kheap) : Prop :=
  exists n, p <> 0 /\ p mod 16 = 0 /\ sz <= n /\ A !! p = None /\ heap_ok (<[p := n]> A) h' /\ contents_kept A h h'.

(** The outcome of an allocation. *)
Inductive allocated (A : gmap Z Z) (sz : Z) (h : kheap) : Z -> kheap -> Prop :=
| alloc_none h' : heap_ok A h' \/ worn h' -> hmem h' = hmem h -> allocated A sz h 0 h'
| alloc_some p h' : new_block A sz h p h' -> allocated A sz h p h'.

Lemma block_aligned a t p : 0 <= t < NSIZES -> block_of (paddr a) t p -> p mod 16 = 0.
Proof.
  intros Ht (k & _ & ->). destruct (block_size t Ht) as (_ & Hs & _). apply Z.mod_divide in Hs as [c ->]; [|done].
  replace (paddr a + k * (c * 16)) with ((2 ^ 27 + a * 256 + k * c) * 16) by (unfold paddr, MIPS_KSEG0, PAGE_SIZE; lia). by rewrite Z.mod_mul.
Qed.

Lemma take_ok live L F h A sz r t f l : parts live L F h -> blocks_are live L F h A -> r ∈ L -> btype h r = t -> sz <= bsize t -> F r = f :: l ->
  exists p h', doalloc r h = Done p h' /\ new_block A sz h p h'.
Proof.
  intros Hp Hb Hr <- Hsz Ef. destruct (doalloc_ok live L F h A r f l Hp Hb Hr Ef) as (q & E & Hp' & Hb' & HA & Hf). eexists _, _. split; [done|].
  destruct (parts_base _ _ _ _ r Hp Hr) as (a & Ea & Ha), (pages_range _ _ a 1 (pa_pages _ _ _ _ Hp)) as (? & _ & _); [done|].
  pose proof (parts_type _ _ _ _ r Hp Hr) as Ht. pose proof (block_range _ _ _ Ht Hf) as [? _].
  exists (bsize (btype h r)). split_and!; try done.
  - rewrite Ea in *. unfold paddr, MIPS_KSEG0, PAGE_SIZE in *. lia.
  - rewrite Ea in Hf. by eapply block_aligned.
  - by exists live, L, (at_put r l F).
Qed.

Lemma parts_pages live L F h A p' : parts live L F h -> blocks_are live L F h A -> pages_ok live p' ->
  parts live L F (set_hpages p' h) /\ blocks_are live L F (set_hpages p' h) A.
Proof. intros [P1 P2 P3 P4 P5 P6 P7 P8 P9 P10] Hb Hpg. by split. Qed.

(** A new page for blocks of type [t]. *)
Lemma new_page_ok live L F h A sz t : parts live L F h -> blocks_are live L F h A -> 0 <= t < NSIZES -> sz <= bsize t ->
  exists p h', (prpage <- on_pages (pages_alloc 1) ;;
                if prpage =? 0 then kret 0 else
                kassert (prpage mod PAGE_SIZE =? 0) ;;;
                pr <- allocpageref ;;
                if pr =? 0 then on_pages (pages_free prpage) ;;; kret 0
                else setup_page pr prpage t ;;; doalloc pr) h = Done p h' /\ allocated A sz h p h'.
Proof.
  intros Hp Hb Ht Hsz. kunfold. unfold on_pages at 1.
  destruct (pages_alloc_ok live (hpages h) 1 (pa_pages _ _ _ _ Hp)) as [(p' & -> & Hpg)|(a & p' & -> & Ha & Hpg)]; [lia| |].
  { cbn [Z.eqb]. eexists 0, _. split; [done|]. apply alloc_none; [|done]. left. destruct (parts_pages _ _ _ _ _ _ Hp Hb Hpg). by exists live, L, F. }
  destruct (pages_range _ _ a 1 Hpg (lookup_insert_eq _ _ _)) as (Ha0 & _ & Ha1). fold (paddr a).
  rewrite (proj2 (Z.eqb_neq _ _)) by (unfold paddr, MIPS_KSEG0, PAGE_SIZE; lia). assert (Em : (paddr a mod PAGE_SIZE =? 0) = true).
  { apply Z.eqb_eq. unfold paddr, MIPS_KSEG0, PAGE_SIZE. Z.div_mod_to_equations. lia. }
  rewrite Em. unfold kret. destruct (big_alloc live L F h A a 1 p' Hp Hb Ha Hpg) as (HA & Hp1 & Hb1). set (h1 := set_hpages p' h) in *. rewrite Z.mul_1_l in Hb1.
  assert (Hroot : ~ root_page (kheaproots h) a) by (intros Hr%(root_page_live live); [congruence|apply Hp]).
  assert (HLa : forall x, x ∈ L -> pbase h x <> paddr a).
  { intros x Hx E. destruct (parts_base _ _ _ _ x Hp Hx) as (b & Eb & Hlb). rewrite E in Eb. apply paddr_inj in Eb as <-. congruence. }
  destruct (heap_allocpageref _ L F h1 _ Hp1 Hb1) as (r & live2 & R & p2 & -> & Hpg2 & Hcase). set (h2 := put_heap R p2 h1) in *.
  destruct Hcase as [(-> & -> & Hworn)|(Hp2 & Hb2 & Hsame & [[-> ->]|(Hr0 & HrL & Href)])].
  - cbn [Z.eqb]. unfold on_pages. destruct (pages_free_ok _ _ a 1 Hpg2 (lookup_insert_eq _ _ _)) as (p3 & E3 & _). change (hpages h2) with p2.
    unfold paddr. rewrite E3. eexists 0, _. split; [done|]. apply alloc_none; [by right|done].
  - cbn [Z.eqb]. unfold on_pages. destruct (pages_free_ok _ _ a 1 Hpg2 (lookup_insert_eq _ _ _)) as (p3 & E3 & Hpg3). change (hpages h2) with p2.
    unfold paddr at 1. rewrite E3. eexists 0, _. split; [done|]. apply alloc_none; [left|done].
    destruct (big_free _ L F h2 _ a 1 p3 Hp2 Hb2 (lookup_insert_eq _ _ _)) as [Hp3 Hb3]; [done| |done|].
    + apply (Hsame a 1). split; [apply lookup_insert_eq|done].
    + rewrite (delete_insert_id A) in Hb3 by done. eexists _, L, F. by split.
  - rewrite (proj2 (Z.eqb_neq _ _)) by done. destruct (proj2 (Hsame a 1) (conj (lookup_insert_eq _ _ _) Hroot)) as [Hla2 Hroot2].
    destruct (adopt_ok live2 L F h2 _ a t r Hp2 Hb2 Hla2) as (h3 & f & l & E3 & Hp3 & Hb3 & Et3 & Hm3); [done..|]. rewrite E3.
    rewrite (delete_insert_id A) in Hb3 by done.
    destruct (take_ok _ _ _ h3 A sz r t f l Hp3 Hb3) as (p & h4 & E4 & Halloc); [left|done|done|by rewrite at_put_eq|].
    exists p, h4. split; [done|]. assert (Hkept : contents_kept A h h3).
    { intros q n x Hq Hx. rewrite Hm3; [done|]. assert (paddr a <> q) by congruence.
      destruct (blocks_disjoint (<[paddr a := PAGE_SIZE]> A) h1 (paddr a) PAGE_SIZE q n); [by exists (<[a := 1]> live), L, F|apply lookup_insert_eq|by rewrite lookup_insert_ne|done|lia|lia]. }
    apply alloc_some. destruct Halloc as (n & ? & ? & ? & ? & ? & Hk4). exists n. split_and!; try done. intros q j x Hq Hx. rewrite (Hk4 q j x Hq Hx). by eapply Hkept.
Qed.

Lemma kmalloc_ok A h sz : heap_ok A h -> 0 <= sz <= 2 ^ 31 -> exists p h', kmalloc sz h = Done p h' /\ allocated A sz h p h'.
Proof.
  intros Hh Hsz. pose proof Hh as (live & L & F & Hp & Hb). unfold kmalloc. destruct (Z.leb_spec LARGEST_SUBPAGE_SIZE sz) as [Hbig|Hsmall].
  - rewrite wrapu_small by (unfold PAGE_SIZE; lia). set (n := (sz + PAGE_SIZE - 1) / PAGE_SIZE).
    assert (Hn : 0 < n <= 2 ^ 19 /\ sz <= n * PAGE_SIZE) by (unfold n, LARGEST_SUBPAGE_SIZE, PAGE_SIZE in *; Z.div_mod_to_equations; lia).
    kunfold. unfold on_pages. destruct (pages_alloc_ok live (hpages h) n (pa_pages _ _ _ _ Hp)) as [(p' & -> & Hpg)|(a & p' & -> & Ha & Hpg)]; [lia| |].
    + cbn [Z.eqb]. eexists 0, _. split; [done|]. apply alloc_none; [|done]. left. destruct (parts_pages _ _ _ _ _ _ Hp Hb Hpg). by exists live, L, F.
    + destruct (pages_range _ _ a n Hpg (lookup_insert_eq _ _ _)) as (Ha0 & _ & Ha1). fold (paddr a).
      rewrite (proj2 (Z.eqb_neq _ _)) by (unfold paddr, MIPS_KSEG0, PAGE_SIZE; lia). assert (Em : (paddr a mod PAGE_SIZE =? 0) = true).
      { apply Z.eqb_eq. unfold paddr, MIPS_KSEG0, PAGE_SIZE. Z.div_mod_to_equations. lia. }
      rewrite Em. destruct (big_alloc live L F h A a n p' Hp Hb Ha Hpg) as (HA & Hp1 & Hb1). eexists _, _. split; [done|]. apply alloc_some. exists (n * PAGE_SIZE).
      split_and!; try done; [unfold paddr, MIPS_KSEG0, PAGE_SIZE; lia|unfold paddr, MIPS_KSEG0, PAGE_SIZE; Z.div_mod_to_equations; lia|lia|].
      by exists (<[a := n]> live), L, F.
  - unfold subpage_kmalloc. destruct (blocktype_ok sz h Hsmall) as (t & E & Ht & Hst). unfold kbind at 1. rewrite E. unfold kbind at 1. unfold kget. unfold kbind at 1.
    destruct (find_page_ok live L F h t Hp _ LISTFUEL _ (pa_same _ _ _ _ Hp t Ht)) as (r & -> & Hr).
    { pose proof (list_fuel _ _ _ _ Hp). pose proof (length_filter (fun x => btype h x = t) L). lia. }
    { intros x [? ?]%list_elem_of_filter. done. }
    destruct Hr as [->|(Hr0 & HrL & Et & f & l & Ef)].
    + cbn [Z.eqb negb]. by apply (new_page_ok live L F).
    + rewrite (proj2 (Z.eqb_neq _ _)) by done. cbn [negb]. destruct (take_ok live L F h A sz r t f l Hp Hb HrL Et Hst Ef) as (p & h' & ? & ?).
      exists p, h'. split; [done|]. by apply alloc_some.
Qed.

(** ** The first heap *)

(** The roots as the kernel starts: nothing is in use. *)
Definition boot_heap (p : pages) : kheap :=
  mkheap _ (replicate 16 (mkroot 0 (replicate 8 0) 0)) (fun _ => mkpr 0 0 0 0 0) (replicate 8 0) 0 (fun _ => 0) p.

(** The runs of pages that are allocated, as blocks. *)
Definition run_blocks (live : gmap Z Z) : gmap Z Z := kmap paddr ((fun k => k * PAGE_SIZE) <$> live).

#[local] Instance paddr_injective : Inj (=) (=) paddr.
Proof. intros a b. apply paddr_inj. Qed.

Lemma boot_root w rt : replicate 16 (mkroot 0 (replicate 8 0) 0) !! w = Some rt -> rt = mkroot 0 (replicate 8 0) 0.
Proof. intros [-> _]%lookup_replicate. done. Qed.

Lemma boot_roots_ok live : roots_ok live (replicate 16 (mkroot 0 (replicate 8 0) 0)).
Proof.
  split.
  - done.
  - intros w rt ->%boot_root. split; [done|by apply Forall_replicate|vm_compute; done].
  - intros w rt ->%boot_root. done.
  - intros w w' rt rt' ->%boot_root. done.
  - exists 0%nat. split; [lia|]. split; [intros w rt ->%boot_root; cbn; split; [done|lia]|].
    split; [intros w rt ->%boot_root|intros rt ->%boot_root]; done.
Qed.

Lemma boot_heap_ok live p : pages_ok live p -> heap_ok (run_blocks live) (boot_heap p).
Proof.
  intros Hp. exists live, [], (fun _ => []). split.
  - split; try done; try (by intros ? ?%elem_of_nil); try (by intros ? ? ?%elem_of_nil).
    + apply boot_roots_ok.
    + constructor.
    + intros t Ht. unfold NSIZES in Ht. cbn [filter list_filter chain]. unfold size_base. cbn [sizebases boot_heap].
      apply lookup_total_replicate_2. lia.
  - intros q n. unfold run_blocks. rewrite lookup_kmap_Some by apply _. split.
    + intros (a & -> & (k & <- & Ha)%lookup_fmap_Some). right. exists a, k. split; [done|]. split; [by intros ? ?%elem_of_nil|]. split; [|done].
      intros (w & rt & ->%boot_root & ? & _). done.
    + intros [(r & []%elem_of_nil & _)|(a & k & Ha & _ & _ & -> & ->)]. exists a. split; [done|]. rewrite lookup_fmap, Ha. done.
Qed.

End Spec.

(** ** The theorems *)

(** C22. [kmalloc] on a well-formed heap, for any size up to 2 GB: it fails, and then no
    block in use changes; or it returns a block of at least that size, aligned to 16
    bytes, that overlaps no block in use, and the contents of those are kept. It never
    panics. (A failure to allocate a page for page references may wear out their root:
    the heap is then not well formed.) *)
Theorem kmalloc_spec `{Pages} A h sz : heap_ok A h -> 0 <= sz <= 2 ^ 31 ->
  exists p h', kmalloc sz h = Done p h' /\
    ((p = 0 /\ (heap_ok A h' \/ worn h') /\ hmem h' = hmem h) \/
     (p <> 0 /\ p mod 16 = 0 /\ exists n, sz <= n /\ heap_ok (<[p := n]> A) h' /\ contents_kept A h h' /\
        forall q m, A !! q = Some m -> p + n <= q \/ q + m <= p)).
Proof.
  intros Hh Hsz. destruct (kmalloc_ok A h sz Hh Hsz) as (p & h' & E & Ha). exists p, h'. split; [done|].
  destruct Ha as [h' ? ?|p h' (n & ? & ? & ? & HA & Hh' & ?)]; [by left|right]. split; [done|]. split; [done|]. exists n. split_and!; try done.
  intros q m Hq. apply (blocks_disjoint (<[p := n]> A) h'); [done|apply lookup_insert_eq| |]; [rewrite lookup_insert_ne; [done|]|]; congruence.
Qed.

(** C23. [kfree] of a block in use ends, gives back that block and no other, and keeps
    the contents of the others. *)
Theorem kfree_spec `{Pages} A h p n : heap_ok A h -> A !! p = Some n ->
  exists h', kfree p h = Done tt h' /\ heap_ok (delete p A) h' /\ contents_kept (delete p A) h h'.
Proof. apply kfree_ok. Qed.

(** A block that [kmalloc] returned can be given to [kfree], and the blocks in use
    are then what they were before, with their contents. *)
Theorem kmalloc_kfree `{Pages} A h sz p h' : heap_ok A h -> 0 <= sz <= 2 ^ 31 -> kmalloc sz h = Done p h' -> p <> 0 ->
  exists h'', kfree p h' = Done tt h'' /\ heap_ok A h'' /\ contents_kept A h h''.
Proof.
  intros Hh Hsz E Hp. destruct (kmalloc_ok A h sz Hh Hsz) as (p1 & h1 & E1 & Ha). rewrite E in E1. injection E1 as <- <-.
  destruct Ha as [|p h' (n & _ & _ & _ & HA & Hh' & Hk)]; [done|]. destruct (kfree_ok _ h' p n Hh' (lookup_insert_eq _ _ _)) as (h2 & E2 & Hh2 & Hk2).
  rewrite delete_insert_id in * by done. exists h2. split; [done|]. split; [done|]. intros q m x Hq Hx. rewrite (Hk2 q m x Hq Hx). by eapply Hk.
Qed.

(** *** On a machine with a few pages *)

Definition demo_heap : kheap := boot_heap demo_vm.

Lemma demo_heap_ok : heap_ok (run_blocks demo_live) demo_heap.
Proof. apply boot_heap_ok. exact demo_vm_ok. Qed.

Definition the_block (o : outcome kheap Z) : Z := match o with Done p _ => p | _ => 0 end.

(** The last block of page 12, cut into blocks of 128 bytes. *)
Example demo_kmalloc : the_block (kmalloc 100 demo_heap) = paddr 12 + 31 * 128.
Proof. vm_compute. reflexivity. Qed.

Lemma kmalloc_spec_witness :
  exists p n h', kmalloc 100 demo_heap = Done p h' /\ 100 <= n /\ heap_ok (<[p := n]> (run_blocks demo_live)) h'.
Proof.
  destruct (kmalloc_spec (run_blocks demo_live) demo_heap 100 demo_heap_ok ltac:(lia)) as (p & h' & E & [(-> & _)|(_ & _ & n & Hn & Hh & _)]).
  - exfalso. pose proof demo_kmalloc as D. rewrite E in D. discriminate D.
  - exists p, n, h'. exact (conj E (conj Hn Hh)).
Defined.

Lemma kfree_spec_witness : exists h', kfree (paddr 31) demo_heap = Done tt h' /\ heap_ok (delete (paddr 31) (run_blocks demo_live)) h'.
Proof.
  destruct (kfree_spec (run_blocks demo_live) demo_heap (paddr 31) (2 * PAGE_SIZE) demo_heap_ok eq_refl) as (h' & E & Hh & _).
  exists h'. exact (conj E Hh).
Defined.

Lemma kmalloc_kfree_witness :
  exists p h' h'', kmalloc 100 demo_heap = Done p h' /\ kfree p h' = Done tt h'' /\ heap_ok (run_blocks demo_live) h''.
Proof.
  pose proof demo_kmalloc as D. destruct (kmalloc 100 demo_heap) as [p h'|e h'|x] eqn:E; [|discriminate D|discriminate D]. cbn in D.
  destruct (kmalloc_kfree (run_blocks demo_live) demo_heap 100 p h' demo_heap_ok ltac:(lia) E ltac:(rewrite D; discriminate)) as (h'' & E' & Hh & _).
  exists p, h', h''. exact (conj eq_refl (conj E' Hh)).
Defined.

(** *** References that are lost *)

(** A machine without free pages, and its heap after [n] attempts to get a reference. *)
Definition full_vm : vmstate := mkvm (replicate 128 0) (replicate 128 0) true (128 * 4096) (128 * 4096) (fun _ => 0) (replicate 64 (0, 0)).
Definition try_ref (h : kheap) : kheap := match allocpageref h with Done _ h' => h' | _ => h end.

Definition panics {A} (o : outcome kheap A) : bool := match o with Halt KAssert => true | _ => false end.

(** [allocpageref] marks a reference as used before it has the page of the root, and
    leaves the mark when there is no page. After 256 failures the first root counts 256
    references in use and has no page; [allocpageref] then goes on to the next root, and
    giving that reference back fails the assertion that a root without a page has no
    references in use (kern/vm/kmalloc.c:318). *)
Example lost_references_panic :
  let h := set_hpages demo_vm (Nat.iter 256 try_ref (boot_heap full_vm)) in
  (kheaproots h !! 0%nat, match allocpageref h with Done r h' => (negb (r =? 0), panics (freepageref r h')) | _ => (false, false) end)
  = (Some (mkroot 0 (replicate 8 4294967295) 256), (true, true)).
Proof. vm_compute. reflexivity. Qed.
