(* ===== verification/Synch.v ===== *)
(** * Spinlocks, locks and condition variables, kern/thread/synch.c

    Any number of threads run the operations of synch.c on one lock with one
    condition variable ([Module Lock]); Semaphore.v does the same for semaphores. A
    thread's program counter says which statement of which operation it executes
    next; one step of one thread is one statement, so every interleaving the
    spinlocks allow is a run of the machine. A thread that waits for a spinlock
    spins ([Spin]); a failed [KASSERT] is [Crash]. Wait channels are the lists of
    threads asleep on them (kern/thread/thread.c). A thread holding a spinlock
    cannot be preempted, so the processor that holds a spinlock is named by the
    thread running on it. *)

From stdpp Require Import base numbers list relations.
From Stdlib Require Import ZArith Lia.
From S2P Require Import Prelude.

(** ** Spinlocks and wait channels *)

Inductive res (S : Type) :=
| Next (s : S)
| Spin
| Stop            (* the thread is outside an operation, or asleep *)
| Crash (h : halt).
Arguments Next {S} s.
Arguments Spin {S}.
Arguments Stop {S}.
Arguments Crash {S} h.

(** kern/thread/spinlock.c:75-122 (spinlock_acquire): [holder] is the lock's holder,
    [k] what follows. *)
Definition spinlock_acquire {S} (holder : option nat) (t : nat) (k : S) : res S :=
  match holder with
  | Some u => if decide (u = t) then Crash PanicCall else Spin
  | None => Next k
  end.

(** kern/thread/spinlock.c:127-142 (spinlock_release). *)
Definition spinlock_release {S} (holder : option nat) (t : nat) (k : S) : res S :=
  if decide (holder = Some t) then Next k else Crash KAssert.

(** kern/thread/spinlock.c:147-156 (spinlock_do_i_hold). *)
Definition spinlock_do_i_hold (holder : option nat) (t : nat) : bool := bool_decide (holder = Some t).

(** kern/thread/thread.c:1005-1019 (wchan_sleep): the checks; [n] is the number of
    spinlocks the thread holds. The new sleeper goes to the end of the channel
    ([thread_switch]); the spinlock is released with it and taken again when the
    thread wakes up. *)
Definition wchan_sleep {S} (holder : option nat) (n : nat) (t : nat) (k : S) : res S :=
  if spinlock_do_i_hold holder t then
    if decide (n = 1)%nat then Next k else Crash KAssert
  else Crash KAssert.

(** ** Ownership of one-holder resources and membership of queues

    [owned x h l]: the resource's holder [x] is the thread whose program counter
    satisfies [h], if there is one. [queued q h l]: the queue holds, once each, the
    threads whose program counter satisfies [h]. *)

Section Tracking.
Context {pc : Type}.
Implicit Types (l : list pc) (h : pc -> bool) (q : list nat).

Definition owned (x : option nat) h l : Prop :=
  forall u, x = Some u <-> exists p, l !! u = Some p /\ h p = true.

Definition queued q h l : Prop :=
  NoDup q /\ forall u, u ∈ q <-> exists p, l !! u = Some p /\ h p = true.

(** The holder, if any, is the thread [t] that moves. *)
Lemma at_insert l t p p' h u :
  l !! t = Some p ->
  (exists r, <[t := p']> l !! u = Some r /\ h r = true) <->
  (if decide (u = t) then h p' = true else exists r, l !! u = Some r /\ h r = true).
Proof.
  intros Ht. case_decide; subst.
  - rewrite list_lookup_insert_eq by (by eapply lookup_lt_Some). naive_solver.
  - by rewrite list_lookup_insert_ne by done.
Qed.

Lemma owned_keep x h l t p p' : owned x h l -> l !! t = Some p -> h p' = h p -> owned x h (<[t := p']> l).
Proof.
  intros Ho Ht Hh u. rewrite at_insert by done. case_decide; subst; rewrite (Ho _); [|done].
  rewrite Hh. naive_solver.
Qed.

Lemma owned_take h l t p p' : owned None h l -> l !! t = Some p -> h p' = true -> owned (Some t) h (<[t := p']> l).
Proof.
  intros Ho Ht Hh u. rewrite at_insert by done. case_decide; subst; [done|].
  split; [congruence|]. intros Hr. by apply Ho in Hr.
Qed.

Lemma owned_drop x h l t p p' : owned x h l -> l !! t = Some p -> h p = true -> h p' = false ->
  owned None h (<[t := p']> l).
Proof.
  intros Ho Ht Hh Hh' u. rewrite at_insert by done. case_decide; subst; [split; congruence|].
  split; [done|]. intros Hr. apply Ho in Hr. assert (x = Some t) by (apply Ho; eauto). congruence.
Qed.

Lemma owned_holder x h l t p : owned x h l -> l !! t = Some p -> h p = true -> x = Some t.
Proof. intros Ho Ht Hh. apply Ho. eauto. Qed.

Lemma owned_not x h l t p : owned x h l -> l !! t = Some p -> h p = false -> x <> Some t.
Proof. intros Ho Ht Hh E. apply Ho in E as (r & ? & ?). congruence. Qed.

Lemma queued_keep q h l t p p' : queued q h l -> l !! t = Some p -> h p' = h p -> queued q h (<[t := p']> l).
Proof.
  intros [Hn Hq] Ht Hh. split; [done|]. intros u. rewrite at_insert by done. case_decide; subst; rewrite (Hq _); [|done].
  rewrite Hh. naive_solver.
Qed.

Lemma queued_push q h l t p p' : queued q h l -> l !! t = Some p -> h p = false -> h p' = true ->
  queued (q ++ [t]) h (<[t := p']> l).
Proof.
  intros [Hn Hq] Ht Hh Hh'. split.
  - apply NoDup_app. split_and!; [done| |apply NoDup_singleton].
    intros u Hu ->%list_elem_of_singleton. apply Hq in Hu as (r & ? & ?). congruence.
  - intros u. rewrite elem_of_app, list_elem_of_singleton, at_insert, Hq by done. case_decide; naive_solver.
Qed.

Lemma queued_pop q h l t p' : queued (t :: q) h l -> h p' = false -> queued q h (<[t := p']> l).
Proof.
  intros [[Hn Hnd]%NoDup_cons Hq] Hh. split; [done|]. intros u.
  destruct (proj1 (Hq t)) as (p & Ht & _); [apply elem_of_cons; auto|].
  rewrite at_insert by done. case_decide as E; [subst; split; [done|congruence]|].
  rewrite <- Hq, elem_of_cons. naive_solver.
Qed.

Lemma queued_at q h l t : queued q h l -> t ∈ q -> exists p, l !! t = Some p /\ h p = true.
Proof. intros [_ Hq]. apply Hq. Qed.

End Tracking.

(** Threads [us] become runnable at [p]. *)
Fixpoint make_runnable {pc : Type} (p : pc) (us : list nat) (l : list pc) : list pc :=
  match us with
  | [] => l
  | u :: us' => make_runnable p us' (<[u := p]> l)
  end.

Module Lock.

(** Statements of [lock_acquire]: the first assertion, the spinlock, the test of the
    loop with what follows it, the release of the spinlock; asleep in the loop. *)
Inductive acq_pc := Aq_check | Aq_lock | Aq_test | Aq_unlock | Aq_asleep.

(** Statements of [lock_release]. *)
Inductive rel_pc := Rl_check | Rl_lock | Rl_clear | Rl_wake | Rl_unlock.

(** Statements of [cv_signal] and [cv_broadcast]. *)
Inductive sig_pc := Sg_check | Sg_lock | Sg_wake | Sg_unlock.

(** A thread: outside ([Out]), holding the lock between two operations ([In]), or
    inside an operation; [Cw_rel] is the [lock_release] that [cv_wait] calls, and the
    [lock_acquire] at its end is an [Acq]. *)
Inductive pc :=
| Out
| In
| Acq (a : acq_pc)
| Rel (r : rel_pc)
| Cw_check
| Cw_lock
| Cw_rel (r : rel_pc)
| Cw_sleep
| Cw_asleep
| Cw_relock
| Cw_unlock
| Sig (g : sig_pc)
| Bcast (g : sig_pc).

#[global] Instance acq_pc_eq_dec : EqDecision acq_pc.
Proof. solve_decision. Defined.
#[global] Instance rel_pc_eq_dec : EqDecision rel_pc.
Proof. solve_decision. Defined.
#[global] Instance sig_pc_eq_dec : EqDecision sig_pc.
Proof. solve_decision. Defined.
#[global] Instance pc_eq_dec : EqDecision pc.
Proof. solve_decision. Defined.

(** kern/include/synch.h:76-85 (struct lock), with the condition variable that is used
    with it and every thread's program counter. *)
Record st := mkst {
  lk_owner : option nat;
  lk_lock : option nat;       (* holder of the lock's spinlock *)
  lk_wchan : list nat;
  cv_lock : option nat;       (* holder of the condition variable's spinlock *)
  cv_wchan : list nat;
  pcs : list pc
}.

Definition set_owner x s := mkst x (lk_lock s) (lk_wchan s) (cv_lock s) (cv_wchan s) (pcs s).
Definition set_lk x s := mkst (lk_owner s) x (lk_wchan s) (cv_lock s) (cv_wchan s) (pcs s).
Definition set_lkw x s := mkst (lk_owner s) (lk_lock s) x (cv_lock s) (cv_wchan s) (pcs s).
Definition set_cv x s := mkst (lk_owner s) (lk_lock s) (lk_wchan s) x (cv_wchan s) (pcs s).
Definition set_cvw x s := mkst (lk_owner s) (lk_lock s) (lk_wchan s) (cv_lock s) x (pcs s).
Definition set_pcs f s := mkst (lk_owner s) (lk_lock s) (lk_wchan s) (cv_lock s) (cv_wchan s) (f (pcs s)).
Definition goto (t : nat) (p : pc) s := set_pcs (fun l => <[t := p]> l) s.

(** Spinlocks thread [t] holds. *)
Definition c_spinlocks (t : nat) (s : st) : nat :=
  (if decide (lk_lock s = Some t) then 1 else 0) + (if decide (cv_lock s = Some t) then 1 else 0).

(** kern/thread/synch.c:257-272 (lock_do_i_hold): the read of the owner under the
    spinlock, then [k]. *)
Definition lock_do_i_hold (t : nat) (s : st) (k : bool -> res st) : res st :=
  match spinlock_acquire (lk_lock s) t (set_lk (Some t) s) with
  | Next s1 => k (bool_decide (lk_owner s1 = Some t))
  | r => r
  end.

(** kern/thread/thread.c:1024-1048 (wchan_wakeone) on the lock's channel: the first
    sleeper goes on with the [spinlock_acquire] at the end of [wchan_sleep]. *)
Definition lk_wakeone (s : st) : st :=
  match lk_wchan s with
  | [] => s
  | u :: q => set_lkw q (goto u (Acq Aq_lock) s)
  end.

Definition cv_wakeone (s : st) : st :=
  match cv_wchan s with
  | [] => s
  | u :: q => set_cvw q (goto u Cw_relock s)
  end.

(** kern/thread/thread.c:1053-1081 (wchan_wakeall). *)
Definition cv_wakeall (s : st) : st :=
  set_cvw [] (set_pcs (make_runnable Cw_relock (cv_wchan s)) s).

(** kern/thread/synch.c:193-228 (lock_acquire); returns holding the lock. *)
Definition lock_acquire (t : nat) (a : acq_pc) (s : st) : res st :=
  match a with
  | Aq_check => lock_do_i_hold t s (fun b => if b then Crash KAssert else Next (goto t (Acq Aq_lock) s))
  | Aq_lock => spinlock_acquire (lk_lock s) t (goto t (Acq Aq_test) (set_lk (Some t) s))
  | Aq_test =>
      match lk_owner s with
      | Some _ =>
          wchan_sleep (lk_lock s) (c_spinlocks t s) t
            (goto t (Acq Aq_asleep) (set_lk None (set_lkw (lk_wchan s ++ [t]) s)))
      | None => Next (goto t (Acq Aq_unlock) (set_owner (Some t) s))
      end
  | Aq_unlock => spinlock_release (lk_lock s) t (goto t In (set_lk None s))
  | Aq_asleep => Stop
  end.

(** kern/thread/synch.c:230-255 (lock_release); [w] places its statements in the
    caller, [ret] is where it returns to. *)
Definition lock_release (t : nat) (w : rel_pc -> pc) (ret : pc) (r : rel_pc) (s : st) : res st :=
  match r with
  | Rl_check => lock_do_i_hold t s (fun b => if b then Next (goto t (w Rl_lock) s) else Crash KAssert)
  | Rl_lock => spinlock_acquire (lk_lock s) t (goto t (w Rl_clear) (set_lk (Some t) s))
  | Rl_clear => Next (goto t (w Rl_wake) (set_owner None s))
  | Rl_wake =>
      if spinlock_do_i_hold (lk_lock s) t then Next (goto t (w Rl_unlock) (lk_wakeone s)) else Crash KAssert
  | Rl_unlock => spinlock_release (lk_lock s) t (goto t ret (set_lk None s))
  end.

(** kern/thread/synch.c:325-356 (cv_wait). *)
Definition cv_wait (t : nat) (p : pc) (s : st) : res st :=
  match p with
  | Cw_check => lock_do_i_hold t s (fun b => if b then Next (goto t Cw_lock s) else Crash KAssert)
  | Cw_lock => spinlock_acquire (cv_lock s) t (goto t (Cw_rel Rl_check) (set_cv (Some t) s))
  | Cw_rel r => lock_release t Cw_rel Cw_sleep r s
  | Cw_sleep =>
      wchan_sleep (cv_lock s) (c_spinlocks t s) t
        (goto t Cw_asleep (set_cv None (set_cvw (cv_wchan s ++ [t]) s)))
  | Cw_relock => spinlock_acquire (cv_lock s) t (goto t Cw_unlock (set_cv (Some t) s))
  | Cw_unlock => spinlock_release (cv_lock s) t (goto t (Acq Aq_check) (set_cv None s))
  | _ => Stop
  end.

(** kern/thread/synch.c:358-381 (cv_signal). *)
Definition cv_signal (t : nat) (g : sig_pc) (s : st) : res st :=
  match g with
  | Sg_check => lock_do_i_hold t s (fun b => if b then Next (goto t (Sig Sg_lock) s) else Crash KAssert)
  | Sg_lock => spinlock_acquire (cv_lock s) t (goto t (Sig Sg_wake) (set_cv (Some t) s))
  | Sg_wake =>
      if spinlock_do_i_hold (cv_lock s) t then Next (goto t (Sig Sg_unlock) (cv_wakeone s)) else Crash KAssert
  | Sg_unlock => spinlock_release (cv_lock s) t (goto t In (set_cv None s))
  end.

(** kern/thread/synch.c:383-406 (cv_broadcast). *)
Definition cv_broadcast (t : nat) (g : sig_pc) (s : st) : res st :=
  match g with
  | Sg_check => lock_do_i_hold t s (fun b => if b then Next (goto t (Bcast Sg_lock) s) else Crash KAssert)
  | Sg_lock => spinlock_acquire (cv_lock s) t (goto t (Bcast Sg_wake) (set_cv (Some t) s))
  | Sg_wake =>
      if spinlock_do_i_hold (cv_lock s) t then Next (goto t (Bcast Sg_unlock) (cv_wakeall s)) else Crash KAssert
  | Sg_unlock => spinlock_release (cv_lock s) t (goto t In (set_cv None s))
  end.

(** The next statement of thread [t]. *)
Definition run (t : nat) (s : st) : res st :=
  match pcs s !! t with
  | None | Some Out | Some In => Stop
  | Some (Acq a) => lock_acquire t a s
  | Some (Rel r) => lock_release t Rel Out r s
  | Some (Sig g) => cv_signal t g s
  | Some (Bcast g) => cv_broadcast t g s
  | Some p => cv_wait t p s
  end.

(** Steps: a thread executes its next statement, or calls an operation. The callers
    keep to the lock's protocol: [lock_acquire] is called by a thread that does not
    hold the lock, the others by the thread that does. *)
Inductive step : st -> st -> Prop :=
| step_run t s s' : run t s = Next s' -> step s s'
| step_acquire t s : pcs s !! t = Some Out -> step s (goto t (Acq Aq_check) s)
| step_release t s : pcs s !! t = Some In -> step s (goto t (Rel Rl_check) s)
| step_wait t s : pcs s !! t = Some In -> step s (goto t Cw_check s)
| step_signal t s : pcs s !! t = Some In -> step s (goto t (Sig Sg_check) s)
| step_broadcast t s : pcs s !! t = Some In -> step s (goto t (Bcast Sg_check) s).

Definition init (n : nat) : st := mkst None None [] None [] (replicate n Out).

Definition reachable (n : nat) (s : st) : Prop := rtc step (init n) s.

(** ** The invariant *)

Definition has_lk_spin (p : pc) : bool :=
  match p with
  | Acq Aq_test | Acq Aq_unlock => true
  | Rel r | Cw_rel r => match r with Rl_clear | Rl_wake | Rl_unlock => true | _ => false end
  | _ => false
  end.

Definition has_cv_spin (p : pc) : bool :=
  match p with
  | Cw_rel _ | Cw_sleep | Cw_unlock => true
  | Sig g | Bcast g => match g with Sg_wake | Sg_unlock => true | _ => false end
  | _ => false
  end.

Definition has_lock (p : pc) : bool :=
  match p with
  | In | Acq Aq_unlock | Cw_check | Cw_lock | Sig _ | Bcast _ => true
  | Rel r | Cw_rel r => match r with Rl_check | Rl_lock | Rl_clear => true | _ => false end
  | _ => false
  end.

Definition lk_asleep (p : pc) : bool := match p with Acq Aq_asleep => true | _ => false end.
Definition cv_asleep (p : pc) : bool := match p with Cw_asleep => true | _ => false end.

(** A thread that is about to take the free lock or to wake a sleeper up. *)
Definition attends (p : pc) : bool :=
  match p with
  | Acq Aq_lock | Acq Aq_test | Rel Rl_wake | Cw_rel Rl_wake => true
  | _ => false
  end.

Definition attended (s : st) : Prop :=
  lk_wchan s <> [] -> lk_owner s <> None \/ exists t p, pcs s !! t = Some p /\ attends p = true.

Record inv (s : st) : Prop := {
  inv_lk : owned (lk_lock s) has_lk_spin (pcs s);
  inv_cv : owned (cv_lock s) has_cv_spin (pcs s);
  inv_owner : owned (lk_owner s) has_lock (pcs s);
  inv_lkw : queued (lk_wchan s) lk_asleep (pcs s);
  inv_cvw : queued (cv_wchan s) cv_asleep (pcs s);
  inv_att : attended s
}.

(** The thread moves and nothing else changes. *)
Lemma attended_move s t p p' :
  attended s -> pcs s !! t = Some p -> (attends p = true -> attends p' = true) -> attended (goto t p' s).
Proof.
  intros Ha Ht Hp Hq. destruct (Ha Hq) as [?|(u & r & Hu & Hr)]; [by left|right].
  destruct (decide (u = t)) as [->|Hne].
  - exists t, p'. cbn. rewrite list_lookup_insert_eq by (by eapply lookup_lt_Some). split; [done|].
    apply Hp. congruence.
  - exists u, r. cbn. by rewrite list_lookup_insert_ne.
Qed.

(** Solve an ownership or queue goal for a thread that moves. *)
Ltac track :=
  solve
    [ eapply owned_keep; [eassumption|eassumption|reflexivity]
    | eapply owned_take; [eassumption|eassumption|reflexivity]
    | eapply owned_drop; [eassumption|eassumption|reflexivity|reflexivity]
    | eapply queued_keep; [eassumption|eassumption|reflexivity]
    | eapply queued_push; [eassumption|eassumption|reflexivity|reflexivity] ].

(** A step of [t] that changes no resource. *)
Lemma inv_move s t p p' :
  inv s -> pcs s !! t = Some p ->
  has_lk_spin p' = has_lk_spin p -> has_cv_spin p' = has_cv_spin p -> has_lock p' = has_lock p ->
  lk_asleep p' = lk_asleep p -> cv_asleep p' = cv_asleep p -> (attends p = true -> attends p' = true) ->
  inv (goto t p' s).
Proof.
  intros [] Ht ? ? ? ? ? Ha. split; cbn;
    eauto using owned_keep, queued_keep, attended_move.
Qed.

Lemma inv_lk_wakeone s : inv s -> inv (lk_wakeone s).
Proof.
  intros [H1 H2 H3 H4 H5 H6]. unfold lk_wakeone. destruct (lk_wchan s) as [|u q] eqn:Eq; [by split; rewrite ?Eq|].
  destruct (queued_at _ _ _ u H4) as (p & Hu & Hp); [apply elem_of_cons; auto|].
  assert (p = Acq Aq_asleep) as -> by (destruct p as [| |[]| | | | | | | | | |]; done).
  split; cbn; try track; [by apply queued_pop|].
  intros _. right. exists u, (Acq Aq_lock). cbn. by rewrite list_lookup_insert_eq by (by eapply lookup_lt_Some).
Qed.

Lemma inv_cv_wake s u q : inv s -> cv_wchan s = u :: q -> inv (set_cvw q (goto u Cw_relock s)).
Proof.
  intros [H1 H2 H3 H4 H5 H6] Eq. rewrite Eq in H5.
  destruct (queued_at _ _ _ u H5) as (p & Hu & Hp); [apply elem_of_cons; auto|].
  assert (p = Cw_asleep) as -> by (destruct p; done).
  split; cbn; try track; [by apply queued_pop|].
  by apply (attended_move s u Cw_asleep).
Qed.

Lemma inv_cv_wakeone s : inv s -> inv (cv_wakeone s).
Proof. intros H. unfold cv_wakeone. destruct (cv_wchan s) eqn:Eq; [done|by apply inv_cv_wake]. Qed.

Lemma inv_cv_wakeall s : inv s -> inv (cv_wakeall s).
Proof.
  unfold cv_wakeall. remember (cv_wchan s) as q eqn:Eq. revert s Eq.
  induction q as [|u q IH]; intros s Eq Hi.
  - destruct s; cbn in *. by subst.
  - assert (Hi' : inv (set_cvw q (goto u Cw_relock s))) by (by apply inv_cv_wake).
    exact (IH (set_cvw q (goto u Cw_relock s)) eq_refl Hi').
Qed.

(** Waking up moves no thread that is awake. *)
Lemma wake_at (s : st) (t : nat) p :
  inv s -> pcs s !! t = Some p -> lk_asleep p = false -> cv_asleep p = false ->
  pcs (lk_wakeone s) !! t = Some p /\ pcs (cv_wakeone s) !! t = Some p /\ pcs (cv_wakeall s) !! t = Some p.
Proof.
  intros [_ _ _ H4 H5 _] Ht Hl Hc.
  assert (Hnl : t ∉ lk_wchan s) by (intros (r & ? & ?)%(queued_at _ _ _ _ H4); congruence).
  assert (Hnc : t ∉ cv_wchan s) by (intros (r & ? & ?)%(queued_at _ _ _ _ H5); congruence).
  split_and!.
  - unfold lk_wakeone. destruct (lk_wchan s) as [|u q]; [done|]. cbn.
    apply not_elem_of_cons in Hnl as [? _]. by rewrite list_lookup_insert_ne.
  - unfold cv_wakeone. destruct (cv_wchan s) as [|u q]; [done|]. cbn.
    apply not_elem_of_cons in Hnc as [? _]. by rewrite list_lookup_insert_ne.
  - cbn. clear H5. revert Hnc Ht. generalize (cv_wchan s), (pcs s). intros q.
    induction q as [|u q IH]; intros l Hn Ht; cbn; [done|].
    apply not_elem_of_cons in Hn as [Hne Hn]. apply IH; [done|by rewrite list_lookup_insert_ne].
Qed.

(** What a step may be: not a crash, and to a state of the invariant. *)
Definition good (r : res st) : Prop :=
  match r with Next s' => inv s' | Crash _ => False | Spin | Stop => True end.

(** Taking the lock's or the condition variable's spinlock. *)
Lemma good_acquire_lk s t p p' :
  inv s -> pcs s !! t = Some p -> has_lk_spin p = false -> has_lk_spin p' = true ->
  has_cv_spin p' = has_cv_spin p -> has_lock p' = has_lock p ->
  lk_asleep p' = lk_asleep p -> cv_asleep p' = cv_asleep p -> (attends p = true -> attends p' = true) ->
  good (spinlock_acquire (lk_lock s) t (goto t p' (set_lk (Some t) s))).
Proof.
  intros Hi Ht Hp Hp' ? ? ? ? Ha. unfold spinlock_acquire. pose proof (owned_not _ _ _ _ _ (inv_lk _ Hi) Ht Hp) as Hne.
  destruct (lk_lock s) as [u|] eqn:El; [case_decide; [congruence|done]|]. destruct Hi as [I1 I2 I3 I4 I5 I6].
  rewrite El in I1. split; cbn; eauto using owned_keep, queued_keep, owned_take.
  by apply (attended_move (set_lk (Some t) s) t p).
Qed.

Lemma good_acquire_cv s t p p' :
  inv s -> pcs s !! t = Some p -> has_cv_spin p = false -> has_cv_spin p' = true ->
  has_lk_spin p' = has_lk_spin p -> has_lock p' = has_lock p ->
  lk_asleep p' = lk_asleep p -> cv_asleep p' = cv_asleep p -> (attends p = true -> attends p' = true) ->
  good (spinlock_acquire (cv_lock s) t (goto t p' (set_cv (Some t) s))).
Proof.
  intros Hi Ht Hp Hp' ? ? ? ? Ha. unfold spinlock_acquire. pose proof (owned_not _ _ _ _ _ (inv_cv _ Hi) Ht Hp) as Hne.
  destruct (cv_lock s) as [u|] eqn:El; [case_decide; [congruence|done]|]. destruct Hi as [I1 I2 I3 I4 I5 I6].
  rewrite El in I2. split; cbn; eauto using owned_keep, queued_keep, owned_take.
  by apply (attended_move (set_cv (Some t) s) t p).
Qed.

(** Giving them back. *)
Lemma good_release_lk s t p p' :
  inv s -> pcs s !! t = Some p -> has_lk_spin p = true -> has_lk_spin p' = false ->
  has_cv_spin p' = has_cv_spin p -> has_lock p' = has_lock p ->
  lk_asleep p' = lk_asleep p -> cv_asleep p' = cv_asleep p -> attends p = false ->
  good (spinlock_release (lk_lock s) t (goto t p' (set_lk None s))).
Proof.
  intros Hi Ht Hp Hp' ? ? ? ? Ha. unfold spinlock_release.
  rewrite (owned_holder _ _ _ _ _ (inv_lk _ Hi) Ht Hp), decide_True by done. destruct Hi as [I1 I2 I3 I4 I5 I6].
  split; cbn; eauto using owned_keep, queued_keep, owned_drop.
  apply (attended_move (set_lk None s) t p); [done|done|congruence].
Qed.

Lemma good_release_cv s t p p' :
  inv s -> pcs s !! t = Some p -> has_cv_spin p = true -> has_cv_spin p' = false ->
  has_lk_spin p' = has_lk_spin p -> has_lock p' = has_lock p ->
  lk_asleep p' = lk_asleep p -> cv_asleep p' = cv_asleep p -> attends p = false ->
  good (spinlock_release (cv_lock s) t (goto t p' (set_cv None s))).
Proof.
  intros Hi Ht Hp Hp' ? ? ? ? Ha. unfold spinlock_release.
  rewrite (owned_holder _ _ _ _ _ (inv_cv _ Hi) Ht Hp), decide_True by done. destruct Hi as [I1 I2 I3 I4 I5 I6].
  split; cbn; eauto using owned_keep, queued_keep, owned_drop.
  apply (attended_move (set_cv None s) t p); [done|done|congruence].
Qed.

(** The test of the owner gives what the program counter says. *)
Lemma good_do_i_hold s t p k :
  inv s -> pcs s !! t = Some p -> has_lk_spin p = false -> good (k (has_lock p)) ->
  good (lock_do_i_hold t s k).
Proof.
  intros Hi Ht Hp Hk. unfold lock_do_i_hold, spinlock_acquire.
  pose proof (owned_not _ _ _ _ _ (inv_lk _ Hi) Ht Hp) as Hne.
  destruct (lk_lock s) as [u|] eqn:El; [case_decide; [congruence|done]|]. cbn.
  replace (bool_decide (lk_owner s = Some t)) with (has_lock p); [done|]. symmetry.
  destruct (has_lock p) eqn:Eh.
  - apply bool_decide_eq_true. by eapply owned_holder; [apply inv_owner| |].
  - apply bool_decide_eq_false. by eapply owned_not; [apply inv_owner| |].
Qed.

Ltac ok := reflexivity || (intros; discriminate) || (intros; reflexivity) || eassumption.

Lemma lock_acquire_good s t a : inv s -> pcs s !! t = Some (Acq a) -> good (lock_acquire t a s).
Proof.
  intros Hi Ht. destruct a; cbn [lock_acquire]; [| | | |done].
  - eapply good_do_i_hold; [ok|ok|ok|]. cbn. eapply inv_move; ok.
  - eapply good_acquire_lk; ok.
  - pose proof (owned_holder _ _ _ _ _ (inv_lk _ Hi) Ht eq_refl) as El.
    pose proof (owned_not _ _ _ _ _ (inv_cv _ Hi) Ht eq_refl) as Ec.
    destruct (lk_owner s) as [u|] eqn:Eo.
    + unfold wchan_sleep, spinlock_do_i_hold, c_spinlocks. rewrite El, bool_decide_true by done.
      rewrite (decide_True (P := Some t = Some t)), (decide_False (P := cv_lock s = Some t)), decide_True by done.
      destruct Hi as [I1 I2 I3 I4 I5 I6]. split; cbn; try track.
      intros _. left. cbn. congruence.
    + destruct Hi as [I1 I2 I3 I4 I5 I6]. rewrite Eo in I3. split; cbn; try track.
      intros _. by left.
  - eapply good_release_lk; ok.
Qed.

Lemma lock_release_good s t w ret r :
  (w = Rel /\ ret = Out) \/ (w = Cw_rel /\ ret = Cw_sleep) ->
  inv s -> pcs s !! t = Some (w r) -> good (lock_release t w ret r s).
Proof.
  intros Hw Hi Ht. assert (Hc : forall A : Prop, (w = Rel -> ret = Out -> A) -> (w = Cw_rel -> ret = Cw_sleep -> A) -> A) by naive_solver.
  destruct r; cbn [lock_release].
  - apply Hc; intros -> ->; (eapply good_do_i_hold; [ok|ok|ok|]; cbn; eapply inv_move; ok).
  - apply Hc; intros -> ->; eapply good_acquire_lk; ok.
  - assert (Ho : lk_owner s = Some t) by (apply Hc; intros -> ->; exact (owned_holder _ _ _ _ _ (inv_owner _ Hi) Ht eq_refl)).
    destruct Hi as [I1 I2 I3 I4 I5 I6].
    assert (Ha : attended (goto t (w Rl_wake) (set_owner None s))).
    { intros _. right. exists t, (w Rl_wake). cbn. rewrite list_lookup_insert_eq by (by eapply lookup_lt_Some).
      split; [done|]. apply Hc; intros -> ->; done. }
    apply Hc; intros -> ->; split; cbn; try track; exact Ha.
  - assert (El : lk_lock s = Some t) by (apply Hc; intros -> ->; exact (owned_holder _ _ _ _ _ (inv_lk _ Hi) Ht eq_refl)).
    unfold spinlock_do_i_hold. rewrite bool_decide_true by done. pose proof (inv_lk_wakeone s Hi) as Hi'.
    assert (Ht' : pcs (lk_wakeone s) !! t = Some (w Rl_wake)).
    { apply wake_at; [done|done| |]; apply Hc; intros -> ->; done. }
    assert (Ha : attended (goto t (w Rl_unlock) (lk_wakeone s))).
    { unfold lk_wakeone. destruct (lk_wchan s) as [|u q] eqn:Eq; [intros F; by cbn in F|].
      intros _. right. exists u, (Acq Aq_lock). cbn.
      destruct (queued_at _ _ _ u (inv_lkw _ Hi)) as (p & Hu & Hp); [rewrite Eq; apply elem_of_cons; auto|].
      assert (lk_asleep (w Rl_wake) = false) by (apply Hc; intros -> ->; done).
      assert (u <> t) by (intros ->; congruence).
      rewrite list_lookup_insert_ne, list_lookup_insert_eq by (done || by eapply lookup_lt_Some). done. }
    destruct Hi' as [I1 I2 I3 I4 I5 I6]. apply Hc; intros -> ->; split; cbn; try track; exact Ha.
  - apply Hc; intros -> ->; eapply good_release_lk; ok.
Qed.

Lemma cv_wait_good s t p : inv s -> pcs s !! t = Some p -> good (cv_wait t p s).
Proof.
  intros Hi Ht. destruct p as [| | | | | |r| | | | | |]; cbn [cv_wait]; try done.
  - eapply good_do_i_hold; [ok|ok|ok|]. cbn. eapply inv_move; ok.
  - eapply good_acquire_cv; ok.
  - apply lock_release_good; auto.
  - pose proof (owned_holder _ _ _ _ _ (inv_cv _ Hi) Ht eq_refl) as Ec.
    pose proof (owned_not _ _ _ _ _ (inv_lk _ Hi) Ht eq_refl) as El.
    unfold wchan_sleep, spinlock_do_i_hold, c_spinlocks. rewrite Ec, bool_decide_true by done.
    rewrite (decide_False (P := lk_lock s = Some t)), (decide_True (P := Some t = Some t)), decide_True by done.
    destruct Hi as [I1 I2 I3 I4 I5 I6]. split; cbn; try track.
    by apply (attended_move (set_cv None (set_cvw (cv_wchan s ++ [t]) s)) t Cw_sleep).
  - eapply good_acquire_cv; ok.
  - eapply good_release_cv; ok.
Qed.

(** The wake-up step of a signal or a broadcast, whose effect on the channel is [f]. *)
Lemma good_wake s t p p' f :
  inv s -> pcs s !! t = Some p -> has_cv_spin p = true -> inv (f s) -> pcs (f s) !! t = Some p ->
  has_lk_spin p' = has_lk_spin p -> has_cv_spin p' = has_cv_spin p -> has_lock p' = has_lock p ->
  lk_asleep p' = lk_asleep p -> cv_asleep p' = cv_asleep p -> attends p = false ->
  good (if spinlock_do_i_hold (cv_lock s) t then Next (goto t p' (f s)) else Crash KAssert).
Proof.
  intros Hi Ht Hc Hf Hft. intros. unfold spinlock_do_i_hold.
  rewrite (owned_holder _ _ _ _ _ (inv_cv _ Hi) Ht Hc), bool_decide_true by done.
  eapply inv_move; eauto. congruence.
Qed.

Lemma cv_signal_good s t g : inv s -> pcs s !! t = Some (Sig g) -> good (cv_signal t g s).
Proof.
  intros Hi Ht. destruct g; cbn [cv_signal].
  - eapply good_do_i_hold; [ok|ok|ok|]. cbn. eapply inv_move; ok.
  - eapply good_acquire_cv; ok.
  - destruct (wake_at s t _ Hi Ht eq_refl eq_refl) as (_ & Hw & _).
    eapply good_wake; try ok. by apply inv_cv_wakeone.
  - eapply good_release_cv; ok.
Qed.

Lemma cv_broadcast_good s t g : inv s -> pcs s !! t = Some (Bcast g) -> good (cv_broadcast t g s).
Proof.
  intros Hi Ht. destruct g; cbn [cv_broadcast].
  - eapply good_do_i_hold; [ok|ok|ok|]. cbn. eapply inv_move; ok.
  - eapply good_acquire_cv; ok.
  - destruct (wake_at s t _ Hi Ht eq_refl eq_refl) as (_ & _ & Hw).
    eapply good_wake; try ok. by apply inv_cv_wakeall.
  - eapply good_release_cv; ok.
Qed.

Lemma run_good s t : inv s -> good (run t s).
Proof.
  intros Hi. unfold run. destruct (pcs s !! t) as [p|] eqn:Ht; [|done].
  destruct p; try done; auto using lock_acquire_good, cv_signal_good, cv_broadcast_good, cv_wait_good.
  apply lock_release_good; auto.
Qed.

Lemma step_inv s s' : step s s' -> inv s -> inv s'.
Proof.
  intros [t s0 s1 Hr|t s0 Ht|t s0 Ht|t s0 Ht|t s0 Ht|t s0 Ht] Hi.
  - pose proof (run_good s0 t Hi) as Hg. by rewrite Hr in Hg.
  - eapply inv_move; ok.
  - eapply inv_move; ok.
  - eapply inv_move; ok.
  - eapply inv_move; ok.
  - eapply inv_move; ok.
Qed.

Lemma init_inv n : inv (init n).
Proof.
  assert (H : forall h u, h Out = false -> ~ exists p, replicate n Out !! u = Some p /\ h p = true).
  { intros h u Hh (p & E & Hp). apply lookup_replicate in E as [-> _]. congruence. }
  split; cbn.
  - intros u. split; [done|]. by intros ?%H.
  - intros u. split; [done|]. by intros ?%H.
  - intros u. split; [done|]. by intros ?%H.
  - split; [constructor|]. intros u. split; [by intros ?%not_elem_of_nil|]. by intros ?%H.
  - split; [constructor|]. intros u. split; [by intros ?%not_elem_of_nil|]. by intros ?%H.
  - intros F. done.
Qed.

Lemma reachable_inv n s : reachable n s -> inv s.
Proof.
  intros Hr. unfold reachable in Hr. remember (init n) as s0 eqn:E.
  assert (Hi : inv s0) by (subst; apply init_inv). clear E. induction Hr as [|s0 s1 s2 Hs _ IH]; [done|].
  apply IH. by eapply step_inv.
Qed.

(** The holder of the lock's spinlock waits for nothing. *)
Lemma lk_holder_runs s u p : inv s -> pcs s !! u = Some p -> has_lk_spin p = true -> exists s', run u s = Next s'.
Proof.
  intros Hi Hu Hp. pose proof (run_good s u Hi) as Hg.
  assert (run u s <> Spin /\ run u s <> Stop) as [Hs Hst].
  { unfold run. rewrite Hu. destruct p as [| |a|r| | |r| | | | |g|g]; try done; cbn [has_lk_spin] in Hp.
    - destruct a; try done; cbn; unfold wchan_sleep, spinlock_release; repeat case_match; done.
    - destruct r; try done; cbn; unfold spinlock_release; repeat case_match; done.
    - destruct r; try done; cbn; unfold spinlock_release; repeat case_match; done. }
  destruct (run u s); [eauto|done|done|done].
Qed.

(** When no thread holds the lock's spinlock, the holder of the condition variable's
    does not wait either. *)
Lemma cv_holder_runs s u p : inv s -> lk_lock s = None -> pcs s !! u = Some p -> has_cv_spin p = true ->
  exists s', run u s = Next s'.
Proof.
  intros Hi Hn Hu Hp. pose proof (run_good s u Hi) as Hg.
  assert (run u s <> Spin /\ run u s <> Stop) as [Hs Hst].
  { unfold run. rewrite Hu. destruct p as [| |a|r| | |r| | | | |g|g]; try done; cbn [has_cv_spin] in Hp.
    - destruct r; cbn; unfold lock_do_i_hold, spinlock_release; rewrite ?Hn; cbn; repeat case_match; done.
    - cbn. unfold wchan_sleep; repeat case_match; done.
    - cbn. unfold spinlock_release; repeat case_match; done.
    - destruct g; try done; cbn; unfold spinlock_release; repeat case_match; done.
    - destruct g; try done; cbn; unfold spinlock_release; repeat case_match; done. }
  destruct (run u s); [eauto|done|done|done].
Qed.

(** A thread outside, holding the lock between operations, or asleep. *)
Definition resting (p : pc) : bool :=
  match p with Out | In | Acq Aq_asleep | Cw_asleep => true | _ => false end.

Lemma run_stop s t p : pcs s !! t = Some p -> run t s = Stop -> resting p = true.
Proof.
  intros Ht Hr. unfold run in Hr. rewrite Ht in Hr.
  destruct p as [| |a|r| | |r| | | | |g|g]; try done; [destruct a|destruct r| | |destruct r| | | |destruct g|destruct g];
    try done; cbn in Hr;
    unfold lock_do_i_hold, spinlock_acquire, spinlock_release, wchan_sleep in Hr; repeat case_match; done.
Qed.

(** C17. Mutual exclusion and no failed assertion. Whatever the number of threads and
    the interleaving, as long as threads keep to the lock's protocol: no assertion of
    [lock_acquire], [lock_release], [cv_wait], [cv_signal], [cv_broadcast],
    [wchan_sleep] and the spinlocks fails (in particular [cv_wait] sleeps with exactly
    one spinlock held), and at most one thread is between the return of
    [lock_acquire] and its [lock_release]. *)
Theorem lock_safe (n : nat) (s : st) (Hr : reachable n s) :
  (forall t h, run t s <> Crash h) /\
  (forall t u, pcs s !! t = Some In -> pcs s !! u = Some In -> t = u).
Proof.
  pose proof (reachable_inv n s Hr) as Hi. split.
  - intros t h E. pose proof (run_good s t Hi) as Hg. by rewrite E in Hg.
  - intros t u Ht Hu.
    pose proof (owned_holder _ _ _ _ _ (inv_owner _ Hi) Ht eq_refl).
    pose proof (owned_holder _ _ _ _ _ (inv_owner _ Hi) Hu eq_refl). congruence.
Qed.

(** C18. No lost wakeup on the lock. When no thread is in the middle of an operation
    and some thread sleeps in [lock_acquire], the lock has an owner, which is inside
    its critical section and will wake a sleeper up when it releases the lock: the
    lock is never free while threads sleep for it. *)
Theorem lock_no_lost_wakeup (n : nat) (s : st) (Hr : reachable n s)
    (Hrest : forall t, run t s = Stop) (Hq : lk_wchan s <> []) :
  exists t, lk_owner s = Some t /\ pcs s !! t = Some In.
Proof.
  pose proof (reachable_inv n s Hr) as Hi. destruct (inv_att _ Hi Hq) as [Ho|(t & p & Ht & Hp)].
  - destruct (lk_owner s) as [t|] eqn:Eo; [|done]. exists t. split; [done|].
    apply (inv_owner _ Hi) in Eo as (p & Ht & Hp). rewrite Ht. f_equal.
    pose proof (run_stop s t p Ht (Hrest t)).
    by destruct p as [| |[]|[]| | |[]| | | | |g|g].
  - pose proof (run_stop s t p Ht (Hrest t)). by destruct p as [| |[]|[]| | |[]| | | | |g|g].
Qed.

(** A thread inside [cv_wait] that has given the lock up and was not woken yet. *)
Definition waits (p : pc) : bool :=
  match p with Cw_rel Rl_wake | Cw_rel Rl_unlock | Cw_sleep | Cw_asleep => true | _ => false end.

Lemma waits_asleep s t u p : inv s -> cv_lock s = Some t -> u <> t -> pcs s !! u = Some p -> waits p = true ->
  u ∈ cv_wchan s /\ p = Cw_asleep.
Proof.
  intros Hi Hc Hne Hu Hp.
  assert (p = Cw_asleep) as ->.
  { destruct p as [| |a|r| | |r| | | | |g|g]; try done; exfalso; apply Hne;
      pose proof (owned_holder _ _ _ _ _ (inv_cv _ Hi) Hu eq_refl); congruence. }
  split; [|done]. apply (inv_cvw _ Hi). by exists Cw_asleep.
Qed.

(** No lost signal. When [cv_signal] or [cv_broadcast] reaches its wake-up step,
    every thread that gave the lock up in [cv_wait] and was not woken yet is on the
    wait channel, because it kept the condition variable's spinlock from before the
    release of the lock until it was asleep. The signal wakes the thread that has
    slept longest, the broadcast all of them. *)
Theorem cv_no_lost_signal (n : nat) (s : st) (t : nat) (Hr : reachable n s) :
  (pcs s !! t = Some (Sig Sg_wake) ->
     (forall u p, pcs s !! u = Some p -> waits p = true -> u ∈ cv_wchan s) /\
     exists s', run t s = Next s' /\ cv_wchan s' = tail (cv_wchan s) /\
       forall u, head (cv_wchan s) = Some u -> pcs s' !! u = Some Cw_relock) /\
  (pcs s !! t = Some (Bcast Sg_wake) ->
     (forall u p, pcs s !! u = Some p -> waits p = true -> u ∈ cv_wchan s) /\
     exists s', run t s = Next s' /\ cv_wchan s' = [] /\
       forall u p, pcs s' !! u = Some p -> waits p = false).
Proof.
  pose proof (reachable_inv n s Hr) as Hi. split; intros Ht.
  - assert (Hc : cv_lock s = Some t) by exact (owned_holder _ _ _ _ _ (inv_cv _ Hi) Ht eq_refl). split.
    { intros u p Hu Hp. apply (waits_asleep s t u p); try done. intros ->. by simplify_eq. }
    unfold run. rewrite Ht. cbn. unfold spinlock_do_i_hold. rewrite bool_decide_true by done.
    eexists. split; [done|]. unfold cv_wakeone. destruct (cv_wchan s) as [|u q] eqn:Eq; [split; [exact Eq|done]|].
    split; [done|]. intros u' [= <-]. cbn.
    destruct (queued_at _ _ _ u (inv_cvw _ Hi)) as (p & Hu & Hp); [rewrite Eq; apply elem_of_cons; auto|].
    rewrite list_lookup_insert_ne by (intros ->; by simplify_eq).
    by rewrite list_lookup_insert_eq by (by eapply lookup_lt_Some).
  - assert (Hc : cv_lock s = Some t) by exact (owned_holder _ _ _ _ _ (inv_cv _ Hi) Ht eq_refl). split.
    { intros u p Hu Hp. apply (waits_asleep s t u p); try done. intros ->. by simplify_eq. }
    pose proof (run_good s t Hi) as Hg. revert Hg.
    unfold run. rewrite Ht. cbn. unfold spinlock_do_i_hold. rewrite bool_decide_true by done.
    intros Hi'. eexists. split; [done|]. split; [done|]. intros u p Hu. destruct (waits p) eqn:Ew; [exfalso|done].
    assert (Hne : u <> t).
    { intros ->. cbn in Hu. rewrite list_lookup_insert_eq in Hu; [by simplify_eq|].
      apply lookup_lt_Some in Hu. by rewrite length_insert in Hu. }
    destruct (waits_asleep _ t u p Hi' Hc Hne Hu Ew) as [F _]. by apply not_elem_of_nil in F.
Qed.

(** The spinlocks never deadlock: whenever some thread spins, some thread can
    execute its next statement, although [cv_wait] takes the lock's spinlock while it
    holds the condition variable's. *)
Theorem spin_progress (n : nat) (s : st) (t : nat) (Hr : reachable n s) (Hs : run t s = Spin) :
  exists u s', run u s = Next s'.
Proof.
  pose proof (reachable_inv n s Hr) as Hi. destruct (lk_lock s) as [u|] eqn:El.
  - apply (inv_lk _ Hi) in El as (p & Hu & Hp). exists u. by eapply lk_holder_runs.
  - destruct (cv_lock s) as [u|] eqn:Ec.
    + apply (inv_cv _ Hi) in Ec as (p & Hu & Hp). exists u. by eapply cv_holder_runs.
    + exfalso. unfold run in Hs. destruct (pcs s !! t) as [p|]; [|done].
      destruct p as [| |a|r| | |r| | | | |g|g]; try done;
        [destruct a|destruct r| | |destruct r| | | |destruct g|destruct g];
        cbn in Hs; unfold lock_do_i_hold, spinlock_acquire, spinlock_release, wchan_sleep in Hs;
        rewrite ?El, ?Ec in Hs; repeat case_match; done.
Qed.

(** ** Runs as lists of actions *)

Inductive act := Do (t : nat) | Call (t : nat) (p : pc).

Definition can_call (from to : pc) : bool :=
  match from, to with
  | Out, Acq Aq_check => true
  | In, Rel Rl_check | In, Cw_check | In, Sig Sg_check | In, Bcast Sg_check => true
  | _, _ => false
  end.

Fixpoint exec (l : list act) (s : st) : option st :=
  match l with
  | [] => Some s
  | Do t :: l' => match run t s with Next s' => exec l' s' | _ => None end
  | Call t p :: l' =>
      match pcs s !! t with
      | Some q => if can_call q p then exec l' (goto t p s) else None
      | None => None
      end
  end.

Lemma can_call_step s t q p : pcs s !! t = Some q -> can_call q p = true -> step s (goto t p s).
Proof.
  intros Ht Hc. destruct q; try done; destruct p as [| |[]|[]| | |r| | | | |[]|[]]; try done; by constructor.
Qed.

Lemma exec_rtc l s s' : exec l s = Some s' -> rtc step s s'.
Proof.
  revert s. induction l as [|[t|t p] l IH]; cbn; intros s He.
  - injection He as ->. constructor.
  - destruct (run t s) eqn:Er; try done. eapply rtc_l; [by eapply step_run|by apply IH].
  - destruct (pcs s !! t) eqn:Ht; [|done]. destruct (can_call _ _) eqn:Ec; [|done].
    eapply rtc_l; [by eapply can_call_step|by apply IH].
Qed.

(** Thread 0 takes the lock; thread 1 finds it taken and sleeps. *)
Definition contend : list act :=
  [Call 0 (Acq Aq_check); Do 0; Do 0; Do 0; Do 0; Call 1 (Acq Aq_check); Do 1; Do 1; Do 1].

(** Thread 0 takes the lock and waits; thread 1 takes it and signals, up to the
    wake-up step. *)
Definition wait_signal (g : sig_pc -> pc) : list act :=
  [Call 0 (Acq Aq_check); Do 0; Do 0; Do 0; Do 0; Call 0 Cw_check; Do 0; Do 0; Do 0; Do 0; Do 0; Do 0; Do 0; Do 0;
   Call 1 (Acq Aq_check); Do 1; Do 1; Do 1; Do 1; Call 1 (g Sg_check); Do 1; Do 1].

Definition from_exec (l : list act) (n : nat) : st := default (init n) (exec l (init n)).

Lemma lock_safe_witness :
  pcs (from_exec contend 2) !! 0%nat = Some In /\ forall t h, run t (from_exec contend 2) <> Crash h.
Proof.
  split; [reflexivity|].
  apply (lock_safe 2 (from_exec contend 2)). apply (exec_rtc contend). vm_compute. reflexivity.
Defined.

Lemma lock_no_lost_wakeup_witness :
  lk_wchan (from_exec contend 2) = [1%nat] /\
  exists t, lk_owner (from_exec contend 2) = Some t /\ pcs (from_exec contend 2) !! t = Some In.
Proof.
  split; [reflexivity|].
  apply (lock_no_lost_wakeup 2 (from_exec contend 2)).
  - apply (exec_rtc contend). vm_compute. reflexivity.
  - intros [|[|t]]; vm_compute; reflexivity.
  - discriminate.
Defined.

Lemma cv_no_lost_signal_witness :
  pcs (from_exec (wait_signal Sig) 2) !! 1%nat = Some (Sig Sg_wake) /\
  exists s', run 1 (from_exec (wait_signal Sig) 2) = Next s' /\ pcs s' !! 0%nat = Some Cw_relock.
Proof.
  split; [reflexivity|].
  destruct (cv_no_lost_signal 2 (from_exec (wait_signal Sig) 2) 1) as [H _].
  { apply (exec_rtc (wait_signal Sig)). vm_compute. reflexivity. }
  destruct (H eq_refl) as (_ & s' & E & _ & Hh). exists s'. exact (conj E (Hh 0%nat eq_refl)).
Defined.

(** Two threads go for the lock: thread 1 spins while thread 0 has the spinlock. *)
Lemma spin_progress_witness :
  exists s, reachable 2 s /\ run 1 s = Spin /\ exists u s', run u s = Next s'.
Proof.
  exists (from_exec [Call 0 (Acq Aq_check); Do 0; Do 0; Call 1 (Acq Aq_check)] 2).
  assert (Hr : reachable 2 (from_exec [Call 0 (Acq Aq_check); Do 0; Do 0; Call 1 (Acq Aq_check)] 2)).
  { apply (exec_rtc [Call 0 (Acq Aq_check); Do 0; Do 0; Call 1 (Acq Aq_check)]). vm_compute. reflexivity. }
  split; [exact Hr|]. split; [reflexivity|].
  apply (spin_progress 2 _ 1 Hr). reflexivity.
Defined.

End Lock.
