(* ===== verification/Semaphore.v ===== *)
(** * Semaphores, kern/thread/synch.c

    Any number of threads call [P] and [V] on one semaphore; one step of one thread
    is one statement, as in Synch.v, whose spinlocks and wait channels are used
    here. *)

From stdpp Require Import base numbers list relations.
From Stdlib Require Import ZArith Lia.
From S2P Require Import Prelude.
From S2P Require Import Synch.

Module Sem.

(** Statements of [P] and [V]. *)
Inductive pc := Out | P_lock | P_test | P_unlock | P_asleep | V_lock | V_inc | V_wake | V_unlock.

#[global] Instance pc_eq_dec : EqDecision pc.
Proof. solve_decision. Defined.

(** kern/include/synch.h:47-52 (struct semaphore), with the threads and two counters
    of what has happened so far: completed [P]s and [V]s. *)
Record st := mkst {
  sem_count : Z;
  sem_lock : option nat;
  sem_wchan : list nat;
  pcs : list pc;
  passed : Z;
  posted : Z
}.

Definition goto (t : nat) (p : pc) s :=
  mkst (sem_count s) (sem_lock s) (sem_wchan s) (<[t := p]> (pcs s)) (passed s) (posted s).
Definition set_lock x s := mkst (sem_count s) x (sem_wchan s) (pcs s) (passed s) (posted s).
Definition set_wchan x s := mkst (sem_count s) (sem_lock s) x (pcs s) (passed s) (posted s).

(** kern/thread/synch.c:88-121 (P); the caller is not an interrupt handler. *)
Definition P (t : nat) (p : pc) (s : st) : res st :=
  match p with
  | P_lock => spinlock_acquire (sem_lock s) t (goto t P_test (set_lock (Some t) s))
  | P_test =>
      if Z.eqb (sem_count s) 0
      then wchan_sleep (sem_lock s) (if decide (sem_lock s = Some t) then 1 else 0)%nat t
             (goto t P_asleep (set_lock None (set_wchan (sem_wchan s ++ [t]) s)))
      else if Z.ltb 0 (sem_count s)
      then Next (goto t P_unlock
                  (mkst (sem_count s - 1) (sem_lock s) (sem_wchan s) (pcs s) (passed s + 1) (posted s)))
      else Crash KAssert
  | P_unlock => spinlock_release (sem_lock s) t (goto t Out (set_lock None s))
  | _ => Stop
  end.

(** kern/thread/synch.c:123-135 (V). *)
Definition V (t : nat) (p : pc) (s : st) : res st :=
  match p with
  | V_lock => spinlock_acquire (sem_lock s) t (goto t V_inc (set_lock (Some t) s))
  | V_inc =>
      if Z.ltb 0 (u32 (sem_count s + 1))
      then Next (goto t V_wake
                  (mkst (u32 (sem_count s + 1)) (sem_lock s) (sem_wchan s) (pcs s) (passed s) (posted s + 1)))
      else Crash KAssert
  | V_wake =>
      if spinlock_do_i_hold (sem_lock s) t then
        Next (goto t V_unlock
          (match sem_wchan s with
           | [] => s
           | u :: q => set_wchan q (goto u P_lock s)
           end))
      else Crash KAssert
  | V_unlock => spinlock_release (sem_lock s) t (goto t Out (set_lock None s))
  | _ => Stop
  end.

Definition run (t : nat) (s : st) : res st :=
  match pcs s !! t with
  | None => Stop
  | Some p => match p with
              | V_lock | V_inc | V_wake | V_unlock => V t p s
              | _ => P t p s
              end
  end.

Inductive step : st -> st -> Prop :=
| step_run t s s' : run t s = Next s' -> step s s'
| step_P t s : pcs s !! t = Some Out -> step s (goto t P_lock s)
| step_V t s : pcs s !! t = Some Out -> step s (goto t V_lock s).

(** kern/thread/synch.c:47-74 (sem_create) for [n] threads; [mem] tells which of the
    three allocations (structure, name, wait channel) find memory. *)
Definition sem_create (mem : bool * bool * bool) (n : nat) (initial_count : Z) : option st :=
  let '(m1, m2, m3) := mem in
  if m1 then if m2 then if m3
  then Some (mkst initial_count None [] (replicate n Out) 0 0)
  else None else None else None.

(** kern/thread/synch.c:76-86 (sem_destroy): the state it requires; the memory is freed. *)
Definition sem_destroy (s : st) : res unit :=
  match sem_lock s, sem_wchan s with
  | None, [] => Next tt
  | _, _ => Crash KAssert
  end.

Definition reachable (n : nat) (c : Z) (s : st) : Prop :=
  exists mem s0, sem_create mem n c = Some s0 /\ rtc step s0 s.

(** ** Invariant *)

Definition has_spin (p : pc) : bool :=
  match p with P_test | P_unlock | V_inc | V_wake | V_unlock => true | _ => false end.

Definition asleep (p : pc) : bool := match p with P_asleep => true | _ => false end.

(** Threads that are awake on their way to decrement the count, or about to wake a
    sleeper up. *)
Definition coming (p : pc) : nat := match p with P_lock | P_test | V_wake => 1 | _ => 0 end.

Definition attended (s : st) : Prop :=
  sem_wchan s <> [] -> (sem_count s <= Z.of_nat (sum_list_with coming (pcs s)))%Z.

Record inv (c : Z) (s : st) : Prop := {
  inv_lock : owned (sem_lock s) has_spin (pcs s);
  inv_wchan : queued (sem_wchan s) asleep (pcs s);
  inv_count : (sem_count s + passed s = c + posted s)%Z;
  inv_range : (0 <= sem_count s < 2 ^ 32)%Z;
  inv_att : attended s
}.

Lemma sum_insert l t p p' : l !! t = Some p ->
  (sum_list_with coming (<[t := p']> l) + coming p = sum_list_with coming l + coming p')%nat.
Proof.
  revert t. induction l as [|x l IH]; intros [|t] Ht; try done.
  - injection Ht as ->. cbn. lia.
  - change (<[S t := p']> (x :: l)) with (x :: <[t := p']> l).
    specialize (IH t Ht). cbn [sum_list_with]. lia.
Qed.

(** A thread moves and the count changes by [d] (with it the history). *)
Lemma sem_inv_move c s s' t p p' :
  inv c s -> pcs s !! t = Some p -> pcs s' = <[t := p']> (pcs s) -> sem_wchan s' = sem_wchan s ->
  (sem_count s' + passed s' = c + posted s')%Z -> (0 <= sem_count s' < 2 ^ 32)%Z ->
  (sem_count s' + Z.of_nat (coming p) <= sem_count s + Z.of_nat (coming p'))%Z ->
  asleep p = asleep p' -> owned (sem_lock s') has_spin (<[t := p']> (pcs s)) -> inv c s'.
Proof.
  intros [Hl Hw Hc Hr Ha] Ht Ep Ew Hc' Hr' Hd Has Ho. split; try done.
  - by rewrite Ep.
  - rewrite Ep, Ew. by eapply queued_keep.
  - intros Hq. rewrite Ep. rewrite Ew in Hq. specialize (Ha Hq).
    pose proof (sum_insert (pcs s) t p p' Ht). lia.
Qed.

(** The first sleeper becomes runnable. *)
Lemma inv_wake c s u q : inv c s -> sem_wchan s = u :: q ->
  inv c (set_wchan q (goto u P_lock s)) /\
  sum_list_with coming (<[u := P_lock]> (pcs s)) = S (sum_list_with coming (pcs s)).
Proof.
  intros [Hl Hw Hc Hr Ha] Eq. rewrite Eq in Hw.
  destruct (queued_at _ _ _ u Hw) as (p & Hu & Hp); [apply elem_of_cons; auto|].
  assert (p = P_asleep) as -> by (by destruct p).
  pose proof (sum_insert (pcs s) u P_asleep P_lock Hu) as Hs. cbn in Hs. split; [|lia].
  split; cbn; try done.
  - by eapply owned_keep.
  - by apply queued_pop.
  - intros _. cbn. assert (Hq : sem_wchan s <> []) by (by rewrite Eq). specialize (Ha Hq). lia.
Qed.

(** The only assertion that can fail is the one on the wrap-around of the count. *)
Definition good (c : Z) (s : st) (r : res st) : Prop :=
  match r with Next s' => inv c s' | Crash _ => sem_count s = (2 ^ 32 - 1)%Z | Spin | Stop => True end.

Lemma P_good c s t p : inv c s -> pcs s !! t = Some p -> good c s (P t p s).
Proof.
  intros Hi Ht. pose proof Hi as [Hl Hw Hc Hr Ha]. destruct p; try done; cbn [P].
  - unfold spinlock_acquire. pose proof (owned_not _ _ _ _ _ Hl Ht eq_refl) as Hne.
    destruct (sem_lock s) as [u|] eqn:El; [case_decide; [congruence|done]|].
    apply (sem_inv_move c s _ t P_lock P_test); try done. by eapply owned_take.
  - pose proof (owned_holder _ _ _ _ _ Hl Ht eq_refl) as El. destruct (Z.eqb (sem_count s) 0) eqn:E0; bool_to_prop.
    + unfold wchan_sleep, spinlock_do_i_hold. rewrite El, bool_decide_true, (decide_True (P := Some t = Some t)), decide_True by done.
      split; cbn; try done; [by eapply owned_drop|by eapply queued_push|]. intros _. cbn. lia.
    + destruct (Z.ltb 0 (sem_count s)) eqn:E1; bool_to_prop; [|lia].
      apply (sem_inv_move c s _ t P_test P_unlock); cbn; try done; try lia. by eapply owned_keep.
  - unfold spinlock_release. rewrite (owned_holder _ _ _ _ _ Hl Ht eq_refl), decide_True by done.
    apply (sem_inv_move c s _ t P_unlock Out); try done. by eapply owned_drop.
Qed.

Lemma V_good c s t p : inv c s -> pcs s !! t = Some p -> good c s (V t p s).
Proof.
  intros Hi Ht. pose proof Hi as [Hl Hw Hc Hr Ha]. destruct p; try done; cbn [V].
  - unfold spinlock_acquire. pose proof (owned_not _ _ _ _ _ Hl Ht eq_refl) as Hne.
    destruct (sem_lock s) as [u|] eqn:El; [case_decide; [congruence|done]|].
    apply (sem_inv_move c s _ t V_lock V_inc); try done. by eapply owned_take.
  - destruct (Z.ltb 0 (u32 (sem_count s + 1))) eqn:E1; bool_to_prop.
    + assert (sem_count s + 1 < 2 ^ 32)%Z.
      { destruct (Z.eq_dec (sem_count s) (2 ^ 32 - 1)) as [E|]; [|lia]. by rewrite E in E1. }
      rewrite wrapu_small by lia. apply (sem_inv_move c s _ t V_inc V_wake); cbn; try done; try lia. by eapply owned_keep.
    + cbn. destruct (Z.lt_ge_cases (sem_count s) (2 ^ 32 - 1)); [|lia]. rewrite wrapu_small in E1; lia.
  - unfold spinlock_do_i_hold. rewrite (owned_holder _ _ _ _ _ Hl Ht eq_refl), bool_decide_true by done.
    destruct (sem_wchan s) as [|u q] eqn:Eq.
    + split; cbn; try done; [by eapply owned_keep|rewrite Eq; by eapply queued_keep|]. intros F. cbn in F. congruence.
    + destruct (inv_wake c s u q Hi Eq) as [Hi' Hs]. destruct Hi' as [Hl' Hw' Hc' Hr' Ha'].
      assert (Hne : u <> t).
      { intros ->. destruct (queued_at _ _ _ t Hw) as (p & Hu & Hp); [apply elem_of_cons; auto|]. by simplify_eq. }
      assert (Ht' : <[u := P_lock]> (pcs s) !! t = Some V_wake) by (by rewrite list_lookup_insert_ne).
      split; cbn; try done; [by eapply owned_keep|by eapply queued_keep|].
      intros _. cbn. pose proof (sum_insert _ t _ V_unlock Ht') as Hs'. cbn in Hs'.
      assert (Hq : sem_wchan s <> []) by (by rewrite Eq). specialize (Ha Hq). lia.
  - unfold spinlock_release. rewrite (owned_holder _ _ _ _ _ Hl Ht eq_refl), decide_True by done.
    apply (sem_inv_move c s _ t V_unlock Out); try done. by eapply owned_drop.
Qed.

Lemma sem_run_good c s t : inv c s -> good c s (run t s).
Proof.
  intros Hi. unfold run. destruct (pcs s !! t) as [p|] eqn:Ht; [|done].
  destruct p; auto using P_good, V_good.
Qed.

Lemma sem_reachable_inv n c s : (0 <= c < 2 ^ 32)%Z -> reachable n c s -> inv c s.
Proof.
  intros Hc ([[m1 m2] m3] & s0 & E & Hr). assert (Hi : inv c s0).
  { destruct m1, m2, m3; try done. injection E as <-.
    assert (H : forall h u, h Out = false -> ~ exists p, replicate n Out !! u = Some p /\ h p = true).
    { intros h u Hh (p & E & Hp). apply lookup_replicate in E as [-> _]. congruence. }
    split; cbn; try done; try lia; [| |intros F; done].
    - intros u. split; [done|]. by intros ?%H.
    - split; [constructor|]. intros u. split; [by intros ?%not_elem_of_nil|]. by intros ?%H. }
  clear E. induction Hr as [|s0 s1 s2 Hs _ IH]; [done|]. apply IH.
  destruct Hs as [t s s' Hrun|t s Ht|t s Ht].
  - pose proof (sem_run_good c s t Hi) as Hg. by rewrite Hrun in Hg.
  - pose proof Hi as [Hl Hw Hc' Hr Ha]. apply (sem_inv_move c s _ t Out P_lock); cbn; try done; [lia|by eapply owned_keep].
  - pose proof Hi as [Hl Hw Hc' Hr Ha]. apply (sem_inv_move c s _ t Out V_lock); cbn; try done; by eapply owned_keep.
Qed.

(** C21. Semaphores. In every reachable state the number of completed [P]s is the
    initial count plus the number of [V]s minus the current count, which is never
    negative: no more threads pass [P] than the semaphore allows. The only assertion
    that can fail is the one in [V] that detects the wrap-around of the count. *)
Theorem sem_safe (n : nat) (c : Z) (s : st) (Hc : (0 <= c < 2 ^ 32)%Z) (Hr : reachable n c s) :
  (sem_count s = c + posted s - passed s)%Z /\ (0 <= sem_count s < 2 ^ 32)%Z /\
  forall t h, run t s = Crash h -> sem_count s = (2 ^ 32 - 1)%Z /\ pcs s !! t = Some V_inc.
Proof.
  pose proof (sem_reachable_inv n c s Hc Hr) as Hi. pose proof Hi as [_ _ Hcnt Hrg _].
  split; [lia|]. split; [done|]. intros t h E. pose proof (sem_run_good c s t Hi) as Hg. rewrite E in Hg. split; [done|].
  cbn in Hg. unfold run in E. destruct (pcs s !! t) as [p|] eqn:Ht; [|done]. f_equal.
  pose proof (owned_holder _ _ _ _ _ (inv_lock _ _ Hi) Ht) as Hown.
  pose proof (owned_not _ _ _ _ _ (inv_lock _ _ Hi) Ht) as Hnot.
  destruct p; try done; exfalso; cbn in E, Hown, Hnot;
    unfold spinlock_acquire, spinlock_release, spinlock_do_i_hold, wchan_sleep in E;
    try rewrite (Hown eq_refl) in E; rewrite ?Hg in E; cbn in E; repeat case_match; simplify_eq; try done;
    first [by apply Hnot|by apply bool_decide_eq_false in H].
Qed.

(** No lost wakeup on a semaphore: when no thread is in the middle of [P] or [V]
    and some thread sleeps in [P], the count is 0. *)
Theorem sem_no_lost_wakeup (n : nat) (c : Z) (s : st) (Hc : (0 <= c < 2 ^ 32)%Z) (Hr : reachable n c s)
    (Hrest : forall t, run t s = Stop) (Hq : sem_wchan s <> []) :
  sem_count s = 0%Z.
Proof.
  pose proof (sem_reachable_inv n c s Hc Hr) as [Hl Hw _ Hrg Ha]. specialize (Ha Hq).
  enough (sum_list_with coming (pcs s) = 0%nat) by lia.
  assert (Hz : forall t p, pcs s !! t = Some p -> coming p = 0%nat).
  { intros t p Ht. pose proof (Hrest t) as E. unfold run in E. rewrite Ht in E.
    destruct p; try done; cbn in E; unfold spinlock_acquire, wchan_sleep, spinlock_do_i_hold in E; repeat case_match; done. }
  clear -Hz. induction (pcs s) as [|p l IH]; [done|]. cbn. rewrite (Hz 0%nat p eq_refl), IH; [done|].
  intros t q Ht. exact (Hz (S t) q Ht).
Qed.

(** Thread 0 of two passes a semaphore of count 1, thread 1 sleeps. *)
Inductive act := Do (t : nat) | CallP (t : nat) | CallV (t : nat).

Fixpoint exec (l : list act) (s : st) : option st :=
  match l with
  | [] => Some s
  | Do t :: l' => match run t s with Next s' => exec l' s' | _ => None end
  | CallP t :: l' => if decide (pcs s !! t = Some Out) then exec l' (goto t P_lock s) else None
  | CallV t :: l' => if decide (pcs s !! t = Some Out) then exec l' (goto t V_lock s) else None
  end.

Lemma sem_exec_rtc l s s' : exec l s = Some s' -> rtc step s s'.
Proof.
  revert s. induction l as [|[t|t|t] l IH]; cbn; intros s He.
  - injection He as ->. constructor.
  - destruct (run t s) eqn:Er; try done. eapply rtc_l; [by eapply step_run|by apply IH].
  - case_decide; [|done]. eapply rtc_l; [by apply step_P|by apply IH].
  - case_decide; [|done]. eapply rtc_l; [by apply step_V|by apply IH].
Qed.

Definition two_P : list act := [CallP 0; Do 0; Do 0; Do 0; CallP 1; Do 1; Do 1].
Definition sem0 : st := mkst 1 None [] (replicate 2 Out) 0 0.
Definition two_P_st : st := default sem0 (exec two_P sem0).

Lemma two_P_reachable : reachable 2 1 two_P_st.
Proof.
  exists (true, true, true), sem0. split; [reflexivity|]. apply (sem_exec_rtc two_P). vm_compute. reflexivity.
Qed.

Lemma sem_safe_witness : sem_count two_P_st = 0%Z /\ (sem_count two_P_st = 1 + posted two_P_st - passed two_P_st)%Z.
Proof.
  split; [reflexivity|].
  apply (sem_safe 2 1 two_P_st); [lia|exact two_P_reachable].
Defined.

Lemma sem_no_lost_wakeup_witness : sem_wchan two_P_st = [1%nat] /\ sem_count two_P_st = 0%Z.
Proof.
  split; [reflexivity|].
  apply (sem_no_lost_wakeup 2 1 two_P_st); [lia|exact two_P_reachable| |discriminate].
  intros [|[|t]]; vm_compute; reflexivity.
Defined.

End Sem.
