(* ===== verification/ThreadList.v ===== *)
(** * Lists of threads, kern/thread/threadlist.c

    A thread is on at most one list, linked through the node inside the thread; every
    list has two nodes of its own as bookends. Nodes are named by what contains them, so
    that pointers to the same node are the same pointer. The lists themselves are named
    by the type [I].

    [lists_ok T L s] says that the nodes represent the lists [L] of the threads [T]: the
    links go both ways, the counts are right and threads that are on no list have null
    links. Each operation is shown to be the operation on lists, whatever else is in the
    other lists. *)

From stdpp Require Import base functions numbers list gmap.
From Stdlib Require Import ZArith Lia.
From S2P Require Import Prelude.

Open Scope Z_scope.
Open Scope k_scope.

Section Lists.
Context {I : Type} `{Countable I}.

(** Where a node is: in a list, or in a thread. *)
Inductive tln := Head (i : I) | Tail (i : I) | Node (t : Z).

#[global] Instance tln_eq_dec : EqDecision tln.
Proof. solve_decision. Defined.

(** kern/include/threadlist.h:59-63 (struct threadlistnode). *)
Record threadlistnode := mknode { tln_prev : option tln; tln_next : option tln; tln_self : option Z }.

(** kern/include/threadlist.h:65-69 (struct threadlist): the nodes of all lists and all
    threads, and the counts. *)
Record tlists := mktl { node : tln -> threadlistnode; tl_count : I -> Z }.

Definition set_next p x (s : tlists) : tlists := mktl (<[p := mknode (tln_prev (node s p)) x (tln_self (node s p))]> (node s)) (tl_count s).
Definition set_prev p x (s : tlists) : tlists := mktl (<[p := mknode x (tln_next (node s p)) (tln_self (node s p))]> (node s)) (tl_count s).
Definition set_node p x (s : tlists) : tlists := mktl (<[p := x]> (node s)) (tl_count s).
Definition set_count i x (s : tlists) : tlists := mktl (node s) (<[i := x]> (tl_count s)).

(** A pointer that is followed. *)
Definition deref (p : option tln) : K tlists tln := match p with Some q => kret q | None => khalt NullDeref end.

(** kern/thread/threadlist.c:39-48 (threadlistnode_init). *)
Definition threadlistnode_init (t : Z) : K tlists unit := kmodify (set_node (Node t) (mknode None None (Some t))).

(** kern/thread/threadlist.c:50-58 (threadlistnode_cleanup). *)
Definition threadlistnode_cleanup (t : Z) : K tlists unit :=
  s <- kget ;;
  kassert (bool_decide (tln_next (node s (Node t)) = None)) ;;;
  kassert (bool_decide (tln_prev (node s (Node t)) = None)) ;;;
  kassert (bool_decide (tln_self (node s (Node t)) <> None)).

(** kern/thread/threadlist.c:60-72 (threadlist_init). *)
Definition threadlist_init (i : I) : K tlists unit :=
  kmodify (fun s => set_count i 0 (set_node (Tail i) (mknode (Some (Head i)) None None)
                                     (set_node (Head i) (mknode None (Some (Tail i)) None) s))).

(** kern/thread/threadlist.c:91-97 (threadlist_isempty). *)
Definition threadlist_isempty (i : I) : K tlists bool :=
  s <- kget ;;
  kret (tl_count s i =? 0).

(** kern/thread/threadlist.c:74-89 (threadlist_cleanup). *)
Definition threadlist_cleanup (i : I) : K tlists unit :=
  b <- threadlist_isempty i ;;
  kassert b ;;;
  s <- kget ;;
  kassert (tl_count s i =? 0).

(** kern/thread/threadlist.c:106-120 (threadlist_insertafternode). *)
Definition threadlist_insertafternode (onlist : tln) (t : Z) : K tlists unit :=
  let addee := Node t in
  kmodify (set_prev addee (Some onlist)) ;;;
  s <- kget ;;
  kmodify (set_next addee (tln_next (node s onlist))) ;;;
  kmodify (set_next onlist (Some addee)) ;;;
  s <- kget ;;
  q <- deref (tln_next (node s addee)) ;;
  kmodify (set_prev q (Some addee)).

(** kern/thread/threadlist.c:126-140 (threadlist_insertbeforenode). *)
Definition threadlist_insertbeforenode (t : Z) (onlist : tln) : K tlists unit :=
  let addee := Node t in
  s <- kget ;;
  kmodify (set_prev addee (tln_prev (node s onlist))) ;;;
  kmodify (set_next addee (Some onlist)) ;;;
  s <- kget ;;
  p <- deref (tln_prev (node s addee)) ;;
  kmodify (set_next p (Some addee)) ;;;
  kmodify (set_prev onlist (Some addee)).

(** kern/thread/threadlist.c:146-157 (threadlist_removenode). *)
Definition threadlist_removenode (tln : tln) : K tlists unit :=
  s <- kget ;;
  p <- deref (tln_prev (node s tln)) ;;
  kmodify (set_next p (tln_next (node s tln))) ;;;
  s <- kget ;;
  q <- deref (tln_next (node s tln)) ;;
  kmodify (set_prev q (tln_prev (node s tln))) ;;;
  kmodify (set_prev tln None) ;;;
  kmodify (set_next tln None).

Definition count_add (i : I) (d : Z) : K tlists unit :=
  s <- kget ;;
  kmodify (set_count i (u32 (tl_count s i + d))).

(** kern/thread/threadlist.c:162-170 (threadlist_addhead). *)
Definition threadlist_addhead (i : I) (t : Z) : K tlists unit :=
  threadlist_insertafternode (Head i) t ;;;
  count_add i 1.

(** kern/thread/threadlist.c:172-180 (threadlist_addtail). *)
Definition threadlist_addtail (i : I) (t : Z) : K tlists unit :=
  threadlist_insertbeforenode t (Tail i) ;;;
  count_add i 1.

(** kern/thread/threadlist.c:182-198 (threadlist_remhead); [None] is [NULL]. *)
Definition threadlist_remhead (i : I) : K tlists (option Z) :=
  s <- kget ;;
  tln <- deref (tln_next (node s (Head i))) ;;
  if bool_decide (tln_next (node s tln) = None) then kret None else
  threadlist_removenode tln ;;;
  count_add i (-1) ;;;
  s <- kget ;;
  kret (tln_self (node s tln)).

(** kern/thread/threadlist.c:200-216 (threadlist_remtail). *)
Definition threadlist_remtail (i : I) : K tlists (option Z) :=
  s <- kget ;;
  tln <- deref (tln_prev (node s (Tail i))) ;;
  if bool_decide (tln_prev (node s tln) = None) then kret None else
  threadlist_removenode tln ;;;
  count_add i (-1) ;;;
  s <- kget ;;
  kret (tln_self (node s tln)).

(** kern/thread/threadlist.c:218-224 (threadlist_insertafter). *)
Definition threadlist_insertafter (i : I) (onlist addee : Z) : K tlists unit :=
  threadlist_insertafternode (Node onlist) addee ;;;
  count_add i 1.

(** kern/thread/threadlist.c:226-232 (threadlist_insertbefore). *)
Definition threadlist_insertbefore (i : I) (addee onlist : Z) : K tlists unit :=
  threadlist_insertbeforenode addee (Node onlist) ;;;
  count_add i 1.

(** kern/thread/threadlist.c:233-240 (threadlist_remove). *)
Definition threadlist_remove (i : I) (t : Z) : K tlists unit :=
  threadlist_removenode (Node t) ;;;
  count_add i (-1).

(** ** Links in both directions *)

Fixpoint linked (m : tln -> threadlistnode) (l : list tln) : Prop :=
  match l with
  | a :: (b :: _) as l' => tln_next (m a) = Some b /\ tln_prev (m b) = Some a /\ linked m l'
  | _ => True
  end.

Lemma linked_cons m a b l : linked m (a :: b :: l) <-> tln_next (m a) = Some b /\ tln_prev (m b) = Some a /\ linked m (b :: l).
Proof. done. Qed.

Lemma linked_app m l1 a l2 : linked m (l1 ++ a :: l2) <-> linked m (l1 ++ [a]) /\ linked m (a :: l2).
Proof.
  induction l1 as [|x l1 IH]; [cbn; tauto|]. destruct l1 as [|y l1]; [cbn; destruct l2; tauto|].
  change ((x :: y :: l1) ++ a :: l2) with (x :: y :: (l1 ++ a :: l2)). change ((x :: y :: l1) ++ [a]) with (x :: y :: (l1 ++ [a])).
  cbn [linked]. change (y :: (l1 ++ a :: l2)) with ((y :: l1) ++ a :: l2). rewrite IH. cbn [app]. tauto.
Qed.

(** Only the links between the nodes matter. *)
Lemma linked_ext m m' l : linked m l -> (forall a l', l = a :: l' -> forall b, b ∈ l' -> tln_prev (m' b) = tln_prev (m b)) ->
  (forall b l', l = l' ++ [b] -> forall a, a ∈ l' -> tln_next (m' a) = tln_next (m a)) -> linked m' l.
Proof.
  induction l as [|a l IH]; [done|]. destruct l as [|b l]; [done|]. cbn [linked]. intros (Hn & Hp & Hl) Hprev Hnext.
  destruct (exists_last (l := a :: b :: l)) as (l' & z & E); [done|]. assert (Ha : a ∈ l').
  { destruct l' as [|x l']; cbn in E; [discriminate|]. injection E as -> _. left. }
  split; [rewrite (Hnext z l' E a Ha); done|]. split; [rewrite (Hprev a (b :: l) eq_refl b); [done|left]|]. apply IH; [done| |].
  - intros a' l'' [= -> ->] c Hc. apply (Hprev a (a' :: l'')); [done|by right].
  - intros z' l'' E' c Hc. apply (Hnext z' (a :: l'')); [by rewrite E'|by right].
Qed.

(** The nodes of a list. *)
Definition nodes_of (i : I) (ts : list Z) : list tln := Head i :: (Node <$> ts) ++ [Tail i].

(** [t] is on none of the lists. *)
Definition off_list (L : gmap I (list Z)) (t : Z) : Prop := forall i ts, L !! i = Some ts -> t ∉ ts.

Record lists_ok (T : gset Z) (L : gmap I (list Z)) (s : tlists) : Prop := {
  lo_link : forall i ts, L !! i = Some ts -> linked (node s) (nodes_of i ts);
  lo_ends : forall i ts, L !! i = Some ts -> tln_prev (node s (Head i)) = None /\ tln_next (node s (Tail i)) = None;
  lo_count : forall i ts, L !! i = Some ts -> tl_count s i = Z.of_nat (length ts);
  lo_nodup : forall i ts, L !! i = Some ts -> NoDup ts;
  lo_disj : forall i j ts us t, L !! i = Some ts -> L !! j = Some us -> t ∈ ts -> t ∈ us -> i = j;
  lo_threads : forall i ts t, L !! i = Some ts -> t ∈ ts -> t ∈ T;
  lo_self : forall t, t ∈ T -> tln_self (node s (Node t)) = Some t;
  lo_off : forall t, t ∈ T -> off_list L t -> tln_next (node s (Node t)) = None /\ tln_prev (node s (Node t)) = None;
  lo_size : Z.of_nat (size T) < 2 ^ 32
}.

Lemma elem_nodes i ts p : p ∈ nodes_of i ts <-> p = Head i \/ p = Tail i \/ exists t, p = Node t /\ t ∈ ts.
Proof. unfold nodes_of. rewrite elem_of_cons, elem_of_app, list_elem_of_singleton, list_elem_of_fmap. naive_solver. Qed.

Lemma nodup_nodes i ts : NoDup ts -> NoDup (nodes_of i ts).
Proof.
  intros Hnd. unfold nodes_of. constructor.
  - rewrite elem_of_app, list_elem_of_singleton, list_elem_of_fmap. naive_solver.
  - apply NoDup_app. split; [apply NoDup_fmap; [by intros ? ? [=]|done]|]. split; [|apply NoDup_singleton].
    intros p (t & -> & _)%list_elem_of_fmap ?%list_elem_of_singleton. done.
Qed.

(** One list changes. *)
Lemma lists_put T L s s' i ts ts' : lists_ok T L s -> L !! i = Some ts ->
  linked (node s') (nodes_of i ts') -> tln_prev (node s' (Head i)) = None -> tln_next (node s' (Tail i)) = None ->
  tl_count s' i = Z.of_nat (length ts') -> (forall j, j <> i -> tl_count s' j = tl_count s j) ->
  NoDup ts' -> (forall t, t ∈ ts' -> t ∈ ts \/ (t ∈ T) /\ off_list L t) ->
  (forall p, p ∉ nodes_of i ts -> p ∉ nodes_of i ts' -> node s' p = node s p) ->
  (forall t, tln_self (node s' (Node t)) = tln_self (node s (Node t))) ->
  (forall t, t ∈ ts -> t ∉ ts' -> tln_next (node s' (Node t)) = None /\ tln_prev (node s' (Node t)) = None) ->
  lists_ok T (<[i := ts']> L) s'.
Proof.
  intros [O1 O2 O3 O4 O5 O6 O7 O8 O9] Hi Hl Hh Ht Hc Hc' Hnd Hin Hsame Hself Hout.
  assert (Hother : forall j us p, j <> i -> L !! j = Some us -> p ∈ nodes_of j us -> node s' p = node s p).
  { intros j us p Hj Hus Hp. apply Hsame; intros Hp'; apply elem_nodes in Hp as [->|[->|(t & -> & Htu)]]; apply elem_nodes in Hp' as [?|[?|(t' & E & Ht')]]; try congruence;
      injection E as <-; [by eapply Hj, O5|]. destruct (Hin t Ht') as [?|[_ Hoff]]; [by eapply Hj, O5|by apply (Hoff j us)]. }
  split; try done.
  - intros j us [[<- <-]|[Hne Hus]]%lookup_insert_Some; [done|]. apply (linked_ext (node s)); [by apply O1| |].
    + intros a l E b Hb. rewrite (Hother j us); [done|done|done|]. rewrite E. by right.
    + intros b l E a Ha. rewrite (Hother j us); [done|done|done|]. rewrite E. apply elem_of_app. by left.
  - intros j us [[<- <-]|[Hne Hus]]%lookup_insert_Some; [done|]. rewrite !(Hother j us); try done; [by apply (O2 j us)|rewrite elem_nodes; by auto..].
  - intros j us [[<- <-]|[Hne Hus]]%lookup_insert_Some; [done|]. rewrite Hc' by done. by apply O3.
  - intros j us [[<- <-]|[Hne Hus]]%lookup_insert_Some; [done|by eapply O4].
  - intros j k us vs t [[<- <-]|[Hj Hus]]%lookup_insert_Some [[<- <-]|[Hk Hvs]]%lookup_insert_Some Htu Htv; [done| | |by eapply O5].
    + destruct (Hin t Htu) as [?|[_ Hoff]]; [by eapply O5|by destruct (Hoff k vs)].
    + destruct (Hin t Htv) as [?|[_ Hoff]]; [by eapply O5|by destruct (Hoff j us)].
  - intros j us t [[<- <-]|[Hj Hus]]%lookup_insert_Some Htu; [|by eapply O6]. destruct (Hin t Htu) as [?|[? _]]; [by eapply O6|done].
  - intros t HtT. rewrite Hself. by apply O7.
  - intros t HtT Hoff. destruct (decide (t ∈ ts)) as [Hts|Hts]; [apply Hout; [done|]; apply (Hoff i), lookup_insert_eq|].
    rewrite Hsame.
    + apply O8; [done|]. intros j us Hus. destruct (decide (j = i)) as [->|Hj]; [congruence|]. apply (Hoff j). by rewrite lookup_insert_ne.
    + rewrite elem_nodes. intros [?|[?|(? & [= <-] & ?)]]; done.
    + rewrite elem_nodes. intros [?|[?|(? & [= <-] & ?)]]; try done. by apply (Hoff i ts'); [apply lookup_insert_eq|].
Qed.

(** ** Inserting and removing a node *)

(** [x] is put between [a] and [b]. *)
Record inserted (a x b : tln) (m m' : tln -> threadlistnode) : Prop := {
  in_x : m' x = mknode (Some a) (Some b) (tln_self (m x));
  in_a : m' a = mknode (tln_prev (m a)) (Some x) (tln_self (m a));
  in_b : m' b = mknode (Some x) (tln_next (m b)) (tln_self (m b));
  in_other : forall p, p <> x -> p <> a -> p <> b -> m' p = m p
}.

(** [x] is taken out from between [a] and [b]. *)
Record removed (a x b : tln) (m m' : tln -> threadlistnode) : Prop := {
  re_x : m' x = mknode None None (tln_self (m x));
  re_a : m' a = mknode (tln_prev (m a)) (Some b) (tln_self (m a));
  re_b : m' b = mknode (Some a) (tln_next (m b)) (tln_self (m b));
  re_other : forall p, p <> x -> p <> a -> p <> b -> m' p = m p
}.

(** Two parts of a list that is cut between [a] and [b] stay linked. *)
Lemma linked_parts m m' l1 a b l2 : linked m (l1 ++ [a]) -> linked m (b :: l2) -> NoDup (l1 ++ a :: b :: l2) ->
  (forall p, p ∈ l1 ++ l2 -> m' p = m p) -> tln_prev (m' a) = tln_prev (m a) -> tln_next (m' b) = tln_next (m b) ->
  linked m' (l1 ++ [a]) /\ linked m' (b :: l2).
Proof.
  intros Hl1 Hl2 Hnd Hsame Ha Hb. apply NoDup_app in Hnd as (Hnd1 & Hd & (Hna & [Hnb Hnd2]%NoDup_cons)%NoDup_cons). split.
  - apply (linked_ext m); [done| |].
    + intros x l E p Hp. assert (Hp' : p ∈ l1 ++ [a]) by (rewrite E; by right). apply elem_of_app in Hp' as [Hp'| ->%list_elem_of_singleton]; [|done].
      rewrite Hsame; [done|]. apply elem_of_app. by left.
    + intros x l [<- <-]%app_inj_tail p Hp. rewrite Hsame; [done|]. apply elem_of_app. by left.
  - apply (linked_ext m); [done| |].
    + intros x l [= <- <-] p Hp. rewrite Hsame; [done|]. apply elem_of_app. by right.
    + intros x l E p Hp. assert (Hp' : p ∈ b :: l2) by (rewrite E; apply elem_of_app; by left). apply elem_of_cons in Hp' as [->|Hp']; [done|].
      rewrite Hsame; [done|]. apply elem_of_app. by right.
Qed.

Lemma cut_elem (l1 : list tln) a b l2 p : NoDup (l1 ++ a :: b :: l2) -> p ∈ l1 ++ l2 -> p <> a /\ p <> b.
Proof.
  intros (Hnd1 & Hd & (Hna & [Hnb Hnd2]%NoDup_cons)%NoDup_cons)%NoDup_app [Hp|Hp]%elem_of_app.
  - specialize (Hd p Hp). split; intros ->; apply Hd; [left|right; left].
  - split; intros ->; [apply Hna; by right|done].
Qed.

Lemma linked_insert m m' l1 a b l2 x : linked m (l1 ++ a :: b :: l2) -> NoDup (l1 ++ a :: b :: l2) -> x ∉ l1 ++ a :: b :: l2 ->
  inserted a x b m m' -> linked m' (l1 ++ a :: x :: b :: l2).
Proof.
  intros Hl Hnd Hx [Ix Ia Ib Io]. apply linked_app in Hl as [Hl1 Hl2]. rewrite !linked_cons in Hl2. destruct Hl2 as (_ & _ & Hl2).
  destruct (linked_parts m m' l1 a b l2) as [H1 H2]; try done.
  - intros p Hp. destruct (cut_elem _ _ _ _ _ Hnd Hp). apply Io; [|done|done]. intros ->. apply Hx. apply elem_of_app in Hp as [?|?]; apply elem_of_app; [by left|right; do 2 right; done].
  - by rewrite Ia.
  - by rewrite Ib.
  - apply linked_app. split; [done|]. rewrite !linked_cons, Ix, Ia, Ib. done.
Qed.

Lemma linked_remove m m' l1 a x b l2 : linked m (l1 ++ a :: x :: b :: l2) -> NoDup (l1 ++ a :: x :: b :: l2) ->
  removed a x b m m' -> linked m' (l1 ++ a :: b :: l2).
Proof.
  intros Hl Hnd [Rx Ra Rb Ro]. apply linked_app in Hl as [Hl1 Hl2]. rewrite !linked_cons in Hl2. destruct Hl2 as (_ & _ & _ & _ & Hl2).
  assert (Hnd' : NoDup (l1 ++ a :: b :: l2)).
  { apply (sublist_NoDup _ (l1 ++ a :: x :: b :: l2)); [done|]. apply sublist_app; [done|]. apply sublist_skip, sublist_cons. done. }
  destruct (linked_parts m m' l1 a b l2) as [H1 H2]; try done.
  - intros p Hp. destruct (cut_elem _ _ _ _ _ Hnd' Hp). apply Ro; [|done|done]. intros ->.
    apply NoDup_app in Hnd as (_ & Hd & (_ & [Hn _]%NoDup_cons)%NoDup_cons). apply elem_of_app in Hp as [?|?]; [by apply (Hd x); [|right; left]|apply Hn; by right].
  - by rewrite Ra.
  - by rewrite Rb.
  - apply linked_app. split; [done|]. rewrite linked_cons, Ra, Rb. done.
Qed.

(** The code does that. *)
Ltac solve_nodes := repeat first [rewrite fn_lookup_insert | rewrite fn_lookup_insert_ne by congruence]; cbn.

Lemma insertafternode_ok a b t s : tln_next (node s a) = Some b -> Node t <> a -> Node t <> b -> a <> b ->
  exists s', threadlist_insertafternode a t s = Done tt s' /\ inserted a (Node t) b (node s) (node s') /\ tl_count s' = tl_count s.
Proof.
  intros Hn Hxa Hxb Hab. unfold threadlist_insertafternode, deref. kunfold. cbn. unfold set_next, set_prev, kret. cbn. solve_nodes. rewrite Hn. solve_nodes.
  eexists. split; [done|]. split; [|done]. cbn. split.
  - solve_nodes. done.
  - solve_nodes. done.
  - solve_nodes. done.
  - intros p ? ? ?. solve_nodes. done.
Qed.

Lemma insertbeforenode_ok a b t s : tln_prev (node s b) = Some a -> Node t <> a -> Node t <> b -> a <> b ->
  exists s', threadlist_insertbeforenode t b s = Done tt s' /\ inserted a (Node t) b (node s) (node s') /\ tl_count s' = tl_count s.
Proof.
  intros Hn Hxa Hxb Hab. unfold threadlist_insertbeforenode, deref. kunfold. cbn. unfold set_next, set_prev, kret. cbn. solve_nodes. rewrite Hn. solve_nodes.
  eexists. split; [done|]. split; [|done]. cbn. split; [solve_nodes; done..|]. intros p ? ? ?. solve_nodes. done.
Qed.

Lemma removenode_ok a x b s : tln_prev (node s x) = Some a -> tln_next (node s x) = Some b -> x <> a -> x <> b -> a <> b ->
  exists s', threadlist_removenode x s = Done tt s' /\ removed a x b (node s) (node s') /\ tl_count s' = tl_count s.
Proof.
  intros Hp Hn Hxa Hxb Hab. unfold threadlist_removenode, deref. kunfold. cbn. rewrite Hp. unfold set_next, set_prev, kret. cbn. solve_nodes. rewrite Hn. solve_nodes.
  eexists. split; [done|]. split; [|done]. cbn. rewrite Hp. split; [solve_nodes; done..|]. intros p ? ? ?. solve_nodes. done.
Qed.

(** ** The operations on lists *)

Definition last_node (i : I) (us : list Z) : tln := default (Head i) (Node <$> last us).
Definition first_node (i : I) (vs : list Z) : tln := default (Tail i) (Node <$> head vs).

Lemma nodes_split i us vs : exists l1 l2, forall ts, nodes_of i (us ++ ts ++ vs) = l1 ++ last_node i us :: (Node <$> ts) ++ first_node i vs :: l2.
Proof.
  assert (H2 : exists l2, (Node <$> vs) ++ [Tail i] = first_node i vs :: l2) by (destruct vs as [|v vs]; cbn; by eexists).
  destruct H2 as [l2 E2]. destruct us as [|u us' _] using rev_ind; [exists []|exists (Head i :: (Node <$> us'))]; exists l2; intros ts; unfold nodes_of, last_node.
  - cbn. f_equal. by rewrite fmap_app, <- app_assoc, E2.
  - rewrite last_snoc. cbn. f_equal. rewrite !fmap_app, <- !app_assoc. f_equal. cbn. f_equal. f_equal. by rewrite E2.
Qed.

Lemma nodup_length (T : gset Z) ts : NoDup ts -> (forall t, t ∈ ts -> t ∈ T) -> (length ts <= size T)%nat.
Proof. intros Hnd HT. rewrite <- (size_list_to_set (C := gset Z) ts) by done. apply subseteq_size. intros t. rewrite elem_of_list_to_set. apply HT. Qed.

(** The neighbours of a place in a list. *)
Lemma neighbours T L s i us vs : lists_ok T L s -> L !! i = Some (us ++ vs) ->
  tln_next (node s (last_node i us)) = Some (first_node i vs) /\ tln_prev (node s (first_node i vs)) = Some (last_node i us) /\ last_node i us <> first_node i vs /\
  forall t, t ∉ us ++ vs -> Node t <> last_node i us /\ Node t <> first_node i vs.
Proof.
  intros Hok Hi. destruct (nodes_split i us vs) as (l1 & l2 & E). specialize (E []). cbn in E.
  pose proof (lo_link _ _ _ Hok i _ Hi) as Hl. pose proof (nodup_nodes i _ (lo_nodup _ _ _ Hok i _ Hi)) as Hnd. rewrite E in Hl, Hnd.
  apply linked_app in Hl as [_ Hl]. rewrite linked_cons in Hl. destruct Hl as (? & ? & _). split; [done|]. split; [done|]. split.
  - apply NoDup_app in Hnd as (_ & _ & [Hn _]%NoDup_cons). intros Eq. apply Hn. rewrite Eq. left.
  - intros t Ht. assert (Hnt : Node t ∉ nodes_of i (us ++ vs)) by (rewrite elem_nodes; intros [?|[?|(? & [= <-] & ?)]]; done). rewrite E in Hnt.
    split; intros Eq; apply Hnt; rewrite Eq; apply elem_of_app; right; [left|right; left].
Qed.

Lemma insert_ok T L s s' i us vs t : lists_ok T L s -> L !! i = Some (us ++ vs) -> t ∈ T -> off_list L t ->
  inserted (last_node i us) (Node t) (first_node i vs) (node s) (node s') -> tl_count s' = tl_count s ->
  exists s'', count_add i 1 s' = Done tt s'' /\ lists_ok T (<[i := us ++ t :: vs]> L) s''.
Proof.
  intros Hok Hi HtT Hoff Hins Hc. pose proof (Hoff i _ Hi) as Ht. destruct (nodes_split i us vs) as (l1 & l2 & E).
  pose proof (E []) as E0. specialize (E [t]). cbn [app fmap list_fmap] in E, E0.
  pose proof (lo_link _ _ _ Hok i _ Hi) as Hl. pose proof (lo_nodup _ _ _ Hok i _ Hi) as Hndt. pose proof (nodup_nodes i _ Hndt) as Hnd.
  assert (Hnt : Node t ∉ nodes_of i (us ++ vs)) by (rewrite elem_nodes; intros [?|[?|(? & [= <-] & ?)]]; done). rewrite E0 in Hl, Hnd, Hnt.
  pose proof (linked_insert _ _ _ _ _ _ _ Hl Hnd Hnt Hins) as Hl'. destruct (neighbours _ _ _ _ _ _ Hok Hi) as (Hna & Hpb & Hab & Hne). destruct (Hne t Ht) as [Hxa Hxb].
  assert (Hend : forall p, p <> Node t -> (p = last_node i us -> tln_prev (node s' p) = tln_prev (node s p)) /\ (p = first_node i vs -> tln_next (node s' p) = tln_next (node s p)) /\
             (p <> last_node i us -> p <> first_node i vs -> node s' p = node s p) /\ tln_self (node s' p) = tln_self (node s p)).
  { intros p Hp. destruct Hins as [Ix Ia Ib Io]. split; [intros ->; by rewrite Ia|]. split; [intros ->; by rewrite Ib|]. split; [by apply Io|].
    destruct (decide (p = last_node i us)) as [->|]; [by rewrite Ia|]. destruct (decide (p = first_node i vs)) as [->|]; [by rewrite Ib|]. by rewrite Io. }
  assert (Hnd' : NoDup (us ++ t :: vs)).
  { apply NoDup_app. apply NoDup_app in Hndt as (? & Hd & ?). split; [done|]. rewrite elem_of_app in Ht. split; [|constructor; [|done]; by auto].
    intros x Hx [->|Hx']%elem_of_cons; [by auto|by apply (Hd x)]. }
  assert (Hin : forall x, x ∈ us ++ t :: vs -> x ∈ us ++ vs \/ x = t) by (intros x; rewrite !elem_of_app, elem_of_cons; intros [?|[?|?]]; by auto).
  assert (Hlen : (length (us ++ t :: vs) <= size T)%nat).
  { apply nodup_length; [done|]. intros x [Hx| ->]%Hin; [by eapply lo_threads|done]. }
  pose proof (lo_size _ _ _ Hok). rewrite length_app in Hlen. cbn [length] in Hlen.
  eexists. split; [done|]. destruct (lo_ends _ _ _ Hok i _ Hi) as [He1 He2]. apply (lists_put T L s _ i (us ++ vs)); cbn [node tl_count set_count].
  - done.
  - done.
  - by rewrite E.
  - destruct (Hend (Head i) ltac:(done)) as (H1 & H2 & H3 & _). rewrite <- He1. destruct (decide (Head i = last_node i us)) as [Eq|Hn]; [by apply H1|].
    rewrite H3; [done|done|]. unfold first_node. by destruct (head vs).
  - destruct (Hend (Tail i) ltac:(done)) as (H1 & H2 & H3 & _). rewrite <- He2. destruct (decide (Tail i = first_node i vs)) as [Eq|Hn]; [by apply H2|].
    rewrite H3; [done| |done]. unfold last_node. by destruct (last us).
  - rewrite fn_lookup_insert, Hc, (lo_count _ _ _ Hok i _ Hi). rewrite !length_app. cbn [length]. rewrite wrapu_small; lia.
  - intros j Hj. by rewrite fn_lookup_insert_ne, Hc by done.
  - done.
  - intros x [?| ->]%Hin; by auto.
  - intros p Hp Hp'. rewrite E0 in Hp. rewrite E in Hp'. destruct Hins as [_ _ _ Io]. apply Io; intros ->.
    + apply Hp', elem_of_app. right. right. left.
    + apply Hp, elem_of_app. right. left.
    + apply Hp, elem_of_app. right. right. left.
  - intros x. destruct (decide (Node x = Node t)) as [[= ->]|Hn]; [destruct Hins as [Ix _ _ _]; by rewrite Ix|]. by apply Hend.
  - intros x Hx Hn. destruct Hn. rewrite elem_of_app, elem_of_cons. apply elem_of_app in Hx as [?|?]; by auto.
Qed.

Lemma remove_ok T L s s' i us vs t : lists_ok T L s -> L !! i = Some (us ++ t :: vs) ->
  removed (last_node i us) (Node t) (first_node i vs) (node s) (node s') -> tl_count s' = tl_count s ->
  exists s'', count_add i (-1) s' = Done tt s'' /\ lists_ok T (<[i := us ++ vs]> L) s'' /\ tln_self (node s'' (Node t)) = Some t.
Proof.
  intros Hok Hi Hrem Hc. destruct (nodes_split i us vs) as (l1 & l2 & E).
  pose proof (E []) as E0. specialize (E [t]). cbn [app fmap list_fmap] in E, E0.
  pose proof (lo_link _ _ _ Hok i _ Hi) as Hl. pose proof (lo_nodup _ _ _ Hok i _ Hi) as Hndt. pose proof (nodup_nodes i _ Hndt) as Hnd. rewrite E in Hl, Hnd.
  pose proof (linked_remove _ _ _ _ _ _ _ Hl Hnd Hrem) as Hl'.
  assert (Hin : forall x, x ∈ us ++ vs -> x ∈ us ++ t :: vs) by (intros x [?|?]%elem_of_app; apply elem_of_app; [by left|right; by right]).
  assert (Hlen : (length (us ++ t :: vs) <= size T)%nat) by (apply nodup_length; [done|intros x Hx; by eapply lo_threads]).
  pose proof (lo_size _ _ _ Hok). rewrite length_app in Hlen. cbn [length] in Hlen. destruct (lo_ends _ _ _ Hok i _ Hi) as [He1 He2]. destruct Hrem as [Rx Ra Rb Ro].
  assert (HtT : t ∈ T) by (eapply lo_threads; [done|done|]; apply elem_of_app; right; left).
  eexists. split; [done|]. split; [|by cbn [node set_count]; rewrite Rx; apply (lo_self _ _ _ Hok)].
  apply (lists_put T L s _ i (us ++ t :: vs)); cbn [node tl_count set_count].
  - done.
  - done.
  - by rewrite E0.
  - destruct (decide (Head i = last_node i us)) as [Eq|Hn]; [rewrite Eq in *; by rewrite Ra|]. rewrite Ro; [done|done|done|]. unfold first_node. by destruct (head vs).
  - destruct (decide (Tail i = first_node i vs)) as [Eq|Hn]; [rewrite Eq in *; by rewrite Rb|]. rewrite Ro; [done|done| |done]. unfold last_node. by destruct (last us).
  - rewrite fn_lookup_insert, Hc, (lo_count _ _ _ Hok i _ Hi). rewrite !length_app. cbn [length]. rewrite wrapu_small; lia.
  - intros j Hj. by rewrite fn_lookup_insert_ne, Hc by done.
  - apply (sublist_NoDup _ (us ++ t :: vs)); [done|]. apply sublist_app; [done|]. by apply sublist_cons.
  - intros x Hx. by left; apply Hin.
  - intros p Hp Hp'. rewrite E in Hp. apply Ro; intros ->; apply Hp, elem_of_app; right; [right; left|left|right; right; left].
  - intros x. destruct (decide (Node x = Node t)) as [[= ->]|Hn]; [by rewrite Rx|]. destruct (decide (Node x = last_node i us)) as [->|]; [by rewrite Ra|].
    destruct (decide (Node x = first_node i vs)) as [->|]; [by rewrite Rb|]. by rewrite Ro.
  - intros x Hx Hn. assert (x = t) as ->; [|by rewrite Rx]. apply elem_of_app in Hx as [?|[?|?]%elem_of_cons]; [|done|]; destruct Hn; apply elem_of_app; by auto.
Qed.

(** The node of a thread that is on a list, with its neighbours. *)
Lemma removenode_on T L s i us vs t : lists_ok T L s -> L !! i = Some (us ++ t :: vs) ->
  exists s' s'', threadlist_removenode (Node t) s = Done tt s' /\ count_add i (-1) s' = Done tt s'' /\ lists_ok T (<[i := us ++ vs]> L) s'' /\
    tln_self (node s'' (Node t)) = Some t.
Proof.
  intros Hok Hi. destruct (nodes_split i us vs) as (l1 & l2 & E). specialize (E [t]). cbn [app fmap list_fmap] in E.
  pose proof (lo_link _ _ _ Hok i _ Hi) as Hl. pose proof (nodup_nodes i _ (lo_nodup _ _ _ Hok i _ Hi)) as Hnd. rewrite E in Hl, Hnd.
  apply linked_app in Hl as [_ Hl]. rewrite !linked_cons in Hl. destruct Hl as (_ & Hp & Hn & _ & _).
  apply NoDup_app in Hnd as (_ & _ & (Hn1 & [Hn2 _]%NoDup_cons)%NoDup_cons).
  destruct (removenode_ok _ _ _ s Hp Hn) as (s' & Es & Hrem & Hc).
  - intros Eq. apply Hn1. rewrite <- Eq. left.
  - intros Eq. apply Hn2. rewrite Eq. left.
  - intros Eq. apply Hn1. rewrite Eq. right. left.
  - destruct (remove_ok T L s s' i us vs t Hok Hi Hrem Hc) as (s'' & Es' & ? & ?). by exists s', s''.
Qed.

(** What each function does. *)

Lemma addtail_ok T L s i ts t : lists_ok T L s -> L !! i = Some ts -> t ∈ T -> off_list L t ->
  exists s', threadlist_addtail i t s = Done tt s' /\ lists_ok T (<[i := ts ++ [t]]> L) s'.
Proof.
  intros Hok Hi HtT Hoff. rewrite <- (app_nil_r ts) in Hi. destruct (neighbours _ _ _ _ _ _ Hok Hi) as (_ & Hp & Hab & Hne). destruct (Hne t (Hoff i _ Hi)).
  destruct (insertbeforenode_ok _ _ t s Hp) as (s1 & E1 & Hins & Hc); [done..|].
  destruct (insert_ok T L s s1 i ts [] t Hok Hi HtT Hoff Hins Hc) as (s2 & E2 & ?). exists s2. split; [|done]. unfold threadlist_addtail, kbind.
  change (Tail i) with (first_node i []). rewrite E1. done.
Qed.

Lemma addhead_ok T L s i ts t : lists_ok T L s -> L !! i = Some ts -> t ∈ T -> off_list L t ->
  exists s', threadlist_addhead i t s = Done tt s' /\ lists_ok T (<[i := t :: ts]> L) s'.
Proof.
  intros Hok Hi HtT Hoff. change ts with ([] ++ ts) in Hi. destruct (neighbours _ _ _ _ _ _ Hok Hi) as (Hn & _ & Hab & Hne). destruct (Hne t (Hoff i _ Hi)).
  destruct (insertafternode_ok _ _ t s Hn) as (s1 & E1 & Hins & Hc); [done..|].
  destruct (insert_ok T L s s1 i [] ts t Hok Hi HtT Hoff Hins Hc) as (s2 & E2 & ?). exists s2. split; [|done]. unfold threadlist_addhead, kbind.
  change (Head i) with (last_node i []). rewrite E1. done.
Qed.

Lemma insertafter_ok T L s i us u vs t : lists_ok T L s -> L !! i = Some (us ++ u :: vs) -> t ∈ T -> off_list L t ->
  exists s', threadlist_insertafter i u t s = Done tt s' /\ lists_ok T (<[i := us ++ u :: t :: vs]> L) s'.
Proof.
  intros Hok Hi HtT Hoff. replace (us ++ u :: vs) with ((us ++ [u]) ++ vs) in Hi by (by rewrite <- app_assoc).
  destruct (neighbours _ _ _ _ _ _ Hok Hi) as (Hn & _ & Hab & Hne). destruct (Hne t (Hoff i _ Hi)).
  destruct (insertafternode_ok _ _ t s Hn) as (s1 & E1 & Hins & Hc); [done..|].
  destruct (insert_ok T L s s1 i (us ++ [u]) vs t Hok Hi HtT Hoff Hins Hc) as (s2 & E2 & Hok2). exists s2. rewrite <- app_assoc in Hok2. split; [|done].
  unfold threadlist_insertafter, kbind. replace (Node u) with (last_node i (us ++ [u])) by (unfold last_node; by rewrite last_snoc). rewrite E1. done.
Qed.

Lemma insertbefore_ok T L s i us u vs t : lists_ok T L s -> L !! i = Some (us ++ u :: vs) -> t ∈ T -> off_list L t ->
  exists s', threadlist_insertbefore i t u s = Done tt s' /\ lists_ok T (<[i := us ++ t :: u :: vs]> L) s'.
Proof.
  intros Hok Hi HtT Hoff. destruct (neighbours _ _ _ _ _ _ Hok Hi) as (_ & Hp & Hab & Hne). destruct (Hne t (Hoff i _ Hi)).
  destruct (insertbeforenode_ok _ _ t s Hp) as (s1 & E1 & Hins & Hc); [done..|].
  destruct (insert_ok T L s s1 i us (u :: vs) t Hok Hi HtT Hoff Hins Hc) as (s2 & E2 & ?). exists s2. split; [|done]. unfold threadlist_insertbefore, kbind.
  change (Node u) with (first_node i (u :: vs)). rewrite E1. done.
Qed.

Lemma threadlist_remove_ok T L s i us vs t : lists_ok T L s -> L !! i = Some (us ++ t :: vs) ->
  exists s', threadlist_remove i t s = Done tt s' /\ lists_ok T (<[i := us ++ vs]> L) s'.
Proof.
  intros Hok Hi. destruct (removenode_on T L s i us vs t Hok Hi) as (s1 & s2 & E1 & E2 & ? & _). exists s2. split; [|done].
  unfold threadlist_remove, kbind. by rewrite E1.
Qed.

Lemma remhead_ok T L s i ts : lists_ok T L s -> L !! i = Some ts ->
  match ts with
  | [] => threadlist_remhead i s = Done None s
  | t :: ts' => exists s', threadlist_remhead i s = Done (Some t) s' /\ lists_ok T (<[i := ts']> L) s'
  end.
Proof.
  intros Hok Hi. destruct (neighbours T L s i [] ts Hok Hi) as (Hn & _). destruct (lo_ends _ _ _ Hok i _ Hi) as [_ He].
  unfold threadlist_remhead, deref. kunfold. change (Head i) with (last_node i []). rewrite Hn. unfold kret. destruct ts as [|t ts].
  - change (first_node i []) with (Tail i). by rewrite He.
  - destruct (removenode_on T L s i [] ts t Hok Hi) as (s1 & s2 & E1 & E2 & Hok2 & Hs). exists s2. destruct (neighbours T L s i [t] ts Hok Hi) as (Hn' & _).
    change (last_node i [t]) with (Node t) in Hn'. change (first_node i (t :: ts)) with (Node t). rewrite bool_decide_false by (rewrite Hn'; done). rewrite E1, E2. by rewrite Hs.
Qed.

Lemma remtail_ok T L s i ts : lists_ok T L s -> L !! i = Some ts ->
  (ts = [] -> threadlist_remtail i s = Done None s) /\
  forall us t, ts = us ++ [t] -> exists s', threadlist_remtail i s = Done (Some t) s' /\ lists_ok T (<[i := us]> L) s'.
Proof.
  intros Hok Hi. assert (Hi' := Hi). rewrite <- (app_nil_r ts) in Hi'. destruct (neighbours T L s i ts [] Hok Hi') as (_ & Hp & _). destruct (lo_ends _ _ _ Hok i _ Hi) as [He _].
  unfold threadlist_remtail, deref. kunfold. change (Tail i) with (first_node i []). rewrite Hp. unfold kret. split.
  - intros ->. change (last_node i []) with (Head i). by rewrite He.
  - intros us t ->. destruct (removenode_on T L s i us [] t Hok Hi) as (s1 & s2 & E1 & E2 & Hok2 & Hs). exists s2. destruct (neighbours T L s i us [t] Hok Hi) as (_ & Hp' & _).
    change (first_node i [t]) with (Node t) in Hp'. replace (last_node i (us ++ [t])) with (Node t) by (unfold last_node; by rewrite last_snoc). rewrite bool_decide_false by (rewrite Hp'; done). rewrite E1, E2, Hs. by rewrite app_nil_r in Hok2.
Qed.

Lemma isempty_ok T L s i ts : lists_ok T L s -> L !! i = Some ts -> threadlist_isempty i s = Done (bool_decide (ts = [])) s.
Proof. intros Hok Hi. unfold threadlist_isempty. kunfold. rewrite (lo_count _ _ _ Hok i _ Hi). by destruct ts. Qed.

Lemma cleanup_ok T L s i : lists_ok T L s -> L !! i = Some [] -> threadlist_cleanup i s = Done tt s.
Proof. intros Hok Hi. unfold threadlist_cleanup. kunfold. rewrite (isempty_ok _ _ _ _ _ Hok Hi). cbn. rewrite (lo_count _ _ _ Hok i _ Hi). done. Qed.

Lemma nodes_other i j ts p : p ∈ nodes_of j ts -> j <> i -> p <> Head i /\ p <> Tail i.
Proof. rewrite elem_nodes. intros [->|[->|(t & -> & _)]] Hne; split; congruence. Qed.

(** A new list. *)
Lemma init_ok T L s i : lists_ok T L s -> L !! i = None -> exists s', threadlist_init i s = Done tt s' /\ lists_ok T (<[i := []]> L) s'.
Proof.
  intros Hok Hi. pose proof Hok as [O1 O2 O3 O4 O5 O6 O7 O8 O9]. eexists. split; [done|]. set (s' := set_count _ _ _).
  assert (Hsame : forall p, p <> Head i -> p <> Tail i -> node s' p = node s p) by (intros p ? ?; unfold s', set_count, set_node; cbn [node]; solve_nodes; done).
  assert (Hh : node s' (Head i) = mknode None (Some (Tail i)) None) by (unfold s', set_count, set_node; cbn [node]; solve_nodes; done).
  assert (Ht : node s' (Tail i) = mknode (Some (Head i)) None None) by (unfold s', set_count, set_node; cbn [node]; solve_nodes; done).
  assert (Hc : tl_count s' i = 0) by (cbn; apply fn_lookup_insert).
  assert (Hc' : forall j, j <> i -> tl_count s' j = tl_count s j) by (intros j Hj; cbn; by apply fn_lookup_insert_ne). clearbody s'.
  assert (Hother : forall j us p, j <> i -> p ∈ nodes_of j us -> node s' p = node s p) by (intros j us p Hj Hp; destruct (nodes_other i j us p Hp Hj); by apply Hsame).
  split; try done.
  - intros j us [[<- <-]|[Hne Hus]]%lookup_insert_Some; [cbn; by rewrite Hh, Ht|]. apply (linked_ext (node s)); [by apply O1| |].
    + intros a l E b Hb. rewrite (Hother j us); [done|done|]. rewrite E. by right.
    + intros b l E a Ha. rewrite (Hother j us); [done|done|]. rewrite E. apply elem_of_app. by left.
  - intros j us [[<- <-]|[Hne Hus]]%lookup_insert_Some; [by rewrite Hh, Ht|]. rewrite !(Hother j us) by (done || (rewrite elem_nodes; by auto)). by apply (O2 j us).
  - intros j us [[<- <-]|[Hne Hus]]%lookup_insert_Some; [done|]. rewrite Hc' by done. by apply O3.
  - intros j us [[<- <-]|[Hne Hus]]%lookup_insert_Some; [constructor|by eapply O4].
  - intros j k us vs t [[<- <-]|[Hj Hus]]%lookup_insert_Some [[<- <-]|[Hk Hvs]]%lookup_insert_Some Htu Htv; try (by apply elem_of_nil in Htu || apply elem_of_nil in Htv). by eapply O5.
  - intros j us t [[<- <-]|[Hj Hus]]%lookup_insert_Some Htu; [by apply elem_of_nil in Htu|by eapply O6].
  - intros t HtT. rewrite Hsame by done. by apply O7.
  - intros t HtT Hoff. rewrite Hsame by done. apply O8; [done|]. intros j us Hus. apply (Hoff j). rewrite lookup_insert_ne; [done|]. congruence.
Qed.

(** A list that is not used any more. *)
Lemma lists_drop T L s i : lists_ok T L s -> L !! i = Some [] -> lists_ok T (delete i L) s.
Proof.
  intros [O1 O2 O3 O4 O5 O6 O7 O8 O9] Hi. split; try done; try (intros j us [? ?]%lookup_delete_Some; by eauto); try (intros j us t [? ?]%lookup_delete_Some; by eauto).
  - intros j k us vs t [_ Hj]%lookup_delete_Some [_ Hk]%lookup_delete_Some. by eauto.
  - intros t HtT Hoff. apply O8; [done|]. intros j us Hus. destruct (decide (j = i)) as [->|Hj]; [rewrite Hi in Hus; injection Hus as <-; apply not_elem_of_nil|].
    apply (Hoff j). by rewrite lookup_delete_ne.
Qed.

(** A new thread. *)
Lemma node_init_ok T L s t : lists_ok T L s -> t ∉ T -> Z.of_nat (size T) < 2 ^ 32 - 1 ->
  exists s', threadlistnode_init t s = Done tt s' /\ lists_ok ({[t]} ∪ T) L s'.
Proof.
  intros Hok HtT Hsz. pose proof Hok as [O1 O2 O3 O4 O5 O6 O7 O8 O9]. eexists. split; [done|]. set (s' := set_node _ _ _).
  assert (Hsame : forall p, p <> Node t -> node s' p = node s p) by (intros p ?; unfold s', set_node; cbn [node]; solve_nodes; done).
  assert (Hx : node s' (Node t) = mknode None None (Some t)) by (unfold s', set_node; cbn [node]; solve_nodes; done).
  assert (Hother : forall j us p, L !! j = Some us -> p ∈ nodes_of j us -> node s' p = node s p).
  { intros j us p Hus [->|[->|(u & -> & Hu)]]%elem_nodes; apply Hsame; [done|done|]. intros [= ->]. by eapply HtT, O6. }
  assert (Hc : tl_count s' = tl_count s) by done. clearbody s'. split; try done.
  - intros j us Hus. apply (linked_ext (node s)); [by apply O1| |].
    + intros a l E b Hb. rewrite (Hother j us); [done|done|]. rewrite E. by right.
    + intros b l E a Ha. rewrite (Hother j us); [done|done|]. rewrite E. apply elem_of_app. by left.
  - intros j us Hus. rewrite !(Hother j us) by (done || (rewrite elem_nodes; by auto)). by apply (O2 j us).
  - rewrite Hc. done.
  - intros j us u Hus Hu. apply elem_of_union. right. by eapply O6.
  - intros u [->%elem_of_singleton|Hu]%elem_of_union; [by rewrite Hx|]. rewrite Hsame; [by apply O7|]. congruence.
  - intros u [->%elem_of_singleton|Hu]%elem_of_union Hoff; [by rewrite Hx|]. rewrite Hsame; [by apply O8|]. congruence.
  - rewrite size_union, size_singleton by set_solver. lia.
Qed.

(** A thread that is on no list can be destroyed. *)
Lemma node_cleanup_ok T L s t : lists_ok T L s -> t ∈ T -> off_list L t ->
  threadlistnode_cleanup t s = Done tt s /\ lists_ok (T ∖ {[t]}) L s.
Proof.
  intros Hok HtT Hoff. pose proof Hok as [O1 O2 O3 O4 O5 O6 O7 O8 O9]. destruct (O8 t HtT Hoff) as [Hn Hp]. split.
  - unfold threadlistnode_cleanup. kunfold. by rewrite Hn, Hp, (O7 t HtT).
  - split; try done.
    + intros j us u Hus Hu. apply elem_of_difference. split; [by eapply O6|]. intros ->%elem_of_singleton. by apply (Hoff j us).
    + intros u [Hu _]%elem_of_difference. by apply O7.
    + intros u [Hu _]%elem_of_difference. by apply O8.
    + pose proof (subseteq_size (T ∖ {[t]}) T ltac:(set_solver)). lia.
Qed.

End Lists.

(** ** The specification *)

(** Each operation on a list of threads is the operation on lists, whatever the other
    lists hold: adding at either end, after or before a thread of the list, removing from
    either end or from the middle. The links stay consistent in both directions, the count
    is the length, and no other list changes. *)
Theorem threadlist_spec {I} `{Countable I} T (L : gmap I (list Z)) s i us vs t : lists_ok T L s -> L !! i = Some (us ++ vs) -> t ∈ T -> off_list L t ->
  (exists s', threadlist_addtail i t s = Done tt s' /\ lists_ok T (<[i := (us ++ vs) ++ [t]]> L) s') /\
  (exists s', threadlist_addhead i t s = Done tt s' /\ lists_ok T (<[i := t :: us ++ vs]> L) s') /\
  (forall us' u, us = us' ++ [u] -> exists s', threadlist_insertafter i u t s = Done tt s' /\ lists_ok T (<[i := us ++ t :: vs]> L) s') /\
  (forall v vs', vs = v :: vs' -> exists s', threadlist_insertbefore i t v s = Done tt s' /\ lists_ok T (<[i := us ++ t :: vs]> L) s') /\
  (forall v vs', vs = v :: vs' -> exists s', threadlist_remove i v s = Done tt s' /\ lists_ok T (<[i := us ++ vs']> L) s') /\
  (us ++ vs = [] -> threadlist_remhead i s = Done None s /\ threadlist_remtail i s = Done None s) /\
  (forall u ts, us ++ vs = u :: ts -> exists s', threadlist_remhead i s = Done (Some u) s' /\ lists_ok T (<[i := ts]> L) s') /\
  (forall ts u, us ++ vs = ts ++ [u] -> exists s', threadlist_remtail i s = Done (Some u) s' /\ lists_ok T (<[i := ts]> L) s').
Proof.
  intros Hok Hi Ht Hoff. split_and!.
  - by apply addtail_ok.
  - by apply addhead_ok.
  - intros us' u ->. rewrite <- app_assoc in *. by apply (insertafter_ok T L s i us' u vs t).
  - intros v vs' ->. by apply insertbefore_ok.
  - intros v vs' ->. by apply threadlist_remove_ok.
  - intros E. rewrite E in Hi. split; [exact (remhead_ok T L s i [] Hok Hi)|by apply (remtail_ok T L s i [] Hok Hi)].
  - intros u ts E. rewrite E in Hi. exact (remhead_ok T L s i (u :: ts) Hok Hi).
  - intros ts u E. by apply (remtail_ok T L s i (us ++ vs) Hok Hi).
Qed.

(** Two threads and a list with one of them. *)
Lemma demo_lists : exists s : @tlists nat, lists_ok {[1; 2]} {[0%nat := [1]]} s.
Proof.
  set (s0 := mktl (fun _ => mknode None None None) (fun _ => 0) : @tlists nat). assert (H0 : lists_ok ∅ ∅ s0).
  { split; try (intros *; rewrite lookup_empty; done); try (intros t Ht; by apply elem_of_empty in Ht). rewrite size_empty. lia. }
  destruct (node_init_ok _ _ _ 2 H0) as (s1 & _ & H1); [set_solver|rewrite size_empty; lia|]. destruct (node_init_ok _ _ _ 1 H1) as (s2 & _ & H2); [set_solver|vm_compute; reflexivity|].
  destruct (init_ok _ _ _ 0%nat H2) as (s3 & _ & H3); [apply lookup_empty|]. destruct (addtail_ok _ _ _ 0%nat [] 1 H3) as (s4 & _ & H4); [apply lookup_insert_eq|set_solver| |].
  { intros i ts [[_ <-]|[_ Hi]]%lookup_insert_Some; [apply not_elem_of_nil|by rewrite lookup_empty in Hi]. }
  exists s4. rewrite insert_insert_eq in H4. by replace ({[1; 2]} : gset Z) with ({[1]} ∪ ({[2]} ∪ ∅) : gset Z) by set_solver.
Qed.

Lemma threadlist_spec_witness : exists s s' : @tlists nat, lists_ok {[1; 2]} {[0%nat := [1]]} s /\ threadlist_addtail 0%nat 2 s = Done tt s' /\
  lists_ok {[1; 2]} (<[0%nat := [1; 2]]> {[0%nat := [1]]}) s'.
Proof.
  destruct demo_lists as (s & Hok). assert (Hoff : off_list (I := nat) {[0%nat := [1]]} 2).
  { intros i ts [_ <-]%lookup_singleton_Some. intros E%list_elem_of_singleton. discriminate E. }
  destruct (threadlist_spec {[1; 2]} {[0%nat := [1]]} s 0%nat [] [1] 2 Hok (lookup_singleton_eq _ _) ltac:(set_solver) Hoff) as ((s' & E & Hok') & _).
  exists s, s'. exact (conj Hok (conj E Hok')).
Defined.
