(* ===== verification/Sched.v ===== *)
(** * Threads and the scheduler, kern/thread/thread.c

    Threads, processors, run queues and wait channels, over the lists of ThreadList.v.
    A thread is running, ready on the run queue of its processor, asleep on a wait
    channel, or a zombie waiting to be destroyed.

    What happens under a run queue's spinlock is one step: nothing else can look at the
    queue in between, and a thread that is put on a wait channel cannot be woken before
    its processor has left it, because [thread_make_runnable] needs the same spinlock.
    [thread_consider_migration] takes and releases several spinlocks; its stretches are
    separate steps. Interrupt levels, register contexts and stacks are not state of the
    model. *)

From stdpp Require Import base functions numbers list gmap strings relations.
From Stdlib Require Import ZArith Lia.
From S2P Require Import Prelude ThreadList.

Open Scope Z_scope.
Open Scope k_scope.

(** The lists of threads: the run queue and the zombies of a processor, the threads that
    a processor is moving to others, a wait channel, and the private list of a wake-up. *)
Inductive tlid := Runq (c : nat) | Zombies (c : nat) | Victims (c : nat) | Wchan (w : nat) | Waking (c : nat).

#[global] Instance tlid_eq_dec : EqDecision tlid.
Proof. solve_decision. Defined.

#[global] Instance tlid_countable : Countable tlid.
Proof.
  refine (inj_countable'
    (fun i => match i with Runq c => (0%nat, c) | Zombies c => (1%nat, c) | Victims c => (2%nat, c) | Wchan w => (3%nat, w) | Waking c => (4%nat, c) end)
    (fun x => match x with (0%nat, c) => Runq c | (1%nat, c) => Zombies c | (2%nat, c) => Victims c | (3%nat, w) => Wchan w | (_, c) => Waking c end) _).
  by intros [].
Defined.

(** kern/include/thread.h:60-65 (threadstate_t). *)
Inductive threadstate := S_RUN | S_READY | S_SLEEP | S_ZOMBIE.

#[global] Instance threadstate_eq_dec : EqDecision threadstate.
Proof. solve_decision. Defined.

(** kern/include/thread.h:68-112 (struct thread): the fields the scheduler works with;
    the list node is with the lists, [t_stack] tells whether there is a stack. *)
Record thread := mkthread {
  t_wchan_name : option string;
  t_state : threadstate;
  t_stack : bool;
  t_cpu : nat;
  t_proc : option Z
}.

Definition set_state x th := mkthread (t_wchan_name th) x (t_stack th) (t_cpu th) (t_proc th).
Definition set_wchan_name x th := mkthread x (t_state th) (t_stack th) (t_cpu th) (t_proc th).
Definition set_cpu x th := mkthread (t_wchan_name th) (t_state th) (t_stack th) x (t_proc th).
Definition set_proc x th := mkthread (t_wchan_name th) (t_state th) (t_stack th) (t_cpu th) x.
Definition set_stack x th := mkthread (t_wchan_name th) (t_state th) x (t_cpu th) (t_proc th).

(** kern/include/cpu.h:48-97 (struct cpu), without the lists and the spinlocks. *)
Record cpu := mkcpu {
  c_curthread : Z;
  c_hardclocks : Z;
  c_isidle : bool;
  c_ipi_pending : Z;
  c_shootdown : list Z
}.

Definition set_curthread x c := mkcpu x (c_hardclocks c) (c_isidle c) (c_ipi_pending c) (c_shootdown c).
Definition set_hardclocks x c := mkcpu (c_curthread c) x (c_isidle c) (c_ipi_pending c) (c_shootdown c).
Definition set_isidle x c := mkcpu (c_curthread c) (c_hardclocks c) x (c_ipi_pending c) (c_shootdown c).
Definition set_ipi_pending x c := mkcpu (c_curthread c) (c_hardclocks c) (c_isidle c) x (c_shootdown c).
Definition set_shootdown x c := mkcpu (c_curthread c) (c_hardclocks c) (c_isidle c) (c_ipi_pending c) x.

(** The state: all lists, the threads by address, [allcpus], and the names of the wait
    channels. *)
Record sched := mksched {
  lists : @tlists tlid;
  threads : gmap Z thread;
  allcpus : list cpu;
  wc_names : gmap nat string
}.

Definition set_lists x s := mksched x (threads s) (allcpus s) (wc_names s).
Definition set_threads f s := mksched (lists s) (f (threads s)) (allcpus s) (wc_names s).
Definition set_cpus f s := mksched (lists s) (threads s) (f (allcpus s)) (wc_names s).
Definition set_wc_names f s := mksched (lists s) (threads s) (allcpus s) (f (wc_names s)).

Definition on_lists {A} (m : K (@tlists tlid) A) : K sched A :=
  fun s => match m (lists s) with
           | Done a l => Done a (set_lists l s)
           | Fail e l => Fail e (set_lists l s)
           | Halt x => Halt x
           end.

Definition get_thread (t : Z) : K sched thread :=
  fun s => match threads s !! t with Some th => Done th s | None => Halt UseAfterFree end.
Definition upd_thread (t : Z) (f : thread -> thread) : K sched unit :=
  th <- get_thread t ;; kmodify (set_threads <[t := f th]>).

Definition get_cpu (c : nat) : K sched cpu :=
  fun s => match allcpus s !! c with Some x => Done x s | None => Halt OutOfBounds end.
Definition upd_cpu (c : nat) (f : cpu -> cpu) : K sched unit :=
  x <- get_cpu c ;; kmodify (set_cpus <[c := f x]>).

(** Running one step of a sequence. *)
Lemma kstep {S A B} (m : K S A) (f : A -> K S B) s a s' : m s = Done a s' -> kbind m f s = f a s'.
Proof. intros E. unfold kbind. by rewrite E. Qed.

Lemma get_thread_eq t s th : threads s !! t = Some th -> get_thread t s = Done th s.
Proof. intros E. unfold get_thread. by rewrite E. Qed.

Lemma upd_thread_eq t f s th : threads s !! t = Some th -> upd_thread t f s = Done tt (set_threads <[t := f th]> s).
Proof. intros E. unfold upd_thread. by rewrite (kstep _ _ _ _ _ (get_thread_eq _ _ _ E)). Qed.

Lemma get_cpu_eq c s x : allcpus s !! c = Some x -> get_cpu c s = Done x s.
Proof. intros E. unfold get_cpu. by rewrite E. Qed.

Lemma upd_cpu_eq c f s x : allcpus s !! c = Some x -> upd_cpu c f s = Done tt (set_cpus <[c := f x]> s).
Proof. intros E. unfold upd_cpu. by rewrite (kstep _ _ _ _ _ (get_cpu_eq _ _ _ E)). Qed.

Lemma on_lists_eq {A} (m : K (@tlists tlid) A) s a l : m (lists s) = Done a l -> on_lists m s = Done a (set_lists l s).
Proof. intros E. unfold on_lists. by rewrite E. Qed.

Lemma kassert_true {S} (b : bool) (s : S) : b = true -> kassert b s = Done tt s.
Proof. by intros ->. Qed.

(** [run E] runs the first operation of a sequence with the equation [E]; [run_get] is for
    reads and updates. *)
Tactic Notation "run" uconstr(E) := erewrite kstep; [|by apply E]; cbn beta iota.
Tactic Notation "run_get" := first [run get_thread_eq | run upd_thread_eq | run get_cpu_eq | run upd_cpu_eq | run kassert_true].

(** ** Interprocessor interrupts *)

Definition IPI_PANIC : Z := 0.
Definition IPI_OFFLINE : Z := 1.
Definition IPI_UNIDLE : Z := 2.
Definition IPI_TLBSHOOTDOWN : Z := 3.
Definition TLBSHOOTDOWN_MAX : Z := 16.

(** kern/thread/thread.c:1107-1116 (ipi_send). *)
Definition ipi_send (target : nat) (code : Z) : K sched unit :=
  kassert ((0 <=? code) && (code <? 32)) ;;;
  upd_cpu target (fun c => set_ipi_pending (Z.lor (c_ipi_pending c) (u32 (Z.shiftl 1 code))) c).

(** kern/thread/thread.c:1126-1131 (ipi_broadcast): the loop over the processors [l]. *)
Fixpoint ipi_loop (l : list nat) (me : nat) (code : Z) : K sched unit :=
  match l with
  | [] => kret tt
  | c :: l' => (if Nat.eqb c me then kret tt else ipi_send c code) ;;; ipi_loop l' me code
  end.

(** kern/thread/thread.c:1121-1133 (ipi_broadcast). *)
Definition ipi_broadcast (me : nat) (code : Z) : K sched unit :=
  s <- kget ;;
  ipi_loop (seq 0 (length (allcpus s))) me code.

(** kern/thread/thread.c:1138-1167 (ipi_tlbshootdown); a request is a number. *)
Definition ipi_tlbshootdown (target : nat) (mapping : Z) : K sched unit :=
  c <- get_cpu target ;;
  if Z.of_nat (length (c_shootdown c)) =? TLBSHOOTDOWN_MAX then khalt PanicCall else
  upd_cpu target (set_shootdown (c_shootdown c ++ [mapping])) ;;;
  upd_cpu target (fun c => set_ipi_pending (Z.lor (c_ipi_pending c) (u32 (Z.shiftl 1 IPI_TLBSHOOTDOWN))) c).

(** kern/thread/thread.c:1172-1218 (interprocessor_interrupt); whether the processor goes
    on ([false]: [cpu_halt]). dumbvm's [vm_tlbshootdown] panics. *)
Definition interprocessor_interrupt (me : nat) : K sched bool :=
  c <- get_cpu me ;;
  let bits := c_ipi_pending c in
  if negb (Z.land bits (Z.shiftl 1 IPI_PANIC) =? 0) then kret false else
  if negb (Z.land bits (Z.shiftl 1 IPI_OFFLINE) =? 0) then kret false else
  (if negb (Z.land bits (Z.shiftl 1 IPI_TLBSHOOTDOWN) =? 0) then
     match c_shootdown c with
     | [] => upd_cpu me (set_shootdown [])
     | _ => khalt PanicCall
     end
   else kret tt) ;;;
  upd_cpu me (set_ipi_pending 0) ;;;
  kret true.

(** ** Threads *)

(** kern/thread/thread.c:115-153 (thread_create); [m1] and [m2] tell whether there is
    memory for the structure and the name, [t] is its address. The processor of the
    thread is set by [thread_fork]. *)
Definition thread_create (m1 m2 : bool) (t : Z) : K sched bool :=
  if negb m1 then kret false else
  if negb m2 then kret false else
  on_lists (threadlistnode_init t) ;;;
  kmodify (set_threads <[t := mkthread (Some "NEW") S_READY false 0 None]>) ;;;
  kret true.

(** kern/thread/thread.c:264-288 (thread_destroy). *)
Definition thread_destroy (me : nat) (t : Z) : K sched unit :=
  c <- get_cpu me ;;
  kassert (negb (t =? c_curthread c)) ;;;
  th <- get_thread t ;;
  kassert (bool_decide (t_state th <> S_RUN)) ;;;
  kassert (bool_decide (t_proc th = None)) ;;;
  on_lists (threadlistnode_cleanup t) ;;;
  kmodify (set_threads (delete t)).

(** kern/thread/thread.c:296-307 (exorcise); [fuel] bounds the number of zombies. *)
Fixpoint exorcise (fuel : nat) (me : nat) : K sched unit :=
  match fuel with
  | O => khalt OutOfFuel
  | S fuel' =>
      z <- on_lists (threadlist_remhead (Zombies me)) ;;
      match z with
      | None => kret tt
      | Some z =>
          c <- get_cpu me ;;
          kassert (negb (z =? c_curthread c)) ;;;
          th <- get_thread z ;;
          kassert (bool_decide (t_state th = S_ZOMBIE)) ;;;
          thread_destroy me z ;;;
          exorcise fuel' me
      end
  end.

(** kern/thread/thread.c:451-482 (thread_make_runnable), called by processor [me]. *)
Definition thread_make_runnable (me : nat) (target : Z) : K sched unit :=
  th <- get_thread target ;;
  let targetcpu := t_cpu th in
  upd_thread target (set_state S_READY) ;;;
  on_lists (threadlist_addtail (Runq targetcpu) target) ;;;
  c <- get_cpu targetcpu ;;
  if c_isidle c && negb (Nat.eqb targetcpu me) then ipi_send targetcpu IPI_UNIDLE else kret tt.

(** kern/thread/thread.c:494-548 (thread_fork), on processor [me]: [m1], [m2] and [m3]
    tell whether there is memory for the structure, the name and the stack, [t] is the
    address of the new thread and [r] what [proc_addthread] returns. *)
Definition thread_fork (m1 m2 m3 : bool) (t r : Z) (me : nat) (proc : option Z) : K sched unit :=
  ok <- thread_create m1 m2 t ;;
  if negb ok then kfail ENOMEM else
  if negb m3 then thread_destroy me t ;;; kfail ENOMEM else
  upd_thread t (set_stack true) ;;;
  c <- get_cpu me ;;
  cur <- get_thread (c_curthread c) ;;
  upd_thread t (set_cpu (t_cpu cur)) ;;;
  let proc := match proc with None => t_proc cur | Some p => Some p end in
  if negb (r =? 0) then thread_destroy me t ;;; kfail r else
  upd_thread t (set_proc proc) ;;;
  thread_make_runnable me t.

(** What a call of [thread_switch] comes to: it returns at once, or leaves the processor
    idle, or the processor runs a thread. *)
Inductive switched := Returned | WentIdle | Switched (t : Z).

(** kern/thread/thread.c:596-622 (thread_switch): the thread is put in its place. *)
Definition park (me : nat) (newstate : threadstate) (wc : nat) (cur : Z) : K sched unit :=
  (match newstate with
   | S_RUN => khalt PanicCall
   | S_READY => thread_make_runnable me cur
   | S_SLEEP =>
       s <- kget ;;
       upd_thread cur (set_wchan_name (wc_names s !! wc)) ;;;
       on_lists (threadlist_addtail (Wchan wc) cur)
   | S_ZOMBIE =>
       upd_thread cur (set_wchan_name (Some "ZOMBIE")) ;;;
       on_lists (threadlist_addtail (Zombies me) cur)
   end) ;;;
  upd_thread cur (set_state newstate).

(** kern/thread/thread.c:714-728 (thread_switch): what the thread that comes back runs;
    [thread_startup] begins in the same way (lines 747-758). *)
Definition switch_in (me : nat) : K sched unit :=
  c <- get_cpu me ;;
  upd_thread (c_curthread c) (set_wchan_name None) ;;;
  upd_thread (c_curthread c) (set_state S_RUN) ;;;
  s <- kget ;;
  exorcise (S (size (threads s))) me.

(** kern/thread/thread.c:643-664 (thread_switch): one round of the loop that waits for a
    thread to run, and the switch if there is one. *)
Definition pick_next (me : nat) : K sched switched :=
  next <- on_lists (threadlist_remhead (Runq me)) ;;
  match next with
  | None => kret WentIdle
  | Some t =>
      upd_cpu me (set_isidle false) ;;;
      upd_cpu me (set_curthread t) ;;;
      switch_in me ;;;
      kret (Switched t)
  end.

(** kern/thread/thread.c:561-728 (thread_switch); [wc] matters for [S_SLEEP] only. *)
Definition thread_switch (me : nat) (newstate : threadstate) (wc : nat) : K sched switched :=
  c <- get_cpu me ;;
  if c_isidle c then kret Returned else
  let cur := c_curthread c in
  empty <- on_lists (threadlist_isempty (Runq me)) ;;
  if bool_decide (newstate = S_READY) && empty then kret Returned else
  park me newstate wc cur ;;;
  upd_cpu me (set_isidle true) ;;;
  pick_next me.

(** kern/thread/thread.c:778-807 (thread_exit) with OPT_SHELL; [proc_remthread] clears
    [t_proc]. *)
Definition thread_exit (me : nat) : K sched switched :=
  c <- get_cpu me ;;
  upd_thread (c_curthread c) (set_proc None) ;;;
  th <- get_thread (c_curthread c) ;;
  kassert (bool_decide (t_proc th = None)) ;;;
  r <- thread_switch me S_ZOMBIE 0 ;;
  match r with
  | Returned => khalt PanicCall
  | _ => kret r
  end.

(** kern/thread/thread.c:812-816 (thread_yield). *)
Definition thread_yield (me : nat) : K sched switched := thread_switch me S_READY 0.

(** kern/thread/thread.c:314-351 (thread_panic): the run queue is cleared by hand. *)
Definition thread_panic (me : nat) : K sched unit :=
  ipi_broadcast me IPI_PANIC ;;;
  on_lists (kmodify (fun l => set_prev (Tail (Runq me)) (Some (Head (Runq me)))
                                (set_next (Head (Runq me)) (Some (Tail (Runq me))) (set_count (Runq me) 0 l)))).

(** kern/thread/thread.c:356-366 (thread_shutdown). *)
Definition thread_shutdown (me : nat) : K sched unit := ipi_broadcast me IPI_OFFLINE.

(** kern/thread/thread.c:163-253 (cpu_create); [m1] to [m4] tell whether there is memory
    for the structure, the thread, its name and its stack, [ra] and [rp] are the results
    of [cpuarray_add] and [proc_addthread], [t] is the address of the first thread. *)
Definition cpu_create (m1 m2 m3 m4 : bool) (ra rp t kproc : Z) : K sched nat :=
  if negb m1 then khalt PanicCall else
  s <- kget ;;
  let c := length (allcpus s) in
  on_lists (threadlist_init (Zombies c)) ;;;
  on_lists (threadlist_init (Runq c)) ;;;
  if negb (ra =? 0) then khalt PanicCall else
  ok <- thread_create m2 m3 t ;;
  if negb ok then khalt PanicCall else
  kmodify (set_cpus (fun l => l ++ [mkcpu t 0 false 0 []])) ;;;
  upd_thread t (set_cpu c) ;;;
  (if Nat.eqb c 0 then kret tt
   else if negb m4 then khalt PanicCall
   else upd_thread t (set_stack true)) ;;;
  if negb (rp =? 0) then khalt PanicCall else
  upd_thread t (set_proc (Some kproc)) ;;;
  kret c.

(** ** Wait channels *)

(** kern/thread/thread.c:972-985 (wchan_create); [w] names the new channel. *)
Definition wchan_create (m : bool) (w : nat) (name : string) : K sched bool :=
  if negb m then kret false else
  on_lists (threadlist_init (Wchan w)) ;;;
  kmodify (set_wc_names <[w := name]>) ;;;
  kret true.

(** kern/thread/thread.c:991-996 (wchan_destroy). *)
Definition wchan_destroy (w : nat) : K sched unit :=
  on_lists (threadlist_cleanup (Wchan w)) ;;;
  kmodify (set_wc_names (delete w)).

(** kern/thread/thread.c:1005-1019 (wchan_sleep), up to the switch; the assertions on the
    spinlock are those of [Synch.wchan_sleep]. *)
Definition wchan_sleep (me w : nat) : K sched switched := thread_switch me S_SLEEP w.

(** kern/thread/thread.c:1024-1048 (wchan_wakeone). *)
Definition wchan_wakeone (me w : nat) : K sched unit :=
  target <- on_lists (threadlist_remhead (Wchan w)) ;;
  match target with
  | None => kret tt
  | Some t => thread_make_runnable me t
  end.

(** kern/thread/thread.c:1067-1069 (wchan_wakeall): to the private list. *)
Fixpoint grab_all (fuel : nat) (me w : nat) : K sched unit :=
  match fuel with
  | O => khalt OutOfFuel
  | S fuel' =>
      target <- on_lists (threadlist_remhead (Wchan w)) ;;
      match target with
      | None => kret tt
      | Some t => on_lists (threadlist_addtail (Waking me) t) ;;; grab_all fuel' me w
      end
  end.

(** kern/thread/thread.c:1076-1078 (wchan_wakeall): from the private list. *)
Fixpoint wake_all (fuel : nat) (me : nat) : K sched unit :=
  match fuel with
  | O => khalt OutOfFuel
  | S fuel' =>
      target <- on_lists (threadlist_remhead (Waking me)) ;;
      match target with
      | None => kret tt
      | Some t => thread_make_runnable me t ;;; wake_all fuel' me
      end
  end.

(** kern/thread/thread.c:1053-1081 (wchan_wakeall). *)
Definition wchan_wakeall (me w : nat) : K sched unit :=
  s <- kget ;;
  on_lists (threadlist_init (Waking me)) ;;;
  grab_all (S (size (threads s))) me w ;;;
  wake_all (S (size (threads s))) me ;;;
  on_lists (threadlist_cleanup (Waking me)).

(** kern/thread/thread.c:1087-1096 (wchan_isempty). *)
Definition wchan_isempty (w : nat) : K sched bool := on_lists (threadlist_isempty (Wchan w)).

(** ** Migration *)

Definition queue_length (c : nat) : K sched Z := s <- kget ;; kret (tl_count (lists s) (Runq c)).

(** kern/thread/thread.c:864-872 (thread_consider_migration): the counts. *)
Fixpoint count_queues (l : list nat) (me : nat) (my_count total_count : Z) : K sched (Z * Z) :=
  match l with
  | [] => kret (my_count, total_count)
  | c :: l' =>
      n <- queue_length c ;;
      count_queues l' me (if Nat.eqb c me then n else my_count) (u32 (total_count + n))
  end.

(** kern/thread/thread.c:882-885 (thread_consider_migration): [n] threads are taken. *)
Fixpoint take_victims (n : nat) (me : nat) : K sched unit :=
  match n with
  | O => kret tt
  | S n' =>
      t <- on_lists (threadlist_remtail (Runq me)) ;;
      match t with
      | None => khalt NullDeref
      | Some t => on_lists (threadlist_addhead (Victims me) t) ;;; take_victims n' me
      end
  end.

(** kern/thread/thread.c:894-937 (thread_consider_migration): processor [c] gets threads
    until it has [one_share]; what is left of [to_send]. *)
Fixpoint give (to_send : nat) (me c : nat) (one_share : Z) : K sched nat :=
  match to_send with
  | O => kret O
  | S to_send' =>
      n <- queue_length c ;;
      if n <? one_share then
        t <- on_lists (threadlist_remhead (Victims me)) ;;
        match t with
        | None => khalt NullDeref
        | Some t =>
            x <- get_cpu me ;;
            if t =? c_curthread x then
              on_lists (threadlist_addtail (Victims me) t) ;;;
              give to_send' me c one_share
            else
              upd_thread t (set_cpu c) ;;;
              on_lists (threadlist_addtail (Runq c) t) ;;;
              y <- get_cpu c ;;
              (if c_isidle y then ipi_send c IPI_UNIDLE else kret tt) ;;;
              give to_send' me c one_share
        end
      else kret to_send
  end.

(** kern/thread/thread.c:888-939 (thread_consider_migration): the loop over the
    processors. *)
Fixpoint give_all (l : list nat) (to_send : nat) (me : nat) (one_share : Z) : K sched nat :=
  match l with
  | [] => kret to_send
  | c :: l' =>
      match to_send with
      | O => kret O
      | _ =>
          if Nat.eqb c me then give_all l' to_send me one_share else
          n <- give to_send me c one_share ;;
          give_all l' n me one_share
      end
  end.

(** kern/thread/thread.c:948-950 (thread_consider_migration): what is left goes back. *)
Fixpoint put_back (fuel : nat) (me : nat) : K sched unit :=
  match fuel with
  | O => khalt OutOfFuel
  | S fuel' =>
      t <- on_lists (threadlist_remhead (Victims me)) ;;
      match t with
      | None => kret tt
      | Some t => on_lists (threadlist_addtail (Runq me) t) ;;; put_back fuel' me
      end
  end.

(** kern/thread/thread.c:853-956 (thread_consider_migration). *)
Definition thread_consider_migration (me : nat) : K sched unit :=
  s <- kget ;;
  let cs := seq 0 (length (allcpus s)) in
  counts <- count_queues cs me 0 0 ;;
  let '(my_count, total_count) := counts in
  let one_share := DIVROUNDUP total_count (Z.of_nat (length (allcpus s))) in
  if my_count <? one_share then kret tt else
  let to_send := Z.to_nat (my_count - one_share) in
  on_lists (threadlist_init (Victims me)) ;;;
  take_victims to_send me ;;;
  give_all cs to_send me one_share ;;;
  empty <- on_lists (threadlist_isempty (Victims me)) ;;
  (if negb empty then put_back (S (size (threads s))) me else kret tt) ;;;
  empty <- on_lists (threadlist_isempty (Victims me)) ;;
  kassert empty ;;;
  on_lists (threadlist_cleanup (Victims me)).

Definition SCHEDULE_HARDCLOCKS : Z := 4.
Definition MIGRATE_HARDCLOCKS : Z := 16.

(** kern/thread/clock.c:79-86 (timerclock); [lbolt] is a wait channel. *)
Definition timerclock (me lbolt : nat) : K sched unit := wchan_wakeall me lbolt.

(** kern/thread/clock.c:92-107 (hardclock); [schedule] does nothing. *)
Definition hardclock (me : nat) : K sched switched :=
  upd_cpu me (fun c => set_hardclocks (u32 (c_hardclocks c + 1)) c) ;;;
  c <- get_cpu me ;;
  (if c_hardclocks c mod MIGRATE_HARDCLOCKS =? 0 then thread_consider_migration me else kret tt) ;;;
  thread_yield me.

(** ** The invariant *)

(** What a thread on a list is like. *)
Definition fits (i : tlid) (th : thread) : Prop :=
  match i with
  | Runq c | Victims c => t_state th = S_READY /\ t_cpu th = c
  | Zombies c => t_state th = S_ZOMBIE /\ t_proc th = None /\ t_cpu th = c
  | Wchan _ | Waking _ => t_state th = S_SLEEP
  end.

(** [t] runs on processor [c]. *)
Definition runs (s : sched) (c : nat) (t : Z) : Prop := exists x, allcpus s !! c = Some x /\ c_curthread x = t /\ c_isidle x = false.

(** [X] is a thread that is between two places: on no list and not running. (The first
    thread of a processor runs in state [S_READY] until it has been switched to.) *)
Record placed (X : option Z) (L : gmap tlid (list Z)) (s : sched) : Prop := {
  pl_lists : lists_ok (dom (threads s)) L (lists s);
  pl_cpus : forall c, is_Some (allcpus s !! c) -> is_Some (L !! Runq c) /\ is_Some (L !! Zombies c);
  pl_cpu : forall t th, threads s !! t = Some th -> is_Some (allcpus s !! t_cpu th);
  pl_fits : forall i ts t, L !! i = Some ts -> t ∈ ts -> exists th, threads s !! t = Some th /\ fits i th;
  pl_cur : forall c x, allcpus s !! c = Some x -> exists th, threads s !! c_curthread x = Some th /\ t_cpu th = c /\
    (c_isidle x = false -> (t_state th = S_RUN \/ t_state th = S_READY) /\ off_list L (c_curthread x));
  pl_off : forall t th, threads s !! t = Some th -> off_list L t -> X <> Some t -> runs s (t_cpu th) t;
  pl_hand : forall t, X = Some t -> is_Some (threads s !! t) /\ off_list L t /\ forall c, ~ runs s c t
}.

(** The state between steps: every thread is running or on exactly one list. *)
Definition sched_ok (L : gmap tlid (list Z)) (s : sched) : Prop := placed None L s.

Lemma off_insert (L : gmap tlid (list Z)) i ts us t : L !! i = Some us -> (t ∈ ts -> t ∈ us) -> off_list L t -> off_list (<[i := ts]> L) t.
Proof. intros Hi Hsub Hoff j vs [[<- <-]|[_ Hj]]%lookup_insert_Some; [intros Ht; by apply (Hoff i us), Hsub|by apply (Hoff j)]. Qed.

Lemma off_uninsert (L : gmap tlid (list Z)) i ts us t : L !! i = Some us -> (t ∈ us -> t ∈ ts) -> off_list (<[i := ts]> L) t -> off_list L t.
Proof.
  intros Hi Hsub Hoff j vs Hj. destruct (decide (j = i)) as [->|Hne].
  - assert (vs = us) as -> by congruence. intros Ht. by apply (Hoff i ts); [apply lookup_insert_eq|apply Hsub].
  - apply (Hoff j). by rewrite lookup_insert_ne.
Qed.

(** The thread in hand is put on a list. *)
Lemma put_on t L s i us us' th l' : placed (Some t) L s -> L !! i = Some us -> (forall x, x ∈ us' <-> x ∈ us \/ x = t) ->
  fits i th -> (forall c, (exists x, allcpus s !! c = Some x /\ c_curthread x = t) -> t_cpu th = c) -> is_Some (allcpus s !! t_cpu th) ->
  lists_ok (dom (threads s)) (<[i := us']> L) l' ->
  placed None (<[i := us']> L) (mksched l' (<[t := th]> (threads s)) (allcpus s) (wc_names s)).
Proof.
  intros [P1 P2 P3 P4 P5 P6 P7] Hi Hus Hfit Hcur Hcpu Hl. destruct (P7 t eq_refl) as ([th0 Ht] & Hoff & Hnr). split; cbn [lists threads allcpus].
  - rewrite dom_insert_lookup_L by done. done.
  - intros c Hc. destruct (P2 c Hc) as [? ?]. split; apply lookup_insert_is_Some'; by right.
  - intros u thu [[<- <-]|[_ Hu]]%lookup_insert_Some; [done|by apply P3 with u].
  - intros j ts u [[<- <-]|[Hj Hts]]%lookup_insert_Some Hu.
    + apply Hus in Hu as [Hu| ->]; [|exists th; by rewrite lookup_insert_eq]. destruct (decide (u = t)) as [->|Hne]; [exists th; by rewrite lookup_insert_eq|].
      rewrite lookup_insert_ne by done. by apply (P4 i us).
    + rewrite lookup_insert_ne; [by apply (P4 j ts)|]. intros ->. by apply (Hoff j ts).
  - intros c x Hx. destruct (P5 c x Hx) as (thx & Hthx & Ec & Hrun). destruct (decide (c_curthread x = t)) as [Ex|Hne].
    + exists th. rewrite Ex, lookup_insert_eq. split; [done|]. split; [apply Hcur; by exists x|]. intros Hidle. exfalso. apply (Hnr c). by exists x.
    + exists thx. rewrite lookup_insert_ne by done. split; [done|]. split; [done|]. intros Hidle. destruct (Hrun Hidle) as [? Ho]. split; [done|].
      eapply off_insert; [done| |done]. intros [?|?]%Hus; done.
  - intros u thu [[<- <-]|[Hne Hu]]%lookup_insert_Some Ho _; [exfalso; apply (Ho i us'); [apply lookup_insert_eq|apply Hus; by right]|].
    destruct (P6 u thu Hu) as (x & ? & ? & ?); [|congruence|by exists x]. eapply off_uninsert; [done| |done]. intros ?. apply Hus. by left.
  - done.
Qed.

(** A thread is taken from a list. *)
Lemma take_off t L s i us us' l' : placed None L s -> L !! i = Some us -> (forall x, x ∈ us <-> x ∈ us' \/ x = t) -> t ∉ us' ->
  lists_ok (dom (threads s)) (<[i := us']> L) l' -> placed (Some t) (<[i := us']> L) (set_lists l' s).
Proof.
  intros [P1 P2 P3 P4 P5 P6 P7] Hi Hus Hn Hl. assert (Htu : t ∈ us) by (apply Hus; by right). destruct (P4 i us t Hi Htu) as (th & Hth & Hfit).
  split; cbn [lists threads allcpus set_lists]; try done.
  - intros c Hc. destruct (P2 c Hc) as [? ?]. split; apply lookup_insert_is_Some'; by right.
  - intros j ts u [[<- <-]|[Hj Hts]]%lookup_insert_Some Hu; [|by apply (P4 j ts)]. apply (P4 i us); [done|]. apply Hus. by left.
  - intros c x Hx. destruct (P5 c x Hx) as (thx & Hthx & Ec & Hrun). exists thx. split; [done|]. split; [done|]. intros Hidle. destruct (Hrun Hidle) as [? Ho].
    split; [done|]. eapply off_insert; [done| |done]. intros ?. apply Hus. by left.
  - intros u thu Hu Ho Hne. apply P6; [done| |done]. eapply off_uninsert; [done| |done]. intros [?| ->]%Hus; [done|]. by destruct Hne.
  - intros u [= <-]. split; [by rewrite Hth|]. split.
    + intros j ts [[<- <-]|[Hj Hts]]%lookup_insert_Some; [done|]. intros Hu. apply Hj. symmetry. by eapply (lo_disj _ _ _ P1).
    + intros c (x & Hx & Ex & Hidle). destruct (P5 c x Hx) as (thx & _ & _ & Hrun). destruct (Hrun Hidle) as [_ Ho]. rewrite Ex in Ho. by apply (Ho i us).
Qed.

(** A running thread leaves its processor. *)
Lemma stop_running c x L s : placed None L s -> allcpus s !! c = Some x -> c_isidle x = false ->
  placed (Some (c_curthread x)) L (set_cpus <[c := set_isidle true x]> s).
Proof.
  intros [P1 P2 P3 P4 P5 P6 P7] Hx Hidle. pose proof (lookup_lt_Some _ _ _ Hx) as Hlt.
  assert (Hcpu : forall d y, <[c := set_isidle true x]> (allcpus s) !! d = Some y -> exists y', allcpus s !! d = Some y' /\ c_curthread y = c_curthread y' /\ (d <> c -> y = y') /\ (c_isidle y = false -> d <> c)).
  { intros d y Hy. destruct (decide (d = c)) as [->|Hne]; [rewrite list_lookup_insert_eq in Hy by done; injection Hy as <-; by exists x|].
    rewrite list_lookup_insert_ne in Hy by done. by exists y. }
  split; cbn [lists threads allcpus set_cpus]; try done.
  - intros d [y Hy]. destruct (Hcpu d y Hy) as (y' & Hy' & _). apply P2. by rewrite Hy'.
  - intros u th Hu. destruct (P3 u th Hu) as [y Hy]. rewrite lookup_lt_is_Some, length_insert, <- lookup_lt_is_Some. by exists y.
  - intros d y Hy. destruct (Hcpu d y Hy) as (y' & Hy' & Ec & Hne & Hi). destruct (P5 d y' Hy') as (th & ? & ? & Hr). rewrite Ec. exists th. split; [done|]. split; [done|].
    intros Hid. apply Hr. by rewrite <- (Hne (Hi Hid)).
  - intros u th Hu Ho Hne. destruct (P6 u th Hu Ho ltac:(done)) as (y & Hy & Ey & Hid). exists y. split; [|done]. cbn. rewrite list_lookup_insert_ne; [done|].
    intros E. congruence.
  - intros u [= <-]. destruct (P5 c x Hx) as (th & Hth & Ec & Hr). destruct (Hr Hidle) as [_ Ho]. split; [by rewrite Hth|]. split; [done|].
    intros d (y & Hy & Ey & Hid). destruct (Hcpu d y Hy) as (y' & Hy' & Ec' & Hne & Hi). apply (Hi Hid). destruct (P5 d y' Hy') as (th' & Hth' & Ed & _). congruence.
Qed.

(** The thread in hand runs on an idle processor. *)
Lemma start_running c x t th L s : placed (Some t) L s -> allcpus s !! c = Some x -> c_isidle x = true -> threads s !! t = Some th -> t_cpu th = c ->
  placed None L (set_threads <[t := set_state S_RUN (set_wchan_name None th)]> (set_cpus <[c := set_curthread t (set_isidle false x)]> s)).
Proof.
  intros [P1 P2 P3 P4 P5 P6 P7] Hx Hidle Ht Ec. pose proof (lookup_lt_Some _ _ _ Hx) as Hlt. destruct (P7 t eq_refl) as (_ & Hoff & Hnr).
  split; cbn [lists threads allcpus set_cpus set_threads].
  - by rewrite dom_insert_lookup_L by done.
  - intros d Hd. apply P2. by rewrite lookup_lt_is_Some, length_insert, <- lookup_lt_is_Some in Hd.
  - intros u thu Hu. rewrite lookup_lt_is_Some, length_insert, <- lookup_lt_is_Some. apply lookup_insert_Some in Hu as [[<- <-]|[_ Hu]]; [cbn; rewrite Ec; by exists x|by apply P3 with u].
  - intros j ts u Hj Hu. rewrite lookup_insert_ne; [by apply (P4 j ts)|]. intros <-. by apply (Hoff j ts).
  - intros d y Hy. destruct (decide (d = c)) as [->|Hne].
    + rewrite list_lookup_insert_eq in Hy by done. injection Hy as <-. cbn. rewrite lookup_insert_eq. eexists. split; [done|]. split; [done|]. intros _. split; [by left|done].
    + rewrite list_lookup_insert_ne in Hy by done. destruct (P5 d y Hy) as (thy & Hthy & Ed & Hr). rewrite lookup_insert_ne by (intros E; congruence). by exists thy.
  - intros u thu [[<- <-]|[Hne Hu]]%lookup_insert_Some Ho _.
    + exists (set_curthread t (set_isidle false x)). cbn. rewrite Ec, list_lookup_insert_eq by done. done.
    + destruct (P6 u thu Hu Ho ltac:(congruence)) as (y & Hy & Ey & Hid). exists y. split; [|done]. cbn. rewrite list_lookup_insert_ne; [done|]. intros E. congruence.
  - done.
Qed.

(** Processors may change in what does not concern threads. *)
Lemma placed_cpu X L s c x y : placed X L s -> allcpus s !! c = Some x -> c_curthread y = c_curthread x -> c_isidle y = c_isidle x ->
  placed X L (set_cpus <[c := y]> s).
Proof.
  intros [P1 P2 P3 P4 P5 P6 P7] Hx Ec Ei. pose proof (lookup_lt_Some _ _ _ Hx) as Hlt.
  assert (Hback : forall d z, <[c := y]> (allcpus s) !! d = Some z -> exists z', allcpus s !! d = Some z' /\ c_curthread z = c_curthread z' /\ c_isidle z = c_isidle z').
  { intros d z Hz. destruct (decide (d = c)) as [->|Hne]; [rewrite list_lookup_insert_eq in Hz by done; injection Hz as <-; by exists x|].
    rewrite list_lookup_insert_ne in Hz by done. by exists z. }
  assert (Hforth : forall d z', allcpus s !! d = Some z' -> exists z, <[c := y]> (allcpus s) !! d = Some z /\ c_curthread z = c_curthread z' /\ c_isidle z = c_isidle z').
  { intros d z Hz. destruct (decide (d = c)) as [->|Hne]; [rewrite list_lookup_insert_eq by done; assert (z = x) as -> by congruence; by exists y|].
    rewrite list_lookup_insert_ne by done. by exists z. }
  split; cbn [lists threads allcpus set_cpus]; try done.
  - intros d [z Hz]. destruct (Hback d z Hz) as (z' & Hz' & _). apply P2. by exists z'.
  - intros u th Hu. rewrite lookup_lt_is_Some, length_insert, <- lookup_lt_is_Some. by apply P3 with u.
  - intros d z Hz. destruct (Hback d z Hz) as (z' & Hz' & -> & ->). by apply P5.
  - intros u th Hu Ho Hne. destruct (P6 u th Hu Ho Hne) as (z & Hz & <- & Hid). destruct (Hforth _ z Hz) as (z' & Hz' & E1 & E2). exists z'. by rewrite E1, E2.
  - intros u Hu. destruct (P7 u Hu) as (? & ? & Hnr). split; [done|]. split; [done|]. intros d (z & Hz & Ez & Hid). destruct (Hback d z Hz) as (z' & Hz' & E1 & E2).
    apply (Hnr d). exists z'. by rewrite <- E1, <- E2.
Qed.

(** What the scheduler sees of the processors. *)
Definition view (s : sched) : list (Z * bool) := (fun c => (c_curthread c, c_isidle c)) <$> allcpus s.

Lemma view_insert s c x y : allcpus s !! c = Some x -> c_curthread y = c_curthread x -> c_isidle y = c_isidle x -> view (set_cpus <[c := y]> s) = view s.
Proof.
  intros Hx E1 E2. unfold view. cbn. rewrite list_fmap_insert. apply list_insert_id. by rewrite list_lookup_fmap, Hx, E1, E2.
Qed.

Lemma ipi_ok X L s c x : placed X L s -> allcpus s !! c = Some x ->
  exists s', ipi_send c IPI_UNIDLE s = Done tt s' /\ placed X L s' /\ threads s' = threads s /\ lists s' = lists s /\ view s' = view s.
Proof.
  intros Hp Hx. unfold ipi_send, upd_cpu, get_cpu. kunfold. cbn. rewrite Hx. eexists. split; [done|]. split; [by apply placed_cpu with x|]. split; [done|]. split; [done|].
  by apply view_insert with x.
Qed.

(** A processor's current thread belongs to it. *)
Lemma cur_cpu X L s t th : placed X L s -> threads s !! t = Some th -> forall c, (exists x, allcpus s !! c = Some x /\ c_curthread x = t) -> t_cpu th = c.
Proof. intros Hp Ht c (x & Hx & <-). destruct (pl_cur _ _ _ Hp c x Hx) as (th' & ? & ? & _). congruence. Qed.

Lemma make_runnable_ok me t L s th : placed (Some t) L s -> threads s !! t = Some th ->
  exists q s', L !! Runq (t_cpu th) = Some q /\ thread_make_runnable me t s = Done tt s' /\ placed None (<[Runq (t_cpu th) := q ++ [t]]> L) s' /\
    threads s' = <[t := set_state S_READY th]> (threads s) /\ view s' = view s.
Proof.
  intros Hp Ht. pose proof (pl_cpu _ _ _ Hp t th Ht) as [x Hx]. destruct (pl_cpus _ _ _ Hp (t_cpu th)) as [[q Hq] _]; [by exists x|]. exists q.
  destruct (pl_hand _ _ _ Hp t eq_refl) as (_ & Hoff & _).
  destruct (addtail_ok _ _ _ _ _ t (pl_lists _ _ _ Hp) Hq) as (l' & El & Hl'); [by apply elem_of_dom_2 in Ht|done|].
  assert (Hp' : placed None (<[Runq (t_cpu th) := q ++ [t]]> L) (mksched l' (<[t := set_state S_READY th]> (threads s)) (allcpus s) (wc_names s))).
  { apply (put_on t L s _ q); [done|done| |done| |by exists x|done].
    - intros u. rewrite elem_of_app, list_elem_of_singleton. done.
    - intros c Hc. by apply (cur_cpu _ _ _ _ _ Hp Ht). }
  unfold thread_make_runnable. run_get. run_get. run on_lists_eq. run_get.
  destruct (c_isidle x && negb (t_cpu th =? me)%nat).
  - destruct (ipi_ok _ _ _ _ x Hp' Hx) as (s' & E & Hp'' & Et & _ & Ev). exists s'. split; [done|]. split; [done|]. split; [done|]. split; [done|]. done.
  - eexists. split; [done|]. split; [done|]. done.
Qed.

(** A thread in hand that is nobody's current thread is destroyed. *)
Lemma destroy_ok me t L s th x : placed (Some t) L s -> threads s !! t = Some th -> allcpus s !! me = Some x ->
  (forall c y, allcpus s !! c = Some y -> c_curthread y <> t) -> t_state th <> S_RUN -> t_proc th = None ->
  thread_destroy me t s = Done tt (set_threads (delete t) s) /\ placed None L (set_threads (delete t) s).
Proof.
  intros Hp Ht Hx Hcur Hst Hpr. destruct (pl_hand _ _ _ Hp t eq_refl) as (_ & Hoff & _).
  destruct (node_cleanup_ok _ _ _ t (pl_lists _ _ _ Hp)) as [E Hl]; [by apply elem_of_dom_2 in Ht|done|]. split.
  - unfold thread_destroy. pose proof (Hcur me x Hx). run_get. rewrite (proj2 (Z.eqb_neq _ _)) by congruence. run_get. run_get. rewrite !bool_decide_true by done.
    run_get. run_get. run on_lists_eq. by destruct s.
  - destruct Hp as [P1 P2 P3 P4 P5 P6 P7]. split; cbn [lists threads allcpus set_threads].
    + by rewrite dom_delete_L.
    + done.
    + intros u thu [_ Hu]%lookup_delete_Some. by apply P3 with u.
    + intros j ts u Hj Hu. rewrite lookup_delete_ne; [by apply (P4 j ts)|]. intros <-. by apply (Hoff j ts).
    + intros c y Hy. rewrite lookup_delete_ne; [by apply P5|]. intros E'. by apply (Hcur c y).
    + intros u thu [Hne Hu]%lookup_delete_Some Ho _. apply P6; [done|done|congruence].
    + done.
Qed.

Lemma exorcise_ok me x : forall z fuel L s, placed None L s -> allcpus s !! me = Some x -> c_isidle x = false -> L !! Zombies me = Some z -> (length z < fuel)%nat ->
  exists s', exorcise fuel me s = Done tt s' /\ placed None (<[Zombies me := []]> L) s' /\ allcpus s' = allcpus s /\
    (forall t, t ∉ z -> threads s' !! t = threads s !! t) /\ (forall t, t ∈ z -> threads s' !! t = None).
Proof.
  induction z as [|t z IH]; intros [|fuel] L s Hp Hx Hid Hz Hf; cbn [length] in Hf; try lia; cbn [exorcise].
  - pose proof (remhead_ok _ _ _ _ _ (pl_lists _ _ _ Hp) Hz) as E. cbn beta iota in E. run on_lists_eq. exists s. split; [by destruct s|].
    rewrite insert_id by done. split; [done|]. split; [done|]. split; [done|]. by intros t ?%elem_of_nil.
  - pose proof (remhead_ok _ _ _ _ _ (pl_lists _ _ _ Hp) Hz) as (l' & E & Hl). destruct (pl_fits _ _ _ Hp _ _ t Hz ltac:(left)) as (th & Ht & Hs & Hpr & Ec).
    assert (Hcur : forall c y, allcpus s !! c = Some y -> c_curthread y <> t).
    { intros c y Hy Ey. pose proof (cur_cpu _ _ _ _ _ Hp Ht c ltac:(by exists y)) as Ec'. rewrite Ec in Ec'. subst c. assert (y = x) as -> by congruence.
      destruct (pl_cur _ _ _ Hp me x Hx) as (th' & _ & _ & Hr). destruct (Hr Hid) as [_ Ho]. rewrite Ey in Ho. apply (Ho _ _ Hz). left. }
    pose proof (lo_nodup _ _ _ (pl_lists _ _ _ Hp) _ _ Hz) as [Hn _]%NoDup_cons.
    assert (Hp1 : placed (Some t) (<[Zombies me := z]> L) (set_lists l' s)).
    { apply (take_off t L s _ (t :: z)); try done. intros u. rewrite elem_of_cons. naive_solver. }
    destruct (destroy_ok me t _ (set_lists l' s) th x Hp1 Ht Hx Hcur) as [Ed Hp2]; [congruence|done|].
    run on_lists_eq. run_get. rewrite (proj2 (Z.eqb_neq _ _)) by (intros ->; by apply (Hcur me x)). run_get. run_get. rewrite bool_decide_true by done. run_get. run Ed.
    destruct (IH fuel _ _ Hp2 Hx Hid) as (s' & E' & Hp3 & Hc3 & Hk3 & Hd3); [apply lookup_insert_eq|lia|]. rewrite insert_insert_eq in Hp3. exists s'. split; [done|].
    split; [done|]. split; [done|]. split.
    + intros u [Hu1 Hu2]%not_elem_of_cons. rewrite Hk3 by done. cbn. by rewrite lookup_delete_ne.
    + intros u [->|Hu]%elem_of_cons; [|by apply Hd3]. rewrite Hk3 by done. cbn. by rewrite lookup_delete_eq.
Qed.

(** ** Switching *)

Lemma zombies_fuel X L s c z : placed X L s -> L !! Zombies c = Some z -> (length z < S (size (threads s)))%nat.
Proof.
  intros Hp Hz. pose proof (nodup_length (dom (threads s)) z (lo_nodup _ _ _ (pl_lists _ _ _ Hp) _ _ Hz)) as Hl. rewrite size_dom in Hl. apply Nat.lt_succ_r, Hl.
  intros t Ht. by eapply (lo_threads _ _ _ (pl_lists _ _ _ Hp)).
Qed.

(** The first thread of the run queue runs; then no zombies are left. *)
Lemma pick_next_ok me L s x q z : placed None L s -> allcpus s !! me = Some x -> c_isidle x = true -> L !! Runq me = Some q -> L !! Zombies me = Some z ->
  match q with
  | [] => pick_next me s = Done WentIdle s
  | t :: q' => exists s', pick_next me s = Done (Switched t) s' /\ placed None (<[Zombies me := []]> (<[Runq me := q']> L)) s' /\ runs s' me t /\
      (forall c, c <> me -> allcpus s' !! c = allcpus s !! c) /\ (forall u, u ∉ z -> u <> t -> threads s' !! u = threads s !! u)
  end.
Proof.
  intros Hp Hx Hid Hq Hz. pose proof (remhead_ok _ _ _ _ _ (pl_lists _ _ _ Hp) Hq) as E. unfold pick_next. destruct q as [|t q].
  - run on_lists_eq. by destruct s.
  - destruct E as (l' & E & Hl). run on_lists_eq. pose proof (lookup_lt_Some _ _ _ Hx) as Hlt. pose proof (lo_nodup _ _ _ (pl_lists _ _ _ Hp) _ _ Hq) as [Hn _]%NoDup_cons.
    assert (Hp1 : placed (Some t) (<[Runq me := q]> L) (set_lists l' s)).
    { apply (take_off t L s _ (t :: q)); try done. intros u. rewrite elem_of_cons. naive_solver. }
    destruct (pl_fits _ _ _ Hp _ _ t Hq ltac:(left)) as (th & Ht & _ & Ec). pose proof (start_running me x t th _ _ Hp1 Hx Hid Ht Ec) as Hp2.
    run_get. erewrite kstep; [|apply upd_cpu_eq; cbn; by apply list_lookup_insert_eq]. cbn beta iota. unfold set_cpus at 1 2. cbn [lists threads allcpus wc_names set_lists]. rewrite list_insert_insert_eq.
    set (s2 := mksched _ _ _ _) in *. assert (Hcur : allcpus s2 !! me = Some (set_curthread t (set_isidle false x))) by (cbn; by apply list_lookup_insert_eq).
    change (set_cpus <[me := set_curthread t (set_isidle false x)]> (set_lists l' s)) with s2 in Hp2. set (s3 := set_threads <[t := set_state S_RUN (set_wchan_name None th)]> s2) in *.
    destruct (exorcise_ok me (set_curthread t (set_isidle false x)) z (S (size (threads s3))) _ s3 Hp2 Hcur ltac:(done)) as (s4 & E4 & Hp4 & Hc4 & Hk4 & _);
      [by rewrite lookup_insert_ne|eapply zombies_fuel; [exact Hp2|by rewrite lookup_insert_ne]|].
    exists s4. split; [|split; [done|split; [|split]]].
    + erewrite kstep; [done|]. unfold switch_in. run_get. run_get. erewrite kstep; [|apply upd_thread_eq; cbn; by apply lookup_insert_eq]. cbn beta iota.
      unfold set_threads at 1 2. cbn [lists threads allcpus wc_names]. rewrite insert_insert_eq. erewrite kstep; [|done]. exact E4.
    + exists (set_curthread t (set_isidle false x)). rewrite Hc4. done.
    + intros c Hc. rewrite Hc4. cbn. by apply list_lookup_insert_ne.
    + intros u Hu Hne. rewrite Hk4 by done. cbn. by rewrite lookup_insert_ne.
Qed.

(** Where [thread_switch] puts a thread. *)
Definition dest (me : nat) (newstate : threadstate) (wc : nat) : tlid :=
  match newstate with S_SLEEP => Wchan wc | S_ZOMBIE => Zombies me | _ => Runq me end.

Lemma park_ok me newstate wc L s x us : placed None L s -> allcpus s !! me = Some x -> c_isidle x = false -> newstate <> S_RUN -> L !! dest me newstate wc = Some us ->
  (newstate = S_ZOMBIE -> forall th, threads s !! c_curthread x = Some th -> t_proc th = None) ->
  exists l' th, park me newstate wc (c_curthread x) s = Done tt (mksched l' (<[c_curthread x := th]> (threads s)) (allcpus s) (wc_names s)) /\
    placed None (<[dest me newstate wc := us ++ [c_curthread x]]> L) (mksched l' (<[c_curthread x := th]> (threads s)) (<[me := set_isidle true x]> (allcpus s)) (wc_names s)).
Proof.
  intros Hp Hx Hid Hns Hus Hz. set (t := c_curthread x) in *. destruct (pl_cur _ _ _ Hp me x Hx) as (th & Ht & Ec & Hr). destruct (Hr Hid) as [_ Hoff]. fold t in Ht, Hoff.
  pose proof (stop_running me x L s Hp Hx Hid) as Hp1. fold t in Hp1. set (s1 := set_cpus <[me := set_isidle true x]> s) in *. pose proof (lookup_lt_Some _ _ _ Hx) as Hlt.
  destruct (addtail_ok _ _ _ _ _ t (pl_lists _ _ _ Hp) Hus) as (l' & El & Hl'); [by apply elem_of_dom_2 in Ht|done|].
  assert (Hput : forall th', fits (dest me newstate wc) th' -> t_cpu th' = me ->
     placed None (<[dest me newstate wc := us ++ [t]]> L) (mksched l' (<[t := th']> (threads s)) (<[me := set_isidle true x]> (allcpus s)) (wc_names s))).
  { intros th' Hfit Ec'. apply (put_on t L s1 _ us); [done|done| |done| | |done].
    - intros u. rewrite elem_of_app, list_elem_of_singleton. done.
    - intros c Hc. rewrite Ec', <- Ec. by apply (cur_cpu _ _ _ _ _ Hp1 Ht).
    - rewrite Ec'. cbn. rewrite list_lookup_insert_eq by done. done. }
  unfold park. destruct newstate; [done| | |]; cbn [dest] in *.
  - exists l', (set_state S_READY th). split; [|by apply Hput]. erewrite kstep; [|unfold thread_make_runnable; run_get; run_get; rewrite Ec; run on_lists_eq; run_get; rewrite Hid; done].
    erewrite upd_thread_eq; [|cbn; by apply lookup_insert_eq]. unfold set_threads. cbn. by rewrite insert_insert_eq.
  - exists l', (set_state S_SLEEP (set_wchan_name (wc_names s !! wc) th)). split; [|by apply Hput]. erewrite kstep; [|erewrite kstep; [|done]; run_get; by apply on_lists_eq].
    erewrite upd_thread_eq; [|cbn; by apply lookup_insert_eq]. unfold set_threads. cbn. by rewrite insert_insert_eq.
  - exists l', (set_state S_ZOMBIE (set_wchan_name (Some "ZOMBIE") th)). split; [|apply Hput; [split; [done|split; [exact (Hz eq_refl th Ht)|done]]|done]]. erewrite kstep; [|run_get; by apply on_lists_eq].
    erewrite upd_thread_eq; [|cbn; by apply lookup_insert_eq]. unfold set_threads. cbn. by rewrite insert_insert_eq.
Qed.

(** The lists after a switch: the old thread is at the end of its list, the first one of
    the run queue [q] runs. *)
Lemma thread_switch_ok me newstate wc L s x us q : placed None L s -> allcpus s !! me = Some x -> c_isidle x = false -> newstate <> S_RUN ->
  L !! dest me newstate wc = Some us -> (newstate = S_ZOMBIE -> forall th, threads s !! c_curthread x = Some th -> t_proc th = None) ->
  L !! Runq me = Some q -> (newstate = S_READY -> q <> []) ->
  exists s' L', placed None L' s' /\
    match <[dest me newstate wc := us ++ [c_curthread x]]> L !! Runq me with
    | Some (t :: q') => thread_switch me newstate wc s = Done (Switched t) s' /\ runs s' me t /\
        L' = <[Zombies me := []]> (<[Runq me := q']> (<[dest me newstate wc := us ++ [c_curthread x]]> L))
    | _ => thread_switch me newstate wc s = Done WentIdle s' /\ L' = <[dest me newstate wc := us ++ [c_curthread x]]> L /\
        allcpus s' !! me = Some (set_isidle true x)
    end.
Proof.
  intros Hp Hx Hid Hns Hus Hz Hq Hne. pose proof (lookup_lt_Some _ _ _ Hx) as Hlt. destruct (park_ok me newstate wc L s x us Hp Hx Hid Hns Hus Hz) as (l' & th & Epark & Hp1).
  set (L1 := <[dest me newstate wc := us ++ [c_curthread x]]> L) in *. set (s2 := mksched l' _ (<[me := _]> _) _) in Hp1.
  assert (Hx2 : allcpus s2 !! me = Some (set_isidle true x)) by (cbn; by apply list_lookup_insert_eq).
  destruct (pl_cpus _ _ _ Hp1 me) as [[q1 Hq1] [z1 Hz1]]; [by rewrite Hx2|]. pose proof (pick_next_ok me L1 s2 _ q1 z1 Hp1 Hx2 ltac:(done) Hq1 Hz1) as Hpick.
  assert (Erun : thread_switch me newstate wc s = pick_next me s2).
  { unfold thread_switch. run_get. rewrite Hid. pose proof (isempty_ok _ _ _ _ _ (pl_lists _ _ _ Hp) Hq) as Ee. run on_lists_eq.
    assert (Eb : bool_decide (newstate = S_READY) && bool_decide (q = []) = false).
    { destruct (decide (newstate = S_READY)) as [En|En]; [rewrite (bool_decide_false (q = [])) by auto; apply andb_false_r|by rewrite bool_decide_false by done]. }
    rewrite Eb. destruct s as [l t c w]. cbn [set_lists lists threads allcpus wc_names] in *. run Epark. run_get. done. }
  rewrite Hq1, Erun. destruct q1 as [|t q1].
  - exists s2, L1. done.
  - destruct Hpick as (s' & E & Hp2 & Hr & _). eexists s', _. split; [exact Hp2|]. split; [done|]. done.
Qed.
