(* ===== verification/SchedSpec.v ===== *)
(** * The scheduler: correctness

    Wake-ups, new threads and migration (Sched.v) keep every thread in its place; the
    steps of all processors together do so in any order; what a yield, a wake-up and an
    undisturbed migration come to. *)

From stdpp Require Import base functions numbers list gmap strings relations.
From Stdlib Require Import ZArith Lia.
From S2P Require Import Prelude ThreadList Sched.

Open Scope Z_scope.
Open Scope k_scope.

(** ** Moving threads between lists *)

Lemma hand_put t L s j vs vs' th l' : placed (Some t) L s -> L !! j = Some vs -> (forall x, x ∈ vs' <-> x ∈ vs \/ x = t) -> threads s !! t = Some th -> fits j th ->
  lists_ok (dom (threads s)) (<[j := vs']> L) l' -> placed None (<[j := vs']> L) (set_lists l' s).
Proof.
  intros Hp Hj Hvs Ht Hfit Hl. pose proof (put_on t L s j vs vs' th l' Hp Hj Hvs Hfit) as Hput. rewrite (insert_id (threads s)) in Hput by done. apply Hput; [|by apply (pl_cpu _ _ _ Hp t)|done].
  intros c Hc. by apply (cur_cpu _ _ _ _ _ Hp Ht).
Qed.

Lemma hand_addtail t L s j vs th : placed (Some t) L s -> L !! j = Some vs -> threads s !! t = Some th -> fits j th ->
  exists l', on_lists (threadlist_addtail j t) s = Done tt (set_lists l' s) /\ placed None (<[j := vs ++ [t]]> L) (set_lists l' s).
Proof.
  intros Hp Hj Ht Hfit. destruct (pl_hand _ _ _ Hp t eq_refl) as (_ & Hoff & _).
  destruct (addtail_ok _ _ _ _ _ t (pl_lists _ _ _ Hp) Hj) as (l' & El & Hl'); [by apply elem_of_dom_2 in Ht|done|]. exists l'. split; [by apply on_lists_eq|].
  apply (hand_put t L s j vs _ th); try done. intros u. rewrite elem_of_app, list_elem_of_singleton. done.
Qed.

Lemma hand_addhead t L s j vs th : placed (Some t) L s -> L !! j = Some vs -> threads s !! t = Some th -> fits j th ->
  exists l', on_lists (threadlist_addhead j t) s = Done tt (set_lists l' s) /\ placed None (<[j := t :: vs]> L) (set_lists l' s).
Proof.
  intros Hp Hj Ht Hfit. destruct (pl_hand _ _ _ Hp t eq_refl) as (_ & Hoff & _).
  destruct (addhead_ok _ _ _ _ _ t (pl_lists _ _ _ Hp) Hj) as (l' & El & Hl'); [by apply elem_of_dom_2 in Ht|done|]. exists l'. split; [by apply on_lists_eq|].
  apply (hand_put t L s j vs _ th); try done. intros u. rewrite elem_of_cons. naive_solver.
Qed.

Lemma take_head L s i ts : placed None L s -> L !! i = Some ts ->
  match ts with
  | [] => on_lists (threadlist_remhead i) s = Done None s
  | t :: us => exists l' th, on_lists (threadlist_remhead i) s = Done (Some t) (set_lists l' s) /\ placed (Some t) (<[i := us]> L) (set_lists l' s) /\
      threads s !! t = Some th /\ fits i th
  end.
Proof.
  intros Hp Hi. pose proof (remhead_ok _ _ _ _ _ (pl_lists _ _ _ Hp) Hi) as E. destruct ts as [|t us].
  - erewrite on_lists_eq by done. by destruct s.
  - destruct E as (l' & E & Hl). destruct (pl_fits _ _ _ Hp i _ t Hi ltac:(left)) as (th & Ht & Hfit). exists l', th. split; [by apply on_lists_eq|]. split; [|done].
    pose proof (lo_nodup _ _ _ (pl_lists _ _ _ Hp) _ _ Hi) as [Hn _]%NoDup_cons. apply (take_off t L s _ (t :: us)); try done. intros u. rewrite elem_of_cons. naive_solver.
Qed.

Lemma take_tail L s i us t : placed None L s -> L !! i = Some (us ++ [t]) ->
  exists l' th, on_lists (threadlist_remtail i) s = Done (Some t) (set_lists l' s) /\ placed (Some t) (<[i := us]> L) (set_lists l' s) /\
    threads s !! t = Some th /\ fits i th.
Proof.
  intros Hp Hi. destruct (remtail_ok _ _ _ _ _ (pl_lists _ _ _ Hp) Hi) as [_ E]. destruct (E us t eq_refl) as (l' & E' & Hl).
  destruct (pl_fits _ _ _ Hp i _ t Hi) as (th & Ht & Hfit); [apply elem_of_app; right; left|]. exists l', th. split; [by apply on_lists_eq|]. split; [|done].
  pose proof (lo_nodup _ _ _ (pl_lists _ _ _ Hp) _ _ Hi) as (_ & Hd & _)%NoDup_app. apply (take_off t L s _ (us ++ [t])); try done.
  - intros u. rewrite elem_of_app, list_elem_of_singleton. done.
  - intros Ht'. apply (Hd t Ht'). left.
Qed.

(** A list is set up, or taken down. *)
Lemma list_new L s i : placed None L s -> L !! i = None ->
  exists l', on_lists (threadlist_init i) s = Done tt (set_lists l' s) /\ placed None (<[i := []]> L) (set_lists l' s).
Proof.
  intros Hp Hi. pose proof Hp as [P1 P2 P3 P4 P5 P6 P7]. destruct (init_ok _ _ _ i P1 Hi) as (l' & E & Hl). exists l'. split; [by apply on_lists_eq|].
  assert (Hoff : forall t, off_list (<[i := []]> L) t <-> off_list L t).
  { intros t. split; intros Ho j ts Hj.
    - apply (Ho j). rewrite lookup_insert_ne; [done|]. congruence.
    - apply lookup_insert_Some in Hj as [[<- <-]|[_ Hj]]; [apply not_elem_of_nil|by apply (Ho j)]. }
  split; try done.
  - intros c Hc. destruct (P2 c Hc). split; apply lookup_insert_is_Some'; by right.
  - intros j ts t [[<- <-]|[_ Hj]]%lookup_insert_Some Ht; [by apply elem_of_nil in Ht|by apply (P4 j ts)].
  - intros c x Hx. destruct (P5 c x Hx) as (th & ? & ? & Hr). exists th. split; [done|]. split; [done|]. intros Hid. rewrite Hoff. by apply Hr.
  - intros t th Ht Ho Hne. apply P6; [done|by apply Hoff|done].
Qed.

Lemma list_drop L s i : placed None L s -> L !! i = Some [] -> (forall c, i <> Runq c /\ i <> Zombies c) ->
  on_lists (threadlist_cleanup i) s = Done tt s /\ placed None (delete i L) s.
Proof.
  intros Hp Hi Hne. pose proof Hp as [P1 P2 P3 P4 P5 P6 P7]. split; [erewrite on_lists_eq by (by eapply cleanup_ok); by destruct s|].
  assert (Hoff : forall t, off_list (delete i L) t <-> off_list L t).
  { intros t. split; intros Ho j ts Hj.
    - destruct (decide (j = i)) as [->|Hj']; [assert (ts = []) as -> by congruence; apply not_elem_of_nil|]. apply (Ho j). by rewrite lookup_delete_ne.
    - apply lookup_delete_Some in Hj as [_ Hj]. by apply (Ho j). }
  split; try done.
  - by apply lists_drop.
  - intros c Hc. destruct (P2 c Hc), (Hne c). by rewrite !lookup_delete_ne.
  - intros j ts t [_ Hj]%lookup_delete_Some Ht. by apply (P4 j ts).
  - intros c x Hx. destruct (P5 c x Hx) as (th & ? & ? & Hr). exists th. split; [done|]. split; [done|]. intros Hid. rewrite Hoff. by apply Hr.
  - intros t th Ht Ho _. apply P6; [done|by apply Hoff|done].
Qed.

(** ** Wake-ups *)

(** Only run queues change, and they only grow at the end. *)
Definition queued (L L' : gmap tlid (list Z)) : Prop :=
  (forall i, (forall c, i <> Runq c) -> L' !! i = L !! i) /\ (forall c q, L !! Runq c = Some q -> exists q', L' !! Runq c = Some (q ++ q')).

Lemma queued_refl L : queued L L.
Proof. split; [done|]. intros c q Hq. exists []. by rewrite app_nil_r. Qed.

Lemma queued_trans L L1 L2 : queued L L1 -> queued L1 L2 -> queued L L2.
Proof.
  intros [A1 B1] [A2 B2]. split; [intros i Hi; by rewrite A2, A1|]. intros c q Hq. destruct (B1 c q Hq) as (q1 & Hq1). destruct (B2 c _ Hq1) as (q2 & Hq2).
  exists (q1 ++ q2). by rewrite app_assoc.
Qed.

Lemma queued_add L c q t : L !! Runq c = Some q -> queued L (<[Runq c := q ++ [t]]> L).
Proof.
  intros Hq. split; [intros i Hi; by rewrite lookup_insert_ne by auto|]. intros d q' Hq'. destruct (decide (d = c)) as [->|Hne].
  - rewrite lookup_insert_eq. exists [t]. congruence.
  - exists []. rewrite lookup_insert_ne, app_nil_r by congruence. done.
Qed.

(** The first sleeper of a channel is put on the run queue of its processor. *)
Lemma wakeone_ok me w L s ws : placed None L s -> L !! Wchan w = Some ws ->
  match ws with
  | [] => wchan_wakeone me w s = Done tt s
  | t :: us => exists s' th q, wchan_wakeone me w s = Done tt s' /\ threads s !! t = Some th /\ L !! Runq (t_cpu th) = Some q /\
      placed None (<[Runq (t_cpu th) := q ++ [t]]> (<[Wchan w := us]> L)) s' /\ threads s' = <[t := set_state S_READY th]> (threads s) /\ view s' = view s
  end.
Proof.
  intros Hp Hw. pose proof (take_head L s _ _ Hp Hw) as E. unfold wchan_wakeone. destruct ws as [|t us].
  - run E. done.
  - destruct E as (l' & th & E & Hp1 & Ht & _). run E. destruct (make_runnable_ok me t _ _ th Hp1 Ht) as (q & s' & Hq & Er & Hp2 & Et & Ev).
    rewrite lookup_insert_ne in Hq by done. exists s', th, q. done.
Qed.

Lemma grab_all_ok me w : forall ws fuel L s k, placed None L s -> L !! Wchan w = Some ws -> L !! Waking me = Some k -> (length ws < fuel)%nat ->
  exists l', grab_all fuel me w s = Done tt (set_lists l' s) /\ placed None (<[Waking me := k ++ ws]> (<[Wchan w := []]> L)) (set_lists l' s).
Proof.
  induction ws as [|t ws IH]; intros [|fuel] L s k Hp Hw Hk Hf; cbn [length] in Hf; try lia; cbn [grab_all]; pose proof (take_head L s _ _ Hp Hw) as E.
  - run E. exists (lists s). destruct s as [l th c n]. split; [done|]. rewrite app_nil_r, (insert_id L (Wchan w)), insert_id by done. done.
  - destruct E as (l' & th & E & Hp1 & Ht & Hfit). run E. destruct (hand_addtail t _ _ (Waking me) k th Hp1) as (l2 & E2 & Hp2); [by rewrite lookup_insert_ne|done|done|].
    run E2. destruct (IH fuel _ _ (k ++ [t]) Hp2) as (l3 & E3 & Hp3); [rewrite lookup_insert_ne, lookup_insert_eq by done; done|apply lookup_insert_eq|lia|]. exists l3.
    split; [done|]. rewrite <- app_assoc in Hp3. cbn [app] in Hp3. rewrite insert_insert_ne, insert_insert_eq, insert_insert_ne, insert_insert_eq in Hp3 by done. done.
Qed.

Lemma wake_all_ok me : forall k fuel L s, placed None L s -> L !! Waking me = Some k -> (length k < fuel)%nat ->
  exists s' L', wake_all fuel me s = Done tt s' /\ placed None L' s' /\ queued (<[Waking me := []]> L) L' /\
    (forall t, t ∈ k -> exists c q, L' !! Runq c = Some q /\ t ∈ q) /\ dom (threads s') = dom (threads s) /\ view s' = view s.
Proof.
  induction k as [|t k IH]; intros [|fuel] L s Hp Hk Hf; cbn [length] in Hf; try lia; cbn [wake_all]; pose proof (take_head L s _ _ Hp Hk) as E.
  - run E. exists s, L. split; [done|]. split; [done|]. rewrite insert_id by done. split; [apply queued_refl|]. split; [by intros t ?%elem_of_nil|]. done.
  - destruct E as (l' & th & E & Hp1 & Ht & Hfit). run E. destruct (make_runnable_ok me t _ _ th Hp1 Ht) as (q & s1 & Hq & Er & Hp2 & Et & Ev). run Er.
    destruct (IH fuel _ _ Hp2) as (s' & L' & E' & Hp' & Hqd & Hin & Hd & Hv); [by rewrite lookup_insert_ne, lookup_insert_eq by done|lia|]. exists s', L'.
    rewrite insert_insert_ne, insert_insert_eq in Hqd by done. split; [done|]. split; [done|].
    assert (Hq0 : <[Waking me := []]> L !! Runq (t_cpu th) = Some q) by (rewrite lookup_insert_ne in Hq |- * by done; done).
    split; [|split; [|split]].
    + by eapply queued_trans; [apply (queued_add _ (t_cpu th) q t)|].
    + intros u [->|Hu]%elem_of_cons; [|by apply Hin]. destruct Hqd as [_ Hqd]. destruct (Hqd (t_cpu th) (q ++ [t])) as (q' & Hq'); [apply lookup_insert_eq|].
      exists (t_cpu th), ((q ++ [t]) ++ q'). split; [done|]. apply elem_of_app. left. apply elem_of_app. right. left.
    + rewrite Hd, Et. by apply dom_insert_lookup_L.
    + by rewrite Hv, Ev.
Qed.

Lemma lists_fuel X L s i ts : placed X L s -> L !! i = Some ts -> (length ts < S (size (threads s)))%nat.
Proof.
  intros Hp Hi. pose proof (nodup_length (dom (threads s)) ts (lo_nodup _ _ _ (pl_lists _ _ _ Hp) _ _ Hi)) as Hl. rewrite size_dom in Hl. apply Nat.lt_succ_r, Hl.
  intros t Ht. by eapply (lo_threads _ _ _ (pl_lists _ _ _ Hp)).
Qed.

(** All sleepers of a channel are put on run queues. *)
Lemma wakeall_ok me w L s ws : placed None L s -> L !! Wchan w = Some ws -> L !! Waking me = None ->
  exists s' L', wchan_wakeall me w s = Done tt s' /\ placed None L' s' /\ queued (<[Wchan w := []]> L) L' /\
    (forall t, t ∈ ws -> exists c q, L' !! Runq c = Some q /\ t ∈ q) /\ dom (threads s') = dom (threads s) /\ view s' = view s.
Proof.
  intros Hp Hw Hn. unfold wchan_wakeall. erewrite kstep by done. cbn beta iota. destruct (list_new L s (Waking me) Hp Hn) as (l1 & E1 & Hp1). run E1.
  pose proof (lists_fuel _ _ _ _ _ Hp Hw) as Hf. destruct (grab_all_ok me w ws (S (size (threads s))) _ _ [] Hp1) as (l2 & E2 & Hp2); [by rewrite lookup_insert_ne|apply lookup_insert_eq|done|]. run E2.
  destruct (wake_all_ok me ws (S (size (threads s))) _ _ Hp2) as (s3 & L3 & E3 & Hp3 & Hq3 & Hin3 & Hd3 & Hv3); [apply lookup_insert_eq|done|]. run E3.
  assert (Hcomm : <[Waking me := []]> (<[Waking me := [] ++ ws]> (<[Wchan w := []]> (<[Waking me := []]> L))) = <[Waking me := []]> (<[Wchan w := []]> L)).
  { by rewrite insert_insert_eq, insert_insert_ne, insert_insert_eq, insert_insert_ne by done. }
  rewrite Hcomm in Hq3. destruct Hq3 as [A3 B3].
  destruct (list_drop L3 s3 (Waking me) Hp3) as [E4 Hp4]; [rewrite A3 by done; apply lookup_insert_eq|done|]. exists s3, (delete (Waking me) L3).
  split; [done|]. split; [done|]. split; [|split; [|done]].
  - split.
    + intros i Hi. destruct (decide (i = Waking me)) as [->|Hne]; [by rewrite lookup_delete_eq, lookup_insert_ne by done|]. rewrite lookup_delete_ne, A3 by done. by rewrite lookup_insert_ne.
    + intros c q Hq. rewrite lookup_delete_ne by done. apply B3. by rewrite lookup_insert_ne.
  - intros t Ht. destruct (Hin3 t Ht) as (c & q & ? & ?). exists c, q. by rewrite lookup_delete_ne.
Qed.

(** ** New threads *)

(** A new thread is in hand until it is made runnable or destroyed. *)
Lemma create_ok L s t me x : placed None L s -> allcpus s !! me = Some x -> threads s !! t = None -> Z.of_nat (size (threads s)) < 2 ^ 32 - 1 ->
  exists l', thread_create true true t s = Done true (mksched l' (<[t := mkthread (Some "NEW") S_READY false 0 None]> (threads s)) (allcpus s) (wc_names s)) /\
    forall th, is_Some (allcpus s !! t_cpu th) -> placed (Some t) L (mksched l' (<[t := th]> (threads s)) (allcpus s) (wc_names s)).
Proof.
  intros Hp Hx Ht Hsz. pose proof Hp as [P1 P2 P3 P4 P5 P6 P7]. destruct (node_init_ok _ _ _ t P1) as (l' & E & Hl); [by apply not_elem_of_dom|by rewrite size_dom|].
  exists l'. split; [unfold thread_create; cbn [negb]; run on_lists_eq; done|]. intros th Hth. split; cbn [lists threads allcpus].
  - by rewrite dom_insert_L.
  - done.
  - intros u thu [[<- <-]|[_ Hu]]%lookup_insert_Some; [done|by apply P3 with u].
  - intros j ts u Hj Hu. destruct (P4 j ts u Hj Hu) as (thu & Hthu & ?). exists thu. rewrite lookup_insert_ne; [done|congruence].
  - intros c y Hy. destruct (P5 c y Hy) as (thy & Hthy & ?). exists thy. rewrite lookup_insert_ne; [done|congruence].
  - intros u thu [[<- <-]|[_ Hu]]%lookup_insert_Some Ho Hne; [done|by apply P6].
  - intros u [= <-]. split; [by rewrite lookup_insert_eq|]. split.
    + intros j ts Hj Htj. destruct (P4 j ts t Hj Htj) as (thu & ? & _). congruence.
    + intros c (y & Hy & Ey & _). destruct (P5 c y Hy) as (thy & Hthy & _). cbn in *. congruence.
Qed.

Lemma no_cur X L s t : placed X L s -> threads s !! t = None -> forall c y, allcpus s !! c = Some y -> c_curthread y <> t.
Proof. intros Hp Ht c y Hy Ey. destruct (pl_cur _ _ _ Hp c y Hy) as (th & Hth & _). congruence. Qed.

(** [thread_fork]: the new thread is at the end of the run queue of the processor, or
    everything is as it was. *)
Lemma fork_ok m1 m2 m3 t r me proc L s x : placed None L s -> allcpus s !! me = Some x -> threads s !! t = None -> Z.of_nat (size (threads s)) < 2 ^ 32 - 1 ->
  (exists e s', thread_fork m1 m2 m3 t r me proc s = Fail e s' /\ placed None L s' /\ threads s' = threads s /\ (m1 && m2 && m3 = true -> e = r /\ r <> 0)) \/
  (exists s' q, thread_fork m1 m2 m3 t r me proc s = Done tt s' /\ m1 && m2 && m3 = true /\ r = 0 /\ L !! Runq me = Some q /\ placed None (<[Runq me := q ++ [t]]> L) s' /\
    dom (threads s') = {[t]} ∪ dom (threads s) /\ view s' = view s).
Proof.
  intros Hp Hx Ht Hsz. destruct (create_ok L s t me x Hp Hx Ht Hsz) as (l' & Ec & Hnew). pose proof (no_cur _ _ _ _ Hp Ht) as Hcur.
  destruct (pl_cur _ _ _ Hp me x Hx) as (cur & Hcurt & Ecpu & _). assert (Hc0 : is_Some (allcpus s !! 0%nat)) by (apply lookup_lt_is_Some; apply lookup_lt_Some in Hx; lia).
  assert (Hundo : forall th, is_Some (allcpus s !! t_cpu th) -> t_state th = S_READY -> t_proc th = None ->
    exists s', thread_destroy me t (mksched l' (<[t := th]> (threads s)) (allcpus s) (wc_names s)) = Done tt s' /\ placed None L s' /\ threads s' = threads s).
  { intros th Hth Hst Hpr. destruct (destroy_ok me t L _ th x (Hnew th Hth)) as [E Hp']; [apply lookup_insert_eq|done|done|congruence|done|]. eexists. split; [exact E|]. split; [done|].
    cbn. by rewrite delete_insert_id. }
  destruct (decide (m1 && m2 = true)) as [Hm|Hm].
  2:{ left. exists ENOMEM, s. split; [unfold thread_fork; destruct m1, m2; done|]. split; [done|]. split; [done|]. by destruct m1, m2. }
  apply andb_true_iff in Hm as [-> ->]. destruct m3.
  2:{ destruct (Hundo (mkthread (Some "NEW"%string) S_READY false 0 None)) as (s' & E & ? & ?); [exact Hc0|done|done|]. left. exists ENOMEM, s'.
      split; [unfold thread_fork; run Ec; cbn [negb]; run E; done|done]. }
  set (th1 := mkthread (Some "NEW"%string) S_READY true me None).
  assert (Erun : thread_fork true true true t r me proc s =
    (if negb (r =? 0) then thread_destroy me t ;;; kfail r
     else upd_thread t (set_proc (match proc with None => t_proc cur | Some p => Some p end)) ;;; thread_make_runnable me t)
    (mksched l' (<[t := th1]> (threads s)) (allcpus s) (wc_names s))).
  { unfold thread_fork. run Ec. cbn [negb].
    erewrite kstep; [|apply upd_thread_eq; cbn; apply lookup_insert_eq]. cbn beta iota. unfold set_threads at 1. cbn [lists threads allcpus wc_names]. rewrite insert_insert_eq.
    run_get. assert (Hne : c_curthread x <> t) by (by apply (Hcur me)). erewrite kstep; [|apply get_thread_eq; cbn; rewrite lookup_insert_ne by done; exact Hcurt]. cbn beta iota.
    erewrite kstep; [|apply upd_thread_eq; cbn; apply lookup_insert_eq]. cbn beta iota. unfold set_threads at 1. cbn [lists threads allcpus wc_names]. rewrite insert_insert_eq.
    unfold set_cpu, set_stack. cbn [t_wchan_name t_state t_stack t_cpu t_proc]. rewrite Ecpu. by destruct (negb (r =? 0)). }
  rewrite Erun. destruct (Z.eqb_spec r 0) as [Er|Er]; cbn [negb].
  - set (th2 := set_proc (match proc with None => t_proc cur | Some p => Some p end) th1).
    destruct (make_runnable_ok me t L (mksched l' (<[t := th2]> (threads s)) (allcpus s) (wc_names s)) th2) as (q & s' & Hq & E & Hp' & Et & Ev).
    { apply Hnew. by exists x. }
    { apply lookup_insert_eq. }
    right. exists s', q. split; [|split; [done|]; split; [done|]; split; [done|]; split; [done|]; rewrite Et, Ev; cbn [threads]; rewrite insert_insert_eq, dom_insert_L; done].
    erewrite kstep; [|apply upd_thread_eq; cbn; apply lookup_insert_eq]. cbn beta iota. unfold set_threads at 1. cbn [lists threads allcpus wc_names]. rewrite insert_insert_eq. exact E.
  - destruct (Hundo th1) as (s' & E & ? & ?); [by exists x|done|done|]. left. exists r, s'. run E. done.
Qed.

(** ** Migration *)

(** The last [n] threads of the run queue become victims, in the same order. *)
Lemma take_victims_ok me : forall n L s q1 q2 v, placed None L s -> L !! Runq me = Some (q1 ++ q2) -> length q2 = n -> L !! Victims me = Some v ->
  exists l', take_victims n me s = Done tt (set_lists l' s) /\ placed None (<[Victims me := q2 ++ v]> (<[Runq me := q1]> L)) (set_lists l' s).
Proof.
  induction n as [|n IH]; intros L s q1 q2 v Hp Hq Hn Hv; cbn [take_victims].
  - destruct q2; [|done]. exists (lists s). split; [by destruct s|]. rewrite app_nil_r in Hq. rewrite (insert_id L (Runq me)), insert_id by done. by destruct s.
  - destruct q2 as [|t q2 _] using rev_ind; [done|]. rewrite length_app in Hn. cbn in Hn. rewrite app_assoc in Hq.
    destruct (take_tail L s _ _ _ Hp Hq) as (l1 & th & E1 & Hp1 & Ht & Hfit). run E1.
    destruct (hand_addhead t _ _ (Victims me) v th Hp1) as (l2 & E2 & Hp2); [by rewrite lookup_insert_ne|done|done|]. run E2.
    destruct (IH _ _ q1 q2 (t :: v) Hp2) as (l3 & E3 & Hp3); [rewrite lookup_insert_ne by done; apply lookup_insert_eq|lia|apply lookup_insert_eq|]. exists l3.
    split; [exact E3|]. rewrite <- app_assoc. rewrite insert_insert_ne, insert_insert_eq, insert_insert_ne, insert_insert_eq in Hp3 by done. exact Hp3.
Qed.

(** The lists in which two states differ. *)
Definition same_but (P : tlid -> Prop) (L L' : gmap tlid (list Z)) : Prop := forall i, ~ P i -> L' !! i = L !! i.

(** A thread in hand that is nobody's current thread goes to processor [c]. *)
Lemma hand_migrate t L s c q th : placed (Some t) L s -> L !! Runq c = Some q -> threads s !! t = Some th -> t_state th = S_READY -> is_Some (allcpus s !! c) ->
  (forall d y, allcpus s !! d = Some y -> c_curthread y <> t) ->
  exists s', on_lists (threadlist_addtail (Runq c) t) (set_threads <[t := set_cpu c th]> s) = Done tt s' /\ placed None (<[Runq c := q ++ [t]]> L) s' /\
    allcpus s' = allcpus s /\ dom (threads s') = dom (threads s).
Proof.
  intros Hp Hq Ht Hst Hc Hcur. destruct (pl_hand _ _ _ Hp t eq_refl) as (_ & Hoff & _).
  destruct (addtail_ok _ _ _ _ _ t (pl_lists _ _ _ Hp) Hq) as (l' & El & Hl'); [by apply elem_of_dom_2 in Ht|done|]. eexists. split; [by apply on_lists_eq|].
  split; [|split; [done|cbn; by apply dom_insert_lookup_L]]. apply (put_on t L s _ q); try done.
  - intros u. rewrite elem_of_app, list_elem_of_singleton. done.
  - intros d (y & Hy & Ey). by destruct (Hcur d y Hy).
Qed.

(** Processor [c] gets threads of processor [me]: as many as it needs for its share and
    there are, the current thread of [me] not among them. *)
Lemma give_ok me c share cur : forall n L s v q, placed None L s -> (exists x, allcpus s !! me = Some x /\ c_curthread x = cur) -> is_Some (allcpus s !! c) -> c <> me ->
  L !! Victims me = Some v -> L !! Runq c = Some q -> (n <= length v)%nat ->
  exists n' s' L' v' q', give n me c share s = Done n' s' /\ placed None L' s' /\ L' !! Victims me = Some v' /\ L' !! Runq c = Some q' /\
    same_but (fun i => i = Victims me \/ i = Runq c) L L' /\ (n' <= length v')%nat /\ (n' <= n)%nat /\ (length q' + length v' = length q + length v)%nat /\
    (length q <= length q')%nat /\ (Z.of_nat (length q') <= Z.max (Z.of_nat (length q)) share) /\ (n' = O \/ share <= Z.of_nat (length q')) /\
    view s' = view s /\ dom (threads s') = dom (threads s) /\ (cur ∉ v -> (cur ∉ v') /\ length q' + n' = length q + n)%nat.
Proof.
  induction n as [|n IH]; intros L s v q Hp (x & Hx & Ecur) Hc Hne Hv Hq Hn; cbn [give].
  { exists O, s, L, v, q. split_and!; try done; try lia; by left. }
  assert (Ecnt : queue_length c s = Done (Z.of_nat (length q)) s).
  { unfold queue_length. kunfold. by rewrite (lo_count _ _ _ (pl_lists _ _ _ Hp) _ _ Hq). }
  run Ecnt. destruct (Z.ltb_spec (Z.of_nat (length q)) share) as [Hlt|Hge].
  2:{ exists (S n), s, L, v, q. split_and!; try done; try lia; by right. }
  destruct v as [|t v]; [cbn in Hn; lia|]. cbn [length] in Hn. destruct (take_head L s _ _ Hp Hv) as (l1 & th & E1 & Hp1 & Ht & Hfit). run E1. run_get.
  rewrite Ecur. destruct (Z.eqb_spec t cur) as [Et|Et].
  - destruct (hand_addtail t _ _ (Victims me) v th Hp1) as (l2 & E2 & Hp2); [apply lookup_insert_eq|done|done|]. run E2. rewrite insert_insert_eq in Hp2.
    destruct (IH _ (set_lists l2 (set_lists l1 s)) (v ++ [t]) q Hp2 ltac:(by exists x) Hc Hne) as (n' & s' & L' & v' & q' & E & Hp' & Hv' & Hq' & Hs & H1 & H2 & H3 & H4 & H5 & H6 & H7 & H8 & _);
      [apply lookup_insert_eq|by rewrite lookup_insert_ne|rewrite length_app; lia|].
    exists n', s', L', v', q'. rewrite length_app in H3. cbn [length] in H3. split_and!; try done; try (cbn [length]; lia).
    + intros i Hi. rewrite Hs by done. rewrite lookup_insert_ne; [done|]. intros <-. apply Hi. by left.
    + intros Hin. destruct Hin. rewrite Et. left.
  - destruct Hfit as [Hst Hcpu]. assert (Hcur : forall d y, allcpus s !! d = Some y -> c_curthread y <> t).
    { intros d y Hy Ey. pose proof (cur_cpu _ _ _ _ _ Hp Ht d ltac:(by exists y)) as Ed. rewrite Hcpu in Ed. subst d. congruence. }
    destruct (hand_migrate t _ _ c q th Hp1) as (s2 & E2 & Hp2 & Ec2 & Ed2); [by rewrite lookup_insert_ne|done|done|done|done|]. run_get. run E2.
    destruct Hc as [y Hy]. assert (Hy2 : allcpus s2 !! c = Some y) by (by rewrite Ec2). run_get.
    assert (E3 : exists s3, (if c_isidle y then ipi_send c IPI_UNIDLE else kret tt) s2 = Done tt s3 /\ placed None (<[Runq c := q ++ [t]]> (<[Victims me := v]> L)) s3 /\
               dom (threads s3) = dom (threads s2) /\ view s3 = view s2 /\ exists x', allcpus s3 !! me = Some x' /\ c_curthread x' = c_curthread x).
    { destruct (c_isidle y).
      - destruct (ipi_ok _ _ _ _ y Hp2 Hy2) as (s3 & E3 & Hp3 & Et3 & _ & Ev3). exists s3. rewrite Et3. split_and!; try done.
        assert (Hv3 : view s3 !! me = Some (c_curthread x, c_isidle x)) by (rewrite Ev3; unfold view; rewrite list_lookup_fmap, Ec2; cbn; by rewrite Hx).
        unfold view in Hv3. rewrite list_lookup_fmap in Hv3. destruct (allcpus s3 !! me) as [x'|]; [|done]. exists x'. split; [done|]. cbn in Hv3. congruence.
      - exists s2. split_and!; try done. exists x. by rewrite Ec2. }
    destruct E3 as (s3 & E3 & Hp3 & Ed3 & Ev3 & x' & Hx' & Ex'). run E3.
    assert (Hv2 : view s2 = view s) by (unfold view; by rewrite Ec2).
    destruct (IH _ s3 v (q ++ [t]) Hp3) as (n' & s' & L' & v' & q' & E & Hp' & Hv' & Hq' & Hs & H1 & H2 & H3 & H4 & H5 & H6 & H7 & H8 & H9);
      [exists x'; split; [done|congruence]| |done|by rewrite lookup_insert_ne, lookup_insert_eq by done|apply lookup_insert_eq|lia|].
    { assert (Hl3 : length (view s3) = length (view s)) by (by rewrite Ev3, Hv2). unfold view in Hl3. rewrite !length_fmap in Hl3. apply lookup_lt_is_Some. rewrite Hl3.
      by apply lookup_lt_Some in Hy. }
    exists n', s', L', v', q'. rewrite length_app in H3, H4, H5, H9. cbn [length] in H3, H4, H5, H9 |- *. split_and!; try done; try lia.
    + intros i Hi. rewrite Hs by done. rewrite !lookup_insert_ne; [done| |]; intros <-; apply Hi; [by left|by right].
    + by rewrite H7, Ev3.
    + by rewrite H8, Ed3.
    + intros Hin. destruct H9 as [? ?]; [intros ?; apply Hin; by right|]. split; [done|lia].
Qed.

Lemma put_back_ok me : forall v fuel L s q, placed None L s -> L !! Victims me = Some v -> L !! Runq me = Some q -> (length v < fuel)%nat ->
  exists l', put_back fuel me s = Done tt (set_lists l' s) /\ placed None (<[Runq me := q ++ v]> (<[Victims me := []]> L)) (set_lists l' s).
Proof.
  induction v as [|t v IH]; intros [|fuel] L s q Hp Hv Hq Hf; cbn [length] in Hf; try lia; cbn [put_back]; pose proof (take_head L s _ _ Hp Hv) as E.
  - run E. exists (lists s). destruct s as [l th c n]. split; [done|]. rewrite app_nil_r, (insert_id L (Victims me)), insert_id by done. done.
  - destruct E as (l' & th & E & Hp1 & Ht & Hfit). run E. destruct (hand_addtail t _ _ (Runq me) q th Hp1) as (l2 & E2 & Hp2); [by rewrite lookup_insert_ne|done|done|].
    run E2. destruct (IH fuel _ _ (q ++ [t]) Hp2) as (l3 & E3 & Hp3); [rewrite lookup_insert_ne, lookup_insert_eq by done; done|apply lookup_insert_eq|lia|]. exists l3.
    split; [exact E3|]. rewrite <- app_assoc in Hp3. cbn [app] in Hp3. rewrite insert_insert_ne, insert_insert_eq, insert_insert_ne, insert_insert_eq in Hp3 by done. exact Hp3.
Qed.

(** The lengths of the run queues. *)
Definition qlen (L : gmap tlid (list Z)) (c : nat) : nat := length (default [] (L !! Runq c)).
Definition total (L : gmap tlid (list Z)) (l : list nat) : nat := sum_list_with (qlen L) l.

Lemma total_same L L' l : (forall c, c ∈ l -> qlen L' c = qlen L c) -> total L' l = total L l.
Proof.
  induction l as [|c l IH]; intros Hs; [done|]. unfold total in *. cbn. rewrite Hs by left. rewrite IH; [done|]. intros d Hd. apply Hs. by right.
Qed.

Lemma total_one L L' l c : NoDup l -> c ∈ l -> (forall d, d <> c -> qlen L' d = qlen L d) -> (total L' l + qlen L c = total L l + qlen L' c)%nat.
Proof.
  induction 1 as [|d l Hd Hnd IH]; [by intros ?%elem_of_nil|]. intros [->|Hc]%elem_of_cons Hs; unfold total in *; cbn.
  - fold (total L l) (total L' l). rewrite (total_same L L' l); [lia|]. intros d' Hd'. apply Hs. by intros ->.
  - rewrite Hs by (by intros ->). specialize (IH Hc Hs). lia.
Qed.

Lemma give_all_ok me share cur cs : NoDup cs -> forall l n L s v, placed None L s -> (exists x, allcpus s !! me = Some x /\ c_curthread x = cur) ->
  (forall c, c ∈ l -> (c ∈ cs) /\ is_Some (allcpus s !! c)) -> L !! Victims me = Some v -> (n <= length v)%nat ->
  exists n' s' L' v', give_all l n me share s = Done n' s' /\ placed None L' s' /\ L' !! Victims me = Some v' /\
    (forall i, i <> Victims me -> (forall c, c <> me -> i <> Runq c) -> L' !! i = L !! i) /\ (n' <= length v')%nat /\ (n' <= n)%nat /\
    (forall c, (qlen L c <= qlen L' c)%nat /\ Z.of_nat (qlen L' c) <= Z.max (Z.of_nat (qlen L c)) share) /\
    (n' = O \/ forall c, c ∈ l -> c <> me -> share <= Z.of_nat (qlen L' c)) /\ (total L' cs + length v' = total L cs + length v)%nat /\
    dom (threads s') = dom (threads s) /\ view s' = view s /\ (cur ∉ v -> total L' cs + n' = total L cs + n)%nat.
Proof.
  intros Hcs. induction l as [|c l IH]; intros n L s v Hp Hcur Hl Hv Hn; cbn [give_all].
  { exists n, s, L, v. split_and!; try done; try lia; try (intros; lia). all: right; by intros c ?%elem_of_nil. }
  destruct n as [|n].
  { exists O, s, L, v. split_and!; try done; try lia; try (intros; lia). all: by left. }
  destruct (Nat.eqb_spec c me) as [->|Hne].
  - destruct (IH (S n) L s v Hp Hcur) as (n' & s' & L' & v' & H1 & H2 & H3 & H4 & H5 & H5' & H6 & H7 & H8 & H9 & H10 & H11); [intros d Hd; apply Hl; by right|done|done|].
    exists n', s', L', v'. split_and!; try done. destruct H7 as [?|H7]; [by left|right]. intros d [->|Hd]%elem_of_cons Hdm; [done|by apply H7].
  - destruct (Hl c ltac:(left)) as [Hccs Hc]. destruct (pl_cpus _ _ _ Hp c Hc) as [[q Hq] _].
    destruct (give_ok me c share cur (S n) L s v q Hp Hcur Hc Hne Hv Hq Hn) as (n1 & s1 & L1 & v1 & q1 & E1 & Hp1 & Hv1 & Hq1 & Hs1 & G1 & G2 & G3 & G4 & G5 & G6 & G7 & G8 & G9). run E1.
    assert (Hlen : length (allcpus s1) = length (allcpus s)).
    { assert (Hl1 : length (view s1) = length (view s)) by (by rewrite G7). unfold view in Hl1. by rewrite !length_fmap in Hl1. }
    destruct (IH n1 L1 s1 v1 Hp1) as (n' & s' & L' & v' & H1 & H2 & H3 & H4 & H5 & H5' & H6 & H7 & H8 & H9 & H10 & H11).
    { destruct Hcur as (x & Hx & Ex). assert (Hv3 : view s1 !! me = Some (c_curthread x, c_isidle x)) by (rewrite G7; unfold view; rewrite list_lookup_fmap, Hx; done).
      unfold view in Hv3. rewrite list_lookup_fmap in Hv3. destruct (allcpus s1 !! me) as [x'|]; [|done]. exists x'. split; [done|]. cbn in Hv3. congruence. }
    { intros d Hd. destruct (Hl d ltac:(by right)) as [? Hd']. split; [done|]. apply lookup_lt_is_Some. rewrite Hlen. by apply lookup_lt_is_Some. }
    { done. } { done. }
    assert (Eq : qlen L c = length q) by (unfold qlen; by rewrite Hq). assert (Eq1 : qlen L1 c = length q1) by (unfold qlen; by rewrite Hq1).
    assert (Hother : forall d, d <> c -> qlen L1 d = qlen L d) by (intros d Hd; unfold qlen; rewrite Hs1; [done|]; intros [?|?]; congruence).
    pose proof (total_one L L1 cs c Hcs Hccs Hother) as Htot.
    exists n', s', L', v'. split_and!; try done; try lia.
    + intros i Hi Hri. rewrite H4 by done. apply Hs1. intros [?|?]; [done|]. by apply (Hri c).
    + intros d. destruct (H6 d) as [? ?]. destruct (decide (d = c)) as [->|Hd]; [lia|]. rewrite (Hother d Hd) in *. lia.
    + destruct H7 as [?|H7]; [by left|]. destruct G6 as [->|G6].
      * left. lia.
      * right. intros d [->|Hd]%elem_of_cons Hdm; [|by apply H7]. destruct (H6 c). lia.
    + by rewrite H9.
    + by rewrite H10.
    + intros Hin. destruct (G9 Hin) as [? ?]. specialize (H11 ltac:(done)). lia.
Qed.

(** The run queues hold no more threads than there are. *)
Lemma total_size L s l : placed None L s -> NoDup l -> (total L l <= size (threads s))%nat.
Proof.
  intros Hp Hnd. set (flat := flat_map (fun c => default [] (L !! Runq c)) l). assert (El : length flat = total L l).
  { unfold flat. clear Hnd. induction l as [|c l IH]; [done|]. cbn. rewrite length_app, IH. done. }
  rewrite <- El, <- size_dom. assert (Hin : forall t, t ∈ flat -> exists c q, (c ∈ l) /\ L !! Runq c = Some q /\ t ∈ q).
  { intros t Ht. apply list_elem_of_In, in_flat_map in Ht as (c & Hc & Ht). apply list_elem_of_In in Hc, Ht. destruct (L !! Runq c) as [q|] eqn:Eq; [by exists c, q|by apply elem_of_nil in Ht]. }
  apply nodup_length.
  - unfold flat in *. clear El. induction Hnd as [|c l Hc Hnd IH]; [constructor|]. cbn [flat_map] in *. apply NoDup_app. split; [|split].
    + destruct (L !! Runq c) as [q|] eqn:Eq; [by eapply (lo_nodup _ _ _ (pl_lists _ _ _ Hp))|constructor].
    + intros t Ht Ht'. apply list_elem_of_In, in_flat_map in Ht' as (d & Hd & Ht'). apply list_elem_of_In in Hd, Ht'.
      destruct (L !! Runq c) as [q|] eqn:Eq; [|by apply elem_of_nil in Ht]. destruct (L !! Runq d) as [q'|] eqn:Eq'; [|by apply elem_of_nil in Ht'].
      cbn in Ht, Ht'. pose proof (lo_disj _ _ _ (pl_lists _ _ _ Hp) _ _ _ _ t Eq Eq' Ht Ht'). congruence.
    + apply IH. intros t Ht. destruct (Hin t) as (d & q & Hd & Hq & Htq); [apply elem_of_app; by right|]. apply list_elem_of_In, in_flat_map in Ht as (d' & Hd' & Ht).
      apply list_elem_of_In in Hd', Ht. destruct (L !! Runq d') as [q'|] eqn:Eq'; [by exists d', q'|by apply elem_of_nil in Ht].
  - intros t Ht. destruct (Hin t Ht) as (c & q & _ & Hq & Htq). by eapply (lo_threads _ _ _ (pl_lists _ _ _ Hp)).
Qed.

Lemma total_least L l (k : Z) : (forall c, c ∈ l -> k <= Z.of_nat (qlen L c)) -> k * Z.of_nat (length l) <= Z.of_nat (total L l).
Proof.
  induction l as [|c l IH]; intros Hk; [cbn; lia|]. unfold total in *. cbn [length sum_list_with]. specialize (IH ltac:(intros d Hd; apply Hk; by right)). pose proof (Hk c ltac:(left)). lia.
Qed.

Lemma count_queues_ok me L s : placed None L s -> forall l my tot, (forall c, c ∈ l -> is_Some (allcpus s !! c)) -> 0 <= tot -> tot + Z.of_nat (total L l) < 2 ^ 32 ->
  count_queues l me my tot s = Done (if decide (me ∈ l) then Z.of_nat (qlen L me) else my, tot + Z.of_nat (total L l)) s.
Proof.
  intros Hp. induction l as [|c l IH]; intros my tot Hl H0 Ht; cbn [count_queues].
  - cbn. by rewrite Z.add_0_r.
  - destruct (pl_cpus _ _ _ Hp c (Hl c ltac:(left))) as [[q Hq] _]. assert (Eq : queue_length c s = Done (Z.of_nat (qlen L c)) s).
    { unfold queue_length, qlen. kunfold. rewrite (lo_count _ _ _ (pl_lists _ _ _ Hp) _ _ Hq), Hq. done. }
    run Eq. unfold total in *. cbn [sum_list_with] in *. rewrite wrapu_small by lia. rewrite IH; [|intros d Hd; apply Hl; by right|lia|lia]. f_equal. f_equal; [|lia].
    destruct (Nat.eqb_spec c me) as [->|Hne].
    + rewrite (decide_True (P := me ∈ me :: l)) by left. by case_decide.
    + destruct (decide (me ∈ l)); [rewrite decide_True by (by right); done|]. rewrite decide_False; [done|]. intros [?|?]%elem_of_cons; congruence.
Qed.

(** A migration that nobody interferes with, on a busy processor: if it has its share or
    more, it keeps its share. *)
Lemma migration_ok me L s x : placed None L s -> allcpus s !! me = Some x -> c_isidle x = false -> L !! Victims me = None ->
  Z.of_nat (size (threads s) + length (allcpus s)) < 2 ^ 32 ->
  let cs := seq 0 (length (allcpus s)) in
  let share := DIVROUNDUP (Z.of_nat (total L cs)) (Z.of_nat (length (allcpus s))) in
  exists s' L', thread_consider_migration me s = Done tt s' /\ placed None L' s' /\ total L' cs = total L cs /\
    (forall c, c <> me -> (qlen L c <= qlen L' c)%nat /\ Z.of_nat (qlen L' c) <= Z.max (Z.of_nat (qlen L c)) share) /\
    Z.of_nat (qlen L' me) = Z.min (Z.of_nat (qlen L me)) share /\ dom (threads s') = dom (threads s) /\ view s' = view s /\
    (forall i, (forall c, i <> Runq c) -> L' !! i = L !! i).
Proof.
  intros Hp Hx Hid Hnv Hsz cs share. pose proof (lookup_lt_Some _ _ _ Hx) as Hlt. assert (Hcs : NoDup cs) by apply NoDup_seq.
  assert (Hcpu : forall c, c ∈ cs -> is_Some (allcpus s !! c)) by (intros c Hc; apply elem_of_seq in Hc; apply lookup_lt_is_Some; lia).
  assert (Hme : me ∈ cs) by (apply elem_of_seq; lia). pose proof (total_size L s cs Hp Hcs) as Htot.
  destruct (DIVROUNDUP_spec (Z.of_nat (total L cs)) (Z.of_nat (length (allcpus s)))) as [Hs1 Hs2]; [lia|lia|lia|]. fold share in Hs1, Hs2.
  unfold thread_consider_migration. erewrite kstep by done. cbn beta iota. fold cs. pose proof (count_queues_ok me L s Hp cs 0 0 Hcpu ltac:(lia) ltac:(lia)) as Ec.
  rewrite decide_True in Ec by done. run Ec. rewrite Z.add_0_l. fold share. destruct (Z.ltb_spec (Z.of_nat (qlen L me)) share) as [Hlow|Hhigh].
  { exists s, L. split_and!; try done; [intros c _; lia|lia]. }
  assert (Hsh0 : 0 <= share) by nia. destruct (pl_cpus _ _ _ Hp me ltac:(by exists x)) as [[q Hq] _]. assert (Eq : qlen L me = length q) by (unfold qlen; by rewrite Hq).
  set (k := Z.to_nat (Z.of_nat (qlen L me) - share)). set (q1 := take (Z.to_nat share) q). set (q2 := drop (Z.to_nat share) q).
  assert (Hl1 : length q1 = Z.to_nat share) by (unfold q1; rewrite length_take; lia). assert (Hl2 : length q2 = k) by (unfold q2, k; rewrite length_drop; lia).
  destruct (list_new L s (Victims me) Hp Hnv) as (l1 & E1 & Hp1). run E1.
  destruct (take_victims_ok me k _ _ q1 q2 [] Hp1) as (l2 & E2 & Hp2); [rewrite lookup_insert_ne by done; unfold q1, q2; by rewrite take_drop|done|apply lookup_insert_eq|]. run E2.
  rewrite app_nil_r in Hp2. set (L2 := <[Victims me := q2]> _) in Hp2. set (s2 := set_lists l2 (set_lists l1 s)) in *.
  assert (Hq2 : L2 !! Runq me = Some q1) by (unfold L2; rewrite lookup_insert_ne, lookup_insert_eq by done; done).
  assert (Ho2 : forall i, i <> Runq me -> i <> Victims me -> L2 !! i = L !! i) by (intros i ? ?; unfold L2; rewrite !lookup_insert_ne by done; done).
  assert (Hql2 : forall c, c <> me -> qlen L2 c = qlen L c) by (intros c Hc; unfold qlen; rewrite Ho2; congruence).
  assert (Eq2 : qlen L2 me = length q1) by (unfold qlen; by rewrite Hq2). pose proof (total_one L L2 cs me Hcs Hme Hql2) as Ht2.
  assert (Hcv : c_curthread x ∉ q2).
  { destruct (pl_cur _ _ _ Hp me x Hx) as (th & _ & _ & Hr). destruct (Hr Hid) as [_ Ho]. intros Hc. apply (Ho _ _ Hq). rewrite <- (take_drop (Z.to_nat share) q). apply elem_of_app. by right. }
  destruct (give_all_ok me share (c_curthread x) cs Hcs cs k L2 s2 q2 Hp2) as (n' & s3 & L3 & v3 & E3 & Hp3 & Hv3 & Ho3 & G1 & _ & G2 & G3 & G4 & G5 & G6 & G7);
    [by exists x|intros c Hc; split; [done|by apply Hcpu]|apply lookup_insert_eq|lia|]. run E3. specialize (G7 Hcv).
  assert (Hq3 : L3 !! Runq me = Some q1) by (rewrite Ho3; [done|done|intros c Hc; congruence]). assert (Eq3 : qlen L3 me = length q1) by (unfold qlen; by rewrite Hq3).
  assert (Hn0 : length v3 = O).
  { destruct G3 as [->|G3]; [lia|]. assert (Hlow : share * Z.of_nat (length cs) <= Z.of_nat (total L3 cs)).
    { apply total_least. intros c Hc. destruct (decide (c = me)) as [->|Hne]; [lia|by apply G3]. }
    unfold cs in Hlow at 1. rewrite length_seq in Hlow. lia. }
  apply nil_length_inv in Hn0 as ->. pose proof (isempty_ok _ _ _ _ _ (pl_lists _ _ _ Hp3) Hv3) as E4. assert (E5 : on_lists (threadlist_isempty (Victims me)) s3 = Done true s3).
  { erewrite on_lists_eq by (exact E4). by destruct s3. }
  run E5. cbn [negb]. erewrite kstep by done. cbn beta iota. run E5. erewrite kstep by done. cbn beta iota.
  destruct (list_drop L3 s3 (Victims me) Hp3 Hv3) as [E6 Hp6]; [done|]. exists s3, (delete (Victims me) L3).
  assert (Hql : forall c, qlen (delete (Victims me) L3) c = qlen L3 c) by (intros c; unfold qlen; by rewrite lookup_delete_ne).
  split_and!; try done.
  - rewrite (total_same L3) by (intros; apply Hql). cbn [length] in G4. lia.
  - intros c Hc. rewrite Hql, <- (Hql2 c Hc). apply G2.
  - rewrite Hql, Eq3. lia.
  - intros i Hi. destruct (decide (i = Victims me)) as [->|Hne]; [by rewrite lookup_delete_eq|]. rewrite lookup_delete_ne, Ho3, Ho2 by auto. done.
Qed.

(** ** Starting up *)

Lemma empty_ok l : placed None ∅ (mksched l ∅ [] ∅).
Proof.
  assert (Hl : lists_ok (dom (∅ : gmap Z thread)) ∅ l).
  { rewrite dom_empty_L. split; try (intros *; rewrite lookup_empty; done); try (intros t Ht; by apply elem_of_empty in Ht). rewrite size_empty. lia. }
  split; cbn [lists threads allcpus].
  - exact Hl.
  - intros c [x Hx]. by rewrite lookup_nil in Hx.
  - intros *. by rewrite lookup_empty.
  - intros *. by rewrite lookup_empty.
  - intros c x Hx. by rewrite lookup_nil in Hx.
  - intros *. by rewrite lookup_empty.
  - done.
Qed.

(** A new processor, running its first thread. *)
Lemma cpu_create_ok L s t kproc : placed None L s -> threads s !! t = None -> Z.of_nat (size (threads s)) < 2 ^ 32 - 1 ->
  L !! Zombies (length (allcpus s)) = None -> L !! Runq (length (allcpus s)) = None ->
  exists s', cpu_create true true true true 0 0 t kproc s = Done (length (allcpus s)) s' /\
    placed None (<[Runq (length (allcpus s)) := []]> (<[Zombies (length (allcpus s)) := []]> L)) s' /\
    dom (threads s') = {[t]} ∪ dom (threads s) /\ length (allcpus s') = S (length (allcpus s)).
Proof.
  intros Hp Ht Hsz Hz Hr. set (c := length (allcpus s)) in *. unfold cpu_create. cbn [negb]. erewrite kstep by done. cbn beta iota. fold c.
  destruct (list_new L s (Zombies c) Hp Hz) as (l1 & E1 & Hp1). run E1. destruct (list_new _ _ (Runq c) Hp1) as (l2 & E2 & Hp2); [by rewrite lookup_insert_ne|]. run E2.
  cbn [Z.eqb negb]. set (s2 := set_lists l2 (set_lists l1 s)) in *. set (L2 := <[Runq c := []]> _) in *. pose proof Hp2 as [P1 P2 P3 P4 P5 P6 P7].
  destruct (node_init_ok _ _ _ t P1) as (l3 & E3 & Hl3); [by apply not_elem_of_dom|by rewrite size_dom|].
  erewrite kstep; [|unfold thread_create; cbn [negb]; run on_lists_eq; done]. cbn [negb]. erewrite kstep by done. cbn beta iota.
  erewrite kstep; [|apply upd_thread_eq; cbn; apply lookup_insert_eq]. cbn beta iota. unfold set_threads at 1. cbn [lists threads allcpus wc_names set_threads set_cpus set_lists]. rewrite insert_insert_eq.
  set (cs := allcpus s2 ++ [mkcpu t 0 false 0 []]). assert (Hcs : forall d y, cs !! d = Some y <-> allcpus s !! d = Some y \/ d = c /\ y = mkcpu t 0 false 0 []).
  { intros d y. unfold cs. cbn. rewrite lookup_app_Some, list_lookup_singleton_Some. fold c. split; [intros [?|(? & ? & <-)]; [by left|right; split; [lia|done]]|].
    intros [?|[-> ->]]; [by left|right]. split; [lia|]. split; [lia|done]. }
  assert (Hfin : forall th, t_cpu th = c -> t_state th = S_READY -> placed None L2 (mksched l3 (<[t := th]> (threads s)) cs (wc_names s))).
  { intros th Ec Est. split; cbn [lists threads allcpus].
    - by rewrite dom_insert_L.
    - intros d [y [Hy|[-> _]]%Hcs]; [apply P2; by exists y|]. unfold L2. rewrite lookup_insert_eq, lookup_insert_ne, lookup_insert_eq by done. by split; eexists.
    - intros u thu [[<- <-]|[_ Hu]]%lookup_insert_Some; [exists (mkcpu t 0 false 0 []); apply Hcs; by right|]. destruct (P3 u thu Hu) as [y Hy]. exists y. apply Hcs. by left.
    - intros j ts u Hj Hu. destruct (P4 j ts u Hj Hu) as (thu & Hthu & ?). exists thu. rewrite lookup_insert_ne; [done|]. cbn in Hthu. congruence.
    - intros d y [Hy|[-> ->]]%Hcs.
      + destruct (P5 d y Hy) as (thy & Hthy & ?). exists thy. rewrite lookup_insert_ne; [done|]. cbn in Hthy. congruence.
      + cbn. rewrite lookup_insert_eq. exists th. split; [done|]. split; [done|]. intros _. split; [by right|].
        intros j ts Hj Htj. destruct (P4 j ts t Hj Htj) as (thu & Hthu & _). cbn in Hthu. congruence.
    - intros u thu [[<- <-]|[_ Hu]]%lookup_insert_Some Ho _; [exists (mkcpu t 0 false 0 []); rewrite Ec; split; [apply Hcs; by right|done]|].
      destruct (P6 u thu Hu Ho ltac:(done)) as (y & Hy & ?). exists y. split; [apply Hcs; by left|done].
    - done. }
  destruct (Nat.eqb_spec c 0) as [Ec|Ec].
  - erewrite kstep by done. cbn beta iota. erewrite kstep; [|apply upd_thread_eq; cbn; apply lookup_insert_eq]. cbn beta iota. unfold set_threads at 1. cbn [lists threads allcpus wc_names]. rewrite insert_insert_eq.
    eexists. split; [done|]. split; [by apply Hfin|]. cbn. rewrite dom_insert_L. split; [done|]. unfold cs. rewrite length_app. cbn. fold c. lia.
  - erewrite kstep; [|apply upd_thread_eq; cbn; apply lookup_insert_eq]. cbn beta iota. unfold set_threads at 1. cbn [lists threads allcpus wc_names]. rewrite insert_insert_eq.
    erewrite kstep; [|apply upd_thread_eq; cbn; apply lookup_insert_eq]. cbn beta iota. unfold set_threads at 1. cbn [lists threads allcpus wc_names]. rewrite insert_insert_eq.
    eexists. split; [done|]. split; [by apply Hfin|]. cbn. rewrite dom_insert_L. split; [done|]. unfold cs. rewrite length_app. cbn. fold c. lia.
Qed.

(** ** All processors together *)

(** What a processor does next. [Take], [Give] and [Back] are the parts of
    [thread_consider_migration] that run under one run queue's spinlock; the counts it has
    read before may be out of date, so that [n] and [share] are arbitrary. *)
Inductive action :=
| Yield (me : nat) | Idle (me : nat) | Exit (me : nat) | Sleep (me w : nat) | Wakeone (me w : nat) | Wakeall (me w : nat)
| Fork (me : nat) (m1 m2 m3 : bool) (t r : Z) (proc : option Z) | NewWchan (w : nat) (name : string) | FreeWchan (w : nat)
| Take (me n : nat) | Give (me c : nat) (share : Z) | Back (me : nat).

(** The scheduler, the migrations under way (with what is still to be sent) and the wait
    channels there are. *)
Record conf := mkconf { st : sched; mig : gmap nat nat; chans : gset nat }.

Definition busy (x : conf) (me : nat) : Prop := mig x !! me = None /\ exists c, allcpus (st x) !! me = Some c /\ c_isidle c = false.

(** When an action can happen: the thread of a busy processor calls a function, an idle
    processor looks for work, or the clock interrupts a processor. *)
Definition enabled (a : action) (x : conf) : Prop :=
  match a with
  | Yield me | Exit me => busy x me
  | Idle me => mig x !! me = None /\ exists c, allcpus (st x) !! me = Some c /\ c_isidle c = true
  | Sleep me w => busy x me /\ w ∈ chans x
  | Wakeone me w | Wakeall me w => w ∈ chans x
  | Fork me _ _ _ t _ _ => busy x me /\ threads (st x) !! t = None /\ Z.of_nat (size (threads (st x))) < 2 ^ 32 - 1
  | NewWchan w _ => w ∉ chans x
  | FreeWchan w => (w ∈ chans x) /\ tl_count (lists (st x)) (Wchan w) = 0
  | Take me n => mig x !! me = None /\ is_Some (allcpus (st x) !! me) /\ Z.of_nat n <= tl_count (lists (st x)) (Runq me)
  | Give me c _ => is_Some (mig x !! me) /\ c <> me /\ is_Some (allcpus (st x) !! c) /\ is_Some (allcpus (st x) !! me)
  | Back me => is_Some (mig x !! me) /\ is_Some (allcpus (st x) !! me)
  end.

Definition after {A} (m : K sched A) (k : A -> sched -> conf) (x : conf) : option conf :=
  match m (st x) with
  | Done a s => Some (k a s)
  | Fail _ s => Some (mkconf s (mig x) (chans x))
  | Halt _ => None
  end.

(** [None]: the kernel stops. *)
Definition perform (a : action) (x : conf) : option conf :=
  let same {A} (_ : A) s := mkconf s (mig x) (chans x) in
  match a with
  | Yield me => after (thread_yield me) same x
  | Idle me => after (pick_next me) same x
  | Exit me => after (thread_exit me) same x
  | Sleep me w => after (wchan_sleep me w) same x
  | Wakeone me w => after (wchan_wakeone me w) same x
  | Wakeall me w => after (wchan_wakeall me w) same x
  | Fork me m1 m2 m3 t r proc => after (thread_fork m1 m2 m3 t r me proc) same x
  | NewWchan w name => after (wchan_create true w name) (fun _ s => mkconf s (mig x) ({[w]} ∪ chans x)) x
  | FreeWchan w => after (wchan_destroy w) (fun _ s => mkconf s (mig x) (chans x ∖ {[w]})) x
  | Take me n => after (on_lists (threadlist_init (Victims me)) ;;; take_victims n me) (fun _ s => mkconf s (<[me := n]> (mig x)) (chans x)) x
  | Give me c share =>
      match mig x !! me with
      | Some n => after (give n me c share) (fun n' s => mkconf s (<[me := n']> (mig x)) (chans x)) x
      | None => None
      end
  | Back me => after (put_back (S (size (threads (st x)))) me ;;; on_lists (threadlist_cleanup (Victims me))) (fun _ s => mkconf s (delete me (mig x)) (chans x)) x
  end.

Fixpoint performs (l : list action) (x : conf) : option conf :=
  match l with
  | [] => Some x
  | a :: l' => match perform a x with Some x' => performs l' x' | None => None end
  end.

Record conf_ok (L : gmap tlid (list Z)) (x : conf) : Prop := {
  co_placed : placed None L (st x);
  co_waking : forall c, L !! Waking c = None;
  co_chans : forall w, is_Some (L !! Wchan w) <-> w ∈ chans x;
  co_mig : forall c, match mig x !! c with None => L !! Victims c = None | Some n => exists v, L !! Victims c = Some v /\ (n <= length v)%nat end
}.

(** The lists that matter for the rest of [conf_ok] are the same. *)
Lemma conf_same L L' x s : conf_ok L x -> placed None L' s -> (forall c, L' !! Waking c = L !! Waking c) -> (forall w, is_Some (L' !! Wchan w) <-> is_Some (L !! Wchan w)) ->
  (forall c, L' !! Victims c = L !! Victims c) -> conf_ok L' (mkconf s (mig x) (chans x)).
Proof.
  intros [C1 C2 C3 C4] Hp H1 H2 H3. split; cbn; [done|intros c; by rewrite H1|intros w; by rewrite H2|]. intros c. rewrite H3. apply C4.
Qed.

Lemma wchan_insert (L : gmap tlid (list Z)) w w' ts : is_Some (L !! Wchan w) -> is_Some (<[Wchan w := ts]> L !! Wchan w') <-> is_Some (L !! Wchan w').
Proof. intros Hw. destruct (decide (w' = w)) as [->|Hne]; [rewrite lookup_insert_eq; by split; [|eauto]|]. by rewrite lookup_insert_ne by congruence. Qed.

(** A switch leaves a well-formed state. *)
Lemma switch_conf me newstate wc L x : conf_ok L x -> busy x me -> newstate <> S_RUN -> (newstate = S_SLEEP -> wc ∈ chans x) ->
  (newstate = S_ZOMBIE -> forall c th, allcpus (st x) !! me = Some c -> threads (st x) !! c_curthread c = Some th -> t_proc th = None) ->
  exists r s' L', thread_switch me newstate wc (st x) = Done r s' /\ conf_ok L' (mkconf s' (mig x) (chans x)) /\ (newstate <> S_READY -> r <> Returned).
Proof.
  intros Hc [_ (c & Hcpu & Hid)] Hns Hw Hz. pose proof (co_placed _ _ Hc) as Hp. destruct (pl_cpus _ _ _ Hp me ltac:(by exists c)) as [[q Hq] [z Hzz]].
  destruct (decide (newstate = S_READY /\ q = [])) as [[-> ->]|Hne].
  { exists Returned, (st x), L. split; [|by destruct x]. unfold thread_switch. run_get. rewrite Hid. pose proof (isempty_ok _ _ _ _ _ (pl_lists _ _ _ Hp) Hq) as Ee. run on_lists_eq.
    destruct (st x). done. }
  assert (Hus : exists us, L !! dest me newstate wc = Some us).
  { destruct newstate; cbn [dest]; [done|by exists q|apply (co_chans _ _ Hc); by apply Hw|by exists z]. }
  destruct Hus as [us Hus]. destruct (thread_switch_ok me newstate wc L (st x) c us q Hp Hcpu Hid Hns Hus) as (s' & L' & Hp' & E); [intros En th; by apply Hz|done|intros -> ->; by apply Hne|].
  assert (Hsame : forall c', L' !! Waking c' = L !! Waking c' /\ L' !! Victims c' = L !! Victims c').
  { intros c'. destruct (<[dest me newstate wc := us ++ [c_curthread c]]> L !! Runq me) as [[|t q']|]; destruct E as (_ & E); [destruct E as [-> _]|destruct E as [_ ->]|destruct E as [-> _]];
      destruct newstate; cbn [dest]; by rewrite !lookup_insert_ne. }
  assert (Hchan : forall w, is_Some (L' !! Wchan w) <-> is_Some (L !! Wchan w)).
  { intros w. assert (Hd : is_Some (<[dest me newstate wc := us ++ [c_curthread c]]> L !! Wchan w) <-> is_Some (L !! Wchan w)).
    { destruct newstate; cbn [dest] in *; try (by rewrite lookup_insert_ne). apply wchan_insert. by rewrite Hus. }
    destruct (<[dest me newstate wc := us ++ [c_curthread c]]> L !! Runq me) as [[|t q']|]; destruct E as (_ & E); [destruct E as [-> _]|destruct E as [_ ->]|destruct E as [-> _]]; try done.
    rewrite !lookup_insert_ne by done. done. }
  destruct (<[dest me newstate wc := us ++ [c_curthread c]]> L !! Runq me) as [[|t q']|]; destruct E as (E & _); eexists _, s', L'; (split; [exact E|]); (split; [|done]); by eapply conf_same; [|done|apply Hsame|apply Hchan|apply Hsame].
Qed.

Lemma placed_proc L s t th : placed None L s -> threads s !! t = Some th -> placed None L (set_threads <[t := set_proc None th]> s).
Proof.
  intros [P1 P2 P3 P4 P5 P6 P7] Ht. split; cbn [lists threads allcpus set_threads]; try done.
  - by rewrite dom_insert_lookup_L.
  - intros u thu [[<- <-]|[_ Hu]]%lookup_insert_Some; [exact (P3 t th Ht)|by apply P3 with u].
  - intros j ts u Hj Hu. destruct (P4 j ts u Hj Hu) as (thu & Hthu & Hfit). destruct (decide (u = t)) as [->|Hne].
    + exists (set_proc None th). rewrite lookup_insert_eq. split; [done|]. assert (thu = th) as -> by congruence. by destruct j, th; naive_solver.
    + exists thu. by rewrite lookup_insert_ne.
  - intros c x Hx. destruct (P5 c x Hx) as (thx & Hthx & Ec & Hr). destruct (decide (c_curthread x = t)) as [Ex|Hne].
    + exists (set_proc None th). rewrite Ex, lookup_insert_eq in *. assert (thx = th) as -> by congruence. split; [done|]. split; [done|]. done.
    + exists thx. by rewrite lookup_insert_ne.
  - intros u thu [[<- <-]|[_ Hu]]%lookup_insert_Some Ho Hne; [exact (P6 t th Ht Ho Hne)|by apply P6].
Qed.

Lemma queued_conf L L' x s : conf_ok L x -> placed None L' s -> queued L L' -> conf_ok L' (mkconf s (mig x) (chans x)).
Proof. intros Hc Hp [Hq _]. apply (conf_same L); [done|done|intros c; by apply Hq|intros w; by rewrite Hq|intros c; by apply Hq]. Qed.

Lemma exit_conf me L x : conf_ok L x -> busy x me ->
  exists r s' L', thread_exit me (st x) = Done r s' /\ conf_ok L' (mkconf s' (mig x) (chans x)).
Proof.
  intros Hc [Hm (c & Hcpu & Hid)]. pose proof (co_placed _ _ Hc) as Hp. destruct (pl_cur _ _ _ Hp me c Hcpu) as (th & Ht & _). set (s1 := set_threads <[c_curthread c := set_proc None th]> (st x)).
  assert (Hc1 : conf_ok L (mkconf s1 (mig x) (chans x))) by (apply (conf_same L); [done|by apply placed_proc|done|done|done]).
  destruct (switch_conf me S_ZOMBIE 0 L _ Hc1) as (r & s' & L' & E & Hc' & Hr); [split; [done|by exists c]|done|done| |].
  { intros _ c' th' Hc' Ht'. cbn in Hc', Ht'. assert (c' = c) as -> by congruence. rewrite lookup_insert_eq in Ht'. injection Ht' as <-. done. }
  exists r, s', L'. split; [|done]. unfold thread_exit. run_get. run_get. fold s1. erewrite kstep; [|apply get_thread_eq; cbn; apply lookup_insert_eq]. cbn beta iota.
  rewrite bool_decide_true by done. erewrite kstep by done. cbn beta iota. run E. destruct r; [by destruct Hr|done|done].
Qed.

(** Every action that can happen happens without stopping the kernel, and leaves every
    thread in its place. *)
Lemma perform_ok a L x : conf_ok L x -> enabled a x -> exists x' L', perform a x = Some x' /\ conf_ok L' x'.
Proof.
  intros Hc Hen. pose proof (co_placed _ _ Hc) as Hp. destruct a; cbn [enabled] in Hen; cbn [perform]; unfold after.
  - destruct (switch_conf me S_READY 0 L x Hc Hen) as (r & s' & L' & E & Hc' & _); [done|done|done|]. unfold thread_yield. rewrite E. by eexists _, L'.
  - destruct Hen as [Hm (c & Hcpu & Hid)]. destruct (pl_cpus _ _ _ Hp me ltac:(by exists c)) as [[q Hq] [z Hz]]. pose proof (pick_next_ok me L _ c q z Hp Hcpu Hid Hq Hz) as E.
    destruct q as [|t q]; [rewrite E; exists x, L; by destruct x|]. destruct E as (s' & -> & Hp' & _). eexists _, _. split; [done|]. eapply conf_same; [done|done|..]; intros; by rewrite !lookup_insert_ne.
  - destruct (exit_conf me L x Hc Hen) as (r & s' & L' & -> & Hc'). by eexists _, L'.
  - destruct Hen as [Hb Hw]. destruct (switch_conf me S_SLEEP w L x Hc Hb) as (r & s' & L' & E & Hc' & _); [done|done|done|]. unfold wchan_sleep. rewrite E. by eexists _, L'.
  - apply (co_chans _ _ Hc) in Hen as [ws Hws]. pose proof (wakeone_ok me w L _ ws Hp Hws) as E. destruct ws as [|t ws]; [rewrite E; exists x, L; by destruct x|].
    destruct E as (s' & th & q & -> & _ & Hq & Hp' & _). eexists _, _. split; [done|]. eapply conf_same; [done|done|..]; intros; rewrite !lookup_insert_ne by done; try done. apply wchan_insert. by rewrite Hws.
  - apply (co_chans _ _ Hc) in Hen as [ws Hws]. destruct (wakeall_ok me w L _ ws Hp Hws (co_waking _ _ Hc me)) as (s' & L' & -> & Hp' & [Hq _] & _). eexists _, L'. split; [done|].
    eapply conf_same; [done|done|..]; intros; rewrite Hq by done; rewrite ?lookup_insert_ne by done; try done. apply wchan_insert. by rewrite Hws.
  - destruct Hen as ([Hm (c & Hcpu & Hid)] & Ht & Hsz). destruct (fork_ok m1 m2 m3 t r me proc L _ c Hp Hcpu Ht Hsz) as [(e & s' & -> & Hp' & _)|(s' & q & -> & _ & _ & Hq & Hp' & _)]; eexists _, _; (split; [done|]).
    + by eapply conf_same.
    + by eapply queued_conf; [|done|apply queued_add].
  - assert (Hn : L !! Wchan w = None).
    { destruct (L !! Wchan w) eqn:E; [|done]. destruct Hen. apply (co_chans _ _ Hc). by rewrite E. }
    unfold wchan_create. cbn [negb]. destruct (list_new L _ (Wchan w) Hp Hn) as (l' & E & Hp'). run E. erewrite kstep by done. cbn beta iota. eexists _, (<[Wchan w := []]> L). split; [done|].
    destruct Hc as [C1 C2 C3 C4]. destruct Hp' as [Q1 Q2 Q3 Q4 Q5 Q6 Q7]. split; cbn.
    + by split.
    + intros c. by rewrite lookup_insert_ne.
    + intros w'. rewrite elem_of_union, elem_of_singleton, <- C3. destruct (decide (w' = w)) as [->|Hne]; [rewrite lookup_insert_eq; naive_solver|]. rewrite lookup_insert_ne by congruence. naive_solver.
    + intros c. rewrite lookup_insert_ne by done. apply C4.
  - destruct Hen as [Hw Hcnt]. destruct Hc as [C1 C2 C3 C4]. apply C3 in Hw as Hws. destruct Hws as [ws Hws]. rewrite (lo_count _ _ _ (pl_lists _ _ _ Hp) _ _ Hws) in Hcnt. destruct ws; [|done].
    destruct (list_drop L _ (Wchan w) Hp Hws) as [E Hp']; [done|]. unfold wchan_destroy. run E. eexists _, (delete (Wchan w) L). split; [done|].
    destruct Hp' as [Q1 Q2 Q3 Q4 Q5 Q6 Q7]. split; cbn.
    + by split.
    + intros c. by rewrite lookup_delete_ne.
    + intros w'. rewrite elem_of_difference, elem_of_singleton, <- C3. destruct (decide (w' = w)) as [->|Hne]; [rewrite lookup_delete_eq; split; [by intros []|naive_solver]|].
      rewrite lookup_delete_ne by congruence. naive_solver.
    + intros c. rewrite lookup_delete_ne by done. apply C4.
  - destruct Hen as (Hm & Hcpu & Hn). destruct Hc as [C1 C2 C3 C4]. destruct (pl_cpus _ _ _ Hp me Hcpu) as [[q Hq] _]. rewrite (lo_count _ _ _ (pl_lists _ _ _ Hp) _ _ Hq) in Hn.
    pose proof (C4 me) as Hv. rewrite Hm in Hv. destruct (list_new L _ (Victims me) Hp Hv) as (l1 & E1 & Hp1). run E1.
    destruct (take_victims_ok me n _ _ (take (length q - n) q) (drop (length q - n) q) [] Hp1) as (l2 & E2 & Hp2); [rewrite lookup_insert_ne, take_drop by done; done|rewrite length_drop; lia|apply lookup_insert_eq|].
    rewrite E2. eexists _, _. split; [done|]. split; cbn; [exact Hp2|intros c; by rewrite !lookup_insert_ne|intros w; by rewrite !lookup_insert_ne|].
    intros c. destruct (decide (c = me)) as [->|Hne].
    + rewrite !lookup_insert_eq. eexists. split; [done|]. rewrite length_app, length_drop. lia.
    + rewrite !lookup_insert_ne by congruence. apply C4.
  - destruct Hen as ([n Hm] & Hne & Hcc & [y Hy]). destruct Hc as [C1 C2 C3 C4]. pose proof (C4 me) as Hv. rewrite Hm in Hv. destruct Hv as (v & Hv & Hn). rewrite Hm.
    destruct (pl_cpus _ _ _ Hp c Hcc) as [[q Hq] _].
    destruct (give_ok me c share (c_curthread y) n L (st x) v q Hp ltac:(by exists y) Hcc Hne Hv Hq Hn) as (n' & s' & L' & v' & q' & -> & Hp' & Hv' & Hq' & Hs & G1 & _).
    eexists _, L'. split; [done|]. split; cbn; [done|intros d; rewrite Hs by naive_solver; apply C2|intros w; rewrite Hs by naive_solver; apply C3|].
    intros d. destruct (decide (d = me)) as [->|Hd]; [rewrite lookup_insert_eq; by exists v'|]. rewrite lookup_insert_ne by done. rewrite Hs; [apply C4|]. naive_solver.
  - destruct Hen as ([n Hm] & Hcpu). destruct Hc as [C1 C2 C3 C4]. pose proof (C4 me) as Hv. rewrite Hm in Hv. destruct Hv as (v & Hv & Hn). destruct (pl_cpus _ _ _ Hp me Hcpu) as [[q Hq] _].
    destruct (put_back_ok me v (S (size (threads (st x)))) L (st x) q Hp Hv Hq (lists_fuel _ _ _ _ _ Hp Hv)) as (l' & E & Hp'). run E.
    destruct (list_drop _ _ (Victims me) Hp') as [E' Hp'']; [rewrite lookup_insert_ne, lookup_insert_eq by done; done|done|]. rewrite E'. eexists _, _. split; [done|].
    split; cbn; [exact Hp''|intros c; by rewrite lookup_delete_ne, !lookup_insert_ne|intros w; by rewrite lookup_delete_ne, !lookup_insert_ne|].
    intros c. destruct (decide (c = me)) as [->|Hne]; [by rewrite !lookup_delete_eq|]. rewrite !lookup_delete_ne, !lookup_insert_ne by congruence. apply C4.
Qed.

(** ** Booting *)

(** The first processor ([thread_bootstrap]) and then the others as the bus finds them;
    [ts] are the addresses of their first threads. *)
Fixpoint boot (ts : list Z) (kproc : Z) : K sched unit :=
  match ts with
  | [] => kret tt
  | t :: ts' => cpu_create true true true true 0 0 t kproc ;;; boot ts' kproc
  end.

(** Only the lists of the processors are there, and they are empty. *)
Record fresh_lists (L : gmap tlid (list Z)) (n : nat) : Prop := {
  fr_cpu : forall c, (c < n)%nat -> L !! Runq c = Some [] /\ L !! Zombies c = Some [];
  fr_only : forall i ts, L !! i = Some ts -> exists c, (c < n)%nat /\ (i = Runq c \/ i = Zombies c)
}.

Lemma boot_ok kproc : forall ts L s, placed None L s -> fresh_lists L (length (allcpus s)) -> NoDup ts -> (forall t, t ∈ ts -> threads s !! t = None) ->
  Z.of_nat (size (threads s) + length ts) < 2 ^ 32 ->
  exists s' L', boot ts kproc s = Done tt s' /\ placed None L' s' /\ fresh_lists L' (length (allcpus s')) /\ length (allcpus s') = (length (allcpus s) + length ts)%nat /\
    dom (threads s') = list_to_set ts ∪ dom (threads s).
Proof.
  induction ts as [|t ts IH]; intros L s Hp Hf Hnd Hts Hsz; cbn [boot length] in *.
  { exists s, L. split_and!; try done; first [lia|set_solver]. }
  apply NoDup_cons in Hnd as [Ht Hnd]. assert (Hno : forall i, i = Zombies (length (allcpus s)) \/ i = Runq (length (allcpus s)) -> L !! i = None).
  { intros i Hi. destruct (L !! i) as [us|] eqn:E; [|done]. apply (fr_only _ _ Hf) in E as (c & Hc & Hi'). destruct Hi as [->| ->], Hi' as [[=]|[=]]; lia. }
  destruct (cpu_create_ok L s t kproc Hp) as (s1 & E1 & Hp1 & Hd1 & Hl1); [apply Hts; left|lia|apply Hno; by left|apply Hno; by right|]. run E1.
  destruct (IH _ s1 Hp1) as (s' & L' & E' & Hp' & Hf' & Hl' & Hd').
  - rewrite Hl1. destruct Hf as [F1 F2]. split.
    + intros c Hc. destruct (decide (c = length (allcpus s))) as [->|Hne]; [by rewrite lookup_insert_eq, lookup_insert_ne, lookup_insert_eq by done|].
      rewrite !lookup_insert_ne by congruence. apply F1. lia.
    + intros i us [[<- _]|[_ [[<- _]|[_ Hi]]%lookup_insert_Some]]%lookup_insert_Some; [exists (length (allcpus s)); split; [lia|by left]|exists (length (allcpus s)); split; [lia|by right]|].
      destruct (F2 i us Hi) as (c & Hc & ?). exists c. split; [lia|done].
  - done.
  - intros u Hu. apply not_elem_of_dom. rewrite Hd1. apply not_elem_of_union. split; [apply not_elem_of_singleton; by intros ->|]. apply not_elem_of_dom. apply Hts. by right.
  - rewrite <- size_dom, Hd1, size_union, size_singleton, size_dom; [lia|]. apply disjoint_singleton_l. apply not_elem_of_dom, Hts. left.
  - exists s', L'. split_and!; try done; [lia|]. rewrite Hd', Hd1. cbn [list_to_set]. set_solver.
Qed.

(** A machine that has just started. *)
Definition booted (x : conf) : Prop :=
  exists l ts kproc, NoDup ts /\ Z.of_nat (length ts) < 2 ^ 32 /\ boot ts kproc (mksched l ∅ [] ∅) = Done tt (st x) /\ mig x = ∅ /\ chans x = ∅.

Lemma booted_ok x : booted x -> exists L, conf_ok L x /\ fresh_lists L (length (allcpus (st x))).
Proof.
  intros (l & ts & kproc & Hnd & Hsz & E & Hm & Hch). destruct (boot_ok kproc ts ∅ (mksched l ∅ [] ∅) (empty_ok l)) as (s' & L & E' & Hp & Hf & _ & _).
  { split; [cbn; lia|]. intros i us. by rewrite lookup_empty. }
  { done. } { intros t _. apply lookup_empty. } { cbn [threads]. rewrite map_size_empty. lia. }
  rewrite E in E'. injection E' as <-. exists L. split; [|done].
  assert (Hno : forall i, (forall c, i <> Runq c /\ i <> Zombies c) -> L !! i = None).
  { intros i Hi. destruct (L !! i) as [us|] eqn:Ei; [|done]. destruct (fr_only _ _ Hf i us Ei) as (c & _ & [->| ->]); by destruct (Hi c). }
  split; [done|intros c; by apply Hno| |intros c; rewrite Hm, lookup_empty; by apply Hno]. intros w. rewrite Hno, Hch by done. split; [by intros []|]. by intros ?%elem_of_empty.
Qed.

Inductive reach (x0 : conf) : conf -> Prop :=
| reach_start : reach x0 x0
| reach_step a x x' : reach x0 x -> enabled a x -> perform a x = Some x' -> reach x0 x'.

Lemma reach_ok x0 x : booted x0 -> reach x0 x -> exists L, conf_ok L x.
Proof.
  intros Hb Hr. induction Hr as [|a x x' Hr (L & Hc) Hen E]; [destruct (booted_ok x0 Hb) as (L & ? & _); by exists L|].
  destruct (perform_ok a L x Hc Hen) as (x1 & L1 & E1 & Hc1). rewrite E in E1. injection E1 as <-. by exists L1.
Qed.

(** Where a thread is. *)
Definition in_its_place (L : gmap tlid (list Z)) (s : sched) (t : Z) (th : thread) : Prop :=
  (runs s (t_cpu th) t /\ (forall c, runs s c t -> c = t_cpu th) /\ off_list L t) \/
  (exists i ts, L !! i = Some ts /\ (t ∈ ts) /\ fits i th /\ (forall j us, L !! j = Some us -> t ∈ us -> j = i) /\ forall c, ~ runs s c t).

Lemma placed_in_place L s t th : placed None L s -> threads s !! t = Some th -> in_its_place L s t th.
Proof.
  intros Hp Ht. assert (Honly : forall c, runs s c t -> c = t_cpu th /\ off_list L t).
  { intros c (x & Hx & Ex & Hid). destruct (pl_cur _ _ _ Hp c x Hx) as (th' & Ht' & Ec & Hr). destruct (Hr Hid) as [_ Ho]. rewrite Ex in *. split; [congruence|done]. }
  destruct (decide (Exists (fun i => t ∈ default [] (L !! i)) (elements (dom L)))) as [He|Hne].
  - right. apply Exists_exists in He as (i & _ & Hi). destruct (L !! i) as [ts|] eqn:El; [|by apply elem_of_nil in Hi]. cbn in Hi. exists i, ts.
    destruct (pl_fits _ _ _ Hp i ts t El Hi) as (th' & Ht' & Hfit). split; [done|]. split; [done|]. split; [congruence|]. split.
    + intros j us Hj Hu. by eapply (lo_disj _ _ _ (pl_lists _ _ _ Hp)).
    + intros c Hc. destruct (Honly c Hc) as [_ Ho]. by apply (Ho i ts).
  - left. assert (Ho : off_list L t).
    { intros i ts Hi Hti. apply Hne, Exists_exists. exists i. rewrite Hi. split; [|done]. apply elem_of_elements, elem_of_dom. by rewrite Hi. }
    split; [by apply (pl_off _ _ _ Hp)|]. split; [|done]. intros c Hc. by apply Honly.
Qed.

(** ** Round robin *)

Lemma yield_ok me L s x t q : placed None L s -> allcpus s !! me = Some x -> c_isidle x = false -> L !! Runq me = Some (t :: q) ->
  exists s' L' x', thread_yield me s = Done (Switched t) s' /\ placed None L' s' /\ L' !! Runq me = Some (q ++ [c_curthread x]) /\
    allcpus s' !! me = Some x' /\ c_isidle x' = false /\ c_curthread x' = t.
Proof.
  intros Hp Hx Hid Hq. destruct (thread_switch_ok me S_READY 0 L s x (t :: q) (t :: q) Hp Hx Hid ltac:(done) Hq ltac:(done) Hq ltac:(done)) as (s' & L' & Hp' & E).
  cbn [dest] in E. rewrite lookup_insert_eq in E. cbn [app] in E. destruct E as (E & (x' & Hx' & Ex' & Hid') & ->). exists s'. eexists _, x'. split; [done|]. split; [done|].
  split; [rewrite lookup_insert_ne, lookup_insert_eq by done; done|done].
Qed.

(** [n] yields of the threads that run on processor [me], one after the other. *)
Fixpoint yields (n : nat) (me : nat) (s : sched) : option sched :=
  match n with
  | O => Some s
  | S n' => match thread_yield me s with Done _ s' => yields n' me s' | _ => None end
  end.

Lemma yields_ok me t q2 : forall q1 L s x, placed None L s -> allcpus s !! me = Some x -> c_isidle x = false -> L !! Runq me = Some (q1 ++ t :: q2) ->
  exists s', yields (S (length q1)) me s = Some s' /\ runs s' me t.
Proof.
  intros q1. revert q2. induction q1 as [|u q1 IH]; intros q2 L s x Hp Hx Hid Hq; cbn [app length] in *.
  - destruct (yield_ok me L s x t q2 Hp Hx Hid Hq) as (s' & L' & x' & E & _ & _ & Hx' & Hid' & Ex'). exists s'. cbn. rewrite E. split; [done|]. by exists x'.
  - destruct (yield_ok me L s x u (q1 ++ t :: q2) Hp Hx Hid Hq) as (s' & L' & x' & E & Hp' & Hq' & Hx' & Hid' & _). rewrite <- app_assoc in Hq'. cbn [app] in Hq'.
    destruct (IH _ L' s' x' Hp' Hx' Hid' Hq') as (s2 & E2 & Hr). exists s2. split; [|done]. cbn [yields]. rewrite E. exact E2.
Qed.

(** ** The theorems *)

(** C19. On a machine that has started with any number of processors, whatever its threads
    and processors do in any order (yield, exit, sleep, wake others, fork, idle, move
    threads to other processors): no action stops the kernel, and every thread is either
    running, on its own processor and no other, or on exactly one list, the one its state
    says. *)
Theorem sched_safe x0 x : booted x0 -> reach x0 x ->
  (forall a, enabled a x -> exists x', perform a x = Some x') /\
  exists L, lists_ok (dom (threads (st x))) L (lists (st x)) /\ forall t th, threads (st x) !! t = Some th -> in_its_place L (st x) t th.
Proof.
  intros Hb Hr. destruct (reach_ok x0 x Hb Hr) as (L & Hc). split.
  - intros a Hen. destruct (perform_ok a L x Hc Hen) as (x' & _ & E & _). by exists x'.
  - exists L. split; [apply (co_placed _ _ Hc)|]. intros t th. by apply placed_in_place, (co_placed _ _ Hc).
Qed.

(** C20. Round robin: a thread that waits behind [k] others on the run queue of a busy
    processor runs after [k + 1] yields. *)
Theorem round_robin me L s x q1 t q2 : sched_ok L s -> allcpus s !! me = Some x -> c_isidle x = false -> L !! Runq me = Some (q1 ++ t :: q2) ->
  exists s', yields (S (length q1)) me s = Some s' /\ runs s' me t.
Proof. intros. by eapply yields_ok. Qed.

(** [thread_consider_migration] without interference on a busy processor: it keeps
    its share of the ready threads if it had more, no other processor gets more than that
    share by it, and no thread is lost. *)
Theorem migration_balances me L s x : sched_ok L s -> allcpus s !! me = Some x -> c_isidle x = false -> L !! Victims me = None ->
  Z.of_nat (size (threads s) + length (allcpus s)) < 2 ^ 32 ->
  let cs := seq 0 (length (allcpus s)) in
  let share := DIVROUNDUP (Z.of_nat (total L cs)) (Z.of_nat (length (allcpus s))) in
  exists s' L', thread_consider_migration me s = Done tt s' /\ sched_ok L' s' /\ total L' cs = total L cs /\
    Z.of_nat (qlen L' me) = Z.min (Z.of_nat (qlen L me)) share /\
    (forall c, c <> me -> (qlen L c <= qlen L' c)%nat /\ Z.of_nat (qlen L' c) <= Z.max (Z.of_nat (qlen L c)) share).
Proof.
  intros Hp Hx Hid Hn Hsz cs share. destruct (migration_ok me L s x Hp Hx Hid Hn Hsz) as (s' & L' & E & Hp' & Ht & Ho & Hm & _). by exists s', L'.
Qed.

(** [wchan_wakeall] puts every thread that sleeps on the channel on the run queue of
    its processor and leaves the channel empty; the other lists are as before, run queues
    being longer at the end only. *)
Theorem wchan_wakeall_spec me w L s ws : sched_ok L s -> L !! Wchan w = Some ws -> L !! Waking me = None ->
  exists s' L', wchan_wakeall me w s = Done tt s' /\ sched_ok L' s' /\ queued (<[Wchan w := []]> L) L' /\
    forall t, t ∈ ws -> exists th q, threads s' !! t = Some th /\ t_state th = S_READY /\ L' !! Runq (t_cpu th) = Some q /\ t ∈ q.
Proof.
  intros Hp Hw Hn. destruct (wakeall_ok me w L s ws Hp Hw Hn) as (s' & L' & E & Hp' & Hq & Hin & _). exists s', L'. split_and!; try done. intros t Ht.
  destruct (Hin t Ht) as (c & q & Hcq & Htq). destruct (pl_fits _ _ _ Hp' _ _ t Hcq Htq) as (th & ? & ? & <-). by exists th, q.
Qed.

(** *** A machine with two processors *)

Lemma demo_boot : exists x L, booted x /\ conf_ok L x /\ fresh_lists L 2 /\ length (allcpus (st x)) = 2%nat /\ dom (threads (st x)) = {[100; 200]}.
Proof.
  set (l := mktl (fun _ => mknode None None None) (fun _ => 0) : @tlists tlid).
  destruct (boot_ok 1 [100; 200] ∅ (mksched l ∅ [] ∅) (empty_ok l)) as (s & L0 & E & _ & _ & Hl & Hd).
  { split; [cbn; lia|]. intros i us. by rewrite lookup_empty. }
  { apply NoDup_cons. split; [set_solver|]. apply NoDup_singleton. }
  { intros t _. apply lookup_empty. }
  { vm_compute. reflexivity. }
  set (x := mkconf s ∅ ∅). assert (Hb : booted x) by (exists l, [100; 200], 1; split_and!; try done; apply NoDup_cons; split; [set_solver|apply NoDup_singleton]).
  destruct (booted_ok x Hb) as (L & Hc & Hf). exists x, L. cbn in Hl, Hf. rewrite Hl in Hf. split; [done|]. split; [done|]. split; [done|]. split; [done|].
  cbn [st x]. rewrite Hd. cbn. set_solver.
Qed.

(** The thread of one of them forks. *)
Lemma demo_fork : exists me s L x, sched_ok L s /\ allcpus s !! me = Some x /\ c_isidle x = false /\ L !! Runq me = Some [300] /\ L !! Victims me = None /\
  Z.of_nat (size (threads s) + length (allcpus s)) < 2 ^ 32.
Proof.
  destruct demo_boot as (x & L & Hb & Hc & Hf & Hl & Hd). pose proof (co_placed _ _ Hc) as Hp. assert (Hnil : forall i ts, L !! i = Some ts -> ts = []).
  { intros i ts Hi. destruct (fr_only _ _ Hf i ts Hi) as (c & Hlt & Hic). destruct (fr_cpu _ _ Hf c Hlt). destruct Hic as [->| ->]; congruence. }
  assert (H100 : is_Some (threads (st x) !! 100)) by (apply elem_of_dom; rewrite Hd; set_solver). destruct H100 as [th Hth].
  destruct (pl_off _ _ _ Hp 100 th Hth) as (c & Hcpu & Ecur & Hid); [intros i ts Hi; rewrite (Hnil i ts Hi); apply not_elem_of_nil|done|].
  assert (Hsz : size (threads (st x)) = 2%nat) by (rewrite <- size_dom, Hd; vm_compute; reflexivity).
  destruct (fork_ok true true true 300 0 (t_cpu th) None L (st x) c Hp Hcpu) as [(e & s' & _ & _ & _ & Habs)|(s' & q & _ & _ & _ & Hq & Hp' & Hd' & Hv)].
  { apply not_elem_of_dom. rewrite Hd. set_solver. } { rewrite Hsz. lia. } { by destruct Habs. }
  assert (Hv' : view s' !! t_cpu th = Some (c_curthread c, c_isidle c)) by (rewrite Hv; unfold view; by rewrite list_lookup_fmap, Hcpu).
  unfold view in Hv'. rewrite list_lookup_fmap in Hv'. destruct (allcpus s' !! t_cpu th) as [y|] eqn:Hy; [|done]. cbn in Hv'. injection Hv' as Ey1 Ey2.
  exists (t_cpu th), s', (<[Runq (t_cpu th) := q ++ [300]]> L), y. rewrite (Hnil _ _ Hq) in *. split_and!; try done.
  - congruence.
  - apply lookup_insert_eq.
  - rewrite lookup_insert_ne by done. destruct (L !! Victims (t_cpu th)) eqn:E; [|done]. destruct (fr_only _ _ Hf _ _ E) as (d & _ & [?|?]); done.
  - assert (Hlen : length (allcpus s') = 2%nat) by (rewrite <- Hl, <- (length_fmap (fun c => (c_curthread c, c_isidle c)) (allcpus s')), <- (length_fmap (fun c => (c_curthread c, c_isidle c)) (allcpus (st x))); by f_equal).
    rewrite <- size_dom, Hd', Hd, Hlen. vm_compute. reflexivity.
Qed.

Lemma sched_safe_witness : exists x0, booted x0 /\ exists L, lists_ok (dom (threads (st x0))) L (lists (st x0)) /\
  forall t th, threads (st x0) !! t = Some th -> in_its_place L (st x0) t th.
Proof.
  destruct demo_boot as (x & _ & Hb & _). exists x. split; [exact Hb|]. exact (proj2 (sched_safe x x Hb (reach_start x))).
Defined.

Lemma round_robin_witness : exists me s s', yields 1 me s = Some s' /\ runs s' me 300.
Proof.
  destruct demo_fork as (me & s & L & x & Hp & Hx & Hid & Hq & _). destruct (round_robin me L s x [] 300 [] Hp Hx Hid Hq) as (s' & E & Hr). by exists me, s, s'.
Defined.

Lemma migration_balances_witness : exists me s L s' L', thread_consider_migration me s = Done tt s' /\ sched_ok L' s' /\
  total L' (seq 0 (length (allcpus s))) = total L (seq 0 (length (allcpus s))).
Proof.
  destruct demo_fork as (me & s & L & x & Hp & Hx & Hid & Hq & Hn & Hsz). destruct (migration_balances me L s x Hp Hx Hid Hn Hsz) as (s' & L' & E & Hp' & Ht & _).
  by exists me, s, L, s', L'.
Defined.

(** A thread goes to sleep. *)
Lemma demo_sleep : exists s L, sched_ok L s /\ L !! Wchan 0 = Some [100] /\ L !! Waking 1 = None.
Proof.
  destruct demo_boot as (x & L & Hb & Hc & Hf & Hl & Hd). pose proof (co_placed _ _ Hc) as Hp.
  assert (Hno : forall i, (forall c, i <> Runq c /\ i <> Zombies c) -> L !! i = None).
  { intros i Hi. destruct (L !! i) as [us|] eqn:Ei; [|done]. destruct (fr_only _ _ Hf i us Ei) as (c & _ & [->| ->]); by destruct (Hi c). }
  destruct (list_new L (st x) (Wchan 0) Hp) as (l1 & _ & Hp1); [by apply Hno|]. assert (H100 : is_Some (threads (st x) !! 100)) by (apply elem_of_dom; rewrite Hd; set_solver).
  destruct H100 as [th Hth]. destruct (pl_off _ _ _ Hp 100 th Hth) as (c & Hcpu & Ecur & Hid); [|done|].
  { intros i ts Hi. destruct (fr_only _ _ Hf i ts Hi) as (d & Hlt & Hic). destruct (fr_cpu _ _ Hf d Hlt). assert (ts = []) as -> by (destruct Hic as [->| ->]; congruence). apply not_elem_of_nil. }
  destruct (pl_cpus _ _ _ Hp (t_cpu th) ltac:(by exists c)) as [[q Hq] _]. assert (q = []) as ->.
  { destruct (fr_only _ _ Hf _ _ Hq) as (d & Hlt & [[= <-]|?]); [|done]. destruct (fr_cpu _ _ Hf _ Hlt). congruence. }
  destruct (thread_switch_ok (t_cpu th) S_SLEEP 0 _ _ c [] [] Hp1 Hcpu Hid) as (s' & L' & Hp' & E); [done|apply lookup_insert_eq|done|by rewrite lookup_insert_ne|done|].
  cbn [dest app] in E. rewrite !lookup_insert_ne, Hq in E by done. destruct E as (_ & -> & _). rewrite Ecur in Hp'. eexists s', _. split; [exact Hp'|].
  split; [apply lookup_insert_eq|]. rewrite !lookup_insert_ne by done. by apply Hno.
Qed.

Lemma wchan_wakeall_spec_witness : exists s s' th, wchan_wakeall 1 0 s = Done tt s' /\ threads s' !! 100 = Some th /\ t_state th = S_READY.
Proof.
  destruct demo_sleep as (s & L & Hp & Hw & Hn). destruct (wchan_wakeall_spec 1 0 L s [100] Hp Hw Hn) as (s' & L' & E & _ & _ & Hin).
  destruct (Hin 100 ltac:(left)) as (th & q & Ht & Hst & _). by exists s, s', th.
Defined.
