(* ===== verification/SfsDisk.v ===== *)
(** * SFS: block I/O and block allocation

    The path from the file system to the disk: [uiomove]
    (kern/lib/uio.c), the disk driver's transfer loop (kern/dev/lamebus/lhd.c), the
    block routines with their retries (kern/fs/sfs/sfs_io.c) and the block allocator
    (kern/fs/sfs/sfs_balloc.c) on top of the bitmap. What the hardware answers is a
    parameter ([Disk]). The caller holds the VFS big lock throughout, so the
    operations are sequential. *)

From stdpp Require Import base numbers list.
From Stdlib Require Import ZArith Lia.
From S2P Require Import Prelude Bitmap.

Open Scope Z_scope.
Open Scope k_scope.

Definition SFS_BLOCKSIZE : Z := 512.
Definition SFS_NDIRECT : Z := 15.
Definition SFS_DBPERIDB : Z := 128.
Definition SFS_NINDIRECT : Z := 1.
Definition SFS_NAMELEN : Z := 60.
Definition SFS_NOINO : Z := 0.
Definition SFS_TYPE_INVAL : Z := 0.
Definition SFS_TYPE_FILE : Z := 1.
Definition SFS_TYPE_DIR : Z := 2.

(** The disk: its size; the completion code of the [n]-th operation the driver
    starts, and what a sector holds after a write that failed. *)
Class Geometry := { d_blocks : Z }.
Class Disk := {
  lh_result : nat -> Z;
  junk : nat -> list Z
}.

(** A disk that never reports an error. Lemmas of the SFS files are about such disks;
    SfsErrors.v carries the theorems over to disks that fail. *)
Class Reliable (D : Disk) : Prop := reliable n : lh_result n = 0.

Inductive uio_rw := UIO_READ | UIO_WRITE.

#[global] Instance uio_rw_eq_dec : EqDecision uio_rw.
Proof. solve_decision. Defined.

(** kern/include/uio.h:67-71 (enum uio_seg). Code and data of a process are treated alike;
    of a user buffer the model has the number of bytes from [iov_ubase] on that can be
    accessed. *)
Inductive uio_seg := UIO_SYSSPACE | UIO_USERSPACE (valid : Z).

(** kern/include/uio.h:73-81 (struct uio): a transfer to or from one buffer, of the kernel or
    of the current process. [uio_buf] holds the bytes moved so far when reading, the bytes
    still to be moved when writing. *)
Record uio := mkuio {
  uio_rwf : uio_rw;
  uio_offset : Z;
  uio_resid : Z;
  iov_len : Z;
  uio_buf : list Z;
  uio_segflg : uio_seg
}.

(** kern/include/sfs.h:54-59 (struct sfs_vnode) with the fields of the inode it
    caches (kern/include/kern/sfs.h:83-90). *)
Record vnode := mkvn {
  sv_ino : Z;
  sfi_type : Z;
  sfi_size : Z;
  sfi_linkcount : Z;
  sfi_direct : list Z;
  sfi_indirect : Z;
  sv_dirty : bool
}.

(** kern/include/sfs.h:64-72 (struct sfs_fs): the volume, with the disk's contents,
    the driver's buffer and operation count, and the vnode and the transfer being
    worked on. *)
Record st := mkst {
  dsk : Z -> list Z;
  lh_buf : list Z;
  ops : nat;
  sfs_freemap : bitmap;
  sfs_freemapdirty : bool;
  sb_nblocks : Z;
  sv : vnode;
  ui : uio
}.

Definition set_dsk f s := mkst (f (dsk s)) (lh_buf s) (ops s) (sfs_freemap s) (sfs_freemapdirty s) (sb_nblocks s) (sv s) (ui s).
Definition set_buf x s := mkst (dsk s) x (ops s) (sfs_freemap s) (sfs_freemapdirty s) (sb_nblocks s) (sv s) (ui s).
Definition set_ops f s := mkst (dsk s) (lh_buf s) (f (ops s)) (sfs_freemap s) (sfs_freemapdirty s) (sb_nblocks s) (sv s) (ui s).
Definition set_map x s := mkst (dsk s) (lh_buf s) (ops s) x (sfs_freemapdirty s) (sb_nblocks s) (sv s) (ui s).
Definition set_mapdirty s := mkst (dsk s) (lh_buf s) (ops s) (sfs_freemap s) true (sb_nblocks s) (sv s) (ui s).
Definition set_sv f s := mkst (dsk s) (lh_buf s) (ops s) (sfs_freemap s) (sfs_freemapdirty s) (sb_nblocks s) (f (sv s)) (ui s).
Definition set_ui x s := mkst (dsk s) (lh_buf s) (ops s) (sfs_freemap s) (sfs_freemapdirty s) (sb_nblocks s) (sv s) x.

(** Block [b] of the disk becomes [d]. *)
Definition upd (b : Z) (d : list Z) (m : Z -> list Z) : Z -> list Z :=
  fun x => if x =? b then d else m x.

(** ** Moving data, kern/lib/uio.c *)

(** kern/lib/uio.c:151-164 (uio_kinit). *)
Definition uio_kinit (buf : list Z) (len pos : Z) (rw : uio_rw) : uio := mkuio rw pos len len buf UIO_SYSSPACE.

(** kern/lib/uio.c:93-105 (uiomove): whether [copyin] or [copyout] of [size] bytes fails, and
    the buffer behind them. *)
Definition seg_faults (g : uio_seg) (size : Z) : bool :=
  match g with UIO_SYSSPACE => false | UIO_USERSPACE valid => valid <? size end.

Definition seg_skip (g : uio_seg) (size : Z) : uio_seg :=
  match g with UIO_SYSSPACE => UIO_SYSSPACE | UIO_USERSPACE valid => UIO_USERSPACE (valid - size) end.

(** kern/lib/uio.c:41-119 (uiomove) for a transfer with one iovec, as all of the kernel's
    are: [ptr] are the bytes at the pointer, the result is what they are afterwards. A
    user buffer that cannot be accessed gives [EFAULT] and the transfer stays where it is
    (what was copied before the fault is lost: all callers give up). The second iteration
    of the loop finds the iovec used up and the kernel panics. *)
Definition uiomove {S} (ptr : list Z) (n : Z) (u : uio) : K S (list Z * uio) :=
  if (n <=? 0) || (uio_resid u <=? 0) then kret (ptr, u) else
  let size := Z.min (iov_len u) n in
  if size =? 0 then khalt PanicCall else
  if seg_faults (uio_segflg u) size then kfail EFAULT else
  let len := Z.to_nat size in
  let resid := u32 (uio_resid u - size) in
  let u' := mkuio (uio_rwf u) (uio_offset u + size) resid (iov_len u - size)
              (match uio_rwf u with
               | UIO_READ => uio_buf u ++ take len ptr
               | UIO_WRITE => drop len (uio_buf u)
               end) (seg_skip (uio_segflg u) size) in
  let ptr' := match uio_rwf u with
              | UIO_READ => ptr
              | UIO_WRITE => take len (uio_buf u) ++ drop len ptr
              end in
  if (0 <? n - size) && (0 <? resid) then khalt PanicCall else kret (ptr', u').

(** kern/lib/uio.c:121-145 (uiomovezeros); the buffer of zeros has 16 bytes, [fuel]
    bounds the iterations. *)
Fixpoint uiomovezeros {S} (fuel : nat) (n : Z) (u : uio) : K S uio :=
  match fuel with
  | O => khalt OutOfFuel
  | Datatypes.S fuel' =>
      match uio_rwf u with
      | UIO_WRITE => khalt KAssert
      | UIO_READ =>
          if n <=? 0 then kret u else
          let amt := if n <? 16 then n else 16 in
          r <- uiomove (replicate 16 0) amt u ;;
          uiomovezeros fuel' (n - amt) (snd r)
      end
  end.

(** ** The disk driver, kern/dev/lamebus/lhd.c *)

Section Driver.
Context {G : Geometry} {D : Disk}.

(** kern/dev/lamebus/lhd.c:215-264 (lhd_io): the loop over the sectors; the
    completion code and the transfer's state. When writing, the data leaves the
    transfer before the operation is started. [EFAULT] of [uiomove] ends the loop, and
    [sfs_rwblock] passes it on without a retry; it is an outcome [Fail] throughout. *)
Fixpoint lhd_sectors (len : nat) (sector : Z) (u : uio) : K st (Z * uio) :=
  match len with
  | O => kret (0, u)
  | S len' =>
      s <- kget ;;
      r <- (match uio_rwf u with
            | UIO_WRITE => uiomove (lh_buf s) SFS_BLOCKSIZE u
            | UIO_READ => kret (lh_buf s, u)
            end) ;;
      let '(buf, u) := r in
      let result := lh_result (ops s) in
      kmodify (fun s => set_ops S (set_buf buf s)) ;;;
      kmodify (fun s => match uio_rwf u with
                        | UIO_WRITE => set_dsk (upd sector (if result =? 0 then buf else junk (ops s))) s
                        | UIO_READ => if result =? 0 then set_buf (dsk s sector) s else s
                        end) ;;;
      s <- kget ;;
      r <- (match uio_rwf u with
            | UIO_READ => if result =? 0 then uiomove (lh_buf s) SFS_BLOCKSIZE u else kret (lh_buf s, u)
            | UIO_WRITE => kret (lh_buf s, u)
            end) ;;
      let '(_, u) := r in
      if negb (result =? 0) then kret (result, u) else lhd_sectors len' (sector + 1) u
  end.

(** kern/dev/lamebus/lhd.c:185-265 (lhd_io). *)
Definition lhd_io (u : uio) : K st (Z * uio) :=
  let sector := u32 (uio_offset u / SFS_BLOCKSIZE) in
  let sectoff := uio_offset u mod SFS_BLOCKSIZE in
  let len := uio_resid u / SFS_BLOCKSIZE in
  let lenoff := uio_resid u mod SFS_BLOCKSIZE in
  if negb (sectoff =? 0) || negb (lenoff =? 0) then kret (EINVAL, u) else
  if d_blocks <? u32 (sector + len) then kret (EINVAL, u) else
  lhd_sectors (Z.to_nat len) sector u.

(** ** Blocks, kern/fs/sfs/sfs_io.c *)

(** kern/fs/sfs/sfs_io.c:70-101 (sfs_rwblock): the attempts; [left] retries remain. *)
Fixpoint sfs_retry (left : nat) (u : uio) : K st (Z * uio) :=
  r <- lhd_io u ;;
  let '(result, u) := r in
  if result =? EINVAL then khalt PanicCall else
  if result =? EIO then
    match left with
    | O => kret (result, u)
    | S left' => sfs_retry left' u
    end
  else kret (result, u).

(** kern/fs/sfs/sfs_io.c:58-102 (sfs_rwblock). *)
Definition sfs_rwblock (u : uio) : K st (Z * uio) := sfs_retry 10 u.

(** kern/fs/sfs/sfs_io.c:107-117 (sfs_readblock). *)
Definition sfs_readblock (block : Z) : K st (list Z) :=
  r <- sfs_rwblock (uio_kinit [] SFS_BLOCKSIZE (block * SFS_BLOCKSIZE) UIO_READ) ;;
  let '(result, u) := r in
  if negb (result =? 0) then kfail result else kret (uio_buf u).

(** kern/fs/sfs/sfs_io.c:122-132 (sfs_writeblock). *)
Definition sfs_writeblock (block : Z) (data : list Z) : K st unit :=
  r <- sfs_rwblock (uio_kinit data SFS_BLOCKSIZE (block * SFS_BLOCKSIZE) UIO_WRITE) ;;
  let '(result, _) := r in
  if negb (result =? 0) then kfail result else kret tt.

(** ** Block allocation, kern/fs/sfs/sfs_balloc.c *)

(** Run an operation of the bitmap on the free map. *)
Definition on_freemap {A} (m : K bitmap A) : K st A :=
  fun s => match m (sfs_freemap s) with
           | Done a b => Done a (set_map b s)
           | Fail e b => Fail e (set_map b s)
           | Halt h => Halt h
           end.

(** kern/fs/sfs/sfs_balloc.c:44-52 (sfs_clearblock). *)
Definition sfs_clearblock (block : Z) : K st unit := sfs_writeblock block (replicate 512 0).

(** kern/fs/sfs/sfs_balloc.c:57-79 (sfs_balloc). *)
Definition sfs_balloc : K st Z :=
  diskblock <- on_freemap bitmap_alloc ;;
  kmodify set_mapdirty ;;;
  s <- kget ;;
  if sb_nblocks s <=? diskblock then khalt PanicCall else
  r <- attempt (sfs_clearblock diskblock) ;;
  match r with
  | inl e => on_freemap (bitmap_unmark diskblock) ;;; kfail e
  | inr _ => kret diskblock
  end.

(** kern/fs/sfs/sfs_balloc.c:84-89 (sfs_bfree). *)
Definition sfs_bfree (diskblock : Z) : K st unit :=
  on_freemap (bitmap_unmark diskblock) ;;; kmodify set_mapdirty.

(** kern/fs/sfs/sfs_balloc.c:94-102 (sfs_bused). *)
Definition sfs_bused (diskblock : Z) : K st bool :=
  s <- kget ;;
  if sb_nblocks s <=? diskblock then khalt PanicCall else
  kret (negb (bitmap_isset (sfs_freemap s) diskblock =? 0)).

(** ** Lemmas *)

(** The state after an operation of the driver that left [buf] in its buffer. *)
Definition touch (buf : list Z) (s : st) : st := set_ops S (set_buf buf s).

(** A user buffer holds [n] more bytes. *)
Definition seg_ok (g : uio_seg) (n : Z) : Prop :=
  match g with UIO_SYSSPACE => True | UIO_USERSPACE valid => n <= valid end.

Lemma seg_ok_faults g n m : seg_ok g n -> m <= n -> seg_faults g m = false.
Proof. destruct g as [|valid]; cbn; [done|]. intros. apply Z.ltb_ge. lia. Qed.

Lemma seg_ok_less g n m : seg_ok g n -> m <= n -> seg_ok g m.
Proof. destruct g; cbn; [done|lia]. Qed.

Lemma seg_ok_skip g n m : seg_ok g n -> seg_ok (seg_skip g m) (n - m).
Proof. destruct g; cbn; [done|lia]. Qed.

Lemma seg_skip_skip g n m : seg_skip (seg_skip g n) m = seg_skip g (n + m).
Proof. destruct g; cbn; [done|]. f_equal. lia. Qed.

Lemma seg_skip_0 g : seg_skip g 0 = g.
Proof. destruct g; cbn; [done|]. by rewrite Z.sub_0_r. Qed.

Lemma uiomove_read {X} (s : X) ptr n u :
  uio_rwf u = UIO_READ -> seg_faults (uio_segflg u) n = false -> 0 < n <= uio_resid u -> n <= iov_len u -> uio_resid u < 2 ^ 32 ->
  uiomove ptr n u s = Done (ptr, mkuio UIO_READ (uio_offset u + n) (uio_resid u - n) (iov_len u - n)
                                   (uio_buf u ++ take (Z.to_nat n) ptr) (seg_skip (uio_segflg u) n)) s.
Proof.
  intros Er Eg Hn Hl Hr. unfold uiomove. rewrite Er. kunfold.
  destruct ((n <=? 0) || (uio_resid u <=? 0))%bool eqn:E1; [apply orb_true_iff in E1; lia|].
  rewrite Z.min_r by lia. destruct (n =? 0) eqn:E2; bool_to_prop; [lia|].
  rewrite Eg, wrapu_small, Z.sub_diag by lia. done.
Qed.

Lemma uiomove_write {X} (s : X) ptr n u :
  uio_rwf u = UIO_WRITE -> seg_faults (uio_segflg u) n = false -> 0 < n <= uio_resid u -> n <= iov_len u -> uio_resid u < 2 ^ 32 ->
  uiomove ptr n u s = Done (take (Z.to_nat n) (uio_buf u) ++ drop (Z.to_nat n) ptr,
                            mkuio UIO_WRITE (uio_offset u + n) (uio_resid u - n) (iov_len u - n)
                                  (drop (Z.to_nat n) (uio_buf u)) (seg_skip (uio_segflg u) n)) s.
Proof.
  intros Er Eg Hn Hl Hr. unfold uiomove. rewrite Er. kunfold.
  destruct ((n <=? 0) || (uio_resid u <=? 0))%bool eqn:E1; [apply orb_true_iff in E1; lia|].
  rewrite Z.min_r by lia. destruct (n =? 0) eqn:E2; bool_to_prop; [lia|].
  rewrite Eg, wrapu_small, Z.sub_diag by lia. done.
Qed.

(** A request for the single block [b]. *)
Definition block_req (rw : uio_rw) (b : Z) (u : uio) : Prop :=
  uio_rwf u = rw /\ uio_offset u = b * SFS_BLOCKSIZE /\ uio_resid u = SFS_BLOCKSIZE /\ SFS_BLOCKSIZE <= iov_len u /\
  seg_faults (uio_segflg u) SFS_BLOCKSIZE = false.

Lemma lhd_io_block rw b u s : block_req rw b u -> 0 <= b < d_blocks -> d_blocks <= 2 ^ 31 ->
  lhd_io u s = lhd_sectors 1 b u s.
Proof.
  intros (_ & Eo & Er & _) Hb Hd. unfold lhd_io. rewrite Eo, Er. unfold SFS_BLOCKSIZE in *.
  rewrite Z.mod_mul, Z.div_mul by lia. cbn [Z.eqb negb orb]. change (512 mod 512) with 0. change (512 / 512) with 1.
  cbn [Z.eqb negb orb]. rewrite (wrapu_small 32 b), wrapu_small by lia.
  destruct (d_blocks <? b + 1) eqn:E; bool_to_prop; [lia|]. done.
Qed.

Lemma lhd_io_read b u s : block_req UIO_READ b u -> 0 <= b < d_blocks -> d_blocks <= 2 ^ 31 ->
  length (dsk s b) = 512%nat ->
  lhd_io u s =
  if lh_result (ops s) =? 0
  then Done (0, mkuio UIO_READ (b * SFS_BLOCKSIZE + SFS_BLOCKSIZE) 0 (iov_len u - SFS_BLOCKSIZE)
                  (uio_buf u ++ dsk s b) (seg_skip (uio_segflg u) SFS_BLOCKSIZE)) (touch (dsk s b) s)
  else Done (lh_result (ops s), u) (touch (lh_buf s) s).
Proof.
  intros Hu Hb Hd Hlen. rewrite (lhd_io_block UIO_READ b) by done. destruct Hu as (Er & Eo & Es & Hl & Eg).
  cbn [lhd_sectors]. kunfold. rewrite Er. cbn -[SFS_BLOCKSIZE uiomove]. rewrite Er. cbn -[SFS_BLOCKSIZE uiomove].
  destruct (lh_result (ops s) =? 0) eqn:E; [|by destruct s].
  cbn -[SFS_BLOCKSIZE uiomove]. rewrite uiomove_read by (rewrite ?Es; unfold SFS_BLOCKSIZE in *; done || lia).
  cbn -[SFS_BLOCKSIZE]. rewrite take_ge by (rewrite Hlen; done).
  rewrite Eo, Es, Z.sub_diag. unfold touch, set_ops, set_buf. destruct s; done.
Qed.

Lemma lhd_io_write b u s : block_req UIO_WRITE b u -> 0 <= b < d_blocks -> d_blocks <= 2 ^ 31 ->
  length (lh_buf s) = 512%nat -> (512 <= length (uio_buf u))%nat ->
  let data := take 512 (uio_buf u) in
  lhd_io u s =
  Done (lh_result (ops s), mkuio UIO_WRITE (b * SFS_BLOCKSIZE + SFS_BLOCKSIZE) 0 (iov_len u - SFS_BLOCKSIZE)
                             (drop 512 (uio_buf u)) (seg_skip (uio_segflg u) SFS_BLOCKSIZE))
       (set_dsk (upd b (if lh_result (ops s) =? 0 then data else junk (S (ops s)))) (touch data s)).
Proof.
  intros Hu Hb Hd Hlen Hdat data. rewrite (lhd_io_block UIO_WRITE b) by done. destruct Hu as (Er & Eo & Es & Hl & Eg).
  cbn [lhd_sectors]. kunfold. rewrite Er. cbn -[SFS_BLOCKSIZE uiomove].
  rewrite uiomove_write by (rewrite ?Es; unfold SFS_BLOCKSIZE in *; done || lia).
  cbn -[SFS_BLOCKSIZE take drop]. rewrite (drop_ge (lh_buf s)), app_nil_r by (rewrite Hlen; done).
  rewrite Eo, Es, Z.sub_diag. change (Z.to_nat SFS_BLOCKSIZE) with 512%nat.
  destruct (lh_result (ops s) =? 0) eqn:E; cbn -[take drop]; [bool_to_prop; by rewrite E|done].
Qed.

(** The disk is large enough for the volume, blocks have 512 bytes. *)
Definition disk_ok (s : st) : Prop :=
  d_blocks <= 2 ^ 23 /\ length (lh_buf s) = 512%nat /\ forall b, length (dsk s b) = 512%nat.

(** Reading a block with errors. If the first operation that does not report
    [EIO] among eleven succeeds, [sfs_readblock] returns the contents of the block; if
    all eleven report [EIO], it returns [EIO]; in both cases no byte on the disk
    changes. *)
Theorem sfs_readblock_retries (s : st) (b : Z) (k : nat)
    (Hs : disk_ok s) (Hb : 0 <= b < d_blocks)
    (Herr : forall i, (i < k)%nat -> lh_result (ops s + i) = EIO) :
  (forall (Hk : (k <= 10)%nat) (Hok : lh_result (ops s + k) = 0),
     exists s', sfs_readblock b s = Done (dsk s b) s' /\ dsk s' = dsk s /\ sfs_freemap s' = sfs_freemap s) /\
  (forall (Hk : k = 11%nat),
     exists s', sfs_readblock b s = Fail EIO s' /\ dsk s' = dsk s /\ sfs_freemap s' = sfs_freemap s).
Proof.
  set (u := uio_kinit [] SFS_BLOCKSIZE (b * SFS_BLOCKSIZE) UIO_READ).
  assert (Hu : block_req UIO_READ b u) by (split_and!; done).
  assert (Hgen : forall left s k, disk_ok s -> (forall i, (i < k)%nat -> lh_result (ops s + i) = EIO) ->
    ((k <= left)%nat -> lh_result (ops s + k) = 0 -> exists s' u', sfs_retry left u s = Done (0, u') s' /\
        uio_buf u' = dsk s b /\ dsk s' = dsk s /\ sfs_freemap s' = sfs_freemap s) /\
    (k = S left -> exists s' u', sfs_retry left u s = Done (EIO, u') s' /\ dsk s' = dsk s /\ sfs_freemap s' = sfs_freemap s)).
  { clear s k Hs Herr. induction left as [|left IH]; intros s [|k] (Hd & Hlb & Hlen) Herr;
      cbn [sfs_retry]; kunfold; rewrite (lhd_io_read b u s Hu Hb) by (done || lia).
    - rewrite Nat.add_0_r. split; [|done]. intros _ ->. cbn. eauto 10.
    - pose proof (Herr 0%nat ltac:(lia)) as E. rewrite Nat.add_0_r in E. rewrite E. cbn.
      split; [lia|]. intros _. eauto 10.
    - rewrite Nat.add_0_r. split; [|done]. intros _ ->. cbn. eauto 10.
    - pose proof (Herr 0%nat ltac:(lia)) as E. rewrite Nat.add_0_r in E. rewrite E. cbn -[sfs_retry].
      assert (Hs' : disk_ok (touch (lh_buf s) s)) by done.
      assert (Hadd : forall i, (ops (touch (lh_buf s) s) + i = ops s + S i)%nat) by (intros; cbn; lia).
      destruct (IH (touch (lh_buf s) s) k Hs') as [IH1 IH2].
      { intros i Hi. rewrite Hadd. apply Herr. lia. }
      rewrite Hadd in IH1. split; [intros Hk Hz; apply IH1; [lia|done]|intros Hk; apply IH2; lia]. }
  destruct (Hgen 10%nat s k Hs Herr) as [H1 H2]. unfold sfs_readblock, sfs_rwblock. kunfold. fold u. split.
  - intros Hk Hok. destruct (H1 Hk Hok) as (s' & u' & -> & <- & ? & ?). cbn. eauto.
  - intros Hk. destruct (H2 Hk) as (s' & u' & -> & ? & ?). cbn. eauto.
Qed.

(** A failed write is reported as a success. The driver takes the data out of the
    transfer before it starts the operation; when the disk then reports [EIO], the
    retry finds a transfer of length 0, does nothing and succeeds: [sfs_writeblock]
    returns 0 and the block holds whatever the failed operation left there. *)
Theorem sfs_writeblock_lost (s : st) (b : Z) (data : list Z)
    (Hs : disk_ok s) (Hb : 0 <= b < d_blocks) (Hdata : length data = 512%nat)
    (Herr : lh_result (ops s) = EIO) :
  exists s', sfs_writeblock b data s = Done tt s' /\ dsk s' b = junk (S (ops s)).
Proof.
  destruct Hs as (Hd & Hlb & Hlen). unfold sfs_writeblock, sfs_rwblock. kunfold. cbn [sfs_retry]. kunfold.
  rewrite (lhd_io_write b) by (done || lia || (cbn; lia)). rewrite Herr. cbn [Z.eqb]. cbn -[sfs_retry upd take drop].
  unfold lhd_io at 1. kunfold. cbn -[lhd_sectors]. unfold SFS_BLOCKSIZE.
  replace (b * 512 + 512) with ((b + 1) * 512) by lia. rewrite Z.mod_mul, Z.div_mul by lia. cbn -[lhd_sectors].
  rewrite (wrapu_small 32 (b + 1)), Z.add_0_r, wrapu_small by lia.
  destruct (d_blocks <? b + 1) eqn:E; bool_to_prop; [lia|]. cbn. eexists. split; [done|].
  cbn. unfold upd. by rewrite Z.eqb_refl.
Qed.

(** *** On a disk that reports no error *)

Section Sound.
Context `{!Reliable D}.

Lemma rwblock_read b u s : block_req UIO_READ b u -> disk_ok s -> 0 <= b < d_blocks ->
  sfs_rwblock u s =
  Done (0, mkuio UIO_READ (b * SFS_BLOCKSIZE + SFS_BLOCKSIZE) 0 (iov_len u - SFS_BLOCKSIZE) (uio_buf u ++ dsk s b) (seg_skip (uio_segflg u) SFS_BLOCKSIZE))
       (touch (dsk s b) s).
Proof.
  intros Hu (Hd & _ & Hlen) Hb. unfold sfs_rwblock. cbn [sfs_retry]. kunfold.
  rewrite (lhd_io_read b) by (done || lia). rewrite reliable. done.
Qed.

Lemma rwblock_write b u s : block_req UIO_WRITE b u -> disk_ok s -> 0 <= b < d_blocks ->
  (512 <= length (uio_buf u))%nat ->
  sfs_rwblock u s =
  Done (0, mkuio UIO_WRITE (b * SFS_BLOCKSIZE + SFS_BLOCKSIZE) 0 (iov_len u - SFS_BLOCKSIZE) (drop 512 (uio_buf u)) (seg_skip (uio_segflg u) SFS_BLOCKSIZE))
       (set_dsk (upd b (take 512 (uio_buf u))) (touch (take 512 (uio_buf u)) s)).
Proof.
  intros Hu (Hd & Hl & Hlen) Hb Hdat. unfold sfs_rwblock. cbn [sfs_retry]. kunfold.
  rewrite (lhd_io_write b) by (done || lia). rewrite reliable. done.
Qed.

Lemma readblock_ok b s : disk_ok s -> 0 <= b < d_blocks ->
  sfs_readblock b s = Done (dsk s b) (touch (dsk s b) s).
Proof.
  intros Hs Hb. unfold sfs_readblock. kunfold. by rewrite (rwblock_read b) by done.
Qed.

Lemma writeblock_ok b data s : disk_ok s -> 0 <= b < d_blocks -> length data = 512%nat ->
  sfs_writeblock b data s = Done tt (set_dsk (upd b data) (touch data s)).
Proof.
  intros Hs Hb Hl. unfold sfs_writeblock. kunfold. rewrite (rwblock_write b) by (done || (cbn; lia)).
  cbn -[take upd]. by rewrite take_ge by lia.
Qed.

(** The volume: the free map covers it, the bits after its end are set, block 0 (the
    superblock) is in use. *)
Record vol_ok (s : st) : Prop := {
  vo_disk : disk_ok s;
  vo_map : wf (sfs_freemap s);
  vo_size : 0 < sb_nblocks s <= nbits (sfs_freemap s) /\ sb_nblocks s <= d_blocks;
  vo_tail : forall b, sb_nblocks s <= b < nbits (sfs_freemap s) -> bit (sfs_freemap s) b = true;
  vo_super : bit (sfs_freemap s) 0 = true
}.

(** What [sfs_balloc] promises to its callers: a block that was free, which is now in
    use and zero, and nothing else changes; or [ENOSPC] and no change when no block
    of the volume is free. *)
Lemma sfs_balloc_ok s : vol_ok s ->
  (exists b s', sfs_balloc s = Done b s' /\ 0 < b < sb_nblocks s /\ bit (sfs_freemap s) b = false /\
     vol_ok s' /\ dsk s' = upd b (replicate 512 0) (dsk s) /\
     (forall j, 0 <= j -> bit (sfs_freemap s') j = if decide (j = b) then true else bit (sfs_freemap s) j) /\
     sb_nblocks s' = sb_nblocks s /\ sv s' = sv s /\ ui s' = ui s) \/
  (exists s', sfs_balloc s = Fail ENOSPC s' /\ s' = s /\ forall b, 0 <= b < sb_nblocks s -> bit (sfs_freemap s) b = true).
Proof.
  intros [Hd Hw [Hs Hsd] Ht H0]. unfold sfs_balloc, on_freemap. kunfold.
  pose proof (bitmap_alloc_spec (sfs_freemap s) Hw) as Ha. destruct (bitmap_alloc (sfs_freemap s)) as [b m|e m|h]; [| |done].
  - left. destruct Ha as (Hb & Hf & _ & Hw' & En & Hbit).
    assert (Hbn : 0 < b < sb_nblocks s).
    { split.
      - destruct (decide (b = 0)) as [->|]; [congruence|lia].
      - destruct (decide (b < sb_nblocks s)) as [|]; [done|]. rewrite Ht in Hf by lia. done. }
    cbn. destruct (sb_nblocks s <=? b) eqn:E; bool_to_prop; [lia|]. unfold sfs_clearblock.
    rewrite writeblock_ok by (done || lia || apply length_replicate). cbn -[replicate].
    eexists b, _. split_and!; try done; try lia. split; cbn -[replicate]; try done; try (rewrite En; done).
    + destruct Hd as (Hd1 & Hd2 & Hd3). split_and!; [done|cbn -[replicate]; apply length_replicate|].
      intros x. cbn -[replicate]. unfold upd. destruct (x =? b); [apply length_replicate|apply Hd3].
    + rewrite En. intros x Hx. rewrite Hbit by lia. case_decide; [done|]. by apply Ht.
    + rewrite Hbit by lia. by case_decide.
  - right. destruct Ha as (-> & -> & Hall). eexists. split_and!; [done|by destruct s|].
    intros b Hb. apply Hall. lia.
Qed.

(** [sfs_bfree] of a block in use makes exactly that block free. *)
Lemma sfs_bfree_ok b s : vol_ok s -> 0 < b < sb_nblocks s -> bit (sfs_freemap s) b = true ->
  exists s', sfs_bfree b s = Done tt s' /\ vol_ok s' /\ dsk s' = dsk s /\
    (forall j, 0 <= j -> bit (sfs_freemap s') j = if decide (j = b) then false else bit (sfs_freemap s) j) /\
    sb_nblocks s' = sb_nblocks s /\ sv s' = sv s /\ ui s' = ui s.
Proof.
  intros [Hd Hw [Hs Hsd] Ht H0] Hb Hbit. unfold sfs_bfree, on_freemap. kunfold.
  destruct (bitmap_unmark_spec (sfs_freemap s) b Hw) as (m & -> & Hw' & En & Hm); [lia|done|].
  eexists. split; [done|]. split_and!; try done. split; cbn; try done.
  - by rewrite En.
  - rewrite En. intros x Hx. rewrite Hm by lia. case_decide; [lia|]. by apply Ht.
  - rewrite Hm by lia. case_decide; [lia|done].
Qed.

Lemma sfs_bused_ok b s : 0 <= b < sb_nblocks s -> sfs_bused b s = Done (bit (sfs_freemap s) b) s.
Proof.
  intros Hb. unfold sfs_bused. kunfold. destruct (sb_nblocks s <=? b) eqn:E; bool_to_prop; [lia|]. f_equal.
  destruct (bitmap_isset (sfs_freemap s) b =? 0) eqn:E0; bool_to_prop; cbn [negb].
  - destruct (bit (sfs_freemap s) b) eqn:Eb; [|done]. by apply isset_bit in Eb.
  - symmetry. by apply isset_bit.
Qed.

End Sound.

End Driver.

(** ** Concrete disks *)

(** The first three operations fail. *)
Definition flaky_geometry : Geometry := {| d_blocks := 64 |}.
Definition flaky : Disk := {| lh_result n := if (n <? 3)%nat then EIO else 0; junk n := replicate 512 7 |}.

Definition flaky_st : st :=
  mkst (fun b => replicate 512 b) (replicate 512 0) 0 (mkbitmap 64 (replicate 8 255)) false 64
       (mkvn 3 SFS_TYPE_FILE 0 1 (replicate 15 0) 0 false) (uio_kinit [] 0 0 UIO_READ).

Lemma flaky_ok : @disk_ok flaky_geometry flaky_st.
Proof. split_and!; [cbn; lia|reflexivity|]. intros b. apply length_replicate. Qed.

Lemma sfs_readblock_retries_witness :
  exists s', @sfs_readblock flaky_geometry flaky 5 flaky_st = Done (replicate 512 5) s' /\ dsk s' = dsk flaky_st.
Proof.
  assert (Herr : forall i, (i < 3)%nat -> @lh_result flaky (ops flaky_st + i) = EIO).
  { intros [|[|[|i]]] Hi; [reflexivity|reflexivity|reflexivity|lia]. }
  destruct (@sfs_readblock_retries flaky_geometry flaky flaky_st 5 3 flaky_ok ltac:(cbn; lia) Herr) as [H _].
  destruct (H ltac:(lia) eq_refl) as (s' & E & Hd & _). exists s'. exact (conj E Hd).
Defined.

Lemma sfs_writeblock_lost_witness :
  exists s', @sfs_writeblock flaky_geometry flaky 5 (replicate 512 1) flaky_st = Done tt s' /\ dsk s' 5 = replicate 512 7.
Proof.
  exact (@sfs_writeblock_lost flaky_geometry flaky flaky_st 5 (replicate 512 1) flaky_ok ltac:(cbn; lia)
           (length_replicate 512 1) eq_refl).
Defined.
