(* ===== verification/SfsFile.v ===== *)
(** * SFS: files as sequences of bytes

    The block map of a file (kern/fs/sfs/sfs_bmap.c) and the routines
    that move data between a file and a buffer (kern/fs/sfs/sfs_io.c). A file is
    specified by its bytes: [file_byte s pos] is byte [pos] of the file whose vnode
    is loaded, 0 in a hole. The theorems say that allocating blocks changes no byte,
    that reading returns the file's bytes, that writing changes exactly the bytes
    written, and that the blocks of other files are left alone. *)

From stdpp Require Import base numbers list.
From Stdlib Require Import ZArith Lia.
From S2P Require Import Prelude Bitmap SfsDisk.

Open Scope Z_scope.
Open Scope k_scope.

(** ** Arrays of 32-bit words in a block (the machine is big-endian) *)

Definition word_at (bs : list Z) (i : nat) : Z :=
  (bs !!! (4 * i)%nat) * 2 ^ 24 + (bs !!! (4 * i + 1)%nat) * 2 ^ 16 +
  (bs !!! (4 * i + 2)%nat) * 2 ^ 8 + bs !!! (4 * i + 3)%nat.

Definition words (bs : list Z) : list Z := word_at bs <$> seq 0 128.

Definition word_bytes (w : Z) : list Z := [w / 2 ^ 24; (w / 2 ^ 16) mod 256; (w / 2 ^ 8) mod 256; w mod 256].

Definition unwords (ws : list Z) : list Z := mjoin (word_bytes <$> ws).

(** ** The vnode's fields *)

Definition set_direct (i : Z) (b : Z) (v : vnode) : vnode :=
  mkvn (sv_ino v) (sfi_type v) (sfi_size v) (sfi_linkcount v) (<[Z.to_nat i := b]> (sfi_direct v)) (sfi_indirect v) true.
Definition set_indirect (b : Z) (v : vnode) : vnode :=
  mkvn (sv_ino v) (sfi_type v) (sfi_size v) (sfi_linkcount v) (sfi_direct v) b true.
Definition set_size (n : Z) (v : vnode) : vnode :=
  mkvn (sv_ino v) (sfi_type v) n (sfi_linkcount v) (sfi_direct v) (sfi_indirect v) true.

Section Files.
Context {G : Geometry} {D : Disk}.

(** The check on a block about to be returned: it must be marked in use. *)
Definition check_used (block : Z) : K st unit :=
  if block =? 0 then kret tt else
  used <- sfs_bused block ;;
  if used : bool then kret tt else khalt PanicCall.

(** kern/fs/sfs/sfs_bmap.c:48-198 (sfs_bmap). *)
Definition sfs_bmap (fileblock : Z) (doalloc : bool) : K st Z :=
  s <- kget ;;
  if fileblock <? SFS_NDIRECT then
    let block := sfi_direct (sv s) !!! Z.to_nat fileblock in
    block <- (if (block =? 0) && doalloc then
                block <- sfs_balloc ;;
                kmodify (set_sv (set_direct fileblock block)) ;;;
                kret block
              else kret block) ;;
    check_used block ;;;
    kret block
  else
    let fileblock := fileblock - SFS_NDIRECT in
    let idnum := fileblock / SFS_DBPERIDB in
    let idoff := fileblock mod SFS_DBPERIDB in
    if SFS_NINDIRECT <=? idnum then kfail EFBIG else
    let idblock := sfi_indirect (sv s) in
    if (idblock =? 0) && negb doalloc then kret 0 else
    r <- (if idblock =? 0 then
            idblock <- sfs_balloc ;;
            kmodify (set_sv (set_indirect idblock)) ;;;
            kret (idblock, replicate 128 0)
          else
            data <- sfs_readblock idblock ;;
            kret (idblock, words data)) ;;
    let '(idblock, idbuf) := r in
    let block := idbuf !!! Z.to_nat idoff in
    block <- (if (block =? 0) && doalloc then
                block <- sfs_balloc ;;
                sfs_writeblock idblock (unwords (<[Z.to_nat idoff := block]> idbuf)) ;;;
                kret block
              else kret block) ;;
    check_used block ;;;
    kret block.

(** ** Reading and writing *)

(** kern/fs/sfs/sfs_io.c:148-221 (sfs_partialio). *)
Definition sfs_partialio (skipstart len : Z) : K st unit :=
  s <- kget ;;
  let rw := uio_rwf (ui s) in
  let doalloc := bool_decide (rw = UIO_WRITE) in
  kassert (u32 (skipstart + len) <=? SFS_BLOCKSIZE) ;;;
  let fileblock := u32 (uio_offset (ui s) / SFS_BLOCKSIZE) in
  diskblock <- sfs_bmap fileblock doalloc ;;
  iobuf <- (if diskblock =? 0 then
              kassert (bool_decide (rw = UIO_READ)) ;;; kret (replicate 512 0)
            else sfs_readblock diskblock) ;;
  s <- kget ;;
  r <- uiomove (drop (Z.to_nat skipstart) iobuf) len (ui s) ;;
  let '(moved, u) := r in
  kmodify (set_ui u) ;;;
  match rw with
  | UIO_WRITE => sfs_writeblock diskblock (take (Z.to_nat skipstart) iobuf ++ moved)
  | UIO_READ => kret tt
  end.

(** kern/fs/sfs/sfs_io.c:226-286 (sfs_blockio). *)
Definition sfs_blockio : K st unit :=
  s <- kget ;;
  let doalloc := bool_decide (uio_rwf (ui s) = UIO_WRITE) in
  let fileblock := u32 (uio_offset (ui s) / SFS_BLOCKSIZE) in
  diskblock <- sfs_bmap fileblock doalloc ;;
  s <- kget ;;
  let u := ui s in
  if diskblock =? 0 then
    kassert (bool_decide (uio_rwf u = UIO_READ)) ;;;
    u' <- uiomovezeros 33 SFS_BLOCKSIZE u ;;
    kmodify (set_ui u')
  else
    let saveoff := uio_offset u in
    let diskoff := u32 (diskblock * SFS_BLOCKSIZE) in
    kassert (SFS_BLOCKSIZE <=? uio_resid u) ;;;
    let saveres := uio_resid u in
    r <- sfs_rwblock (mkuio (uio_rwf u) diskoff SFS_BLOCKSIZE (iov_len u) (uio_buf u) (uio_segflg u)) ;;
    let '(result, u') := r in
    kmodify (set_ui (mkuio (uio_rwf u') (uio_offset u' - diskoff + saveoff)
                           (u32 (uio_resid u' - SFS_BLOCKSIZE + saveres)) (iov_len u') (uio_buf u') (uio_segflg u'))) ;;;
    if negb (result =? 0) then kfail result else kret tt.

(** kern/fs/sfs/sfs_io.c:354-360 (sfs_io): the whole blocks. *)
Fixpoint sfs_blocks (n : nat) : K st unit :=
  match n with
  | O => kret tt
  | S n' => sfs_blockio ;;; sfs_blocks n'
  end.

(** kern/fs/sfs/sfs_io.c:322-372 (sfs_io): the transfer itself, up to the label
    [out]. *)
Definition sfs_io_body : K st unit :=
  s <- kget ;;
  let blkoff := uio_offset (ui s) mod SFS_BLOCKSIZE in
  (if negb (blkoff =? 0) then
     let len := SFS_BLOCKSIZE - blkoff in
     sfs_partialio blkoff (if uio_resid (ui s) <? len then uio_resid (ui s) else len)
   else kret tt) ;;;
  s <- kget ;;
  if uio_resid (ui s) =? 0 then kret tt else
  kassert (uio_offset (ui s) mod SFS_BLOCKSIZE =? 0) ;;;
  sfs_blocks (Z.to_nat (uio_resid (ui s) / SFS_BLOCKSIZE)) ;;;
  s <- kget ;;
  kassert (uio_resid (ui s) <? SFS_BLOCKSIZE) ;;;
  if 0 <? uio_resid (ui s) then sfs_partialio 0 (uio_resid (ui s)) else kret tt.

Definition set_resid (f : Z -> Z) (u : uio) : uio :=
  mkuio (uio_rwf u) (uio_offset u) (f (uio_resid u)) (iov_len u) (uio_buf u) (uio_segflg u).

(** kern/fs/sfs/sfs_io.c:315-319 (sfs_io): a read that would pass the end of the file
    is cut. *)
Definition sfs_io_cut (extraresid : Z) : K st unit :=
  s <- kget ;;
  if negb (extraresid =? 0) then
    kassert (extraresid <? uio_resid (ui s)) ;;;
    kmodify (set_ui (set_resid (fun x => x - extraresid) (ui s)))
  else kret tt.

(** kern/fs/sfs/sfs_io.c:374-389 (sfs_io): from the label [out] on; [r] is the result
    of the transfer. *)
Definition sfs_io_out (origresid extraresid : Z) (r : Z + unit) : K st unit :=
  s <- kget ;;
  (if negb (uio_resid (ui s) =? origresid) && bool_decide (uio_rwf (ui s) = UIO_WRITE) &&
      (sfi_size (sv s) <? uio_offset (ui s))
   then kmodify (set_sv (set_size (u32 (uio_offset (ui s)))))
   else kret tt) ;;;
  kmodify (fun s => set_ui (set_resid (fun x => u32 (x + extraresid)) (ui s)) s) ;;;
  match r with inl e => kfail e | inr _ => kret tt end.

(** kern/fs/sfs/sfs_io.c:291-389 (sfs_io). *)
Definition sfs_io : K st unit :=
  s <- kget ;;
  let u := ui s in
  let size := sfi_size (sv s) in
  let endpos := uio_offset u + uio_resid u in
  if bool_decide (uio_rwf u = UIO_READ) && (size <=? uio_offset u) then kret tt else
  let extraresid := if bool_decide (uio_rwf u = UIO_READ) && (size <? endpos) then u32 (endpos - size) else 0 in
  sfs_io_cut extraresid ;;;
  r <- attempt sfs_io_body ;;
  sfs_io_out (uio_resid u) extraresid r.

(** kern/fs/sfs/sfs_io.c:405-480 (sfs_metaio): reads or overwrites [len] bytes at
    [actualpos]; [data] are the bytes to write. *)
Definition sfs_metaio (actualpos : Z) (data : list Z) (len : Z) (rw : uio_rw) : K st (list Z) :=
  let vnblock := u32 (actualpos / SFS_BLOCKSIZE) in
  let blockoffset := actualpos mod SFS_BLOCKSIZE in
  diskblock <- sfs_bmap vnblock (bool_decide (rw = UIO_WRITE)) ;;
  if diskblock =? 0 then
    kassert (bool_decide (rw = UIO_READ)) ;;; kret (replicate (Z.to_nat len) 0)
  else
    buf <- sfs_readblock diskblock ;;
    match rw with
    | UIO_READ => kret (take (Z.to_nat len) (drop (Z.to_nat blockoffset) buf))
    | UIO_WRITE =>
        sfs_writeblock diskblock
          (take (Z.to_nat blockoffset) buf ++ data ++ drop (Z.to_nat (blockoffset + len)) buf) ;;;
        s <- kget ;;
        (if sfi_size (sv s) <? actualpos + len
         then kmodify (set_sv (set_size (u32 (actualpos + len)))) else kret tt) ;;;
        kret data
    end.

(** ** Words *)

Lemma word_bytes_length w : length (word_bytes w) = 4%nat.
Proof. done. Qed.

Lemma unwords_length ws : length (unwords ws) = (4 * length ws)%nat.
Proof.
  induction ws as [|w ws IH]; [done|]. change (unwords (w :: ws)) with (word_bytes w ++ unwords ws).
  rewrite length_app, IH. cbn. lia.
Qed.

Lemma unwords_lookup ws i k w : ws !! i = Some w -> (k < 4)%nat ->
  unwords ws !!! (4 * i + k)%nat = word_bytes w !!! k.
Proof.
  intros Hw Hk. rewrite !list_lookup_total_alt. f_equal. revert i Hw. induction ws as [|x ws IH]; intros [|i] Hw; try done.
  - injection Hw as ->. change (unwords (w :: ws)) with (word_bytes w ++ unwords ws).
    by rewrite lookup_app_l by (rewrite word_bytes_length; lia).
  - change (unwords (x :: ws)) with (word_bytes x ++ unwords ws).
    rewrite lookup_app_r by (rewrite word_bytes_length; lia). rewrite word_bytes_length, <- (IH i) by done.
    f_equal. lia.
Qed.

Lemma word_bytes_value w : 0 <= w < 2 ^ 32 ->
  w / 2 ^ 24 * 2 ^ 24 + (w / 2 ^ 16) mod 256 * 2 ^ 16 + (w / 2 ^ 8) mod 256 * 2 ^ 8 + w mod 256 = w.
Proof. intros. Z.div_mod_to_equations. lia. Qed.

Lemma word_at_unwords ws i w : ws !! i = Some w -> 0 <= w < 2 ^ 32 -> word_at (unwords ws) i = w.
Proof.
  intros E Hw. unfold word_at. rewrite <- (Nat.add_0_r (4 * i)) at 1. rewrite !(unwords_lookup ws i _ w E) by lia.
  exact (word_bytes_value w Hw).
Qed.

Lemma words_unwords_lookup ws i w : ws !! i = Some w -> (i < 128)%nat -> 0 <= w < 2 ^ 32 -> words (unwords ws) !! i = Some w.
Proof.
  intros Hi Hlt Hw. unfold words. rewrite list_lookup_fmap, lookup_seq_lt by done. cbn [fmap option_fmap option_map Nat.add].
  f_equal. by apply word_at_unwords.
Qed.

Lemma words_unwords ws : length ws = 128%nat -> Forall (fun w => 0 <= w < 2 ^ 32) ws -> words (unwords ws) = ws.
Proof.
  intros Hl Hf. apply list_eq. intros i. destruct (ws !! i) as [w|] eqn:E.
  - pose proof (lookup_lt_Some _ _ _ E). apply words_unwords_lookup; [done|lia|by eapply (Forall_lookup_1 _ _ i w Hf)].
  - apply lookup_ge_None in E. apply lookup_ge_None. unfold words. rewrite length_fmap, length_seq. lia.
Qed.

Lemma block_words_length bs : length (words bs) = 128%nat.
Proof. unfold words. by rewrite length_fmap, length_seq. Qed.

Lemma words_zeros : words (replicate 512 0) = replicate 128 0.
Proof. reflexivity. Qed.

(** ** The block pointers of a file

    [ptrs s] lists the fifteen direct pointers, the pointer to the indirect block and
    the 128 pointers in it; an absent indirect block counts as one full of zeros. *)

Definition ptrs (s : st) : list Z :=
  sfi_direct (sv s) ++ [sfi_indirect (sv s)] ++
  (if sfi_indirect (sv s) =? 0 then replicate 128 0 else words (dsk s (sfi_indirect (sv s)))).

(** Where the pointer to block [fb] of the file is. *)
Definition slot (fb : Z) : nat := Z.to_nat (if fb <? 15 then fb else fb + 1).

Definition blockof (s : st) (fb : Z) : Z := ptrs s !!! slot fb.

Definition MAXBLOCKS : Z := 143.

(** Byte [pos] of the file. *)
Definition file_byte (s : st) (pos : Z) : Z :=
  let b := blockof s (pos / SFS_BLOCKSIZE) in
  if b =? 0 then 0 else dsk s b !!! Z.to_nat (pos mod SFS_BLOCKSIZE).

(** Pointers are 0 or blocks of the volume that are in use, and no block is used
    twice. *)
Record file_ok (s : st) : Prop := {
  fo_vol : vol_ok s;
  fo_len : length (sfi_direct (sv s)) = 15%nat;
  fo_ptr : forall i p, ptrs s !! i = Some p -> p = 0 \/ (0 < p < sb_nblocks s /\ bit (sfs_freemap s) p = true);
  fo_inj : forall i j p, ptrs s !! i = Some p -> ptrs s !! j = Some p -> p <> 0 -> i = j
}.

(** [grows s s']: the same file, possibly with more blocks, which were free and are
    now zero; blocks in use elsewhere and all other blocks of the file are
    untouched. *)
Record grows (s s' : st) : Prop := {
  gr_ok : file_ok s';
  gr_old : forall i p, ptrs s !! i = Some p -> p <> 0 -> ptrs s' !! i = Some p;
  gr_new : forall i p, ptrs s !! i = Some 0 -> ptrs s' !! i = Some p -> p <> 0 ->
             bit (sfs_freemap s) p = false /\ (i <> 15%nat -> dsk s' p = replicate 512 0);
  gr_used : forall b, 0 <= b -> bit (sfs_freemap s) b = true -> bit (sfs_freemap s') b = true;
  gr_frame : forall b, 0 <= b -> bit (sfs_freemap s) b = true -> (b <> 0 -> b <> sfi_indirect (sv s)) -> dsk s' b = dsk s b;
  gr_meta : sb_nblocks s' = sb_nblocks s /\ ui s' = ui s /\ sfi_size (sv s') = sfi_size (sv s) /\
            sv_ino (sv s') = sv_ino (sv s) /\ sfi_type (sv s') = sfi_type (sv s) /\
            sfi_linkcount (sv s') = sfi_linkcount (sv s);
  gr_dirty : sv_dirty (sv s') = true \/ sv s' = sv s
}.

Lemma ptrs_length s : length (sfi_direct (sv s)) = 15%nat -> length (ptrs s) = 144%nat.
Proof.
  intros Hl. unfold ptrs. rewrite !length_app, Hl. cbn [length].
  destruct (sfi_indirect (sv s) =? 0); [rewrite length_replicate|rewrite block_words_length]; done.
Qed.

Lemma ptrs_indirect s : length (sfi_direct (sv s)) = 15%nat -> ptrs s !! 15%nat = Some (sfi_indirect (sv s)).
Proof. intros Hl. unfold ptrs. rewrite lookup_app_r by lia. by rewrite Hl. Qed.

Lemma ptrs_direct s i : length (sfi_direct (sv s)) = 15%nat -> (i < 15)%nat -> ptrs s !! i = sfi_direct (sv s) !! i.
Proof. intros Hl Hi. unfold ptrs. by rewrite lookup_app_l by lia. Qed.

(** A block that is free is no pointer of the file. *)
Lemma ptr_used s i p : file_ok s -> ptrs s !! i = Some p -> p <> 0 -> 0 < p < sb_nblocks s /\ bit (sfs_freemap s) p = true.
Proof. intros Hok Hp Hne. by destruct (fo_ptr s Hok i p Hp). Qed.

Lemma grows_refl s : file_ok s -> grows s s.
Proof. intros Hok. split; try done; [intros i p H1 H2; congruence|by right]. Qed.

(** A vnode that is still clean has not changed. *)
Lemma dirty_trans (v1 v2 v3 : vnode) :
  sv_dirty v2 = true \/ v2 = v1 -> sv_dirty v3 = true \/ v3 = v2 -> sv_dirty v3 = true \/ v3 = v1.
Proof. intros [H| ->] [|E]; auto. left. congruence. Qed.

Lemma grows_trans s1 s2 s3 : grows s1 s2 -> grows s2 s3 -> file_ok s1 -> grows s1 s3.
Proof.
  intros [Ok2 Old12 New12 Us12 Fr12 Me12 Di12] [Ok3 Old23 New23 Us23 Fr23 Me23 Di23] Ok1.
  pose proof (ptrs_indirect s1 (fo_len _ Ok1)) as I1. pose proof (ptrs_indirect s2 (fo_len _ Ok2)) as I2.
  split; [done|eauto| |eauto| |destruct Me12 as (?&?&?&?&?&?), Me23 as (?&?&?&?&?&?); split_and!; congruence|by eapply dirty_trans].
  - intros i p H1 H3 Hp.
    assert (Hi : (i < 144)%nat) by (apply lookup_lt_Some in H1; rewrite ptrs_length in H1; [done|apply fo_len, Ok1]).
    destruct (ptrs s2 !! i) as [q|] eqn:H2;
      [|apply lookup_ge_None in H2; rewrite ptrs_length in H2; [lia|apply fo_len, Ok2]].
    destruct (decide (q = 0)) as [->|Hq].
    + destruct (New23 i p H2 H3 Hp) as [Hf Hz]. split; [|done].
      destruct (bit (sfs_freemap s1) p) eqn:E; [|done].
      destruct (ptr_used s3 i p Ok3 H3 Hp) as [? _]. rewrite (Us12 p) in Hf by (done || lia). done.
    + assert (q = p) as -> by (rewrite (Old23 i q H2 Hq) in H3; congruence).
      destruct (New12 i p H1 H2 Hp) as [Hf Hz]. split; [done|]. intros Hi15.
      destruct (ptr_used s2 i p Ok2 H2 Hp) as [? ?]. rewrite (Fr23 p) by (done || lia || (intros _ ->; apply Hi15; eapply (fo_inj s2); eauto)).
      auto.
  - intros b Hb Hu Hne. rewrite (Fr23 b); [by apply Fr12|done|by apply Us12|].
    intros Hb0 Eb. destruct (decide (sfi_indirect (sv s1) = 0)) as [E0|E0].
    + rewrite E0 in I1. destruct (New12 _ _ I1 I2); congruence.
    + rewrite (Old12 _ _ I1 E0) in I2. apply (Hne Hb0). congruence.
Qed.

(** Growing changes no byte of the file. *)
Lemma slot_ne fb : slot fb <> 15%nat.
Proof. unfold slot. destruct (fb <? 15) eqn:E; bool_to_prop; lia. Qed.

Lemma slot_lt fb : 0 <= fb < MAXBLOCKS -> (slot fb < 144)%nat.
Proof. unfold slot, MAXBLOCKS. destruct (fb <? 15) eqn:E; bool_to_prop; lia. Qed.

Lemma blockof_lookup s fb : file_ok s -> 0 <= fb < MAXBLOCKS -> ptrs s !! slot fb = Some (blockof s fb).
Proof.
  intros Hok Hfb. unfold blockof. apply list_lookup_lookup_total_lt.
  rewrite ptrs_length by apply Hok. by apply slot_lt.
Qed.

Lemma grows_byte s s' pos : file_ok s -> grows s s' -> 0 <= pos < MAXBLOCKS * SFS_BLOCKSIZE ->
  file_byte s' pos = file_byte s pos.
Proof.
  intros Hok Hg Hpos. unfold file_byte. set (fb := pos / SFS_BLOCKSIZE).
  assert (Hfb : 0 <= fb < MAXBLOCKS) by (unfold fb, SFS_BLOCKSIZE, MAXBLOCKS in *; Z.div_mod_to_equations; lia).
  pose proof (blockof_lookup s fb Hok Hfb) as L. pose proof (blockof_lookup s' fb (gr_ok _ _ Hg) Hfb) as L'.
  destruct (decide (blockof s fb = 0)) as [E|E].
  - rewrite E in *. cbn [Z.eqb]. destruct (blockof s' fb =? 0) eqn:E'; [done|]. bool_to_prop.
    destruct (gr_new _ _ Hg _ _ L L' E') as [_ Hz]. rewrite Hz by apply slot_ne.
    rewrite lookup_total_replicate_2; [done|]. pose proof (Z.mod_pos_bound pos SFS_BLOCKSIZE ltac:(done)).
    unfold SFS_BLOCKSIZE in *. lia.
  - rewrite (gr_old _ _ Hg _ _ L E) in L'. injection L' as <-.
    destruct (blockof s fb =? 0) eqn:E'; [done|].
    destruct (ptr_used s _ _ Hok L E) as [? ?]. rewrite (gr_frame _ _ Hg); [done|lia|done|].
    intros _ F. apply (slot_ne fb). rewrite F in L, E. eapply (fo_inj s Hok); [exact L| |exact E].
    apply ptrs_indirect, Hok.
Qed.

(** ** Allocation *)

Section Sound.
Context `{!Reliable D}.

(** What [sfs_balloc] leaves: a fresh zeroed block that no pointer names yet. *)
Record fresh (s s1 : st) (b : Z) : Prop := {
  fr_free : bit (sfs_freemap s) b = false;
  fr_used : bit (sfs_freemap s1) b = true;
  fr_range : 0 < b < sb_nblocks s;
  fr_zero : dsk s1 b = replicate 512 0;
  fr_grows : grows s s1;
  fr_sv : sv s1 = sv s;
  fr_ptrs : ptrs s1 = ptrs s
}.

Lemma balloc_fresh s : file_ok s ->
  (exists b s1, sfs_balloc s = Done b s1 /\ fresh s s1 b) \/ sfs_balloc s = Fail ENOSPC s.
Proof.
  intros Hok. destruct (sfs_balloc_ok s (fo_vol s Hok))
    as [(b & s1 & -> & Hb & Hf & Hv & Hd & Hbit & En & Es & Eu)|(s1 & -> & -> & _)]; [left|by right].
  exists b, s1. split; [done|].
  assert (Hz : dsk s1 b = replicate 512 0) by (rewrite Hd; unfold upd; by rewrite Z.eqb_refl).
  assert (Hother : forall x, x <> b -> dsk s1 x = dsk s x).
  { intros x Hx. rewrite Hd. unfold upd. by destruct (Z.eqb_spec x b). }
  assert (Hind : sfi_indirect (sv s) <> b).
  { intros E. destruct (ptr_used s 15 _ Hok (ptrs_indirect s (fo_len s Hok))); [lia|congruence]. }
  assert (Ep : ptrs s1 = ptrs s) by (unfold ptrs; rewrite Es; by rewrite Hother).
  assert (Hu : forall x, 0 <= x -> bit (sfs_freemap s) x = true -> bit (sfs_freemap s1) x = true).
  { intros x Hx Hxu. rewrite Hbit by done. by case_decide. }
  split; try done; [rewrite Hbit by lia; by rewrite decide_True|].
  split; try done.
  - split; [done|rewrite Es; apply Hok| |rewrite Ep; apply Hok].
    rewrite Ep, En. intros i p Hp. destruct (fo_ptr s Hok i p Hp) as [?|[? ?]]; [by left|right; split; [done|apply Hu; [lia|done]]].
  - by rewrite Ep.
  - rewrite Ep. intros i p H1 H2. congruence.
  - intros x Hx Hxu _. apply Hother. congruence.
  - by rewrite Es.
  - by right.
Qed.

(** The fresh block becomes pointer [i]. *)
Lemma put_grows s s1 s2 i b :
  file_ok s -> fresh s s1 b -> ptrs s !! i = Some 0 ->
  vol_ok s2 -> length (sfi_direct (sv s2)) = 15%nat -> sfs_freemap s2 = sfs_freemap s1 ->
  ptrs s2 = <[i := b]> (ptrs s) -> (forall x, (x <> 0 -> x <> sfi_indirect (sv s)) -> dsk s2 x = dsk s1 x) ->
  (sb_nblocks s2 = sb_nblocks s1 /\ ui s2 = ui s1 /\ sfi_size (sv s2) = sfi_size (sv s1) /\
   sv_ino (sv s2) = sv_ino (sv s1) /\ sfi_type (sv s2) = sfi_type (sv s1) /\
   sfi_linkcount (sv s2) = sfi_linkcount (sv s1)) ->
  (sv_dirty (sv s2) = true \/ sv s2 = sv s1) ->
  grows s s2.
Proof.
  intros Hok Hf Hi Hv Hl Em Ep Hd Hmeta Hdir. pose proof (fr_grows _ _ _ Hf) as Hg.
  pose proof (fr_range _ _ _ Hf) as Hb.
  assert (Hnot : forall j, ptrs s !! j <> Some b).
  { intros j Hj. destruct (ptr_used s j b Hok Hj) as [_ ?]; [lia|]. by rewrite (fr_free _ _ _ Hf) in *. }
  assert (Hil : (i < length (ptrs s))%nat) by (by eapply lookup_lt_Some).
  assert (Hlook : forall j p, ptrs s2 !! j = Some p -> (j = i /\ p = b) \/ (j <> i /\ ptrs s !! j = Some p)).
  { intros j p Hj. rewrite Ep in Hj. apply list_lookup_insert_Some in Hj. naive_solver. }
  destruct (gr_meta _ _ Hg) as (En & Eu & Esz & Eino & Ety & Elk).
  destruct Hmeta as (En' & Eu' & Esz' & Eino' & Ety' & Elk').
  assert (Hbi : b <> sfi_indirect (sv s)).
  { intros E. apply (Hnot 15%nat). rewrite E. apply ptrs_indirect, Hok. }
  split.
  - split; [done|done| |].
    + intros j p Hj. rewrite Em, En', En. destruct (Hlook j p Hj) as [[-> ->]|[_ Hj']].
      * right. split; [lia|]. apply Hf.
      * destruct (fo_ptr s Hok j p Hj') as [?|[? ?]]; [by left|right; split; [done|]].
        apply (gr_used _ _ Hg); [lia|done].
    + intros j k p Hj Hk Hp.
      destruct (Hlook j p Hj) as [[Ej Epj]|[_ Hj']]; destruct (Hlook k p Hk) as [[Ek Epk]|[_ Hk']]; [congruence| | |].
      * rewrite Epj in Hk'. by apply Hnot in Hk'.
      * rewrite Epk in Hj'. by apply Hnot in Hj'.
      * by eapply (fo_inj s Hok).
  - intros j p Hj Hp. rewrite Ep. rewrite list_lookup_insert_ne; [done|]. congruence.
  - intros j p Hj0 Hj Hp. destruct (Hlook j p Hj) as [[-> ->]|[_ Hj']]; [|congruence].
    split; [apply Hf|]. intros _. rewrite Hd by done. apply Hf.
  - intros x Hx Hu. rewrite Em. by apply (gr_used _ _ Hg).
  - intros x Hx Hu Hne. rewrite Hd by done. by apply (gr_frame _ _ Hg).
  - split_and!; congruence.
  - by rewrite <- (fr_sv _ _ _ Hf).
Qed.

Lemma vol_ok_sv s f : vol_ok s -> vol_ok (set_sv f s).
Proof. by intros []. Qed.

Lemma put_direct s s1 b fb : file_ok s -> fresh s s1 b -> 0 <= fb < 15 -> blockof s fb = 0 ->
  let s2 := set_sv (set_direct fb b) s1 in grows s s2 /\ blockof s2 fb = b.
Proof.
  intros Hok Hf Hfb H0 s2.
  pose proof (blockof_lookup s fb Hok ltac:(unfold MAXBLOCKS; lia)) as L. rewrite H0 in L.
  assert (Hsl : slot fb = Z.to_nat fb) by (unfold slot; destruct (fb <? 15) eqn:E; bool_to_prop; [done|lia]).
  assert (Hlen : length (sfi_direct (sv s)) = 15%nat) by apply Hok.
  assert (Ep : ptrs s2 = <[slot fb := b]> (ptrs s)).
  { rewrite <- (fr_ptrs _ _ _ Hf). unfold s2, ptrs.
    cbn [sv dsk set_sv set_direct sfi_direct sfi_indirect]. rewrite (fr_sv _ _ _ Hf), Hsl.
    by rewrite insert_app_l by lia. }
  split.
  - apply (put_grows s s1 s2 (slot fb) b); try done; try (by left); try (by right).
    + apply vol_ok_sv. apply (gr_ok _ _ (fr_grows _ _ _ Hf)).
    + unfold s2. cbn. by rewrite length_insert, (fr_sv _ _ _ Hf).
  - unfold blockof. rewrite Ep, list_lookup_total_insert_eq; [done|]. by eapply lookup_lt_Some.
Qed.

Lemma put_indirect s s1 b : file_ok s -> fresh s s1 b -> sfi_indirect (sv s) = 0 ->
  grows s (set_sv (set_indirect b) s1).
Proof.
  intros Hok Hf H0. pose proof (ptrs_indirect s (fo_len s Hok)) as L. rewrite H0 in L.
  assert (Hlen : length (sfi_direct (sv s)) = 15%nat) by apply Hok. pose proof (fr_range _ _ _ Hf) as Hb.
  apply (put_grows s s1 _ 15 b); try done; try (by left).
  - apply vol_ok_sv. apply (gr_ok _ _ (fr_grows _ _ _ Hf)).
  - cbn. by rewrite (fr_sv _ _ _ Hf).
  - unfold ptrs. cbn [sv dsk set_sv set_indirect sfi_direct sfi_indirect]. rewrite (fr_sv _ _ _ Hf), (fr_zero _ _ _ Hf), words_zeros, H0. cbn [Z.eqb].
    destruct (b =? 0) eqn:E; bool_to_prop; [lia|]. rewrite insert_app_r_alt by lia. by rewrite Hlen.
Qed.

(** A pointer of the indirect block is written. *)
Lemma put_entry s s1 b fb : file_ok s -> fresh s s1 b -> 15 <= fb < MAXBLOCKS -> blockof s fb = 0 ->
  sfi_indirect (sv s) <> 0 ->
  let id := sfi_indirect (sv s) in
  let data := unwords (<[Z.to_nat (fb - 15) := b]> (words (dsk s id))) in
  let s2 := set_dsk (upd id data) (touch data s1) in
  length data = 512%nat /\ grows s s2 /\ blockof s2 fb = b.
Proof.
  intros Hok Hf Hfb H0 Hid id data s2. pose proof (blockof_lookup s fb Hok ltac:(lia)) as L. rewrite H0 in L.
  assert (Hlen : length (sfi_direct (sv s)) = 15%nat) by apply Hok.
  pose proof (fr_range _ _ _ Hf) as Hb. pose proof (fr_sv _ _ _ Hf) as Esv.
  destruct (fo_vol _ (gr_ok _ _ (fr_grows _ _ _ Hf))) as [(Hd1 & Hd2 & Hd3) Hm Hs Ht H00].
  assert (Hdl : length data = 512%nat) by (unfold data; by rewrite unwords_length, length_insert, block_words_length).
  assert (Hsl : slot fb = (16 + Z.to_nat (fb - 15))%nat) by (unfold slot; destruct (fb <? 15) eqn:E; bool_to_prop; lia).
  assert (Hws : Forall (fun w => 0 <= w < 2 ^ 32) (<[Z.to_nat (fb - 15) := b]> (words (dsk s id)))).
  { destruct (vo_size _ (fo_vol s Hok)) as [? ?]. destruct (vo_disk _ (fo_vol s Hok)) as (? & _).
    apply Forall_insert; [|lia]. apply Forall_lookup. intros j w Hw.
    assert (Hp : ptrs s !! (16 + j)%nat = Some w).
    { unfold ptrs. fold id. destruct (id =? 0) eqn:E; bool_to_prop; [done|].
      rewrite lookup_app_r, Hlen by lia. rewrite lookup_app_r by (cbn; lia). cbn [length].
      by replace (16 + j - 15 - 1)%nat with j by lia. }
    destruct (fo_ptr s Hok _ _ Hp) as [->|[? _]]; lia. }
  assert (Ep : ptrs s2 = <[slot fb := b]> (ptrs s)).
  { unfold s2, ptrs. cbn [sv dsk set_dsk touch set_ops set_buf]. rewrite Esv. fold id.
    destruct (id =? 0) eqn:E; bool_to_prop; [done|]. unfold upd at 1. rewrite Z.eqb_refl.
    unfold data. rewrite words_unwords by (done || by rewrite length_insert, block_words_length).
    rewrite insert_app_r_alt by lia. rewrite Hlen, insert_app_r_alt by (cbn; lia). cbn [length].
    by replace (slot fb - 15 - 1)%nat with (Z.to_nat (fb - 15)) by lia. }
  split; [done|]. split.
  - apply (put_grows s s1 s2 (slot fb) b); try done; try (by left); try (by right).
    + split; try done. split_and!; try done. intros x. cbn. unfold upd. destruct (x =? id); [done|apply Hd3].
    + cbn. by rewrite Esv.
    + intros x Hx. cbn. unfold upd. destruct (Z.eqb_spec x id); [subst x; by destruct (Hx Hid)|done].
  - unfold blockof. rewrite Ep, list_lookup_total_insert_eq; [done|]. by eapply lookup_lt_Some.
Qed.

Lemma check_used_ok s fb : file_ok s -> 0 <= fb < MAXBLOCKS -> check_used (blockof s fb) s = Done tt s.
Proof.
  intros Hok Hfb. unfold check_used. destruct (blockof s fb =? 0) eqn:E; [done|]. bool_to_prop.
  destruct (ptr_used s _ _ Hok (blockof_lookup s fb Hok Hfb) E) as [? Hu]. kunfold.
  rewrite sfs_bused_ok by lia. by rewrite Hu.
Qed.

(** States that differ only in the driver's buffer and operation count. *)
Definition quiet (s s' : st) : Prop :=
  dsk s' = dsk s /\ sfs_freemap s' = sfs_freemap s /\ sb_nblocks s' = sb_nblocks s /\ sv s' = sv s /\ ui s' = ui s.

Lemma quiet_grows s s' : file_ok s -> disk_ok s' -> quiet s s' -> grows s s' /\ ptrs s' = ptrs s.
Proof.
  intros Hok Hd' (Hd & Hm & Hn & Hs & Hu).
  assert (Ep : ptrs s' = ptrs s) by (unfold ptrs; by rewrite Hd, Hs).
  split; [|done]. destruct Hok as [[Hdk Hw Hsz Ht H0] Hl Hp Hi].
  split; rewrite ?Ep, ?Hd, ?Hm, ?Hs; try done; [|intros i p; congruence|by right].
  split; rewrite ?Ep, ?Hm, ?Hs, ?Hn; try done. split; rewrite ?Hm, ?Hn; done.
Qed.

Lemma touch_quiet b s : quiet s (touch b s).
Proof. done. Qed.

Lemma touch_disk_ok b s : disk_ok s -> length b = 512%nat -> disk_ok (touch b s).
Proof. by intros (? & ? & ?). Qed.

(** ** The block map *)

Definition bmap_result (s : st) (fb : Z) (doalloc : bool) (r : outcome st Z) : Prop :=
  match r with
  | Done b s' => grows s s' /\ b = blockof s' fb /\ (doalloc = true -> b <> 0) /\ (doalloc = false -> quiet s s')
  | Fail e s' => e = ENOSPC /\ doalloc = true /\ blockof s fb = 0 /\ grows s s'
  | Halt _ => False
  end.

Lemma bmap_direct s fb da : file_ok s -> 0 <= fb < 15 -> bmap_result s fb da (sfs_bmap fb da s).
Proof.
  intros Hok Hfb. unfold sfs_bmap. kunfold. change SFS_NDIRECT with 15.
  destruct (fb <? 15) eqn:E; bool_to_prop; [|lia]. clear E.
  assert (Eb : sfi_direct (sv s) !!! Z.to_nat fb = blockof s fb).
  { unfold blockof, slot. destruct (fb <? 15) eqn:E; bool_to_prop; [|lia]. unfold ptrs.
    rewrite lookup_total_app_l; [done|]. rewrite (fo_len s Hok). lia. }
  rewrite Eb. destruct ((blockof s fb =? 0) && da)%bool eqn:Ea.
  - apply andb_prop in Ea as [E0 ->]. bool_to_prop.
    destruct (balloc_fresh s Hok) as [(b & s1 & -> & Hf)| ->]; [|split_and!; [done|done|done|by apply grows_refl]].
    destruct (put_direct s s1 b fb Hok Hf Hfb E0) as [Hg Hbo].
    rewrite <- Hbo at 1. rewrite check_used_ok by (apply Hg || unfold MAXBLOCKS; lia).
    split_and!; [done|done| |done]. pose proof (fr_range _ _ _ Hf). lia.
  - rewrite check_used_ok by (done || unfold MAXBLOCKS; lia).
    split_and!; [by apply grows_refl|done| |done]. intros ->. destruct (blockof s fb =? 0) eqn:E0; [done|]. by bool_to_prop.
Qed.

(** The second half of the indirect case: [idblock] is loaded and holds [words]. *)
Lemma bmap_entry s s0 fb da :
  file_ok s -> grows s s0 -> 15 <= fb < MAXBLOCKS -> sfi_indirect (sv s0) <> 0 ->
  blockof s0 fb = 0 \/ blockof s0 fb = blockof s fb -> (da = false -> quiet s s0) -> 
  let id := sfi_indirect (sv s0) in
  let idbuf := words (dsk s0 id) in
  let block := idbuf !!! Z.to_nat ((fb - 15) mod SFS_DBPERIDB) in
  bmap_result s fb da
    ((block <- (if (block =? 0) && da then
                  block <- sfs_balloc ;;
                  sfs_writeblock id (unwords (<[Z.to_nat ((fb - 15) mod SFS_DBPERIDB) := block]> idbuf)) ;;;
                  kret block
                else kret block) ;;
      check_used block ;;; kret block) s0).
Proof.
  intros Hok Hg Hfb Hid Hsame Hq id idbuf block. pose proof (gr_ok _ _ Hg) as Hok0. unfold MAXBLOCKS, SFS_DBPERIDB in *.
  assert (Hmod : (fb - 15) mod 128 = fb - 15) by (apply Z.mod_small; lia).
  assert (Eb : block = blockof s0 fb).
  { unfold block, idbuf, blockof, slot, ptrs. fold id. rewrite Hmod.
    destruct (fb <? 15) eqn:E; bool_to_prop; [lia|]. destruct (id =? 0) eqn:E1; bool_to_prop; [done|].
    rewrite lookup_total_app_r, (fo_len s0 Hok0), lookup_total_app_r by (rewrite ?(fo_len s0 Hok0); cbn; lia).
    cbn [length]. f_equal. lia. }
  rewrite Hmod, Eb. kunfold. destruct ((blockof s0 fb =? 0) && da)%bool eqn:Ea.
  - apply andb_prop in Ea as [E0 ->]. bool_to_prop.
    destruct (balloc_fresh s0 Hok0) as [(b & s1 & -> & Hf)| ->].
    + destruct (put_entry s0 s1 b fb Hok0 Hf Hfb E0 Hid) as (Hl & Hg2 & Hbo). fold id idbuf in Hl, Hg2, Hbo.
      destruct (fo_vol _ (gr_ok _ _ (fr_grows _ _ _ Hf))) as [Hdk _ [_ Hsz] _ _].
      destruct (ptr_used s0 15 id Hok0 (ptrs_indirect s0 (fo_len s0 Hok0)) Hid) as [Hidr _].
      destruct (gr_meta _ _ (fr_grows _ _ _ Hf)) as (En & _).
      rewrite writeblock_ok by (done || lia).
      rewrite <- Hbo at 1. rewrite check_used_ok by (apply Hg2 || unfold MAXBLOCKS; lia).
      split_and!; [by eapply grows_trans|done| |done]. pose proof (fr_range _ _ _ Hf). lia.
    + split_and!; [done|done| |done].
      destruct (decide (blockof s fb = 0)) as [|Hne]; [done|exfalso].
      pose proof (gr_old _ _ Hg _ _ (blockof_lookup s fb Hok ltac:(unfold MAXBLOCKS; lia)) Hne) as F.
      rewrite (blockof_lookup s0 fb Hok0 ltac:(unfold MAXBLOCKS; lia)) in F. congruence.
  - rewrite check_used_ok by (done || unfold MAXBLOCKS; lia).
    split_and!; [done|done| |done]. intros ->. destruct (blockof s0 fb =? 0) eqn:E0; [done|]. by bool_to_prop.
Qed.

Lemma sfs_bmap_ok s fb da : file_ok s -> 0 <= fb < MAXBLOCKS -> bmap_result s fb da (sfs_bmap fb da s).
Proof.
  intros Hok Hfb. destruct (Z.lt_ge_cases fb 15) as [|Hge]; [apply bmap_direct; [done|lia]|].
  pose proof (blockof_lookup s fb Hok Hfb) as L. unfold sfs_bmap. kunfold.
  change SFS_NDIRECT with 15. destruct (fb <? 15) eqn:E; bool_to_prop; [lia|]. clear E.
  destruct (SFS_NINDIRECT <=? (fb - 15) / SFS_DBPERIDB) eqn:E; bool_to_prop.
  { unfold SFS_NINDIRECT, SFS_DBPERIDB, MAXBLOCKS in *. rewrite Z.div_small in E by lia. lia. }
  clear E. set (id := sfi_indirect (sv s)) in *.
  assert (H0 : id = 0 -> blockof s fb = 0).
  { intros E. unfold blockof, slot, ptrs. fold id. rewrite E. cbn [Z.eqb]. unfold MAXBLOCKS in *.
    destruct (fb <? 15) eqn:E1; bool_to_prop; [lia|].
    rewrite lookup_total_app_r, (fo_len s Hok), lookup_total_app_r by (rewrite ?(fo_len s Hok); cbn; lia).
    apply lookup_total_replicate_2. cbn [length]. lia. }
  destruct (id =? 0) eqn:Eid; bool_to_prop.
  - destruct da; cbn [negb andb].
    + destruct (balloc_fresh s Hok) as [(b & s1 & -> & Hf)| ->].
      * pose proof (put_indirect s s1 b Hok Hf Eid) as Hg.
        pose proof (bmap_entry s _ fb true Hok Hg ltac:(lia)) as He.
        cbn [sv dsk set_sv set_indirect sfi_indirect] in He. rewrite (fr_zero _ _ _ Hf), words_zeros in He.
        apply He; [pose proof (fr_range _ _ _ Hf); lia| |done].
        left. unfold blockof, slot, ptrs. cbn [sv dsk set_sv set_indirect sfi_indirect sfi_direct].
        rewrite (fr_zero _ _ _ Hf), words_zeros, (fr_sv _ _ _ Hf). unfold MAXBLOCKS in *.
        destruct (fb <? 15) eqn:E1; bool_to_prop; [lia|].
        rewrite lookup_total_app_r, (fo_len s Hok), lookup_total_app_r by (rewrite ?(fo_len s Hok); cbn; lia).
        destruct (b =? 0); apply lookup_total_replicate_2; cbn [length]; lia.
      * split_and!; [done|done|auto|by apply grows_refl].
    + split_and!; [by apply grows_refl|symmetry; auto|done|done].
  - cbn [andb]. destruct (fo_vol s Hok) as [Hdk _ [_ Hsz] _ _].
    destruct (ptr_used s 15 id Hok (ptrs_indirect s (fo_len s Hok)) Eid) as [Hidr _].
    rewrite readblock_ok by (done || lia).
    assert (Hd' : disk_ok (touch (dsk s id) s)) by (apply touch_disk_ok; [done|apply Hdk]).
    destruct (quiet_grows s (touch (dsk s id) s) Hok Hd' (touch_quiet _ s)) as [Hg Ep].
    apply (bmap_entry s _ fb da Hok Hg ltac:(lia)); [done| |done]. right. unfold blockof. by rewrite Ep.
Qed.

Lemma sfs_bmap_big s fb da : MAXBLOCKS <= fb -> sfs_bmap fb da s = Fail EFBIG s.
Proof.
  intros Hfb. unfold sfs_bmap. kunfold. unfold SFS_NDIRECT, SFS_NINDIRECT, SFS_DBPERIDB, MAXBLOCKS in *.
  destruct (fb <? 15) eqn:E; bool_to_prop; [lia|].
  destruct (1 <=? (fb - 15) / 128) eqn:E1; bool_to_prop; [done|].
  assert (1 <= (fb - 15) / 128) by (apply Z.div_le_lower_bound; lia). lia.
Qed.

(** ** Moving bytes *)

Definition MAXSIZE : Z := MAXBLOCKS * SFS_BLOCKSIZE.

(** [n] bytes of the file from [off]. *)
Definition bytes (s : st) (off n : Z) : list Z := file_byte s <$> seqZ off n.

(** A transfer after [n] more bytes, which are [bs] when reading. *)
Definition advance (u : uio) (n : Z) (bs : list Z) : uio :=
  mkuio (uio_rwf u) (uio_offset u + n) (uio_resid u - n) (iov_len u - n)
    (match uio_rwf u with UIO_READ => uio_buf u ++ bs | UIO_WRITE => drop (Z.to_nat n) (uio_buf u) end) (seg_skip (uio_segflg u) n).

(** A transfer as the theorems take it: the offsets stay below the point where block numbers
    wrap, and a user buffer is accessible throughout. *)
Record uio_ok (u : uio) : Prop := {
  uo_off : 0 <= uio_offset u /\ uio_offset u + uio_resid u <= 2 ^ 41;
  uo_res : 0 <= uio_resid u <= iov_len u /\ uio_resid u < 2 ^ 32;
  uo_buf : uio_rwf u = UIO_WRITE -> iov_len u = Z.of_nat (length (uio_buf u));
  uo_seg : seg_ok (uio_segflg u) (uio_resid u)
}.

(** The file changes, maybe; blocks that are in use outside it do not. *)
Record evolves (s s' : st) : Prop := {
  ev_ok : file_ok s';
  ev_ptr : forall i p, ptrs s' !! i = Some p -> p = 0 \/ ptrs s !! i = Some p \/ bit (sfs_freemap s) p = false;
  ev_used : forall b, 0 <= b -> bit (sfs_freemap s) b = true -> bit (sfs_freemap s') b = true;
  ev_frame : forall b, 0 <= b -> bit (sfs_freemap s) b = true -> (b <> 0 -> forall i, ptrs s !! i <> Some b) -> dsk s' b = dsk s b;
  ev_meta : sb_nblocks s' = sb_nblocks s /\ sv_ino (sv s') = sv_ino (sv s) /\ sfi_type (sv s') = sfi_type (sv s) /\
            sfi_linkcount (sv s') = sfi_linkcount (sv s);
  ev_dirty : sv_dirty (sv s') = true \/ sv s' = sv s
}.

Lemma grows_evolves s s' : file_ok s -> grows s s' -> evolves s s'.
Proof.
  intros Hok [Ok' Old New Us Fr (?&?&?&?&?&?) ?]. pose proof (ptrs_indirect s (fo_len s Hok)) as I.
  split; try done.
  - intros i p Hp. destruct (decide (p = 0)) as [|Hne]; [by left|right].
    destruct (ptrs s !! i) as [q|] eqn:Eq.
    + destruct (decide (q = 0)) as [->|Hq]; [right; by destruct (New i p Eq Hp Hne)|left].
      pose proof (Old i q Eq Hq). congruence.
    + apply lookup_ge_None in Eq. apply lookup_lt_Some in Hp. rewrite ptrs_length in * by (apply Hok || apply Ok'). lia.
  - intros b Hb Hu Hn. apply Fr; [done|done|]. intros Hb0 E.
    apply (Hn Hb0 15%nat). congruence.
Qed.

Lemma evolves_trans s1 s2 s3 : evolves s1 s2 -> evolves s2 s3 -> evolves s1 s3.
Proof.
  intros [Ok2 P12 U12 F12 (M1&M2&M3&M4) ?] [Ok3 P23 U23 F23 (N1&N2&N3&N4) ?].
  split; [done| |auto| |split_and!; congruence|by eapply dirty_trans].
  - intros i p Hp. destruct (P23 i p Hp) as [?|[Hp2|Hf]]; [by left|by apply P12|].
    destruct (fo_ptr _ Ok3 i p Hp) as [?|[? _]]; [by left|].
    right. right. destruct (bit (sfs_freemap s1) p) eqn:E; [|done]. rewrite U12 in Hf by (done || lia). done.
  - intros b Hb Hu Hn. rewrite F23; [by apply F12|done|by apply U12|].
    intros Hb0 i Hi. destruct (P12 i b Hi) as [?|[?|?]]; [done|by eapply Hn|congruence].
Qed.

(** [n] bytes moved between the file and the transfer's buffer. *)
Record moved (s s' : st) (n : Z) : Prop := {
  mv_ev : evolves s s';
  mv_size : sfi_size (sv s') = sfi_size (sv s);
  mv_ui : ui s' = advance (ui s) n (bytes s (uio_offset (ui s)) n);
  mv_bytes : forall pos, 0 <= pos < MAXSIZE ->
    file_byte s' pos =
    if bool_decide (uio_rwf (ui s) = UIO_WRITE) && (uio_offset (ui s) <=? pos) && (pos <? uio_offset (ui s) + n)
    then uio_buf (ui s) !!! Z.to_nat (pos - uio_offset (ui s)) else file_byte s pos;
  mv_max : n = 0 \/ uio_offset (ui s) + n <= MAXSIZE
}.

Lemma advance_ok u n bs : uio_ok u -> 0 <= n <= uio_resid u -> uio_ok (advance u n bs).
Proof.
  intros [Ho Hr Hb Hg] Hn. split; cbn; [lia|lia| |by apply seg_ok_skip]. intros E. rewrite E, length_drop. rewrite (Hb E) in *. lia.
Qed.

Lemma moved_0 s s' : file_ok s -> grows s s' -> moved s s' 0.
Proof.
  intros Hok Hg. split.
  - by apply grows_evolves.
  - apply (gr_meta _ _ Hg).
  - destruct (gr_meta _ _ Hg) as (_ & -> & _). unfold advance, bytes. cbn [fmap].
    destruct (ui s) as [[] o r l b g]; cbn; by rewrite ?app_nil_r, seg_skip_0, Z.add_0_r, !Z.sub_0_r.
  - intros pos Hpos. rewrite (grows_byte s s' pos) by done.
    destruct (bool_decide _); cbn [andb]; [|done].
    destruct (uio_offset (ui s) <=? pos) eqn:E; cbn [andb]; [|done].
    destruct (pos <? uio_offset (ui s) + 0) eqn:E'; [|done]. bool_to_prop. lia.
  - by left.
Qed.

Lemma moved_trans s1 s2 s3 n m : uio_ok (ui s1) -> moved s1 s2 n -> moved s2 s3 m -> 0 <= n -> 0 <= m ->
  (uio_rwf (ui s1) = UIO_READ -> uio_offset (ui s1) + n + m <= MAXSIZE) -> moved s1 s3 (n + m).
Proof.
  intros Hu [E12 S12 U12 B12 M12] [E23 S23 U23 B23 M23] Hn Hm Hmax. destruct (uo_off _ Hu) as [Ho _].
  split; [by eapply evolves_trans|congruence| | |rewrite U12 in M23; cbn in M23; lia].
  - rewrite U23, U12. unfold advance. cbn. destruct (uio_rwf (ui s1)) eqn:Er; f_equal; try apply seg_skip_skip; try lia.
    + rewrite <- app_assoc. f_equal. unfold bytes. rewrite (seqZ_app _ n m), fmap_app by done. f_equal.
      apply list_fmap_ext. intros i x Hx. apply lookup_seqZ in Hx as [-> Hi].
      rewrite B12; [done|]. specialize (Hmax eq_refl). lia.
    + rewrite drop_drop. f_equal. lia.
  - intros pos Hpos. rewrite B23 by done. rewrite U12. unfold advance. cbn [uio_rwf uio_offset uio_buf].
    destruct (uio_rwf (ui s1)) eqn:Er; rewrite B12 by done; [done|].
    rewrite !bool_decide_true by done. cbn [andb].
    repeat match goal with |- context [?a <=? ?b] => destruct (Z.leb_spec a b) end;
      repeat match goal with |- context [?a <? ?b] => destruct (Z.ltb_spec a b) end; cbn [andb]; try lia; try done.
    rewrite lookup_total_drop. f_equal. lia.
Qed.

(** Data written to block [fb] of the file. *)
Lemma write_own s s' fb data : file_ok s -> 0 <= fb < MAXBLOCKS -> blockof s fb <> 0 -> length data = 512%nat ->
  dsk s' = upd (blockof s fb) data (dsk s) -> disk_ok s' -> sfs_freemap s' = sfs_freemap s ->
  sb_nblocks s' = sb_nblocks s -> sv s' = sv s ->
  evolves s s' /\
  forall pos, 0 <= pos < MAXSIZE ->
    file_byte s' pos = if pos / SFS_BLOCKSIZE =? fb then data !!! Z.to_nat (pos mod SFS_BLOCKSIZE) else file_byte s pos.
Proof.
  intros Hok Hfb Hb Hl Hd Hdk Hm Hn Hs. pose proof (blockof_lookup s fb Hok Hfb) as L.
  pose proof (ptrs_indirect s (fo_len s Hok)) as I. set (b := blockof s fb) in *.
  assert (Hib : sfi_indirect (sv s) <> b).
  { intros E. rewrite E in I. apply (slot_ne fb). by eapply (fo_inj s Hok). }
  assert (Ep : ptrs s' = ptrs s).
  { unfold ptrs. rewrite Hs, Hd. unfold upd. by destruct (Z.eqb_spec (sfi_indirect (sv s)) b). }
  split.
  - destruct Hok as [[Hdk0 Hw Hsz Ht H0] Hlen Hp Hi].
    split; rewrite ?Ep, ?Hm, ?Hs, ?Hn; auto.
    + split; rewrite ?Ep, ?Hm, ?Hs, ?Hn; try done. split; rewrite ?Hm, ?Hn; done.
    + intros x Hx Hu Hne. rewrite Hd. unfold upd. destruct (Z.eqb_spec x b) as [->|]; [|done].
      by destruct (Hne Hb (slot fb)).
  - intros pos Hpos. unfold file_byte, blockof. rewrite Ep, Hd. fold (blockof s (pos / SFS_BLOCKSIZE)).
    destruct (Z.eqb_spec (pos / SFS_BLOCKSIZE) fb) as [->|Hne].
    + fold b. destruct (Z.eqb_spec b 0); [done|]. unfold upd. by rewrite Z.eqb_refl.
    + set (b' := blockof s (pos / SFS_BLOCKSIZE)).
      assert (Hfb' : 0 <= pos / SFS_BLOCKSIZE < MAXBLOCKS).
      { unfold MAXSIZE, SFS_BLOCKSIZE, MAXBLOCKS in *. Z.div_mod_to_equations. lia. }
      destruct (Z.eqb_spec b' 0) as [|Hb0]; [done|]. unfold upd. destruct (Z.eqb_spec b' b) as [E|]; [|done].
      exfalso. apply Hne. pose proof (blockof_lookup s _ Hok Hfb') as L'. fold b' in L'. rewrite E in L'.
      pose proof (fo_inj s Hok _ _ _ L L' Hb) as Es. revert Es. unfold slot.
      repeat match goal with |- context [?a <? ?b] => destruct (Z.ltb_spec a b) end; lia.
Qed.

Lemma uiomovezeros_ok {X} (x : X) fuel k u : (k < fuel)%nat -> uio_rwf u = UIO_READ -> seg_ok (uio_segflg u) (uio_resid u) ->
  16 * Z.of_nat k <= uio_resid u -> uio_resid u <= iov_len u -> uio_resid u < 2 ^ 32 ->
  uiomovezeros fuel (16 * Z.of_nat k) u x = Done (advance u (16 * Z.of_nat k) (replicate (16 * k) 0)) x.
Proof.
  revert fuel u. induction k as [|k IH]; intros [|fuel] u Hk Hrw Hg Hr Hl H32; try lia; cbn [uiomovezeros]; rewrite Hrw.
  - kunfold. destruct u as [rw o r l b g]. cbn in *. subst rw. unfold advance. cbn. by rewrite app_nil_r, seg_skip_0, Z.add_0_r, !Z.sub_0_r.
  - destruct (16 * Z.of_nat (S k) <=? 0) eqn:E; bool_to_prop; [lia|]. clear E.
    destruct (16 * Z.of_nat (S k) <? 16) eqn:E; bool_to_prop; [lia|]. clear E. kunfold.
    rewrite uiomove_read by (done || lia || (apply (seg_ok_faults _ _ _ Hg); lia)). cbn [snd].
    replace (16 * Z.of_nat (S k) - 16) with (16 * Z.of_nat k) by lia. rewrite IH by (cbn; done || lia || by apply seg_ok_skip).
    f_equal. unfold advance. cbn [uio_rwf uio_offset uio_resid iov_len uio_buf uio_segflg]. rewrite Hrw.
    rewrite seg_skip_skip. f_equal; try lia; [|f_equal; lia].
    rewrite <- app_assoc. f_equal. change (take (Z.to_nat 16) (replicate 16 0)) with (replicate 16 (0 : Z)).
    rewrite <- replicate_add. f_equal. lia.
Qed.

(** The bytes of one block. *)
Definition block_data (s : st) (fb : Z) : list Z :=
  if blockof s fb =? 0 then replicate 512 0 else dsk s (blockof s fb).

Lemma block_data_length s fb : file_ok s -> length (block_data s fb) = 512%nat.
Proof.
  intros Hok. unfold block_data. destruct (blockof s fb =? 0); [apply length_replicate|].
  destruct (vo_disk _ (fo_vol s Hok)) as (_ & _ & H). apply H.
Qed.

Lemma block_data_byte s pos : file_byte s pos = block_data s (pos / SFS_BLOCKSIZE) !!! Z.to_nat (pos mod SFS_BLOCKSIZE).
Proof.
  unfold file_byte, block_data. destruct (blockof s (pos / SFS_BLOCKSIZE) =? 0); [|done].
  rewrite lookup_total_replicate_2; [done|]. pose proof (Z.mod_pos_bound pos SFS_BLOCKSIZE ltac:(done)).
  unfold SFS_BLOCKSIZE in *. lia.
Qed.

(** Positions inside one block. *)
Lemma pos_in_block off x : 0 <= off mod SFS_BLOCKSIZE + x < SFS_BLOCKSIZE ->
  (off + x) / SFS_BLOCKSIZE = off / SFS_BLOCKSIZE /\ (off + x) mod SFS_BLOCKSIZE = off mod SFS_BLOCKSIZE + x.
Proof.
  unfold SFS_BLOCKSIZE. intros H. pose proof (Z.div_mod off 512 ltac:(lia)).
  assert (E : off + x = (off mod 512 + x) + off / 512 * 512) by lia.
  rewrite E, Z.div_add, Z.mod_add, Z.div_small, Z.mod_small by lia. lia.
Qed.

Lemma block_bytes s off len : file_ok s -> 0 <= len -> off mod SFS_BLOCKSIZE + len <= SFS_BLOCKSIZE ->
  take (Z.to_nat len) (drop (Z.to_nat (off mod SFS_BLOCKSIZE)) (block_data s (off / SFS_BLOCKSIZE))) = bytes s off len.
Proof.
  intros Hok Hl Hs. pose proof (Z.mod_pos_bound off SFS_BLOCKSIZE ltac:(done)) as Hm.
  pose proof (block_data_length s (off / SFS_BLOCKSIZE) Hok) as Hbl. apply list_eq. intros i. unfold bytes.
  rewrite list_lookup_fmap. destruct (decide (i < Z.to_nat len)%nat) as [Hi|Hi].
  - rewrite lookup_take_lt, lookup_drop, lookup_seqZ_lt by lia. cbn [fmap option_fmap option_map].
    destruct (pos_in_block off (Z.of_nat i)) as [E1 E2]; [lia|].
    rewrite block_data_byte, E1, E2. rewrite list_lookup_lookup_total_lt; [do 2 f_equal; lia|].
    rewrite Hbl. unfold SFS_BLOCKSIZE in *. lia.
  - rewrite lookup_take_ge by lia. rewrite lookup_seqZ_ge by lia. done.
Qed.

Definition io_result (s : st) (n : Z) (r : outcome st unit) : Prop :=
  match r with
  | Done _ s' => moved s s' n
  | Fail e s' => (e = ENOSPC \/ e = EFBIG) /\ uio_rwf (ui s) = UIO_WRITE /\ moved s s' 0
  | Halt _ => False
  end.

(** The block of the current position, for a transfer within the limits. *)
Lemma uio_block u : uio_ok u -> 0 < uio_resid u -> u32 (uio_offset u / SFS_BLOCKSIZE) = uio_offset u / SFS_BLOCKSIZE /\
  0 <= uio_offset u / SFS_BLOCKSIZE.
Proof.
  intros [[H0 H1] _ _] Hr. unfold SFS_BLOCKSIZE. assert (0 <= uio_offset u / 512) by (apply Z.div_pos; lia).
  split; [|done]. apply wrapu_small. split; [done|]. apply Z.div_lt_upper_bound; lia.
Qed.

Lemma file_ok_ui s u : file_ok s -> file_ok (set_ui u s).
Proof. intros [[] ? ? ?]. split; [by split|done|done|done]. Qed.

(** Reading does not change the file. *)
Lemma moved_read s s' n bs : file_ok s -> uio_rwf (ui s) = UIO_READ -> disk_ok s' ->
  dsk s' = dsk s -> sfs_freemap s' = sfs_freemap s -> sb_nblocks s' = sb_nblocks s -> sv s' = sv s ->
  ui s' = advance (ui s) n bs -> bs = bytes s (uio_offset (ui s)) n ->
  uio_offset (ui s) + n <= MAXSIZE -> moved s s' n.
Proof.
  intros Hok Hrw Hdk Hd Hm Hn Hs Hu -> Hmax.
  assert (Hq : quiet (set_ui (ui s') s) s') by done.
  destruct (quiet_grows _ s' (file_ok_ui s (ui s') Hok) Hdk Hq) as [Hg Ep].
  split; [|by rewrite Hs|done| |by right].
  - pose proof (grows_evolves _ _ (file_ok_ui s (ui s') Hok) Hg) as []. by split.
  - intros pos Hpos. rewrite Hrw. cbn [bool_decide]. rewrite bool_decide_false by done. cbn [andb].
    unfold file_byte, blockof, ptrs. by rewrite Hd, Hs.
Qed.

(** Writing [n] bytes inside one block. *)
Lemma moved_write s s1 s2 data n :
  let off := uio_offset (ui s) in
  let fb := off / SFS_BLOCKSIZE in
  let skip := off mod SFS_BLOCKSIZE in
  file_ok s -> uio_rwf (ui s) = UIO_WRITE -> grows s s1 -> 0 <= fb < MAXBLOCKS -> blockof s1 fb <> 0 ->
  length data = 512%nat -> skip + n <= SFS_BLOCKSIZE ->
  dsk s2 = upd (blockof s1 fb) data (dsk s1) -> disk_ok s2 -> sfs_freemap s2 = sfs_freemap s1 ->
  sb_nblocks s2 = sb_nblocks s1 -> sv s2 = sv s1 -> ui s2 = advance (ui s) n (bytes s off n) ->
  (forall o, 0 <= o < SFS_BLOCKSIZE -> data !!! Z.to_nat o =
     if (skip <=? o) && (o <? skip + n) then uio_buf (ui s) !!! Z.to_nat (o - skip)
     else block_data s1 fb !!! Z.to_nat o) ->
  moved s s2 n.
Proof.
  intros off fb skip Hok Hrw Hg Hfb Hb Hl Hn Hd Hdk Hm Hnb Hs Hu Hdata.
  destruct (write_own s1 s2 fb data (gr_ok _ _ Hg) Hfb Hb Hl Hd Hdk Hm Hnb Hs) as [He Hby].
  split; [eapply evolves_trans; [by apply grows_evolves|done]|rewrite Hs; apply (gr_meta _ _ Hg)|done| |].
  2:{ right. fold off. pose proof (Z.div_mod off SFS_BLOCKSIZE ltac:(done)) as Do. fold fb skip in Do.
      unfold MAXSIZE, SFS_BLOCKSIZE in *. lia. }
  intros pos Hpos. rewrite Hby, Hrw by done. cbn [bool_decide]. rewrite bool_decide_true by done. cbn [andb].
  pose proof (Z.div_mod pos SFS_BLOCKSIZE ltac:(done)) as Dp. pose proof (Z.mod_pos_bound pos SFS_BLOCKSIZE ltac:(done)) as Mp.
  pose proof (Z.div_mod off SFS_BLOCKSIZE ltac:(done)) as Do. fold off fb skip in Do |- *.
  pose proof (Z.mod_pos_bound off SFS_BLOCKSIZE ltac:(done)) as Mo. fold skip in Mo.
  rewrite <- (grows_byte s s1 pos Hok Hg Hpos).
  destruct (Z.eqb_spec (pos / SFS_BLOCKSIZE) fb) as [E|E].
  - rewrite Hdata by done. rewrite (block_data_byte s1 pos), E in *.
    repeat match goal with |- context [?a <=? ?b] => destruct (Z.leb_spec a b) end;
      repeat match goal with |- context [?a <? ?b] => destruct (Z.ltb_spec a b) end; cbn [andb]; try lia; try done.
    f_equal. lia.
  - repeat match goal with |- context [?a <=? ?b] => destruct (Z.leb_spec a b) end;
      repeat match goal with |- context [?a <? ?b] => destruct (Z.ltb_spec a b) end; cbn [andb]; try lia; try done.
    exfalso. apply E. unfold SFS_BLOCKSIZE in *. nia.
Qed.

(** The block's data: read from the disk, or zeros for a hole. *)
Lemma load_block s fb rw : file_ok s -> 0 <= fb < MAXBLOCKS -> (rw = UIO_WRITE -> blockof s fb <> 0) ->
  exists s', (if blockof s fb =? 0 then
                kassert (bool_decide (rw = UIO_READ)) ;;; kret (replicate 512 0)
              else sfs_readblock (blockof s fb)) s = Done (block_data s fb) s' /\ quiet s s' /\ disk_ok s'.
Proof.
  intros Hok Hfb Hne. destruct (vo_disk _ (fo_vol s Hok)) as (Hd1 & Hd2 & Hd3).
  destruct (vo_size _ (fo_vol s Hok)) as [_ Hsz]. unfold block_data.
  destruct (blockof s fb =? 0) eqn:E0; bool_to_prop.
  - exists s. destruct rw; [done|]. by destruct (Hne eq_refl).
  - destruct (ptr_used s _ _ Hok (blockof_lookup s fb Hok Hfb) E0) as [Hr _].
    rewrite readblock_ok by (done || lia). eexists. split; [done|]. split; [done|].
    apply touch_disk_ok; [done|apply Hd3].
Qed.

(** The buffer after the write of [n] bytes at [skip]. *)
Lemma splice_lookup (io buf : list Z) skip n o : length io = 512%nat -> (Z.to_nat n <= length buf)%nat ->
  0 <= skip -> 0 <= n -> skip + n <= 512 -> 0 <= o < 512 ->
  let data := take (Z.to_nat skip) io ++ take (Z.to_nat n) buf ++ drop (Z.to_nat n) (drop (Z.to_nat skip) io) in
  length data = 512%nat /\
  data !!! Z.to_nat o = if (skip <=? o) && (o <? skip + n) then buf !!! Z.to_nat (o - skip) else io !!! Z.to_nat o.
Proof.
  intros Hio Hbuf Hs Hn Hsn Ho data. rewrite !list_lookup_total_alt. unfold data. rewrite drop_drop. split.
  - rewrite !length_app, !length_take, !length_drop. lia.
  - destruct (Z.leb_spec skip o), (Z.ltb_spec o (skip + n)); cbn [andb].
    + rewrite lookup_app_r, length_take by (rewrite length_take; lia).
      rewrite lookup_app_l by (rewrite length_take; lia). rewrite lookup_take_lt by lia. do 2 f_equal. lia.
    + rewrite lookup_app_r, length_take by (rewrite length_take; lia).
      rewrite lookup_app_r, length_take by (rewrite length_take; lia). rewrite lookup_drop. do 2 f_equal. lia.
    + rewrite lookup_app_l by (rewrite length_take; lia). rewrite lookup_take_lt by lia. done.
    + lia.
Qed.

Lemma partialio_ok s len :
  let skip := uio_offset (ui s) mod SFS_BLOCKSIZE in
  file_ok s -> uio_ok (ui s) -> 0 < len <= uio_resid (ui s) -> skip + len <= SFS_BLOCKSIZE ->
  (uio_rwf (ui s) = UIO_READ -> uio_offset (ui s) + len <= MAXSIZE) ->
  io_result s len (sfs_partialio skip len s).
Proof.
  intros skip Hok Hu Hlen Hskip Hmax. set (off := uio_offset (ui s)) in *. set (fb := off / SFS_BLOCKSIZE).
  destruct (uio_block (ui s) Hu ltac:(lia)) as [E32 Hfb0]. fold off fb in E32, Hfb0.
  pose proof (Z.mod_pos_bound off SFS_BLOCKSIZE ltac:(done)) as Hm. fold skip in Hm.
  unfold sfs_partialio. kunfold. fold off. rewrite (wrapu_small 32 (skip + len)) by (unfold SFS_BLOCKSIZE in *; lia).
  destruct (skip + len <=? SFS_BLOCKSIZE) eqn:E; bool_to_prop; [|lia]. clear E. kunfold. unfold kret. fold fb. rewrite E32.
  destruct (Z.lt_ge_cases fb MAXBLOCKS) as [Hfb|Hbig].
  2:{ rewrite sfs_bmap_big by done. split_and!; [by right| |by apply moved_0, grows_refl].
      destruct (uio_rwf (ui s)) eqn:Er; [exfalso|done]. specialize (Hmax eq_refl).
      unfold MAXSIZE, fb, SFS_BLOCKSIZE, MAXBLOCKS in *. Z.div_mod_to_equations. lia. }
  set (da := bool_decide (uio_rwf (ui s) = UIO_WRITE)).
  pose proof (sfs_bmap_ok s fb da Hok ltac:(lia)) as Hbm.
  destruct (sfs_bmap fb da s) as [b s1|e s1|h]; [|destruct Hbm as (-> & Eda & _ & Hg)|done].
  2:{ apply bool_decide_eq_true in Eda. split_and!; [by left|done|by apply moved_0]. }
  destruct Hbm as (Hg & -> & Hne & Hq). pose proof (gr_ok _ _ Hg) as Hok1.
  destruct (gr_meta _ _ Hg) as (En1 & Eu1 & _).
  destruct (vo_disk _ (fo_vol s1 Hok1)) as (Hd1 & Hd2 & Hd3). destruct (vo_size _ (fo_vol s1 Hok1)) as [_ Hsz].
  destruct (uo_res _ Hu) as [Hres H32].
  destruct (load_block s1 fb (uio_rwf (ui s)) Hok1 ltac:(lia)) as (s2 & Er2 & (Q1 & Q2 & Q3 & Q4 & Q5) & Hdk2).
  { intros E. apply Hne. by apply bool_decide_eq_true. }
  unfold kassert, kret in Er2. kunfold. rewrite Er2. clear Er2. rewrite Q5, Eu1.
  pose proof (block_data_length s1 fb Hok1) as Hbl. destruct (uio_rwf (ui s)) eqn:Er.
  - destruct (Hq eq_refl) as (P1 & P2 & P3 & P4 & P5). rewrite uiomove_read by (done || lia || (apply (seg_ok_faults _ _ _ (uo_seg _ Hu)); lia)).
    apply (moved_read s _ len (bytes s off len)); try done; cbn; try congruence.
    + unfold advance. rewrite Er. f_equal. f_equal.
      replace (block_data s1 fb) with (block_data s fb) by (unfold block_data, blockof, ptrs; by rewrite P1, P4).
      apply block_bytes; [done|lia|done].
    + by apply Hmax.
  - pose proof (uo_buf _ Hu Er) as Hbuf. rewrite uiomove_write by (done || lia || (apply (seg_ok_faults _ _ _ (uo_seg _ Hu)); lia)).
    destruct (splice_lookup (block_data s1 fb) (uio_buf (ui s)) skip len 0) as [Hdl _]; try (unfold SFS_BLOCKSIZE in *; lia).
    destruct (ptr_used s1 _ _ Hok1 (blockof_lookup s1 fb Hok1 ltac:(lia))) as [Hr _]; [by apply Hne|].
    rewrite writeblock_ok; [|done|lia|done].
    eapply (moved_write s s1 _ _ len); try done; cbn -[take drop]; rewrite ?Q1; try done.
    + by apply Hne.
    + split_and!; [done|done|]. intros x. cbn -[take drop]. unfold upd. destruct (x =? _); [done|]. rewrite Q1. apply Hd3.
    + unfold advance. by rewrite Er.
    + intros o Ho.
      destruct (splice_lookup (block_data s1 fb) (uio_buf (ui s)) skip len o) as [_ H];
        try (unfold SFS_BLOCKSIZE in *; lia). exact H.
Qed.

Lemma blockio_ok s :
  file_ok s -> uio_ok (ui s) -> uio_offset (ui s) mod SFS_BLOCKSIZE = 0 -> SFS_BLOCKSIZE <= uio_resid (ui s) ->
  (uio_rwf (ui s) = UIO_READ -> uio_offset (ui s) + SFS_BLOCKSIZE <= MAXSIZE) ->
  io_result s SFS_BLOCKSIZE (sfs_blockio s).
Proof.
  intros Hok Hu Hal Hlen Hmax. set (off := uio_offset (ui s)) in *. set (fb := off / SFS_BLOCKSIZE).
  destruct (uio_block (ui s) Hu ltac:(unfold SFS_BLOCKSIZE in *; lia)) as [E32 Hfb0]. fold off fb in E32, Hfb0.
  unfold sfs_blockio. kunfold. fold off. fold fb. rewrite E32.
  destruct (Z.lt_ge_cases fb MAXBLOCKS) as [Hfb|Hbig].
  2:{ rewrite sfs_bmap_big by done. split_and!; [by right| |by apply moved_0, grows_refl].
      destruct (uio_rwf (ui s)) eqn:Er; [exfalso|done]. specialize (Hmax eq_refl).
      unfold MAXSIZE, fb, SFS_BLOCKSIZE, MAXBLOCKS in *. Z.div_mod_to_equations. lia. }
  set (da := bool_decide (uio_rwf (ui s) = UIO_WRITE)).
  pose proof (sfs_bmap_ok s fb da Hok ltac:(lia)) as Hbm.
  destruct (sfs_bmap fb da s) as [b s1|e s1|h]; [|destruct Hbm as (-> & Eda & _ & Hg)|done].
  2:{ apply bool_decide_eq_true in Eda. split_and!; [by left|done|by apply moved_0]. }
  destruct Hbm as (Hg & -> & Hne & Hq). pose proof (gr_ok _ _ Hg) as Hok1.
  destruct (gr_meta _ _ Hg) as (En1 & Eu1 & _). destruct (uo_res _ Hu) as [Hres H32].
  destruct (vo_disk _ (fo_vol s1 Hok1)) as (Hd1 & Hd2 & Hd3). destruct (vo_size _ (fo_vol s1 Hok1)) as [_ Hsz].
  pose proof (block_bytes s off SFS_BLOCKSIZE Hok ltac:(done) ltac:(lia)) as Hbb. rewrite Hal in Hbb. fold fb in Hbb.
  rewrite Eu1. destruct (blockof s1 fb =? 0) eqn:E0; bool_to_prop.
  - destruct (uio_rwf (ui s)) eqn:Er; [|by destruct Hne]. destruct (Hq eq_refl) as (P1 & P2 & P3 & P4 & P5).
    unfold kassert, kret. rewrite bool_decide_true by done. cbn beta iota.
    change (uiomovezeros 33 SFS_BLOCKSIZE) with (uiomovezeros (S := st) 33 (16 * Z.of_nat 32)).
    rewrite (uiomovezeros_ok s1 33 32) by (done || apply (uo_seg _ Hu) || (unfold SFS_BLOCKSIZE in *; lia)).
    apply (moved_read s _ _ (bytes s off 512)); try done; cbn -[replicate]; [|by apply Hmax].
    change 512 with SFS_BLOCKSIZE at 1. rewrite <- Hbb. f_equal. unfold block_data. replace (blockof s fb) with (blockof s1 fb) by (unfold blockof, ptrs; by rewrite P1, P4).
    rewrite E0. done.
  - destruct (ptr_used s1 _ _ Hok1 (blockof_lookup s1 fb Hok1 ltac:(lia)) E0) as [Hr _].
    destruct (SFS_BLOCKSIZE <=? uio_resid (ui s)) eqn:E; bool_to_prop; [|lia]. clear E. unfold kassert, kret.
    rewrite (wrapu_small 32 (blockof s1 fb * SFS_BLOCKSIZE)) by (unfold SFS_BLOCKSIZE; lia).
    destruct (uio_rwf (ui s)) eqn:Er.
    + destruct (Hq eq_refl) as (P1 & P2 & P3 & P4 & P5).
      rewrite (rwblock_read (blockof s1 fb)); [|by split_and!; cbn; try lia; try by apply (seg_ok_faults _ _ _ (uo_seg _ Hu))|done|lia].
      cbn -[SFS_BLOCKSIZE]. apply (moved_read s _ _ (bytes s off SFS_BLOCKSIZE)); try done.
      * by apply touch_disk_ok.
      * cbn -[SFS_BLOCKSIZE]. unfold advance. rewrite Er. fold off. f_equal; [lia| |].
        -- rewrite wrapu_small by (unfold SFS_BLOCKSIZE in *; lia). lia.
        -- f_equal. rewrite <- Hbb. unfold block_data.
           replace (blockof s fb) with (blockof s1 fb) by (unfold blockof, ptrs; by rewrite P1, P4).
           destruct (Z.eqb_spec (blockof s1 fb) 0); [done|]. rewrite drop_0, <- P1. symmetry. apply take_ge. rewrite Hd3. done.
      * by apply Hmax.
    + pose proof (uo_buf _ Hu Er) as Hbuf.
      assert (Hbl : (512 <= length (uio_buf (ui s)))%nat) by (unfold SFS_BLOCKSIZE in *; lia).
      rewrite (rwblock_write (blockof s1 fb)); [|by split_and!; cbn; try lia; try by apply (seg_ok_faults _ _ _ (uo_seg _ Hu))|done|lia|done].
      cbn -[SFS_BLOCKSIZE take drop].
      assert (Hdl : length (take 512 (uio_buf (ui s))) = 512%nat) by (rewrite length_take; lia).
      eapply (moved_write s s1 _ (take 512 (uio_buf (ui s))) SFS_BLOCKSIZE); try done.
      * fold off. lia.
      * split_and!; [done|done|]. intros x. cbn -[take drop]. unfold upd. destruct (x =? _); [done|]. apply Hd3.
      * cbn -[SFS_BLOCKSIZE take drop]. unfold advance. rewrite Er. fold off. f_equal; [lia|].
        rewrite wrapu_small by (unfold SFS_BLOCKSIZE in *; lia). lia.
      * intros o Ho. fold off. rewrite Hal. unfold SFS_BLOCKSIZE in *.
        destruct (Z.leb_spec 0 o), (Z.ltb_spec o (0 + 512)); cbn [andb]; try lia.
        rewrite !list_lookup_total_alt, lookup_take_lt by lia. do 2 f_equal. lia.
Qed.

(** ** Whole transfers *)

(** The transfer of [n] bytes, or of fewer when an error stops it. *)
Definition io_part (s : st) (n : Z) (r : outcome st unit) : Prop :=
  match r with
  | Done _ s' => moved s s' n
  | Fail e s' => (e = ENOSPC \/ e = EFBIG) /\ uio_rwf (ui s) = UIO_WRITE /\ exists k, 0 <= k < n /\ moved s s' k
  | Halt _ => False
  end.

Lemma io_result_part s n r : 0 < n -> io_result s n r -> io_part s n r.
Proof. intros Hn. destruct r; [done| |done]. intros (? & ? & ?). split_and!; [done|done|]. exists 0. split; [lia|done]. Qed.

(** Parts of a transfer in sequence. *)
Lemma io_part_seq s n m r (k : K st unit) : uio_ok (ui s) -> 0 <= n -> 0 <= m -> n + m <= uio_resid (ui s) ->
  (uio_rwf (ui s) = UIO_READ -> uio_offset (ui s) + n + m <= MAXSIZE) ->
  io_part s n r ->
  (forall s', moved s s' n -> io_part s' m (k s')) ->
  io_part s (n + m) (match r with Done _ s' => k s' | Fail e s' => Fail e s' | Halt h => Halt h end).
Proof.
  intros Hu Hn Hm Hr Hmax Hp Hk. destruct r as [? s'|e s'|h]; [|destruct Hp as (? & ? & j & ? & ?)|done].
  - specialize (Hk s' Hp). assert (Erw : uio_rwf (ui s') = uio_rwf (ui s)) by (by rewrite (mv_ui _ _ _ Hp)).
    destruct (k s') as [? s2|e s2|h]; [|destruct Hk as (He & Hw & j & Hj & Hmv)|done].
    + by eapply moved_trans.
    + split_and!; [done|congruence|]. exists (n + j). split; [lia|].
      eapply moved_trans; try done; try lia. intros F. congruence.
  - split_and!; [done|done|]. exists j. split; [lia|done].
Qed.

Lemma moved_uio_ok s s' n : uio_ok (ui s) -> moved s s' n -> 0 <= n <= uio_resid (ui s) -> uio_ok (ui s').
Proof. intros Hu Hm Hn. rewrite (mv_ui _ _ _ Hm). by apply advance_ok. Qed.

Lemma blocks_ok n s : file_ok s -> uio_ok (ui s) -> uio_offset (ui s) mod SFS_BLOCKSIZE = 0 ->
  SFS_BLOCKSIZE * Z.of_nat n <= uio_resid (ui s) ->
  (uio_rwf (ui s) = UIO_READ -> uio_offset (ui s) + SFS_BLOCKSIZE * Z.of_nat n <= MAXSIZE) ->
  io_part s (SFS_BLOCKSIZE * Z.of_nat n) (sfs_blocks n s).
Proof.
  revert s. induction n as [|n IH]; intros s Hok Hu Hal Hlen Hmax; cbn [sfs_blocks].
  - by apply moved_0, grows_refl.
  - replace (SFS_BLOCKSIZE * Z.of_nat (S n)) with (SFS_BLOCKSIZE + SFS_BLOCKSIZE * Z.of_nat n) in * by lia.
    assert (0 <= SFS_BLOCKSIZE * Z.of_nat n) by (unfold SFS_BLOCKSIZE; lia).
    unfold kbind. apply io_part_seq; try done; try lia; [intros E; specialize (Hmax E); lia| |].
    + apply io_result_part; [done|]. apply blockio_ok; try done; [lia|]. intros E. specialize (Hmax E). lia.
    + intros s' Hm. pose proof (mv_ui _ _ _ Hm) as Eu. apply IH.
      * apply (mv_ev _ _ _ Hm).
      * eapply moved_uio_ok; [done|done|]. unfold SFS_BLOCKSIZE in *. lia.
      * rewrite Eu. cbn -[SFS_BLOCKSIZE]. rewrite <- (Z.mul_1_l SFS_BLOCKSIZE) at 1. by rewrite Z.mod_add.
      * rewrite Eu. cbn -[SFS_BLOCKSIZE]. lia.
      * rewrite Eu. cbn -[SFS_BLOCKSIZE]. intros E. specialize (Hmax E). lia.
Qed.

Lemma io_body_ok s : file_ok s -> uio_ok (ui s) -> 0 < uio_resid (ui s) ->
  (uio_rwf (ui s) = UIO_READ -> uio_offset (ui s) + uio_resid (ui s) <= MAXSIZE) ->
  io_part s (uio_resid (ui s)) (sfs_io_body s).
Proof.
  intros Hok Hu Hr Hmax. set (u := ui s) in *. unfold sfs_io_body. kunfold. fold u.
  set (off := uio_offset u) in *. set (skip := off mod SFS_BLOCKSIZE) in *.
  pose proof (Z.mod_pos_bound off SFS_BLOCKSIZE ltac:(done)) as Hm. fold skip in Hm.
  set (n1 := if skip =? 0 then 0 else if uio_resid u <? SFS_BLOCKSIZE - skip then uio_resid u else SFS_BLOCKSIZE - skip).
  assert (Hn1 : 0 <= n1 <= uio_resid u).
  { unfold n1. destruct (skip =? 0); [lia|]. destruct (Z.ltb_spec (uio_resid u) (SFS_BLOCKSIZE - skip)); lia. }
  replace (uio_resid u) with (n1 + (uio_resid u - n1)) at 1 by lia.
  apply io_part_seq; try done; try (fold u; lia); [intros E; specialize (Hmax E); fold u off; lia| |].
  - unfold n1. destruct (skip =? 0) eqn:E0; cbn [negb]; [by apply moved_0, grows_refl|]. bool_to_prop.
    apply io_result_part; [destruct (Z.ltb_spec (uio_resid u) (SFS_BLOCKSIZE - skip)); lia|].
    apply partialio_ok; try done; fold u off skip; destruct (Z.ltb_spec (uio_resid u) (SFS_BLOCKSIZE - skip)); try lia;
      intros E; specialize (Hmax E); lia.
  - intros s1 Hm1. pose proof (mv_ui _ _ _ Hm1) as Eu. fold u in Eu.
    assert (Eres : uio_resid (ui s1) = uio_resid u - n1) by (rewrite Eu; done).
    assert (Eoff : uio_offset (ui s1) = off + n1) by (rewrite Eu; done).
    assert (Erw : uio_rwf (ui s1) = uio_rwf u) by (rewrite Eu; done).
    pose proof (moved_uio_ok s s1 n1 Hu Hm1 Hn1) as Hu1. pose proof (ev_ok _ _ (mv_ev _ _ _ Hm1)) as Hok1.
    rewrite <- Eres. destruct (uio_resid (ui s1) =? 0) eqn:E1; bool_to_prop.
    { rewrite E1. by apply moved_0, grows_refl. }
    assert (Hal : uio_offset (ui s1) mod SFS_BLOCKSIZE = 0).
    { rewrite Eoff. unfold n1 in *. destruct (skip =? 0) eqn:E0; bool_to_prop.
      - by rewrite Z.add_0_r.
      - destruct (Z.ltb_spec (uio_resid u) (SFS_BLOCKSIZE - skip)); [lia|].
        pose proof (Z.div_mod off SFS_BLOCKSIZE ltac:(done)) as Do. fold skip in Do.
        replace (off + (SFS_BLOCKSIZE - skip)) with ((off / SFS_BLOCKSIZE + 1) * SFS_BLOCKSIZE) by lia. by apply Z.mod_mul. }
    rewrite Hal. cbn [Z.eqb]. unfold kassert, kret. cbn beta iota.
    set (r1 := uio_resid (ui s1)) in *. destruct (uo_res _ Hu1) as [Hr1 _]. fold r1 in Hr1.
    pose proof (Z.div_mod r1 SFS_BLOCKSIZE ltac:(done)) as Hd. pose proof (Z.mod_pos_bound r1 SFS_BLOCKSIZE ltac:(done)) as Hmr.
    assert (Hq0 : 0 <= r1 / SFS_BLOCKSIZE) by (apply Z.div_pos; [lia|done]).
    set (n2 := SFS_BLOCKSIZE * Z.of_nat (Z.to_nat (r1 / SFS_BLOCKSIZE))).
    assert (En2 : n2 = SFS_BLOCKSIZE * (r1 / SFS_BLOCKSIZE)) by (unfold n2; rewrite Z2Nat.id; done).
    assert (0 <= n2) by (rewrite En2; unfold SFS_BLOCKSIZE in *; lia).
    assert (Hmax1 : uio_rwf (ui s1) = UIO_READ -> uio_offset (ui s1) + r1 <= MAXSIZE).
    { rewrite Erw, Eoff. intros E. specialize (Hmax E). lia. }
    replace r1 with (n2 + (r1 - n2)) at 1 by lia.
    apply io_part_seq; try done; try (fold r1; lia); [intros E; specialize (Hmax1 E); lia| |].
    + apply blocks_ok; try done; fold n2; [fold r1; lia|]. intros E. specialize (Hmax1 E). lia.
    + intros s2 Hm2. pose proof (mv_ui _ _ _ Hm2) as Eu2.
      assert (Eres2 : uio_resid (ui s2) = r1 - n2) by (rewrite Eu2; done). rewrite Eres2.
      pose proof (moved_uio_ok s1 s2 n2 Hu1 Hm2 ltac:(fold r1; lia)) as Hu2. pose proof (ev_ok _ _ (mv_ev _ _ _ Hm2)) as Hok2.
      destruct (r1 - n2 <? SFS_BLOCKSIZE) eqn:E2; bool_to_prop; [|lia].
      destruct (0 <? r1 - n2) eqn:E3; bool_to_prop.
      * apply io_result_part; [lia|].
        assert (Hal2 : uio_offset (ui s2) mod SFS_BLOCKSIZE = 0).
        { rewrite Eu2. cbn -[SFS_BLOCKSIZE]. rewrite En2, Z.mul_comm, Z.mod_add; done. }
        pose proof (partialio_ok s2 (r1 - n2)) as Hp. cbn zeta in Hp. rewrite Hal2 in Hp.
        apply Hp; try done; try lia. rewrite Eu2. cbn. intros E. specialize (Hmax1 E). lia.
      * replace (r1 - n2) with 0 by lia. by apply moved_0, grows_refl.
Qed.

(** Setting the size of the file changes none of its bytes. *)
Lemma size_evolves s n : file_ok s -> evolves s (set_sv (set_size n) s) /\
  forall pos, file_byte (set_sv (set_size n) s) pos = file_byte s pos.
Proof.
  intros Hok. assert (Hok' : file_ok (set_sv (set_size n) s)).
  { destruct Hok as [[] ? ? ?]. split; [by split|done|done|done]. }
  split; [|done]. split; try done; [|by left]. intros i p Hp. right. by left.
Qed.

(** Reading, as callers use it. *)
Lemma io_read_ok (s : st) (Hok : file_ok s) (Hu : uio_ok (ui s)) (Hrw : uio_rwf (ui s) = UIO_READ)
    (Hres : 0 < uio_resid (ui s)) (Hsize : 0 <= sfi_size (sv s) <= MAXSIZE) :
  let off := uio_offset (ui s) in
  let n := Z.max 0 (Z.min (uio_resid (ui s)) (sfi_size (sv s) - off)) in
  exists s', sfs_io s = Done tt s' /\
    ui s' = advance (ui s) n (bytes s off n) /\ evolves s s' /\ sfi_size (sv s') = sfi_size (sv s) /\
    forall pos, 0 <= pos < MAXSIZE -> file_byte s' pos = file_byte s pos.
Proof.
  intros off n. unfold sfs_io. kunfold. rewrite Hrw, bool_decide_true by done. cbn [andb]. fold off.
  destruct (uo_off _ Hu) as [Ho _]. fold off in Ho. destruct (uo_res _ Hu) as [Hr H32].
  destruct (sfi_size (sv s) <=? off) eqn:Eeof; bool_to_prop.
  { exists s. split; [done|]. assert (En : n = 0) by lia.
    pose proof (moved_0 s s Hok (grows_refl s Hok)) as Hm. rewrite En. split; [apply (mv_ui _ _ _ Hm)|].
    split_and!; [apply (mv_ev _ _ _ Hm)|done|done]. }
  assert (Hn : n = Z.min (uio_resid (ui s)) (sfi_size (sv s) - off)) by lia. clearbody n.
  set (extra := if sfi_size (sv s) <? off + uio_resid (ui s) then u32 (off + uio_resid (ui s) - sfi_size (sv s)) else 0).
  assert (Hex : extra = uio_resid (ui s) - n).
  { unfold extra. destruct (Z.ltb_spec (sfi_size (sv s)) (off + uio_resid (ui s))); [rewrite wrapu_small by lia|]; lia. }
  set (s1 := set_ui (set_resid (fun x => x - extra) (ui s)) s).
  assert (Hcut : sfs_io_cut extra s = Done tt s1).
  { unfold sfs_io_cut. kunfold. destruct (extra =? 0) eqn:E; bool_to_prop; cbn [negb].
    - unfold s1, set_resid. rewrite E, Z.sub_0_r. by destruct s as [? ? ? ? ? ? ? []].
    - destruct (extra <? uio_resid (ui s)) eqn:E2; bool_to_prop; [done|lia]. }
  rewrite Hcut. assert (Hok1 : file_ok s1) by (by apply file_ok_ui).
  assert (Eres1 : uio_resid (ui s1) = n) by (cbn; lia).
  assert (Hu1 : uio_ok (ui s1)).
  { destruct (uo_off _ Hu). split; cbn; fold off; [lia|lia|by rewrite Hrw|]. apply (seg_ok_less _ _ _ (uo_seg _ Hu)). lia. }
  pose proof (io_body_ok s1 Hok1 Hu1 ltac:(lia)) as Hb. rewrite Eres1 in Hb.
  specialize (Hb ltac:(intros _; cbn; fold off; lia)).
  destruct (sfs_io_body s1) as [[] s2|e s2|h]; [|destruct Hb as (_ & F & _); cbn in F; congruence|done].
  pose proof (mv_ui _ _ _ Hb) as Eu2. unfold sfs_io_out. kunfold.
  assert (Erw2 : uio_rwf (ui s2) = UIO_READ) by (rewrite Eu2; done).
  rewrite Erw2, bool_decide_false, andb_false_r by done. cbn [andb].
  eexists. split; [done|]. cbn [ui set_ui sv]. split; [|split].
  - rewrite Eu2. unfold set_resid, advance. cbn. rewrite Hrw. fold off. f_equal. rewrite wrapu_small; lia.
  - destruct (mv_ev _ _ _ Hb) as [Hok2 P2 U2 F2 M2]. split; try done. by apply file_ok_ui.
  - split; [apply (mv_size _ _ _ Hb)|]. intros pos Hpos. pose proof (mv_bytes _ _ _ Hb pos Hpos) as E.
    cbn [s1 ui set_ui set_resid uio_rwf] in E. rewrite Hrw in E. exact E.
Qed.

(** Reading a file. [sfs_io] on a read transfer of at least one byte always
    succeeds and delivers, in order, exactly the bytes of the file from the current
    offset to the end of the request or of the file, whichever comes first (no byte
    at or past the end); offset and residual count advance by that amount, and
    neither the file nor any other block in use changes. *)
Theorem sfs_io_read (s : st) (Hok : file_ok s) (Hu : uio_ok (ui s)) (Hrw : uio_rwf (ui s) = UIO_READ)
    (Hres : 0 < uio_resid (ui s)) (Hsize : 0 <= sfi_size (sv s) <= MAXSIZE) :
  let off := uio_offset (ui s) in
  let n := Z.max 0 (Z.min (uio_resid (ui s)) (sfi_size (sv s) - off)) in
  exists s', sfs_io s = Done tt s' /\
    ui s' = advance (ui s) n (bytes s off n) /\ evolves s s' /\ sfi_size (sv s') = sfi_size (sv s) /\
    forall pos, 0 <= pos < MAXSIZE -> file_byte s' pos = file_byte s pos.
Proof. by apply io_read_ok. Qed.

(** Writing, as callers use it. *)
Lemma io_write_ok (s : st) (Hok : file_ok s) (Hu : uio_ok (ui s)) (Hrw : uio_rwf (ui s) = UIO_WRITE)
    (Hres : 0 < uio_resid (ui s)) (Hsize : 0 <= sfi_size (sv s) <= MAXSIZE) :
  let off := uio_offset (ui s) in
  exists k s', 0 <= k <= uio_resid (ui s) /\
    (sfs_io s = Done tt s' /\ k = uio_resid (ui s) \/
     (sfs_io s = Fail ENOSPC s' \/ sfs_io s = Fail EFBIG s') /\ k < uio_resid (ui s)) /\
    ui s' = advance (ui s) k [] /\ evolves s s' /\
    (forall pos, 0 <= pos < MAXSIZE -> file_byte s' pos =
       if (off <=? pos) && (pos <? off + k) then uio_buf (ui s) !!! Z.to_nat (pos - off) else file_byte s pos) /\
    sfi_size (sv s') = (if k =? 0 then sfi_size (sv s) else Z.max (sfi_size (sv s)) (off + k)) /\
    sfi_size (sv s') <= MAXSIZE.
Proof.
  intros off. unfold sfs_io. kunfold. rewrite Hrw, bool_decide_false by done. cbn [andb]. fold off.
  destruct (uo_off _ Hu) as [Ho _]. fold off in Ho. destruct (uo_res _ Hu) as [Hr H32].
  change (sfs_io_cut 0 s) with (@Done st unit tt s).
  pose proof (io_body_ok s Hok Hu Hres ltac:(congruence)) as Hb.
  assert (Hex : exists k s2 r, 0 <= k <= uio_resid (ui s) /\ moved s s2 k /\
            (sfs_io_body s = Done tt s2 /\ r = inr tt /\ k = uio_resid (ui s) \/
             exists e, sfs_io_body s = Fail e s2 /\ r = inl e /\ (e = ENOSPC \/ e = EFBIG) /\ k < uio_resid (ui s))).
  { destruct (sfs_io_body s) as [[] s2|e s2|h]; [| |done].
    - exists (uio_resid (ui s)), s2, (inr tt). split_and!; [lia|lia|done|by left].
    - destruct Hb as (He & _ & k & Hk & Hm). exists k, s2, (inl e). split_and!; [lia|lia|done|right].
      exists e. split_and!; [done|done|done|lia]. }
  destruct Hex as (k & s2 & r & Hk & Hm & Hcase). clear Hb. pose proof (mv_ui _ _ _ Hm) as Eu2.
  set (s3 := if negb (k =? 0) && (sfi_size (sv s) <? off + k) then set_sv (set_size (u32 (off + k))) s2 else s2).
  assert (Hout : sfs_io_out (uio_resid (ui s)) 0 r s2 =
                 match r with inl e => Fail e s3 | inr _ => Done tt s3 end).
  { unfold sfs_io_out. kunfold. rewrite Eu2, (mv_size _ _ _ Hm). cbn [advance uio_resid uio_rwf uio_offset]. fold off.
    rewrite Hrw, bool_decide_true, andb_true_r by done.
    replace (uio_resid (ui s) - k =? uio_resid (ui s)) with (k =? 0) by (destruct (Z.eqb_spec k 0), (Z.eqb_spec (uio_resid (ui s) - k) (uio_resid (ui s))); lia).
    assert (Hid : forall x : st, ui x = ui s2 -> set_ui (set_resid (fun y => u32 (y + 0)) (ui x)) x = x).
    { intros x Ex. rewrite Ex, Eu2. unfold set_resid, advance. cbn. rewrite Z.add_0_r, wrapu_small by lia.
      unfold advance in Eu2. rewrite <- Eu2, <- Ex. by destruct x. }
    unfold s3. destruct (negb (k =? 0) && (sfi_size (sv s) <? off + k))%bool; rewrite Hid by done; by destruct r. }
  assert (Hk3 : ui s3 = ui s2 /\ (forall pos, file_byte s3 pos = file_byte s2 pos) /\ evolves s s3 /\
                sfi_size (sv s3) = (if k =? 0 then sfi_size (sv s) else Z.max (sfi_size (sv s)) (off + k)) /\
                sfi_size (sv s3) <= MAXSIZE).
  { pose proof (mv_ev _ _ _ Hm) as He. destruct (size_evolves s2 (u32 (off + k)) (ev_ok _ _ He)) as [He2 Hb2].
    pose proof (mv_size _ _ _ Hm) as Esz. pose proof (mv_max _ _ _ Hm) as Hmx. fold off in Hmx. unfold s3.
    destruct (Z.eqb_spec k 0), (Z.ltb_spec (sfi_size (sv s)) (off + k)); cbn [negb andb]; try (split_and!; (done || lia)).
    assert (off + k <= MAXSIZE) by lia.
    rewrite wrapu_small in He2, Hb2 |- * by (unfold MAXSIZE, MAXBLOCKS, SFS_BLOCKSIZE in *; lia).
    cbn [set_sv set_size sv sfi_size ui].
    split_and!; [done|done|by eapply evolves_trans|lia|lia]. }
  destruct Hk3 as (Eu3 & Hb3 & He3 & Hs3 & Hmx3). exists k, s3.
  split; [done|]. split; [|split; [rewrite Eu3, Eu2; unfold advance; by rewrite Hrw|]].
  - destruct Hcase as [(-> & -> & ->)|(e & -> & -> & He & Hlt)]; rewrite Hout; [by left|right].
    split; [destruct He as [-> | ->]; auto|done].
  - split_and!; try done. intros pos Hpos. rewrite Hb3, (mv_bytes _ _ _ Hm pos Hpos). fold off.
    by rewrite Hrw, bool_decide_true by done.
Qed.

(** Writing a file. [sfs_io] on a write transfer of at least one byte writes all
    its bytes, or stops after some of them with [ENOSPC] or [EFBIG]. With [k] the
    number of bytes written: bytes [off .. off+k-1] of the file are the first [k] bytes
    of the buffer, every other byte of the file is unchanged, the size becomes the
    larger of the old size and [off+k], and no block in use outside the file
    changes. *)
Theorem sfs_io_write (s : st) (Hok : file_ok s) (Hu : uio_ok (ui s)) (Hrw : uio_rwf (ui s) = UIO_WRITE)
    (Hres : 0 < uio_resid (ui s)) (Hsize : 0 <= sfi_size (sv s) <= MAXSIZE) :
  let off := uio_offset (ui s) in
  exists k s', 0 <= k <= uio_resid (ui s) /\
    (sfs_io s = Done tt s' /\ k = uio_resid (ui s) \/
     (sfs_io s = Fail ENOSPC s' \/ sfs_io s = Fail EFBIG s') /\ k < uio_resid (ui s)) /\
    ui s' = advance (ui s) k [] /\ evolves s s' /\
    (forall pos, 0 <= pos < MAXSIZE -> file_byte s' pos =
       if (off <=? pos) && (pos <? off + k) then uio_buf (ui s) !!! Z.to_nat (pos - off) else file_byte s pos) /\
    sfi_size (sv s') = (if k =? 0 then sfi_size (sv s) else Z.max (sfi_size (sv s)) (off + k)) /\
    sfi_size (sv s') <= MAXSIZE.
Proof. by apply io_write_ok. Qed.

End Sound.

End Files.

(** ** A concrete file

    A volume of 64 blocks of which 0 to 6 are in use; the file has inode 3, data in
    block 4 and, through the indirect block 5, in block 6. *)

#[global] Instance demo_geometry : Geometry := {| d_blocks := 64 |}.
#[global] Instance demo_disk : Disk := {| lh_result n := 0; junk n := [] |}.

#[global] Instance demo_reliable : Reliable demo_disk.
Proof. intros n. reflexivity. Qed.

Definition demo_sv : vnode := mkvn 3 SFS_TYPE_FILE 8000 1 (4 :: replicate 14 0) 5 false.
Definition demo_blocks (b : Z) : list Z :=
  if b =? 5 then unwords (6 :: replicate 127 0) else replicate 512 (b + 60).
Definition demo_st (u : uio) : st :=
  mkst demo_blocks (replicate 512 0) 0 (mkbitmap 64 [127; 0; 0; 0; 0; 0; 0; 0]) false 64 demo_sv u.

Lemma NoDup_nonzero (l : list Z) i j x :
  NoDup (filter (fun p => p <> 0) l) -> l !! i = Some x -> l !! j = Some x -> x <> 0 -> i = j.
Proof.
  revert i j. induction l as [|y l IH]; intros i j Hn Hi Hj Hx; [done|]. rewrite filter_cons in Hn.
  assert (Hin : forall k, l !! k = Some x -> x ∈ filter (fun p => p <> 0) l).
  { intros k Hk. apply list_elem_of_filter. split; [done|]. by eapply list_elem_of_lookup_2. }
  destruct i as [|i], j as [|j]; cbn in Hi, Hj; [done| | |].
  - injection Hi as ->. rewrite decide_True in Hn by done. apply NoDup_cons in Hn as [Hn _]. by destruct Hn; eapply Hin.
  - injection Hj as ->. rewrite decide_True in Hn by done. apply NoDup_cons in Hn as [Hn _]. by destruct Hn; eapply Hin.
  - f_equal. eapply IH; try done. case_decide; [by apply NoDup_cons in Hn as [_ Hn]|done].
Qed.

Lemma demo_ptrs u : ptrs (demo_st u) = (4 :: replicate 14 0) ++ [5; 6] ++ replicate 127 0.
Proof. vm_compute. reflexivity. Qed.

Lemma demo_file_ok u : file_ok (demo_st u).
Proof.
  split.
  - split.
    + split_and!; [cbn; lia|reflexivity|]. intros b. cbn. unfold demo_blocks. destruct (b =? 5); [reflexivity|apply length_replicate].
    + split_and!; [cbn; lia|cbn; lia|reflexivity|repeat constructor; lia|]. intros i Hi. cbn in Hi. lia.
    + cbn. lia.
    + cbn. lia.
    + reflexivity.
  - reflexivity.
  - intros i p Hp. rewrite demo_ptrs in Hp. apply list_elem_of_lookup_2 in Hp. cbn [sb_nblocks sfs_freemap demo_st].
    assert (Hc : p = 0 \/ p = 4 \/ p = 5 \/ p = 6).
    { rewrite !elem_of_app, !elem_of_cons, !elem_of_replicate, elem_of_nil in Hp. naive_solver. }
    destruct Hc as [->|[->|[->| ->]]]; [by left| | |]; right; (split; [lia|reflexivity]).
  - intros i j p. rewrite demo_ptrs. apply NoDup_nonzero. vm_compute.
    repeat constructor; rewrite ?elem_of_cons, ?elem_of_nil; lia.
Qed.

Lemma demo_uio_ok rw off buf : 0 <= off <= 2 ^ 20 -> (length buf <= 1000)%nat ->
  uio_ok (uio_kinit buf (Z.of_nat (length buf)) off rw).
Proof. intros Ho Hl. split; cbn; [lia|lia|done|done]. Qed.

(** Ten bytes across the end of block 0: data, then the hole. *)
Lemma sfs_io_read_witness :
  exists s', sfs_io (demo_st (uio_kinit [] 10 507 UIO_READ)) = Done tt s' /\
    uio_buf (ui s') = [64; 64; 64; 64; 64; 0; 0; 0; 0; 0].
Proof.
  destruct (sfs_io_read (demo_st (uio_kinit [] 10 507 UIO_READ))) as (s' & E & Eu & _);
    [apply demo_file_ok|split; cbn; (lia || done)|reflexivity|reflexivity|cbn; unfold MAXSIZE, MAXBLOCKS, SFS_BLOCKSIZE; lia|].
  exists s'. split; [exact E|]. rewrite Eu. vm_compute. reflexivity.
Defined.

(** Six bytes written across the end of block 0: a block is allocated for the hole. *)
Lemma sfs_io_write_witness :
  exists s', sfs_io (demo_st (uio_kinit [1; 2; 3; 4; 5; 6] 6 509 UIO_WRITE)) = Done tt s' /\
    file_byte s' 512 = 4 /\ file_byte s' 508 = 64.
Proof.
  destruct (sfs_io_write (demo_st (uio_kinit [1; 2; 3; 4; 5; 6] 6 509 UIO_WRITE)))
    as (k & s' & Hk & Hc & _ & _ & Hb & _);
    [apply demo_file_ok|apply (demo_uio_ok UIO_WRITE 509 [1; 2; 3; 4; 5; 6]); cbn; lia|reflexivity|reflexivity
    |cbn; unfold MAXSIZE, MAXBLOCKS, SFS_BLOCKSIZE; lia|].
  destruct Hc as [[E ->]|[F _]].
  - exists s'. split; [exact E|]. rewrite !Hb by (unfold MAXSIZE, MAXBLOCKS, SFS_BLOCKSIZE; lia). split; vm_compute; reflexivity.
  - exfalso. destruct F as [F|F]; apply (f_equal (fun o => match o with Done _ _ => true | _ => false end)) in F;
      vm_compute in F; discriminate F.
Defined.
