(* ===== verification/SfsTrunc.v ===== *)
(** * SFS: truncating a file

    [sfs_itrunc] of kern/fs/sfs/sfs_bmap.c, which frees the blocks past the new end of
    a file and is also what erases a file that lost its last name. *)

From stdpp Require Import base numbers list.
From Stdlib Require Import ZArith Lia.
From S2P Require Import Prelude Bitmap SfsDisk SfsFile.

Open Scope Z_scope.
Open Scope k_scope.

Section Trunc.
Context {G : Geometry} {D : Disk}.

(** kern/fs/sfs/sfs_bmap.c:234-241 (sfs_itrunc): the loop over the direct blocks. *)
Fixpoint trunc_direct (n : nat) (i blocklen : Z) : K st unit :=
  match n with
  | O => kret tt
  | S n' =>
      s <- kget ;;
      let block := sfi_direct (sv s) !!! Z.to_nat i in
      (if (blocklen <=? i) && negb (block =? 0) then
         sfs_bfree block ;;; kmodify (set_sv (set_direct i 0))
       else kret tt) ;;;
      trunc_direct n' (i + 1) blocklen
  end.

(** kern/fs/sfs/sfs_bmap.c:264-275 (sfs_itrunc): the loop over the indirect block;
    the new contents, whether it has a nonzero entry and whether it changed. *)
Fixpoint trunc_indirect (l : list Z) (j blocklen : Z) : K st (list Z * bool * bool) :=
  match l with
  | [] => kret ([], false, false)
  | e :: l' =>
      if (blocklen <? SFS_NDIRECT + j) && negb (e =? 0) then
        sfs_bfree e ;;;
        r <- trunc_indirect l' (j + 1) blocklen ;;
        let '(l2, nz, _) := r in
        kret (0 :: l2, nz, true)
      else
        r <- trunc_indirect l' (j + 1) blocklen ;;
        let '(l2, nz, dirty) := r in
        kret (e :: l2, nz || negb (e =? 0), dirty)
  end.

(** kern/fs/sfs/sfs_bmap.c:203-302 (sfs_itrunc). *)
Definition sfs_itrunc (len : Z) : K st unit :=
  let blocklen := u32 ((len + SFS_BLOCKSIZE - 1) / SFS_BLOCKSIZE) in
  trunc_direct 15 0 blocklen ;;;
  s <- kget ;;
  let idblock := sfi_indirect (sv s) in
  let highblock := SFS_NDIRECT + SFS_DBPERIDB - 1 in
  (if (blocklen <? highblock) && negb (idblock =? 0) then
     data <- sfs_readblock idblock ;;
     r <- trunc_indirect (words data) 0 blocklen ;;
     let '(idbuf, hasnonzero, iddirty) := r in
     if negb hasnonzero then
       sfs_bfree idblock ;;; kmodify (set_sv (set_indirect 0))
     else if (iddirty : bool) then sfs_writeblock idblock (unwords idbuf)
     else kret tt
   else kret tt) ;;;
  kmodify (set_sv (set_size (u32 len))).

(** ** Lemmas *)

Section Sound.
Context `{!Reliable D}.

(** The blocks in use afterwards are those of before without the ones in [P]. *)
Definition frees (P : Z -> Prop) (s s' : st) : Prop :=
  vol_ok s' /\ dsk s' = dsk s /\ sb_nblocks s' = sb_nblocks s /\ ui s' = ui s /\
  forall b, 0 <= b -> (bit (sfs_freemap s') b = true <-> bit (sfs_freemap s) b = true /\ ~ P b).

Lemma frees_trans P Q R s1 s2 s3 : frees P s1 s2 -> frees Q s2 s3 -> (forall b, 0 <= b -> R b <-> P b \/ Q b) -> frees R s1 s3.
Proof.
  intros (V2 & D2 & N2 & U2 & B2) (V3 & D3 & N3 & U3 & B3) HR. split_and!; [done|congruence|congruence|congruence|].
  intros b Hb. rewrite B3, B2, HR by done. tauto.
Qed.

Lemma bfree_frees s b : vol_ok s -> 0 < b < sb_nblocks s -> bit (sfs_freemap s) b = true ->
  exists s', sfs_bfree b s = Done tt s' /\ frees (fun x => x = b) s s' /\ sv s' = sv s.
Proof.
  intros Hv Hb Hu. destruct (sfs_bfree_ok b s Hv Hb Hu) as (s' & -> & V & Dk & B & N & Sv & U).
  exists s'. split; [done|]. split; [|done]. unfold frees. split_and!; try done.
  intros x Hx. rewrite B by done. case_decide; subst; naive_solver.
Qed.

Lemma frees_sv P s s' f : frees P s s' -> frees P s (set_sv f s').
Proof. intros (V & ? & ? & ? & ?). split_and!; try done. by apply vol_ok_sv. Qed.

(** The loop over the direct blocks from [i] on. *)
Lemma trunc_direct_ok n i bl s :
  vol_ok s -> length (sfi_direct (sv s)) = 15%nat -> 0 <= i -> i + Z.of_nat n = 15 ->
  (forall k p, sfi_direct (sv s) !! k = Some p -> p <> 0 -> i <= Z.of_nat k -> 0 < p < sb_nblocks s /\ bit (sfs_freemap s) p = true) ->
  (forall k k' p, sfi_direct (sv s) !! k = Some p -> sfi_direct (sv s) !! k' = Some p -> p <> 0 -> k = k') ->
  exists s', trunc_direct n i bl s = Done tt s' /\
    frees (fun b => b <> 0 /\ exists k, sfi_direct (sv s) !! k = Some b /\ i <= Z.of_nat k /\ bl <= Z.of_nat k) s s' /\
    (exists d dirty, sv s' = mkvn (sv_ino (sv s)) (sfi_type (sv s)) (sfi_size (sv s)) (sfi_linkcount (sv s)) d (sfi_indirect (sv s)) dirty /\
       forall k, d !! k = if decide (i <= Z.of_nat k < 15 /\ bl <= Z.of_nat k) then Some 0 else sfi_direct (sv s) !! k).
Proof.
  revert i s. induction n as [|n IH]; intros i s Hv Hl Hi0 Hi Hok Hinj; cbn [trunc_direct].
  - exists s. split; [done|]. split.
    + unfold frees. split_and!; try done. intros b Hb. split; [|tauto]. intros ?. split; [done|]. intros (_ & k & Hk & ? & _).
      apply lookup_lt_Some in Hk. lia.
    + exists (sfi_direct (sv s)), (sv_dirty (sv s)). split; [by destruct (sv s)|].
      intros k. case_decide; [lia|done].
  - kunfold. set (d := sfi_direct (sv s)) in *.
    assert (Hp : d !! Z.to_nat i = Some (d !!! Z.to_nat i)) by (apply list_lookup_lookup_total_lt; lia).
    set (p := d !!! Z.to_nat i) in *.
    destruct ((bl <=? i) && negb (p =? 0))%bool eqn:E; bool_to_prop.
    + destruct (Hok _ _ Hp) as [Hpr Hpu]; [done|lia|].
      destruct (bfree_frees s p Hv Hpr Hpu) as (s1 & -> & Hf1 & Es1).
      set (s2 := set_sv (set_direct i 0) s1). pose proof (frees_sv _ _ _ (set_direct i 0) Hf1) as Hf2. fold s2 in Hf2.
      assert (Ed2 : sfi_direct (sv s2) = <[Z.to_nat i := 0]> d) by (unfold s2; cbn; by rewrite Es1).
      destruct (IH (i + 1) s2) as (s3 & E3 & Hf3 & (d3 & dr3 & Esv3 & Hd3)).
      * apply Hf2.
      * by rewrite Ed2, length_insert.
      * lia.
      * lia.
      * rewrite Ed2. intros k q Hk Hq Hge. rewrite list_lookup_insert_ne in Hk by lia.
        destruct (Hok k q Hk Hq) as [? ?]; [lia|]. destruct Hf2 as (_ & _ & -> & _ & HB). split; [done|].
        apply HB; [lia|]. split; [done|]. intros ->. assert (k = Z.to_nat i) by (by eapply Hinj). lia.
      * rewrite Ed2. intros k k' q Hk Hk' Hq. apply list_lookup_insert_Some in Hk as [(_ & <- & _)|[_ Hk]]; [done|].
        apply list_lookup_insert_Some in Hk' as [(_ & <- & _)|[_ Hk']]; [done|]. by eapply Hinj.
      * exists s3. split; [exact E3|]. split.
        -- eapply frees_trans; [exact Hf2|exact Hf3|]. intros b Hb. cbn beta. rewrite Ed2. split.
           ++ intros (Hb0 & k & Hk & Hki & Hkb). destruct (decide (k = Z.to_nat i)) as [->|Hne]; [left; congruence|right].
              split; [done|]. exists k. rewrite list_lookup_insert_ne by done. split_and!; [done|lia|lia].
           ++ intros [->|(Hb0 & k & Hk & Hki & Hkb)].
              ** split; [done|]. exists (Z.to_nat i). split_and!; [done|lia|lia].
              ** rewrite list_lookup_insert_ne in Hk by lia. split; [done|]. exists k. split_and!; [done|lia|lia].
        -- exists d3, dr3. split; [rewrite Esv3; unfold s2; cbn; by rewrite Es1|]. intros k. rewrite Hd3, Ed2.
           destruct (decide (k = Z.to_nat i)) as [->|Hne].
           ++ rewrite list_lookup_insert_eq by lia. repeat case_decide; try lia; done.
           ++ rewrite list_lookup_insert_ne by done. repeat case_decide; try lia; done.
    + assert (Hz : bl <= i -> p = 0).
      { intros Hle. apply andb_false_iff in E as [E|E]; bool_to_prop; [lia|done]. }
      destruct (IH (i + 1) s) as (s3 & E3 & Hf3 & (d3 & dr3 & Esv3 & Hd3)); try done; try lia.
      { intros k q Hk Hq Hge. apply (Hok k q); [done|done|lia]. }
      exists s3. split; [exact E3|]. split.
      * destruct Hf3 as (V & ? & ? & ? & HB). unfold frees. split_and!; try done. intros b Hb. rewrite HB by done. fold d.
        assert (Hiff : (b <> 0 /\ exists k, d !! k = Some b /\ i + 1 <= Z.of_nat k /\ bl <= Z.of_nat k) <->
                       (b <> 0 /\ exists k, d !! k = Some b /\ i <= Z.of_nat k /\ bl <= Z.of_nat k)).
        { split; intros (Hb0 & k & Hk & ? & ?); (split; [done|]); exists k; split_and!; try done; try lia.
          destruct (decide (Z.of_nat k = i)) as [Eki|]; [|lia]. exfalso.
          assert (k = Z.to_nat i) as -> by lia. rewrite Hp in Hk. injection Hk as <-. apply Hb0, Hz. lia. }
        by rewrite Hiff.
      * exists d3, dr3. split; [done|]. intros k. rewrite Hd3. fold d. destruct (decide (Z.of_nat k = i)) as [Eki|].
        -- assert (k = Z.to_nat i) as -> by lia. repeat case_decide; try lia; try done. rewrite Hp. by rewrite Hz by lia.
        -- repeat case_decide; try lia; done.
Qed.

(** The loop over the entries of the indirect block: what it returns and frees. *)
Definition trunc_entries (l : list Z) (j bl : Z) (s : st) (r : outcome st (list Z * bool * bool)) : Prop :=
  exists l2 nz dirty s', r = Done (l2, nz, dirty) s' /\
    frees (fun b => b <> 0 /\ exists k, l !! k = Some b /\ bl < 15 + j + Z.of_nat k) s s' /\ sv s' = sv s /\
    length l2 = length l /\
    (forall k e, l !! k = Some e -> l2 !! k = Some (if bl <? 15 + j + Z.of_nat k then 0 else e)) /\
    (nz = false <-> forall k e, l2 !! k = Some e -> e = 0) /\ (dirty = false -> l2 = l).

Lemma trunc_indirect_ok l j bl s :
  vol_ok s -> 0 <= j ->
  (forall k p, l !! k = Some p -> p <> 0 -> 0 < p < sb_nblocks s /\ bit (sfs_freemap s) p = true) ->
  (forall k k' p, l !! k = Some p -> l !! k' = Some p -> p <> 0 -> k = k') ->
  trunc_entries l j bl s (trunc_indirect l j bl s).
Proof.
  revert j s. induction l as [|e l IH]; intros j s Hv Hj Hok Hinj; cbn [trunc_indirect].
  - exists [], false, false, s. split; [done|]. split; [|split_and!; done].
    unfold frees. split_and!; try done. intros b Hb. split; [|tauto]. intros ?. split; [done|]. by intros (_ & k & Hk & _).
  - kunfold. change SFS_NDIRECT with 15.
    assert (Htail : forall s1, vol_ok s1 -> sb_nblocks s1 = sb_nblocks s ->
              (forall k p, l !! k = Some p -> p <> 0 -> bit (sfs_freemap s) p = true -> bit (sfs_freemap s1) p = true) ->
              trunc_entries l (j + 1) bl s1 (trunc_indirect l (j + 1) bl s1)).
    { intros s1 Hv1 Hn1 Hb1. apply IH; [done|lia| |].
      - intros k p Hk Hp. rewrite Hn1. destruct (Hok (S k) p Hk Hp) as [? ?]. split; [done|by eapply Hb1].
      - intros k k' p Hk Hk' Hp. pose proof (Hinj (S k) (S k') p Hk Hk' Hp). lia. }
    assert (Hiff : forall b, (exists k, (e :: l) !! k = Some b /\ bl < 15 + j + Z.of_nat k) <->
              (b = e /\ bl < 15 + j) \/ (exists k, l !! k = Some b /\ bl < 15 + (j + 1) + Z.of_nat k)).
    { intros b. split.
      - intros ([|k] & Hk & ?); [left; injection Hk as ->; split; [done|lia]|right; exists k; split; [done|lia]].
      - intros [[-> ?]|(k & Hk & ?)]; [exists 0%nat; split; [done|lia]|exists (S k); split; [done|lia]]. }
    assert (Hcons : forall l2 (x : Z), x = (if bl <? 15 + j then 0 else e) ->
              (forall k e', l !! k = Some e' -> l2 !! k = Some (if bl <? 15 + (j + 1) + Z.of_nat k then 0 else e')) ->
              forall k e', (e :: l) !! k = Some e' -> (x :: l2) !! k = Some (if bl <? 15 + j + Z.of_nat k then 0 else e')).
    { intros l2 x -> Hl2 [|k] e' Hk.
      - injection Hk as <-. cbn. by rewrite Z.add_0_r.
      - change (l !! k = Some e') in Hk. change (l2 !! k = Some (if bl <? 15 + j + Z.of_nat (S k) then 0 else e')).
        replace (15 + j + Z.of_nat (S k)) with (15 + (j + 1) + Z.of_nat k) by lia. by apply Hl2. }
    destruct ((bl <? 15 + j) && negb (e =? 0))%bool eqn:E; bool_to_prop.
    + destruct (Hok 0%nat e eq_refl) as [Her Heu]; [done|].
      destruct (bfree_frees s e Hv Her Heu) as (s1 & -> & Hf1 & Es1).
      destruct (Htail s1) as (l2 & nz & dr & s2 & -> & Hf2 & Es2 & Hlen & Hl2 & Hnz & Hdr); [apply Hf1|apply Hf1| |].
      { intros k p Hk Hp Hu. apply Hf1; [destruct (Hok (S k) p Hk Hp); lia|]. split; [done|]. intros ->.
        pose proof (Hinj 0%nat (S k) e eq_refl Hk Hp). lia. }
      exists (0 :: l2), nz, true, s2. split; [done|]. split; [|split_and!; [congruence|cbn; lia| |rewrite Hnz; split; [intros Hz [|k] x Hx|intros Hz k x; apply (Hz (S k))]|done]].
      * eapply frees_trans; [exact Hf1|exact Hf2|]. intros b Hb. cbn beta. rewrite Hiff. naive_solver.
      * apply Hcons; [|done]. by destruct (Z.ltb_spec bl (15 + j)); [|lia].
      * by injection Hx as <-.
      * by eapply (Hz k).
    + destruct (Htail s Hv eq_refl) as (l2 & nz & dr & s2 & -> & Hf2 & Es2 & Hlen & Hl2 & Hnz & Hdr); [done|].
      exists (e :: l2), (nz || negb (e =? 0))%bool, dr, s2. split; [done|].
      split; [|split_and!; [congruence|cbn; lia| |rewrite orb_false_iff, Hnz, negb_false_iff, Z.eqb_eq; split; [intros [Hz He] [|k] x Hx|]|intros Hd; by rewrite Hdr]].
      * destruct Hf2 as (V & ? & ? & ? & HB). unfold frees. split_and!; try done. intros b Hb. rewrite HB by done. rewrite Hiff.
        apply andb_false_iff in E as [E|E]; bool_to_prop; naive_solver lia.
      * apply Hcons; [|done]. apply andb_false_iff in E as [->|E]; [done|]. bool_to_prop. rewrite E. by destruct (bl <? 15 + j).
      * injection Hx as <-. done.
      * by eapply (Hz k).
      * intros Hz. split; [intros k x; apply (Hz (S k))|by apply (Hz 0%nat)].
Qed.

(** The entries of the indirect block, zeros when there is none. *)
Definition entries (s : st) : list Z :=
  if sfi_indirect (sv s) =? 0 then replicate 128 0 else words (dsk s (sfi_indirect (sv s))).

Lemma ptrs_at (d l : list Z) x i : length d = 15%nat ->
  (d ++ [x] ++ l) !! i = if decide (i < 15)%nat then d !! i else if decide (i = 15%nat) then Some x else l !! (i - 16)%nat.
Proof.
  intros Hd. case_decide; [by rewrite lookup_app_l by lia|]. rewrite lookup_app_r, Hd by lia.
  case_decide; [by subst|]. rewrite lookup_app_r by (cbn; lia). f_equal. cbn. lia.
Qed.

Lemma entries_length s : length (entries s) = 128%nat.
Proof. unfold entries. destruct (_ =? 0); [apply length_replicate|apply block_words_length]. Qed.

(** Some pointers are cleared and exactly the blocks they named become free. *)
Definition cleared (s s' : st) (b : Z) : Prop := b <> 0 /\ exists i, ptrs s !! i = Some b /\ ptrs s' !! i = Some 0.

Lemma shrink_ok s s' : file_ok s -> vol_ok s' -> sb_nblocks s' = sb_nblocks s -> length (sfi_direct (sv s')) = 15%nat ->
  (forall i p, ptrs s' !! i = Some p -> p = 0 \/ ptrs s !! i = Some p) ->
  (forall b, 0 <= b -> (bit (sfs_freemap s') b = true <-> bit (sfs_freemap s) b = true /\ ~ cleared s s' b)) -> file_ok s'.
Proof.
  intros Hok Hv Hn Hl Hp Hb. split; [done|done| |].
  - intros i p Hi. destruct (decide (p = 0)) as [|Hne]; [by left|right].
    destruct (Hp i p Hi) as [|Hi']; [done|]. destruct (ptr_used s i p Hok Hi' Hne) as [? ?]. rewrite Hn. split; [done|].
    apply Hb; [lia|]. split; [done|]. intros (_ & k & Hk & Hk').
    assert (k = i) as -> by (by eapply (fo_inj s Hok)). congruence.
  - intros i j p Hi Hj Hne. destruct (Hp i p Hi) as [|Hi']; [done|]. destruct (Hp j p Hj) as [|Hj']; [done|].
    by eapply (fo_inj s Hok).
Qed.

(** The fields of the vnode that truncation leaves alone. *)
Definition same_id (v v' : vnode) : Prop :=
  sv_ino v' = sv_ino v /\ sfi_type v' = sfi_type v /\ sfi_linkcount v' = sfi_linkcount v.

(** The state when the pointers are [d], [id'] and [l']. *)
Record truncated (s s' : st) (bl : Z) (d l' : list Z) (id' : Z) : Prop := {
  tr_ptrs : ptrs s' = d ++ [id'] ++ l';
  tr_dlen : length d = 15%nat;
  tr_llen : length l' = 128%nat;
  tr_d : forall k, d !! k = if decide (0 <= Z.of_nat k < 15 /\ bl <= Z.of_nat k) then Some 0 else sfi_direct (sv s) !! k;
  tr_l : forall k e, entries s !! k = Some e -> l' !! k = Some (if bl <? 15 + Z.of_nat k then 0 else e);
  tr_id : id' = sfi_indirect (sv s) \/ id' = 0;
  tr_keep : bl < 142 -> id' <> 0 -> ~ forall k e, l' !! k = Some e -> e = 0
}.

Lemma truncated_ptr s s' bl d l' id' i p : file_ok s -> truncated s s' bl d l' id' ->
  ptrs s' !! i = Some p -> p = 0 \/ ptrs s !! i = Some p.
Proof.
  intros Hok [-> Hd Hl Td Tl Tid _]. rewrite ptrs_at by done. change (ptrs s) with (sfi_direct (sv s) ++ [sfi_indirect (sv s)] ++ entries s).
  rewrite ptrs_at by apply Hok. case_decide; [rewrite Td; case_decide; [intros [= <-]; by left|by right]|].
  case_decide; [intros [= <-]; destruct Tid as [->|]; auto|].
  intros Hp. pose proof (lookup_lt_Some _ _ _ Hp).
  destruct (entries s !! (i - 16)%nat) as [e|] eqn:Ee; [|apply lookup_ge_None in Ee; rewrite entries_length in Ee; lia].
  rewrite (Tl _ _ Ee) in Hp. injection Hp as <-. destruct (_ <? _); [by left|by right].
Qed.

Lemma truncated_blockof s s' bl d l' id' fb : file_ok s -> truncated s s' bl d l' id' -> 0 <= fb < MAXBLOCKS -> 0 <= bl ->
  blockof s' fb = if (if fb <? 15 then bl <=? fb else bl <? fb) then 0 else blockof s fb.
Proof.
  intros Hok [Ep Hd Hl Td Tl Tid _] Hfb Hbl. unfold MAXBLOCKS in Hfb.
  assert (Hlook : ptrs s' !! slot fb = (fun p => if (if fb <? 15 then bl <=? fb else bl <? fb) then 0 else p) <$> ptrs s !! slot fb).
  { rewrite Ep. change (ptrs s) with (sfi_direct (sv s) ++ [sfi_indirect (sv s)] ++ entries s).
    rewrite !ptrs_at by (done || apply Hok). unfold slot. destruct (Z.ltb_spec fb 15).
    - rewrite !decide_True by lia. rewrite Td. destruct (Z.leb_spec bl fb).
      + rewrite decide_True by lia. destruct (sfi_direct (sv s) !! Z.to_nat fb) eqn:E; [done|].
        apply lookup_ge_None in E. rewrite (fo_len s Hok) in E. lia.
      + rewrite decide_False by lia. by destruct (sfi_direct (sv s) !! Z.to_nat fb).
    - rewrite !decide_False by lia.
      destruct (entries s !! (Z.to_nat (fb + 1) - 16)%nat) as [e|] eqn:Ee; [|apply lookup_ge_None in Ee; rewrite entries_length in Ee; lia].
      rewrite (Tl _ _ Ee). cbn. replace (15 + Z.of_nat (Z.to_nat (fb + 1) - 16)) with fb by lia. done. }
  unfold blockof. rewrite !list_lookup_total_alt, Hlook.
  pose proof (blockof_lookup s fb Hok ltac:(unfold MAXBLOCKS; lia)) as L. by rewrite L.
Qed.

(** The blocks the loops free are those whose pointer is cleared. *)
Lemma truncated_cleared s s' bl d l' id' b : file_ok s -> truncated s s' bl d l' id' -> 0 <= b ->
  cleared s s' b <->
  (b <> 0 /\ exists k, sfi_direct (sv s) !! k = Some b /\ 0 <= Z.of_nat k /\ bl <= Z.of_nat k) \/
  (b <> 0 /\ exists k, entries s !! k = Some b /\ bl < 15 + Z.of_nat k) \/
  (b <> 0 /\ b = sfi_indirect (sv s) /\ id' = 0).
Proof.
  intros Hok [Ep Hd Hl Td Tl Tid _] Hb. unfold cleared. rewrite Ep.
  change (ptrs s) with (sfi_direct (sv s) ++ [sfi_indirect (sv s)] ++ entries s). pose proof (fo_len s Hok) as Hlen. split.
  - intros (Hb0 & i & H1 & H2). rewrite !ptrs_at in H1, H2 by done. case_decide; [left|right; case_decide; [right|left]].
    + split; [done|]. exists i. rewrite Td in H2. case_decide; [split_and!; (done || lia)|congruence].
    + split_and!; congruence.
    + split; [done|]. exists (i - 16)%nat. split; [done|]. rewrite (Tl _ _ H1) in H2.
      destruct (Z.ltb_spec bl (15 + Z.of_nat (i - 16))); [done|congruence].
  - intros [(Hb0 & k & Hk & _ & Hbl)|[(Hb0 & k & Hk & Hbl)|(Hb0 & -> & ->)]]; (split; [done|]).
    + pose proof (lookup_lt_Some _ _ _ Hk). exists k. rewrite !ptrs_at, !decide_True by (done || lia). split; [done|].
      rewrite Td, decide_True by lia. done.
    + exists (16 + k)%nat. rewrite !ptrs_at, !decide_False by (done || lia). replace (16 + k - 16)%nat with k by lia.
      split; [done|]. rewrite (Tl _ _ Hk). destruct (Z.ltb_spec bl (15 + Z.of_nat k)); [done|lia].
    + exists 15%nat. by rewrite !ptrs_at by done.
Qed.

Lemma blockof_ne_indirect s fb : file_ok s -> 0 <= fb < MAXBLOCKS -> blockof s fb <> 0 -> blockof s fb <> sfi_indirect (sv s).
Proof.
  intros Hok Hfb Hne E. pose proof (blockof_lookup s fb Hok Hfb) as L. apply (slot_ne fb).
  rewrite E in L, Hne. eapply (fo_inj s Hok); [exact L|apply ptrs_indirect, Hok|exact Hne].
Qed.

(** Which blocks are freed by truncation to [bl] blocks, when the indirect block is
    kept ([id' <> 0]) or not. *)
Definition freed (s : st) (bl id' b : Z) : Prop :=
  (b <> 0 /\ exists k, sfi_direct (sv s) !! k = Some b /\ 0 <= Z.of_nat k /\ bl <= Z.of_nat k) \/
  (b <> 0 /\ exists k, entries s !! k = Some b /\ bl < 15 + Z.of_nat k) \/
  (b <> 0 /\ b = sfi_indirect (sv s) /\ id' = 0).

(** The state [s2] before the size is set: its pointers are [d], [id'] and
    [entries s2]. *)
Record cut (s s2 : st) (bl : Z) (d : list Z) (id' : Z) : Prop := {
  ct_direct : sfi_direct (sv s2) = d;
  ct_indirect : sfi_indirect (sv s2) = id';
  ct_len : length d = 15%nat;
  ct_vol : vol_ok s2;
  ct_nblocks : sb_nblocks s2 = sb_nblocks s;
  ct_d : forall k, d !! k = if decide (0 <= Z.of_nat k < 15 /\ bl <= Z.of_nat k) then Some 0 else sfi_direct (sv s) !! k;
  ct_l : forall k e, entries s !! k = Some e -> entries s2 !! k = Some (if bl <? 15 + Z.of_nat k then 0 else e);
  ct_id : id' = sfi_indirect (sv s) \/ id' = 0;
  ct_bits : forall b, 0 <= b -> (bit (sfs_freemap s2) b = true <-> bit (sfs_freemap s) b = true /\ ~ freed s bl id' b);
  ct_dsk : forall b, (b <> 0 -> b <> sfi_indirect (sv s)) -> dsk s2 b = dsk s b;
  ct_same : same_id (sv s) (sv s2);
  ct_keep : bl < 142 -> id' <> 0 -> ~ forall k e, entries s2 !! k = Some e -> e = 0
}.

(** What truncation to [bl] blocks and [len] bytes promises. *)
Definition trunc_result (s s' : st) (bl len : Z) : Prop :=
  exists d l' id', truncated s s' bl d l' id' /\ vol_ok s' /\
    sb_nblocks s' = sb_nblocks s /\ sfi_size (sv s') = len /\ length (sfi_direct (sv s')) = 15%nat /\
    (forall b, 0 <= b -> (bit (sfs_freemap s') b = true <-> bit (sfs_freemap s) b = true /\ ~ cleared s s' b)) /\
    (forall b, (b <> 0 -> b <> sfi_indirect (sv s)) -> dsk s' b = dsk s b) /\
    same_id (sv s) (sv s') /\ sv_dirty (sv s') = true.

(** The last step sets the size. *)
Lemma itrunc_finish s s2 bl d id' len : file_ok s -> 0 <= len <= MAXSIZE -> cut s s2 bl d id' ->
  trunc_result s (set_sv (set_size (u32 len)) s2) bl len.
Proof.
  intros Hok Hlen [Ed Eid Hd Hv Hn Td Tl Tid Hb Hdk Hid Hkeep]. set (s' := set_sv (set_size (u32 len)) s2).
  assert (Htr : truncated s s' bl d (entries s2) id').
  { split; try done; [|apply entries_length]. unfold s', ptrs, entries. cbn. by rewrite Ed, Eid. }
  exists d, (entries s2), id'. split; [done|]. split_and!; try done.
  - by apply vol_ok_sv.
  - cbn. apply wrapu_small. unfold MAXSIZE, MAXBLOCKS, SFS_BLOCKSIZE in *. lia.
  - cbn. congruence.
  - intros b Hb0. rewrite (truncated_cleared s s' bl d (entries s2) id') by done. by apply Hb.
Qed.

(** The state after the loop over the direct blocks. *)
Record cut_direct (s s1 : st) (bl : Z) (d : list Z) : Prop := {
  cd_sv : exists dirty, sv s1 = mkvn (sv_ino (sv s)) (sfi_type (sv s)) (sfi_size (sv s)) (sfi_linkcount (sv s)) d (sfi_indirect (sv s)) dirty;
  cd_len : length d = 15%nat;
  cd_d : forall k, d !! k = if decide (0 <= Z.of_nat k < 15 /\ bl <= Z.of_nat k) then Some 0 else sfi_direct (sv s) !! k;
  cd_frees : frees (fun b => b <> 0 /\ exists k, sfi_direct (sv s) !! k = Some b /\ 0 <= Z.of_nat k /\ bl <= Z.of_nat k) s s1
}.

Lemma direct_phase s bl : file_ok s -> exists s1 d, trunc_direct 15 0 bl s = Done tt s1 /\ cut_direct s s1 bl d.
Proof.
  intros Hok. pose proof (fo_len s Hok) as Hdl.
  destruct (trunc_direct_ok 15 0 bl s) as (s1 & -> & Hf1 & (d & dirty & Esv1 & Td)); [apply Hok|done|lia|lia| | |].
  { intros k p Hk Hp _. pose proof (lookup_lt_Some _ _ _ Hk). apply (ptr_used s k); [done| |done]. rewrite ptrs_direct by (done || lia). done. }
  { intros k k' p Hk Hk' Hp. pose proof (lookup_lt_Some _ _ _ Hk). pose proof (lookup_lt_Some _ _ _ Hk').
    apply (fo_inj s Hok k k' p); [| |done]; rewrite ptrs_direct by (done || lia); done. }
  exists s1, d. split; [done|]. split; [by exists dirty| |done|done].
  destruct (Nat.lt_trichotomy (length d) 15) as [Hlt|[|Hgt]]; [exfalso|done|exfalso].
  - assert (Hn : d !! length d = None) by (apply lookup_ge_None; lia). rewrite Td in Hn. case_decide; [done|].
    apply lookup_ge_None in Hn. lia.
  - assert (Hs : is_Some (d !! 15%nat)) by (by apply lookup_lt_is_Some). rewrite Td in Hs. case_decide; [lia|].
    destruct Hs as [x Hx]. apply lookup_lt_Some in Hx. lia.
Qed.

Lemma entries_ptrs s k e : length (sfi_direct (sv s)) = 15%nat -> entries s !! k = Some e -> ptrs s !! (16 + k)%nat = Some e.
Proof.
  intros Hdl Hk. change (ptrs s) with (sfi_direct (sv s) ++ [sfi_indirect (sv s)] ++ entries s).
  rewrite ptrs_at, !decide_False by (done || lia). by replace (16 + k - 16)%nat with k by lia.
Qed.

(** The entries of the indirect block are blocks in use that the first loop has not
    freed. *)
Lemma entries_used s s1 bl d k p : file_ok s -> cut_direct s s1 bl d -> entries s !! k = Some p -> p <> 0 ->
  0 < p < sb_nblocks s1 /\ bit (sfs_freemap s1) p = true /\ p <> sfi_indirect (sv s).
Proof.
  intros Hok [_ _ _ (_ & _ & Hn1 & _ & Hb1)] Hk Hp. pose proof (fo_len s Hok) as Hdl. apply entries_ptrs in Hk; [|done].
  destruct (ptr_used s _ _ Hok Hk Hp) as [? ?]. rewrite Hn1. split; [done|]. split.
  - apply Hb1; [lia|]. split; [done|]. intros (_ & k' & Hk' & _). pose proof (lookup_lt_Some _ _ _ Hk').
    rewrite <- (ptrs_direct s k') in Hk' by (done || lia). pose proof (fo_inj s Hok _ _ _ Hk Hk' Hp). lia.
  - intros ->. pose proof (fo_inj s Hok _ _ _ Hk (ptrs_indirect s Hdl) Hp). lia.
Qed.

(** The indirect block is not looked at: there is none, or all of it stays. *)
Lemma cut_skip s s1 bl d : file_ok s -> 0 <= bl -> cut_direct s s1 bl d ->
  142 <= bl \/ sfi_indirect (sv s) = 0 -> cut s s1 bl d (sfi_indirect (sv s)).
Proof.
  intros Hok Hbl [[dirty Esv1] Hd15 Td (Hv1 & Hdk1 & Hn1 & _ & Hb1)] Hcond.
  assert (Hz : forall k e, entries s !! k = Some e -> bl < 15 + Z.of_nat k -> e = 0).
  { intros k e Hk Hlt. pose proof (lookup_lt_Some _ _ _ Hk) as Hkl. rewrite entries_length in Hkl.
    destruct Hcond as [|E]; [lia|]. unfold entries in Hk. rewrite E in Hk. cbn [Z.eqb] in Hk.
    rewrite lookup_replicate_2 in Hk by done. congruence. }
  split; try done; try (by rewrite Esv1).
  - intros k e Hk. unfold entries at 1. rewrite Esv1. cbn [sfi_indirect]. rewrite Hdk1. fold (entries s). rewrite Hk. f_equal.
    destruct (Z.ltb_spec bl (15 + Z.of_nat k)); [by eapply Hz|done].
  - by left.
  - intros b Hb. rewrite Hb1 by done. unfold freed.
    assert (Hno : ~ (b <> 0 /\ exists k, entries s !! k = Some b /\ bl < 15 + Z.of_nat k)).
    { intros (Hb0 & k & Hk & Hlt). apply Hb0. by eapply Hz. }
    assert (Hni : ~ (b <> 0 /\ b = sfi_indirect (sv s) /\ sfi_indirect (sv s) = 0)) by (intros (? & -> & ?); done). tauto.
  - intros b _. by rewrite Hdk1.
  - intros Hlt Hne. lia.
Qed.

(** The state after the loop over the entries, which left [l2]. *)
Record cut_entries (s s3 : st) (bl : Z) (d l2 : list Z) : Prop := {
  ce_sv : sfi_direct (sv s3) = d /\ sfi_indirect (sv s3) = sfi_indirect (sv s) /\ same_id (sv s) (sv s3);
  ce_len : length d = 15%nat /\ length l2 = 128%nat;
  ce_td : forall k, d !! k = if decide (0 <= Z.of_nat k < 15 /\ bl <= Z.of_nat k) then Some 0 else sfi_direct (sv s) !! k;
  ce_tl : forall k e, entries s !! k = Some e -> l2 !! k = Some (if bl <? 15 + Z.of_nat k then 0 else e);
  ce_words : Forall (fun w => 0 <= w < 2 ^ 32) l2;
  ce_vol : vol_ok s3 /\ dsk s3 = dsk s /\ sb_nblocks s3 = sb_nblocks s;
  ce_bits : forall b, 0 <= b -> (bit (sfs_freemap s3) b = true <-> bit (sfs_freemap s) b = true /\ ~ freed s bl 1 b);
  ce_id : 0 < sfi_indirect (sv s) < sb_nblocks s /\ bit (sfs_freemap s3) (sfi_indirect (sv s)) = true
}.

Lemma entries_phase s s1 bl d : file_ok s -> 0 <= bl -> cut_direct s s1 bl d -> sfi_indirect (sv s) <> 0 ->
  let s2 := touch (dsk s1 (sfi_indirect (sv s))) s1 in
  exists l2 nz dr s3, trunc_indirect (words (dsk s1 (sfi_indirect (sv s)))) 0 bl s2 = Done (l2, nz, dr) s3 /\
    cut_entries s s3 bl d l2 /\ (nz = false <-> forall k e, l2 !! k = Some e -> e = 0) /\ (dr = false -> l2 = entries s).
Proof.
  intros Hok Hbl Hcd Hid s2. pose proof (fo_len s Hok) as Hdl.
  pose proof Hcd as [[dirty Esv1] Hd15 Td (Hv1 & Hdk1 & Hn1 & _ & Hb1)].
  destruct (ptr_used s 15 _ Hok (ptrs_indirect s Hdl) Hid) as [Hidr Hidu].
  assert (Hv2 : vol_ok s2).
  { destruct Hv1 as [Hdisk1 ? ? ? ?]. split; try done. apply touch_disk_ok; [done|apply Hdisk1]. }
  assert (Eent : words (dsk s1 (sfi_indirect (sv s))) = entries s).
  { rewrite Hdk1. unfold entries. by destruct (Z.eqb_spec (sfi_indirect (sv s)) 0). }
  rewrite Eent.
  destruct (trunc_indirect_ok (entries s) 0 bl s2) as (l2 & nz & dr & s3 & -> & Hf3 & Esv3 & Hll & Hl2 & Hnz & Hdr);
    [done|lia| | |].
  { intros k p Hk Hp. destruct (entries_used s s1 bl d k p Hok Hcd Hk Hp) as (? & ? & _). done. }
  { intros k k' p Hk Hk' Hp. apply entries_ptrs in Hk, Hk'; [|done..]. pose proof (fo_inj s Hok _ _ _ Hk Hk' Hp). lia. }
  destruct Hf3 as (Hv3 & Hdk3 & Hn3 & _ & Hb3). rewrite entries_length in Hll.
  assert (Hbits : forall b, 0 <= b -> (bit (sfs_freemap s3) b = true <-> bit (sfs_freemap s) b = true /\ ~ freed s bl 1 b)).
  { intros b Hb. rewrite Hb3 by done. change (sfs_freemap s2) with (sfs_freemap s1). rewrite Hb1 by done. unfold freed. setoid_rewrite Z.add_0_r.
    assert (Hn : ~ (b <> 0 /\ b = sfi_indirect (sv s) /\ 1 = 0)) by lia. tauto. }
  assert (Hcut : forall k e, entries s !! k = Some e -> l2 !! k = Some (if bl <? 15 + Z.of_nat k then 0 else e)).
  { intros k e Hk. rewrite (Hl2 k e Hk). by rewrite Z.add_0_r. }
  exists l2, nz, dr, s3. split; [done|]. split; [|done].
  split; try done.
  - rewrite Esv3. change (sv s2) with (sv s1). by rewrite Esv1.
  - apply Forall_lookup. intros k w Hw. pose proof (lookup_lt_Some _ _ _ Hw).
    destruct (entries s !! k) as [e|] eqn:Ee; [|apply lookup_ge_None in Ee; rewrite entries_length in Ee; lia].
    rewrite (Hcut k e Ee) in Hw. injection Hw as <-. destruct (bl <? 15 + Z.of_nat k); [lia|].
    destruct (decide (e = 0)) as [->|He]; [lia|]. destruct (entries_used s s1 bl d k e Hok Hcd Ee He) as [Hr _].
    destruct (vo_size _ Hv1), (vo_disk _ Hv1) as (? & _). lia.
  - split_and!; [done|rewrite Hdk3; exact Hdk1|rewrite Hn3; exact Hn1].
  - split; [done|]. apply Hbits; [lia|]. split; [done|]. intros [(_ & k & Hk & _)|[(_ & k & Hk & _)|(_ & _ & ?)]]; [| |done].
    + pose proof (lookup_lt_Some _ _ _ Hk). rewrite <- (ptrs_direct s k) in Hk by (done || lia).
      pose proof (fo_inj s Hok _ _ _ Hk (ptrs_indirect s Hdl) Hid). lia.
    + by destruct (entries_used s s1 bl d k _ Hok Hcd Hk Hid) as (_ & _ & ?).
Qed.

(** The indirect block is kept: its entries on the disk are [l2]. *)
Lemma cut_kept s s3 s4 bl d l2 : sfi_indirect (sv s) <> 0 -> cut_entries s s3 bl d l2 -> ~ (forall k e, l2 !! k = Some e -> e = 0) ->
  vol_ok s4 -> sv s4 = sv s3 -> sfs_freemap s4 = sfs_freemap s3 -> sb_nblocks s4 = sb_nblocks s3 ->
  (forall b, b <> sfi_indirect (sv s) -> dsk s4 b = dsk s3 b) -> words (dsk s4 (sfi_indirect (sv s))) = l2 ->
  cut s s4 bl d (sfi_indirect (sv s)).
Proof.
  intros Hid [(Esd & Esi & Esame) (Hd15 & Hl) Td Tl Hw (Hv3 & Hdk3 & Hn3) Hbits _] Hnz Hv4 Es Em En Hdk Hl2.
  assert (Eent : entries s4 = l2) by (unfold entries; rewrite Es, Esi, Hl2; by destruct (Z.eqb_spec (sfi_indirect (sv s)) 0)).
  split; rewrite ?Es, ?Eent, ?Em; try done; try congruence; [by left| |].
  - intros b Hb. rewrite Hbits by done. unfold freed.
    assert (Hni : ~ (b <> 0 /\ b = sfi_indirect (sv s) /\ sfi_indirect (sv s) = 0)) by (intros (? & -> & ?); done).
    assert (Hn1 : ~ (b <> 0 /\ b = sfi_indirect (sv s) /\ 1 = 0)) by lia. tauto.
  - intros b Hne. destruct (decide (b = sfi_indirect (sv s))) as [->|]; [by destruct Hne|]. rewrite Hdk by done. by rewrite Hdk3.
Qed.

(** The indirect block is freed: none of its entries is left. *)
Lemma cut_freed s s3 bl d l2 : sfi_indirect (sv s) <> 0 -> cut_entries s s3 bl d l2 -> (forall k e, l2 !! k = Some e -> e = 0) ->
  exists s4, sfs_bfree (sfi_indirect (sv s)) s3 = Done tt s4 /\ cut s (set_sv (set_indirect 0) s4) bl d 0.
Proof.
  intros Hid [(Esd & Esi & Esame) (Hd15 & Hl) Td Tl Hw (Hv3 & Hdk3 & Hn3) Hbits (Hidr & Hidb)] Hz.
  destruct (bfree_frees s3 _ Hv3 ltac:(rewrite Hn3; exact Hidr) Hidb) as (s4 & -> & (Hv4 & Hdk4 & Hn4 & _ & Hb4) & Esv4).
  exists s4. split; [done|]. split; try done; cbn -[entries]; rewrite ?Esv4; try done.
  - by apply vol_ok_sv.
  - congruence.
  - intros k e Hk. unfold entries at 1. cbn [sv set_sv set_indirect sfi_indirect Z.eqb].
    pose proof (lookup_lt_Some _ _ _ Hk) as Hkl. rewrite entries_length in Hkl. rewrite lookup_replicate_2 by done.
    by rewrite (Hz k _ (Tl k e Hk)).
  - by right.
  - intros b Hb. rewrite Hb4, Hbits by done. unfold freed.
    assert (Hb' : b = sfi_indirect (sv s) <-> b <> 0 /\ b = sfi_indirect (sv s) /\ 0 = 0) by (split; [intros ->; done|tauto]).
    assert (Hn1 : ~ (b <> 0 /\ b = sfi_indirect (sv s) /\ 1 = 0)) by lia. tauto.
  - intros b _. by rewrite Hdk4, Hdk3.
Qed.

(** The whole of [sfs_itrunc]. *)
Lemma itrunc_truncated s len : file_ok s -> 0 <= len <= MAXSIZE ->
  exists s', sfs_itrunc len s = Done tt s' /\ trunc_result s s' ((len + SFS_BLOCKSIZE - 1) / SFS_BLOCKSIZE) len.
Proof.
  intros Hok Hlen. set (bl := (len + SFS_BLOCKSIZE - 1) / SFS_BLOCKSIZE). assert (Hbl : 0 <= bl <= 143).
  { unfold bl, MAXSIZE, MAXBLOCKS, SFS_BLOCKSIZE in *. split; [apply Z.div_pos; lia|].
    apply Z.lt_succ_r, Z.div_lt_upper_bound; lia. }
  unfold sfs_itrunc. kunfold. fold bl. rewrite (wrapu_small 32 bl) by lia.
  destruct (direct_phase s bl Hok) as (s1 & d & -> & Hcd). pose proof Hcd as [[dirty Esv1] _ _ (Hv1 & _ & Hn1 & _)].
  rewrite Esv1. cbn [sfi_indirect]. change (SFS_NDIRECT + SFS_DBPERIDB - 1) with 142.
  destruct ((bl <? 142) && negb (sfi_indirect (sv s) =? 0))%bool eqn:Econd; bool_to_prop.
  2:{ eexists. split; [done|]. eapply (itrunc_finish _ _ _ d); [done|done|]. apply cut_skip; [done|lia|done|].
      apply andb_false_iff in Econd as [E|E]; bool_to_prop; auto. }
  destruct (ptr_used s 15 _ Hok (ptrs_indirect s (fo_len s Hok)) ltac:(done)) as [Hidr _].
  rewrite readblock_ok by (apply Hv1 || (destruct (vo_size _ Hv1); lia)).
  destruct (entries_phase s s1 bl d Hok ltac:(lia) Hcd ltac:(done)) as (l2 & nz & dr & s3 & -> & Hce & Hnz & Hdr).
  pose proof Hce as [(_ & _ & _) (_ & Hl2) _ _ Hw (Hv3 & Hdk3 & Hn3) _ _].
  destruct nz; cbn [negb].
  - assert (Hkeep : ~ (forall k e, l2 !! k = Some e -> e = 0)) by (intros Hz; by apply Hnz in Hz).
    destruct dr.
    + pose proof (vo_disk _ Hv3) as Hdisk3. destruct (vo_size _ Hv3) as [_ Hsz3].
      rewrite writeblock_ok by (done || (rewrite unwords_length; lia) || lia).
      eexists. split; [done|]. eapply (itrunc_finish _ _ _ d); [done|done|]. apply (cut_kept s s3 _ bl d l2); try done.
      * destruct Hv3 as [_ ? ? ? ?]. split; try done. destruct Hdisk3 as (? & ? & Hl3).
        split_and!; [done|cbn; rewrite unwords_length; lia|]. intros x. cbn. unfold upd. destruct (x =? _); [rewrite unwords_length; lia|apply Hl3].
      * intros b Hb. cbn. unfold upd. by destruct (Z.eqb_spec b (sfi_indirect (sv s))).
      * cbn. unfold upd. rewrite Z.eqb_refl. by apply words_unwords.
    + eexists. split; [done|]. eapply (itrunc_finish _ _ _ d); [done|done|]. apply (cut_kept s s3 _ bl d l2); try done.
      rewrite (Hdr eq_refl), Hdk3. unfold entries. by destruct (Z.eqb_spec (sfi_indirect (sv s)) 0).
  - destruct (cut_freed s s3 bl d l2) as (s4 & -> & Hcut); [done|done|by apply Hnz|].
    eexists. split; [done|]. by eapply itrunc_finish.
Qed.

(** What callers rely on. *)
Lemma itrunc_ok s len : file_ok s -> 0 <= len <= MAXSIZE ->
  let bl := (len + SFS_BLOCKSIZE - 1) / SFS_BLOCKSIZE in
  exists s', sfs_itrunc len s = Done tt s' /\ file_ok s' /\ sfi_size (sv s') = len /\ sb_nblocks s' = sb_nblocks s /\
    (forall fb, 0 <= fb < MAXBLOCKS ->
       blockof s' fb = if (if fb <? 15 then bl <=? fb else bl <? fb) then 0 else blockof s fb) /\
    (forall b, 0 <= b -> (bit (sfs_freemap s') b = true <-> bit (sfs_freemap s) b = true /\ ~ cleared s s' b)) /\
    (forall b, (b <> 0 -> b <> sfi_indirect (sv s)) -> dsk s' b = dsk s b) /\
    (forall i p, ptrs s' !! i = Some p -> p = 0 \/ ptrs s !! i = Some p) /\
    (len = 0 -> forall i p, ptrs s' !! i = Some p -> p = 0) /\
    same_id (sv s) (sv s') /\ sv_dirty (sv s') = true.
Proof.
  intros Hok Hlen bl. assert (Hbl : 0 <= bl <= MAXBLOCKS).
  { unfold bl, MAXSIZE, MAXBLOCKS, SFS_BLOCKSIZE in *. split; [apply Z.div_pos; lia|].
    apply Z.lt_succ_r, Z.div_lt_upper_bound; lia. }
  destruct (itrunc_truncated s len Hok Hlen) as (s' & E & d & l' & id' & Htr & Hv & Hn & Hsz & Hl & Hb & Hd & Hsame & Hdir).
  exists s'. split; [done|].
  assert (Hp : forall i p, ptrs s' !! i = Some p -> p = 0 \/ ptrs s !! i = Some p) by (intros i p; by eapply truncated_ptr).
  split; [by eapply shrink_ok|]. split_and!; try done.
  - intros fb Hfb. eapply truncated_blockof; try done. lia.
  - intros ->. assert (Ebl : bl = 0) by reflexivity. destruct Htr as [Ep Hd15 Hl128 Td Tl _ Hkeep]. fold bl in Td, Tl, Hkeep. rewrite Ebl in *.
    assert (Hz : forall k e, l' !! k = Some e -> e = 0).
    { intros k e Hk. pose proof (lookup_lt_Some _ _ _ Hk).
      destruct (entries s !! k) as [x|] eqn:Ex; [|apply lookup_ge_None in Ex; rewrite entries_length in Ex; lia].
      rewrite (Tl k x Ex), (proj2 (Z.ltb_lt _ _)) in Hk by lia. congruence. }
    intros i p. rewrite Ep, ptrs_at by done. case_decide; [rewrite Td, decide_True by lia; congruence|].
    case_decide; [|apply Hz]. intros [= <-]. destruct (decide (id' = 0)); [done|]. by destruct (Hkeep ltac:(lia)).
Qed.

(** Truncation. [sfs_itrunc] succeeds, sets the size, keeps every byte below the new
    length, keeps the file well formed, frees exactly the blocks whose pointers it
    clears, and touches no other block of the disk than the indirect block. It clears
    the pointers of all blocks past the new end, with one exception: in the indirect
    range the first block past the end keeps its pointer. *)
Theorem sfs_itrunc_spec (s : st) (len : Z) (Hok : file_ok s) (Hlen : 0 <= len <= MAXSIZE) :
  let bl := (len + SFS_BLOCKSIZE - 1) / SFS_BLOCKSIZE in
  exists s', sfs_itrunc len s = Done tt s' /\ file_ok s' /\ sfi_size (sv s') = len /\
    (forall fb, 0 <= fb < MAXBLOCKS ->
       blockof s' fb = if (if fb <? 15 then bl <=? fb else bl <? fb) then 0 else blockof s fb) /\
    (forall pos, 0 <= pos < len -> file_byte s' pos = file_byte s pos) /\
    (forall b, 0 <= b -> (bit (sfs_freemap s') b = true <-> bit (sfs_freemap s) b = true /\ ~ cleared s s' b)) /\
    (forall b, (b <> 0 -> b <> sfi_indirect (sv s)) -> dsk s' b = dsk s b).
Proof.
  intros bl. assert (Hbl : 0 <= bl <= MAXBLOCKS).
  { unfold bl, MAXSIZE, MAXBLOCKS, SFS_BLOCKSIZE in *. split; [apply Z.div_pos; lia|].
    apply Z.lt_succ_r, Z.div_lt_upper_bound; lia. }
  destruct (itrunc_ok s len Hok Hlen) as (s' & E & Hok' & Hsz & _ & Hbo & Hb & Hd & _). fold bl in Hbo.
  exists s'. split; [done|]. split_and!; try done. intros pos Hpos. unfold file_byte. set (fb := pos / SFS_BLOCKSIZE).
  assert (Hfb : 0 <= fb < bl).
  { unfold fb, bl, SFS_BLOCKSIZE in *. Z.div_mod_to_equations. lia. }
  assert (Eb : blockof s' fb = blockof s fb).
  { rewrite Hbo by lia. destruct (Z.ltb_spec fb 15), (Z.leb_spec bl fb), (Z.ltb_spec bl fb); done || lia. }
  rewrite Eb. destruct (Z.eqb_spec (blockof s fb) 0) as [|Hne]; [done|]. rewrite Hd; [done|]. intros _.
  apply blockof_ne_indirect; [done|lia|done].
Qed.

End Sound.

End Trunc.

(** Truncation to 15 blocks: block 15, past the end, keeps its pointer. *)
Lemma sfs_itrunc_spec_witness :
  exists s', sfs_itrunc (15 * 512) (demo_st (uio_kinit [] 0 0 UIO_READ)) = Done tt s' /\
    sfi_size (sv s') = 7680 /\ blockof s' 15 = 6.
Proof.
  destruct (sfs_itrunc_spec (demo_st (uio_kinit [] 0 0 UIO_READ)) (15 * 512)) as (s' & E & _ & Hs & Hb & _);
    [apply demo_file_ok|unfold MAXSIZE, MAXBLOCKS, SFS_BLOCKSIZE; lia|].
  exists s'. split; [exact E|]. split; [exact Hs|]. rewrite Hb by (unfold MAXBLOCKS; lia). vm_compute. reflexivity.
Defined.
