(* ===== verification/SfsDir.v ===== *)
(** * SFS: directories as maps from names to inodes

    The directory operations of kern/fs/sfs/sfs_dir.c, on top of [sfs_metaio]. A
    directory is a file of 64-byte slots. It is specified by the finite map [dir_map]
    from names to inode numbers: looking a name up, linking and unlinking are shown to
    be lookup, insertion and deletion in that map. *)

From stdpp Require Import base numbers list gmap.
From Stdlib Require Import ZArith Lia.
From S2P Require Import Prelude Bitmap SfsDisk SfsFile.

Open Scope Z_scope.
Open Scope k_scope.

(** ** C strings *)

(** common/libc/string/strcmp.c:47-90 (strcmp): [a] and [b] are the bytes at the two
    pointers; [None] when the comparison runs off the end of one of them. *)
Fixpoint strcmp (a b : list Z) : option Z :=
  match a, b with
  | x :: a', y :: b' =>
      if negb (x =? 0) && (x =? y) then strcmp a' b'
      else Some (if y <? x then 1 else if x =? y then 0 else -1)
  | _, _ => None
  end.

(** The string at a pointer: the bytes before the terminator. *)
Fixpoint cstr (l : list Z) : list Z :=
  match l with
  | [] => []
  | x :: l' => if x =? 0 then [] else x :: cstr l'
  end.

(** ** Directory entries *)

(** kern/include/kern/sfs.h:95-98 (struct sfs_direntry). *)
Record sfs_direntry := mkde { sfd_ino : Z; sfd_name : list Z }.

(** The entry in memory, and back. *)
Definition de_bytes (sd : sfs_direntry) : list Z := word_bytes (sfd_ino sd) ++ sfd_name sd.
Definition de_of (bs : list Z) : sfs_direntry := mkde (word_at bs 0) (drop 4 bs).

Definition DESIZE : Z := 64.

Section Dir.
Context {G : Geometry} {D : Disk}.

(** kern/fs/sfs/sfs_dir.c:46-56 (sfs_readdir). *)
Definition sfs_readdir (slot : Z) : K st sfs_direntry :=
  let actualpos := u32 (slot * DESIZE) in
  bs <- sfs_metaio actualpos [] DESIZE UIO_READ ;;
  kret (de_of bs).

(** kern/fs/sfs/sfs_dir.c:62-73 (sfs_writedir). *)
Definition sfs_writedir (slot : Z) (sd : sfs_direntry) : K st unit :=
  kassert (0 <=? slot) ;;;
  let actualpos := u32 (slot * DESIZE) in
  sfs_metaio actualpos (de_bytes sd) DESIZE UIO_WRITE ;;;
  kret tt.

(** kern/fs/sfs/sfs_dir.c:80-96 (sfs_dir_nentries). *)
Definition sfs_dir_nentries : K st Z :=
  s <- kget ;;
  kassert (sfi_type (sv s) =? SFS_TYPE_DIR) ;;;
  let size := sfi_size (sv s) in
  if negb (size mod DESIZE =? 0) then khalt PanicCall else
  kret (size / DESIZE).

(** What [sfs_dir_findname] hands back: inode number and slot of the name, when it was
    found, and the value of [*emptyslot]. *)
Record findres := mkfr { fr_found : option (Z * Z); fr_empty : Z }.

(** kern/fs/sfs/sfs_dir.c:114-144 (sfs_dir_findname): the loop over the slots, [k] of
    which remain; [name] is a C string without its terminator. *)
Fixpoint findname_loop (k : nat) (i : Z) (name : list Z) (r : findres) : K st findres :=
  match k with
  | O => kret r
  | S k' =>
      tsd <- sfs_readdir i ;;
      if sfd_ino tsd =? SFS_NOINO then findname_loop k' (i + 1) name (mkfr (fr_found r) i)
      else
        let sfd_name := <[59%nat := 0]> (sfd_name tsd) in
        match strcmp sfd_name (name ++ [0]) with
        | None => khalt OutOfBounds
        | Some c =>
            if c =? 0 then
              kassert (bool_decide (fr_found r = None)) ;;;
              findname_loop k' (i + 1) name (mkfr (Some (sfd_ino tsd, i)) (fr_empty r))
            else findname_loop k' (i + 1) name r
        end
  end.

(** kern/fs/sfs/sfs_dir.c:102-147 (sfs_dir_findname). [emptyslot] is the value of the
    caller's variable before the call; not finding the name ([ENOENT]) is [None]. *)
Definition sfs_dir_findname (name : list Z) (emptyslot : Z) : K st findres :=
  nentries <- sfs_dir_nentries ;;
  findname_loop (Z.to_nat nentries) 0 name (mkfr None emptyslot).

(** kern/fs/sfs/sfs_dir.c:153-190 (sfs_dir_link): the slot. *)
Definition sfs_dir_link (name : list Z) (ino : Z) : K st Z :=
  r <- sfs_dir_findname name (-1) ;;
  if bool_decide (is_Some (fr_found r)) then kfail EEXIST else
  if SFS_NAMELEN <? Z.of_nat (length name) + 1 then kfail ENAMETOOLONG else
  emptyslot <- (if fr_empty r <? 0 then sfs_dir_nentries else kret (fr_empty r)) ;;
  let sd := mkde ino (name ++ replicate (60 - length name) 0) in
  sfs_writedir emptyslot sd ;;;
  kret emptyslot.

(** kern/fs/sfs/sfs_dir.c:195-206 (sfs_dir_unlink). *)
Definition sfs_dir_unlink (slot : Z) : K st unit :=
  sfs_writedir slot (mkde SFS_NOINO (replicate 60 0)).

(** ** The map a directory stands for *)

(** Number of slots, the entry in a slot, and its name. *)
Definition nslots (s : st) : Z := sfi_size (sv s) / DESIZE.
Definition entry (s : st) (i : Z) : sfs_direntry := de_of (bytes s (i * DESIZE) DESIZE).
Definition ename (e : sfs_direntry) : list Z := cstr (<[59%nat := 0]> (sfd_name e)).

Definition used (s : st) (i : Z) (name : list Z) (ino : Z) : Prop :=
  0 <= i < nslots s /\ ino <> SFS_NOINO /\ sfd_ino (entry s i) = ino /\ ename (entry s i) = name.

(** The used slots with their names and inodes, in order. *)
Definition used_list (s : st) : list (list Z * Z) :=
  (fun i => (ename (entry s i), sfd_ino (entry s i))) <$>
    filter (fun i => sfd_ino (entry s i) <> SFS_NOINO) (seqZ 0 (nslots s)).

Definition dir_map (s : st) : gmap (list Z) Z := list_to_map (used_list s).

(** A directory: a well-formed file of whole slots in which no name occurs twice. *)
Record dir_ok (s : st) : Prop := {
  do_file : file_ok s;
  do_type : sfi_type (sv s) = SFS_TYPE_DIR;
  do_size : 0 <= sfi_size (sv s) <= MAXSIZE /\ sfi_size (sv s) mod DESIZE = 0;
  do_uniq : forall i j name x y, used s i name x -> used s j name y -> i = j
}.

(** ** Strings *)

Lemma cstr_app_zero l r : Forall (fun x => x <> 0) l -> cstr (l ++ 0 :: r) = l.
Proof. induction 1 as [|x l Hx _ IH]; [done|]. cbn. destruct (Z.eqb_spec x 0); [done|]. by rewrite IH. Qed.

(** [strcmp] of two terminated strings is 0 exactly when they are equal. *)
Lemma strcmp_eq a name :
  0 ∈ a -> Forall (fun x => x <> 0) name ->
  exists c, strcmp a (name ++ [0]) = Some c /\ (c = 0 <-> cstr a = name).
Proof.
  intros Ha Hn. revert a Ha. induction Hn as [|y name Hy Hn IH]; intros [|x a] Ha;
    try by apply not_elem_of_nil in Ha.
  - cbn. destruct (Z.eqb_spec x 0) as [->|Hx]; cbn [negb andb].
    + exists 0. done.
    + eexists. split; [done|]. destruct (Z.ltb_spec 0 x), (Z.eqb_spec x 0); split; (done || lia).
  - cbn. destruct (Z.eqb_spec x 0) as [->|Hx]; cbn [negb andb].
    + eexists. split; [done|]. destruct (Z.ltb_spec y 0), (Z.eqb_spec 0 y); split; (done || lia).
    + apply elem_of_cons in Ha as [?|Ha]; [lia|]. destruct (Z.eqb_spec x y) as [->|Hne].
      * destruct (IH a Ha) as (c & Ec & Hc). exists c. split; [done|]. rewrite Hc. split; congruence.
      * eexists. split; [done|]. destruct (Z.ltb_spec y x); split; (congruence || lia).
Qed.

(** ** Metadata I/O *)

Section Sound.
Context `{!Reliable D}.

Lemma meta_block pos len :
  0 <= pos -> 0 < len -> pos mod SFS_BLOCKSIZE + len <= SFS_BLOCKSIZE -> pos + len <= MAXSIZE ->
  u32 (pos / SFS_BLOCKSIZE) = pos / SFS_BLOCKSIZE /\ 0 <= pos / SFS_BLOCKSIZE < MAXBLOCKS.
Proof.
  unfold MAXSIZE, MAXBLOCKS, SFS_BLOCKSIZE. intros.
  assert (0 <= pos / 512 < 143) by (split; [apply Z.div_pos|apply Z.div_lt_upper_bound]; lia).
  split; [|done]. apply wrapu_small. lia.
Qed.

(** Reading metadata returns the bytes of the file and changes nothing. *)
Lemma metaio_read s pos len :
  file_ok s -> 0 <= pos -> 0 < len -> pos mod SFS_BLOCKSIZE + len <= SFS_BLOCKSIZE -> pos + len <= MAXSIZE ->
  exists s', sfs_metaio pos [] len UIO_READ s = Done (bytes s pos len) s' /\ quiet s s' /\ disk_ok s'.
Proof.
  intros Hok Hp Hl Hm Hmax. destruct (meta_block pos len Hp Hl Hm Hmax) as [E32 Hfb].
  unfold sfs_metaio. kunfold. rewrite E32. set (fb := pos / SFS_BLOCKSIZE) in *.
  change (bool_decide (UIO_READ = UIO_WRITE)) with false.
  pose proof (sfs_bmap_ok s fb false Hok Hfb) as Hbm.
  destruct (sfs_bmap fb false s) as [b s1|e s1|h]; [|by destruct Hbm as (_ & ? & _)|done].
  destruct Hbm as (Hg & -> & _ & Hq). specialize (Hq eq_refl). pose proof (gr_ok _ _ Hg) as Hok1.
  destruct (load_block s1 fb UIO_READ Hok1 Hfb) as (s2 & Er & Hq2 & Hd2); [done|].
  assert (Ebd : block_data s fb = block_data s1 fb).
  { destruct Hq as (E1 & _ & _ & E4 & _). unfold block_data, blockof, ptrs. by rewrite E1, E4. }
  assert (Hqt : quiet s s2) by (destruct Hq as (?&?&?&?&?), Hq2 as (?&?&?&?&?); split_and!; congruence).
  pose proof (block_bytes s pos len Hok ltac:(lia) Hm) as Hb. fold fb in Hb. rewrite Ebd in Hb.
  destruct (blockof s1 fb =? 0) eqn:E0.
  - unfold kassert, kret, kbind in Er. cbn in Er. injection Er as _ <-. cbn [bool_decide].
    rewrite bool_decide_true by done. exists s1. split; [|done]. f_equal.
    rewrite <- Hb. unfold block_data. rewrite E0. rewrite drop_replicate, take_replicate. f_equal.
    pose proof (Z.mod_pos_bound pos SFS_BLOCKSIZE ltac:(done)). unfold SFS_BLOCKSIZE in *. lia.
  - rewrite Er. exists s2. split; [|done]. by rewrite Hb.
Qed.

(** A block that differs from the old one in the bytes written. *)
Lemma splice_byte s s' pos n (data nd : list Z) p :
  0 <= n -> pos mod SFS_BLOCKSIZE + n <= SFS_BLOCKSIZE ->
  (forall o, 0 <= o < 512 -> nd !!! Z.to_nat o =
     if (pos mod SFS_BLOCKSIZE <=? o) && (o <? pos mod SFS_BLOCKSIZE + n)
     then data !!! Z.to_nat (o - pos mod SFS_BLOCKSIZE) else block_data s (pos / SFS_BLOCKSIZE) !!! Z.to_nat o) ->
  file_byte s' p = (if p / SFS_BLOCKSIZE =? pos / SFS_BLOCKSIZE then nd !!! Z.to_nat (p mod SFS_BLOCKSIZE)
                    else file_byte s p) ->
  file_byte s' p = if (pos <=? p) && (p <? pos + n) then data !!! Z.to_nat (p - pos) else file_byte s p.
Proof.
  intros Hn Hs Hnd ->.
  pose proof (Z.div_mod p SFS_BLOCKSIZE ltac:(done)) as Dp. pose proof (Z.mod_pos_bound p SFS_BLOCKSIZE ltac:(done)) as Mp.
  pose proof (Z.div_mod pos SFS_BLOCKSIZE ltac:(done)) as Do. pose proof (Z.mod_pos_bound pos SFS_BLOCKSIZE ltac:(done)) as Mo.
  destruct (Z.eqb_spec (p / SFS_BLOCKSIZE) (pos / SFS_BLOCKSIZE)) as [E|E].
  - rewrite Hnd by done. rewrite (block_data_byte s p), E in *.
    destruct (Z.leb_spec (pos mod SFS_BLOCKSIZE) (p mod SFS_BLOCKSIZE)), (Z.leb_spec pos p); cbn [andb]; try lia; try done.
    destruct (Z.ltb_spec (p mod SFS_BLOCKSIZE) (pos mod SFS_BLOCKSIZE + n)), (Z.ltb_spec p (pos + n)); try lia; try done.
    f_equal. lia.
  - destruct (Z.leb_spec pos p), (Z.ltb_spec p (pos + n)); cbn [andb]; try done.
    exfalso. apply E. unfold SFS_BLOCKSIZE in *. nia.
Qed.

(** Writing metadata changes exactly the bytes written, or fails for lack of space and
    changes none. *)
Lemma metaio_write s pos data :
  let len := Z.of_nat (length data) in
  file_ok s -> 0 <= sfi_size (sv s) <= MAXSIZE ->
  0 <= pos -> 0 < len -> pos mod SFS_BLOCKSIZE + len <= SFS_BLOCKSIZE -> pos + len <= MAXSIZE ->
  (exists s', sfs_metaio pos data len UIO_WRITE s = Done data s' /\ evolves s s' /\
     sfi_size (sv s') = Z.max (sfi_size (sv s)) (pos + len) /\
     forall p, 0 <= p < MAXSIZE -> file_byte s' p =
       if (pos <=? p) && (p <? pos + len) then data !!! Z.to_nat (p - pos) else file_byte s p) \/
  (exists s', sfs_metaio pos data len UIO_WRITE s = Fail ENOSPC s' /\ grows s s' /\
     blockof s (pos / SFS_BLOCKSIZE) = 0).
Proof.
  intros len Hok Hsz Hp Hl Hm Hmax. destruct (meta_block pos len Hp Hl Hm Hmax) as [E32 Hfb].
  unfold sfs_metaio. kunfold. rewrite E32. set (fb := pos / SFS_BLOCKSIZE) in *.
  change (bool_decide (UIO_WRITE = UIO_WRITE)) with true.
  pose proof (sfs_bmap_ok s fb true Hok Hfb) as Hbm.
  destruct (sfs_bmap fb true s) as [b s1|e s1|h]; [left|right; destruct Hbm as (-> & _ & ? & ?); by exists s1|done].
  destruct Hbm as (Hg & -> & Hne & _). specialize (Hne eq_refl). pose proof (gr_ok _ _ Hg) as Hok1.
  destruct (Z.eqb_spec (blockof s1 fb) 0); [done|].
  destruct (vo_disk _ (fo_vol s1 Hok1)) as (Hd1 & Hd2 & Hd3). destruct (vo_size _ (fo_vol s1 Hok1)) as [_ Hns].
  destruct (ptr_used s1 _ _ Hok1 (blockof_lookup s1 fb Hok1 Hfb) Hne) as [Hr _].
  rewrite readblock_ok by (done || lia).
  set (io := dsk s1 (blockof s1 fb)). set (skip := pos mod SFS_BLOCKSIZE) in *.
  pose proof (Z.mod_pos_bound pos SFS_BLOCKSIZE ltac:(done)) as Hmb. fold skip in Hmb.
  assert (Eio : take (Z.to_nat skip) io ++ data ++ drop (Z.to_nat (skip + len)) io
                = take (Z.to_nat skip) io ++ take (Z.to_nat len) data ++ drop (Z.to_nat len) (drop (Z.to_nat skip) io)).
  { rewrite (take_ge data) by (unfold len; lia). rewrite drop_drop. do 3 f_equal. lia. }
  rewrite Eio. set (nd := take _ _ ++ _).
  assert (Hnd : forall o, 0 <= o < 512 -> length nd = 512%nat /\ nd !!! Z.to_nat o =
                  if (skip <=? o) && (o <? skip + len) then data !!! Z.to_nat (o - skip) else io !!! Z.to_nat o).
  { intros o Ho. apply (splice_lookup io data skip len o); try (unfold SFS_BLOCKSIZE, len in *; lia). apply Hd3. }
  destruct (Hnd 0 ltac:(lia)) as [Hlen _].
  rewrite writeblock_ok; [|apply touch_disk_ok; [done|apply Hd3]|lia|done].
  set (s2 := set_dsk _ _).
  destruct (write_own s1 s2 fb nd Hok1 Hfb Hne Hlen) as [He Hby]; [done| |done..|].
  { split_and!; [done|done|]. intros x. cbn -[take drop]. unfold upd. destruct (x =? _); [done|apply Hd3]. }
  destruct (gr_meta _ _ Hg) as (_ & _ & Esz & _).
  assert (Hev : evolves s s2) by (eapply evolves_trans; [by apply grows_evolves|done]).
  assert (Hbytes : forall p, 0 <= p < MAXSIZE -> file_byte s2 p =
       if (pos <=? p) && (p <? pos + len) then data !!! Z.to_nat (p - pos) else file_byte s p).
  { intros p Hpp. rewrite <- (grows_byte s s1 p Hok Hg Hpp).
    apply (splice_byte s1 s2 pos len data nd p); [lia|done| |by apply Hby].
    intros o Ho. rewrite (proj2 (Hnd o Ho)). unfold block_data.
    by destruct (Z.eqb_spec (blockof s1 (pos / SFS_BLOCKSIZE)) 0). }
  change (sfi_size (sv s2)) with (sfi_size (sv s1)). rewrite Esz.
  destruct (Z.ltb_spec (sfi_size (sv s)) (pos + len)).
  - rewrite wrapu_small by (unfold MAXSIZE, MAXBLOCKS, SFS_BLOCKSIZE in *; lia).
    destruct (size_evolves s2 (pos + len) (ev_ok _ _ He)) as [He' Hb'].
    eexists. split; [done|]. split_and!; [by eapply evolves_trans|cbn; lia|].
    intros p Hpp. rewrite Hb'. by apply Hbytes.
  - exists s2. split; [done|]. split_and!; [done|cbn; lia|done].
Qed.

(** ** Slots *)

Definition MAXSLOTS : Z := 1144.

Lemma slot_pos i :
  0 <= i < MAXSLOTS ->
  u32 (i * DESIZE) = i * DESIZE /\ 0 <= i * DESIZE /\ i * DESIZE + DESIZE <= MAXSIZE /\
  (i * DESIZE) mod SFS_BLOCKSIZE + DESIZE <= SFS_BLOCKSIZE.
Proof.
  unfold MAXSLOTS, DESIZE, MAXSIZE, MAXBLOCKS, SFS_BLOCKSIZE. intros Hi.
  split; [apply wrapu_small; lia|]. split; [lia|]. split; [lia|].
  change 512 with (8 * 64) at 1. rewrite Z.mul_mod_distr_r by lia.
  pose proof (Z.mod_pos_bound i 8 ltac:(lia)). lia.
Qed.

Lemma nslots_range s : dir_ok s -> 0 <= nslots s <= MAXSLOTS /\ sfi_size (sv s) = nslots s * DESIZE.
Proof.
  intros Hok. destruct (do_size _ Hok) as [Hs Hm]. unfold nslots, MAXSLOTS, MAXSIZE, MAXBLOCKS, SFS_BLOCKSIZE in *.
  pose proof (Z.div_mod (sfi_size (sv s)) DESIZE ltac:(done)). unfold DESIZE in *. lia.
Qed.

Lemma quiet_bytes s s' pos : quiet s s' -> file_byte s' pos = file_byte s pos.
Proof. intros (E1 & _ & _ & E4 & _). unfold file_byte, blockof, ptrs. by rewrite E1, E4. Qed.

Lemma entry_ext s s' i :
  0 <= i < MAXSLOTS -> (forall p, 0 <= p < MAXSIZE -> i * DESIZE <= p < i * DESIZE + DESIZE -> file_byte s' p = file_byte s p) ->
  entry s' i = entry s i.
Proof.
  intros Hi H. destruct (slot_pos i Hi) as (_ & Hp & Hm & _). unfold entry. f_equal. unfold bytes.
  apply list_fmap_ext. intros k x Hx. apply lookup_seqZ in Hx as [-> Hk]. apply H; lia.
Qed.

Lemma quiet_entry s s' i : 0 <= i < MAXSLOTS -> quiet s s' -> entry s' i = entry s i.
Proof. intros Hi Hq. apply entry_ext; [done|]. intros. by apply quiet_bytes. Qed.

Lemma quiet_trans s1 s2 s3 : quiet s1 s2 -> quiet s2 s3 -> quiet s1 s3.
Proof. intros (?&?&?&?&?) (?&?&?&?&?). split_and!; congruence. Qed.

Lemma readdir_ok s i :
  file_ok s -> 0 <= i < MAXSLOTS ->
  exists s', sfs_readdir i s = Done (entry s i) s' /\ quiet s s' /\ disk_ok s'.
Proof.
  intros Hok Hi. destruct (slot_pos i Hi) as (E & Hp & Hm & Hb). unfold sfs_readdir. kunfold. rewrite E.
  destruct (metaio_read s (i * DESIZE) DESIZE) as (s' & -> & Hq & Hd); auto; [done|]. by exists s'.
Qed.

Lemma entry_name_length s i : length (sfd_name (entry s i)) = 60%nat.
Proof. cbn. rewrite length_drop. unfold bytes. by rewrite length_fmap, length_seqZ. Qed.

(** The comparison of an entry's name with a C string. *)
Lemma entry_strcmp s i name :
  Forall (fun x => x <> 0) name ->
  exists c, strcmp (<[59%nat := 0]> (sfd_name (entry s i))) (name ++ [0]) = Some c /\
    (c = 0 <-> ename (entry s i) = name).
Proof.
  intros Hn. apply strcmp_eq; [|done]. apply (list_elem_of_lookup_2 _ 59).
  apply list_lookup_insert_eq. rewrite entry_name_length. lia.
Qed.

(** ** Looking a name up *)

(** What the search has established about the slots below [i]. *)
Definition searched (s : st) (i : Z) (name : list Z) (e : Z) (r : findres) : Prop :=
  (match fr_found r with
   | Some (x, j) => used s j name x /\ j < i
   | None => forall j x, j < i -> ~ used s j name x
   end) /\
  (fr_empty r = e \/ 0 <= fr_empty r < i /\ sfd_ino (entry s (fr_empty r)) = SFS_NOINO).

Lemma findname_loop_ok s name e k :
  dir_ok s -> Forall (fun x => x <> 0) name -> forall i r s1,
  quiet s s1 -> disk_ok s1 -> 0 <= i -> i + Z.of_nat k = nslots s -> searched s i name e r ->
  exists r' s2, findname_loop k i name r s1 = Done r' s2 /\ quiet s s2 /\ disk_ok s2 /\
    searched s (nslots s) name e r'.
Proof.
  intros Hok Hn. destruct (nslots_range s Hok) as [Hns _].
  induction k as [|k IH]; intros i r s1 Hq Hd Hi Hk Hs; cbn [findname_loop].
  { exists r, s1. replace (nslots s) with i by lia. done. }
  pose proof (proj1 (quiet_grows s s1 (do_file _ Hok) Hd Hq)) as Hg.
  destruct (readdir_ok s1 i (gr_ok _ _ Hg)) as (s2 & E & Hq2 & Hd2); [lia|].
  rewrite (quiet_entry s s1 i) in E by (done || lia).
  kunfold. rewrite E. pose proof (quiet_trans _ _ _ Hq Hq2) as Hq3. destruct Hs as [Hf He].
  destruct (Z.eqb_spec (sfd_ino (entry s i)) SFS_NOINO) as [E0|Hne].
  - apply IH; try done; try lia. split; cbn.
    + destruct (fr_found r) as [[x j]|]; [destruct Hf; split; [done|lia]|].
      intros j x Hj Hu. destruct (decide (j = i)) as [->|]; [|by apply (Hf j x); [lia|]].
      destruct Hu as (_ & Hx & Ex & _). congruence.
    + right. split; [lia|done].
  - destruct (entry_strcmp s i name Hn) as (c & -> & Hc).
    assert (He' : fr_empty r = e \/ 0 <= fr_empty r < i + 1 /\ sfd_ino (entry s (fr_empty r)) = SFS_NOINO)
      by (destruct He as [?|[? ?]]; [by left|right; split; [lia|done]]).
    destruct (Z.eqb_spec c 0) as [E0|Hc0].
    + assert (Hu : used s i name (sfd_ino (entry s i))) by (split; [lia|]; split_and!; [done|done|by apply Hc]).
      destruct (fr_found r) as [[x j]|] eqn:Ef.
      { destruct Hf as [Hu' Hlt]. pose proof (do_uniq s Hok _ _ _ _ _ Hu Hu'). lia. }
      rewrite bool_decide_true by done. apply IH; try done; try lia. split; cbn; [split; [done|lia]|done].
    + apply IH; try done; try lia. split; [|done].
      destruct (fr_found r) as [[x j]|]; [destruct Hf; split; [done|lia]|].
      intros j x Hj Hu. destruct (decide (j = i)) as [->|]; [|by apply (Hf j x); [lia|]].
      apply Hc0, Hc. apply Hu.
Qed.

Lemma nentries_ok s : dir_ok s -> sfs_dir_nentries s = Done (nslots s) s.
Proof.
  intros Hok. unfold sfs_dir_nentries. kunfold. rewrite (do_type _ Hok).
  by rewrite (proj2 (do_size _ Hok)).
Qed.

Lemma findname_ok s name e :
  dir_ok s -> Forall (fun x => x <> 0) name ->
  exists r s', sfs_dir_findname name e s = Done r s' /\ quiet s s' /\ disk_ok s' /\
    searched s (nslots s) name e r.
Proof.
  intros Hok Hn. destruct (nslots_range s Hok) as [Hns _]. unfold sfs_dir_findname. kunfold. rewrite nentries_ok by done.
  apply (findname_loop_ok s name e); try done; try lia.
  - apply (vo_disk _ (fo_vol _ (do_file _ Hok))).
  - split; cbn; [|by left]. intros j x Hj (Hr & _). lia.
Qed.

(** ** The map *)

Lemma used_list_elem s name x : (name, x) ∈ used_list s <-> exists i, used s i name x.
Proof.
  unfold used_list. rewrite list_elem_of_fmap. split.
  - intros (i & [= -> ->] & Hi). apply list_elem_of_filter in Hi as [Hne Hi]. apply elem_of_seqZ in Hi.
    exists i. split; [lia|]. done.
  - intros (i & Hr & Hne & <- & <-). exists i. split; [done|]. apply list_elem_of_filter. split; [done|].
    apply elem_of_seqZ. lia.
Qed.

Lemma used_list_NoDup s : dir_ok s -> NoDup (used_list s).*1.
Proof.
  intros Hok. unfold used_list. rewrite <- list_fmap_compose. apply NoDup_fmap_2_strong.
  - intros i j Hi Hj E. cbn in E. apply list_elem_of_filter in Hi as [Hi0 Hi], Hj as [Hj0 Hj].
    apply elem_of_seqZ in Hi, Hj.
    apply (do_uniq s Hok i j (ename (entry s i)) (sfd_ino (entry s i)) (sfd_ino (entry s j))); (split; [lia|done]).
  - apply NoDup_filter, NoDup_seqZ.
Qed.

Lemma dir_map_lookup s name x : dir_ok s -> dir_map s !! name = Some x <-> exists i, used s i name x.
Proof.
  intros Hok. rewrite <- used_list_elem. symmetry. apply elem_of_list_to_map. by apply used_list_NoDup.
Qed.

Lemma dir_map_None s name : dir_ok s -> dir_map s !! name = None <-> forall i x, ~ used s i name x.
Proof.
  intros Hok. split.
  - intros E i x Hu. assert (H : dir_map s !! name = Some x) by (apply dir_map_lookup; eauto). congruence.
  - intros H. destruct (dir_map s !! name) as [x|] eqn:E; [|done].
    apply dir_map_lookup in E as [i Hi]; [|done]. by destruct (H i x).
Qed.

(** The map is determined by what is used. *)
Lemma dir_map_ext (s : st) (m : gmap (list Z) Z) :
  dir_ok s -> (forall name x, (exists i, used s i name x) <-> m !! name = Some x) -> dir_map s = m.
Proof.
  intros Hok H. apply map_eq. intros name. apply option_eq. intros x. by rewrite dir_map_lookup, H.
Qed.

(** ** Writing a slot *)

Lemma de_of_bytes sd :
  0 <= sfd_ino sd < 2 ^ 32 -> de_of (de_bytes sd) = sd.
Proof.
  intros Hi. destruct sd as [ino name]. unfold de_of, de_bytes. cbn in *. f_equal. unfold word_at. cbn.
  by apply word_bytes_value.
Qed.

Lemma writedir_ok s e sd :
  dir_ok s -> 0 <= e <= nslots s -> length (sfd_name sd) = 60%nat -> 0 <= sfd_ino sd < 2 ^ 32 ->
  (exists s', sfs_writedir e sd s = Done tt s' /\ evolves s s' /\ sfi_size (sv s') = nslots s' * DESIZE /\
     nslots s' = Z.max (nslots s) (e + 1) /\ nslots s' <= MAXSLOTS /\
     forall i, 0 <= i < MAXSLOTS -> entry s' i = if decide (i = e) then sd else entry s i) \/
  (exists s', sfs_writedir e sd s = Fail ENOSPC s' /\ grows s s' /\ blockof s (e * DESIZE / SFS_BLOCKSIZE) = 0) \/
  (e = MAXSLOTS /\ sfs_writedir e sd s = Fail EFBIG s).
Proof.
  intros Hok He Hl Hino. destruct (nslots_range s Hok) as [Hns Esz]. unfold sfs_writedir. kunfold.
  rewrite (proj2 (Z.leb_le 0 e)) by lia. kunfold. unfold kret.
  destruct (decide (e = MAXSLOTS)) as [->|Hne].
  { right. right. split; [done|]. unfold sfs_metaio. kunfold. change (u32 (u32 (MAXSLOTS * DESIZE) / SFS_BLOCKSIZE)) with 143. by rewrite sfs_bmap_big. }
  destruct (slot_pos e ltac:(lia)) as (E32 & Hp & Hm & Hb). rewrite E32.
  assert (Hlen : Z.of_nat (length (de_bytes sd)) = DESIZE) by (unfold de_bytes; rewrite length_app, Hl; done).
  pose proof (metaio_write s (e * DESIZE) (de_bytes sd)) as Hw. cbv zeta in Hw. rewrite Hlen in Hw.
  destruct (do_size _ Hok) as [Hsz _].
  destruct Hw as [(s' & -> & Hev & Esz' & Hby)|(s' & -> & Hg & Hb0)]; try done; [apply (do_file _ Hok)| |]; [left|right; left].
  2:{ exists s'. done. }
  exists s'. split; [done|]. split; [done|].
  assert (En : sfi_size (sv s') = Z.max (nslots s) (e + 1) * DESIZE) by (rewrite Esz', Esz; unfold DESIZE; lia).
  assert (En' : nslots s' = Z.max (nslots s) (e + 1)) by (unfold nslots at 1; rewrite En; by apply Z.div_mul).
  split_and!; [by rewrite En'|done|lia|]. intros i Hi. case_decide as Hd.
  - subst i. unfold entry. rewrite <- (de_of_bytes sd Hino). f_equal. apply list_eq. intros k. unfold bytes.
    rewrite list_lookup_fmap. destruct (decide (k < 64)%nat) as [Hk|Hk].
    + rewrite lookup_seqZ_lt by (unfold DESIZE; lia). cbn [fmap option_fmap option_map].
      rewrite Hby by (unfold DESIZE in *; lia). rewrite (proj2 (Z.leb_le _ _)), (proj2 (Z.ltb_lt _ _)) by (unfold DESIZE; lia). cbn [andb].
      rewrite Z.add_simpl_l, Nat2Z.id. symmetry. apply list_lookup_lookup_total_lt. unfold DESIZE in Hlen. lia.
    + rewrite lookup_seqZ_ge by (unfold DESIZE; lia). symmetry. apply lookup_ge_None. unfold DESIZE in Hlen. lia.
  - apply entry_ext; [done|]. intros p Hpr Hp'. rewrite Hby by done.
    destruct (Z.leb_spec (e * DESIZE) p), (Z.ltb_spec p (e * DESIZE + DESIZE)); cbn [andb]; try done.
    unfold DESIZE in *. lia.
Qed.

(** A used slot has a block. *)
Lemma used_block s i name x :
  0 <= i < MAXSLOTS -> used s i name x -> blockof s (i * DESIZE / SFS_BLOCKSIZE) <> 0.
Proof.
  intros Hi (_ & Hx & Ex & _) E0. apply Hx. rewrite <- Ex. destruct (slot_pos i Hi) as (_ & Hp & _ & Hb).
  assert (Hz : forall k, (k < 64)%nat -> bytes s (i * DESIZE) DESIZE !!! k = 0).
  { intros k Hk. unfold bytes. rewrite list_lookup_total_alt, list_lookup_fmap, lookup_seqZ_lt by (unfold DESIZE; lia).
    cbn. unfold file_byte. destruct (pos_in_block (i * DESIZE) (Z.of_nat k)) as [-> _];
      [pose proof (Z.mod_pos_bound (i * DESIZE) SFS_BLOCKSIZE ltac:(done)); unfold DESIZE in *; lia|]. by rewrite E0. }
  unfold entry, de_of, word_at. cbn [sfd_ino]. rewrite !Hz by lia. done.
Qed.

(** A state with the same slots is the same directory. *)
Lemma dir_same s s' :
  dir_ok s -> file_ok s' -> sfi_type (sv s') = sfi_type (sv s) -> sfi_size (sv s') = sfi_size (sv s) ->
  (forall i, 0 <= i < MAXSLOTS -> entry s' i = entry s i) ->
  dir_ok s' /\ dir_map s' = dir_map s /\ (forall i name x, used s' i name x <-> used s i name x).
Proof.
  intros Hok Hf Ht Hs He. destruct (nslots_range s Hok) as [Hns _].
  assert (En : nslots s' = nslots s) by (unfold nslots; by rewrite Hs).
  assert (Hu : forall i name x, used s' i name x <-> used s i name x).
  { intros i name x. unfold used. rewrite En.
    split; intros (Hi & ? & <- & <-); rewrite ?He in * by lia; (split; [done|]); split_and!; congruence. }
  assert (Hok' : dir_ok s').
  { destruct Hok as [? ? ? Hq]. split; [done|congruence|by rewrite Hs|].
    intros i j name x y Hi Hj. apply (Hq i j name x y); by apply Hu. }
  split_and!; [done| |done]. apply dir_map_ext; [done|]. intros name x.
  rewrite dir_map_lookup by done. split; intros [i Hi]; exists i; by apply Hu.
Qed.

Lemma dir_grows s s' : dir_ok s -> grows s s' ->
  dir_ok s' /\ dir_map s' = dir_map s /\ (forall i name x, used s' i name x <-> used s i name x).
Proof.
  intros Hok Hg. destruct (gr_meta _ _ Hg) as (_ & _ & Es & _ & Et & _).
  apply dir_same; try done; [apply (gr_ok _ _ Hg)|].
  intros i Hi. apply entry_ext; [done|]. intros p Hp _. by apply grows_byte; [apply do_file| |].
Qed.

Lemma dir_quiet s s' : dir_ok s -> quiet s s' -> disk_ok s' -> grows s s' /\
  dir_ok s' /\ dir_map s' = dir_map s /\ (forall i name x, used s' i name x <-> used s i name x).
Proof.
  intros Hok Hq Hd. destruct (quiet_grows s s' (do_file _ Hok) Hd Hq) as [Hg _].
  split; [done|]. by apply dir_grows.
Qed.

(** What is used after a slot has been written. *)
Lemma used_write s s' e sd :
  dir_ok s -> 0 <= e <= nslots s -> nslots s' = Z.max (nslots s) (e + 1) -> nslots s' <= MAXSLOTS ->
  (forall i, 0 <= i < MAXSLOTS -> entry s' i = if decide (i = e) then sd else entry s i) ->
  forall i name x, used s' i name x <->
    if decide (i = e) then x <> SFS_NOINO /\ sfd_ino sd = x /\ ename sd = name else used s i name x.
Proof.
  intros Hok He En Hm Hent i name x. destruct (nslots_range s Hok) as [Hns _]. unfold used. case_decide as Hd.
  - subst i. rewrite Hent by lia. rewrite decide_True by done. split; [naive_solver|]. intros ?. split; [lia|done].
  - split; intros (Hi & Hx & E1 & E2); (split; [lia|]); rewrite Hent, decide_False in * by (done || lia); done.
Qed.

Lemma dir_write s s' e sd :
  dir_ok s -> 0 <= e <= nslots s -> evolves s s' -> sfi_size (sv s') = nslots s' * DESIZE ->
  nslots s' = Z.max (nslots s) (e + 1) -> nslots s' <= MAXSLOTS ->
  (forall i name x, used s' i name x <->
    if decide (i = e) then x <> SFS_NOINO /\ sfd_ino sd = x /\ ename sd = name else used s i name x) ->
  (sfd_ino sd <> SFS_NOINO -> forall i x, i <> e -> ~ used s i (ename sd) x) ->
  dir_ok s'.
Proof.
  intros Hok He Hev Hsz En Hm Hu Hnew. destruct (nslots_range s Hok) as [Hns _].
  destruct (ev_meta _ _ Hev) as (_ & _ & Et & _).
  split; [apply (ev_ok _ _ Hev)|rewrite Et; apply (do_type _ Hok)| |].
  - rewrite Hsz, Z.mod_mul by done. unfold MAXSIZE, MAXBLOCKS, SFS_BLOCKSIZE, DESIZE, MAXSLOTS in *. lia.
  - intros i j name x y Hi Hj. apply Hu in Hi, Hj.
    destruct (decide (i = e)) as [->|], (decide (j = e)) as [->|]; try done.
    + destruct Hi as (Hx & Ei & Eni). subst. by destruct (Hnew Hx j y).
    + destruct Hj as (Hx & Ej & Enj). subst. by destruct (Hnew Hx i x).
    + by apply (do_uniq s Hok _ _ _ _ _ Hi Hj).
Qed.

(** Writing a new entry into a free slot. *)
Lemma link_slot s name ino slot :
  dir_ok s -> Forall (fun x => x <> 0) name -> (length name < 60)%nat -> 0 < ino < 2 ^ 32 ->
  0 <= slot <= nslots s -> (forall i x, ~ used s i name x) -> (forall nm x, ~ used s slot nm x) ->
  let sd := mkde ino (name ++ replicate (60 - length name) 0) in
  (exists s', sfs_writedir slot sd s = Done tt s' /\ evolves s s' /\ dir_ok s' /\
     dir_map s' = <[name := ino]> (dir_map s) /\ used s' slot name ino /\
     (forall k nm x, used s k nm x -> used s' k nm x)) \/
  (exists err s', sfs_writedir slot sd s = Fail err s' /\ (err = ENOSPC \/ err = EFBIG) /\
     dir_ok s' /\ evolves s s' /\ dir_map s' = dir_map s).
Proof.
  intros Hok Hn Hl Hino Hsl Hno Hfree sd.
  assert (Hname : ename sd = name).
  { unfold ename. cbn [sfd_name sd]. rewrite list_insert_id.
    - destruct (60 - length name)%nat as [|k] eqn:Ek; [lia|]. by apply cstr_app_zero.
    - rewrite lookup_app_r by lia. apply lookup_replicate_2. lia. }
  destruct (writedir_ok s slot sd) as [(s' & E & Hev & Hsz & En & Hm & Hent)|[(s' & E & Hg & _)|[_ E]]];
    try done; [cbn; rewrite length_app, length_replicate; lia|cbn; lia|left|right|right].
  - pose proof (used_write s s' slot sd Hok Hsl En Hm Hent) as Hu.
    assert (Hok' : dir_ok s') by (eapply (dir_write s s' slot sd); eauto; rewrite Hname; auto).
    assert (Hus : used s' slot name ino) by (apply Hu; rewrite decide_True by done; split; [unfold SFS_NOINO; lia|done]).
    exists s'. split_and!; [done|done|done| |done|].
    2:{ intros k nm x Hk. apply Hu. case_decide as Hd; [rewrite Hd in Hk; by destruct (Hfree nm x)|done]. }
    apply dir_map_ext; [done|]. intros nm x. split.
    + intros [i Hi]. destruct (decide (nm = name)) as [->|Hne].
      * rewrite lookup_insert_eq. f_equal.
        pose proof (do_uniq _ Hok' _ _ _ _ _ Hi Hus) as ->. destruct Hi as (_ & _ & <- & _), Hus as (_ & _ & <- & _). done.
      * rewrite lookup_insert_ne by done. apply dir_map_lookup; [done|]. exists i. apply Hu in Hi.
        case_decide; [|done]. destruct Hi as (_ & _ & ?). congruence.
    + intros Hx. apply lookup_insert_Some in Hx as [[<- <-]|[Hne Hx]]; [by exists slot|].
      apply dir_map_lookup in Hx as [i Hi]; [|done]. exists i. apply Hu. case_decide; [|done].
      subst i. by destruct (Hfree nm x).
  - exists ENOSPC, s'. destruct (dir_grows s s' Hok Hg) as (? & ? & _).
    split_and!; auto. apply grows_evolves; [apply (do_file _ Hok)|done].
  - exists EFBIG, s. split_and!; auto. apply grows_evolves, grows_refl; apply (do_file _ Hok).
Qed.

(** Linking, as callers use it. *)
Lemma dir_link_ok (s : st) (name : list Z) (ino : Z) (Hok : dir_ok s)
    (Hn : Forall (fun x => x <> 0) name) (Hino : 0 < ino < 2 ^ 32) :
  match dir_map s !! name with
  | Some _ => exists s', sfs_dir_link name ino s = Fail EEXIST s' /\ quiet s s' /\ disk_ok s'
  | None =>
      if (60 <=? length name)%nat then exists s', sfs_dir_link name ino s = Fail ENAMETOOLONG s' /\ quiet s s' /\ disk_ok s'
      else
        (exists slot s', sfs_dir_link name ino s = Done slot s' /\ dir_ok s' /\ evolves s s' /\
           dir_map s' = <[name := ino]> (dir_map s) /\ used s' slot name ino /\
     (forall k nm x, used s k nm x -> used s' k nm x)) \/
        (exists err s', sfs_dir_link name ino s = Fail err s' /\ (err = ENOSPC \/ err = EFBIG) /\
           dir_ok s' /\ evolves s s' /\ dir_map s' = dir_map s)
  end.
Proof.
  destruct (findname_ok s name (-1) Hok Hn) as (r & s1 & E & Hq & Hd & Hf & He).
  destruct (dir_quiet s s1 Hok Hq Hd) as (Hg1 & Hok1 & Em1 & Hu1).
  unfold sfs_dir_link. kunfold. rewrite E. clear E.
  destruct (fr_found r) as [[x j]|] eqn:Ef.
  { assert (Hm : dir_map s !! name = Some x) by (apply dir_map_lookup; [done|]; exists j; apply Hf).
    rewrite Hm, bool_decide_true by done. by exists s1. }
  assert (Hno : forall i x, ~ used s i name x) by (intros i x Hu; apply (Hf i x); [apply Hu|done]).
  rewrite (proj2 (dir_map_None s name Hok) Hno), bool_decide_false by (intros [? ?]; done).
  destruct (Nat.leb_spec 60 (length name)) as [Hlong|Hshort].
  { rewrite (proj2 (Z.ltb_lt _ _)) by (unfold SFS_NAMELEN; lia). by exists s1. }
  rewrite (proj2 (Z.ltb_ge _ _)) by (unfold SFS_NAMELEN; lia).
  destruct (nslots_range s Hok) as [Hns _].
  assert (En1 : nslots s1 = nslots s) by (unfold nslots; by rewrite (proj1 (proj2 (proj2 (proj2 Hq))))).
  set (slot := if fr_empty r <? 0 then nslots s else fr_empty r).
  assert (Hslot : 0 <= slot <= nslots s /\ (forall x nm, ~ used s slot nm x)).
  { unfold slot. destruct He as [-> | [Hr E0]]; cbn.
    - split; [lia|]. intros x nm (Hr & _). lia.
    - rewrite (proj2 (Z.ltb_ge _ _)) by lia. split; [lia|]. intros x nm (_ & Hx & Ex & _). congruence. }
  assert (Eslot : (if fr_empty r <? 0 then sfs_dir_nentries else (fun s0 => Done (fr_empty r) s0)) s1 = Done slot s1).
  { unfold slot. rewrite <- En1. destruct (fr_empty r <? 0); [by apply nentries_ok|done]. }
  rewrite Eslot. clear Eslot. destruct Hslot as [Hsl Hfree]. clearbody slot.
  destruct (link_slot s1 name ino slot) as [(s2 & -> & Hev & Hok2 & Em2 & Hus & Hmono)|(err & s2 & -> & He2 & Hok2 & Hev & Em2)];
    try done; try lia.
  - intros i x Hu. by apply (Hno i x), Hu1.
  - intros nm x Hu. by apply (Hfree x nm), Hu1.
  - left. exists slot, s2. split; [done|]. split; [done|]. rewrite <- Em1. split_and!; [|done|done|].
    2:{ intros k nm x Hk. by apply Hmono, Hu1. }
    eapply evolves_trans; [|done]. by apply grows_evolves; [apply do_file|].
  - right. exists err, s2. rewrite <- Em1. split_and!; try done.
    eapply evolves_trans; [|done]. by apply grows_evolves; [apply do_file|].
Qed.

(** Unlinking, as callers use it. *)
Lemma dir_unlink_ok (s : st) (slot : Z) (name : list Z) (ino : Z) (Hok : dir_ok s)
    (Hu : used s slot name ino) :
  exists s', sfs_dir_unlink slot s = Done tt s' /\ dir_ok s' /\ evolves s s' /\
    dir_map s' = delete name (dir_map s).
Proof.
  destruct (nslots_range s Hok) as [Hns _]. pose proof (proj1 Hu) as Hr. unfold sfs_dir_unlink.
  set (sd := mkde _ _).
  destruct (writedir_ok s slot sd) as [(s' & -> & Hev & Hsz & En & Hm & Hent)|[(s' & _ & _ & Hb)|[F _]]];
    try done; try lia.
  - pose proof (used_write s s' slot sd Hok ltac:(lia) En Hm Hent) as Hus.
    assert (Hok' : dir_ok s') by (eapply (dir_write s s' slot sd); eauto; lia || done).
    exists s'. split_and!; [done|done|done|]. apply dir_map_ext; [done|]. intros nm x.
    rewrite lookup_delete_Some, dir_map_lookup by done. split.
    + intros [i Hi]. apply Hus in Hi. case_decide; [by destruct Hi as (? & <- & _)|].
      split; [|by exists i]. intros <-. by pose proof (do_uniq _ Hok _ _ _ _ _ Hi Hu).
    + intros [Hne [i Hi]]. exists i. apply Hus. case_decide; [|done]. subst i. destruct Hne.
      destruct Hi as (_ & _ & _ & <-), Hu as (_ & _ & _ & <-). done.
  - by destruct (used_block s slot name ino ltac:(lia) Hu).
Qed.

(** ** Theorems *)

(** Looking a name up in a directory. [sfs_dir_findname] returns what the directory's
    map says: the inode number of the name, with a slot that holds it, or that there is
    no such name; neither the directory nor the disk changes. *)
Theorem sfs_dir_findname_spec (s : st) (name : list Z) (e : Z) (Hok : dir_ok s)
    (Hn : Forall (fun x => x <> 0) name) :
  exists r s', sfs_dir_findname name e s = Done r s' /\ quiet s s' /\
    dir_map s !! name = fst <$> fr_found r /\
    (forall x j, fr_found r = Some (x, j) -> used s j name x).
Proof.
  destruct (findname_ok s name e Hok Hn) as (r & s' & E & Hq & _ & Hf & _). exists r, s'.
  split; [done|]. split; [done|]. destruct (fr_found r) as [[x j]|]; cbn.
  - split; [apply dir_map_lookup; [done|]; exists j; apply Hf|]. intros ?? [= -> ->]. apply Hf.
  - split; [|done]. apply dir_map_None; [done|]. intros i x Hu. apply (Hf i x); [|done]. apply Hu.
Qed.

(** Linking a name. [sfs_dir_link] refuses a name that exists ([EEXIST]) or is longer
    than 59 bytes ([ENAMETOOLONG]) and changes nothing; otherwise the directory's map
    gains exactly the new name with its inode, in the slot returned, the directory stays
    well formed and no block in use outside it changes; or the volume or the directory
    is full ([ENOSPC], [EFBIG]) and the map is as before. *)
Theorem sfs_dir_link_spec (s : st) (name : list Z) (ino : Z) (Hok : dir_ok s)
    (Hn : Forall (fun x => x <> 0) name) (Hino : 0 < ino < 2 ^ 32) :
  match dir_map s !! name with
  | Some _ => exists s', sfs_dir_link name ino s = Fail EEXIST s' /\ quiet s s' /\ disk_ok s'
  | None =>
      if (60 <=? length name)%nat then exists s', sfs_dir_link name ino s = Fail ENAMETOOLONG s' /\ quiet s s' /\ disk_ok s'
      else
        (exists slot s', sfs_dir_link name ino s = Done slot s' /\ dir_ok s' /\ evolves s s' /\
           dir_map s' = <[name := ino]> (dir_map s) /\ used s' slot name ino /\
     (forall k nm x, used s k nm x -> used s' k nm x)) \/
        (exists err s', sfs_dir_link name ino s = Fail err s' /\ (err = ENOSPC \/ err = EFBIG) /\
           dir_ok s' /\ evolves s s' /\ dir_map s' = dir_map s)
  end.
Proof. by apply dir_link_ok. Qed.

(** Unlinking a name by its slot. [sfs_dir_unlink] of a used slot always succeeds: the
    directory's map loses exactly that name, the directory stays well formed and no
    block in use outside it changes. *)
Theorem sfs_dir_unlink_spec (s : st) (slot : Z) (name : list Z) (ino : Z) (Hok : dir_ok s)
    (Hu : used s slot name ino) :
  exists s', sfs_dir_unlink slot s = Done tt s' /\ dir_ok s' /\ evolves s s' /\
    dir_map s' = delete name (dir_map s).
Proof. by eapply dir_unlink_ok. Qed.

End Sound.
End Dir.

(** ** A concrete directory

    Inode 3, two slots in block 4: the name [ab] for inode 7, and a free slot. *)

Definition demo_name : list Z := [97; 98].
Definition demo_dirblock : list Z :=
  de_bytes (mkde 7 (demo_name ++ replicate 58 0)) ++ replicate 448 0.
Definition demo_dir : st :=
  mkst (fun b => if b =? 4 then demo_dirblock else replicate 512 0) (replicate 512 0) 0
    (mkbitmap 64 [127; 0; 0; 0; 0; 0; 0; 0]) false 64
    (mkvn 3 SFS_TYPE_DIR 128 2 (4 :: replicate 14 0) 0 false) (uio_kinit [] 0 0 UIO_READ).

Lemma demo_dir_ptrs : ptrs demo_dir = 4 :: replicate 143 0.
Proof. vm_compute. reflexivity. Qed.

Lemma demo_dir_file : file_ok demo_dir.
Proof.
  split.
  - split.
    + split_and!; [cbn; lia|reflexivity|]. intros b. cbn -[replicate demo_dirblock].
      destruct (b =? 4); [reflexivity|apply length_replicate].
    + split_and!; [cbn; lia|cbn; lia|reflexivity|repeat constructor; lia|]. intros i Hi. cbn in Hi. lia.
    + cbn. lia.
    + cbn. lia.
    + reflexivity.
  - reflexivity.
  - intros i p Hp. rewrite demo_dir_ptrs in Hp. apply list_elem_of_lookup_2, elem_of_cons in Hp as [->|Hp].
    + right. split; [cbn; lia|reflexivity].
    + apply elem_of_replicate in Hp as [-> _]. by left.
  - intros i j p. rewrite demo_dir_ptrs. apply NoDup_nonzero. vm_compute.
    repeat constructor; rewrite ?elem_of_cons, ?elem_of_nil; lia.
Qed.

Lemma demo_dir_used i name x : used demo_dir i name x -> i = 0.
Proof.
  intros (Hi & Hx & Ex & _). change (nslots demo_dir) with 2 in Hi.
  assert (H : i = 0 \/ i = 1) by lia. destruct H as [->| ->]; [done|].
  destruct Hx. rewrite <- Ex. vm_compute. reflexivity.
Qed.

Lemma demo_dir_ok : dir_ok demo_dir.
Proof.
  split; [apply demo_dir_file|reflexivity|split; [cbn; unfold MAXSIZE, MAXBLOCKS, SFS_BLOCKSIZE; lia|reflexivity]|].
  intros i j name x y Hi Hj. apply demo_dir_used in Hi, Hj. congruence.
Qed.

Lemma demo_dir_entry : used demo_dir 0 demo_name 7.
Proof. split; [change (nslots demo_dir) with 2; lia|]. split; [done|]. split; vm_compute; reflexivity. Qed.

Lemma sfs_dir_findname_spec_witness :
  exists r s', sfs_dir_findname demo_name (-1) demo_dir = Done r s' /\ fst <$> fr_found r = Some 7.
Proof.
  destruct (sfs_dir_findname_spec demo_dir demo_name (-1) demo_dir_ok) as (r & s' & E & _ & Em & _).
  { repeat constructor; done. }
  exists r, s'. split; [exact E|]. rewrite <- Em. vm_compute. reflexivity.
Defined.

(** A second name is linked. *)
Lemma sfs_dir_link_spec_witness :
  exists slot s', sfs_dir_link [99] 9 demo_dir = Done slot s' /\ dir_map s' !! [99] = Some 9.
Proof.
  pose proof (sfs_dir_link_spec demo_dir [99] 9 demo_dir_ok ltac:(repeat constructor; done) ltac:(lia)) as H.
  change (dir_map demo_dir !! [99]) with (dir_map demo_dir !! [99 : Z]) in H.
  assert (E : dir_map demo_dir !! [99 : Z] = None) by (vm_compute; reflexivity).
  rewrite E in H. cbn [length Nat.leb] in H. destruct H as [(slot & s' & Er & _ & _ & Em & _)|(e & s' & Er & _)].
  - exists slot, s'. split; [exact Er|]. rewrite Em. apply lookup_insert_eq.
  - exfalso. apply (f_equal (fun o => match o with Done _ _ => true | _ => false end)) in Er.
    vm_compute in Er. discriminate Er.
Defined.

Lemma sfs_dir_unlink_spec_witness :
  exists s', sfs_dir_unlink 0 demo_dir = Done tt s' /\ dir_map s' = ∅.
Proof.
  destruct (sfs_dir_unlink_spec demo_dir 0 demo_name 7 demo_dir_ok demo_dir_entry) as (s' & E & _ & _ & Em).
  exists s'. split; [exact E|]. rewrite Em. vm_compute. reflexivity.
Defined.
