(* ===== verification/SfsMap.v ===== *)
(** * SFS: the free map in memory and on the disk

    The free map is read at mount time and written back by [sfs_sync] if the flag
    [sfs_freemapdirty] is set. [map_ok] says that it agrees with its blocks on the disk
    when the flag is clear; [keeps] is the rule every operation on files and directories
    follows: it does not change the map without setting the flag. The rule holds whatever
    the disk answers; it is proved once for each operation of SfsDisk.v, SfsFile.v,
    SfsTrunc.v and SfsDir.v, with the database [keeps]. *)

From stdpp Require Import base numbers list gmap.
From Stdlib Require Import ZArith Lia.
From S2P Require Import Prelude Bitmap SfsDisk SfsFile SfsTrunc SfsDir.

Open Scope Z_scope.
Open Scope k_scope.

Definition SFS_MAGIC : Z := 0xabadf001.

(** [SFS_FREEMAPBLOCKS], kern/include/kern/sfs.h, for a size that fits. *)
Definition SFS_FREEMAPBLOCKS (nblocks : Z) : Z := (nblocks + 4095) / 4096.

(** The blocks that hold no file: the superblock and the free map. *)
Definition reserved (t : st) (b : Z) : Prop := b = 0 \/ 2 <= b < 2 + SFS_FREEMAPBLOCKS (sb_nblocks t).

(** Block [j] of the free map. *)
Definition map_block (m : bitmap) (j : Z) : list Z := take 512 (drop (Z.to_nat (512 * j)) (v m)).

(** The superblock and the free map on the disk belong to the volume in memory. *)
Record map_ok (t : st) : Prop := {
  mo_bits : nbits (sfs_freemap t) = 4096 * SFS_FREEMAPBLOCKS (sb_nblocks t);
  mo_room : 2 + SFS_FREEMAPBLOCKS (sb_nblocks t) <= sb_nblocks t;
  mo_super : word_at (dsk t 0) 0 = SFS_MAGIC /\ word_at (dsk t 0) 1 = sb_nblocks t;
  mo_clean : sfs_freemapdirty t = false ->
    forall j, 0 <= j < SFS_FREEMAPBLOCKS (sb_nblocks t) -> dsk t (2 + j) = map_block (sfs_freemap t) j
}.

(** The map is the same, or the flag is set. *)
Definition map_kept (t t' : st) : Prop :=
  nbits (sfs_freemap t') = nbits (sfs_freemap t) /\
  (sfs_freemapdirty t' = true \/ sfs_freemap t' = sfs_freemap t /\ sfs_freemapdirty t' = sfs_freemapdirty t).

#[global] Instance map_kept_preorder : PreOrder map_kept.
Proof.
  split.
  - intros t. split; [done|]. by right.
  - intros t1 t2 t3 [E1 H1] [E2 H2]. split; [congruence|]. destruct H2 as [?|[-> ->]]; [by left|done].
Qed.

Lemma map_kept_eq t t' : sfs_freemap t' = sfs_freemap t -> sfs_freemapdirty t' = sfs_freemapdirty t -> map_kept t t'.
Proof. intros E1 E2. split; [congruence|by right]. Qed.

Lemma map_frame t t' : map_ok t -> map_kept t t' -> sb_nblocks t' = sb_nblocks t ->
  (forall b, reserved t b -> dsk t' b = dsk t b) -> map_ok t'.
Proof.
  intros [Hb Hr Hs Hc] [En Hk] Enb Hd. split; rewrite Enb; [| done| |].
  - congruence.
  - rewrite Hd by (by left). done.
  - intros Hf j Hj. destruct Hk as [?|[-> Ef]]; [congruence|]. rewrite Hd by (right; lia). apply Hc; [congruence|done].
Qed.

(** ** The rule *)

Definition keeps {A} (m : K st A) : Prop :=
  forall t, match m t with Done _ t' | Fail _ t' => map_kept t t' | Halt _ => True end.

Lemma keeps_ret {A} (a : A) : keeps (kret a).
Proof. intros t. cbn. reflexivity. Qed.

Lemma keeps_fail {A} e : keeps (kfail e : K st A).
Proof. intros t. cbn. reflexivity. Qed.

Lemma keeps_halt {A} h : keeps (khalt h : K st A).
Proof. done. Qed.

Lemma keeps_get : keeps kget.
Proof. intros t. cbn. reflexivity. Qed.

Lemma keeps_assert b : keeps (kassert b).
Proof. destruct b; [apply keeps_ret|apply keeps_halt]. Qed.

Lemma keeps_modify f : (forall t, map_kept t (f t)) -> keeps (kmodify f).
Proof. intros Hf t. apply Hf. Qed.

Lemma keeps_bind {A B} (m : K st A) (f : A -> K st B) : keeps m -> (forall a, keeps (f a)) -> keeps (kbind m f).
Proof.
  intros Hm Hf t. specialize (Hm t). unfold kbind. destruct (m t) as [a t1|e t1|h]; [|done|done].
  specialize (Hf a t1). destruct (f a t1); [by etransitivity|by etransitivity|done].
Qed.

Lemma keeps_attempt {A} (m : K st A) : keeps m -> keeps (attempt m).
Proof. intros Hm t. specialize (Hm t). unfold attempt. by destruct (m t). Qed.

Lemma keeps_run {A} (m : K st A) t a t' : keeps m -> m t = Done a t' -> map_kept t t'.
Proof. intros Hm E. specialize (Hm t). by rewrite E in Hm. Qed.

Lemma keeps_run_fail {A} (m : K st A) t e t' : keeps m -> m t = Fail e t' -> map_kept t t'.
Proof. intros Hm E. specialize (Hm t). by rewrite E in Hm. Qed.

Create HintDb keeps.
#[export] Hint Resolve keeps_ret keeps_fail keeps_halt keeps_get keeps_assert : keeps.

(** The steps of an operation that is made of operations that follow the rule. *)
Ltac keeps :=
  repeat first
  [ progress intros
  | solve [eauto with keeps]
  | apply keeps_bind
  | apply keeps_attempt
  | apply keeps_modify; intros; split; [done|by right]
  | match goal with |- keeps (match ?x with _ => _ end) => destruct x end
  | match goal with |- keeps (kmodify (fun _ => match ?x with _ => _ end)) => destruct x end
  | progress cbv zeta ].

Lemma keeps_uiomove ptr n u : keeps (uiomove ptr n u).
Proof. unfold uiomove. keeps. Qed.
#[export] Hint Resolve keeps_uiomove : keeps.

Lemma keeps_uiomovezeros fuel n u : keeps (uiomovezeros fuel n u).
Proof. revert n u. induction fuel; intros; cbn [uiomovezeros]; keeps. Qed.
#[export] Hint Resolve keeps_uiomovezeros : keeps.

Section Ops.
Context {G : Geometry} {D : Disk}.

Lemma keeps_sectors len sector u : keeps (lhd_sectors len sector u).
Proof. revert sector u. induction len; intros; cbn [lhd_sectors]; keeps. Qed.

Lemma keeps_rwblock u : keeps (sfs_rwblock u).
Proof.
  unfold sfs_rwblock. generalize 10%nat. intros n. revert u. pose proof keeps_sectors.
  induction n; intros; cbn [sfs_retry]; unfold lhd_io; keeps.
Qed.

Lemma keeps_readblock b : keeps (sfs_readblock b).
Proof. pose proof keeps_rwblock. unfold sfs_readblock. keeps. Qed.

Lemma keeps_writeblock b d : keeps (sfs_writeblock b d).
Proof. pose proof keeps_rwblock. unfold sfs_writeblock. keeps. Qed.

(** The operations that change the map. *)
Lemma unmark_nbits b m : match bitmap_unmark b m with Done _ m' => nbits m' = nbits m | Fail _ _ => False | Halt _ => True end.
Proof.
  unfold bitmap_unmark. kunfold. destruct (b <? nbits m); [|done]. cbn -[Z.land]. by destruct (negb _).
Qed.

Lemma alloc_word_nbits n ix m :
  match alloc_word n ix m with Done _ m' => nbits m' = nbits m | Fail _ m' => m' = m | Halt _ => True end.
Proof.
  revert ix. induction n as [|n IH]; intros ix; cbn [alloc_word]; [done|]. kunfold.
  destruct (negb _); [|apply IH]. destruct (alloc_offset _ _ _) as [o|]; [|done].
  cbn [nbits]. by destruct (_ <? nbits m).
Qed.

Lemma keeps_balloc : keeps sfs_balloc.
Proof.
  intros t. unfold sfs_balloc, on_freemap. kunfold. unfold bitmap_alloc.
  pose proof (alloc_word_nbits (Z.to_nat (DIVROUNDUP (nbits (sfs_freemap t)) BITS_PER_WORD)) 0 (sfs_freemap t)) as Ha.
  destruct (alloc_word _ _ _) as [b m|e m|h]; [|subst m; split; [done|by right]|done].
  destruct (_ <=? b); [done|]. set (t1 := set_mapdirty _). unfold sfs_clearblock.
  pose proof (keeps_writeblock b (replicate 512 0) t1) as Hw. assert (H1 : map_kept t t1) by (split; [done|by left]).
  destruct (sfs_writeblock _ _ t1) as [[] t2|e t2|h]; [by etransitivity| |done].
  pose proof (unmark_nbits b (sfs_freemap t2)) as Hu. destruct (bitmap_unmark b _) as [[] m2|e2 m2|h]; [|done|done].
  destruct Hw as [En Hd]. split; [cbn in *; congruence|]. left. cbn in *. destruct Hd as [?|[_ ?]]; congruence.
Qed.

Lemma keeps_bfree b : keeps (sfs_bfree b).
Proof.
  intros t. unfold sfs_bfree, on_freemap. kunfold. pose proof (unmark_nbits b (sfs_freemap t)) as Hu.
  destruct (bitmap_unmark b _); [|done|done]. split; [done|by left].
Qed.

Lemma keeps_bused b : keeps (sfs_bused b).
Proof. unfold sfs_bused. keeps. Qed.

#[local] Hint Resolve keeps_rwblock keeps_readblock keeps_writeblock keeps_balloc keeps_bfree keeps_bused : keeps.

(** ** Files *)

Lemma keeps_bmap fb a : keeps (sfs_bmap fb a).
Proof. unfold sfs_bmap, check_used. keeps. Qed.
#[local] Hint Resolve keeps_bmap : keeps.

Lemma keeps_partialio skip len : keeps (sfs_partialio skip len).
Proof. unfold sfs_partialio. keeps. Qed.

Lemma keeps_blockio : keeps sfs_blockio.
Proof. unfold sfs_blockio. keeps. Qed.
#[local] Hint Resolve keeps_partialio keeps_blockio : keeps.

Lemma keeps_blocks n : keeps (sfs_blocks n).
Proof. induction n; cbn [sfs_blocks]; keeps. Qed.
#[local] Hint Resolve keeps_blocks : keeps.

Lemma keeps_io : keeps sfs_io.
Proof. unfold sfs_io, sfs_io_cut, sfs_io_body, sfs_io_out. keeps. Qed.

Lemma keeps_metaio pos d len rw : keeps (sfs_metaio pos d len rw).
Proof. unfold sfs_metaio. keeps. Qed.
#[local] Hint Resolve keeps_metaio : keeps.

Lemma keeps_itrunc len : keeps (sfs_itrunc len).
Proof.
  assert (Hd : forall n i bl, keeps (trunc_direct n i bl)) by (induction n; intros; cbn [trunc_direct]; keeps).
  assert (Hi : forall l j bl, keeps (trunc_indirect l j bl)) by (induction l; intros; cbn [trunc_indirect]; keeps).
  unfold sfs_itrunc. keeps.
Qed.

(** ** Directories *)

Lemma keeps_findname name e : keeps (sfs_dir_findname name e).
Proof.
  assert (Hl : forall k i r, keeps (findname_loop k i name r)) by (unfold findname_loop, sfs_readdir; fold findname_loop; induction k; intros; keeps).
  unfold sfs_dir_findname, sfs_dir_nentries. keeps.
Qed.
#[local] Hint Resolve keeps_findname : keeps.

Lemma keeps_dir_link name ino : keeps (sfs_dir_link name ino).
Proof. unfold sfs_dir_link, sfs_dir_nentries, sfs_writedir. keeps. Qed.

Lemma keeps_dir_unlink slot : keeps (sfs_dir_unlink slot).
Proof. unfold sfs_dir_unlink, sfs_writedir. keeps. Qed.

End Ops.

#[export] Hint Resolve keeps_readblock keeps_writeblock keeps_balloc keeps_bfree keeps_bused keeps_io keeps_itrunc
  keeps_findname keeps_dir_link keeps_dir_unlink : keeps.
