(* ===== verification/KArray.v ===== *)
(** * Resizable arrays, kern/lib/array.c

    An array is the memory block [arr_v] with its capacity [arr_max] and the number [arr_num] of
    elements in use. It is specified by the list [contents] of its elements: adding,
    removing, getting and setting elements are the list operations. The capacity is
    doubled in 32-bit arithmetic; the theorems say up to which size that is sound. *)

From stdpp Require Import base numbers list.
From Stdlib Require Import ZArith Lia.
From S2P Require Import Prelude.

Open Scope Z_scope.
Open Scope k_scope.

(** kern/include/array.h:70-73 (struct array). Elements are pointers; [arr_v] lists those
    the memory block has room for. *)
Record array := mkarr { arr_v : list Z; arr_num : Z; arr_max : Z }.

Definition arr_set_v f a := mkarr (f (arr_v a)) (arr_num a) (arr_max a).
Definition arr_set_num n a := mkarr (arr_v a) n (arr_max a).

(** kern/lib/array.c:56-61 (array_init). *)
Definition array_init : array := mkarr [] 0 0.

(** kern/lib/array.c:63-76 (array_cleanup). *)
Definition array_cleanup : K array unit :=
  a <- kget ;;
  kassert (arr_num a =? 0) ;;;
  kmodify (arr_set_v (fun _ => [])).

(** kern/lib/array.c:86-89 (array_preallocate): the loop that doubles the capacity. *)
Fixpoint new_max (fuel : nat) (n newmax : Z) : option Z :=
  if newmax <? n then
    match fuel with
    | O => None
    | S fuel' => new_max fuel' n (if negb (newmax =? 0) then u32 (newmax * 2) else 4)
    end
  else Some newmax.

(** kern/lib/array.c:78-108 (array_preallocate); [mem] is the block [kmalloc] returns,
    as a function of the number of bytes asked for ([None]: no memory). [memcpy] past
    the end of the new block is [OutOfBounds]; a loop that does not end is
    [OutOfFuel]. *)
Definition array_preallocate (mem : Z -> option (list Z)) (n : Z) : K array unit :=
  a <- kget ;;
  if arr_max a <? n then
    match new_max 40 n (arr_max a) with
    | None => khalt OutOfFuel
    | Some newmax =>
        match mem (u32 (newmax * 4)) with
        | None => kfail ENOMEM
        | Some newptr =>
            if Z.of_nat (length newptr) <? arr_num a then khalt OutOfBounds else
            kput (mkarr (take (Z.to_nat (arr_num a)) (arr_v a) ++ drop (Z.to_nat (arr_num a)) newptr) (arr_num a) newmax)
        end
    end
  else kret tt.

(** kern/lib/array.c:110-122 (array_setsize). *)
Definition array_setsize (mem : Z -> option (list Z)) (n : Z) : K array unit :=
  array_preallocate mem n ;;;
  kmodify (arr_set_num n).

(** kern/include/array.h:97-102 (array_get). *)
Definition array_get (index : Z) : K array Z :=
  a <- kget ;;
  kassert (index <? arr_num a) ;;;
  match arr_v a !! Z.to_nat index with
  | Some x => kret x
  | None => khalt OutOfBounds
  end.

(** kern/include/array.h:104-109 (array_set). *)
Definition array_set (index val : Z) : K array unit :=
  a <- kget ;;
  kassert (index <? arr_num a) ;;;
  if Z.of_nat (length (arr_v a)) <=? index then khalt OutOfBounds else
  kmodify (arr_set_v (fun l => <[Z.to_nat index := val]> l)).

(** kern/include/array.h:111-127 (array_add): the index of the new element. *)
Definition array_add (mem : Z -> option (list Z)) (val : Z) : K array Z :=
  a <- kget ;;
  let index := arr_num a in
  array_setsize mem (u32 (index + 1)) ;;;
  a <- kget ;;
  (if Z.of_nat (length (arr_v a)) <=? index then khalt OutOfBounds else
   kmodify (arr_set_v (fun l => <[Z.to_nat index := val]> l))) ;;;
  kret index.

(** kern/lib/array.c:124-135 (array_remove). *)
Definition array_remove (index : Z) : K array unit :=
  a <- kget ;;
  kassert (arr_num a <=? arr_max a) ;;;
  kassert (index <? arr_num a) ;;;
  let num_to_move := arr_num a - (index + 1) in
  let i := Z.to_nat index in
  let n := Z.to_nat num_to_move in
  kput (mkarr (take i (arr_v a) ++ take n (drop (S i) (arr_v a)) ++ drop (i + n) (arr_v a)) (u32 (arr_num a - 1)) (arr_max a)).

(** ** Specification *)

Definition contents (a : array) : list Z := take (Z.to_nat (arr_num a)) (arr_v a).

(** Capacities are 0 or 4 times a power of two, and the block has that many elements. *)
Record arr_ok (a : array) : Prop := {
  ao_num : 0 <= arr_num a <= arr_max a;
  ao_len : Z.of_nat (length (arr_v a)) = arr_max a;
  ao_max : arr_max a = 0 \/ exists k, 0 <= k <= 27 /\ arr_max a = 4 * 2 ^ k
}.

(** [kmalloc] returns blocks of the size asked for. *)
Definition mem_ok (mem : Z -> option (list Z)) : Prop :=
  forall n l, 0 <= n -> mem (n * 4) = Some l -> Z.of_nat (length l) = n.

(** The largest number of elements for which the 32-bit arithmetic is exact. *)
Definition MAXNUM : Z := 2 ^ 29.

Lemma new_max_pow fuel n k :
  0 <= k -> n <= MAXNUM -> k <= 27 -> 27 - k <= Z.of_nat fuel ->
  exists k', new_max fuel n (4 * 2 ^ k) = Some (4 * 2 ^ k') /\ k <= k' <= 27 /\ n <= 4 * 2 ^ k'.
Proof.
  revert k. induction fuel as [|fuel IH]; intros k Hk Hn Hk27 Hf; cbn [new_max];
    destruct (Z.ltb_spec (4 * 2 ^ k) n) as [Hlt|Hge]; try (exists k; split; [done|]; lia).
  - replace k with 27 in Hlt by lia. unfold MAXNUM in Hn. lia.
  - assert (k <> 27) by (intros ->; unfold MAXNUM in Hn; lia).
    destruct (Z.eqb_spec (4 * 2 ^ k) 0); [lia|]. cbn [negb].
    assert (2 ^ k <= 2 ^ 26) by (apply Z.pow_le_mono_r; lia).
    rewrite wrapu_small by lia. replace (4 * 2 ^ k * 2) with (4 * 2 ^ (k + 1)) by (rewrite Z.pow_add_r; lia).
    destruct (IH (k + 1)) as (k' & E & ? & ?); [lia..|]. exists k'. split; [done|]. lia.
Qed.

Lemma new_max_0 fuel n :
  new_max (S fuel) n 0 = if 0 <? n then new_max fuel n (4 * 2 ^ 0) else Some 0.
Proof. reflexivity. Qed.

(** The loop ends, with a capacity that is large enough and whose size in bytes fits in
    32 bits. *)
Lemma new_max_ok a n :
  arr_ok a -> n <= MAXNUM -> arr_max a < n ->
  exists m, new_max 40 n (arr_max a) = Some m /\ n <= m /\ (exists k, 0 <= k <= 27 /\ m = 4 * 2 ^ k) /\ u32 (m * 4) = m * 4.
Proof.
  intros [Hn _ Hm] Hle Hlt.
  assert (Hpow : forall k, 0 <= k <= 27 -> u32 (4 * 2 ^ k * 4) = 4 * 2 ^ k * 4).
  { intros k Hk. assert (2 ^ k <= 2 ^ 27) by (apply Z.pow_le_mono_r; lia). apply wrapu_small. lia. }
  destruct Hm as [E|(k & Hk & E)]; rewrite E in *.
  - rewrite new_max_0, (proj2 (Z.ltb_lt 0 n)) by lia.
    destruct (new_max_pow 39 n 0) as (k' & -> & ? & ?); [lia..|]. exists (4 * 2 ^ k').
    split_and!; [done|done|exists k'; split; [lia|done]|apply Hpow; lia].
  - destruct (new_max_pow 40 n k) as (k' & -> & ? & ?); [lia..|]. exists (4 * 2 ^ k').
    split_and!; [done|done|exists k'; split; [lia|done]|apply Hpow; lia].
Qed.

Lemma preallocate_ok mem a n :
  arr_ok a -> mem_ok mem -> n <= MAXNUM ->
  (array_preallocate mem n a = Fail ENOMEM a) \/
  (exists a', array_preallocate mem n a = Done tt a' /\ arr_ok a' /\ arr_num a' = arr_num a /\ n <= arr_max a' /\
     contents a' = contents a).
Proof.
  intros Hw Hm Hn. pose proof Hw as [Hnum Hlen _]. unfold array_preallocate. kunfold.
  destruct (Z.ltb_spec (arr_max a) n) as [Hlt|Hge]; [|right; exists a; done].
  destruct (new_max_ok a n Hw Hn Hlt) as (m & -> & Hnm & Hpow & E32). rewrite E32.
  destruct (mem (m * 4)) as [l|] eqn:El; [|by left]. right. pose proof (Hm m l ltac:(lia) El) as Hll.
  rewrite (proj2 (Z.ltb_ge _ _)) by lia. eexists. split; [done|].
  assert (Hc : contents (mkarr (take (Z.to_nat (arr_num a)) (arr_v a) ++ drop (Z.to_nat (arr_num a)) l) (arr_num a) m) = contents a).
  { unfold contents. cbn [arr_v arr_num]. rewrite take_app_le, take_take by (rewrite length_take; lia). f_equal. lia. }
  split_and!; try done. split; cbn; [lia| |by right].
  rewrite length_app, length_take, length_drop. lia.
Qed.

Lemma contents_lookup a i : arr_ok a -> 0 <= i < arr_num a -> contents a !! Z.to_nat i = arr_v a !! Z.to_nat i.
Proof. intros [? ? _] Hi. unfold contents. apply lookup_take_lt. lia. Qed.

(** Adding an element, as callers use it. *)
Lemma array_add_ok (mem : Z -> option (list Z)) (a : array) (val : Z)
    (Hw : arr_ok a) (Hm : mem_ok mem) (Hn : arr_num a < MAXNUM) :
  array_add mem val a = Fail ENOMEM a \/
  exists a', array_add mem val a = Done (arr_num a) a' /\ arr_ok a' /\ contents a' = contents a ++ [val] /\
    (forall i, 0 <= i <= arr_num a -> array_get i a' = Done ((contents a ++ [val]) !!! Z.to_nat i) a').
Proof.
  pose proof (ao_num _ Hw) as Hr. unfold array_add, array_setsize. kunfold.
  rewrite wrapu_small by (unfold MAXNUM in Hn; lia).
  destruct (preallocate_ok mem a (arr_num a + 1) Hw Hm ltac:(lia)) as [->|(a1 & -> & Hw1 & En & Hmax & Hc)]; [by left|].
  right. pose proof Hw1 as [Hn1 Hl1 Hm1]. cbn [arr_v arr_set_num].
  rewrite (proj2 (Z.leb_gt _ _)) by lia. eexists. split; [done|].
  set (a2 := arr_set_v _ _).
  assert (Hc2 : contents a2 = contents a ++ [val]).
  { rewrite <- Hc. unfold contents. cbn. replace (Z.to_nat (arr_num a + 1)) with (S (Z.to_nat (arr_num a))) by lia. rewrite En.
    erewrite take_S_r by (apply list_lookup_insert_eq; lia). by rewrite take_insert_ge by lia. }
  assert (Hw2 : arr_ok a2) by (split; cbn; [lia|rewrite length_insert; lia|done]).
  split_and!; [done|done|]. intros i Hi. unfold array_get. kunfold. change (arr_num a2) with (arr_num a + 1).
  rewrite (proj2 (Z.ltb_lt _ _)) by lia. rewrite <- (contents_lookup a2 i Hw2), Hc2 by (cbn; lia).
  rewrite list_lookup_lookup_total_lt; [done|].
  rewrite length_app. unfold contents. rewrite length_take. cbn. pose proof (ao_len _ Hw). lia.
Qed.

(** Removing an element, as callers use it. *)
Lemma array_remove_ok (a : array) (index : Z) (Hw : arr_ok a) (Hi : 0 <= index) :
  (arr_num a <= index /\ array_remove index a = Halt KAssert) \/
  (index < arr_num a /\ exists a', array_remove index a = Done tt a' /\ arr_ok a' /\ arr_max a' = arr_max a /\
     contents a' = delete (Z.to_nat index) (contents a)).
Proof.
  pose proof Hw as [Hn Hl Hm]. unfold array_remove. kunfold. rewrite (proj2 (Z.leb_le _ _)) by lia. kunfold.
  destruct (Z.ltb_spec index (arr_num a)) as [Hlt|Hge]; [right|by left].
  split; [done|]. eexists. split; [done|].
  assert (Hmax : arr_num a <= 2 ^ 29).
  { destruct Hm as [E|(k & Hk & E)]; [lia|]. assert (2 ^ k <= 2 ^ 27) by (apply Z.pow_le_mono_r; lia). lia. }
  rewrite wrapu_small by lia.
  split_and!; [|done|].
  - split; cbn; [lia| |done]. rewrite !length_app, !length_take, !length_drop. lia.
  - unfold contents. cbn [arr_v arr_num].
    rewrite delete_take_drop, take_take, Nat.min_l by lia.
    rewrite take_app_ge by (rewrite length_take; lia). f_equal.
    rewrite length_take, Nat.min_l by lia.
    rewrite take_app_length' by (rewrite length_take, length_drop; lia).
    rewrite skipn_firstn_comm. f_equal. lia.
Qed.

Lemma array_get_ok (a : array) (i x : Z) : arr_ok a -> 0 <= i -> contents a !! Z.to_nat i = Some x ->
  array_get i a = Done x a.
Proof.
  intros Hw Hi Hx. pose proof Hw as [Hn Hl _]. assert (Hlt : i < arr_num a).
  { apply lookup_lt_Some in Hx. unfold contents in Hx. rewrite length_take in Hx. lia. }
  unfold array_get. kunfold. rewrite (proj2 (Z.ltb_lt _ _)) by lia. by rewrite <- contents_lookup, Hx by (done || lia).
Qed.

Lemma contents_length a : arr_ok a -> Z.of_nat (length (contents a)) = arr_num a.
Proof. intros [? ? _]. unfold contents. rewrite length_take. lia. Qed.

(** ** Theorems *)

(** Adding to an array of fewer than 2^29 elements appends the element to its contents
    and returns its index; or memory is short ([ENOMEM]) and the array is unchanged. No
    assertion fails, the doubling loop ends and nothing is copied past the new block. *)
Theorem array_add_spec (mem : Z -> option (list Z)) (a : array) (val : Z)
    (Hw : arr_ok a) (Hm : mem_ok mem) (Hn : arr_num a < MAXNUM) :
  array_add mem val a = Fail ENOMEM a \/
  exists a', array_add mem val a = Done (arr_num a) a' /\ arr_ok a' /\ contents a' = contents a ++ [val] /\
    (forall i, 0 <= i <= arr_num a -> array_get i a' = Done ((contents a ++ [val]) !!! Z.to_nat i) a').
Proof. by apply array_add_ok. Qed.

Lemma array_add_spec_witness :
  exists a', array_add (fun n => Some (repeat 0 (Z.to_nat (n / 4)))) 9 (mkarr [5; 6; 7; 8] 4 4) = Done 4 a' /\
    arr_ok a' /\ contents a' = [5; 6; 7; 8; 9].
Proof.
  destruct (array_add_spec (fun n => Some (repeat 0 (Z.to_nat (n / 4)))) (mkarr [5; 6; 7; 8] 4 4) 9)
    as [H|(a' & H & Hw & Hc & _)].
  - split; cbn; [lia|done|right; by exists 0].
  - intros n l Hn H. simplify_eq/=. rewrite repeat_length, Z.div_mul by lia. lia.
  - unfold MAXNUM. cbn. lia.
  - vm_compute in H. discriminate.
  - by exists a'.
Defined.

(** Removing element [index] deletes it from the contents and slides the later ones
    down; the block and its capacity stay. An index out of range fails the assertion. *)
Theorem array_remove_spec (a : array) (index : Z) (Hw : arr_ok a) (Hi : 0 <= index) :
  (arr_num a <= index /\ array_remove index a = Halt KAssert) \/
  (index < arr_num a /\ exists a', array_remove index a = Done tt a' /\ arr_ok a' /\ arr_max a' = arr_max a /\
     contents a' = delete (Z.to_nat index) (contents a)).
Proof. by apply array_remove_ok. Qed.

Lemma array_remove_spec_witness :
  exists a', array_remove 1 (mkarr [5; 6; 7; 8] 3 4) = Done tt a' /\ contents a' = [5; 7].
Proof.
  destruct (array_remove_spec (mkarr [5; 6; 7; 8] 3 4) 1) as [[H _]|(_ & a' & H & _ & _ & Hc)].
  - split; cbn; [lia|done|right; by exists 0].
  - lia.
  - cbn in H. lia.
  - by exists a'.
Defined.

(** A request for more than 2^31 elements is never answered: the doubling passes from
    2^31 to 0 and starts again, whatever the number of iterations. *)
Theorem array_preallocate_diverges (n newmax : Z) (fuel : nat)
    (Hn : 2 ^ 31 < n) (Hm : newmax = 0 \/ exists k, 0 <= k <= 29 /\ newmax = 4 * 2 ^ k) :
  new_max fuel n newmax = None.
Proof.
  revert newmax Hm. induction fuel as [|fuel IH]; intros m Hm; cbn [new_max].
  - rewrite (proj2 (Z.ltb_lt _ _)); [done|]. destruct Hm as [->|(k & Hk & ->)]; [lia|].
    assert (2 ^ k <= 2 ^ 29) by (apply Z.pow_le_mono_r; lia). lia.
  - destruct Hm as [->|(k & Hk & ->)].
    + rewrite (proj2 (Z.ltb_lt _ _)) by lia. apply IH. right. by exists 0.
    + assert (2 ^ k <= 2 ^ 29) by (apply Z.pow_le_mono_r; lia).
      rewrite (proj2 (Z.ltb_lt _ _)) by lia. destruct (Z.eqb_spec (4 * 2 ^ k) 0) as [E|_]; [lia|]. cbn [negb].
      apply IH. destruct (Z.eq_dec k 29) as [->|]; [by left|]. right. exists (k + 1). split; [lia|].
      assert (2 ^ k <= 2 ^ 28) by (apply Z.pow_le_mono_r; lia).
      rewrite wrapu_small by lia. rewrite Z.pow_add_r; lia.
Qed.

Lemma array_preallocate_diverges_witness : new_max 1000 (2 ^ 31 + 1) 0 = None.
Proof. apply array_preallocate_diverges; [lia|by left]. Defined.
