(* ===== verification/SfsOwn.v ===== *)
(** * SFS: several files on one volume

    The lemmas of SfsFile.v, SfsTrunc.v and SfsDir.v are about one file. Here the files
    of a volume are put together: [blocks_ok] says that every inode has a block of its
    own, that every file is well formed and that no block belongs to two of them;
    [local] is what an operation on one file promises to the others. *)

From stdpp Require Import base numbers list gmap.
From Stdlib Require Import ZArith Lia.
From S2P Require Import Prelude Bitmap SfsDisk SfsFile SfsTrunc SfsDir SfsMap.

Open Scope Z_scope.
Open Scope k_scope.

(** The volume with vnode [w] being worked on. *)
Definition with_sv (w : vnode) (t : st) : st := set_sv (fun _ => w) t.

(** [p] is a block of the file. *)
Definition has (t : st) (p : Z) : Prop := p <> 0 /\ p ∈ ptrs t.

(** An inode as it may be in memory or on the disk. *)
Record inode_ok (i : Z) (w : vnode) : Prop := {
  io_ino : sv_ino w = i;
  io_type : sfi_type w = SFS_TYPE_FILE \/ sfi_type w = SFS_TYPE_DIR;
  io_size : 0 <= sfi_size w <= MAXSIZE;
  io_link : 0 <= sfi_linkcount w < 2 ^ 16
}.

Section Own.
Context {G : Geometry} {D : Disk}.

(** What an operation on one file promises to the others: a block that was in use and
    is not a block of this file stays in use and is not changed. *)
Record local (t t' : st) : Prop := {
  lo_ok : file_ok t';
  lo_ptr : forall p, has t' p -> has t p \/ bit (sfs_freemap t) p = false;
  lo_used : forall b, 0 <= b -> bit (sfs_freemap t) b = true -> ~ has t b -> bit (sfs_freemap t') b = true;
  lo_frame : forall b, 0 <= b -> bit (sfs_freemap t) b = true -> ~ has t b -> dsk t' b = dsk t b;
  lo_nblocks : sb_nblocks t' = sb_nblocks t
}.

(** The files [I] of the volume, with inodes [V]. *)
Record blocks_ok (I : gset Z) (V : Z -> vnode) (t : st) : Prop := {
  bo_vol : vol_ok t;
  bo_ino : forall i, i ∈ I -> 0 < i < sb_nblocks t /\ bit (sfs_freemap t) i = true /\ inode_ok i (V i);
  bo_file : forall i, i ∈ I -> file_ok (with_sv (V i) t);
  bo_disj : forall i j p, i ∈ I -> j ∈ I -> has (with_sv (V i) t) p -> has (with_sv (V j) t) p -> i = j;
  bo_nino : forall i j, i ∈ I -> j ∈ I -> ~ has (with_sv (V i) t) j;
  bo_res : forall b, reserved t b -> bit (sfs_freemap t) b = true /\ (b ∉ I) /\ forall i, i ∈ I -> ~ has (with_sv (V i) t) b
}.

(** A file is the same in both states: its pointers and its bytes. *)
Definition same_file (t t' : st) : Prop := ptrs t' = ptrs t /\ forall pos, 0 <= pos < MAXSIZE -> file_byte t' pos = file_byte t pos.

#[global] Instance same_file_equiv : Equivalence same_file.
Proof.
  split.
  - by intros t.
  - intros t t' [H1 H2]. split; [done|]. intros pos Hpos. by rewrite H2.
  - intros t1 t2 t3 [H1 H2] [H3 H4]. split; [congruence|]. intros pos Hpos. by rewrite H4, H2.
Qed.

Lemma with_sv_sv w t : sv (with_sv w t) = w.
Proof. done. Qed.

Lemma with_sv_id t : with_sv (sv t) t = t.
Proof. by destruct t. Qed.

Lemma with_sv_twice w w' t : with_sv w (with_sv w' t) = with_sv w t.
Proof. done. Qed.

Lemma has_lookup t p : has t p <-> p <> 0 /\ exists i, ptrs t !! i = Some p.
Proof. unfold has. by rewrite list_elem_of_lookup. Qed.

Lemma has_used t p : file_ok t -> has t p -> 0 < p < sb_nblocks t /\ bit (sfs_freemap t) p = true.
Proof. intros Hok [Hp [i Hi]%list_elem_of_lookup]. by eapply ptr_used. Qed.

Lemma has_indirect t : file_ok t -> sfi_indirect (sv t) <> 0 -> has t (sfi_indirect (sv t)).
Proof. intros Hok Hne. apply has_lookup. split; [done|]. exists 15%nat. apply ptrs_indirect, Hok. Qed.

Lemma has_blockof t fb : file_ok t -> 0 <= fb < MAXBLOCKS -> blockof t fb <> 0 -> has t (blockof t fb).
Proof. intros Hok Hfb Hne. apply has_lookup. split; [done|]. exists (slot fb). by apply blockof_lookup. Qed.

(** The file does not change when its blocks do not. *)
Lemma same_file_dsk t t' : file_ok t -> sv t' = sv t -> (forall p, has t p -> dsk t' p = dsk t p) -> same_file t t'.
Proof.
  intros Hok Hs Hd.
  assert (Ep : ptrs t' = ptrs t).
  { unfold ptrs. rewrite Hs. destruct (Z.eqb_spec (sfi_indirect (sv t)) 0) as [|Hne]; [done|].
    by rewrite Hd by (by apply has_indirect). }
  split; [done|]. intros pos Hpos. unfold file_byte.
  assert (Hfb : 0 <= pos / SFS_BLOCKSIZE < MAXBLOCKS) by (unfold MAXSIZE, SFS_BLOCKSIZE, MAXBLOCKS in *; Z.div_mod_to_equations; lia).
  assert (Eb : forall fb, blockof t' fb = blockof t fb) by (intros fb; unfold blockof; by rewrite Ep).
  rewrite Eb. destruct (Z.eqb_spec (blockof t (pos / SFS_BLOCKSIZE)) 0) as [|Hne]; [done|].
  by rewrite Hd by (by apply has_blockof).
Qed.

Lemma file_ok_dsk t t' : file_ok t -> sv t' = sv t -> vol_ok t' -> sb_nblocks t' = sb_nblocks t ->
  (forall p, has t p -> dsk t' p = dsk t p /\ bit (sfs_freemap t') p = true) -> file_ok t'.
Proof.
  intros Hok Hs Hv Hn Hd. destruct (same_file_dsk t t' Hok Hs) as [Ep _]; [intros p Hp; by apply Hd|].
  split; [done|rewrite Hs; apply Hok| |rewrite Ep; apply Hok].
  rewrite Ep, Hn. intros i p Hp. destruct (decide (p = 0)) as [|Hne]; [by left|right].
  assert (Hh : has t p) by (apply has_lookup; split; [done|by exists i]).
  split; [by apply (has_used t p Hok Hh)|by apply Hd].
Qed.

Lemma same_file_has t t' p : same_file t t' -> has t' p <-> has t p.
Proof. intros [Ep _]. unfold has. by rewrite Ep. Qed.

(** Block [b] holds an inode or data of some file, or is reserved. *)
Definition owned (I : gset Z) (V : Z -> vnode) (t : st) (b : Z) : Prop :=
  reserved t b \/ (b ∈ I) \/ exists i, (i ∈ I) /\ has (with_sv (V i) t) b.

Lemma owned_used I V t b : blocks_ok I V t -> owned I V t b -> 0 <= b < sb_nblocks t \/ reserved t b.
Proof.
  intros Hb [?|[Hi|(i & Hi & Hh)]]; [by right|left|left].
  - destruct (bo_ino _ _ _ Hb b Hi) as (? & _). lia.
  - destruct (has_used _ b (bo_file _ _ _ Hb i Hi) Hh) as [? _]. cbn in *. lia.
Qed.

Lemma owned_bit I V t b : blocks_ok I V t -> owned I V t b -> bit (sfs_freemap t) b = true.
Proof.
  intros Hb [Hr|[Hi|(i & Hi & Hh)]].
  - by apply (bo_res _ _ _ Hb).
  - by apply (bo_ino _ _ _ Hb).
  - by apply (has_used _ b (bo_file _ _ _ Hb i Hi) Hh).
Qed.

(** A state in which the blocks of all files are as before. *)
Lemma blocks_frame I V V' t t' : blocks_ok I V t -> vol_ok t' -> sb_nblocks t' = sb_nblocks t ->
  (forall i, i ∈ I -> inode_ok i (V' i) /\ sfi_direct (V' i) = sfi_direct (V i) /\ sfi_indirect (V' i) = sfi_indirect (V i) \/ V' i = V i) ->
  (forall b, owned I V t b -> bit (sfs_freemap t') b = true) ->
  (forall i p, i ∈ I -> has (with_sv (V i) t) p -> dsk t' p = dsk t p) ->
  blocks_ok I V' t' /\ forall i, i ∈ I -> same_file (with_sv (V i) t) (with_sv (V' i) t').
Proof.
  intros [Hv Hi Hf Hdj Hn Hr] Hv' Hnb HV Hu Hd.
  assert (Hsf : forall i, i ∈ I -> same_file (with_sv (V i) t) (with_sv (V' i) t') /\ inode_ok i (V' i)).
  { intros i Hin.
    assert (E : inode_ok i (V' i) /\ sfi_direct (V' i) = sfi_direct (V i) /\ sfi_indirect (V' i) = sfi_indirect (V i)).
    { destruct (HV i Hin) as [(? & ?)| ->]; [done|]. split; [apply (Hi i Hin)|done]. }
    destruct E as (Hiok & Ed & Ei). split; [|done].
    assert (Hs : same_file (with_sv (V i) t) (with_sv (V i) t')) by (apply same_file_dsk; [by apply Hf|done|]; intros p Hp; by eapply Hd).
    assert (Ep : ptrs (with_sv (V' i) t') = ptrs (with_sv (V i) t')) by (unfold ptrs; cbn; by rewrite Ed, Ei).
    etransitivity; [exact Hs|]. split; [done|]. intros pos _. unfold file_byte, blockof. by rewrite Ep. }
  assert (Hh : forall i p, i ∈ I -> has (with_sv (V' i) t') p <-> has (with_sv (V i) t) p).
  { intros i p Hin. by apply same_file_has, Hsf. }
  split; [|intros i Hin; by apply Hsf]. split.
  - done.
  - intros i Hin. destruct (Hi i Hin) as (? & ? & _). rewrite Hnb. split; [done|]. split; [apply Hu; right; by left|by apply Hsf].
  - intros i Hin. destruct (Hsf i Hin) as [[Ep _] _]. specialize (Hf i Hin).
    assert (Ed : sfi_direct (V' i) = sfi_direct (V i)) by (destruct (HV i Hin) as [(_ & ? & _)| ->]; done).
    split; [by apply vol_ok_sv|cbn; rewrite Ed; apply Hf| |rewrite Ep; apply Hf].
    rewrite Ep. cbn. rewrite Hnb. intros k p Hp. destruct (decide (p = 0)) as [|Hp0]; [by left|right].
    destruct (ptr_used _ k p Hf Hp Hp0) as [? ?]. split; [done|].
    apply Hu. right. right. exists i. split; [done|]. apply has_lookup. split; [done|]. by exists k.
  - intros i j p Hin Hjn. rewrite !Hh by done. by apply Hdj.
  - intros i j Hin Hjn. rewrite Hh by done. by apply Hn.
  - intros b Hb. unfold reserved in Hb. rewrite Hnb in Hb. destruct (Hr b Hb) as (? & ? & Hnh).
    split; [apply Hu; by left|]. split; [done|]. intros i Hin. rewrite Hh by done. by apply Hnh.
Qed.

(** ** Operations on one file *)

Lemma evolves_local t t' : file_ok t -> evolves t t' -> local t t'.
Proof.
  intros Hok [Hok' Hp Hu Hf (Hn & _) _]. split; try done; [|by intros; apply Hu|].
  - intros p [Hp0 Hh]%has_lookup. destruct Hh as [i Hi]. destruct (Hp i p Hi) as [?|[?|?]]; [done|left|by right].
    apply has_lookup. split; [done|]. by exists i.
  - intros b Hb Hub Hno. apply Hf; [done|done|]. intros Hb0 i Hi. apply Hno, has_lookup. split; [done|]. by exists i.
Qed.

(** What truncation to nothing leaves. *)
Lemma itrunc_local `{!Reliable D} t : file_ok t ->
  exists t', sfs_itrunc 0 t = Done tt t' /\ local t t' /\ same_id (sv t) (sv t') /\ sfi_size (sv t') = 0 /\ sv_dirty (sv t') = true /\
    (forall p, ~ has t' p) /\ (forall b, 0 <= b -> bit (sfs_freemap t') b = true <-> bit (sfs_freemap t) b = true /\ ~ has t b).
Proof.
  intros Hok. destruct (itrunc_ok t 0 Hok) as (t' & E & Hok' & Hsz & Hn & _ & Hb & Hd & Hp & Hz & Hs & Hdir).
  { unfold MAXSIZE, MAXBLOCKS, SFS_BLOCKSIZE. lia. }
  assert (Hno : forall p, ~ has t' p) by (intros p [Hp0 [k Hk]%list_elem_of_lookup]; by eapply Hp0, Hz).
  assert (Hc : forall b, cleared t t' b <-> has t b).
  { intros b. rewrite has_lookup. unfold cleared. split; [intros (? & k & ? & _); eauto|]. intros (Hb0 & k & Hk). split; [done|].
    exists k. split; [done|]. assert (Hlt : (k < length (ptrs t'))%nat).
    { rewrite ptrs_length by apply Hok'. apply lookup_lt_Some in Hk. rewrite ptrs_length in Hk; [done|apply Hok]. }
    apply lookup_lt_is_Some in Hlt as [q Hq]. rewrite Hq. f_equal. by eapply Hz. }
  assert (Hbit : forall b, 0 <= b -> bit (sfs_freemap t') b = true <-> bit (sfs_freemap t) b = true /\ ~ has t b).
  { intros b Hb0. by rewrite Hb, Hc. }
  exists t'. split; [done|]. split_and!; try done. split; try done.
  - by intros p ?%Hno.
  - intros b Hb0 Hu Hnh. by apply Hbit.
  - intros b Hb0 Hu Hnh. apply Hd. intros Hne ->. by apply Hnh, has_indirect.
Qed.

Lemma local_refl t : file_ok t -> local t t.
Proof. intros Hok. split; try done. by left. Qed.

(** An operation on file [i] keeps the volume well formed and leaves the other files
    alone. *)
Lemma blocks_local I V V' t t' i : blocks_ok I V t -> i ∈ I -> local (with_sv (V i) t) t' -> inode_ok i (sv t') ->
  V' i = sv t' -> (forall j, j ∈ I -> j <> i -> V' j = V j) ->
  blocks_ok I V' t' /\ forall j, j ∈ I -> j <> i -> same_file (with_sv (V j) t) (with_sv (V' j) t').
Proof.
  intros [Hv Hi Hf Hdj Hn Hr] Hin [Lok Lp Lu Lf Ln] Hio Ei Ej. cbn in Ln.
  assert (Hat : with_sv (V' i) t' = t') by (rewrite Ei; apply with_sv_id).
  assert (Hother : forall j, j ∈ I -> j <> i -> same_file (with_sv (V j) t) (with_sv (V' j) t') /\ file_ok (with_sv (V' j) t')).
  { intros j Hjn Hne. rewrite Ej by done.
    assert (Hkeep : forall p, has (with_sv (V j) t) p -> dsk t' p = dsk t p /\ bit (sfs_freemap t') p = true).
    { intros p Hp. destruct (has_used _ p (Hf j Hjn) Hp) as [? ?]. cbn in *.
      assert (~ has (with_sv (V i) t) p) by (intros Hp'; apply Hne; by eapply Hdj).
      split; [apply Lf|apply Lu]; (done || lia). }
    split; [apply same_file_dsk; [by apply Hf|done|]; intros p Hp; by apply Hkeep|].
    apply (file_ok_dsk (with_sv (V j) t)); [by apply Hf|done|apply vol_ok_sv, Lok|done|done]. }
  assert (Hh : forall j p, j ∈ I -> j <> i -> has (with_sv (V' j) t') p <-> has (with_sv (V j) t) p).
  { intros j p Hjn Hne. by apply same_file_has, Hother. }
  assert (Hmix : forall j p, j ∈ I -> j <> i -> has (with_sv (V' j) t') p -> ~ has t' p).
  { intros j p Hjn Hne. rewrite Hh by done. intros Hp [Hp'|Hfree]%Lp; [apply Hne; by eapply Hdj|].
    destruct (has_used _ p (Hf j Hjn) Hp) as [_ Hu]. cbn in *. congruence. }
  assert (Hino : forall j, j ∈ I -> ~ has (with_sv (V i) t) j) by (intros j Hjn; by apply Hn).
  split; [|intros j Hjn Hne; by apply Hother]. split.
  - apply (fo_vol _ Lok).
  - intros j Hjn. destruct (Hi j Hjn) as (? & ? & Hjo). rewrite Ln. split; [done|]. split; [apply Lu; [lia|done|by apply Hino]|].
    destruct (decide (j = i)) as [->|]; [by rewrite Ei|by rewrite Ej].
  - intros j Hjn. destruct (decide (j = i)) as [->|]; [by rewrite Hat|by apply Hother].
  - intros j k p Hjn Hkn Hj Hk. destruct (decide (j = i)) as [->|], (decide (k = i)) as [->|]; [done| | |].
    + rewrite Hat in Hj. by destruct (Hmix k p).
    + rewrite Hat in Hk. by destruct (Hmix j p).
    + rewrite Hh in Hj, Hk by done. by eapply Hdj.
  - intros j k Hjn Hkn. destruct (decide (j = i)) as [->|]; [|rewrite Hh by done; by apply Hn].
    rewrite Hat. intros [Hp|Hfree]%Lp; [by apply (Hino k)|]. destruct (Hi k Hkn) as (_ & Hu & _). cbn in *. congruence.
  - intros b Hb. unfold reserved in Hb. rewrite Ln in Hb. destruct (Hr b Hb) as (Hu & ? & Hnh).
    split; [apply Lu; [destruct Hb; lia|done|by apply Hnh]|]. split; [done|]. intros j Hjn.
    destruct (decide (j = i)) as [->|]; [|rewrite Hh by done; by apply Hnh].
    rewrite Hat. intros [Hp|Hfree]%Lp; [by apply (Hnh i)|]. cbn in *. congruence.
Qed.

(** A new inode in a block that no file has. *)
Lemma blocks_add I V V' t i : blocks_ok I V t -> i ∉ I -> 0 < i < sb_nblocks t -> bit (sfs_freemap t) i = true ->
  (forall j, j ∈ I -> ~ has (with_sv (V j) t) i) -> ~ reserved t i ->
  inode_ok i (V' i) -> length (sfi_direct (V' i)) = 15%nat -> (forall p, ~ has (with_sv (V' i) t) p) ->
  (forall j, j ∈ I -> V' j = V j) -> blocks_ok ({[i]} ∪ I) V' t.
Proof.
  intros [Hv Hi Hf Hdj Hn Hr] Hni Hir Hu Hnh Hnr Hio Hl Hno HV.
  assert (Hcase : forall j, j ∈ {[i]} ∪ I -> j = i \/ (j ∈ I) /\ V' j = V j).
  { intros j [->%elem_of_singleton|Hj]%elem_of_union; [by left|right]. auto. }
  split.
  - done.
  - intros j [->|[Hj ->]]%Hcase; [done|]. by apply Hi.
  - intros j [->|[Hj ->]]%Hcase; [|by apply Hf]. split; [by apply vol_ok_sv|done| |].
    + intros k p Hp. left. destruct (decide (p = 0)) as [|Hp0]; [done|]. destruct (Hno p). apply has_lookup. split; [done|]. by exists k.
    + intros k k' p Hp _ Hp0. destruct (Hno p). apply has_lookup. split; [done|]. by exists k.
  - intros j k p [->|[Hj ->]]%Hcase [->|[Hk ->]]%Hcase; [done|by intros ?%Hno|by intros _ ?%Hno|]. by apply Hdj.
  - intros j k [->|[Hj ->]]%Hcase; [by intros _ ?%Hno|]. intros [->|[Hk _]]%Hcase; [by apply Hnh|by apply Hn].
  - intros b Hb. destruct (Hr b Hb) as (? & ? & Hb'). split; [done|]. split.
    + intros [->|[? _]]%Hcase; done.
    + intros j [->|[Hj ->]]%Hcase; [apply Hno|by apply Hb'].
Qed.

(** A file without blocks is discarded. *)
Lemma blocks_del I V t i : blocks_ok I V t -> blocks_ok (I ∖ {[i]}) V t.
Proof.
  intros [Hv Hi Hf Hdj Hn Hr]. split; try done.
  - intros j Hj. apply Hi. set_solver.
  - intros j Hj. apply Hf. set_solver.
  - intros j k p Hj Hk. apply Hdj; set_solver.
  - intros j k Hj Hk. apply Hn; set_solver.
  - intros b Hb. destruct (Hr b Hb) as (? & ? & Hb'). split; [done|]. split; [set_solver|]. intros j Hj. apply Hb'. set_solver.
Qed.

Lemma blocks_ext I V V' t : blocks_ok I V t -> (forall i, i ∈ I -> V' i = V i) -> blocks_ok I V' t.
Proof.
  intros [Hv Hi Hf Hdj Hn Hr] HV. split; try done.
  - intros j Hj. rewrite HV by done. by apply Hi.
  - intros j Hj. rewrite HV by done. by apply Hf.
  - intros j k p Hj Hk. rewrite !HV by done. by apply Hdj.
  - intros j k Hj Hk. rewrite !HV by done. by apply Hn.
  - intros b Hb. destruct (Hr b Hb) as (? & ? & Hb'). split; [done|]. split; [done|]. intros j Hj. rewrite HV by done. by apply Hb'.
Qed.

End Own.
