(* ===== verification/SfsInode.v ===== *)
(** * SFS: inodes and vnodes

    The vnodes of an SFS volume: reference counts (kern/vfs/vnode.c), the table of the
    vnodes in memory, loading an inode from the disk, writing it back, and what happens
    when the last reference goes away (kern/fs/sfs/sfs_inode.c).

    A file is an inode number of the volume; its inode is the one in memory when it is
    loaded and the one on the disk otherwise ([inode_of]). The invariant [fs_ok] says
    that the files of the volume do not share blocks, that the table holds exactly the
    vnodes in memory, no inode twice, that a vnode that is not marked dirty agrees with
    the disk, and that the free map does so unless its flag is set (SfsMap.v). *)

From stdpp Require Import base numbers list gmap.
From Stdlib Require Import ZArith Lia.
From S2P Require Import Prelude Bitmap SfsDisk SfsFile SfsTrunc SfsDir SfsMap KArray SfsOwn.

Open Scope Z_scope.
Open Scope k_scope.

Definition SFS_ROOTDIR_INO : Z := 1.

(** [kmalloc]: whether the [n]-th request for a vnode finds memory, and the block the
    [n]-th request for an array returns. *)
Class Heap := {
  kmalloc_ok : nat -> bool;
  kmalloc_array : nat -> Z -> option (list Z);
  kmalloc_array_ok : forall n, mem_ok (kmalloc_array n)
}.

(** kern/include/vnode.h:51-60 (struct vnode) and the part of the inode that is not
    used (kern/include/kern/sfs.h:89). *)
Record vn := mkV { vn_refcount : Z; vn_sv : vnode; sfi_waste : list Z }.

(** kern/include/sfs.h:64-72 (struct sfs_fs): the volume with the table of its vnodes.
    Vnodes are named by address; [vheap] holds those that are allocated. *)
Record fs := mkfs { vol : st; vheap : gmap Z vn; sfs_vnodes : array; nextv : Z; nalloc : nat }.

Definition set_vol t s := mkfs t (vheap s) (sfs_vnodes s) (nextv s) (nalloc s).
Definition set_vheap h s := mkfs (vol s) h (sfs_vnodes s) (nextv s) (nalloc s).
Definition set_vnodes a s := mkfs (vol s) (vheap s) a (nextv s) (nalloc s).
Definition set_refcount n x := mkV n (vn_sv x) (sfi_waste x).
Definition set_vn_sv w x := mkV (vn_refcount x) w (sfi_waste x).
Definition set_clean w := mkvn (sv_ino w) (sfi_type w) (sfi_size w) (sfi_linkcount w) (sfi_direct w) (sfi_indirect w) false.
Definition set_type n w := mkvn (sv_ino w) n (sfi_size w) (sfi_linkcount w) (sfi_direct w) (sfi_indirect w) true.
Definition set_linkcount n w := mkvn (sv_ino w) (sfi_type w) (sfi_size w) n (sfi_direct w) (sfi_indirect w) true.

(** The inode as it is on the disk (struct sfs_dinode), in the machine's byte order. *)
Definition inode_words (x : vn) : list Z :=
  [sfi_size (vn_sv x); sfi_type (vn_sv x) * 65536 + sfi_linkcount (vn_sv x)] ++
  sfi_direct (vn_sv x) ++ [sfi_indirect (vn_sv x)] ++ sfi_waste x.

Definition inode_bytes (x : vn) : list Z := unwords (inode_words x).

Definition inode_of_block (ino : Z) (bs : list Z) : vnode :=
  let ws := words bs in
  mkvn ino (ws !!! 1%nat / 65536) (ws !!! 0%nat) (ws !!! 1%nat mod 65536) (take 15 (drop 2 ws)) (ws !!! 17%nat) false.

Definition waste_of_block (bs : list Z) : list Z := drop 18 (words bs).

Section Inodes.
Context {G : Geometry} {D : Disk} {H : Heap}.

(** ** Access to the state *)

(** An operation of the volume that does not look at a vnode. *)
Definition on_vol {A} (m : K st A) : K fs A :=
  fun s => match m (vol s) with
           | Done a t => Done a (set_vol t s)
           | Fail e t => Fail e (set_vol t s)
           | Halt h => Halt h
           end.

Definition on_vnodes {A} (m : K array A) : K fs A :=
  fun s => match m (sfs_vnodes s) with
           | Done a l => Done a (set_vnodes l s)
           | Fail e l => Fail e (set_vnodes l s)
           | Halt h => Halt h
           end.

Definition vn_get (v : Z) : K fs vn :=
  fun s => match vheap s !! v with
           | Some x => Done x s
           | None => Halt UseAfterFree
           end.

Definition vn_update (v : Z) (f : vn -> vn) : K fs unit :=
  x <- vn_get v ;;
  kmodify (fun s => set_vheap (<[v := f x]> (vheap s)) s).

(** An operation on the file of vnode [v]. *)
Definition put_vn (v : Z) (x : vn) (t : st) (s : fs) : fs :=
  set_vheap (<[v := set_vn_sv (sv t) x]> (vheap s)) (set_vol t s).

Definition on_vn {A} (v : Z) (m : K st A) : K fs A :=
  fun s => match vheap s !! v with
           | None => Halt UseAfterFree
           | Some x =>
               match m (with_sv (vn_sv x) (vol s)) with
               | Done a t => Done a (put_vn v x t s)
               | Fail e t => Fail e (put_vn v x t s)
               | Halt h => Halt h
               end
           end.

(** ** Reference counts, kern/vfs/vnode.c *)

(** kern/vfs/vnode.c:43-57 (vnode_init). *)
Definition vnode_init (w : vnode) (waste : list Z) : vn := mkV 1 w waste.

(** kern/vfs/vnode.c:62-73 (vnode_cleanup), and the [kfree] that follows it in
    [sfs_reclaim] and [sfs_loadvnode]. *)
Definition vnode_cleanup (v : Z) : K fs unit :=
  x <- vn_get v ;;
  kassert (vn_refcount x =? 1) ;;;
  kmodify (fun s => set_vheap (delete v (vheap s)) s).

(** kern/vfs/vnode.c:80-88 (vnode_incref). *)
Definition vnode_incref (v : Z) : K fs unit :=
  vn_update v (fun x => set_refcount (s32 (vn_refcount x + 1)) x).

(** kern/vfs/vnode.c:129-178 (vnode_check): what can fail of it for a vnode that is
    allocated and set up. *)
Definition vnode_check (v : Z) : K fs unit :=
  x <- vn_get v ;;
  if vn_refcount x <=? 0 then khalt PanicCall else kret tt.

(** ** Inodes, kern/fs/sfs/sfs_inode.c *)

(** kern/fs/sfs/sfs_inode.c:46-61 (sfs_sync_inode). *)
Definition sfs_sync_inode (v : Z) : K fs unit :=
  x <- vn_get v ;;
  if sv_dirty (vn_sv x) then
    on_vol (sfs_writeblock (sv_ino (vn_sv x)) (inode_bytes x)) ;;;
    vn_update v (fun x => set_vn_sv (set_clean (vn_sv x)) x)
  else kret tt.

(** kern/fs/sfs/sfs_inode.c:117-126 (sfs_reclaim): the index of the vnode in the table;
    [k] slots remain from [i] on. *)
Fixpoint vnode_index (k : nat) (i v : Z) : K fs (option Z) :=
  match k with
  | O => kret None
  | S k' =>
      v2 <- on_vnodes (array_get i) ;;
      if v2 =? v then kret (Some i) else vnode_index k' (i + 1) v
  end.

(** kern/fs/sfs/sfs_inode.c:68-142 (sfs_reclaim). *)
Definition sfs_reclaim (v : Z) : K fs unit :=
  x <- vn_get v ;;
  if negb (vn_refcount x =? 1) then
    kassert (1 <? vn_refcount x) ;;;
    vn_update v (fun x => set_refcount (vn_refcount x - 1) x) ;;;
    kfail EBUSY
  else
    (if sfi_linkcount (vn_sv x) =? 0 then on_vn v (sfs_itrunc 0) else kret tt) ;;;
    sfs_sync_inode v ;;;
    x <- vn_get v ;;
    (if sfi_linkcount (vn_sv x) =? 0 then on_vol (sfs_bfree (sv_ino (vn_sv x))) else kret tt) ;;;
    s <- kget ;;
    ix <- vnode_index (Z.to_nat (arr_num (sfs_vnodes s))) 0 v ;;
    match ix with
    | None => khalt PanicCall
    | Some ix =>
        on_vnodes (array_remove ix) ;;;
        vnode_cleanup v
    end.

(** kern/vfs/vnode.c:96-123 (vnode_decref); the vnode's operation is [sfs_reclaim]. *)
Definition vnode_decref (v : Z) : K fs unit :=
  x <- vn_get v ;;
  kassert (0 <? vn_refcount x) ;;;
  if 1 <? vn_refcount x then
    vn_update v (fun x => set_refcount (vn_refcount x - 1) x)
  else
    vnode_check v ;;;
    attempt (sfs_reclaim v) ;;; kret tt.

(** kern/fs/sfs/sfs_inode.c:163-184 (sfs_loadvnode): the search in the table; [k] slots
    remain from [i] on. *)
Fixpoint load_search (k : nat) (i ino : Z) : K fs (option Z) :=
  match k with
  | O => kret None
  | S k' =>
      v <- on_vnodes (array_get i) ;;
      x <- vn_get v ;;
      used <- on_vol (sfs_bused (sv_ino (vn_sv x))) ;;
      if negb used then khalt PanicCall else
      if sv_ino (vn_sv x) =? ino then kret (Some v) else load_search k' (i + 1) ino
  end.

(** A new vnode structure, at an address that is not in use; or there is no memory. *)
Definition kmalloc_vnode : K fs Z :=
  s <- kget ;;
  kput (mkfs (vol s) (vheap s) (sfs_vnodes s) (nextv s + 1) (S (nalloc s))) ;;;
  if kmalloc_ok (nalloc s) then kret (nextv s) else kfail ENOMEM.

Definition vnodearray_add (v : Z) : K fs unit :=
  s <- kget ;;
  kput (mkfs (vol s) (vheap s) (sfs_vnodes s) (nextv s) (S (nalloc s))) ;;;
  on_vnodes (array_add (kmalloc_array (nalloc s)) v) ;;; kret tt.

(** kern/fs/sfs/sfs_inode.c:149-255 (sfs_loadvnode). *)
Definition sfs_loadvnode (ino forcetype : Z) : K fs Z :=
  s <- kget ;;
  found <- load_search (Z.to_nat (arr_num (sfs_vnodes s))) 0 ino ;;
  match found with
  | Some v =>
      kassert (forcetype =? SFS_TYPE_INVAL) ;;;
      vnode_incref v ;;;
      kret v
  | None =>
      v <- kmalloc_vnode ;;
      used <- on_vol (sfs_bused ino) ;;
      if negb used then khalt PanicCall else
      data <- on_vol (sfs_readblock ino) ;;
      let w := inode_of_block ino data in
      (if negb (forcetype =? SFS_TYPE_INVAL) then kassert (sfi_type w =? SFS_TYPE_INVAL) else kret tt) ;;;
      let w := if negb (forcetype =? SFS_TYPE_INVAL) then set_type (u16 forcetype) w else w in
      if negb ((sfi_type w =? SFS_TYPE_FILE) || (sfi_type w =? SFS_TYPE_DIR)) then khalt PanicCall else
      kmodify (fun s => set_vheap (<[v := vnode_init w (waste_of_block data)]> (vheap s)) s) ;;;
      r <- attempt (vnodearray_add v) ;;
      match r with
      | inl e => vnode_cleanup v ;;; kfail e
      | inr _ => kret v
      end
  end.

(** kern/fs/sfs/sfs_inode.c:261-285 (sfs_makeobj). *)
Definition sfs_makeobj (type : Z) : K fs Z :=
  ino <- on_vol sfs_balloc ;;
  r <- attempt (sfs_loadvnode ino type) ;;
  match r with
  | inl e => on_vol (sfs_bfree ino) ;;; kfail e
  | inr v => kret v
  end.

(** kern/fs/sfs/sfs_inode.c:292-319 (sfs_getroot). *)
Definition sfs_getroot : K fs Z :=
  v <- sfs_loadvnode SFS_ROOTDIR_INO SFS_TYPE_INVAL ;;
  x <- vn_get v ;;
  if negb (sfi_type (vn_sv x) =? SFS_TYPE_DIR) then kfail EINVAL else kret v.

(** ** The files of the volume *)

Fixpoint find_vn (h : gmap Z vn) (l : list Z) (i : Z) : option vn :=
  match l with
  | [] => None
  | v :: l' =>
      match h !! v with
      | Some x => if sv_ino (vn_sv x) =? i then Some x else find_vn h l' i
      | None => find_vn h l' i
      end
  end.

(** The vnode of inode [i] in memory; the inode, in memory or on the disk; the state in
    which the operations on file [i] run. *)
Definition loaded (s : fs) (i : Z) : option vn := find_vn (vheap s) (contents (sfs_vnodes s)) i.
Definition inode_of (s : fs) (i : Z) : vnode :=
  match loaded s i with
  | Some x => vn_sv x
  | None => inode_of_block i (dsk (vol s) i)
  end.
Definition at_ino (s : fs) (i : Z) : st := with_sv (inode_of s i) (vol s).

(** The table of vnodes. *)
Record tab_ok (I : gset Z) (s : fs) : Prop := {
  to_arr : arr_ok (sfs_vnodes s);
  to_nodup : NoDup (contents (sfs_vnodes s));
  to_dom : forall v, v ∈ contents (sfs_vnodes s) <-> is_Some (vheap s !! v);
  to_vn : forall v x, vheap s !! v = Some x ->
    1 <= vn_refcount x < 2 ^ 31 /\ sv_ino (vn_sv x) ∈ I /\ length (sfi_waste x) = 110%nat;
  to_inj : forall v v' x x', vheap s !! v = Some x -> vheap s !! v' = Some x' ->
    sv_ino (vn_sv x) = sv_ino (vn_sv x') -> v = v';
  to_clean : forall v x, vheap s !! v = Some x -> sv_dirty (vn_sv x) = false ->
    inode_of_block (sv_ino (vn_sv x)) (dsk (vol s) (sv_ino (vn_sv x))) = vn_sv x;
  to_next : forall v, nextv s <= v -> vheap s !! v = None
}.

Record fs_ok (I : gset Z) (s : fs) : Prop := {
  fs_blocks : blocks_ok I (inode_of s) (vol s);
  fs_tab : tab_ok I s;
  fs_map : map_ok (vol s)
}.

(** File [i] is the same in both states: type, size, links, blocks and bytes. *)
Definition unchanged (s s' : fs) (i : Z) : Prop :=
  same_id (inode_of s i) (inode_of s' i) /\ sfi_size (inode_of s' i) = sfi_size (inode_of s i) /\
  same_file (at_ino s i) (at_ino s' i).

Lemma unchanged_refl s i : unchanged s s i.
Proof. by split. Qed.

Lemma unchanged_sym s s' i : unchanged s s' i -> unchanged s' s i.
Proof. intros ((?&?&?) & ? & ?). split; [split_and!; congruence|]. split; [congruence|by symmetry]. Qed.

Lemma unchanged_trans s1 s2 s3 i : unchanged s1 s2 i -> unchanged s2 s3 i -> unchanged s1 s3 i.
Proof.
  intros ((?&?&?) & ? & ?) ((?&?&?) & ? & ?). split; [split_and!; congruence|]. split; [congruence|by etransitivity].
Qed.

(** ** Inodes on the disk *)

(** Every field that fits its width survives being written and read back. *)
Lemma inode_roundtrip x :
  0 <= sfi_size (vn_sv x) < 2 ^ 32 -> 0 <= sfi_type (vn_sv x) < 2 ^ 16 -> 0 <= sfi_linkcount (vn_sv x) < 2 ^ 16 ->
  length (sfi_direct (vn_sv x)) = 15%nat -> Forall (fun p => 0 <= p < 2 ^ 32) (sfi_direct (vn_sv x)) ->
  0 <= sfi_indirect (vn_sv x) < 2 ^ 32 ->
  inode_of_block (sv_ino (vn_sv x)) (inode_bytes x) = set_clean (vn_sv x).
Proof.
  intros Hs Ht Hl Hlen Hd Hi. set (ws := inode_words x).
  assert (L0 : words (unwords ws) !! 0%nat = Some (sfi_size (vn_sv x))) by (by apply words_unwords_lookup; [|lia|]).
  assert (L1 : words (unwords ws) !! 1%nat = Some (sfi_type (vn_sv x) * 65536 + sfi_linkcount (vn_sv x))).
  { apply words_unwords_lookup; [done|lia|]. lia. }
  assert (Lk : forall k p, sfi_direct (vn_sv x) !! k = Some p -> words (unwords ws) !! (2 + k)%nat = Some p).
  { intros k p Hk. pose proof (lookup_lt_Some _ _ _ Hk). apply words_unwords_lookup; [|lia|by eapply (Forall_lookup_1 _ _ k p Hd)].
    unfold ws, inode_words. rewrite lookup_app_r by (cbn; lia). cbn [length]. replace (2 + k - 2)%nat with k by lia. by rewrite lookup_app_l by lia. }
  assert (L17 : words (unwords ws) !! 17%nat = Some (sfi_indirect (vn_sv x))).
  { apply words_unwords_lookup; [|lia|done]. unfold ws, inode_words. rewrite lookup_app_r by (cbn; lia). rewrite lookup_app_r by (cbn; lia).
    cbn [length]. rewrite Hlen. done. }
  assert (Ld : take 15 (drop 2 (words (unwords ws))) = sfi_direct (vn_sv x)).
  { apply list_eq. intros k. destruct (decide (k < 15)%nat) as [Hk|Hk].
    - rewrite lookup_take_lt, lookup_drop by done. destruct (sfi_direct (vn_sv x) !! k) as [p|] eqn:Ek.
      + by apply Lk.
      + apply lookup_ge_None in Ek. lia.
    - rewrite lookup_take_ge by lia. symmetry. apply lookup_ge_None. lia. }
  unfold inode_of_block, inode_bytes, set_clean. fold ws.
  rewrite !list_lookup_total_alt, L0, L1, L17, Ld. cbn [from_option id].
  rewrite Z.div_add_l, Z.div_small, Z.add_0_r, Z.add_comm, Z.mod_add, Z.mod_small by lia. done.
Qed.

(** ** The table *)

Lemma find_vn_elem h l i x : find_vn h l i = Some x -> exists v, (v ∈ l) /\ h !! v = Some x /\ sv_ino (vn_sv x) = i.
Proof.
  induction l as [|v l IH]; cbn; [done|]. destruct (h !! v) as [y|] eqn:E; [destruct (Z.eqb_spec (sv_ino (vn_sv y)) i)|].
  - intros [= ->]. exists v. split; [left|done].
  - intros (v' & ? & ?)%IH. exists v'. split; [by right|done].
  - intros (v' & ? & ?)%IH. exists v'. split; [by right|done].
Qed.

Lemma find_vn_None h l i : find_vn h l i = None -> forall v x, v ∈ l -> h !! v = Some x -> sv_ino (vn_sv x) <> i.
Proof.
  induction l as [|v l IH]; cbn; intros Hf v' x Hv Hx; [by apply not_elem_of_nil in Hv|].
  apply elem_of_cons in Hv as [->|Hv].
  - rewrite Hx in Hf. by destruct (Z.eqb_spec (sv_ino (vn_sv x)) i).
  - destruct (h !! v) as [y|]; [|by eapply IH]. destruct (Z.eqb_spec (sv_ino (vn_sv y)) i); [done|by eapply IH].
Qed.

(** The table names the vnodes of the heap, no inode twice. *)
Definition indexed (s : fs) : Prop :=
  (forall v, v ∈ contents (sfs_vnodes s) <-> is_Some (vheap s !! v)) /\
  (forall v v' x x', vheap s !! v = Some x -> vheap s !! v' = Some x' -> sv_ino (vn_sv x) = sv_ino (vn_sv x') -> v = v').

Lemma tab_indexed I s : tab_ok I s -> indexed s.
Proof. intros []. by split. Qed.

Lemma loaded_iff s i x : indexed s -> loaded s i = Some x <-> exists v, vheap s !! v = Some x /\ sv_ino (vn_sv x) = i.
Proof.
  intros [Hd Hi]. unfold loaded. split; [intros (v & _ & ?)%find_vn_elem; by exists v|]. intros (v & Hv & Ei).
  destruct (find_vn _ _ _) as [y|] eqn:E.
  - apply find_vn_elem in E as (v' & _ & Hv' & Ey). assert (v' = v) as -> by (eapply Hi; [done|done|congruence]). congruence.
  - exfalso. eapply find_vn_None; [exact E| |exact Hv|done]. apply Hd. by exists x.
Qed.

Lemma loaded_None s i : indexed s -> loaded s i = None <-> forall v x, vheap s !! v = Some x -> sv_ino (vn_sv x) <> i.
Proof.
  intros Hx. split.
  - intros Hn v x Hv Ei. enough (loaded s i = Some x) by congruence. apply loaded_iff; [done|]. by exists v.
  - intros Hn. destruct (loaded s i) as [x|] eqn:E; [|done]. apply loaded_iff in E as (v & Hv & Ei); [|done]. by destruct (Hn v x Hv).
Qed.

Lemma inode_of_loaded s v x : indexed s -> vheap s !! v = Some x -> inode_of s (sv_ino (vn_sv x)) = vn_sv x.
Proof. intros Hx Hv. unfold inode_of. by rewrite (proj2 (loaded_iff s _ x Hx)) by (by exists v). Qed.

Lemma inode_of_disk s i : loaded s i = None -> inode_of s i = inode_of_block i (dsk (vol s) i).
Proof. unfold inode_of. by intros ->. Qed.

(** The inode is the same if the same vnode is in memory, or none is and the block on
    the disk is the same. *)
Lemma inode_of_same s s' i : loaded s' i = loaded s i -> (loaded s i = None -> dsk (vol s') i = dsk (vol s) i) ->
  inode_of s' i = inode_of s i.
Proof. unfold inode_of. intros -> Hd. destruct (loaded s i); [done|]. by rewrite Hd. Qed.

(** ** Changing one vnode *)

Lemma loaded_update s v x x' t i : indexed s -> vheap s !! v = Some x -> sv_ino (vn_sv x') = sv_ino (vn_sv x) ->
  let s' := set_vheap (<[v := x']> (vheap s)) (set_vol t s) in
  indexed s' /\ loaded s' i = if decide (i = sv_ino (vn_sv x)) then Some x' else loaded s i.
Proof.
  intros Hix Hv Ei s'. assert (Hix' : indexed s').
  { destruct Hix as [Hd Hj]. split; cbn.
    - intros u. rewrite Hd, lookup_insert_is_Some. destruct (decide (v = u)) as [->|]; [|naive_solver].
      split; [by left|by exists x].
    - intros u u' y y' Hu Hu' E. apply lookup_insert_Some in Hu as [[<- <-]|[Hne Hu]], Hu' as [[<- <-]|[Hne' Hu']]; [done| | |].
      + destruct Hne'. eapply Hj; [exact Hv|exact Hu'|congruence].
      + destruct Hne. eapply Hj; [exact Hv|exact Hu|congruence].
      + by eapply Hj. }
  split; [done|]. case_decide as Hi.
  - apply loaded_iff; [done|]. exists v. split; [by apply lookup_insert_eq|congruence].
  - destruct (loaded s i) as [y|] eqn:E.
    + apply loaded_iff in E as (u & Hu & Eu); [|done]. apply loaded_iff; [done|]. exists u. split; [|done].
      cbn. rewrite lookup_insert_ne; [done|]. intros <-. congruence.
    + apply loaded_None; [done|]. intros u y Hu. cbn in Hu. apply lookup_insert_Some in Hu as [[<- <-]|[Hne Hu]]; [congruence|].
      by apply (proj1 (loaded_None s i Hix) E u).
Qed.

(** What has to be shown when vnode [v] becomes [x'] and the volume [t]. *)
Lemma fs_update I s v x x' t : fs_ok I s -> vheap s !! v = Some x ->
  sv_ino (vn_sv x') = sv_ino (vn_sv x) -> 1 <= vn_refcount x' < 2 ^ 31 -> length (sfi_waste x') = 110%nat ->
  let i := sv_ino (vn_sv x) in
  (forall V, V i = vn_sv x' -> (forall j, j ∈ I -> j <> i -> V j = inode_of s j) -> blocks_ok I V t) ->
  (forall j, j ∈ I -> j <> i -> dsk t j = dsk (vol s) j) ->
  (sv_dirty (vn_sv x') = false -> inode_of_block i (dsk t i) = vn_sv x') -> map_ok t ->
  let s' := set_vheap (<[v := x']> (vheap s)) (set_vol t s) in
  fs_ok I s' /\ inode_of s' i = vn_sv x' /\ forall j, j ∈ I -> j <> i -> inode_of s' j = inode_of s j.
Proof.
  intros [Hb Ht Hmp] Hv Ei Hr Hw i HB Hd Hcl Hmt s'. pose proof (tab_indexed _ _ Ht) as Hix.
  destruct (loaded_update s v x x' t i Hix Hv Ei) as [Hix' _].
  assert (Hl : forall j, loaded s' j = if decide (j = i) then Some x' else loaded s j) by (intros j; by apply loaded_update).
  assert (Vi : inode_of s' i = vn_sv x') by (unfold inode_of; by rewrite Hl, decide_True by done).
  assert (Vj : forall j, j ∈ I -> j <> i -> inode_of s' j = inode_of s j).
  { intros j Hj Hne. apply inode_of_same; [by rewrite Hl, decide_False by done|]. intros _. by apply Hd. }
  split; [|done]. split; [by apply HB| |done]. destruct Ht as [Ta Tn Td Tv Tj Tc Tx]. split; try done; cbn.
  - apply Hix'.
  - intros u y Hu. apply lookup_insert_Some in Hu as [[<- <-]|[Hne Hu]]; [|by apply (Tv u y)].
    split; [done|]. split; [|done]. rewrite Ei. by apply (Tv v x).
  - apply Hix'.
  - intros u y Hu Hdy. apply lookup_insert_Some in Hu as [[<- <-]|[Hne Hu]]; [rewrite Ei; by apply Hcl|].
    rewrite Hd; [by apply (Tc u)|by apply (Tv u y)|]. intros E. apply Hne. by eapply Tj.
  - intros u Hu. rewrite lookup_insert_ne; [by apply Tx|]. intros <-. rewrite Tx in Hv; done.
Qed.

Lemma unchanged_intro s s' j : inode_of s' j = inode_of s j -> same_file (at_ino s j) (at_ino s' j) -> unchanged s s' j.
Proof. intros E Hs. split; [rewrite E; by split_and!|]. split; [by rewrite E|done]. Qed.

Lemma fs_vn I s v x : fs_ok I s -> vheap s !! v = Some x ->
  let i := sv_ino (vn_sv x) in
  (i ∈ I) /\ inode_of s i = vn_sv x /\ at_ino s i = with_sv (vn_sv x) (vol s) /\ file_ok (at_ino s i) /\ inode_ok i (vn_sv x) /\
  0 < i < sb_nblocks (vol s) /\ bit (sfs_freemap (vol s)) i = true.
Proof.
  intros [Hb Ht Hmp] Hv i. assert (Hi : i ∈ I) by (by apply (to_vn _ _ Ht v x)).
  assert (E : inode_of s i = vn_sv x) by (by apply (inode_of_loaded s v); [by eapply tab_indexed|]).
  pose proof (bo_file _ _ _ Hb i Hi) as Hf. destruct (bo_ino _ _ _ Hb i Hi) as (Hr & Hu & Hio).
  unfold at_ino. rewrite E in *. done.
Qed.

(** An operation on the file of vnode [v] that respects the others, and marks the vnode
    dirty if it changes it. *)
Lemma fs_local I s v x t : fs_ok I s -> vheap s !! v = Some x ->
  let i := sv_ino (vn_sv x) in
  local (at_ino s i) t -> inode_ok i (sv t) -> (sv_dirty (sv t) = true \/ sv t = vn_sv x) -> map_kept (vol s) t ->
  let s' := put_vn v x t s in
  fs_ok I s' /\ at_ino s' i = t /\ forall j, j ∈ I -> j <> i -> unchanged s s' j.
Proof.
  intros Hok Hv i Hloc Hio Hdir Hmk s'. destruct (fs_vn I s v x Hok Hv) as (Hi & Ei & Eat & Hf & Hix & Hr & Hu). fold i in Hi, Ei, Eat, Hf, Hix, Hr, Hu.
  pose proof Hok as [Hb Ht Hmp]. pose proof (bo_nino _ _ _ Hb) as Hni.
  assert (Hkeep : forall j, j ∈ I -> dsk t j = dsk (vol s) j).
  { intros j Hj. destruct (bo_ino _ _ _ Hb j Hj) as (? & ? & _). apply (lo_frame _ _ Hloc); [lia|done|by apply Hni]. }
  destruct (fs_update I s v x (set_vn_sv (sv t) x) t Hok Hv) as (Hok' & Vi & Vj).
  - apply (io_ino _ _ Hio).
  - by apply (to_vn _ _ Ht v x).
  - by apply (to_vn _ _ Ht v x).
  - intros V EV EVj. by apply (blocks_local I (inode_of s) V (vol s) t i).
  - intros j Hj _. by apply Hkeep.
  - cbn. intros Hc. destruct Hdir as [Hd|E]; [congruence|]. rewrite E in *. rewrite Hkeep by done. by apply (to_clean _ _ Ht v x).
  - apply (map_frame (vol s)); [done|done|by apply Hloc|]. intros b Hres. destruct (bo_res _ _ _ Hb b Hres) as (Hub & _ & Hnb).
    apply (lo_frame _ _ Hloc); [destruct Hres; lia|done|by apply Hnb].
  - change (set_vheap (<[v := set_vn_sv (sv t) x]> (vheap s)) (set_vol t s)) with s' in *. fold i in Vi, Vj.
    split; [done|]. split; [unfold at_ino; rewrite Vi; apply with_sv_id|].
    intros j Hj Hne.
    destruct (blocks_local I (inode_of s) (inode_of s') (vol s) t i Hb Hi Hloc Hio Vi Vj) as [_ Hsf].
    apply unchanged_intro; [by apply Vj|by apply Hsf].
Qed.

(** The files stay the same when only fields of the vnodes change that are not the
    pointers, and the volume outside the files. *)
Lemma fs_frame I s v x x' t : fs_ok I s -> vheap s !! v = Some x ->
  1 <= vn_refcount x' < 2 ^ 31 -> length (sfi_waste x') = 110%nat ->
  let i := sv_ino (vn_sv x) in
  inode_ok i (vn_sv x') -> sfi_direct (vn_sv x') = sfi_direct (vn_sv x) -> sfi_indirect (vn_sv x') = sfi_indirect (vn_sv x) ->
  vol_ok t -> sb_nblocks t = sb_nblocks (vol s) -> (forall b, owned I (inode_of s) (vol s) b -> bit (sfs_freemap t) b = true) ->
  (forall b, 0 <= b -> b <> i -> bit (sfs_freemap (vol s)) b = true -> dsk t b = dsk (vol s) b) ->
  (sv_dirty (vn_sv x') = false -> inode_of_block i (dsk t i) = vn_sv x') -> map_kept (vol s) t ->
  let s' := set_vheap (<[v := x']> (vheap s)) (set_vol t s) in
  fs_ok I s' /\ inode_of s' i = vn_sv x' /\ (forall j, j ∈ I -> j <> i -> unchanged s s' j) /\ same_file (at_ino s i) (at_ino s' i).
Proof.
  intros Hok Hv Hr Hw i Hio Ed Eid Hvol Hnb Hbit Hd Hcl Hmk s'.
  destruct (fs_vn I s v x Hok Hv) as (Hi & Ei & Eat & Hf & Hix & Hri & Hu). fold i in Hi, Ei, Eat, Hf, Hix, Hri, Hu.
  pose proof Hok as [Hb Ht Hmp].
  assert (HB : forall V, V i = vn_sv x' -> (forall j, j ∈ I -> j <> i -> V j = inode_of s j) ->
    blocks_ok I V t /\ forall j, j ∈ I -> same_file (with_sv (inode_of s j) (vol s)) (with_sv (V j) t)).
  { intros V EV EVj. apply blocks_frame; try done.
    - intros j Hj. destruct (decide (j = i)) as [->|Hne]; [left; rewrite EV, Ei; done|right; by apply EVj].
    - intros j p Hj Hp. destruct (has_used _ p (bo_file _ _ _ Hb j Hj) Hp) as [? ?]. cbn in *. apply Hd; [lia| |done].
      intros ->. by apply (bo_nino _ _ _ Hb j i). }
  destruct (fs_update I s v x x' t Hok Hv) as (Hok' & Vi & Vj); try done.
  - by rewrite (io_ino _ _ Hio).
  - intros V EV EVj. by apply HB.
  - intros j Hj Hne. destruct (bo_ino _ _ _ Hb j Hj) as (? & ? & _). apply Hd; [lia|done|done].
  - apply (map_frame (vol s)); [done|done|done|]. intros b Hres. destruct (bo_res _ _ _ Hb b Hres) as (Hub & HnI & _).
    apply Hd; [destruct Hres; lia| |done]. by intros ->.
  - fold s' i in Hok', Vi, Vj. destruct (HB (inode_of s') Vi Vj) as [_ Hsf]. split_and!; [done|done| |by apply Hsf].
    intros j Hj Hne. apply unchanged_intro; [by apply Vj|by apply Hsf].
Qed.

(** Counting references changes no file. *)
Lemma fs_refcount I s v x n : fs_ok I s -> vheap s !! v = Some x -> 1 <= n < 2 ^ 31 ->
  let s' := set_vheap (<[v := set_refcount n x]> (vheap s)) s in fs_ok I s' /\ forall j, j ∈ I -> unchanged s s' j.
Proof.
  intros Hok Hv Hn s'. destruct (fs_vn I s v x Hok Hv) as (Hi & Ei & Eat & Hf & Hix & Hri & Hu). pose proof Hok as [Hb Ht Hmp].
  destruct (fs_frame I s v x (set_refcount n x) (vol s) Hok Hv) as (Hok' & Vi & Hun & Hsf); try done.
  - by apply (to_vn _ _ Ht v x).
  - apply Hb.
  - intros b. by apply owned_bit.
  - by apply (to_clean _ _ Ht v x).
  - assert (Es : set_vol (vol s) s = s) by (by destruct s). rewrite Es in *. fold s' in Hok', Vi, Hun, Hsf.
    split; [done|]. intros j Hj. destruct (decide (j = sv_ino (vn_sv x))) as [->|]; [|by apply Hun].
    split; [|split; [|done]]; rewrite Vi, Ei; done.
Qed.

(** ** Writing an inode back *)

Section Sound.
Context `{!Reliable D}.

Lemma vnode_roundtrip I s v x : fs_ok I s -> vheap s !! v = Some x ->
  inode_of_block (sv_ino (vn_sv x)) (inode_bytes x) = set_clean (vn_sv x) /\ length (inode_bytes x) = 512%nat.
Proof.
  intros Hok Hv. destruct (fs_vn I s v x Hok Hv) as (Hi & Ei & Eat & Hf & [_ Hty Hsz Hlk] & Hri & Hu). pose proof Hok as [Hb Ht Hmp].
  rewrite Eat in Hf. pose proof (fo_len _ Hf) as Hl. cbn in Hl. destruct (vo_size _ (fo_vol _ Hf)) as [_ Hnb]. destruct (vo_disk _ (fo_vol _ Hf)) as (Hd & _).
  assert (Hp : forall k p, ptrs (with_sv (vn_sv x) (vol s)) !! k = Some p -> 0 <= p < 2 ^ 32).
  { intros k p Hk. destruct (fo_ptr _ Hf k p Hk) as [->|[? _]]; cbn in *; lia. }
  split.
  - apply inode_roundtrip; try done.
    + unfold MAXSIZE, MAXBLOCKS, SFS_BLOCKSIZE in *. lia.
    + destruct Hty as [-> | ->]; done.
    + apply Forall_lookup. intros k p Hk. apply (Hp k). by rewrite ptrs_direct by (done || by apply lookup_lt_Some in Hk; cbn in *; lia).
    + apply (Hp 15%nat). by apply ptrs_indirect.
  - unfold inode_bytes. rewrite unwords_length. unfold inode_words. rewrite !length_app, Hl.
    rewrite (proj2 (proj2 (to_vn _ _ Ht v x Hv))). done.
Qed.

(** [sfs_sync_inode] changes no file, and the inode on the disk is then the one in
    memory. *)
Lemma sync_inode_ok I s v x : fs_ok I s -> vheap s !! v = Some x ->
  exists s', sfs_sync_inode v s = Done tt s' /\ fs_ok I s' /\ (forall j, j ∈ I -> unchanged s s' j) /\
    vheap s' = <[v := set_vn_sv (set_clean (vn_sv x)) x]> (vheap s) /\ sfs_vnodes s' = sfs_vnodes s /\ nextv s' = nextv s /\
    nalloc s' = nalloc s /\ sfs_freemap (vol s') = sfs_freemap (vol s) /\ sb_nblocks (vol s') = sb_nblocks (vol s) /\
    forall b, b <> sv_ino (vn_sv x) -> dsk (vol s') b = dsk (vol s) b.
Proof.
  intros Hok Hv. destruct (fs_vn I s v x Hok Hv) as (Hi & Ei & Eat & Hf & Hix & Hri & Hu). pose proof Hok as [Hb Ht Hmp].
  unfold sfs_sync_inode, vn_get. kunfold. rewrite Hv. destruct (sv_dirty (vn_sv x)) eqn:Ed.
  2:{ exists s. split; [done|]. split; [done|]. split; [by intros j _|]. split; [|done].
      rewrite insert_id; [done|]. rewrite Hv. f_equal. destruct x as [? [] ?]. cbn in *. by subst. }
  destruct (vnode_roundtrip I s v x Hok Hv) as [Hrt Hlen].
  destruct (bo_vol _ _ _ Hb) as [(Hd1 & Hd2 & Hd3) Hm [Hs1 Hs2] Htl H0].
  unfold on_vol. rewrite writeblock_ok by (done || lia). unfold vn_update, vn_get. kunfold.
  cbn [vheap set_vol]. rewrite Hv. set (t := set_dsk _ _).
  exists (set_vheap (<[v := set_vn_sv (set_clean (vn_sv x)) x]> (vheap s)) (set_vol t s)). split; [done|].
  destruct (fs_frame I s v x (set_vn_sv (set_clean (vn_sv x)) x) t Hok Hv) as (Hok' & Vi & Hun & Hsf); try done.
  - by apply (to_vn _ _ Ht v x).
  - by apply (to_vn _ _ Ht v x).
  - destruct Hix. by split.
  - split; try done. split_and!; [done|done|]. intros b. cbn. unfold upd. by destruct (b =? _).
  - intros b Hbo. exact (owned_bit _ _ _ b Hb Hbo).
  - intros b Hb0 Hne _. cbn. unfold upd. by destruct (Z.eqb_spec b (sv_ino (vn_sv x))).
  - intros _. cbn. unfold upd. by rewrite Z.eqb_refl.
  - by apply map_kept_eq.
  - split; [done|]. split; [|split_and!; try done].
    + intros j Hj. destruct (decide (j = sv_ino (vn_sv x))) as [->|]; [|by apply Hun].
      split; [|split; [|done]]; rewrite Vi, Ei; done.
    + intros b Hne. cbn. unfold upd. by destruct (Z.eqb_spec b (sv_ino (vn_sv x))).
Qed.

(** ** Loading *)

(** Only the driver's buffer, the allocator's counters, the blocks that hold no file and
    the free map outside the files differ. *)
Lemma fs_quiet_map I s s' : fs_ok I s -> vheap s' = vheap s -> sfs_vnodes s' = sfs_vnodes s -> nextv s <= nextv s' ->
  (forall b, 0 <= b -> bit (sfs_freemap (vol s)) b = true -> ~ reserved (vol s) b -> dsk (vol s') b = dsk (vol s) b) ->
  sb_nblocks (vol s') = sb_nblocks (vol s) -> vol_ok (vol s') -> map_ok (vol s') ->
  (forall b, owned I (inode_of s) (vol s) b -> bit (sfs_freemap (vol s')) b = true) ->
  fs_ok I s' /\ (forall j, j ∈ I -> inode_of s' j = inode_of s j) /\ forall j, j ∈ I -> unchanged s s' j.
Proof.
  intros [Hb Ht Hmp] Eh Ea En Ed Enb Hv Hm' Hbit.
  assert (El : forall j, loaded s' j = loaded s j) by (intros j; unfold loaded; by rewrite Eh, Ea).
  assert (Edj : forall j, j ∈ I -> dsk (vol s') j = dsk (vol s) j).
  { intros j Hj. destruct (bo_ino _ _ _ Hb j Hj) as (? & ? & _). apply Ed; [lia|done|]. intros Hr. by apply (bo_res _ _ _ Hb) in Hr as (_ & ? & _). }
  assert (Ei : forall j, j ∈ I -> inode_of s' j = inode_of s j) by (intros j Hj; apply inode_of_same; [done|intros _; by apply Edj]).
  destruct (blocks_frame I (inode_of s) (inode_of s') (vol s) (vol s') Hb) as [Hb' Hsf]; try done.
  { intros j Hj. right. by apply Ei. }
  { intros j p Hj Hp. destruct (has_used _ p (bo_file _ _ _ Hb j Hj) Hp) as [? ?]. cbn in *. apply Ed; [lia|done|].
    intros Hr. apply (bo_res _ _ _ Hb) in Hr as (_ & _ & Hr). by apply (Hr j). }
  split; [|split; [done|intros j Hj; apply unchanged_intro; [by apply Ei|by apply Hsf]]]. split; [done| |done].
  destruct Ht as [Ta Tn Td Tv Tj Tc Tx]. split; rewrite ?Eh, ?Ea; try done.
  - intros u y Hu Hdy. rewrite Edj by (by apply (Tv u y)). by apply (Tc u).
  - intros u Hu. apply Tx. lia.
Qed.

Lemma fs_quiet I s s' : fs_ok I s -> vheap s' = vheap s -> sfs_vnodes s' = sfs_vnodes s -> nextv s <= nextv s' ->
  (forall b, 0 <= b -> bit (sfs_freemap (vol s)) b = true -> dsk (vol s') b = dsk (vol s) b) ->
  sb_nblocks (vol s') = sb_nblocks (vol s) -> vol_ok (vol s') -> map_kept (vol s) (vol s') ->
  (forall b, owned I (inode_of s) (vol s) b -> bit (sfs_freemap (vol s')) b = true) ->
  fs_ok I s' /\ (forall j, j ∈ I -> inode_of s' j = inode_of s j) /\ forall j, j ∈ I -> unchanged s s' j.
Proof.
  intros Hok Eh Ea En Ed Enb Hv Hmk Hbit. pose proof Hok as [Hb Ht Hmp]. apply fs_quiet_map; try done; [by intros; apply Ed|].
  apply (map_frame (vol s)); [done|done|done|]. intros b Hres. destruct (bo_res _ _ _ Hb b Hres) as (Hub & _). apply Ed; [destruct Hres; lia|done].
Qed.

Lemma on_vnodes_same {A} (m : K array A) a s : m (sfs_vnodes s) = Done a (sfs_vnodes s) -> on_vnodes m s = Done a s.
Proof. unfold on_vnodes. intros ->. by destruct s. Qed.

Lemma on_vol_same {A} (m : K st A) a s : m (vol s) = Done a (vol s) -> on_vol m s = Done a s.
Proof. unfold on_vol. intros ->. by destruct s. Qed.

Lemma load_search_ok I s ino k i : fs_ok I s -> 0 <= i -> i + Z.of_nat k = arr_num (sfs_vnodes s) ->
  (forall j v x, 0 <= j < i -> contents (sfs_vnodes s) !! Z.to_nat j = Some v -> vheap s !! v = Some x -> sv_ino (vn_sv x) <> ino) ->
  exists r, load_search k i ino s = Done r s /\
    match r with
    | Some v => exists x, vheap s !! v = Some x /\ sv_ino (vn_sv x) = ino
    | None => loaded s ino = None
    end.
Proof.
  intros Hok. pose proof Hok as [Hb Ht Hmp]. pose proof (contents_length _ (to_arr _ _ Ht)) as Hlen.
  revert i. induction k as [|k IH]; intros i Hi Hk Hno; cbn [load_search]; kunfold.
  - exists None. split; [done|]. apply loaded_None; [by eapply tab_indexed|]. intros v x Hv.
    assert (Hin : v ∈ contents (sfs_vnodes s)) by (apply (to_dom _ _ Ht); by exists x).
    apply list_elem_of_lookup in Hin as [n Hn]. pose proof (lookup_lt_Some _ _ _ Hn).
    apply (Hno (Z.of_nat n) v x); [lia|by rewrite Nat2Z.id|done].
  - destruct (contents (sfs_vnodes s) !! Z.to_nat i) as [v|] eqn:Ev; [|apply lookup_ge_None in Ev; lia].
    rewrite (on_vnodes_same _ v) by (apply array_get_ok; [apply Ht|done|done]).
    assert (Hin : v ∈ contents (sfs_vnodes s)) by (by eapply list_elem_of_lookup_2).
    apply (to_dom _ _ Ht) in Hin as [x Hx]. unfold vn_get. rewrite Hx.
    destruct (fs_vn I s v x Hok Hx) as (Hin & _ & _ & _ & _ & Hr & Hu).
    rewrite (on_vol_same _ true) by (rewrite sfs_bused_ok, Hu by lia; done). cbn [negb].
    destruct (Z.eqb_spec (sv_ino (vn_sv x)) ino) as [E|E]; [exists (Some v); split; [done|]; by exists x|].
    apply IH; [lia|lia|]. intros j u y Hj Hu' Hy. destruct (decide (j = i)) as [->|]; [|by apply (Hno j u y); [lia| |]].
    rewrite Hu' in Ev. injection Ev as ->. congruence.
Qed.

(** Fewer vnodes than blocks. *)
Lemma table_small I s : fs_ok I s -> arr_num (sfs_vnodes s) < MAXNUM.
Proof.
  intros Hok. pose proof Hok as [Hb Ht Hmp]. rewrite <- (contents_length _ (to_arr _ _ Ht)).
  set (ino := fun v => match vheap s !! v with Some x => sv_ino (vn_sv x) | None => 0 end).
  assert (Hnd : NoDup (ino <$> contents (sfs_vnodes s))).
  { apply NoDup_fmap_2_strong; [|apply Ht]. intros u v Hu Hv. apply (to_dom _ _ Ht) in Hu as [x Hx], Hv as [y Hy].
    unfold ino. rewrite Hx, Hy. by eapply (to_inj _ _ Ht). }
  assert (Hsub : ino <$> contents (sfs_vnodes s) ⊆+ seqZ 0 (sb_nblocks (vol s))).
  { apply NoDup_submseteq; [done|]. intros i (v & -> & Hv)%list_elem_of_fmap. apply (to_dom _ _ Ht) in Hv as [x Hx].
    unfold ino. rewrite Hx. apply elem_of_seqZ. destruct (fs_vn I s v x Hok Hx) as (_ & _ & _ & _ & _ & Hr & _). lia. }
  apply submseteq_length in Hsub. rewrite length_fmap, length_seqZ in Hsub.
  destruct (vo_size _ (bo_vol _ _ _ Hb)) as [_ ?]. destruct (vo_disk _ (bo_vol _ _ _ Hb)) as (? & _). unfold MAXNUM. lia.
Qed.

(** A vnode enters the table. *)
Lemma fs_enter I I' s s' v x : tab_ok I s -> vheap s !! v = None -> loaded s (sv_ino (vn_sv x)) = None ->
  I ⊆ I' -> sv_ino (vn_sv x) ∈ I' -> 1 <= vn_refcount x < 2 ^ 31 -> length (sfi_waste x) = 110%nat ->
  arr_ok (sfs_vnodes s') -> contents (sfs_vnodes s') = contents (sfs_vnodes s) ++ [v] -> vheap s' = <[v := x]> (vheap s) ->
  v < nextv s' -> nextv s <= nextv s' -> (forall j, j ∈ I -> dsk (vol s') j = dsk (vol s) j) ->
  (sv_dirty (vn_sv x) = false -> inode_of_block (sv_ino (vn_sv x)) (dsk (vol s') (sv_ino (vn_sv x))) = vn_sv x) ->
  tab_ok I' s' /\ inode_of s' (sv_ino (vn_sv x)) = vn_sv x /\
  forall j, j ∈ I -> j <> sv_ino (vn_sv x) -> inode_of s' j = inode_of s j.
Proof.
  intros Ht Hv Hl HI Hi Hr Hw Ha Hc Hh Hn Hn' Hd Hcl. pose proof (tab_indexed _ _ Ht) as Hix.
  pose proof (proj1 (loaded_None s _ Hix) Hl) as Hno. destruct Ht as [Ta Tn Td Tv Tj Tc Tx].
  assert (Hix' : indexed s').
  { split; rewrite ?Hc, ?Hh.
    - intros u. rewrite elem_of_app, list_elem_of_singleton, Td, lookup_insert_is_Some. split; [|naive_solver].
      destruct (decide (v = u)); naive_solver.
    - intros u u' y y' Hu Hu' E. apply lookup_insert_Some in Hu as [[<- <-]|[Hne Hu]], Hu' as [[<- <-]|[Hne' Hu']]; [done| | |].
      + by destruct (Hno u' y').
      + by destruct (Hno u y).
      + by eapply Tj. }
  assert (El : forall j, loaded s' j = if decide (j = sv_ino (vn_sv x)) then Some x else loaded s j).
  { intros j. case_decide as Hj.
    - apply loaded_iff; [done|]. exists v. rewrite Hh, lookup_insert_eq. done.
    - destruct (loaded s j) as [y|] eqn:E.
      + apply loaded_iff in E as (u & Hu & Eu); [|done]. apply loaded_iff; [done|]. exists u. split; [|done].
        rewrite Hh, lookup_insert_ne; [done|]. congruence.
      + apply loaded_None; [done|]. intros u y. rewrite Hh. intros [[<- <-]|[Hne Hu]]%lookup_insert_Some; [done|].
        by apply (proj1 (loaded_None s j Hix) E u). }
  split; [|split].
  - split; try done; try apply Hix'.
    + rewrite Hc. apply NoDup_app. split; [done|]. split; [|apply NoDup_singleton].
      intros u Hu%Td. intros ->%list_elem_of_singleton. rewrite Hv in Hu. by destruct Hu.
    + intros u y. rewrite Hh. intros [[<- <-]|[Hne Hu]]%lookup_insert_Some; [done|].
      destruct (Tv u y Hu) as (? & ? & ?). split; [done|]. split; [by apply HI|done].
    + intros u y. rewrite Hh. intros [[<- <-]|[Hne Hu]]%lookup_insert_Some; [done|]. intros Hdy.
      rewrite Hd by (by apply (Tv u y)). by apply (Tc u).
    + intros u Hu. rewrite Hh, lookup_insert_ne by lia. apply Tx. lia.
  - unfold inode_of. by rewrite El, decide_True by done.
  - intros j Hj Hne. apply inode_of_same; [by rewrite El, decide_False by done|]. intros _. by apply Hd.
Qed.

(** Nothing of the volume differs but the driver's buffer. *)
Definition vquiet (t t' : st) : Prop :=
  dsk t' = dsk t /\ sfs_freemap t' = sfs_freemap t /\ sb_nblocks t' = sb_nblocks t /\ vol_ok t' /\ map_kept t t'.

Lemma vquiet_trans t1 t2 t3 : vquiet t1 t2 -> vquiet t2 t3 -> vquiet t1 t3.
Proof. intros (?&?&?&?&?) (?&?&?&?&?). split_and!; try congruence. by etransitivity. Qed.

Definition fquiet (s s' : fs) : Prop :=
  vheap s' = vheap s /\ sfs_vnodes s' = sfs_vnodes s /\ nextv s <= nextv s' /\ vquiet (vol s) (vol s').

Lemma fquiet_ok I s s' : fs_ok I s -> fquiet s s' ->
  fs_ok I s' /\ (forall j, j ∈ I -> inode_of s' j = inode_of s j) /\ forall j, j ∈ I -> unchanged s s' j.
Proof.
  intros Hok (Eh & Ea & En & Ed & Em & Enb & Hv & Hmk). apply fs_quiet; try done; [intros b _ _; by rewrite Ed|].
  intros b Hb. rewrite Em. by apply (owned_bit I (inode_of s)); [apply Hok|].
Qed.

(** The state after a vnode for inode [ino] with contents [w] has been set up. *)
Record entered (s s' : fs) (v : Z) (w : vnode) : Prop := {
  en_new : vheap s !! v = None;
  en_heap : exists waste, length waste = 110%nat /\ vheap s' = <[v := mkV 1 w waste]> (vheap s);
  en_arr : arr_ok (sfs_vnodes s');
  en_contents : contents (sfs_vnodes s') = contents (sfs_vnodes s) ++ [v];
  en_next : v < nextv s' /\ nextv s <= nextv s';
  en_vol : vquiet (vol s) (vol s')
}.

(** Loading an inode that is not in memory. *)
Lemma load_fresh I s ino ft : fs_ok I s -> loaded s ino = None -> 0 < ino < sb_nblocks (vol s) -> bit (sfs_freemap (vol s)) ino = true ->
  let w0 := inode_of_block ino (dsk (vol s) ino) in
  let w := if negb (ft =? SFS_TYPE_INVAL) then set_type (u16 ft) w0 else w0 in
  (ft <> SFS_TYPE_INVAL -> sfi_type w0 = SFS_TYPE_INVAL) -> (sfi_type w = SFS_TYPE_FILE \/ sfi_type w = SFS_TYPE_DIR) ->
  (exists s', sfs_loadvnode ino ft s = Fail ENOMEM s' /\ fquiet s s') \/
  (exists v s', sfs_loadvnode ino ft s = Done v s' /\ entered s s' v w).
Proof.
  intros Hok Hl Hr Hu w0 w Hft Hty. pose proof Hok as [Hb Ht Hmp]. pose proof (bo_vol _ _ _ Hb) as Hvol.
  pose proof (contents_length _ (to_arr _ _ Ht)) as Hcl.
  unfold sfs_loadvnode. kunfold.
  destruct (load_search_ok I s ino (Z.to_nat (arr_num (sfs_vnodes s))) 0 Hok) as (r & -> & Hs); [lia|lia|intros; lia|].
  destruct r as [v|]; [destruct Hs as (x & Hx & Ex); exfalso; eapply (proj1 (loaded_None s ino (tab_indexed _ _ Ht)) Hl); eauto|].
  unfold kmalloc_vnode. kunfold. destruct (kmalloc_ok (nalloc s)).
  2:{ left. eexists. split; [done|]. split_and!; try done. cbn. lia. }
  set (s1 := mkfs _ _ _ _ _). rewrite (on_vol_same _ true) by (change (vol s1) with (vol s); rewrite sfs_bused_ok, Hu by lia; done). cbn [negb].
  destruct Hvol as [(Hd1 & Hd2 & Hd3) Hm [Hs1 Hs2] Htl H0].
  set (t := touch (dsk (vol s) ino) (vol s)).
  assert (Er : on_vol (sfs_readblock ino) s1 = Done (dsk (vol s) ino) (set_vol t s1)).
  { unfold on_vol. change (vol s1) with (vol s). by rewrite readblock_ok by (done || lia). }
  rewrite Er. clear Er. assert (Hvt : vol_ok t) by (split; try done; by apply touch_disk_ok).
  assert (Hvq : vquiet (vol s) t) by (split_and!; try done; by apply map_kept_eq).
  fold w0. cbv zeta. fold w.
  assert (Eassert : (if negb (ft =? SFS_TYPE_INVAL) then kassert (sfi_type w0 =? SFS_TYPE_INVAL) else kret tt) (set_vol t s1) = Done tt (set_vol t s1)).
  { destruct (Z.eqb_spec ft SFS_TYPE_INVAL) as [|Hne]; [done|]. cbn [negb]. by rewrite Hft. }
  kunfold. unfold kret, khalt in Eassert.
  rewrite Eassert. clear Eassert.
  assert (Et : (sfi_type w =? SFS_TYPE_FILE) || (sfi_type w =? SFS_TYPE_DIR) = true) by (destruct Hty as [-> | ->]; done).
  rewrite Et. cbn [negb]. clear Et Hty.
  assert (Hnew : vheap s !! nextv s = None) by (apply (to_next _ _ Ht); lia).
  assert (Hwl : length (waste_of_block (dsk (vol s) ino)) = 110%nat) by (unfold waste_of_block; rewrite length_drop, block_words_length; done).
  set (waste := waste_of_block _) in *. clearbody waste w. unfold vnodearray_add, on_vnodes. kunfold. cbn [vheap vol sfs_vnodes nextv nalloc set_vheap set_vol s1].
  destruct (array_add_ok (kmalloc_array (S (nalloc s))) (sfs_vnodes s) (nextv s) (to_arr _ _ Ht) (kmalloc_array_ok _) (table_small I s Hok))
    as [->|(a' & -> & Ha & Hc & _)].
  - left. unfold vnode_cleanup, vn_get. kunfold. cbn [vheap set_vheap set_vnodes]. rewrite lookup_insert_eq.
    cbn [vn_refcount vnode_init Z.eqb]. eexists. split; [done|]. split_and!; try done.
    + cbn. by apply delete_insert_id.
    + cbn. lia.
  - right. exists (nextv s). eexists. split; [done|]. split; cbn; try done; [|lia]. by exists waste.
Qed.

(** [sfs_loadvnode] of a file of the volume: one more reference to its vnode, which is
    set up from the disk if it was not in memory; or there is no memory. No file
    changes. *)
Record loaded_as (s s' : fs) (i v : Z) : Prop := {
  la_heap : exists x, vheap s' = <[v := x]> (vheap s) /\ vn_sv x = inode_of s i /\
    match loaded s i with
    | Some y => vheap s !! v = Some y /\ vn_refcount x = vn_refcount y + 1
    | None => vheap s !! v = None /\ vn_refcount x = 1
    end;
  la_vol : vquiet (vol s) (vol s')
}.

Lemma loadvnode_ok I s i : fs_ok I s -> i ∈ I -> (forall x, loaded s i = Some x -> vn_refcount x < 2 ^ 31 - 1) ->
  (exists v s', sfs_loadvnode i SFS_TYPE_INVAL s = Done v s' /\ fs_ok I s' /\ loaded_as s s' i v /\ forall j, j ∈ I -> unchanged s s' j) \/
  (exists s', sfs_loadvnode i SFS_TYPE_INVAL s = Fail ENOMEM s' /\ fs_ok I s' /\ fquiet s s' /\ forall j, j ∈ I -> unchanged s s' j).
Proof.
  intros Hok Hi Hrc. pose proof Hok as [Hb Ht Hmp]. pose proof (tab_indexed _ _ Ht) as Hix.
  pose proof (contents_length _ (to_arr _ _ Ht)) as Hcl.
  destruct (bo_ino _ _ _ Hb i Hi) as (Hr & Hu & [Eino Hty _ _]).
  destruct (loaded s i) as [y|] eqn:El.
  - left. unfold sfs_loadvnode. kunfold.
    destruct (load_search_ok I s i (Z.to_nat (arr_num (sfs_vnodes s))) 0 Hok) as (r & -> & Hs); [lia|lia|intros; lia|].
    destruct r as [v|]; [|congruence]. destruct Hs as (x & Hx & Ex).
    assert (x = y) as -> by (enough (loaded s i = Some x) by congruence; apply loaded_iff; [done|]; by exists v).
    destruct (to_vn _ _ Ht v y Hx) as (Hry & _). specialize (Hrc y eq_refl).
    change (SFS_TYPE_INVAL =? SFS_TYPE_INVAL) with true. unfold vnode_incref, vn_update, vn_get. kunfold. rewrite Hx.
    rewrite wraps_small by (cbn; lia). exists v. eexists. split; [done|].
    destruct (fs_refcount I s v y (vn_refcount y + 1) Hok Hx) as [Hok' Hun]; [lia|]. split; [done|]. split; [|done]. split.
    + eexists. split; [done|]. rewrite El. split; [cbn; by rewrite <- Ex, (inode_of_loaded s v)|done].
    + split_and!; try done. apply Hb.
  - assert (Ei : inode_of s i = inode_of_block i (dsk (vol s) i)) by (by apply inode_of_disk). rewrite Ei in Hty.
    destruct (load_fresh I s i SFS_TYPE_INVAL Hok El) as [(s' & E & Hq)|(v & s' & E & Hen)]; try done.
    { right. exists s'. destruct (fquiet_ok I s s' Hok Hq) as (? & _ & ?). done. }
    left. exists v, s'. cbn [negb Z.eqb SFS_TYPE_INVAL] in Hen. rewrite <- Ei in Hen.
    destruct Hen as [Hnew (waste & Hwl & Hh) Ha Hc (Hn1 & Hn2) (Ed & Em & Enb & Hv & Hmk)].
    set (x := mkV 1 (inode_of s i) waste) in *.
    destruct (fs_enter I I s s' v x) as (Ht' & Vi & Vj); try done; try (cbn; rewrite Eino); try done; try (cbn; lia).
    { intros j _. by rewrite Ed. }
    { intros _. cbn. by rewrite Ed, Ei. }
    cbn in Vi, Vj. rewrite Eino in Vi, Vj.
    assert (HV : forall j, j ∈ I -> inode_of s' j = inode_of s j) by (intros j Hj; destruct (decide (j = i)) as [->|]; [done|by apply Vj]).
    destruct (blocks_frame I (inode_of s) (inode_of s') (vol s) (vol s') Hb) as [Hb' Hsf]; try done.
    { intros j Hj. right. by apply HV. }
    { intros b Hbo. rewrite Em. by eapply owned_bit. }
    { intros j p _ _. by rewrite Ed. }
    split; [done|]. split; [split; [done|done|apply (map_frame (vol s)); try done; intros b _; by rewrite Ed]|]. split.
    + split; [exists x; rewrite El; done|done].
    + intros j Hj. apply unchanged_intro; [by apply HV|by apply Hsf].
Qed.

(** A new file is empty. *)
Definition new_inode (i type : Z) : vnode := mkvn i type 0 0 (replicate 15 0) 0 true.

Lemma zero_inode i type : set_type type (inode_of_block i (replicate 512 0)) = new_inode i type.
Proof. unfold inode_of_block. rewrite words_zeros. reflexivity. Qed.

Lemma new_inode_has i type t p : ~ has (with_sv (new_inode i type) t) p.
Proof.
  intros [Hp [k Hk]%list_elem_of_lookup]. apply Hp.
  assert (E : ptrs (with_sv (new_inode i type) t) = replicate 144 0) by reflexivity. rewrite E in Hk.
  by apply lookup_replicate in Hk as [-> _].
Qed.

Lemma free_not_owned I s b : fs_ok I s -> 0 <= b -> bit (sfs_freemap (vol s)) b = false -> ~ owned I (inode_of s) (vol s) b.
Proof. intros [Hb _] _ Hf Ho. pose proof (owned_bit _ _ _ _ Hb Ho). congruence. Qed.

(** [sfs_makeobj]: a new inode, not one of the volume's files, with a vnode for it; or
    the volume is full or there is no memory. No file changes. *)
Lemma makeobj_ok I s type : fs_ok I s -> type = SFS_TYPE_FILE \/ type = SFS_TYPE_DIR ->
  (exists v b s', sfs_makeobj type s = Done v s' /\ (b ∉ I) /\ 0 < b < sb_nblocks (vol s) /\ fs_ok ({[b]} ∪ I) s' /\ (forall j, j ∈ I -> unchanged s s' j) /\
     vheap s !! v = None /\ (exists waste, vheap s' = <[v := mkV 1 (new_inode b type) waste]> (vheap s)) /\
     (forall x, 0 <= x -> bit (sfs_freemap (vol s')) x = if decide (x = b) then true else bit (sfs_freemap (vol s)) x)) \/
  (exists e s', sfs_makeobj type s = Fail e s' /\ (e = ENOSPC \/ e = ENOMEM) /\ fs_ok I s' /\ (forall j, j ∈ I -> unchanged s s' j) /\
     vheap s' = vheap s /\ (forall x, 0 <= x -> bit (sfs_freemap (vol s')) x = bit (sfs_freemap (vol s)) x)).
Proof.
  intros Hok Hty. pose proof Hok as [Hb Ht Hmp]. unfold sfs_makeobj. kunfold. unfold on_vol at 1 3.
  destruct (sfs_balloc_ok (vol s) (bo_vol _ _ _ Hb)) as [(b & t & Eb & Hbr & Hbf & Hvt & Hd & Hbit & Enb & _)|(t & -> & -> & _)].
  2:{ right. exists ENOSPC. eexists. split; [done|]. split; [by left|]. assert (Es : set_vol (vol s) s = s) by (by destruct s).
      rewrite Es. split; [done|]. split; [done|]. done. }
  pose proof (keeps_run _ _ _ _ keeps_balloc Eb) as Hk1. rewrite Eb. clear Eb.
  set (s1 := set_vol t s). pose proof (free_not_owned I s b Hok ltac:(lia) Hbf) as Hno.
  assert (HbI : b ∉ I) by (intros ?; apply Hno; right; by left).
  assert (Hz : dsk t b = replicate 512 0) by (rewrite Hd; unfold upd; by rewrite Z.eqb_refl).
  assert (Hdo : forall x, x <> b -> dsk t x = dsk (vol s) x) by (intros x Hx; rewrite Hd; unfold upd; by destruct (Z.eqb_spec x b)).
  destruct (fs_quiet I s s1 Hok) as (Hok1 & Vi1 & Hun1); try done.
  { intros x Hx Hxu. apply Hdo. congruence. }
  { intros x Hx. pose proof (owned_bit _ _ _ _ Hb Hx). destruct (owned_used _ _ _ _ Hb Hx) as [?|Hres]; [|destruct Hres]; cbn; rewrite Hbit by lia; by case_decide. }
  pose proof Hok1 as [Hb1 Ht1 Hmp1].
  assert (Hl1 : loaded s1 b = None).
  { apply loaded_None; [by eapply tab_indexed|]. intros v x Hv <-. by destruct (to_vn _ _ Ht1 v x Hv) as (_ & ? & _). }
  assert (Eu : u16 type = type /\ (type =? SFS_TYPE_INVAL) = false) by (destruct Hty as [-> | ->]; done). destruct Eu as [Eu Et0].
  assert (Hb1t : bit (sfs_freemap t) b = true) by (rewrite Hbit by lia; by rewrite decide_True).
  pose proof (load_fresh I s1 b type Hok1 Hl1) as HL. change (vol s1) with t in HL. cbv zeta in HL. rewrite Hz, Enb, Et0, Eu in HL. cbn [negb] in HL. rewrite zero_inode in HL.
  destruct HL as [(s' & E & Hq)|(v & s' & E & Hen)]; try done; rewrite E; clear E.
  - right. exists ENOMEM. destruct (fquiet_ok I s1 s' Hok1 Hq) as (Hok' & _ & Hun'). destruct Hq as (Eh & Ea & En & Ed & Em & Enb' & Hv' & Hk2).
    change (vol s1) with t in Ed, Em, Enb'. unfold on_vol.
    destruct (sfs_bfree_ok b (vol s') Hv') as (t' & Ef & Hvt' & Hd' & Hbit' & Enb'' & _); [lia|by rewrite Em|].
    pose proof (keeps_run _ _ _ _ (keeps_bfree b) Ef) as Hk3. rewrite Ef.
    eexists. split; [done|]. split; [by right|].
    assert (Hbits : forall x, 0 <= x -> bit (sfs_freemap t') x = bit (sfs_freemap (vol s)) x).
    { intros x Hx. rewrite Hbit', Em by done. case_decide as Hxb; [by subst|]. rewrite Hbit by done. by rewrite decide_False. }
    destruct (fs_quiet I s (set_vol t' s')) as (Hok2 & _ & Hun2); try done; cbn; try congruence.
    + intros x Hx Hxu. rewrite Hd', Ed. apply Hdo. congruence.
    + by etransitivity; [exact Hk1|]; etransitivity.
    + intros x Hx. pose proof (owned_bit _ _ _ _ Hb Hx). destruct (owned_used _ _ _ _ Hb Hx) as [?|Hres]; [|destruct Hres]; rewrite Hbits by lia; done.
  - left. exists v, b, s'. split; [done|]. split; [done|]. split; [done|].
    destruct Hen as [Hnew (waste & Hwl & Hh) Ha Hc (Hn1 & Hn2) (Ed & Em & Enb' & Hv & Hmk)]. change (vol s1) with t in Ed, Em, Enb'.
    set (x := mkV 1 (new_inode b type) waste) in *.
    destruct (fs_enter I ({[b]} ∪ I) s1 s' v x Ht1 Hnew Hl1) as (Ht' & Vi & Vj); try done; try (cbn; lia).
    { apply union_subseteq_r. }
    { cbn. apply elem_of_union_l, elem_of_singleton. done. }
    { intros j _. by rewrite Ed. }
    assert (HV : forall j, j ∈ I -> inode_of s' j = inode_of s1 j) by (intros j Hj; apply Vj; [done|cbn; congruence]).
    destruct (blocks_frame I (inode_of s1) (inode_of s') t (vol s') Hb1) as [Hb' Hsf]; try done.
    { intros j Hj. right. by apply HV. }
    { intros y Hbo. rewrite Em. by eapply (owned_bit _ _ _ _ Hb1). }
    { intros j p _ _. by rewrite Ed. }
    cbn in Vi.
    assert (Hno' : ~ owned I (inode_of s') (vol s') b).
    { intros [Hr|[?|(j & Hj & Hh')]]; [apply Hno; left; unfold reserved in *; by rewrite <- Enb, <- Enb'|done|].
      apply Hno. right. right. exists j. split; [done|]. apply (same_file_has _ _ _ (Hsf j Hj)) in Hh'.
      by apply (same_file_has _ _ _ (proj2 (proj2 (Hun1 j Hj)))) in Hh'. }
    split; [|split_and!].
    + split; [|done|apply (map_frame t); try done; intros y _; by rewrite Ed]. apply (blocks_add I (inode_of s')); try done.
      * rewrite Enb', Enb. lia.
      * by rewrite Em.
      * intros j Hj Hh'. apply Hno'. right. right. by exists j.
      * intros Hr. apply Hno'. by left.
      * rewrite Vi. split; cbn; done.
      * by rewrite Vi.
      * intros p. rewrite Vi. apply new_inode_has.
    + intros j Hj. eapply unchanged_trans; [by apply Hun1|]. apply unchanged_intro; [by apply HV|by apply Hsf].
    + done.
    + exists waste. done.
    + intros y Hy. rewrite Em. by apply Hbit.
Qed.

(** ** Reclaiming *)

Lemma vnode_index_ok s v n k i : arr_ok (sfs_vnodes s) -> NoDup (contents (sfs_vnodes s)) -> contents (sfs_vnodes s) !! n = Some v ->
  0 <= i <= Z.of_nat n -> i + Z.of_nat k = arr_num (sfs_vnodes s) -> vnode_index k i v s = Done (Some (Z.of_nat n)) s.
Proof.
  intros Ha Hnd Hn. pose proof (contents_length _ Ha) as Hlen. pose proof (lookup_lt_Some _ _ _ Hn) as Hlt.
  revert i. induction k as [|k IH]; intros i Hi Hk; cbn [vnode_index]; [lia|]. kunfold.
  destruct (contents (sfs_vnodes s) !! Z.to_nat i) as [u|] eqn:Eu; [|apply lookup_ge_None in Eu; lia].
  rewrite (on_vnodes_same _ u) by (apply array_get_ok; [done|lia|done]).
  destruct (Z.eqb_spec u v) as [->|Hne].
  - pose proof (NoDup_lookup _ _ _ _ Hnd Eu Hn). do 2 f_equal. lia.
  - apply IH; [|lia]. destruct (decide (i = Z.of_nat n)) as [->|]; [|lia]. rewrite Nat2Z.id, Hn in Eu. congruence.
Qed.

Lemma elem_of_delete_NoDup (l : list Z) n v u : NoDup l -> l !! n = Some v -> u ∈ delete n l <-> u ∈ l /\ u <> v.
Proof.
  intros Hnd Hn. rewrite <- (take_drop_middle l n v Hn) in Hnd. rewrite <- (take_drop_middle l n v Hn) at 2.
  rewrite delete_take_drop, !elem_of_app, elem_of_cons. apply NoDup_app in Hnd as (_ & Hd & [Hv _]%NoDup_cons).
  split; [|naive_solver]. intros [Hu|Hu]; (split; [naive_solver|]); intros ->; [|done]. apply (Hd v Hu). left.
Qed.

(** A vnode leaves the table. *)
Lemma fs_leave I I' s s' v x n : tab_ok I s -> vheap s !! v = Some x -> contents (sfs_vnodes s) !! n = Some v ->
  (forall j, j ∈ I -> j <> sv_ino (vn_sv x) -> j ∈ I') -> arr_ok (sfs_vnodes s') ->
  contents (sfs_vnodes s') = delete n (contents (sfs_vnodes s)) -> vheap s' = delete v (vheap s) -> nextv s' = nextv s ->
  (forall j, j ∈ I' -> dsk (vol s') j = dsk (vol s) j) ->
  tab_ok I' s' /\ loaded s' (sv_ino (vn_sv x)) = None /\ forall j, j ∈ I' -> j <> sv_ino (vn_sv x) -> inode_of s' j = inode_of s j.
Proof.
  intros Ht Hv Hn HI Ha Hc Hh Hnx Hd. pose proof (tab_indexed _ _ Ht) as Hix. destruct Ht as [Ta Tn Td Tv Tj Tc Tx].
  assert (Hix' : indexed s').
  { split; rewrite ?Hc, ?Hh.
    - intros u. rewrite (elem_of_delete_NoDup _ _ v) by done. rewrite lookup_delete_is_Some, Td. naive_solver.
    - intros u u' y y' [_ Hu]%lookup_delete_Some [_ Hu']%lookup_delete_Some. by eapply Tj. }
  assert (Hne : forall u y, vheap s' !! u = Some y -> vheap s !! u = Some y /\ sv_ino (vn_sv y) <> sv_ino (vn_sv x)).
  { intros u y. rewrite Hh. intros [Hne Hu]%lookup_delete_Some. split; [done|]. intros E. apply Hne. by eapply Tj. }
  split; [|split].
  - split; try done; try apply Hix'.
    + rewrite Hc. eapply sublist_NoDup; [exact Tn|apply sublist_delete].
    + intros u y Hu. destruct (Hne u y Hu) as [Hu' Hi]. destruct (Tv u y Hu') as (? & ? & ?). split; [done|]. split; [by apply HI|done].
    + intros u y Hu Hdy. destruct (Hne u y Hu) as [Hu' Hi]. rewrite Hd by (apply HI; [by apply (Tv u y)|done]). by apply (Tc u).
    + intros u Hu. rewrite Hh, lookup_delete_None. right. apply Tx. lia.
  - apply loaded_None; [done|]. intros u y Hu. by apply (Hne u y).
  - intros j Hj Hji. apply inode_of_same; [|intros _; by apply Hd]. destruct (loaded s j) as [z|] eqn:Ez.
    + apply loaded_iff in Ez as (u & Hu & Eu); [|done]. apply loaded_iff; [done|]. exists u. split; [|done].
      rewrite Hh. apply lookup_delete_Some. split; [congruence|done].
    + apply loaded_None; [done|]. intros u y Hu. apply (proj1 (loaded_None s j Hix) Ez u). by apply (Hne u y).
Qed.

Lemma vn_index I s v x : tab_ok I s -> vheap s !! v = Some x -> exists n, contents (sfs_vnodes s) !! n = Some v.
Proof. intros Ht Hv. apply list_elem_of_lookup. apply (to_dom _ _ Ht). by exists x. Qed.

(** The last steps of [sfs_reclaim], on a vnode that is clean. *)
Definition unload (v : Z) : K fs unit :=
  s <- kget ;;
  ix <- vnode_index (Z.to_nat (arr_num (sfs_vnodes s))) 0 v ;;
  match ix with
  | None => khalt PanicCall
  | Some ix => on_vnodes (array_remove ix) ;;; vnode_cleanup v
  end.

Lemma unload_ok I s v x : tab_ok I s -> vheap s !! v = Some x -> vn_refcount x = 1 ->
  exists s' n, unload v s = Done tt s' /\ contents (sfs_vnodes s) !! n = Some v /\ arr_ok (sfs_vnodes s') /\
    contents (sfs_vnodes s') = delete n (contents (sfs_vnodes s)) /\ vheap s' = delete v (vheap s) /\ nextv s' = nextv s /\ vol s' = vol s.
Proof.
  intros Ht Hv Hr. destruct (vn_index I s v x Ht Hv) as [n Hn]. pose proof (contents_length _ (to_arr _ _ Ht)) as Hlen.
  pose proof (lookup_lt_Some _ _ _ Hn). unfold unload. kunfold.
  rewrite (vnode_index_ok s v n) by (apply Ht || done || lia).
  unfold on_vnodes. destruct (array_remove_ok (sfs_vnodes s) (Z.of_nat n) (to_arr _ _ Ht)) as [[? _]|(_ & a' & -> & Ha & _ & Hc)]; [lia|lia|].
  unfold vnode_cleanup, vn_get. kunfold. cbn [vheap set_vnodes]. rewrite Hv, Hr. eexists. exists n. split; [done|].
  split_and!; try done. cbn. by rewrite Hc, Nat2Z.id.
Qed.

(** [sfs_reclaim] when the vnode's reference is the last one. A file that still has
    links is left as it is, with its inode on the disk; one without links disappears
    and all its blocks are free. *)
Lemma reclaim_linked I s v x : fs_ok I s -> vheap s !! v = Some x -> vn_refcount x = 1 -> sfi_linkcount (vn_sv x) <> 0 ->
  exists s', sfs_reclaim v s = Done tt s' /\ fs_ok I s' /\ (forall j, j ∈ I -> unchanged s s' j) /\ vheap s' = delete v (vheap s) /\
    sfs_freemap (vol s') = sfs_freemap (vol s).
Proof.
  intros Hok Hv Hr Hlk. unfold sfs_reclaim, vn_get. kunfold. rewrite Hv, Hr. cbn [Z.eqb Pos.eqb negb].
  destruct (Z.eqb_spec (sfi_linkcount (vn_sv x)) 0) as [|_]; [done|].
  destruct (sync_inode_ok I s v x Hok Hv) as (s1 & -> & Hok1 & Hun1 & Hh1 & Ea1 & En1 & _ & Em1 & Enb1 & _).
  assert (Hv1 : vheap s1 !! v = Some (set_vn_sv (set_clean (vn_sv x)) x)) by (by rewrite Hh1, lookup_insert_eq).
  rewrite Hv1. cbn [vn_sv set_vn_sv sfi_linkcount set_clean]. destruct (Z.eqb_spec (sfi_linkcount (vn_sv x)) 0) as [|_]; [done|].
  pose proof Hok1 as [Hb1 Ht1 Hmp1]. destruct (unload_ok I s1 v _ Ht1 Hv1 Hr) as (s2 & n & E2 & Hn & Ha & Hc & Hh & Hnx & Evol).
  unfold unload in E2. kunfold. rewrite E2. exists s2. split; [done|].
  destruct (fs_leave I I s1 s2 v _ n Ht1 Hv1 Hn) as (Ht2 & Hl2 & Vj); try done; [by rewrite Evol|].
  cbn [vn_sv set_vn_sv sv_ino set_clean] in Hl2, Vj. destruct (fs_vn I s1 v _ Hok1 Hv1) as (_ & Ei1 & _). cbn [vn_sv set_vn_sv sv_ino set_clean] in Ei1.
  assert (HV : forall j, j ∈ I -> inode_of s2 j = inode_of s1 j).
  { intros j Hj. destruct (decide (j = sv_ino (vn_sv x))) as [->|]; [|by apply Vj].
    rewrite Ei1, inode_of_disk by done. rewrite Evol. by apply (to_clean _ _ Ht1 v _ Hv1). }
  split_and!.
  - split; [rewrite Evol; by eapply blocks_ext|done|by rewrite Evol].
  - intros j Hj. eapply unchanged_trans; [by apply Hun1|]. apply unchanged_intro; [by apply HV|].
    unfold at_ino. by rewrite HV, Evol by done.
  - rewrite Hh, Hh1. apply delete_insert_eq.
  - by rewrite Evol.
Qed.

Lemma reclaim_unlinked I s v x : fs_ok I s -> vheap s !! v = Some x -> vn_refcount x = 1 -> sfi_linkcount (vn_sv x) = 0 ->
  let i := sv_ino (vn_sv x) in
  exists s', sfs_reclaim v s = Done tt s' /\ fs_ok (I ∖ {[i]}) s' /\ (forall j, j ∈ I -> j <> i -> unchanged s s' j) /\
    vheap s' = delete v (vheap s) /\
    (forall b, 0 <= b -> bit (sfs_freemap (vol s')) b = true <-> bit (sfs_freemap (vol s)) b = true /\ b <> i /\ ~ has (at_ino s i) b).
Proof.
  intros Hok Hv Hr Hlk i. destruct (fs_vn I s v x Hok Hv) as (Hi & Ei & Eat & Hf & Hix & Hri & Hu). fold i in Hi, Ei, Eat, Hf, Hix, Hri, Hu.
  unfold sfs_reclaim, vn_get. kunfold. rewrite Hv, Hr, Hlk. cbn [Z.eqb Pos.eqb negb].
  unfold on_vn at 1. rewrite Hv, <- Eat. destruct (itrunc_local (at_ino s i) Hf) as (t & Et & Hloc & Hid & Hsz & Hdir & Hno & Hbit).
  rewrite Eat in Hid. cbn in Hid. destruct Hid as (Hid1 & Hid2 & Hid3).
  assert (Hk1 : map_kept (vol s) t) by exact (keeps_run _ _ _ _ (keeps_itrunc 0) Et). rewrite Et.
  destruct (fs_local I s v x t Hok Hv Hloc) as (Hok1 & Eat1 & Hun1); [|by left|done|].
  { destruct Hix. split; [done|congruence|rewrite Hsz; unfold MAXSIZE, MAXBLOCKS, SFS_BLOCKSIZE; lia|congruence]. }
  set (s1 := put_vn v x t s) in *. fold i in Eat1, Hun1.
  assert (Hv1 : vheap s1 !! v = Some (set_vn_sv (sv t) x)) by (cbn; apply lookup_insert_eq).
  destruct (sync_inode_ok I s1 v _ Hok1 Hv1) as (s2 & -> & Hok2 & Hun2 & Hh2 & Ea2 & En2 & _ & Em2 & Enb2 & _).
  assert (Hv2 : vheap s2 !! v = Some (set_vn_sv (set_clean (sv t)) x)) by (by rewrite Hh2, lookup_insert_eq).
  rewrite Hv2. cbn [vn_sv set_vn_sv sfi_linkcount set_clean sv_ino]. rewrite Hid3, Hlk, Hid1. fold i. cbn [Z.eqb].
  pose proof Hok2 as [Hb2 Ht2 Hmp2]. change (sb_nblocks (vol s1)) with (sb_nblocks t) in Enb2. change (sfs_freemap (vol s1)) with (sfs_freemap t) in Em2.
  pose proof (lo_nblocks _ _ Hloc) as Enbt. cbn in Enbt.
  assert (Hit : bit (sfs_freemap t) i = true) by (apply Hbit; [lia|]; split; [by rewrite Eat|]; by apply (bo_nino _ _ _ (fs_blocks _ _ Hok))).
  unfold on_vol. destruct (sfs_bfree_ok i (vol s2) (bo_vol _ _ _ Hb2)) as (t3 & E3 & Hv3 & Hd3 & Hbit3 & Enb3 & _); [lia|by rewrite Em2|].
  pose proof (keeps_run _ _ _ _ (keeps_bfree i) E3) as Hk3. rewrite E3. set (s3 := set_vol t3 s2).
  assert (Ht3 : tab_ok I s3) by (destruct Ht2; split; cbn; rewrite ?Hd3; done).
  destruct (unload_ok I s3 v _ Ht3 Hv2 Hr) as (s4 & n & E4 & Hn & Ha & Hc & Hh & Hnx & Evol).
  unfold unload in E4. kunfold. rewrite E4. exists s4. split; [done|].
  destruct (fs_leave I (I ∖ {[i]}) s3 s4 v _ n Ht3 Hv2 Hn) as (Ht4 & Hl4 & Vj); try done.
  { cbn. rewrite Hid1. set_solver. }
  { by rewrite Evol. }
  cbn [vn_sv set_vn_sv sv_ino set_clean] in Hl4, Vj. rewrite Hid1 in Hl4, Vj. fold i in Hl4, Vj.
  assert (Vj2 : forall j, j ∈ I ∖ {[i]} -> inode_of s4 j = inode_of s2 j).
  { intros j Hj. rewrite Vj by set_solver. apply inode_of_same; [done|]. intros _. cbn. by rewrite Hd3. }
  destruct (blocks_frame (I ∖ {[i]}) (inode_of s2) (inode_of s4) (vol s2) (vol s4)) as [Hb4 Hsf].
  { by apply blocks_del. }
  { by rewrite Evol. }
  { by rewrite Evol. }
  { intros j Hj. right. by apply Vj2. }
  { intros b Hbo. rewrite Evol. cbn. assert (Hb0 : 0 <= b /\ b <> i).
    { destruct Hbo as [Hres|[HbI|(j & Hj & Hhas)]].
      - split; [destruct Hres; lia|]. intros ->. by destruct (bo_res _ _ _ Hb2 i Hres) as (_ & ? & _).
      - split; [destruct (bo_ino _ _ _ Hb2 b) as (? & _); [set_solver|lia]|set_solver].
      - split; [destruct (has_used _ b (bo_file _ _ _ Hb2 j ltac:(set_solver)) Hhas) as [? _]; lia|].
        intros ->. by apply (bo_nino _ _ _ Hb2 j i) in Hhas; [|set_solver..]. }
    destruct Hb0 as [Hb0 Hbi]. rewrite Hbit3, decide_False by done. by apply (owned_bit _ _ _ _ (blocks_del _ _ _ i Hb2)). }
  { intros j p _ _. rewrite Evol. cbn. by rewrite Hd3. }
  split_and!.
  - split; [done|done|]. rewrite Evol. cbn. apply (map_frame (vol s2)); try done. intros b _. by rewrite Hd3.
  - intros j Hj Hne. eapply unchanged_trans; [by apply Hun1|]. eapply unchanged_trans; [by apply Hun2|].
    apply unchanged_intro; [apply Vj2; set_solver|apply Hsf; set_solver].
  - rewrite Hh. cbn. rewrite Hh2. cbn. by rewrite !delete_insert_eq.
  - intros b Hb0. rewrite Evol. cbn. rewrite Hbit3, Em2 by done. case_decide as Hbi; [rewrite Hbi; naive_solver|].
    rewrite Hbit by done. rewrite Eat. naive_solver.
Qed.

(** What becomes of vnode [v] when one reference to it is dropped: it has others, or
    the file has links and only the vnode goes, or the file goes too. *)
Inductive dropped (I : gset Z) (s : fs) (v : Z) (x : vn) : gset Z -> fs -> Prop :=
| dropped_shared s' : 1 < vn_refcount x -> fs_ok I s' -> (forall j, j ∈ I -> unchanged s s' j) ->
    vheap s' = <[v := set_refcount (vn_refcount x - 1) x]> (vheap s) -> sfs_freemap (vol s') = sfs_freemap (vol s) ->
    dropped I s v x I s'
| dropped_linked s' : vn_refcount x = 1 -> sfi_linkcount (vn_sv x) <> 0 -> fs_ok I s' -> (forall j, j ∈ I -> unchanged s s' j) ->
    vheap s' = delete v (vheap s) -> sfs_freemap (vol s') = sfs_freemap (vol s) ->
    dropped I s v x I s'
| dropped_erased s' : vn_refcount x = 1 -> sfi_linkcount (vn_sv x) = 0 -> fs_ok (I ∖ {[sv_ino (vn_sv x)]}) s' ->
    (forall j, j ∈ I -> j <> sv_ino (vn_sv x) -> unchanged s s' j) -> vheap s' = delete v (vheap s) ->
    (forall b, 0 <= b -> bit (sfs_freemap (vol s')) b = true <->
       bit (sfs_freemap (vol s)) b = true /\ b <> sv_ino (vn_sv x) /\ ~ has (at_ino s (sv_ino (vn_sv x))) b) ->
    dropped I s v x (I ∖ {[sv_ino (vn_sv x)]}) s'.

Lemma decref_ok I s v x : fs_ok I s -> vheap s !! v = Some x ->
  exists I' s', vnode_decref v s = Done tt s' /\ dropped I s v x I' s'.
Proof.
  intros Hok Hv. pose proof Hok as [Hb Ht Hmp]. destruct (to_vn _ _ Ht v x Hv) as (Hr & _).
  assert (E : vnode_decref v s = if 1 <? vn_refcount x then vn_update v (fun x => set_refcount (vn_refcount x - 1) x) s
                                 else (attempt (sfs_reclaim v) ;;; kret tt) s).
  { unfold vnode_decref, vnode_check, vn_get. kunfold. rewrite Hv, (proj2 (Z.ltb_lt _ _)) by lia. unfold kret.
    destruct (1 <? vn_refcount x); [done|]. rewrite Hv, (proj2 (Z.leb_gt _ _)) by lia. done. }
  rewrite E. clear E. destruct (Z.ltb_spec 1 (vn_refcount x)) as [Hlt|Hge].
  - unfold vn_update, vn_get. kunfold. rewrite Hv. exists I. eexists. split; [done|].
    destruct (fs_refcount I s v x (vn_refcount x - 1) Hok Hv) as [? ?]; [lia|]. by apply dropped_shared.
  - assert (Er : vn_refcount x = 1) by lia. kunfold. destruct (decide (sfi_linkcount (vn_sv x) = 0)) as [E0|E0].
    + destruct (reclaim_unlinked I s v x Hok Hv Er E0) as (s' & -> & ? & ? & ? & ?). eexists. exists s'. split; [done|]. by apply dropped_erased.
    + destruct (reclaim_linked I s v x Hok Hv Er E0) as (s' & -> & ? & ? & ? & ?). exists I, s'. split; [done|]. by apply dropped_linked.
Qed.

Lemma dropped_ok I s v x I' s' : dropped I s v x I' s' ->
  fs_ok I' s' /\ I' ⊆ I /\ (forall j, j ∈ I -> j <> sv_ino (vn_sv x) -> j ∈ I' /\ unchanged s s' j) /\
  forall u, u <> v -> vheap s' !! u = vheap s !! u.
Proof.
  intros [s1 ? Hok Hun Hh _|s1 ? ? Hok Hun Hh _|s1 ? ? Hok Hun Hh _]; (split; [done|]); rewrite Hh; split_and!; try done; try set_solver.
  all: try (intros u Hu; by rewrite ?lookup_insert_ne, ?lookup_delete_ne by done).
Qed.

End Sound.

End Inodes.
