(* ===== verification/SfsVnops.v ===== *)
(** * SFS: the operations on vnodes

    The function tables [sfs_fileops] and [sfs_dirops] of kern/fs/sfs/sfs_vnops.c, with
    [sfs_lookonce] of kern/fs/sfs/sfs_dir.c. SFS has one directory, the root; what the
    volume stands for is the map from names to inode numbers in the root, and a file for
    each inode. [tree_ok] adds to [fs_ok] that the names lead to files of the volume and
    that the link count of a file is the number of its names; the results say how each
    operation changes the map and that it leaves all other files alone, on a disk that
    reports no error ([Reliable]); SfsErrors.v has the theorems about every disk. *)

From stdpp Require Import base numbers list gmap.
From Stdlib Require Import ZArith Lia.
From S2P Require Import Prelude Bitmap SfsDisk SfsFile SfsTrunc SfsDir SfsMap KArray SfsOwn SfsInode.

Open Scope Z_scope.
Open Scope k_scope.

Definition O_ACCMODE : Z := 3.
Definition O_RDONLY : Z := 0.
Definition O_APPEND : Z := 32.
Definition S_IFREG : Z := 4096.
Definition S_IFDIR : Z := 8192.

(** The fields of [struct stat] that SFS fills in. *)
Record stat := mkstat { st_mode : Z; st_size : Z; st_nlink : Z; st_blocks : Z }.

Section Vnops.
Context {G : Geometry} {D : Disk} {H : Heap}.

Definition dirty_link (n : Z) (x : vn) : vn := set_vn_sv (set_linkcount (u16 n) (vn_sv x)) x.

(** kern/fs/sfs/sfs_dir.c:212-239 (sfs_lookonce): the vnode and the slot of the name. *)
Definition sfs_lookonce (v : Z) (name : list Z) : K fs (Z * Z) :=
  r <- on_vn v (sfs_dir_findname name (-1)) ;;
  match fr_found r with
  | None => kfail ENOENT
  | Some (ino, slot) =>
      g <- sfs_loadvnode ino SFS_TYPE_INVAL ;;
      x <- vn_get g ;;
      if sfi_linkcount (vn_sv x) =? 0 then khalt PanicCall else kret (g, slot)
  end.

(** kern/fs/sfs/sfs_vnops.c:51-67 (sfs_eachopen). *)
Definition sfs_eachopen (v openflags : Z) : K fs unit := kret tt.

(** kern/fs/sfs/sfs_vnops.c:73-91 (sfs_eachopendir). *)
Definition sfs_eachopendir (v openflags : Z) : K fs unit :=
  if negb (Z.land openflags O_ACCMODE =? O_RDONLY) then kfail EISDIR else
  if negb (Z.land openflags O_APPEND =? 0) then kfail EISDIR else
  kret tt.

(** kern/fs/sfs/sfs_vnops.c:96-110 (sfs_read); the transfer is part of the state. *)
Definition sfs_read (v : Z) : K fs unit :=
  s <- kget ;;
  kassert (bool_decide (uio_rwf (ui (vol s)) = UIO_READ)) ;;;
  on_vn v sfs_io.

(** kern/fs/sfs/sfs_vnops.c:115-129 (sfs_write). *)
Definition sfs_write (v : Z) : K fs unit :=
  s <- kget ;;
  kassert (bool_decide (uio_rwf (ui (vol s)) = UIO_WRITE)) ;;;
  on_vn v sfs_io.

(** kern/fs/sfs/sfs_vnops.c:134-147 (sfs_ioctl). *)
Definition sfs_ioctl (v op data : Z) : K fs unit := kfail EINVAL.

(** kern/fs/sfs/sfs_vnops.c:181-203 (sfs_gettype). *)
Definition sfs_gettype (v : Z) : K fs Z :=
  x <- vn_get v ;;
  if sfi_type (vn_sv x) =? SFS_TYPE_FILE then kret S_IFREG else
  if sfi_type (vn_sv x) =? SFS_TYPE_DIR then kret S_IFDIR else
  khalt PanicCall.

(** kern/fs/sfs/sfs_vnops.c:152-176 (sfs_stat). *)
Definition sfs_stat (v : Z) : K fs stat :=
  vnode_check v ;;;
  mode <- sfs_gettype v ;;
  x <- vn_get v ;;
  kret (mkstat mode (sfi_size (vn_sv x)) (sfi_linkcount (vn_sv x)) 0).

(** kern/fs/sfs/sfs_vnops.c:208-214 (sfs_isseekable). *)
Definition sfs_isseekable (v : Z) : K fs bool := kret true.

(** kern/fs/sfs/sfs_vnops.c:220-232 (sfs_fsync). *)
Definition sfs_fsync (v : Z) : K fs unit := sfs_sync_inode v.

(** kern/fs/sfs/sfs_vnops.c:237-243 (sfs_mmap). *)
Definition sfs_mmap (v : Z) : K fs unit := kfail ENOSYS.

(** kern/fs/sfs/sfs_vnops.c:248-255 (sfs_truncate). *)
Definition sfs_truncate (v len : Z) : K fs unit := on_vn v (sfs_itrunc len).

(** kern/fs/sfs/sfs_vnops.c:263-275 (sfs_namefile): nothing is added to the name. *)
Definition sfs_namefile (v : Z) : K fs unit :=
  x <- vn_get v ;;
  kassert (sv_ino (vn_sv x) =? SFS_ROOTDIR_INO).

(** kern/fs/sfs/sfs_vnops.c:281-347 (sfs_creat). *)
Definition sfs_creat (v : Z) (name : list Z) (excl : bool) (mode : Z) : K fs Z :=
  r <- on_vn v (sfs_dir_findname name (-1)) ;;
  match fr_found r with
  | Some (ino, _) => if excl then kfail EEXIST else sfs_loadvnode ino SFS_TYPE_INVAL
  | None =>
      newguy <- sfs_makeobj SFS_TYPE_FILE ;;
      x <- vn_get newguy ;;
      r <- attempt (on_vn v (sfs_dir_link name (sv_ino (vn_sv x)))) ;;
      match r with
      | inl e => vnode_decref newguy ;;; kfail e
      | inr _ =>
          vn_update newguy (fun x => dirty_link (sfi_linkcount (vn_sv x) + 1) x) ;;;
          kret newguy
      end
  end.

(** kern/fs/sfs/sfs_vnops.c:354-385 (sfs_link). *)
Definition sfs_link (dir : Z) (name : list Z) (file : Z) : K fs unit :=
  f <- vn_get file ;;
  if sfi_type (vn_sv f) =? SFS_TYPE_DIR then kfail EINVAL else
  on_vn dir (sfs_dir_link name (sv_ino (vn_sv f))) ;;;
  vn_update file (fun x => dirty_link (sfi_linkcount (vn_sv x) + 1) x).

(** kern/fs/sfs/sfs_vnops.c:390-422 (sfs_remove). *)
Definition sfs_remove (dir : Z) (name : list Z) : K fs unit :=
  r <- sfs_lookonce dir name ;;
  let '(victim, slot) := r in
  result <- attempt (on_vn dir (sfs_dir_unlink slot)) ;;
  (match result with
   | inr _ =>
       x <- vn_get victim ;;
       kassert (0 <? sfi_linkcount (vn_sv x)) ;;;
       vn_update victim (fun x => dirty_link (sfi_linkcount (vn_sv x) - 1) x)
   | inl _ => kret tt
   end) ;;;
  vnode_decref victim ;;;
  match result with inr _ => kret tt | inl e => kfail e end.

(** kern/fs/sfs/sfs_vnops.c:492-511 (sfs_rename): what follows when the old name could
    not be unlinked ([puke_harder]). *)
Definition rename_undo (d1 g1 slot2 e : Z) : K fs unit :=
  result2 <- attempt (on_vn d1 (sfs_dir_unlink slot2)) ;;
  match result2 with
  | inl _ => khalt PanicCall
  | inr _ =>
      vn_update g1 (fun x => set_vn_sv (mkvn (sv_ino (vn_sv x)) (sfi_type (vn_sv x)) (sfi_size (vn_sv x))
        (u16 (sfi_linkcount (vn_sv x) - 1)) (sfi_direct (vn_sv x)) (sfi_indirect (vn_sv x)) (sv_dirty (vn_sv x))) x) ;;;
      vnode_decref g1 ;;; kfail e
  end.

(** kern/fs/sfs/sfs_vnops.c:454-511 (sfs_rename): from the point where the file [g1] and
    the slot of its old name are known. *)
Definition rename_move (d1 : Z) (n2 : list Z) (g1 slot1 : Z) : K fs unit :=
  g <- vn_get g1 ;;
  kassert (sfi_type (vn_sv g) =? SFS_TYPE_FILE) ;;;
  result <- attempt (on_vn d1 (sfs_dir_link n2 (sv_ino (vn_sv g)))) ;;
  match result with
  | inl e => vnode_decref g1 ;;; kfail e
  | inr slot2 =>
      vn_update g1 (fun x => dirty_link (sfi_linkcount (vn_sv x) + 1) x) ;;;
      result <- attempt (on_vn d1 (sfs_dir_unlink slot1)) ;;
      match result with
      | inl e => rename_undo d1 g1 slot2 e
      | inr _ =>
          g <- vn_get g1 ;;
          kassert (0 <? sfi_linkcount (vn_sv g)) ;;;
          vn_update g1 (fun x => dirty_link (sfi_linkcount (vn_sv x) - 1) x) ;;;
          vnode_decref g1
      end
  end.

(** kern/fs/sfs/sfs_vnops.c:430-512 (sfs_rename). *)
Definition sfs_rename (d1 : Z) (n1 : list Z) (d2 : Z) (n2 : list Z) : K fs unit :=
  kassert (d1 =? d2) ;;;
  d <- vn_get d1 ;;
  kassert (sv_ino (vn_sv d) =? SFS_ROOTDIR_INO) ;;;
  r <- sfs_lookonce d1 n1 ;;
  let '(g1, slot1) := r in
  rename_move d1 n2 g1 slot1.

(** kern/fs/sfs/sfs_vnops.c:521-546 (sfs_lookparent): the vnode and what is copied to
    the buffer. *)
Definition sfs_lookparent (v : Z) (path : list Z) (buflen : Z) : K fs (Z * list Z) :=
  x <- vn_get v ;;
  if negb (sfi_type (vn_sv x) =? SFS_TYPE_DIR) then kfail ENOTDIR else
  if buflen <? Z.of_nat (length path) + 1 then kfail ENAMETOOLONG else
  vnode_incref v ;;;
  kret (v, path ++ [0]).

(** kern/fs/sfs/sfs_vnops.c:554-579 (sfs_lookup). *)
Definition sfs_lookup (v : Z) (path : list Z) : K fs Z :=
  x <- vn_get v ;;
  if negb (sfi_type (vn_sv x) =? SFS_TYPE_DIR) then kfail ENOTDIR else
  r <- sfs_lookonce v path ;;
  kret (fst r).

(** ** What the volume stands for *)

(** The names in the root directory. *)
Definition names (s : fs) : gmap (list Z) Z := dir_map (at_ino s SFS_ROOTDIR_INO).

(** The number of names of inode [i]. *)
Definition nlinks (m : gmap (list Z) Z) (i : Z) : nat := size (filter (fun p => p.2 = i) m).

Record tree_ok (I : gset Z) (s : fs) : Prop := {
  tr_root : SFS_ROOTDIR_INO ∈ I;
  tr_dir : dir_ok (at_ino s SFS_ROOTDIR_INO);
  tr_names : forall n i, names s !! n = Some i -> (i ∈ I) /\ i <> SFS_ROOTDIR_INO;
  tr_type : forall i, i ∈ I -> i <> SFS_ROOTDIR_INO -> sfi_type (inode_of s i) = SFS_TYPE_FILE;
  tr_links : forall i, i ∈ I -> i <> SFS_ROOTDIR_INO -> sfi_linkcount (inode_of s i) = Z.of_nat (nlinks (names s) i)
}.

(** [v] is a vnode of the root directory. *)
Definition is_root (s : fs) (v : Z) : Prop := exists x, vheap s !! v = Some x /\ sv_ino (vn_sv x) = SFS_ROOTDIR_INO.

(** There is room for one more reference to every vnode. *)
Definition refs_ok (s : fs) : Prop := forall v x, vheap s !! v = Some x -> vn_refcount x < 2 ^ 31 - 1.

(** *** Counting names *)

Lemma nlinks_insert m n i j : m !! n = None -> nlinks (<[n := i]> m) j = ((if decide (i = j) then 1 else 0) + nlinks m j)%nat.
Proof.
  intros Hn. unfold nlinks. case_decide as Hij.
  - rewrite map_filter_insert_True by done. rewrite map_size_insert_None; [done|]. apply map_lookup_filter_None. by left.
  - rewrite map_filter_insert_False by done. by rewrite delete_id.
Qed.

Lemma nlinks_delete m n i j : m !! n = Some i -> nlinks m j = ((if decide (i = j) then 1 else 0) + nlinks (delete n m) j)%nat.
Proof. intros Hn. rewrite <- (nlinks_insert (delete n m) n i j) by apply lookup_delete_eq. by rewrite insert_delete_id. Qed.

Lemma nlinks_zero m i : (forall n, m !! n <> Some i) -> nlinks m i = 0%nat.
Proof.
  intros Hn. unfold nlinks. apply map_size_empty_iff. apply map_empty. intros n. apply map_lookup_filter_None. right.
  intros x Hx Ex. cbn in Ex. subst x. by apply (Hn n).
Qed.

Lemma nlinks_bound m i : (nlinks m i <= size m)%nat.
Proof. apply map_subseteq_size, map_filter_subseteq. Qed.

Lemma dir_map_size t : dir_ok t -> Z.of_nat (size (dir_map t)) <= MAXSLOTS.
Proof.
  intros Hok. destruct (nslots_range t Hok) as [Hn _].
  assert (Hs : (size (dir_map t) <= length (used_list t))%nat).
  { unfold dir_map. generalize (used_list t). intros l. induction l as [|[k x] l IH]; cbn; [rewrite map_size_empty; lia|].
    destruct ((list_to_map l : gmap (list Z) Z) !! k) eqn:E; [rewrite map_size_insert_Some by done|rewrite map_size_insert_None by done]; lia. }
  assert (Hl : (length (used_list t) <= Z.to_nat (nslots t))%nat).
  { unfold used_list. rewrite length_fmap. etransitivity; [apply length_filter|]. by rewrite length_seqZ. }
  lia.
Qed.

(** *** The root directory *)

Section Sound.
Context `{!Reliable D}.

Lemma dir_unchanged s s' i : dir_ok (at_ino s i) -> file_ok (at_ino s' i) -> unchanged s s' i ->
  dir_ok (at_ino s' i) /\ dir_map (at_ino s' i) = dir_map (at_ino s i) /\ (forall k n x, used (at_ino s' i) k n x <-> used (at_ino s i) k n x).
Proof.
  intros Hd Hf ((_ & Et & _) & Es & _ & Hby). apply dir_same; try done. intros k Hk. apply entry_ext; [done|]. intros p Hp _. by apply Hby.
Qed.

Lemma at_root_ok I s : fs_ok I s -> SFS_ROOTDIR_INO ∈ I -> file_ok (at_ino s SFS_ROOTDIR_INO).
Proof. intros [Hb _] Hi. by apply (bo_file _ _ _ Hb). Qed.

(** If no file changes, neither does what the volume stands for. *)
Lemma tree_frame I s s' : tree_ok I s -> fs_ok I s' -> (forall j, j ∈ I -> unchanged s s' j) ->
  tree_ok I s' /\ names s' = names s.
Proof.
  intros [Tr Td Tn Tt Tl] Hok' Hun.
  destruct (dir_unchanged s s' SFS_ROOTDIR_INO Td (at_root_ok I s' Hok' Tr) (Hun _ Tr)) as (Hd' & Em & _).
  split; [|done]. unfold names in *. split; unfold names; rewrite ?Em; try done.
  - intros i Hi Hne. destruct (Hun i Hi) as ((_ & -> & _) & _). by apply Tt.
  - intros i Hi Hne. destruct (Hun i Hi) as ((_ & _ & ->) & _). by apply Tl.
Qed.

(** An operation on the root directory. *)
Lemma root_op I s d x t : fs_ok I s -> vheap s !! d = Some x -> sv_ino (vn_sv x) = SFS_ROOTDIR_INO ->
  evolves (at_ino s SFS_ROOTDIR_INO) t -> dir_ok t -> map_kept (vol s) t ->
  let s' := put_vn d x t s in
  fs_ok I s' /\ at_ino s' SFS_ROOTDIR_INO = t /\ (forall j, j ∈ I -> j <> SFS_ROOTDIR_INO -> unchanged s s' j).
Proof.
  intros Hok Hd Ex Hev Hdt Hmk s'. destruct (fs_vn I s d x Hok Hd) as (Hi & Ei & Eat & Hf & Hix & _). rewrite Ex in *.
  destruct (fs_local I s d x t Hok Hd) as (Hok' & Eat' & Hun); rewrite ?Ex.
  - by apply evolves_local.
  - destruct (ev_meta _ _ Hev) as (_ & E1 & E2 & E3). rewrite Eat in E1, E2, E3. cbn in E1, E2, E3. destruct Hix.
    split; [congruence|congruence|apply (do_size _ Hdt)|congruence].
  - pose proof (ev_dirty _ _ Hev) as Hdir. by rewrite Eat in Hdir.
  - done.
  - rewrite Ex in *. done.
Qed.

Lemma vn_get_some s v x : vheap s !! v = Some x -> vn_get v s = Done x s.
Proof. unfold vn_get. by intros ->. Qed.

Lemma vn_update_some s v x f : vheap s !! v = Some x -> vn_update v f s = Done tt (set_vheap (<[v := f x]> (vheap s)) s).
Proof. intros Hv. unfold vn_update. kunfold. by rewrite (vn_get_some s v x). Qed.

Lemma on_vn_run {A} s d x (m : K st A) : vheap s !! d = Some x ->
  on_vn d m s = match m (with_sv (vn_sv x) (vol s)) with
                | Done a t => Done a (put_vn d x t s)
                | Fail e t => Fail e (put_vn d x t s)
                | Halt h => Halt h
                end.
Proof. intros Hd. unfold on_vn. by rewrite Hd. Qed.

(** Nothing the volume stands for has changed. *)
Record same_tree (I : gset Z) (s s' : fs) : Prop := {
  sm_fs : fs_ok I s';
  sm_tree : tree_ok I s';
  sm_files : forall j, j ∈ I -> unchanged s s' j;
  sm_names : names s' = names s
}.

Lemma same_tree_intro I s s' : tree_ok I s -> fs_ok I s' -> (forall j, j ∈ I -> unchanged s s' j) -> same_tree I s s'.
Proof. intros Ht Hok Hun. by destruct (tree_frame I s s' Ht Hok Hun). Qed.

Lemma same_tree_trans I s1 s2 s3 : same_tree I s1 s2 -> same_tree I s2 s3 -> same_tree I s1 s3.
Proof.
  intros [? ? H1 E1] [? ? H2 E2]. split; try done; [|congruence]. intros j Hj. eapply unchanged_trans; [by apply H1|by apply H2].
Qed.

Lemma fquiet_tree I s s' : fs_ok I s -> tree_ok I s -> fquiet s s' -> same_tree I s s'.
Proof. intros Hok Ht Hq. destruct (fquiet_ok I s s' Hok Hq) as (? & _ & ?). by apply same_tree_intro. Qed.

Lemma fquiet_loaded s s' i : fquiet s s' -> loaded s' i = loaded s i.
Proof. intros (Eh & Ea & _). unfold loaded. by rewrite Eh, Ea. Qed.

(** Searching the root directory changes nothing. *)
Lemma root_findname I s d x name : fs_ok I s -> tree_ok I s -> vheap s !! d = Some x -> sv_ino (vn_sv x) = SFS_ROOTDIR_INO ->
  Forall (fun c => c <> 0) name ->
  exists r s', on_vn d (sfs_dir_findname name (-1)) s = Done r s' /\ fquiet s s' /\ names s !! name = fst <$> fr_found r /\
    (forall i k, fr_found r = Some (i, k) -> used (at_ino s SFS_ROOTDIR_INO) k name i).
Proof.
  intros Hok Htr Hd Ex Hn. destruct (fs_vn I s d x Hok Hd) as (Hi & Ei & Eat & Hf & Hix & _). rewrite Ex in *.
  pose proof (tr_dir _ _ Htr) as Hdir. rewrite (on_vn_run s d x) by done. rewrite <- Eat.
  destruct (findname_ok (at_ino s SFS_ROOTDIR_INO) name (-1) Hdir Hn) as (r & t & Er & Hq & Hdk & Hfound & _).
  assert (Hmk : map_kept (vol s) t) by exact (keeps_run _ _ _ _ (keeps_findname name (-1)) Er). rewrite Er. clear Er.
  destruct (dir_quiet _ t Hdir Hq Hdk) as (_ & Hdt & _). pose proof Hq as (Ed & Efm & Enb & Esv & _).
  exists r, (put_vn d x t s). split; [done|]. split; [|split].
  - split_and!; try done; [|split_and!; try done; apply (fo_vol _ (do_file _ Hdt))].
    cbn. rewrite Esv, Eat, with_sv_sv. apply insert_id. rewrite Hd. f_equal. by destruct x.
  - unfold names. destruct (fr_found r) as [[i k]|]; cbn.
    + apply dir_map_lookup; [done|]. exists k. apply Hfound.
    + apply dir_map_None; [done|]. intros k i Hki. apply (Hfound k i); [apply Hki|done].
  - intros i k E. rewrite E in Hfound. apply Hfound.
Qed.

(** Setting the link count of a file that is in memory. *)
Lemma relink I s g x n : fs_ok I s -> vheap s !! g = Some x -> 0 <= n < 2 ^ 16 ->
  let i := sv_ino (vn_sv x) in
  let s' := set_vheap (<[g := dirty_link n x]> (vheap s)) s in
  fs_ok I s' /\ inode_of s' i = set_linkcount n (vn_sv x) /\ (forall j, j ∈ I -> j <> i -> unchanged s s' j) /\
  same_file (at_ino s i) (at_ino s' i).
Proof.
  intros Hok Hg Hn i s'. destruct (fs_vn I s g x Hok Hg) as (_ & _ & _ & _ & [] & _). pose proof Hok as [Hb Ht _].
  assert (Eu : u16 n = n) by (by apply wrapu_small).
  destruct (fs_frame I s g x (dirty_link n x) (vol s) Hok Hg) as (Hok' & Vi & Hun & Hsf); try done.
  - by apply (to_vn _ _ Ht g x).
  - by apply (to_vn _ _ Ht g x).
  - split; cbn; rewrite ?Eu; done.
  - apply Hb.
  - intros b Hbo. by eapply owned_bit.
  - assert (Es : set_vol (vol s) s = s) by (by destruct s). rewrite Es in *. fold i s' in Hok', Vi, Hun, Hsf.
    split_and!; try done. rewrite Vi. cbn. by rewrite Eu.
Qed.

(** The links of a file that has a name. *)
Lemma named_links I s n i : tree_ok I s -> names s !! n = Some i ->
  0 < sfi_linkcount (inode_of s i) <= MAXSLOTS /\ sfi_type (inode_of s i) = SFS_TYPE_FILE.
Proof.
  intros Ht Hn. destruct (tr_names _ _ Ht n i Hn) as [Hi Hne]. rewrite (tr_links _ _ Ht i Hi Hne). split; [|by apply (tr_type _ _ Ht)].
  pose proof (nlinks_bound (names s) i). pose proof (dir_map_size _ (tr_dir _ _ Ht)). unfold names in *.
  rewrite (nlinks_delete _ n i i Hn) in *. rewrite decide_True in * by done. lia.
Qed.

(** What [sfs_lookonce] leaves when it has found inode [i]: one more reference to its
    vnode [g]. *)
Record referenced (I : gset Z) (s s' : fs) (i g : Z) (x : vn) : Prop := {
  rf_tree : same_tree I s s';
  rf_heap : vheap s' = <[g := x]> (vheap s);
  rf_sv : vn_sv x = inode_of s i;
  rf_count : match loaded s i with
             | Some y => vheap s !! g = Some y /\ vn_refcount x = vn_refcount y + 1
             | None => vheap s !! g = None /\ vn_refcount x = 1
             end;
  rf_vol : vquiet (vol s) (vol s')
}.

(** The reference is to another vnode than that of a file already in memory. *)
Lemma referenced_ne I s s' i g x d xd : fs_ok I s -> referenced I s s' i g x -> vheap s !! d = Some xd -> sv_ino (vn_sv xd) <> i ->
  g <> d /\ vheap s' !! d = Some xd.
Proof.
  intros Hok [_ Hh _ Hc _] Hd Hne. assert (g <> d) as Hgd.
  { intros ->. destruct (loaded s i) as [y|] eqn:E; [|destruct Hc; congruence].
    apply loaded_iff in E as (u & _ & Ey); [|eapply tab_indexed; apply Hok]. destruct Hc as [Hy _]. congruence. }
  split; [done|]. by rewrite Hh, lookup_insert_ne.
Qed.

Lemma load_referenced I s s0 i : fs_ok I s -> tree_ok I s -> refs_ok s -> fquiet s s0 -> i ∈ I ->
  (exists g x s', sfs_loadvnode i SFS_TYPE_INVAL s0 = Done g s' /\ referenced I s s' i g x) \/
  (exists s', sfs_loadvnode i SFS_TYPE_INVAL s0 = Fail ENOMEM s' /\ same_tree I s s' /\ vheap s' = vheap s).
Proof.
  intros Hok Ht Hrc Hq Hi. pose proof (fquiet_tree I s s0 Hok Ht Hq) as Hst. destruct (fquiet_ok I s s0 Hok Hq) as (Hok0 & Ei0 & _).
  pose proof (fquiet_loaded s s0 i Hq) as El. destruct Hq as (Eh & _ & _ & Hvq).
  destruct (loadvnode_ok I s0 i Hok0 Hi) as [(g & s' & E & Hok' & Hla & Hun)|(s' & E & Hok' & Hq' & Hun)].
  - rewrite El. intros y Hy. apply loaded_iff in Hy as (u & Hu & _); [|eapply tab_indexed; apply Hok]. by eapply Hrc.
  - left. destruct Hla as [(x & Hh & Hsv & Hc) Hvq']. exists g, x, s'. split; [done|].
    rewrite El, Eh, Ei0 in * by done. split; try done.
    + eapply same_tree_trans; [exact Hst|]. apply same_tree_intro; [apply Hst|done|done].
    + by eapply vquiet_trans.
  - right. exists s'. split; [done|]. split; [|destruct Hq' as (-> & _); done].
    eapply same_tree_trans; [exact Hst|]. apply same_tree_intro; [apply Hst|done|done].
Qed.

(** [sfs_lookonce] finds what the map says. *)
Lemma lookonce_ok I s d name : fs_ok I s -> tree_ok I s -> is_root s d -> refs_ok s -> Forall (fun c => c <> 0) name ->
  match names s !! name with
  | None => exists s', sfs_lookonce d name s = Fail ENOENT s' /\ same_tree I s s' /\ vheap s' = vheap s
  | Some i =>
      (exists g k s' x, sfs_lookonce d name s = Done (g, k) s' /\ referenced I s s' i g x /\ used (at_ino s SFS_ROOTDIR_INO) k name i) \/
      (exists s', sfs_lookonce d name s = Fail ENOMEM s' /\ same_tree I s s' /\ vheap s' = vheap s)
  end.
Proof.
  intros Hok Ht (xd & Hd & Ed) Hrc Hn. unfold sfs_lookonce. kunfold.
  destruct (root_findname I s d xd name Hok Ht Hd Ed Hn) as (r & s1 & -> & Hq & Em & Hus).
  rewrite Em. destruct (fr_found r) as [[i k]|]; cbn [fst fmap option_fmap option_map].
  2:{ exists s1. split; [done|]. split; [by apply fquiet_tree|]. apply Hq. }
  cbn in Em. destruct (tr_names _ _ Ht name i Em) as [Hi Hne].
  destruct (load_referenced I s s1 i Hok Ht Hrc Hq Hi) as [(g & x & s' & -> & Hrf)|(s' & -> & ? & ?)]; [left|right; by exists s'].
  unfold vn_get. rewrite (rf_heap _ _ _ _ _ _ Hrf), lookup_insert_eq, (rf_sv _ _ _ _ _ _ Hrf).
  destruct (named_links I s name i Ht Em) as [Hl _]. destruct (Z.eqb_spec (sfi_linkcount (inode_of s i)) 0); [lia|].
  exists g, k, s', x. split; [done|]. split; [done|]. by apply Hus.
Qed.

(** *** Changing the root directory *)

(** The root directory has changed; the other files and vnodes have not. *)
Record dir_step (I : gset Z) (s s' : fs) (d : Z) : Prop := {
  ds_fs : fs_ok I s';
  ds_dir : dir_ok (at_ino s' SFS_ROOTDIR_INO);
  ds_files : forall j, j ∈ I -> j <> SFS_ROOTDIR_INO -> unchanged s s' j;
  ds_heap : forall u, u <> d -> vheap s' !! u = vheap s !! u;
  ds_root : is_root s' d
}.

Lemma dir_step_intro I s d x t : fs_ok I s -> vheap s !! d = Some x -> sv_ino (vn_sv x) = SFS_ROOTDIR_INO ->
  evolves (at_ino s SFS_ROOTDIR_INO) t -> dir_ok t -> map_kept (vol s) t -> dir_step I s (put_vn d x t s) d /\ at_ino (put_vn d x t s) SFS_ROOTDIR_INO = t.
Proof.
  intros Hok Hd Ex Hev Hdt Hmk. destruct (root_op I s d x t Hok Hd Ex Hev Hdt Hmk) as (Hok' & Eat & Hun). split; [|done].
  split; try done; [by rewrite Eat| |].
  - intros u Hu. cbn. by rewrite lookup_insert_ne.
  - exists (set_vn_sv (sv t) x). split; [apply lookup_insert_eq|]. change (sv_ino (vn_sv (set_vn_sv (sv t) x))) with (sv_ino (sv t)).
    destruct (ev_meta _ _ Hev) as (_ & -> & _). destruct (fs_vn I s d x Hok Hd) as (_ & _ & Eat' & _). rewrite Ex in Eat'. by rewrite Eat'.
Qed.

(** Which error [sfs_dir_link] may give. *)
Definition link_error (m : gmap (list Z) Z) (name : list Z) (e : Z) : Prop :=
  match m !! name with
  | Some _ => e = EEXIST
  | None => if (60 <=? length name)%nat then e = ENAMETOOLONG else e = ENOSPC \/ e = EFBIG
  end.

Lemma root_link I s d name ino : fs_ok I s -> dir_ok (at_ino s SFS_ROOTDIR_INO) -> is_root s d ->
  Forall (fun c => c <> 0) name -> 0 < ino < 2 ^ 32 ->
  (exists k s', on_vn d (sfs_dir_link name ino) s = Done k s' /\ dir_step I s s' d /\ names s !! name = None /\ (length name < 60)%nat /\
     names s' = <[name := ino]> (names s) /\
     (forall k' nm y, used (at_ino s SFS_ROOTDIR_INO) k' nm y -> used (at_ino s' SFS_ROOTDIR_INO) k' nm y)) \/
  (exists e s', on_vn d (sfs_dir_link name ino) s = Fail e s' /\ dir_step I s s' d /\ names s' = names s /\ link_error (names s) name e).
Proof.
  intros Hok Hdir (x & Hd & Ex) Hn Hino. destruct (fs_vn I s d x Hok Hd) as (_ & _ & Eat & _). rewrite Ex in Eat.
  rewrite (on_vn_run s d x) by done. rewrite <- Eat. unfold link_error, names.
  assert (Hquiet : forall t, quiet (at_ino s SFS_ROOTDIR_INO) t -> disk_ok t -> map_kept (vol s) t -> dir_step I s (put_vn d x t s) d /\
            dir_map (at_ino (put_vn d x t s) SFS_ROOTDIR_INO) = dir_map (at_ino s SFS_ROOTDIR_INO)).
  { intros t Hq Hdk Hmk. destruct (dir_quiet _ t Hdir Hq Hdk) as (Hg & Hdt & Em & _).
    destruct (dir_step_intro I s d x t Hok Hd Ex) as [? ->]; [apply grows_evolves; [apply (do_file _ Hdir)|done]|done|done|done]. }
  pose proof (dir_link_ok (at_ino s SFS_ROOTDIR_INO) name ino Hdir Hn Hino) as HL.
  generalize (keeps_dir_link name ino (at_ino s SFS_ROOTDIR_INO)).
  destruct (dir_map (at_ino s SFS_ROOTDIR_INO) !! name) as [j|] eqn:Em.
  { destruct HL as (t & -> & Hq & Hdk). intros Hmk. right. exists EEXIST. eexists. split; [done|]. destruct (Hquiet t Hq Hdk Hmk) as [? ?]. done. }
  destruct (Nat.leb_spec 60 (length name)).
  { destruct HL as (t & -> & Hq & Hdk). intros Hmk. right. exists ENAMETOOLONG. eexists. split; [done|]. destruct (Hquiet t Hq Hdk Hmk) as [? ?]. done. }
  destruct HL as [(k & t & -> & Hdt & Hev & Em' & _ & Hmono)|(e & t & -> & He & Hdt & Hev & Em')];
    intros Hmk; destruct (dir_step_intro I s d x t Hok Hd Ex Hev Hdt Hmk) as [Hds Eat']; [left|right].
  - exists k. eexists. split; [done|]. rewrite Eat'. done.
  - exists e. eexists. split; [done|]. by rewrite Eat'.
Qed.

Lemma root_unlink I s d k name ino : fs_ok I s -> dir_ok (at_ino s SFS_ROOTDIR_INO) -> is_root s d -> used (at_ino s SFS_ROOTDIR_INO) k name ino ->
  exists s', on_vn d (sfs_dir_unlink k) s = Done tt s' /\ dir_step I s s' d /\ names s' = delete name (names s).
Proof.
  intros Hok Hdir (x & Hd & Ex) Hu. destruct (fs_vn I s d x Hok Hd) as (_ & _ & Eat & _). rewrite Ex in Eat.
  rewrite (on_vn_run s d x) by done. rewrite <- Eat.
  destruct (dir_unlink_ok (at_ino s SFS_ROOTDIR_INO) k name ino Hdir Hu) as (t & Er & Hdt & Hev & Em).
  destruct (dir_step_intro I s d x t Hok Hd Ex Hev Hdt (keeps_run _ _ _ _ (keeps_dir_unlink k) Er)) as [Hds Eat']. rewrite Er. eexists. split; [done|]. split; [done|]. unfold names. by rewrite Eat'.
Qed.

(** *** The tree after a change *)

(** The names have not changed, nor has any file but the root directory. *)
Record same_names (I : gset Z) (s s' : fs) : Prop := {
  sn_fs : fs_ok I s';
  sn_tree : tree_ok I s';
  sn_files : forall j, j ∈ I -> j <> SFS_ROOTDIR_INO -> unchanged s s' j;
  sn_names : names s' = names s
}.

Lemma same_names_intro I s s' : tree_ok I s -> fs_ok I s' -> dir_ok (at_ino s' SFS_ROOTDIR_INO) ->
  (forall j, j ∈ I -> j <> SFS_ROOTDIR_INO -> unchanged s s' j) -> names s' = names s -> same_names I s s'.
Proof.
  intros [Tr Td Tn Tt Tl] Hok Hd Hun En. split; try done. split; rewrite ?En; try done.
  - intros i Hi Hne. destruct (Hun i Hi Hne) as ((_ & -> & _) & _). by apply Tt.
  - intros i Hi Hne. destruct (Hun i Hi Hne) as ((_ & _ & ->) & _). by apply Tl.
Qed.

Lemma root_unchanged I s s' : fs_ok I s' -> SFS_ROOTDIR_INO ∈ I -> dir_ok (at_ino s SFS_ROOTDIR_INO) -> unchanged s s' SFS_ROOTDIR_INO ->
  dir_ok (at_ino s' SFS_ROOTDIR_INO) /\ names s' = names s /\
  (forall k n x, used (at_ino s' SFS_ROOTDIR_INO) k n x <-> used (at_ino s SFS_ROOTDIR_INO) k n x).
Proof. intros Hok Hr Hd Hun. by apply (dir_unchanged s s'); [|eapply at_root_ok|]. Qed.

(** The root's vnode stays where it is. *)
Lemma is_root_heap s s' d g : g <> d -> is_root s d -> (forall u, u <> g -> vheap s' !! u = vheap s !! u) -> is_root s' d.
Proof. intros Hne (x & Hd & Ex) Hh. exists x. by rewrite Hh. Qed.

Lemma in_new I b j : j ∈ I -> j ∈ ({[b]} ∪ I : gset Z).
Proof. apply elem_of_union_r. Qed.

Lemma new_gone (I : gset Z) b : b ∉ I -> ({[b]} ∪ I) ∖ {[b]} = I.
Proof. set_solver. Qed.

(** A new file without names. *)
Lemma tree_add I s s' b : tree_ok I s -> fs_ok ({[b]} ∪ I) s' -> b ∉ I -> (forall j, j ∈ I -> unchanged s s' j) ->
  sfi_type (inode_of s' b) = SFS_TYPE_FILE -> sfi_linkcount (inode_of s' b) = 0 ->
  tree_ok ({[b]} ∪ I) s' /\ names s' = names s.
Proof.
  intros [Tr Td Tn Tt Tl] Hok Hb Hun Eb Lb.
  destruct (root_unchanged ({[b]} ∪ I) s s' Hok) as (Hd' & En & _); [set_solver|done|by apply Hun|]. split; [|done].
  assert (Hz : nlinks (names s) b = 0%nat) by (apply nlinks_zero; intros n Hn; by destruct (Tn n b Hn)).
  split; rewrite ?En; [set_solver|done| | |].
  - intros n i Hn. destruct (Tn n i Hn). set_solver.
  - intros i [->%elem_of_singleton|Hi]%elem_of_union Hne; [done|]. destruct (Hun i Hi) as ((_ & -> & _) & _). by apply Tt.
  - intros i [->%elem_of_singleton|Hi]%elem_of_union Hne; [by rewrite Lb, Hz|]. destruct (Hun i Hi) as ((_ & _ & ->) & _). by apply Tl.
Qed.

(** A name is entered for file [i], whose link count grows by one. *)
Lemma tree_link I s s' name i : tree_ok I s -> fs_ok I s' -> dir_ok (at_ino s' SFS_ROOTDIR_INO) -> names s !! name = None ->
  names s' = <[name := i]> (names s) -> i ∈ I -> i <> SFS_ROOTDIR_INO -> sfi_type (inode_of s' i) = sfi_type (inode_of s i) ->
  sfi_linkcount (inode_of s' i) = sfi_linkcount (inode_of s i) + 1 ->
  (forall j, j ∈ I -> j <> SFS_ROOTDIR_INO -> j <> i -> unchanged s s' j) -> tree_ok I s'.
Proof.
  intros [Tr Td Tn Tt Tl] Hok Hd Hno En Hi Hne Et El Hun. split; try done.
  - rewrite En. intros n j [[_ <-]|[_ Hn]]%lookup_insert_Some; [done|by eapply Tn].
  - intros j Hj Hjr. destruct (decide (j = i)) as [->|Hji]; [rewrite Et; by apply Tt|].
    destruct (Hun j Hj Hjr Hji) as ((_ & -> & _) & _). by apply Tt.
  - intros j Hj Hjr. rewrite En, nlinks_insert by done. destruct (decide (j = i)) as [->|Hji].
    + rewrite decide_True, El, Tl by done. lia.
    + rewrite decide_False by done. destruct (Hun j Hj Hjr Hji) as ((_ & _ & ->) & _). by rewrite Tl.
Qed.

(** A name of file [i] is removed and its link count lowered; or the file is gone. *)
Lemma tree_unlink I I' s s' name i : tree_ok I s -> fs_ok I' s' -> dir_ok (at_ino s' SFS_ROOTDIR_INO) -> names s !! name = Some i ->
  names s' = delete name (names s) -> (forall j, j ∈ I' -> j ∈ I) -> (forall j, j ∈ I -> j <> i -> j ∈ I') ->
  (i ∈ I' -> sfi_type (inode_of s' i) = sfi_type (inode_of s i) /\ sfi_linkcount (inode_of s' i) = sfi_linkcount (inode_of s i) - 1) ->
  (i ∉ I' -> sfi_linkcount (inode_of s i) = 1) ->
  (forall j, j ∈ I -> j <> SFS_ROOTDIR_INO -> j <> i -> unchanged s s' j) -> tree_ok I' s'.
Proof.
  intros Ht Hok Hd Hn En HI HI' Hin Hout Hun. destruct (tr_names _ _ Ht name i Hn) as [Hi Hne]. destruct Ht as [Tr Td Tn Tt Tl].
  pose proof (nlinks_delete (names s) name i i Hn) as Hc. rewrite decide_True in Hc by done.
  split; try done.
  - apply HI'; [done|congruence].
  - rewrite En. intros n j [Hnn Hj]%lookup_delete_Some. destruct (Tn n j Hj) as [HjI Hjr]. split; [|done].
    destruct (decide (j = i)) as [->|Hji]; [|by apply HI']. destruct (decide (i ∈ I')) as [|Hno]; [done|exfalso].
    specialize (Hout Hno). rewrite Tl, Hc in Hout by done.
    assert (Hz : nlinks (delete name (names s)) i = 0%nat) by lia.
    rewrite (nlinks_delete (delete name (names s)) n i i), decide_True in Hz by (done || by rewrite lookup_delete_ne). lia.
  - intros j Hj Hjr. destruct (decide (j = i)) as [->|Hji]; [rewrite (proj1 (Hin Hj)); by apply Tt|].
    destruct (Hun j (HI j Hj) Hjr Hji) as ((_ & -> & _) & _). by apply Tt; [apply HI|].
  - intros j Hj Hjr. rewrite En. destruct (decide (j = i)) as [->|Hji].
    + rewrite (proj2 (Hin Hj)), Tl, Hc by done. lia.
    + destruct (Hun j (HI j Hj) Hjr Hji) as ((_ & _ & ->) & _). rewrite Tl by (done || by apply HI).
      rewrite (nlinks_delete (names s) name i j Hn). by rewrite decide_False.
Qed.

(** *** Theorems *)

(** Looking a name up, on a disk without errors. [sfs_lookup] on the root directory answers what the map of names
    says: [ENOENT] for a name that is not there, and otherwise a new reference to the
    vnode of the file, loaded from the disk if it was not in memory (or [ENOMEM]); no
    file, name or link count changes, and the invariants hold. *)
Theorem sfs_lookup_spec (I : gset Z) (s : fs) (d : Z) (name : list Z) (Hok : fs_ok I s) (Ht : tree_ok I s)
    (Hd : is_root s d) (Hrc : refs_ok s) (Hn : Forall (fun c => c <> 0) name) :
  match names s !! name with
  | None => exists s', sfs_lookup d name s = Fail ENOENT s' /\ same_tree I s s' /\ vheap s' = vheap s
  | Some i =>
      (exists g x s', sfs_lookup d name s = Done g s' /\ referenced I s s' i g x) \/
      (exists s', sfs_lookup d name s = Fail ENOMEM s' /\ same_tree I s s' /\ vheap s' = vheap s)
  end.
Proof.
  pose proof Hd as (xd & Hxd & Exd). destruct (fs_vn I s d xd Hok Hxd) as (_ & Ei & Eat & _). rewrite Exd in *.
  pose proof (do_type _ (tr_dir _ _ Ht)) as Hty. rewrite Eat in Hty. cbn in Hty.
  unfold sfs_lookup, vn_get. kunfold. rewrite Hxd, Hty. change (negb (SFS_TYPE_DIR =? SFS_TYPE_DIR)) with false.
  pose proof (lookonce_ok I s d name Hok Ht Hd Hrc Hn) as HL. destruct (names s !! name) as [i|].
  - destruct HL as [(g & k & s' & x & -> & Hrf & _)|(s' & -> & ? & ?)]; [left; by exists g, x, s'|right; by exists s'].
  - destruct HL as (s' & -> & ? & ?). by exists s'.
Qed.

(** The state after a file [b] has been created under [name], with vnode [v]. *)
Record created (I : gset Z) (s s' : fs) (name : list Z) (v b : Z) : Prop := {
  cr_new : b ∉ I;
  cr_fs : fs_ok ({[b]} ∪ I) s';
  cr_tree : tree_ok ({[b]} ∪ I) s';
  cr_names : names s' = <[name := b]> (names s);
  cr_files : forall j, j ∈ I -> j <> SFS_ROOTDIR_INO -> unchanged s s' j;
  cr_vnode : exists x, vheap s' !! v = Some x /\ vn_refcount x = 1 /\ sv_ino (vn_sv x) = b /\ sfi_size (vn_sv x) = 0 /\ sfi_linkcount (vn_sv x) = 1
}.

(** The second half of [sfs_creat], after [sfs_makeobj]. *)
Lemma creat_link I s s2 d name v b x : fs_ok I s -> tree_ok I s -> b ∉ I -> 0 < b < 2 ^ 32 -> fs_ok ({[b]} ∪ I) s2 -> (forall j, j ∈ I -> unchanged s s2 j) ->
  vheap s2 !! v = Some x -> vn_sv x = new_inode b SFS_TYPE_FILE -> vn_refcount x = 1 -> v <> d -> is_root s2 d -> Forall (fun c => c <> 0) name ->
  let m := r <- attempt (on_vn d (sfs_dir_link name b)) ;;
           match r with
           | inl e => vnode_decref v ;;; kfail e
           | inr _ => vn_update v (fun x => dirty_link (sfi_linkcount (vn_sv x) + 1) x) ;;; kret v
           end in
  (exists s', m s2 = Done v s' /\ created I s s' name v b /\ names s !! name = None /\ (length name < 60)%nat) \/
  (exists e s', m s2 = Fail e s' /\ same_names I s s' /\ link_error (names s) name e).
Proof.
  intros Hok Ht Hb Hbr Hok2 Hun2 Hv Ex Hr Hvd Hroot Hn m.
  destruct (fs_vn _ s2 v x Hok2 Hv) as (_ & Ei2 & _). rewrite Ex in Ei2. cbn [new_inode sv_ino] in Ei2.
  assert (Hbroot : b <> SFS_ROOTDIR_INO) by (intros ->; by apply Hb, (tr_root _ _ Ht)).
  destruct (tree_add I s s2 b Ht Hok2 Hb Hun2) as [Ht2 En2]; [by rewrite Ei2|by rewrite Ei2|].
  unfold m. kunfold.
  destruct (root_link ({[b]} ∪ I) s2 d name b Hok2 (tr_dir _ _ Ht2) Hroot Hn Hbr)
    as [(k & s3 & -> & [Hok3 Hd3 Hun3 Hh3 Hr3] & Hno & Hlen & En3 & Hus)|(e & s3 & -> & [Hok3 Hd3 Hun3 Hh3 Hr3] & En3 & He)]; rewrite En2 in *; [left|right].
  - assert (Hv3 : vheap s3 !! v = Some x) by (by rewrite Hh3).
    unfold vn_update, vn_get. kunfold. rewrite Hv3, Ex. cbn [new_inode sfi_linkcount]. eexists. split; [done|]. split; [|done].
    destruct (relink _ s3 v x 1 Hok3 Hv3 ltac:(lia)) as (Hok4 & Ei4 & Hun4 & _). rewrite Ex in Ei4, Hun4. cbn [new_inode sv_ino] in Ei4, Hun4. change (0 + 1) with 1. set (s4 := set_vheap _ s3) in *.
    destruct (root_unchanged _ s3 s4 Hok4) as (Hd4 & En4 & _); [apply Ht2|done|apply Hun4; [apply Ht2|done]|].
    assert (Hun : forall j, j ∈ I -> j <> SFS_ROOTDIR_INO -> unchanged s2 s4 j).
    { intros j Hj Hjr. eapply unchanged_trans; [apply Hun3; [by apply in_new|done]|]. apply Hun4; [by apply in_new|congruence]. }
    split; try done.
    + apply (tree_link _ s2 s4 name b Ht2); try done.
      * by rewrite En2.
      * rewrite En4, En3. by rewrite En2.
      * apply elem_of_union_l, elem_of_singleton. done.
      * by rewrite Ei4, Ei2.
      * by rewrite Ei4, Ei2.
      * intros j [->%elem_of_singleton|Hj]%elem_of_union Hjr Hjb; [done|by apply Hun].
    + by rewrite En4.
    + intros j Hj Hjr. eapply unchanged_trans; [by apply Hun2|by apply Hun].
    + exists (dirty_link 1 x). split; [apply lookup_insert_eq|]. split; [done|]. cbn. by rewrite Ex.
  - assert (Hv3 : vheap s3 !! v = Some x) by (by rewrite Hh3).
    destruct (decref_ok _ s3 v x Hok3 Hv3) as (I' & s4 & -> & Hdrop). exists e, s4. split; [done|]. split; [|done].
    inversion Hdrop as [s5 Hc|s5 Hc Hl|s5 Hc Hl Hok4 Hun4 Hh4 _]; subst s5; [lia|rewrite Ex in Hl; done|]. subst I'.
    rewrite Ex in Hok4, Hun4. cbn [new_inode sv_ino] in Hok4, Hun4.
    rewrite (new_gone I b Hb) in Hok4.
    destruct (root_unchanged _ s3 s4 Hok4 (tr_root _ _ Ht) Hd3) as (Hd4 & En4 & _); [apply Hun4; [apply Ht2|done]|].
    apply same_names_intro; try done; [|by rewrite En4].
    intros j Hj Hjr. eapply unchanged_trans; [by apply Hun2|]. eapply unchanged_trans; [apply Hun3; [by apply in_new|done]|]. apply Hun4; [by apply in_new|]. congruence.
Qed.

(** Creating a file, on a disk without errors; SfsErrors.v is about every disk. *)
Lemma sfs_creat_ok (I : gset Z) (s : fs) (d : Z) (name : list Z) (excl : bool) (mode : Z) (Hok : fs_ok I s) (Ht : tree_ok I s)
    (Hd : is_root s d) (Hrc : refs_ok s) (Hn : Forall (fun c => c <> 0) name) :
  match names s !! name with
  | Some i =>
      if excl then exists s', sfs_creat d name excl mode s = Fail EEXIST s' /\ same_tree I s s'
      else (exists g x s', sfs_creat d name excl mode s = Done g s' /\ referenced I s s' i g x) \/
           (exists s', sfs_creat d name excl mode s = Fail ENOMEM s' /\ same_tree I s s')
  | None =>
      (exists v b s', sfs_creat d name excl mode s = Done v s' /\ created I s s' name v b /\ (length name < 60)%nat) \/
      (exists e s', sfs_creat d name excl mode s = Fail e s' /\ same_names I s s' /\
         (e = ENOMEM \/ e = ENOSPC \/ e = EFBIG \/ (e = ENAMETOOLONG /\ (60 <= length name)%nat)))
  end.
Proof.
  pose proof Hd as (xd & Hxd & Exd). unfold sfs_creat. kunfold.
  destruct (root_findname I s d xd name Hok Ht Hxd Exd Hn) as (r & s1 & -> & Hq & Em & _). rewrite Em.
  pose proof (fquiet_tree I s s1 Hok Ht Hq) as Hst.
  destruct (fr_found r) as [[i k]|]; cbn [fst fmap option_fmap option_map].
  - cbn in Em. destruct (tr_names _ _ Ht name i Em) as [Hi _]. destruct excl; [by exists s1|].
    destruct (load_referenced I s s1 i Hok Ht Hrc Hq Hi) as [?|(s' & ? & ? & _)]; [by left|right; by exists s'].
  - destruct (makeobj_ok I s1 SFS_TYPE_FILE (sm_fs _ _ _ Hst)) as [(v & b & s2 & -> & Hb & Hbr & Hok2 & Hun2 & Hnew & (waste & Hh2) & _)|(e & s2 & -> & He & Hok2 & Hun2 & _)]; [by left| |].
    + destruct (bo_vol _ _ _ (fs_blocks _ _ (sm_fs _ _ _ Hst))) as [(Hdb & _) _ [_ Hs2] _ _].
      assert (Hvd : v <> d) by (intros ->; destruct Hq as (Eh & _); congruence).
      assert (Hv2 : vheap s2 !! v = Some (mkV 1 (new_inode b SFS_TYPE_FILE) waste)) by (by rewrite Hh2, lookup_insert_eq).
      unfold vn_get. rewrite Hv2. cbn [vn_sv new_inode sv_ino].
      destruct (creat_link I s s2 d name v b (mkV 1 (new_inode b SFS_TYPE_FILE) waste) Hok Ht Hb ltac:(lia) Hok2)
        as [(s' & E & Hc & _ & Hl)|(e & s' & E & Hsn & He)]; try done.
      * intros j Hj. eapply unchanged_trans; [by apply Hst|by apply Hun2].
      * exists xd. rewrite Hh2, lookup_insert_ne by done. destruct Hq as (-> & _). done.
      * left. exists v, b, s'. kunfold. done.
      * right. exists e, s'. kunfold. split; [done|]. split; [done|]. unfold link_error in He. rewrite Em in He. cbn [fmap option_fmap option_map] in He.
        revert He. destruct (Nat.leb_spec 60 (length name)); [intros ->; right; right; by right|intros [-> | ->]; auto].
    + right. exists e, s2. split; [done|]. split; [|destruct He; auto].
      assert (Hst2 : same_tree I s s2) by (eapply same_tree_trans; [exact Hst|]; apply same_tree_intro; [apply Hst|done|done]).
      destruct Hst2 as [? Ht2 Hun ?]. apply same_names_intro; try done; [apply Ht2|]. intros j Hj _. by apply Hun.
Qed.

(** The state after [name], a name of file [i], has been removed; [I'] are the files that
    are left. *)
Record removed (I I' : gset Z) (s s' : fs) (name : list Z) (i : Z) : Prop := {
  rm_fs : fs_ok I' s';
  rm_tree : tree_ok I' s';
  rm_names : names s' = delete name (names s);
  rm_sub : forall j, j ∈ I' <-> (j ∈ I) /\ (j <> i \/ ~ (sfi_linkcount (inode_of s i) = 1 /\ loaded s i = None));
  rm_files : forall j, j ∈ I -> j <> SFS_ROOTDIR_INO -> j <> i -> unchanged s s' j;
  rm_kept : i ∈ I' -> same_file (at_ino s i) (at_ino s' i) /\ sfi_size (inode_of s' i) = sfi_size (inode_of s i) /\
    sfi_linkcount (inode_of s' i) = sfi_linkcount (inode_of s i) - 1;
  rm_gone : i ∉ I' -> forall b, b = i \/ has (at_ino s i) b -> bit (sfs_freemap (vol s')) b = false
}.

Lemma file_inode I s i : fs_ok I s -> i ∈ I -> inode_ok i (inode_of s i) /\ 0 < i < 2 ^ 32 /\ file_ok (at_ino s i).
Proof.
  intros [Hb _] Hi. destruct (bo_ino _ _ _ Hb i Hi) as (? & _ & ?). split; [done|]. split; [|by apply (bo_file _ _ _ Hb)].
  destruct (vo_size _ (bo_vol _ _ _ Hb)), (vo_disk _ (bo_vol _ _ _ Hb)) as (? & _). lia.
Qed.

(** Dropping the reference [sfs_lookonce] took to file [i], whose link count is now [n]. *)
Lemma drop_reference I s s1 s3 i g x n : fs_ok I s -> referenced I s s1 i g x -> i ∈ I -> fs_ok I s3 ->
  vheap s3 !! g = Some (dirty_link n x) -> 0 <= n < 2 ^ 16 ->
  exists I' s4, vnode_decref g s3 = Done tt s4 /\ fs_ok I' s4 /\
    (forall j, j ∈ I' <-> (j ∈ I) /\ (j <> i \/ ~ (n = 0 /\ loaded s i = None))) /\
    (forall j, j ∈ I -> j <> i \/ i ∈ I' -> unchanged s3 s4 j) /\
    (i ∉ I' -> forall b, 0 <= b -> b = i \/ has (at_ino s3 i) b -> bit (sfs_freemap (vol s4)) b = false).
Proof.
  intros Hok [_ _ Hsv Hc _] Hi Hok3 Hg Hn. destruct (file_inode I s i Hok Hi) as ([Eino _ _ _] & _).
  assert (Ei : sv_ino (vn_sv (dirty_link n x)) = i) by (cbn; by rewrite Hsv).
  assert (El : sfi_linkcount (vn_sv (dirty_link n x)) = n) by (cbn; by apply wrapu_small).
  assert (Hrc : vn_refcount x = 1 <-> loaded s i = None).
  { destruct (loaded s i) as [y|] eqn:E; [|tauto]. split; [|done]. destruct Hc as [Hy Hr].
    destruct (to_vn _ _ (fs_tab _ _ Hok) g y Hy) as (? & _). lia. }
  destruct (decref_ok I s3 g _ Hok3 Hg) as (I' & s4 & E & Hdr). exists I', s4. split; [done|].
  inversion Hdr as [s5 Hcnt Hok4 Hun4 _ _|s5 Hcnt Hl Hok4 Hun4 _ _|s5 Hcnt Hl Hok4 Hun4 _ Hbit]; subst s5; subst I'; rewrite ?Ei, ?El in *;
    change (vn_refcount (dirty_link n x)) with (vn_refcount x) in Hcnt.
  - split; [done|]. split_and!; [|by intros; apply Hun4|done]. intros j. split; [|by intros []]. intros Hj. split; [done|]. right.
    intros [_ Hnone]. apply Hrc in Hnone. lia.
  - split; [done|]. split_and!; [|by intros; apply Hun4|done]. intros j. split; [|by intros []]. intros Hj. split; [done|]. right. by intros [? _].
  - split; [done|]. split_and!.
    + intros j. rewrite elem_of_difference, elem_of_singleton. apply Hrc in Hcnt. naive_solver.
    + intros j Hj [Hne|Hin]; [by apply Hun4|]. apply elem_of_difference in Hin as [_ Hin]. by destruct Hin; apply elem_of_singleton.
    + intros _ b Hb0 Hb. destruct (bit (sfs_freemap (vol s4)) b) eqn:Eb; [|done]. apply Hbit in Eb as (_ & ? & ?); [|done]. naive_solver.
Qed.

(** Removing a name, on a disk without errors; SfsErrors.v is about every disk. *)
Lemma sfs_remove_ok (I : gset Z) (s : fs) (d : Z) (name : list Z) (Hok : fs_ok I s) (Ht : tree_ok I s)
    (Hd : is_root s d) (Hrc : refs_ok s) (Hn : Forall (fun c => c <> 0) name) :
  match names s !! name with
  | None => exists s', sfs_remove d name s = Fail ENOENT s' /\ same_tree I s s'
  | Some i =>
      (exists I' s', sfs_remove d name s = Done tt s' /\ removed I I' s s' name i) \/
      (exists s', sfs_remove d name s = Fail ENOMEM s' /\ same_tree I s s')
  end.
Proof.
  unfold sfs_remove. kunfold. pose proof (lookonce_ok I s d name Hok Ht Hd Hrc Hn) as HL.
  destruct (names s !! name) as [i|] eqn:Em; [|destruct HL as (s' & -> & ? & _); by exists s'].
  destruct HL as [(g & k & s1 & x & -> & Hrf & Hus)|(s' & -> & ? & _)]; [left|right; by exists s'].
  destruct (tr_names _ _ Ht name i Em) as [Hi Hir]. destruct (named_links I s name i Ht Em) as [HL _].
  destruct (file_inode I s i Hok Hi) as ([Eino _ _ _] & _). pose proof Hd as (xd & Hxd & Exd).
  destruct (referenced_ne I s s1 i g x d xd Hok Hrf Hxd) as [Hgd Hd1]; [by rewrite Exd|].
  pose proof (rf_tree _ _ _ _ _ _ Hrf) as [Hok1 Ht1 Hun1 En1]. pose proof (rf_sv _ _ _ _ _ _ Hrf) as Hsv.
  destruct (root_unchanged I s s1 Hok1 (tr_root _ _ Ht) (tr_dir _ _ Ht) (Hun1 _ (tr_root _ _ Ht))) as (Hdir1 & _ & Hus1).
  destruct (root_unlink I s1 d k name i Hok1 Hdir1) as (s2 & -> & [Hok2 Hdir2 Hun2 Hh2 _] & En2); [by exists xd|by apply Hus1|].
  assert (Hg2 : vheap s2 !! g = Some x) by (rewrite Hh2, (rf_heap _ _ _ _ _ _ Hrf), lookup_insert_eq by done; done).
  unfold vn_update, vn_get. kunfold. rewrite Hg2, Hsv, (proj2 (Z.ltb_lt _ _)) by lia. unfold kret. rewrite Hg2, Hsv. set (L := sfi_linkcount (inode_of s i)) in *.
  destruct (relink I s2 g x (L - 1) Hok2 Hg2) as (Hok3 & Ei3 & Hun3 & Hsf3); [unfold MAXSLOTS in *; lia|].
  rewrite Hsv, Eino in Ei3, Hun3, Hsf3. set (s3 := set_vheap _ s2) in *.
  destruct (drop_reference I s s1 s3 i g x (L - 1) Hok Hrf Hi Hok3) as (I' & s4 & -> & Hok4 & HI & Hun4 & Hgone); [apply lookup_insert_eq|unfold MAXSLOTS in *; lia|].
  assert (Hroot : SFS_ROOTDIR_INO ∈ I') by (apply HI; split; [apply (tr_root _ _ Ht)|left; congruence]).
  destruct (root_unchanged I s2 s3 Hok3 (tr_root _ _ Ht) Hdir2) as (Hdir3 & En3 & _); [apply Hun3; [apply (tr_root _ _ Ht)|congruence]|].
  destruct (root_unchanged I' s3 s4 Hok4 Hroot Hdir3) as (Hdir4 & En4 & _); [apply Hun4; [apply (tr_root _ _ Ht)|left; congruence]|].
  assert (Hun : forall j, j ∈ I -> j <> SFS_ROOTDIR_INO -> j <> i -> unchanged s s4 j).
  { intros j Hj Hjr Hji. eapply unchanged_trans; [by apply Hun1|]. eapply unchanged_trans; [by apply Hun2|].
    eapply unchanged_trans; [by apply Hun3|]. apply Hun4; [done|by left]. }
  assert (Hsf : same_file (at_ino s i) (at_ino s3 i)).
  { etransitivity; [apply (Hun1 i Hi)|]. etransitivity; [by apply (Hun2 i Hi)|exact Hsf3]. }
  assert (Hkept : i ∈ I' -> same_file (at_ino s i) (at_ino s4 i) /\ sfi_size (inode_of s4 i) = sfi_size (inode_of s i) /\
            sfi_linkcount (inode_of s4 i) = L - 1 /\ sfi_type (inode_of s4 i) = sfi_type (inode_of s i)).
  { intros Hin. destruct (Hun4 i Hi (or_intror Hin)) as ((_ & Et & El) & Es & Hs). rewrite Ei3 in Et, El, Es.
    split; [by etransitivity|]. done. }
  assert (Enames : names s4 = delete name (names s)) by congruence.
  exists I', s4. split; [done|]. split; try done.
  - apply (tree_unlink I I' s s4 name i Ht); try done.
    + intros j Hj. by apply HI.
    + intros j Hj Hji. apply HI. split; [done|by left].
    + intros Hin. destruct (Hkept Hin) as (_ & _ & ? & ?). done.
    + intros Hout. destruct (decide (L = 1)) as [|HL1]; [done|]. destruct Hout. apply HI. split; [done|]. right. intros [? _]. lia.
  - intros j. rewrite HI. assert (E : L - 1 = 0 <-> L = 1) by lia. by rewrite E.
  - intros Hin. destruct (Hkept Hin) as (? & ? & ? & _). done.
  - intros Hout b Hb. apply Hgone; [done| |].
    + destruct (file_inode I s i Hok Hi) as (_ & ? & Hf). destruct Hb as [->|Hb]; [lia|]. destruct (has_used _ b Hf Hb). lia.
    + destruct Hb as [|Hb]; [by left|right]. by apply (same_file_has _ _ b Hsf).
Qed.

(** The number of links stays far below what 16 bits hold. *)
Lemma links_small I s i : tree_ok I s -> i ∈ I -> i <> SFS_ROOTDIR_INO -> 0 <= sfi_linkcount (inode_of s i) <= MAXSLOTS.
Proof.
  intros Ht Hi Hne. rewrite (tr_links _ _ Ht i Hi Hne).
  pose proof (nlinks_bound (names s) i). pose proof (dir_map_size _ (tr_dir _ _ Ht)). unfold names in *. lia.
Qed.

Lemma dir_step_names I s s' d : tree_ok I s -> dir_step I s s' d -> names s' = names s -> same_names I s s'.
Proof. intros Ht [] En. by apply same_names_intro. Qed.

(** A hard link. [sfs_link] refuses directories ([EINVAL]); on a file that is in memory
    it enters the new name for the file's inode and raises the file's link count by one,
    and changes nothing else; a name that exists ([EEXIST]) or is too long
    ([ENAMETOOLONG]), a full volume or a full directory leave names and files as they
    were. The link count cannot overflow. *)
Theorem sfs_link_spec (I : gset Z) (s : fs) (d : Z) (name : list Z) (f : Z) (x : vn) (Hok : fs_ok I s) (Ht : tree_ok I s)
    (Hd : is_root s d) (Hf : vheap s !! f = Some x) (Hn : Forall (fun c => c <> 0) name) :
  let i := sv_ino (vn_sv x) in
  if decide (i = SFS_ROOTDIR_INO) then sfs_link d name f s = Fail EINVAL s
  else
    (exists s', sfs_link d name f s = Done tt s' /\ fs_ok I s' /\ tree_ok I s' /\ names s !! name = None /\ (length name < 60)%nat /\
       names s' = <[name := i]> (names s) /\ sfi_linkcount (inode_of s' i) = sfi_linkcount (inode_of s i) + 1 /\
       same_file (at_ino s i) (at_ino s' i) /\ (forall j, j ∈ I -> j <> SFS_ROOTDIR_INO -> j <> i -> unchanged s s' j)) \/
    (exists e s', sfs_link d name f s = Fail e s' /\ same_names I s s' /\ link_error (names s) name e).
Proof.
  intros i. destruct (fs_vn I s f x Hok Hf) as (Hi & Ei & Eat & _). fold i in Hi, Ei, Eat. unfold sfs_link. kunfold. rewrite (vn_get_some s f x Hf).
  case_decide as Hroot.
  { pose proof (do_type _ (tr_dir _ _ Ht)) as Hty. rewrite <- Hroot, Eat in Hty. cbn in Hty. by rewrite Hty. }
  pose proof (tr_type _ _ Ht i Hi Hroot) as Hty. rewrite Ei in Hty. rewrite Hty. change (SFS_TYPE_FILE =? SFS_TYPE_DIR) with false. cbn iota. fold i.
  destruct (file_inode I s i Hok Hi) as (_ & Hir & _). pose proof Hd as (xd & Hxd & Exd).
  assert (Hfd : f <> d) by (intros ->; apply Hroot; unfold i; congruence).
  destruct (root_link I s d name i Hok (tr_dir _ _ Ht) Hd Hn Hir)
    as [(k & s1 & -> & [Hok1 Hd1 Hun1 Hh1 _] & Hno & Hlen & En1 & _)|(e & s1 & -> & Hds & En1 & He)]; [left|right].
  2:{ exists e, s1. split; [done|]. split; [by eapply dir_step_names|done]. }
  assert (Hf1 : vheap s1 !! f = Some x) by (by rewrite Hh1). rewrite (vn_update_some s1 f x) by done.
  pose proof (links_small I s i Ht Hi Hroot) as Hl. rewrite Ei in Hl.
  destruct (relink I s1 f x (sfi_linkcount (vn_sv x) + 1) Hok1 Hf1) as (Hok2 & Ei2 & Hun2 & Hsf2); [unfold MAXSLOTS in *; lia|]. fold i in Ei2, Hun2, Hsf2.
  eexists. split; [done|]. set (s2 := set_vheap _ s1) in *.
  destruct (root_unchanged I s1 s2 Hok2 (tr_root _ _ Ht) Hd1) as (Hd2 & En2 & _); [apply Hun2; [apply (tr_root _ _ Ht)|congruence]|].
  assert (Hun : forall j, j ∈ I -> j <> SFS_ROOTDIR_INO -> j <> i -> unchanged s s2 j).
  { intros j Hj Hjr Hji. eapply unchanged_trans; [by apply Hun1|by apply Hun2]. }
  split_and!; try done.
  - apply (tree_link I s s2 name i Ht); try done; [congruence|by rewrite Ei2, Ei|by rewrite Ei2, Ei].
  - congruence.
  - by rewrite Ei2, Ei.
  - etransitivity; [by apply Hun1|exact Hsf2].
Qed.

(** Dropping a reference to a file that has links changes no file. *)
Lemma decref_linked I s v x : fs_ok I s -> vheap s !! v = Some x -> sfi_linkcount (vn_sv x) <> 0 ->
  exists s', vnode_decref v s = Done tt s' /\ fs_ok I s' /\ forall j, j ∈ I -> unchanged s s' j.
Proof.
  intros Hok Hv Hl. destruct (decref_ok I s v x Hok Hv) as (I' & s' & E & Hdr). exists s'. split; [done|].
  by inversion Hdr.
Qed.

(** The second half of [sfs_rename]: the file is linked under the new name and unlinked
    from the old one. *)
Lemma rename_move_ok I s s1 d g x k n1 n2 i : fs_ok I s -> tree_ok I s -> is_root s d -> referenced I s s1 i g x -> names s !! n1 = Some i ->
  used (at_ino s SFS_ROOTDIR_INO) k n1 i -> Forall (fun c => c <> 0) n2 ->
  (exists s', rename_move d n2 g k s1 = Done tt s' /\ fs_ok I s' /\ tree_ok I s' /\ names s !! n2 = None /\ (length n2 < 60)%nat /\
     names s' = <[n2 := i]> (delete n1 (names s)) /\ (forall j, j ∈ I -> j <> SFS_ROOTDIR_INO -> unchanged s s' j)) \/
  (exists e s', rename_move d n2 g k s1 = Fail e s' /\ same_names I s s' /\ link_error (names s) n2 e).
Proof.
  intros Hok Ht Hd Hrf Em Hus Hn. destruct (tr_names _ _ Ht n1 i Em) as [Hi Hir]. destruct (named_links I s n1 i Ht Em) as [HL Hty].
  destruct (file_inode I s i Hok Hi) as ([Eino _ _ _] & Hi32 & _). pose proof Hd as (xd & Hxd & Exd).
  destruct (referenced_ne I s s1 i g x d xd Hok Hrf Hxd) as [Hgd Hd1]; [by rewrite Exd|].
  pose proof (rf_tree _ _ _ _ _ _ Hrf) as [Hok1 Ht1 Hun1 En1]. pose proof (rf_sv _ _ _ _ _ _ Hrf) as Hsv.
  destruct (root_unchanged I s s1 Hok1 (tr_root _ _ Ht) (tr_dir _ _ Ht) (Hun1 _ (tr_root _ _ Ht))) as (Hdir1 & _ & Hus1).
  assert (Hg1 : vheap s1 !! g = Some x) by (by rewrite (rf_heap _ _ _ _ _ _ Hrf), lookup_insert_eq).
  set (L := sfi_linkcount (inode_of s i)) in *. assert (HLs : 0 <= L + 1 < 2 ^ 16 /\ 0 <= L < 2 ^ 16) by (unfold MAXSLOTS in *; lia).
  unfold rename_move. kunfold. rewrite (vn_get_some s1 g x), Hsv, Hty, Eino by done. change (SFS_TYPE_FILE =? SFS_TYPE_FILE) with true. unfold kret.
  destruct (root_link I s1 d n2 i Hok1 Hdir1 ltac:(by exists xd) Hn Hi32)
    as [(k2 & s2 & -> & [Hok2 Hdir2 Hun2 Hh2 Hr2] & Hno & Hlen & En2 & Hmono)|(e & s2 & -> & [Hok2 Hdir2 Hun2 Hh2 Hr2] & En2 & He)]; rewrite En1 in *; [left|right].
  - assert (Hg2 : vheap s2 !! g = Some x) by (by rewrite Hh2). rewrite (vn_update_some s2 g x), Hsv by done. fold L.
    destruct (relink I s2 g x (L + 1) Hok2 Hg2) as (Hok3 & Ei3 & Hun3 & Hsf3); [lia|]. rewrite Hsv, Eino in Ei3, Hun3, Hsf3. set (s3 := set_vheap _ s2) in *.
    destruct (root_unchanged I s2 s3 Hok3 (tr_root _ _ Ht) Hdir2) as (Hdir3 & En3 & Hus3); [apply Hun3; [apply (tr_root _ _ Ht)|congruence]|].
    destruct (root_unlink I s3 d k n1 i Hok3 Hdir3) as (s4 & -> & [Hok4 Hdir4 Hun4 Hh4 _] & En4).
    { apply (is_root_heap s2 s3 d g); [done|done|]. intros u Hu. cbn. by rewrite lookup_insert_ne. }
    { by apply Hus3, Hmono, Hus1. }
    assert (Hg4 : vheap s4 !! g = Some (dirty_link (L + 1) x)) by (rewrite Hh4 by done; apply lookup_insert_eq).
    assert (EL : sfi_linkcount (vn_sv (dirty_link (L + 1) x)) = L + 1) by (cbn; apply wrapu_small; lia).
    rewrite (vn_get_some s4 g _ Hg4), EL, (proj2 (Z.ltb_lt _ _)) by lia. rewrite (vn_update_some s4 g _ _ Hg4), EL, Z.add_simpl_r.
    destruct (relink I s4 g _ L Hok4 Hg4) as (Hok5 & Ei5 & Hun5 & Hsf5); [lia|].
    change (sv_ino (vn_sv (dirty_link (L + 1) x))) with (sv_ino (vn_sv x)) in Ei5, Hun5, Hsf5. rewrite Hsv, Eino in Ei5, Hun5, Hsf5. set (s5 := set_vheap _ s4) in *.
    destruct (root_unchanged I s4 s5 Hok5 (tr_root _ _ Ht) Hdir4) as (Hdir5 & En5 & _); [apply Hun5; [apply (tr_root _ _ Ht)|congruence]|].
    assert (Hg5 : vheap s5 !! g = Some (dirty_link L (dirty_link (L + 1) x))) by apply lookup_insert_eq.
    destruct (decref_linked I s5 g _ Hok5 Hg5) as (s6 & -> & Hok6 & Hun6).
    { cbn. rewrite wrapu_small by lia. lia. }
    destruct (root_unchanged I s5 s6 Hok6 (tr_root _ _ Ht) Hdir5 (Hun6 _ (tr_root _ _ Ht))) as (Hdir6 & En6 & _).
    assert (Hun : forall j, j ∈ I -> j <> SFS_ROOTDIR_INO -> unchanged s s6 j).
    { intros j Hj Hjr. eapply unchanged_trans; [by apply Hun1|]. eapply unchanged_trans; [by apply Hun2|].
      eapply unchanged_trans; [|by apply Hun6]. destruct (decide (j = i)) as [->|Hji].
      - destruct (Hun1 i Hi) as ((H1a & H1b & H1c) & H1d & _), (Hun2 i Hi Hir) as ((H2a & H2b & H2c) & H2d & _).
        split; [|split].
        + rewrite Ei5. split_and!; cbn; rewrite ?Hsv, ?H2a, ?H2b, ?H2c; done.
        + rewrite Ei5. cbn. rewrite Hsv. by rewrite H2d, H1d.
        + etransitivity; [exact Hsf3|]. etransitivity; [by apply (Hun4 i Hi)|exact Hsf5].
      - eapply unchanged_trans; [by apply Hun3|]. eapply unchanged_trans; [by apply Hun4|by apply Hun5]. }
    assert (Hne : n1 <> n2) by (intros ->; congruence).
    assert (En : names s6 = <[n2 := i]> (delete n1 (names s))) by (rewrite En6, En5, En4, En3, En2; by apply delete_insert_ne).
    exists s6. split; [done|]. split_and!; try done. destruct Ht as [Tr Td Tn Tt Tl]. split; try done.
    + rewrite En. intros n j [[_ <-]|[_ [_ Hj]%lookup_delete_Some]]%lookup_insert_Some; [done|by eapply Tn].
    + intros j Hj Hjr. destruct (Hun j Hj Hjr) as ((_ & -> & _) & _). by apply Tt.
    + intros j Hj Hjr. destruct (Hun j Hj Hjr) as ((_ & _ & ->) & _). rewrite Tl by done.
      rewrite En, nlinks_insert, <- (nlinks_delete (names s) n1 i j Em); [done|]. by rewrite lookup_delete_ne.
  - assert (Hg2 : vheap s2 !! g = Some x) by (by rewrite Hh2).
    destruct (decref_linked I s2 g x Hok2 Hg2) as (s3 & -> & Hok3 & Hun3); [rewrite Hsv; fold L; lia|].
    exists e, s3. split; [done|]. split; [|done].
    destruct (root_unchanged I s2 s3 Hok3 (tr_root _ _ Ht) Hdir2 (Hun3 _ (tr_root _ _ Ht))) as (Hdir3 & En3 & _).
    apply same_names_intro; try done; [|congruence].
    intros j Hj Hjr. eapply unchanged_trans; [by apply Hun1|]. eapply unchanged_trans; [by apply Hun2|by apply Hun3].
Qed.

(** Renaming, on a disk without errors; SfsErrors.v is about every disk. *)
Lemma sfs_rename_ok (I : gset Z) (s : fs) (d : Z) (n1 n2 : list Z) (Hok : fs_ok I s) (Ht : tree_ok I s)
    (Hd : is_root s d) (Hrc : refs_ok s) (Hn1 : Forall (fun c => c <> 0) n1) (Hn2 : Forall (fun c => c <> 0) n2) :
  match names s !! n1 with
  | None => exists s', sfs_rename d n1 d n2 s = Fail ENOENT s' /\ same_tree I s s'
  | Some i =>
      (exists s', sfs_rename d n1 d n2 s = Done tt s' /\ fs_ok I s' /\ tree_ok I s' /\ names s !! n2 = None /\ (length n2 < 60)%nat /\
         names s' = <[n2 := i]> (delete n1 (names s)) /\ (forall j, j ∈ I -> j <> SFS_ROOTDIR_INO -> unchanged s s' j)) \/
      (exists e s', sfs_rename d n1 d n2 s = Fail e s' /\ same_names I s s' /\ (e = ENOMEM \/ link_error (names s) n2 e))
  end.
Proof.
  pose proof Hd as (xd & Hxd & Exd).
  assert (E : sfs_rename d n1 d n2 s = match sfs_lookonce d n1 s with
                                       | Done (g, k) s' => rename_move d n2 g k s'
                                       | Fail e s' => Fail e s'
                                       | Halt h => Halt h
                                       end).
  { unfold sfs_rename. kunfold. rewrite Z.eqb_refl. unfold kret. rewrite (vn_get_some s d xd Hxd), Exd. cbn.
    by destruct (sfs_lookonce d n1 s) as [[]| |]. }
  rewrite E. clear E.
  pose proof (lookonce_ok I s d n1 Hok Ht Hd Hrc Hn1) as HL. destruct (names s !! n1) as [i|] eqn:Em.
  2:{ destruct HL as (s' & -> & ? & _). by exists s'. }
  destruct HL as [(g & k & s1 & x & -> & Hrf & Hus)|(s' & -> & [? Hts Hun Hnm] & _)].
  2:{ right. exists ENOMEM, s'. split; [done|]. split; [|by left]. apply same_names_intro; try done; [apply Hts|]. intros j Hj _. by apply Hun. }
  destruct (rename_move_ok I s s1 d g x k n1 n2 i) as [Hl|(e & s' & E & Hsn & He)]; try done; [by left|].
  right. exists e, s'. split; [done|]. split; [done|by right].
Qed.

(** An operation on a file that is not a directory: the names stay. *)
Lemma file_step I s v x t : fs_ok I s -> tree_ok I s -> vheap s !! v = Some x ->
  let i := sv_ino (vn_sv x) in
  i <> SFS_ROOTDIR_INO -> evolves (at_ino s i) t -> 0 <= sfi_size (sv t) <= MAXSIZE -> map_kept (vol s) t ->
  let s' := put_vn v x t s in
  fs_ok I s' /\ tree_ok I s' /\ names s' = names s /\ at_ino s' i = t /\ (forall j, j ∈ I -> j <> i -> unchanged s s' j).
Proof.
  intros Hok Ht Hv i Hir Hev Hsz Hmk s'. destruct (fs_vn I s v x Hok Hv) as (Hi & Ei & Eat & Hf & Hix & _). fold i in Hi, Ei, Eat, Hf, Hix.
  destruct (ev_meta _ _ Hev) as (_ & E1 & E2 & E3). rewrite Eat in E1, E2, E3. cbn in E1, E2, E3.
  destruct (fs_local I s v x t Hok Hv) as (Hok' & Eat' & Hun).
  - by apply evolves_local.
  - destruct Hix. split; [congruence|congruence|done|congruence].
  - pose proof (ev_dirty _ _ Hev) as Hdir. fold i in Hdir. by rewrite Eat in Hdir.
  - done.
  - fold i s' in Hok', Eat', Hun.
    destruct (root_unchanged I s s' Hok' (tr_root _ _ Ht) (tr_dir _ _ Ht)) as (Hd' & En & _); [apply Hun; [apply (tr_root _ _ Ht)|congruence]|].
    assert (Ei' : inode_of s' i = sv t) by (change (sv (at_ino s' i) = sv t); by rewrite Eat').
    split_and!; try done. destruct Ht as [Tr Td Tn Tt Tl]. split; rewrite ?En; try done.
    + intros j Hj Hjr. destruct (decide (j = i)) as [->|Hji]; [rewrite Ei', E2, <- Ei; by apply Tt|].
      destruct (Hun j Hj Hji) as ((_ & -> & _) & _). by apply Tt.
    + intros j Hj Hjr. destruct (decide (j = i)) as [->|Hji]; [rewrite Ei', E3, <- Ei; by apply Tl|].
      destruct (Hun j Hj Hji) as ((_ & _ & ->) & _). by apply Tl.
Qed.

(** Writing through a vnode, on a disk without errors; SfsErrors.v is about every disk. *)
Lemma sfs_write_ok (I : gset Z) (s : fs) (v : Z) (x : vn) (Hok : fs_ok I s) (Ht : tree_ok I s) (Hv : vheap s !! v = Some x)
    (Hfile : sv_ino (vn_sv x) <> SFS_ROOTDIR_INO) (Hu : uio_ok (ui (vol s))) (Hrw : uio_rwf (ui (vol s)) = UIO_WRITE)
    (Hres : 0 < uio_resid (ui (vol s))) :
  let i := sv_ino (vn_sv x) in
  let off := uio_offset (ui (vol s)) in
  exists k s', 0 <= k <= uio_resid (ui (vol s)) /\
    (sfs_write v s = Done tt s' /\ k = uio_resid (ui (vol s)) \/
     (sfs_write v s = Fail ENOSPC s' \/ sfs_write v s = Fail EFBIG s') /\ k < uio_resid (ui (vol s))) /\
    fs_ok I s' /\ tree_ok I s' /\ names s' = names s /\ (forall j, j ∈ I -> j <> i -> unchanged s s' j) /\
    (forall pos, 0 <= pos < MAXSIZE -> file_byte (at_ino s' i) pos =
       if (off <=? pos) && (pos <? off + k) then uio_buf (ui (vol s)) !!! Z.to_nat (pos - off) else file_byte (at_ino s i) pos) /\
    sfi_size (inode_of s' i) = (if k =? 0 then sfi_size (inode_of s i) else Z.max (sfi_size (inode_of s i)) (off + k)).
Proof.
  intros i off. destruct (fs_vn I s v x Hok Hv) as (Hi & Ei & Eat & Hf & [_ _ Hsz _] & _). fold i in Hi, Ei, Eat, Hf, Hsz.
  destruct (io_write_ok (at_ino s i)) as (k & t & Hk & Hcase & _ & Hev & Hby & Esz & Hmax); rewrite ?Eat; try done.
  { by rewrite <- Eat. }
  assert (Hmk : map_kept (vol s) t).
  { pose proof (keeps_io (at_ino s i)) as Hk'. rewrite Eat in Hk', Hcase. by destruct Hcase as [[E ?]|[[E|E] ?]]; rewrite E in Hk'. }
  destruct (file_step I s v x t Hok Ht Hv Hfile) as (Hok' & Ht' & En & Eat' & Hun); [done| |done|].
  { rewrite Eat in Esz. cbn in Esz. split; [|done]. rewrite Esz. destruct (k =? 0); lia. }
  fold i in Eat', Hun.
  assert (Erun : sfs_write v s = match sfs_io (with_sv (vn_sv x) (vol s)) with
                                 | Done a t => Done a (put_vn v x t s)
                                 | Fail e t => Fail e (put_vn v x t s)
                                 | Halt h => Halt h
                                 end).
  { unfold sfs_write. kunfold. rewrite bool_decide_true by done. unfold kret. by rewrite (on_vn_run s v x). }
  assert (Ei' : inode_of (put_vn v x t s) i = sv t) by (change (sv (at_ino (put_vn v x t s) i) = sv t); by rewrite Eat').
  exists k, (put_vn v x t s). rewrite Erun, Eat', Ei', Ei. rewrite Eat in Hk, Esz. split; [done|]. split; [|split_and!; try done; rewrite <- Eat; exact Hby].
  rewrite Eat in Hcase. destruct Hcase as [[-> ?]|[[-> | ->] ?]]; [by left|right; split; [by left|done]|right; split; [by right|done]].
Qed.

(** Reading through a vnode, on a disk without errors; SfsErrors.v is about every disk. *)
Lemma sfs_read_ok (I : gset Z) (s : fs) (v : Z) (x : vn) (Hok : fs_ok I s) (Ht : tree_ok I s) (Hv : vheap s !! v = Some x)
    (Hfile : sv_ino (vn_sv x) <> SFS_ROOTDIR_INO) (Hu : uio_ok (ui (vol s))) (Hrw : uio_rwf (ui (vol s)) = UIO_READ)
    (Hres : 0 < uio_resid (ui (vol s))) :
  let i := sv_ino (vn_sv x) in
  let off := uio_offset (ui (vol s)) in
  let n := Z.max 0 (Z.min (uio_resid (ui (vol s))) (sfi_size (inode_of s i) - off)) in
  exists s', sfs_read v s = Done tt s' /\ ui (vol s') = advance (ui (vol s)) n (bytes (at_ino s i) off n) /\
    fs_ok I s' /\ tree_ok I s' /\ names s' = names s /\ (forall j, j ∈ I -> j <> i -> unchanged s s' j) /\
    (forall pos, 0 <= pos < MAXSIZE -> file_byte (at_ino s' i) pos = file_byte (at_ino s i) pos) /\
    sfi_size (inode_of s' i) = sfi_size (inode_of s i).
Proof.
  intros i off n. destruct (fs_vn I s v x Hok Hv) as (Hi & Ei & Eat & Hf & [_ _ Hsz _] & _). fold i in Hi, Ei, Eat, Hf, Hsz.
  destruct (io_read_ok (at_ino s i)) as (t & E & Eui & Hev & Esz & Hby); rewrite ?Eat; try done.
  { by rewrite <- Eat. }
  assert (Ex : sfi_size (sv (at_ino s i)) = sfi_size (vn_sv x)) by (by rewrite Eat). rewrite Ex in Esz, Eui.
  destruct (file_step I s v x t Hok Ht Hv Hfile) as (Hok' & Ht' & En & Eat' & Hun); [done|by rewrite Esz|exact (keeps_run _ _ _ _ keeps_io E)|].
  fold i in Eat', Hun. rewrite Eat in E.
  assert (Erun : sfs_read v s = Done tt (put_vn v x t s)).
  { unfold sfs_read. kunfold. rewrite bool_decide_true by done. unfold kret. by rewrite (on_vn_run s v x), E. }
  assert (Ei' : inode_of (put_vn v x t s) i = sv t) by (change (sv (at_ino (put_vn v x t s) i) = sv t); by rewrite Eat').
  exists (put_vn v x t s). rewrite Erun, Eat', Ei', Ei. split; [done|]. split; [|split_and!; try done; rewrite <- Eat; exact Hby].
  cbn [vol put_vn set_vheap set_vol]. rewrite Eui. unfold n. rewrite Ei, Eat. done.
Qed.

End Sound.

End Vnops.

(** ** A concrete volume

    64 blocks; the root directory (inode 1, data in block 4) has the name [ab] for the
    file with inode 3, whose five bytes are in block 5. Only the root is in memory. *)

#[global] Instance demo_heap : Heap.
Proof.
  refine {| kmalloc_ok n := true; kmalloc_array n b := Some (replicate (Z.to_nat (b / 4)) 0) |}.
  intros _ n l Hn [= <-]. rewrite length_replicate, Z.div_mul by lia. lia.
Defined.

Definition demo_root : vn := mkV 1 (mkvn 1 SFS_TYPE_DIR 64 1 (4 :: replicate 14 0) 0 false) (replicate 110 0).
Definition demo_file : vn := mkV 1 (mkvn 3 SFS_TYPE_FILE 5 1 (5 :: replicate 14 0) 0 false) (replicate 110 0).
Definition demo_map : bitmap := mkbitmap 4096 ([63; 0; 0; 0; 0; 0; 0; 0] ++ replicate 504 255).
Definition demo_disk_block (b : Z) : list Z :=
  if b =? 0 then unwords ([SFS_MAGIC; 64] ++ replicate 126 0) else
  if b =? 2 then v demo_map else
  if b =? 1 then inode_bytes demo_root else
  if b =? 3 then inode_bytes demo_file else
  if b =? 4 then de_bytes (mkde 3 (demo_name ++ replicate 58 0)) ++ replicate 448 0 else
  if b =? 5 then [1; 2; 3; 4; 5] ++ replicate 507 0 else
  replicate 512 0.
Definition demo_vol (u : uio) : st :=
  mkst demo_disk_block (replicate 512 0) 0 demo_map false 64 (vn_sv demo_root) u.
Definition demo_fs (u : uio) : fs := mkfs (demo_vol u) {[100 := demo_root]} (mkarr [100; 0; 0; 0] 1 4) 101 0.
Definition demo_files : gset Z := {[1; 3]}.

Lemma demo_vol_ok u : vol_ok (demo_vol u).
Proof.
  split.
  - split_and!; [cbn; lia|reflexivity|]. intros b. unfold demo_vol, dsk, demo_disk_block.
    destruct (b =? 0); [reflexivity|]. destruct (b =? 2); [reflexivity|]. destruct (b =? 1); [reflexivity|]. destruct (b =? 3); [reflexivity|]. destruct (b =? 4); [reflexivity|].
    destruct (b =? 5); [reflexivity|]. reflexivity.
  - split_and!; [cbn; lia|cbn; lia|reflexivity| |].
    + apply Forall_app. split; [repeat constructor; lia|]. apply Forall_replicate. lia.
    + intros i Hi. change (4096 <= i < 4096) in Hi. lia.
  - cbn. lia.
  - intros b Hb. change (64 <= b < 4096) in Hb. unfold bit. change (sfs_freemap (demo_vol u)) with demo_map.
    assert (Hq : 8 <= b / 8 < 512) by (Z.div_mod_to_equations; lia). rewrite list_lookup_total_alt. unfold demo_map, v.
    rewrite lookup_app_r by (cbn [length]; lia). rewrite lookup_replicate_2 by (cbn [length]; lia).
    apply allbits_set. Z.div_mod_to_equations; lia.
  - reflexivity.
Qed.

Lemma demo_map_ok u : map_ok (demo_vol u).
Proof.
  split; [reflexivity|done|split; reflexivity|]. intros _ j Hj. change (0 <= j < 1) in Hj. replace j with 0 by lia. reflexivity.
Qed.

Lemma demo_inode_1 u : inode_of (demo_fs u) 1 = vn_sv demo_root.
Proof. vm_compute. reflexivity. Qed.

Lemma demo_inode_3 u : inode_of (demo_fs u) 3 = vn_sv demo_file.
Proof. vm_compute. reflexivity. Qed.

Lemma demo_ptrs_1 u : ptrs (with_sv (vn_sv demo_root) (demo_vol u)) = 4 :: replicate 143 0.
Proof. vm_compute. reflexivity. Qed.

Lemma demo_ptrs_3 u : ptrs (with_sv (vn_sv demo_file) (demo_vol u)) = 5 :: replicate 143 0.
Proof. vm_compute. reflexivity. Qed.

Lemma one_block_has t b p : ptrs t = b :: replicate 143 0 -> has t p -> p = b.
Proof. intros E [Hp Hh]. rewrite E in Hh. apply elem_of_cons in Hh as [|[-> _]%elem_of_replicate]; [done|]. done. Qed.

Lemma one_block_ok t b : vol_ok t -> length (sfi_direct (sv t)) = 15%nat -> ptrs t = b :: replicate 143 0 -> 0 < b < sb_nblocks t ->
  bit (sfs_freemap t) b = true -> file_ok t.
Proof.
  intros Hv Hl E Hb Hu. split; [done|done| |].
  - intros i p Hp. rewrite E in Hp. apply list_elem_of_lookup_2, elem_of_cons in Hp as [->|[-> _]%elem_of_replicate]; [by right|by left].
  - intros i j p. rewrite E. intros Hi Hj Hp. destruct i as [|i], j as [|j]; [done| | |]; cbn -[replicate] in Hi, Hj.
    + by apply lookup_replicate in Hj as [-> _].
    + by apply lookup_replicate in Hi as [-> _].
    + by apply lookup_replicate in Hi as [-> _].
Qed.

Lemma demo_files_cases i : i ∈ demo_files -> i = 1 \/ i = 3.
Proof. unfold demo_files. set_solver. Qed.

Lemma demo_blocks_ok u : blocks_ok demo_files (inode_of (demo_fs u)) (demo_vol u).
Proof.
  split.
  - apply demo_vol_ok.
  - intros i [-> | ->]%demo_files_cases; rewrite ?demo_inode_1, ?demo_inode_3; (split; [cbn; lia|]); (split; [reflexivity|]);
      split; cbn; try (unfold MAXSIZE, MAXBLOCKS, SFS_BLOCKSIZE); try lia; auto.
  - intros i [-> | ->]%demo_files_cases; rewrite ?demo_inode_1, ?demo_inode_3.
    + apply (one_block_ok _ 4); [apply vol_ok_sv, demo_vol_ok|reflexivity|apply demo_ptrs_1|cbn; lia|reflexivity].
    + apply (one_block_ok _ 5); [apply vol_ok_sv, demo_vol_ok|reflexivity|apply demo_ptrs_3|cbn; lia|reflexivity].
  - intros i j p [-> | ->]%demo_files_cases [-> | ->]%demo_files_cases; rewrite ?demo_inode_1, ?demo_inode_3; try done;
      intros H1 H2.
    + apply (one_block_has _ 4) in H1; [|apply demo_ptrs_1]. apply (one_block_has _ 5) in H2; [|apply demo_ptrs_3]. lia.
    + apply (one_block_has _ 5) in H1; [|apply demo_ptrs_3]. apply (one_block_has _ 4) in H2; [|apply demo_ptrs_1]. lia.
  - intros i j [-> | ->]%demo_files_cases [-> | ->]%demo_files_cases; rewrite ?demo_inode_1, ?demo_inode_3; intros H1;
      first [apply (one_block_has _ 4) in H1; [lia|apply demo_ptrs_1]|apply (one_block_has _ 5) in H1; [lia|apply demo_ptrs_3]].
  - intros b Hb. assert (Hb' : b = 0 \/ b = 2).
    { destruct Hb as [|Hb]; [by left|right]. change (SFS_FREEMAPBLOCKS (sb_nblocks (demo_vol u))) with 1 in Hb. lia. }
    split; [destruct Hb' as [-> | ->]; reflexivity|]. split; [intros [-> | ->]%demo_files_cases; lia|].
    intros i [-> | ->]%demo_files_cases; rewrite ?demo_inode_1, ?demo_inode_3; intros H1;
      first [apply (one_block_has _ 4) in H1; [lia|apply demo_ptrs_1]|apply (one_block_has _ 5) in H1; [lia|apply demo_ptrs_3]].
Qed.

Lemma demo_fs_ok u : fs_ok demo_files (demo_fs u).
Proof.
  split; [apply demo_blocks_ok| |apply demo_map_ok].
  assert (Hh : forall v x, vheap (demo_fs u) !! v = Some x -> v = 100 /\ x = demo_root).
  { intros v x. cbn. intros [<- <-]%lookup_singleton_Some. done. }
  split.
  - split; [cbn; lia|reflexivity|right; by exists 0].
  - apply NoDup_singleton.
  - intros v. change (contents (sfs_vnodes (demo_fs u))) with [100]. rewrite list_elem_of_singleton. cbn.
    rewrite lookup_singleton_is_Some. done.
  - intros v x [-> ->]%Hh. split; [cbn; lia|]. split; [|reflexivity]. cbn. unfold demo_files. set_solver.
  - intros v v' x x' [-> _]%Hh [-> _]%Hh. done.
  - intros v x [-> ->]%Hh _. vm_compute. reflexivity.
  - intros v Hv. destruct (vheap (demo_fs u) !! v) eqn:E; [|done]. apply Hh in E as [-> _]. cbn in Hv. lia.
Qed.

Lemma demo_names u : names (demo_fs u) = {[demo_name := 3]}.
Proof. vm_compute. reflexivity. Qed.

Lemma demo_used u i name x : used (at_ino (demo_fs u) 1) i name x -> i = 0.
Proof. intros (Hi & _). change (nslots (at_ino (demo_fs u) 1)) with 1 in Hi. lia. Qed.

Lemma demo_tree_ok u : tree_ok demo_files (demo_fs u).
Proof.
  split.
  - unfold demo_files, SFS_ROOTDIR_INO. set_solver.
  - split.
    + apply (bo_file _ _ _ (demo_blocks_ok u)). unfold demo_files, SFS_ROOTDIR_INO. set_solver.
    + vm_compute. reflexivity.
    + change (sfi_size (sv (at_ino (demo_fs u) SFS_ROOTDIR_INO))) with 64. split; [unfold MAXSIZE, MAXBLOCKS, SFS_BLOCKSIZE; lia|reflexivity].
    + intros i j name x y Hi Hj. apply demo_used in Hi, Hj. congruence.
  - intros n i. rewrite demo_names. intros [_ <-]%lookup_singleton_Some. split; [unfold demo_files; set_solver|done].
  - intros i [-> | ->]%demo_files_cases Hne; [done|]. by rewrite demo_inode_3.
  - intros i [-> | ->]%demo_files_cases Hne; [done|]. rewrite demo_inode_3, demo_names. vm_compute. reflexivity.
Qed.

Lemma demo_is_root u : is_root (demo_fs u) 100.
Proof. exists demo_root. done. Qed.

Lemma demo_refs_ok u : refs_ok (demo_fs u).
Proof. intros v x. cbn. intros [_ <-]%lookup_singleton_Some. cbn. lia. Qed.

Lemma demo_name_ok : Forall (fun c => c <> 0) demo_name.
Proof. repeat constructor; done. Qed.

Definition idle : uio := uio_kinit [] 0 0 UIO_READ.

(** The outcome of a run, without the state. *)
Definition ending {S A} (o : outcome S A) : option A := match o with Done a _ => Some a | _ => None end.

Lemma sfs_lookup_spec_witness :
  exists g s', sfs_lookup 100 demo_name (demo_fs idle) = Done g s' /\ exists x, vheap s' !! g = Some x /\ sv_ino (vn_sv x) = 3.
Proof.
  pose proof (sfs_lookup_spec demo_files (demo_fs idle) 100 demo_name (demo_fs_ok _) (demo_tree_ok _) (demo_is_root _)
                (demo_refs_ok _) demo_name_ok) as HL.
  rewrite demo_names, lookup_singleton_eq in HL. destruct HL as [(g & x & s' & E & Hrf)|(s' & E & _)].
  - exists g, s'. split; [exact E|]. exists x. rewrite (rf_heap _ _ _ _ _ _ Hrf), lookup_insert_eq. split; [reflexivity|].
    rewrite (rf_sv _ _ _ _ _ _ Hrf), demo_inode_3. reflexivity.
  - exfalso. apply (f_equal ending) in E. vm_compute in E. discriminate E.
Defined.

(** The state in which the file is open, at the address the lookup returned. *)
Definition demo_open (u : uio) : fs :=
  mkfs (demo_vol u) {[100 := demo_root; 101 := demo_file]} (mkarr [100; 101; 0; 0] 2 4) 102 0.

Lemma demo_open_1 u : inode_of (demo_open u) 1 = vn_sv demo_root.
Proof. vm_compute. reflexivity. Qed.

Lemma demo_open_3 u : inode_of (demo_open u) 3 = vn_sv demo_file.
Proof. vm_compute. reflexivity. Qed.

Lemma demo_open_same u i : i ∈ demo_files -> inode_of (demo_open u) i = inode_of (demo_fs u) i.
Proof. intros [-> | ->]%demo_files_cases; [by rewrite demo_open_1, demo_inode_1|by rewrite demo_open_3, demo_inode_3]. Qed.

Lemma demo_open_ok u : fs_ok demo_files (demo_open u).
Proof.
  split; [| |apply demo_map_ok].
  - apply (blocks_ext demo_files (inode_of (demo_fs u))); [apply demo_blocks_ok|]. intros i. apply demo_open_same.
  - assert (Hh : forall v x, vheap (demo_open u) !! v = Some x -> v = 100 /\ x = demo_root \/ v = 101 /\ x = demo_file).
    { intros v x. cbn. intros [[<- <-]|[_ [<- <-]%lookup_singleton_Some]]%lookup_insert_Some; auto. }
    split.
    + split; [cbn; lia|reflexivity|right; by exists 0].
    + change (contents (sfs_vnodes (demo_open u))) with [100; 101]. repeat constructor; set_solver.
    + intros v. change (contents (sfs_vnodes (demo_open u))) with [100; 101]. cbn.
      rewrite lookup_insert_is_Some, lookup_singleton_is_Some, !elem_of_cons, elem_of_nil. destruct (decide (v = 100)); naive_solver.
    + intros v x [[-> ->]|[-> ->]]%Hh; (split; [cbn; lia|]); (split; [|reflexivity]); cbn; unfold demo_files; set_solver.
    + intros v v' x x' [[-> ->]|[-> ->]]%Hh [[-> ->]|[-> ->]]%Hh; cbn; lia.
    + intros v x [[-> ->]|[-> ->]]%Hh _; vm_compute; reflexivity.
    + intros v Hv. destruct (vheap (demo_open u) !! v) eqn:E; [|done]. apply Hh in E as [[-> _]|[-> _]]; cbn in Hv; lia.
Qed.

Lemma demo_open_tree u : tree_ok demo_files (demo_open u).
Proof.
  apply (tree_frame demo_files (demo_fs u)); [apply demo_tree_ok|apply demo_open_ok|].
  intros j Hj. apply unchanged_intro; [by apply demo_open_same|]. unfold at_ino. rewrite demo_open_same by done. reflexivity.
Qed.

Lemma sfs_link_spec_witness :
  exists s', sfs_link 100 [99] 101 (demo_open idle) = Done tt s' /\ names s' !! [99] = Some 3.
Proof.
  pose proof (sfs_link_spec demo_files (demo_open idle) 100 [99] 101 demo_file (demo_open_ok _) (demo_open_tree _)
                ltac:(exists demo_root; done) eq_refl ltac:(repeat constructor; done)) as HL.
  cbv zeta in HL. rewrite decide_False in HL by done. destruct HL as [(s' & E & _ & _ & _ & _ & En & _)|(e & s' & E & _)].
  - exists s'. split; [exact E|]. rewrite En. apply lookup_insert_eq.
  - exfalso. apply (f_equal ending) in E. vm_compute in E. discriminate E.
Defined.
