(* ===== verification/SfsMount.v ===== *)
(** * SFS: the volume operations

    Mounting, syncing and unmounting a volume (kern/fs/sfs/sfs_fsops.c), on top of the
    vnodes of SfsVnops.v. The main result is that [sfs_sync] makes the volume durable:
    whatever happens to the memory afterwards, mounting the disk again gives the same
    names and the same files. The lemmas are about a disk that reports no error
    ([Reliable]); SfsErrors.v has the theorem about every disk. *)

From stdpp Require Import base numbers list gmap.
From Stdlib Require Import ZArith Lia.
From S2P Require Import Prelude Bitmap SfsDisk SfsFile SfsTrunc SfsDir SfsMap KArray SfsOwn SfsInode SfsVnops.

Open Scope Z_scope.
Open Scope k_scope.

Definition SFS_BITSPERBLOCK : Z := 4096.
Definition SFS_VOLNAME_SIZE : Z := 32.
Definition SFS_SUPER_BLOCK : Z := 0.
Definition SFS_FREEMAP_START : Z := 2.

(** kern/include/kern/sfs.h:57-57 (SFS_ROUNDUP), on 32-bit unsigned operands. *)
Definition SFS_ROUNDUP (a b : Z) : Z := u32 (u32 (a + b - 1) / b * b).

(** kern/include/kern/sfs.h:60-60 (SFS_FREEMAPBITS). *)
Definition SFS_FREEMAPBITS (nblocks : Z) : Z := SFS_ROUNDUP nblocks SFS_BITSPERBLOCK.

(** kern/fs/sfs/sfs_fsops.c:50-51 (SFS_FS_FREEMAPBLOCKS). *)
Definition SFS_FS_FREEMAPBLOCKS (t : st) : Z := SFS_FREEMAPBITS (sb_nblocks t) / SFS_BITSPERBLOCK.

(** kern/include/kern/sfs.h:73-78 (struct sfs_superblock); [sb_nblocks] is with the
    volume. *)
Record superblock := mksb { sb_magic : Z; sb_volname : list Z; sb_reserved : list Z }.

(** The superblock as the disk has it, and back. *)
Definition sb_bytes (sb : superblock) (nblocks : Z) : list Z :=
  unwords [sb_magic sb; nblocks] ++ sb_volname sb ++ unwords (sb_reserved sb).
Definition sb_of_block (bs : list Z) : superblock :=
  mksb (word_at bs 0) (take 32 (drop 8 bs)) (drop 10 (words bs)).

(** kern/include/sfs.h:64-72 (struct sfs_fs): the fields that only the volume operations
    use. [sfs_device] is whether the pointer is set, [sfs_live] whether the structure is
    allocated. *)
Record mnt := mkmnt { mfs : fs; sfs_sb : superblock; sfs_superdirty : bool; sfs_device : bool; sfs_live : bool }.

Definition set_mfs f m := mkmnt f (sfs_sb m) (sfs_superdirty m) (sfs_device m) (sfs_live m).
Definition set_sb b m := mkmnt (mfs m) b (sfs_superdirty m) (sfs_device m) (sfs_live m).
Definition set_superclean m := mkmnt (mfs m) (sfs_sb m) false (sfs_device m) (sfs_live m).
Definition set_device b m := mkmnt (mfs m) (sfs_sb m) (sfs_superdirty m) b (sfs_live m).
Definition set_live b m := mkmnt (mfs m) (sfs_sb m) (sfs_superdirty m) (sfs_device m) b.

Definition set_mapclean s := mkst (dsk s) (lh_buf s) (ops s) (sfs_freemap s) false (sb_nblocks s) (sv s) (ui s).
Definition set_nblocks n s := mkst (dsk s) (lh_buf s) (ops s) (sfs_freemap s) (sfs_freemapdirty s) n (sv s) (ui s).

(** Bytes [d] stored at offset [o] of a buffer. *)
Definition splice (o : nat) (d l : list Z) : list Z := take o l ++ d ++ drop (o + length d) l.

Section Fsops.
Context {G : Geometry} {D : Disk} {H : Heap}.

Definition on_fs {A} (m : K fs A) : K mnt A :=
  fun s => match m (mfs s) with
           | Done a t => Done a (set_mfs t s)
           | Fail e t => Fail e (set_mfs t s)
           | Halt h => Halt h
           end.

Definition on_dev {A} (m : K st A) : K mnt A := on_fs (on_vol m).

(** kern/fs/sfs/sfs_fsops.c:85-104 (sfs_freemapio): the loop, [k] blocks from [j]. *)
Fixpoint freemapio_loop (k : nat) (j : Z) (rw : uio_rw) : K st unit :=
  match k with
  | O => kret tt
  | S k' =>
      (match rw with
       | UIO_READ =>
           data <- sfs_readblock (SFS_FREEMAP_START + j) ;;
           kmodify (fun s => set_map (mkbitmap (nbits (sfs_freemap s))
                                        (splice (Z.to_nat (j * SFS_BLOCKSIZE)) data (bitmap_getdata (sfs_freemap s)))) s)
       | UIO_WRITE =>
           s <- kget ;;
           sfs_writeblock (SFS_FREEMAP_START + j)
             (take 512 (drop (Z.to_nat (j * SFS_BLOCKSIZE)) (bitmap_getdata (sfs_freemap s))))
       end) ;;;
      freemapio_loop k' (j + 1) rw
  end.

(** kern/fs/sfs/sfs_fsops.c:70-106 (sfs_freemapio). *)
Definition sfs_freemapio (rw : uio_rw) : K st unit :=
  s <- kget ;;
  freemapio_loop (Z.to_nat (SFS_FS_FREEMAPBLOCKS s)) 0 rw.

(** kern/fs/sfs/sfs_fsops.c:119-122 (sfs_sync_vnodes): the loop over the table, [k] slots
    from [i]; the result of [VOP_FSYNC] is not looked at. *)
Fixpoint sync_vnodes_loop (k : nat) (i : Z) : K fs unit :=
  match k with
  | O => kret tt
  | S k' =>
      v <- on_vnodes (array_get i) ;;
      vnode_check v ;;;
      attempt (sfs_fsync v) ;;;
      sync_vnodes_loop k' (i + 1)
  end.

(** kern/fs/sfs/sfs_fsops.c:111-124 (sfs_sync_vnodes). *)
Definition sfs_sync_vnodes : K fs unit :=
  s <- kget ;;
  sync_vnodes_loop (Z.to_nat (arr_num (sfs_vnodes s))) 0.

(** kern/fs/sfs/sfs_fsops.c:129-144 (sfs_sync_freemap). *)
Definition sfs_sync_freemap : K st unit :=
  s <- kget ;;
  if sfs_freemapdirty s then
    sfs_freemapio UIO_WRITE ;;;
    kmodify set_mapclean
  else kret tt.

(** kern/fs/sfs/sfs_fsops.c:149-164 (sfs_sync_superblock). *)
Definition sfs_sync_superblock : K mnt unit :=
  m <- kget ;;
  if sfs_superdirty m then
    on_dev (sfs_writeblock SFS_SUPER_BLOCK (sb_bytes (sfs_sb m) (sb_nblocks (vol (mfs m))))) ;;;
    kmodify set_superclean
  else kret tt.

(** kern/fs/sfs/sfs_fsops.c:170-234 (sfs_sync). *)
Definition sfs_sync : K mnt unit :=
  on_fs sfs_sync_vnodes ;;;
  on_dev sfs_sync_freemap ;;;
  sfs_sync_superblock.

(** kern/fs/sfs/sfs_fsops.c:241-253 (sfs_getvolname). *)
Definition sfs_getvolname : K mnt (list Z) :=
  m <- kget ;;
  kret (sb_volname (sfs_sb m)).

(** kern/fs/sfs/sfs_fsops.c:258-268 (sfs_fs_destroy). *)
Definition sfs_fs_destroy : K mnt unit :=
  on_fs (on_vnodes array_cleanup) ;;;
  m <- kget ;;
  kassert (negb (sfs_device m)) ;;;
  kmodify (set_live false).

(** kern/fs/sfs/sfs_fsops.c:275-302 (sfs_unmount). *)
Definition sfs_unmount : K mnt unit :=
  m <- kget ;;
  if 0 <? arr_num (sfs_vnodes (mfs m)) then kfail EBUSY else
  kassert (negb (sfs_superdirty m)) ;;;
  kassert (negb (sfs_freemapdirty (vol (mfs m)))) ;;;
  kmodify (set_device false) ;;;
  sfs_fs_destroy.

(** Whether the next request for memory succeeds. *)
Definition kmalloc_obj : K mnt bool :=
  m <- kget ;;
  let s := mfs m in
  kmodify (set_mfs (mkfs (vol s) (vheap s) (sfs_vnodes s) (nextv s) (S (nalloc s)))) ;;;
  kret (kmalloc_ok (nalloc s)).

(** kern/fs/sfs/sfs_fsops.c:319-369 (sfs_fs_create). A free map that is [NULL] is written
    as one of no bits. *)
Definition sfs_fs_create : K mnt bool :=
  ok <- kmalloc_obj ;;
  if negb ok then kret false else
  kmodify (fun m => mkmnt (mfs m) (sfs_sb m) false false true) ;;;
  ok <- kmalloc_obj ;;
  if negb ok then kmodify (set_live false) ;;; kret false else
  kmodify (fun m =>
    let s := mfs m in
    set_mfs (mkfs (set_mapclean (set_map (mkbitmap 0 []) (vol s))) ∅ array_init (nextv s) (nalloc s)) m) ;;;
  kret true.

(** kern/fs/sfs/sfs_fsops.c:424-427 (sfs_domount): giving up, here after the superblock
    could not be read. *)
Definition abandon {A} (e : Z) : K mnt A :=
  kmodify (set_device false) ;;;
  sfs_fs_destroy ;;;
  kfail e.

(** kern/fs/sfs/sfs_fsops.c:451-472 (sfs_domount): from the free block bitmap on. *)
Definition mount_freemap : K mnt unit :=
  ok1 <- kmalloc_obj ;;
  ok2 <- (if ok1 : bool then kmalloc_obj else kret false) ;;
  m <- kget ;;
  match bitmap_create ok1 ok2 (SFS_FREEMAPBITS (sb_nblocks (vol (mfs m)))) with
  | Halt h => khalt h
  | Fail _ _ | Done None _ => abandon ENOMEM
  | Done (Some b) _ =>
      on_dev (kmodify (set_map b)) ;;;
      r <- attempt (on_dev (sfs_freemapio UIO_READ)) ;;
      match r with
      | inl e => abandon e
      | inr _ => kret tt
      end
  end.

(** kern/fs/sfs/sfs_fsops.c:384-472 (sfs_domount). *)
Definition sfs_domount (d_blocksize : Z) : K mnt unit :=
  if negb (d_blocksize =? SFS_BLOCKSIZE) then kfail ENXIO else
  created <- sfs_fs_create ;;
  if negb created then kfail ENOMEM else
  kmodify (set_device true) ;;;
  r <- attempt (on_dev (sfs_readblock SFS_SUPER_BLOCK)) ;;
  match r with
  | inl e => abandon e
  | inr data =>
      kmodify (set_sb (sb_of_block data)) ;;;
      on_dev (kmodify (set_nblocks (word_at data 1))) ;;;
      m <- kget ;;
      if negb (sb_magic (sfs_sb m) =? SFS_MAGIC) then abandon EINVAL else
      kmodify (set_sb (mksb (sb_magic (sfs_sb m)) (<[31%nat := 0]> (sb_volname (sfs_sb m))) (sb_reserved (sfs_sb m)))) ;;;
      mount_freemap
  end.

(** ** The superblock on the disk *)

Lemma word_at_app_l l1 l2 i : (4 * i + 3 < length l1)%nat -> word_at (l1 ++ l2) i = word_at l1 i.
Proof. intros Hi. unfold word_at. by rewrite !lookup_total_app_l by lia. Qed.

Lemma word_at_app_r l1 l2 n i : length l1 = (4 * n)%nat -> word_at (l1 ++ l2) (n + i) = word_at l2 i.
Proof.
  intros Hl. unfold word_at. rewrite !lookup_total_app_r by lia.
  do 3 f_equal; first [do 3 f_equal; lia|f_equal; lia|lia].
Qed.

(** The superblock as it is in memory: well formed, and ending in a null. *)
Record sb_ok (sb : superblock) : Prop := {
  sbo_magic : sb_magic sb = SFS_MAGIC;
  sbo_name : length (sb_volname sb) = 32%nat /\ <[31%nat := 0]> (sb_volname sb) = sb_volname sb;
  sbo_res : length (sb_reserved sb) = 118%nat /\ Forall (fun w => 0 <= w < 2 ^ 32) (sb_reserved sb)
}.

Lemma sb_bytes_length sb n : sb_ok sb -> length (sb_bytes sb n) = 512%nat.
Proof. intros [_ [Hn _] [Hr _]]. unfold sb_bytes. rewrite !length_app, !unwords_length, Hn, Hr. done. Qed.

Lemma sb_roundtrip sb n : sb_ok sb -> 0 <= n < 2 ^ 32 ->
  sb_of_block (sb_bytes sb n) = sb /\ word_at (sb_bytes sb n) 1 = n.
Proof.
  intros [Hm [Hl _] [Hr Hf]] Hn. unfold sb_bytes. set (ws := [sb_magic sb; n]).
  assert (Hw : length (unwords ws) = 8%nat) by (by rewrite unwords_length).
  assert (E1 : word_at (unwords ws ++ sb_volname sb ++ unwords (sb_reserved sb)) 1 = n).
  { rewrite word_at_app_l by (rewrite Hw; lia). by apply word_at_unwords. }
  split; [|done]. unfold sb_of_block. rewrite word_at_app_l by (rewrite Hw; lia).
  rewrite (word_at_unwords ws 0 (sb_magic sb)) by (done || by rewrite Hm).
  rewrite drop_app_length' by done. rewrite take_app_length' by done.
  assert (Ed : drop 10 (words (unwords ws ++ sb_volname sb ++ unwords (sb_reserved sb))) = sb_reserved sb).
  { apply list_eq. intros k. rewrite lookup_drop. destruct (sb_reserved sb !! k) as [w|] eqn:Ek.
    - pose proof (lookup_lt_Some _ _ _ Ek). unfold words. rewrite list_lookup_fmap, lookup_seq_lt by lia. cbn [fmap option_fmap option_map].
      f_equal. rewrite Nat.add_0_l, app_assoc, (word_at_app_r _ _ 10) by (rewrite length_app, Hw, Hl; done).
      apply word_at_unwords; [done|]. by eapply (Forall_lookup_1 _ _ k w Hf).
    - apply lookup_ge_None in Ek. apply lookup_ge_None. rewrite block_words_length. lia. }
  rewrite Ed. by destruct sb.
Qed.

Lemma freemapblocks_eq t : 0 < sb_nblocks t <= 2 ^ 31 ->
  SFS_FREEMAPBITS (sb_nblocks t) = 4096 * SFS_FREEMAPBLOCKS (sb_nblocks t) /\ SFS_FS_FREEMAPBLOCKS t = SFS_FREEMAPBLOCKS (sb_nblocks t) /\
  0 < SFS_FREEMAPBLOCKS (sb_nblocks t).
Proof.
  intros Hn. assert (E : SFS_FREEMAPBITS (sb_nblocks t) = 4096 * SFS_FREEMAPBLOCKS (sb_nblocks t)).
  { unfold SFS_FREEMAPBITS, SFS_ROUNDUP, SFS_FREEMAPBLOCKS, SFS_BITSPERBLOCK. rewrite (wrapu_small _ (_ - 1)) by lia.
    replace (sb_nblocks t + 4096 - 1) with (sb_nblocks t + 4095) by lia. rewrite wrapu_small; Z.div_mod_to_equations; lia. }
  split; [done|]. unfold SFS_FS_FREEMAPBLOCKS, SFS_BITSPERBLOCK. rewrite E. split; [Z.div_mod_to_equations; lia|].
  unfold SFS_FREEMAPBLOCKS. Z.div_mod_to_equations; lia.
Qed.

(** ** The free map on the disk *)

Section Sound.
Context `{!Reliable D}.

(** Only the contents of the disk and the driver's state differ. *)
Definition disk_only (t t' : st) : Prop :=
  sfs_freemap t' = sfs_freemap t /\ sfs_freemapdirty t' = sfs_freemapdirty t /\ sb_nblocks t' = sb_nblocks t /\
  sv t' = sv t /\ ui t' = ui t.

Lemma map_block_length m j k : wf m -> nbits m = 4096 * k -> 0 <= j < k -> length (map_block m j) = 512%nat.
Proof.
  intros Hw Hn Hj. pose proof (wf_length m Hw). unfold map_block. rewrite length_take, length_drop. lia.
Qed.

Lemma freemap_write k j t : disk_ok t -> 0 <= j -> 2 + j + Z.of_nat k <= d_blocks ->
  (forall i, j <= i < j + Z.of_nat k -> length (map_block (sfs_freemap t) i) = 512%nat) ->
  exists t', freemapio_loop k j UIO_WRITE t = Done tt t' /\ disk_ok t' /\ disk_only t t' /\
    forall b, dsk t' b = if decide (2 + j <= b < 2 + j + Z.of_nat k) then map_block (sfs_freemap t) (b - 2) else dsk t b.
Proof.
  revert j t. induction k as [|k IH]; intros j t Hd Hj Hk Hlen; cbn [freemapio_loop]; kunfold.
  - exists t. split; [done|]. split; [done|]. split; [done|]. intros b. rewrite decide_False by lia. done.
  - change (take 512 (drop (Z.to_nat (j * SFS_BLOCKSIZE)) (bitmap_getdata (sfs_freemap t)))) with
      (take 512 (drop (Z.to_nat (j * 512)) (v (sfs_freemap t)))).
    replace (j * 512) with (512 * j) by lia. fold (map_block (sfs_freemap t) j). unfold SFS_FREEMAP_START.
    pose proof Hd as (Hd1 & Hd2 & Hd3). rewrite writeblock_ok by (done || lia || (apply Hlen; lia)).
    set (t1 := set_dsk _ _). assert (Hd' : disk_ok t1).
    { split_and!; [done|cbn; apply Hlen; lia|]. intros b. cbn. unfold upd. destruct (b =? _); [apply Hlen; lia|apply Hd3]. }
    destruct (IH (j + 1) t1) as (t' & E & Hok & (E1 & E2 & E3 & E4 & E5) & Hb); try done; try lia.
    { intros i Hi. apply Hlen. lia. }
    exists t'. split; [done|]. split; [done|]. split; [done|]. intros b. rewrite Hb. cbn. unfold upd.
    destruct (Z.eqb_spec b (2 + j)) as [->|Hne].
    + rewrite decide_False, decide_True by lia. f_equal. lia.
    + repeat case_decide; (done || lia).
Qed.

Lemma spliced_lookup o d l p : (o + length d <= length l)%nat ->
  splice o d l !! p = if decide (o <= p < o + length d)%nat then d !! (p - o)%nat else l !! p.
Proof.
  intros Hl. unfold splice. case_decide as Hp.
  - rewrite lookup_app_r by (rewrite length_take; lia). rewrite length_take, Nat.min_l by lia. by rewrite lookup_app_l by lia.
  - destruct (decide (p < o)%nat).
    + rewrite lookup_app_l by (rewrite length_take; lia). by rewrite lookup_take_lt.
    + rewrite lookup_app_r by (rewrite length_take; lia). rewrite length_take, Nat.min_l by lia.
      rewrite lookup_app_r by lia. rewrite lookup_drop. f_equal. lia.
Qed.

Lemma splice_length o d l : (o + length d <= length l)%nat -> length (splice o d l) = length l.
Proof. intros Hl. unfold splice. rewrite !length_app, length_take, length_drop. lia. Qed.

(** Reading the map: byte [p] comes from block [2 + p / 512]. *)
Lemma freemap_read k j t : disk_ok t -> 0 <= j -> 2 + j + Z.of_nat k <= d_blocks ->
  Z.of_nat (length (v (sfs_freemap t))) = 512 * (j + Z.of_nat k) ->
  exists t' m, freemapio_loop k j UIO_READ t = Done tt t' /\ disk_ok t' /\ disk_only (set_map m t) t' /\ dsk t' = dsk t /\
    nbits m = nbits (sfs_freemap t) /\ length (v m) = length (v (sfs_freemap t)) /\
    forall p, (p < length (v m))%nat -> v m !! p = if decide (Z.of_nat p < 512 * j) then v (sfs_freemap t) !! p
                                               else dsk t (2 + Z.of_nat p / 512) !! (p mod 512)%nat.
Proof.
  revert j t. induction k as [|k IH]; intros j t Hd Hj Hk Hlen; cbn [freemapio_loop]; kunfold.
  - exists t, (sfs_freemap t). split; [done|]. split; [done|]. split; [by destruct t|]. split_and!; try done.
    intros p Hp. by rewrite decide_True by lia.
  - unfold SFS_FREEMAP_START. pose proof Hd as (Hd1 & Hd2 & Hd3). rewrite readblock_ok by (done || lia).
    set (o := Z.to_nat (j * SFS_BLOCKSIZE)). assert (Eo : Z.of_nat o = 512 * j) by (unfold o, SFS_BLOCKSIZE; lia).
    change (sfs_freemap (touch (dsk t (2 + j)) t)) with (sfs_freemap t). unfold bitmap_getdata. set (t1 := set_map _ _).
    assert (Hs : (o + length (dsk t (2 + j)) <= length (v (sfs_freemap t)))%nat) by (rewrite Hd3; lia).
    destruct (IH (j + 1) t1) as (t' & m & E & Hok & Ho & Edsk & En & El & Hp).
    { split_and!; [done|apply Hd3|done]. } { lia. } { lia. } { cbn. rewrite splice_length by done. lia. }
    exists t', m. split; [done|]. split; [done|]. split; [exact Ho|]. split; [by rewrite Edsk|]. split; [by rewrite En|].
    cbn in El. rewrite splice_length in El by done. split; [by rewrite El|]. intros p Hpl. rewrite Hp by done.
    change (v (sfs_freemap t1)) with (splice o (dsk t (2 + j)) (v (sfs_freemap t))). change (dsk t1) with (dsk t).
    rewrite spliced_lookup, Hd3 by done. destruct (decide (Z.of_nat p < 512 * (j + 1))) as [H1|H1].
    + destruct (decide (o <= p < o + 512)%nat) as [H2|H2].
      * rewrite decide_False by lia. assert (Eq : Z.of_nat p / 512 = j) by (Z.div_mod_to_equations; lia). rewrite Eq. f_equal.
        apply Nat2Z.inj. rewrite Nat2Z.inj_sub, Nat2Z.inj_mod by lia. Z.div_mod_to_equations. lia.
      * rewrite decide_True by lia. done.
    + by rewrite decide_False by lia.
Qed.

(** ** Syncing *)

(** No vnode in memory is newer than the disk. *)
Definition vnodes_clean (s : fs) : Prop := forall v x, vheap s !! v = Some x -> sv_dirty (vn_sv x) = false.

(** What writing back does not touch. *)
Record written (I : gset Z) (s s' : fs) : Prop := {
  wr_fs : fs_ok I s';
  wr_files : forall j, j ∈ I -> unchanged s s' j;
  wr_table : sfs_vnodes s' = sfs_vnodes s;
  wr_map : sfs_freemap (vol s') = sfs_freemap (vol s);
  wr_nblocks : sb_nblocks (vol s') = sb_nblocks (vol s)
}.

Lemma written_trans I s1 s2 s3 : written I s1 s2 -> written I s2 s3 -> written I s1 s3.
Proof.
  intros [? H1 ? ? ?] [? H2 ? ? ?]. split; try congruence. intros j Hj. eapply unchanged_trans; [by apply H1|by apply H2].
Qed.

Lemma sync_loop I k i s : fs_ok I s -> 0 <= i -> i + Z.of_nat k = arr_num (sfs_vnodes s) ->
  (forall n v x, Z.of_nat n < i -> contents (sfs_vnodes s) !! n = Some v -> vheap s !! v = Some x -> sv_dirty (vn_sv x) = false) ->
  exists s', sync_vnodes_loop k i s = Done tt s' /\ written I s s' /\ vnodes_clean s' /\ dsk (vol s') 0 = dsk (vol s) 0.
Proof.
  revert i s. induction k as [|k IH]; intros i s Hok Hi Hk Hcl; pose proof Hok as [Hb Ht Hmp];
    pose proof (contents_length _ (to_arr _ _ Ht)) as Hlen; cbn [sync_vnodes_loop]; kunfold.
  - exists s. split; [done|]. split; [by split|]. split; [|done]. intros v x Hv.
    assert (Hin : v ∈ contents (sfs_vnodes s)) by (apply (to_dom _ _ Ht); by exists x).
    apply list_elem_of_lookup in Hin as [n Hn]. pose proof (lookup_lt_Some _ _ _ Hn). apply (Hcl n v x); [lia|done|done].
  - destruct (contents (sfs_vnodes s) !! Z.to_nat i) as [v|] eqn:Ev; [|apply lookup_ge_None in Ev; lia].
    rewrite (on_vnodes_same _ v) by (apply array_get_ok; [apply Ht|done|done]).
    assert (Hin : v ∈ contents (sfs_vnodes s)) by (by eapply list_elem_of_lookup_2). apply (to_dom _ _ Ht) in Hin as [x Hx].
    destruct (to_vn _ _ Ht v x Hx) as (Hr & HxI & _). unfold vnode_check, vn_get, sfs_fsync. kunfold. rewrite Hx, (proj2 (Z.leb_gt _ _)) by lia.
    destruct (sync_inode_ok I s v x Hok Hx) as (s1 & -> & Hok1 & Hun1 & Hh1 & Ea1 & _ & _ & Em1 & Enb1 & Ed1).
    assert (E0 : dsk (vol s1) 0 = dsk (vol s) 0).
    { apply Ed1. intros E. rewrite <- E in HxI. by destruct (bo_res _ _ _ Hb 0 (or_introl eq_refl)) as (_ & ? & _). }
    destruct (IH (i + 1) s1 Hok1) as (s' & -> & Hw & Hc & Ed'); [lia|rewrite Ea1; lia| |].
    { intros n u y Hn Hu Hy. rewrite Ea1 in Hu. rewrite Hh1 in Hy. apply lookup_insert_Some in Hy as [[<- <-]|[Hne Hy]]; [done|].
      apply (Hcl n u y); [|done|done]. enough (n <> Z.to_nat i) by lia. intros ->. congruence. }
    exists s'. split; [done|]. split; [by eapply written_trans; [|exact Hw]|]. split; [done|]. congruence.
Qed.

(** The free map is in order for its blocks on the disk. *)
Lemma map_lengths I s i : fs_ok I s -> 0 <= i < SFS_FREEMAPBLOCKS (sb_nblocks (vol s)) -> length (map_block (sfs_freemap (vol s)) i) = 512%nat.
Proof.
  intros [Hb _ Hm] Hi. eapply map_block_length; [apply (bo_vol _ _ _ Hb)|apply (mo_bits _ Hm)|done].
Qed.

Lemma nblocks_range I s : fs_ok I s -> 0 < sb_nblocks (vol s) <= 2 ^ 23 /\ sb_nblocks (vol s) <= d_blocks.
Proof. intros [Hb _ _]. destruct (vo_size _ (bo_vol _ _ _ Hb)), (vo_disk _ (bo_vol _ _ _ Hb)) as (? & _). lia. Qed.

(** A change of the volume that concerns the blocks without files only. *)
Lemma fs_reserved I s t : fs_ok I s -> disk_ok t -> sfs_freemap t = sfs_freemap (vol s) -> sb_nblocks t = sb_nblocks (vol s) ->
  (forall b, ~ reserved (vol s) b -> dsk t b = dsk (vol s) b) -> map_ok t -> written I s (set_vol t s).
Proof.
  intros Hok Hd Em En Hb Hmo. pose proof Hok as [Hbl _ _]. destruct (fs_quiet_map I s (set_vol t s) Hok) as (Hok' & _ & Hun); try done.
  - intros b _ _ Hr. by apply Hb.
  - destruct (bo_vol _ _ _ Hbl) as [_ ? ? ? ?]. split; cbn; rewrite ?Em, ?En; done.
  - intros b Hbo. cbn. rewrite Em. by eapply owned_bit.
Qed.

Lemma sync_freemap_ok I s : fs_ok I s ->
  exists t, sfs_sync_freemap (vol s) = Done tt t /\ written I s (set_vol t s) /\ sfs_freemapdirty t = false /\ dsk t 0 = dsk (vol s) 0.
Proof.
  intros Hok. pose proof Hok as [Hb _ Hm]. destruct (nblocks_range I s Hok) as [Hn Hnd]. unfold sfs_sync_freemap. kunfold.
  destruct (sfs_freemapdirty (vol s)) eqn:Ed.
  2:{ exists (vol s). assert (Es : set_vol (vol s) s = s) by (by destruct s). rewrite Es. done. }
  destruct (freemapblocks_eq (vol s)) as (_ & Ef & Hf); [lia|]. unfold sfs_freemapio. kunfold. rewrite Ef.
  set (k := SFS_FREEMAPBLOCKS (sb_nblocks (vol s))) in *. pose proof (mo_room _ Hm) as Hroom. fold k in Hroom.
  destruct (freemap_write (Z.to_nat k) 0 (vol s)) as (t & -> & Hdt & (E1 & E2 & E3 & E4 & E5) & Hdsk); [apply (bo_vol _ _ _ Hb)|lia|lia| |].
  { intros i Hi. apply (map_lengths I s); [done|]. fold k. lia. }
  exists (set_mapclean t). split; [done|]. assert (E0 : dsk t 0 = dsk (vol s) 0) by (rewrite Hdsk, decide_False by lia; done).
  split; [|done]. apply fs_reserved; try done.
  - intros b Hr. cbn. rewrite Hdsk, decide_False; [done|]. intros Hb'. apply Hr. right. fold k. lia.
  - destruct Hm as [M1 M2 M3 M4]. split; cbn; rewrite ?E1, ?E3, ?E0; try done. intros _ j Hj. fold k in Hj. rewrite Hdsk, decide_True by lia.
    f_equal. lia.
Qed.

(** A superblock with its volume name cut off. *)
Definition terminated (sb : superblock) : superblock := mksb (sb_magic sb) (<[31%nat := 0]> (sb_volname sb)) (sb_reserved sb).

(** A mounted volume. *)
Record mnt_ok (I : gset Z) (m : mnt) : Prop := {
  mk_fs : fs_ok I (mfs m);
  mk_tree : tree_ok I (mfs m);
  mk_sb : sb_ok (sfs_sb m);
  mk_super : sfs_superdirty m = false -> terminated (sb_of_block (dsk (vol (mfs m)) 0)) = sfs_sb m;
  mk_device : sfs_device m = true
}.

(** Nothing in memory is newer than the disk. *)
Record synced (m : mnt) : Prop := {
  sy_vnodes : vnodes_clean (mfs m);
  sy_map : sfs_freemapdirty (vol (mfs m)) = false;
  sy_super : sfs_superdirty m = false
}.

Lemma sync_ok I m : mnt_ok I m ->
  exists m', sfs_sync m = Done tt m' /\ mnt_ok I m' /\ synced m' /\ same_tree I (mfs m) (mfs m') /\ sfs_sb m' = sfs_sb m /\
    sfs_vnodes (mfs m') = sfs_vnodes (mfs m).
Proof.
  intros [Hok Ht Hsb Hsup Hdev]. unfold sfs_sync, sfs_sync_vnodes, on_fs. kunfold. pose proof Hok as [Hb Htab _].
  destruct (sync_loop I (Z.to_nat (arr_num (sfs_vnodes (mfs m)))) 0 (mfs m) Hok) as (s1 & -> & Hw1 & Hc1 & E1); [lia| |intros; lia|].
  { pose proof (contents_length _ (to_arr _ _ Htab)). lia. }
  unfold on_dev, on_fs, on_vol. cbn [mfs set_mfs].
  destruct (sync_freemap_ok I s1 (wr_fs _ _ _ Hw1)) as (t2 & -> & Hw2 & Hmd & E2).
  set (s2 := set_vol t2 s1) in *. pose proof (written_trans _ _ _ _ Hw1 Hw2) as Hw. unfold sfs_sync_superblock. kunfold.
  cbn [sfs_superdirty set_mfs mfs sfs_sb]. destruct (sfs_superdirty m) eqn:Esd.
  - unfold on_dev, on_fs, on_vol. cbn [mfs set_mfs]. destruct (nblocks_range I s2 (wr_fs _ _ _ Hw)) as [Hn Hnd].
    pose proof (fs_map _ _ (wr_fs _ _ _ Hw)) as Hmo. pose proof (bo_vol _ _ _ (fs_blocks _ _ (wr_fs _ _ _ Hw))) as Hvol.
    pose proof (vo_disk _ Hvol) as (Hd1 & Hd2 & Hd3). pose proof (sb_bytes_length (sfs_sb m) (sb_nblocks (vol s2)) Hsb) as Hlen.
    destruct (sb_roundtrip (sfs_sb m) (sb_nblocks (vol s2)) Hsb) as [Hrt Hrn]; [lia|].
    rewrite writeblock_ok by (done || (unfold SFS_SUPER_BLOCK; lia)). set (t3 := set_dsk _ _).
    assert (Hw3 : written I s2 (set_vol t3 s2)).
    { apply fs_reserved; try done.
      - apply (wr_fs _ _ _ Hw).
      - split_and!; [done|done|]. intros b. cbn. unfold upd. by destruct (b =? _).
      - intros b Hr. cbn. unfold upd. destruct (Z.eqb_spec b SFS_SUPER_BLOCK) as [->|]; [|done]. destruct Hr. by left.
      - destruct Hmo as [M1 M2 M3 M4]. split; cbn -[upd]; try done.
        + unfold upd. cbn [Z.eqb SFS_SUPER_BLOCK]. split; [|done]. change (sb_magic (sb_of_block (sb_bytes (sfs_sb m) (sb_nblocks (vol s2)))) = SFS_MAGIC).
          rewrite Hrt. apply Hsb.
        + intros Hf j Hj. unfold upd. destruct (Z.eqb_spec (2 + j) SFS_SUPER_BLOCK) as [E|]; [unfold SFS_SUPER_BLOCK in E; lia|]. by apply M4. }
    pose proof (written_trans _ _ _ _ Hw Hw3) as [Hok3 Hun3 Ev3 Em3 En3]. eexists. split; [done|]. cbn [mfs set_superclean set_mfs sfs_sb].
    pose proof (same_tree_intro I _ _ Ht Hok3 Hun3) as Hst. split; [|split_and!; try done; by split]. split; try done; [apply Hst|].
    intros _. change (terminated (sb_of_block (sb_bytes (sfs_sb m) (sb_nblocks (vol s2)))) = sfs_sb m). rewrite Hrt. unfold terminated. rewrite (proj2 (sbo_name _ Hsb)). by destruct (sfs_sb m).
  - eexists. split; [done|]. cbn [mfs set_mfs sfs_sb]. pose proof Hw as [Hok2 Hun2 Ev2 Em2 En2].
    pose proof (same_tree_intro I _ _ Ht Hok2 Hun2) as Hst. split; [|split_and!; try done; by split]. split; try done; [apply Hst|].
    intros _. cbn [mfs set_mfs]. change (vol s2) with t2. rewrite E2, E1. by apply Hsup.
Qed.

(** ** Mounting *)

(** A volume with no vnode in memory, whose disk is that of one with nothing to write. *)
Lemma fresh_ok I s s2 : fs_ok I s -> vnodes_clean s -> sfs_freemapdirty (vol s) = false ->
  vheap s2 = ∅ -> sfs_vnodes s2 = array_init -> dsk (vol s2) = dsk (vol s) -> disk_ok (vol s2) ->
  sfs_freemap (vol s2) = sfs_freemap (vol s) -> sb_nblocks (vol s2) = sb_nblocks (vol s) ->
  fs_ok I s2 /\ forall j, j ∈ I -> unchanged s s2 j.
Proof.
  intros [Hb Ht Hm] Hcl Hmd Eh Ea Ed Hd Em En.
  assert (Ei : forall j, j ∈ I -> inode_of s2 j = inode_of s j).
  { intros j Hj. unfold inode_of at 1, loaded. rewrite Eh, Ea. cbn [contents array_init arr_v arr_num take Z.to_nat find_vn].
    rewrite Ed. unfold inode_of. destruct (loaded s j) as [x|] eqn:El; [|done].
    apply loaded_iff in El as (v & Hv & <-); [|by eapply tab_indexed]. apply (to_clean _ _ Ht v x Hv). by apply (Hcl v). }
  assert (Hvol : vol_ok (vol s2)) by (destruct (bo_vol _ _ _ Hb) as [_ ? ? ? ?]; split; rewrite ?Em, ?En; done).
  destruct (blocks_frame I (inode_of s) (inode_of s2) (vol s) (vol s2) Hb Hvol En) as [Hb' Hsf].
  { intros j Hj. right. by apply Ei. }
  { intros b Hbo. rewrite Em. by eapply owned_bit. }
  { intros j p _ _. by rewrite Ed. }
  split; [|intros j Hj; apply unchanged_intro; [by apply Ei|by apply Hsf]]. split; [done| |].
  - split; rewrite ?Eh, ?Ea; cbn [contents array_init arr_v arr_num take Z.to_nat].
    + split; [cbn; lia|done|by left].
    + constructor.
    + intros v. rewrite lookup_empty. split; [by intros ?%not_elem_of_nil|by intros [? [=]]].
    + intros v x. by rewrite lookup_empty.
    + intros v v' x x'. by rewrite lookup_empty.
    + intros v x. by rewrite lookup_empty.
    + intros v _. apply lookup_empty.
  - destruct Hm as [M1 M2 M3 M4]. split; rewrite ?Em, ?En, ?Ed; try done. intros _. by apply M4.
Qed.

(** The map that was written is the map that is read. *)
Lemma freemap_read_back t m k : disk_ok t -> wf m -> nbits m = 4096 * Z.of_nat k -> nbits (sfs_freemap t) = nbits m -> wf (sfs_freemap t) ->
  2 + Z.of_nat k <= d_blocks -> (forall j, 0 <= j < Z.of_nat k -> dsk t (2 + j) = map_block m j) ->
  exists t', freemapio_loop k 0 UIO_READ t = Done tt t' /\ disk_ok t' /\ disk_only (set_map m t) t' /\ dsk t' = dsk t.
Proof.
  intros Hd Hw Hn Hn' Hw' Hk Hj. pose proof (wf_length m Hw). pose proof (wf_length _ Hw').
  destruct (freemap_read k 0 t Hd) as (t' & m' & E & Hd' & Ho & Edsk & En & El & Hp); [lia|lia|lia|].
  assert (m' = m) as ->; [|by exists t']. enough (v m' = v m) by (destruct m', m; cbn in *; congruence).
  apply list_eq. intros p. destruct (decide (p < length (v m'))%nat) as [Hlt|Hge].
  - rewrite Hp, decide_False, Hj by (done || lia || (Z.div_mod_to_equations; lia)). unfold map_block.
    rewrite lookup_take_lt by (apply Nat.mod_upper_bound; lia). rewrite lookup_drop. f_equal.
    apply Nat2Z.inj. rewrite Nat2Z.inj_add, Nat2Z.inj_mod. Z.div_mod_to_equations. lia.
  - rewrite !(proj2 (lookup_ge_None _ _)) by lia. done.
Qed.

(** A volume as [sfs_domount] has it before the free map is read. *)
Record blank (s : fs) (m : mnt) : Prop := {
  bl_heap : vheap (mfs m) = ∅;
  bl_table : sfs_vnodes (mfs m) = array_init;
  bl_dsk : dsk (vol (mfs m)) = dsk (vol s);
  bl_disk : disk_ok (vol (mfs m));
  bl_nblocks : sb_nblocks (vol (mfs m)) = sb_nblocks (vol s);
  bl_flags : sfs_freemapdirty (vol (mfs m)) = false /\ sfs_superdirty m = false /\ sfs_device m = true
}.

Lemma abandon_blank s m : blank s m -> exists m', abandon (A:=unit) ENOMEM m = Fail ENOMEM m' /\ dsk (vol (mfs m')) = dsk (vol s).
Proof.
  intros [Hh Ha Hd _ _ _]. unfold abandon, sfs_fs_destroy, on_fs, on_vnodes, array_cleanup. kunfold. cbn [mfs set_device].
  rewrite Ha. cbn. eexists. split; [done|exact Hd].
Qed.

Lemma mount_freemap_ok I s m : fs_ok I s -> sfs_freemapdirty (vol s) = false -> blank s m ->
  (exists m', mount_freemap m = Done tt m' /\ blank s m' /\ sfs_freemap (vol (mfs m')) = sfs_freemap (vol s) /\ sfs_sb m' = sfs_sb m) \/
  (exists m', mount_freemap m = Fail ENOMEM m' /\ dsk (vol (mfs m')) = dsk (vol s)).
Proof.
  intros Hok Hmd Hbl. pose proof Hok as [Hb _ Hm]. destruct (nblocks_range I s Hok) as [Hn Hnd]. pose proof (bo_vol _ _ _ Hb) as Hvol.
  destruct Hbl as [Hh Ha Hd Hdk Hnb (Hf1 & Hf2 & Hf3)]. unfold mount_freemap, kmalloc_obj. kunfold.
  destruct (kmalloc_ok (nalloc (mfs m))); cbn [mfs set_mfs nalloc vol vheap sfs_vnodes nextv].
  2:{ right. apply abandon_blank. done. }
  destruct (kmalloc_ok (S (nalloc (mfs m)))).
  2:{ right. apply abandon_blank. done. }
  rewrite Hnb. destruct (freemapblocks_eq (vol s)) as (Eb & Ef & Hf); [lia|]. rewrite Eb.
  set (k := SFS_FREEMAPBLOCKS (sb_nblocks (vol s))) in *. pose proof (mo_room _ Hm) as Hroom. pose proof (mo_bits _ Hm) as Hbits. fold k in Hroom, Hbits.
  destruct (bitmap_create_spec (4096 * k)) as (b & -> & Hwb & Hnbt & _); [rewrite <- Hbits; apply Hvol|].
  unfold on_dev, on_fs, on_vol. cbn [mfs set_mfs vol set_vol]. unfold sfs_freemapio. kunfold.
  assert (Ek : SFS_FS_FREEMAPBLOCKS (set_map b (vol (mfs m))) = k) by (unfold SFS_FS_FREEMAPBLOCKS in *; cbn [sb_nblocks set_map]; by rewrite Hnb).
  rewrite Ek. destruct (freemap_read_back (set_map b (vol (mfs m))) (sfs_freemap (vol s)) (Z.to_nat k)) as (t' & -> & Hdt & (E1 & E2 & E3 & _) & Edsk).
  { destruct Hdk as (? & ? & ?). by split_and!. } { apply Hvol. } { rewrite Hbits. lia. } { change (nbits b = nbits (sfs_freemap (vol s))). congruence. } { done. } { lia. }
  { intros j Hj. cbn. rewrite Hd. apply (mo_clean _ Hm); [done|]. fold k. lia. }
  left. eexists. split; [done|]. split; [|done]. split; cbn; try done; [by rewrite Edsk|by rewrite E3|by rewrite E2].
Qed.

Lemma mount_ok I m m0 : mnt_ok I m -> synced m -> dsk (vol (mfs m0)) = dsk (vol (mfs m)) -> length (lh_buf (vol (mfs m0))) = 512%nat ->
  (exists m', sfs_domount SFS_BLOCKSIZE m0 = Done tt m' /\ mnt_ok I m' /\ synced m' /\ same_tree I (mfs m) (mfs m') /\
     sfs_sb m' = sfs_sb m /\ sfs_vnodes (mfs m') = array_init) \/
  (exists m', sfs_domount SFS_BLOCKSIZE m0 = Fail ENOMEM m' /\ dsk (vol (mfs m')) = dsk (vol (mfs m))).
Proof.
  intros [Hok Ht Hsb Hsup Hdev] [Hcl Hmd Hsd] Ed Hlb. pose proof Hok as [Hb _ Hm]. destruct (nblocks_range I (mfs m) Hok) as [Hn Hnd].
  destruct (vo_disk _ (bo_vol _ _ _ Hb)) as (Hd1 & Hd2 & Hd3). specialize (Hsup Hsd). destruct (mo_super _ Hm) as [Hmag Hnb].
  unfold sfs_domount, sfs_fs_create, kmalloc_obj. rewrite Z.eqb_refl. cbn [negb]. kunfold.
  destruct (kmalloc_ok _); cbn [negb]; [|right; eexists; done]. cbn [mfs set_mfs nalloc].
  destruct (kmalloc_ok _); cbn [negb]; [|right; eexists; done].
  unfold on_dev, on_fs, on_vol. cbn [mfs set_mfs set_device vol nalloc vheap sfs_vnodes nextv].
  set (t1 := set_mapclean _). assert (Hdt : disk_ok t1) by (split_and!; [done|done|]; intros b; cbn; rewrite Ed; apply Hd3).
  rewrite readblock_ok by (done || (unfold SFS_SUPER_BLOCK; lia)). change (dsk t1 SFS_SUPER_BLOCK) with (dsk (vol (mfs m0)) 0).
  rewrite Ed. cbn [mfs set_mfs set_sb set_vol vol sfs_sb sb_magic sb_of_block]. rewrite Hmag, Z.eqb_refl, Hnb. cbn [negb].
  match goal with |- context [mount_freemap ?x] => set (m1 := x) end.
  assert (Hbl : blank (mfs m) m1) by (split; try done; split_and!; [done|apply Hd3|]; intros b; cbn; rewrite Ed; apply Hd3).
  destruct (mount_freemap_ok I (mfs m) m1 Hok Hmd Hbl) as [(m' & -> & [Bh Ba Bd Bk Bn (B1 & B2 & B3)] & Em & Esb)|(m' & -> & E)]; [left|right; by exists m'].
  destruct (fresh_ok I (mfs m) (mfs m')) as [Hok' Hun]; try done. pose proof (same_tree_intro I _ _ Ht Hok' Hun) as Hst.
  assert (Es : sfs_sb m' = sfs_sb m) by (rewrite Esb, <- Hsup; unfold terminated; cbn [sb_of_block sb_magic]; by rewrite Hmag).
  exists m'. split; [done|]. split; [|split_and!; try done]; split; try done.
  - apply Hst.
  - by rewrite Es.
  - intros _. by rewrite Bd, Es.
  - intros v x. by rewrite Bh, lookup_empty.
Qed.

(** ** Theorems *)

(** Sync, then mount, on a disk without errors. *)
Lemma sync_mount_ok (I : gset Z) (m : mnt) (Hm : mnt_ok I m) :
  exists m', sfs_sync m = Done tt m' /\ mnt_ok I m' /\ same_tree I (mfs m) (mfs m') /\
    forall m0, dsk (vol (mfs m0)) = dsk (vol (mfs m')) -> length (lh_buf (vol (mfs m0))) = 512%nat ->
      (exists m2, sfs_domount SFS_BLOCKSIZE m0 = Done tt m2 /\ mnt_ok I m2 /\ same_tree I (mfs m) (mfs m2) /\
         sfs_sb m2 = sfs_sb m /\ contents (sfs_vnodes (mfs m2)) = []) \/
      (exists m2, sfs_domount SFS_BLOCKSIZE m0 = Fail ENOMEM m2 /\ dsk (vol (mfs m2)) = dsk (vol (mfs m'))).
Proof.
  destruct (sync_ok I m Hm) as (m' & E & Hm' & Hsy & Hst & Esb & _). exists m'. do 3 (split; [done|]). intros m0 Ed Hl.
  destruct (mount_ok I m' m0 Hm' Hsy Ed Hl) as [(m2 & E2 & Hm2 & _ & Hst2 & Esb2 & Ev)|(m2 & E2 & Ed2)]; [left|right; by exists m2].
  exists m2. rewrite Ev. split; [done|]. split; [done|]. split; [by eapply same_tree_trans|]. split; [congruence|done].
Qed.

(** Unmounting a volume that has just been synced. It fails with [EBUSY], and nothing
    changes, exactly when some vnode is still in memory; otherwise the volume is gone, no
    assertion fails and the disk is as it was. *)
Theorem sfs_unmount_spec (I : gset Z) (m : mnt) (Hm : mnt_ok I m) (Hs : synced m) :
  match contents (sfs_vnodes (mfs m)) with
  | [] => exists m', sfs_unmount m = Done tt m' /\ sfs_live m' = false /\ sfs_device m' = false /\ vol (mfs m') = vol (mfs m)
  | _ :: _ => sfs_unmount m = Fail EBUSY m
  end.
Proof.
  destruct Hm as [[_ Ht _] _ _ _ _], Hs as [_ Hmd Hsd]. pose proof (contents_length _ (to_arr _ _ Ht)) as Hl.
  unfold sfs_unmount. kunfold. destruct (contents (sfs_vnodes (mfs m))) as [|v l]; cbn [length] in Hl.
  - rewrite (proj2 (Z.ltb_ge _ _)) by lia. rewrite Hsd, Hmd. unfold sfs_fs_destroy, on_fs, on_vnodes, array_cleanup. kunfold.
    cbn [negb mfs set_device]. unfold kret. rewrite <- Hl. cbn. eexists. done.
  - by rewrite (proj2 (Z.ltb_lt _ _)) by lia.
Qed.

(** What cannot be mounted. A device with the wrong sector size is refused with [ENXIO]
    before anything else happens; a disk without the magic number is never mounted: the
    error is [EINVAL], or [ENOMEM] if there was not even memory for the structure. The
    disk is not changed. *)
Theorem sfs_domount_rejects (m : mnt) (bs : Z) (Hd : disk_ok (vol (mfs m))) (Hb : 0 < d_blocks) :
  (bs <> SFS_BLOCKSIZE -> sfs_domount bs m = Fail ENXIO m) /\
  (bs = SFS_BLOCKSIZE -> word_at (dsk (vol (mfs m)) 0) 0 <> SFS_MAGIC ->
     exists e m', sfs_domount bs m = Fail e m' /\ (e = EINVAL \/ e = ENOMEM) /\ dsk (vol (mfs m')) = dsk (vol (mfs m))).
Proof.
  unfold sfs_domount. split.
  - intros Hne. by rewrite (proj2 (Z.eqb_neq _ _)).
  - intros -> Hmag. rewrite Z.eqb_refl. unfold sfs_fs_create, kmalloc_obj. cbn [negb]. kunfold.
    destruct (kmalloc_ok _); cbn [negb]; [|exists ENOMEM; eexists; split; [done|]; split; [by right|done]]. cbn [mfs set_mfs nalloc].
    destruct (kmalloc_ok _); cbn [negb]; [|exists ENOMEM; eexists; split; [done|]; split; [by right|done]].
    unfold on_dev, on_fs, on_vol. cbn [mfs set_mfs set_device vol nalloc vheap sfs_vnodes nextv].
    rewrite readblock_ok by (done || (unfold SFS_SUPER_BLOCK; lia)). cbn [mfs set_mfs set_sb set_vol vol sfs_sb sb_magic sb_of_block].
    rewrite (proj2 (Z.eqb_neq _ _)) by done. cbn [negb]. exists EINVAL. eexists. split; [reflexivity|]. split; [by left|done].
Qed.

End Sound.

End Fsops.

(** ** A concrete volume *)

Definition demo_mnt : mnt := mkmnt (demo_fs idle) (mksb SFS_MAGIC (replicate 32 0) (replicate 118 0)) false true true.

Lemma demo_mnt_ok : mnt_ok demo_files demo_mnt.
Proof.
  split; [apply demo_fs_ok|apply demo_tree_ok| |vm_compute; reflexivity|reflexivity].
  split; [reflexivity|split; reflexivity|split; [reflexivity|]]. apply Forall_replicate. lia.
Qed.

(** The machine restarts: only the disk is left. *)
Definition restarted (d : Z -> list Z) : mnt :=
  mkmnt (mkfs (mkst d (replicate 512 0) 0 (mkbitmap 0 []) false 0 (vn_sv demo_root) idle) ∅ array_init 0 0) (mksb 0 [] []) false false false.

Definition disk_after {A} (o : outcome mnt A) : Z -> list Z :=
  match o with Done _ m | Fail _ m => dsk (vol (mfs m)) | Halt _ => fun _ => [] end.

Lemma sfs_unmount_spec_witness : sfs_unmount demo_mnt = Fail EBUSY demo_mnt.
Proof.
  apply (sfs_unmount_spec demo_files demo_mnt demo_mnt_ok). split; [|reflexivity|reflexivity].
  intros v x. cbn. intros [_ <-]%lookup_singleton_Some. reflexivity.
Defined.

Lemma sfs_domount_rejects_witness : sfs_domount 1024 demo_mnt = Fail ENXIO demo_mnt.
Proof.
  destruct (sfs_domount_rejects demo_mnt 1024) as [HE _]; [apply (vo_disk _ (demo_vol_ok idle))|vm_compute; reflexivity|].
  apply HE. discriminate.
Defined.
