(* ===== verification/SfsErrors.v ===== *)
(** * SFS on a disk that may fail

    The lemmas of the SFS files are about disks that report no error. Here every operation
    is compared, run by run, with the same operation on a disk that never fails: the two
    runs are the same, or the disk reports an error for one of the requests ([io_error]).
    The theorems below are therefore about every disk. *)

From stdpp Require Import base numbers list gmap.
From Stdlib Require Import ZArith Lia.
From S2P Require Import Prelude Bitmap SfsDisk SfsFile SfsTrunc SfsDir SfsMap KArray SfsOwn SfsInode SfsVnops SfsMount.

Open Scope Z_scope.
Open Scope k_scope.

(** The number of requests made of the disk so far. *)
Class Counted (S : Type) := requests : S -> nat.
#[global] Instance st_counted : Counted st := ops.
#[global] Instance fs_counted : Counted fs := fun s => ops (vol s).
#[global] Instance mnt_counted : Counted mnt := fun s => ops (vol (mfs s)).

(** The same disk without errors. *)
Definition repaired : Disk := {| lh_result _ := 0; junk _ := [] |}.

#[global] Instance repaired_reliable : Reliable repaired.
Proof. done. Qed.

(** The disk refuses one of the requests of operation [m], started in [s]: the [k]-th
    request is one of those that the operation makes on a disk without errors, and the
    disk reports an error for it. (Up to the first such request the run is the same.) *)
Definition io_error {D : Disk} {S A} {C : Counted S} (m : Disk -> K S A) (s : S) : Prop :=
  exists k, (requests s <= k)%nat /\ lh_result k <> 0 /\
    match m repaired s with Done _ s' | Fail _ s' => (k < requests s')%nat | Halt _ => False end.

Section Agree.
Context {D : Disk}.

Definition refused {S A} {C : Counted S} (s : S) (o : outcome S A) : Prop :=
  exists k, (requests s <= k)%nat /\ lh_result k <> 0 /\
    match o with Done _ s' | Fail _ s' => (k < requests s')%nat | Halt _ => True end.

Definition grows {S A} {C : Counted S} (s : S) (o : outcome S A) : Prop :=
  match o with Done _ s' | Fail _ s' => (requests s <= requests s')%nat | Halt _ => True end.

(** [m0] is [m] on the repaired disk. *)
Definition agree {S A} {C : Counted S} (m m0 : K S A) : Prop :=
  forall s, grows s (m0 s) /\ (m s = m0 s \/ refused s (m0 s)).

(** An operation that does not stop the kernel on the repaired disk. *)
Lemma agree_run {S A} {C : Counted S} (m : Disk -> K S A) s : agree (m D) (m repaired) -> (forall h, m repaired s <> Halt h) ->
  m D s = m repaired s \/ io_error m s.
Proof.
  intros Hm Hh. destruct (Hm s) as [_ [E|(k & Hk & Hr & Hlt)]]; [by left|]. right. exists k. split_and!; [done|done|].
  destruct (m repaired s) as [| |h]; [done|done|]. by apply (Hh h).
Qed.

Section Rules.
Context {S : Type} {C : Counted S}.

Lemma agree_same {A} (m : K S A) : (forall s, grows s (m s)) -> agree m m.
Proof. intros Hm s. split; [apply Hm|by left]. Qed.

Lemma agree_ret {A} (a : A) : agree (S := S) (kret a) (kret a).
Proof. apply agree_same. intros s. by cbn. Qed.

Lemma agree_fail {A} e : agree (S := S) (A := A) (kfail e) (kfail e).
Proof. apply agree_same. intros s. by cbn. Qed.

Lemma agree_halt {A} h : agree (S := S) (A := A) (khalt h) (khalt h).
Proof. apply agree_same. intros s. by cbn. Qed.

Lemma agree_get : agree (S := S) kget kget.
Proof. apply agree_same. intros s. by cbn. Qed.

Lemma agree_assert b : agree (S := S) (kassert b) (kassert b).
Proof. apply agree_same. intros s. by destruct b; cbn. Qed.

Lemma agree_modify f : (forall s, (requests s <= requests (f s))%nat) -> agree (kmodify f) (kmodify f).
Proof. intros Hf. apply agree_same. intros s. apply Hf. Qed.

Lemma agree_bind {A B} (m m0 : K S A) (f f0 : A -> K S B) :
  agree m m0 -> (forall a, agree (f a) (f0 a)) -> agree (a <- m ;; f a) (a <- m0 ;; f0 a).
Proof.
  intros Hm Hf s. destruct (Hm s) as [Hg Hc]. unfold kbind. destruct (m0 s) as [a s1|e s1|h].
  - destruct (Hf a s1) as [Hg1 Hc1]. cbn in Hg. split; [destruct (f0 a s1); cbn in *; [lia|lia|done]|].
    destruct Hc as [->|(k & Hk & Hr & Hlt)].
    + destruct Hc1 as [E1|(k & Hk & Hr & Hlt)]; [by left|]. right. exists k. split_and!; [lia|done|]. by destruct (f0 a s1).
    + right. exists k. split_and!; [done|done|]. destruct (f0 a s1); cbn in *; [lia|lia|done].
  - split; [done|]. destruct Hc as [->|Hc]; [by left|by right].
  - split; [done|]. destruct Hc as [->|Hc]; [by left|by right].
Qed.

Lemma agree_attempt {A} (m m0 : K S A) : agree m m0 -> agree (attempt m) (attempt m0).
Proof.
  intros Hm s. destruct (Hm s) as [Hg Hc]. unfold attempt. split; [by destruct (m0 s)|]. destruct Hc as [->|(k & Hk & Hr & Hlt)]; [by left|].
  right. exists k. split_and!; [done|done|]. by destruct (m0 s).
Qed.

End Rules.

(** An operation on a part of the state that has the disk. *)
Lemma agree_zoom {S T A} {CS : Counted S} {CT : Counted T} (get : T -> S) (put : S -> T -> T) (m m0 : K S A) :
  (forall t, requests (get t) = requests t) -> (forall s t, requests (put s t) = requests s) -> agree m m0 ->
  agree (fun t => match m (get t) with Done a s => Done a (put s t) | Fail e s => Fail e (put s t) | Halt h => Halt h end)
        (fun t => match m0 (get t) with Done a s => Done a (put s t) | Fail e s => Fail e (put s t) | Halt h => Halt h end).
Proof.
  intros Hg Hp Hm t. destruct (Hm (get t)) as [Hgr Hc]. split.
  - destruct (m0 (get t)); cbn in *; rewrite ?Hp, ?Hg in *; done.
  - destruct Hc as [->|(k & Hk & Hr & Hlt)]; [by left|]. right. rewrite Hg in Hk. exists k. split_and!; [done|done|].
    destruct (m0 (get t)); rewrite ?Hp; done.
Qed.

End Agree.

Create HintDb disk.
#[export] Hint Resolve agree_ret agree_fail agree_halt agree_get agree_assert : disk.
#[export] Hint Extern 4 (agree (kmodify _) (kmodify _)) => 
  (apply agree_modify; intros ?; unfold requests, st_counted, fs_counted, mnt_counted; repeat case_match; cbn; lia) : disk.

(** Follow both runs through the code. *)
Ltac agrees := repeat match goal with
  | |- agree (if ?b then _ else _) (if ?b then _ else _) => destruct b
  | |- agree (match ?x with _ => _ end) (match ?x with _ => _ end) => destruct x
  | |- agree (kbind _ _) (kbind _ _) => apply agree_bind; [|intros ?]
  | |- agree (attempt _) (attempt _) => apply agree_attempt
  | |- agree _ _ => solve [auto with disk]
  end.

(** ** The driver *)

Section Volume.
Context {G : Geometry} {D : Disk}.

Lemma uiomove_state {S} ptr n u (s : S) : match uiomove ptr n u s with Done _ s' | Fail _ s' => s' = s | Halt _ => True end.
Proof. unfold uiomove. destruct (_ || _); [done|]. destruct (_ =? 0); [done|]. destruct (seg_faults _ _); [done|]. by destruct (_ && _). Qed.

Lemma agree_uiomove {S} {C : Counted S} ptr n u : agree (S := S) (uiomove ptr n u) (uiomove ptr n u).
Proof. apply agree_same. intros s. pose proof (uiomove_state ptr n u s) as Hs. unfold grows. destruct (uiomove ptr n u s); by try rewrite Hs. Qed.
#[local] Hint Resolve agree_uiomove : disk.

Lemma agree_zeros {S} {C : Counted S} fuel : forall n u, agree (S := S) (uiomovezeros fuel n u) (uiomovezeros fuel n u).
Proof. induction fuel as [|fuel IH]; intros n u; cbn [uiomovezeros]; agrees. Qed.
#[local] Hint Resolve agree_zeros : disk.

(** A sector that is transferred without an error. *)
Definition good_sector (sector : Z) (u : uio) : K st uio :=
  s <- kget ;;
  r <- (match uio_rwf u with
        | UIO_WRITE => uiomove (lh_buf s) SFS_BLOCKSIZE u
        | UIO_READ => kret (lh_buf s, u)
        end) ;;
  let '(buf, u) := r in
  kmodify (fun s => set_ops S (set_buf buf s)) ;;;
  kmodify (fun s => match uio_rwf u with
                    | UIO_WRITE => set_dsk (upd sector buf) s
                    | UIO_READ => set_buf (dsk s sector) s
                    end) ;;;
  s <- kget ;;
  r <- (match uio_rwf u with
        | UIO_READ => uiomove (lh_buf s) SFS_BLOCKSIZE u
        | UIO_WRITE => kret (lh_buf s, u)
        end) ;;
  kret (snd r).

Lemma good_sector_grows sector u s : grows s (good_sector sector u s).
Proof. apply (fun H : agree (good_sector sector u) (good_sector sector u) => proj1 (H s)). unfold good_sector. agrees. Qed.

(** A request for the sector is made, unless the data cannot be fetched. *)
Definition fetch (u : uio) (s : st) : outcome st (list Z * uio) :=
  match uio_rwf u with UIO_WRITE => uiomove (lh_buf s) SFS_BLOCKSIZE u s | UIO_READ => Done (lh_buf s, u) s end.

Lemma fetch_state u s : match fetch u s with Done _ s' | Fail _ s' => s' = s | Halt _ => True end.
Proof. unfold fetch. destruct (uio_rwf u); [done|apply uiomove_state]. Qed.

Lemma good_sector_request sector u s r : fetch u s = Done r s ->
  match good_sector sector u s with Done _ s' | Fail _ s' => requests s' = S (requests s) | Halt _ => True end.
Proof.
  intros E. unfold good_sector, fetch in *. kunfold.
  destruct (uio_rwf u); rewrite ?E; [injection E as <-|destruct r as [buf u1]].
  - destruct (uio_rwf u); [|done]. cbn [lh_buf set_buf].
    match goal with |- context [uiomove ?a ?b ?c ?d] => pose proof (uiomove_state a b c d) as Hs; destruct (uiomove a b c d) end; by try rewrite Hs.
  - destruct (uio_rwf u1); [|done]. cbn [lh_buf set_buf].
    match goal with |- context [uiomove ?a ?b ?c ?d] => pose proof (uiomove_state a b c d) as Hs; destruct (uiomove a b c d) end; by try rewrite Hs.
Qed.

Lemma sectors_good (D' : Disk) len sector u s : lh_result (ops s) = 0 ->
  lhd_sectors (S len) sector u s = (u2 <- good_sector sector u ;; lhd_sectors len (sector + 1) u2) s.
Proof.
  intros Hr. cbn [lhd_sectors]. unfold good_sector. kunfold. rewrite Hr. cbn [Z.eqb negb]. repeat (case_match; simplify_eq; try done).
Qed.

(** Without the data there is no request, and the disk does not matter. *)
Lemma sectors_no_data (D1 D2 : Disk) len sector u s : (forall r, fetch u s <> Done r s) ->
  lhd_sectors (D := D1) (S len) sector u s = lhd_sectors (D := D2) (S len) sector u s.
Proof.
  intros Hf. pose proof (fetch_state u s) as Hs. unfold fetch in Hf, Hs. cbn [lhd_sectors]. kunfold.
  destruct (uio_rwf u); [by destruct (Hf (lh_buf s, u))|]. destruct (uiomove _ _ _ s) as [r s'| |]; [subst s'; by destruct (Hf r)|done|done].
Qed.

Lemma agree_sectors len : forall sector u, agree (lhd_sectors (D := D) len sector u) (lhd_sectors (D := repaired) len sector u).
Proof.
  induction len as [|len IH]; intros sector u; [apply agree_ret|]. intros s.
  rewrite (sectors_good repaired) by done.
  assert (Hb : agree (u2 <- good_sector sector u ;; lhd_sectors (D := D) len (sector + 1) u2) (u2 <- good_sector sector u ;; lhd_sectors (D := repaired) len (sector + 1) u2))
    by (apply agree_bind; [apply agree_same, good_sector_grows|auto]).
  split; [apply Hb|]. destruct (decide (lh_result (ops s) = 0)) as [Hr|Hr]; [rewrite (sectors_good D) by done; apply Hb|].
  pose proof (fetch_state u s) as Hf. destruct (fetch u s) as [r s'|e s'|h] eqn:E.
  - subst s'. right. exists (ops s). split_and!; [done|done|]. pose proof (good_sector_request sector u s r E) as Hq.
    unfold kbind. destruct (good_sector sector u s) as [u2 s2|e s2|h]; [|rewrite Hq; apply Nat.lt_succ_diag_r|done].
    destruct (IH (sector + 1) u2 s2) as [Hg _].
    destruct (lhd_sectors (D := repaired) len (sector + 1) u2 s2); cbn in Hg; unfold requests, st_counted in *; [lia|lia|done].
  - left. rewrite <- (sectors_good repaired) by done. apply sectors_no_data. congruence.
  - left. rewrite <- (sectors_good repaired) by done. apply sectors_no_data. congruence.
Qed.
#[local] Hint Resolve agree_sectors : disk.

Lemma agree_lhd_io u : agree (lhd_io (D := D) u) (lhd_io (D := repaired) u).
Proof. unfold lhd_io. agrees. Qed.
#[local] Hint Resolve agree_lhd_io : disk.

Lemma agree_retry left : forall u, agree (sfs_retry (D := D) left u) (sfs_retry (D := repaired) left u).
Proof. induction left as [|left IH]; intros u; cbn [sfs_retry]; agrees. Qed.
#[local] Hint Resolve agree_retry : disk.

Lemma agree_readblock b : agree (sfs_readblock (D := D) b) (sfs_readblock (D := repaired) b).
Proof. unfold sfs_readblock, sfs_rwblock. agrees. Qed.

Lemma agree_writeblock b data : agree (sfs_writeblock (D := D) b data) (sfs_writeblock (D := repaired) b data).
Proof. unfold sfs_writeblock, sfs_rwblock. agrees. Qed.
#[local] Hint Resolve agree_readblock agree_writeblock : disk.

Lemma agree_freemap {A} (m : K bitmap A) : agree (on_freemap m) (on_freemap m).
Proof. apply agree_same. intros s. unfold on_freemap. by destruct (m (sfs_freemap s)); cbn. Qed.
#[local] Hint Resolve agree_freemap : disk.

Lemma agree_balloc : agree (sfs_balloc (D := D)) (sfs_balloc (D := repaired)).
Proof. unfold sfs_balloc, sfs_clearblock. agrees. Qed.

Lemma agree_bfree b : agree (sfs_bfree b) (sfs_bfree b).
Proof. unfold sfs_bfree. agrees. Qed.

Lemma agree_bused b : agree (sfs_bused b) (sfs_bused b).
Proof. unfold sfs_bused. agrees. Qed.
#[local] Hint Resolve agree_balloc agree_bfree agree_bused : disk.

(** ** Files *)

Lemma agree_bmap fb doalloc : agree (sfs_bmap (D := D) fb doalloc) (sfs_bmap (D := repaired) fb doalloc).
Proof. unfold sfs_bmap, check_used. agrees. Qed.
#[local] Hint Resolve agree_bmap : disk.

Lemma agree_partialio skip len : agree (sfs_partialio (D := D) skip len) (sfs_partialio (D := repaired) skip len).
Proof. unfold sfs_partialio. agrees. Qed.

Lemma agree_blockio : agree (sfs_blockio (D := D)) (sfs_blockio (D := repaired)).
Proof. unfold sfs_blockio, sfs_rwblock. agrees. Qed.
#[local] Hint Resolve agree_partialio agree_blockio : disk.

Lemma agree_blocks n : agree (sfs_blocks (D := D) n) (sfs_blocks (D := repaired) n).
Proof. induction n as [|n IH]; cbn [sfs_blocks]; agrees. Qed.
#[local] Hint Resolve agree_blocks : disk.

Lemma agree_io : agree (sfs_io (D := D)) (sfs_io (D := repaired)).
Proof. unfold sfs_io, sfs_io_cut, sfs_io_body, sfs_io_out. agrees. Qed.

Lemma agree_metaio pos data len rw : agree (sfs_metaio (D := D) pos data len rw) (sfs_metaio (D := repaired) pos data len rw).
Proof. unfold sfs_metaio. agrees. Qed.
#[local] Hint Resolve agree_metaio : disk.

Lemma agree_trunc_direct n : forall i blocklen, agree (trunc_direct n i blocklen) (trunc_direct n i blocklen).
Proof. induction n as [|n IH]; intros i blocklen; cbn [trunc_direct]; agrees. Qed.

Lemma agree_trunc_indirect l : forall j blocklen, agree (trunc_indirect l j blocklen) (trunc_indirect l j blocklen).
Proof. induction l as [|e l IH]; intros j blocklen; cbn [trunc_indirect]; agrees. Qed.
#[local] Hint Resolve agree_trunc_direct agree_trunc_indirect : disk.

Lemma agree_itrunc len : agree (sfs_itrunc (D := D) len) (sfs_itrunc (D := repaired) len).
Proof. unfold sfs_itrunc. agrees. Qed.

(** ** Directories *)

Lemma agree_nentries : agree sfs_dir_nentries sfs_dir_nentries.
Proof. unfold sfs_dir_nentries. agrees. Qed.

Lemma agree_findname_loop k : forall i name r, agree (findname_loop (D := D) k i name r) (findname_loop (D := repaired) k i name r).
Proof. induction k as [|k IH]; intros i name r; cbn [findname_loop]; unfold sfs_readdir; agrees. Qed.
#[local] Hint Resolve agree_nentries agree_findname_loop : disk.

Lemma agree_findname name e : agree (sfs_dir_findname (D := D) name e) (sfs_dir_findname (D := repaired) name e).
Proof. unfold sfs_dir_findname. agrees. Qed.
#[local] Hint Resolve agree_findname : disk.

Lemma agree_dir_link name ino : agree (sfs_dir_link (D := D) name ino) (sfs_dir_link (D := repaired) name ino).
Proof. unfold sfs_dir_link, sfs_writedir. agrees. Qed.

Lemma agree_dir_unlink slot : agree (sfs_dir_unlink (D := D) slot) (sfs_dir_unlink (D := repaired) slot).
Proof. unfold sfs_dir_unlink, sfs_writedir. agrees. Qed.

(** ** The free map *)

Lemma agree_freemapio_loop k : forall j rw, agree (freemapio_loop (D := D) k j rw) (freemapio_loop (D := repaired) k j rw).
Proof. induction k as [|k IH]; intros j rw; cbn [freemapio_loop]; agrees. Qed.
#[local] Hint Resolve agree_freemapio_loop : disk.

Lemma agree_freemapio rw : agree (sfs_freemapio (D := D) rw) (sfs_freemapio (D := repaired) rw).
Proof. unfold sfs_freemapio. agrees. Qed.
#[local] Hint Resolve agree_freemapio : disk.

Lemma agree_sync_freemap : agree (sfs_sync_freemap (D := D)) (sfs_sync_freemap (D := repaired)).
Proof. unfold sfs_sync_freemap. agrees. Qed.

End Volume.

#[export] Hint Resolve agree_readblock agree_writeblock agree_balloc agree_bfree agree_bused agree_io agree_itrunc agree_findname agree_dir_link
  agree_dir_unlink agree_freemapio agree_sync_freemap : disk.

(** ** Inodes and vnodes *)

Section Vnodes.
Context {G : Geometry} {D : Disk} {H : Heap}.

Lemma agree_on_vol {A} (m m0 : K st A) : agree m m0 -> agree (on_vol m) (on_vol m0).
Proof. by apply (agree_zoom vol set_vol). Qed.

Lemma agree_on_vn {A} v (m m0 : K st A) : agree m m0 -> agree (on_vn v m) (on_vn v m0).
Proof.
  intros Hm s. unfold on_vn. destruct (vheap s !! v) as [x|]; [|split; [done|by left]].
  by apply (agree_zoom (fun s => with_sv (vn_sv x) (vol s)) (put_vn v x)).
Qed.

(** What only looks at the vnodes makes no request. *)
Definition idle_op {A} (m : K fs A) : Prop := forall s, match m s with Done _ s' | Fail _ s' => vol s' = vol s | Halt _ => True end.

Lemma agree_idle {A} (m : K fs A) : idle_op m -> agree m m.
Proof.
  intros Hm. apply agree_same. intros s. specialize (Hm s). unfold grows, requests, fs_counted. destruct (m s); rewrite ?Hm; done.
Qed.

Lemma agree_on_vnodes {A} (m : K array A) : agree (on_vnodes m) (on_vnodes m).
Proof. apply agree_idle. intros s. unfold on_vnodes. by destruct (m (sfs_vnodes s)). Qed.

Lemma agree_vn_get v : agree (vn_get v) (vn_get v).
Proof. apply agree_idle. intros s. unfold vn_get. by destruct (vheap s !! v). Qed.

Lemma agree_kmalloc_vnode : agree kmalloc_vnode kmalloc_vnode.
Proof. apply agree_idle. intros s. unfold kmalloc_vnode. kunfold. by destruct (kmalloc_ok _). Qed.

Lemma agree_vnodearray_add v : agree (vnodearray_add v) (vnodearray_add v).
Proof. apply agree_idle. intros s. unfold vnodearray_add, on_vnodes. kunfold. by destruct (array_add _ _ _). Qed.
#[local] Hint Resolve agree_on_vol agree_on_vn agree_on_vnodes agree_vn_get agree_kmalloc_vnode agree_vnodearray_add : disk.

Lemma agree_vn_update v f : agree (vn_update v f) (vn_update v f).
Proof. unfold vn_update. agrees. Qed.

Lemma agree_vnode_cleanup v : agree (vnode_cleanup v) (vnode_cleanup v).
Proof. unfold vnode_cleanup. agrees. Qed.

Lemma agree_vnode_check v : agree (vnode_check v) (vnode_check v).
Proof. unfold vnode_check. agrees. Qed.

Lemma agree_vnode_index k : forall i v, agree (vnode_index k i v) (vnode_index k i v).
Proof. induction k as [|k IH]; intros i v; cbn [vnode_index]; agrees. Qed.
#[local] Hint Resolve agree_vn_update agree_vnode_cleanup agree_vnode_check agree_vnode_index : disk.

Lemma agree_load_search k : forall i ino, agree (load_search k i ino) (load_search k i ino).
Proof. induction k as [|k IH]; intros i ino; cbn [load_search]; agrees. Qed.

Lemma agree_sync_inode v : agree (sfs_sync_inode (D := D) v) (sfs_sync_inode (D := repaired) v).
Proof. unfold sfs_sync_inode. agrees. Qed.
#[local] Hint Resolve agree_load_search agree_sync_inode : disk.

Lemma agree_reclaim v : agree (sfs_reclaim (D := D) v) (sfs_reclaim (D := repaired) v).
Proof. unfold sfs_reclaim. agrees. Qed.
#[local] Hint Resolve agree_reclaim : disk.

Lemma agree_decref v : agree (vnode_decref (D := D) v) (vnode_decref (D := repaired) v).
Proof. unfold vnode_decref. agrees. Qed.

Lemma agree_loadvnode ino ty : agree (sfs_loadvnode (D := D) ino ty) (sfs_loadvnode (D := repaired) ino ty).
Proof. unfold sfs_loadvnode, vnode_incref. agrees. Qed.
#[local] Hint Resolve agree_decref agree_loadvnode : disk.

Lemma agree_makeobj ty : agree (sfs_makeobj (D := D) ty) (sfs_makeobj (D := repaired) ty).
Proof. unfold sfs_makeobj. agrees. Qed.
#[local] Hint Resolve agree_makeobj : disk.

(** ** The operations on vnodes *)

Lemma agree_lookonce v name : agree (sfs_lookonce (D := D) v name) (sfs_lookonce (D := repaired) v name).
Proof. unfold sfs_lookonce. agrees. Qed.
#[local] Hint Resolve agree_lookonce : disk.

Lemma agree_creat v name excl mode : agree (sfs_creat (D := D) v name excl mode) (sfs_creat (D := repaired) v name excl mode).
Proof. unfold sfs_creat. agrees. Qed.

Lemma agree_remove v name : agree (sfs_remove (D := D) v name) (sfs_remove (D := repaired) v name).
Proof. unfold sfs_remove. agrees. Qed.

Lemma agree_rename d1 n1 d2 n2 : agree (sfs_rename (D := D) d1 n1 d2 n2) (sfs_rename (D := repaired) d1 n1 d2 n2).
Proof. unfold sfs_rename, rename_move, rename_undo. agrees. Qed.

Lemma agree_read v : agree (sfs_read (D := D) v) (sfs_read (D := repaired) v).
Proof. unfold sfs_read. agrees. Qed.

Lemma agree_write v : agree (sfs_write (D := D) v) (sfs_write (D := repaired) v).
Proof. unfold sfs_write. agrees. Qed.

(** ** The volume operations *)

Lemma agree_on_fs {A} (m m0 : K fs A) : agree m m0 -> agree (on_fs m) (on_fs m0).
Proof. by apply (agree_zoom mfs set_mfs). Qed.

Lemma agree_on_dev {A} (m m0 : K st A) : agree m m0 -> agree (on_dev m) (on_dev m0).
Proof. intros Hm. by apply agree_on_fs, agree_on_vol. Qed.
#[local] Hint Resolve agree_on_fs agree_on_dev : disk.

Lemma agree_sync_vnodes_loop k : forall i, agree (sync_vnodes_loop (D := D) k i) (sync_vnodes_loop (D := repaired) k i).
Proof. induction k as [|k IH]; intros i; cbn [sync_vnodes_loop]; unfold sfs_fsync; agrees. Qed.
#[local] Hint Resolve agree_sync_vnodes_loop : disk.

Lemma agree_sync_vnodes : agree (sfs_sync_vnodes (D := D)) (sfs_sync_vnodes (D := repaired)).
Proof. unfold sfs_sync_vnodes. agrees. Qed.
#[local] Hint Resolve agree_sync_vnodes : disk.

Lemma agree_sync : agree (sfs_sync (D := D)) (sfs_sync (D := repaired)).
Proof. unfold sfs_sync, sfs_sync_superblock. agrees. Qed.

Lemma agree_kmalloc_obj : agree kmalloc_obj kmalloc_obj.
Proof. apply agree_same. intros s. unfold kmalloc_obj. kunfold. by cbn. Qed.

Lemma agree_abandon {A} e : agree (abandon (A := A) e) (abandon e).
Proof. unfold abandon, sfs_fs_destroy. agrees. Qed.
#[local] Hint Resolve agree_kmalloc_obj agree_abandon : disk.

Lemma agree_domount bs : agree (sfs_domount (D := D) bs) (sfs_domount (D := repaired) bs).
Proof. unfold sfs_domount, mount_freemap, sfs_fs_create. agrees. Qed.

End Vnodes.

(** ** Theorems *)

(** [Hs] is the result on the repaired disk; it excludes [Halt]. *)
Ltac as_repaired m s H Hs :=
  let E := fresh in let Eh := fresh in let He := fresh in let h := fresh in
  destruct (agree_run m s H) as [E|He];
  [intros h Eh; cbn beta in Eh; rewrite Eh in Hs; repeat case_match; naive_solver|right; cbn beta in E; rewrite E; exact Hs|by left].

Section Theorems.
Context {G : Geometry} {D : Disk} {H : Heap}.

(** C5. Creating a file in the root of a well-formed volume ([fs_ok], [tree_ok]; no
    reference count at its limit, no null byte in the name), on any disk: the disk reports
    an error for one of the requests the call makes ([io_error]; the call may then fail
    with [EIO] or go on after a retry, and nothing more is claimed), or the following
    holds. If the name exists, [sfs_creat] fails with [EEXIST] or, without [excl], gives a
    new reference to the file (or fails with [ENOMEM]). Otherwise the map of names gains
    exactly the new name, for an inode that belonged to no file and is empty with one
    link; all other files keep their contents and metadata. Errors ([ENOSPC], [ENOMEM],
    [EFBIG], [ENAMETOOLONG]) leave names and files as they were and no inode behind. *)
Theorem sfs_creat_spec (I : gset Z) (s : fs) (d : Z) (name : list Z) (excl : bool) (mode : Z) (Hok : fs_ok I s) (Ht : tree_ok I s)
    (Hd : is_root s d) (Hrc : refs_ok s) (Hn : Forall (fun c => c <> 0) name) :
  io_error (fun D => sfs_creat (D := D) d name excl mode) s \/
  match names s !! name with
  | Some i =>
      if excl then exists s', sfs_creat d name excl mode s = Fail EEXIST s' /\ same_tree I s s'
      else (exists g x s', sfs_creat d name excl mode s = Done g s' /\ referenced I s s' i g x) \/
           (exists s', sfs_creat d name excl mode s = Fail ENOMEM s' /\ same_tree I s s')
  | None =>
      (exists v b s', sfs_creat d name excl mode s = Done v s' /\ created I s s' name v b /\ (length name < 60)%nat) \/
      (exists e s', sfs_creat d name excl mode s = Fail e s' /\ same_names I s s' /\
         (e = ENOMEM \/ e = ENOSPC \/ e = EFBIG \/ (e = ENAMETOOLONG /\ (60 <= length name)%nat)))
  end.
Proof.
  pose proof (sfs_creat_ok (D := repaired) I s d name excl mode Hok Ht Hd Hrc Hn) as Hs.
  as_repaired (fun D => sfs_creat (D := D) d name excl mode) s (agree_creat d name excl mode) Hs.
Qed.

(** C6. Removing a name from a well-formed volume (as for creating), on any disk: the disk
    reports an error for one of the requests the call makes, and nothing more is claimed,
    or the following holds. [sfs_remove] of a name that does not exist fails with
    [ENOENT]; otherwise the map of names loses exactly that name and the link count of the
    file is lowered by one. The file itself disappears, and its inode block and all its
    data blocks become free, exactly when this was its last name and nobody has it open;
    an open file keeps its contents. No other file changes. Apart from errors of the disk
    the only failure for a name that exists is [ENOMEM]. *)
Theorem sfs_remove_spec (I : gset Z) (s : fs) (d : Z) (name : list Z) (Hok : fs_ok I s) (Ht : tree_ok I s)
    (Hd : is_root s d) (Hrc : refs_ok s) (Hn : Forall (fun c => c <> 0) name) :
  io_error (fun D => sfs_remove (D := D) d name) s \/
  match names s !! name with
  | None => exists s', sfs_remove d name s = Fail ENOENT s' /\ same_tree I s s'
  | Some i =>
      (exists I' s', sfs_remove d name s = Done tt s' /\ removed I I' s s' name i) \/
      (exists s', sfs_remove d name s = Fail ENOMEM s' /\ same_tree I s s')
  end.
Proof.
  pose proof (sfs_remove_ok (D := repaired) I s d name Hok Ht Hd Hrc Hn) as Hs.
  as_repaired (fun D => sfs_remove (D := D) d name) s (agree_remove d name) Hs.
Qed.

(** C7. Renaming in the root of a well-formed volume (as for creating), on any disk: the
    disk reports an error for one of the requests the call makes, and nothing more is
    claimed, or the following holds. [sfs_rename] of a name that exists to one that does
    not gives the file the new name instead of the old one; the file keeps its inode, its
    link count and its contents, and no other file changes. An old name that does not
    exist gives [ENOENT]; a new name that exists gives [EEXIST], also when it is the old
    one (the manual page of rename says that the file of that name is replaced). These
    errors and [ENOMEM], [ENOSPC], [EFBIG] and [ENAMETOOLONG] leave names and files as
    they were. *)
Theorem sfs_rename_spec (I : gset Z) (s : fs) (d : Z) (n1 n2 : list Z) (Hok : fs_ok I s) (Ht : tree_ok I s)
    (Hd : is_root s d) (Hrc : refs_ok s) (Hn1 : Forall (fun c => c <> 0) n1) (Hn2 : Forall (fun c => c <> 0) n2) :
  io_error (fun D => sfs_rename (D := D) d n1 d n2) s \/
  match names s !! n1 with
  | None => exists s', sfs_rename d n1 d n2 s = Fail ENOENT s' /\ same_tree I s s'
  | Some i =>
      (exists s', sfs_rename d n1 d n2 s = Done tt s' /\ fs_ok I s' /\ tree_ok I s' /\ names s !! n2 = None /\ (length n2 < 60)%nat /\
         names s' = <[n2 := i]> (delete n1 (names s)) /\ (forall j, j ∈ I -> j <> SFS_ROOTDIR_INO -> unchanged s s' j)) \/
      (exists e s', sfs_rename d n1 d n2 s = Fail e s' /\ same_names I s s' /\ (e = ENOMEM \/ link_error (names s) n2 e))
  end.
Proof.
  pose proof (sfs_rename_ok (D := repaired) I s d n1 n2 Hok Ht Hd Hrc Hn1 Hn2) as Hs.
  as_repaired (fun D => sfs_rename (D := D) d n1 d n2) s (agree_rename d n1 d n2) Hs.
Qed.

(** C8. Writing through a vnode of a file of a well-formed volume, on any disk. The
    transfer has one buffer, in the kernel, as [sys_write] makes it, or of the process and
    accessible throughout, with a positive length below [2 ^ 32], and ends at an offset of
    at most [2 ^ 41] ([uio_ok]). The disk reports an error for one of the requests the
    call makes, and nothing is claimed (the call may fail with [EIO], and it may report
    success although a block is lost, because a retried write has no data left:
    [sfs_writeblock_lost]); or [sfs_write] writes all bytes of the transfer, or the first
    [k] and fails with [ENOSPC] or [EFBIG]; the file then has those bytes at the
    transfer's offset, its other bytes are as before and its size is the larger of the old
    size and the end of what was written, and no other file of the volume, no name and no
    link count changes. *)
Theorem sfs_write_spec (I : gset Z) (s : fs) (v : Z) (x : vn) (Hok : fs_ok I s) (Ht : tree_ok I s) (Hv : vheap s !! v = Some x)
    (Hfile : sv_ino (vn_sv x) <> SFS_ROOTDIR_INO) (Hu : uio_ok (ui (vol s))) (Hrw : uio_rwf (ui (vol s)) = UIO_WRITE)
    (Hres : 0 < uio_resid (ui (vol s))) :
  let i := sv_ino (vn_sv x) in
  let off := uio_offset (ui (vol s)) in
  io_error (fun D => sfs_write (D := D) v) s \/
  exists k s', 0 <= k <= uio_resid (ui (vol s)) /\
    (sfs_write v s = Done tt s' /\ k = uio_resid (ui (vol s)) \/
     (sfs_write v s = Fail ENOSPC s' \/ sfs_write v s = Fail EFBIG s') /\ k < uio_resid (ui (vol s))) /\
    fs_ok I s' /\ tree_ok I s' /\ names s' = names s /\ (forall j, j ∈ I -> j <> i -> unchanged s s' j) /\
    (forall pos, 0 <= pos < MAXSIZE -> file_byte (at_ino s' i) pos =
       if (off <=? pos) && (pos <? off + k) then uio_buf (ui (vol s)) !!! Z.to_nat (pos - off) else file_byte (at_ino s i) pos) /\
    sfi_size (inode_of s' i) = (if k =? 0 then sfi_size (inode_of s i) else Z.max (sfi_size (inode_of s i)) (off + k)).
Proof.
  intros i off. pose proof (sfs_write_ok (D := repaired) I s v x Hok Ht Hv Hfile Hu Hrw Hres) as Hs.
  as_repaired (fun D => sfs_write (D := D) v) s (agree_write v) Hs.
Qed.

(** C9. Reading through a vnode of a file of a well-formed volume, on any disk. The
    transfer has one buffer, in the kernel, as [sys_read] makes it, or of the process and
    accessible throughout, with a positive length below [2 ^ 32], and ends at an offset of
    at most [2 ^ 41] ([uio_ok]). The disk reports an error for one of the requests the
    call makes, and nothing more is claimed; or [sfs_read] delivers the bytes of the file
    from the transfer's offset to the end of the request or of the file, and changes no
    file, no name and no link count. *)
Theorem sfs_read_spec (I : gset Z) (s : fs) (v : Z) (x : vn) (Hok : fs_ok I s) (Ht : tree_ok I s) (Hv : vheap s !! v = Some x)
    (Hfile : sv_ino (vn_sv x) <> SFS_ROOTDIR_INO) (Hu : uio_ok (ui (vol s))) (Hrw : uio_rwf (ui (vol s)) = UIO_READ)
    (Hres : 0 < uio_resid (ui (vol s))) :
  let i := sv_ino (vn_sv x) in
  let off := uio_offset (ui (vol s)) in
  let n := Z.max 0 (Z.min (uio_resid (ui (vol s))) (sfi_size (inode_of s i) - off)) in
  io_error (fun D => sfs_read (D := D) v) s \/
  exists s', sfs_read v s = Done tt s' /\ ui (vol s') = advance (ui (vol s)) n (bytes (at_ino s i) off n) /\
    fs_ok I s' /\ tree_ok I s' /\ names s' = names s /\ (forall j, j ∈ I -> j <> i -> unchanged s s' j) /\
    (forall pos, 0 <= pos < MAXSIZE -> file_byte (at_ino s' i) pos = file_byte (at_ino s i) pos) /\
    sfi_size (inode_of s' i) = sfi_size (inode_of s i).
Proof.
  intros i off n. pose proof (sfs_read_ok (D := repaired) I s v x Hok Ht Hv Hfile Hu Hrw Hres) as Hs.
  as_repaired (fun D => sfs_read (D := D) v) s (agree_read v) Hs.
Qed.

(** C10. Sync, then mount: nothing is lost, unless the disk reports an error for a request
    of the one or of the other. On a mounted volume either the disk reports an error
    during [sfs_sync] (which looks at some of these errors only: the result of [VOP_FSYNC]
    is ignored), or [sfs_sync] succeeds and changes no name and no file; and then,
    whatever state the kernel is in afterwards (it may have lost all its memory), mounting
    a disk with the contents [sfs_sync] left gives a volume with the same names and files,
    the same name of the volume and no vnode in memory, unless the disk reports an error
    now, or memory runs out, which leaves the disk as it is. *)
Theorem sfs_sync_mount (I : gset Z) (m : mnt) (Hm : mnt_ok I m) :
  io_error (fun D => sfs_sync (D := D)) m \/
  exists m', sfs_sync m = Done tt m' /\ mnt_ok I m' /\ same_tree I (mfs m) (mfs m') /\
    forall m0, dsk (vol (mfs m0)) = dsk (vol (mfs m')) -> length (lh_buf (vol (mfs m0))) = 512%nat ->
      io_error (fun D => sfs_domount (D := D) SFS_BLOCKSIZE) m0 \/
      (exists m2, sfs_domount SFS_BLOCKSIZE m0 = Done tt m2 /\ mnt_ok I m2 /\ same_tree I (mfs m) (mfs m2) /\
         sfs_sb m2 = sfs_sb m /\ contents (sfs_vnodes (mfs m2)) = []) \/
      (exists m2, sfs_domount SFS_BLOCKSIZE m0 = Fail ENOMEM m2 /\ dsk (vol (mfs m2)) = dsk (vol (mfs m'))).
Proof.
  destruct (sync_mount_ok (D := repaired) I m Hm) as (m' & Es & Hm' & Hst & Hall).
  destruct (agree_run (fun D => sfs_sync (D := D)) m agree_sync) as [E|He]; [by rewrite Es|right|by left]. rewrite E.
  exists m'. do 3 (split; [done|]). intros m0 Ed Hl. specialize (Hall m0 Ed Hl).
  destruct (agree_run (fun D => sfs_domount (D := D) SFS_BLOCKSIZE) m0 (agree_domount _)) as [E0|He]; [|right|by left].
  - intros h Eh. rewrite Eh in Hall. by destruct Hall as [(? & [=] & _)|(? & [=] & _)].
  - rewrite E0. exact Hall.
Qed.

End Theorems.

(** ** Witnesses *)

Lemma demo_quiet {S A} {C : Counted S} (m : Disk -> K S A) (s : S) : ~ io_error (D := demo_disk) m s.
Proof. intros (k & _ & Hk & _). apply Hk. reflexivity. Qed.

(** A second file is created. *)
Lemma sfs_creat_spec_witness :
  exists v b s', sfs_creat 100 [99] true 0 (demo_fs idle) = Done v s' /\ names s' = <[[99] := b]> {[demo_name := 3]}.
Proof.
  pose proof (sfs_creat_spec demo_files (demo_fs idle) 100 [99] true 0 (demo_fs_ok _) (demo_tree_ok _) (demo_is_root _)
                (demo_refs_ok _) ltac:(repeat constructor; done)) as HL.
  destruct HL as [F|HL]; [destruct (demo_quiet _ _ F)|].
  rewrite demo_names in HL. assert (E0 : ({[demo_name := 3]} : gmap (list Z) Z) !! [99] = None) by (vm_compute; reflexivity).
  rewrite E0 in HL. destruct HL as [(v & b & s' & E & Hc & _)|(e & s' & E & _)].
  - exists v, b, s'. split; [exact E|]. rewrite (cr_names _ _ _ _ _ _ Hc), demo_names. reflexivity.
  - exfalso. apply (f_equal ending) in E. vm_compute in E. discriminate E.
Defined.

(** The only name of a file that is not open: the file goes. *)
Lemma sfs_remove_spec_witness :
  exists (I' : gset Z) s', sfs_remove 100 demo_name (demo_fs idle) = Done tt s' /\ names s' = ∅ /\ bit (sfs_freemap (vol s')) 5 = false /\ (3 ∉ I').
Proof.
  pose proof (sfs_remove_spec demo_files (demo_fs idle) 100 demo_name (demo_fs_ok _) (demo_tree_ok _) (demo_is_root _)
                (demo_refs_ok _) demo_name_ok) as HL.
  destruct HL as [F|HL]; [destruct (demo_quiet _ _ F)|].
  rewrite demo_names, lookup_singleton_eq in HL. destruct HL as [(I' & s' & E & Hr)|(s' & E & _)].
  - exists I', s'. split; [exact E|]. assert (Hout : 3 ∉ I').
    { intros Hin. apply (rm_sub _ _ _ _ _ _ Hr 3) in Hin. destruct Hin as [_ [F|F]]; [exact (F eq_refl)|]. apply F.
      rewrite demo_inode_3. split; reflexivity. }
    split; [|split; [apply (rm_gone _ _ _ _ _ _ Hr Hout)|exact Hout]].
    + rewrite (rm_names _ _ _ _ _ _ Hr), demo_names. apply delete_singleton_eq.
    + right. unfold at_ino. rewrite demo_inode_3. split; [done|]. change (vol (demo_fs idle)) with (demo_vol idle). rewrite demo_ptrs_3. left.
  - exfalso. apply (f_equal ending) in E. vm_compute in E. discriminate E.
Defined.

Lemma sfs_rename_spec_witness :
  exists s', sfs_rename 100 demo_name 100 [99] (demo_fs idle) = Done tt s' /\ names s' = {[[99] := 3]}.
Proof.
  pose proof (sfs_rename_spec demo_files (demo_fs idle) 100 demo_name [99] (demo_fs_ok _) (demo_tree_ok _) (demo_is_root _)
                (demo_refs_ok _) demo_name_ok ltac:(repeat constructor; done)) as HL.
  destruct HL as [F|HL]; [destruct (demo_quiet _ _ F)|].
  rewrite demo_names, lookup_singleton_eq in HL. destruct HL as [(s' & E & _ & _ & _ & _ & En & _)|(e & s' & E & _)].
  - exists s'. split; [exact E|]. rewrite En. vm_compute. reflexivity.
  - exfalso. apply (f_equal ending) in E. vm_compute in E. discriminate E.
Defined.

(** Three bytes written at offset 4. *)
Lemma sfs_write_spec_witness :
  exists k s', 0 <= k <= 3 /\ names s' = {[demo_name := 3]} /\ file_byte (at_ino s' 3) 0 = 1.
Proof.
  set (u := uio_kinit [7; 8; 9] 3 4 UIO_WRITE).
  assert (Hu : uio_ok u) by (split; cbn; try done; lia).
  destruct (sfs_write_spec demo_files (demo_open u) 101 demo_file (demo_open_ok _) (demo_open_tree _) eq_refl ltac:(done) Hu eq_refl ltac:(done))
    as [F|(k & s' & Hk & _ & _ & _ & En & _ & Hby & _)]; [destruct (demo_quiet _ _ F)|].
  exists k, s'. split; [exact Hk|]. split; [rewrite En; vm_compute; reflexivity|].
  change (sv_ino (vn_sv demo_file)) with 3 in Hby. rewrite Hby by (unfold MAXSIZE, MAXBLOCKS, SFS_BLOCKSIZE; lia). vm_compute. reflexivity.
Defined.

Lemma sfs_read_spec_witness :
  exists s', sfs_read 101 (demo_open (uio_kinit [] 10 1 UIO_READ)) = Done tt s' /\ uio_buf (ui (vol s')) = [2; 3; 4; 5].
Proof.
  set (u := uio_kinit [] 10 1 UIO_READ).
  assert (Hu : uio_ok u) by (split; cbn; try done; lia).
  destruct (sfs_read_spec demo_files (demo_open u) 101 demo_file (demo_open_ok _) (demo_open_tree _) eq_refl ltac:(done) Hu eq_refl ltac:(done))
    as [F|(s' & E & Eu & _)]; [destruct (demo_quiet _ _ F)|].
  exists s'. split; [exact E|]. rewrite Eu. vm_compute. reflexivity.
Defined.

Lemma sfs_sync_mount_witness :
  exists m' m2, sfs_sync demo_mnt = Done tt m' /\ sfs_domount SFS_BLOCKSIZE (restarted (dsk (vol (mfs m')))) = Done tt m2 /\
    names (mfs m2) = {[demo_name := 3]}.
Proof.
  destruct (sfs_sync_mount demo_files demo_mnt demo_mnt_ok) as [F|(m' & E & _ & _ & Hall)]; [destruct (demo_quiet _ _ F)|].
  destruct (Hall (restarted (dsk (vol (mfs m'))))) as [F|[(m2 & E2 & _ & Hst & _)|(m2 & E2 & _)]]; [reflexivity|reflexivity|destruct (demo_quiet _ _ F)| |].
  - exists m', m2. split; [exact E|]. split; [exact E2|]. rewrite (sm_names _ _ _ Hst). apply demo_names.
  - exfalso. assert (Ed : dsk (vol (mfs m')) = demo_disk_block).
    { change (disk_after (Done tt m') = demo_disk_block). rewrite <- E. reflexivity. }
    rewrite Ed in E2. apply (f_equal ending) in E2. vm_compute in E2. discriminate E2.
Defined.

(** The exception is needed: on a disk that refuses every request the operations end with
    [EIO], after the retries. *)
Definition dead_disk : Disk := {| lh_result _ := EIO; junk _ := [] |}.

Definition failure {S A} (o : outcome S A) : option Z := match o with Fail e _ => Some e | _ => None end.

Example dead_disk_eio :
  failure (sfs_creat (D := dead_disk) 100 [99] true 0 (demo_fs idle)) = Some EIO /\
  failure (sfs_remove (D := dead_disk) 100 demo_name (demo_fs idle)) = Some EIO /\
  failure (sfs_read (D := dead_disk) 101 (demo_open (uio_kinit [] 10 1 UIO_READ))) = Some EIO.
Proof. vm_compute. done. Qed.
