(* ===== verification/Vnode.v ===== *)
(** * Vnodes and devices

    The objects the VFS layer works with: vnodes with their reference counts
    (kern/vfs/vnode.c), the vnodes of devices (kern/vfs/device.c, kern/vfs/devnull.c),
    the operations that only fail (kern/vfs/vfsfail.c), and the dispatch from a
    [VOP_] macro to the operation of the vnode (kern/include/vnode.h).

    The file systems behind the vnodes are the class [FileSystems]; what the comments of
    kern/include/vnode.h and kern/include/fs.h ask of them is the class [FsLaws]. The
    laws are about references: in a state of [refs P U] the reference count of every vnode
    is the number of times it occurs in the multisets of the references that are held,
    [P] by the device list and [U] by everybody else, and an operation that hands back a vnode adds one occurrence of it. The
    references that a failed [VOP_RECLAIM] leaves behind are kept in [unreclaimed], for
    which the kernel prints a warning.

    Reference counts are unbounded: a reference that is held is a pointer in a memory of
    2^32 bytes, so that an [int] is wide enough. *)

From stdpp Require Import base numbers functions list gmap gmultiset.
From Stdlib Require Import ZArith Lia.
From S2P Require Import Prelude SfsDisk.

Open Scope Z_scope.
Open Scope k_scope.

Definition EPERM : Z := 9.

(** kern/include/kern/fcntl.h:43-54. *)
Definition O_ACCMODE : Z := 3.
Definition O_RDONLY : Z := 0.
Definition O_WRONLY : Z := 1.
Definition O_RDWR : Z := 2.
Definition O_CREAT : Z := 4.
Definition O_EXCL : Z := 8.
Definition O_TRUNC : Z := 16.
Definition O_APPEND : Z := 32.

(** kern/include/kern/stattypes.h:45-52. *)
Definition S_IFDIR : Z := 8192.
Definition S_IFCHR : Z := 24576.
Definition S_IFBLK : Z := 28672.

(** A C string without its terminator. *)
Abbreviation name := (list Z).

(** The tables of operations: the one of device.c, and those of file systems. *)
Inductive vnode_ops := dev_vnode_ops | fs_vnode_ops.

#[global] Instance vnode_ops_eq_dec : EqDecision vnode_ops.
Proof. solve_decision. Defined.

(** kern/include/vnode.h:51-60 (struct vnode); pointers are addresses, [None] is NULL. *)
Record vnode := mkvnode {
  vn_refcount : Z;
  vn_fs : option Z;
  vn_data : option Z;
  vn_ops : vnode_ops
}.

Definition set_refcount (n : Z) (x : vnode) : vnode := mkvnode n (vn_fs x) (vn_data x) (vn_ops x).

(** The tables of device operations: the one of devnull.c, and those of drivers. *)
Inductive device_ops := null_devops | driver_devops.

(** kern/include/device.h:43-52 (struct device). *)
Record device := mkdevice {
  d_ops : device_ops;
  d_blocks : Z;
  d_blocksize : Z;
  d_devnumber : Z
}.

Definition set_devnumber (n : Z) (d : device) : device := mkdevice (d_ops d) (d_blocks d) (d_blocksize d) n.

(** The fields of struct stat (kern/include/kern/stat.h:42-70) that devices set; the
    others are zero. *)
Record stat := mkstat {
  st_size : Z;
  st_mode : Z;
  st_nlink : Z;
  st_blocks : Z;
  st_dev : Z;
  st_rdev : Z;
  st_blksize : Z
}.

(** The memory that vnodes live in. [fsd] is what the file systems and the drivers keep
    for themselves; [unreclaimed] has the vnodes that [vnode_decref] could not dispose
    of, one occurrence for every warning printed. *)
Record world (D : Type) := mkworld {
  vnodes : gmap Z vnode;
  devices : gmap Z device;
  unreclaimed : gmultiset Z;
  fsd : D
}.
Arguments mkworld {D}.
Arguments vnodes {D}.
Arguments devices {D}.
Arguments unreclaimed {D}.
Arguments fsd {D}.

Section Setters.
Context {D : Type}.
Implicit Types w : world D.

Definition set_vnodes h w := mkworld h (devices w) (unreclaimed w) (fsd w).
Definition set_devices h w := mkworld (vnodes w) h (unreclaimed w) (fsd w).
Definition set_unreclaimed h w := mkworld (vnodes w) (devices w) h (fsd w).

End Setters.

(** ** File systems and drivers, behind their tables of operations

    The arguments are those of kern/include/vnode.h, kern/include/fs.h and
    kern/include/device.h; an out parameter is the result. [vop_creat] may
    leave its out parameter alone. The last three are not code: that a struct fs has been
    set up and not been unmounted, that it is one that is unmounted at all, and what the
    file systems know of their state between two operations. *)
Class FileSystems (D : Type) := {
  fsop_sync : Z -> K (world D) unit;
  fsop_getvolname : Z -> D -> option name;
  fsop_getroot : Z -> K (world D) Z;
  fsop_unmount : Z -> K (world D) unit;
  fs_eachopen : Z -> Z -> K (world D) unit;
  fs_reclaim : Z -> K (world D) unit;
  fs_readlink : Z -> uio -> K (world D) uio;
  fs_gettype : Z -> K (world D) Z;
  fs_truncate : Z -> Z -> K (world D) unit;
  fs_namefile : Z -> uio -> K (world D) uio;
  fs_creat : Z -> name -> bool -> Z -> K (world D) (option Z);
  fs_symlink : Z -> name -> name -> K (world D) unit;
  fs_mkdir : Z -> name -> Z -> K (world D) unit;
  fs_link : Z -> name -> Z -> K (world D) unit;
  fs_remove : Z -> name -> K (world D) unit;
  fs_rmdir : Z -> name -> K (world D) unit;
  fs_rename : Z -> name -> Z -> name -> K (world D) unit;
  fs_lookup : Z -> name -> K (world D) Z;
  fs_lookparent : Z -> name -> Z -> K (world D) (Z * name);
  drv_eachopen : Z -> Z -> K (world D) unit;
  drv_io : Z -> uio -> K (world D) uio;
  drv_ioctl : Z -> Z -> Z -> K (world D) unit;
  fs_live : Z -> D -> bool;
  fs_removable : Z -> bool;
  fs_ok : world D -> Prop
}.

(** ** Operations that only fail, kern/vfs/vfsfail.c *)

Section Vopfail.
Context {S : Type}.

(** kern/vfs/vfsfail.c:50-56 (vopfail_uio_notdir). *)
Definition vopfail_uio_notdir (vn : Z) (u : uio) : K S uio := kfail ENOTDIR.

(** kern/vfs/vfsfail.c:58-64 (vopfail_uio_isdir). *)
Definition vopfail_uio_isdir (vn : Z) (u : uio) : K S uio := kfail EISDIR.

(** kern/vfs/vfsfail.c:66-72 (vopfail_uio_inval). *)
Definition vopfail_uio_inval (vn : Z) (u : uio) : K S uio := kfail EINVAL.

(** kern/vfs/vfsfail.c:120-130 (vopfail_creat_notdir). *)
Definition vopfail_creat_notdir (vn : Z) (nm : name) (excl : bool) (mode : Z) : K S (option Z) := kfail ENOTDIR.

(** kern/vfs/vfsfail.c:135-143 (vopfail_symlink_notdir). *)
Definition vopfail_symlink_notdir (vn : Z) (contents nm : name) : K S unit := kfail ENOTDIR.

(** kern/vfs/vfsfail.c:158-165 (vopfail_mkdir_notdir). *)
Definition vopfail_mkdir_notdir (vn : Z) (nm : name) (mode : Z) : K S unit := kfail ENOTDIR.

(** kern/vfs/vfsfail.c:179-186 (vopfail_link_notdir). *)
Definition vopfail_link_notdir (dir : Z) (nm : name) (file : Z) : K S unit := kfail ENOTDIR.

(** kern/vfs/vfsfail.c:200-206 (vopfail_string_notdir). *)
Definition vopfail_string_notdir (vn : Z) (nm : name) : K S unit := kfail ENOTDIR.

(** kern/vfs/vfsfail.c:219-228 (vopfail_rename_notdir). *)
Definition vopfail_rename_notdir (fromdir : Z) (fromname : name) (todir : Z) (toname : name) : K S unit := kfail ENOTDIR.

(** kern/vfs/vfsfail.c:253-263 (vopfail_lookparent_notdir). *)
Definition vopfail_lookparent_notdir (vn : Z) (path : name) (len : Z) : K S (Z * name) := kfail ENOTDIR.

End Vopfail.

Section Vnodes.
Context {D : Type} {F : FileSystems D}.
Local Abbreviation W := (world D).

(** ** Reference counts, kern/vfs/vnode.c *)

Definition vn_get (v : Z) : K W vnode :=
  fun w => match vnodes w !! v with Some x => Done x w | None => Halt UseAfterFree end.

Definition vn_update (v : Z) (f : vnode -> vnode) : K W unit :=
  x <- vn_get v ;;
  kmodify (fun w => set_vnodes (<[v := f x]> (vnodes w)) w).

(** kern/vfs/vnode.c:43-56 (vnode_init). *)
Definition vnode_init (ops : vnode_ops) (fs data : option Z) : vnode := mkvnode 1 fs data ops.

(** kern/vfs/vnode.c:61-72 (vnode_cleanup), with the [kfree] of the vnode that follows it
    everywhere. *)
Definition vnode_cleanup (v : Z) : K W unit :=
  x <- vn_get v ;;
  kassert (vn_refcount x =? 1) ;;;
  kmodify (fun w => set_vnodes (delete v (vnodes w)) w).

(** kern/vfs/vnode.c:129-178 (vnode_check), for a vnode whose table of operations is one
    of those above: a reference count that is not positive is a panic. *)
Definition vnode_check (v : Z) : K W unit :=
  x <- vn_get v ;;
  if vn_refcount x <=? 0 then khalt PanicCall else kret tt.

(** kern/vfs/vnode.c:79-87 (vnode_incref). *)
Definition vnode_incref (v : Z) : K W unit :=
  vn_update v (fun x => set_refcount (vn_refcount x + 1) x).

(** kern/vfs/device.c:68-75 (dev_reclaim). *)
Definition dev_reclaim (v : Z) : K W unit := kret tt.

(** The operation a [VOP_] macro calls (kern/include/vnode.h:226): [vnode_check], then the
    entry of the vnode's table. *)
Definition VOP {A} (v : Z) (dev fs : K W A) : K W A :=
  vnode_check v ;;;
  x <- vn_get v ;;
  match vn_ops x with dev_vnode_ops => dev | fs_vnode_ops => fs end.

Definition VOP_RECLAIM (v : Z) : K W unit := VOP v (dev_reclaim v) (fs_reclaim v).

(** kern/vfs/vnode.c:94-123 (vnode_decref). *)
Definition vnode_decref (v : Z) : K W unit :=
  x <- vn_get v ;;
  kassert (0 <? vn_refcount x) ;;;
  if 1 <? vn_refcount x then
    vn_update v (fun x => set_refcount (vn_refcount x - 1) x)
  else
    r <- attempt (VOP_RECLAIM v) ;;
    match r with
    | inl result =>
        if result =? EBUSY then kret tt
        else kmodify (fun w => set_unreclaimed (unreclaimed w ⊎ {[+ v +]}) w)
    | inr _ => kret tt
    end.

(** ** Devices, kern/vfs/device.c and kern/vfs/devnull.c *)

(** kern/vfs/devnull.c:42-50 (nullopen). *)
Definition nullopen (d openflags : Z) : K W unit := kret tt.

(** kern/vfs/devnull.c:53-73 (nullio). *)
Definition nullio (d : Z) (u : uio) : K W uio :=
  match uio_rwf u with
  | UIO_WRITE => kret (mkuio UIO_WRITE (uio_offset u) 0 (iov_len u) (uio_buf u) (uio_segflg u))
  | UIO_READ => kret u
  end.

(** kern/vfs/devnull.c:76-89 (nullioctl). *)
Definition nullioctl (d op data : Z) : K W unit := kfail EINVAL.

(** [v->vn_data] as the device of a vnode of device.c. *)
Definition dev_of (v : Z) : K W (Z * device) :=
  x <- vn_get v ;;
  match vn_data x with
  | None => khalt NullDeref
  | Some p => fun w => match devices w !! p with Some d => Done (p, d) w | None => Halt UseAfterFree end
  end.

Definition DEVOP_EACHOPEN (p : Z) (d : device) (flags : Z) : K W unit :=
  match d_ops d with null_devops => nullopen p flags | driver_devops => drv_eachopen p flags end.
Definition DEVOP_IO (p : Z) (d : device) (u : uio) : K W uio :=
  match d_ops d with null_devops => nullio p u | driver_devops => drv_io p u end.
Definition DEVOP_IOCTL (p : Z) (d : device) (op data : Z) : K W unit :=
  match d_ops d with null_devops => nullioctl p op data | driver_devops => drv_ioctl p op data end.

(** kern/vfs/device.c:51-62 (dev_eachopen). *)
Definition dev_eachopen (v flags : Z) : K W unit :=
  d <- dev_of v ;;
  if negb (Z.land flags (Z.lor (Z.lor (Z.lor O_CREAT O_TRUNC) O_EXCL) O_APPEND) =? 0) then kfail EINVAL
  else DEVOP_EACHOPEN (fst d) (snd d) flags.

(** kern/vfs/device.c:84-102 (dev_tryseek); C division rounds towards zero. *)
Definition dev_tryseek (d : device) (pos : Z) : K W unit :=
  if 0 <? d_blocks d then
    if negb (Z.rem pos (d_blocksize d) =? 0) then kfail EINVAL
    else if d_blocks d <=? Z.quot pos (d_blocksize d) then kfail EINVAL
    else kret tt
  else kret tt.

(** kern/vfs/device.c:107-121 (dev_read). *)
Definition dev_read (v : Z) (u : uio) : K W uio :=
  d <- dev_of v ;;
  dev_tryseek (snd d) (uio_offset u) ;;;
  kassert (bool_decide (uio_rwf u = UIO_READ)) ;;;
  DEVOP_IO (fst d) (snd d) u.

(** kern/vfs/device.c:126-140 (dev_write). *)
Definition dev_write (v : Z) (u : uio) : K W uio :=
  d <- dev_of v ;;
  dev_tryseek (snd d) (uio_offset u) ;;;
  kassert (bool_decide (uio_rwf u = UIO_WRITE)) ;;;
  DEVOP_IO (fst d) (snd d) u.

(** kern/vfs/device.c:145-151 (dev_ioctl). *)
Definition dev_ioctl (v op data : Z) : K W unit :=
  d <- dev_of v ;;
  DEVOP_IOCTL (fst d) (snd d) op data.

(** kern/vfs/device.c:199-211 (dev_gettype). *)
Definition dev_gettype (v : Z) : K W Z :=
  d <- dev_of v ;;
  kret (if 0 <? d_blocks (snd d) then S_IFBLK else S_IFCHR).

Definition VOP_GETTYPE (v : Z) : K W Z := VOP v (dev_gettype v) (fs_gettype v).

(** kern/vfs/device.c:158-192 (dev_stat). *)
Definition dev_stat (v : Z) : K W stat :=
  p <- dev_of v ;;
  let d := snd p in
  let sz := if 0 <? d_blocks d then (u32 (d_blocks d * d_blocksize d), d_blocksize d) else (0, 0) in
  t <- VOP_GETTYPE v ;;
  kret (mkstat (fst sz) (Z.lor t 384) 1 (d_blocks d) 0 (d_devnumber d) (snd sz)).

(** kern/vfs/device.c:216-226 (dev_isseekable). *)
Definition dev_isseekable (v : Z) : K W bool :=
  d <- dev_of v ;;
  kret (negb (d_blocks (snd d) =? 0)).

(** kern/vfs/device.c:231-237 (null_fsync). *)
Definition null_fsync (v : Z) : K W unit := kret tt.

(** kern/vfs/device.c:243-249 (dev_mmap). *)
Definition dev_mmap (v : Z) : K W unit := kfail ENOSYS.

(** kern/vfs/device.c:254-268 (dev_truncate). *)
Definition dev_truncate (v len : Z) : K W unit :=
  p <- dev_of v ;;
  let d := snd p in
  if (0 <? d_blocks d) && (u32 (d_blocks d * d_blocksize d) =? len) then kret tt else kfail EINVAL.

(** kern/vfs/device.c:276-290 (dev_namefile). *)
Definition dev_namefile (v : Z) (u : uio) : K W uio := kret u.

(** kern/vfs/device.c:304-320 (dev_lookup). *)
Definition dev_lookup (dir : Z) (pathname : name) : K W Z :=
  if (0 <? length pathname)%nat then kfail ENOENT else
  vnode_incref dir ;;; kret dir.

(** ** The operations of vnode.h

    The table of device.c (kern/vfs/device.c:325-351) is the first operation, a file
    system's the second. *)

Definition VOP_EACHOPEN (v flags : Z) : K W unit := VOP v (dev_eachopen v flags) (fs_eachopen v flags).
Definition VOP_READLINK (v : Z) (u : uio) : K W uio := VOP v (vopfail_uio_inval v u) (fs_readlink v u).
Definition VOP_TRUNCATE (v len : Z) : K W unit := VOP v (dev_truncate v len) (fs_truncate v len).
Definition VOP_NAMEFILE (v : Z) (u : uio) : K W uio := VOP v (dev_namefile v u) (fs_namefile v u).
Definition VOP_CREAT (v : Z) (nm : name) (excl : bool) (mode : Z) : K W (option Z) :=
  VOP v (vopfail_creat_notdir v nm excl mode) (fs_creat v nm excl mode).
Definition VOP_SYMLINK (v : Z) (nm content : name) : K W unit :=
  VOP v (vopfail_symlink_notdir v nm content) (fs_symlink v nm content).
Definition VOP_MKDIR (v : Z) (nm : name) (mode : Z) : K W unit := VOP v (vopfail_mkdir_notdir v nm mode) (fs_mkdir v nm mode).
Definition VOP_LINK (v : Z) (nm : name) (v2 : Z) : K W unit := VOP v (vopfail_link_notdir v nm v2) (fs_link v nm v2).
Definition VOP_REMOVE (v : Z) (nm : name) : K W unit := VOP v (vopfail_string_notdir v nm) (fs_remove v nm).
Definition VOP_RMDIR (v : Z) (nm : name) : K W unit := VOP v (vopfail_string_notdir v nm) (fs_rmdir v nm).
Definition VOP_RENAME (v1 : Z) (n1 : name) (v2 : Z) (n2 : name) : K W unit :=
  VOP v1 (vopfail_rename_notdir v1 n1 v2 n2) (fs_rename v1 n1 v2 n2).
Definition VOP_LOOKUP (v : Z) (path : name) : K W Z := VOP v (dev_lookup v path) (fs_lookup v path).
Definition VOP_LOOKPARENT (v : Z) (path : name) (len : Z) : K W (Z * name) :=
  VOP v (vopfail_lookparent_notdir v path len) (fs_lookparent v path len).

(** kern/vfs/device.c:356-374 (dev_create_vnode): the vnode is put at the address [v] that
    [kmalloc] returns. *)
Definition dev_create_vnode (v : option Z) (dev : option Z) : K W (option Z) :=
  match v with
  | None => kret None
  | Some v => kmodify (fun w => set_vnodes (<[v := vnode_init dev_vnode_ops None dev]> (vnodes w)) w) ;;; kret (Some v)
  end.

(** kern/vfs/device.c:382-388 (dev_uncreate_vnode). *)
Definition dev_uncreate_vnode (v : Z) : K W unit :=
  x <- vn_get v ;;
  kassert (bool_decide (vn_ops x = dev_vnode_ops)) ;;;
  vnode_cleanup v.

End Vnodes.

(** ** References *)

Section References.
Context {D : Type} {F : FileSystems D}.
Local Abbreviation W := (world D).
Implicit Types (w : W) (P U : gmultiset Z) (v : Z).

Definition count w v : Z := match vnodes w !! v with Some x => vn_refcount x | None => 0 end.

(** [v] is a vnode of the file system [f]. *)
Definition on_fs w v f : Prop := exists x, vnodes w !! v = Some x /\ vn_ops x = fs_vnode_ops /\ vn_fs x = Some f.

(** [P] are the references of the device list, [U] those of everybody else. *)
Record refs P U w : Prop := {
  refs_count : forall v, count w v = Z.of_nat (multiplicity v (P ⊎ U ⊎ unreclaimed w));
  refs_pos : forall v x, vnodes w !! v = Some x -> 0 < vn_refcount x;
  refs_dev : forall v x, vnodes w !! v = Some x -> vn_ops x = dev_vnode_ops -> v ∈ P /\ vn_fs x = None;
  refs_use : forall v x, v ∈ U -> vnodes w !! v = Some x -> vn_ops x = dev_vnode_ops ->
               exists p, vn_data x = Some p /\ is_Some (devices w !! p);
  refs_fs : forall v x, vnodes w !! v = Some x -> vn_ops x = fs_vnode_ops ->
              exists f, vn_fs x = Some f /\ fs_live f (fsd w) = true;
  refs_ok : fs_ok w
}.

(** What an operation leaves alone while the references [H] are held: the identity of
    the vnodes they are to, the devices, which file systems there are [but] the one that is
    mounted or unmounted, and their volume names. *)
Record stable (but : option Z) (H : gmultiset Z) w w' : Prop := {
  stable_vn : forall v x, v ∈ H -> vnodes w !! v = Some x ->
    exists x', vnodes w' !! v = Some x' /\ vn_fs x' = vn_fs x /\ vn_data x' = vn_data x /\ vn_ops x' = vn_ops x;
  stable_dev : devices w' = devices w;
  stable_live : forall f, but <> Some f -> fs_live f (fsd w') = fs_live f (fsd w);
  stable_vol : forall f, but <> Some f -> fs_live f (fsd w) = true -> fsop_getvolname f (fsd w') = fsop_getvolname f (fsd w)
}.

(** [m] runs from any state in which exactly the references [P] and [U] are held and
    [pre] is true, and returns; when it succeeds its caller holds the references [ret] of
    the result besides, when it fails the same as before. *)
Definition hands {A} P U (pre : W -> Prop) (m : K W A) (ret : A -> gmultiset Z) : Prop :=
  forall w, refs P U w -> pre w ->
  match m w with
  | Done a w' => refs P (U ⊎ ret a) w' /\ stable None (P ⊎ U) w w'
  | Fail _ w' => refs P U w' /\ stable None (P ⊎ U) w w'
  | Halt _ => False
  end.

Definition nothing {A} (_ : A) : gmultiset Z := ∅.
Definition the_vnode (v : Z) : gmultiset Z := {[+ v +]}.
Definition the_new (r : option Z) : gmultiset Z := match r with Some v => {[+ v +]} | None => ∅ end.
Definition the_parent (r : Z * name) : gmultiset Z := {[+ fst r +]}.

(** The vnode handed to an operation is one its caller holds. *)
Definition held U v w : Prop := v ∈ U /\ exists f, on_fs w v f.
Definition held2 U v1 v2 w : Prop := v1 ∈ U /\ v2 ∈ U /\ exists f, on_fs w v1 f /\ on_fs w v2 f.

(** What the file systems know does not depend on reference counts or devices. *)
Class FsFrame : Prop :=
  law_frame w w' : fsd w' = fsd w -> (forall v f, on_fs w' v f <-> on_fs w v f) -> fs_ok w -> fs_ok w'.

(** What vnode.h and fs.h ask of a file system, and device.h of a driver. *)
Class FsLaws := {
  #[global] law_keeps :: FsFrame;
  law_sync f P U : hands P U (fun w => fs_live f (fsd w) = true) (fsop_sync f) nothing;
  law_getroot f P U : hands P U (fun w => fs_live f (fsd w) = true) (fsop_getroot f) the_vnode;
  law_unmount f P U w : refs P U w -> fs_live f (fsd w) = true -> fs_removable f = true ->
    match fsop_unmount f w with
    | Done _ w' => refs P U w' /\ stable (Some f) (P ⊎ U) w w' /\ fs_live f (fsd w') = false
    | Fail _ w' => refs P U w' /\ stable None (P ⊎ U) w w'
    | Halt _ => False
    end;
  law_reclaim v f P U w : refs P (U ⊎ {[+ v +]}) w -> on_fs w v f -> count w v = 1 ->
    match fs_reclaim v w with
    | Done _ w' => refs P U w' /\ stable None (P ⊎ U) w w'
    | Fail e w' => refs P (if e =? EBUSY then U else U ⊎ {[+ v +]}) w' /\ stable None (P ⊎ U) w w'
    | Halt _ => False
    end;
  law_eachopen v flags P U : hands P U (held U v) (fs_eachopen v flags) nothing;
  law_readlink v u P U : hands P U (held U v) (fs_readlink v u) nothing;
  law_gettype v P U : hands P U (held U v) (fs_gettype v) nothing;
  law_truncate v len P U : hands P U (held U v) (fs_truncate v len) nothing;
  law_namefile v u P U : hands P U (held U v) (fs_namefile v u) nothing;
  law_creat v nm excl mode P U : hands P U (held U v) (fs_creat v nm excl mode) the_new;
  law_symlink v contents nm P U : hands P U (held U v) (fs_symlink v contents nm) nothing;
  law_mkdir v nm mode P U : hands P U (held U v) (fs_mkdir v nm mode) nothing;
  law_link v nm v2 P U : hands P U (held2 U v v2) (fs_link v nm v2) nothing;
  law_remove v nm P U : hands P U (held U v) (fs_remove v nm) nothing;
  law_rmdir v nm P U : hands P U (held U v) (fs_rmdir v nm) nothing;
  law_rename v1 n1 v2 n2 P U : hands P U (held2 U v1 v2) (fs_rename v1 n1 v2 n2) nothing;
  law_lookup v path P U : hands P U (held U v) (fs_lookup v path) the_vnode;
  law_lookparent v path len P U : hands P U (held U v) (fs_lookparent v path len) the_parent;
  law_drv_eachopen p flags P U : hands P U (fun w => is_Some (devices w !! p)) (drv_eachopen p flags) nothing
}.

(** ** What the operations of vnode.c and device.c do to references *)

Lemma stable_refl but H w : stable but H w w.
Proof. split; eauto. Qed.

Lemma stable_trans H H' but w w1 w2 : H' ⊆ H -> stable but H w w1 -> stable None H' w1 w2 -> stable but H' w w2.
Proof.
  intros Hs [A1 A2 A3 A4] [B1 B2 B3 B4]. split; [|congruence| |].
  - intros v x Hv Hx. destruct (A1 v x) as (x1 & Hx1 & ? & ? & ?); [by apply (gmultiset_elem_of_subseteq H')|done|].
    destruct (B1 v x1 Hv Hx1) as (x2 & ? & ? & ? & ?). exists x2. split_and!; congruence.
  - intros f Hf. rewrite B3 by done. by apply A3.
  - intros f Hf Hl. rewrite B4; [by apply A4|done|]. by rewrite A3.
Qed.

Lemma stable_weaken H H' but w w' : H' ⊆ H -> stable None H w w' -> stable but H' w w'.
Proof.
  intros Hs [A1 A2 A3 A4]. split; [|done|intros f _; by apply A3|intros f _; by apply A4].
  intros v x Hv. apply A1. by apply (gmultiset_elem_of_subseteq H').
Qed.

Lemma refs_alive P U w v : refs P U w -> v ∈ P ⊎ U -> exists x, vnodes w !! v = Some x /\ vn_refcount x = count w v /\ 0 < vn_refcount x.
Proof.
  intros HR Hv. pose proof (refs_count _ _ _ HR v) as Hc. unfold count in *.
  destruct (vnodes w !! v) as [x|] eqn:E.
  - exists x. split_and!; [done|done|]. by apply (refs_pos _ _ _ HR v).
  - exfalso. rewrite elem_of_multiplicity in Hv. rewrite !multiplicity_disj_union in *. lia.
Qed.

Lemma refs_ext P P' U U' w : P = P' -> U = U' -> refs P U w -> refs P' U' w.
Proof. by intros -> ->. Qed.

Lemma VOP_eq {A} P U w v (dev fs : K W A) : refs P U w -> v ∈ P ⊎ U ->
  exists x, vnodes w !! v = Some x /\ VOP v dev fs w = match vn_ops x with dev_vnode_ops => dev w | fs_vnode_ops => fs w end.
Proof.
  intros HR Hv. destruct (refs_alive P U w v HR Hv) as (x & Hx & _ & Hp). exists x. split; [done|].
  unfold VOP, vnode_check, vn_get. kunfold. rewrite Hx, (proj2 (Z.leb_gt _ _)) by lia. unfold kret. rewrite Hx. by destruct (vn_ops x).
Qed.

(** The two arms of a [VOP_] macro; [pre] is what the file system's one needs besides. *)
Lemma VOP_hands {A} P U v (dev fs : K W A) ret (pre : W -> Prop) :
  v ∈ U ->
  (forall w x p d, refs P U w -> vnodes w !! v = Some x -> vn_ops x = dev_vnode_ops -> vn_data x = Some p -> devices w !! p = Some d ->
     match dev w with
     | Done a w' => refs P (U ⊎ ret a) w' /\ stable None (P ⊎ U) w w'
     | Fail _ w' => refs P U w' /\ stable None (P ⊎ U) w w'
     | Halt _ => False
     end) ->
  hands P U (fun w => held U v w /\ pre w) fs ret ->
  hands P U pre (VOP v dev fs) ret.
Proof.
  intros Hv Hd Hf w HR Hp. destruct (VOP_eq P U w v dev fs HR) as (x & Hx & ->); [multiset_solver|].
  destruct (vn_ops x) eqn:Ho.
  - destruct (refs_use _ _ _ HR v x Hv Hx Ho) as (p & Hdat & d & Hdv). by apply (Hd w x p d).
  - destruct (refs_fs _ _ _ HR v x Hx Ho) as (f & Hfs & _). apply Hf; [done|]. split; [|done]. split; [done|]. exists f, x. done.
Qed.

Section Frame.
Context {Fr : FsFrame}.

Lemma on_fs_refcount w v x n u f : vnodes w !! v = Some x -> on_fs (set_vnodes (<[v := set_refcount n x]> (vnodes w)) w) u f <-> on_fs w u f.
Proof.
  intros Hx. unfold on_fs, set_vnodes. cbn [vnodes]. destruct (decide (v = u)) as [->|Hne].
  - rewrite lookup_insert_eq. split; [intros (y & [= <-] & ?); by exists x|]. intros (y & Hy & ? & ?). exists (set_refcount n x). replace y with x in * by congruence. done.
  - by rewrite lookup_insert_ne.
Qed.

(** Taking and dropping a reference. *)
Lemma incref_hands P U v w x : refs P U w -> vnodes w !! v = Some x ->
  (vn_ops x = dev_vnode_ops -> exists p, vn_data x = Some p /\ is_Some (devices w !! p)) ->
  exists w', vnode_incref v w = Done tt w' /\ refs P (U ⊎ {[+ v +]}) w' /\ forall but, stable but (P ⊎ U) w w'.
Proof.
  intros HR Hx Hd. unfold vnode_incref, vn_update, vn_get. kunfold. rewrite Hx. eexists. split; [done|].
  destruct HR as [R1 R2 R3 R4 R5 R6]. split.
  - split; unfold set_vnodes, count; cbn [vnodes devices unreclaimed fsd].
    + intros u. specialize (R1 u). unfold count in R1. rewrite !multiplicity_disj_union in *. destruct (decide (v = u)) as [->|Hne].
      * rewrite lookup_insert_eq, multiplicity_singleton_eq. rewrite Hx in R1. cbn in *. lia.
      * rewrite lookup_insert_ne by done. rewrite multiplicity_singleton_ne by done. lia.
    + intros u y [[-> <-]|[? Hy]]%lookup_insert_Some; [|by apply (R2 u)]. specialize (R2 u x Hx). cbn. lia.
    + intros u y [[-> <-]|[? Hy]]%lookup_insert_Some; [|by apply R3]. cbn. by apply R3.
    + intros u y Hu [[-> <-]|[? Hy]]%lookup_insert_Some; [by apply Hd|]. intros. apply (R4 u); [|done|done].
      rewrite gmultiset_elem_of_disj_union, gmultiset_elem_of_singleton in Hu. destruct Hu as [Hu|Hu]; congruence.
    + intros u y [[-> <-]|[? Hy]]%lookup_insert_Some; [|by apply (R5 u)]. cbn. by apply (R5 u).
    + apply (law_frame w); [done|intros; by apply on_fs_refcount|done].
  - intros but. split; [|done|done|done]. intros u y Hu Hy. unfold set_vnodes; cbn [vnodes]. destruct (decide (v = u)) as [->|Hne].
    + rewrite lookup_insert_eq. exists (set_refcount (vn_refcount x + 1) x). replace y with x by congruence. done.
    + rewrite lookup_insert_ne by done. exists y. done.
Qed.

Lemma hands_pre {A} P U (pre pre' : W -> Prop) (m : K W A) ret :
  (forall w, refs P U w -> pre' w -> pre w) -> hands P U pre m ret -> hands P U pre' m ret.
Proof. intros Hi Hm w HR Hp. apply (Hm w HR). by apply Hi. Qed.

Lemma refs_drop P U v w x : refs P (U ⊎ {[+ v +]}) w -> vnodes w !! v = Some x -> 1 < vn_refcount x ->
  refs P U (set_vnodes (<[v := set_refcount (vn_refcount x - 1) x]> (vnodes w)) w).
Proof.
  intros [R1 R2 R3 R4 R5 R6] Hx Hc. split; unfold set_vnodes, count; cbn [vnodes devices unreclaimed fsd].
  - intros u. specialize (R1 u). unfold count in R1. rewrite !multiplicity_disj_union in *. destruct (decide (v = u)) as [->|Hne].
    + rewrite lookup_insert_eq. rewrite multiplicity_singleton_eq, Hx in R1. cbn in *. lia.
    + rewrite lookup_insert_ne by done. rewrite multiplicity_singleton_ne in R1 by done. lia.
  - intros u y [[-> <-]|[? Hy]]%lookup_insert_Some; [|by apply (R2 u)]. cbn. lia.
  - intros u y [[-> <-]|[? Hy]]%lookup_insert_Some; [|by apply R3]. cbn. by apply R3.
  - intros u y Hu Hy Ho. assert (u ∈ U ⊎ {[+ v +]}) by multiset_solver.
    apply lookup_insert_Some in Hy as [[-> <-]|[? Hy]]; [by apply (R4 u x)|by apply (R4 u y)].
  - intros u y [[-> <-]|[? Hy]]%lookup_insert_Some; [|by apply (R5 u)]. cbn. by apply (R5 u).
  - apply (law_frame w); [done|intros; by apply on_fs_refcount|done].
Qed.

End Frame.

(** The world with other vnodes and another state of the file systems. *)
Definition with_fs (h : gmap Z vnode) (d : D) w : W := mkworld h (devices w) (unreclaimed w) d.

(** The same file systems, with the same volume names. *)
Definition same_fs (d d' : D) : Prop := forall f, fs_live f d' = fs_live f d /\ fsop_getvolname f d' = fsop_getvolname f d.

(** A file system changes its own state. *)
Lemma refs_fsd P U d' w : refs P U w -> same_fs (fsd w) d' -> fs_ok (with_fs (vnodes w) d' w) ->
  refs P U (with_fs (vnodes w) d' w) /\ stable None (P ⊎ U) w (with_fs (vnodes w) d' w).
Proof.
  intros [R1 R2 R3 R4 R5 R6] Hs Hok. split.
  - split; try done. intros v x Hx Ho. destruct (R5 v x Hx Ho) as (f & ? & ?). exists f. split; [done|]. cbn. by rewrite (proj1 (Hs f)).
  - split; cbn; [eauto|done|intros f _; apply Hs|intros f _ _; apply Hs].
Qed.

(** A vnode a file system makes, for its caller. *)
Lemma refs_add_fs P U v f data d' w : refs P U w -> vnodes w !! v = None -> fs_live f (fsd w) = true -> same_fs (fsd w) d' ->
  let w' := with_fs (<[v := vnode_init fs_vnode_ops (Some f) data]> (vnodes w)) d' w in
  fs_ok w' -> refs P (U ⊎ {[+ v +]}) w' /\ stable None (P ⊎ U) w w'.
Proof.
  intros [R1 R2 R3 R4 R5 R6] Hv Hlive Hs w' Hok. pose proof (R1 v) as Hz. unfold count in Hz. rewrite Hv in Hz. rewrite !multiplicity_disj_union in Hz. split.
  - split; subst w'; unfold with_fs, count in *; cbn [vnodes devices unreclaimed fsd]; [..|exact Hok].
    + intros u. specialize (R1 u). unfold count in R1. rewrite !multiplicity_disj_union in *. destruct (decide (v = u)) as [<-|Hne].
      * rewrite lookup_insert_eq, multiplicity_singleton_eq. cbn. lia.
      * rewrite lookup_insert_ne, multiplicity_singleton_ne by done. lia.
    + intros u y [[<- <-]|[? Hy]]%lookup_insert_Some; [done|by apply (R2 u)].
    + intros u y [[<- <-]|[? Hy]]%lookup_insert_Some; [done|by apply R3].
    + intros u y Hu [[<- <-]|[? Hy]]%lookup_insert_Some; [done|]. apply (R4 u); [|done]. multiset_solver.
    + intros u y [[<- <-]|[? Hy]]%lookup_insert_Some Ho; [exists f; split; [done|by rewrite (proj1 (Hs f))]|].
      destruct (R5 u y Hy Ho) as (g & ? & ?). exists g. split; [done|by rewrite (proj1 (Hs g))].
  - split; cbn; [|done|intros g _; apply Hs|intros g _ _; apply Hs]. intros u y Hu Hy. rewrite lookup_insert_ne by congruence. by exists y.
Qed.

(** A vnode a file system disposes of, with the last reference. *)
Lemma refs_delete P U v f d' w : refs P (U ⊎ {[+ v +]}) w -> on_fs w v f -> count w v = 1 -> same_fs (fsd w) d' ->
  let w' := with_fs (delete v (vnodes w)) d' w in fs_ok w' -> refs P U w' /\ stable None (P ⊎ U) w w'.
Proof.
  intros [R1 R2 R3 R4 R5 R6] (x & Hx & Ho & Hf) Hc Hs w' Hok. assert (Hz : v ∉ P ⊎ U ⊎ unreclaimed w).
  { specialize (R1 v). rewrite Hc in R1. rewrite !multiplicity_disj_union, multiplicity_singleton_eq in R1. rewrite elem_of_multiplicity, !multiplicity_disj_union. lia. }
  split.
  - split; subst w'; unfold with_fs, count; cbn [vnodes devices unreclaimed fsd]; [..|exact Hok].
    + intros u. specialize (R1 u). unfold count in R1. destruct (decide (v = u)) as [<-|Hne].
      * rewrite lookup_delete_eq. rewrite elem_of_multiplicity in Hz. lia.
      * rewrite lookup_delete_ne, R1, !multiplicity_disj_union, (multiplicity_singleton_ne u v) by done. lia.
    + intros u y [_ Hy]%lookup_delete_Some. by apply (R2 u).
    + intros u y [_ Hy]%lookup_delete_Some. by apply R3.
    + intros u y Hu [_ Hy]%lookup_delete_Some. apply (R4 u y); [multiset_solver|done].
    + intros u y [_ Hy]%lookup_delete_Some Hoy. destruct (R5 u y Hy Hoy) as (g & ? & ?). exists g. split; [done|by rewrite (proj1 (Hs g))].
  - split; cbn; [|done|intros g _; apply Hs|intros g _ _; apply Hs]. intros u y Hu Hy. assert (v <> u) by (intros ->; multiset_solver).
    rewrite lookup_delete_ne by done. by exists y.
Qed.

Context {L : FsLaws}.

Lemma vnode_decref_ok P U v w : refs P (U ⊎ {[+ v +]}) w ->
  exists w', vnode_decref v w = Done tt w' /\ refs P U w' /\ forall but, stable but (P ⊎ U) w w'.
Proof.
  intros HR. destruct (refs_alive _ _ w v HR) as (x & Hx & Hcx & Hp); [multiset_solver|].
  unfold vnode_decref at 1. unfold vn_get at 1. kunfold. rewrite Hx, (proj2 (Z.ltb_lt _ _)) by lia. unfold kret at 1.
  destruct (Z.ltb_spec 1 (vn_refcount x)) as [Hc|Hc].
  - unfold vn_update, vn_get. kunfold. rewrite Hx. eexists. split; [done|]. split; [by apply refs_drop|].
    intros but. split; [|done|done|done]. intros u y Hu Hy. unfold set_vnodes; cbn [vnodes].
    destruct (decide (v = u)) as [->|Hne].
    + rewrite lookup_insert_eq. exists (set_refcount (vn_refcount x - 1) x). replace y with x by congruence. done.
    + rewrite lookup_insert_ne by done. exists y. done.
  - assert (H1 : count w v = 1) by lia. unfold VOP_RECLAIM.
    destruct (VOP_eq P (U ⊎ {[+ v +]}) w v (dev_reclaim v) (fs_reclaim v) HR) as (x' & Hx' & ->); [multiset_solver|].
    replace x' with x by congruence. destruct (vn_ops x) eqn:Ho.
    + exfalso. destruct (refs_dev _ _ _ HR v x Hx Ho) as [Hin _]. pose proof (refs_count _ _ _ HR v) as Hm.
      rewrite elem_of_multiplicity in Hin. rewrite !multiplicity_disj_union, multiplicity_singleton_eq in Hm. lia.
    + destruct (refs_fs _ _ _ HR v x Hx Ho) as (f & Hf & _).
      pose proof (law_reclaim v f P U w HR ltac:(by exists x) H1) as Hl.
      destruct (fs_reclaim v w) as [[] w'|e w'|h]; [| |done].
      * destruct Hl as [Hr Hs]. eexists. split; [done|]. split; [done|]. intros. by apply (stable_weaken (P ⊎ U)).
      * destruct (e =? EBUSY); destruct Hl as [Hr Hs]; (eexists; split; [done|]; split);
          [done|intros; by apply (stable_weaken (P ⊎ U))| |intros but; destruct (stable_weaken _ _ but _ _ (reflexivity (P ⊎ U)) Hs); by split].
        destruct Hr as [R1 R2 R3 R4 R5 R6]. split; cbn; [|done|done| |done|by apply (law_frame w')].
        -- intros u. specialize (R1 u). unfold count in *. cbn. rewrite R1, !multiplicity_disj_union. lia.
        -- intros u y Hu. apply R4. multiset_solver.
Qed.

Lemma refs_nothing {A} (a : A) P U w : refs P (U ⊎ nothing a) w <-> refs P U w.
Proof. unfold nothing. by rewrite (right_id_L ∅ (⊎) U). Qed.

Lemma quiet {A} (a : A) P U w : refs P U w -> refs P (U ⊎ nothing a) w /\ stable None (P ⊎ U) w w.
Proof. intros. split; [by apply refs_nothing|apply stable_refl]. Qed.

Lemma dev_of_eq w v x p d : vnodes w !! v = Some x -> vn_data x = Some p -> devices w !! p = Some d -> dev_of v w = Done (p, d) w.
Proof. intros Hx Hp Hd. unfold dev_of, vn_get. kunfold. by rewrite Hx, Hp, Hd. Qed.

(** An operation a device does not have. *)
Ltac no_device := intros ? ? ? ? ? _ _ _ _; split; [done|apply stable_refl].

Section Macros.
Context (P U : gmultiset Z) (v : Z) (Hv : v ∈ U).
Let always : W -> Prop := fun _ => True.

Ltac vop law := intros; apply VOP_hands; [done| |apply (hands_pre _ _ (held U v)); [by intros ? _ [??]|apply law]].

Lemma VOP_EACHOPEN_hands flags : hands P U always (VOP_EACHOPEN v flags) nothing.
Proof.
  vop law_eachopen. intros w x p d HR Hx _ Hp Hd. unfold dev_eachopen. kunfold. rewrite (dev_of_eq w v x p d) by done. cbn [fst snd].
  destruct (negb _); [split; [done|apply stable_refl]|]. unfold DEVOP_EACHOPEN. destruct (d_ops d); [by apply quiet|].
  apply law_drv_eachopen; [done|by exists d].
Qed.

Lemma VOP_READLINK_hands u : hands P U always (VOP_READLINK v u) nothing.
Proof. vop law_readlink. no_device. Qed.

Lemma VOP_GETTYPE_hands : hands P U always (VOP_GETTYPE v) nothing.
Proof.
  vop law_gettype. intros w x p d HR Hx _ Hp Hd. unfold dev_gettype. kunfold. rewrite (dev_of_eq w v x p d) by done. by apply quiet.
Qed.

Lemma VOP_TRUNCATE_hands len : hands P U always (VOP_TRUNCATE v len) nothing.
Proof.
  vop law_truncate. intros w x p d HR Hx _ Hp Hd. unfold dev_truncate. kunfold. rewrite (dev_of_eq w v x p d) by done.
  destruct (_ && _); [by apply quiet|]. split; [done|apply stable_refl].
Qed.

Lemma VOP_NAMEFILE_hands u : hands P U always (VOP_NAMEFILE v u) nothing.
Proof. vop law_namefile. intros w x p d HR _ _ _ _. by apply quiet. Qed.

Lemma VOP_CREAT_hands nm excl mode : hands P U always (VOP_CREAT v nm excl mode) the_new.
Proof. vop law_creat. no_device. Qed.

Lemma VOP_SYMLINK_hands nm contents : hands P U always (VOP_SYMLINK v nm contents) nothing.
Proof. vop law_symlink. no_device. Qed.

Lemma VOP_MKDIR_hands nm mode : hands P U always (VOP_MKDIR v nm mode) nothing.
Proof. vop law_mkdir. no_device. Qed.

Lemma VOP_REMOVE_hands nm : hands P U always (VOP_REMOVE v nm) nothing.
Proof. vop law_remove. no_device. Qed.

Lemma VOP_RMDIR_hands nm : hands P U always (VOP_RMDIR v nm) nothing.
Proof. vop law_rmdir. no_device. Qed.

Lemma VOP_LOOKPARENT_hands path len : hands P U always (VOP_LOOKPARENT v path len) the_parent.
Proof. vop law_lookparent. no_device. Qed.

Lemma VOP_LOOKUP_hands path : hands P U always (VOP_LOOKUP v path) the_vnode.
Proof.
  vop law_lookup. intros w x p d HR Hx Ho Hp Hd. unfold dev_lookup. destruct (0 <? length path)%nat; [split; [done|apply stable_refl]|].
  destruct (incref_hands P U v w x HR Hx) as (w' & E & Hr & Hs); [by exists p; split; [done|exists d]|].
  kunfold. rewrite E. split; [done|apply Hs].
Qed.

(** Operations on two vnodes: both are of one file system. *)
Lemma VOP_LINK_hands nm v2 : hands P U (held2 U v v2) (VOP_LINK v nm v2) nothing.
Proof.
  apply VOP_hands; [done|no_device|]. apply (hands_pre _ _ (held2 U v v2)); [by intros ? _ [_ ?]|apply law_link].
Qed.

Lemma VOP_RENAME_hands n1 v2 n2 : hands P U (held2 U v v2) (VOP_RENAME v n1 v2 n2) nothing.
Proof.
  apply VOP_hands; [done|no_device|]. apply (hands_pre _ _ (held2 U v v2)); [by intros ? _ [_ ?]|apply law_rename].
Qed.

End Macros.

End References.
Arguments FsFrame D {F}.
Arguments FsLaws D {F}.
