(* ===== verification/VfsList.v ===== *)
(** * The list of devices

    kern/vfs/vfslist.c: the table of named devices, mounting and unmounting, and the big
    lock of the VFS layer.

    The state [vfs] is the one of the whole layer, as one thread sees it: the list, the
    vnode of the boot file system (kern/vfs/vfslookup.c), the current directory of the
    process, and the big lock with its depth; another thread would wait for the lock. A
    [struct knowndev] is named by its index in the list. Memory is an oracle: whether the
    [n]-th request for memory is granted. *)

From stdpp Require Import base numbers functions list gmap gmultiset.
From Stdlib Require Import ZArith Lia.
From S2P Require Import Prelude SfsDisk Vnode.

Open Scope Z_scope.
Open Scope k_scope.

(** kern/vfs/vfslist.c:86 (SWAP_FS): the pointer -1. *)
Definition SWAP_FS : Z := 2 ^ 32 - 1.

(** kern/vfs/vfslist.c:77-83 (struct knowndev). *)
Record knowndev := mkkd {
  kd_name : name;
  kd_rawname : option name;
  kd_device : option Z;
  kd_vnode : Z;
  kd_fs : option Z
}.

Definition set_kd_fs (f : option Z) (kd : knowndev) : knowndev :=
  mkkd (kd_name kd) (kd_rawname kd) (kd_device kd) (kd_vnode kd) f.

Record vfs (D : Type) := mkvfs {
  wd : world D;
  knowndevs : list knowndev;
  bootfs_vnode : option Z;
  p_cwd : option Z;
  vfs_biglock : bool;           (* the lock is held by this thread *)
  vfs_biglock_depth : Z;
  requests : nat                (* the requests for memory so far *)
}.
Arguments mkvfs {D}.
Arguments wd {D}.
Arguments knowndevs {D}.
Arguments bootfs_vnode {D}.
Arguments p_cwd {D}.
Arguments vfs_biglock {D}.
Arguments vfs_biglock_depth {D}.
Arguments requests {D}.

Class Kmem := granted : nat -> bool.

Section VfsList.
Context {D : Type} {F : FileSystems D} {M : Kmem}.
Local Abbreviation S := (vfs D).
Implicit Types s : S.

Definition set_wd x s : S := mkvfs x (knowndevs s) (bootfs_vnode s) (p_cwd s) (vfs_biglock s) (vfs_biglock_depth s) (requests s).
Definition set_knowndevs x s : S := mkvfs (wd s) x (bootfs_vnode s) (p_cwd s) (vfs_biglock s) (vfs_biglock_depth s) (requests s).
Definition set_bootfs x s : S := mkvfs (wd s) (knowndevs s) x (p_cwd s) (vfs_biglock s) (vfs_biglock_depth s) (requests s).
Definition set_cwd x s : S := mkvfs (wd s) (knowndevs s) (bootfs_vnode s) x (vfs_biglock s) (vfs_biglock_depth s) (requests s).
Definition set_biglock b n s : S := mkvfs (wd s) (knowndevs s) (bootfs_vnode s) (p_cwd s) b n (requests s).
Definition set_requests n s : S := mkvfs (wd s) (knowndevs s) (bootfs_vnode s) (p_cwd s) (vfs_biglock s) (vfs_biglock_depth s) n.

Definition on_world {A} (m : K (world D) A) : K S A :=
  fun s => match m (wd s) with
           | Done a w => Done a (set_wd w s)
           | Fail e w => Fail e (set_wd w s)
           | Halt h => Halt h
           end.

(** A request for memory. *)
Definition kmalloc : K S bool :=
  s <- kget ;;
  kput (set_requests (Datatypes.S (requests s)) s) ;;;
  kret (granted (requests s)).

(** ** The big lock *)

(** [lock_acquire] and [lock_release] of kern/thread/synch.c (Synch.v), for one thread:
    a thread that takes the lock it holds would wait for itself. *)
Definition lock_acquire : K S unit :=
  s <- kget ;;
  if vfs_biglock s then khalt Blocked else kput (set_biglock true (vfs_biglock_depth s) s).

Definition lock_release : K S unit :=
  s <- kget ;;
  kassert (vfs_biglock s) ;;;
  kput (set_biglock false (vfs_biglock_depth s) s).

(** kern/vfs/vfslist.c:126-150 (vfs_biglock_acquire). *)
Definition vfs_biglock_acquire : K S unit :=
  s <- kget ;;
  (if negb (vfs_biglock s) then lock_acquire
   else if vfs_biglock_depth s =? 0 then lock_acquire
   else kret tt) ;;;
  kmodify (fun s => set_biglock (vfs_biglock s) (u32 (vfs_biglock_depth s + 1)) s).

(** kern/vfs/vfslist.c:152-161 (vfs_biglock_release). *)
Definition vfs_biglock_release : K S unit :=
  s <- kget ;;
  kassert (vfs_biglock s) ;;;
  kassert (0 <? vfs_biglock_depth s) ;;;
  kput (set_biglock (vfs_biglock s) (vfs_biglock_depth s - 1) s) ;;;
  s <- kget ;;
  if vfs_biglock_depth s =? 0 then lock_release else kret tt.

(** kern/vfs/vfslist.c:163-167 (vfs_biglock_do_i_hold). *)
Definition vfs_biglock_do_i_hold : K S bool := s <- kget ;; kret (vfs_biglock s).

(** [{ acquire; ...; release; return }] where every return, of an error too, releases. *)
Definition locked {A} (m : K S A) : K S A :=
  vfs_biglock_acquire ;;;
  r <- attempt m ;;
  vfs_biglock_release ;;;
  match r with inl e => kfail e | inr a => kret a end.

Definition assert_held : K S unit := b <- vfs_biglock_do_i_hold ;; kassert b.

(** ** Names *)

(** The two string comparisons [!strcmp]. *)
Definition streq (a b : name) : bool := bool_decide (a = b).

(** "raw" *)
Definition raw : name := [114; 97; 119].

(** kern/vfs/vfslist.c:307-318 (mkrawname). *)
Definition mkrawname (nm : name) : K S (option name) :=
  ok <- kmalloc ;;
  kret (if ok then Some (nm ++ raw) else None).

(** kern/vfs/vfslist.c:325-334 (samestring). *)
Definition samestring (a b : option name) : bool :=
  match a, b with
  | Some a, Some b => streq a b
  | _, _ => false
  end.

(** kern/vfs/vfslist.c:340-346 (samestring3). *)
Definition samestring3 (a b c d : option name) : bool := samestring a b || samestring a c || samestring a d.

(** The file system mounted on a device: [kd_fs] is neither NULL nor [SWAP_FS]. *)
Definition mounted (kd : knowndev) : option Z :=
  match kd_fs kd with
  | Some f => if f =? SWAP_FS then None else Some f
  | None => None
  end.

Definition volname_of (d : D) (kd : knowndev) : option name :=
  match mounted kd with Some f => fsop_getvolname f d | None => None end.

(** kern/vfs/vfslist.c:364-378 (badnames): the body of the loop. *)
Definition badname (d : D) (n1 n2 n3 : option name) (kd : knowndev) : bool :=
  samestring3 (volname_of d kd) n1 n2 n3 ||
  samestring3 (kd_rawname kd) n1 n2 n3 || samestring3 (Some (kd_name kd)) n1 n2 n3.

(** kern/vfs/vfslist.c:353-381 (badnames). *)
Definition badnames (n1 n2 n3 : option name) : K S bool :=
  assert_held ;;;
  s <- kget ;;
  kret (existsb (badname (fsd (wd s)) n1 n2 n3) (knowndevs s)).

(** kern/vfs/vfslist.c:172-191 (vfs_sync): the loop over the file systems; errors are
    ignored. *)
Fixpoint sync_loop (kds : list knowndev) : K S unit :=
  match kds with
  | [] => kret tt
  | kd :: kds' =>
      match mounted kd with
      | Some f => attempt (on_world (fsop_sync f)) ;;; kret tt
      | None => kret tt
      end ;;;
      sync_loop kds'
  end.

(** kern/vfs/vfslist.c:172-191 (vfs_sync). *)
Definition vfs_sync : K S unit :=
  locked (s <- kget ;; sync_loop (knowndevs s)).

(** [VOP_INCREF(kd->kd_vnode); *ret = kd->kd_vnode] *)
Definition give_device (kd : knowndev) : K S Z :=
  on_world (vnode_incref (kd_vnode kd)) ;;; kret (kd_vnode kd).

(** kern/vfs/vfslist.c:206-264 (vfs_getroot): the loop. *)
Fixpoint getroot_loop (devname : name) (kds : list knowndev) : K S Z :=
  match kds with
  | [] => kfail ENODEV
  | kd :: kds' =>
      s <- kget ;;
      let named := streq (kd_name kd) devname in
      let rest :=
        if named then
          kassert (bool_decide (kd_fs kd = None)) ;;;
          kassert (bool_decide (kd_rawname kd = None)) ;;;
          kassert (bool_decide (is_Some (kd_device kd))) ;;;
          give_device kd
        else if samestring (kd_rawname kd) (Some devname) then
          kassert (bool_decide (is_Some (kd_device kd))) ;;;
          give_device kd
        else getroot_loop devname kds' in
      match mounted kd with
      | Some f =>
          if named || samestring (fsop_getvolname f (fsd (wd s))) (Some devname)
          then on_world (fsop_getroot f)
          else rest
      | None =>
          if bool_decide (is_Some (kd_rawname kd)) && named then kfail ENXIO
          else rest
      end
  end.

(** kern/vfs/vfslist.c:197-271 (vfs_getroot). *)
Definition vfs_getroot (devname : name) : K S Z :=
  assert_held ;;;
  s <- kget ;;
  getroot_loop devname (knowndevs s).

(** kern/vfs/vfslist.c:276-302 (vfs_getdevname). *)
Definition vfs_getdevname (f : option Z) : K S (option name) :=
  kassert (bool_decide (is_Some f)) ;;;
  assert_held ;;;
  s <- kget ;;
  kret (kd_name <$> head (filter (fun kd => kd_fs kd = f) (knowndevs s))).

(** ** Adding devices *)

(** [knowndevarray_add] (kern/include/array.h; KArray.v): the element goes to the end, at
    the index that is returned, or there is no memory. *)
Definition knowndevarray_add (kd : knowndev) : K S Z :=
  ok <- kmalloc ;;
  if negb ok then kfail ENOMEM else
  s <- kget ;;
  kput (set_knowndevs (knowndevs s ++ [kd]) s) ;;;
  kret (Z.of_nat (length (knowndevs s))).

(** kern/vfs/vfslist.c:419-423 (vfs_doadd): the vnode of a device, at an address that is
    not in use. *)
Definition new_dev_vnode (dev : option Z) : K S (option Z) :=
  ok <- kmalloc ;;
  s <- kget ;;
  on_world (dev_create_vnode (if ok then Some (fresh (dom (vnodes (wd s)))) else None) dev).

(** kern/vfs/vfslist.c:451-454 (vfs_doadd): the number of the device. *)
Definition number_device (dev : option Z) (index : Z) : K S unit :=
  match dev with
  | None => kret tt
  | Some p =>
      s <- kget ;;
      match devices (wd s) !! p with
      | None => khalt UseAfterFree
      | Some d => kput (set_wd (set_devices (<[p := set_devnumber (u32 (index + 1)) d]> (devices (wd s))) (wd s)) s)
      end
  end.

(** kern/vfs/vfslist.c:425-454 (vfs_doadd), once the vnode is there; an error undoes it
    (lines 466-468). *)
Definition doadd_vnode (nm : name) (rawname : option name) (dev fs : option Z) (v : Z) : K S unit :=
  r <- attempt
    (ok <- kmalloc ;;
     if negb ok then kfail ENOMEM else
     s <- kget ;;
     bad <- badnames (Some nm) rawname (match fs with Some f => fsop_getvolname f (fsd (wd s)) | None => None end) ;;
     if bad : bool then kfail EEXIST else
     knowndevarray_add (mkkd nm rawname dev v fs)) ;;
  match r with
  | inl e => on_world (dev_uncreate_vnode v) ;;; kfail e
  | inr index => number_device dev index
  end.

(** kern/vfs/vfslist.c:390-475 (vfs_doadd); the name and the raw name are freed again on
    an error. *)
Definition vfs_doadd (dname : name) (mountable : bool) (dev fs : option Z) : K S unit :=
  locked
   (ok <- kmalloc ;;
    if negb ok then kfail ENOMEM else
    rawname <- (if mountable then
                  r <- mkrawname dname ;;
                  match r with None => kfail ENOMEM | Some r => kret (Some r) end
                else kret None) ;;
    v <- new_dev_vnode dev ;;
    match v with
    | None => kfail ENOMEM
    | Some v => doadd_vnode dname rawname dev fs v
    end).

(** kern/vfs/vfslist.c:481-485 (vfs_adddev). *)
Definition vfs_adddev (devname : name) (dev : Z) (mountable : bool) : K S unit :=
  vfs_doadd devname mountable (Some dev) None.

(** kern/vfs/vfslist.c:492-496 (vfs_addfs). *)
Definition vfs_addfs (devname : name) (fs : Z) : K S unit := vfs_doadd devname false None (Some fs).

(** "null" *)
Definition null_name : name := [110; 117; 108; 108].

(** kern/vfs/devnull.c:100-124 (devnull_create); an error is a panic. *)
Definition devnull_create : K S unit :=
  ok <- kmalloc ;;
  if negb ok then khalt PanicCall else
  s <- kget ;;
  let dev := fresh (dom (devices (wd s))) in
  kput (set_wd (set_devices (<[dev := mkdevice null_devops 0 1 0]> (devices (wd s))) (wd s)) s) ;;;
  r <- attempt (vfs_adddev null_name dev false) ;;
  match r with inl _ => khalt PanicCall | inr _ => kret tt end.

(** kern/vfs/vfslist.c:101-117 (vfs_bootstrap): the array and the lock, then the null
    device and the semaphore file system. *)
Definition vfs_bootstrap (semfs_bootstrap : K S unit) : K S unit :=
  ok <- kmalloc ;;
  if negb ok then khalt PanicCall else
  kmodify (set_knowndevs []) ;;;
  ok <- kmalloc ;;
  if negb ok then khalt PanicCall else
  kmodify (set_biglock false 0) ;;;
  devnull_create ;;;
  semfs_bootstrap.

(** ** Mounting *)

(** kern/vfs/vfslist.c:504-529 (findmount): the index of the device. *)
Fixpoint findmount_loop (devname : name) (i : nat) (kds : list knowndev) : K S nat :=
  match kds with
  | [] => kfail ENODEV
  | kd :: kds' =>
      if bool_decide (is_Some (kd_rawname kd)) && streq devname (kd_name kd) then kret i
      else findmount_loop devname (Datatypes.S i) kds'
  end.

(** kern/vfs/vfslist.c:504-529 (findmount). *)
Definition findmount (devname : name) : K S (nat * knowndev) :=
  assert_held ;;;
  s <- kget ;;
  i <- findmount_loop devname 0 (knowndevs s) ;;
  match knowndevs s !! i with
  | None => khalt OutOfBounds
  | Some kd => kret (i, kd)
  end.

(** [kd->kd_fs = f] *)
Definition assign_fs (i : nat) (f : option Z) : K S unit :=
  kmodify (fun s => set_knowndevs (alter (set_kd_fs f) i (knowndevs s)) s).

Definition assert_mountable (kd : knowndev) : K S unit :=
  kassert (bool_decide (is_Some (kd_rawname kd))) ;;; kassert (bool_decide (is_Some (kd_device kd))).

(** kern/vfs/vfslist.c:537-578 (vfs_mount); [mountfunc] is given the device. *)
Definition vfs_mount (devname : name) (mountfunc : option Z -> K (world D) (option Z)) : K S unit :=
  locked
   (r <- findmount devname ;;
    let (i, kd) := r : nat * knowndev in
    if bool_decide (is_Some (kd_fs kd)) then kfail EBUSY else
    assert_mountable kd ;;;
    fs <- on_world (mountfunc (kd_device kd)) ;;
    kassert (bool_decide (is_Some fs)) ;;;
    kassert (negb (bool_decide (fs = Some SWAP_FS))) ;;;
    assign_fs i fs).

(** ":" *)
Definition COLON : Z := 58.
(** "/" *)
Definition SLASH : Z := 47.

(** kern/vfs/vfslist.c:593-602 (vfs_swapon): the name without a colon at its end. *)
Definition strip_colon (devname : name) : K S name :=
  match devname !! pred (length devname) with
  | Some c =>
      if c =? COLON then
        ok <- kmalloc ;;
        if negb ok then kfail ENOMEM else kret (take (pred (length devname)) devname)
      else kret devname
  | None => kret devname
  end.

(** kern/vfs/vfslist.c:585-631 (vfs_swapon). *)
Definition vfs_swapon (devname : name) : K S Z :=
  devname <- strip_colon devname ;;
  locked
   (r <- findmount devname ;;
    let (i, kd) := r : nat * knowndev in
    if bool_decide (is_Some (kd_fs kd)) then kfail EBUSY else
    assert_mountable kd ;;;
    assign_fs i (Some SWAP_FS) ;;;
    give_device kd).

(** kern/vfs/vfslist.c:637-678 (vfs_unmount). *)
Definition vfs_unmount (devname : name) : K S unit :=
  locked
   (r <- findmount devname ;;
    let (i, kd) := r : nat * knowndev in
    match mounted kd with
    | None => kfail EINVAL
    | Some f =>
        assert_mountable kd ;;;
        on_world (fsop_sync f) ;;;
        on_world (fsop_unmount f) ;;;
        assign_fs i None
    end).

(** kern/vfs/vfslist.c:687-715 (vfs_swapoff). *)
Definition vfs_swapoff (devname : name) : K S unit :=
  locked
   (r <- findmount devname ;;
    let (i, kd) := r : nat * knowndev in
    if negb (bool_decide (kd_fs kd = Some SWAP_FS)) then kfail EINVAL else
    assign_fs i None).

(** kern/vfs/vfslist.c:748-780 (vfs_unmountall): one file system. *)
Definition unmount_one (i : nat) (f : Z) : K S unit :=
  r <- attempt (on_world (fsop_sync f)) ;;
  r <- match r with
       | inl _ => attempt (on_world (fsop_sync f))
       | inr _ => kret (inr tt)
       end ;;
  match r : Z + unit with
  | inl _ => kret tt
  | inr _ =>
      r <- attempt (on_world (fsop_unmount f)) ;;
      match r with
      | inl _ => kret tt
      | inr _ => assign_fs i None
      end
  end.

(** kern/vfs/vfslist.c:730-781 (vfs_unmountall): the loop; [i] is the index of the first
    device of [kds]. *)
Fixpoint unmountall_loop (i : nat) (kds : list knowndev) : K S unit :=
  match kds with
  | [] => kret tt
  | kd :: kds' =>
      match kd_rawname kd, kd_fs kd with
      | Some _, Some f => if f =? SWAP_FS then assign_fs i None else unmount_one i f
      | _, _ => kret tt
      end ;;;
      unmountall_loop (Datatypes.S i) kds'
  end.

(** kern/vfs/vfslist.c:720-786 (vfs_unmountall). *)
Definition vfs_unmountall : K S unit :=
  locked (s <- kget ;; unmountall_loop 0 (knowndevs s)).

End VfsList.
