(* ===== verification/VfsLookup.v ===== *)
(** * Pathnames and the current directory

    kern/vfs/vfslookup.c, kern/vfs/vfscwd.c and kern/vfs/vfspath.c: from a pathname to a
    vnode, and the operations on pathnames that the system calls use. *)

From stdpp Require Import base numbers functions list gmap gmultiset.
From Stdlib Require Import ZArith Lia.
From S2P Require Import Prelude SfsDisk Vnode VfsList.

Open Scope Z_scope.
Open Scope k_scope.

(** kern/include/kern/limits.h:60. *)
Definition NAME_MAX : Z := 255.

Section VfsLookup.
Context {D : Type} {F : FileSystems D} {M : Kmem}.
Local Abbreviation S := (vfs D).
Implicit Types s : S.

Definition VOP_INCREF (v : Z) : K S unit := on_world (vnode_incref v).
Definition VOP_DECREF (v : Z) : K S unit := on_world (vnode_decref v).
Definition vn_fs_of (v : Z) : K S (option Z) := x <- on_world (vn_get v) ;; kret (vn_fs x).

(** [r] is what an operation returned; the reference to [v] is dropped before it is
    looked at. *)
Definition drop_and {A} (v : Z) (r : Z + A) : K S A :=
  VOP_DECREF v ;;;
  match r with inl e => kfail e | inr a => kret a end.

(** ** The current directory, kern/vfs/vfscwd.c *)

(** kern/vfs/vfscwd.c:48-64 (vfs_getcurdir). *)
Definition vfs_getcurdir : K S Z :=
  s <- kget ;;
  match p_cwd s with
  | Some v => VOP_INCREF v ;;; kret v
  | None => kfail ENOENT
  end.

(** kern/vfs/vfscwd.c:70-97 (vfs_setcurdir). *)
Definition vfs_setcurdir (dir : Z) : K S unit :=
  vtype <- on_world (VOP_GETTYPE dir) ;;
  if negb (vtype =? S_IFDIR) then kfail ENOTDIR else
  VOP_INCREF dir ;;;
  s <- kget ;;
  kput (set_cwd (Some dir) s) ;;;
  match p_cwd s with
  | Some old => VOP_DECREF old
  | None => kret tt
  end.

(** kern/vfs/vfscwd.c:102-117 (vfs_clearcurdir). *)
Definition vfs_clearcurdir : K S unit :=
  s <- kget ;;
  kput (set_cwd None s) ;;;
  match p_cwd s with
  | Some old => VOP_DECREF old
  | None => kret tt
  end.

(** ** Pathnames, kern/vfs/vfslookup.c *)

(** kern/vfs/vfslookup.c:149-158 (getdevice): the first colon or slash, the index of the
    one that is found; [i] is the index of the first character of [path]. *)
Fixpoint find_sep (i : Z) (path : name) : Z * Z :=
  match path with
  | [] => (-1, -1)
  | c :: path' =>
      if c =? COLON then (i, -1)
      else if c =? SLASH then (-1, i)
      else find_sep (i + 1) path'
  end.

(** kern/vfs/vfslookup.c:175-178, 227-230 (getdevice): what remains after the slashes at
    the front. *)
Fixpoint skip_slashes (path : name) : name :=
  match path with
  | c :: path' => if c =? SLASH then skip_slashes path' else path
  | [] => []
  end.

(** kern/vfs/vfslookup.c:197-225 (getdevice): where [/path] and [:path] start. *)
Definition start_vnode (path : name) : K S Z :=
  if bool_decide (path !! 0%nat = Some SLASH) then
    s <- kget ;;
    match bootfs_vnode s with
    | None => kfail ENOENT
    | Some v => VOP_INCREF v ;;; kret v
    end
  else
    kassert (bool_decide (path !! 0%nat = Some COLON)) ;;;
    vn <- vfs_getcurdir ;;
    fs <- vn_fs_of vn ;;
    match fs with
    | None => khalt KAssert
    | Some f =>
        r <- attempt (on_world (fsop_getroot f)) ;;
        drop_and vn r
    end.

(** kern/vfs/vfslookup.c:128-235 (getdevice): the vnode to start from and the rest of the
    path. The code cuts the caller's buffer at the colon; the rest begins behind it. *)
Definition getdevice (path : name) : K S (name * Z) :=
  assert_held ;;;
  match path with
  | [] => kfail EINVAL
  | _ :: path' =>
      let (colon, slash) := find_sep 0 path in
      if (colon <? 0) && negb (slash =? 0) then
        v <- vfs_getcurdir ;; kret (path, v)
      else if 0 <? colon then
        v <- vfs_getroot (take (Z.to_nat colon) path) ;;
        kret (skip_slashes (drop (Z.to_nat (colon + 1)) path), v)
      else
        kassert ((colon =? 0) || (slash =? 0)) ;;;
        v <- start_vnode path ;;
        kret (skip_slashes path', v)
  end.

(** kern/vfs/vfslookup.c:242-273 (vfs_lookparent). *)
Definition vfs_lookparent (path : name) (buflen : Z) : K S (Z * name) :=
  locked
   (r <- getdevice path ;;
    let (path, startvn) := r : name * Z in
    r <- attempt (if (length path =? 0)%nat then kfail EINVAL
                  else on_world (VOP_LOOKPARENT startvn path buflen)) ;;
    drop_and startvn r).

(** kern/vfs/vfslookup.c:275-300 (vfs_lookup). *)
Definition vfs_lookup (path : name) : K S Z :=
  locked
   (r <- getdevice path ;;
    let (path, startvn) := r : name * Z in
    if (length path =? 0)%nat then kret startvn else
    r <- attempt (on_world (VOP_LOOKUP startvn path)) ;;
    drop_and startvn r).

(** kern/vfs/vfscwd.c:123-136 (vfs_chdir). *)
Definition vfs_chdir (path : name) : K S unit :=
  vn <- vfs_lookup path ;;
  r <- attempt (vfs_setcurdir vn) ;;
  drop_and vn r.

(** kern/vfs/vfscwd.c:143-184 (vfs_getcwd). *)
Definition vfs_getcwd (u : uio) : K S uio :=
  kassert (bool_decide (uio_rwf u = UIO_READ)) ;;;
  cwd <- vfs_getcurdir ;;
  fs <- vn_fs_of cwd ;;
  match fs with
  | None => khalt KAssert
  | Some f =>
      s <- kget ;;
      nm <- (match fsop_getvolname f (fsd (wd s)) with
             | Some nm => kret (Some nm)
             | None => locked (vfs_getdevname (Some f))
             end) ;;
      match nm with
      | None => khalt KAssert
      | Some nm =>
          r <- attempt (r1 <- uiomove nm (Z.of_nat (length nm)) u ;;
                        r2 <- uiomove [COLON] 1 (snd r1) ;;
                        on_world (VOP_NAMEFILE cwd (snd r2))) ;;
          drop_and cwd r
      end
  end.

(** kern/vfs/vfslookup.c:48-60 (change_bootfs). *)
Definition change_bootfs (newvn : option Z) : K S unit :=
  s <- kget ;;
  kput (set_bootfs newvn s) ;;;
  match bootfs_vnode s with
  | Some oldvn => VOP_DECREF oldvn
  | None => kret tt
  end.

(** kern/vfs/vfslookup.c:80 (vfs_setbootfs): [snprintf] into a buffer of [NAME_MAX] bytes
    keeps one for the terminator. *)
Definition snprintf_name (fsname : name) : name := take (Z.to_nat (NAME_MAX - 1)) fsname.

(** [strchr] of the C library: the string from the first [c] on. *)
Fixpoint strchr (str : name) (c : Z) : option name :=
  match str with
  | [] => None
  | x :: str' => if x =? c then Some str else strchr str' c
  end.

(** kern/vfs/vfslookup.c:70-109 (vfs_setbootfs); the string at the colon that [strchr]
    finds begins with that colon. *)
Definition vfs_setbootfs (fsname : name) : K S unit :=
  locked
   (let tmp := snprintf_name fsname in
    tmp <- match strchr tmp COLON with
           | Some s => if (0 <? length s)%nat then kfail EINVAL else kret tmp
           | None => kret (tmp ++ [COLON])
           end ;;
    vfs_chdir tmp ;;;
    newguy <- vfs_getcurdir ;;
    change_bootfs (Some newguy)).

(** kern/vfs/vfslookup.c:114-120 (vfs_clearbootfs). *)
Definition vfs_clearbootfs : K S unit := locked (change_bootfs None).

(** ** Operations on pathnames, kern/vfs/vfspath.c *)

(** kern/vfs/vfspath.c:52-64 (vfs_open): whether the access mode allows writing. *)
Definition open_how (openflags : Z) : option bool :=
  let how := Z.land openflags O_ACCMODE in
  if how =? O_RDONLY then Some false
  else if (how =? O_WRONLY) || (how =? O_RDWR) then Some true
  else None.

(** kern/vfs/vfspath.c:66-86 (vfs_open): the vnode, created when O_CREAT is given. *)
Definition open_vnode (path : name) (openflags mode : Z) : K S (option Z) :=
  if negb (Z.land openflags O_CREAT =? 0) then
    let excl := negb (Z.land openflags O_EXCL =? 0) in
    r <- vfs_lookparent path (NAME_MAX + 1) ;;
    let (dir, nm) := r : Z * name in
    r <- attempt (on_world (VOP_CREAT dir nm excl mode)) ;;
    drop_and dir r
  else
    vn <- vfs_lookup path ;; kret (Some vn).

(** kern/vfs/vfspath.c:90-107 (vfs_open): the checks on the vnode. *)
Definition open_checks (vn openflags : Z) (canwrite : bool) : K S unit :=
  on_world (VOP_EACHOPEN vn openflags) ;;;
  if negb (Z.land openflags O_TRUNC =? 0) then
    if negb canwrite then kfail EINVAL else on_world (VOP_TRUNCATE vn 0)
  else kret tt.

(** kern/vfs/vfspath.c:44-112 (vfs_open). *)
Definition vfs_open (path : name) (openflags mode : Z) : K S Z :=
  match open_how openflags with
  | None => kfail EINVAL
  | Some canwrite =>
      vn <- open_vnode path openflags mode ;;
      match vn with
      | None => khalt KAssert
      | Some vn =>
          r <- attempt (open_checks vn openflags canwrite) ;;
          match r with
          | inl e => VOP_DECREF vn ;;; kfail e
          | inr _ => kret vn
          end
      end
  end.

(** kern/vfs/vfspath.c:115-133 (vfs_close). *)
Definition vfs_close (vn : Z) : K S unit := VOP_DECREF vn.

(** kern/vfs/vfspath.c:136-152 (vfs_remove). *)
Definition vfs_remove (path : name) : K S unit :=
  r <- vfs_lookparent path (NAME_MAX + 1) ;;
  let (dir, nm) := r : Z * name in
  r <- attempt (on_world (VOP_REMOVE dir nm)) ;;
  drop_and dir r.

(** The reference to [v] is dropped when [m] fails. *)
Definition or_drop {A} (v : Z) (m : K S A) : K S A :=
  r <- attempt m ;;
  match r with inl e => VOP_DECREF v ;;; kfail e | inr a => kret a end.

(** kern/vfs/vfspath.c:174-186, 208-220 (vfs_rename, vfs_link): [m] if both vnodes are of one
    file system, then both references are dropped, the second first. *)
Definition same_fs_then (v1 v2 : Z) (m : K (world D) unit) : K S unit :=
  f1 <- vn_fs_of v1 ;;
  f2 <- vn_fs_of v2 ;;
  r <- (if bool_decide (f1 = None) || bool_decide (f2 = None) || negb (bool_decide (f1 = f2)) then kret (inl EXDEV)
        else attempt (on_world m)) ;;
  VOP_DECREF v2 ;;;
  drop_and v1 r.

(** kern/vfs/vfspath.c:155-187 (vfs_rename). *)
Definition vfs_rename (oldpath newpath : name) : K S unit :=
  r <- vfs_lookparent oldpath (NAME_MAX + 1) ;;
  let (olddir, oldname) := r : Z * name in
  r <- or_drop olddir (vfs_lookparent newpath (NAME_MAX + 1)) ;;
  let (newdir, newname) := r : Z * name in
  same_fs_then olddir newdir (VOP_RENAME olddir oldname newdir newname).

(** kern/vfs/vfspath.c:190-221 (vfs_link). *)
Definition vfs_link (oldpath newpath : name) : K S unit :=
  oldfile <- vfs_lookup oldpath ;;
  r <- or_drop oldfile (vfs_lookparent newpath (NAME_MAX + 1)) ;;
  let (newdir, newname) := r : Z * name in
  same_fs_then oldfile newdir (VOP_LINK newdir newname oldfile).

(** kern/vfs/vfspath.c:230-246 (vfs_symlink). *)
Definition vfs_symlink (contents path : name) : K S unit :=
  r <- vfs_lookparent path (NAME_MAX + 1) ;;
  let (newdir, newname) := r : Z * name in
  r <- attempt (on_world (VOP_SYMLINK newdir newname contents)) ;;
  drop_and newdir r.

(** kern/vfs/vfspath.c:255-271 (vfs_readlink). *)
Definition vfs_readlink (path : name) (u : uio) : K S uio :=
  vn <- vfs_lookup path ;;
  r <- attempt (on_world (VOP_READLINK vn u)) ;;
  drop_and vn r.

(** kern/vfs/vfspath.c:276-293 (vfs_mkdir). *)
Definition vfs_mkdir (path : name) (mode : Z) : K S unit :=
  r <- vfs_lookparent path (NAME_MAX + 1) ;;
  let (parent, nm) := r : Z * name in
  r <- attempt (on_world (VOP_MKDIR parent nm mode)) ;;
  drop_and parent r.

(** kern/vfs/vfspath.c:298-315 (vfs_rmdir). *)
Definition vfs_rmdir (path : name) : K S unit :=
  r <- vfs_lookparent path (NAME_MAX + 1) ;;
  let (parent, nm) := r : Z * name in
  r <- attempt (on_world (VOP_RMDIR parent nm)) ;;
  drop_and parent r.

End VfsLookup.
