(* ===== verification/VfsSpec.v ===== *)
(** * References of the VFS layer

    Every reference the VFS layer takes is given back or handed to the caller. The
    invariant [vinv U d] says that the reference count of every vnode is the number of
    references held: one by each entry of the device list, those of the boot file system
    and the current directory, and [U], the references of everybody else; and that the
    big lock has been taken [d] times by this thread.

    The proofs run the code with a weakest precondition ([wp]), one lemma for every
    operation. *)

From stdpp Require Import base numbers functions list gmap gmultiset.
From Stdlib Require Import ZArith Lia.
From stdpp Require Import list_relations.
From S2P Require Import Prelude SfsDisk Vnode VfsList VfsLookup.

Open Scope Z_scope.
Open Scope k_scope.

(** ** Running code *)

(** [m] returns from [s], with a result and state in [Q], or an error and state in [E]. *)
Definition wp {S A} (m : K S A) (s : S) (Q : A -> S -> Prop) (E : Z -> S -> Prop) : Prop :=
  match m s with Done a s' => Q a s' | Fail e s' => E e s' | Halt _ => False end.

Section Wp.
Context {S : Type}.

Lemma wp_ret {A} (a : A) (s : S) Q E : Q a s -> wp (kret a) s Q E.
Proof. done. Qed.

Lemma wp_fail {A} e (s : S) (Q : A -> S -> Prop) (E : Z -> S -> Prop) : E e s -> wp (kfail e) s Q E.
Proof. done. Qed.

Lemma wp_bind {A B} (m : K S A) (f : A -> K S B) s Q E : wp m s (fun a s' => wp (f a) s' Q E) E -> wp (kbind m f) s Q E.
Proof. unfold wp, kbind. by destruct (m s). Qed.

Lemma wp_conseq {A} (m : K S A) s (Q Q' : A -> S -> Prop) (E E' : Z -> S -> Prop) :
  wp m s Q' E' -> (forall a s', Q' a s' -> Q a s') -> (forall e s', E' e s' -> E e s') -> wp m s Q E.
Proof. unfold wp. destruct (m s); naive_solver. Qed.

Lemma wp_eq {A} (m : K S A) s (Q : A -> S -> Prop) E : wp m s Q E -> wp m s (fun a s' => Q a s' /\ m s = Done a s') E.
Proof. unfold wp. by destruct (m s). Qed.

Lemma wp_attempt {A} (m : K S A) s (Q : Z + A -> S -> Prop) E :
  wp m s (fun a => Q (inr a)) (fun e => Q (inl e)) -> wp (attempt m) s Q E.
Proof. unfold wp, attempt. by destruct (m s). Qed.

Lemma wp_get s (Q : S -> S -> Prop) E : Q s s -> wp kget s Q E.
Proof. done. Qed.

Lemma wp_put s s' (Q : unit -> S -> Prop) E : Q tt s' -> wp (kput s') s Q E.
Proof. done. Qed.

Lemma wp_modify f s (Q : unit -> S -> Prop) E : Q tt (f s) -> wp (kmodify f) s Q E.
Proof. done. Qed.

Lemma wp_assert b s (Q : unit -> S -> Prop) E : b = true -> Q tt s -> wp (kassert b) s Q E.
Proof. by intros ->. Qed.

End Wp.

(** Run the next statement by the lemma [lem]; its result and the two states are named
    by the goals that remain. *)
Ltac wp_use lem := eapply wp_conseq; [apply lem| |].
Ltac wp_next lem := apply wp_bind; wp_use lem.
Ltac wp_try lem := apply wp_bind, wp_attempt; wp_use lem.

Section Spec.
Context {D : Type} {F : FileSystems D} {L : FsLaws D} {M : Kmem}.
Local Abbreviation S := (vfs D).
Implicit Types (s : S) (w : world D) (U : gmultiset Z).

(** ** The invariant *)

Definition opt_ref (v : option Z) : gmultiset Z := match v with Some v => {[+ v +]} | None => ∅ end.

(** The references of the device list, and those of the other variables of the layer. *)
Definition perm (kds : list knowndev) : gmultiset Z := list_to_set_disj (kd_vnode <$> kds).
Definition owned s : gmultiset Z := opt_ref (bootfs_vnode s) ⊎ opt_ref (p_cwd s).

(** kern/vfs/vfslist.c:47-75: what the comment says of an entry. *)
Record kd_ok w (kd : knowndev) : Prop := {
  kd_vn : exists x, vnodes w !! kd_vnode kd = Some x /\ vn_ops x = dev_vnode_ops /\ vn_data x = kd_device kd;
  kd_dev : forall p, kd_device kd = Some p -> is_Some (devices w !! p);
  kd_raw : is_Some (kd_rawname kd) -> is_Some (kd_device kd);
  kd_gone : is_Some (kd_rawname kd) -> forall f, mounted kd = Some f -> fs_removable f = true;
  kd_fixed : kd_rawname kd = None -> kd_fs kd <> Some SWAP_FS /\ (kd_fs kd = None -> is_Some (kd_device kd))
}.

(** [X] are file systems that have been set up and are not in the list yet. *)
Record vinv (X : list Z) U (d : Z) s : Prop := {
  vi_refs : refs (perm (knowndevs s)) (owned s ⊎ U) (wd s);
  vi_lock : vfs_biglock s = (0 <? d);
  vi_depth : vfs_biglock_depth s = d;
  vi_pos : 0 <= d;
  vi_kds : Forall (kd_ok (wd s)) (knowndevs s);
  vi_fs : NoDup (X ++ omap mounted (knowndevs s));
  vi_live : forall f, fs_live f (fsd (wd s)) = true <-> f ∈ X ++ omap mounted (knowndevs s);
  vi_cwd : forall v, p_cwd s = Some v -> exists f, on_fs (wd s) v f
}.

Section Lemmas.
Context (X : list Z).

Lemma vinv_ext U U' d s : U = U' -> vinv X U d s -> vinv X U' d s.
Proof. by intros ->. Qed.

(** The same references, in another order. *)
Ltac vext H := refine (vinv_ext _ _ _ _ _ H); unfold the_vnode, the_parent, nothing; multiset_solver.

Lemma kd_ok_stable but H w w' kd : stable but H w w' -> kd_vnode kd ∈ H -> kd_ok w kd -> kd_ok w' kd.
Proof.
  intros [S1 S2 S3] Hin [(x & Hx & Ho & Hd) K2 K3 K4 K5]. destruct (S1 _ _ Hin Hx) as (x' & ? & ? & ? & ?).
  split; [exists x'; split_and!; congruence|by rewrite S2|done|done|done].
Qed.

Lemma on_fs_stable but H w w' v f : stable but H w w' -> v ∈ H -> on_fs w v f -> on_fs w' v f.
Proof.
  intros [S1 _ _] Hin (x & Hx & Ho & Hf). destruct (S1 _ _ Hin Hx) as (x' & ? & ? & ? & ?). exists x'. split_and!; congruence.
Qed.

Lemma elem_of_perm kd kds : kd ∈ kds -> kd_vnode kd ∈ perm kds.
Proof. intros. apply elem_of_list_to_set_disj. by apply list_elem_of_fmap_2. Qed.

Lemma kds_stable but H w w' kds : Forall (kd_ok w) kds -> perm kds ⊆ H -> stable but H w w' -> Forall (kd_ok w') kds.
Proof.
  intros Hk HH Hs. apply Forall_forall. intros kd Hkd. rewrite Forall_forall in Hk.
  apply (kd_ok_stable but H w); [done| |by apply Hk]. apply elem_of_perm in Hkd. multiset_solver.
Qed.

Lemma cwd_owned s v : p_cwd s = Some v -> v ∈ owned s.
Proof. intros E. unfold owned. rewrite E. multiset_solver. Qed.

(** An operation below the layer: the references of its variables are held meanwhile. *)
Lemma vinv_world U U' H d s w' : vinv X U d s -> refs (perm (knowndevs s)) (owned s ⊎ U') w' ->
  perm (knowndevs s) ⊎ owned s ⊆ H -> stable None H (wd s) w' -> vinv X U' d (set_wd w' s).
Proof.
  intros [I1 I2 I3 I4 I5 I6 I7 I8] HR HH Hs. split; cbn; try done.
  - apply (kds_stable None H (wd s)); [done|multiset_solver|done].
  - intros f. rewrite <- I7. by rewrite (stable_live _ _ _ _ Hs).
  - intros v Hv. destruct (I8 v Hv) as [f Hf]. exists f. apply (on_fs_stable None H (wd s)); [done| |done].
    apply cwd_owned in Hv. multiset_solver.
Qed.

Definition same_vars s s' : Prop := knowndevs s' = knowndevs s /\ bootfs_vnode s' = bootfs_vnode s /\ p_cwd s' = p_cwd s.

(** A [VOP_] macro or an operation of a file system, as a statement of the layer. *)
Lemma world_ok {A} U d s (m : K (world D) A) ret pre : vinv X U d s ->
  hands (perm (knowndevs s)) (owned s ⊎ U) pre m ret -> pre (wd s) ->
  wp (on_world m) s (fun a s' => vinv X (U ⊎ ret a) d s' /\ stable None (perm (knowndevs s) ⊎ (owned s ⊎ U)) (wd s) (wd s'))
                    (fun _ s' => vinv X U d s').
Proof.
  intros HI Hm Hp. specialize (Hm _ (vi_refs _ _ _ _ HI) Hp). unfold wp, on_world. destruct (m (wd s)) as [a w'|e w'|h]; [| |done].
  - destruct Hm as [Hr Hs]. split; [|done].
    apply (vinv_world U _ (perm (knowndevs s) ⊎ (owned s ⊎ U))); [done| |multiset_solver|done]. by rewrite (assoc_L (⊎)).
  - destruct Hm as [Hr Hs]. apply (vinv_world U _ (perm (knowndevs s) ⊎ (owned s ⊎ U))); [done|done|multiset_solver|done].
Qed.

Lemma decref_wp U d s v E : vinv X (U ⊎ {[+ v +]}) d s -> wp (VOP_DECREF v) s (fun _ s' => vinv X U d s') E.
Proof.
  intros HI. destruct (vnode_decref_ok (perm (knowndevs s)) (owned s ⊎ U) v (wd s)) as (w' & E' & Hr & Hs).
  { rewrite <- (assoc_L (⊎)). apply HI. }
  unfold wp, VOP_DECREF, on_world. rewrite E'. apply (vinv_world (U ⊎ {[+ v +]}) U (perm (knowndevs s) ⊎ (owned s ⊎ U))); [done|done|multiset_solver|apply Hs].
Qed.

Lemma decref_never U d s v : vinv X (U ⊎ {[+ v +]}) d s -> wp (VOP_DECREF v) s (fun _ s' => vinv X U d s') (fun _ _ => False).
Proof. apply decref_wp. Qed.

Lemma drop_and_wp {A} U d s v (r : Z + A) (Q : A -> S -> Prop) (E : Z -> S -> Prop) : vinv X (U ⊎ {[+ v +]}) d s ->
  (forall s', vinv X U d s' -> match r with inl e => E e s' | inr a => Q a s' end) -> wp (drop_and v r) s Q E.
Proof.
  intros HI HQ. unfold drop_and. apply wp_bind. eapply wp_conseq; [by apply decref_wp| |done].
  intros [] s' HI'. specialize (HQ s' HI'). by destruct r.
Qed.

(** ** The big lock *)

Lemma vinv_biglock U d d' s : vinv X U d s -> 0 <= d' -> vinv X U d' (set_biglock (0 <? d') d' s).
Proof. intros [I1 I2 I3 I4 I5 I6 I7 I8] Hd. by split. Qed.

Lemma acquire_wp U d s Q E : vinv X U d s -> d < 2 ^ 32 - 1 ->
  Q tt (set_biglock true (d + 1) s) -> wp vfs_biglock_acquire s Q E.
Proof.
  intros [I1 I2 I3 I4 _ _ _ _] Hd HQ. unfold wp, vfs_biglock_acquire, lock_acquire. kunfold. rewrite I2.
  destruct (Z.ltb_spec 0 d) as [Hlt|Hge]; cbn [negb].
  - rewrite I3, (proj2 (Z.eqb_neq d 0)) by lia. cbn. rewrite I2, I3, wrapu_small by lia. done.
  - cbn -[wrapu]. rewrite I2. cbn -[wrapu]. rewrite I3, wrapu_small by lia. done.
Qed.

Lemma release_wp U d s Q E : vinv X U (d + 1) s -> 0 <= d -> (forall s', vinv X U d s' -> Q tt s') -> wp vfs_biglock_release s Q E.
Proof.
  intros HI Hd HQ. assert (HI' := vinv_biglock U (d + 1) d s HI Hd). destruct HI as [I1 I2 I3 I4 _ _ _ _]. unfold wp, vfs_biglock_release, lock_release. kunfold.
  rewrite I2, I3, (proj2 (Z.ltb_lt 0 (d + 1))) by lia. cbn. replace (d + 1 - 1) with d by lia.
  destruct (Z.eqb_spec d 0) as [->|Hne]; [by apply HQ|]. apply HQ. by rewrite (proj2 (Z.ltb_lt 0 d)) in HI' by lia.
Qed.

(** Every way out of a critical section gives the lock back. *)
Lemma locked_wp {A} U d s (m : K S A) (V : A -> gmultiset Z) : vinv X U d s -> d < 2 ^ 32 - 1 ->
  (forall s', s' = set_biglock true (d + 1) s -> vinv X U (d + 1) s' -> wp m s' (fun a s' => vinv X (V a) (d + 1) s') (fun _ s' => vinv X U (d + 1) s')) ->
  wp (locked m) s (fun a s' => vinv X (V a) d s') (fun _ s' => vinv X U d s').
Proof.
  intros HI Hd Hm. pose proof (vi_pos _ _ _ _ HI) as H0. unfold locked. apply wp_bind. eapply acquire_wp; [done|done|].
  pose proof (vinv_biglock U d (d + 1) s HI ltac:(lia)) as HI1. rewrite (proj2 (Z.ltb_lt 0 (d + 1))) in HI1 by lia.
  apply wp_bind, wp_attempt. eapply wp_conseq; [by apply Hm|..].
  - intros a s' Ha. apply wp_bind. apply (release_wp (V a) d); [done|lia|]. intros s2 H2. by apply wp_ret.
  - intros e s' He. apply wp_bind. apply (release_wp U d); [done|lia|]. intros s2 H2. by apply wp_fail.
Qed.

Lemma assert_held_true s (Q : unit -> S -> Prop) E : vfs_biglock s = true -> Q tt s -> wp assert_held s Q E.
Proof. intros Hl HQ. unfold wp, assert_held, vfs_biglock_do_i_hold. kunfold. by rewrite Hl. Qed.

Lemma assert_held_wp U d s Q E : vinv X U (d + 1) s -> 0 <= d -> Q tt s -> wp assert_held s Q E.
Proof.
  intros HI Hd HQ. apply assert_held_true; [|done]. rewrite (vi_lock _ _ _ _ HI). apply Z.ltb_lt. lia.
Qed.

(** ** Vnodes the layer itself refers to *)

(** Another reference to a vnode of the layer's own, or to one that is held. *)
Lemma incref_wp U d s v (Q : unit -> S -> Prop) E : vinv X U d s -> (v ∈ owned s ⊎ U \/ exists kd, (kd ∈ knowndevs s) /\ kd_vnode kd = v /\ is_Some (kd_device kd)) ->
  (forall s', vinv X (U ⊎ {[+ v +]}) d s' -> (forall f, on_fs (wd s) v f -> on_fs (wd s') v f) -> Q tt s') -> wp (VOP_INCREF v) s Q E.
Proof.
  intros HI Hv HQ. pose proof (vi_refs _ _ _ _ HI) as HR.
  assert (Hin : v ∈ perm (knowndevs s) ⊎ (owned s ⊎ U)).
  { destruct Hv as [Hv|(kd & Hkd & <- & _)]; [multiset_solver|]. apply elem_of_perm in Hkd. multiset_solver. }
  destruct (refs_alive _ _ _ v HR Hin) as (x & Hx & _).
  destruct (incref_hands (perm (knowndevs s)) (owned s ⊎ U) v (wd s) x HR Hx) as (w' & E' & Hr & Hs).
  { intros Ho. destruct Hv as [Hv|(kd & Hkd & <- & p & Hp)]; [by apply (refs_use _ _ _ HR v)|].
    pose proof (vi_kds _ _ _ _ HI) as Hk. rewrite Forall_forall in Hk. destruct (Hk kd Hkd) as [(x' & Hx' & _ & Hd) Hdv _ _ _].
    exists p. split; [congruence|by apply Hdv]. }
  unfold wp, VOP_INCREF, on_world. rewrite E'. apply HQ.
  - apply (vinv_world U _ (perm (knowndevs s) ⊎ (owned s ⊎ U))); [done| |multiset_solver|apply Hs]. by rewrite (assoc_L (⊎)).
  - intros f Hf. by apply (on_fs_stable None (perm (knowndevs s) ⊎ (owned s ⊎ U)) (wd s)).
Qed.

Lemma getcurdir_wp U d s : vinv X U d s ->
  wp vfs_getcurdir s (fun v s' => vinv X (U ⊎ {[+ v +]}) d s' /\ exists f, on_fs (wd s') v f) (fun _ s' => vinv X U d s').
Proof.
  intros HI. unfold vfs_getcurdir. apply wp_bind, wp_get. destruct (p_cwd s) as [v|] eqn:E; [|by apply wp_fail].
  apply wp_bind. eapply incref_wp; [done|left; apply cwd_owned in E; multiset_solver|]. intros s' HI' Hf. apply wp_ret. split; [done|].
  destruct (vi_cwd _ _ _ _ HI v E) as [f ?]. exists f. auto.
Qed.

(** ** Pathnames *)

Lemma mounted_live U d s kd f : vinv X U d s -> kd ∈ knowndevs s -> mounted kd = Some f -> fs_live f (fsd (wd s)) = true.
Proof. intros HI Hkd Hf. apply (vi_live _ _ _ _ HI). apply elem_of_app. right. apply list_elem_of_omap. eauto. Qed.

Lemma give_device_wp U d s kd E : vinv X U d s -> kd ∈ knowndevs s -> is_Some (kd_device kd) ->
  wp (give_device kd) s (fun v s' => vinv X (U ⊎ {[+ v +]}) d s') E.
Proof.
  intros HI Hkd Hd. unfold give_device. apply wp_bind. eapply (incref_wp U d s); [done|right; by exists kd|].
  intros s' HI' _. by apply wp_ret.
Qed.

Lemma getroot_fs_wp U d s f : vinv X U d s -> fs_live f (fsd (wd s)) = true ->
  wp (on_world (fsop_getroot f)) s (fun v s' => vinv X (U ⊎ {[+ v +]}) d s') (fun _ s' => vinv X U d s').
Proof. intros HI Hf. eapply wp_conseq; [by apply (world_ok U d s _ the_vnode _ HI (law_getroot f _ _))|by intros ? ? [? _]|done]. Qed.

Lemma mounted_None kd w : mounted kd = None -> kd_rawname kd = None -> kd_ok w kd -> kd_fs kd = None /\ is_Some (kd_device kd).
Proof.
  intros Hm Hr [_ _ _ _ K]. destruct (K Hr) as [K1 K2]. unfold mounted in Hm. destruct (kd_fs kd) as [f|]; [|auto].
  destruct (Z.eqb_spec f SWAP_FS); congruence.
Qed.

Lemma getroot_loop_wp U d s devname kds : vinv X U d s -> (forall kd, kd ∈ kds -> kd ∈ knowndevs s) ->
  wp (getroot_loop devname kds) s (fun v s' => vinv X (U ⊎ {[+ v +]}) d s') (fun _ s' => vinv X U d s').
Proof.
  intros HI. induction kds as [|kd kds IH]; intros Hin; cbn [getroot_loop]; [by apply wp_fail|].
  assert (Hkd : kd ∈ knowndevs s) by (apply Hin, list_elem_of_here). pose proof (vi_kds _ _ _ _ HI) as Hk. rewrite Forall_forall in Hk. specialize (Hk kd Hkd).
  apply wp_bind, wp_get. cbv zeta. destruct (mounted kd) as [f|] eqn:Hm.
  - destruct (_ || _) eqn:Eo; [by apply getroot_fs_wp, (mounted_live U d s kd)|]. apply orb_false_elim in Eo as [En _]. rewrite En.
    destruct (samestring (kd_rawname kd) (Some devname)) eqn:Er; [|by apply IH; intros; apply Hin; right].
    assert (Hd : is_Some (kd_device kd)) by (apply Hk; destruct (kd_rawname kd); [by eexists|done]).
    apply wp_bind, wp_assert; [by apply bool_decide_eq_true|]. by apply give_device_wp.
  - destruct (kd_rawname kd) as [r|] eqn:Er; cbn [andb].
    + rewrite bool_decide_true by done. destruct (streq (kd_name kd) devname) eqn:En; cbn [andb samestring]; [by apply wp_fail|].
      destruct (streq r devname); [|by apply IH; intros; apply Hin; right].
      apply wp_bind, wp_assert; [apply bool_decide_eq_true, Hk; rewrite Er; by eexists|]. apply give_device_wp; [done|done|]. apply Hk. rewrite Er. by eexists.
    + rewrite bool_decide_false by (by intros []). cbn [andb samestring]. destruct (mounted_None kd _ Hm Er Hk) as [Hf Hd].
      destruct (streq (kd_name kd) devname); [|by apply IH; intros; apply Hin; right].
      rewrite Hf, !bool_decide_true by done. by apply give_device_wp.
Qed.

Lemma getroot_wp U d s devname : vinv X U (d + 1) s -> 0 <= d ->
  wp (vfs_getroot devname) s (fun v s' => vinv X (U ⊎ {[+ v +]}) (d + 1) s') (fun _ s' => vinv X U (d + 1) s').
Proof.
  intros HI Hd. apply wp_bind. eapply assert_held_wp; [done|done|]. apply wp_bind, wp_get. by apply getroot_loop_wp.
Qed.

Lemma vn_fs_wp U d s v (Q : option Z -> S -> Prop) E : vinv X U d s -> v ∈ owned s ⊎ U ->
  (forall x, vnodes (wd s) !! v = Some x -> Q (vn_fs x) s) -> wp (vn_fs_of v) s Q E.
Proof.
  intros HI Hv HQ. destruct (refs_alive _ _ _ v (vi_refs _ _ _ _ HI)) as (x & Hx & _); [multiset_solver|].
  unfold wp, vn_fs_of, on_world, vn_get. kunfold. rewrite Hx. replace (set_wd (wd s) s) with s by (by destruct s). by apply HQ.
Qed.

Lemma on_fs_live U d s v f : vinv X U d s -> on_fs (wd s) v f -> fs_live f (fsd (wd s)) = true.
Proof. intros HI (x & Hx & Ho & Hf). destruct (refs_fs _ _ _ (vi_refs _ _ _ _ HI) v x Hx Ho) as (f' & ? & ?). congruence. Qed.

Lemma start_vnode_wp U d s path : vinv X U d s -> path !! 0%nat = Some SLASH \/ path !! 0%nat = Some COLON ->
  wp (start_vnode path) s (fun v s' => vinv X (U ⊎ {[+ v +]}) d s') (fun _ s' => vinv X U d s').
Proof.
  intros HI Hp. unfold start_vnode. case_bool_decide as Hs.
  - apply wp_bind, wp_get. destruct (bootfs_vnode s) as [v|] eqn:Eb; [|by apply wp_fail]. apply wp_bind.
    eapply incref_wp; [done|left; unfold owned; rewrite Eb; multiset_solver|]. intros s' HI' _. by apply wp_ret.
  - apply wp_bind, wp_assert; [apply bool_decide_eq_true; tauto|]. wp_next getcurdir_wp; [done| |done].
    intros v s1 [H1 [f Hf]]. apply wp_bind. eapply vn_fs_wp; [done|multiset_solver|]. intros x Hx.
    assert (Ex : vn_fs x = Some f) by (destruct Hf as (x' & ? & _ & ?); congruence). rewrite Ex.
    apply wp_bind, wp_attempt. eapply wp_conseq; [apply (getroot_fs_wp _ d s1 f H1); by eapply on_fs_live|..].
    + intros r s2 H2. apply (drop_and_wp (U ⊎ {[+ r +]}) d); [|done]. vext H2.
    + intros e s2 H2. by apply (drop_and_wp U d).
Qed.

Lemma find_sep_spec path i colon slash : find_sep i path = (colon, slash) -> 0 <= i ->
  (colon = -1 \/ slash = -1) /\ (colon = i -> path !! 0%nat = Some COLON) /\ (slash = i -> path !! 0%nat = Some SLASH) /\ (colon = -1 \/ i <= colon) /\ (slash = -1 \/ i <= slash).
Proof.
  revert i. induction path as [|c path IH]; intros i; cbn [find_sep]; [intros [= <- <-] ?; split_and!; lia|].
  destruct (Z.eqb_spec c COLON) as [->|Hc]; [intros [= <- <-] ?; split_and!; try done; lia|].
  destruct (Z.eqb_spec c SLASH) as [->|Hs]; [intros [= <- <-] ?; split_and!; try done; lia|].
  intros E Hi. destruct (IH _ E ltac:(lia)) as (A1 & A2 & A3 & A4 & A5). split_and!; lia.
Qed.

Lemma getdevice_wp U d s path : vinv X U (d + 1) s -> 0 <= d ->
  wp (getdevice path) s (fun r s' => vinv X (U ⊎ {[+ snd r +]}) (d + 1) s') (fun _ s' => vinv X U (d + 1) s').
Proof.
  intros HI Hd. apply wp_bind. eapply assert_held_wp; [done|done|]. destruct path as [|c path]; [by apply wp_fail|].
  destruct (find_sep 0 (c :: path)) as [colon slash] eqn:E. destruct (find_sep_spec _ _ _ _ E ltac:(lia)) as (A1 & A2 & A3 & A4 & A5).
  destruct (_ && _) eqn:Eb.
  - wp_next getcurdir_wp; [done| |done]. intros v s' [H' _]. by apply wp_ret.
  - destruct (Z.ltb_spec 0 colon) as [Hc|Hc].
    + wp_next getroot_wp; [done|done| |done]. intros v s' H'. by apply wp_ret.
    + assert (Hz : colon = 0 \/ slash = 0).
      { apply andb_false_iff in Eb as [Eb|Eb]; [apply Z.ltb_ge in Eb; lia|]. apply negb_false_iff, Z.eqb_eq in Eb. auto. }
      apply wp_bind, wp_assert; [apply orb_true_iff; rewrite !Z.eqb_eq; done|].
      wp_next start_vnode_wp; [done|tauto| |done]. intros v s' H'. by apply wp_ret.
Qed.

(** A [VOP_] macro on a vnode the caller holds. *)
Lemma vop_wp {A} U d s v (m : K (world D) A) ret : vinv X U d s -> v ∈ U ->
  (forall P V, v ∈ V -> hands P V (fun _ => True) m ret) ->
  wp (on_world m) s (fun a s' => vinv X (U ⊎ ret a) d s') (fun _ s' => vinv X U d s').
Proof.
  intros HI Hv Hm. eapply wp_conseq; [apply (world_ok U d s m ret _ HI (Hm _ (owned s ⊎ U) ltac:(multiset_solver))); done|by intros ? ? [? _]|done].
Qed.

(** The operation, then the reference to its vnode is dropped. *)
Lemma vop_drop_wp {A} U d s v (m : K (world D) A) ret : vinv X (U ⊎ {[+ v +]}) d s ->
  (forall P V, v ∈ V -> hands P V (fun _ => True) m ret) ->
  wp (r <- attempt (on_world m) ;; drop_and v r) s (fun a s' => vinv X (U ⊎ ret a) d s') (fun _ s' => vinv X U d s').
Proof.
  intros HI Hm. apply wp_bind, wp_attempt. eapply wp_conseq; [apply (vop_wp _ d s v m ret HI); [multiset_solver|done]|..].
  - intros a s' H'. apply (drop_and_wp (U ⊎ ret a) d); [|done]. vext H'.
  - intros e s' H'. by apply (drop_and_wp U d).
Qed.

Lemma lookparent_wp U d s path len : vinv X U d s -> d < 2 ^ 32 - 1 ->
  wp (vfs_lookparent path len) s (fun r s' => vinv X (U ⊎ {[+ fst r +]}) d s') (fun _ s' => vinv X U d s').
Proof.
  intros HI Hd. pose proof (vi_pos _ _ _ _ HI). apply (locked_wp U d s _ (fun r => U ⊎ {[+ fst r +]}) HI Hd). intros s1 _ H1.
  wp_next getdevice_wp; [done|done| |done]. intros [p v] s2 H2. cbn [snd] in H2. destruct (length p =? 0)%nat.
  - apply wp_bind, wp_attempt, wp_fail. by apply (drop_and_wp U (d + 1)).
  - apply (vop_drop_wp U (d + 1) s2 v _ the_parent H2). intros. by apply VOP_LOOKPARENT_hands.
Qed.

Lemma lookup_wp U d s path : vinv X U d s -> d < 2 ^ 32 - 1 ->
  wp (vfs_lookup path) s (fun v s' => vinv X (U ⊎ {[+ v +]}) d s') (fun _ s' => vinv X U d s').
Proof.
  intros HI Hd. pose proof (vi_pos _ _ _ _ HI). apply (locked_wp U d s _ (fun v => U ⊎ {[+ v +]}) HI Hd). intros s1 _ H1.
  wp_next getdevice_wp; [done|done| |done]. intros [p v] s2 H2. cbn [snd] in H2. destruct (length p =? 0)%nat; [by apply wp_ret|].
  apply (vop_drop_wp U (d + 1) s2 v _ the_vnode H2). intros. by apply VOP_LOOKUP_hands.
Qed.

(** ** The current directory and the boot file system *)

(** The current directory is changed; the old one's reference is the caller's now. *)
Lemma vinv_set_cwd U d s v : vinv X (U ⊎ opt_ref v) d s -> (forall u, v = Some u -> exists f, on_fs (wd s) u f) ->
  vinv X (U ⊎ opt_ref (p_cwd s)) d (set_cwd v s).
Proof.
  intros [I1 I2 I3 I4 I5 I6 I7 I8] Hv. split; cbn; try done. refine (refs_ext _ _ _ _ _ _ _ I1); [done|]. unfold owned. cbn. multiset_solver.
Qed.

Lemma vinv_set_bootfs U d s v : vinv X (U ⊎ opt_ref v) d s -> vinv X (U ⊎ opt_ref (bootfs_vnode s)) d (set_bootfs v s).
Proof.
  intros [I1 I2 I3 I4 I5 I6 I7 I8]. split; cbn; try done. refine (refs_ext _ _ _ _ _ _ _ I1); [done|]. unfold owned. cbn. multiset_solver.
Qed.

Lemma drop_opt_wp U d s v E : vinv X (U ⊎ opt_ref v) d s ->
  wp (match v with Some old => VOP_DECREF old | None => kret tt end) s (fun _ s' => vinv X U d s') E.
Proof. intros HI. destruct v as [v|]; [by apply decref_wp|]. apply wp_ret. vext HI. Qed.

(** Only a vnode of a file system is a directory. *)
Lemma gettype_wp U d s v : vinv X U d s -> v ∈ U ->
  wp (on_world (VOP_GETTYPE v)) s (fun t s' => vinv X U d s' /\ (t = S_IFDIR -> exists f, on_fs (wd s') v f)) (fun _ s' => vinv X U d s').
Proof.
  intros HI Hv. assert (Hh := world_ok U d s (VOP_GETTYPE v) nothing _ HI (VOP_GETTYPE_hands _ (owned s ⊎ U) v ltac:(multiset_solver)) I).
  pose proof (vi_refs _ _ _ _ HI) as HR.
  destruct (VOP_eq _ _ (wd s) v (dev_gettype v) (fs_gettype v) HR ltac:(multiset_solver)) as (x & Hx & Eq). change (VOP v _ _ (wd s)) with (VOP_GETTYPE v (wd s)) in Eq.
  unfold wp, on_world in *. destruct (vn_ops x) eqn:Ho.
  - destruct (refs_use _ _ _ HR v x ltac:(multiset_solver) Hx Ho) as (p & Hp & dv & Hdv). revert Hh. rewrite Eq. unfold dev_gettype. kunfold.
    rewrite (dev_of_eq _ v x p dv) by done. intros [Hh _]. split; [vext Hh|]. by destruct (0 <? _).
  - destruct (refs_fs _ _ _ HR v x Hx Ho) as (f & Hf & _). destruct (VOP_GETTYPE v (wd s)); [|done|done].
    destruct Hh as [Hh Hs]. split; [vext Hh|]. intros _. exists f. eapply on_fs_stable; [exact Hs|multiset_solver|]. by exists x.
Qed.

Lemma setcurdir_wp U d s v : vinv X U d s -> v ∈ U ->
  wp (vfs_setcurdir v) s (fun _ s' => vinv X U d s') (fun _ s' => vinv X U d s').
Proof.
  intros HI Hv. wp_next gettype_wp; [done|done| |done]. intros t s1 [H1 Hf]. destruct (Z.eqb_spec t S_IFDIR) as [->|Hne]; [|by apply wp_fail].
  cbn [negb]. apply wp_bind. eapply incref_wp; [done|left; multiset_solver|]. intros s2 H2 Hk. apply wp_bind, wp_get, wp_bind, wp_put.
  apply drop_opt_wp. apply vinv_set_cwd; [done|]. intros u [= <-]. destruct (Hf eq_refl) as [f ?]. exists f. auto.
Qed.

Lemma clearcurdir_wp U d s E : vinv X U d s -> wp vfs_clearcurdir s (fun _ s' => vinv X U d s') E.
Proof. intros HI. apply wp_bind, wp_get, wp_bind, wp_put, drop_opt_wp, vinv_set_cwd; [vext HI|by intros ? [=]]. Qed.

Lemma chdir_wp U d s path : vinv X U d s -> d < 2 ^ 32 - 1 -> wp (vfs_chdir path) s (fun _ s' => vinv X U d s') (fun _ s' => vinv X U d s').
Proof.
  intros HI Hd. wp_next lookup_wp; [done|done| |done]. intros v s1 H1. wp_try (setcurdir_wp (U ⊎ {[+ v +]}) d); [done|multiset_solver|..].
  - intros [] s2 H2. by apply (drop_and_wp U d).
  - intros e s2 H2. by apply (drop_and_wp U d).
Qed.

Lemma change_bootfs_wp U d s v E : vinv X (U ⊎ opt_ref v) d s -> wp (change_bootfs v) s (fun _ s' => vinv X U d s') E.
Proof. intros HI. by apply wp_bind, wp_get, wp_bind, wp_put, drop_opt_wp, vinv_set_bootfs. Qed.

Lemma setbootfs_wp U d s nm : vinv X U d s -> d < 2 ^ 32 - 2 -> wp (vfs_setbootfs nm) s (fun _ s' => vinv X U d s') (fun _ s' => vinv X U d s').
Proof.
  intros HI Hd. apply (locked_wp U d s _ (fun _ => U) HI); [lia|]. intros s1 _ H1. cbv zeta. apply wp_bind.
  assert (Hc : forall tmp, wp (vfs_chdir tmp ;;; newguy <- vfs_getcurdir ;; change_bootfs (Some newguy)) s1
                              (fun _ s' => vinv X U (d + 1) s') (fun _ s' => vinv X U (d + 1) s')).
  { intros tmp. wp_next chdir_wp; [done|lia| |done]. intros [] s2 H2. wp_next getcurdir_wp; [done| |done]. intros v s3 [H3 _]. by apply change_bootfs_wp. }
  destruct (strchr _ _) as [str|]; [|by apply wp_ret]. destruct (0 <? length str)%nat; [by apply wp_fail|by apply wp_ret].
Qed.

Lemma clearbootfs_wp U d s : vinv X U d s -> d < 2 ^ 32 - 1 -> wp vfs_clearbootfs s (fun _ s' => vinv X U d s') (fun _ s' => vinv X U d s').
Proof.
  intros HI Hd. apply (locked_wp U d s _ (fun _ => U) HI Hd). intros s1 _ H1. apply change_bootfs_wp. vext H1.
Qed.

(** A transfer into a buffer, of the kernel or of the process, that is as long as it says. *)
Definition uio_fine (u : uio) : Prop := uio_rwf u = UIO_READ /\ 0 <= uio_resid u < 2 ^ 32 /\ iov_len u = uio_resid u.

Lemma uiomove_wp ptr n u s (Q : list Z * uio -> S -> Prop) E : uio_fine u ->
  (forall r, uio_fine (snd r) -> Q r s) -> E EFAULT s -> wp (uiomove ptr n u) s Q E.
Proof.
  intros (Hrw & Hr & Hl) HQ HE. unfold wp, uiomove. destruct (Z.leb_spec n 0); cbn [orb]; [by apply HQ|].
  destruct (Z.leb_spec (uio_resid u) 0); [by apply HQ|]. rewrite Hl, (proj2 (Z.eqb_neq _ _)) by lia.
  destruct (seg_faults _ _); [done|]. rewrite wrapu_small by lia. replace ((0 <? _) && (0 <? _)) with false by (symmetry; apply andb_false_iff; rewrite !Z.ltb_ge; lia).
  rewrite Hrw. apply HQ. repeat split; cbn; lia.
Qed.

Lemma getdevname_found U d s f : vinv [] U d s -> fs_live f (fsd (wd s)) = true ->
  exists kd kds, filter (fun kd => kd_fs kd = Some f) (knowndevs s) = kd :: kds.
Proof.
  intros HI Hf. apply (vi_live _ _ _ _ HI) in Hf. apply list_elem_of_omap in Hf as (kd & Hkd & Hm).
  destruct (filter _ _) as [|k kds] eqn:E; [|eauto]. exfalso. assert (Hin : kd ∈ filter (fun kd => kd_fs kd = Some f) (knowndevs s)); [|rewrite E in Hin; by apply not_elem_of_nil in Hin].
  apply list_elem_of_filter. split; [|done].
  unfold mounted in Hm. destruct (kd_fs kd) as [f'|]; [|done]. by destruct (f' =? SWAP_FS).
Qed.

(** ** Operations on pathnames *)

Lemma open_checks_wp U d s v flags b : vinv X U d s -> v ∈ U ->
  wp (open_checks v flags b) s (fun _ s' => vinv X U d s') (fun _ s' => vinv X U d s').
Proof.
  intros HI Hv. apply wp_bind. eapply wp_conseq; [apply (vop_wp U d s v _ nothing HI Hv); intros; by apply VOP_EACHOPEN_hands| |done].
  intros [] s1 H1. assert (H1' : vinv X U d s1) by vext H1. destruct (negb _); [|by apply wp_ret].
  destruct (negb b); [by apply wp_fail|]. eapply wp_conseq; [apply (vop_wp U d s1 v _ nothing H1' Hv); intros; by apply VOP_TRUNCATE_hands| |done].
  intros a s2 H2. vext H2.
Qed.

Lemma creat_wp U d s v nm excl mode : vinv X U d s -> v ∈ U ->
  wp (on_world (VOP_CREAT v nm excl mode)) s
     (fun r s' => VOP_CREAT v nm excl mode (wd s) = Done r (wd s') /\ vinv X (U ⊎ the_new r) d s') (fun _ s' => vinv X U d s').
Proof.
  intros HI Hv.
  pose proof (vop_wp U d s v _ the_new HI Hv (fun P V H => VOP_CREAT_hands P V v H nm excl mode)) as Hw. unfold wp, on_world in *.
  by destruct (VOP_CREAT v nm excl mode (wd s)).
Qed.

(** The file system reports that it has created the file of [vfs_open], without a vnode. *)
Definition no_vnode (path : name) (flags mode : Z) s : Prop :=
  Z.land flags O_CREAT <> 0 /\ exists dir nm s1 w', vfs_lookparent path (NAME_MAX + 1) s = Done (dir, nm) s1 /\
    VOP_CREAT dir nm (negb (Z.land flags O_EXCL =? 0)) mode (wd s1) = Done None w'.

Lemma open_vnode_wp U d s path flags mode : vinv X U d s -> d < 2 ^ 32 - 1 ->
  wp (open_vnode path flags mode) s (fun r s' => match r with Some v => vinv X (U ⊎ {[+ v +]}) d s' | None => no_vnode path flags mode s end)
    (fun _ s' => vinv X U d s').
Proof.
  intros HI Hd. unfold open_vnode. destruct (Z.eqb_spec (Z.land flags O_CREAT) 0) as [Hc|Hc]; cbn [negb].
  - wp_next lookup_wp; [done|done| |done]. intros v s1 H1. by apply wp_ret.
  - cbv zeta. apply wp_bind. eapply wp_conseq; [apply wp_eq, (lookparent_wp U d); done| |done]. intros [dir nm] s1 [H1 E1].
    wp_try (creat_wp (U ⊎ {[+ dir +]}) d); [done|multiset_solver|..].
    + intros r s2 [E2 H2]. apply (drop_and_wp (U ⊎ the_new r) d).
      * refine (vinv_ext _ _ _ _ _ H2). cbn. multiset_solver.
      * intros s3 H3. destruct r as [v|]; [done|]. split; [done|]. by exists dir, nm, s1, (wd s2).
    + intros e s2 H2. by apply (drop_and_wp U d).
Qed.

Lemma open_wp U d s path flags mode : vinv X U d s -> d < 2 ^ 32 - 1 ->
  match vfs_open path flags mode s with
  | Done v s' => vinv X (U ⊎ {[+ v +]}) d s'
  | Fail _ s' => vinv X U d s'
  | Halt h => h = KAssert /\ no_vnode path flags mode s
  end.
Proof.
  intros HI Hd. unfold vfs_open. destruct (open_how flags) as [b|]; [|done].
  pose proof (open_vnode_wp U d s path flags mode HI Hd) as Hw. unfold wp in Hw. unfold kbind at 1.
  destruct (open_vnode path flags mode s) as [[v|] s1|e s1|h]; [|done|done|done].
  enough (Hq : wp (r <- attempt (open_checks v flags b) ;; match r with inl e => VOP_DECREF v ;;; kfail e | inr _ => kret v end) s1
    (fun v s' => vinv X (U ⊎ {[+ v +]}) d s') (fun _ s' => vinv X U d s')).
  { unfold wp in Hq. by destruct (kbind _ _ s1). }
  wp_try (open_checks_wp (U ⊎ {[+ v +]}) d); [done|multiset_solver|by intros; apply wp_ret|].
  intros e s2 H2. wp_next (decref_never U d); [done| |done]. intros [] s3 H3. by apply wp_fail.
Qed.

(** An operation on the parent directory of a path and a name. *)
Lemma at_parent_wp U d s path (m : Z -> name -> K (world D) unit) : vinv X U d s -> d < 2 ^ 32 - 1 ->
  (forall v nm P V, v ∈ V -> hands P V (fun _ => True) (m v nm) nothing) ->
  wp (r <- vfs_lookparent path (NAME_MAX + 1) ;; let (dir, nm) := r : Z * name in r <- attempt (on_world (m dir nm)) ;; drop_and dir r) s
     (fun _ s' => vinv X U d s') (fun _ s' => vinv X U d s').
Proof.
  intros HI Hd Hm. wp_next lookparent_wp; [done|done| |done]. intros [dir nm] s1 H1.
  eapply wp_conseq; [apply (vop_drop_wp U d s1 dir (m dir nm) nothing H1); auto| |done]. intros [] s2 H2. vext H2.
Qed.

Lemma or_drop_wp {A} U d s v (m : K S A) (V : A -> gmultiset Z) :
  wp m s (fun a s' => vinv X (V a) d s') (fun _ s' => vinv X (U ⊎ {[+ v +]}) d s') ->
  wp (or_drop v m) s (fun a s' => vinv X (V a) d s') (fun _ s' => vinv X U d s').
Proof.
  intros Hm. apply wp_bind, wp_attempt. eapply wp_conseq; [exact Hm|by intros; apply wp_ret|].
  intros e s1 H1. wp_next (decref_never U d); [done| |done]. intros [] s3 H3. by apply wp_fail.
Qed.

Lemma same_fs_then_wp U d s v1 v2 (m : K (world D) unit) : vinv X (U ⊎ {[+ v1 +]} ⊎ {[+ v2 +]}) d s ->
  (forall P V, v1 ∈ V -> v2 ∈ V -> hands P V (held2 V v1 v2) m nothing) ->
  wp (same_fs_then v1 v2 m) s (fun _ s' => vinv X U d s') (fun _ s' => vinv X U d s').
Proof.
  intros HI Hm. apply wp_bind. eapply vn_fs_wp; [done|multiset_solver|]. intros x1 Hx1.
  apply wp_bind. eapply vn_fs_wp; [done|multiset_solver|]. intros x2 Hx2. apply wp_bind.
  assert (Hend : forall r s', vinv X (U ⊎ {[+ v1 +]} ⊎ {[+ v2 +]}) d s' ->
    wp (VOP_DECREF v2 ;;; drop_and v1 r) s' (fun (_ : unit) s' => vinv X U d s') (fun _ s' => vinv X U d s')).
  { intros r s' H'. wp_next (decref_never (U ⊎ {[+ v1 +]}) d); [done| |done]. intros [] s2 H2. apply (drop_and_wp U d); [done|]. by destruct r. }
  destruct (_ || _) eqn:Eb; [by apply wp_ret, Hend|]. apply orb_false_elim in Eb as [Eb E3]. apply orb_false_elim in Eb as [E1 E2].
  apply bool_decide_eq_false in E1, E2. apply negb_false_iff, bool_decide_eq_true in E3.
  assert (Hf : exists f, on_fs (wd s) v1 f /\ on_fs (wd s) v2 f).
  { destruct (vn_fs x1) as [f|] eqn:Ef; [|done]. pose proof (vi_refs _ _ _ _ HI) as HR. exists f.
    split; [exists x1|exists x2]; (split; [done|]; split; [|congruence]); destruct (vn_ops _) eqn:Ho; [|done| |done];
      [destruct (refs_dev _ _ _ HR v1 x1 Hx1 Ho)|destruct (refs_dev _ _ _ HR v2 x2 Hx2 Ho)]; congruence. }
  apply wp_attempt. eapply wp_conseq; [apply (world_ok _ d s m nothing _ HI (Hm _ (owned s ⊎ (U ⊎ {[+ v1 +]} ⊎ {[+ v2 +]})) ltac:(multiset_solver) ltac:(multiset_solver)))|..].
  - split; [multiset_solver|]. split; [multiset_solver|done].
  - intros a s' [H' _]. apply Hend. vext H'.
  - intros e s' H'. by apply Hend.
Qed.

Lemma held2_comm V v1 v2 w : held2 V v1 v2 w -> held2 V v2 v1 w.
Proof. intros (? & ? & f & ? & ?). split_and!; [done|done|]. exists f. done. Qed.

Lemma rename_wp U d s p1 p2 : vinv X U d s -> d < 2 ^ 32 - 1 -> wp (vfs_rename p1 p2) s (fun _ s' => vinv X U d s') (fun _ s' => vinv X U d s').
Proof.
  intros HI Hd. wp_next lookparent_wp; [done|done| |done]. intros [d1 n1] s1 H1. cbn [fst] in H1.
  wp_next (or_drop_wp U d s1 d1 (vfs_lookparent p2 (NAME_MAX + 1)) (fun r => U ⊎ {[+ d1 +]} ⊎ {[+ fst r +]})); [by apply lookparent_wp| |done].
  intros [d2 n2] s2 H2. apply same_fs_then_wp; [done|]. intros. by apply VOP_RENAME_hands.
Qed.

Lemma link_wp U d s p1 p2 : vinv X U d s -> d < 2 ^ 32 - 1 -> wp (vfs_link p1 p2) s (fun _ s' => vinv X U d s') (fun _ s' => vinv X U d s').
Proof.
  intros HI Hd. wp_next lookup_wp; [done|done| |done]. intros v s1 H1.
  wp_next (or_drop_wp U d s1 v (vfs_lookparent p2 (NAME_MAX + 1)) (fun r => U ⊎ {[+ v +]} ⊎ {[+ fst r +]})); [by apply lookparent_wp| |done].
  intros [d2 n2] s2 H2. apply same_fs_then_wp; [done|]. intros. apply (hands_pre _ _ (held2 V d2 v)); [intros; by apply held2_comm|by apply VOP_LINK_hands].
Qed.

(** ** Memory and the device list *)

Lemma vinv_requests U d s n : vinv X U d s -> vinv X U d (set_requests n s).
Proof. intros [I1 I2 I3 I4 I5 I6 I7 I8]. by split. Qed.

Lemma kmalloc_wp s (Q : bool -> S -> Prop) E : (forall b n, Q b (set_requests n s)) -> wp kmalloc s Q E.
Proof. intros HQ. apply wp_bind, wp_get, wp_bind, wp_put, wp_ret, HQ. Qed.

Lemma findmount_loop_spec devname i kds s : exists r, findmount_loop devname i kds s = r /\
  match r with
  | Done j s' => s' = s /\ exists kd, (i <= j)%nat /\ kds !! (j - i)%nat = Some kd /\ is_Some (kd_rawname kd) /\ kd_name kd = devname
  | Fail e s' => e = ENODEV /\ s' = s /\ forall kd, kd ∈ kds -> is_Some (kd_rawname kd) -> kd_name kd <> devname
  | Halt _ => False
  end.
Proof.
  eexists. split; [done|]. revert i. induction kds as [|kd kds IH]; intros i; cbn [findmount_loop].
  { split_and!; [done|done|]. by intros ? ?%not_elem_of_nil. }
  destruct (_ && _) eqn:E.
  - apply andb_prop in E as [E1 E2]. apply bool_decide_eq_true in E1, E2. split; [done|]. exists kd. rewrite Nat.sub_diag. done.
  - specialize (IH (Datatypes.S i)). destruct (findmount_loop _ _ _ _) as [j s'|e s'|]; [| |done].
    + destruct IH as [-> (k & Hj & Hk & ?)]. split; [done|]. exists k. split; [lia|]. replace (j - i)%nat with (Datatypes.S (j - Datatypes.S i)) by lia. done.
    + destruct IH as (-> & -> & Hn). split_and!; [done|done|]. intros k [->|Hk]%elem_of_cons Hr; [|by apply Hn]. intros Ek.
      rewrite !bool_decide_true in E by done. unfold streq in E. by rewrite bool_decide_true in E.
Qed.

Lemma findmount_wp s devname (Q : nat * knowndev -> S -> Prop) (E : Z -> S -> Prop) : vfs_biglock s = true ->
  (forall i kd, knowndevs s !! i = Some kd -> is_Some (kd_rawname kd) -> kd_name kd = devname -> Q (i, kd) s) ->
  ((forall kd, kd ∈ knowndevs s -> is_Some (kd_rawname kd) -> kd_name kd <> devname) -> E ENODEV s) ->
  wp (findmount devname) s Q E.
Proof.
  intros Hl HQ HE. unfold findmount. apply wp_bind, assert_held_true; [done|]. apply wp_bind, wp_get, wp_bind.
  destruct (findmount_loop_spec devname 0 (knowndevs s) s) as (r & Er & Hr). unfold wp at 1. rewrite Er. destruct r as [j s'|e s'|h]; [| |done].
  - destruct Hr as [-> (kd & _ & Hkd & ? & ?)]. rewrite Nat.sub_0_r in Hkd. rewrite Hkd. apply wp_ret. by apply HQ.
  - destruct Hr as (-> & -> & Hn). by apply HE.
Qed.

Lemma vinv_held U d s : vinv X U (d + 1) s -> 0 <= d -> vfs_biglock s = true.
Proof. intros HI Hd. rewrite (vi_lock _ _ _ _ HI). apply Z.ltb_lt. lia. Qed.

Definition opt_list (f : option Z) : list Z := match f with Some f => [f] | None => [] end.

Lemma NoDup_opt_list f : NoDup (opt_list f).
Proof. destruct f; [apply NoDup_singleton|constructor]. Qed.

(** Replacing the file system of one entry. *)
Lemma omap_mounted_alter kds i kd f : kds !! i = Some kd ->
  omap mounted kds ≡ₚ opt_list (mounted kd) ++ omap mounted (delete i kds) /\
  omap mounted (alter (set_kd_fs f) i kds) ≡ₚ opt_list (mounted (set_kd_fs f kd)) ++ omap mounted (delete i kds).
Proof.
  revert i. induction kds as [|k kds IH]; intros [|i] Hk; try done; cbn in *.
  - injection Hk as ->. cbn. split; [by destruct (mounted kd)|by destruct (mounted (set_kd_fs f kd))].
  - destruct (IH i Hk) as [H1 H2]. split; destruct (mounted k); rewrite ?H1, ?H2; try done; by rewrite Permutation_middle.
Qed.

Lemma perm_alter kds i f : perm (alter (set_kd_fs f) i kds) = perm kds.
Proof. unfold perm. f_equal. revert i. induction kds as [|k kds IH]; intros [|i]; cbn; [done|done|done|]. f_equal. apply IH. Qed.

Lemma Forall_alter_kd w kds i kd f : Forall (kd_ok w) kds -> kds !! i = Some kd -> kd_ok w (set_kd_fs f kd) -> Forall (kd_ok w) (alter (set_kd_fs f) i kds).
Proof. intros Hk Hi Hf. apply Forall_alter; [done|]. intros k Hk'. by replace k with kd by congruence. Qed.

Lemma kd_ok_set_fs w kd f : is_Some (kd_rawname kd) -> (forall g, mounted (set_kd_fs f kd) = Some g -> fs_removable g = true) ->
  kd_ok w kd -> kd_ok w (set_kd_fs f kd).
Proof. intros [r Hr] Hf [K1 K2 K3 K4 K5]. split; cbn; try done. by rewrite Hr. Qed.

(** The entry [i] gets the file system [f], the file systems being what they are in [w']. *)
Lemma vinv_assign but U d s i kd f w' : vinv X U d s -> knowndevs s !! i = Some kd -> is_Some (kd_rawname kd) ->
  refs (perm (knowndevs s)) (owned s ⊎ U) w' -> stable but (perm (knowndevs s) ⊎ (owned s ⊎ U)) (wd s) w' ->
  (forall g, but <> Some g -> (g ∈ opt_list (mounted kd) <-> g ∈ opt_list (mounted (set_kd_fs f kd)))) ->
  (forall g, but = Some g -> (g ∉ X) /\ (g ∉ omap mounted (delete i (knowndevs s))) /\
     (fs_live g (fsd w') = true <-> g ∈ opt_list (mounted (set_kd_fs f kd)))) ->
  (forall g, mounted (set_kd_fs f kd) = Some g -> fs_removable g = true) ->
  vinv X U d (set_knowndevs (alter (set_kd_fs f) i (knowndevs s)) (set_wd w' s)).
Proof.
  intros [I1 I2 I3 I4 I5 I6 I7 I8] Hi Hr HR Hs Hsame Hbut Hrem. destruct (omap_mounted_alter (knowndevs s) i kd f Hi) as [Po Pn].
  rewrite Po in I6. setoid_rewrite Po in I7. split; cbn [knowndevs wd set_knowndevs set_wd owned bootfs_vnode p_cwd vfs_biglock vfs_biglock_depth]; try done.
  - by rewrite perm_alter.
  - apply (Forall_alter_kd _ _ _ kd); [|done|].
    + apply (kds_stable but (perm (knowndevs s) ⊎ (owned s ⊎ U)) (wd s)); [done|multiset_solver|done].
    + apply kd_ok_set_fs; [done|done|]. rewrite Forall_forall in I5. apply list_elem_of_lookup_2 in Hi as Hin.
      apply (kd_ok_stable but (perm (knowndevs s) ⊎ (owned s ⊎ U)) (wd s)); [done|apply elem_of_perm in Hin; multiset_solver|by apply I5].
  - rewrite Pn. rewrite !NoDup_app in I6 |- *. destruct I6 as (N1 & N2 & N3 & N4 & N5).
    assert (Hb : forall g, g ∈ opt_list (mounted (set_kd_fs f kd)) -> (g ∉ X) /\ g ∉ omap mounted (delete i (knowndevs s))).
    { intros g Hg. destruct (decide (but = Some g)) as [->|Hne]; [destruct (Hbut g eq_refl) as (? & ? & _); done|].
      apply Hsame in Hg; [|done]. split; [|by apply N4]. intros Hx. apply (N2 g Hx). apply elem_of_app. by left. }
    split_and!; [done| |apply NoDup_opt_list|intros g Hg; by apply Hb|done].
    intros g Hx [Hg|Hg]%elem_of_app; [by apply Hb in Hg as [? _]|]. apply (N2 g Hx), elem_of_app. by right.
  - intros g. rewrite Pn. destruct (decide (but = Some g)) as [->|Hne].
    + destruct (Hbut g eq_refl) as (H1 & H2 & ->). rewrite !elem_of_app. tauto.
    + rewrite (stable_live _ _ _ _ Hs g Hne), I7, !elem_of_app, (Hsame g Hne). done.
  - intros v Hv. destruct (I8 v Hv) as [g Hg]. exists g. apply (on_fs_stable but (perm (knowndevs s) ⊎ (owned s ⊎ U)) (wd s)); [done| |done].
    apply cwd_owned in Hv. multiset_solver.
Qed.

Lemma assign_fs_wp i f s (Q : unit -> S -> Prop) E : Q tt (set_knowndevs (alter (set_kd_fs f) i (knowndevs s)) s) -> wp (assign_fs i f) s Q E.
Proof. intros. by apply wp_modify. Qed.

Lemma set_wd_id s : set_wd (wd s) s = s.
Proof. by destruct s. Qed.

(** An entry that is given or loses [SWAP_FS]. *)
Lemma vinv_assign_swap U d s i kd f : vinv X U d s -> knowndevs s !! i = Some kd -> is_Some (kd_rawname kd) ->
  mounted kd = None -> mounted (set_kd_fs f kd) = None -> vinv X U d (set_knowndevs (alter (set_kd_fs f) i (knowndevs s)) s).
Proof.
  intros HI Hi Hr Hm Hm'. rewrite <- (set_wd_id s) at 2. eapply (vinv_assign None); [done|done|done|apply HI|apply stable_refl| |done|by rewrite Hm'].
  intros g _. by rewrite Hm, Hm'.
Qed.

(** An entry that loses the file system [f], which has just been unmounted. *)
Lemma vinv_unassign U d s i kd f w' : vinv X U d s -> knowndevs s !! i = Some kd -> is_Some (kd_rawname kd) -> mounted kd = Some f ->
  refs (perm (knowndevs s)) (owned s ⊎ U) w' -> stable (Some f) (perm (knowndevs s) ⊎ (owned s ⊎ U)) (wd s) w' -> fs_live f (fsd w') = false ->
  vinv X U d (set_knowndevs (alter (set_kd_fs None) i (knowndevs s)) (set_wd w' s)).
Proof.
  intros HI Hi Hr Hm HR Hs Hl. eapply vinv_assign; [done|done|done|done|done|..]; rewrite ?Hm; cbn [opt_list mounted set_kd_fs kd_fs].
  - intros g Hg. rewrite list_elem_of_singleton. split; [congruence|by intros ?%not_elem_of_nil].
  - intros g [= <-]. destruct (omap_mounted_alter (knowndevs s) i kd None Hi) as [Po _]. pose proof (vi_fs _ _ _ _ HI) as Hn.
    rewrite Po, Hm in Hn. apply NoDup_app in Hn as (_ & N2 & N3). cbn in N2, N3. apply NoDup_cons in N3 as [N3 _]. split_and!; [|done|].
    + intros Hx. apply (N2 f Hx). apply list_elem_of_here.
    + rewrite Hl. split; [done|by intros ?%not_elem_of_nil].
  - done.
Qed.

Lemma assert_mountable_wp U d s i kd (Q : unit -> S -> Prop) E : vinv X U d s -> knowndevs s !! i = Some kd -> is_Some (kd_rawname kd) -> Q tt s ->
  wp (assert_mountable kd) s Q E.
Proof.
  intros HI Hi Hr HQ. pose proof (vi_kds _ _ _ _ HI) as Hk. rewrite Forall_forall in Hk. apply list_elem_of_lookup_2 in Hi. specialize (Hk _ Hi).
  apply wp_bind, wp_assert; [by apply bool_decide_eq_true|]. apply wp_assert; [by apply bool_decide_eq_true, Hk|done].
Qed.

(** What [vfs_mount] asks of the function it is given: it sets up a file system that was
    not there before, or fails and leaves none. *)
Definition mount_ok (mountfunc : option Z -> K (world D) (option Z)) : Prop :=
  forall dev P V w, refs P V w -> (exists p, dev = Some p /\ is_Some (devices w !! p)) ->
  match mountfunc dev w with
  | Done fs w' => exists f, fs = Some f /\ f <> SWAP_FS /\ fs_removable f = true /\ refs P V w' /\ stable (Some f) (P ⊎ V) w w' /\
                            fs_live f (fsd w) = false /\ fs_live f (fsd w') = true
  | Fail _ w' => refs P V w' /\ stable None (P ⊎ V) w w'
  | Halt _ => False
  end.

Lemma vinv_mounted U d s i kd f w' : vinv X U d s -> knowndevs s !! i = Some kd -> is_Some (kd_rawname kd) -> kd_fs kd = None -> f <> SWAP_FS -> fs_removable f = true ->
  refs (perm (knowndevs s)) (owned s ⊎ U) w' -> stable (Some f) (perm (knowndevs s) ⊎ (owned s ⊎ U)) (wd s) w' ->
  fs_live f (fsd (wd s)) = false -> fs_live f (fsd w') = true ->
  vinv X U d (set_knowndevs (alter (set_kd_fs (Some f)) i (knowndevs s)) (set_wd w' s)).
Proof.
  intros HI Hi Hr Hf Hne Hrem HR Hs Hl Hl'. assert (Hm : mounted kd = None) by (unfold mounted; by rewrite Hf).
  assert (Hm' : mounted (set_kd_fs (Some f) kd) = Some f) by (unfold mounted; cbn; by rewrite (proj2 (Z.eqb_neq _ _))).
  eapply vinv_assign; [done|done|done|done|done|..]; rewrite ?Hm, ?Hm'; cbn [opt_list].
  - intros g Hg. rewrite list_elem_of_singleton. split; [by intros ?%not_elem_of_nil|congruence].
  - intros g [= <-]. pose proof (vi_live _ _ _ _ HI f) as Hv. rewrite Hl in Hv.
    destruct (omap_mounted_alter (knowndevs s) i kd None Hi) as [Po _]. rewrite Po, Hm in Hv. cbn [opt_list app] in Hv. rewrite elem_of_app in Hv.
    destruct Hv as [_ Hv].
    split_and!; [intros Hx; discriminate Hv; by left|intros Hx; discriminate Hv; by right|]. rewrite list_elem_of_singleton. done.
  - by intros g [= <-].
Qed.

Lemma mount_wp U d s devname mf : vinv X U d s -> d < 2 ^ 32 - 1 -> mount_ok mf ->
  wp (vfs_mount devname mf) s (fun _ s' => vinv X U d s') (fun _ s' => vinv X U d s').
Proof.
  intros HI Hd Hmf. pose proof (vi_pos _ _ _ _ HI) as H0. apply (locked_wp U d s _ (fun _ => U) HI Hd). intros s1 _ H1.
  apply wp_bind, findmount_wp; [by apply (vinv_held U d)| |done]. intros i kd Hi Hr _. case_bool_decide as Hb; [by apply wp_fail|].
  assert (Hf : kd_fs kd = None) by (destruct (kd_fs kd); [by destruct Hb; eexists|done]).
  apply wp_bind. eapply assert_mountable_wp; [done|done|done|]. apply wp_bind. unfold wp at 1, on_world.
  assert (Hdev : exists p, kd_device kd = Some p /\ is_Some (devices (wd s1) !! p)).
  { pose proof (vi_kds _ _ _ _ H1) as Hk. rewrite Forall_forall in Hk. apply list_elem_of_lookup_2 in Hi as Hin. destruct (Hk _ Hin) as [_ K2 K3 _ _].
    destruct (K3 Hr) as [p Hp]. exists p. split; [done|by apply K2]. }
  specialize (Hmf (kd_device kd) _ _ _ (vi_refs _ _ _ _ H1) Hdev). destruct (mf (kd_device kd) (wd s1)) as [fs w'|e w'|h]; [| |done].
  - destruct Hmf as (f & -> & Hne & Hrem & HR & Hs & Hl & Hl'). apply wp_bind, wp_assert; [by apply bool_decide_eq_true|].
    apply wp_bind, wp_assert; [apply negb_true_iff, bool_decide_eq_false; congruence|]. apply assign_fs_wp. by apply (vinv_mounted U (d + 1) s1 i kd f).
  - destruct Hmf as [HR Hs]. apply (vinv_world U U (perm (knowndevs s1) ⊎ (owned s1 ⊎ U))); [done|done|multiset_solver|done].
Qed.

Lemma unmount_fs_wp U d s i kd f : vinv X U d s -> knowndevs s !! i = Some kd -> is_Some (kd_rawname kd) -> mounted kd = Some f ->
  wp (on_world (fsop_unmount f)) s (fun _ s' => knowndevs s' = knowndevs s /\ vinv X U d (set_knowndevs (alter (set_kd_fs None) i (knowndevs s')) s'))
     (fun _ s' => knowndevs s' = knowndevs s /\ vinv X U d s').
Proof.
  intros HI Hi Hr Hm. unfold wp, on_world. pose proof (law_unmount f _ _ _ (vi_refs _ _ _ _ HI)) as Hl.
  pose proof (vi_kds _ _ _ _ HI) as Hk. rewrite Forall_forall in Hk. apply list_elem_of_lookup_2 in Hi as Hin.
  specialize (Hl (mounted_live U d s kd f HI Hin Hm) (kd_gone _ _ (Hk _ Hin) Hr f Hm)). destruct (fsop_unmount f (wd s)) as [[] w'|e w'|h]; [| |done].
  - destruct Hl as (HR & Hs & Hl). split; [done|]. by apply (vinv_unassign U d s i kd f).
  - destruct Hl as [HR Hs]. split; [done|]. apply (vinv_world U U (perm (knowndevs s) ⊎ (owned s ⊎ U))); [done|done|multiset_solver|done].
Qed.

Lemma sync_fs_wp U d s f : vinv X U d s -> fs_live f (fsd (wd s)) = true ->
  wp (on_world (fsop_sync f)) s (fun _ s' => knowndevs s' = knowndevs s /\ vinv X U d s') (fun _ s' => knowndevs s' = knowndevs s /\ vinv X U d s').
Proof.
  intros HI Hf. pose proof (world_ok U d s (fsop_sync f) nothing _ HI (law_sync f _ _) Hf) as Hw. unfold wp, on_world in *.
  destruct (fsop_sync f (wd s)); [|done|done]. split; [done|]. destruct Hw as [Hw _]. vext Hw.
Qed.

Lemma mounted_swap kd : mounted (set_kd_fs (Some SWAP_FS) kd) = None.
Proof. done. Qed.

Lemma strip_colon_wp U d s devname (Q : name -> S -> Prop) (E : Z -> S -> Prop) : vinv X U d s ->
  (forall nm s', vinv X U d s' -> Q nm s') -> (forall s', vinv X U d s' -> E ENOMEM s') -> wp (strip_colon devname) s Q E.
Proof.
  intros HI HQ HE. unfold strip_colon. destruct (devname !! _) as [c|]; [|by apply wp_ret, HQ]. destruct (c =? COLON); [|by apply wp_ret, HQ].
  apply wp_bind, kmalloc_wp. intros b n. pose proof (vinv_requests U d s n HI). destruct b; cbn [negb]; [by apply wp_ret, HQ|by apply wp_fail, HE].
Qed.

Lemma swapon_wp U d s devname : vinv X U d s -> d < 2 ^ 32 - 1 ->
  wp (vfs_swapon devname) s (fun v s' => vinv X (U ⊎ {[+ v +]}) d s') (fun _ s' => vinv X U d s').
Proof.
  intros HI Hd. pose proof (vi_pos _ _ _ _ HI) as H0. apply wp_bind. eapply strip_colon_wp; [done| |done]. clear s HI devname. intros devname s HI.
  apply (locked_wp U d s _ (fun v => U ⊎ {[+ v +]}) HI Hd). intros s1 _ H1. apply wp_bind, findmount_wp; [by apply (vinv_held U d)| |done].
  intros i kd Hi Hr _. case_bool_decide as Hb; [by apply wp_fail|].
  assert (Hf : kd_fs kd = None) by (destruct (kd_fs kd); [by destruct Hb; eexists|done]).
  apply wp_bind. eapply assert_mountable_wp; [done|done|done|]. apply wp_bind, assign_fs_wp.
  apply (give_device_wp U (d + 1) _ (set_kd_fs (Some SWAP_FS) kd)).
  - apply (vinv_assign_swap U (d + 1) s1 i kd); [done|done|done| |done]. unfold mounted. by rewrite Hf.
  - cbn. apply list_elem_of_lookup. exists i. by rewrite list_lookup_alter_eq, Hi.
  - pose proof (vi_kds _ _ _ _ H1) as Hk. rewrite Forall_forall in Hk. apply (Hk kd); [by eapply list_elem_of_lookup_2|done].
Qed.

Lemma swapoff_wp U d s devname : vinv X U d s -> d < 2 ^ 32 - 1 -> wp (vfs_swapoff devname) s (fun _ s' => vinv X U d s') (fun _ s' => vinv X U d s').
Proof.
  intros HI Hd. pose proof (vi_pos _ _ _ _ HI) as H0. apply (locked_wp U d s _ (fun _ => U) HI Hd). intros s1 _ H1.
  apply wp_bind, findmount_wp; [by apply (vinv_held U d)| |done]. intros i kd Hi Hr _. case_bool_decide as Hb; cbn [negb]; [|by apply wp_fail].
  apply assign_fs_wp. apply (vinv_assign_swap U (d + 1) s1 i kd); [done|done|done| |done]. unfold mounted. by rewrite Hb.
Qed.

Lemma unmount_wp U d s devname : vinv X U d s -> d < 2 ^ 32 - 1 -> wp (vfs_unmount devname) s (fun _ s' => vinv X U d s') (fun _ s' => vinv X U d s').
Proof.
  intros HI Hd. pose proof (vi_pos _ _ _ _ HI) as H0. apply (locked_wp U d s _ (fun _ => U) HI Hd). intros s1 _ H1.
  apply wp_bind, findmount_wp; [by apply (vinv_held U d)| |done]. intros i kd Hi Hr _. destruct (mounted kd) as [f|] eqn:Hm; [|by apply wp_fail].
  apply wp_bind. eapply assert_mountable_wp; [done|done|done|]. wp_next (sync_fs_wp U (d + 1) s1 f H1); [|intros [] s2 [E2 H2]|by intros ? ? [_ ?]].
  { eapply mounted_live; [done|by eapply list_elem_of_lookup_2|done]. }
  rewrite <- E2 in Hi. wp_next (unmount_fs_wp U (d + 1) s2 i kd f H2 Hi Hr Hm); [|by intros ? ? [_ ?]].
  intros [] s3 [E3 H3]. by apply assign_fs_wp.
Qed.

(** One round of [vfs_unmountall]: the entries behind [i] are left alone. *)
Lemma unmount_one_wp U d s i kd f kds : vinv X U d s -> knowndevs s !! i = Some kd -> is_Some (kd_rawname kd) -> mounted kd = Some f ->
  drop (Datatypes.S i) (knowndevs s) = kds ->
  wp (unmount_one i f) s (fun _ s' => vinv X U d s' /\ drop (Datatypes.S i) (knowndevs s') = kds) (fun _ _ => False).
Proof.
  intros HI Hi Hr Hm Hk.
  assert (Hlive : forall s', vinv X U d s' -> knowndevs s' = knowndevs s -> fs_live f (fsd (wd s')) = true).
  { intros s' HI' E'. eapply mounted_live; [done| |done]. rewrite E'. by eapply list_elem_of_lookup_2. }
  assert (Hun : forall r s', knowndevs s' = knowndevs s -> vinv X U d s' -> wp (match r : Z + unit with
    | inl _ => kret tt | inr _ => r <- attempt (on_world (fsop_unmount f)) ;; match r with inl _ => kret tt | inr _ => assign_fs i None end end) s'
    (fun _ s' => vinv X U d s' /\ drop (Datatypes.S i) (knowndevs s') = kds) (fun _ _ => False)).
  { intros [e|[]] s' E' HI'; [apply wp_ret; by rewrite E'|]. rewrite <- E' in Hi, Hk. apply wp_bind, wp_attempt.
    wp_use (unmount_fs_wp U d s' i kd f HI' Hi Hr Hm); [|intros e s2 [E2 H2]; apply wp_ret; by rewrite E2].
    intros [] s2 [E2 H2]. apply assign_fs_wp. split; [done|]. cbn. rewrite E2, <- Hk. apply drop_alter_lt. lia. }
  apply wp_bind, wp_attempt. wp_use (sync_fs_wp U d s f HI); [by apply Hlive| |].
  - intros [] s1 [E1 H1]. apply wp_bind, wp_ret. by apply (Hun (inr tt)).
  - intros e s1 [E1 H1]. apply wp_bind, wp_attempt. wp_use (sync_fs_wp U d s1 f H1); [by apply Hlive| |].
    + intros [] s2 [E2 H2]. apply (Hun (inr tt)); [congruence|done].
    + intros e2 s2 [E2 H2]. apply (Hun (inl e2)); [congruence|done].
Qed.

Lemma unmountall_loop_wp U d i kds s : vinv X U d s -> drop i (knowndevs s) = kds ->
  wp (unmountall_loop i kds) s (fun _ s' => vinv X U d s') (fun _ _ => False).
Proof.
  revert i s. induction kds as [|kd kds IH]; intros i s HI Hk; cbn [unmountall_loop]; [by apply wp_ret|].
  assert (Hi : knowndevs s !! i = Some kd) by (rewrite <- (Nat.add_0_r i), <- lookup_drop, Hk; done).
  assert (Hk' : drop (Datatypes.S i) (knowndevs s) = kds) by (rewrite <- Nat.add_1_r, <- drop_drop, Hk; done).
  assert (Hskip : wp (kret tt) s (fun _ s' => wp (unmountall_loop (Datatypes.S i) kds) s' (fun _ s' => vinv X U d s') (fun _ _ => False)) (fun _ _ => False))
    by (apply wp_ret; by apply IH).
  apply wp_bind. destruct (kd_rawname kd) as [r|] eqn:Er; [|done]. destruct (kd_fs kd) as [f|] eqn:Ef; [|done].
  assert (Hr : is_Some (kd_rawname kd)) by (rewrite Er; by eexists). destruct (Z.eqb_spec f SWAP_FS) as [->|Hne].
  - apply assign_fs_wp, IH; [|cbn; rewrite drop_alter_lt by lia; done]. apply (vinv_assign_swap U d s i kd); [done|done|done| |done]. unfold mounted. by rewrite Ef.
  - wp_use (unmount_one_wp U d s i kd f kds HI Hi Hr); [|done| |done].
    + unfold mounted. rewrite Ef. by rewrite (proj2 (Z.eqb_neq _ _)).
    + intros [] s1 [H1 E1]. by apply IH.
Qed.

Lemma unmountall_wp U d s : vinv X U d s -> d < 2 ^ 32 - 1 -> wp vfs_unmountall s (fun _ s' => vinv X U d s') (fun _ s' => vinv X U d s').
Proof.
  intros HI Hd. apply (locked_wp U d s _ (fun _ => U) HI Hd). intros s1 _ H1. apply wp_bind, wp_get.
  wp_use unmountall_loop_wp; [done|done|done|done].
Qed.

Lemma sync_loop_wp U d kds s : vinv X U d s -> (forall kd, kd ∈ kds -> kd ∈ knowndevs s) ->
  wp (sync_loop kds) s (fun _ s' => vinv X U d s') (fun _ _ => False).
Proof.
  revert s. induction kds as [|kd kds IH]; intros s HI Hin; cbn [sync_loop]; [by apply wp_ret|]. apply wp_bind.
  assert (Hnext : forall s', knowndevs s' = knowndevs s -> vinv X U d s' -> wp (sync_loop kds) s' (fun _ s' => vinv X U d s') (fun _ _ => False)).
  { intros s' E' H'. apply IH; [done|]. intros k Hk. rewrite E'. apply Hin. by right. }
  destruct (mounted kd) as [f|] eqn:Hm; [|by apply wp_ret, Hnext]. apply wp_bind, wp_attempt. wp_use (sync_fs_wp U d s f HI).
  - eapply mounted_live; [done| |done]. apply Hin, list_elem_of_here.
  - intros [] s1 [E1 H1]. by apply wp_ret, Hnext.
  - intros e s1 [E1 H1]. by apply wp_ret, Hnext.
Qed.

Lemma sync_wp U d s : vinv X U d s -> d < 2 ^ 32 - 1 -> wp vfs_sync s (fun _ s' => vinv X U d s') (fun _ s' => vinv X U d s').
Proof.
  intros HI Hd. apply (locked_wp U d s _ (fun _ => U) HI Hd). intros s1 _ H1. apply wp_bind, wp_get. wp_use sync_loop_wp; [done|done|done|done].
Qed.

End Lemmas.

(** ** Adding devices *)

(** What the caller of [vfs_doadd] guarantees: the device is there, a mountable one has a
    device, and one that has neither a raw name nor a device is a file system. *)
Definition add_ok w (mountable : bool) (dev fs : option Z) : Prop :=
  (forall p, dev = Some p -> is_Some (devices w !! p)) /\ (mountable = true -> is_Some dev) /\
  (fs = None -> is_Some dev) /\ fs <> Some SWAP_FS /\ (mountable = true -> fs = None).

Definition with_vnode v dev s : S := set_wd (set_vnodes (<[v := vnode_init dev_vnode_ops None dev]> (vnodes (wd s))) (wd s)) s.

Lemma refs_add_dev P U w v dev : refs P U w -> vnodes w !! v = None ->
  refs (P ⊎ {[+ v +]}) U (set_vnodes (<[v := vnode_init dev_vnode_ops None dev]> (vnodes w)) w).
Proof.
  intros [R1 R2 R3 R4 R5 R6] Hv. pose proof (R1 v) as Hz. unfold count in Hz. rewrite Hv in Hz. rewrite !multiplicity_disj_union in Hz.
  split; unfold set_vnodes, count; cbn [vnodes devices unreclaimed fsd].
  - intros u. specialize (R1 u). unfold count in R1. rewrite !multiplicity_disj_union in *. destruct (decide (v = u)) as [->|Hne].
    + rewrite lookup_insert_eq, multiplicity_singleton_eq. cbn. lia.
    + rewrite lookup_insert_ne, multiplicity_singleton_ne by done. lia.
  - intros u y [[-> <-]|[? Hy]]%lookup_insert_Some; [done|by apply (R2 u)].
  - intros u y [[-> <-]|[? Hy]]%lookup_insert_Some Ho; [split; [multiset_solver|done]|]. destruct (R3 u y Hy Ho). split; [multiset_solver|done].
  - intros u y Hu [[-> <-]|[? Hy]]%lookup_insert_Some; [|by apply (R4 u)]. rewrite elem_of_multiplicity in Hu. lia.
  - intros u y [[-> <-]|[? Hy]]%lookup_insert_Some; [done|by apply (R5 u)].
  - apply (law_frame w); [done| |done]. intros u f. unfold on_fs. cbn [vnodes]. destruct (decide (v = u)) as [->|Hne]; [|by rewrite lookup_insert_ne].
    rewrite lookup_insert_eq, Hv. split; [by intros (y & [= <-] & ? & _)|by intros (y & ? & _)].
Qed.

Lemma kd_ok_insert w v x kd : vnodes w !! v = None -> kd_ok w kd -> kd_ok (set_vnodes (<[v := x]> (vnodes w)) w) kd.
Proof.
  intros Hv [(y & Hy & ? & ?) K2 K3 K4 K5]. split; try done. exists y. split; [|done]. cbn. rewrite lookup_insert_ne; [done|congruence].
Qed.

Lemma vinv_add X U d s v nm raw dev fs : vinv (opt_list fs ++ X) U d s -> vnodes (wd s) !! v = None ->
  add_ok (wd s) (bool_decide (is_Some raw)) dev fs ->
  vinv X U d (set_knowndevs (knowndevs s ++ [mkkd nm raw dev v fs]) (with_vnode v dev s)).
Proof.
  intros [I1 I2 I3 I4 I5 I6 I7 I8] Hv (A1 & A2 & A3 & A4 & A5). set (kd := mkkd nm raw dev v fs).
  assert (Hm : mounted kd = fs) by (unfold mounted; cbn; destruct fs as [f|]; [|done]; rewrite (proj2 (Z.eqb_neq _ _)); [done|congruence]).
  assert (Ho : X ++ omap mounted (knowndevs s ++ [kd]) ≡ₚ (opt_list fs ++ X) ++ omap mounted (knowndevs s)).
  { rewrite omap_app. cbn. rewrite Hm. destruct fs; cbn; [|by rewrite app_nil_r]. rewrite (assoc_L (++)). by rewrite Permutation_app_comm. }
  split; cbn; try done.
  - change (refs (perm (knowndevs s ++ [kd])) (owned s ⊎ U) (wd (with_vnode v dev s))).
    replace (perm (knowndevs s ++ [kd])) with (perm (knowndevs s) ⊎ {[+ v +]}); [by apply refs_add_dev|].
    unfold perm. rewrite fmap_app, list_to_set_disj_app. cbn [fmap list_fmap]. rewrite list_to_set_disj_cons, list_to_set_disj_nil, (right_id_L ∅ (⊎)). done.
  - apply Forall_app. split; [apply Forall_forall; intros; apply kd_ok_insert; [done|by apply (proj1 (Forall_forall _ _) I5)]|]. apply Forall_singleton. split; cbn.
    + eexists. by rewrite lookup_insert_eq.
    + done.
    + intros Hr. apply A2. by apply bool_decide_eq_true.
    + intros Hr f. fold kd. rewrite Hm, (A5 (proj2 (bool_decide_eq_true _) Hr)). done.
    + done.
  - by rewrite Ho.
  - intros f. by rewrite Ho.
  - intros u Hu. destruct (I8 u Hu) as (f & x & Hx & ?). exists f, x. split; [|done]. cbn. rewrite lookup_insert_ne; [done|congruence].
Qed.

Lemma number_device_wp X U d s dev index E : vinv X U d s -> (forall p, dev = Some p -> is_Some (devices (wd s) !! p)) ->
  wp (number_device dev index) s (fun _ s' => vinv X U d s') E.
Proof.
  intros HI Hd. unfold number_device. destruct dev as [p|]; [|by apply wp_ret]. apply wp_bind, wp_get. destruct (Hd p eq_refl) as [dv Hdv]. rewrite Hdv. apply wp_put.
  destruct HI as [[R1 R2 R3 R4 R5 R6] I2 I3 I4 I5 I6 I7 I8].
  assert (Hins : forall q y, is_Some (devices (wd s) !! q) -> is_Some (<[p := y]> (devices (wd s)) !! q)) by (intros; rewrite lookup_insert_is_Some'; auto).
  split; cbn; try done.
  - split; try done; [|by apply (law_frame (wd s))]. intros v x Hv Hx Ho. destruct (R4 v x Hv Hx Ho) as (q & Hq & Hq'). exists q. split; [done|]. by apply Hins.
  - apply Forall_forall. intros kd Hkd. rewrite Forall_forall in I5. destruct (I5 kd Hkd) as [K1 K2 K3 K4 K5]. split; try done. intros q Hq. by apply Hins, K2.
Qed.

Lemma uncreate_wp s v dev (Q : unit -> S -> Prop) E n : vnodes (wd s) !! v = None -> Q tt (set_requests n s) ->
  wp (on_world (dev_uncreate_vnode v)) (set_requests n (with_vnode v dev s)) Q E.
Proof.
  intros Hv HQ. unfold wp, on_world, dev_uncreate_vnode, vnode_cleanup, vn_get. kunfold. cbn. rewrite lookup_insert_eq, bool_decide_true by done. cbn. rewrite lookup_insert_eq. cbn.
  replace (set_wd _ _) with (set_requests n s); [done|]. unfold set_vnodes. cbn. rewrite delete_insert_id by done. destruct s as [[] ? ? ? ? ? ?]. done.
Qed.

Lemma create_wp s (b : bool) v dev (Q : option Z -> S -> Prop) E : Q None s -> Q (Some v) (with_vnode v dev s) ->
  wp (on_world (dev_create_vnode (if b then Some v else None) dev)) s Q E.
Proof. intros HN HS. unfold wp, on_world, dev_create_vnode. destruct b; kunfold; [done|]. by rewrite set_wd_id. Qed.

Lemma doadd_vnode_wp X U d s nm raw dev fs v n : vinv (opt_list fs ++ X) U (d + 1) s -> 0 <= d -> vnodes (wd s) !! v = None ->
  add_ok (wd s) (bool_decide (is_Some raw)) dev fs ->
  wp (doadd_vnode nm raw dev fs v) (set_requests n (with_vnode v dev s)) (fun _ s' => vinv X U (d + 1) s') (fun _ s' => vinv (opt_list fs ++ X) U (d + 1) s').
Proof.
  intros HI Hd Hv Ha. assert (Hl : vfs_biglock s = true) by (rewrite (vi_lock _ _ _ _ HI); apply Z.ltb_lt; lia).
  assert (Hback : forall n e, wp (on_world (dev_uncreate_vnode v) ;;; kfail e) (set_requests n (with_vnode v dev s)) (fun (_ : unit) s' => vinv X U (d + 1) s') (fun _ s' => vinv (opt_list fs ++ X) U (d + 1) s')).
  { intros k e. apply wp_bind, uncreate_wp; [done|]. apply wp_fail. by destruct HI; split. }
  apply wp_bind, wp_attempt, wp_bind, kmalloc_wp. intros b k. destruct b; cbn [negb]; [|by apply wp_fail, Hback].
  apply wp_bind, wp_get, wp_bind, wp_bind, assert_held_true; [done|]. apply wp_bind, wp_get, wp_ret. destruct (existsb _ _); [by apply wp_fail, Hback|].
  apply wp_bind, kmalloc_wp. intros b k'. destruct b; cbn [negb]; [|by apply wp_fail, Hback]. apply wp_bind, wp_get, wp_bind, wp_put, wp_ret.
  apply number_device_wp; [|apply Ha]. apply (vinv_add X U (d + 1) s v nm raw dev fs) in HI; [|done|done]. by destruct HI; split.
Qed.

(** A critical section in which a file system is attached. *)
Lemma locked_attach_wp X X' U d s (m : K S unit) : vinv X' U d s -> d < 2 ^ 32 - 1 ->
  (forall s', s' = set_biglock true (d + 1) s -> vinv X' U (d + 1) s' -> wp m s' (fun _ s' => vinv X U (d + 1) s') (fun _ s' => vinv X' U (d + 1) s')) ->
  wp (locked m) s (fun _ s' => vinv X U d s') (fun _ s' => vinv X' U d s').
Proof.
  intros HI Hd Hm. pose proof (vi_pos _ _ _ _ HI) as H0. unfold locked. apply wp_bind. eapply acquire_wp; [done|done|].
  pose proof (vinv_biglock X' U d (d + 1) s HI ltac:(lia)) as HI1. rewrite (proj2 (Z.ltb_lt 0 (d + 1))) in HI1 by lia.
  apply wp_bind, wp_attempt. eapply wp_conseq; [by apply Hm|..].
  - intros a s' Ha. apply wp_bind. apply (release_wp X U d); [done|lia|]. intros s2 H2. by apply wp_ret.
  - intros e s' He. apply wp_bind. apply (release_wp X' U d); [done|lia|]. intros s2 H2. by apply wp_fail.
Qed.

Lemma doadd_wp X U d s nm mountable dev fs : vinv (opt_list fs ++ X) U d s -> d < 2 ^ 32 - 1 -> add_ok (wd s) mountable dev fs ->
  wp (vfs_doadd nm mountable dev fs) s (fun _ s' => vinv X U d s') (fun _ s' => vinv (opt_list fs ++ X) U d s').
Proof.
  intros HI Hd Ha. pose proof (vi_pos _ _ _ _ HI) as H0. apply locked_attach_wp; [done|done|]. intros s1 -> H1. set (s1 := set_biglock true (d + 1) s) in *.
  assert (Hn : forall n, vinv (opt_list fs ++ X) U (d + 1) (set_requests n s1)) by (intros; by apply vinv_requests).
  apply wp_bind, kmalloc_wp. intros b n. destruct b; cbn [negb]; [|by apply wp_fail].
  assert (Hv : forall raw n, bool_decide (is_Some raw) = mountable -> wp (v <- new_dev_vnode dev ;; match v with None => kfail ENOMEM | Some v => doadd_vnode nm raw dev fs v end) (set_requests n s1)
    (fun _ s' => vinv X U (d + 1) s') (fun _ s' => vinv (opt_list fs ++ X) U (d + 1) s')).
  { intros raw k Hr. apply wp_bind, wp_bind, kmalloc_wp. intros b k'. apply wp_bind, wp_get, create_wp; [apply wp_fail, (Hn k')|].
    apply (doadd_vnode_wp X U d s1 nm raw dev fs _ k'); [done|done| |by rewrite Hr].
    apply not_elem_of_dom. apply is_fresh. }
  apply wp_bind. destruct mountable.
  - apply wp_bind, wp_bind, kmalloc_wp. intros b k. apply wp_ret. destruct b; [apply wp_ret; by apply Hv|apply wp_fail, (Hn k)].
  - apply wp_ret. by apply Hv.
Qed.

Lemma getdevname_wp U d s f (Q : option name -> S -> Prop) (E : Z -> S -> Prop) : vinv [] U (d + 1) s -> 0 <= d -> fs_live f (fsd (wd s)) = true ->
  (forall nm, Q (Some nm) s) -> wp (vfs_getdevname (Some f)) s Q E.
Proof.
  intros HI Hd Hf HQ. apply wp_bind, wp_assert; [by apply bool_decide_eq_true|]. apply wp_bind. eapply assert_held_wp; [done|done|]. apply wp_bind, wp_get, wp_ret.
  destruct (getdevname_found U (d + 1) s f HI Hf) as (kd & kds & ->). apply HQ.
Qed.

(** The name of the volume, or else the name of its device. *)
Lemma cwd_name_wp U d s f (E : Z -> S -> Prop) : vinv [] U d s -> d < 2 ^ 32 - 1 -> fs_live f (fsd (wd s)) = true ->
  wp (match fsop_getvolname f (fsd (wd s)) with Some nm => kret (Some nm) | None => locked (vfs_getdevname (Some f)) end) s
     (fun nm s' => is_Some nm /\ vinv [] U d s') E.
Proof.
  intros HI Hd Hf. pose proof (vi_pos _ _ _ _ HI) as H0. destruct (fsop_getvolname _ _) as [nm|]; [apply wp_ret; by split|].
  apply wp_bind. eapply acquire_wp; [done|done|]. pose proof (vinv_biglock [] U d (d + 1) s HI ltac:(lia)) as H1. rewrite (proj2 (Z.ltb_lt 0 (d + 1))) in H1 by lia.
  apply wp_bind, wp_attempt. eapply getdevname_wp; [done|done|done|]. intros nm. apply wp_bind. eapply release_wp; [done|done|]. intros s2 H2. apply wp_ret. by split.
Qed.

Lemma getcwd_wp U d s u : vinv [] U d s -> d < 2 ^ 32 - 1 -> uio_fine u -> wp (vfs_getcwd u) s (fun _ s' => vinv [] U d s') (fun _ s' => vinv [] U d s').
Proof.
  intros HI Hd Hu. apply wp_bind, wp_assert; [apply bool_decide_eq_true, Hu|]. wp_next getcurdir_wp; [done| |done]. intros v s1 [H1 [f Hf]].
  apply wp_bind. eapply vn_fs_wp; [done|multiset_solver|]. intros x Hx. assert (Ex : vn_fs x = Some f) by (destruct Hf as (x' & ? & _ & ?); congruence). rewrite Ex.
  apply wp_bind, wp_get. apply wp_bind. eapply wp_conseq; [apply (cwd_name_wp (U ⊎ {[+ v +]}) d s1 f (fun _ _ => False) H1 Hd); by eapply on_fs_live| |done].
  intros nm s2 [[n ->] H2]. apply wp_bind, wp_attempt, wp_bind, uiomove_wp; [done| |by apply (drop_and_wp [] U d)].
  intros r1 Hr1. apply wp_bind, uiomove_wp; [done| |by apply (drop_and_wp [] U d)]. intros r2 Hr2.
  eapply wp_conseq; [apply (vop_wp [] (U ⊎ {[+ v +]}) d s2 v _ nothing H2); [multiset_solver|intros; by apply VOP_NAMEFILE_hands]|..].
  - intros a s3 H3. apply (drop_and_wp [] U d); [|done]. refine (vinv_ext _ _ _ _ _ _ H3). unfold nothing. multiset_solver.
  - intros e s3 H3. by apply (drop_and_wp [] U d).
Qed.

(** ** The calls of the layer *)

Inductive call :=
| CLookup (path : name) | CLookparent (path : name) (len : Z)
| COpen (path : name) (openflags mode : Z) | CClose (v : Z)
| CRemove (path : name) | CRename (oldpath newpath : name) | CLink (oldpath newpath : name)
| CSymlink (contents path : name) | CReadlink (path : name) (u : uio)
| CMkdir (path : name) (mode : Z) | CRmdir (path : name)
| CGetcurdir | CSetcurdir (v : Z) | CClearcurdir | CChdir (path : name) | CGetcwd (u : uio)
| CSetbootfs (fsname : name) | CClearbootfs
| CAdddev (devname : name) (dev : Z) (mountable : bool)
| CMount (devname : name) (mountfunc : option Z -> K (world D) (option Z)) | CUnmount (devname : name)
| CSwapon (devname : name) | CSwapoff (devname : name) | CUnmountall | CSync.

Definition got {A} (f : A -> list Z) (m : K S A) : K S (list Z) := a <- m ;; kret (f a).

(** The call, with the vnodes its caller is handed. *)
Definition run (c : call) : K S (list Z) :=
  match c with
  | CLookup p => got (fun v => [v]) (vfs_lookup p)
  | CLookparent p len => got (fun r => [fst r]) (vfs_lookparent p len)
  | COpen p flags mode => got (fun v => [v]) (vfs_open p flags mode)
  | CClose v => got (fun _ => []) (vfs_close v)
  | CRemove p => got (fun _ => []) (vfs_remove p)
  | CRename p q => got (fun _ => []) (vfs_rename p q)
  | CLink p q => got (fun _ => []) (vfs_link p q)
  | CSymlink c p => got (fun _ => []) (vfs_symlink c p)
  | CReadlink p u => got (fun _ => []) (vfs_readlink p u)
  | CMkdir p mode => got (fun _ => []) (vfs_mkdir p mode)
  | CRmdir p => got (fun _ => []) (vfs_rmdir p)
  | CGetcurdir => got (fun v => [v]) vfs_getcurdir
  | CSetcurdir v => got (fun _ => []) (vfs_setcurdir v)
  | CClearcurdir => got (fun _ => []) vfs_clearcurdir
  | CChdir p => got (fun _ => []) (vfs_chdir p)
  | CGetcwd u => got (fun _ => []) (vfs_getcwd u)
  | CSetbootfs nm => got (fun _ => []) (vfs_setbootfs nm)
  | CClearbootfs => got (fun _ => []) vfs_clearbootfs
  | CAdddev nm dev m => got (fun _ => []) (vfs_adddev nm dev m)
  | CMount nm mf => got (fun _ => []) (vfs_mount nm mf)
  | CUnmount nm => got (fun _ => []) (vfs_unmount nm)
  | CSwapon nm => got (fun v => [v]) (vfs_swapon nm)
  | CSwapoff nm => got (fun _ => []) (vfs_swapoff nm)
  | CUnmountall => got (fun _ => []) vfs_unmountall
  | CSync => got (fun _ => []) vfs_sync
  end.

(** The reference a call uses up. *)
Definition takes (c : call) : gmultiset Z := match c with CClose v => {[+ v +]} | _ => ∅ end.

(** What the caller of [c] guarantees: it holds the vnodes it passes, the buffer of
    [vfs_getcwd] is one for reading, a device it adds exists. *)
Definition call_ok U s (c : call) : Prop :=
  match c with
  | CClose v | CSetcurdir v => v ∈ U
  | CGetcwd u => uio_fine u
  | CAdddev _ dev _ => is_Some (devices (wd s) !! dev)
  | CMount _ mf => mount_ok mf
  | _ => True
  end.

Definition opens_file (c : call) : bool := match c with COpen _ _ _ => true | _ => false end.

Lemma got_wp {A} U (V : A -> gmultiset Z) d s (f : A -> list Z) (m : K S A) :
  wp m s (fun a s' => vinv [] (V a) d s') (fun _ s' => vinv [] U d s') ->
  (forall a, V a = U ⊎ list_to_set_disj (f a)) ->
  wp (got f m) s (fun vs s' => vinv [] (U ⊎ list_to_set_disj vs) d s') (fun _ s' => vinv [] U d s').
Proof. intros Hm HV. apply wp_bind. eapply wp_conseq; [exact Hm| |done]. intros a s' Ha. apply wp_ret. by rewrite <- HV. Qed.

Lemma list_one v : list_to_set_disj [v] =@{gmultiset Z} {[+ v +]}.
Proof. rewrite list_to_set_disj_cons, list_to_set_disj_nil. apply (right_id_L ∅ (⊎)). Qed.

Lemma list_none U : U = U ⊎ list_to_set_disj [].
Proof. rewrite list_to_set_disj_nil. by rewrite (right_id_L ∅ (⊎)). Qed.

Lemma got_none {A} U d s (m : K S A) :
  wp m s (fun _ s' => vinv [] U d s') (fun _ s' => vinv [] U d s') ->
  wp (got (fun _ => []) m) s (fun vs s' => vinv [] (U ⊎ list_to_set_disj vs) d s') (fun _ s' => vinv [] U d s').
Proof. intros Hm. apply (got_wp U (fun _ => U)); [done|]. intros _. apply list_none. Qed.

Lemma got_one {A} U d s (g : A -> Z) (m : K S A) :
  wp m s (fun a s' => vinv [] (U ⊎ {[+ g a +]}) d s') (fun _ s' => vinv [] U d s') ->
  wp (got (fun a => [g a]) m) s (fun vs s' => vinv [] (U ⊎ list_to_set_disj vs) d s') (fun _ s' => vinv [] U d s').
Proof. intros Hm. apply (got_wp U (fun a => U ⊎ {[+ g a +]})); [done|]. intros a. by rewrite list_one. Qed.

Lemma run_wp U d s c : vinv [] (U ⊎ takes c) d s -> d < 2 ^ 32 - 2 -> call_ok (U ⊎ takes c) s c ->
  opens_file c = false ->
  wp (run c) s (fun vs s' => vinv [] (U ⊎ list_to_set_disj vs) d s') (fun _ s' => vinv [] U d s').
Proof.
  intros HI Hd Hc Hopen. assert (Hd' : d < 2 ^ 32 - 1) by lia. assert (HU : U ⊎ ∅ = U) by apply (right_id_L ∅ (⊎)).
  destruct c; try done; cbn [run takes call_ok] in *; rewrite ?HU in HI; rewrite ?HU in Hc;
    first [apply got_none | apply (got_one U d s (fun v => v)) | apply (got_one U d s fst)].
  - by apply lookup_wp.
  - by apply lookparent_wp.
  - by apply decref_wp.
  - apply (at_parent_wp [] U d s path VOP_REMOVE HI Hd'). intros. by apply VOP_REMOVE_hands.
  - by apply rename_wp.
  - by apply link_wp.
  - apply (at_parent_wp [] U d s path (fun v nm => VOP_SYMLINK v nm contents) HI Hd'). intros. by apply VOP_SYMLINK_hands.
  - wp_next (lookup_wp [] U d); [done|done| |done]. intros v s1 H1.
    eapply wp_conseq; [apply (vop_drop_wp [] U d s1 v _ nothing H1); intros; by apply VOP_READLINK_hands| |done].
    intros a s2 H2. refine (vinv_ext _ _ _ _ _ _ H2). unfold nothing. multiset_solver.
  - apply (at_parent_wp [] U d s path (fun v nm => VOP_MKDIR v nm mode) HI Hd'). intros. by apply VOP_MKDIR_hands.
  - apply (at_parent_wp [] U d s path VOP_RMDIR HI Hd'). intros. by apply VOP_RMDIR_hands.
  - wp_use (getcurdir_wp [] U d s HI); [by intros ? ? [? _]|done].
  - by apply setcurdir_wp.
  - by apply clearcurdir_wp.
  - by apply chdir_wp.
  - by apply getcwd_wp.
  - by apply setbootfs_wp.
  - by apply clearbootfs_wp.
  - apply (doadd_wp [] U d s devname mountable (Some dev) None); [done|done|]. split_and!; [by intros ? [= <-]|by eexists|by eexists|done|done].
  - by apply mount_wp.
  - by apply unmount_wp.
  - by apply swapon_wp.
  - by apply swapoff_wp.
  - by apply unmountall_wp.
  - by apply sync_wp.
Qed.

(** Why the kernel may stop in a call. *)
Definition stops_in (c : call) s (h : halt) : Prop :=
  h = KAssert /\ exists path flags mode, c = COpen path flags mode /\ no_vnode path flags mode s.

Lemma run_ok U d s c : vinv [] (U ⊎ takes c) d s -> d < 2 ^ 32 - 2 -> call_ok (U ⊎ takes c) s c ->
  match run c s with
  | Done vs s' => vinv [] (U ⊎ list_to_set_disj vs) d s'
  | Fail _ s' => vinv [] U d s'
  | Halt h => stops_in c s h
  end.
Proof.
  intros HI Hd Hc. destruct (opens_file c) eqn:Hn.
  - destruct c; try done. cbn [run takes] in *. rewrite (right_id_L ∅ (⊎)) in HI.
    assert (Hd' : d < 2 ^ 32 - 1) by lia. pose proof (open_wp [] U d s path openflags mode HI Hd') as Hw. unfold got, kbind, kret.
    destruct (vfs_open _ _ _ s) as [v s'|e s'|h]; [by rewrite list_one|done|].
    destruct Hw as [-> Hw]. split; [done|]. by do 3 eexists.
  - pose proof (run_wp U d s c HI Hd Hc Hn) as Hw. unfold wp in Hw. by destruct (run c s).
Qed.

End Spec.
