(* ===== verification/VfsRefs.v ===== *)
(** * The VFS layer keeps its references

    The theorem on references, and an instance of the file system interface on which it
    is used: one file system with a root directory and no files. *)

From stdpp Require Import base numbers functions list gmap gmultiset.
From Stdlib Require Import ZArith Lia.
From stdpp Require Import list_relations.
From S2P Require Import Prelude SfsDisk Vnode VfsList VfsLookup VfsSpec.

Open Scope Z_scope.
Open Scope k_scope.

(** C11. Over any file systems that fulfil [FsLaws], what vnode.h and fs.h ask of their
    operations (they hand out the references they return and keep no others), whatever
    memory is refused: every call of the VFS layer (lookups, open and close, remove,
    rename, link and the others on pathnames, the current directory, the boot file system,
    adding, mounting, unmounting and swapping devices) returns without a failed assertion
    or a vnode used after it was freed, except that an open with O_CREAT stops at the
    assertion that there is a vnode when the file system's creat reported success without
    one. Afterwards the reference count of every vnode is again the number of references
    held, where the caller has gained exactly the vnodes it was handed and, for a close,
    lost the one it gave up; after an error its references are those from before; and the
    big lock is as often held as before. The semaphore file system fulfils [FsLaws]
    ([semfs_laws]); SFS does not, its [sfs_getroot] keeps a reference more than it hands
    out. *)
Theorem vfs_references {D} {F : FileSystems D} {L : FsLaws D} {M : Kmem} (U : gmultiset Z) (d : Z) (s : vfs D) (c : call)
    (HI : vinv [] (U ⊎ takes c) d s) (Hd : d < 2 ^ 32 - 2) (Hc : call_ok (U ⊎ takes c) s c) :
  match run c s with
  | Done vs s' => vinv [] (U ⊎ list_to_set_disj vs) d s'
  | Fail _ s' => vinv [] U d s'
  | Halt h => stops_in c s h
  end.
Proof. exact (run_ok U d s c HI Hd Hc). Qed.

(** ** A file system with nothing but a root

    What it keeps is whether it is mounted. *)

Definition EMPTY_FS : Z := 7.
Definition ROOT_VN : Z := 1000.

(** "empty" *)
Definition empty_volname : name := [101; 109; 112; 116; 121].

(** The root is created when it is asked for and not in memory. *)
Definition empty_getroot (f : Z) : K (world bool) Z :=
  fun w => match vnodes w !! ROOT_VN with
           | None => Done ROOT_VN (set_vnodes (<[ROOT_VN := vnode_init fs_vnode_ops (Some EMPTY_FS) None]> (vnodes w)) w)
           | Some x => if bool_decide (vn_ops x = fs_vnode_ops) then (vnode_incref ROOT_VN ;;; kret ROOT_VN) w else Fail EIO w
           end.

Definition empty_reclaim (v : Z) : K (world bool) unit := kmodify (fun w => set_vnodes (delete v (vnodes w)) w).

#[global] Instance empty_fs : FileSystems bool := {
  fsop_sync _ := kret tt;
  fsop_getvolname _ _ := Some empty_volname;
  fsop_getroot := empty_getroot;
  fsop_unmount _ := kfail EBUSY;
  fs_eachopen _ _ := kret tt;
  fs_reclaim := empty_reclaim;
  fs_readlink _ _ := kfail EINVAL;
  fs_gettype _ := kret S_IFDIR;
  fs_truncate _ _ := kfail EISDIR;
  fs_namefile _ u := kret u;
  fs_creat _ _ _ _ := kfail ENOSPC;
  fs_symlink _ _ _ := kfail ENOSYS;
  fs_mkdir _ _ _ := kfail ENOSPC;
  fs_link _ _ _ := kfail ENOSPC;
  fs_remove _ _ := kfail ENOENT;
  fs_rmdir _ _ := kfail ENOENT;
  fs_rename _ _ _ _ := kfail ENOENT;
  fs_lookup _ _ := kfail ENOENT;
  fs_lookparent v path len := vnode_incref v ;;; kret (v, path);
  drv_eachopen _ _ := kret tt;
  drv_io _ u := kret u;
  drv_ioctl _ _ _ := kfail EINVAL;
  fs_live f mounted := (f =? EMPTY_FS) && mounted;
  fs_removable _ := true;
  fs_ok _ := True
}.

#[global] Instance empty_frame : FsFrame bool.
Proof. done. Qed.

Lemma empty_getroot_law f P U : hands P U (fun w => fs_live f (fsd w) = true) (empty_getroot f) the_vnode.
Proof.
  intros w HR Hl. unfold empty_getroot. destruct (vnodes w !! ROOT_VN) as [x|] eqn:E.
  - case_bool_decide as Ho; [|split; [done|apply stable_refl]].
    destruct (incref_hands P U ROOT_VN w x HR E) as (w' & E' & Hr & Hs); [congruence|]. kunfold. rewrite E'. split; [done|apply Hs].
  - apply andb_prop in Hl as [_ Hl]. apply (refs_add_fs P U ROOT_VN EMPTY_FS None (fsd w) w); [done|done| |done|done]. cbn. by rewrite Hl.
Qed.

(** An operation that changes nothing. *)
Lemma idle_hands {A} P U pre (m : K (world bool) A) :
  (forall w, (exists a, m w = Done a w) \/ exists e, m w = Fail e w) -> hands P U pre m nothing.
Proof. intros Hm w HR _. destruct (Hm w) as [[a ->]|[e ->]]; [by apply quiet|]. split; [done|apply stable_refl]. Qed.

Lemma refused_hands {A} P U pre (m : K (world bool) A) ret e : (forall w, m w = Fail e w) -> hands P U pre m ret.
Proof. intros Hm w HR _. rewrite Hm. split; [done|apply stable_refl]. Qed.

#[global] Instance empty_laws : FsLaws bool.
Proof.
  split; intros;
    first [exact empty_frame | apply empty_getroot_law | (apply idle_hands; intros w; first [left; by eexists | right; by eexists]) | eapply refused_hands; done | idtac].
  - by split; [|apply stable_refl].
  - by apply (refs_delete P U v f (fsd w) w).
  - intros w HR [Hv (f & x & Hx & Ho & _)]. destruct (incref_hands P U v w x HR Hx) as (w' & E' & Hr & Hs); [congruence|].
    cbn. kunfold. rewrite E'. split; [done|apply Hs].
Qed.

(** ** A system that has booted from it *)

(** "lhd0" *)
Definition lhd0_name : name := [108; 104; 100; 48].

Definition demo_world : world bool :=
  mkworld {[500 := mkvnode 1 None (Some 50) dev_vnode_ops; 501 := mkvnode 1 None (Some 51) dev_vnode_ops;
            ROOT_VN := mkvnode 2 (Some EMPTY_FS) None fs_vnode_ops]}
          {[50 := mkdevice null_devops 0 1 1; 51 := mkdevice driver_devops 640 512 2]} ∅ true.

(** The null device and a disk with the file system on it, which is the boot file system
    and the current directory. *)
Definition demo_vfs : vfs bool :=
  mkvfs demo_world [mkkd null_name None (Some 50) 500 None; mkkd lhd0_name (Some (lhd0_name ++ raw)) (Some 51) 501 (Some EMPTY_FS)]
        (Some ROOT_VN) (Some ROOT_VN) false 0 0.

Lemma demo_vnodes v x : vnodes demo_world !! v = Some x ->
  (v = 500 /\ x = mkvnode 1 None (Some 50) dev_vnode_ops) \/ (v = 501 /\ x = mkvnode 1 None (Some 51) dev_vnode_ops) \/
  (v = ROOT_VN /\ x = mkvnode 2 (Some EMPTY_FS) None fs_vnode_ops).
Proof. unfold demo_world. cbn [vnodes]. rewrite !lookup_insert_Some, lookup_singleton_Some. naive_solver. Qed.

Lemma demo_refs : refs (perm (knowndevs demo_vfs)) (owned demo_vfs ⊎ ∅) demo_world.
Proof.
  split.
  - intros v. unfold count, perm, owned. cbn [fmap list_fmap knowndevs demo_vfs kd_vnode bootfs_vnode p_cwd opt_ref unreclaimed demo_world vnodes].
    rewrite !list_to_set_disj_cons, list_to_set_disj_nil, !multiplicity_disj_union, !multiplicity_singleton, !multiplicity_empty.
    destruct (decide (v = 500)) as [->|]; [done|]. destruct (decide (v = 501)) as [->|]; [done|]. destruct (decide (v = ROOT_VN)) as [->|]; [done|].
    rewrite !lookup_insert_ne, lookup_singleton_ne by done. done.
  - intros v x [[-> ->]|[[-> ->]|[-> ->]]]%demo_vnodes; done.
  - intros v x [[-> ->]|[[-> ->]|[-> ->]]]%demo_vnodes; [| |done]; intros _; (split; [|done]); unfold perm; cbn [fmap list_fmap knowndevs demo_vfs kd_vnode];
      rewrite !list_to_set_disj_cons; multiset_solver.
  - intros v x _ [[-> ->]|[[-> ->]|[-> ->]]]%demo_vnodes; [| |done]; intros _; eexists; (split; [done|]); by eexists.
  - intros v x [[-> ->]|[[-> ->]|[-> ->]]]%demo_vnodes; [done|done|]. intros _. by exists EMPTY_FS.
  - done.
Qed.

Lemma demo_inv : vinv [] ∅ 0 demo_vfs.
Proof.
  split; try done.
  - exact demo_refs.
  - apply Forall_cons_2; [|apply Forall_singleton]; split; cbn [kd_device kd_rawname kd_fs kd_vnode].
    + exists (mkvnode 1 None (Some 50) dev_vnode_ops). split; [vm_compute; reflexivity|done].
    + intros p [= <-]. exists (mkdevice null_devops 0 1 1). vm_compute. reflexivity.
    + by eexists.
    + done.
    + done.
    + exists (mkvnode 1 None (Some 51) dev_vnode_ops). split; [vm_compute; reflexivity|done].
    + intros p [= <-]. exists (mkdevice driver_devops 640 512 2). vm_compute. reflexivity.
    + by eexists.
    + done.
    + done.
  - apply NoDup_singleton.
  - intros f. change ((f =? EMPTY_FS) && true = true <-> f ∈ [EMPTY_FS]). rewrite list_elem_of_singleton, andb_true_r. apply Z.eqb_eq.
  - intros v [= <-]. exists EMPTY_FS. by eexists.
Qed.

(** Its mount function. *)
Definition empty_mount (dev : option Z) : K (world bool) (option Z) :=
  fun w => if fsd w then Fail EBUSY w
           else Done (Some EMPTY_FS) (mkworld (vnodes w) (devices w) (unreclaimed w) true).

Lemma empty_mount_ok : mount_ok empty_mount.
Proof.
  intros dev P V w HR _. unfold empty_mount. destruct (fsd w) eqn:E; [split; [done|apply stable_refl]|].
  exists EMPTY_FS. split_and!; [done|done|done| | |done|done].
  - destruct HR as [R1 R2 R3 R4 R5 R6]. split; try done. intros v x Hx Ho. destruct (R5 v x Hx Ho) as (f & ? & Hl).
    cbn in Hl. rewrite E, andb_false_r in Hl. done.
  - split; cbn; [by intros v x _ Hx; exists x|done| |done]. intros f Hf. rewrite E, andb_false_r, andb_true_r. apply Z.eqb_neq. congruence.
Qed.

(** The same system before anything is mounted. *)
Definition cold_world : world bool :=
  mkworld {[500 := mkvnode 1 None (Some 50) dev_vnode_ops; 501 := mkvnode 1 None (Some 51) dev_vnode_ops]}
          {[50 := mkdevice null_devops 0 1 1; 51 := mkdevice driver_devops 640 512 2]} ∅ false.

Definition cold_vfs : vfs bool :=
  mkvfs cold_world [mkkd null_name None (Some 50) 500 None; mkkd lhd0_name (Some (lhd0_name ++ raw)) (Some 51) 501 None] None None false 0 0.

Lemma cold_vnodes v x : vnodes cold_world !! v = Some x ->
  (v = 500 /\ x = mkvnode 1 None (Some 50) dev_vnode_ops) \/ (v = 501 /\ x = mkvnode 1 None (Some 51) dev_vnode_ops).
Proof. unfold cold_world. cbn [vnodes]. rewrite !lookup_insert_Some, lookup_singleton_Some. naive_solver. Qed.

Lemma cold_inv : vinv [] ∅ 0 cold_vfs.
Proof.
  split; try done.
  - split.
    + intros v. unfold count, perm, owned. cbn [fmap list_fmap knowndevs cold_vfs kd_vnode bootfs_vnode p_cwd opt_ref unreclaimed cold_world vnodes wd].
      rewrite !list_to_set_disj_cons, list_to_set_disj_nil, !multiplicity_disj_union, !multiplicity_singleton, !multiplicity_empty.
      destruct (decide (v = 500)) as [->|]; [done|]. destruct (decide (v = 501)) as [->|]; [done|]. by rewrite lookup_insert_ne, lookup_singleton_ne by done.
    + intros v x [[-> ->]|[-> ->]]%cold_vnodes; done.
    + intros v x [[-> ->]|[-> ->]]%cold_vnodes; intros _; (split; [|done]); unfold perm; cbn [fmap list_fmap knowndevs cold_vfs kd_vnode];
        rewrite !list_to_set_disj_cons; multiset_solver.
    + intros v x _ [[-> ->]|[-> ->]]%cold_vnodes; intros _; eexists; (split; [done|]); by eexists.
    + intros v x [[-> ->]|[-> ->]]%cold_vnodes; done.
    + done.
  - apply Forall_cons_2; [|apply Forall_singleton]; split; cbn [kd_device kd_rawname kd_fs kd_vnode].
    + exists (mkvnode 1 None (Some 50) dev_vnode_ops). split; [vm_compute; reflexivity|done].
    + intros p [= <-]. exists (mkdevice null_devops 0 1 1). vm_compute. reflexivity.
    + by eexists.
    + done.
    + done.
    + exists (mkvnode 1 None (Some 51) dev_vnode_ops). split; [vm_compute; reflexivity|done].
    + intros p [= <-]. exists (mkdevice driver_devops 640 512 2). vm_compute. reflexivity.
    + by eexists.
    + done.
    + done.
  - constructor.
  - intros f. cbn [fs_live empty_fs fsd cold_world wd cold_vfs]. rewrite andb_false_r. split; [done|]. by intros ?%not_elem_of_nil.
Qed.

#[global] Instance demo_mem : Kmem := fun _ => true.

Definition result_of {S A} (o : outcome S A) : option A := match o with Done a _ => Some a | _ => None end.

(** Looking up "lhd0:" gives the root of the file system, one reference to it. *)
Lemma vfs_references_witness :
  result_of (run (CLookup (lhd0_name ++ [COLON])) demo_vfs) = Some [ROOT_VN] /\
  match run (CLookup (lhd0_name ++ [COLON])) demo_vfs with
  | Done vs s' => vinv [] (∅ ⊎ list_to_set_disj vs) 0 s'
  | _ => False
  end.
Proof.
  assert (E : result_of (run (CLookup (lhd0_name ++ [COLON])) demo_vfs) = Some [ROOT_VN]) by (vm_compute; reflexivity).
  split; [exact E|].
  pose proof (vfs_references ∅ 0 demo_vfs (CLookup (lhd0_name ++ [COLON])) demo_inv ltac:(lia) I) as H.
  destruct (run _ _); [exact H|discriminate E|discriminate E].
Defined.
