(* ===== verification/VfsNames.v ===== *)
(** * Names of devices and the syntax of pathnames

    What the names of devices and volumes stand for, that adding a device keeps them
    apart, and how a pathname is taken apart into the place to start from and the rest. *)

From stdpp Require Import base numbers functions list gmap gmultiset.
From Stdlib Require Import ZArith Lia.
From stdpp Require Import list_relations.
From S2P Require Import Prelude SfsDisk Vnode VfsList VfsLookup VfsSpec VfsRefs.

Open Scope Z_scope.
Open Scope k_scope.

Section Names.
Context {D : Type} {F : FileSystems D} {M : Kmem}.
Local Abbreviation S := (vfs D).
Implicit Types (s : S) (kd : knowndev).

(** The names a device answers to: its own, the one of the raw device, the one of the
    volume that is mounted. *)
Definition names_of (d : D) kd : list name :=
  kd_name kd :: match kd_rawname kd with Some r => [r] | None => [] end ++ match volname_of d kd with Some v => [v] | None => [] end.

(** No two devices share a name, and a volume is not called like the raw device it is on. *)
Record names_ok (d : D) (kds : list knowndev) : Prop := {
  names_disjoint : forall i j kd kd' nm, kds !! i = Some kd -> kds !! j = Some kd' -> nm ∈ names_of d kd -> nm ∈ names_of d kd' -> i = j;
  names_self : forall kd r, kd ∈ kds -> kd_rawname kd = Some r -> r <> kd_name kd /\ volname_of d kd <> Some r
}.

Lemma elem_of_names d kd nm : nm ∈ names_of d kd <-> nm = kd_name kd \/ kd_rawname kd = Some nm \/ volname_of d kd = Some nm.
Proof.
  unfold names_of. rewrite elem_of_cons, elem_of_app. destruct (kd_rawname kd), (volname_of d kd); rewrite ?list_elem_of_singleton, ?elem_of_nil; naive_solver.
Qed.

Lemma samestring_spec (a : option name) b : samestring a (Some b) = bool_decide (a = Some b).
Proof. unfold samestring, streq. destruct a as [a|]; [|done]. apply bool_decide_ext. naive_solver. Qed.

(** An entry whose names do not include [nm] is passed over. *)
Lemma getroot_skip nm kd kds s : nm ∉ names_of (fsd (wd s)) kd -> getroot_loop nm (kd :: kds) s = getroot_loop nm kds s.
Proof.
  intros Hn. rewrite elem_of_names in Hn. cbn [getroot_loop]. unfold kbind at 1, kget at 1. cbv zeta beta iota.
  rewrite !samestring_spec. unfold streq. rewrite (bool_decide_false (kd_name kd = nm)) by naive_solver. rewrite (bool_decide_false (kd_rawname kd = Some nm)) by naive_solver.
  rewrite andb_false_r. unfold volname_of in Hn. destruct (mounted kd) as [f|]; [|done]. rewrite samestring_spec, bool_decide_false by naive_solver. done.
Qed.

(** The search ends at the entry that has the name. *)
Lemma getroot_find nm kd kds s : (forall i j k k' n, kds !! i = Some k -> kds !! j = Some k' -> n ∈ names_of (fsd (wd s)) k -> n ∈ names_of (fsd (wd s)) k' -> i = j) ->
  kd ∈ kds -> nm ∈ names_of (fsd (wd s)) kd -> exists rest, getroot_loop nm kds s = getroot_loop nm (kd :: rest) s.
Proof.
  induction kds as [|k kds IH]; intros Hu Hkd Hn; [by apply not_elem_of_nil in Hkd|].
  destruct (decide (nm ∈ names_of (fsd (wd s)) k)) as [Hk|Hk].
  - apply list_elem_of_lookup in Hkd as [j Hj]. assert (0%nat = j) by (by eapply (Hu 0%nat j k kd)). subst j. injection Hj as ->. by exists kds.
  - rewrite getroot_skip by done. apply IH; [|by apply elem_of_cons in Hkd as [->|?]|done].
    intros i j k1 k2 n H1 H2 N1 N2. assert (Datatypes.S i = Datatypes.S j) by (by eapply Hu); lia.
Qed.

Lemma getroot_none nm kds s : (forall kd, kd ∈ kds -> nm ∉ names_of (fsd (wd s)) kd) -> getroot_loop nm kds s = Fail ENODEV s.
Proof.
  induction kds as [|k kds IH]; intros Hn; [done|]. rewrite getroot_skip by (apply Hn, list_elem_of_here). apply IH. intros. apply Hn. by right.
Qed.

(** What each name stands for, in the words of the comment on [struct knowndev]. *)
Record getroot_means s : Prop := {
  means_volume : forall kd f nm, kd ∈ knowndevs s -> mounted kd = Some f -> nm = kd_name kd \/ fsop_getvolname f (fsd (wd s)) = Some nm ->
    vfs_getroot nm s = on_world (fsop_getroot f) s;
  means_unmounted : forall kd, kd ∈ knowndevs s -> mounted kd = None -> is_Some (kd_rawname kd) -> vfs_getroot (kd_name kd) s = Fail ENXIO s;
  means_device : forall kd, kd ∈ knowndevs s -> mounted kd = None -> kd_rawname kd = None -> vfs_getroot (kd_name kd) s = give_device kd s;
  means_raw : forall kd nm, kd ∈ knowndevs s -> kd_rawname kd = Some nm -> vfs_getroot nm s = give_device kd s;
  means_nothing : forall nm, (forall kd, kd ∈ knowndevs s -> nm ∉ names_of (fsd (wd s)) kd) -> vfs_getroot nm s = Fail ENODEV s
}.

Lemma getroot_at nm kd s : vfs_biglock s = true -> names_ok (fsd (wd s)) (knowndevs s) -> kd ∈ knowndevs s -> nm ∈ names_of (fsd (wd s)) kd ->
  exists rest, vfs_getroot nm s = getroot_loop nm (kd :: rest) s.
Proof.
  intros Hl [Hu _] Hkd Hn. destruct (getroot_find nm kd (knowndevs s) s Hu Hkd Hn) as [rest E]. exists rest. rewrite <- E.
  unfold vfs_getroot, assert_held, vfs_biglock_do_i_hold. kunfold. by rewrite Hl.
Qed.

Lemma getroot_ok X U d s : vinv X U d s -> vfs_biglock s = true -> names_ok (fsd (wd s)) (knowndevs s) -> getroot_means s.
Proof.
  intros HI Hl Hn. pose proof (vi_kds _ _ _ _ HI) as Hk. rewrite Forall_forall in Hk. split.
  - intros kd f nm Hkd Hm Hnm. destruct (getroot_at nm kd s Hl Hn Hkd) as [rest ->].
    { apply elem_of_names. unfold volname_of. rewrite Hm. naive_solver. }
    cbn [getroot_loop]. unfold kbind at 1, kget at 1. rewrite Hm, samestring_spec. unfold streq.
    replace (_ || _) with true; [done|]. symmetry. apply orb_true_iff. rewrite !bool_decide_eq_true. naive_solver.
  - intros kd Hkd Hm Hr. destruct (getroot_at (kd_name kd) kd s Hl Hn Hkd) as [rest ->]; [apply elem_of_names; by left|].
    cbn [getroot_loop]. unfold kbind at 1, kget at 1. rewrite Hm. unfold streq. by rewrite (bool_decide_true (is_Some _)), (bool_decide_true (kd_name kd = _)).
  - intros kd Hkd Hm Hr. destruct (getroot_at (kd_name kd) kd s Hl Hn Hkd) as [rest ->]; [apply elem_of_names; by left|].
    cbn [getroot_loop]. unfold kbind at 1, kget at 1. destruct (mounted_None kd _ Hm Hr (Hk kd Hkd)) as [Hf Hd].
    rewrite Hm, Hr, Hf. unfold streq. rewrite (bool_decide_false (is_Some None)) by (by intros []). cbn [andb].
    rewrite (bool_decide_true (kd_name kd = _)), !(bool_decide_true (None = None)), (bool_decide_true (is_Some _)) by done. done.
  - intros kd nm Hkd Hr. destruct (getroot_at nm kd s Hl Hn Hkd) as [rest ->]; [apply elem_of_names; by right; left|].
    destruct (names_self _ _ Hn kd nm Hkd Hr) as [N1 N2]. unfold volname_of in N2.
    cbn [getroot_loop]. unfold kbind at 1, kget at 1. unfold streq. rewrite (bool_decide_false (kd_name kd = nm)), Hr, !samestring_spec by congruence.
    rewrite andb_false_r, (bool_decide_true (Some nm = Some nm)) by done. cbn [orb].
    rewrite (bool_decide_true (is_Some (kd_device kd))) by (apply (Hk kd Hkd); by rewrite Hr).
    destruct (mounted kd) as [f|]; [|done]. rewrite samestring_spec, bool_decide_false; done.
  - intros nm Hno. unfold vfs_getroot, assert_held, vfs_biglock_do_i_hold. kunfold. rewrite Hl. by apply getroot_none.
Qed.

(** ** Adding devices *)

(** A critical section, whatever is to be said of it. *)
Lemma locked_exact {A} X U d s (m : K S A) (Q : A -> S -> Prop) (E : Z -> S -> Prop) : vinv X U d s -> d < 2 ^ 32 - 1 ->
  wp m (set_biglock true (d + 1) s)
     (fun a s1 => (vfs_biglock s1 = true /\ vfs_biglock_depth s1 = d + 1) /\ Q a (set_biglock (0 <? d) d s1))
     (fun e s1 => (vfs_biglock s1 = true /\ vfs_biglock_depth s1 = d + 1) /\ E e (set_biglock (0 <? d) d s1)) ->
  wp (locked m) s Q E.
Proof.
  intros HI Hd Hm. pose proof (vi_pos _ _ _ _ HI) as H0. unfold locked. apply wp_bind. eapply acquire_wp; [done|done|].
  assert (Hr : forall s1 (R : unit -> S -> Prop) E', vfs_biglock s1 = true /\ vfs_biglock_depth s1 = d + 1 -> R tt (set_biglock (0 <? d) d s1) -> wp vfs_biglock_release s1 R E').
  { intros s1 R E' [H1 H2] HR. unfold wp, vfs_biglock_release, lock_release. kunfold. rewrite H1, H2, (proj2 (Z.ltb_lt 0 (d + 1))) by lia. cbn.
    replace (d + 1 - 1) with d by lia. destruct (Z.eqb_spec d 0) as [->|Hne]; [done|]. by rewrite (proj2 (Z.ltb_lt 0 d)) in HR by lia. }
  apply wp_bind, wp_attempt. eapply wp_conseq; [exact Hm|..]; intros r s1 [H1 HQ]; apply wp_bind, Hr; done.
Qed.

(** One of the names of a new device is taken. *)
Definition name_taken s (nm : name) (rawname : option name) : Prop :=
  exists kd n, (kd ∈ knowndevs s) /\ (n ∈ names_of (fsd (wd s)) kd) /\ (n = nm \/ rawname = Some n).

Lemma samestring3_spec a n1 n2 : samestring3 a (Some n1) n2 None = true <-> exists n, a = Some n /\ (n = n1 \/ n2 = Some n).
Proof.
  unfold samestring3. rewrite samestring_spec. destruct a as [a|]; [|naive_solver].
  destruct n2 as [n2|]; [rewrite samestring_spec|]; cbn [samestring]; rewrite !orb_true_iff, !bool_decide_eq_true; naive_solver.
Qed.

Lemma badnames_spec s nm rawname : existsb (badname (fsd (wd s)) (Some nm) rawname None) (knowndevs s) = true <-> name_taken s nm rawname.
Proof.
  unfold name_taken. rewrite existsb_exists. split.
  - intros (kd & Hin%list_elem_of_In & Hb). exists kd. unfold badname in Hb. rewrite !orb_true_iff, !samestring3_spec in Hb.
    destruct Hb as [[(n & ? & ?)|(n & ? & ?)]|(n & [= <-] & ?)]; eexists; (split; [done|]; split; [apply elem_of_names|done]); auto.
  - intros (kd & n & Hin & Hn & Ho). exists kd. split; [by apply list_elem_of_In|]. unfold badname. rewrite !orb_true_iff, !samestring3_spec.
    apply elem_of_names in Hn as [->|[Hn|Hn]]; [right|left; right|left; left]; eauto.
Qed.

Lemma names_ok_add s nm mountable dev v : names_ok (fsd (wd s)) (knowndevs s) ->
  ~ name_taken s nm (if mountable : bool then Some (nm ++ raw) else None) ->
  names_ok (fsd (wd s)) (knowndevs s ++ [mkkd nm (if mountable then Some (nm ++ raw) else None) dev v None]).
Proof.
  intros [Hd Hs] Hf. set (kd := mkkd nm _ _ _ _).
  assert (Hnew : forall n, n ∈ names_of (fsd (wd s)) kd -> forall k, k ∈ knowndevs s -> n ∉ names_of (fsd (wd s)) k).
  { intros n Hn k Hk Hn'. apply Hf. exists k, n. split_and!; [done|done|]. apply elem_of_names in Hn. cbn in Hn. naive_solver. }
  split.
  - intros i j k k' n Hi Hj Hn Hn'. apply lookup_app_Some in Hi as [Hi|[Li Hi]]; apply lookup_app_Some in Hj as [Hj|[Lj Hj]].
    + by eapply Hd.
    + apply list_lookup_singleton_Some in Hj as [_ <-]. apply list_elem_of_lookup_2 in Hi. by destruct (Hnew n Hn' k Hi).
    + apply list_lookup_singleton_Some in Hi as [_ <-]. apply list_elem_of_lookup_2 in Hj. by destruct (Hnew n Hn k' Hj).
    + apply list_lookup_singleton_Some in Hi as [Hi _]. apply list_lookup_singleton_Some in Hj as [Hj _]. lia.
  - intros k r [Hk| ->%list_elem_of_singleton]%elem_of_app Hr; [by apply Hs|]. cbn in Hr. destruct mountable; [|done]. injection Hr as <-. split; [|done].
    cbn. intros E. apply (f_equal length) in E. rewrite length_app in E. cbn in E. lia.
Qed.

(** The device has been added, as the last one. *)
Record added s (nm : name) (dev : Z) (mountable : bool) (s' : S) : Prop := {
  added_list : exists v, vnodes (wd s) !! v = None /\
    knowndevs s' = knowndevs s ++ [mkkd nm (if mountable then Some (nm ++ raw) else None) (Some dev) v None];
  added_fresh : ~ name_taken s nm (if mountable then Some (nm ++ raw) else None);
  added_names : names_ok (fsd (wd s')) (knowndevs s');
  added_number : exists dv, devices (wd s') !! dev = Some dv /\ d_devnumber dv = u32 (Z.of_nat (length (knowndevs s)) + 1)
}.

(** Nothing has happened to the list, the vnodes or the devices. *)
Definition not_added (s s' : S) : Prop := knowndevs s' = knowndevs s /\ wd s' = wd s.

Definition add_error s (nm : name) (mountable : bool) (e : Z) : Prop :=
  e = ENOMEM \/ (e = EEXIST /\ name_taken s nm (if mountable then Some (nm ++ raw) else None)).

Lemma doadd_vnode_exact s nm (mountable : bool) dev v n : vfs_biglock s = true -> vnodes (wd s) !! v = None -> is_Some (devices (wd s) !! dev) ->
  names_ok (fsd (wd s)) (knowndevs s) ->
  wp (doadd_vnode nm (if mountable then Some (nm ++ raw) else None) (Some dev) None v) (set_requests n (with_vnode v (Some dev) s))
     (fun _ s' => (vfs_biglock s' = true /\ vfs_biglock_depth s' = vfs_biglock_depth s) /\ added s nm dev mountable s')
     (fun e s' => (vfs_biglock s' = true /\ vfs_biglock_depth s' = vfs_biglock_depth s) /\ not_added s s' /\ add_error s nm mountable e).
Proof.
  intros Hl Hv [dv Hdv] Hn.
  assert (Hback : forall n e, add_error s nm mountable e -> wp (on_world (dev_uncreate_vnode v) ;;; kfail e) (set_requests n (with_vnode v (Some dev) s))
     (fun (_ : unit) s' => (vfs_biglock s' = true /\ vfs_biglock_depth s' = vfs_biglock_depth s) /\ added s nm dev mountable s')
     (fun e s' => (vfs_biglock s' = true /\ vfs_biglock_depth s' = vfs_biglock_depth s) /\ not_added s s' /\ add_error s nm mountable e)).
  { intros k e He. apply wp_bind, uncreate_wp; [done|]. by apply wp_fail. }
  apply wp_bind, wp_attempt, wp_bind, kmalloc_wp. intros b k. destruct b; cbn [negb]; [|apply wp_fail, Hback; by left].
  apply wp_bind, wp_get, wp_bind, wp_bind, assert_held_true; [done|]. apply wp_bind, wp_get, wp_ret.
  destruct (existsb _ _) eqn:Eb; [apply wp_fail, Hback; right; split; [done|]; by apply badnames_spec in Eb|].
  apply wp_bind, kmalloc_wp. intros b k'. destruct b; cbn [negb]; [|apply wp_fail, Hback; by left].
  apply wp_bind, wp_get, wp_bind, wp_put, wp_ret. unfold number_device. apply wp_bind, wp_get. cbn [wd set_knowndevs set_requests with_vnode set_wd devices set_vnodes knowndevs].
  rewrite Hdv. apply wp_put. split; [done|]. split.
  - by exists v.
  - intros Ht. apply badnames_spec in Ht. cbn in Eb. by rewrite Ht in Eb.
  - apply (names_ok_add s nm mountable (Some dev) v Hn). intros Ht. apply badnames_spec in Ht. cbn in Eb. by rewrite Ht in Eb.
  - eexists. cbn [wd set_wd set_devices devices]. by rewrite lookup_insert_eq.
Qed.

Lemma adddev_ok X U d s nm dev (mountable : bool) : vinv X U d s -> d < 2 ^ 32 - 1 -> is_Some (devices (wd s) !! dev) -> names_ok (fsd (wd s)) (knowndevs s) ->
  wp (vfs_adddev nm dev mountable) s (fun _ s' => added s nm dev mountable s') (fun e s' => not_added s s' /\ add_error s nm mountable e).
Proof.
  intros HI Hd Hdev Hn. apply (locked_exact X U d); [done|done|].
  set (s1 := set_biglock true (d + 1) s). assert (Hout : forall n, (vfs_biglock (set_requests n s1) = true /\ vfs_biglock_depth (set_requests n s1) = d + 1) /\
    not_added s (set_biglock (0 <? d) d (set_requests n s1)) /\ add_error s nm mountable ENOMEM) by (intros; split; [done|]; split; [done|by left]).
  apply wp_bind, kmalloc_wp. intros b n. destruct b; cbn [negb]; [|apply wp_fail, Hout].
  assert (Hv : forall n, wp (v <- new_dev_vnode (Some dev) ;; match v with None => kfail ENOMEM | Some v => doadd_vnode nm (if mountable then Some (nm ++ raw) else None) (Some dev) None v end) (set_requests n s1)
    (fun _ s' => (vfs_biglock s' = true /\ vfs_biglock_depth s' = d + 1) /\ added s nm dev mountable (set_biglock (0 <? d) d s'))
    (fun e s' => (vfs_biglock s' = true /\ vfs_biglock_depth s' = d + 1) /\ not_added s (set_biglock (0 <? d) d s') /\ add_error s nm mountable e)).
  { intros k. apply wp_bind, wp_bind, kmalloc_wp. intros b k'. apply wp_bind, wp_get, create_wp; [apply wp_fail, (Hout k')|].
    eapply wp_conseq; [apply (doadd_vnode_exact s1 nm mountable dev _ k'); [done| |done|done]|..].
    - apply not_elem_of_dom. apply is_fresh.
    - intros _ s' [Hs [A1 A2 A3 A4]]. split; [done|]. by split.
    - intros e s' [Hs [Ha He]]. done. }
  apply wp_bind. destruct mountable.
  - apply wp_bind, wp_bind, kmalloc_wp. intros b k. apply wp_ret. destruct b; [apply wp_ret; by apply Hv|apply wp_fail, (Hout k)].
  - apply wp_ret. by apply Hv.
Qed.

(** ** Mounting *)

(** The layer's list once the file system of entry [i] is [f]. *)
Definition list_with (f : option Z) (i : nat) kd s : list knowndev := <[i := set_kd_fs f kd]> (knowndevs s).

(** [devname] is the mountable device [kd], at index [i]. *)
Record is_device s (devname : name) (i : nat) kd : Prop := {
  dev_at : knowndevs s !! i = Some kd;
  dev_name : kd_name kd = devname;
  dev_mountable : is_Some (kd_rawname kd)
}.

Lemma alter_insert (l : list knowndev) i kd f : l !! i = Some kd -> alter (set_kd_fs f) i l = <[i := set_kd_fs f kd]> l.
Proof. intros Hi. apply list_eq. intros j. destruct (decide (i = j)) as [<-|Hne]; [|by rewrite list_lookup_alter_ne, list_lookup_insert_ne].
  rewrite list_lookup_alter_eq, Hi, list_lookup_insert_eq; [done|]. by eapply lookup_lt_Some. Qed.

(** [vfs_mount] succeeds when the device has no file system and the mount function gives
    one, which is then the device's. *)
Inductive mounts s devname (mf : option Z -> K (world D) (option Z)) : S -> Prop :=
| mounts_intro i kd f s' : is_device s devname i kd -> kd_fs kd = None -> mf (kd_device kd) (wd s) = Done (Some f) (wd s') ->
    knowndevs s' = list_with (Some f) i kd s -> bootfs_vnode s' = bootfs_vnode s -> p_cwd s' = p_cwd s -> mounts s devname mf s'.

(** What [vfs_mount] fails with, the list being the same as before. *)
Inductive mount_error s devname (mf : option Z -> K (world D) (option Z)) : Z -> world D -> Prop :=
| no_device : (forall kd, kd ∈ knowndevs s -> is_Some (kd_rawname kd) -> kd_name kd <> devname) -> mount_error s devname mf ENODEV (wd s)
| device_busy i kd : is_device s devname i kd -> is_Some (kd_fs kd) -> mount_error s devname mf EBUSY (wd s)
| mount_refused i kd e w' : is_device s devname i kd -> kd_fs kd = None -> mf (kd_device kd) (wd s) = Fail e w' -> mount_error s devname mf e w'.

Lemma mount_exact X U d s devname mf : vinv X U d s -> d < 2 ^ 32 - 1 -> mount_ok mf ->
  wp (vfs_mount devname mf) s (fun _ s' => mounts s devname mf s') (fun e s' => knowndevs s' = knowndevs s /\ mount_error s devname mf e (wd s')).
Proof.
  intros HI Hd Hmf. apply (locked_exact X U d); [done|done|]. set (s1 := set_biglock true (d + 1) s).
  apply wp_bind, findmount_wp; [done| |intros Hno; split; [done|]; split; [done|]; exact (no_device s devname mf Hno)].
  intros i kd Hi Hr Hnm. assert (His : is_device s devname i kd) by (by split).
  case_bool_decide as Hb; [apply wp_fail; split; [done|]; split; [done|]; exact (device_busy s devname mf i kd His Hb)|].
  assert (Hf : kd_fs kd = None) by (destruct (kd_fs kd); [by destruct Hb; eexists|done]).
  pose proof (vi_kds _ _ _ _ HI) as Hk. rewrite Forall_forall in Hk. apply list_elem_of_lookup_2 in Hi as Hin. destruct (Hk _ Hin) as [_ K2 K3 _ _].
  apply wp_bind. unfold assert_mountable. apply wp_bind, wp_assert; [by apply bool_decide_eq_true|]. apply wp_assert; [by apply bool_decide_eq_true, K3|].
  apply wp_bind. unfold wp at 1, on_world. change (wd s1) with (wd s). destruct (K3 Hr) as [p Hp].
  specialize (Hmf (kd_device kd) _ _ _ (vi_refs _ _ _ _ HI) ltac:(exists p; split; [done|by apply K2])).
  destruct (mf (kd_device kd) (wd s)) as [fs w'|e w'|h] eqn:Em; [| |done].
  - destruct Hmf as (f & -> & Hne & _). apply wp_bind, wp_assert; [by apply bool_decide_eq_true|].
    apply wp_bind, wp_assert; [apply negb_true_iff, bool_decide_eq_false; congruence|]. apply assign_fs_wp. split; [done|].
    apply (mounts_intro s devname mf i kd f); try done. cbn. by apply alter_insert.
  - split; [done|]. split; [done|]. exact (mount_refused s devname mf i kd e w' His Hf Em).
Qed.

(** The names of the other devices stay what they were. *)
Lemma names_of_stable but H w w' kd : stable but H w w' -> (forall f, mounted kd = Some f -> but <> Some f /\ fs_live f (fsd w) = true) ->
  names_of (fsd w') kd = names_of (fsd w) kd.
Proof.
  intros Hs Hm. unfold names_of, volname_of. destruct (mounted kd) as [f|] eqn:Ef; [|done]. destruct (Hm f eq_refl) as [Hb Hl].
  by rewrite (stable_vol _ _ _ _ Hs f Hb Hl).
Qed.

(** The device's name leads to the file system that is mounted on it, also if another
    name of the list should be the volume's: the entries before it do not have it. *)
Lemma mounted_getroot U d s devname mf s' : vinv [] U d s -> names_ok (fsd (wd s)) (knowndevs s) -> mount_ok mf -> mounts s devname mf s' ->
  exists f, devname ∈ kd_name <$> filter (fun kd => kd_fs kd = Some f) (knowndevs s') /\
    forall s'', wd s'' = wd s' -> knowndevs s'' = knowndevs s' -> vfs_biglock s'' = true -> vfs_getroot devname s'' = on_world (fsop_getroot f) s''.
Proof.
  intros HI Hn Hmf [i kd f s1 [Hi Hnm Hr] Hf Em Ek _ _]. exists f.
  pose proof (vi_kds _ _ _ _ HI) as Hk. rewrite Forall_forall in Hk. apply list_elem_of_lookup_2 in Hi as Hin. destruct (Hk _ Hin) as [_ K2 K3 _ _].
  destruct (K3 Hr) as [p Hp]. pose proof (Hmf (kd_device kd) _ _ _ (vi_refs _ _ _ _ HI) ltac:(exists p; split; [done|by apply K2])) as Hm. rewrite Em in Hm.
  destruct Hm as (? & [= <-] & Hsw & _ & _ & Hs & Hdead & Hlive). assert (Hlt : (i < length (knowndevs s))%nat) by (by eapply lookup_lt_Some).
  split.
  { apply list_elem_of_fmap. exists (set_kd_fs (Some f) kd). split; [done|]. apply list_elem_of_filter. split; [done|]. rewrite Ek. unfold list_with.
    apply list_elem_of_lookup. exists i. by rewrite list_lookup_insert_eq. }
  intros s'' Ew Ekd Hl. unfold vfs_getroot, assert_held, vfs_biglock_do_i_hold. kunfold. rewrite Hl. unfold kret. rewrite Ekd, Ek. unfold list_with.
  rewrite insert_take_drop by done.
  assert (Hskip : forall l, (forall k, k ∈ l -> exists j, (j < i)%nat /\ knowndevs s !! j = Some k) -> forall r, getroot_loop devname (l ++ r) s'' = getroot_loop devname r s'').
  { induction l as [|k l IH]; intros Hl' r; [done|]. cbn [app]. rewrite getroot_skip; [apply IH; intros; apply Hl'; by right|].
    destruct (Hl' k (list_elem_of_here _ _)) as (j & Hj & Hjk). rewrite Ew. rewrite (names_of_stable _ _ _ _ k Hs).
    - intros Hc. assert (j = i); [|lia]. eapply (names_disjoint _ _ Hn j i k kd devname); [done|done|done|]. apply elem_of_names. by left.
    - intros g Hg. split; [|by eapply mounted_live; [done|by eapply list_elem_of_lookup_2|done]].
      intros [= ->]. enough (fs_live g (fsd (wd s)) = true) by congruence. eapply mounted_live; [done|by eapply list_elem_of_lookup_2|done]. }
  rewrite Hskip.
  - cbn [getroot_loop]. unfold kbind at 1, kget at 1. unfold mounted. cbn [set_kd_fs kd_fs kd_name]. rewrite (proj2 (Z.eqb_neq f SWAP_FS)) by done.
    unfold streq. rewrite bool_decide_true by done. done.
  - intros k Hk'. apply list_elem_of_lookup in Hk' as [j Hj]. apply lookup_take_Some in Hj as [? ?]. eauto.
Qed.

(** ** The syntax of pathnames *)

(** Where a pathname starts: [path], [device:path], [/path], [:path]. *)
Inductive start := Cwd | Device (dev : name) | BootFs | CurrentFs.

(** The pathname, with [k] slashes in front of the rest. *)
Definition print (st : start) (k : nat) (sub : name) : name :=
  match st with
  | Cwd => sub
  | Device dev => dev ++ [COLON] ++ replicate k SLASH ++ sub
  | BootFs => [SLASH] ++ replicate k SLASH ++ sub
  | CurrentFs => [COLON] ++ replicate k SLASH ++ sub
  end.

(** A name without separators. *)
Definition plain (nm : name) : Prop := nm <> [] /\ forall c, c ∈ nm -> c <> COLON /\ c <> SLASH.

Definition no_slash (sub : name) : Prop := sub !! 0%nat <> Some SLASH.

(** A relative path begins with a component; the others have no slash left in front. *)
Definition valid (st : start) (k : nat) (sub : name) : Prop :=
  match st with
  | Cwd => k = 0%nat /\ exists a b, sub = a ++ b /\ plain a /\ (b = [] \/ b !! 0%nat = Some SLASH)
  | Device dev => plain dev /\ no_slash sub
  | BootFs | CurrentFs => no_slash sub
  end.

(** A new reference to a vnode that a variable of the kernel holds. *)
Definition reference (var : S -> option Z) : K S Z :=
  s <- kget ;;
  match var s with Some v => on_world (vnode_incref v) ;;; kret v | None => kfail ENOENT end.

(** The vnode the lookup starts from: the current directory of the process, the root of
    the file system on a device, the vnode that [vfs_setbootfs] recorded, the root of the
    file system that the current directory is on. *)
Definition start_at (st : start) : K S Z :=
  match st with
  | Cwd => reference p_cwd
  | Device dev => vfs_getroot dev
  | BootFs => reference bootfs_vnode
  | CurrentFs =>
      cwd <- reference p_cwd ;;
      x <- on_world (vn_get cwd) ;;
      match vn_fs x with
      | None => khalt KAssert
      | Some f =>
          r <- attempt (on_world (fsop_getroot f)) ;;
          on_world (vnode_decref cwd) ;;;
          match r with inl e => kfail e | inr v => kret v end
      end
  end.

(** [v] is the vnode of the place, and [s'] the state with one more reference to it. *)
Definition is_place (st : start) s (v : Z) s' : Prop :=
  match st with
  | Cwd => p_cwd s = Some v /\ vnode_incref v (wd s) = Done tt (wd s')
  | Device dev => vfs_getroot dev s = Done v s'
  | BootFs => bootfs_vnode s = Some v /\ vnode_incref v (wd s) = Done tt (wd s')
  | CurrentFs => exists cwd x f w1 w2, p_cwd s = Some cwd /\ vnode_incref cwd (wd s) = Done tt w1 /\
      vnodes w1 !! cwd = Some x /\ vn_fs x = Some f /\ fsop_getroot f w1 = Done v w2 /\
      vnode_decref cwd w2 = Done tt (wd s')
  end.

(** There is no such place, and this is the error. *)
Definition no_place (st : start) s (e : Z) : Prop :=
  match st with
  | Cwd => p_cwd s = None /\ e = ENOENT
  | Device dev => exists s', vfs_getroot dev s = Fail e s'
  | BootFs => bootfs_vnode s = None /\ e = ENOENT
  | CurrentFs => p_cwd s = None /\ e = ENOENT \/
      exists cwd x f w1 w2, p_cwd s = Some cwd /\ vnode_incref cwd (wd s) = Done tt w1 /\
      vnodes w1 !! cwd = Some x /\ vn_fs x = Some f /\ fsop_getroot f w1 = Fail e w2
  end.

Lemma start_slash path s : path !! 0%nat = Some SLASH -> start_vnode path s = start_at BootFs s.
Proof. intros H. unfold start_vnode. by rewrite bool_decide_true. Qed.

Lemma start_colon path s : path !! 0%nat = Some COLON -> start_vnode path s = start_at CurrentFs s.
Proof.
  intros H. unfold start_vnode. rewrite bool_decide_false by (by rewrite H). rewrite bool_decide_true by done.
  cbn [kassert start_at]. unfold reference, vfs_getcurdir, vn_fs_of, drop_and, VOP_INCREF, VOP_DECREF. kunfold.
  destruct (p_cwd s) as [v|]; [|done]. destruct (on_world (vnode_incref v) s) as [? s0| |]; [|done..].
  by destruct (on_world (vn_get v) s0).
Qed.

(** What [start_at] does, outcome by outcome. *)
Lemma start_at_means st s :
  match start_at st s with
  | Done v s' => is_place st s v s'
  | Fail e s' => no_place st s e
  | Halt _ => True
  end.
Proof.
  assert (Hinc : forall v (w : world D) e w', vnode_incref v w <> Fail e w').
  { intros v w e w'. unfold vnode_incref, vn_update, vn_get. kunfold. by destruct (vnodes w !! v). }
  assert (Hdec : forall v (w : world D) e w', vnode_decref v w <> Fail e w').
  { intros v w e w'. unfold vnode_decref, vn_update, vn_get. kunfold. by repeat case_match. }
  destruct st; cbn [start_at is_place no_place].
  - unfold reference, on_world. kunfold. destruct (p_cwd s) as [v|]; [|done].
    destruct (vnode_incref v (wd s)) as [[] w|e w|h] eqn:E; [done|by apply Hinc in E|done].
  - destruct (vfs_getroot dev s); eauto.
  - unfold reference, on_world. kunfold. destruct (bootfs_vnode s) as [v|]; [|done].
    destruct (vnode_incref v (wd s)) as [[] w|e w|h] eqn:E; [done|by apply Hinc in E|done].
  - unfold reference, on_world. kunfold. destruct (p_cwd s) as [v|] eqn:Ec; [|by left].
    destruct (vnode_incref v (wd s)) as [[] w1|e w|h] eqn:E1; [|by apply Hinc in E1|done].
    cbn [wd set_wd]. unfold vn_get. destruct (vnodes w1 !! v) as [x|] eqn:Ex; [|done].
    destruct (vn_fs x) as [f|] eqn:Ef; [|done]. cbn [wd set_wd].
    destruct (fsop_getroot f w1) as [r w2|e w2|h] eqn:E2; [| |done]; cbn [wd set_wd];
      (destruct (vnode_decref v w2) as [[] w3|e' w3|h] eqn:E3; [|by apply Hdec in E3|done]).
    + by exists v, x, f, w1, w2.
    + right. by exists v, x, f, w1, w2.
Qed.

Lemma find_sep_skip a b i : (forall c, c ∈ a -> c <> COLON /\ c <> SLASH) -> find_sep i (a ++ b) = find_sep (i + Z.of_nat (length a)) b.
Proof.
  revert i. induction a as [|c a IH]; intros i Ha; cbn [app find_sep length]; [f_equal; lia|].
  destruct (Ha c (list_elem_of_here _ _)) as [H1 H2]. rewrite (proj2 (Z.eqb_neq c COLON)), (proj2 (Z.eqb_neq c SLASH)) by done.
  rewrite IH by (intros; apply Ha; by right). f_equal. lia.
Qed.

Lemma skip_slashes_print k sub : no_slash sub -> skip_slashes (replicate k SLASH ++ sub) = sub.
Proof.
  intros Hs. induction k as [|k IH]; cbn; [|done]. unfold no_slash in Hs. destruct sub as [|c sub]; [done|]. cbn in *.
  rewrite (proj2 (Z.eqb_neq c SLASH)); [done|congruence].
Qed.

Lemma skip_slashes_split path : exists k, path = replicate k SLASH ++ skip_slashes path /\ no_slash (skip_slashes path).
Proof.
  unfold no_slash. induction path as [|c path IH]; [by exists 0%nat|]. cbn. destruct (Z.eqb_spec c SLASH) as [->|Hne].
  - destruct IH as (k & E & Hn). exists (Datatypes.S k). cbn. split; [by f_equal|done].
  - exists 0%nat. split; [done|]. cbn. congruence.
Qed.

Lemma plain_length a : plain a -> (0 < length a)%nat.
Proof. intros [H _]. destruct a; [done|cbn; lia]. Qed.

Lemma getdevice_print st k sub s : vfs_biglock s = true -> valid st k sub ->
  getdevice (print st k sub) s = (v <- start_at st ;; kret (sub, v)) s.
Proof.
  intros Hl Hv. assert (Hh : forall A (m : K S A), (assert_held ;;; m) s = m s).
  { intros A m. unfold assert_held, vfs_biglock_do_i_hold. kunfold. by rewrite Hl. }
  unfold getdevice. rewrite Hh. destruct st as [|dev| |]; cbn [print valid start_at] in *.
  - destruct Hv as (-> & a & b & -> & Ha & Hb). pose proof (plain_length a Ha). rewrite find_sep_skip by apply Ha. rewrite Z.add_0_l.
    destruct (a ++ b) as [|c p] eqn:E; [destruct a; [cbn in *; lia|discriminate E]|]. destruct Hb as [->|Hb]; [done|].
    destruct b as [|x b]; [done|]. injection Hb as ->. cbn [find_sep]. change (SLASH =? COLON) with false. change (SLASH =? SLASH) with true. cbn iota beta.
    replace (_ && _) with true; [done|]. symmetry. apply andb_true_iff. split; [done|]. apply negb_true_iff, Z.eqb_neq. lia.
  - destruct Hv as [Ha Hs]. pose proof (plain_length dev Ha). rewrite find_sep_skip by apply Ha. rewrite Z.add_0_l.
    cbn [app find_sep]. change (COLON =? COLON) with true. cbn iota beta. destruct (dev ++ _) as [|c p] eqn:E; [destruct dev; [cbn in *; lia|discriminate E]|]. rewrite <- E.
    rewrite (proj2 (Z.ltb_ge _ 0)), (proj2 (Z.ltb_lt 0 _)) by lia. cbn [andb]. rewrite Nat2Z.id, take_app_length.
    replace (Z.to_nat _) with (length dev + 1)%nat by lia. rewrite <- drop_drop, drop_app_length. change (drop 1 (COLON :: replicate k SLASH ++ sub)) with (replicate k SLASH ++ sub). by rewrite skip_slashes_print.
  - cbn [find_sep app]. change (SLASH =? COLON) with false. change (SLASH =? SLASH) with true. cbn iota beta. cbn [Z.ltb Z.eqb negb andb orb kassert].
    change ((v <- start_vnode (SLASH :: replicate k SLASH ++ sub) ;; kret (skip_slashes (replicate k SLASH ++ sub), v)) s =
      (v <- start_at BootFs ;; kret (sub, v)) s).
    unfold kbind. by rewrite start_slash, skip_slashes_print by done.
  - cbn [find_sep app]. change (COLON =? COLON) with true. cbn iota beta. cbn [Z.ltb Z.eqb negb andb orb kassert].
    change ((v <- start_vnode (COLON :: replicate k SLASH ++ sub) ;; kret (skip_slashes (replicate k SLASH ++ sub), v)) s =
      (v <- start_at CurrentFs ;; kret (sub, v)) s).
    unfold kbind. by rewrite start_colon, skip_slashes_print by done.
Qed.

Lemma span_sep path : exists a b, path = a ++ b /\ (forall c, c ∈ a -> c <> COLON /\ c <> SLASH) /\ (b = [] \/ b !! 0%nat = Some SLASH \/ b !! 0%nat = Some COLON).
Proof.
  induction path as [|c path (a & b & -> & Ha & Hb)]; [exists [], []; split_and!; [done|by intros ? ?%not_elem_of_nil|auto]|].
  destruct (decide (c = COLON)) as [->|Hc]; [exists [], (COLON :: a ++ b); split_and!; [done|by intros ? ?%not_elem_of_nil|auto]|].
  destruct (decide (c = SLASH)) as [->|Hs]; [exists [], (SLASH :: a ++ b); split_and!; [done|by intros ? ?%not_elem_of_nil|auto]|].
  exists (c :: a), b. split_and!; [done| |done]. intros x [->|Hx]%elem_of_cons; auto.
Qed.

Lemma every_path path : path <> [] -> exists st k sub, path = print st k sub /\ valid st k sub.
Proof.
  intros Hp. destruct (span_sep path) as (a & b & -> & Ha & Hb). destruct (decide (a = [])) as [->|Hne].
  - destruct b as [|c b]; [done|]. destruct (skip_slashes_split b) as (k & E & Hs).
    destruct Hb as [?|[[= ->]|[= ->]]]; [done|exists BootFs, k, (skip_slashes b)|exists CurrentFs, k, (skip_slashes b)]; cbn; by rewrite <- E.
  - destruct Hb as [Hb|[Hb|Hb]].
    + exists Cwd, 0%nat, (a ++ b). split; [done|]. split; [done|]. exists a, b. split; [done|]. split; [by split|by left].
    + exists Cwd, 0%nat, (a ++ b). split; [done|]. split; [done|]. exists a, b. split; [done|]. split; [by split|by right].
    + destruct b as [|c b]; [done|]. injection Hb as ->. destruct (skip_slashes_split b) as (k & E & Hs).
      exists (Device a), k, (skip_slashes b). cbn. rewrite <- E. split; [done|]. by split; [split|].
Qed.

End Names.

(** ** Theorems *)

Section Theorems.
Context {D : Type} {F : FileSystems D} {L : FsLaws D} {M : Kmem}.

(** While the names of devices and volumes are distinct, [vfs_getroot] does for every
    name what the comment on the device list says: the name of a device with a file
    system, or of its volume, gives the root of the file system; the name of a mountable
    device without one is ENXIO; the name of a device that cannot be mounted, or of a raw
    device, gives the device; any other name is ENODEV. *)
Theorem vfs_getroot_names (U : gmultiset Z) (d : Z) (s : vfs D) (HI : vinv [] U d s) (Hl : vfs_biglock s = true)
    (Hn : names_ok (fsd (wd s)) (knowndevs s)) : getroot_means s.
Proof. exact (getroot_ok [] U d s HI Hl Hn). Qed.

(** [vfs_adddev] either appends the device under its name (and its raw name, if it is
    mountable), with its index plus one as number and all names still distinct, or fails
    and leaves the list, the vnodes and the devices as they were: with EEXIST only when
    one of the names is taken, and otherwise for want of memory. *)
Theorem vfs_adddev_spec (U : gmultiset Z) (d : Z) (s : vfs D) (nm : name) (dev : Z) (mountable : bool) (HI : vinv [] U d s) (Hd : d < 2 ^ 32 - 1)
    (Hdev : is_Some (devices (wd s) !! dev)) (Hn : names_ok (fsd (wd s)) (knowndevs s)) :
  match vfs_adddev nm dev mountable s with
  | Done _ s' => added s nm dev mountable s'
  | Fail e s' => not_added s s' /\ add_error s nm mountable e
  | Halt _ => False
  end.
Proof.
  exact (adddev_ok [] U d s nm dev mountable HI Hd Hdev Hn).
Qed.

(** [vfs_mount] fails with ENODEV when no mountable device has the name, with EBUSY when
    the device has a file system or is used for swap, and with the error of the mount
    function when that fails; it then leaves the list as it was. When it succeeds, only
    the entry of the device has changed and its name leads to the root of the new file
    system. *)
Theorem vfs_mount_spec (U : gmultiset Z) (d : Z) (s : vfs D) (devname : name) (mf : option Z -> K (world D) (option Z)) (HI : vinv [] U d s)
    (Hd : d < 2 ^ 32 - 1) (Hn : names_ok (fsd (wd s)) (knowndevs s)) (Hm : mount_ok mf) :
  match vfs_mount devname mf s with
  | Done _ s' => mounts s devname mf s' /\
      exists f, devname ∈ kd_name <$> filter (fun kd => kd_fs kd = Some f) (knowndevs s') /\
        forall s'', wd s'' = wd s' -> knowndevs s'' = knowndevs s' -> vfs_biglock s'' = true -> vfs_getroot devname s'' = on_world (fsop_getroot f) s''
  | Fail e s' => knowndevs s' = knowndevs s /\ mount_error s devname mf e (wd s')
  | Halt _ => False
  end.
Proof.
  pose proof (mount_exact [] U d s devname mf HI Hd Hm) as Hw. unfold wp in Hw. destruct (vfs_mount devname mf s) as [[] s'|e s'|h]; [|done|done].
  split; [done|]. by apply (mounted_getroot U d s devname mf s').
Qed.

(** C12. A pathname that is not empty can be read in one of the four forms "path",
    "device:path", "/path" and ":path", with any number of slashes in front of the rest of
    the last three; [getdevice] returns that rest and the vnode of the place the form
    names, or the error of finding it: the current directory of the process (ENOENT if it
    has none); what [vfs_getroot] finds under the name of the device; the vnode recorded
    as that of the boot file system (ENOENT if there is none), with one more reference;
    or what [fsop_getroot] returns for the file system that the current directory is on,
    after which the reference to the current directory is given back. The empty pathname
    is EINVAL. *)
Theorem pathname_syntax (s : vfs D) (Hl : vfs_biglock s = true) :
  getdevice [] s = Fail EINVAL s /\
  (forall path, path <> [] -> exists st k sub, path = print st k sub /\ valid st k sub) /\
  (forall st k sub, valid st k sub -> getdevice (print st k sub) s = (v <- start_at st ;; kret (sub, v)) s) /\
  (forall st k sub, valid st k sub ->
     match getdevice (print st k sub) s with
     | Done (rest, v) s' => rest = sub /\ is_place st s v s'
     | Fail e s' => no_place st s e
     | Halt _ => True
     end).
Proof.
  split; [|split; [exact every_path|split; [intros; by apply getdevice_print|]]].
  2: { intros st k sub Hv. rewrite getdevice_print by done. pose proof (start_at_means st s) as H. kunfold.
       by destruct (start_at st s). }
  unfold getdevice, assert_held, vfs_biglock_do_i_hold. kunfold. by rewrite Hl.
Qed.

(** A name for the boot file system that has a colon, also at its end, is refused. *)
Theorem setbootfs_colon (U : gmultiset Z) (d : Z) (s : vfs D) (fsname : name) (HI : vinv [] U d s) (Hd : d < 2 ^ 32 - 1)
    (Hc : COLON ∈ snprintf_name fsname) : wp (vfs_setbootfs fsname) s (fun _ _ => False) (fun e s' => e = EINVAL /\ wd s' = wd s).
Proof.
  apply (locked_exact [] U d); [done|done|]. cbv zeta. apply wp_bind.
  assert (Hs : exists x l, strchr (snprintf_name fsname) COLON = Some (x :: l)).
  { induction (snprintf_name fsname) as [|c l IH]; [by apply not_elem_of_nil in Hc|]. cbn. destruct (Z.eqb_spec c COLON); [eauto|].
    apply IH. by apply elem_of_cons in Hc as [?|?]. }
  destruct Hs as (x & l & ->). apply wp_fail. done.
Qed.

End Theorems.

(** ** Examples *)

Definition held_demo (s : vfs bool) : vfs bool := set_biglock true 1 s.

Lemma held_demo_inv s : vinv [] ∅ 0 s -> vinv [] ∅ 1 (held_demo s).
Proof. intros HI. by apply (vinv_biglock [] ∅ 0 1 s HI). Qed.

(** Names of a list of two devices are told apart by looking at all pairs. *)
Lemma names_ok_two d k1 k2 : (forall nm, nm ∈ names_of (F := empty_fs) d k1 -> nm ∉ names_of d k2) ->
  Forall (fun kd => forall r, kd_rawname kd = Some r -> r <> kd_name kd /\ volname_of d kd <> Some r) [k1; k2] -> names_ok d [k1; k2].
Proof.
  intros Hd Hs. split.
  - intros [|[|i]] [|[|j]] kd kd' nm [= <-] [= <-] H1 H2; try done; exfalso; by eapply Hd.
  - intros kd r Hkd Hr. rewrite Forall_forall in Hs. by apply Hs.
Qed.

Lemma demo_vfs_names : names_ok (fsd (wd demo_vfs)) (knowndevs demo_vfs).
Proof.
  apply names_ok_two.
  - intros nm [->|[?|?]]%elem_of_names; [|done|done]. rewrite elem_of_names. cbn. intros [?|[?|?]]; discriminate.
  - apply Forall_cons_2; [done|apply Forall_singleton]. intros r [= <-]. split; discriminate.
Qed.

Lemma cold_names : names_ok (fsd (wd cold_vfs)) (knowndevs cold_vfs).
Proof.
  apply names_ok_two.
  - intros nm [->|[?|?]]%elem_of_names; [|done|done]. rewrite elem_of_names. cbn. intros [?|[?|?]]; discriminate.
  - apply Forall_cons_2; [done|apply Forall_singleton]. intros r [= <-]. split; discriminate.
Qed.

(** The volume "empty" on lhd0, and a disk that is not there. *)
Lemma vfs_getroot_names_witness :
  vfs_getroot empty_volname (held_demo demo_vfs) = on_world (fsop_getroot EMPTY_FS) (held_demo demo_vfs) /\
  vfs_getroot [122] (held_demo demo_vfs) = Fail ENODEV (held_demo demo_vfs).
Proof.
  pose proof (vfs_getroot_names ∅ 1 (held_demo demo_vfs) (held_demo_inv _ demo_inv) eq_refl demo_vfs_names) as [H1 _ _ _ H5]. split.
  - apply (H1 (mkkd lhd0_name (Some (lhd0_name ++ raw)) (Some 51) 501 (Some EMPTY_FS))); [by right; left|reflexivity|by right].
  - apply H5. intros kd [->|[->|?%not_elem_of_nil]%elem_of_cons]%elem_of_cons; [| |done]; rewrite elem_of_names; cbn; intros [?|[?|?]]; discriminate.
Defined.

(** A second disk is added; "lhd0raw" is taken. *)
Lemma vfs_adddev_spec_witness :
  match vfs_adddev [108; 104; 100; 49] 50 true demo_vfs with Done _ s' => added demo_vfs [108; 104; 100; 49] 50 true s' | _ => False end /\
  match vfs_adddev (lhd0_name ++ raw) 50 false demo_vfs with Fail e s' => e = EEXIST /\ not_added demo_vfs s' | _ => False end.
Proof.
  assert (Hdev : is_Some (devices (wd demo_vfs) !! 50)) by (by eexists).
  split.
  - pose proof (vfs_adddev_spec ∅ 0 demo_vfs [108; 104; 100; 49] 50 true demo_inv ltac:(lia) Hdev demo_vfs_names) as H.
    assert (E : result_of (vfs_adddev [108; 104; 100; 49] 50 true demo_vfs) = Some tt) by (vm_compute; reflexivity).
    destruct (vfs_adddev _ _ _ _); [exact H|discriminate E|exact H].
  - pose proof (vfs_adddev_spec ∅ 0 demo_vfs (lhd0_name ++ raw) 50 false demo_inv ltac:(lia) Hdev demo_vfs_names) as H.
    assert (E : match vfs_adddev (lhd0_name ++ raw) 50 false demo_vfs with Fail e _ => e | _ => 0 end = EEXIST) by (vm_compute; reflexivity).
    destruct (vfs_adddev _ _ _ _); [discriminate E| |exact H]. split; [exact E|exact (proj1 H)].
Defined.

(** The file system is mounted on the cold system's disk. *)
Lemma vfs_mount_spec_witness :
  match vfs_mount lhd0_name empty_mount cold_vfs with Done _ s' => mounts cold_vfs lhd0_name empty_mount s' | _ => False end.
Proof.
  pose proof (vfs_mount_spec ∅ 0 cold_vfs lhd0_name empty_mount cold_inv ltac:(lia) cold_names empty_mount_ok) as H.
  assert (E : result_of (vfs_mount lhd0_name empty_mount cold_vfs) = Some tt) by (vm_compute; reflexivity).
  destruct (vfs_mount _ _ _); [exact (proj1 H)|discriminate E|exact H].
Defined.

(** "lhd0://a" is the file "a" of the volume on lhd0. *)
Lemma pathname_syntax_witness :
  getdevice (lhd0_name ++ [COLON; SLASH; SLASH; 97]) (held_demo demo_vfs) = (v <- vfs_getroot lhd0_name ;; kret ([97], v)) (held_demo demo_vfs).
Proof.
  apply (proj1 (proj2 (proj2 (pathname_syntax (held_demo demo_vfs) eq_refl))) (Device lhd0_name) 2%nat [97]).
  split; [|discriminate]. split; [discriminate|]. intros c Hc. unfold lhd0_name in Hc. rewrite !elem_of_cons in Hc.
  destruct Hc as [->|[->|[->|[->|Hc]]]]; [split; discriminate..|by apply not_elem_of_nil in Hc].
Defined.

(** A name for the boot file system that ends in the colon that [vfs_setbootfs] asks for is
    refused; without the colon it is accepted. *)
Example setbootfs_refuses_colon :
  match vfs_setbootfs (lhd0_name ++ [COLON]) demo_vfs with Fail e _ => e | _ => 0 end = EINVAL /\
  result_of (vfs_setbootfs lhd0_name demo_vfs) = Some tt.
Proof. split; vm_compute; reflexivity. Qed.

(** Two disks; the volume on the first is called like the second. *)
Definition shadow_vfs : vfs bool :=
  mkvfs demo_world [mkkd lhd0_name (Some (lhd0_name ++ raw)) (Some 50) 500 (Some EMPTY_FS);
                    mkkd empty_volname (Some (empty_volname ++ raw)) (Some 51) 501 None] None None false 0 0.

(** The second disk has no file system, but its name gives the root of the first one's
    volume instead of ENXIO: [vfs_mount] does not look whether the volume's name is taken. *)
Example volume_shadows_device :
  result_of (locked (vfs_getroot empty_volname) shadow_vfs) = Some ROOT_VN.
Proof. vm_compute. reflexivity. Qed.

(** A write to the null device consumes the data and does not move the offset. *)
Example null_write_offset :
  (fun u => (uio_offset u, uio_resid u)) <$> result_of (nullio (D := bool) 50 (uio_kinit [1; 2; 3] 3 0 UIO_WRITE) demo_world) = Some (0, 0).
Proof. vm_compute. reflexivity. Qed.
