(* ===== verification/SemFs.v ===== *)
(** * The semaphore file system

    kern/fs/semfs: a file system whose files are semaphores, attached at boot as "sem:".
    Its operations on vnodes and directory entries as they run under its two locks, one
    at a time; reading and writing a semaphore, which sleep, are in SemPV.v.

    The state keeps the table of vnodes, the number each vnode carries in its [vn_data],
    the table of semaphores and the directory; an entry that is [None] is NULL. *)

From stdpp Require Import base numbers functions list gmap gmultiset.
From Stdlib Require Import ZArith Lia.
From S2P Require Import Prelude SfsDisk Vnode VfsList VfsLookup.

Open Scope Z_scope.
Open Scope k_scope.

(** kern/fs/semfs/semfs.h:45. *)
Definition SEMFS_ROOTDIR : Z := 2 ^ 32 - 1.

Definition S_IFREG : Z := 4096.

(** kern/fs/semfs/semfs.h:54-60 (struct semfs_sem); the lock and the condition variable
    are in SemPV.v. *)
Record semfs_sem := mksem { sems_count : Z; sems_hasvnode : bool; sems_linked : bool }.

Definition set_count n x := mksem n (sems_hasvnode x) (sems_linked x).
Definition set_hasvnode b x := mksem (sems_count x) b (sems_linked x).
Definition set_linked b x := mksem (sems_count x) (sems_hasvnode x) b.

(** kern/fs/semfs/semfs.h:66-69 (struct semfs_direntry). *)
Record semfs_direntry := mkdent { semd_name : name; semd_semnum : Z }.

(** kern/fs/semfs/semfs.h:90-99 (struct semfs), with the numbers of the vnodes
    ([semv_semnum]) and the count of requests for memory. *)
Record semfs := mksemfs {
  semfs_vnodes : list Z;
  semv_semnum : gmap Z Z;
  semfs_sems : list (option semfs_sem);
  semfs_dents : list (option semfs_direntry);
  semfs_there : bool;
  semfs_reqs : nat
}.

Definition set_semfs_vnodes x s := mksemfs x (semv_semnum s) (semfs_sems s) (semfs_dents s) (semfs_there s) (semfs_reqs s).
Definition set_semnums x s := mksemfs (semfs_vnodes s) x (semfs_sems s) (semfs_dents s) (semfs_there s) (semfs_reqs s).
Definition set_sems x s := mksemfs (semfs_vnodes s) (semv_semnum s) x (semfs_dents s) (semfs_there s) (semfs_reqs s).
Definition set_dents x s := mksemfs (semfs_vnodes s) (semv_semnum s) (semfs_sems s) x (semfs_there s) (semfs_reqs s).
Definition set_there x s := mksemfs (semfs_vnodes s) (semv_semnum s) (semfs_sems s) (semfs_dents s) x (semfs_reqs s).
Definition set_reqs x s := mksemfs (semfs_vnodes s) (semv_semnum s) (semfs_sems s) (semfs_dents s) (semfs_there s) x.

(** The address of the one struct fs of the semaphore file system. *)
Definition SEMFS : Z := 64.

(** ** The invariant *)

(** The semaphore with number [k]. *)
Definition sem_at (d : semfs) (k : Z) : option semfs_sem :=
  if k <? 0 then None else match semfs_sems d !! Z.to_nat k with Some x => x | None => None end.

Definition dent_at (d : semfs) (i : nat) : option semfs_direntry :=
  match semfs_dents d !! i with Some e => e | None => None end.

(** The table of vnodes holds the vnodes in memory, one for the root and one for every
    semaphore that is marked. *)
Record vn_ok (w : world semfs) : Prop := {
  vk_fs : forall v f, on_fs w v f -> f = SEMFS;
  vk_vn : forall v, v ∈ semfs_vnodes (fsd w) <-> on_fs w v SEMFS;
  vk_dup : NoDup (semfs_vnodes (fsd w));
  vk_dom : forall v k, semv_semnum (fsd w) !! v = Some k -> v ∈ semfs_vnodes (fsd w);
  vk_num : forall v, v ∈ semfs_vnodes (fsd w) -> exists k, semv_semnum (fsd w) !! v = Some k /\
             (k = SEMFS_ROOTDIR \/ exists x, sem_at (fsd w) k = Some x /\ sems_hasvnode x = true);
  vk_inj : forall v v' k, semv_semnum (fsd w) !! v = Some k -> semv_semnum (fsd w) !! v' = Some k -> v = v';
  vk_has : forall k x, sem_at (fsd w) k = Some x -> sems_hasvnode x = true -> exists v, semv_semnum (fsd w) !! v = Some k
}.

(** Every entry of the directory is a semaphore of its own, with a name of its own; a
    semaphore that is neither in the directory nor open is gone. *)
Record dir_ok (d : semfs) : Prop := {
  dk_dent : forall i e, dent_at d i = Some e -> exists x, sem_at d (semd_semnum e) = Some x /\ sems_linked x = true;
  dk_num : forall i j e e', dent_at d i = Some e -> dent_at d j = Some e' -> semd_semnum e = semd_semnum e' -> i = j;
  dk_name : forall i j e e', dent_at d i = Some e -> dent_at d j = Some e' -> semd_name e = semd_name e' -> i = j;
  dk_link : forall k x, sem_at d k = Some x -> sems_linked x = true -> exists i e, dent_at d i = Some e /\ semd_semnum e = k;
  dk_used : forall k x, sem_at d k = Some x -> sems_hasvnode x = true \/ sems_linked x = true;
  dk_len : Z.of_nat (length (semfs_sems d)) <= SEMFS_ROOTDIR
}.

Definition sem_ok (w : world semfs) : Prop := vn_ok w /\ dir_ok (fsd w).

Section SemFs.
Context {M : Kmem}.
Local Abbreviation W := (world semfs).

Definition get_fs : K W semfs := w <- kget ;; kret (fsd w).
Definition mod_fs (f : semfs -> semfs) : K W unit := kmodify (fun w => mkworld (vnodes w) (devices w) (unreclaimed w) (f (fsd w))).

Definition sem_kmalloc : K W bool :=
  d <- get_fs ;;
  mod_fs (set_reqs (S (semfs_reqs d))) ;;;
  kret (granted (semfs_reqs d)).

(** [n] requests in a row, given up at the first that fails. *)
Fixpoint pieces (n : nat) : K W bool :=
  match n with
  | O => kret true
  | S n' => ok <- sem_kmalloc ;; if ok : bool then pieces n' else kret false
  end.

(** ** Objects, kern/fs/semfs/semfs_obj.c *)

(** kern/fs/semfs/semfs_obj.c:43-76 (semfs_sem_create): memory for the structure, its lock
    (three pieces, see [lock_create]) and its condition variable (three pieces). *)
Definition semfs_sem_create : K W (option semfs_sem) :=
  ok <- pieces 7 ;;
  kret (if ok : bool then Some (mksem 0 false false) else None).

(** kern/fs/semfs/semfs_obj.c:103-109 (semfs_sem_insert): the first free place; [i] is the
    index of the first element of [l]. *)
Fixpoint free_slot (i : nat) (l : list (option semfs_sem)) : option nat :=
  match l with
  | [] => None
  | None :: _ => Some i
  | Some _ :: l' => free_slot (S i) l'
  end.

(** kern/fs/semfs/semfs_obj.c:92-111 (semfs_sem_insert). *)
Definition semfs_sem_insert (x : semfs_sem) : K W Z :=
  d <- get_fs ;;
  let num := Z.of_nat (length (semfs_sems d)) in
  if num =? SEMFS_ROOTDIR then kfail ENOSPC else
  match free_slot 0 (semfs_sems d) with
  | Some i => mod_fs (fun d => set_sems (<[i := Some x]> (semfs_sems d)) d) ;;; kret (Z.of_nat i)
  | None =>
      ok <- sem_kmalloc ;;
      if negb ok then kfail ENOMEM else
      mod_fs (fun d => set_sems (semfs_sems d ++ [Some x]) d) ;;; kret num
  end.

(** kern/fs/semfs/semfs_obj.c:119-135 (semfs_direntry_create). *)
Definition semfs_direntry_create (nm : name) (semnum : Z) : K W (option semfs_direntry) :=
  ok <- sem_kmalloc ;;
  if negb ok then kret None else
  ok <- sem_kmalloc ;;
  if negb ok then kret None else
  kret (Some (mkdent nm semnum)).

(** [semfs_semarray_set]; an index out of range fails the assertion of array.h. *)
Definition sems_set (k : Z) (x : option semfs_sem) : K W unit :=
  d <- get_fs ;;
  kassert (bool_decide (0 <= k < Z.of_nat (length (semfs_sems d)))) ;;;
  mod_fs (fun d => set_sems (<[Z.to_nat k := x]> (semfs_sems d)) d).

Definition dents_set (i : nat) (x : option semfs_direntry) : K W unit :=
  d <- get_fs ;;
  kassert (bool_decide (i < length (semfs_dents d))%nat) ;;;
  mod_fs (fun d => set_dents (<[i := x]> (semfs_dents d)) d).

(** ** Vnodes, kern/fs/semfs/semfs_vnops.c *)

(** [vn->vn_data], the number of the semaphore. *)
Definition semnum_of (v : Z) : K W Z :=
  d <- get_fs ;;
  match semv_semnum d !! v with Some k => kret k | None => khalt UseAfterFree end.

(** kern/fs/semfs/semfs_vnops.c:47-63 (semfs_eachopen). *)
Definition semfs_eachopen (v openflags : Z) : K W unit :=
  k <- semnum_of v ;;
  if k =? SEMFS_ROOTDIR then
    if negb (Z.land openflags O_ACCMODE =? O_RDONLY) then kfail EISDIR
    else if negb (Z.land openflags O_APPEND =? 0) then kfail EISDIR
    else kret tt
  else kret tt.

(** kern/fs/semfs/semfs_vnops.c:65-73 (semfs_ioctl). *)
Definition semfs_ioctl (v op data : Z) : K W unit := kfail EINVAL.

(** kern/fs/semfs/semfs_vnops.c:75-83 (semfs_gettype). *)
Definition semfs_gettype (v : Z) : K W Z :=
  k <- semnum_of v ;; kret (if k =? SEMFS_ROOTDIR then S_IFDIR else S_IFREG).

(** kern/fs/semfs/semfs_vnops.c:85-96 (semfs_isseekable). *)
Definition semfs_isseekable (v : Z) : K W bool :=
  k <- semnum_of v ;; kret (k =? SEMFS_ROOTDIR).

(** kern/fs/semfs/semfs_vnops.c:98-104 (semfs_fsync). *)
Definition semfs_fsync (v : Z) : K W unit := kret tt.

(** kern/fs/semfs/semfs_vnops.c:113-124 (semfs_getsembynum); a NULL that is returned is
    dereferenced by every caller. *)
Definition semfs_getsembynum (k : Z) : K W semfs_sem :=
  d <- get_fs ;;
  kassert (bool_decide (0 <= k < Z.of_nat (length (semfs_sems d)))) ;;;
  match semfs_sems d !! Z.to_nat k with
  | Some (Some x) => kret x
  | _ => khalt NullDeref
  end.

(** kern/fs/semfs/semfs_vnops.c:126-133 (semfs_getsem). *)
Definition semfs_getsem (v : Z) : K W semfs_sem := k <- semnum_of v ;; semfs_getsembynum k.

(** kern/fs/semfs/semfs_vnops.c:159-181 (semfs_semstat); the number is [st_ino]. *)
Definition semfs_semstat (v : Z) : K W (stat * Z) :=
  k <- semnum_of v ;;
  x <- semfs_getsem v ;;
  kret (mkstat (sems_count x) (Z.lor S_IFREG 438) (if sems_linked x then 1 else 0) 0 0 0 0, k).

(** kern/fs/semfs/semfs_vnops.c:265-292 (semfs_truncate); who is woken is in SemPV.v. *)
Definition semfs_truncate (v len : Z) : K W unit :=
  if len <? 0 then kfail EINVAL else
  if 2 ^ 32 - 1 <? len then kfail EFBIG else
  k <- semnum_of v ;;
  x <- semfs_getsem v ;;
  sems_set k (Some (set_count len x)).

(** kern/fs/semfs/semfs_vnops.c:301-329 (semfs_getdirentry). *)
Definition semfs_getdirentry (v : Z) (u : uio) : K W uio :=
  kassert (0 <=? uio_offset u) ;;;
  d <- get_fs ;;
  let pos := u32 (uio_offset u) in
  if Z.of_nat (length (semfs_dents d)) <=? pos then kret u else
  match semfs_dents d !! Z.to_nat pos with
  | Some (Some e) => r <- uiomove (semd_name e) (Z.of_nat (length (semd_name e))) u ;; kret (snd r)
  | _ => khalt NullDeref
  end.

(** kern/fs/semfs/semfs_vnops.c:334-354 (semfs_dirstat); the mode is written in decimal. *)
Definition semfs_dirstat (v : Z) : K W (stat * Z) :=
  d <- get_fs ;;
  kret (mkstat (Z.of_nat (length (semfs_dents d))) (Z.lor S_IFDIR 1777) 2 0 0 0 0, SEMFS_ROOTDIR).

(** kern/fs/semfs/semfs_vnops.c:360-367 (semfs_namefile). *)
Definition semfs_namefile (v : Z) (u : uio) : K W uio := kret u.

(** kern/fs/semfs/semfs_vnops.c:583-589 (semfs_vnode_destroy). *)
Definition semfs_vnode_destroy (v : Z) : K W unit :=
  vnode_cleanup v ;;; mod_fs (fun d => set_semnums (delete v (semv_semnum d)) d).

(** kern/fs/semfs/semfs_vnops.c:717-746 (semfs_vnode_create), at an address not in use. *)
Definition semfs_vnode_create (semnum : Z) : K W (option Z) :=
  ok <- sem_kmalloc ;;
  if negb ok then kret None else
  w <- kget ;;
  let v := fresh (dom (vnodes w)) in
  kput (set_vnodes (<[v := vnode_init fs_vnode_ops (Some SEMFS) (Some v)]> (vnodes w)) w) ;;;
  mod_fs (fun d => set_semnums (<[v := semnum]> (semv_semnum d)) d) ;;;
  kret (Some v).

(** kern/fs/semfs/semfs_vnops.c:764-775 (semfs_getvnode): the vnode of the table that has
    the number. *)
Fixpoint find_vnode (semnum : Z) (l : list Z) : K W (option Z) :=
  match l with
  | [] => kret None
  | v :: l' => k <- semnum_of v ;; if k =? semnum then kret (Some v) else find_vnode semnum l'
  end.

(** kern/fs/semfs/semfs_vnops.c:789-794 (semfs_getvnode): the semaphore has a vnode now. *)
Definition mark_vnode (semnum : Z) : K W unit :=
  if semnum =? SEMFS_ROOTDIR then kret tt else
  x <- semfs_getsembynum semnum ;;
  kassert (negb (sems_hasvnode x)) ;;;
  sems_set semnum (Some (set_hasvnode true x)).

(** kern/fs/semfs/semfs_vnops.c:752-799 (semfs_getvnode). *)
Definition semfs_getvnode (semnum : Z) : K W Z :=
  d <- get_fs ;;
  r <- find_vnode semnum (semfs_vnodes d) ;;
  match r with
  | Some v => vnode_incref v ;;; kret v
  | None =>
      r <- semfs_vnode_create semnum ;;
      match r with
      | None => kfail ENOMEM
      | Some v =>
          ok <- sem_kmalloc ;;
          if negb ok then semfs_vnode_destroy v ;;; kfail ENOMEM else
          mod_fs (fun d => set_semfs_vnodes (semfs_vnodes d ++ [v]) d) ;;;
          mark_vnode semnum ;;;
          kret v
      end
  end.

(** kern/fs/semfs/semfs_vnops.c:629-638 (semfs_reclaim): the semaphore has lost its vnode,
    and goes away if it has no name. *)
Definition unmark_vnode (semnum : Z) : K W unit :=
  if semnum =? SEMFS_ROOTDIR then kret tt else
  x <- semfs_getsembynum semnum ;;
  kassert (sems_hasvnode x) ;;;
  sems_set semnum (if sems_linked x then Some (set_hasvnode false x) else None).

(** kern/fs/semfs/semfs_vnops.c:619-627 (semfs_reclaim): the vnode leaves the table. *)
Fixpoint remove_vnode (v : Z) (l : list Z) : list Z :=
  match l with
  | [] => []
  | u :: l' => if u =? v then l' else u :: remove_vnode v l'
  end.

(** kern/fs/semfs/semfs_vnops.c:594-646 (semfs_reclaim). *)
Definition semfs_reclaim (v : Z) : K W unit :=
  k <- semnum_of v ;;
  x <- vn_get v ;;
  if 1 <? vn_refcount x then
    vn_update v (fun x => set_refcount (vn_refcount x - 1) x) ;;; kfail EBUSY
  else
    mod_fs (fun d => set_semfs_vnodes (remove_vnode v (semfs_vnodes d)) d) ;;;
    unmark_vnode k ;;;
    semfs_vnode_destroy v.

(** ** The directory *)

(** "." and ".." *)
Definition is_dot (nm : name) : bool := bool_decide (nm = [46]) || bool_decide (nm = [46; 46]).

(** kern/fs/semfs/semfs_vnops.c:486-493, 541-547 (semfs_remove, semfs_lookup): the first
    entry with the name; [i] is the index of the first element of [l]. *)
Fixpoint find_dent (i : nat) (nm : name) (l : list (option semfs_direntry)) : option (nat * Z) :=
  match l with
  | [] => None
  | Some e :: l' => if bool_decide (semd_name e = nm) then Some (i, semd_semnum e) else find_dent (S i) nm l'
  | None :: l' => find_dent (S i) nm l'
  end.

(** kern/fs/semfs/semfs_vnops.c:391-398 (semfs_creat): the first entry that is not used. *)
Fixpoint empty_dent (i : nat) (l : list (option semfs_direntry)) : option nat :=
  match l with
  | [] => None
  | None :: _ => Some i
  | Some _ :: l' => empty_dent (S i) l'
  end.

(** kern/fs/semfs/semfs_vnops.c:431-440 (semfs_creat): the entry is put into the directory. *)
Definition enter_dent (empty : option nat) (e : semfs_direntry) : K W nat :=
  match empty with
  | Some i => dents_set i (Some e) ;;; kret i
  | None =>
      ok <- sem_kmalloc ;;
      if negb ok then kfail ENOMEM else
      d <- get_fs ;;
      mod_fs (fun d => set_dents (semfs_dents d ++ [Some e]) d) ;;;
      kret (length (semfs_dents d))
  end.

(** kern/fs/semfs/semfs_vnops.c:431-464 (semfs_creat): entering the name of the new
    semaphore and getting its vnode, or undoing it all. *)
Definition creat_enter (empty : option nat) (e : semfs_direntry) (semnum : Z) : K W Z :=
  r <- attempt (enter_dent empty e) ;;
  match r with
  | inl err => sems_set semnum None ;;; kfail err
  | inr i =>
      r <- attempt (semfs_getvnode semnum) ;;
      match r with
      | inl err => dents_set i None ;;; sems_set semnum None ;;; kfail err
      | inr v =>
          x <- semfs_getsembynum semnum ;;
          sems_set semnum (Some (set_linked true x)) ;;;
          kret v
      end
  end.

(** kern/fs/semfs/semfs_vnops.c:372-464 (semfs_creat). Without memory for the directory
    entry the function returns the 0 it has from [semfs_sem_insert], and no vnode. *)
Definition semfs_creat (dirvn : Z) (nm : name) (excl : bool) (mode : Z) : K W (option Z) :=
  if is_dot nm then kfail EEXIST else
  d <- get_fs ;;
  match find_dent 0 nm (semfs_dents d) with
  | Some (_, k) => if excl then kfail EEXIST else v <- semfs_getvnode k ;; kret (Some v)
  | None =>
      x <- semfs_sem_create ;;
      match x with
      | None => kfail ENOMEM
      | Some x =>
          semnum <- semfs_sem_insert x ;;
          e <- semfs_direntry_create nm semnum ;;
          match e with
          | None => sems_set semnum None ;;; kret None
          | Some e => v <- creat_enter (empty_dent 0 (semfs_dents d)) e semnum ;; kret (Some v)
          end
      end
  end.

(** kern/fs/semfs/semfs_vnops.c:470-519 (semfs_remove). *)
Definition semfs_remove (dirvn : Z) (nm : name) : K W unit :=
  if is_dot nm then kfail EINVAL else
  d <- get_fs ;;
  match find_dent 0 nm (semfs_dents d) with
  | None => kfail ENOENT
  | Some (i, k) =>
      x <- semfs_getsembynum k ;;
      kassert (sems_linked x) ;;;
      sems_set k (if sems_hasvnode x then Some (set_linked false x) else None) ;;;
      dents_set i None
  end.

(** kern/fs/semfs/semfs_vnops.c:524-556 (semfs_lookup). *)
Definition semfs_lookup (dirvn : Z) (path : name) : K W Z :=
  if is_dot path then vnode_incref dirvn ;;; kret dirvn else
  d <- get_fs ;;
  match find_dent 0 path (semfs_dents d) with
  | None => kfail ENOENT
  | Some (_, k) => semfs_getvnode k
  end.

(** kern/fs/semfs/semfs_vnops.c:562-575 (semfs_lookparent). *)
Definition semfs_lookparent (dirvn : Z) (path : name) (bufmax : Z) : K W (Z * name) :=
  if bufmax <? Z.of_nat (length path) + 1 then kfail ENAMETOOLONG else
  vnode_incref dirvn ;;; kret (dirvn, path).

(** ** The file system, kern/fs/semfs/semfs_fsops.c *)

(** kern/fs/semfs/semfs_fsops.c:45-51 (semfs_sync). *)
Definition semfs_sync (f : Z) : K W unit := kret tt.

(** "sem" *)
Definition sem_name : name := [115; 101; 109].

(** kern/fs/semfs/semfs_fsops.c:56-62 (semfs_getvolname). *)
Definition semfs_getvolname (f : Z) (d : semfs) : option name := Some sem_name.

(** kern/fs/semfs/semfs_fsops.c:67-83 (semfs_getroot). *)
Definition semfs_getroot (f : Z) : K W Z := semfs_getvnode SEMFS_ROOTDIR.

(** kern/fs/semfs/semfs_fsops.c:92-120 (semfs_destroy); the loops pass every element to a
    function that dereferences it. *)
Definition semfs_destroy : K W unit :=
  d <- get_fs ;;
  if forallb (fun x => bool_decide (is_Some x)) (semfs_sems d) && forallb (fun x => bool_decide (is_Some x)) (semfs_dents d)
  then mod_fs (fun d => set_there false (set_dents [] (set_sems [] d)))
  else khalt NullDeref.

(** kern/fs/semfs/semfs_fsops.c:126-142 (semfs_unmount). *)
Definition semfs_unmount (f : Z) : K W unit :=
  d <- get_fs ;;
  if (0 <? length (semfs_vnodes d))%nat then kfail EBUSY else semfs_destroy.

(** kern/fs/semfs/semfs_fsops.c:157-206 (semfs_create): the structure, two locks and three
    arrays. *)
Definition semfs_create : K W bool :=
  ok <- pieces 10 ;;
  if negb ok then kret false else
  mod_fs (fun d => mksemfs [] (semv_semnum d) [] [] true (semfs_reqs d)) ;;; kret true.

(** The operation of the table that [semfs_vnode_create] has chosen by the number. *)
Definition sem_op {A} (v : Z) (dir file : K W A) : K W A :=
  k <- semnum_of v ;; if k =? SEMFS_ROOTDIR then dir else file.

End SemFs.

(** kern/fs/semfs/semfs_vnops.c:651-712 (semfs_dirops) and [semfs_semops], the tables of
    operations, with that of the file system (semfs_fsops.c:147-152). There are no
    drivers with this file system. *)
Definition semfs_ops {M : Kmem} : FileSystems semfs := {|
  fsop_sync := semfs_sync;
  fsop_getvolname := semfs_getvolname;
  fsop_getroot := semfs_getroot;
  fsop_unmount := semfs_unmount;
  fs_eachopen := semfs_eachopen;
  fs_reclaim := semfs_reclaim;
  fs_readlink v u := sem_op v (vopfail_uio_isdir v u) (vopfail_uio_inval v u);
  fs_gettype := semfs_gettype;
  fs_truncate v len := sem_op v (kfail EISDIR) (semfs_truncate v len);
  fs_namefile v u := sem_op v (semfs_namefile v u) (vopfail_uio_notdir v u);
  fs_creat v nm excl mode := sem_op v (semfs_creat v nm excl mode) (vopfail_creat_notdir v nm excl mode);
  fs_symlink v contents nm := sem_op v (kfail ENOSYS) (vopfail_symlink_notdir v contents nm);
  fs_mkdir v nm mode := sem_op v (kfail ENOSYS) (vopfail_mkdir_notdir v nm mode);
  fs_link v nm file := sem_op v (kfail ENOSYS) (vopfail_link_notdir v nm file);
  fs_remove v nm := sem_op v (semfs_remove v nm) (vopfail_string_notdir v nm);
  fs_rmdir v nm := sem_op v (kfail ENOSYS) (vopfail_string_notdir v nm);
  fs_rename v n1 v2 n2 := sem_op v (kfail ENOSYS) (vopfail_rename_notdir v n1 v2 n2);
  fs_lookup v path := sem_op v (semfs_lookup v path) (kfail ENOTDIR);
  fs_lookparent v path len := sem_op v (semfs_lookparent v path len) (vopfail_lookparent_notdir v path len);
  drv_eachopen _ _ := kret tt;
  drv_io _ u := kret u;
  drv_ioctl _ _ _ := kfail EINVAL;
  fs_live f d := (f =? SEMFS) && semfs_there d;
  fs_removable _ := false;
  fs_ok := sem_ok
|}.
#[global] Existing Instance semfs_ops.

(** kern/fs/semfs/semfs_fsops.c:212-226 (semfs_bootstrap). *)
Definition semfs_bootstrap {M : Kmem} : K (vfs semfs) unit :=
  ok <- on_world semfs_create ;;
  if negb ok then khalt PanicCall else
  r <- attempt (vfs_addfs sem_name SEMFS) ;;
  match r with inl _ => khalt PanicCall | inr _ => kret tt end.
