(* ===== verification/SemFsSpec.v ===== *)
(** * The semaphore file system keeps the contract of the VFS layer

    The operations of SemFs.v satisfy the laws of Vnode.v: the theorems on the VFS layer
    hold for a system whose file system is the kernel's own one. *)

From stdpp Require Import base numbers functions list gmap gmultiset.
From Stdlib Require Import ZArith Lia.
From stdpp Require Import list_relations.
From S2P Require Import Prelude SfsDisk Vnode VfsList VfsLookup VfsSpec SemFs.

Open Scope Z_scope.
Open Scope k_scope.

Section SemFsSpec.
Context {M : Kmem}.
Local Abbreviation W := (world semfs).
Implicit Types (w : W) (d : semfs).

(** ** The tables *)

Lemma sem_at_Some d k x : sem_at d k = Some x -> 0 <= k < Z.of_nat (length (semfs_sems d)) /\ semfs_sems d !! Z.to_nat k = Some (Some x).
Proof.
  unfold sem_at. destruct (Z.ltb_spec k 0); [done|]. destruct (semfs_sems d !! Z.to_nat k) as [y|] eqn:E; [|done]. intros ->.
  apply lookup_lt_Some in E as ?. split; [lia|done].
Qed.

Definition put_sem (k : Z) (x : option semfs_sem) d : semfs := set_sems (<[Z.to_nat k := x]> (semfs_sems d)) d.

Lemma sem_at_put d k x j : 0 <= k < Z.of_nat (length (semfs_sems d)) -> sem_at (put_sem k x d) j = if decide (j = k) then x else sem_at d j.
Proof.
  intros Hk. unfold sem_at, put_sem. cbn [semfs_sems set_sems]. destruct (Z.ltb_spec j 0); [by rewrite decide_False by lia|].
  destruct (decide (j = k)) as [->|Hne]; [by rewrite list_lookup_insert_eq by lia|]. by rewrite list_lookup_insert_ne by lia.
Qed.

Definition put_dent (i : nat) (e : option semfs_direntry) d : semfs := set_dents (<[i := e]> (semfs_dents d)) d.

Lemma dent_at_put d i e j : (i < length (semfs_dents d))%nat -> dent_at (put_dent i e d) j = if decide (j = i) then e else dent_at d j.
Proof.
  intros Hi. unfold dent_at, put_dent. cbn [semfs_dents set_dents]. destruct (decide (j = i)) as [->|Hne]; [by rewrite list_lookup_insert_eq|].
  by rewrite list_lookup_insert_ne.
Qed.

Definition with_d d w : W := with_fs (vnodes w) d w.

Lemma sems_set_eq k x w : 0 <= k < Z.of_nat (length (semfs_sems (fsd w))) -> sems_set k x w = Done tt (with_d (put_sem k x (fsd w)) w).
Proof. intros Hk. unfold sems_set, get_fs, mod_fs. kunfold. by rewrite bool_decide_true by lia. Qed.

Lemma dents_set_eq i e w : (i < length (semfs_dents (fsd w)))%nat -> dents_set i e w = Done tt (with_d (put_dent i e (fsd w)) w).
Proof. intros Hk. unfold dents_set, get_fs, mod_fs. kunfold. by rewrite bool_decide_true by lia. Qed.

Lemma getsem_eq k x w : sem_at (fsd w) k = Some x -> semfs_getsembynum k w = Done x w.
Proof.
  intros [Hk Hx]%sem_at_Some. unfold semfs_getsembynum, get_fs. kunfold. rewrite bool_decide_true by lia. unfold kret. by rewrite Hx.
Qed.

Lemma semnum_eq v k w : semv_semnum (fsd w) !! v = Some k -> semnum_of v w = Done k w.
Proof. intros E. unfold semnum_of, get_fs. kunfold. by rewrite E. Qed.

Lemma sem_kmalloc_eq w : exists n, sem_kmalloc w = Done (granted (semfs_reqs (fsd w))) (with_d (set_reqs n (fsd w)) w).
Proof. eexists. done. Qed.

(** The search in the table of vnodes. *)
Lemma find_vnode_eq k l w : (forall v, v ∈ l -> is_Some (semv_semnum (fsd w) !! v)) ->
  exists r, find_vnode k l w = Done r w /\
    match r with Some v => v ∈ l /\ semv_semnum (fsd w) !! v = Some k | None => forall v, v ∈ l -> semv_semnum (fsd w) !! v <> Some k end.
Proof.
  induction l as [|v l IH]; intros Hl; cbn [find_vnode]; [eexists; split; [done|]; by intros ? ?%not_elem_of_nil|].
  destruct (Hl v (list_elem_of_here _ _)) as [j Hj]. unfold kbind. rewrite (semnum_eq v j) by done. destruct (Z.eqb_spec j k) as [->|Hne].
  - eexists. split; [done|]. split; [apply list_elem_of_here|done].
  - destruct IH as (r & -> & Hr); [intros; apply Hl; by right|]. exists r. split; [done|]. destruct r as [u|].
    + destruct Hr. split; [by right|done].
    + intros u [->|Hu]%elem_of_cons; [congruence|by apply Hr].
Qed.

Lemma find_dent_eq i nm l : match find_dent i nm l with
  | Some (j, k) => exists e, (i <= j)%nat /\ l !! (j - i)%nat = Some (Some e) /\ semd_name e = nm /\ semd_semnum e = k
  | None => forall j e, l !! j = Some (Some e) -> semd_name e <> nm
  end.
Proof.
  revert i. induction l as [|[e|] l IH]; intros i; cbn [find_dent]; [by intros|..].
  - case_bool_decide as Hn; [exists e; rewrite Nat.sub_diag; done|]. specialize (IH (S i)). destruct (find_dent (S i) nm l) as [[j k]|].
    + destruct IH as (e' & ? & Hl & ?). exists e'. split; [lia|]. by replace (j - i)%nat with (S (j - S i)) by lia.
    + intros [|j] e' He'; [by injection He' as <-|by apply (IH j)].
  - specialize (IH (S i)). destruct (find_dent (S i) nm l) as [[j k]|].
    + destruct IH as (e' & ? & Hl & ?). exists e'. split; [lia|]. by replace (j - i)%nat with (S (j - S i)) by lia.
    + intros [|j] e' He'; [done|by apply (IH j)].
Qed.

Lemma free_slot_eq i l : match free_slot i l with Some j => (i <= j)%nat /\ l !! (j - i)%nat = Some None | None => forall j, l !! j <> Some None end.
Proof.
  revert i. induction l as [|[x|] l IH]; intros i; cbn [free_slot]; [done| |by rewrite Nat.sub_diag].
  specialize (IH (S i)). destruct (free_slot (S i) l) as [j|].
  - destruct IH as [? Hl]. split; [lia|]. by replace (j - i)%nat with (S (j - S i)) by lia.
  - intros [|j]; [done|apply IH].
Qed.

Lemma empty_dent_eq i l : match empty_dent i l with Some j => (i <= j)%nat /\ l !! (j - i)%nat = Some None | None => True end.
Proof.
  revert i. induction l as [|[x|] l IH]; intros i; cbn [empty_dent]; [done| |by rewrite Nat.sub_diag].
  specialize (IH (S i)). destruct (empty_dent (S i) l) as [j|]; [|done]. destruct IH as [? Hl]. split; [lia|]. by replace (j - i)%nat with (S (j - S i)) by lia.
Qed.

Lemma elem_of_remove_vnode v l u : NoDup l -> u ∈ remove_vnode v l <-> u ∈ l /\ u <> v.
Proof.
  induction l as [|x l IH]; intros Hn; cbn [remove_vnode]; [rewrite elem_of_nil; tauto|]. apply NoDup_cons in Hn as [Hx Hn].
  destruct (Z.eqb_spec x v) as [->|Hne]; rewrite !elem_of_cons; [|rewrite IH by done; naive_solver]. naive_solver.
Qed.

Lemma NoDup_remove_vnode v l : NoDup l -> NoDup (remove_vnode v l).
Proof.
  induction l as [|x l IH]; intros Hn; cbn [remove_vnode]; [done|]. apply NoDup_cons in Hn as [Hx Hn]. destruct (x =? v); [done|].
  apply NoDup_cons. split; [|by apply IH]. rewrite elem_of_remove_vnode by done. tauto.
Qed.

(** ** The vnode of a semaphore *)

Lemma getvnode_old k v w : vn_ok w -> semv_semnum (fsd w) !! v = Some k -> semfs_getvnode k w = (vnode_incref v ;;; kret v) w.
Proof.
  intros Hw Hv. unfold semfs_getvnode, get_fs. unfold kbind at 1, kbind at 1. unfold kget, kret at 1. unfold kbind at 1.
  destruct (find_vnode_eq k (semfs_vnodes (fsd w)) w) as (r & -> & Hr).
  { intros u Hu. destruct (vk_num _ Hw u Hu) as (j & ? & _). by exists j. }
  destruct r as [u|]; [destruct Hr as [_ Hr]; by rewrite (vk_inj _ Hw u v k Hr Hv)|]. by destruct (Hr v (vk_dom _ Hw v k Hv)).
Qed.

(** The semaphore is marked as having a vnode. *)
Definition mark (k : Z) d : semfs :=
  if k =? SEMFS_ROOTDIR then d else match sem_at d k with Some x => put_sem k (Some (set_hasvnode true x)) d | None => d end.

Definition new_vnode_d (k v : Z) (n : nat) d : semfs :=
  mark k (set_reqs n (set_semfs_vnodes (semfs_vnodes d ++ [v]) (set_semnums (<[v := k]> (semv_semnum d)) d))).

Definition new_vnode_w (k v : Z) (n : nat) w : W :=
  with_fs (<[v := vnode_init fs_vnode_ops (Some SEMFS) (Some v)]> (vnodes w)) (new_vnode_d k v n (fsd w)) w.

(** The root, or a semaphore that has no vnode yet. *)
Definition unmarked d k : Prop := k = SEMFS_ROOTDIR \/ (k <> SEMFS_ROOTDIR /\ exists x, sem_at d k = Some x /\ sems_hasvnode x = false).

Lemma mark_vnode_eq k w : unmarked (fsd w) k -> mark_vnode k w = Done tt (with_d (mark k (fsd w)) w).
Proof.
  intros [->|(Hk & x & Hx & Hh)]; unfold mark_vnode, mark; [by destruct w|].
  rewrite (proj2 (Z.eqb_neq _ _)), Hx by done. unfold kbind. rewrite (getsem_eq k x) by done. rewrite Hh. cbn [negb kassert]. unfold kret.
  rewrite sems_set_eq; [done|]. by apply sem_at_Some in Hx as [? _].
Qed.

Lemma destroy_new v x n w : vnodes w !! v = None -> semv_semnum (fsd w) !! v = None -> vn_refcount x = 1 -> forall k,
  semfs_vnode_destroy v (with_fs (<[v := x]> (vnodes w)) (set_reqs n (set_semnums (<[v := k]> (semv_semnum (fsd w))) (fsd w))) w)
  = Done tt (with_d (set_reqs n (fsd w)) w).
Proof.
  intros Hv Hn Hx k. unfold semfs_vnode_destroy, vnode_cleanup, vn_get, mod_fs. kunfold. cbn. rewrite lookup_insert_eq, Hx. cbn.
  rewrite !delete_insert_id by done. unfold with_d, with_fs, set_semnums, set_reqs. cbn. by destruct (fsd w).
Qed.

Lemma getvnode_new k w : vn_ok w -> (forall v, semv_semnum (fsd w) !! v <> Some k) -> unmarked (fsd w) k ->
  match semfs_getvnode k w with
  | Done v w' => vnodes w !! v = None /\ semv_semnum (fsd w) !! v = None /\ exists n, w' = new_vnode_w k v n w
  | Fail e w' => e = ENOMEM /\ exists n, w' = with_d (set_reqs n (fsd w)) w
  | Halt _ => False
  end.
Proof.
  intros Hw Hno Hu. unfold semfs_getvnode, get_fs. unfold kbind at 1, kbind at 1. unfold kget at 1, kret at 1. unfold kbind at 1.
  destruct (find_vnode_eq k (semfs_vnodes (fsd w)) w) as (r & -> & Hr).
  { intros u Hin. destruct (vk_num _ Hw u Hin) as (j & ? & _). by exists j. }
  destruct r as [u|]; [by destruct (Hno u); destruct Hr|]. unfold semfs_vnode_create. unfold kbind at 1, kbind at 1.
  destruct (sem_kmalloc_eq w) as [n ->]. destruct (granted _); cbn [negb]; [|split; [done|by exists n]].
  set (v := fresh (dom (vnodes w))). assert (Hv : vnodes w !! v = None) by (apply not_elem_of_dom, is_fresh).
  assert (Hn : semv_semnum (fsd w) !! v = None).
  { destruct (semv_semnum (fsd w) !! v) as [j|] eqn:E; [|done]. apply (vk_dom _ Hw), (vk_vn _ Hw) in E as (x & Hx & _). congruence. }
  unfold mod_fs. kunfold. cbn [vnodes with_d with_fs fsd devices unreclaimed]. fold v.
  match goal with |- context [sem_kmalloc ?x] => destruct (sem_kmalloc_eq x) as [n' E'] end.
  rewrite E'. destruct (granted _); cbn [negb]; cbv beta iota.
  - match goal with |- context [mark_vnode k ?x] => rewrite (mark_vnode_eq k x Hu) end. split_and!; [done|done|]. by exists n'.
  - match goal with |- context [semfs_vnode_destroy v ?x] => change (semfs_vnode_destroy v x) with
      (semfs_vnode_destroy v (with_fs (<[v := vnode_init fs_vnode_ops (Some SEMFS) (Some v)]> (vnodes w))
         (set_reqs n' (set_semnums (<[v := k]> (semv_semnum (fsd w))) (fsd w))) w)) end.
    rewrite destroy_new by done. split; [done|]. by exists n'.
Qed.

(** ** What the invariant depends on *)

Definition marked d k : Prop := exists x, sem_at d k = Some x /\ sems_hasvnode x = true.
Definition linked d k : Prop := exists x, sem_at d k = Some x /\ sems_linked x = true.

Lemma vn_ok_ext w w' : vn_ok w -> semfs_vnodes (fsd w') = semfs_vnodes (fsd w) -> semv_semnum (fsd w') = semv_semnum (fsd w) ->
  (forall v f, on_fs w' v f <-> on_fs w v f) -> (forall k, marked (fsd w') k <-> marked (fsd w) k) -> vn_ok w'.
Proof.
  intros [V1 V2 V3 V4 V5 V6 V7] Ev En Ho Hm. split; rewrite ?Ev, ?En; try done.
  - intros v f Hv. apply (V1 v). by apply Ho.
  - intros v. by rewrite Ho.
  - intros v Hv. destruct (V5 v Hv) as (k & Hk & [Hr|Hr]); exists k; (split; [done|]); [by left|]. right. by apply Hm.
  - intros k x Hx Hh. destruct (proj1 (Hm k)) as (y & ? & ?); [by exists x|]. by apply (V7 k y).
Qed.

Lemma dir_ok_ext d d' : dir_ok d -> (forall i, dent_at d' i = dent_at d i) -> (forall k, linked d' k <-> linked d k) ->
  (forall k x, sem_at d' k = Some x -> sems_hasvnode x = true \/ sems_linked x = true) ->
  Z.of_nat (length (semfs_sems d')) <= SEMFS_ROOTDIR -> dir_ok d'.
Proof.
  intros [D1 D2 D3 D4 D5 D6] Hd Hl Hu Hn. split; try done.
  - intros i e. rewrite Hd. intros He. apply Hl. by apply (D1 i).
  - intros i j e e'. rewrite !Hd. apply D2.
  - intros i j e e'. rewrite !Hd. apply D3.
  - intros k x Hx Hk. destruct (proj1 (Hl k)) as (y & ? & ?); [by exists x|]. destruct (D4 k y) as (i & e & He); [done|done|]. exists i, e. by rewrite Hd.
Qed.

#[global] Instance semfs_frame : FsFrame semfs.
Proof. intros w w' E Ho [Hv Hd]. split; [|by rewrite E]. apply (vn_ok_ext w); try done; [by rewrite E|by rewrite E|]. intros k. by rewrite E. Qed.

(** States that differ in memory only. *)
Record same_view d d' : Prop := {
  sv_vn : semfs_vnodes d' = semfs_vnodes d;
  sv_num : semv_semnum d' = semv_semnum d;
  sv_sem : forall k, sem_at d' k = sem_at d k;
  sv_dent : forall i, dent_at d' i = dent_at d i;
  sv_there : semfs_there d' = semfs_there d;
  sv_len : Z.of_nat (length (semfs_sems d)) <= SEMFS_ROOTDIR -> Z.of_nat (length (semfs_sems d')) <= SEMFS_ROOTDIR
}.

Lemma same_fs_there d d' : semfs_there d' = semfs_there d -> same_fs d d'.
Proof. intros E f. cbn. by rewrite E. Qed.

Lemma sem_ok_view d' w : sem_ok w -> same_view (fsd w) d' -> sem_ok (with_d d' w).
Proof.
  intros [Hv Hd] [E1 E2 E3 E4 E5 E6]. split.
  - apply (vn_ok_ext w); try done. intros k. unfold marked. cbn. by rewrite E3.
  - apply (dir_ok_ext (fsd w)); cbn; try done; [|intros k x; rewrite E3; by apply (dk_used _ Hd)|apply E6, (dk_len _ Hd)].
    intros k. unfold linked. by rewrite E3.
Qed.

Lemma refs_view P U d' w : refs P U w -> same_view (fsd w) d' -> refs P U (with_d d' w) /\ stable None (P ⊎ U) w (with_d d' w).
Proof.
  intros HR HV. apply refs_fsd; [done|apply same_fs_there, HV|]. apply sem_ok_view; [apply HR|done].
Qed.

Lemma view_reqs n d : same_view d (set_reqs n d).
Proof. by split. Qed.

(** ** A new vnode *)

Lemma on_fs_new k v n w u f : vnodes w !! v = None -> on_fs (new_vnode_w k v n w) u f <-> (u = v /\ f = SEMFS) \/ on_fs w u f.
Proof.
  intros Hv. unfold on_fs, new_vnode_w. cbn [vnodes with_fs]. destruct (decide (u = v)) as [->|Hne].
  - rewrite lookup_insert_eq, Hv. split; [intros (? & [= <-] & ? & [= <-]); by left|]. intros [[_ ->]|(? & ? & _)]; [by eexists|done].
  - rewrite lookup_insert_ne by done. naive_solver.
Qed.

Lemma mark_fields k d : semfs_vnodes (mark k d) = semfs_vnodes d /\ semv_semnum (mark k d) = semv_semnum d /\
  semfs_dents (mark k d) = semfs_dents d /\ semfs_there (mark k d) = semfs_there d /\ length (semfs_sems (mark k d)) = length (semfs_sems d).
Proof. unfold mark. destruct (_ =? _); [done|]. destruct (sem_at d k); [|done]. cbn. by rewrite length_insert. Qed.

Lemma sem_at_mark k d j : unmarked d k ->
  sem_at (mark k d) j = if decide (j = k) then (if k =? SEMFS_ROOTDIR then sem_at d k else set_hasvnode true <$> sem_at d k) else sem_at d j.
Proof.
  intros Hu. unfold mark. destruct (Z.eqb_spec k SEMFS_ROOTDIR) as [->|Hk]; [by destruct (decide _) as [->|]|].
  destruct Hu as [?|(_ & x & Hx & Hh)]; [done|]. rewrite Hx. apply sem_at_Some in Hx as ?. rewrite sem_at_put by tauto. by destruct (decide _).
Qed.

Lemma marked_mark k d j : unmarked d k -> marked (mark k d) j <-> (j = k /\ k <> SEMFS_ROOTDIR) \/ marked d j.
Proof.
  intros Hu. unfold marked. rewrite sem_at_mark by done. destruct (decide (j = k)) as [->|Hne]; [|naive_solver].
  destruct (Z.eqb_spec k SEMFS_ROOTDIR) as [Hk|Hk]; [naive_solver|]. split; [by left|]. intros _. destruct Hu as [?|(_ & x & Hx & _)]; [done|].
  rewrite Hx. by eexists.
Qed.

Lemma linked_mark k d j : unmarked d k -> linked (mark k d) j <-> linked d j.
Proof.
  intros Hu. unfold linked. rewrite sem_at_mark by done. destruct (decide (j = k)) as [->|Hne]; [|done].
  destruct (Z.eqb_spec k SEMFS_ROOTDIR) as [Hk|Hk]; [done|]. destruct (sem_at d k) as [x|]; cbn; naive_solver.
Qed.

Lemma vn_ok_new k v n w : vn_ok w -> vnodes w !! v = None -> semv_semnum (fsd w) !! v = None ->
  (forall u, semv_semnum (fsd w) !! u <> Some k) -> unmarked (fsd w) k -> vn_ok (new_vnode_w k v n w).
Proof.
  intros [V1 V2 V3 V4 V5 V6 V7] Hv Hn Hno Hu. unfold new_vnode_w, new_vnode_d in *.
  set (d0 := set_reqs n _). destruct (mark_fields k d0) as (E1 & E2 & _). assert (Hu0 : unmarked d0 k) by done.
  assert (Hnv : v ∉ semfs_vnodes (fsd w)) by (intros (x & ? & _)%V2; congruence).
  split; cbn [fsd with_fs]; rewrite ?E1, ?E2; subst d0; cbn [semfs_vnodes semv_semnum set_reqs set_semfs_vnodes set_semnums].
  - intros u f Hf. apply (on_fs_new k v n) in Hf as [[_ ->]|Hf]; [done|by apply (V1 u)|done].
  - intros u. rewrite elem_of_app, list_elem_of_singleton, V2. etrans; [|symmetry; by apply (on_fs_new k v n)]. naive_solver.
  - apply NoDup_app. split; [done|]. split; [by intros u Hin ->%list_elem_of_singleton|apply NoDup_singleton].
  - intros u j [[<- <-]|[? Hj]]%lookup_insert_Some; rewrite elem_of_app, list_elem_of_singleton; [by right|]. left. by apply (V4 u j).
  - intros u [Hin| ->%list_elem_of_singleton]%elem_of_app.
    + destruct (V5 u Hin) as (j & Hj & Hr). exists j. split; [rewrite lookup_insert_ne; [done|congruence]|].
      destruct Hr as [?|Hr]; [by left|]. right. apply (marked_mark k _ j Hu0). by right.
    + exists k. rewrite lookup_insert_eq. split; [done|]. destruct (decide (k = SEMFS_ROOTDIR)); [by left|]. right. apply (marked_mark k _ k Hu0). by left.
  - intros u u' j [[<- <-]|[? Hj]]%lookup_insert_Some [[<- ?]|[? Hj']]%lookup_insert_Some; [done| | |by apply (V6 u u' j)].
    + by destruct (Hno u').
    + subst j. by destruct (Hno u).
  - intros j x Hx Hh. destruct (proj1 (marked_mark k _ j Hu0)) as [[-> _]|(y & ? & ?)]; [by exists x|by exists v; rewrite lookup_insert_eq|].
    destruct (V7 j y) as [u Hj]; [done|done|]. exists u. rewrite lookup_insert_ne; [done|congruence].
Qed.

Lemma dir_ok_new k v n w : dir_ok (fsd w) -> unmarked (fsd w) k -> dir_ok (fsd (new_vnode_w k v n w)).
Proof.
  intros Hd Hu. unfold new_vnode_w, new_vnode_d. cbn [fsd with_fs]. set (d0 := set_reqs n _). destruct (mark_fields k d0) as (_ & _ & E3 & _ & E5).
  apply (dir_ok_ext (fsd w)); [done| | | |rewrite E5; apply (dk_len _ Hd)].
  - intros i. unfold dent_at. by rewrite E3.
  - intros j. exact (linked_mark k d0 j Hu).
  - intros j x. rewrite (sem_at_mark k d0 j Hu). destruct (decide (j = k)) as [->|_]; [|by apply (dk_used _ Hd)].
    destruct (Z.eqb_spec k SEMFS_ROOTDIR) as [Hk|Hk]; [by apply (dk_used _ Hd)|]. destruct (sem_at d0 k); cbn; [|done]. intros [= <-]. by left.
Qed.

(** A semaphore of the table, or the root. *)
Definition present d k : Prop := k = SEMFS_ROOTDIR \/ exists x, sem_at d k = Some x.

Lemma sem_at_root d : dir_ok d -> sem_at d SEMFS_ROOTDIR = None.
Proof. intros Hd. destruct (sem_at d SEMFS_ROOTDIR) as [x|] eqn:E; [|done]. apply sem_at_Some in E as [? _]. pose proof (dk_len _ Hd). lia. Qed.

Lemma vnode_cases k w : sem_ok w -> present (fsd w) k ->
  (exists v, semv_semnum (fsd w) !! v = Some k) \/ ((forall v, semv_semnum (fsd w) !! v <> Some k) /\ unmarked (fsd w) k).
Proof.
  intros [Hw Hd] Hp. destruct (find_vnode_eq k (semfs_vnodes (fsd w)) w) as ([v|] & _ & Hr).
  { intros v Hv. destruct (vk_num _ Hw v Hv) as (j & ? & _). by exists j. }
  { left. exists v. apply Hr. }
  assert (Hno : forall v, semv_semnum (fsd w) !! v <> Some k) by (intros v Hv; apply (Hr v); [by apply (vk_dom _ Hw v k)|done]).
  right. split; [exact Hno|]. destruct Hp as [->|(x & Hx)]; [by left|]. right. split; [intros ->; by rewrite sem_at_root in Hx|].
  exists x. split; [done|]. destruct (sems_hasvnode x) eqn:E; [|done]. destruct (vk_has _ Hw k x Hx E) as [v Hv]. by destruct (Hno v).
Qed.

Lemma getvnode_hands k P U : hands P U (fun w => fs_live SEMFS (fsd w) = true /\ present (fsd w) k) (semfs_getvnode k) the_vnode.
Proof.
  intros w HR [Hlive Hp]. pose proof (refs_ok _ _ _ HR) as Hok. destruct (vnode_cases k w Hok Hp) as [[v Hv]|[Hno Hu]]; destruct Hok as [Hw Hd].
  - rewrite (getvnode_old k v) by done. apply (vk_dom _ Hw), (vk_vn _ Hw) in Hv as (x & Hx & Ho & _).
    destruct (incref_hands P U v w x HR Hx) as (w' & E & Hr & Hs); [by rewrite Ho|]. kunfold. rewrite E. split; [done|apply Hs].
  - pose proof (getvnode_new k w Hw Hno Hu) as Hg. destruct (semfs_getvnode k w) as [v w'|e w'|h]; [| |done].
    + destruct Hg as (Hv & Hn & n & ->). apply refs_add_fs; [done|done|done| |].
      * apply same_fs_there. unfold new_vnode_d. by destruct (mark_fields k (set_reqs n (set_semfs_vnodes (semfs_vnodes (fsd w) ++ [v]) (set_semnums (<[v := k]> (semv_semnum (fsd w))) (fsd w))))) as (_ & _ & _ & -> & _).
      * split; [by apply vn_ok_new|by apply dir_ok_new].
    + destruct Hg as (_ & n & ->). apply refs_view; [done|apply view_reqs].
Qed.

(** ** A vnode that goes away *)

Definition unmark (k : Z) d : semfs :=
  match sem_at d k with Some x => put_sem k (if sems_linked x then Some (set_hasvnode false x) else None) d | None => d end.

Definition old_vnode_d (k v : Z) d : semfs :=
  set_semnums (delete v (semv_semnum d)) (unmark k (set_semfs_vnodes (remove_vnode v (semfs_vnodes d)) d)).

Definition old_vnode_w (k v : Z) w : W := with_fs (delete v (vnodes w)) (old_vnode_d k v (fsd w)) w.

Lemma unmark_fields k d : semfs_vnodes (unmark k d) = semfs_vnodes d /\ semv_semnum (unmark k d) = semv_semnum d /\
  semfs_dents (unmark k d) = semfs_dents d /\ semfs_there (unmark k d) = semfs_there d /\ length (semfs_sems (unmark k d)) = length (semfs_sems d).
Proof. unfold unmark. destruct (sem_at d k); [|done]. cbn. by rewrite length_insert. Qed.

Lemma sem_at_unmark k d j : sem_at (unmark k d) j =
  if decide (j = k) then (x ← sem_at d k; if sems_linked x then Some (set_hasvnode false x) else None) else sem_at d j.
Proof.
  unfold unmark. destruct (sem_at d k) as [x|] eqn:Hx; cbn.
  - apply sem_at_Some in Hx as ?. rewrite sem_at_put by tauto. by destruct (decide _).
  - destruct (decide (j = k)) as [->|]; [done|done].
Qed.

Lemma marked_unmark k d j : marked (unmark k d) j <-> j <> k /\ marked d j.
Proof.
  unfold marked. rewrite sem_at_unmark. destruct (decide (j = k)) as [->|Hne]; [|naive_solver]. split; [|tauto].
  intros (y & Hy & Hh). destruct (sem_at d k) as [x|]; [|done]. cbn in Hy. destruct (sems_linked x); [|done]. by injection Hy as <-.
Qed.

Lemma linked_unmark k d j : linked (unmark k d) j <-> linked d j.
Proof.
  unfold linked. rewrite sem_at_unmark. destruct (decide (j = k)) as [->|Hne]; [|done]. destruct (sem_at d k) as [x|]; cbn; [|done].
  destruct (sems_linked x) eqn:E; (split; [intros (y & Hy & Hl)|intros (y & [= <-] & Hl)]); [by exists x|by eexists|done|congruence].
Qed.

Lemma reclaim_eq v k x w : sem_ok w -> vnodes w !! v = Some x -> vn_refcount x = 1 -> semv_semnum (fsd w) !! v = Some k ->
  semfs_reclaim v w = Done tt (old_vnode_w k v w).
Proof.
  intros [Hw Hd] Hx Hc Hk. unfold semfs_reclaim. unfold kbind at 1. rewrite (semnum_eq v k) by done. unfold vn_get, mod_fs. kunfold. rewrite Hx, Hc. change (1 <? 1) with false.
  cbv beta iota. match goal with |- context [unmark_vnode k ?x] => set (w1 := x) end.
  assert (E : unmark_vnode k w1 = Done tt (with_d (unmark k (fsd w1)) w1)).
  { unfold unmark_vnode, unmark. destruct (vk_num _ Hw v (vk_dom _ Hw v k Hk)) as (k' & Hk' & Hm). replace k' with k in Hm by congruence.
    change (sem_at (fsd w1) k) with (sem_at (fsd w) k). destruct Hm as [->|(y & Hy & Hh)].
    - by rewrite sem_at_root.
    - assert (k <> SEMFS_ROOTDIR) by (intros ->; by rewrite sem_at_root in Hy). rewrite (proj2 (Z.eqb_neq _ _)), Hy by done.
      unfold kbind. rewrite (getsem_eq k y w1 Hy). rewrite Hh. cbn [kassert]. unfold kret. rewrite sems_set_eq; [done|]. by apply sem_at_Some in Hy as [? _]. }
  rewrite E. unfold semfs_vnode_destroy, vnode_cleanup, vn_get, mod_fs. kunfold. subst w1. cbn. rewrite Hx, Hc. cbn.
  unfold old_vnode_w, old_vnode_d, with_fs, set_vnodes. cbn. by destruct (unmark_fields k (set_semfs_vnodes (remove_vnode v (semfs_vnodes (fsd w))) (fsd w))) as (_ & -> & _).
Qed.

Lemma on_fs_old k v w u f : on_fs (old_vnode_w k v w) u f <-> u <> v /\ on_fs w u f.
Proof.
  unfold on_fs, old_vnode_w. cbn [vnodes with_fs]. destruct (decide (u = v)) as [->|Hne]; [rewrite lookup_delete_eq; naive_solver|].
  rewrite lookup_delete_ne by done. naive_solver.
Qed.

Lemma sem_ok_old v k w : sem_ok w -> semv_semnum (fsd w) !! v = Some k -> sem_ok (old_vnode_w k v w).
Proof.
  intros [[V1 V2 V3 V4 V5 V6 V7] Hd] Hk. pose proof (unmark_fields k (set_semfs_vnodes (remove_vnode v (semfs_vnodes (fsd w))) (fsd w))) as (E1 & E2 & E3 & E4 & E5). split.
  - split; unfold old_vnode_w, old_vnode_d; cbn [fsd with_fs semfs_vnodes semv_semnum set_semnums]; rewrite ?E1, ?E2; cbn [semfs_vnodes semv_semnum set_semfs_vnodes].
    + intros u f [_ Hu]%(on_fs_old k v). by apply (V1 u).
    + intros u. rewrite elem_of_remove_vnode, V2 by done. etrans; [|symmetry; apply (on_fs_old k v)]. naive_solver.
    + by apply NoDup_remove_vnode.
    + intros u j [? Hj]%lookup_delete_Some. apply elem_of_remove_vnode; [done|]. split; [by apply (V4 u j)|done].
    + intros u [Hin Hne]%elem_of_remove_vnode; [|done]. destruct (V5 u Hin) as (j & Hj & Hr). exists j. rewrite lookup_delete_ne by done.
      split; [done|]. destruct Hr as [?|Hr]; [by left|]. right. apply (marked_unmark k _ j). split; [|done]. intros ->. by apply Hne, (V6 u v k).
    + intros u u' j [_ Hu]%lookup_delete_Some [_ Hu']%lookup_delete_Some. by apply (V6 u u' j).
    + intros j x Hx Hh. destruct (proj1 (marked_unmark k (set_semfs_vnodes (remove_vnode v (semfs_vnodes (fsd w))) (fsd w)) j)) as [Hne (y & Hy & Hy')]; [by exists x|].
      destruct (V7 j y Hy Hy') as [u Hu]. exists u. rewrite lookup_delete_ne; [done|]. intros ->. congruence.
  - unfold old_vnode_w, old_vnode_d. cbn [fsd with_fs]. set (d0 := set_semfs_vnodes _ _) in *. apply (dir_ok_ext (fsd w)); [done| | | |].
    + intros i. unfold dent_at. cbn [semfs_dents set_semnums]. by rewrite E3.
    + intros j. exact (linked_unmark k d0 j).
    + intros j x Hx. change (sem_at (unmark k d0) j = Some x) in Hx. rewrite sem_at_unmark in Hx. destruct (decide (j = k)) as [->|_]; [|by apply (dk_used _ Hd j)].
      destruct (sem_at d0 k) as [y|]; [|done]. cbn in Hx. destruct (sems_linked y) eqn:El; [|done]. injection Hx as <-. by right.
    + cbn [semfs_sems set_semnums]. rewrite E5. apply (dk_len _ Hd).
Qed.

Lemma semfs_reclaim_refs v f P U w : refs P (U ⊎ {[+ v +]}) w -> on_fs w v f -> count w v = 1 ->
  exists w', semfs_reclaim v w = Done tt w' /\ refs P U w' /\ stable None (P ⊎ U) w w'.
Proof.
  intros HR Hv Hc. pose proof (refs_ok _ _ _ HR) as Hok. destruct (Hok) as [Hw Hd]. rewrite (vk_fs _ Hw v f Hv) in Hv.
  destruct (vk_num _ Hw v) as (k & Hk & _); [by apply (vk_vn _ Hw)|]. destruct (Hv) as (x & Hx & _). assert (Hcx : vn_refcount x = 1) by (unfold count in Hc; by rewrite Hx in Hc).
  eexists. split; [by apply (reclaim_eq v k x)|]. apply (refs_delete P U v SEMFS); [done|done|done| |by apply sem_ok_old].
  apply same_fs_there. unfold old_vnode_d. cbn [semfs_there set_semnums]. by destruct (unmark_fields k (set_semfs_vnodes (remove_vnode v (semfs_vnodes (fsd w))) (fsd w))) as (_ & _ & _ & -> & _).
Qed.

(** ** The steps of [semfs_creat] *)

(** [d'] is [d] with the table of semaphores [S] and the directory [E]. *)
Record view d (S : Z -> option semfs_sem) (E : nat -> option semfs_direntry) d' : Prop := {
  view_vn : semfs_vnodes d' = semfs_vnodes d;
  view_num : semv_semnum d' = semv_semnum d;
  view_there : semfs_there d' = semfs_there d;
  view_sem : forall k, sem_at d' k = S k;
  view_dent : forall i, dent_at d' i = E i;
  view_len : Z.of_nat (length (semfs_sems d')) <= SEMFS_ROOTDIR
}.

Lemma view_refl d : dir_ok d -> view d (sem_at d) (dent_at d) d.
Proof. intros Hd. split; try done. apply (dk_len _ Hd). Qed.

Lemma view_set_reqs d S E d' n : view d S E d' -> view d S E (set_reqs n d').
Proof. by intros []. Qed.

Lemma view_back d S E d' : view d S E d' -> (forall k, S k = sem_at d k) -> (forall i, E i = dent_at d i) -> same_view d d'.
Proof. intros [V1 V2 V3 V4 V5 V6] HS HE. split; try done; [intros; by rewrite V4|intros; by rewrite V5]. Qed.

Lemma view_put_sem d S E d' k x : view d S E d' -> 0 <= k < Z.of_nat (length (semfs_sems d')) -> view d (<[k := x]> S) E (put_sem k x d').
Proof.
  intros [V1 V2 V3 V4 V5 V6] Hk. split; try done; [|cbn; by rewrite length_insert]. intros j. rewrite sem_at_put by done. destruct (decide (j = k)) as [->|Hne].
  - by rewrite fn_lookup_insert.
  - by rewrite fn_lookup_insert_ne.
Qed.

Lemma view_put_dent d S E d' i e : view d S E d' -> (i < length (semfs_dents d'))%nat -> view d S (<[i := e]> E) (put_dent i e d').
Proof.
  intros [V1 V2 V3 V4 V5 V6] Hk. split; try done. intros j. rewrite dent_at_put by done. destruct (decide (j = i)) as [->|Hne].
  - by rewrite fn_lookup_insert.
  - by rewrite fn_lookup_insert_ne.
Qed.

Lemma pieces_eq m w : exists n b, pieces m w = Done b (with_d (set_reqs n (fsd w)) w).
Proof.
  revert w. induction m as [|m IH]; intros w; cbn [pieces].
  - exists (semfs_reqs (fsd w)), true. destruct w as [? ? ? []]. done.
  - unfold kbind. destruct (sem_kmalloc_eq w) as [n ->]. destruct (granted _); [|by exists n, false].
    destruct (IH (with_d (set_reqs n (fsd w)) w)) as (n' & b & ->). by exists n', b.
Qed.

Lemma sem_insert_eq x w d S E : view d S E (fsd w) ->
  match semfs_sem_insert x w with
  | Done k w' => exists d', w' = with_d d' w /\ semfs_dents d' = semfs_dents (fsd w) /\ S k = None /\ k <> SEMFS_ROOTDIR /\ 0 <= k < Z.of_nat (length (semfs_sems d')) /\ view d (<[k := Some x]> S) E d'
  | Fail _ w' => exists n, w' = with_d (set_reqs n (fsd w)) w
  | Halt _ => False
  end.
Proof.
  intros HV. pose proof (view_len _ _ _ _ HV) as Hl. unfold semfs_sem_insert, get_fs, mod_fs. kunfold.
  destruct (Z.eqb_spec (Z.of_nat (length (semfs_sems (fsd w)))) SEMFS_ROOTDIR) as [|Hne].
  { exists (semfs_reqs (fsd w)). destruct w as [? ? ? []]. done. }
  pose proof (free_slot_eq 0 (semfs_sems (fsd w))) as Hf. destruct (free_slot 0 (semfs_sems (fsd w))) as [i|].
  - destruct Hf as [_ Hi]. rewrite Nat.sub_0_r in Hi. apply lookup_lt_Some in Hi as Hlt.
    assert (Hk : 0 <= Z.of_nat i < Z.of_nat (length (semfs_sems (fsd w)))) by lia.
    exists (put_sem (Z.of_nat i) (Some x) (fsd w)). split_and!; [|done|rewrite <-(view_sem _ _ _ _ HV)|lia| | |by apply view_put_sem].
    + unfold with_d, with_fs, put_sem. by rewrite Nat2Z.id.
    + unfold sem_at. rewrite (proj2 (Z.ltb_ge _ _)), Nat2Z.id, Hi by lia. done.
    + lia.
    + cbn. rewrite length_insert. lia.
  - destruct (sem_kmalloc_eq w) as [n ->]. destruct (granted _); cbn [negb]; [|by exists n].
    eexists. split; [done|]. split; [done|]. set (k := Z.of_nat (length (semfs_sems (fsd w)))) in *. cbn [semfs_sems set_sems set_reqs with_d with_fs fsd].
    rewrite length_app. cbn [length]. destruct HV as [V1 V2 V3 V4 V5 V6]. split_and!; [|done|lia|lia|].
    + rewrite <- V4. unfold sem_at. rewrite (proj2 (Z.ltb_ge _ _)) by lia. subst k. by rewrite Nat2Z.id, lookup_ge_None_2.
    + split; try done; [|cbn; rewrite length_app; cbn; lia]. intros j. unfold sem_at. cbn [semfs_sems set_sems set_reqs with_d with_fs fsd].
      destruct (decide (j = k)) as [->|Hj].
      * rewrite fn_lookup_insert, (proj2 (Z.ltb_ge _ _)) by lia. subst k. by rewrite Nat2Z.id, list_lookup_middle.
      * rewrite fn_lookup_insert_ne by done. rewrite <- V4. unfold sem_at. destruct (Z.ltb_spec j 0); [done|].
        destruct (decide (j < k)); [by rewrite lookup_app_l by lia|]. rewrite !lookup_ge_None_2; [done|lia|rewrite length_app; cbn; lia].
Qed.

Lemma direntry_create_eq nm k w : exists n r, semfs_direntry_create nm k w = Done r (with_d (set_reqs n (fsd w)) w) /\ (r = None \/ r = Some (mkdent nm k)).
Proof.
  unfold semfs_direntry_create. unfold kbind at 1. destruct (sem_kmalloc_eq w) as [n ->]. destruct (granted _); cbn [negb]; [|exists n, None; by auto].
  unfold kbind. destruct (sem_kmalloc_eq (with_d (set_reqs n (fsd w)) w)) as [n' ->]. destruct (granted _); cbn [negb]; [|exists n', None; by auto].
  exists n', (Some (mkdent nm k)). by auto.
Qed.

Lemma enter_dent_eq empty e w d S E : view d S E (fsd w) -> (forall i, empty = Some i -> (i < length (semfs_dents (fsd w)))%nat /\ E i = None) ->
  match enter_dent empty e w with
  | Done i w' => exists d', w' = with_d d' w /\ semfs_sems d' = semfs_sems (fsd w) /\ (i < length (semfs_dents d'))%nat /\ E i = None /\ view d S (<[i := Some e]> E) d'
  | Fail _ w' => exists n, w' = with_d (set_reqs n (fsd w)) w
  | Halt _ => False
  end.
Proof.
  intros HV He. unfold enter_dent. destruct empty as [i|].
  - destruct (He i eq_refl) as [Hi HE]. unfold kbind. rewrite dents_set_eq by done. unfold kret. eexists. split; [done|].
    split_and!; [done|cbn; by rewrite length_insert|done|by apply view_put_dent].
  - unfold kbind at 1. destruct (sem_kmalloc_eq w) as [n ->]. destruct (granted _); cbn [negb]; [|by exists n].
    unfold get_fs, mod_fs. kunfold. eexists. split; [done|]. cbn [semfs_dents set_dents set_reqs with_d with_fs fsd]. destruct HV as [V1 V2 V3 V4 V5 V6].
    split_and!; [done|rewrite length_app; cbn; lia|rewrite <- V5; unfold dent_at; by rewrite lookup_ge_None_2|].
    split; try done. intros j. unfold dent_at. cbn [semfs_dents set_dents set_reqs with_d with_fs fsd]. destruct (decide (j = length (semfs_dents (fsd w)))) as [->|Hj].
    + by rewrite fn_lookup_insert, list_lookup_middle.
    + rewrite fn_lookup_insert_ne by done. rewrite <- V5. unfold dent_at.
      destruct (decide (j < length (semfs_dents (fsd w)))%nat); [by rewrite lookup_app_l by lia|]. rewrite !lookup_ge_None_2; [done|lia|rewrite length_app; cbn; lia].
Qed.

(** The new semaphore has no vnode, so that the vnodes are still those of the table. *)
Lemma vn_ok_view d' S E w : vn_ok w -> view (fsd w) S E d' -> (forall k, (exists x, S k = Some x /\ sems_hasvnode x = true) <-> marked (fsd w) k) -> vn_ok (with_d d' w).
Proof.
  intros Hw [V1 V2 V3 V4 V5 V6] Hm. apply (vn_ok_ext w); try done. intros k. unfold marked at 1. cbn. by rewrite V4.
Qed.

(** The directory with one more entry, for a semaphore of its own. *)
Lemma dir_ok_link d d' k i e x : dir_ok d -> sem_at d k = None -> dent_at d i = None -> semd_semnum e = k -> sems_linked x = true ->
  (forall j e', dent_at d j = Some e' -> semd_name e' <> semd_name e) ->
  (forall j, sem_at d' j = (<[k := Some x]> (sem_at d)) j) -> (forall j, dent_at d' j = (<[i := Some e]> (dent_at d)) j) ->
  Z.of_nat (length (semfs_sems d')) <= SEMFS_ROOTDIR -> dir_ok d'.
Proof.
  intros [D1 D2 D3 D4 D5 D6] Hk Hi He Hx Hnew HS HE Hn.
  assert (Hother : forall j e', dent_at d j = Some e' -> semd_semnum e' <> k) by (intros j e' Hj <-; destruct (D1 j e' Hj) as (? & ? & _); congruence).
  assert (HE' : forall j e', dent_at d' j = Some e' -> (j = i /\ e' = e) \/ (j <> i /\ dent_at d j = Some e')).
  { intros j e'. rewrite HE. destruct (decide (j = i)) as [->|Hne]; [rewrite fn_lookup_insert|rewrite fn_lookup_insert_ne by done]; [intros [= <-]; by left|by right]. }
  assert (HS' : forall j y, sem_at d' j = Some y -> (j = k /\ y = x) \/ (j <> k /\ sem_at d j = Some y)).
  { intros j y. rewrite HS. destruct (decide (j = k)) as [->|Hne]; [rewrite fn_lookup_insert|rewrite fn_lookup_insert_ne by done]; [intros [= <-]; by left|by right]. }
  split; [| | | | |done].
  - intros j e' [[-> ->]|[_ Hj]]%HE'; [exists x; by rewrite He, HS, fn_lookup_insert|]. rewrite HS, fn_lookup_insert_ne by (by apply Hother in Hj). by apply (D1 j).
  - intros j j' e1 e2 [[-> ->]|[_ Hj]]%HE' [[-> ->]|[_ Hj']]%HE' Heq; [done| | |by apply (D2 j j' e1 e2)].
    + destruct (Hother j' e2 Hj'). congruence.
    + destruct (Hother j e1 Hj). congruence.
  - intros j j' e1 e2 [[-> ->]|[_ Hj]]%HE' [[-> ->]|[_ Hj']]%HE' Heq; [done| | |by apply (D3 j j' e1 e2)].
    + by destruct (Hnew j' e2 Hj').
    + by destruct (Hnew j e1 Hj).
  - intros j y [[-> ->]|[Hne Hj]]%HS' Hl; [exists i, e; by rewrite HE, fn_lookup_insert|]. destruct (D4 j y Hj Hl) as (i' & e' & He' & ?).
    exists i', e'. rewrite HE, fn_lookup_insert_ne by congruence. done.
  - intros j y [[-> ->]|[Hne Hj]]%HS'; [by right|by apply (D5 j)].
Qed.

(** ** Creating a semaphore *)

Definition new_sem : semfs_sem := mksem 0 false false.

Section Enter.
Context (w : W) (d1 : semfs) (k : Z) (nm : name) (Hok : sem_ok w) (Hk : sem_at (fsd w) k = None) (Hroot : k <> SEMFS_ROOTDIR).
Context (Hlen : 0 <= k < Z.of_nat (length (semfs_sems d1))) (HV : view (fsd w) (<[k := Some new_sem]> (sem_at (fsd w))) (dent_at (fsd w)) d1).

Lemma undo_sem n E d2 : semfs_sems d2 = semfs_sems d1 -> view (fsd w) (<[k := Some new_sem]> (sem_at (fsd w))) E d2 -> (forall i, E i = dent_at (fsd w) i) ->
  same_view (fsd w) (put_sem k None (set_reqs n d2)).
Proof.
  intros Hs V2 HE. apply (view_back _ (<[k := None]> (<[k := Some new_sem]> (sem_at (fsd w)))) E); [|clear -Hk|done].
  - apply view_put_sem; [by apply view_set_reqs|]. cbn. by rewrite Hs.
  - intros j. destruct (decide (j = k)) as [->|Hne]; [by rewrite fn_lookup_insert|by rewrite !fn_lookup_insert_ne].
Qed.

(** The state before the semaphore gets its vnode. *)
Lemma entered_vnodes E d2 : view (fsd w) (<[k := Some new_sem]> (sem_at (fsd w))) E d2 ->
  vn_ok (with_d d2 w) /\ (forall v, semv_semnum (fsd (with_d d2 w)) !! v <> Some k) /\ unmarked (fsd (with_d d2 w)) k /\ sem_at d2 k = Some new_sem.
Proof.
  intros V2. assert (Hs : sem_at d2 k = Some new_sem) by (by rewrite (view_sem _ _ _ _ V2), fn_lookup_insert). destruct Hok as [Hw Hd].
  split; [|split; [|split; [|done]]].
  - apply (vn_ok_view _ _ _ _ Hw V2). intros j. unfold marked. destruct (decide (j = k)) as [->|Hne]; [|by rewrite fn_lookup_insert_ne].
    rewrite fn_lookup_insert, Hk. split; [by intros (? & [= <-] & ?)|by intros (? & ? & _)].
  - intros v. cbn. rewrite (view_num _ _ _ _ V2). intros Hv. destruct (vk_num _ Hw v (vk_dom _ Hw v k Hv)) as (k' & Hk' & Hm). replace k' with k in Hm by congruence.
    destruct Hm as [?|(? & ? & _)]; congruence.
  - right. split; [done|]. by exists new_sem.
Qed.

(** The vnode [v] has been made for a new semaphore with the name [nm]. *)
Definition created_sem : semfs_sem := mksem 0 true true.

Definition created d (v : Z) d' : Prop := exists k i, sem_at d k = None /\ dent_at d i = None /\
  (forall j, sem_at d' j = (<[k := Some created_sem]> (sem_at d)) j) /\
  (forall j, dent_at d' j = (<[i := Some (mkdent nm k)]> (dent_at d)) j) /\ semv_semnum d' !! v = Some k.

Lemma created_ok v n i d2 : dent_at (fsd w) i = None -> (forall j e, dent_at (fsd w) j = Some e -> semd_name e <> nm) ->
  view (fsd w) (<[k := Some new_sem]> (sem_at (fsd w))) (<[i := Some (mkdent nm k)]> (dent_at (fsd w))) d2 ->
  0 <= k < Z.of_nat (length (semfs_sems d2)) -> vnodes w !! v = None -> semv_semnum (fsd w) !! v = None ->
  let d3 := new_vnode_d k v n d2 in let w4 := with_d (put_sem k (Some created_sem) d3) (new_vnode_w k v n (with_d d2 w)) in
  sem_at d3 k = Some (set_hasvnode true new_sem) /\ 0 <= k < Z.of_nat (length (semfs_sems d3)) /\ semfs_there d3 = semfs_there (fsd w) /\ sem_ok w4 /\ created (fsd w) v (fsd w4).
Proof.
  intros Hi Hnew V2 Hl Hv Hn d3 w4. destruct (entered_vnodes _ _ V2) as (Hw2 & Hno & Hu & Hs2). set (d0 := set_reqs n (set_semfs_vnodes (semfs_vnodes d2 ++ [v]) (set_semnums (<[v := k]> (semv_semnum d2)) d2))).
  destruct (mark_fields k d0) as (E1 & E2 & E3 & E4 & E5). change (mark k d0) with d3 in *.
  assert (Hat : forall j, sem_at d3 j = if decide (j = k) then Some (set_hasvnode true new_sem) else sem_at d2 j).
  { intros j. unfold d3, new_vnode_d. fold d0. rewrite (sem_at_mark k d0 j Hu). destruct (decide (j = k)) as [->|]; [|done].
    rewrite (proj2 (Z.eqb_neq _ _)) by done. change (sem_at d0 k) with (sem_at d2 k). by rewrite Hs2. }
  assert (Hl3 : 0 <= k < Z.of_nat (length (semfs_sems d3))) by (rewrite E5; exact Hl).
  split; [by rewrite Hat, decide_True|]. split; [done|]. split; [rewrite E4; apply (view_there _ _ _ _ V2)|].
  assert (HS4 : forall j, sem_at (fsd w4) j = (<[k := Some created_sem]> (sem_at (fsd w))) j).
  { intros j. cbn [fsd w4 with_d with_fs]. rewrite sem_at_put by done. destruct (decide (j = k)) as [->|Hne]; [by rewrite fn_lookup_insert|].
    rewrite Hat, decide_False, (view_sem _ _ _ _ V2), !fn_lookup_insert_ne by done. done. }
  assert (HE4 : forall j, dent_at (fsd w4) j = (<[i := Some (mkdent nm k)]> (dent_at (fsd w))) j).
  { intros j. rewrite <-(view_dent _ _ _ _ V2). unfold dent_at. cbn [fsd w4 with_d with_fs put_sem set_sems semfs_dents]. by rewrite E3. }
  split; [split|].
  - apply (vn_ok_ext (new_vnode_w k v n (with_d d2 w))); try done.
    + apply vn_ok_new; [done|done| |done|done]. cbn. by rewrite (view_num _ _ _ _ V2).
    + intros j. unfold marked. cbn [fsd w4 with_d with_fs new_vnode_w]. fold d3. rewrite sem_at_put by done. destruct (decide (j = k)) as [->|Hne]; [|done].
      rewrite Hat, decide_True by done. split; intros _; by eexists.
  - apply (dir_ok_link (fsd w) _ k i (mkdent nm k) created_sem); try done; [apply Hok|].
    cbn [fsd w4 with_d with_fs put_sem set_sems semfs_sems]. rewrite length_insert, E5. apply (view_len _ _ _ _ V2).
  - exists k, i. split_and!; [done|done|done|done|]. cbn [fsd w4 with_d with_fs put_sem set_sems semv_semnum]. rewrite E2. subst d0. cbn. by rewrite lookup_insert_eq.
Qed.

Lemma creat_enter_ok empty : (forall j e, dent_at (fsd w) j = Some e -> semd_name e <> nm) ->
  (forall i, empty = Some i -> (i < length (semfs_dents d1))%nat /\ dent_at (fsd w) i = None) ->
  match creat_enter empty (mkdent nm k) k (with_d d1 w) with
  | Done v w' => exists d', vnodes w !! v = None /\ w' = with_fs (<[v := vnode_init fs_vnode_ops (Some SEMFS) (Some v)]> (vnodes w)) d' w /\
      semfs_there d' = semfs_there (fsd w) /\ sem_ok w' /\ created (fsd w) v d'
  | Fail _ w' => exists d', w' = with_d d' w /\ same_view (fsd w) d'
  | Halt _ => False
  end.
Proof.
  intros Hnew Hempty. unfold creat_enter. unfold kbind at 1, attempt at 1. pose proof (enter_dent_eq empty (mkdent nm k) (with_d d1 w) _ _ _ HV Hempty) as He.
  destruct (enter_dent _ _ _) as [i w2|e w2|h]; [| |done].
  - destruct He as (d2 & -> & Hs2 & Hi2 & Hi & V2). destruct (entered_vnodes _ _ V2) as (Hw2 & Hno & Hu & _). unfold kbind at 1, attempt at 1.
    change (with_d d2 (with_d d1 w)) with (with_d d2 w). pose proof (getvnode_new k (with_d d2 w) Hw2 Hno Hu) as Hg.
    destruct (semfs_getvnode k (with_d d2 w)) as [v w3|e w3|h]; [| |done].
    + destruct Hg as (Hv & Hn & n & ->). cbn in Hn. rewrite (view_num _ _ _ _ V2) in Hn.
      destruct (created_ok v n i d2 Hi Hnew V2) as (Hat & Hl3 & Ht & Hfin); [rewrite Hs2; exact Hlen|done|done|].
      unfold kbind. rewrite (getsem_eq k _ (new_vnode_w k v n (with_d d2 w)) Hat), sems_set_eq by exact Hl3. unfold kret. eexists. split; [done|]. split; [done|]. done.
    + destruct Hg as (_ & n & ->). unfold kbind. rewrite dents_set_eq by exact Hi2. rewrite sems_set_eq by (cbn; rewrite Hs2; exact Hlen). unfold kfail.
      eexists. split; [done|]. apply (undo_sem n (<[i := None]> (<[i := Some (mkdent nm k)]> (dent_at (fsd w)))) (put_dent i None d2)); [done|by apply view_put_dent|].
      intros j. destruct (decide (j = i)) as [->|Hne]; [by rewrite fn_lookup_insert|by rewrite !fn_lookup_insert_ne].
  - destruct He as (n & ->). unfold kbind. rewrite sems_set_eq by exact Hlen. unfold kfail. eexists. split; [done|]. by apply (undo_sem n (dent_at (fsd w)) d1).
Qed.

End Enter.

(** ** The laws *)

Lemma held_live P U v w : refs P U w -> held U v w -> fs_live SEMFS (fsd w) = true.
Proof.
  intros HR (_ & f & Hv). destruct (refs_ok _ _ _ HR) as [Hw _]. rewrite (vk_fs _ Hw v f Hv) in Hv. destruct Hv as (x & Hx & Ho & Hf).
  destruct (refs_fs _ _ _ HR v x Hx Ho) as (f' & ? & ?). congruence.
Qed.

Lemma found_present i nm d j k : dir_ok d -> find_dent i nm (semfs_dents d) = Some (j, k) -> present d k.
Proof.
  intros Hd E. pose proof (find_dent_eq i nm (semfs_dents d)) as Hf. rewrite E in Hf. destruct Hf as (e & _ & He & _ & <-).
  destruct (dk_dent _ Hd (j - i) e) as (x & Hx & _); [unfold dent_at; by rewrite He|]. right. by exists x.
Qed.

Lemma not_found nm d : find_dent 0 nm (semfs_dents d) = None -> forall j e, dent_at d j = Some e -> semd_name e <> nm.
Proof.
  intros E j e He. pose proof (find_dent_eq 0 nm (semfs_dents d)) as Hf. rewrite E in Hf. apply (Hf j e). unfold dent_at in He.
  destruct (semfs_dents d !! j) as [y|]; [by subst y|done].
Qed.

Lemma creat_new_eq v nm excl mode w : sem_ok w -> is_dot nm = false -> find_dent 0 nm (semfs_dents (fsd w)) = None ->
  match semfs_creat v nm excl mode w with
  | Done (Some u) w' => exists d', vnodes w !! u = None /\ w' = with_fs (<[u := vnode_init fs_vnode_ops (Some SEMFS) (Some u)]> (vnodes w)) d' w /\
      semfs_there d' = semfs_there (fsd w) /\ sem_ok w' /\ created nm (fsd w) u d'
  | Done None w' => (exists n, granted n = false) /\ exists d', w' = with_d d' w /\ same_view (fsd w) d'
  | Fail _ w' => exists d', w' = with_d d' w /\ same_view (fsd w) d'
  | Halt _ => False
  end.
Proof.
  intros Hok Hdot Hf. unfold semfs_creat. rewrite Hdot. unfold get_fs. unfold kbind at 1, kbind at 1, kget, kret at 1. rewrite Hf. unfold kbind at 1.
  unfold semfs_sem_create. unfold kbind at 1. destruct (pieces_eq 7 w) as (n & b & ->). unfold kret at 1. destruct b; [|eexists; split; [done|apply view_reqs]].
  unfold kbind at 1. destruct (Hok) as [Hw Hd].
  pose proof (sem_insert_eq new_sem (with_d (set_reqs n (fsd w)) w) (fsd w) _ _ (view_set_reqs _ _ _ _ n (view_refl _ Hd))) as Hi. fold new_sem.
  destruct (semfs_sem_insert new_sem _) as [k w1|e w1|h]; [| |done].
  - destruct Hi as (d1 & -> & Hdents & Hk & Hroot & Hlen & HV). change (with_d d1 (with_d (set_reqs n (fsd w)) w)) with (with_d d1 w). unfold kbind at 1.
    destruct (direntry_create_eq nm k (with_d d1 w)) as (n' & r & E & Hr). rewrite E. change (with_d (set_reqs n' (fsd (with_d d1 w))) (with_d d1 w)) with (with_d (set_reqs n' d1) w).
    destruct Hr as [->| ->].
    + unfold kbind. rewrite sems_set_eq by exact Hlen. unfold kret. split; [|eexists; split; [done|by apply (undo_sem w d1 k Hk Hlen n' (dent_at (fsd w)))]].
      revert E. unfold semfs_direntry_create, sem_kmalloc, get_fs, mod_fs. kunfold. destruct (granted _) eqn:G1; [|intros; by eexists].
      cbn [negb]. cbn. destruct (granted (S _)) eqn:G2; [done|intros; by eexists].
    + assert (Hempty : forall i, empty_dent 0 (semfs_dents (fsd w)) = Some i -> (i < length (semfs_dents (set_reqs n' d1)))%nat /\ dent_at (fsd w) i = None).
      { intros i Hie. pose proof (empty_dent_eq 0 (semfs_dents (fsd w))) as Hem. rewrite Hie, Nat.sub_0_r in Hem. destruct Hem as [_ Hem].
        unfold dent_at. rewrite Hem. split; [|done]. apply lookup_lt_Some in Hem. cbn in Hdents |- *. by rewrite Hdents. }
      unfold kbind. pose proof (creat_enter_ok w (set_reqs n' d1) k nm Hok Hk Hroot Hlen (view_set_reqs _ _ _ _ n' HV) _ (not_found nm _ Hf) Hempty) as He.
      destruct (creat_enter _ _ _ _) as [u w'|e w'|h]; done.
  - destruct Hi as (n' & ->). eexists. split; [done|]. by split.
Qed.

Lemma semfs_creat_hands v nm excl mode P U : hands P U (held U v) (semfs_creat v nm excl mode) the_new.
Proof.
  intros w HR Hv. pose proof (held_live _ _ _ _ HR Hv) as Hlive. pose proof (refs_ok _ _ _ HR) as Hok.
  destruct (is_dot nm) eqn:Hdot; [unfold semfs_creat; rewrite Hdot; split; [done|apply stable_refl]|].
  destruct (find_dent 0 nm (semfs_dents (fsd w))) as [[i k]|] eqn:Hf.
  - unfold semfs_creat. rewrite Hdot. unfold get_fs. unfold kbind at 1, kbind at 1, kget, kret at 1. rewrite Hf. destruct excl; [split; [done|apply stable_refl]|].
    pose proof (getvnode_hands k P U w HR (conj Hlive (found_present _ _ _ _ _ (proj2 Hok) Hf))) as Hg. unfold kbind. by destruct (semfs_getvnode k w).
  - pose proof (creat_new_eq v nm excl mode w Hok Hdot Hf) as Hc. destruct (semfs_creat v nm excl mode w) as [[u|] w'|e w'|h]; [| | |done].
    + destruct Hc as (d' & Hu & -> & Ht & Hfin & _). apply refs_add_fs; [done|done|done|by apply same_fs_there|done].
    + destruct Hc as (_ & d' & -> & Hs). cbn [the_new]. rewrite (right_id_L ∅ (⊎) U). by apply refs_view.
    + destruct Hc as (d' & -> & Hs). by apply refs_view.
Qed.

(** A semaphore changed in place. *)
Lemma refs_put_sem P U k x y w : refs P U w -> sem_at (fsd w) k = Some x -> sems_hasvnode y = sems_hasvnode x -> sems_linked y = sems_linked x ->
  refs P U (with_d (put_sem k (Some y) (fsd w)) w) /\ stable None (P ⊎ U) w (with_d (put_sem k (Some y) (fsd w)) w).
Proof.
  intros HR Hx Hh Hl. destruct (refs_ok _ _ _ HR) as [Hw Hd]. apply sem_at_Some in Hx as Hk. destruct Hk as [Hk _].
  apply refs_fsd; [done|by apply same_fs_there|]. split.
  - apply (vn_ok_ext w); try done. intros j. unfold marked. cbn. rewrite sem_at_put by done. destruct (decide (j = k)) as [->|]; [|done]. rewrite Hx. naive_solver congruence.
  - apply (dir_ok_ext (fsd w)); [done|done| | |cbn; rewrite length_insert; apply (dk_len _ Hd)].
    + intros j. unfold linked. cbn. rewrite sem_at_put by done. destruct (decide (j = k)) as [->|]; [|done]. rewrite Hx. naive_solver congruence.
    + intros j z. cbn. rewrite sem_at_put by done. destruct (decide (j = k)) as [->|]; [|by apply (dk_used _ Hd)].
      intros [= <-]. rewrite Hh, Hl. by apply (dk_used _ Hd k).
Qed.

(** The name of a semaphore goes away, and the semaphore if it is not open. *)
Definition unlinked (i : nat) (k : Z) (x : semfs_sem) d : semfs :=
  put_dent i None (put_sem k (if sems_hasvnode x then Some (set_linked false x) else None) d).

Lemma sem_ok_unlinked i k e x w : sem_ok w -> dent_at (fsd w) i = Some e -> semd_semnum e = k -> sem_at (fsd w) k = Some x ->
  sem_ok (with_d (unlinked i k x (fsd w)) w).
Proof.
  intros [Hw [D1 D2 D3 D4 D5 D6]] Hi He Hx. apply sem_at_Some in Hx as Hk. destruct Hk as [Hk _].
  assert (Hil : (i < length (semfs_dents (fsd w)))%nat). { apply lookup_lt_is_Some. unfold dent_at in Hi. destruct (semfs_dents (fsd w) !! i); [by eexists|done]. }
  assert (HS : forall j, sem_at (unlinked i k x (fsd w)) j = if decide (j = k) then (if sems_hasvnode x then Some (set_linked false x) else None) else sem_at (fsd w) j).
  { intros j. unfold unlinked. by rewrite <- (sem_at_put (fsd w) k _ j Hk). }
  assert (HE : forall j, dent_at (unlinked i k x (fsd w)) j = if decide (j = i) then None else dent_at (fsd w) j) by (intros j; unfold unlinked; by rewrite dent_at_put).
  split.
  - apply (vn_ok_ext w); try done. intros j. unfold marked. cbn [fsd with_d with_fs]. rewrite HS. destruct (decide (j = k)) as [->|]; [|done]. rewrite Hx.
    destruct (sems_hasvnode x) eqn:Eh; (split; [intros (y & Hy & Hl)|intros (y & [= <-] & Hl)]); [by eexists|by eexists|done|congruence].
  - cbn [fsd with_d with_fs]. split; [| | | | |unfold unlinked; cbn; by rewrite length_insert].
    + intros j e'. rewrite HE. destruct (decide (j = i)) as [|Hne]; [done|]. intros Hj. rewrite HS, decide_False; [by apply (D1 j)|]. intros Hek. apply Hne, (D2 j i e' e); congruence.
    + intros j j' e1 e2. rewrite !HE. destruct (decide _), (decide _); try done. apply D2.
    + intros j j' e1 e2. rewrite !HE. destruct (decide _), (decide _); try done. apply D3.
    + intros j y. rewrite HS. destruct (decide (j = k)) as [->|Hne]; [destruct (sems_hasvnode x); [by intros [= <-]|done]|]. intros Hj Hl.
      destruct (D4 j y Hj Hl) as (i' & e' & Hi' & He'). exists i', e'. rewrite HE, decide_False by congruence. done.
    + intros j y. rewrite HS. destruct (decide (j = k)) as [->|Hne]; [|apply D5]. destruct (sems_hasvnode x) eqn:Eh; [|done]. intros [= <-]. by left.
Qed.

Lemma semfs_remove_eq v nm w : sem_ok w -> is_dot nm = false ->
  semfs_remove v nm w = match find_dent 0 nm (semfs_dents (fsd w)) with
    | None => Fail ENOENT w
    | Some (i, k) => match sem_at (fsd w) k with Some x => Done tt (with_d (unlinked i k x (fsd w)) w) | None => Halt NullDeref end
    end.
Proof.
  intros [Hw Hd] Hdot. unfold semfs_remove. rewrite Hdot. unfold get_fs. unfold kbind at 1, kbind at 1, kget, kret at 1.
  pose proof (find_dent_eq 0 nm (semfs_dents (fsd w))) as Hf. destruct (find_dent 0 nm (semfs_dents (fsd w))) as [[i k]|]; [|done].
  destruct Hf as (e & _ & He & _ & Hek). rewrite Nat.sub_0_r in He. destruct (dk_dent _ Hd i e) as (x & Hx & Hl); [unfold dent_at; by rewrite He|]. rewrite Hek in Hx.
  unfold kbind. rewrite (getsem_eq k x) by done. rewrite Hx, Hl. cbn [kassert]. unfold kret. apply sem_at_Some in Hx as [Hk _].
  rewrite sems_set_eq by done. rewrite dents_set_eq; [done|]. cbn. by apply lookup_lt_Some in He.
Qed.

Lemma semfs_remove_hands v nm P U : hands P U (held U v) (semfs_remove v nm) nothing.
Proof.
  intros w HR _. pose proof (refs_ok _ _ _ HR) as Hok.
  destruct (is_dot nm) eqn:Hdot; [unfold semfs_remove; rewrite Hdot; split; [done|apply stable_refl]|]. rewrite semfs_remove_eq by done.
  pose proof (find_dent_eq 0 nm (semfs_dents (fsd w))) as Hf. destruct (find_dent 0 nm (semfs_dents (fsd w))) as [[i k]|]; [|split; [done|apply stable_refl]].
  destruct Hf as (e & _ & He & _ & Hek). rewrite Nat.sub_0_r in He. assert (Hi : dent_at (fsd w) i = Some e) by (unfold dent_at; by rewrite He).
  destruct (dk_dent _ (proj2 Hok) i e Hi) as (x & Hx & _). rewrite Hek in Hx. rewrite Hx, refs_nothing.
  apply refs_fsd; [done|by apply same_fs_there|by apply (sem_ok_unlinked i k e)].
Qed.

Lemma semfs_truncate_hands v k len P U : hands P U (fun w => semv_semnum (fsd w) !! v = Some k /\ k <> SEMFS_ROOTDIR) (semfs_truncate v len) nothing.
Proof.
  intros w HR [Hk Hroot]. destruct (refs_ok _ _ _ HR) as [Hw Hd]. unfold semfs_truncate. destruct (len <? 0); [split; [done|apply stable_refl]|].
  destruct (_ <? len); [split; [done|apply stable_refl]|]. unfold semfs_getsem, kbind. rewrite !(semnum_eq v k) by done.
  destruct (vk_num _ Hw v (vk_dom _ Hw v k Hk)) as (k' & Hk' & [?|(x & Hx & _)]); [congruence|]. replace k' with k in Hx by congruence.
  rewrite (getsem_eq k x) by done. rewrite sems_set_eq by (by apply sem_at_Some in Hx as [? _]). rewrite refs_nothing. by apply (refs_put_sem _ _ k x).
Qed.

(** The operation is the one of the directory or the one of a semaphore. *)
Lemma sem_op_hands {A} v P U (dir file : K W A) ret :
  hands P U (fun w => held U v w /\ semv_semnum (fsd w) !! v = Some SEMFS_ROOTDIR) dir ret ->
  (forall k, hands P U (fun w => held U v w /\ semv_semnum (fsd w) !! v = Some k /\ k <> SEMFS_ROOTDIR) file ret) ->
  hands P U (held U v) (sem_op v dir file) ret.
Proof.
  intros Hdir Hfile w HR Hv. destruct (refs_ok _ _ _ HR) as [Hw _]. destruct (Hv) as (_ & f & Hf). rewrite (vk_fs _ Hw v f Hf) in Hf.
  destruct (vk_num _ Hw v) as (k & Hk & _); [by apply (vk_vn _ Hw)|]. unfold sem_op, kbind. rewrite (semnum_eq v k) by done.
  destruct (Z.eqb_spec k SEMFS_ROOTDIR) as [->|Hne]; [by apply Hdir|by apply (Hfile k)].
Qed.

Lemma fails_hands {A} e P U pre (ret : A -> gmultiset Z) : hands P U pre (kfail (S := W) e) ret.
Proof. intros w HR _. split; [done|apply stable_refl]. Qed.

Lemma incref_held {A} v (a : A) P U pre ret : ret a = {[+ v +]} -> (forall w, pre w -> held U v w) -> hands P U pre (vnode_incref v ;;; kret a) ret.
Proof.
  intros Hr Hp w HR Hv. apply Hp in Hv as (Hin & f & x & Hx & Ho & _). destruct (incref_hands P U v w x HR Hx) as (w' & E & Hw' & Hs); [congruence|].
  kunfold. rewrite E, Hr. split; [done|apply Hs].
Qed.

Lemma semfs_lookup_hands v path P U : hands P U (held U v) (semfs_lookup v path) the_vnode.
Proof.
  unfold semfs_lookup. destruct (is_dot path); [by apply incref_held|]. intros w HR Hv. unfold get_fs. unfold kbind at 1, kbind at 1, kget, kret at 1.
  destruct (find_dent 0 path (semfs_dents (fsd w))) as [[i k]|] eqn:Hf; [|split; [done|apply stable_refl]].
  apply getvnode_hands; [done|]. split; [by apply (held_live P U v)|]. apply (found_present _ _ _ _ _ (proj2 (refs_ok _ _ _ HR)) Hf).
Qed.

(** Asking for the number of a vnode changes nothing. *)
Lemma semnum_hands {A} v P U (f : Z -> K W A) ret : (forall k, hands P U (held U v) (f k) ret) -> hands P U (held U v) (k <- semnum_of v ;; f k) ret.
Proof.
  intros Hf w HR Hv. destruct (refs_ok _ _ _ HR) as [Hw _]. destruct (Hv) as (_ & g & Hg). rewrite (vk_fs _ Hw v g Hg) in Hg.
  destruct (vk_num _ Hw v) as (k & Hk & _); [by apply (vk_vn _ Hw)|]. unfold kbind. rewrite (semnum_eq v k) by done. by apply Hf.
Qed.

Lemma done_hands {A} (a : A) P U pre : hands P U pre (kret (S := W) a) nothing.
Proof. intros w HR _. by apply quiet. Qed.

Lemma semfs_eachopen_hands v flags P U : hands P U (held U v) (semfs_eachopen v flags) nothing.
Proof.
  apply semnum_hands. intros k. destruct (k =? _); [|apply done_hands]. destruct (negb _); [apply fails_hands|]. destruct (negb _); [apply fails_hands|apply done_hands].
Qed.

Lemma held2_held {A} v v2 P U (m : K W A) ret : hands P U (held U v) m ret -> hands P U (held2 U v v2) m ret.
Proof. intros Hm. apply (hands_pre _ _ (held U v)); [|done]. intros w _ (? & _ & f & ? & _). split; [done|by exists f]. Qed.

(** [semfs_creat] reports success without a vnode only when memory is refused. *)
Lemma semfs_creat_none v nm excl mode w w' : sem_ok w -> semfs_creat v nm excl mode w = Done None w' -> exists n, granted n = false.
Proof.
  intros Hok E. destruct (is_dot nm) eqn:Hdot; [unfold semfs_creat in E; by rewrite Hdot in E|].
  destruct (find_dent 0 nm (semfs_dents (fsd w))) as [[i k]|] eqn:Hf.
  - unfold semfs_creat in E. rewrite Hdot in E. unfold get_fs in E. unfold kbind at 1, kbind at 1, kget, kret at 1 in E. rewrite Hf in E.
    destruct excl; [done|]. unfold kbind in E. by destruct (semfs_getvnode k w).
  - pose proof (creat_new_eq v nm excl mode w Hok Hdot Hf) as Hc. rewrite E in Hc. apply Hc.
Qed.

Ltac weaker U v law := apply (hands_pre _ _ (held U v)); [by intros ? _ [? _]|apply law].

#[global] Instance semfs_laws : FsLaws semfs.
Proof.
  split; [apply semfs_frame|..]; intros.
  - apply done_hands.
  - intros w HR Hl. apply (getvnode_hands SEMFS_ROOTDIR); [done|]. split; [|by left]. cbn in *. by destruct (f =? SEMFS).
  - done.
  - destruct (semfs_reclaim_refs v f P U w) as (w' & E & Hr); [done|done|done|]. cbn. by rewrite E.
  - apply semfs_eachopen_hands.
  - apply sem_op_hands; intros; apply fails_hands.
  - apply semnum_hands. intros k. apply done_hands.
  - apply sem_op_hands; [apply fails_hands|]. intros k. apply (hands_pre _ _ (fun w => semv_semnum (fsd w) !! v = Some k /\ k <> SEMFS_ROOTDIR)); [by intros ? _ [_ ?]|].
    apply semfs_truncate_hands.
  - apply sem_op_hands; intros; [apply done_hands|apply fails_hands].
  - apply sem_op_hands; intros; [weaker U v semfs_creat_hands|apply fails_hands].
  - apply sem_op_hands; intros; apply fails_hands.
  - apply sem_op_hands; intros; apply fails_hands.
  - apply held2_held, sem_op_hands; intros; apply fails_hands.
  - apply sem_op_hands; intros; [weaker U v semfs_remove_hands|apply fails_hands].
  - apply sem_op_hands; intros; apply fails_hands.
  - apply held2_held, sem_op_hands; intros; apply fails_hands.
  - apply sem_op_hands; intros; [weaker U v semfs_lookup_hands|apply fails_hands].
  - apply sem_op_hands; intros; [|apply fails_hands]. cbn. unfold semfs_lookparent. destruct (_ <? _); [apply fails_hands|]. apply incref_held; [done|by intros ? [? _]].
  - apply done_hands.
Qed.

(** The same through the vnode's table of operations. *)
Lemma VOP_CREAT_none v nm excl mode w w' : sem_ok w -> VOP_CREAT v nm excl mode w = Done None w' -> exists n, granted n = false.
Proof.
  intros Hok. unfold VOP_CREAT, VOP, vnode_check, vn_get. kunfold. destruct (vnodes w !! v) as [x|] eqn:Hx; [|done].
  destruct (_ <=? _); [done|]. rewrite Hx. destruct (vn_ops x); [done|]. cbn [fs_creat semfs_ops]. unfold sem_op, semnum_of, get_fs. kunfold.
  destruct (semv_semnum (fsd w) !! v) as [k|]; [|done]. destruct (k =? SEMFS_ROOTDIR); [|done]. by apply semfs_creat_none.
Qed.

End SemFsSpec.
