(* ===== verification/SemFsSystem.v ===== *)
(** * A kernel that has booted with the semaphore file system

    The VFS layer and the semaphore file system together, from [vfs_bootstrap] on, for
    any sequence of answers of [kmalloc]; and what happens when memory is refused. *)

From stdpp Require Import base numbers functions list gmap gmultiset.
From Stdlib Require Import ZArith Lia.
From S2P Require Import Prelude SfsDisk Vnode VfsList VfsLookup VfsSpec SemFs SemFsSpec.

Open Scope Z_scope.
Open Scope k_scope.

(** Before [vfs_bootstrap] there are no vnodes, devices and file systems. *)
Definition power_on : vfs semfs :=
  mkvfs (mkworld ∅ ∅ ∅ (mksemfs [] ∅ [] [] false 0)) [] None None false 0 0.

Definition boot {M : Kmem} : outcome (vfs semfs) unit := vfs_bootstrap semfs_bootstrap power_on.

(** The null device and "sem:". *)
Definition booted_world : world semfs :=
  mkworld {[0 := mkvnode 1 None (Some 0) dev_vnode_ops; 1 := mkvnode 1 None None dev_vnode_ops]}
          {[0 := mkdevice null_devops 0 1 1]} ∅ (mksemfs [] ∅ [] [] true 10).

Definition booted : vfs semfs :=
  mkvfs booted_world [mkkd null_name None (Some 0) 0 None; mkkd sem_name None None 1 (Some SEMFS)] None None false 0 11.

(** The state between the null device and the semaphore file system. *)
Definition null_ready : vfs semfs := Eval vm_compute in
  match vfs_bootstrap (M := fun _ => true) (kret tt) power_on with Done _ s => s | _ => power_on end.

(** The state after [semfs_create]. *)
Definition semfs_ready : vfs semfs := Eval vm_compute in
  match on_world (semfs_create (M := fun _ => true)) null_ready with Done _ s => s | _ => null_ready end.

(** Follow a run with closed states up to the next request for memory, and see both
    answers. *)
Ltac next_request M H :=
  match type of H with
  | Halt _ = _ => discriminate H
  | context [set_requests ?n ?st] =>
      let v := eval vm_compute in (set_requests n st) in change (set_requests n st) with v in H
  | context [@fresh ?A ?C ?I ?x] =>
      let v := eval vm_compute in (@fresh A C I x) in change (@fresh A C I x) with v in H
  | ?l = ?r => let l' := eval lazy head in l in
      match l' with
      | Halt _ => change (l' = r) in H
      | context [match M ?n with _ => _ end] => change (l' = r) in H; destruct (M n)
      end
  end.

Lemma null_ready_inv {M : Kmem} s : vfs_bootstrap (kret tt) power_on = Done tt s -> s = null_ready.
Proof.
  intros H. repeat next_request M H. vm_compute in H. injection H as <-. reflexivity.
Qed.

Lemma pieces_granted {M : Kmem} m (w w' : world semfs) : pieces m w = Done true w' ->
  w' = with_d (set_reqs (m + semfs_reqs (fsd w))%nat (fsd w)) w.
Proof.
  revert w. induction m as [|m IH]; intros w; cbn [pieces].
  - intros [= <-]. by destruct w as [? ? ? []].
  - unfold kbind at 1, sem_kmalloc. unfold get_fs, mod_fs. kunfold. destruct (granted _); [|done]. intros E%IH. rewrite E. cbn.
    by replace (m + S (semfs_reqs (fsd w)))%nat with (S (m + semfs_reqs (fsd w))) by lia.
Qed.

Lemma semfs_ready_inv {M : Kmem} s : on_world semfs_create null_ready = Done true s -> s = semfs_ready.
Proof.
  unfold on_world, semfs_create. unfold kbind at 1. destruct (pieces 10 (wd null_ready)) as [[] w|e w|h] eqn:E; [|done..].
  apply pieces_granted in E as ->. intros H. vm_compute in H. by injection H as <-.
Qed.

Lemma addfs_inv {M : Kmem} s : vfs_addfs sem_name SEMFS semfs_ready = Done tt s -> s = booted.
Proof.
  intros H. repeat next_request M H; vm_compute in H; try discriminate H. injection H as <-. reflexivity.
Qed.

(** A boot that succeeds leaves this state; one that does not is a panic. *)
Lemma boot_inv {M : Kmem} s : boot = Done tt s -> s = booted.
Proof.
  intros H. assert (E : boot = (vfs_bootstrap (kret tt) ;;; semfs_bootstrap) power_on).
  { unfold boot, vfs_bootstrap. kunfold. by repeat case_match. }
  rewrite E in H. unfold kbind at 1 in H. destruct (vfs_bootstrap (kret tt) power_on) as [[] s1| |] eqn:E1; [|done..].
  apply null_ready_inv in E1 as ->. unfold semfs_bootstrap, kbind at 1 in H.
  destruct (on_world semfs_create null_ready) as [[] s1| |] eqn:E1; [|done..]. apply semfs_ready_inv in E1 as ->.
  unfold kbind, attempt in H. cbn [negb] in H. destruct (vfs_addfs sem_name SEMFS semfs_ready) as [[] s1| |] eqn:E1; [|done..].
  injection H as <-. by apply addfs_inv.
Qed.

Lemma booted_vnodes v x : vnodes booted_world !! v = Some x ->
  (v = 0 /\ x = mkvnode 1 None (Some 0) dev_vnode_ops) \/ (v = 1 /\ x = mkvnode 1 None None dev_vnode_ops).
Proof. unfold booted_world. cbn [vnodes]. rewrite !lookup_insert_Some, lookup_singleton_Some. naive_solver. Qed.

Lemma booted_sems : sem_ok booted_world.
Proof.
  assert (Hno : forall v f, ~ on_fs booted_world v f) by (intros v f (x & [[-> ->]|[-> ->]]%booted_vnodes & ? & _); done).
  assert (Hs : forall k, sem_at (fsd booted_world) k = None) by (intros k; unfold sem_at; by destruct (k <? 0)).
  split; split; try done; try (by intros; rewrite Hs in *).
  - by intros v f ?%Hno.
  - intros v. split; [by intros ?%not_elem_of_nil|by intros ?%Hno].
  - constructor.
  - by intros v ?%not_elem_of_nil.
Qed.

Section System.
Context {M : Kmem}.

Lemma booted_inv : vinv [] ∅ 0 booted.
Proof.
  split; try done.
  - split; [..|exact booted_sems].
    + intros v. unfold count, perm, owned. cbn [fmap list_fmap knowndevs booted kd_vnode bootfs_vnode p_cwd opt_ref unreclaimed booted_world vnodes wd].
      rewrite !list_to_set_disj_cons, list_to_set_disj_nil, !multiplicity_disj_union, !multiplicity_singleton, !multiplicity_empty.
      destruct (decide (v = 0)) as [->|]; [done|]. destruct (decide (v = 1)) as [->|]; [done|]. by rewrite lookup_insert_ne, lookup_singleton_ne by done.
    + intros v x [[-> ->]|[-> ->]]%booted_vnodes; done.
    + intros v x [[-> ->]|[-> ->]]%booted_vnodes; intros _; (split; [|done]); unfold perm; cbn [fmap list_fmap knowndevs booted kd_vnode];
        rewrite !list_to_set_disj_cons; multiset_solver.
    + intros v x Hv. unfold owned in Hv. cbn [opt_ref bootfs_vnode p_cwd booted] in Hv. multiset_solver.
    + intros v x [[-> ->]|[-> ->]]%booted_vnodes; done.
  - apply Forall_cons_2; [|apply Forall_singleton]; split; cbn [kd_device kd_rawname kd_fs kd_vnode]; try done; try (by intros ? ?%is_Some_None).
    + exists (mkvnode 1 None (Some 0) dev_vnode_ops). split; [vm_compute; reflexivity|done].
    + intros p [= <-]. exists (mkdevice null_devops 0 1 1). vm_compute. reflexivity.
    + by eexists.
  - apply NoDup_singleton.
  - intros f. change ((f =? SEMFS) && true = true <-> f ∈ [SEMFS]). rewrite list_elem_of_singleton, andb_true_r. apply Z.eqb_eq.
Qed.

(** The states that calls of the VFS layer lead to, with the references their callers
    hold. *)
Inductive reachable : gmultiset Z -> vfs semfs -> Prop :=
| reach_boot s : boot = Done tt s -> reachable ∅ s
| reach_done U s c vs s' : reachable (U ⊎ takes c) s -> call_ok (U ⊎ takes c) s c -> run c s = Done vs s' -> reachable (U ⊎ list_to_set_disj vs) s'
| reach_fail U s c e s' : reachable (U ⊎ takes c) s -> call_ok (U ⊎ takes c) s c -> run c s = Fail e s' -> reachable U s'.

Lemma system_inv U s : reachable U s -> vinv [] U 0 s.
Proof.
  induction 1 as [s E|U s c vs s' _ IH Hc E|U s c e s' _ IH Hc E].
  - rewrite (boot_inv s E). exact booted_inv.
  - pose proof (run_ok U 0 s c IH ltac:(done) Hc) as Hw. by rewrite E in Hw.
  - pose proof (run_ok U 0 s c IH ltac:(done) Hc) as Hw. by rewrite E in Hw.
Qed.

(** The parent directory in which an open creates its file is looked up by a call that
    keeps the invariant. *)
Lemma no_vnode_refused U s path flags mode : vinv [] U 0 s -> no_vnode path flags mode s -> exists n, granted n = false.
Proof.
  intros HI (_ & dir & nm & s1 & w' & E1 & E2). pose proof (lookparent_wp [] U 0 s path (NAME_MAX + 1) HI ltac:(done)) as Hw.
  unfold wp in Hw. rewrite E1 in Hw. apply VOP_CREAT_none in E2; [done|]. apply (vi_refs _ _ _ _ Hw).
Qed.

(** C13. From the end of [vfs_bootstrap] on, whatever the kernel asks of the VFS layer with
    the semaphore file system behind it, and whatever memory is refused on the way: every
    reference count is the number of references held; the table of vnodes has exactly the
    vnodes of the file system that are in memory, one for each semaphore; every name in the
    directory is the name of one semaphore of its own; and a semaphore is there as long as
    it has a name or is open, and no longer. As long as no request for memory is refused no
    assertion of either fails and no vnode is used after it was freed; when one is refused
    the only thing that can stop the kernel is the assertion of [vfs_open] in an open with
    O_CREAT ([open_out_of_memory] below shows that it does). *)
Theorem semfs_system (U : gmultiset Z) (s : vfs semfs) (HR : reachable U s) :
  (forall v, count (wd s) v = Z.of_nat (multiplicity v (perm (knowndevs s) ⊎ owned s ⊎ U ⊎ unreclaimed (wd s)))) /\
  vn_ok (wd s) /\ dir_ok (fsd (wd s)) /\
  (forall V c h, U = V ⊎ takes c -> call_ok U s c -> run c s = Halt h ->
     h = KAssert /\ (exists path flags mode, c = COpen path flags mode /\ Z.land flags O_CREAT <> 0) /\
     exists n, granted n = false).
Proof.
  pose proof (system_inv U s HR) as HI. destruct (vi_refs _ _ _ _ HI) as [Hc _ _ _ _ [Hv Hd]]. split_and!; [|done|done|].
  - intros v. rewrite Hc. by rewrite !(assoc_L (⊎)).
  - intros V c h -> Hok E. pose proof (run_ok V 0 s c HI ltac:(done) Hok) as Hw. rewrite E in Hw.
    destruct Hw as (-> & path & flags & mode & -> & Hn). split_and!; [done| |by apply (no_vnode_refused _ _ _ _ _ HI Hn)].
    exists path, flags, mode. split; [done|apply Hn].
Qed.

Lemma reachable_sems U s : reachable U s -> sem_ok (wd s).
Proof. intros HR%system_inv. apply (vi_refs _ _ _ _ HR). Qed.

End System.

(** Memory that is never refused. *)
#[local] Instance ample_mem : Kmem := fun _ => true.

Lemma boot_eq : boot = Done tt booted.
Proof. vm_compute. reflexivity. Qed.

(** Opening "sem:a" for the first time: the caller gets the only reference to a vnode with
    a semaphore that has a name. *)
Definition a_path : name := sem_name ++ [COLON; 97].
Definition open_a : call (D := semfs) := COpen a_path (Z.lor O_CREAT O_RDWR) 0.
Definition opened : vfs semfs := match run open_a booted with Done _ s | Fail _ s => s | Halt _ => booted end.

Lemma opened_eq : run open_a booted = Done [3] opened.
Proof. vm_compute. reflexivity. Qed.

Lemma opened_reachable : reachable (∅ ⊎ {[+ 3 +]}) opened.
Proof. rewrite <- list_one. apply (reach_done ∅ booted open_a [3] opened); [apply (reach_boot _ boot_eq)|exact I|exact opened_eq]. Qed.

Lemma semfs_system_witness :
  run open_a booted = Done [3] opened /\ sem_at (fsd (wd opened)) 0 = Some (mksem 0 true true) /\ count (wd opened) 3 = 1 /\
  vn_ok (wd opened) /\ (forall h, run (CClose 3) opened <> Halt h).
Proof.
  destruct (semfs_system _ _ opened_reachable) as (_ & Hv & _ & Hrun).
  split; [exact opened_eq|]. split; [vm_compute; reflexivity|]. split; [vm_compute; reflexivity|]. split; [exact Hv|].
  intros h Hh. destruct (Hrun ∅ (CClose 3) h eq_refl) as (_ & _ & n & Hn); [|exact Hh|discriminate Hn].
  apply gmultiset_elem_of_disj_union. right. by apply gmultiset_elem_of_singleton.
Defined.

(** When the memory for the directory entry is refused, [semfs_creat] reports success
    without a vnode and the assertion of [vfs_open] fails. *)
Example open_out_of_memory :
  vfs_open (F := @semfs_ops (fun n => negb (n =? 20)%nat)) a_path (Z.lor O_CREAT O_RDWR) 0 booted = Halt KAssert.
Proof. vm_compute. reflexivity. Qed.
