(* ===== verification/SemFsNames.v ===== *)
(** * What the directory of the semaphore file system means

    The directory is a finite map from names to semaphores and every semaphore has a value;
    the operations of SemFs.v are shown to be the operations on these two maps. *)

From stdpp Require Import base numbers functions list gmap gmultiset.
From Stdlib Require Import ZArith Lia.
From stdpp Require Import list_relations.
From S2P Require Import Prelude SfsDisk Vnode VfsList VfsLookup SemFs SemFsSpec SemFsSystem.

Open Scope Z_scope.
Open Scope k_scope.

Definition names (d : semfs) : gmap name Z := list_to_map ((fun e => (semd_name e, semd_semnum e)) <$> omap id (semfs_dents d)).

Definition value (d : semfs) (k : Z) : option Z := sems_count <$> sem_at d k.

(** Somebody has the semaphore open. *)
Definition is_open (d : semfs) (k : Z) : bool := match sem_at d k with Some x => sems_hasvnode x | None => false end.

(** The same names and values. *)
Definition same_sems (d d' : semfs) : Prop := names d' = names d /\ forall k, value d' k = value d k.

Section SemFsNames.
Context {M : Kmem}.
Local Abbreviation W := (world semfs).
Implicit Types (w : W) (d : semfs).

Lemma omap_id_elem {A} (l : list (option A)) x : x ∈ omap id l <-> exists i, l !! i = Some (Some x).
Proof.
  rewrite list_elem_of_omap. split.
  - intros (o & Ho & E). cbn in E. subst o. by apply list_elem_of_lookup_1 in Ho.
  - intros (i & Hi). exists (Some x). split; [by apply (list_elem_of_lookup_2 _ i)|done].
Qed.

Lemma dent_at_lookup d i e : dent_at d i = Some e <-> semfs_dents d !! i = Some (Some e).
Proof. unfold dent_at. destruct (semfs_dents d !! i) as [y|]; naive_solver. Qed.

Lemma names_nodup d : dir_ok d -> NoDup ((fun e => semd_name e) <$> omap id (semfs_dents d)).
Proof.
  intros Hd. pose proof (dk_name _ Hd) as Hn. setoid_rewrite dent_at_lookup in Hn. clear Hd. induction (semfs_dents d) as [|[e|] l IH]; cbn; [constructor| |].
  - apply NoDup_cons. split.
    + intros (e' & Ee & (i & Hi)%omap_id_elem)%list_elem_of_fmap. by pose proof (Hn O (S i) e e' eq_refl Hi Ee).
    + apply IH. intros i j e1 e2 H1 H2 He. by injection (Hn (S i) (S j) e1 e2 H1 H2 He).
  - apply IH. intros i j e1 e2 H1 H2 He. by injection (Hn (S i) (S j) e1 e2 H1 H2 He).
Qed.

Lemma names_Some d nm k : dir_ok d -> names d !! nm = Some k <-> exists i e, dent_at d i = Some e /\ semd_name e = nm /\ semd_semnum e = k.
Proof.
  intros Hd. unfold names. rewrite <- elem_of_list_to_map.
  - rewrite list_elem_of_fmap. setoid_rewrite omap_id_elem. setoid_rewrite dent_at_lookup. naive_solver.
  - rewrite <- list_fmap_compose. exact (names_nodup d Hd).
Qed.

Lemma find_names d nm : dir_ok d -> names d !! nm = snd <$> find_dent 0 nm (semfs_dents d).
Proof.
  intros Hd. pose proof (find_dent_eq 0 nm (semfs_dents d)) as Hf. destruct (find_dent 0 nm (semfs_dents d)) as [[i k]|]; cbn.
  - destruct Hf as (e & _ & He & ? & ?). apply names_Some; [done|]. exists (i - 0)%nat, e. by rewrite dent_at_lookup.
  - destruct (names d !! nm) as [k|] eqn:E; [|done]. apply names_Some in E as (i & e & He & Hn & _); [|done]. apply dent_at_lookup in He. by destruct (Hf i e He).
Qed.

(** Directories with the same entries have the same names. *)
Lemma names_ext d d' : dir_ok d -> dir_ok d' -> (forall i, dent_at d' i = dent_at d i) -> names d' = names d.
Proof.
  intros Hd Hd' HE. apply map_eq. intros nm. apply option_eq. intros k. rewrite !names_Some by done. setoid_rewrite HE. done.
Qed.

Lemma names_created nm v d d' : dir_ok d -> dir_ok d' -> names d !! nm = None -> created nm d v d' ->
  exists k, value d k = None /\ names d' = <[nm := k]> (names d) /\ (forall j, value d' j = (<[k := Some 0]> (value d)) j) /\ semv_semnum d' !! v = Some k.
Proof.
  intros Hd Hd' Hn (k & i & Hk & Hi & HS & HE & Hv). exists k. split; [unfold value; by rewrite Hk|]. split; [|split; [|done]].
  - apply map_eq. intros nm'. apply option_eq. intros j. rewrite names_Some by done. setoid_rewrite HE. split.
    + intros (i' & e & He & <- & <-). destruct (decide (i' = i)) as [->|Hne].
      * rewrite fn_lookup_insert in He. injection He as <-. cbn. by rewrite lookup_insert_eq.
      * rewrite fn_lookup_insert_ne in He by done. rewrite lookup_insert_ne; [by apply names_Some; [|exists i', e]|].
        intros Heq. assert (names d !! semd_name e = Some (semd_semnum e)) by (apply names_Some; [done|by exists i', e]). congruence.
    + intros [[<- <-]|[Hne Hj]]%lookup_insert_Some; [exists i, (mkdent nm k); by rewrite fn_lookup_insert|].
      apply names_Some in Hj as (i' & e & He & ? & ?); [|done]. exists i', e. rewrite fn_lookup_insert_ne by congruence. done.
  - intros j. unfold value. rewrite HS. destruct (decide (j = k)) as [->|Hne]; [by rewrite !fn_lookup_insert|by rewrite !fn_lookup_insert_ne].
Qed.

Lemma same_sems_view d d' : dir_ok d -> dir_ok d' -> same_view d d' -> same_sems d d'.
Proof. intros Hd Hd' [V1 V2 V3 V4 V5 V6]. split; [by apply names_ext|]. intros k. unfold value. by rewrite V3. Qed.

(** Getting the vnode of a semaphore changes neither. *)
Lemma getvnode_sems k w : sem_ok w -> present (fsd w) k ->
  match semfs_getvnode k w with
  | Done v w' => semv_semnum (fsd w') !! v = Some k /\ same_sems (fsd w) (fsd w')
  | Fail e w' => e = ENOMEM /\ same_sems (fsd w) (fsd w')
  | Halt _ => False
  end.
Proof.
  intros Hok Hp. destruct (vnode_cases k w Hok Hp) as [[v Hv]|[Hno Hu]]; destruct Hok as [Hw Hd].
  - rewrite (getvnode_old k v) by done. destruct (proj1 (vk_vn _ Hw v) (vk_dom _ Hw v k Hv)) as (x & Hx & _).
    unfold vnode_incref, vn_update, vn_get. kunfold. rewrite Hx. split; [exact Hv|by split].
  - pose proof (getvnode_new k w Hw Hno Hu) as Hg. destruct (semfs_getvnode k w) as [v w'|e w'|h]; [| |done].
    + destruct Hg as (_ & Hn & n & ->). pose proof (dir_ok_new k v n w Hd Hu) as Hd'. revert Hd'. unfold new_vnode_w, new_vnode_d. cbn [fsd with_fs]. set (d0 := set_reqs n _). intros Hd'.
      destruct (mark_fields k d0) as (_ & E2 & E3 & _). split; [rewrite E2; subst d0; cbn; by rewrite lookup_insert_eq|]. split.
      * apply names_ext; [done|done|]. intros i. unfold dent_at. by rewrite E3.
      * intros j. unfold value. rewrite (sem_at_mark k d0 j Hu). destruct (decide (j = k)) as [->|]; [|done].
        change (sem_at d0 k) with (sem_at (fsd w) k). destruct (k =? SEMFS_ROOTDIR); [done|]. by destruct (sem_at (fsd w) k).
    + destruct Hg as (-> & n & ->). split; [done|]. by split.
Qed.

Lemma semfs_lookup_sems dirvn nm w : sem_ok w -> is_dot nm = false ->
  match semfs_lookup dirvn nm w with
  | Done v w' => semv_semnum (fsd w') !! v = names (fsd w) !! nm /\ is_Some (names (fsd w) !! nm) /\ same_sems (fsd w) (fsd w')
  | Fail e w' => same_sems (fsd w) (fsd w') /\ e = match names (fsd w) !! nm with Some _ => ENOMEM | None => ENOENT end
  | Halt _ => False
  end.
Proof.
  intros Hok Hdot. unfold semfs_lookup. rewrite Hdot. unfold get_fs. unfold kbind at 1, kbind at 1, kget, kret at 1. rewrite (find_names _ nm (proj2 Hok)).
  destruct (find_dent 0 nm (semfs_dents (fsd w))) as [[i k]|] eqn:Hf; cbn [fmap option_fmap option_map snd]; [|done].
  pose proof (getvnode_sems k w Hok (found_present _ _ _ _ _ (proj2 Hok) Hf)) as Hg. destruct (semfs_getvnode k w); [|tauto|done].
  destruct Hg. split_and!; [done|by eexists|done].
Qed.

Lemma semfs_creat_sems dirvn nm excl mode w : sem_ok w -> is_dot nm = false ->
  match names (fsd w) !! nm with
  | Some k => semfs_creat dirvn nm excl mode w = if excl then Fail EEXIST w else (v <- semfs_lookup dirvn nm ;; kret (Some v)) w
  | None =>
      match semfs_creat dirvn nm excl mode w with
      | Done (Some v) w' => exists k, value (fsd w) k = None /\ names (fsd w') = <[nm := k]> (names (fsd w)) /\
          (forall j, value (fsd w') j = (<[k := Some 0]> (value (fsd w))) j) /\ semv_semnum (fsd w') !! v = Some k
      | Done None w' | Fail _ w' => same_sems (fsd w) (fsd w')
      | Halt _ => False
      end
  end.
Proof.
  intros Hok Hdot. destruct (Hok) as [Hw Hd]. pose proof (find_names (fsd w) nm Hd) as Hn. rewrite Hn.
  destruct (find_dent 0 nm (semfs_dents (fsd w))) as [[i k]|] eqn:Hf; cbn [fmap option_fmap option_map snd].
  - unfold semfs_creat, semfs_lookup. rewrite Hdot. unfold get_fs. kunfold. rewrite Hf. by destruct excl.
  - pose proof (creat_new_eq dirvn nm excl mode w Hok Hdot Hf) as Hc.
    assert (Hs : forall d', same_view (fsd w) d' -> same_sems (fsd w) d') by (intros d' HV; apply same_sems_view; [done|exact (proj2 (sem_ok_view d' w Hok HV))|done]).
    destruct (semfs_creat dirvn nm excl mode w) as [[v|] w'|e w'|h]; [| | |done].
    + destruct Hc as (d' & _ & -> & _ & [_ Hd'] & Hc). by apply (names_created nm v).
    + destruct Hc as (_ & d' & -> & HV). by apply Hs.
    + destruct Hc as (d' & -> & HV). by apply Hs.
Qed.

Lemma semfs_remove_sems dirvn nm w : sem_ok w -> is_dot nm = false ->
  match names (fsd w) !! nm with
  | None => semfs_remove dirvn nm w = Fail ENOENT w
  | Some k => exists w', semfs_remove dirvn nm w = Done tt w' /\ names (fsd w') = delete nm (names (fsd w)) /\
      forall j, value (fsd w') j = if decide (j = k) then (if is_open (fsd w) k then value (fsd w) k else None) else value (fsd w) j
  end.
Proof.
  intros Hok Hdot. destruct (Hok) as [Hw Hd]. rewrite semfs_remove_eq by done. rewrite (find_names (fsd w) nm Hd).
  pose proof (find_dent_eq 0 nm (semfs_dents (fsd w))) as Hf. destruct (find_dent 0 nm (semfs_dents (fsd w))) as [[i k]|]; cbn [fmap option_fmap option_map snd]; [|done].
  destruct Hf as (e & _ & He & Hen & Hek). rewrite Nat.sub_0_r in He. apply dent_at_lookup in He as Hi. destruct (dk_dent _ Hd i e Hi) as (x & Hx & _). rewrite Hek in Hx.
  rewrite Hx. eexists. split; [done|]. pose proof (sem_ok_unlinked i k e x w Hok Hi Hek Hx) as [_ Hd']. cbn [fsd with_d with_fs] in *.
  apply sem_at_Some in Hx as Hk. destruct Hk as [Hk _]. apply lookup_lt_Some in He.
  assert (HE : forall j, dent_at (unlinked i k x (fsd w)) j = if decide (j = i) then None else dent_at (fsd w) j) by (intros j; unfold unlinked; by rewrite dent_at_put).
  split.
  - apply map_eq. intros nm'. apply option_eq. intros j. rewrite lookup_delete_Some, !names_Some by done. setoid_rewrite HE. split.
    + intros (i' & e' & He' & <- & <-). destruct (decide (i' = i)) as [|Hne]; [done|]. split; [|by exists i', e'].
      intros Heq. apply Hne, (dk_name _ Hd i' i e' e); congruence.
    + intros (Hne & i' & e' & He' & <- & <-). exists i', e'. rewrite decide_False by congruence. done.
  - intros j. unfold value, unlinked, is_open. change (sem_at (put_dent ?a ?b ?c) j) with (sem_at c j). rewrite sem_at_put by done.
    destruct (decide (j = k)) as [->|]; [|done]. rewrite Hx. by destruct (sems_hasvnode x).
Qed.

(** C14. The directory of the semaphore file system is a map from names to semaphores, and
    its operations are those of the map: a lookup finds the semaphore of the name and
    changes nothing, not even values; a creation gives a new name a semaphore that did not
    exist, with value 0, and leaves the others alone, opens the one of an existing name or,
    when it is to be exclusive, refuses it; a removal takes the name away and the semaphore
    with it, unless somebody has it open; and an error, also for lack of memory at any
    point, changes no name and no value. *)
Theorem semfs_dir_spec (dirvn mode : Z) (nm : name) (excl : bool) (w : W) (Hok : sem_ok w) (Hdot : is_dot nm = false) :
  match semfs_lookup dirvn nm w with
  | Done v w' => semv_semnum (fsd w') !! v = names (fsd w) !! nm /\ is_Some (names (fsd w) !! nm) /\ same_sems (fsd w) (fsd w')
  | Fail e w' => same_sems (fsd w) (fsd w') /\ e = match names (fsd w) !! nm with Some _ => ENOMEM | None => ENOENT end
  | Halt _ => False
  end /\
  match names (fsd w) !! nm with
  | Some k =>
      semfs_creat dirvn nm excl mode w = (if excl then Fail EEXIST w else (v <- semfs_lookup dirvn nm ;; kret (Some v)) w) /\
      exists w', semfs_remove dirvn nm w = Done tt w' /\ names (fsd w') = delete nm (names (fsd w)) /\
        forall j, value (fsd w') j = if decide (j = k) then (if is_open (fsd w) k then value (fsd w) k else None) else value (fsd w) j
  | None =>
      semfs_remove dirvn nm w = Fail ENOENT w /\
      match semfs_creat dirvn nm excl mode w with
      | Done (Some v) w' => exists k, value (fsd w) k = None /\ names (fsd w') = <[nm := k]> (names (fsd w)) /\
          (forall j, value (fsd w') j = (<[k := Some 0]> (value (fsd w))) j) /\ semv_semnum (fsd w') !! v = Some k
      | Done None w' | Fail _ w' => same_sems (fsd w) (fsd w')
      | Halt _ => False
      end
  end.
Proof.
  split; [by apply semfs_lookup_sems|]. pose proof (semfs_creat_sems dirvn nm excl mode w Hok Hdot) as Hc.
  pose proof (semfs_remove_sems dirvn nm w Hok Hdot) as Hr. by destruct (names (fsd w) !! nm).
Qed.

End SemFsNames.

(** The open semaphore "a" keeps its value when its name is removed. *)
Lemma semfs_dir_spec_witness :
  names (fsd (wd opened)) !! [97] = Some 0 /\
  exists w', semfs_remove 1 [97] (wd opened) = Done tt w' /\ names (fsd w') !! [97] = None /\ value (fsd w') 0 = Some 0.
Proof.
  assert (E : names (fsd (wd opened)) !! [97] = Some 0) by (vm_compute; reflexivity). split; [exact E|].
  destruct (semfs_dir_spec (M := ample_mem) 1 0 [97] false (wd opened) (reachable_sems _ _ opened_reachable) ltac:(vm_compute; reflexivity)) as [_ H].
  rewrite E in H. destruct H as (_ & w' & Er & Hn & Hv). exists w'. split; [exact Er|]. split; [by rewrite Hn, lookup_delete_eq|].
  rewrite Hv. vm_compute. reflexivity.
Defined.
