(* ===== verification/SemPV.v ===== *)
(** * P and V on a semaphore of the semaphore file system

    Reading from a semaphore is P and writing is V, by as many units as bytes
    (kern/fs/semfs/semfs_vnops.c). Any number of threads run them on one semaphore. They
    hold [sems_lock] except while they wait in [cv_wait], so that one step is one stretch of
    code under the lock; what locks and condition variables themselves do is in Synch.v. A
    thread that has been woken has to take the lock again, and others may come before it. *)

From stdpp Require Import base numbers functions list.
From Stdlib Require Import ZArith Lia.
From stdpp Require Import list_relations.
From S2P Require Import Prelude.

Open Scope Z_scope.

(** A thread that reads has [resid] units of its [want] still to get; [off] is its
    [uio_offset]. *)
Inductive thread :=
| Out
| Reading (want resid off : Z)
| Asleep (want resid off : Z).

(** [cv] has the threads asleep on [sems_cv], the one to be woken first in front. *)
Record pv := mkpv { sems_count : Z; cv : list nat; threads : list thread }.

Definition set_count n s := mkpv n (cv s) (threads s).

Definition set_thread (t : nat) (x : thread) s := mkpv (sems_count s) (cv s) (<[t := x]> (threads s)).

Definition awake (x : thread) : thread := match x with Asleep w r o => Reading w r o | _ => x end.

Definition wake (u : nat) (s : pv) : pv := mkpv (sems_count s) (cv s) (alter awake u (threads s)).

Definition cv_signal (s : pv) : pv :=
  match cv s with
  | [] => s
  | u :: q => wake u (mkpv (sems_count s) q (threads s))
  end.

Definition cv_broadcast (s : pv) : pv := mkpv (sems_count s) [] (threads (foldr wake s (cv s))).

(** kern/fs/semfs/semfs_vnops.c:141-154 (semfs_wakeup). *)
Definition semfs_wakeup (newcount : Z) (s : pv) : pv :=
  if (0 <? sems_count s) || (newcount =? 0) then s
  else if newcount =? 1 then cv_signal s
  else cv_broadcast s.

(** kern/fs/semfs/semfs_vnops.c:198-219 (semfs_read): the loop, up to the next [cv_wait];
    the last component says whether it is reached. *)
Fixpoint read_loop (fuel : nat) (count resid off : Z) : option (Z * Z * Z * bool) :=
  match fuel with
  | O => None
  | S fuel' =>
      if negb (0 <? resid) then Some (count, resid, off, false) else
      let '(count, resid, off) :=
        if 0 <? count then
          let consume := if count <? resid then count else resid in
          (u32 (count - consume), u32 (resid - consume), s64 (off + consume))
        else (count, resid, off) in
      if resid =? 0 then Some (count, resid, off, false)
      else if count =? 0 then Some (count, resid, off, true)
      else read_loop fuel' count resid off
  end.

(** kern/fs/semfs/semfs_vnops.c:187-223 (semfs_read): one stretch under the lock, from
    taking it to the end or to [cv_wait]; with the units that are still wanted. *)
Definition semfs_read (t : nat) (want resid off : Z) (s : pv) : option (Z * pv) :=
  match read_loop 1 (sems_count s) resid off with
  | None => None
  | Some (c, r, o, false) => Some (r, set_thread t Out (set_count c s))
  | Some (c, r, o, true) => Some (r, mkpv c (cv s ++ [t]) (<[t := Asleep want r o]> (threads s)))
  end.

(** kern/fs/semfs/semfs_vnops.c:229-256 (semfs_write); the body runs at most once, since it
    sets [uio_resid] to 0. [None] is success. *)
Definition semfs_write (resid : Z) (s : pv) : option Z * pv :=
  if negb (0 <? resid) then (None, s) else
  let newcount := u32 (sems_count s + resid) in
  if newcount <? sems_count s then (Some EFBIG, s)
  else (None, set_count newcount (semfs_wakeup newcount s)).

(** kern/fs/semfs/semfs_vnops.c:265-292 (semfs_truncate). *)
Definition semfs_truncate (len : Z) (s : pv) : option Z * pv :=
  if len <? 0 then (Some EINVAL, s)
  else if 2 ^ 32 - 1 <? len then (Some EFBIG, s)
  else (None, set_count (u32 len) (semfs_wakeup (u32 len) s)).

(** What a step does to the units of the semaphore. *)
Inductive event := Nothing | Took (n : Z) | Gave (n : Z) | Reset (n : Z).

Definition units (n : Z) (e : event) : Z :=
  match e with Nothing => n | Took k => n - k | Gave k => n + k | Reset k => k end.

Inductive step : pv -> event -> pv -> Prop :=
| step_call s t n off : threads s !! t = Some Out -> 0 <= n < 2 ^ 32 -> step s Nothing (set_thread t (Reading n n off) s)
| step_read s t w r o r' s' : threads s !! t = Some (Reading w r o) -> semfs_read t w r o s = Some (r', s') -> step s (Took (r - r')) s'
| step_write s t n s' : threads s !! t = Some Out -> 0 <= n < 2 ^ 32 -> semfs_write n s = (None, s') -> step s (Gave n) s'
| step_write_fails s t n e s' : threads s !! t = Some Out -> 0 <= n < 2 ^ 32 -> semfs_write n s = (Some e, s') -> step s Nothing s'
| step_truncate s t n s' : threads s !! t = Some Out -> semfs_truncate n s = (None, s') -> step s (Reset n) s'
| step_truncate_fails s t n e s' : threads s !! t = Some Out -> semfs_truncate n s = (Some e, s') -> step s Nothing s'.

(** Runs in which every step satisfies [ok], with what happened to the units. *)
Inductive run (ok : pv -> event -> Prop) (s0 : pv) : list event -> pv -> Prop :=
| run_nil : run ok s0 [] s0
| run_snoc l s e s' : run ok s0 l s -> step s e s' -> ok s e -> run ok s0 (l ++ [e]) s'.

Definition initial (s : pv) : Prop := 0 <= sems_count s < 2 ^ 32 /\ cv s = [] /\ Forall (fun x => x = Out) (threads s).

(** A count that goes from 0 to 1 has at most one thread to wake. *)
Definition careful (s : pv) (e : event) : Prop := sems_count s = 0 -> units 0 e = 1 -> (length (cv s) <= 1)%nat.

(** ** The invariant *)

Definition fine (x : thread) : Prop :=
  match x with Out => True | Reading w r _ => 0 <= r <= w /\ w < 2 ^ 32 | Asleep w r _ => 0 < r <= w /\ w < 2 ^ 32 end.

Record inv (s : pv) : Prop := {
  inv_count : 0 <= sems_count s < 2 ^ 32;
  inv_fine : forall t x, threads s !! t = Some x -> fine x;
  inv_dup : NoDup (cv s);
  inv_cv : forall t, t ∈ cv s <-> exists w r o, threads s !! t = Some (Asleep w r o)
}.

Lemma initial_inv s : initial s -> inv s.
Proof.
  intros (Hc & Hq & Ho). rewrite Forall_forall in Ho. assert (Hx : forall t x, threads s !! t = Some x -> x = Out) by (intros t x ?%list_elem_of_lookup_2; by apply Ho).
  split; [done| |rewrite Hq; constructor|].
  - by intros t x ->%Hx.
  - intros t. rewrite Hq, elem_of_nil. split; [done|]. by intros (w & r & o & ?%Hx).
Qed.

(** One pass of the loop is enough. *)
Lemma read_loop_eq c r o : 0 <= c < 2 ^ 32 -> 0 <= r < 2 ^ 32 ->
  exists o', read_loop 1 c r o = Some (c - Z.min c r, r - Z.min c r, o', bool_decide (c < r)).
Proof.
  intros Hc Hr. unfold read_loop. destruct (Z.ltb_spec 0 r) as [Hr0|Hr0]; cbn [negb].
  - destruct (Z.ltb_spec 0 c) as [Hc0|Hc0].
    + destruct (Z.ltb_spec c r) as [Hlt|Hle]; rewrite !wrapu_small by lia.
      * rewrite (proj2 (Z.eqb_neq _ _)) by lia. rewrite Z.sub_diag. cbn [Z.eqb]. rewrite Z.min_l, bool_decide_true by lia. eexists. do 3 f_equal. f_equal; lia.
      * rewrite (proj2 (Z.eqb_eq _ _)) by lia. rewrite Z.min_r, bool_decide_false by lia. by eexists.
    + replace c with 0 in * by lia. rewrite (proj2 (Z.eqb_neq _ _)) by lia. cbn [Z.eqb]. rewrite Z.min_l, bool_decide_true by lia. eexists. do 3 f_equal. f_equal; lia.
  - replace r with 0 in * by lia. rewrite Z.min_r, bool_decide_false by lia. eexists. do 3 f_equal. f_equal; lia.
Qed.

Lemma read_eq t w r o s : 0 <= sems_count s < 2 ^ 32 -> 0 <= r < 2 ^ 32 ->
  exists o', semfs_read t w r o s = Some (r - Z.min (sems_count s) r,
    if decide (sems_count s < r) then mkpv 0 (cv s ++ [t]) (<[t := Asleep w (r - sems_count s) o']> (threads s))
    else set_thread t Out (set_count (sems_count s - r) s)).
Proof.
  intros Hc Hr. unfold semfs_read. destruct (read_loop_eq (sems_count s) r o Hc Hr) as (o' & ->). exists o'. destruct (decide (sems_count s < r)) as [Hlt|Hge].
  - rewrite bool_decide_true, Z.min_l, Z.sub_diag by lia. done.
  - rewrite bool_decide_false, Z.min_r by lia. done.
Qed.

(** ** Waking up *)

Lemma wake_lookup u s t : threads (wake u s) !! t = if decide (t = u) then awake <$> threads s !! t else threads s !! t.
Proof.
  unfold wake. cbn [threads]. destruct (decide (t = u)) as [->|Hne]; [by rewrite list_lookup_alter_eq|by rewrite list_lookup_alter_ne].
Qed.

Lemma wake_all_lookup q s t : threads (foldr wake s q) !! t = if decide (t ∈ q) then awake <$> threads s !! t else threads s !! t.
Proof.
  induction q as [|u q IH]; cbn [foldr]; [by rewrite decide_False by apply not_elem_of_nil|]. rewrite wake_lookup, IH. destruct (decide (t = u)) as [->|Hne].
  - rewrite (decide_True (P := u ∈ u :: q)) by (by left). destruct (decide (u ∈ q)); [|done]. destruct (threads s !! u) as [[]|]; done.
  - destruct (decide (t ∈ q)) as [Hin|Hnin]; [by rewrite decide_True by (by right)|]. rewrite decide_False; [done|]. by intros [?|?]%elem_of_cons.
Qed.

Lemma fine_awake x : fine x -> fine (awake x).
Proof. destruct x; cbn; intros; [done|done|lia]. Qed.

(** The threads [q] leave the channel. *)
Lemma inv_woken s s' (q : list nat) : inv s -> sems_count s' = sems_count s -> NoDup (cv s') -> (forall t, t ∈ cv s <-> t ∈ q \/ t ∈ cv s') -> (forall t, t ∈ q -> t ∉ cv s') ->
  (forall t, threads s' !! t = if decide (t ∈ q) then awake <$> threads s !! t else threads s !! t) -> inv s'.
Proof.
  intros [I1 I2 I3 I4] Hc Hn Hcv Hd Ht. split; [by rewrite Hc| |done|].
  - intros t x. rewrite Ht. destruct (decide (t ∈ q)); [|by apply I2]. destruct (threads s !! t) as [y|] eqn:E; [|done]. intros [= <-]. by apply fine_awake, (I2 t).
  - intros t. rewrite Ht. destruct (decide (t ∈ q)) as [Hin|Hnin].
    + split; [by intros ?%(Hd t)|]. intros (w & r & o & E). destruct (threads s !! t) as [[]|]; done.
    + rewrite <- I4, Hcv. tauto.
Qed.

Lemma inv_signal s : inv s -> inv (cv_signal s).
Proof.
  intros Hi. unfold cv_signal. destruct (cv s) as [|u q] eqn:E; [done|]. pose proof (inv_dup _ Hi) as Hn. rewrite E in Hn. apply NoDup_cons in Hn as [Hu Hn].
  apply (inv_woken s _ [u]); [done|done|done| | |].
  - intros t. rewrite E. cbn. by rewrite elem_of_cons, list_elem_of_singleton.
  - by intros t ->%list_elem_of_singleton.
  - intros t. rewrite wake_lookup. destruct (decide (t = u)) as [->|Hne]; [by rewrite decide_True by apply list_elem_of_here|].
    rewrite decide_False; [done|]. by intros ->%list_elem_of_singleton.
Qed.

Lemma inv_broadcast s : inv s -> inv (cv_broadcast s).
Proof.
  intros Hi. apply (inv_woken s _ (cv s)); [done|done|constructor| | |].
  - intros t. cbn. rewrite elem_of_nil. tauto.
  - intros t _. apply not_elem_of_nil.
  - intros t. cbn [threads cv_broadcast]. apply wake_all_lookup.
Qed.

Lemma inv_wakeup n s : inv s -> inv (semfs_wakeup n s).
Proof. intros Hi. unfold semfs_wakeup. destruct (_ || _); [done|]. destruct (_ =? _); [by apply inv_signal|by apply inv_broadcast]. Qed.

Lemma inv_set_count n s : inv s -> 0 <= n < 2 ^ 32 -> inv (set_count n s).
Proof. intros [I1 I2 I3 I4] Hn. by split. Qed.

(** The wrap-around of the sum is noticed. *)
Lemma write_eq n s : 0 <= sems_count s < 2 ^ 32 -> 0 <= n < 2 ^ 32 ->
  semfs_write n s = if decide (n = 0) then (None, s)
    else if decide (sems_count s + n < 2 ^ 32) then (None, set_count (sems_count s + n) (semfs_wakeup (sems_count s + n) s)) else (Some EFBIG, s).
Proof.
  intros Hc Hn. unfold semfs_write. destruct (Z.ltb_spec 0 n) as [Hp|Hp]; cbn [negb]; [rewrite decide_False by lia|by rewrite decide_True by lia].
  destruct (decide _) as [Hlt|Hge].
  - rewrite wrapu_small by lia. by rewrite (proj2 (Z.ltb_ge _ _)) by lia.
  - rewrite (proj2 (Z.ltb_lt _ _)); [done|]. unfold wrapu. rewrite <- (Z_mod_plus_full _ (-1)), Z.mod_small; lia.
Qed.

Lemma truncate_eq n s : semfs_truncate n s = if decide (n < 0) then (Some EINVAL, s)
    else if decide (n < 2 ^ 32) then (None, set_count n (semfs_wakeup n s)) else (Some EFBIG, s).
Proof.
  unfold semfs_truncate. destruct (Z.ltb_spec n 0); [by rewrite decide_True|]. rewrite decide_False by lia.
  destruct (decide _); destruct (Z.ltb_spec (2 ^ 32 - 1) n); try lia; [|done]. by rewrite !wrapu_small by lia.
Qed.

(** ** Runs *)

Lemma inv_moved s t x y : inv s -> threads s !! t = Some y -> (forall w r o, y <> Asleep w r o) -> (forall w r o, x <> Asleep w r o) -> fine x -> inv (set_thread t x s).
Proof.
  intros [I1 I2 I3 I4] Ht Hy Hx Hf. split; cbn; [done| |done|].
  - intros u z. rewrite list_lookup_insert_Some. intros [(-> & -> & _)|(_ & Hz)]; [done|by apply (I2 u)].
  - intros u. rewrite I4. destruct (decide (t = u)) as [->|Hne]; [|by rewrite list_lookup_insert_ne].
    rewrite list_lookup_insert_eq by (by apply lookup_lt_Some in Ht). split; intros (w & r & o & E); [rewrite Ht in E|]; injection E as E; [by destruct (Hy w r o)|by destruct (Hx w r o)].
Qed.

Lemma inv_asleep s t w r o w' r' o' : inv s -> threads s !! t = Some (Reading w' r' o') -> fine (Asleep w r o) ->
  inv (mkpv 0 (cv s ++ [t]) (<[t := Asleep w r o]> (threads s))).
Proof.
  intros [I1 I2 I3 I4] Ht Hf. apply lookup_lt_Some in Ht as Hlt. split; cbn; [done| | |].
  - intros u z. rewrite list_lookup_insert_Some. intros [(-> & <- & _)|(_ & Hz)]; [done|by apply (I2 u)].
  - apply NoDup_app. split; [done|]. split; [|apply NoDup_singleton]. intros u (? & ? & ? & Hu)%I4 ->%list_elem_of_singleton. congruence.
  - intros u. rewrite elem_of_app, list_elem_of_singleton, I4. destruct (decide (t = u)) as [->|Hne].
    + rewrite list_lookup_insert_eq by done. split; [by eauto|by right].
    + rewrite list_lookup_insert_ne by done. split; [intros [?|?]; [done|congruence]|by left].
Qed.

Lemma pv_step_inv s e s' : step s e s' -> inv s -> inv s' /\ sems_count s' = units (sems_count s) e.
Proof.
  intros Hstep Hi. pose proof (inv_count _ Hi) as Hc. destruct Hstep as [s t n off Ht Hn|s t w r o r' s' Ht E|s t n s' Ht Hn E|s t n e s' Ht Hn E|s t n s' Ht E|s t n e s' Ht E].
  - split; [|done]. apply (inv_moved s t _ Out); [done|done|done|done|cbn; lia].
  - pose proof (inv_fine _ Hi t _ Ht) as [Hr Hw]. destruct (read_eq t w r o s Hc ltac:(lia)) as (o' & E'). rewrite E' in E. injection E as <- <-. cbn [units].
    destruct (decide _).
    + split; [apply (inv_asleep s t _ _ _ w r o); [done|done|cbn; lia]|cbn; lia].
    + split; [|cbn; lia]. apply (inv_moved (set_count (sems_count s - r) s) t _ (Reading w r o)); [apply inv_set_count; [done|lia]|done|done|done|done].
  - rewrite write_eq in E by done. destruct (decide _); [injection E as <-; split; [done|cbn; lia]|]. destruct (decide _); [|done]. injection E as <-.
    split; [|done]. apply inv_set_count; [by apply inv_wakeup|lia].
  - rewrite write_eq in E by done. destruct (decide _); [done|]. destruct (decide _); [done|]. by injection E as _ <-.
  - rewrite truncate_eq in E. destruct (decide _); [done|]. destruct (decide _); [|done]. injection E as <-. split; [|done]. apply inv_set_count; [by apply inv_wakeup|lia].
  - rewrite truncate_eq in E. destruct (decide _); [by injection E as _ <-|]. destruct (decide _); [done|]. by injection E as _ <-.
Qed.

Lemma run_inv ok s0 l s : initial s0 -> run ok s0 l s -> inv s /\ sems_count s = fold_left units l (sems_count s0).
Proof.
  intros H0. induction 1 as [|l s e s' _ [IH1 IH2] Hs _]; [split; [by apply initial_inv|done]|].
  destruct (pv_step_inv s e s' Hs IH1) as [Hi Hu]. split; [done|]. by rewrite fold_left_app, <- IH2.
Qed.

Lemma wakeup_cv n s : 0 <= sems_count s -> 0 < n -> (0 < sems_count s -> cv s = []) -> (sems_count s = 0 -> n = 1 -> (length (cv s) <= 1)%nat) -> cv (semfs_wakeup n s) = [].
Proof.
  intros Hp Hn Hc H1. unfold semfs_wakeup. destruct (Z.ltb_spec 0 (sems_count s)) as [Hc0|Hc0]; cbn [orb]; [by apply Hc|].
  rewrite (proj2 (Z.eqb_neq _ _)) by lia. destruct (Z.eqb_spec n 1) as [->|Hne]; [|done]. specialize (H1 ltac:(lia) eq_refl).
  unfold cv_signal. destruct (cv s) as [|u [|]] eqn:E; cbn in *; [done|done|lia].
Qed.

Lemma careful_step s e s' : inv s -> step s e s' -> careful s e -> (0 < sems_count s -> cv s = []) -> 0 < sems_count s' -> cv s' = [].
Proof.
  intros Hi Hs Hcare Hcv. pose proof (inv_count _ Hi) as Hc. unfold careful in Hcare.
  destruct Hs as [s t n off Ht Hn|s t w r o r' s' Ht E|s t n s' Ht Hn E|s t n e s' Ht Hn E|s t n s' Ht E|s t n e s' Ht E]; cbn [units] in Hcare.
  - done.
  - pose proof (inv_fine _ Hi t _ Ht) as [Hr Hw]. destruct (read_eq t w r o s Hc ltac:(lia)) as (o' & E'). rewrite E' in E. injection E as <- <-.
    destruct (decide _); cbn; [done|]. intros. apply Hcv. lia.
  - rewrite write_eq in E by done. destruct (decide _); [by injection E as <-|]. destruct (decide _); [|done]. injection E as <-. cbn. intros _.
    apply wakeup_cv; [lia|lia|done|]. intros. apply Hcare; lia.
  - rewrite write_eq in E by done. destruct (decide _); [done|]. destruct (decide _); [done|]. by injection E as _ <-.
  - rewrite truncate_eq in E. destruct (decide _); [done|]. destruct (decide _); [|done]. injection E as <-. cbn. intros.
    apply wakeup_cv; [lia|done|done|]. intros. apply Hcare; lia.
  - rewrite truncate_eq in E. destruct (decide _); [by injection E as _ <-|]. destruct (decide _); [done|]. by injection E as _ <-.
Qed.

Lemma careful_run s0 l s : initial s0 -> run careful s0 l s -> 0 < sems_count s -> cv s = [].
Proof.
  intros H0. induction 1 as [|l s e s' Hr IH Hs Hc]; [by destruct H0 as (_ & ? & _)|].
  destruct (run_inv careful s0 l s H0 Hr) as [Hi _]. by apply (careful_step s e).
Qed.

(** C15. However reads, writes and truncations of a semaphore interleave, its count is what
    it was in the beginning, plus the units written, minus the units readers have taken,
    since the last truncation: no unit is lost, made up or taken twice, the count stays
    within its 32 bits, and a write that would overflow it is refused. A reader that has
    the lock takes what it wants or all there is, in one pass of the loop, and returns
    exactly when it has everything; otherwise it sleeps, with a count of 0. *)
Theorem semfs_units (s0 s : pv) (l : list event) (H0 : initial s0) (HR : run (fun _ _ => True) s0 l s) :
  sems_count s = fold_left units l (sems_count s0) /\ 0 <= sems_count s < 2 ^ 32 /\
  (forall t, t ∈ cv s <-> exists w r o, threads s !! t = Some (Asleep w r o)) /\
  (forall t w r o, threads s !! t = Some (Reading w r o) -> exists s', semfs_read t w r o s = Some (r - Z.min (sems_count s) r, s') /\
     if decide (r <= sems_count s) then threads s' !! t = Some Out
     else sems_count s' = 0 /\ exists o', threads s' !! t = Some (Asleep w (r - sems_count s) o')) /\
  (forall n, 0 <= n < 2 ^ 32 -> (exists e, fst (semfs_write n s) = Some e) <-> 2 ^ 32 <= sems_count s + n).
Proof.
  destruct (run_inv _ s0 l s H0 HR) as [Hi Hu]. pose proof (inv_count _ Hi) as Hc. split_and!; [done|lia|lia|apply (inv_cv _ Hi)| |].
  - intros t w r o Ht. pose proof (inv_fine _ Hi t _ Ht) as [Hr Hw]. destruct (read_eq t w r o s Hc ltac:(lia)) as (o' & E). rewrite E. eexists. split; [done|].
    apply lookup_lt_Some in Ht. destruct (decide (sems_count s < r)), (decide (r <= sems_count s)); try lia; cbn.
    + split; [done|]. exists o'. by rewrite list_lookup_insert_eq.
    + by rewrite list_lookup_insert_eq.
  - intros n Hn. rewrite write_eq by done. destruct (decide _); [|destruct (decide _)]; cbn; split; try lia; try (by intros [? ?]). intros _. by eexists.
Qed.

(** C16. As long as the count never goes from 0 to 1 with more than one thread asleep, in
    particular when only one thread at a time waits for the semaphore, no wake-up is lost:
    whenever there are units, nobody is asleep. *)
Theorem semfs_wakes (s0 s : pv) (l : list event) (H0 : initial s0) (HR : run careful s0 l s) (Hc : 0 < sems_count s) :
  forall t w r o, threads s !! t <> Some (Asleep w r o).
Proof.
  intros t w r o Ht. destruct (run_inv _ s0 l s H0 HR) as [Hi _]. assert (Hin : t ∈ cv s) by (apply (inv_cv _ Hi); eauto).
  rewrite (careful_run s0 l s H0 HR Hc) in Hin. by apply not_elem_of_nil in Hin.
Qed.

(** ** Two sleepers *)

Definition three : pv := mkpv 0 [] [Out; Out; Out].

(** One more step of the run [H]. *)
Ltac next H st ok :=
  let H' := fresh in
  eassert (H' : run _ three _ _); [eapply run_snoc; [exact H|st|ok]|clear H; rename H' into H].
Ltac calls t := eapply (step_call _ t 1 0); [reflexivity|lia].
Ltac reads t := eapply (step_read _ t 1 1 0); [reflexivity|vm_compute; reflexivity].
Ltac writes t := eapply (step_write _ t 1); [reflexivity|lia|vm_compute; reflexivity].

Lemma three_initial : initial three.
Proof. split_and!; [done|done|done|]. repeat constructor. Qed.

Definition both_asleep : pv := mkpv 0 [0%nat; 1%nat] [Asleep 1 1 0; Asleep 1 1 0; Out].

Lemma run_both_asleep : run (fun _ _ => True) three [Nothing; Nothing; Took 0; Took 0] both_asleep.
Proof.
  pose proof (run_nil (fun _ _ => True) three) as H.
  next H ltac:(calls 0%nat) ltac:(exact I).
  next H ltac:(calls 1%nat) ltac:(exact I).
  next H ltac:(reads 0%nat) ltac:(exact I).
  next H ltac:(reads 1%nat) ltac:(exact I).
  exact H.
Qed.

(** Two writes of one unit each, one after the other: the second one wakes nobody, since
    the first unit has not been taken yet. *)
Definition one_left : pv := mkpv 1 [1%nat] [Out; Asleep 1 1 0; Out].

Lemma run_one_left : run (fun _ _ => True) three [Nothing; Nothing; Took 0; Took 0; Gave 1; Gave 1; Took 1] one_left.
Proof.
  pose proof run_both_asleep as H.
  next H ltac:(writes 2%nat) ltac:(exact I).
  next H ltac:(writes 2%nat) ltac:(exact I).
  next H ltac:(reads 0%nat) ltac:(exact I).
  exact H.
Qed.

(** A wake-up is lost: there is a unit, a thread that waits for it, and no thread that is
    awake; two threads that waited for one unit each have been given two. *)
Theorem semfs_lost_wakeup :
  exists l, run (fun _ _ => True) three l one_left /\ sems_count one_left = 1 /\ threads one_left !! 1%nat = Some (Asleep 1 1 0) /\
    Forall (fun x => match x with Reading _ _ _ => False | _ => True end) (threads one_left).
Proof. eexists. split; [exact run_one_left|]. split; [done|]. split; [done|]. repeat constructor. Qed.

Lemma semfs_units_witness : sems_count one_left = fold_left units [Nothing; Nothing; Took 0; Took 0; Gave 1; Gave 1; Took 1] 0 /\
  fst (semfs_write (2 ^ 32 - 1) one_left) = Some EFBIG.
Proof.
  destruct (semfs_units three one_left _ three_initial run_one_left) as (E & _ & _ & _ & Hw). split; [exact E|].
  destruct (proj2 (Hw (2 ^ 32 - 1) ltac:(lia)) ltac:(vm_compute; discriminate)) as [e He]. vm_compute in He |- *. reflexivity.
Defined.

(** One thread that waits is woken by the write. *)
Definition woken : pv := mkpv 1 [] [Reading 1 1 0; Out; Out].

Lemma semfs_wakes_witness : exists l, run careful three l woken /\ forall t w r o, threads woken !! t <> Some (Asleep w r o).
Proof.
  assert (H : run careful three [Nothing; Took 0; Gave 1] woken).
  { pose proof (run_nil careful three) as H.
    next H ltac:(calls 0%nat) ltac:(intros _; discriminate).
    next H ltac:(reads 0%nat) ltac:(intros _; discriminate).
    next H ltac:(writes 2%nat) ltac:(intros _ _; cbn; lia).
    exact H. }
  eexists. split; [exact H|]. apply (semfs_wakes three woken _ three_initial H). reflexivity.
Defined.
