(* ===== verification/CString.v ===== *)
(** * Blocks of memory and strings, common/libc/string

    Memory is a function from addresses to bytes. The loops of the string functions run
    until they find a terminator; [fuel] bounds their length, and [None] is that it was
    not enough. *)

From stdpp Require Import base numbers functions list.
From Stdlib Require Import ZArith Lia.
From stdpp Require Import list_relations.
From S2P Require Import Prelude.

Open Scope Z_scope.

Abbreviation memory := (Z -> Z).

Definition upd (a v : Z) (m : memory) : memory := fun x => if x =? a then v else m x.

(** ** Blocks *)

(** The [n] bytes at [a], and storing bytes there: one access of [n] bytes. *)
Definition load (a : Z) (n : nat) (m : memory) : list Z := (fun i => m (a + Z.of_nat i)) <$> seq 0 n.

Fixpoint store (a : Z) (l : list Z) (m : memory) : memory :=
  match l with [] => m | b :: l' => store (a + 1) l' (upd a b m) end.

(** [d[i] = s[i]] for elements of [sz] bytes, [n] of them, with increasing and with
    decreasing index. *)
Fixpoint copy_up (sz n : nat) (d s : Z) (m : memory) : memory :=
  match n with
  | O => m
  | S n' => copy_up sz n' (d + Z.of_nat sz) (s + Z.of_nat sz) (store d (load s sz m) m)
  end.

Fixpoint copy_down (sz n : nat) (d s : Z) (m : memory) : memory :=
  match n with
  | O => m
  | S n' => let o := Z.of_nat (n' * sz) in copy_down sz n' d s (store (d + o) (load (s + o) sz m) m)
  end.

Definition aligned (x : Z) : bool := x mod 4 =? 0.

(** common/libc/string/memcpy.c:47-86 (memcpy). *)
Definition memcpy (dst src len : Z) (m : memory) : memory :=
  if aligned dst && aligned src && aligned len then copy_up 4 (Z.to_nat (len / 4)) dst src m
  else copy_up 1 (Z.to_nat len) dst src m.

(** common/libc/string/memmove.c:48-117 (memmove). *)
Definition memmove (dst src len : Z) (m : memory) : memory :=
  if dst <? src then memcpy dst src len m
  else if aligned dst && aligned src && aligned len then copy_down 4 (Z.to_nat (len / 4)) dst src m
  else copy_down 1 (Z.to_nat len) dst src m.

(** [p[i] = v], [n] times, for elements of [sz] bytes. *)
Fixpoint set_up (sz n : nat) (v p : Z) (m : memory) : memory :=
  match n with O => m | S n' => set_up sz n' v (p + Z.of_nat sz) (store p (replicate sz v) m) end.

(** common/libc/string/memset.c:41-52 (memset). *)
Definition memset (ptr ch len : Z) (m : memory) : memory := set_up 1 (Z.to_nat len) (u8 ch) ptr m.

(** common/libc/string/bzero.c:48-76 (bzero). *)
Definition bzero (block len : Z) (m : memory) : memory :=
  if aligned block && aligned len then set_up 4 (Z.to_nat (len / 4)) 0 block m
  else set_up 1 (Z.to_nat len) 0 block m.

(** ** Strings *)

(** common/libc/string/strlen.c:46-55 (strlen). *)
Fixpoint strlen (fuel : nat) (str : Z) (ret : Z) (m : memory) : option Z :=
  match fuel with
  | O => None
  | S f => if m (str + ret) =? 0 then Some ret else strlen f str (ret + 1) m
  end.

(** common/libc/string/strcpy.c:53-60 (strcpy). *)
Fixpoint strcpy_loop (fuel : nat) (dest src i : Z) (m : memory) : option memory :=
  match fuel with
  | O => None
  | S f =>
      if m (src + i) =? 0 then Some (upd (dest + i) 0 m)
      else strcpy_loop f dest src (i + 1) (upd (dest + i) (m (src + i)) m)
  end.

(** common/libc/string/strcpy.c:45-63 (strcpy). *)
Definition strcpy (fuel : nat) (dest src : Z) (m : memory) : option memory := strcpy_loop fuel dest src 0 m.

(** common/libc/string/strcat.c:46-54 (strcat). *)
Definition strcat (fuel : nat) (dest src : Z) (m : memory) : option memory :=
  offset ← strlen fuel dest 0 m; strcpy fuel (dest + offset) src m.

(** common/libc/string/strcmp.c:66-68 (strcmp): the index at which the comparison ends. *)
Fixpoint strcmp_loop (fuel : nat) (a b i : Z) (m : memory) : option Z :=
  match fuel with
  | O => None
  | S f => if negb (m (a + i) =? 0) && (m (a + i) =? m (b + i)) then strcmp_loop f a b (i + 1) m else Some i
  end.

(** common/libc/string/strcmp.c:47-90 (strcmp). *)
Definition strcmp (fuel : nat) (a b : Z) (m : memory) : option Z :=
  i ← strcmp_loop fuel a b 0 m;
  Some (if m (b + i) <? m (a + i) then 1 else if m (a + i) =? m (b + i) then 0 else -1).

(** common/libc/string/strchr.c:46-68 (strchr): the address, or NULL. *)
Fixpoint strchr (fuel : nat) (s ch : Z) (m : memory) : option (option Z) :=
  match fuel with
  | O => None
  | S f =>
      if m s =? 0 then Some (if m s =? ch then Some s else None)
      else if m s =? ch then Some (Some s)
      else strchr f (s + 1) ch m
  end.

(** common/libc/string/strrchr.c:56-68 (strrchr): [i] is one more than the index to be
    looked at. *)
Fixpoint strrchr_loop (i : nat) (s ch : Z) (m : memory) : option Z :=
  match i with
  | O => None
  | S i' => if m (s + Z.of_nat i') =? ch then Some (s + Z.of_nat i') else strrchr_loop i' s ch m
  end.

(** common/libc/string/strrchr.c:46-69 (strrchr). *)
Definition strrchr (fuel : nat) (s ch : Z) (m : memory) : option (option Z) :=
  n ← strlen fuel s 0 m; Some (strrchr_loop (Z.to_nat (n + 1)) s ch m).

(** common/libc/string/strtok_r.c:67-69 (strtok_r), and 80-82: the first address from [p] on
    that is the end of the string or a byte that is a separator, or is not ([want]). *)
Fixpoint strspan (fuel : nat) (want : bool) (p seps : Z) (m : memory) : option Z :=
  match fuel with
  | O => None
  | S f =>
      if m p =? 0 then Some p else
      r ← strchr f seps (m p) m;
      if bool_decide (is_Some r) then (if want then Some p else strspan f want (p + 1) seps m)
      else (if want then strspan f want (p + 1) seps m else Some p)
  end.

(** common/libc/string/strtok_r.c:49-96 (strtok_r): the word, if there is one, [*context]
    and the memory; [None] is NULL. *)
Definition strtok_r (fuel : nat) (string : option Z) (seps : Z) (context : option Z) (m : memory) : option (option Z * option Z * memory) :=
  let context := match string with Some _ => string | None => context end in
  match context with
  | None => Some (None, None, m)
  | Some head =>
      head ← strspan fuel false head seps m;
      if m head =? 0 then Some (None, None, m) else
      tail ← strspan fuel true head seps m;
      if m tail =? 0 then Some (Some head, None, m)
      else Some (Some head, Some (tail + 1), upd tail 0 m)
  end.

(** ** Blocks: every way of copying is the copy of all bytes at once *)

(** The [n] bytes at [s] are at [d], as they were before. *)
Definition copied (d s n : Z) (m : memory) : memory := fun x => if (d <=? x) && (x <? d + n) then m (s + (x - d)) else m x.

Definition filled (p n v : Z) (m : memory) : memory := fun x => if (p <=? x) && (x <? p + n) then v else m x.

(** Decide the tests of a goal by arithmetic. *)
Ltac cases_lia := repeat match goal with
  | |- context [?a <=? ?b] => destruct (Z.leb_spec a b)
  | |- context [?a <? ?b] => destruct (Z.ltb_spec a b)
  | |- context [?a =? ?b] => destruct (Z.eqb_spec a b)
  end; cbn [andb negb]; try lia.

Lemma store_eq l : forall a m x, store a l m x = if (a <=? x) && (x <? a + Z.of_nat (length l)) then default 0 (l !! Z.to_nat (x - a)) else m x.
Proof.
  induction l as [|b l IH]; intros a m x; cbn [store length]; [cases_lia; done|]. rewrite IH. unfold upd. cases_lia; try done.
  - by replace (Z.to_nat (x - a)) with (S (Z.to_nat (x - (a + 1)))) by lia.
  - subst. by rewrite Z.sub_diag.
Qed.

Lemma chunk_eq d s sz m x : store d (load s sz m) m x = copied d s (Z.of_nat sz) m x.
Proof.
  rewrite store_eq. unfold load, copied. rewrite length_fmap, length_seq. cases_lia; try done.
  rewrite list_lookup_fmap, lookup_seq_lt by lia. cbn. f_equal. lia.
Qed.

Lemma load_ext a n m m' : (forall x, m x = m' x) -> load a n m = load a n m'.
Proof. intros E. unfold load. apply list_fmap_ext. intros. apply E. Qed.

Lemma store_ext l : forall a m m' x, (forall x, m x = m' x) -> store a l m x = store a l m' x.
Proof. intros a m m' x E. rewrite !store_eq. by rewrite E. Qed.

Lemma copy_up_ext sz n : forall d s m m' x, (forall x, m x = m' x) -> copy_up sz n d s m x = copy_up sz n d s m' x.
Proof. induction n as [|n IH]; intros d s m m' x E; cbn [copy_up]; [done|]. apply IH. intros y. rewrite (load_ext s sz m m') by done. by apply store_ext. Qed.

Lemma copy_down_ext sz n : forall d s m m' x, (forall x, m x = m' x) -> copy_down sz n d s m x = copy_down sz n d s m' x.
Proof. induction n as [|n IH]; intros d s m m' x E; cbn [copy_down]; [done|]. apply IH. intros y. rewrite (load_ext _ sz m m') by done. by apply store_ext. Qed.

Lemma copy_up_eq sz n : forall d s m x, d <= s \/ s + Z.of_nat (n * sz) <= d -> copy_up sz n d s m x = copied d s (Z.of_nat (n * sz)) m x.
Proof.
  induction n as [|n IH]; intros d s m x Hd; cbn [copy_up]; [unfold copied; cases_lia; done|].
  rewrite (copy_up_ext sz n _ _ _ (copied d s (Z.of_nat sz) m)) by (intros; apply chunk_eq). rewrite IH by lia. unfold copied. cases_lia; try done; f_equal; lia.
Qed.

Lemma copy_down_eq sz n : forall d s m x, s <= d -> copy_down sz n d s m x = copied d s (Z.of_nat (n * sz)) m x.
Proof.
  induction n as [|n IH]; intros d s m x Hd; cbn [copy_down]; [unfold copied; cases_lia; done|]. set (o := Z.of_nat (n * sz)).
  rewrite (copy_down_ext sz n _ _ _ (copied (d + o) (s + o) (Z.of_nat sz) m)) by (intros; apply chunk_eq). rewrite IH by lia. fold o.
  replace (Z.of_nat (S n * sz)) with (Z.of_nat sz + o) by (unfold o; lia). assert (0 <= o) by (unfold o; lia). clearbody o. unfold copied. cases_lia; try done; f_equal; lia.
Qed.

Lemma words len : 0 <= len -> aligned len = true -> Z.of_nat (Z.to_nat (len / 4) * 4) = len.
Proof. intros H0 Hl. apply Z.eqb_eq in Hl. pose proof (Z.div_mod len 4 ltac:(done)). pose proof (Z.div_pos len 4 H0 ltac:(done)). lia. Qed.

Lemma memcpy_up dst src len m x : dst <= src \/ src + len <= dst -> 0 <= len -> memcpy dst src len m x = copied dst src len m x.
Proof.
  intros Hd Hl. unfold memcpy. destruct (aligned dst && aligned src && aligned len) eqn:E.
  - apply andb_prop in E as [_ E]. pose proof (words len Hl E) as Hw. rewrite copy_up_eq by (by rewrite Hw). by rewrite Hw.
  - rewrite copy_up_eq; rewrite Nat.mul_1_r, Z2Nat.id by done; done.
Qed.

(** C35. [memmove] copies the block as it was before, whatever way the two blocks overlap and
    whether it copies words or bytes, and changes nothing else; [memcpy], on which the
    kernel's [copyin] and [copyout] rely, does so as well when the destination does not
    begin inside the source. *)
Theorem memmove_spec (dst src len : Z) (m : memory) (Hl : 0 <= len) :
  (forall x, memmove dst src len m x = copied dst src len m x) /\
  (dst <= src \/ src + len <= dst -> forall x, memcpy dst src len m x = copied dst src len m x).
Proof.
  split.
  - intros x. unfold memmove. destruct (Z.ltb_spec dst src) as [Hlt|Hge]; [apply memcpy_up; lia|].
    destruct (aligned dst && aligned src && aligned len) eqn:E; rewrite copy_down_eq by done.
    + apply andb_prop in E as [_ E]. by rewrite words.
    + by rewrite Nat.mul_1_r, Z2Nat.id.
  - intros Hd x. by apply memcpy_up.
Qed.

Lemma set_up_eq sz n v : forall p m x, set_up sz n v p m x = filled p (Z.of_nat (n * sz)) v m x.
Proof.
  induction n as [|n IH]; intros p m x; cbn [set_up]; [unfold filled; cases_lia; done|]. rewrite IH. unfold filled. rewrite store_eq, length_replicate.
  cases_lia; try done. by rewrite lookup_replicate_2 by lia.
Qed.

Lemma memset_eq p c n m x : 0 <= n -> memset p c n m x = filled p n (u8 c) m x.
Proof. intros. unfold memset. by rewrite set_up_eq, Nat.mul_1_r, Z2Nat.id. Qed.

Lemma bzero_eq p n m x : 0 <= n -> bzero p n m x = filled p n 0 m x.
Proof.
  intros Hn. unfold bzero. destruct (aligned p && aligned n) eqn:E; rewrite set_up_eq; [|by rewrite Nat.mul_1_r, Z2Nat.id]. apply andb_prop in E as [_ E]. by rewrite words.
Qed.

Lemma memmove_spec_witness : memmove 1002 1000 5 (fun x => x) 1004 = 1002 /\ memcpy 1002 1000 5 (fun x => x) 1004 = 1000.
Proof. split; [exact (proj1 (memmove_spec 1002 1000 5 (fun x => x) ltac:(lia)) 1004)|vm_compute; reflexivity]. Defined.

(** ** Strings *)

(** The string [s] is at [p]. *)
Fixpoint cstr (m : memory) (p : Z) (s : list Z) : Prop :=
  match s with [] => m p = 0 | c :: s' => m p = c /\ c <> 0 /\ cstr m (p + 1) s' end.

Lemma cstr_ext m m' s : forall p, cstr m p s -> (forall x, p <= x <= p + Z.of_nat (length s) -> m' x = m x) -> cstr m' p s.
Proof.
  induction s as [|c s IH]; intros p; cbn [cstr length]; intros Hs E; [by rewrite E by lia|]. destruct Hs as (? & ? & ?).
  split_and!; [by rewrite E by lia|done|]. apply IH; [done|]. intros x Hx. apply E. lia.
Qed.

Lemma cstr_drop m s n : forall p, cstr m p s -> (n <= length s)%nat -> cstr m (p + Z.of_nat n) (drop n s).
Proof.
  revert s. induction n as [|n IH]; intros s p Hs Hn; [by rewrite Z.add_0_r|]. destruct s as [|c s]; cbn in *; [lia|].
  destruct Hs as (_ & _ & Hs). replace (p + Z.of_nat (S n)) with (p + 1 + Z.of_nat n) by lia. apply IH; [done|lia].
Qed.

Lemma cstr_head m p s : cstr m p s -> m p = default 0 (head s).
Proof. destruct s; cbn; naive_solver. Qed.

Lemma cstr_zero m p s : cstr m p s -> (m p =? 0) = bool_decide (s = []).
Proof. destruct s as [|c s]; cbn; [intros ->; done|]. intros (-> & ? & _). by apply Z.eqb_neq. Qed.

Lemma strlen_eq m p s : forall r fuel, cstr m (p + r) s -> (length s < fuel)%nat -> strlen fuel p r m = Some (r + Z.of_nat (length s)).
Proof.
  induction s as [|c s IH]; intros r [|fuel] Hs Hf; cbn [length] in Hf; try lia; cbn [strlen]; rewrite (cstr_zero _ _ _ Hs).
  - rewrite bool_decide_true by done. by rewrite Z.add_0_r.
  - rewrite bool_decide_false by done. destruct Hs as (_ & _ & Hs). rewrite IH; [f_equal; cbn; lia|by rewrite Z.add_assoc|lia].
Qed.

Lemma strcpy_loop_eq m0 d p s : forall i fuel m, (length s < fuel)%nat -> 0 <= i -> cstr m0 (p + i) s -> (p + i + Z.of_nat (length s) < d \/ d + i + Z.of_nat (length s) < p) ->
  (forall x, ~ d <= x < d + i -> m x = m0 x) ->
  exists m', strcpy_loop fuel d p i m = Some m' /\ cstr m' (d + i) s /\ forall x, ~ (d + i <= x <= d + i + Z.of_nat (length s)) -> m' x = m x.
Proof.
  induction s as [|c s IH]; intros i [|fuel] m Hf Hi Hs Hd Hm; cbn [length] in Hf, Hd; try lia; cbn [strcpy_loop]; rewrite (Hm (p + i)) by lia; rewrite (cstr_zero _ _ _ Hs).
  - rewrite bool_decide_true by done. eexists. split; [done|]. cbn. unfold upd. rewrite Z.eqb_refl. split; [done|]. intros x Hx. cases_lia; done.
  - rewrite bool_decide_false by done. destruct Hs as (Hc & Hn & Hs).
    destruct (IH (i + 1) fuel (upd (d + i) (m0 (p + i)) m)) as (m' & E & Hs' & Ho); [lia|lia|by rewrite Z.add_assoc|lia| |].
    { intros x Hx. unfold upd. cases_lia; apply Hm; lia. }
    exists m'. split; [done|]. split.
    + cbn [cstr]. rewrite Ho by lia. unfold upd. rewrite Z.eqb_refl. split; [done|]. split; [done|]. by rewrite <- Z.add_assoc.
    + cbn [length]. intros x Hx. rewrite Ho by lia. unfold upd. cases_lia; done.
Qed.

(** The order of strings by unsigned bytes. *)
Fixpoint compare_bytes (a b : list Z) : Z :=
  match a, b with
  | [], [] => 0
  | [], _ :: _ => -1
  | _ :: _, [] => 1
  | x :: a', y :: b' => if x <? y then -1 else if y <? x then 1 else compare_bytes a' b'
  end.

Lemma strcmp_loop_eq m p q a : forall b i fuel, Forall (fun c => 0 < c) a -> Forall (fun c => 0 < c) b -> cstr m (p + i) a -> cstr m (q + i) b -> (length a < fuel)%nat ->
  exists j, strcmp_loop fuel p q i m = Some j /\ (if m (q + j) <? m (p + j) then 1 else if m (p + j) =? m (q + j) then 0 else -1) = compare_bytes a b.
Proof.
  induction a as [|x a IH]; intros b i [|fuel] Ha Hb Hp Hq Hf; cbn [length] in Hf; try lia; cbn [strcmp_loop]; rewrite (cstr_zero _ _ _ Hp).
  - rewrite bool_decide_true by done. cbn [negb andb]. exists i. split; [done|]. cbn in Hp. rewrite Hp. destruct b as [|y b]; cbn [compare_bytes cstr] in Hq |- *; [by rewrite Hq|].
    destruct Hq as (-> & _ & _). apply Forall_cons in Hb as [Hy _]. cases_lia; done.
  - rewrite bool_decide_false by done. cbn [negb andb]. destruct Hp as (Hx & _ & Hp). apply Forall_cons in Ha as [Hx0 Ha]. destruct b as [|y b].
    + cbn in Hq. rewrite Hx, Hq. rewrite (proj2 (Z.eqb_neq _ _)) by lia. exists i. split; [done|]. rewrite Hx, Hq. cbn [compare_bytes]. cases_lia; done.
    + destruct Hq as (Hy & _ & Hq). apply Forall_cons in Hb as [Hy0 Hb]. rewrite Hx, Hy. destruct (Z.eqb_spec x y) as [->|Hne].
      * destruct (IH b (i + 1) fuel) as (j & E & Hj); [done|done|by rewrite Z.add_assoc|by rewrite Z.add_assoc|lia|]. exists j. split; [done|]. rewrite Hj. cbn [compare_bytes]. cases_lia; done.
      * exists i. split; [done|]. rewrite Hx, Hy. cbn [compare_bytes]. cases_lia; done.
Qed.

Lemma strchr_eq m s ch : forall p fuel, cstr m p s -> (length s < fuel)%nat -> exists r, strchr fuel p ch m = Some r /\
  match r with
  | Some q => exists i, q = p + Z.of_nat i /\ (s ++ [0]) !! i = Some ch /\ forall j, (j < i)%nat -> (s ++ [0]) !! j <> Some ch
  | None => (ch ∉ s) /\ ch <> 0
  end.
Proof.
  induction s as [|c s IH]; intros p [|fuel] Hs Hf; cbn [length] in Hf; try lia; cbn [strchr]; rewrite (cstr_zero _ _ _ Hs).
  - rewrite bool_decide_true by done. cbn in Hs. rewrite Hs. eexists. split; [done|]. destruct (Z.eqb_spec 0 ch) as [<-|Hne]; [exists O; split_and!; [lia|done|lia]|].
    split; [apply not_elem_of_nil|done].
  - rewrite bool_decide_false by done. destruct Hs as (Hc & Hc0 & Hs). rewrite Hc. destruct (Z.eqb_spec c ch) as [->|Hne].
    + eexists. split; [done|]. exists O. split_and!; [lia|done|lia].
    + destruct (IH (p + 1) fuel Hs ltac:(lia)) as (r & E & Hr). exists r. split; [done|]. destruct r as [q|].
      * destruct Hr as (i & -> & Hi & Hj). exists (S i). split_and!; [lia|done|]. intros [|j] Hji; cbn; [congruence|]. apply Hj. lia.
      * destruct Hr. split; [|done]. by intros [->|?]%elem_of_cons.
Qed.

(** ** Words *)

Definition is_sep (seps : list Z) (c : Z) : bool := bool_decide (c ∈ seps).

(** The number of bytes before the first one for which [stop] holds. *)
Fixpoint until (stop : Z -> bool) (s : list Z) : nat :=
  match s with [] => O | c :: s' => if stop c then O else S (until stop s') end.

Lemma until_le stop s : (until stop s <= length s)%nat.
Proof. induction s as [|c s IH]; cbn; [lia|]. destruct (stop c); lia. Qed.

Lemma until_before stop s : Forall (fun c => stop c = false) (take (until stop s) s).
Proof. induction s as [|c s IH]; cbn; [constructor|]. destruct (stop c) eqn:E; cbn; [constructor|by constructor]. Qed.

Lemma until_after stop s : match drop (until stop s) s with [] => True | c :: _ => stop c = true end.
Proof. induction s as [|c s IH]; cbn; [done|]. by destruct (stop c) eqn:E. Qed.

Lemma strspan_eq m q seps want s : forall p fuel, cstr m p s -> cstr m q seps -> (length s + length seps < fuel)%nat ->
  strspan fuel want p q m = Some (p + Z.of_nat (until (fun c => eqb (is_sep seps c) want) s)).
Proof.
  induction s as [|c s IH]; intros p [|fuel] Hs Hq Hf; cbn [length] in Hf; try lia; cbn [strspan]; rewrite (cstr_zero _ _ _ Hs).
  - rewrite bool_decide_true by done. cbn. by rewrite Z.add_0_r.
  - rewrite bool_decide_false by done. destruct Hs as (Hc & Hc0 & Hs). rewrite Hc. destruct (strchr_eq m seps c q fuel Hq ltac:(lia)) as (r & E & Hr). rewrite E. cbn [mbind option_bind until].
    assert (Er : bool_decide (is_Some r) = is_sep seps c).
    { unfold is_sep. apply bool_decide_ext. destruct r as [x|].
      - destruct Hr as (i & _ & Hi & _). split; [|by eexists]. intros _. apply lookup_app_Some in Hi as [Hi|[_ Hi]]; [by apply list_elem_of_lookup_2 in Hi|].
        apply list_lookup_singleton_Some in Hi as [_ ?]. congruence.
      - split; [by intros [? ?]|]. destruct Hr. done. }
    rewrite Er. rewrite (IH (p + 1) fuel Hs Hq ltac:(lia)). destruct (is_sep seps c), want; cbn [eqb]; f_equal; lia.
Qed.

(** The maximal runs of bytes that are not separators; [acc] is the current run, reversed. *)
Fixpoint words_acc (seps acc s : list Z) : list (list Z) :=
  let run := match acc with [] => [] | _ => [reverse acc] end in
  match s with
  | [] => run
  | c :: s' => if is_sep seps c then run ++ words_acc seps [] s' else words_acc seps (c :: acc) s'
  end.

Definition words_of (seps s : list Z) : list (list Z) := words_acc seps [] s.

Lemma words_skip seps w s : Forall (fun c => is_sep seps c = true) w -> words_of seps (w ++ s) = words_of seps s.
Proof. unfold words_of. induction 1 as [|c w Hc _ IH]; [done|]. cbn. by rewrite Hc. Qed.

Lemma words_run seps w s : Forall (fun c => is_sep seps c = false) w -> forall acc, words_acc seps acc (w ++ s) = words_acc seps (reverse w ++ acc) s.
Proof. induction 1 as [|c w Hc _ IH]; intros acc; [done|]. cbn [app words_acc]. rewrite Hc, IH, reverse_cons. by rewrite <- app_assoc. Qed.

Lemma words_first seps w s : Forall (fun c => is_sep seps c = false) w -> w <> [] -> match s with [] => True | c :: _ => is_sep seps c = true end ->
  words_of seps (w ++ s) = w :: words_of seps (tail s).
Proof.
  intros Hw Hne Hs. unfold words_of. rewrite words_run by done. rewrite app_nil_r. destruct (reverse w) as [|x l] eqn:E; [by apply (f_equal reverse) in E; rewrite reverse_involutive in E|].
  rewrite <- (reverse_involutive w), E. destruct s as [|c s]; [done|]. cbn [words_acc tail]. by rewrite Hs.
Qed.

(** Calls of [strtok_r] until it returns NULL: the words, and the memory at the end. *)
Fixpoint tokens (n fuel : nat) (string : option Z) (seps : Z) (context : option Z) (m : memory) : option (list Z * memory) :=
  match n with
  | O => None
  | S n' =>
      r ← strtok_r fuel string seps context m;
      match r with
      | (None, _, m') => Some ([], m')
      | (Some w, context', m') => r ← tokens n' fuel None seps context' m'; Some (w :: fst r, snd r)
      end
  end.

(** One call: the string is [pre ++ w ++ rest], where [w] is the first word. *)
Lemma strtok_r_eq m p s q seps fuel : cstr m p s -> cstr m q seps -> (length s + length seps < fuel)%nat ->
  let a := until (fun c => negb (is_sep seps c)) s in let s1 := drop a s in let b := until (is_sep seps) s1 in let rest := drop b s1 in
  strtok_r fuel (Some p) q None m =
    match s1 with
    | [] => Some (None, None, m)
    | _ => match rest with
           | [] => Some (Some (p + Z.of_nat a), None, m)
           | _ => Some (Some (p + Z.of_nat a), Some (p + Z.of_nat a + Z.of_nat b + 1), upd (p + Z.of_nat a + Z.of_nat b) 0 m)
           end
    end.
Proof.
  intros Hs Hq Hf a s1 b rest.
  assert (Hext : forall f g l, (forall c : Z, f c = g c) -> until f l = until g l) by (intros f g l E; induction l as [|c l IH]; cbn; [done|]; by rewrite E, IH).
  assert (Ea : until (fun c => eqb (is_sep seps c) false) s = a) by (apply Hext; intros c; by destruct (is_sep seps c)).
  assert (Eb : until (fun c => eqb (is_sep seps c) true) s1 = b) by (apply Hext; intros c; by destruct (is_sep seps c)).
  pose proof (until_le (fun c => negb (is_sep seps c)) s) as Hle. fold a in Hle. pose proof (cstr_drop m s a p Hs Hle) as Hs1. fold s1 in Hs1.
  pose proof (cstr_drop m s1 b _ Hs1 (until_le _ _)) as Hr. fold rest in Hr.
  assert (Hl1 : (length s1 <= length s)%nat) by (unfold s1; rewrite length_drop; lia).
  unfold strtok_r. rewrite (strspan_eq m q seps false s) by done. cbn [mbind option_bind]. rewrite Ea, (cstr_zero _ _ _ Hs1).
  rewrite (strspan_eq m q seps true s1) by (done || lia). cbn [mbind option_bind]. rewrite Eb, (cstr_zero _ _ _ Hr). clearbody rest. clear Eb Hr. clearbody b s1.
  destruct s1; [done|]. rewrite bool_decide_false by done. by destruct rest.
Qed.

Lemma split_words seps s : let a := until (fun c => negb (is_sep seps c)) s in let s1 := drop a s in let b := until (is_sep seps) s1 in let rest := drop b s1 in
  words_of seps s = match s1 with [] => [] | _ => take b s1 :: words_of seps (tail rest) end.
Proof.
  intros a s1 b rest. rewrite <- (take_drop a s) at 1. rewrite words_skip.
  2: { pose proof (until_before (fun c => negb (is_sep seps c)) s) as H. fold a in H. eapply Forall_impl; [exact H|]. intros c Hc. by apply negb_false_iff. }
  fold s1. pose proof (until_before (is_sep seps) s1) as Hw. fold b in Hw. pose proof (until_after (is_sep seps) s1) as Hr. fold b in Hr. fold rest in Hr.
  pose proof (until_after (fun c => negb (is_sep seps c)) s) as H1. fold a in H1. fold s1 in H1.
  rewrite <- (take_drop b s1) at 1. fold rest. destruct s1 as [|c s'] eqn:E; [done|]. rewrite words_first; [done|done| |done].
  unfold b. cbn. apply negb_true_iff in H1. by rewrite H1.
Qed.

Lemma cstr_word m s n : forall p, cstr m p s -> (n <= length s)%nat -> forall m', (forall x, p <= x < p + Z.of_nat n -> m' x = m x) ->
  m' (p + Z.of_nat n) = 0 -> cstr m' p (take n s).
Proof.
  intros p Hs Hn m' Hm Hz. revert s p Hs Hn Hm Hz. induction n as [|n IH]; intros s p Hs Hn Hm Hz; [cbn; by rewrite Z.add_0_r in Hz|].
  destruct s as [|c s]; cbn [length] in Hn; [lia|]. destruct Hs as (Hc & Hc0 & Hs). cbn [take cstr]. split_and!; [by rewrite Hm by lia|done|].
  apply IH; [done|lia|intros x Hx; apply Hm; lia|]. by replace (p + 1 + Z.of_nat n) with (p + Z.of_nat (S n)) by lia.
Qed.

Lemma tokens_ok seps q n : forall s p m fuel, cstr m p s -> cstr m q seps -> (length s + length seps < fuel)%nat -> (length s < n)%nat ->
  q + Z.of_nat (length seps) < p \/ p + Z.of_nat (length s) < q ->
  exists ptrs m', tokens n fuel None q (Some p) m = Some (ptrs, m') /\ Forall2 (cstr m') ptrs (words_of seps s) /\
    forall x, ~ p <= x <= p + Z.of_nat (length s) -> m' x = m x.
Proof.
  induction n as [|n IH]; intros s p m fuel Hs Hq Hf Hn Hd; [lia|]. cbn [tokens]. change (strtok_r fuel None q (Some p) m) with (strtok_r fuel (Some p) q None m).
  rewrite (strtok_r_eq m p s q seps fuel Hs Hq Hf), split_words. set (a := until _ s). set (s1 := drop a s). set (b := until _ s1). set (rest := drop b s1).
  pose proof (until_le (fun c => negb (is_sep seps c)) s) as Hle. fold a in Hle. pose proof (cstr_drop m s a p Hs Hle) as Hs1. fold s1 in Hs1.
  pose proof (until_le (is_sep seps) s1) as Hleb. fold b in Hleb. pose proof (cstr_drop m s1 b _ Hs1 Hleb) as Hr. fold rest in Hr.
  assert (L1 : (length s = a + length s1)%nat) by (unfold s1; rewrite length_drop; lia). assert (L2 : (length s1 = b + length rest)%nat) by (unfold rest; rewrite length_drop; lia).
  clearbody rest. clearbody b s1. set (h := p + Z.of_nat a) in *. destruct s1 as [|c s1']; [by exists [], m|]. set (s1 := c :: s1') in *. destruct rest as [|c' rest]; cbn [mbind option_bind].
  - destruct n as [|n]; [unfold s1 in L1; cbn [length] in L1; lia|]. cbn. exists [h], m. split; [done|]. split; [|done]. constructor; [|constructor]. change (length (@nil Z)) with O in L2. rewrite take_ge by (clearbody s1; lia). exact Hs1.
  - destruct Hr as (Hc & Hc0 & Hr). cbn [length] in L2. set (m1 := upd (h + Z.of_nat b) 0 m).
    assert (Hm1 : forall x, x <> h + Z.of_nat b -> m1 x = m x) by (intros x Hx; unfold m1, upd; by rewrite (proj2 (Z.eqb_neq _ _))).
    destruct (IH rest (h + Z.of_nat b + 1) m1 fuel) as (ptrs & m' & E & Hw & Ho); [..|lia|lia| |].
    { apply (cstr_ext m); [done|]. intros x Hx. apply Hm1. lia. }
    { apply (cstr_ext m); [done|]. intros x Hx. apply Hm1. unfold h. lia. }
    { unfold h. lia. }
    rewrite E. cbn [mbind option_bind fst snd]. exists (h :: ptrs), m'. split; [done|]. split.
    + constructor; [|done]. apply (cstr_word m s1); [done|lia| |].
      * intros x Hx. rewrite Ho by lia. apply Hm1. lia.
      * rewrite Ho by lia. unfold m1, upd. by rewrite Z.eqb_refl.
    + intros x Hx. rewrite Ho by (unfold h; lia). apply Hm1. unfold h. lia.
Qed.

(** Splitting a string into words, as the kernel's menu and the shells do: called again
    and again on a string, [strtok_r] returns exactly the maximal runs of bytes that are
    not separators, in order, each one terminated in place, and then NULL; it changes
    nothing outside the string. *)
Theorem strtok_words (m : memory) (p q : Z) (s seps : list Z) (fuel : nat) (Hs : cstr m p s) (Hq : cstr m q seps)
    (Hd : q + Z.of_nat (length seps) < p \/ p + Z.of_nat (length s) < q) (Hf : (length s + length seps < fuel)%nat) :
  exists ptrs m', tokens (S (length s)) fuel (Some p) q None m = Some (ptrs, m') /\ Forall2 (cstr m') ptrs (words_of seps s) /\
    forall x, ~ p <= x <= p + Z.of_nat (length s) -> m' x = m x.
Proof. exact (tokens_ok seps q (S (length s)) s p m fuel Hs Hq Hf (Nat.lt_succ_diag_r _) Hd). Qed.

(** "a bc" at 100, " " at 200. *)
Definition demo_string : memory := upd 100 97 (upd 101 32 (upd 102 98 (upd 103 99 (upd 200 32 (fun _ => 0))))). 

Lemma strtok_words_witness : exists m', tokens 5 10 (Some 100) 200 None demo_string = Some ([100; 102], m') /\ m' 101 = 0 /\ m' 200 = 32.
Proof.
  destruct (strtok_words demo_string 100 200 [97; 32; 98; 99] [32] 10) as (ptrs & m' & E & _ & Ho); [vm_compute; split_and!; congruence|vm_compute; split_and!; congruence|cbn; lia|cbn; lia|].
  exists m'. assert (Ep : fst <$> tokens 5 10 (Some 100) 200 None demo_string = Some [100; 102]) by (vm_compute; reflexivity).
  change (S (length [97; 32; 98; 99])) with 5%nat in E. rewrite E in Ep |- *. cbn in Ep. injection Ep as ->. split; [done|]. split; [|rewrite Ho by (cbn; lia); reflexivity].
  assert (E1 : (fun r => snd r 101) <$> tokens 5 10 (Some 100) 200 None demo_string = Some 0) by (vm_compute; reflexivity). rewrite E in E1. by injection E1.
Defined.
