(* ===== verification/Printf.v ===== *)
(** * Formatted output and numbers, common/libc/printf and common/libc/stdlib/atoi.c

    The engine of printf is shared by the kernel and libc: it sends the text to a function
    its caller gives it. Here [send] adds text to what has been sent, of any type; for
    [snprintf] that is a buffer in memory. The variable arguments are a list; reading one
    that is not there, or of another size, is [Halt OutOfBounds]. *)

From stdpp Require Import base numbers functions list.
From Stdlib Require Import ZArith Lia.
From stdpp Require Import list_relations.
From S2P Require Import Prelude CString.

Open Scope Z_scope.
Open Scope k_scope.

(** An argument: 32 or 64 bits, or a pointer to a string. *)
Inductive arg := W32 (z : Z) | W64 (z : Z) | Str (s : option (list Z)).

Inductive intsize := INTSZ | LONGSZ | LLONGSZ | SIZETSZ.

(** common/libc/printf/__printf.c:89-136 (PF), without [sendfunc] and [clientdata]. *)
Record PF := mkpf {
  ap : list arg;
  charcount : Z;
  in_pct : bool;
  size : intsize;
  num : Z;
  sign : Z;
  spacing : Z;
  rightspc : bool;
  fillchar : Z;
  base : Z;
  baseprefix : bool;
  altformat : bool
}.

Definition set_ap x s := mkpf x (charcount s) (in_pct s) (size s) (num s) (sign s) (spacing s) (rightspc s) (fillchar s) (base s) (baseprefix s) (altformat s).
Definition set_charcount x s := mkpf (ap s) x (in_pct s) (size s) (num s) (sign s) (spacing s) (rightspc s) (fillchar s) (base s) (baseprefix s) (altformat s).
Definition set_in_pct x s := mkpf (ap s) (charcount s) x (size s) (num s) (sign s) (spacing s) (rightspc s) (fillchar s) (base s) (baseprefix s) (altformat s).
Definition set_size x s := mkpf (ap s) (charcount s) (in_pct s) x (num s) (sign s) (spacing s) (rightspc s) (fillchar s) (base s) (baseprefix s) (altformat s).
Definition set_num n g s := mkpf (ap s) (charcount s) (in_pct s) (size s) n g (spacing s) (rightspc s) (fillchar s) (base s) (baseprefix s) (altformat s).
Definition set_spacing x s := mkpf (ap s) (charcount s) (in_pct s) (size s) (num s) (sign s) x (rightspc s) (fillchar s) (base s) (baseprefix s) (altformat s).
Definition set_rightspc x s := mkpf (ap s) (charcount s) (in_pct s) (size s) (num s) (sign s) (spacing s) x (fillchar s) (base s) (baseprefix s) (altformat s).
Definition set_fillchar x s := mkpf (ap s) (charcount s) (in_pct s) (size s) (num s) (sign s) (spacing s) (rightspc s) x (base s) (baseprefix s) (altformat s).
Definition set_base b p s := mkpf (ap s) (charcount s) (in_pct s) (size s) (num s) (sign s) (spacing s) (rightspc s) (fillchar s) b p (altformat s).
Definition set_altformat x s := mkpf (ap s) (charcount s) (in_pct s) (size s) (num s) (sign s) (spacing s) (rightspc s) (fillchar s) (base s) (baseprefix s) x.

(** The characters that matter. *)
Definition PCT : Z := 37.
Definition CH0 : Z := 48.
Definition SPACE : Z := 32.

(** common/libc/printf/__printf.c:84-84 (NUMBER_BUF_SIZE). *)
Definition NUMBER_BUF_SIZE : nat := 64 / 3 + 2.

(** "0123456789abcdef" *)
Definition digit (d : Z) : Z := if d <? 10 then CH0 + d else 87 + d.

Section Printf.
Context {C : Type} (send : C -> list Z -> C).
Local Abbreviation P := (K (C * PF)).

Definition pf_get : P PF := fun s => Done (snd s) s.
Definition pf_mod (f : PF -> PF) : P unit := fun s => Done tt (fst s, f (snd s)).

(** common/libc/printf/__printf.c:144-150 (__pf_print). *)
Definition __pf_print (txt : list Z) : P unit :=
  fun s => Done tt (send (fst s) txt, set_charcount (s32 (charcount (snd s) + Z.of_nat (length txt))) (snd s)).

(** common/libc/printf/__printf.c:155-169 (__pf_endfield). *)
Definition __pf_endfield : P unit :=
  pf_mod (fun s => mkpf (ap s) (charcount s) false INTSZ 0 0 0 false SPACE 0 false false).

(** common/libc/printf/__printf.c:180-233 (__pf_modifier). *)
Definition __pf_modifier (ch : Z) : P unit :=
  s <- pf_get ;;
  if ch =? 35 (* # *) then pf_mod (set_altformat true)
  else if ch =? 45 (* - *) then pf_mod (set_rightspc true)
  else if ch =? 108 (* l *) then pf_mod (set_size (match size s with LONGSZ => LLONGSZ | _ => LONGSZ end))
  else if ch =? 122 (* z *) then pf_mod (set_size SIZETSZ)
  else if ch =? CH0 then
    if 0 <? spacing s then pf_mod (set_spacing (s32 (spacing s * 10))) else pf_mod (set_fillchar CH0)
  else
    kassert ((CH0 <? ch) && (ch <=? 57)) ;;;
    pf_mod (set_spacing (s32 (spacing s * 10 + (ch - CH0)))).

(** [va_arg] of 32 and of 64 bits. *)
Definition va_arg32 : P Z :=
  s <- pf_get ;;
  match ap s with W32 z :: l => pf_mod (set_ap l) ;;; kret z | _ => khalt OutOfBounds end.
Definition va_arg64 : P Z :=
  s <- pf_get ;;
  match ap s with W64 z :: l => pf_mod (set_ap l) ;;; kret z | _ => khalt OutOfBounds end.

(** common/libc/printf/__printf.c:240-311 (__pf_getnum). *)
Definition __pf_getnum (ch : Z) : P unit :=
  s <- pf_get ;;
  if ch =? 112 (* p *) then z <- va_arg32 ;; pf_mod (fun s => set_num (u32 z) (sign s) s)
  else if ch =? 100 (* d *) then
    signednum <- match size s with LLONGSZ => z <- va_arg64 ;; kret (s64 z) | _ => z <- va_arg32 ;; kret (s32 z) end ;;
    if signednum <? 0 then pf_mod (set_num (u64 (- signednum)) (-1))
    else pf_mod (fun s => set_num signednum (sign s) s)
  else
    z <- match size s with LLONGSZ => z <- va_arg64 ;; kret (u64 z) | _ => z <- va_arg32 ;; kret (u32 z) end ;;
    pf_mod (fun s => set_num z (sign s) s).

(** common/libc/printf/__printf.c:323-343 (__pf_setbase). *)
Definition __pf_setbase (ch : Z) : P unit :=
  pf_mod (fun s =>
    let b := if (ch =? 100) || (ch =? 117) then 10 else if (ch =? 120) || (ch =? 112) then 16 else if ch =? 111 then 8 else base s in
    set_base b (if altformat s || (ch =? 112) then true else baseprefix s) s).

(** common/libc/printf/__printf.c:348-357 (__pf_fill). *)
Fixpoint __pf_fill (spc : nat) : P unit :=
  match spc with
  | O => kret tt
  | S n => s <- pf_get ;; __pf_print [u8 (fillchar s)] ;;; __pf_fill n
  end.

(** common/libc/printf/__printf.c:365-404 (__pf_printstuff). *)
Definition __pf_printstuff (prefix prefix2 stuff : list Z) : P unit :=
  s <- pf_get ;;
  let len := s32 (Z.of_nat (length prefix) + Z.of_nat (length prefix2) + Z.of_nat (length stuff)) in
  let spc := if len <? spacing s then spacing s - len else 0 in
  (if (0 <? spc) && negb (rightspc s) && negb (fillchar s =? CH0) then __pf_fill (Z.to_nat spc) else kret tt) ;;;
  __pf_print prefix ;;;
  __pf_print prefix2 ;;;
  (if (0 <? spc) && negb (rightspc s) && (fillchar s =? CH0) then __pf_fill (Z.to_nat spc) else kret tt) ;;;
  __pf_print stuff ;;;
  (if (0 <? spc) && rightspc s then __pf_fill (Z.to_nat spc) else kret tt).

(** common/libc/printf/__printf.c:440-460 (__pf_printnum): the digits, from the last one on
    to the left; [n] places are left in the buffer. *)
Fixpoint digit_loop (n : nat) (base xnum : Z) (acc : list Z) : option (list Z) :=
  match n with
  | O => None
  | S n' =>
      let acc := digit (xnum mod base) :: acc in
      let xnum := xnum / base in
      if 0 <? xnum then digit_loop n' base xnum acc else Some acc
  end.

(** common/libc/printf/__printf.c:413-491 (__pf_printnum). *)
Definition __pf_printnum : P unit :=
  s <- pf_get ;;
  match digit_loop (NUMBER_BUF_SIZE - 1) (base s) (num s) [] with
  | None => khalt OutOfBounds
  | Some x =>
      let bprefix := if baseprefix s && (base s =? 16) then [48; 120] else if baseprefix s && (base s =? 8) then [48] else [] in
      let sprefix := if negb (sign s =? 0) then [45] else [] in
      __pf_printstuff sprefix bprefix x
  end.

(** "#-lz0123456789" and "doupx" *)
Definition modifiers : list Z := [35; 45; 108; 122; 48; 49; 50; 51; 52; 53; 54; 55; 56; 57].
Definition inttypes : list Z := [100; 111; 117; 112; 120].

(** common/libc/printf/__printf.c:496-563 (__pf_send). *)
Definition __pf_send (ch : Z) : P unit :=
  kassert (negb (ch =? 0)) ;;;
  s <- pf_get ;;
  if negb (in_pct s) && negb (ch =? PCT) then __pf_print [ch]
  else if negb (in_pct s) then pf_mod (set_in_pct true)
  else if bool_decide (ch ∈ modifiers) then __pf_modifier ch
  else if bool_decide (ch ∈ inttypes) then
    __pf_getnum ch ;;; __pf_setbase ch ;;; __pf_printnum ;;; __pf_endfield
  else if ch =? 115 (* s *) then
    match ap s with
    | Str str :: l =>
        pf_mod (set_ap l) ;;;
        __pf_printstuff [] [] (default [40; 110; 117; 108; 108; 41] str) ;;;
        __pf_endfield
    | _ => khalt OutOfBounds
    end
  else
    x <- (if ch =? 99 (* c *) then z <- va_arg32 ;; kret (u8 z) else kret ch) ;;
    __pf_printstuff [] [] (if x =? 0 then [] else [x]) ;;;
    __pf_endfield.

Fixpoint pf_sends (format : list Z) : P unit :=
  match format with [] => kret tt | ch :: l => __pf_send ch ;;; pf_sends l end.

(** common/libc/printf/__printf.c:570-592 (__vprintf): what has been sent, and the number
    of characters. *)
Definition __vprintf (c : C) (format : list Z) (args : list arg) : outcome unit (C * Z) :=
  match (__pf_endfield ;;; pf_sends format) (c, mkpf args 0 false INTSZ 0 0 0 false SPACE 0 false false) with
  | Done _ s => Done (fst s, charcount (snd s)) tt
  | Fail e _ => Fail e tt
  | Halt h => Halt h
  end.

End Printf.

(** ** snprintf, common/libc/printf/snprintf.c *)

(** common/libc/printf/snprintf.c:60-64 (SNP), and the memory. *)
Record SNP := mksnp { buf : Z; buflen : Z; bufpos : Z; snp_mem : memory }.

(** common/libc/printf/snprintf.c:73-93 (__snprintf_send). *)
Fixpoint __snprintf_send (snp : SNP) (data : list Z) : SNP :=
  match data with
  | [] => snp
  | c :: data' =>
      __snprintf_send (if bufpos snp <? buflen snp
                       then mksnp (buf snp) (buflen snp) (bufpos snp + 1) (upd (buf snp + bufpos snp) c (snp_mem snp)) else snp) data'
  end.

(** common/libc/printf/snprintf.c:98-142 (vsnprintf); [snprintf] hands over to it. *)
Definition vsnprintf (b len : Z) (fmt : list Z) (args : list arg) (m : memory) : outcome unit (Z * memory) :=
  let snp := mksnp b (if len =? 0 then 0 else len - 1) 0 m in
  match __vprintf __snprintf_send snp fmt args with
  | Done (snp, chars) _ => Done (chars, if 0 <? len then upd (b + bufpos snp) 0 (snp_mem snp) else snp_mem snp) tt
  | Fail e s => Fail e s
  | Halt h => Halt h
  end.

(** ** atoi, common/libc/stdlib/atoi.c *)

(** common/libc/stdlib/atoi.c:57-59 (atoi). *)
Fixpoint skip_blanks (fuel : nat) (s : Z) (m : memory) : option Z :=
  match fuel with
  | O => None
  | S f => if (m s =? SPACE) || (m s =? 9) then skip_blanks f (s + 1) m else Some s
  end.

(** The index of a digit in "0123456789". *)
Definition digit_index (c : Z) : option Z := if (CH0 <=? c) && (c <=? 57) then Some (c - CH0) else None.

(** common/libc/stdlib/atoi.c:71-92 (atoi). *)
Fixpoint atoi_loop (fuel : nat) (s val : Z) (m : memory) : option Z :=
  match fuel with
  | O => None
  | S f =>
      if m s =? 0 then Some val else
      match digit_index (m s) with
      | None => Some val
      | Some d => atoi_loop f (s + 1) (u32 (u32 (val * 10) + d)) m
      end
  end.

(** common/libc/stdlib/atoi.c:49-101 (atoi). *)
Definition atoi (fuel : nat) (s : Z) (m : memory) : option Z :=
  s ← skip_blanks fuel s m;
  let neg := m s =? 45 in
  let s := if neg then s + 1 else if m s =? 43 then s + 1 else s in
  val ← atoi_loop fuel s 0 m;
  Some (if neg : bool then s32 (u32 (- val)) else s32 val).
