(* ===== verification/PrintfSpec.v ===== *)
(** * What printf prints *)

From stdpp Require Import base numbers functions list.
From Stdlib Require Import ZArith Lia.
From stdpp Require Import list_relations.
From S2P Require Import Prelude CString Printf.

Open Scope Z_scope.
Open Scope k_scope.

(** ** Numbers *)

Definition undigit (c : Z) : Z := if c <? 58 then c - CH0 else c - 87.

(** The number that digits stand for. *)
Definition value (base : Z) (ds : list Z) : Z := fold_left (fun v c => v * base + undigit c) ds 0.

Lemma undigit_digit d : 0 <= d < 16 -> undigit (digit d) = d.
Proof. intros Hd. unfold undigit, digit, CH0. cases_lia. Qed.

Lemma fold_digits base ds : forall v, fold_left (fun v c => v * base + undigit c) ds v = v * base ^ Z.of_nat (length ds) + value base ds.
Proof.
  unfold value. induction ds as [|c ds IH] using rev_ind; intros v; cbn [fold_left length]; [cbn; lia|].
  rewrite !fold_left_app, length_app. cbn [fold_left length]. rewrite (IH v), (IH 0). rewrite Nat2Z.inj_add, Z.pow_add_r by lia. rewrite Z.pow_1_r. lia.
Qed.

Lemma value_snoc base ds c : value base (ds ++ [c]) = value base ds * base + undigit c.
Proof. unfold value. by rewrite fold_left_app. Qed.

(** A number below [base ^ n] fits into [n] places, and its digits are its value. *)
Lemma digit_loop_ok base n : 2 <= base <= 16 -> forall x acc, 0 <= x < base ^ Z.of_nat n -> (0 < n)%nat ->
  exists ds, digit_loop n base x acc = Some (ds ++ acc) /\ value base ds = x /\ ds <> [] /\ (length ds <= n)%nat /\
    Forall (fun c => exists d, c = digit d /\ 0 <= d < base) ds.
Proof.
  intros Hb. induction n as [|n IH]; intros x acc Hx Hn; [lia|]. cbn [digit_loop]. pose proof (Z.mod_pos_bound x base ltac:(lia)) as Hm. pose proof (Z.div_mod x base ltac:(lia)) as Hdm.
  assert (Hd : value base [digit (x mod base)] = x mod base) by (unfold value; cbn; by rewrite undigit_digit by lia).
  destruct (Z.ltb_spec 0 (x / base)) as [Hq|Hq].
  - rewrite Nat2Z.inj_succ, Z.pow_succ_r in Hx by lia. assert (Hq' : 0 <= x / base < base ^ Z.of_nat n) by (split; [lia|apply Z.div_lt_upper_bound; lia]).
    assert (Hn' : (0 < n)%nat) by (destruct n; [cbn in Hq'; lia|lia]).
    destruct (IH (x / base) (digit (x mod base) :: acc) Hq' Hn') as (ds & -> & Hv & Hne & Hl & Hf). exists (ds ++ [digit (x mod base)]).
    rewrite <- app_assoc. split; [done|]. split; [rewrite value_snoc, Hv, undigit_digit by lia; lia|]. split; [by destruct ds|]. split; [rewrite length_app; cbn; lia|].
    apply Forall_app. split; [done|]. constructor; [|constructor]. by exists (x mod base).
  - exists [digit (x mod base)]. split; [done|]. split; [|split; [done|split; [cbn; lia|]]].
    + pose proof (Z.div_pos x base ltac:(lia) ltac:(lia)). rewrite Hd. nia.
    + constructor; [|constructor]. by exists (x mod base).
Qed.

(** ** The text does not depend on where it is sent

    [R] relates what two functions have been sent, and the number of characters. *)

Section Simulation.
Context {C1 C2 : Type} (send1 : C1 -> list Z -> C1) (send2 : C2 -> list Z -> C2) (R : C1 -> C2 -> Z -> Prop).
Context (Hsend : forall c1 c2 n txt, R c1 c2 n -> R (send1 c1 txt) (send2 c2 txt) (s32 (n + Z.of_nat (length txt)))).

Definition sim {A} (m1 : K (C1 * PF) A) (m2 : K (C2 * PF) A) : Prop :=
  forall c1 c2 s, R c1 c2 (charcount s) ->
  match m1 (c1, s), m2 (c2, s) with
  | Done a1 (c1', s1), Done a2 (c2', s2) => a1 = a2 /\ s1 = s2 /\ R c1' c2' (charcount s1)
  | Fail e1 _, Fail e2 _ => e1 = e2
  | Halt h1, Halt h2 => h1 = h2
  | _, _ => False
  end.

Lemma sim_bind {A B} (m1 : K (C1 * PF) A) m2 (f1 : A -> K (C1 * PF) B) f2 : sim m1 m2 -> (forall a, sim (f1 a) (f2 a)) -> sim (a <- m1 ;; f1 a) (a <- m2 ;; f2 a).
Proof.
  intros Hm Hf c1 c2 s Hc. specialize (Hm c1 c2 s Hc). unfold kbind. destruct (m1 (c1, s)) as [a1 [c1' s1]| |], (m2 (c2, s)) as [a2 [c2' s2]| |]; try done.
  destruct Hm as (-> & -> & Hc'). by apply Hf.
Qed.

Lemma sim_ret {A} (a : A) : sim (kret a) (kret a).
Proof. by intros c1 c2 s Hc. Qed.

Lemma sim_halt {A} h : sim (A := A) (khalt h) (khalt h).
Proof. by intros c1 c2 s Hc. Qed.

Lemma sim_assert b : sim (kassert b) (kassert b).
Proof. by destruct b; intros c1 c2 s Hc. Qed.

Lemma sim_get : sim pf_get pf_get.
Proof. by intros c1 c2 s Hc. Qed.

Lemma sim_mod f : (forall s, charcount (f s) = charcount s) -> sim (pf_mod f) (pf_mod f).
Proof. intros Hf c1 c2 s Hc. cbn. by rewrite Hf. Qed.

Lemma sim_print txt : sim (__pf_print send1 txt) (__pf_print send2 txt).
Proof. intros c1 c2 s Hc. cbn. split_and!; [done|done|by apply Hsend]. Qed.

Lemma sim_fill n : sim (__pf_fill send1 n) (__pf_fill send2 n).
Proof.
  induction n as [|n IH]; [apply sim_ret|]. cbn [__pf_fill]. apply sim_bind; [apply sim_get|]. intros s. apply sim_bind; [apply sim_print|]. by intros _.
Qed.
End Simulation.

Create HintDb printf.
#[export] Hint Resolve sim_bind sim_ret sim_halt sim_assert sim_get sim_mod sim_print sim_fill : printf.

(** Follow the code of both sides. *)
Ltac sims := repeat match goal with
  | |- sim _ (if ?b then _ else _) (if ?b then _ else _) => destruct b
  | |- sim _ (match ?x with _ => _ end) (match ?x with _ => _ end) => destruct x
  | |- sim _ (kbind _ _) (kbind _ _) => apply sim_bind; [|intros ?]
  | |- sim _ _ _ => solve [auto with printf]
  end.

Section Printing.
Context {C1 C2 : Type} (send1 : C1 -> list Z -> C1) (send2 : C2 -> list Z -> C2) (R : C1 -> C2 -> Z -> Prop).
Context (Hsend : forall c1 c2 n txt, R c1 c2 n -> R (send1 c1 txt) (send2 c2 txt) (s32 (n + Z.of_nat (length txt)))).

Lemma sim_stuff a b c : sim R (__pf_printstuff send1 a b c) (__pf_printstuff send2 a b c).
Proof. unfold __pf_printstuff. sims. Qed.

Lemma sim_pf_send ch : sim R (__pf_send send1 ch) (__pf_send send2 ch).
Proof.
  unfold __pf_send, __pf_printnum, __pf_modifier, __pf_getnum, __pf_setbase, __pf_endfield, va_arg32, va_arg64. sims; apply sim_stuff.
Qed.

Lemma sim_sends fmt : sim R (pf_sends send1 fmt) (pf_sends send2 fmt).
Proof. induction fmt as [|ch l IH]; cbn [pf_sends]; [apply sim_ret|]. apply sim_bind; [apply sim_pf_send|]. by intros _. Qed.

End Printing.

(** ** snprintf *)

(** The text of a format, and its length. *)
Definition text (fmt : list Z) (args : list arg) : outcome unit (list Z * Z) := __vprintf (fun c t => c ++ t) [] fmt args.

Section Snprintf.
Context (b L : Z) (m : memory) (HL : 0 <= L).

(** The buffer has as much of the text as fits. *)
Definition buffered (out : list Z) (snp : SNP) : Prop :=
  buf snp = b /\ buflen snp = L /\ bufpos snp = Z.min (Z.of_nat (length out)) L /\ forall x, snp_mem snp x = store b (take (Z.to_nat L) out) m x.

Lemma send_buffered data : forall out snp, buffered out snp -> buffered (out ++ data) (__snprintf_send snp data).
Proof.
  induction data as [|c data IH]; intros out snp Hb; cbn [__snprintf_send]; [by rewrite app_nil_r|]. rewrite cons_middle, app_assoc. apply IH.
  destruct Hb as (B1 & B2 & B3 & B4). destruct (Z.ltb_spec (bufpos snp) (buflen snp)) as [Hlt|Hge].
  - unfold buffered. cbn [buf buflen bufpos snp_mem]. rewrite B2, B3 in Hlt. rewrite B1, B2, B3. split_and!; [done|done|rewrite length_app; cbn; lia|]. intros x.
    rewrite take_ge by (rewrite length_app; cbn; lia). rewrite take_ge in B4 by lia. unfold upd. rewrite B4, !store_eq, length_app. cbn [length].
    rewrite Z.min_l by lia. cases_lia; subst; try done.
    + by rewrite lookup_app_l by lia.
    + rewrite lookup_app_r by lia. by replace (Z.to_nat (b + Z.of_nat (length out) - b) - length out)%nat with O by lia.
  - rewrite B2, B3 in Hge. split_and!; [done|done|rewrite length_app; cbn; lia|]. intros x. rewrite B4. by rewrite take_app_le by lia.
Qed.

End Snprintf.

Lemma s32_add a c : s32 (s32 a + c) = s32 (a + c).
Proof.
  unfold wraps. replace ((a + 2 ^ (32 - 1)) mod 2 ^ 32 - 2 ^ (32 - 1) + c + 2 ^ (32 - 1)) with ((a + 2 ^ (32 - 1)) mod 2 ^ 32 + c) by lia.
  rewrite Z.add_mod_idemp_l by done. do 2 f_equal. lia.
Qed.

Lemma vsnprintf_ok (b len n : Z) (fmt out : list Z) (args : list arg) (m : memory) (Hlen : 0 <= len) (Htext : text fmt args = Done (out, n) tt) :
  exists m', vsnprintf b len fmt args m = Done (n, m') tt /\ n = s32 (Z.of_nat (length out)) /\
    forall x, m' x = if decide (0 < len) then store b (take (Z.to_nat (len - 1)) out ++ [0]) m x else m x.
Proof.
  set (L := if len =? 0 then 0 else len - 1). assert (HL : 0 <= L) by (unfold L; cases_lia).
  pose (R := fun (out : list Z) snp (n : Z) => buffered b L m out snp /\ n = s32 (Z.of_nat (length out))).
  assert (HR : forall c1 c2 k txt, R c1 c2 k -> R (c1 ++ txt) (__snprintf_send c2 txt) (s32 (k + Z.of_nat (length txt)))).
  { intros c1 c2 k txt [Hb ->]. split; [by apply send_buffered|]. by rewrite s32_add, length_app, Nat2Z.inj_add. }
  pose proof (sim_sends (fun c t => c ++ t) __snprintf_send R HR fmt [] (mksnp b L 0 m) (mkpf args 0 false INTSZ 0 0 0 false SPACE 0 false false)) as Hs.
  assert (H0 : R [] (mksnp b L 0 m) 0) by (split; [|done]; split_and!; [done|done|cbn; lia|intros x; by rewrite take_nil]). specialize (Hs H0).
  unfold text, __vprintf in Htext. unfold vsnprintf, __vprintf. fold L. unfold __pf_endfield, pf_mod, kbind in *. cbn [fst snd ap charcount] in *.
  destruct (pf_sends _ fmt _) as [[] [c1 s1]| |]; [|done|done]. injection Htext as -> <-.
  destruct (pf_sends __snprintf_send fmt _) as [[] [c2 s2]| |]; [|done|done]. destruct Hs as (_ & <- & (B1 & B2 & B3 & B4) & En). cbn [fst snd].
  eexists. split; [done|]. split; [done|]. intros x. destruct (Z.ltb_spec 0 len), (decide (0 < len)); try lia.
  - assert (EL : L = len - 1) by (unfold L; cases_lia). unfold upd. rewrite B3, B4, EL, !store_eq, length_app, length_take. cbn [length]. cases_lia; subst; try done.
    + by rewrite lookup_app_l by (rewrite length_take; lia).
    + rewrite lookup_app_r by (rewrite length_take; lia). rewrite length_take. match goal with |- _ = default 0 ([0] !! ?i) => by replace i with O by lia end.
  - assert (EL : L = 0) by (unfold L; cases_lia). by rewrite B4, EL.
Qed.

(** ** Printing an integer and reading it back *)

(** "%d" *)
Definition fmt_d : list Z := [37; 100].

Lemma printnum_ok s c ds : digit_loop (NUMBER_BUF_SIZE - 1) 10 (num s) [] = Some ds -> base s = 10 -> spacing s = 0 -> baseprefix s = false ->
  Z.of_nat (length ds) < 2 ^ 30 ->
  exists n, __pf_printnum (fun c t => c ++ t) (c, s) = Done tt (c ++ (if negb (sign s =? 0) then [45] else []) ++ ds, set_charcount n s).
Proof.
  intros Hd Hb Hs Hp Hl. unfold __pf_printnum, pf_get. unfold kbind at 1. cbn [snd]. rewrite Hb, Hd, Hp. cbn [andb].
  set (sg := if negb (sign s =? 0) then [45] else []). assert (Hsg : (length sg <= 1)%nat) by (unfold sg; destruct (negb _); cbn; lia).
  unfold __pf_printstuff, pf_get, kbind. cbn [snd]. rewrite Hs. rewrite (proj2 (Z.ltb_ge _ 0)) by (rewrite wraps_small by (cbn [length]; lia); lia). cbn [Z.ltb Z.compare andb].
  unfold kret, __pf_print. cbn [fst snd]. eexists. rewrite app_nil_r, <- app_assoc. done.
Qed.

Lemma s32_u32 n : - 2 ^ 31 <= n < 2 ^ 31 -> s32 (u32 n) = n.
Proof. intros Hn. unfold wraps, wrapu. rewrite Z.add_mod_idemp_l by done. rewrite Z.mod_small by lia. lia. Qed.

Lemma send_d n : - 2 ^ 31 <= n < 2 ^ 31 ->
  __pf_send (fun c t => c ++ t) 100 (@nil Z, mkpf [W32 (u32 n)] 0 true INTSZ 0 0 0 false SPACE 0 false false) =
  (__pf_printnum (fun c t => c ++ t) ;;; __pf_endfield) ([], mkpf [] 0 true INTSZ (Z.abs n) (if decide (n < 0) then -1 else 0) 0 false SPACE 10 false false).
Proof.
  intros Hn. pose proof (s32_u32 n Hn) as Hs32.
  match goal with |- ?l = _ => let l' := eval lazy -[wraps wrapu Z.ltb Z.opp __pf_printnum __pf_endfield] in l in change l with l' end. rewrite Hs32.
  destruct (Z.ltb_spec n 0), (decide (n < 0)); try lia.
  - rewrite wrapu_small by lia. by replace (- n) with (Z.abs n) by lia.
  - by replace n with (Z.abs n) at 1 by lia.
Qed.

Lemma digit_loop_more base n k : forall x acc ds, digit_loop n base x acc = Some ds -> digit_loop (n + k) base x acc = Some ds.
Proof. induction n as [|n IH]; intros x acc ds; cbn [digit_loop Nat.add]; [done|]. destruct (0 <? _); [apply IH|done]. Qed.

Lemma text_d n : - 2 ^ 31 <= n < 2 ^ 31 -> exists ds k, text fmt_d [W32 (u32 n)] = Done ((if decide (n < 0) then [45] else []) ++ ds, k) tt /\
  value 10 ds = Z.abs n /\ ds <> [] /\ (length ds <= 10)%nat /\ Forall (fun c => exists d, c = digit d /\ 0 <= d < 10) ds.
Proof.
  intros Hn. destruct (digit_loop_ok 10 10 ltac:(lia) (Z.abs n) []) as (ds & Hd & Hv & Hne & Hl & Hf); [|lia|].
  { split; [lia|]. apply (Z.le_lt_trans _ (2 ^ 31)); [lia|]. vm_compute. reflexivity. }
  rewrite app_nil_r in Hd. apply (digit_loop_more 10 10 12) in Hd. pose proof (s32_u32 n Hn) as Hs32.
  unfold text, __vprintf, fmt_d. cbn [pf_sends]. unfold __pf_endfield at 1, pf_mod. unfold kbind at 1. cbn [fst snd ap charcount].
  unfold kbind at 1. change (__pf_send (fun c t => c ++ t) 37 ([], mkpf [W32 (u32 n)] 0 false INTSZ 0 0 0 false SPACE 0 false false))
    with (Done (A := unit) tt (@nil Z, mkpf [W32 (u32 n)] 0 true INTSZ 0 0 0 false SPACE 0 false false)). cbv beta iota. unfold kbind at 1. rewrite send_d by done. unfold kbind.
  destruct (printnum_ok (mkpf [] 0 true INTSZ (Z.abs n) (if decide (n < 0) then -1 else 0) 0 false SPACE 10 false false) [] ds Hd) as (k & ->); [done|done|done|lia|].
  cbn. exists ds, k. split_and!; try done. do 2 f_equal. by destruct (decide (n < 0)).
Qed.

Lemma digits_nonzero ds : Forall (fun c => exists d, c = digit d /\ 0 <= d < 10) ds -> Forall (fun c => 48 <= c <= 57) ds.
Proof. intros Hf. eapply Forall_impl; [exact Hf|]. intros c (d & -> & Hd). unfold digit, CH0. cases_lia. Qed.

(** Stored text, terminated, is a string. *)
Lemma cstr_store m b out : Forall (fun c => c <> 0) out -> forall m', (forall x, b <= x -> m' x = store b (out ++ [0]) m x) -> cstr m' b out.
Proof.
  intros Ho. revert b m. induction Ho as [|c out Hc _ IH]; intros b m m' Hm; cbn [cstr].
  - rewrite Hm by lia. cbn. unfold upd. by rewrite Z.eqb_refl.
  - split_and!; [|done|].
    + rewrite Hm by lia. cbn [app store]. rewrite store_eq. unfold upd. cases_lia; done.
    + apply (IH (b + 1) (upd b c m)). intros x Hx. apply Hm. lia.
Qed.

Lemma u32_step v d : u32 (u32 (u32 v * 10) + d) = u32 (v * 10 + d).
Proof. unfold wrapu. by rewrite Z.mul_mod_idemp_l, Z.add_mod_idemp_l by done. Qed.

(** [atoi] accumulates the value of the digits, modulo 2^32. *)
Lemma atoi_loop_eq m ds : Forall (fun c => 48 <= c <= 57) ds -> forall p v fuel, cstr m p ds -> (length ds < fuel)%nat ->
  atoi_loop fuel p (u32 v) m = Some (u32 (fold_left (fun v c => v * 10 + undigit c) ds v)).
Proof.
  induction 1 as [|c ds Hc _ IH]; intros p v [|fuel] Hs Hf; cbn [length] in Hf; try lia; cbn [atoi_loop]; rewrite (cstr_zero _ _ _ Hs).
  - by rewrite bool_decide_true.
  - rewrite bool_decide_false by done. destruct Hs as (-> & _ & Hs). unfold digit_index, CH0. rewrite (proj2 (Z.leb_le 48 c)), (proj2 (Z.leb_le c 57)) by lia. cbn [andb].
    rewrite u32_step. rewrite IH by (done || lia). cbn [fold_left]. unfold undigit, CH0. by rewrite (proj2 (Z.ltb_lt c 58)) by lia.
Qed.

Lemma atoi_ok m p n ds fuel : - 2 ^ 31 <= n < 2 ^ 31 -> Forall (fun c => 48 <= c <= 57) ds -> ds <> [] -> value 10 ds = Z.abs n ->
  cstr m p ((if decide (n < 0) then [45] else []) ++ ds) -> (length ds + 1 < fuel)%nat -> atoi fuel p m = Some n.
Proof.
  intros Hn Hf Hne Hv Hs Hfu. pose proof (s32_u32 n Hn) as Hs32.
  pose proof (fun q => atoi_loop_eq m ds Hf q 0 fuel) as Hl. change (u32 0) with 0 in Hl. fold (value 10 ds) in Hl. rewrite Hv in Hl.
  unfold atoi. destruct fuel as [|fuel]; [lia|]. cbn [skip_blanks]. destruct (decide (n < 0)).
  - destruct Hs as (Hm & _ & Hs). rewrite Hm. change ((45 =? SPACE) || (45 =? 9)) with false. cbn [mbind option_bind]. rewrite Hm. change (45 =? 45) with true. cbv iota. rewrite Hl by (done || lia).
    cbn [mbind option_bind]. rewrite (wrapu_small 32 (Z.abs n)) by lia. replace (- Z.abs n) with n by lia. by rewrite Hs32.
  - destruct ds as [|c ds]; [done|]. pose proof Hs as Hs'. destruct Hs' as (Hm & _ & _). cbn [app] in Hs. apply Forall_cons in Hf as [Hc _]. rewrite Hm.
    assert (Hne1 : forall k, k < 48 -> (c =? k) = false) by (intros k Hk; apply Z.eqb_neq; lia). unfold SPACE. rewrite !Hne1 by lia. cbn [orb mbind option_bind]. rewrite Hm, !Hne1 by lia.
    rewrite Hl by (done || lia). cbn [mbind option_bind]. rewrite Z.abs_eq by lia. by rewrite Hs32.
Qed.

(** C37. An integer printed into a buffer with [snprintf] and "%d" is read back by [atoi]:
    every [int], the smallest one included, in a buffer of 12 bytes or more. *)
Theorem printf_atoi (n b len : Z) (m : memory) (fuel : nat) (Hn : - 2 ^ 31 <= n < 2 ^ 31) (Hlen : 12 <= len) (Hf : (12 <= fuel)%nat) :
  exists k m', vsnprintf b len fmt_d [W32 (u32 n)] m = Done (k, m') tt /\ atoi fuel b m' = Some n.
Proof.
  destruct (text_d n Hn) as (ds & k & Ht & Hv & Hne & Hl & Hd). apply digits_nonzero in Hd. set (out := _ ++ ds) in Ht.
  assert (Hlo : (length out <= 11)%nat) by (unfold out; rewrite length_app; destruct (decide (n < 0)); cbn; lia).
  destruct (vsnprintf_ok b len k fmt_d out [W32 (u32 n)] m ltac:(lia) Ht) as (m' & E & _ & Hm). exists k, m'. split; [exact E|].
  apply (atoi_ok m' b n ds); try done; [|lia]. fold out. apply (cstr_store m).
  - unfold out. apply Forall_app. split; [by destruct (decide (n < 0)); repeat constructor|]. eapply Forall_impl; [exact Hd|]. intros c Hc. cbn in Hc. lia.
  - intros x _. rewrite Hm, decide_True by lia. by rewrite take_ge by lia.
Qed.

Lemma printf_atoi_witness : exists k m', vsnprintf 100 12 fmt_d [W32 (u32 (- 2147483648))] (fun _ => 1) = Done (k, m') tt /\ atoi 12 100 m' = Some (- 2147483648).
Proof. apply (printf_atoi (- 2147483648) 100 12 (fun _ => 1) 12); lia. Defined.

(** "%-05d": zeros to the right of the number, which then reads as another one. *)
Example left_zero_padding : text [37; 45; 48; 53; 100] [W32 42] = Done ([52; 50; 48; 48; 48], 5) tt.
Proof. vm_compute. reflexivity. Qed.
