(* ===== verification/PrintfFormat.v ===== *)
(** * What a printf format means

    Formats as a sequence of items, the text each of them stands for, written down without
    reference to the engine, and the proof that the engine of Printf.v produces it. *)

From stdpp Require Import base numbers functions list.
From Stdlib Require Import ZArith Lia.
From stdpp Require Import list_relations.
From S2P Require Import Prelude CString Printf PrintfSpec.

Open Scope Z_scope.
Open Scope k_scope.

(** ** Numerals *)

(** "0123456789abcdef" *)
Definition hexdigits : list Z := [48; 49; 50; 51; 52; 53; 54; 55; 56; 57; 97; 98; 99; 100; 101; 102].

(** The numeral of [n] in the given base: that of [n / base] and the digit of [n mod base]. *)
Fixpoint numeral_of (fuel : nat) (base n : Z) : list Z :=
  match fuel with
  | O => []
  | S f => (if n <? base then [] else numeral_of f base (n / base)) ++ [nth (Z.to_nat (n mod base)) hexdigits 0]
  end.

(** 64 places are enough for 64 bits. *)
Definition numeral : Z -> Z -> list Z := numeral_of 64.

(** ** Formats *)

(** Padding to a width: none, spaces on the left, spaces on the right, zeros behind the sign
    and the prefix. *)
Inductive pad := NoPad | PadLeft (w : Z) | PadRight (w : Z) | PadZeros (w : Z).

Inductive conv := Dec | Uns | Oct | Hex.

(** An ordinary character; "%%"; an integer, with the prefix of its base if [alt]; a pointer;
    a string; a character. *)
Inductive item :=
| Lit (c : Z)
| Pct
| Num (alt : bool) (p : pad) (sz : intsize) (cv : conv)
| Ptr (p : pad)
| Strg (p : pad)
| Chr (p : pad).

(** How the items are written. *)
Definition print_pad (p : pad) : list Z :=
  match p with
  | NoPad => []
  | PadLeft w => numeral 10 w
  | PadRight w => 45 :: numeral 10 w
  | PadZeros w => 48 :: numeral 10 w
  end.

Definition print_size (sz : intsize) : list Z :=
  match sz with INTSZ => [] | LONGSZ => [108] | LLONGSZ => [108; 108] | SIZETSZ => [122] end.

Definition print_conv (cv : conv) : Z := match cv with Dec => 100 | Uns => 117 | Oct => 111 | Hex => 120 end.

Definition print_item (it : item) : list Z :=
  match it with
  | Lit c => [c]
  | Pct => [37; 37]
  | Num alt p sz cv => 37 :: (if alt : bool then [35] else []) ++ print_pad p ++ print_size sz ++ [print_conv cv]
  | Ptr p => 37 :: print_pad p ++ [112]
  | Strg p => 37 :: print_pad p ++ [115]
  | Chr p => 37 :: print_pad p ++ [99]
  end.

Definition print_format (its : list item) : list Z := its ≫= print_item.

(** Widths are positive [int]s, ordinary characters are neither '%' nor the terminator. *)
Definition pad_ok (p : pad) : Prop :=
  match p with NoPad => True | PadLeft w | PadRight w | PadZeros w => 0 < w < 2 ^ 31 end.

Definition item_ok (it : item) : Prop :=
  match it with Lit c => 0 < c < 256 /\ c <> 37 | Pct => True | Num _ p _ _ | Ptr p | Strg p | Chr p => pad_ok p end.

(** Strings are shorter than 2 GB. *)
Definition arg_ok (a : arg) : Prop :=
  match a with Str (Some s) => Z.of_nat (length s) < 2 ^ 31 | _ => True end.

(** ** Their meaning *)

(** [body] behind [prefix], padded. *)
Definition field (p : pad) (prefix body : list Z) : list Z :=
  let missing w := Z.to_nat (w - Z.of_nat (length (prefix ++ body))) in
  match p with
  | NoPad => prefix ++ body
  | PadLeft w => replicate (missing w) 32 ++ prefix ++ body
  | PadRight w => prefix ++ body ++ replicate (missing w) 32
  | PadZeros w => prefix ++ replicate (missing w) 48 ++ body
  end.

(** The argument of an integer conversion: a [long long] has 64 bits, the others 32. *)
Definition int_arg (sz : intsize) (a : arg) : option (Z * Z) :=
  match sz, a with
  | LLONGSZ, W64 z => Some (s64 z, u64 z)
  | LLONGSZ, _ => None
  | _, W32 z => Some (s32 z, u32 z)
  | _, _ => None
  end.

Definition int_text (alt : bool) (p : pad) (cv : conv) (signed unsigned : Z) : list Z :=
  match cv with
  | Dec => field p (if signed <? 0 then [45] else []) (numeral 10 (Z.abs signed))
  | Uns => field p [] (numeral 10 unsigned)
  | Oct => field p (if alt then [48] else []) (numeral 8 unsigned)
  | Hex => field p (if alt then [48; 120] else []) (numeral 16 unsigned)
  end.

(** "(null)" *)
Definition null_text : list Z := [40; 110; 117; 108; 108; 41].

(** The text of an item and the arguments that are left; [None] if its argument is missing or
    of another kind. *)
Definition item_text (it : item) (args : list arg) : option (list Z * list arg) :=
  match it, args with
  | Lit c, _ => Some ([c], args)
  | Pct, _ => Some ([37], args)
  | Num alt p sz cv, a :: args' => '(s, u) ← int_arg sz a; Some (int_text alt p cv s u, args')
  | Ptr p, W32 z :: args' => Some (field p [48; 120] (numeral 16 (u32 z)), args')
  | Strg p, Str s :: args' => Some (field p [] (default null_text s), args')
  | Chr p, W32 z :: args' => Some (field p [] (if u8 z =? 0 then [] else [u8 z]), args')
  | _, _ => None
  end.

Fixpoint meaning (its : list item) (args : list arg) : option (list Z) :=
  match its with
  | [] => Some []
  | it :: its' => '(t, args') ← item_text it args; rest ← meaning its' args'; Some (t ++ rest)
  end.

(** ** Numerals: the digits are those of the number *)

Lemma hexdigit_eq d : 0 <= d < 16 -> nth (Z.to_nat d) hexdigits 0 = digit d.
Proof.
  intros Hd. rewrite <- (Z2Nat.id d) at 2 by lia. assert (Hn : (Z.to_nat d < 16)%nat) by lia. revert Hn. generalize (Z.to_nat d).
  intros n Hn. do 16 (destruct n as [|n]; [done|]). lia.
Qed.

Lemma numeral_of_value base f : 2 <= base <= 16 -> forall n, 0 <= n < base ^ Z.of_nat f -> value base (numeral_of f base n) = n.
Proof.
  intros Hb. induction f as [|f IH]; intros n Hn; [cbn in *; lia|]. cbn [numeral_of]. pose proof (Z.mod_pos_bound n base ltac:(lia)) as Hm.
  rewrite value_snoc, hexdigit_eq, undigit_digit by lia. pose proof (Z.div_mod n base ltac:(lia)). destruct (Z.ltb_spec n base) as [Hl|Hl].
  - rewrite Z.mod_small by lia. done.
  - rewrite IH; [lia|]. rewrite Nat2Z.inj_succ, Z.pow_succ_r in Hn by lia. split; [apply Z.div_pos; lia|apply Z.div_lt_upper_bound; lia].
Qed.

(** Read back, the numeral of a 64-bit number is the number. *)
Lemma numeral_value base n : 2 <= base <= 16 -> 0 <= n < 2 ^ 64 -> value base (numeral base n) = n.
Proof. intros Hb Hn. apply numeral_of_value; [done|]. split; [lia|]. apply (Z.lt_le_trans _ (2 ^ 64)); [lia|]. apply Z.pow_le_mono_l. lia. Qed.

(** The loop of [__pf_printnum] writes the numeral if there are places for it. *)
Lemma digit_loop_numeral base n : 2 <= base <= 16 -> forall f x acc, (n <= f)%nat -> 0 <= x < base ^ Z.of_nat n -> (0 < n)%nat ->
  digit_loop n base x acc = Some (numeral_of f base x ++ acc).
Proof.
  intros Hb. induction n as [|n IH]; intros [|f] x acc Hf Hx Hn; try lia. cbn [digit_loop numeral_of]. pose proof (Z.mod_pos_bound x base ltac:(lia)) as Hm.
  rewrite hexdigit_eq, <- app_assoc by lia. cbn [app]. rewrite Nat2Z.inj_succ, Z.pow_succ_r in Hx by lia.
  destruct (Z.ltb_spec x base) as [Hl|Hl].
  - rewrite Z.div_small by lia. done.
  - assert (1 <= x / base) by (apply Z.div_le_lower_bound; lia). assert (x / base < base ^ Z.of_nat n) by (apply Z.div_lt_upper_bound; lia).
    rewrite (proj2 (Z.ltb_lt 0 _)) by lia. apply IH; [lia|lia|]. destruct n; [cbn in *; lia|lia].
Qed.

Lemma number_digits base x : base = 8 \/ base = 10 \/ base = 16 -> 0 <= x < 2 ^ 64 ->
  digit_loop (NUMBER_BUF_SIZE - 1) base x [] = Some (numeral base x).
Proof.
  intros Hb Hx. rewrite (digit_loop_numeral base (NUMBER_BUF_SIZE - 1) ltac:(lia) 64 x []); [by rewrite app_nil_r|vm_compute; lia| |vm_compute; lia].
  split; [lia|]. apply (Z.lt_le_trans _ (2 ^ 64)); [lia|]. destruct Hb as [->|[->| ->]]; vm_compute; discriminate.
Qed.

Lemma numeral_of_length f base n : (length (numeral_of f base n) <= f)%nat.
Proof. revert n. induction f as [|f IH]; intros n; cbn [numeral_of]; [done|]. rewrite length_app. destruct (n <? base); [cbn; lia|]. specialize (IH (n / base)). cbn. lia. Qed.

Lemma numeral_length base n : (length (numeral base n) <= 64)%nat.
Proof. apply numeral_of_length. Qed.

(** ** The engine, with a sink that appends *)

Local Abbreviation add := (fun (c t : list Z) => c ++ t).
Local Abbreviation prints := (pf_sends (fun (c t : list Z) => c ++ t)).

Lemma prints_app a b st : prints (a ++ b) st = (prints a ;;; prints b) st.
Proof.
  revert st. induction a as [|ch a IH]; intros st; [done|]. cbn [app pf_sends]. unfold kbind. destruct (__pf_send add ch st) as [u st'| |]; [|done..].
  apply IH.
Qed.

(** Characters one after the other. *)
Lemma prints_two a b st st1 r : prints a st = Done tt st1 -> prints b st1 = r -> prints (a ++ b) st = r.
Proof. intros Ha Hb. rewrite prints_app. unfold kbind. by rewrite Ha. Qed.

(** Between two items, and inside one: the modifiers seen so far. *)
Definition idle (args : list arg) (n : Z) : PF := mkpf args n false INTSZ 0 0 0 false SPACE 0 false false.
Definition inside (args : list arg) (n : Z) (alt : bool) (right : bool) (fc w : Z) (sz : intsize) : PF :=
  mkpf args n true sz 0 0 w right fc 0 false alt.

Lemma print_percent c args n : prints [37] (c, idle args n) = Done tt (c, inside args n false false SPACE 0 INTSZ).
Proof. reflexivity. Qed.

Lemma print_alt c args n (alt : bool) :
  prints (if alt then [35] else []) (c, inside args n false false SPACE 0 INTSZ) = Done tt (c, inside args n alt false SPACE 0 INTSZ).
Proof. by destruct alt. Qed.

Lemma print_sz c args n alt r fc w sz : prints (print_size sz) (c, inside args n alt r fc w INTSZ) = Done tt (c, inside args n alt r fc w sz).
Proof. by destruct sz. Qed.

(** One digit of a width. *)
Lemma width_digit d w c args n alt r fc sz : 0 <= d < 10 -> 0 <= w -> 0 < w \/ 0 < d -> w * 10 + d < 2 ^ 31 ->
  prints [digit d] (c, inside args n alt r fc w sz) = Done tt (c, inside args n alt r fc (w * 10 + d) sz).
Proof.
  intros Hd Hw Hp Hb. cbn [pf_sends]. unfold kbind at 1, __pf_send. unfold digit. rewrite (proj2 (Z.ltb_lt d 10)) by lia. unfold CH0 at 1 2 3 4.
  rewrite (proj2 (Z.eqb_neq (48 + d) 0)) by lia. cbn [negb kassert]. unfold kbind at 1, kret at 1. unfold kbind at 1, pf_get. cbn [snd in_pct inside negb andb].
  rewrite bool_decide_true by (unfold modifiers, CH0; rewrite !elem_of_cons; lia). unfold __pf_modifier. unfold kbind at 1, pf_get. unfold CH0.
  rewrite (proj2 (Z.eqb_neq (48 + d) 35)), (proj2 (Z.eqb_neq (48 + d) 45)), (proj2 (Z.eqb_neq (48 + d) 108)), (proj2 (Z.eqb_neq (48 + d) 122)) by lia.
  cbn [snd spacing inside]. destruct (Z.eqb_spec (48 + d) 48) as [E|E].
  - rewrite (proj2 (Z.ltb_lt 0 w)) by lia. unfold pf_mod, kret. cbn [fst snd]. replace d with 0 by lia. unfold set_spacing, inside. cbn. rewrite wraps_small by lia. by rewrite Z.add_0_r.
  - rewrite (proj2 (Z.ltb_lt 48 _)), (proj2 (Z.leb_le _ 57)) by lia. cbn [andb kassert]. unfold kbind, kret, pf_mod. cbn [fst snd]. unfold set_spacing, inside. cbn.
    replace (48 + d - 48) with d by lia. by rewrite wraps_small by lia.
Qed.

Lemma print_width f w c args n alt r fc sz : 0 < w < 2 ^ 31 -> w < 10 ^ Z.of_nat f ->
  prints (numeral_of f 10 w) (c, inside args n alt r fc 0 sz) = Done tt (c, inside args n alt r fc w sz).
Proof.
  revert w. induction f as [|f IH]; intros w Hw Hf; [cbn in *; lia|]. cbn [numeral_of]. pose proof (Z.mod_pos_bound w 10 ltac:(lia)) as Hm. pose proof (Z.div_mod w 10 ltac:(lia)) as Hdm.
  rewrite hexdigit_eq by lia. destruct (Z.ltb_spec w 10) as [Hl|Hl].
  - rewrite Z.mod_small by lia. cbn [app]. rewrite width_digit by lia. done.
  - rewrite Nat2Z.inj_succ, Z.pow_succ_r in Hf by lia. assert (1 <= w / 10) by (apply Z.div_le_lower_bound; lia).
    eapply prints_two; [apply IH; [lia|apply Z.div_lt_upper_bound; lia]|]. rewrite width_digit by lia. do 4 f_equal. lia.
Qed.

(** The fields of the state a padding leads to. *)
Definition pad_right (p : pad) : bool := match p with PadRight _ => true | _ => false end.
Definition pad_fill (p : pad) : Z := match p with PadZeros _ => CH0 | _ => SPACE end.
Definition pad_width (p : pad) : Z := match p with NoPad => 0 | PadLeft w | PadRight w | PadZeros w => w end.

Lemma print_pad_run p c args n alt : pad_ok p ->
  prints (print_pad p) (c, inside args n alt false SPACE 0 INTSZ) = Done tt (c, inside args n alt (pad_right p) (pad_fill p) (pad_width p) INTSZ).
Proof.
  intros Hp. assert (Hw : forall w, 0 < w < 2 ^ 31 -> w < 10 ^ Z.of_nat 64) by (intros w Hw; apply (Z.lt_trans _ (2 ^ 31)); [lia|vm_compute; reflexivity]).
  destruct p as [|w|w|w]; cbn [pad_ok print_pad pad_right pad_fill pad_width] in *; [done|by apply print_width; auto|..].
  - change (45 :: numeral 10 w) with ([45] ++ numeral 10 w). eapply prints_two; [reflexivity|]. by apply print_width; auto.
  - change (48 :: numeral 10 w) with ([48] ++ numeral 10 w). eapply prints_two; [reflexivity|]. by apply print_width; auto.
Qed.

(** ** Fields *)

(** The same state with more characters counted. *)
Definition counted (s s' : PF) : Prop := exists n, s' = set_charcount n s.

Lemma counted_refl s : counted s s.
Proof. exists (charcount s). by destruct s. Qed.

Lemma counted_trans s1 s2 s3 : counted s1 s2 -> counted s2 s3 -> counted s1 s3.
Proof. intros [n ->] [n' ->]. by exists n'. Qed.

(** [m] prints [txt] and changes nothing but the count. *)
Definition emits (m : K (list Z * PF) unit) (s : PF) (txt : list Z) : Prop :=
  forall c n, exists n', m (c, set_charcount n s) = Done tt (c ++ txt, set_charcount n' s).

Lemma emits_print s txt : emits (__pf_print add txt) s txt.
Proof. intros c n. by eexists. Qed.

Lemma emits_nothing s : emits (kret tt) s [].
Proof. intros c n. exists n. by rewrite app_nil_r. Qed.

Lemma emits_bind m1 m2 s t1 t2 : emits m1 s t1 -> emits m2 s t2 -> emits (m1 ;;; m2) s (t1 ++ t2).
Proof.
  intros H1 H2 c n. destruct (H1 c n) as (n1 & E1). destruct (H2 (c ++ t1) n1) as (n2 & E2). exists n2. unfold kbind. by rewrite E1, E2, app_assoc.
Qed.

Lemma emits_get f s txt : (forall n, emits (f (set_charcount n s)) s txt) -> emits (s' <- pf_get ;; f s') s txt.
Proof. intros H c n. apply (H n). Qed.

Lemma emits_fill k s : emits (__pf_fill add k) s (replicate k (u8 (fillchar s))).
Proof.
  induction k as [|k IH]; [apply emits_nothing|]. cbn [__pf_fill replicate]. apply emits_get. intros n.
  change (u8 (fillchar s) :: replicate k (u8 (fillchar s))) with ([u8 (fillchar s)] ++ replicate k (u8 (fillchar s))). by apply emits_bind; [apply emits_print|].
Qed.

(** The state is ready for a field with this padding. *)
Definition padded (p : pad) (s : PF) : Prop := rightspc s = pad_right p /\ fillchar s = pad_fill p /\ spacing s = pad_width p.

Lemma emits_stuff p s prefix prefix2 body : padded p s -> pad_ok p -> Z.of_nat (length ((prefix ++ prefix2) ++ body)) < 2 ^ 31 ->
  emits (__pf_printstuff add prefix prefix2 body) s (field p (prefix ++ prefix2) body).
Proof.
  intros (Hr & Hf & Hw) Hp Hl. unfold __pf_printstuff. apply emits_get. intros n. cbn [spacing rightspc fillchar set_charcount].
  set (tot := Z.of_nat (length ((prefix ++ prefix2) ++ body))) in *.
  assert (Hlen : s32 (Z.of_nat (length prefix) + Z.of_nat (length prefix2) + Z.of_nat (length body)) = tot).
  { unfold tot. rewrite !length_app. rewrite wraps_small; unfold tot in Hl; rewrite !length_app in Hl; lia. }
  rewrite Hlen, Hr, Hf, Hw. unfold field. fold tot. cbv zeta.
  assert (Hspc : forall w, (if tot <? w then w - tot else 0) = Z.of_nat (Z.to_nat (w - tot))) by (intros w; cases_lia).
  rewrite !Hspc, Nat2Z.id. assert (Hfill : forall (b : bool), (0 <? Z.of_nat (Z.to_nat (pad_width p - tot))) && b = false -> b = true -> Z.to_nat (pad_width p - tot) = 0%nat).
  { intros b Hb ->. rewrite andb_true_r in Hb. apply Z.ltb_ge in Hb. lia. }
  assert (Hem : forall b : bool, emits (if (0 <? Z.of_nat (Z.to_nat (pad_width p - tot))) && b then __pf_fill add (Z.to_nat (pad_width p - tot)) else kret tt) s
    (if b then replicate (Z.to_nat (pad_width p - tot)) (u8 (fillchar s)) else [])).
  { intros b. destruct (_ && b) eqn:E; [apply andb_true_iff in E as [_ ->]; apply emits_fill|]. destruct b; [rewrite (Hfill true E eq_refl)|]; apply emits_nothing. }
  rewrite <- !andb_assoc.
  eassert (E : field p (prefix ++ prefix2) body = _ ++ prefix ++ prefix2 ++ _ ++ body ++ _).
  2: { unfold field in E. fold tot in E. cbv zeta in E. rewrite E. apply emits_bind; [apply Hem|]. apply emits_bind; [apply emits_print|]. apply emits_bind; [apply emits_print|].
       apply emits_bind; [apply Hem|]. apply emits_bind; [apply emits_print|apply Hem]. }
  unfold field. fold tot. cbv zeta. rewrite Hf. destruct p; cbn [pad_right pad_fill pad_width negb andb]; change (SPACE =? CH0) with false; change (CH0 =? CH0) with true; cbn [negb andb app];
    rewrite ?app_nil_r, <- ?app_assoc; try done.
  unfold tot. by replace (Z.to_nat (0 - _)) with 0%nat by lia.
Qed.

(** ** Conversions *)

(** The state at the end of an item. *)
Lemma endfield_run (c : list Z) s : __pf_endfield (c, s) = Done tt (c, idle (ap s) (charcount s)).
Proof. reflexivity. Qed.

Definition base_prefix (base : Z) (bp : bool) : list Z :=
  if bp && (base =? 16) then [48; 120] else if bp && (base =? 8) then [48] else [].

Lemma printnum_run p c args n sz x sg base bp alt : pad_ok p -> base = 8 \/ base = 10 \/ base = 16 -> 0 <= x < 2 ^ 64 ->
  exists n', (__pf_printnum add ;;; __pf_endfield) (c, mkpf args n true sz x sg (pad_width p) (pad_right p) (pad_fill p) base bp alt) =
    Done tt (c ++ field p ((if negb (sg =? 0) then [45] else []) ++ base_prefix base bp) (numeral base x), idle args n').
Proof.
  intros Hp Hb Hx. set (s := mkpf args n true sz x sg (pad_width p) (pad_right p) (pad_fill p) base bp alt).
  destruct (emits_stuff p s (if negb (sg =? 0) then [45] else []) (base_prefix base bp) (numeral base x)) with (c := c) (n := n) as (n' & E); [done|done| |].
  { rewrite !length_app. pose proof (numeral_length base x). unfold base_prefix. destruct (negb (sg =? 0)), (bp && (base =? 16)), (bp && (base =? 8)); cbn [length]; lia. }
  exists n'. unfold __pf_printnum. unfold kbind at 1, kbind at 1, pf_get. cbn [snd]. change (Printf.base s) with base. change (num s) with x. rewrite number_digits by done.
  change (set_charcount n s) with s in E. unfold base_prefix in *. change (baseprefix s) with bp. change (sign s) with sg. cbv zeta. rewrite E. done.
Qed.

Lemma int_arg_range sz a sg us : int_arg sz a = Some (sg, us) -> - 2 ^ 63 <= sg < 2 ^ 63 /\ 0 <= us < 2 ^ 64.
Proof.
  assert (H1 : forall z, - 2 ^ 31 <= s32 z < 2 ^ 31) by (intros z; apply (wraps_range 32); lia). assert (H2 : forall z, 0 <= u32 z < 2 ^ 32) by (intros z; apply wrapu_range; lia).
  assert (H3 : forall z, - 2 ^ 63 <= s64 z < 2 ^ 63) by (intros z; apply (wraps_range 64); lia). assert (H4 : forall z, 0 <= u64 z < 2 ^ 64) by (intros z; apply wrapu_range; lia).
  destruct sz, a as [z|z|]; try done; intros [= <- <-]; specialize (H1 z); specialize (H2 z); specialize (H3 z); specialize (H4 z); lia.
Qed.

(** [s] with another list of arguments. *)
Lemma getnum_signed (c : list Z) s sz a args sg us : size s = sz -> ap s = a :: args -> int_arg sz a = Some (sg, us) -> sign s = 0 ->
  exists g, negb (g =? 0) = (sg <? 0) /\ __pf_getnum 100 (c, s) = Done tt (c, set_num (Z.abs sg) g (set_ap args s)).
Proof.
  intros Hsz Hap Ha Hs. destruct (int_arg_range _ _ _ _ Ha) as [Hsg _].
  assert (E : __pf_getnum 100 (c, s) = (if sg <? 0 then pf_mod (set_num (u64 (- sg)) (-1)) else pf_mod (fun s => set_num sg (sign s) s)) (c, set_ap args s)).
  { unfold __pf_getnum. unfold kbind at 1, pf_get at 1. cbn [snd]. rewrite Hsz. change (100 =? 112) with false. change (100 =? 100) with true. cbv iota.
    destruct sz, a as [z|z|]; try done; injection Ha as <- <-; unfold va_arg32, va_arg64, pf_get, pf_mod, kbind, kret; cbn [snd fst]; by rewrite Hap. }
  rewrite E. destruct (Z.ltb_spec sg 0).
  - exists (-1). split; [done|]. unfold pf_mod. cbn [fst snd]. rewrite wrapu_small by lia. by replace (- sg) with (Z.abs sg) by lia.
  - exists 0. split; [done|]. unfold pf_mod. cbn [fst snd]. rewrite Z.abs_eq by lia. replace (sign (set_ap args s)) with 0 by done. done.
Qed.

Lemma getnum_unsigned ch (c : list Z) s sz a args sg us : ch = 117 \/ ch = 111 \/ ch = 120 -> size s = sz -> ap s = a :: args -> int_arg sz a = Some (sg, us) ->
  sign s = 0 -> __pf_getnum ch (c, s) = Done tt (c, set_num us 0 (set_ap args s)).
Proof.
  intros Hch Hsz Hap Ha Hs. unfold __pf_getnum. unfold kbind at 1, pf_get at 1. cbn [snd]. rewrite Hsz. rewrite (proj2 (Z.eqb_neq ch 112)), (proj2 (Z.eqb_neq ch 100)) by lia.
  destruct sz, a as [z|z|]; try done; injection Ha as <- <-; unfold va_arg32, va_arg64, pf_get, pf_mod, kbind, kret; cbn [snd fst]; rewrite Hap; cbn [snd fst]; by rewrite <- Hs.
Qed.

Lemma send_inttype ch (c : list Z) s : in_pct s = true -> ch ∈ inttypes ->
  prints [ch] (c, s) = (__pf_getnum ch ;;; __pf_setbase ch ;;; __pf_printnum add ;;; __pf_endfield) (c, s).
Proof.
  intros Hs Hch. cbn [pf_sends]. assert (E : __pf_send add ch (c, s) = (__pf_getnum ch ;;; __pf_setbase ch ;;; __pf_printnum add ;;; __pf_endfield) (c, s)).
  { unfold __pf_send. unfold inttypes in Hch. rewrite !elem_of_cons, elem_of_nil in Hch. rewrite (proj2 (Z.eqb_neq ch 0)) by lia. cbn [negb kassert].
    unfold kbind at 1, kret at 1. unfold kbind at 1, pf_get at 1. cbn [snd]. rewrite Hs. cbn [negb andb].
    rewrite bool_decide_false by (unfold modifiers; rewrite !elem_of_cons, elem_of_nil; lia). by rewrite bool_decide_true by (unfold inttypes; rewrite !elem_of_cons, elem_of_nil; lia). }
  unfold kbind at 1. rewrite E. by destruct (kbind _ _ (c, s)) as [[] | |].
Qed.

Lemma send_int c args n alt p sz cv a sg us : pad_ok p -> int_arg sz a = Some (sg, us) ->
  exists n', prints [print_conv cv] (c, inside (a :: args) n alt (pad_right p) (pad_fill p) (pad_width p) sz) =
    Done tt (c ++ int_text alt p cv sg us, idle args n').
Proof.
  intros Hp Ha. destruct (int_arg_range _ _ _ _ Ha) as [Hsg Hus]. rewrite send_inttype by (destruct cv; first [done | unfold inttypes; rewrite !elem_of_cons; cbn; lia]).
  unfold kbind at 1. destruct cv; cbn [print_conv int_text].
  - destruct (getnum_signed c (inside (a :: args) n alt (pad_right p) (pad_fill p) (pad_width p) sz) sz a args sg us) as (g & Hg & ->); try done.
    destruct (printnum_run p c args n sz (Z.abs sg) g 10 (if alt || false then true else false) alt) as (n' & E); [done|lia|lia|].
    exists n'. unfold kbind at 1, __pf_setbase, pf_mod. cbn [fst snd]. etransitivity; [exact E|]. rewrite Hg. unfold base_prefix. rewrite !andb_false_r. by rewrite app_nil_r.
  - rewrite (getnum_unsigned 117 _ _ sz a args sg us) by (done || lia).
    destruct (printnum_run p c args n sz us 0 10 (if alt || false then true else false) alt) as (n' & E); [done|lia|lia|].
    exists n'. unfold kbind at 1, __pf_setbase, pf_mod. cbn [fst snd]. etransitivity; [exact E|]. unfold base_prefix. by rewrite !andb_false_r.
  - rewrite (getnum_unsigned 111 _ _ sz a args sg us) by (done || lia).
    destruct (printnum_run p c args n sz us 0 8 (if alt || false then true else false) alt) as (n' & E); [done|lia|lia|].
    exists n'. unfold kbind at 1, __pf_setbase, pf_mod. cbn [fst snd]. etransitivity; [exact E|]. by destruct alt.
  - rewrite (getnum_unsigned 120 _ _ sz a args sg us) by (done || lia).
    destruct (printnum_run p c args n sz us 0 16 (if alt || false then true else false) alt) as (n' & E); [done|lia|lia|].
    exists n'. unfold kbind at 1, __pf_setbase, pf_mod. cbn [fst snd]. etransitivity; [exact E|]. by destruct alt.
Qed.

(** A pointer is printed like an integer in base 16 with its prefix. *)
Lemma send_ptr c args n p z : pad_ok p ->
  exists n', prints [112] (c, inside (W32 z :: args) n false (pad_right p) (pad_fill p) (pad_width p) INTSZ) =
    Done tt (c ++ field p [48; 120] (numeral 16 (u32 z)), idle args n').
Proof.
  intros Hp. rewrite send_inttype by (done || unfold inttypes; rewrite !elem_of_cons; lia). pose proof (wrapu_range 32 z ltac:(lia)) as Hz.
  destruct (printnum_run p c args n INTSZ (u32 z) 0 16 true false) as (n' & E); [done|lia|lia|]. exists n'. etransitivity; [|exact E]. done.
Qed.

(** A string or a character. *)
Lemma stuff_run p c args n a body : pad_ok p -> Z.of_nat (length body) < 2 ^ 31 ->
  exists n', (__pf_printstuff add [] [] body ;;; __pf_endfield) (c, inside args n a (pad_right p) (pad_fill p) (pad_width p) INTSZ) =
    Done tt (c ++ field p [] body, idle args n').
Proof.
  intros Hp Hl. set (s := inside args n a (pad_right p) (pad_fill p) (pad_width p) INTSZ).
  destruct (emits_stuff p s [] [] body) with (c := c) (n := n) as (n' & E); [done|done|done|]. exists n'. change (set_charcount n s) with s in E.
  unfold kbind. rewrite E. done.
Qed.

Lemma prints_one ch c s u c' s' : __pf_send add ch (c, s) = Done u (c', s') -> prints [ch] (c, s) = Done tt (c', s').
Proof. intros E. cbn [pf_sends]. unfold kbind. by rewrite E. Qed.

Lemma send_str c args n p str : pad_ok p -> arg_ok (Str str) ->
  exists n', prints [115] (c, inside (Str str :: args) n false (pad_right p) (pad_fill p) (pad_width p) INTSZ) =
    Done tt (c ++ field p [] (default null_text str), idle args n').
Proof.
  intros Hp Ha. destruct (stuff_run p c args n false (default null_text str)) as (n' & E); [done|by destruct str|]. exists n'. by apply prints_one with (u := tt).
Qed.

Lemma send_chr c args n p z : pad_ok p ->
  exists n', prints [99] (c, inside (W32 z :: args) n false (pad_right p) (pad_fill p) (pad_width p) INTSZ) =
    Done tt (c ++ field p [] (if u8 z =? 0 then [] else [u8 z]), idle args n').
Proof.
  intros Hp. destruct (stuff_run p c args n false (if u8 z =? 0 then [] else [u8 z])) as (n' & E); [done|by destruct (u8 z =? 0)|].
  exists n'. by apply prints_one with (u := tt).
Qed.

(** "%", the padding and the conversion. *)
Lemma print_field p conv c args n r : pad_ok p -> prints conv (c, inside args n false (pad_right p) (pad_fill p) (pad_width p) INTSZ) = r ->
  prints (37 :: print_pad p ++ conv) (c, idle args n) = r.
Proof.
  intros Hp E. change (37 :: print_pad p ++ conv) with ([37] ++ print_pad p ++ conv). eapply prints_two; [apply print_percent|].
  eapply prints_two; [by apply print_pad_run|done].
Qed.

Lemma item_run it args out args' c n : item_ok it -> Forall arg_ok args -> item_text it args = Some (out, args') ->
  Forall arg_ok args' /\ exists n', prints (print_item it) (c, idle args n) = Done tt (c ++ out, idle args' n').
Proof.
  intros Hok Hargs Ht. destruct it as [ch| |alt p sz cv|p|p|p]; cbn [item_ok item_text print_item] in *.
  - injection Ht as <- <-. split; [done|]. destruct Hok as [Hr Hne]. eexists. cbn [pf_sends]. unfold kbind at 1, __pf_send. rewrite (proj2 (Z.eqb_neq ch 0)) by lia. cbn [negb kassert].
    unfold kbind at 1, kret at 1. unfold kbind at 1, pf_get. cbn [snd in_pct idle negb andb]. unfold PCT. rewrite (proj2 (Z.eqb_neq ch 37)) by done. reflexivity.
  - injection Ht as <- <-. split; [done|]. destruct (stuff_run NoPad c args n false [37]) as (n' & E); [done|done|]. exists n'.
    change [37; 37] with ([37] ++ [37]). eapply prints_two; [apply print_percent|]. by apply prints_one with (u := tt).
  - destruct args as [|a args]; [done|]. destruct (int_arg sz a) as [[sg us]|] eqn:Ea; [|done]. injection Ht as <- <-. apply Forall_cons in Hargs as [_ Hargs]. split; [done|].
    destruct (send_int c args n alt p sz cv a sg us Hok Ea) as (n' & E). exists n'. rewrite <- E.
    change (37 :: ?x ++ ?y) with ([37] ++ x ++ y). eapply prints_two; [apply print_percent|]. eapply prints_two; [apply print_alt|].
    eapply prints_two; [by apply print_pad_run|]. eapply prints_two; [apply print_sz|done].
  - destruct args as [|[z| |] args]; try done. injection Ht as <- <-. apply Forall_cons in Hargs as [_ Hargs]. split; [done|].
    destruct (send_ptr c args n p z Hok) as (n' & E). exists n'. by apply print_field.
  - destruct args as [|[| |str] args]; try done. injection Ht as <- <-. apply Forall_cons in Hargs as [Ha Hargs]. split; [done|].
    destruct (send_str c args n p str Hok Ha) as (n' & E). exists n'. by apply print_field.
  - destruct args as [|[z| |] args]; try done. injection Ht as <- <-. apply Forall_cons in Hargs as [_ Hargs]. split; [done|].
    destruct (send_chr c args n p z Hok) as (n' & E). exists n'. by apply print_field.
Qed.

Lemma format_run its : forall args out c n, Forall item_ok its -> Forall arg_ok args -> meaning its args = Some out ->
  exists args' n', prints (print_format its) (c, idle args n) = Done tt (c ++ out, idle args' n').
Proof.
  induction its as [|it its IH]; intros args out c n Hits Hargs Hm; cbn [meaning] in Hm.
  - injection Hm as <-. exists args, n. by rewrite app_nil_r.
  - apply Forall_cons in Hits as [Hit Hits]. destruct (item_text it args) as [[t args1]|] eqn:Et; [|done]. cbn [mbind option_bind] in Hm.
    destruct (meaning its args1) as [rest|] eqn:Em; [|done]. injection Hm as <-. destruct (item_run it args t args1 c n Hit Hargs Et) as (Hargs1 & n1 & E1).
    destruct (IH args1 rest (c ++ t) n1 Hits Hargs1 Em) as (args2 & n2 & E2). exists args2, n2. rewrite app_assoc. rewrite <- E2.
    unfold print_format. cbn [mbind list_bind]. by eapply prints_two.
Qed.

Lemma text_format its args out : Forall item_ok its -> Forall arg_ok args -> meaning its args = Some out ->
  exists n, text (print_format its) args = Done (out, n) tt.
Proof.
  intros Hits Hargs Hm. destruct (format_run its args out [] 0 Hits Hargs Hm) as (args' & n' & E). exists n'. unfold text, __vprintf.
  unfold kbind. rewrite endfield_run. cbn [ap charcount]. by rewrite E.
Qed.

(** ** Theorem *)

(** C36. For a format made of ordinary characters and the conversions %d, %u, %o, %x, %p, %s,
    %c and %%, with the flag # , the sizes l, ll and z and a width padded with spaces on
    either side or with zeros, and arguments of the kinds the conversions ask for (widths and
    strings below 2 GB): [snprintf] returns, and puts the text that the format means into the
    buffer, cut off so that it fits together with its terminator; it writes to no other
    memory, whatever the length of the buffer, 0 included, and returns the number of
    characters of the whole text, as an [int]. The text is given by [meaning], which does not
    refer to the engine: numerals are written digit by digit in the base of the conversion
    with the sign and the prefix in front, and padded to the width. *)
Theorem vsnprintf_spec (b len : Z) (its : list item) (args : list arg) (out : list Z) (m : memory) (Hlen : 0 <= len)
    (Hits : Forall item_ok its) (Hargs : Forall arg_ok args) (Hm : meaning its args = Some out) :
  exists m', vsnprintf b len (print_format its) args m = Done (s32 (Z.of_nat (length out)), m') tt /\
    forall x, m' x = if decide (0 < len) then store b (take (Z.to_nat (len - 1)) out ++ [0]) m x else m x.
Proof.
  destruct (text_format its args out Hits Hargs Hm) as (n & Ht). destruct (vsnprintf_ok b len n (print_format its) out args m Hlen Ht) as (m' & E & -> & Hx). by exists m'.
Qed.

(** "ab%d" with -71 in a buffer of 5 bytes, and "%#08llx|%-3s|" in one of none. *)
Lemma vsnprintf_spec_witness : exists m1 m2,
  vsnprintf 100 5 [97; 98; 37; 100] [W32 (-71)] (fun _ => 1) = Done (5, m1) tt /\ load 100 6 m1 = [97; 98; 45; 55; 0; 1] /\
  vsnprintf 100 0 [37; 35; 48; 56; 108; 108; 120; 124; 37; 45; 51; 115; 124] [W64 (2 ^ 24); Str (Some [97])] (fun _ => 1) = Done (14, m2) tt /\ m2 100 = 1 /\
  meaning [Num true (PadZeros 8) LLONGSZ Hex; Lit 124; Strg (PadRight 3); Lit 124] [W64 (2 ^ 24); Str (Some [97])] =
    Some [48; 120; 49; 48; 48; 48; 48; 48; 48; 124; 97; 32; 32; 124].
Proof.
  destruct (vsnprintf_spec 100 5 [Lit 97; Lit 98; Num false NoPad INTSZ Dec] [W32 (-71)] [97; 98; 45; 55; 49] (fun _ => 1)) as (m1 & E1 & Hm1);
    [lia|repeat constructor; lia|by repeat constructor|vm_compute; reflexivity|].
  destruct (vsnprintf_spec 100 0 [Num true (PadZeros 8) LLONGSZ Hex; Lit 124; Strg (PadRight 3); Lit 124] [W64 (2 ^ 24); Str (Some [97])]
    [48; 120; 49; 48; 48; 48; 48; 48; 48; 124; 97; 32; 32; 124] (fun _ => 1)) as (m2 & E2 & Hm2);
    [lia|repeat constructor; lia|by repeat constructor|vm_compute; reflexivity|].
  exists m1, m2. split; [exact E1|]. split; [unfold load; cbn; rewrite !Hm1; vm_compute; reflexivity|]. split; [exact E2|]. split; [rewrite Hm2; vm_compute; reflexivity|vm_compute; reflexivity].
Defined.
