(* ===== verification/KLib.v ===== *)
(** * Small routines of the kernel: kern/lib/bswap.c, time.c and kgets.c *)

From stdpp Require Import base numbers functions list.
From Stdlib Require Import ZArith Lia.
From stdpp Require Import list_relations.
From S2P Require Import Prelude CString.

Open Scope Z_scope.

(** ** Byte order *)

(** kern/lib/bswap.c:46-51 (bswap16). *)
Definition bswap16 (val : Z) : Z := u16 (Z.lor (Z.shiftl (Z.land val 0x00ff) 8) (Z.shiftr (Z.land val 0xff00) 8)).

(** kern/lib/bswap.c:53-60 (bswap32). *)
Definition bswap32 (val : Z) : Z :=
  Z.lor (Z.lor (Z.lor (u32 (Z.shiftl (Z.land val 0x000000ff) 24)) (u32 (Z.shiftl (Z.land val 0x0000ff00) 8)))
           (Z.shiftr (Z.land val 0x00ff0000) 8)) (Z.shiftr (Z.land val 0xff000000) 24).

(** kern/lib/bswap.c:62-73 (bswap64). *)
Definition bswap64 (val : Z) : Z :=
  Z.lor (Z.lor (Z.lor (Z.lor (Z.lor (Z.lor (Z.lor
    (u64 (Z.shiftl (Z.land val 0x00000000000000ff) 56))
    (u64 (Z.shiftl (Z.land val 0x000000000000ff00) 40)))
    (u64 (Z.shiftl (Z.land val 0x0000000000ff0000) 24)))
    (u64 (Z.shiftl (Z.land val 0x00000000ff000000) 8)))
    (u64 (Z.shiftl (Z.land val 0x000000ff00000000) 8)))
    (u64 (Z.shiftl (Z.land val 0x0000ff0000000000) 24)))
    (Z.shiftr (Z.land val 0x00ff000000000000) 40))
    (Z.shiftr (Z.land val 0xff00000000000000) 56).

(** kern/lib/bswap.c:106-108 (TO): [ntohs], [ntohl] and [ntohll] on a big-endian machine. *)
Definition ntoh (val : Z) : Z := val.

(** kern/lib/bswap.c:106-108 (TO): [htons] and the like. *)
Definition hton (val : Z) : Z := val.

(** kern/lib/bswap.c:137-147 (join32to64). *)
Definition join32to64 (x1 x2 : Z) : Z := Z.lor (u64 (Z.shiftl x1 32)) x2.

(** kern/lib/bswap.c:149-161 (split64to32). *)
Definition split64to32 (x : Z) : Z * Z := (u32 (Z.shiftr x 32), u32 (Z.land x 0xffffffff)).

(** ** Time *)

(** kern/include/kern/time.h:48-51 (timespec). *)
Record timespec := mkts { tv_sec : Z; tv_nsec : Z }.

(** kern/lib/time.c:36-47 (timespec_add). *)
Definition timespec_add (ts1 ts2 : timespec) : timespec :=
  let ret := mkts (s64 (tv_sec ts1 + tv_sec ts2)) (s32 (tv_nsec ts1 + tv_nsec ts2)) in
  if 1000000000 <=? tv_nsec ret then mkts (s64 (tv_sec ret + 1)) (s32 (tv_nsec ret - 1000000000)) else ret.

(** kern/lib/time.c:52-69 (timespec_sub). *)
Definition timespec_sub (ts1 ts2 : timespec) : timespec :=
  let r := if tv_nsec ts1 <? tv_nsec ts2 then mkts (s64 (tv_sec ts1 - 1)) (s32 (tv_nsec ts1 + 1000000000)) else ts1 in
  mkts (s64 (tv_sec r - tv_sec ts2)) (s32 (tv_nsec r - tv_nsec ts2)).

(** ** Lines from the console *)

(** What goes to the console. *)
Inductive sent := Putch (c : Z) | Beep.

(** The memory, and the output so far. *)
Record con := mkcon { c_mem : memory; c_out : list sent }.

Definition putch (c : Z) (s : con) : con := mkcon (c_mem s) (c_out s ++ [Putch c]).
Definition beep (s : con) : con := mkcon (c_mem s) (c_out s ++ [Beep]).
Definition put (a v : Z) (s : con) : con := mkcon (upd a v (c_mem s)) (c_out s).

(** kern/lib/kgets.c:39-46 (backsp). *)
Definition backsp (s : con) : con := putch 8 (putch 32 (putch 8 s)).

(** kern/lib/kgets.c:91-94 (kgets): erase the line. *)
Fixpoint erase (pos : nat) (s : con) : con :=
  match pos with O => s | S p => erase p (backsp s) end.

(** kern/lib/kgets.c:98-105 (kgets): step back over spaces, or over other characters. *)
Fixpoint back_over (space : bool) (buf : Z) (pos : nat) (s : con) : nat * con :=
  match pos with
  | O => (O, s)
  | S p => if Bool.eqb (c_mem s (buf + Z.of_nat p) =? 32) space then back_over space buf p (backsp s) else (pos, s)
  end.

(** The string at [buf], to the console. *)
Definition kprint_string (buf : Z) (pos : nat) (s : con) : con :=
  mkcon (c_mem s) (c_out s ++ (Putch <$> load buf (Z.to_nat (default 0 (strlen (S pos) buf 0 (c_mem s)))) (c_mem s))).

(** kern/lib/kgets.c:59-110 (kgets): the loop, with the characters that are typed; [None] is
    waiting for another one. *)
Fixpoint kgets_loop (buf maxlen : Z) (input : list Z) (pos : nat) (s : con) : option (list Z * nat * con) :=
  match input with
  | [] => None
  | ch :: input =>
      if (ch =? 10) || (ch =? 13) then Some (input, pos, putch 10 s)
      else if (32 <=? ch) && (ch <? 127) && (Z.of_nat pos <? u32 (maxlen - 1)) then
        kgets_loop buf maxlen input (S pos) (put (buf + Z.of_nat pos) ch (putch ch s))
      else if ((ch =? 8) || (ch =? 127)) && (0 <? Z.of_nat pos) then kgets_loop buf maxlen input (pos - 1) (backsp s)
      else if ch =? 3 then Some (input, O, putch 10 (putch 67 (putch 94 s)))
      else if ch =? 18 then
        let s := put (buf + Z.of_nat pos) 0 s in
        kgets_loop buf maxlen input pos (kprint_string buf pos (putch 10 (putch 82 (putch 94 s))))
      else if ch =? 21 then kgets_loop buf maxlen input O (erase pos s)
      else if ch =? 23 then
        let '(pos, s) := back_over true buf pos s in
        let '(pos, s) := back_over false buf pos s in
        kgets_loop buf maxlen input pos s
      else kgets_loop buf maxlen input pos (beep s)
  end.

(** kern/lib/kgets.c:53-113 (kgets). *)
Definition kgets (buf maxlen : Z) (input : list Z) (s : con) : option (list Z * con) :=
  match kgets_loop buf maxlen input O s with
  | Some (rest, pos, s) => Some (rest, put (buf + Z.of_nat pos) 0 s)
  | None => None
  end.

(** ** Byte order: the bytes are reversed *)

Definition byte (v i : Z) : Z := Z.shiftr v (8 * i) mod 256.

(** A mask of one byte. *)
Lemma land_byte v k : 0 <= k -> Z.land v (Z.shiftl 255 (8 * k)) = byte v k * 2 ^ (8 * k).
Proof.
  intros Hk. unfold byte. change 256 with (2 ^ 8). rewrite <- Z.land_ones by lia. rewrite <- Z.shiftl_mul_pow2 by lia. change (Z.ones 8) with 255. apply Z.bits_inj'. intros i Hi.
  rewrite Z.land_spec. destruct (Z.lt_ge_cases i (8 * k)); [rewrite !Z.shiftl_spec_low by done; apply andb_false_r|].
  rewrite !Z.shiftl_spec, Z.land_spec, Z.shiftr_spec by lia. by replace (i - 8 * k + 8 * k) with i by lia.
Qed.

Lemma byte_range v i : 0 <= byte v i < 256.
Proof. apply Z.mod_pos_bound. done. Qed.

(** The number with four bytes, the highest first. *)
Definition word (a b c d : Z) : Z := ((a * 256 + b) * 256 + c) * 256 + d.

Lemma bytes_of_word v : 0 <= v < 2 ^ 32 -> v = word (byte v 3) (byte v 2) (byte v 1) (byte v 0).
Proof. intros Hv. unfold word, byte. rewrite !Z.shiftr_div_pow2 by done. change (2 ^ (8 * 3)) with 16777216. change (2 ^ (8 * 2)) with 65536. change (2 ^ (8 * 1)) with 256. change (2 ^ (8 * 0)) with 1. Z.to_euclidean_division_equations. lia. Qed.

Lemma bswap32_eq v : bswap32 v = word (byte v 0) (byte v 1) (byte v 2) (byte v 3).
Proof.
  unfold bswap32. change 0xff with (Z.shiftl 255 (8 * 0)). change 0xff00 with (Z.shiftl 255 (8 * 1)). change 0xff0000 with (Z.shiftl 255 (8 * 2)). change 0xff000000 with (Z.shiftl 255 (8 * 3)).
  rewrite !land_byte by done. pose proof (byte_range v 0). pose proof (byte_range v 1). pose proof (byte_range v 2). pose proof (byte_range v 3). unfold word.
  generalize dependent (byte v 0). generalize dependent (byte v 1). generalize dependent (byte v 2). generalize dependent (byte v 3). intros d Hd c Hc b Hb a Ha.
  rewrite !Z.shiftl_mul_pow2, !Z.shiftr_div_pow2 by done. rewrite !wrapu_small by lia. rewrite Z.div_mul by done.
  replace (c * 2 ^ (8 * 2) / 2 ^ 8) with (c * 2 ^ 8) by (change (2 ^ (8 * 2)) with (2 ^ 8 * 2 ^ 8); by rewrite Z.mul_assoc, Z.div_mul).
  replace (a * 2 ^ (8 * 0) * 2 ^ 24) with (a * 2 ^ 24) by lia. rewrite lor_disjoint by lia.
  replace (a * 2 ^ 24 + b * 2 ^ (8 * 1) * 2 ^ 8) with ((a * 256 + b) * 2 ^ 16) by lia. rewrite lor_disjoint by lia.
  replace ((a * 256 + b) * 2 ^ 16 + c * 2 ^ 8) with (((a * 256 + b) * 256 + c) * 2 ^ 8) by lia. rewrite lor_disjoint by lia. lia.
Qed.

Lemma byte_word a b c d : 0 <= a < 256 -> 0 <= b < 256 -> 0 <= c < 256 -> 0 <= d < 256 ->
  byte (word a b c d) 0 = d /\ byte (word a b c d) 1 = c /\ byte (word a b c d) 2 = b /\ byte (word a b c d) 3 = a.
Proof. intros. unfold byte, word. rewrite !Z.shiftr_div_pow2 by done. change (2 ^ (8 * 3)) with 16777216. change (2 ^ (8 * 2)) with 65536. change (2 ^ (8 * 1)) with 256. change (2 ^ (8 * 0)) with 1. split_and!; Z.to_euclidean_division_equations; lia. Qed.

(** [bswap32] reverses the bytes; twice, it is the identity. *)
Theorem bswap32_spec (v : Z) (Hv : 0 <= v < 2 ^ 32) :
  (forall i, 0 <= i < 4 -> byte (bswap32 v) i = byte v (3 - i)) /\ bswap32 (bswap32 v) = v.
Proof.
  rewrite !bswap32_eq. destruct (byte_word (byte v 0) (byte v 1) (byte v 2) (byte v 3)) as (E0 & E1 & E2 & E3); try apply byte_range. split; [|rewrite E0, E1, E2, E3; symmetry; by apply bytes_of_word].
  intros i Hi. assert (i = 0 \/ i = 1 \/ i = 2 \/ i = 3) as [->|[->|[->| ->]]] by lia; done.
Qed.

(** In [bswap64] two bytes are moved the wrong way. *)
Example bswap64_wrong : bswap64 0x0000000100000000 = 0x0000010000000000 /\ bswap64 (bswap64 0x0000000100000000) <> 0x0000000100000000.
Proof. split; [reflexivity|by vm_compute]. Qed.

(** [split64to32] undoes [join32to64], and the other way round. *)
Theorem join_split (x1 x2 x : Z) (H1 : 0 <= x1 < 2 ^ 32) (H2 : 0 <= x2 < 2 ^ 32) (H : 0 <= x < 2 ^ 64) :
  split64to32 (join32to64 x1 x2) = (x1, x2) /\ join32to64 (fst (split64to32 x)) (snd (split64to32 x)) = x.
Proof.
  unfold split64to32, join32to64. change 0xffffffff with (Z.ones 32). cbn [fst snd]. rewrite !Z.land_ones, !Z.shiftl_mul_pow2, !Z.shiftr_div_pow2 by done. unfold wrapu.
  rewrite !(Z.mod_small (_ * 2 ^ 32) (2 ^ 64)); [|pose proof (Z.mod_pos_bound (x / 2 ^ 32) (2 ^ 32) ltac:(done)); lia|lia]. rewrite !lor_disjoint by (try apply Z.mod_pos_bound; lia).
  rewrite !Z.mod_mod by done. rewrite Z.div_add_l, (Z.div_small x2), Z.add_0_r by lia. rewrite (Z.add_comm _ x2), Z.mod_add by done. rewrite !(Z.mod_small x1), !(Z.mod_small x2) by lia. split; [done|].
  rewrite (Z.mod_small (x / 2 ^ 32)) by (split; [apply Z.div_pos; lia|apply Z.div_lt_upper_bound; lia]). pose proof (Z.div_mod x (2 ^ 32) ltac:(done)). lia.
Qed.

(** ** Time *)

Definition ts_ok (t : timespec) : Prop := 0 <= tv_nsec t < 1000000000 /\ 0 <= tv_sec t < 2 ^ 62.

Definition nanoseconds (t : timespec) : Z := tv_sec t * 1000000000 + tv_nsec t.

(** Sums and differences of times are those of their nanoseconds, and normalised. *)
Theorem timespec_spec (t1 t2 : timespec) (H1 : ts_ok t1) (H2 : ts_ok t2) :
  nanoseconds (timespec_add t1 t2) = nanoseconds t1 + nanoseconds t2 /\ 0 <= tv_nsec (timespec_add t1 t2) < 1000000000 /\
  nanoseconds (timespec_sub t1 t2) = nanoseconds t1 - nanoseconds t2 /\ 0 <= tv_nsec (timespec_sub t1 t2) < 1000000000.
Proof.
  destruct t1 as [a1 b1], t2 as [a2 b2]. unfold ts_ok in *. cbn [tv_sec tv_nsec] in *. unfold timespec_add, timespec_sub, nanoseconds. cbn [tv_sec tv_nsec].
  rewrite (wraps_small 32 (b1 + b2)), (wraps_small 64 (a1 + a2)) by lia. destruct (Z.leb_spec 1000000000 (b1 + b2)), (Z.ltb_spec b1 b2); cbn [tv_sec tv_nsec]; rewrite ?wraps_small by (rewrite ?wraps_small; lia); lia.
Qed.

(** ** Lines from the console *)

(** The characters before the cursor on its line of a terminal. *)
Definition term (line : list Z) (x : sent) : list Z :=
  match x with
  | Putch c => if c =? 7 then line else if c =? 8 then take (length line - 1) line else if c =? 10 then [] else line ++ [c]
  | Beep => line
  end.
Definition shown (out : list sent) : list Z := fold_left term out [].

(** A line without the characters at its end for which [p] holds. *)
Definition trim (p : Z -> bool) (line : list Z) : list Z := reverse (drop (until (fun c => negb (p c)) (reverse line)) (reverse line)).

Definition printable (c : Z) : bool := (32 <=? c) && (c <? 127).

(** What a key does to the line. *)
Definition key (maxlen : Z) (line : list Z) (ch : Z) : list Z :=
  if printable ch then (if Z.of_nat (length line) <? maxlen - 1 then line ++ [ch] else line)
  else if (ch =? 8) || (ch =? 127) then take (length line - 1) line
  else if ch =? 21 then []
  else if ch =? 23 then trim (fun c => negb (c =? 32)) (trim (fun c => c =? 32) line)
  else line.

Lemma trim_nil p : trim p [] = [].
Proof. done. Qed.

Lemma trim_snoc p l c : trim p (l ++ [c]) = if p c then trim p l else l ++ [c].
Proof. unfold trim. rewrite reverse_snoc. cbn [until]. destruct (p c); cbn [negb drop]; [done|]. by rewrite reverse_cons, reverse_involutive. Qed.

Lemma trim_ext p q l : (forall c, p c = q c) -> trim p l = trim q l.
Proof. intros E. induction l as [|c l IH] using rev_ind; [done|]. by rewrite !trim_snoc, E, IH. Qed.

Lemma trim_prefix p l : exists l', l = trim p l ++ l'.
Proof. induction l as [|c l [l' E]] using rev_ind; [by exists []|]. rewrite trim_snoc. destruct (p c); [|exists []; by rewrite app_nil_r]. exists (l' ++ [c]). by rewrite app_assoc, <- E. Qed.

Section Kgets.
Context (buf maxlen : Z) (Hmax : 1 <= maxlen < 2 ^ 32) (m0 : memory) (out0 : list sent).

(** The line is in the buffer and on the screen. *)
Record typed (line : list Z) (s : con) : Prop := {
  ty_buf i c : line !! i = Some c -> c_mem s (buf + Z.of_nat i) = c;
  ty_print : Forall (fun c => printable c = true) line;
  ty_len : Z.of_nat (length line) < maxlen;
  ty_shown : exists o, c_out s = out0 ++ o /\ shown o = line;
  ty_frame x : ~ buf <= x < buf + maxlen -> c_mem s x = m0 x
}.

Lemma shown_app o1 o2 : shown (o1 ++ o2) = fold_left term o2 (shown o1).
Proof. unfold shown. apply fold_left_app. Qed.

Lemma backsp_ok l c s : typed (l ++ [c]) s -> typed l (backsp s).
Proof.
  intros [Hb Hp Hl (o & Eo & Ho) Hf]. apply Forall_app in Hp as [Hp _]. rewrite length_app in Hl. cbn [length] in Hl. split; [|done|lia| |done].
  - intros i x Hi. apply Hb. by apply lookup_app_l_Some.
  - exists (o ++ [Putch 8; Putch 32; Putch 8]). unfold backsp, putch. cbn [c_out]. rewrite Eo, <- !app_assoc. split; [done|]. rewrite shown_app, Ho.
    cbn [fold_left term Z.eqb Pos.eqb]. rewrite !length_app. cbn [length]. rewrite !Nat.add_sub, !take_app_length. rewrite ?length_app. cbn [length]. by rewrite ?Nat.add_sub, ?take_app_length.
Qed.

Lemma erase_ok l : forall s, typed l s -> typed [] (erase (length l) s).
Proof. induction l as [|c l IH] using rev_ind; intros s Hs; [done|]. rewrite length_app, Nat.add_1_r. cbn [erase]. by apply IH, (backsp_ok l c). Qed.

Lemma back_over_ok space l : forall s, typed l s -> exists s', back_over space buf (length l) s = (length (trim (fun c => Bool.eqb (c =? 32) space) l), s') /\
  typed (trim (fun c => Bool.eqb (c =? 32) space) l) s'.
Proof.
  induction l as [|c l IH] using rev_ind; intros s Hs; [by exists s|]. rewrite trim_snoc. rewrite length_app, Nat.add_1_r. cbn [back_over].
  rewrite (ty_buf _ _ Hs (length l) c) by (rewrite lookup_app_r, Nat.sub_diag by lia; done). destruct (Bool.eqb (c =? 32) space); [by apply IH, (backsp_ok l c)|].
  exists s. by rewrite length_app, Nat.add_1_r.
Qed.

Lemma typed_beep l s : typed l s -> typed l (beep s).
Proof. intros [Hb Hp Hl (o & Eo & Ho) Hf]. split; try done. exists (o ++ [Beep]). unfold beep. cbn [c_out]. rewrite Eo, <- app_assoc. split; [done|]. by rewrite shown_app, Ho. Qed.

Lemma typed_char l s c : typed l s -> printable c = true -> Z.of_nat (length l) < maxlen - 1 -> typed (l ++ [c]) (put (buf + Z.of_nat (length l)) c (putch c s)).
Proof.
  intros [Hb Hp Hl (o & Eo & Ho) Hf] Hc Hlt. split.
  - intros i x Hi. cbn [put putch c_mem]. unfold upd. apply lookup_app_Some in Hi as [Hi|[Hi Hx]].
    + pose proof (lookup_lt_Some _ _ _ Hi). rewrite (proj2 (Z.eqb_neq _ _)) by lia. by apply Hb.
    + apply list_lookup_singleton_Some in Hx as [? ->]. by rewrite (proj2 (Z.eqb_eq _ _)) by lia.
  - apply Forall_app. split; [done|]. by constructor.
  - rewrite length_app. cbn [length]. lia.
  - exists (o ++ [Putch c]). unfold put, putch. cbn [c_out]. rewrite Eo, <- app_assoc. split; [done|]. rewrite shown_app, Ho. cbn [fold_left term].
    unfold printable in Hc. bool_to_prop. rewrite !(proj2 (Z.eqb_neq _ _)) by lia. done.
  - intros x Hx. cbn [put putch c_mem]. unfold upd. rewrite (proj2 (Z.eqb_neq _ _)) by lia. by apply Hf.
Qed.

Lemma typed_cstr l s : typed l s -> cstr (upd (buf + Z.of_nat (length l)) 0 (c_mem s)) buf l.
Proof.
  intros [Hb Hp Hl _ _]. assert (Hm : forall i c, l !! i = Some c -> upd (buf + Z.of_nat (length l)) 0 (c_mem s) (buf + Z.of_nat i) = c).
  { intros i c Hi. pose proof (lookup_lt_Some _ _ _ Hi). unfold upd. rewrite (proj2 (Z.eqb_neq _ _)) by lia. by apply Hb. }
  assert (Hz : upd (buf + Z.of_nat (length l)) 0 (c_mem s) (buf + Z.of_nat (length l)) = 0) by (unfold upd; by rewrite Z.eqb_refl).
  generalize dependent (upd (buf + Z.of_nat (length l)) 0 (c_mem s)). clear Hb Hl. revert Hp. generalize buf. induction l as [|c l IH]; intros b Hp m Hm Hz; cbn [cstr]; [by rewrite Z.add_0_r in Hz|].
  apply Forall_cons in Hp as [Hc Hp]. split_and!; [rewrite <- (Hm O c) by done; f_equal; lia|unfold printable in Hc; bool_to_prop; lia|]. apply IH; [done| |].
  - intros i x Hi. rewrite <- (Hm (S i) x) by done. f_equal. lia.
  - rewrite <- Hz. f_equal. cbn [length]. lia.
Qed.

Lemma load_cstr m p l : cstr m p l -> load p (length l) m = l.
Proof.
  revert p. induction l as [|c l IH]; intros p; [done|]. intros (Hc & _ & Hs). unfold load. cbn [length seq]. cbn. f_equal; [by rewrite Z.add_0_r|]. rewrite <- (IH (p + 1)) at 2 by done.
  unfold load. rewrite <- fmap_S_seq, <- list_fmap_compose. apply list_fmap_ext. intros i x _. cbn. f_equal. lia.
Qed.

Lemma shown_text l : Forall (fun c => printable c = true) l -> forall a, fold_left term (Putch <$> l) a = a ++ l.
Proof.
  induction 1 as [|c l Hc _ IH]; intros a; cbn [fmap list_fmap fold_left term]; [by rewrite app_nil_r|]. unfold printable in Hc. bool_to_prop. rewrite !(proj2 (Z.eqb_neq c _)) by lia.
  rewrite IH. by rewrite <- app_assoc.
Qed.

Lemma typed_reprint l s : typed l s -> typed l (kprint_string buf (length l) (putch 10 (putch 82 (putch 94 (put (buf + Z.of_nat (length l)) 0 s))))).
Proof.
  intros H. pose proof (typed_cstr l s H) as Hs. unfold kprint_string. cbn [put putch c_mem c_out]. rewrite (strlen_eq _ buf l 0 (S (length l))) by (try lia; by rewrite Z.add_0_r). cbn [from_option id].
  rewrite Z.add_0_l, Nat2Z.id, (load_cstr _ _ _ Hs). destruct H as [Hb Hp Hl (o & Eo & Ho) Hf]. split; cbn [c_mem c_out]; try done.
  - intros i c Hi. pose proof (lookup_lt_Some _ _ _ Hi). unfold upd. rewrite (proj2 (Z.eqb_neq _ _)) by lia. by apply Hb.
  - exists (o ++ [Putch 94; Putch 82; Putch 10] ++ (Putch <$> l)). rewrite Eo, <- !app_assoc. split; [done|]. rewrite shown_app, fold_left_app. cbn [fold_left term Z.eqb Pos.eqb]. by rewrite shown_text.
  - intros x Hx. unfold upd. rewrite (proj2 (Z.eqb_neq _ _)) by lia. by apply Hf.
Qed.

(** One key that does not end the line. *)
Lemma key_ok l s ch input : typed l s -> ch <> 10 -> ch <> 13 -> ch <> 3 ->
  exists s', kgets_loop buf maxlen (ch :: input) (length l) s = kgets_loop buf maxlen input (length (key maxlen l ch)) s' /\ typed (key maxlen l ch) s'.
Proof.
  intros Hs H10 H13 H3. cbn [kgets_loop]. rewrite (proj2 (Z.eqb_neq ch 10)), (proj2 (Z.eqb_neq ch 13)), (proj2 (Z.eqb_neq ch 3)) by done. cbn [orb]. rewrite wrapu_small by lia. unfold key. fold (printable ch). destruct (printable ch) eqn:Hp.
  - cbn [andb]. destruct (Z.ltb_spec (Z.of_nat (length l)) (maxlen - 1)) as [Hlt|Hge].
    + eexists. split; [|by apply typed_char]. by rewrite length_app, Nat.add_1_r.
    + eexists. split; [|by apply typed_beep]. unfold printable in Hp. bool_to_prop. by rewrite !(proj2 (Z.eqb_neq ch _)) by lia.
  - cbn [andb]. destruct ((ch =? 8) || (ch =? 127)) eqn:Hbs; cbn [andb].
    + destruct l as [|c l] using rev_ind.
      * exists (beep s). split; [|by apply typed_beep]. apply orb_prop in Hbs as [->%Z.eqb_eq| ->%Z.eqb_eq]; done.
      * rewrite length_app. cbn [length]. rewrite (proj2 (Z.ltb_lt 0 _)) by lia. rewrite Nat.add_sub, take_app_length. eexists. split; [done|]. by apply (backsp_ok l c).
    + destruct (Z.eqb_spec ch 18) as [->|_]; [eexists; split; [done|by apply typed_reprint]|]. destruct (Z.eqb_spec ch 21) as [->|_]; [eexists; split; [done|by apply erase_ok]|].
      destruct (Z.eqb_spec ch 23) as [->|_]; [|eexists; split; [done|by apply typed_beep]].
      destruct (back_over_ok true l s Hs) as (s1 & E1 & Hs1). rewrite E1. destruct (back_over_ok false _ s1 Hs1) as (s2 & E2 & Hs2). rewrite E2.
      rewrite (trim_ext (fun c => Bool.eqb (c =? 32) true) (fun c => c =? 32)) in Hs2 |- * by (intros c; by destruct (c =? 32)).
      rewrite (trim_ext (fun c => Bool.eqb (c =? 32) false) (fun c => negb (c =? 32))) in Hs2 |- * by (intros c; by destruct (c =? 32)). by exists s2.
Qed.

Lemma keys_ok keys : forall l s rest, typed l s -> Forall (fun ch => ch <> 10 /\ ch <> 13 /\ ch <> 3) keys ->
  exists s', kgets_loop buf maxlen (keys ++ rest) (length l) s = kgets_loop buf maxlen rest (length (fold_left (key maxlen) keys l)) s' /\ typed (fold_left (key maxlen) keys l) s'.
Proof.
  induction keys as [|ch keys IH]; intros l s rest Hs Hk; [by exists s|]. apply Forall_cons in Hk as [(H1 & H2 & H3) Hk]. cbn [app fold_left].
  destruct (key_ok l s ch (keys ++ rest) Hs H1 H2 H3) as (s1 & -> & Hs1). by apply IH.
Qed.

End Kgets.

(** Reading a line from the console: until the end of the line or control-C is typed, the
    buffer holds what the editing keys (printable characters, backspace, control-U,
    control-W) make of the line, and the terminal shows it, however the keys are mixed with
    others and with control-R. [kgets] returns that line as a string, or the empty string
    for control-C; it takes no character after the end of the line, and writes to no
    memory outside the buffer. *)
Theorem kgets_spec (buf maxlen nl : Z) (keys rest : list Z) (s : con) (Hmax : 1 <= maxlen < 2 ^ 32)
    (Hkeys : Forall (fun ch => ch <> 10 /\ ch <> 13 /\ ch <> 3) keys) (Hnl : nl = 10 \/ nl = 13 \/ nl = 3) :
  let line := fold_left (key maxlen) keys [] in
  exists s' o, kgets buf maxlen (keys ++ nl :: rest) s = Some (rest, s') /\ Z.of_nat (length line) < maxlen /\
    cstr (c_mem s') buf (if nl =? 3 then [] else line) /\ (forall x, ~ buf <= x < buf + maxlen -> c_mem s' x = c_mem s x) /\
    c_out s' = c_out s ++ o ++ (if nl =? 3 then [Putch 94; Putch 67; Putch 10] else [Putch 10]) /\ shown o = line.
Proof.
  intros line. assert (H0 : typed buf maxlen (c_mem s) (c_out s) [] s) by (split; [done|constructor|cbn; lia|exists []; by rewrite app_nil_r|done]).
  destruct (keys_ok buf maxlen Hmax _ _ keys [] s (nl :: rest) H0 Hkeys) as (s1 & E & Hs). fold line in E, Hs. unfold kgets. cbn [length] in E. rewrite E.
  pose proof (typed_cstr _ _ _ _ _ _ Hs) as Hc. pose proof (ty_len _ _ _ _ _ _ Hs) as Hl. destruct (ty_shown _ _ _ _ _ _ Hs) as (o & Eo & Ho).
  assert (Hf : forall k v x, (k < Z.to_nat maxlen)%nat -> ~ buf <= x < buf + maxlen -> upd (buf + Z.of_nat k) v (c_mem s1) x = c_mem s x).
  { intros k v x Hk Hx. unfold upd. rewrite (proj2 (Z.eqb_neq _ _)) by lia. by apply (ty_frame _ _ _ _ _ _ Hs). }
  destruct Hnl as [->|[->| ->]]; cbn [kgets_loop Z.eqb Pos.eqb orb]; eexists _, o; (split; [reflexivity|]); cbn [put putch c_mem c_out]; rewrite Eo, <- ?app_assoc.
  - split_and!; [done|done|intros x; apply Hf; lia|done|done].
  - split_and!; [done|done|intros x; apply Hf; lia|done|done].
  - split_and!; [done| |intros x; apply (Hf O); lia|done|done]. cbn [cstr Z.of_nat]. unfold upd. by rewrite Z.add_0_r, Z.eqb_refl.
Qed.

(** "hi  yo^Wx^H!" in a buffer of 16 bytes. *)
Lemma kgets_spec_witness : exists s', kgets 100 16 ([104; 105; 32; 32; 121; 111; 23; 120; 8; 33] ++ 10 :: [97]) (mkcon (fun _ => 1) []) = Some ([97], s') /\ load 100 7 (c_mem s') = [104; 105; 32; 32; 33; 0; 1].
Proof.
  destruct (kgets_spec 100 16 10 [104; 105; 32; 32; 121; 111; 23; 120; 8; 33] [97] (mkcon (fun _ => 1) [])) as (s' & o & E & _); [lia|repeat constructor; lia|lia|].
  exists s'. split; [exact E|]. vm_compute in E. injection E as <-. vm_compute. reflexivity.
Defined.
