(* ===== verification/Qsort.v ===== *)
(** * Sorting, userland/lib/libc/stdlib/qsort.c

    The array is the list of its elements; a pointer into it with a count is the part of
    the list that the call may touch, and any other access is [Halt OutOfBounds]. The
    comparison function is a parameter. Indices are natural numbers: [tail] is only lowered
    when it is greater than [head] or than 0, so no subtraction goes below 0. *)

From stdpp Require Import base numbers functions list.
From Stdlib Require Import ZArith Lia.
From stdpp Require Import list_relations sorting.
From S2P Require Import Prelude.

Open Scope Z_scope.
Open Scope k_scope.

Section Qsort.
Context {A : Type} (f : A -> A -> Z).
Local Abbreviation M := (K (list A)).

(** userland/lib/libc/stdlib/qsort.c:45-46 (COMPARE). *)
Definition COMPARE (aa bb : nat) : M Z :=
  if Nat.eqb aa bb then kret 0 else
  fun d => match d !! aa, d !! bb with Some x, Some y => Done (f x y) d | _, _ => Halt OutOfBounds end.

(** userland/lib/libc/stdlib/qsort.c:47-50 (EXCHANGE). *)
Definition EXCHANGE (aa bb : nat) : M unit :=
  fun d => match d !! aa, d !! bb with Some x, Some y => Done tt (<[bb := x]> (<[aa := y]> d)) | _, _ => Halt OutOfBounds end.

(** A call with a pointer to the first [n] elements, and to those from [n] on. *)
Definition on_front (n : nat) (m : M unit) : M unit :=
  fun d => match m (take n d) with Done _ d' => Done tt (d' ++ drop n d) | Fail e d' => Fail e (d' ++ drop n d) | Halt h => Halt h end.
Definition on_back (n : nat) (m : M unit) : M unit :=
  fun d => match m (drop n d) with Done _ d' => Done tt (take n d ++ d') | Fail e d' => Fail e (take n d ++ d') | Halt h => Halt h end.

(** userland/lib/libc/stdlib/qsort.c:76-95 (qsort): the loop of step 2, with [pivot], [head]
    and [tail] at its end. *)
Fixpoint partition (fuel pivot head tail : nat) : M (nat * nat * nat) :=
  if negb (Nat.ltb head tail) then kret (pivot, head, tail) else
  match fuel with
  | O => khalt OutOfFuel
  | S fuel =>
      c <- COMPARE head pivot ;;
      if c <=? 0 then partition fuel pivot (head + 1) tail else
      c <- COMPARE tail pivot ;;
      if 0 <? c then partition fuel pivot head (tail - 1) else
      EXCHANGE head tail ;;;
      let pivot := if Nat.eqb pivot head then tail else if Nat.eqb pivot tail then head else pivot in
      partition fuel pivot (head + 1) (tail - 1)
  end.

(** userland/lib/libc/stdlib/qsort.c:130-132 (qsort): lop off the values equal to the last. *)
Fixpoint lop (tail : nat) : M nat :=
  match tail with
  | O => kret O
  | S t => c <- COMPARE t tail ;; if c =? 0 then lop t else kret tail
  end.

(** userland/lib/libc/stdlib/qsort.c:37-145 (qsort). *)
Fixpoint qsort (fuel num : nat) : M unit :=
  match fuel with
  | O => khalt OutOfFuel
  | S fuel =>
      if Nat.leb num 1 then kret tt else
      swap <- (if Nat.eqb num 2 then c <- COMPARE 0 1 ;; kret (0 <? c) else kret false) ;;
      if swap : bool then EXCHANGE 0 1 else
      r <- partition num (num / 2) 0 (num - 1) ;;
      let '(pivot, head, tail) := r in
      past <- (if Nat.ltb tail head then kret true else c <- COMPARE head pivot ;; kret (c <=? 0)) ;;
      let tail := if past : bool then (tail + 1)%nat else tail in
      if Nat.eqb tail num then
        (if Nat.ltb pivot (num - 1) then
           c <- COMPARE pivot (num - 1) ;;
           if 0 <? c then EXCHANGE pivot (num - 1) else kret tt
         else kret tt) ;;;
        tail <- lop (num - 1) ;;
        if Nat.ltb 0 tail then on_front tail (qsort fuel tail) else kret tt
      else
        kassert (Nat.ltb 0 tail && Nat.ltb tail num) ;;;
        on_front tail (qsort fuel tail) ;;;
        on_back tail (qsort fuel (num - tail))
  end.

(** ** The array is sorted

    [f] is a comparison function: its sign changes when its arguments are exchanged, and
    less or equal is transitive. *)
Class Comparison : Prop := {
  cmp_sign x y : 0 < f x y <-> f y x < 0;
  cmp_trans x y z : f x y <= 0 -> f y z <= 0 -> f x z <= 0
}.

Context (HC : Comparison).

Definition le (x y : A) : Prop := f x y <= 0.

Lemma cmp_refl x : f x x = 0.
Proof. pose proof (cmp_sign x x). lia. Qed.

Lemma gt_le x y : 0 < f x y -> le y x.
Proof. rewrite cmp_sign. unfold le. lia. Qed.

Lemma cmp_eq x y : f x y = 0 -> le y x.
Proof. intros E. unfold le. destruct (Z.le_gt_cases (f y x) 0) as [|Hg]; [done|]. apply cmp_sign in Hg. lia. Qed.

Lemma COMPARE_eq d a b x y : d !! a = Some x -> d !! b = Some y -> COMPARE a b d = Done (f x y) d.
Proof. intros Ha Hb. unfold COMPARE. destruct (Nat.eqb_spec a b) as [->|]; [|by rewrite Ha, Hb]. assert (x = y) as -> by congruence. by rewrite cmp_refl. Qed.

Definition swap (a b : nat) (x y : A) (d : list A) : list A := <[b := x]> (<[a := y]> d).

Lemma EXCHANGE_eq d a b x y : d !! a = Some x -> d !! b = Some y -> EXCHANGE a b d = Done tt (swap a b x y d).
Proof. intros Ha Hb. unfold EXCHANGE. by rewrite Ha, Hb. Qed.

Lemma swap_lookup d a b x y i : d !! a = Some x -> d !! b = Some y ->
  swap a b x y d !! i = if decide (i = b) then Some x else if decide (i = a) then Some y else d !! i.
Proof.
  intros Ha%lookup_lt_Some Hb%lookup_lt_Some. unfold swap. destruct (decide (i = b)) as [->|]; [by rewrite list_lookup_insert_eq by (rewrite length_insert; lia)|].
  rewrite list_lookup_insert_ne by done. destruct (decide (i = a)) as [->|]; [by rewrite list_lookup_insert_eq|by rewrite list_lookup_insert_ne].
Qed.

Lemma swap_perm d a b x y : d !! a = Some x -> d !! b = Some y -> swap a b x y d ≡ₚ d.
Proof. apply Permutation_insert_swap. Qed.

(** The state of the loop: what is below [head] is less or equal, what is above [tail] is
    greater than the pivot. *)
Record part (d0 : list A) (pv : A) (d : list A) (pivot head tail : nat) : Prop := {
  part_perm : d ≡ₚ d0;
  part_pivot : d !! pivot = Some pv;
  part_low i x : (i < head)%nat -> d !! i = Some x -> le x pv;
  part_high i x : (tail < i)%nat -> d !! i = Some x -> 0 < f x pv;
  part_cross : (head <= tail + 1)%nat;
  part_len : (tail < length d)%nat
}.

Lemma part_swap d0 pv d pivot head tail x y : part d0 pv d pivot head tail -> (head < tail)%nat ->
  d !! head = Some x -> d !! tail = Some y -> 0 < f x pv -> f y pv <= 0 ->
  part d0 pv (swap head tail x y d) (if Nat.eqb pivot head then tail else if Nat.eqb pivot tail then head else pivot) (head + 1) (tail - 1).
Proof.
  intros H Hlt Hx Hy Hfx Hfy. pose proof (fun i => swap_lookup d head tail x y i Hx Hy) as Hl. split.
  - rewrite (swap_perm d) by done. apply H.
  - pose proof (part_pivot _ _ _ _ _ _ H) as Hp. rewrite Hl. destruct (Nat.eqb_spec pivot head) as [->|Hne]; [rewrite decide_True by done; congruence|].
    destruct (Nat.eqb_spec pivot tail) as [->|Hne']; [rewrite decide_False, decide_True by (done || lia); congruence|]. by rewrite !decide_False.
  - intros i z Hi. rewrite Hl. destruct (decide (i = tail)); [lia|]. destruct (decide (i = head)); [intros [= <-]; exact Hfy|]. apply H. lia.
  - intros i z Hi. rewrite Hl. destruct (decide (i = tail)); [intros [= <-]; exact Hfx|]. destruct (decide (i = head)); [lia|]. apply H. lia.
  - lia.
  - unfold swap. rewrite !length_insert. pose proof (part_len _ _ _ _ _ _ H). lia.
Qed.

Lemma partition_ok d0 pv fuel : forall d pivot head tail, part d0 pv d pivot head tail -> (tail - head <= fuel)%nat ->
  exists d' pivot' head' tail', partition fuel pivot head tail d = Done (pivot', head', tail') d' /\ part d0 pv d' pivot' head' tail' /\ (tail' <= head')%nat.
Proof.
  induction fuel as [|fuel IH]; intros d pivot head tail H Hf; cbn [partition]; destruct (Nat.ltb_spec head tail) as [Hlt|Hge]; cbn [negb]; try lia; try (by exists d, pivot, head, tail).
  pose proof (part_len _ _ _ _ _ _ H) as Hlen. pose proof (part_pivot _ _ _ _ _ _ H) as Hp.
  destruct (lookup_lt_is_Some_2 d head ltac:(lia)) as [x Hx]. destruct (lookup_lt_is_Some_2 d tail ltac:(lia)) as [y Hy].
  unfold kbind. rewrite (COMPARE_eq d head pivot x pv) by done. destruct (Z.leb_spec (f x pv) 0) as [Hfx|Hfx].
  - apply IH; [|lia]. destruct H as [H1 H2 H3 H4 H5 H6]. split; try done; [|lia]. intros i z Hi Hz. destruct (decide (i = head)) as [->|]; [assert (z = x) as -> by congruence; exact Hfx|]. apply (H3 i); [lia|done].
  - rewrite (COMPARE_eq d tail pivot y pv) by done. destruct (Z.ltb_spec 0 (f y pv)) as [Hfy|Hfy].
    + apply IH; [|lia]. destruct H as [H1 H2 H3 H4 H5 H6]. split; try done; [|lia|lia]. intros i z Hi Hz. destruct (decide (i = tail)) as [->|]; [by assert (z = y) as -> by congruence|]. apply (H4 i); [lia|done].
    + rewrite (EXCHANGE_eq d head tail x y) by done. apply IH; [by apply part_swap|lia].
Qed.

(** [lop] stops at an element after which all are equal to the last one. *)
Lemma lop_ok d t z : d !! t = Some z -> exists t', lop t d = Done t' d /\ (t' <= t)%nat /\
  forall i x, (t' <= i <= t)%nat -> d !! i = Some x -> le x z /\ le z x.
Proof.
  revert z. induction t as [|t IH]; intros z Hz; cbn [lop].
  - exists O. split_and!; [done|lia|]. intros i x Hi Hx. assert (i = O) as -> by lia. assert (x = z) as -> by congruence. unfold le. rewrite cmp_refl. lia.
  - pose proof (lookup_lt_Some _ _ _ Hz) as Hlt. destruct (lookup_lt_is_Some_2 d t ltac:(lia)) as [y Hy]. unfold kbind. rewrite (COMPARE_eq d t (S t) y z) by done.
    assert (Hz0 : le z z) by (unfold le; rewrite cmp_refl; lia). destruct (Z.eqb_spec (f y z) 0) as [E|E].
    + destruct (IH y Hy) as (t' & -> & Hle & Ht). exists t'. split_and!; [done|lia|]. intros i x Hi Hx. destruct (decide (i = S t)) as [->|]; [by assert (x = z) as -> by congruence|].
      destruct (Ht i x ltac:(lia) Hx) as [L1 L2]. split; [by apply (cmp_trans _ y); [|unfold le in *; lia]|]. by apply (cmp_trans _ y); [apply cmp_eq|].
    + exists (S t). split_and!; [done|lia|]. intros i x Hi Hx. assert (i = S t) as -> by lia. by assert (x = z) as -> by congruence.
Qed.

(** What a call is to do: with the array [d], end with a sorted permutation of it. *)
Definition sorts (m : M unit) (d : list A) : Prop := exists d', m d = Done tt d' /\ d' ≡ₚ d /\ StronglySorted le d'.

(** Two sorted parts, the first below the second. *)
Lemma sorted_join d t d1 d2 : d1 ≡ₚ take t d -> d2 ≡ₚ drop t d -> StronglySorted le d1 -> StronglySorted le d2 ->
  (forall i j x y, (i < t)%nat -> (t <= j)%nat -> d !! i = Some x -> d !! j = Some y -> le x y) -> d1 ++ d2 ≡ₚ d /\ StronglySorted le (d1 ++ d2).
Proof.
  intros P1 P2 S1 S2 Hc. split; [rewrite P1, P2; by rewrite take_drop|]. apply StronglySorted_app_2; [|done|done]. intros x y Hx Hy. rewrite P1 in Hx. rewrite P2 in Hy.
  apply list_elem_of_lookup in Hx as [i Hi]. apply list_elem_of_lookup in Hy as [j Hj]. apply lookup_take_Some in Hi as [Hi ?]. rewrite lookup_drop in Hj. apply (Hc i (t + j)%nat); [lia|lia|done|done].
Qed.

Lemma sorted_equal d : (forall i j x y, d !! i = Some x -> d !! j = Some y -> le x y) -> StronglySorted le d.
Proof.
  induction d as [|a d IH]; intros H; constructor; [apply IH; intros i j x y; apply (H (S i) (S j))|]. apply Forall_forall. intros x [i Hi]%list_elem_of_lookup. by apply (H O (S i)).
Qed.

(** The last element is the greatest one: sort what is in front of its equals. *)
Lemma last_ok fuel d z : d !! (length d - 1)%nat = Some z -> (forall i x, d !! i = Some x -> le x z) ->
  (forall t, (t < length d)%nat -> sorts (qsort fuel t) (take t d)) ->
  sorts (tail <- lop (length d - 1) ;; if Nat.ltb 0 tail then on_front tail (qsort fuel tail) else kret tt) d.
Proof.
  intros Hz Hmax IH. pose proof (lookup_lt_Some _ _ _ Hz) as Hlt. destruct (lop_ok d (length d - 1) z Hz) as (t & E & Hle & Ht). unfold sorts, kbind. rewrite E.
  assert (Hback : forall j y, (t <= j)%nat -> d !! j = Some y -> le z y) by (intros j y Hj Hy; pose proof (lookup_lt_Some _ _ _ Hy); apply (Ht j y ltac:(lia) Hy)).
  assert (Hcross : forall i j x y, (t <= j)%nat -> d !! i = Some x -> d !! j = Some y -> le x y) by (intros i j x y Hj Hx Hy; apply (cmp_trans _ z); [by apply (Hmax i)|by apply (Hback j)]).
  destruct (Nat.ltb_spec 0 t) as [H0|H0].
  - destruct (IH t ltac:(lia)) as (d1 & E1 & P1 & S1). unfold on_front. rewrite E1. eexists. split; [done|]. apply (sorted_join d t); [done|done|done| |].
    + apply sorted_equal. intros i j x y. rewrite !lookup_drop. apply Hcross. lia.
    + intros i j x y _. apply Hcross.
  - exists d. split_and!; [done|done|]. apply sorted_equal. intros i j x y. apply Hcross. lia.
Qed.

(** Steps 4 and 5: [tail] elements are less or equal, the others greater than the pivot. *)
Lemma rest_ok fuel d pivot pv t : d !! pivot = Some pv -> (pivot < t <= length d)%nat ->
  (forall i x, (i < t)%nat -> d !! i = Some x -> le x pv) -> (forall i x, (t <= i)%nat -> d !! i = Some x -> le pv x) ->
  (forall d1, (length d1 < length d)%nat -> sorts (qsort fuel (length d1)) d1) ->
  sorts (if Nat.eqb t (length d) then
           (if Nat.ltb pivot (length d - 1) then c <- COMPARE pivot (length d - 1) ;; if 0 <? c then EXCHANGE pivot (length d - 1) else kret tt else kret tt) ;;;
           tail <- lop (length d - 1) ;; if Nat.ltb 0 tail then on_front tail (qsort fuel tail) else kret tt
         else
           kassert (Nat.ltb 0 t && Nat.ltb t (length d)) ;;; on_front t (qsort fuel t) ;;; on_back t (qsort fuel (length d - t))) d.
Proof.
  intros Hp Ht Hlow Hhigh IH.
  assert (IHt : forall d1 t, length d1 = length d -> (t < length d)%nat -> sorts (qsort fuel t) (take t d1)).
  { intros d1 t' Hl Hlt. pose proof (IH (take t' d1)) as H1. rewrite length_take in H1. replace (t' `min` length d1)%nat with t' in H1 by lia. by apply H1. }
  destruct (Nat.eqb_spec t (length d)) as [->|Hne].
  - destruct (lookup_lt_is_Some_2 d (length d - 1) ltac:(lia)) as [y Hy].
    assert (Hlast : exists d2 z, ((if Nat.ltb pivot (length d - 1) then c <- COMPARE pivot (length d - 1) ;; if 0 <? c then EXCHANGE pivot (length d - 1) else kret tt else kret tt) : M unit) d = Done tt d2 /\
              d2 ≡ₚ d /\ length d2 = length d /\ d2 !! (length d - 1)%nat = Some z /\ le pv z).
    { assert (Hpv : le pv pv) by (unfold le; rewrite cmp_refl; lia). destruct (Nat.ltb_spec pivot (length d - 1)) as [Hlt|Hge].
      - unfold kbind. rewrite (COMPARE_eq d pivot (length d - 1) pv y) by done. destruct (Z.ltb_spec 0 (f pv y)).
        + rewrite (EXCHANGE_eq d pivot (length d - 1) pv y) by done. eexists _, pv. split_and!; [done|by apply swap_perm|unfold swap; by rewrite !length_insert| |done].
          rewrite (swap_lookup d pivot _ pv y) by done. by rewrite decide_True.
        + by exists d, y.
      - assert (pivot = length d - 1)%nat as -> by lia. by exists d, pv. }
    destruct Hlast as (d2 & z & E & P2 & L2 & Hz & Hpz). unfold sorts. unfold kbind at 1. rewrite E. rewrite <- L2 in Hz |- *.
    destruct (last_ok fuel d2 z Hz) as (d' & E' & P' & S'); [| |exists d'; split_and!; [done|by rewrite P'|done]].
    + intros i x Hx. apply list_elem_of_lookup_2 in Hx. rewrite P2 in Hx. apply list_elem_of_lookup in Hx as [j Hj]. apply (cmp_trans _ pv); [|done]. apply (Hlow j); [by apply lookup_lt_Some in Hj|done].
    + intros t Hlt. apply IHt; [done|lia].
  - unfold sorts, kbind, kassert. rewrite (proj2 (Nat.ltb_lt 0 t)), (proj2 (Nat.ltb_lt t (length d))) by lia. cbn [andb kret].
    destruct (IHt d t eq_refl ltac:(lia)) as (d1 & E1 & P1 & S1). unfold on_front at 1. unfold kret. rewrite E1. unfold on_back.
    assert (Hl1 : length d1 = t) by (rewrite (Permutation_length P1), length_take; lia). rewrite drop_app_length', take_app_length' by done.
    destruct (IH (drop t d)) as (d3 & E3 & P3 & S3); [rewrite length_drop; lia|]. rewrite length_drop in E3. rewrite E3. eexists. split; [done|]. apply (sorted_join d t); try done.
    intros i j x y Hi Hj Hx Hy. apply (cmp_trans _ pv); [by apply (Hlow i)|by apply (Hhigh j)].
Qed.

(** Steps 2 to 5 for an array of at least two elements. *)
Lemma steps_ok fuel d : (1 < length d)%nat -> (forall d1, (length d1 < length d)%nat -> sorts (qsort fuel (length d1)) d1) ->
  sorts (r <- partition (length d) (length d / 2) 0 (length d - 1) ;;
         let '(pivot, head, tail) := r in
         past <- (if Nat.ltb tail head then kret true else c <- COMPARE head pivot ;; kret (c <=? 0)) ;;
         let tail := if past : bool then (tail + 1)%nat else tail in
         if Nat.eqb tail (length d) then
           (if Nat.ltb pivot (length d - 1) then c <- COMPARE pivot (length d - 1) ;; if 0 <? c then EXCHANGE pivot (length d - 1) else kret tt else kret tt) ;;;
           tail <- lop (length d - 1) ;; if Nat.ltb 0 tail then on_front tail (qsort fuel tail) else kret tt
         else
           kassert (Nat.ltb 0 tail && Nat.ltb tail (length d)) ;;; on_front tail (qsort fuel tail) ;;; on_back tail (qsort fuel (length d - tail))) d.
Proof.
  intros H1 IH. destruct (lookup_lt_is_Some_2 d (length d / 2)) as [pv Hpv]; [apply Nat.div_lt; lia|].
  destruct (partition_ok d pv (length d) d (length d / 2) 0 (length d - 1)) as (d1 & p & h & t & E & H & Hth); [split; [done|done|lia| |lia|lia]|lia|].
  { intros i x Hi Hx%lookup_lt_Some. lia. }
  destruct H as [P1 Hp Hlow Hhigh Hcr Htl]. pose proof (Permutation_length P1) as Hl.
  assert (Hgt : forall i x, (t < i)%nat -> d1 !! i = Some x -> le pv x) by (intros i x Hi Hx; by apply gt_le, (Hhigh i)).
  assert (Hpt : (p <= t)%nat) by (destruct (Nat.le_gt_cases p t) as [|Hg]; [done|]; pose proof (Hhigh p pv Hg Hp) as Hx; rewrite cmp_refl in Hx; lia).
  assert (Hpast : exists b : bool, ((if Nat.ltb t h then kret true else c <- COMPARE h p ;; kret (c <=? 0)) : M bool) d1 = Done b d1 /\ let t' := if b then (t + 1)%nat else t in
            (p < t' <= length d1)%nat /\ (forall i x, (i < t')%nat -> d1 !! i = Some x -> le x pv) /\ (forall i x, (t' <= i)%nat -> d1 !! i = Some x -> le pv x)).
  { destruct (Nat.ltb_spec t h) as [Hlt|Hge].
    - exists true. split; [done|]. cbv zeta. split_and!; [lia|lia| |]; intros i x Hi; [apply Hlow; lia|apply Hgt; lia].
    - assert (h = t) as -> by lia. destruct (lookup_lt_is_Some_2 d1 t Htl) as [x Hx]. unfold kbind. rewrite (COMPARE_eq d1 t p x pv) by done. eexists. split; [done|].
      destruct (Z.leb_spec (f x pv) 0) as [Hfx|Hfx]; cbv zeta.
      + split_and!; [lia|lia| |intros i y Hi; apply Hgt; lia]. intros i y Hi Hy. destruct (decide (i = t)) as [->|]; [assert (y = x) as -> by congruence; exact Hfx|apply (Hlow i); [lia|done]].
      + assert (p <> t) by (intros ->; assert (x = pv) as -> by congruence; rewrite cmp_refl in Hfx; lia). split_and!; [lia|lia|done|].
        intros i y Hi Hy. destruct (decide (i = t)) as [->|]; [assert (y = x) as -> by congruence; by apply gt_le|apply (Hgt i); [lia|done]]. }
  destruct Hpast as (b & Eb & Hb & Hb1 & Hb2). unfold sorts. unfold kbind at 1. rewrite E. cbv beta iota. unfold kbind at 1. rewrite Eb. cbv zeta. rewrite <- Hl in IH |- *.
  destruct (rest_ok fuel d1 p pv (if b then (t + 1)%nat else t) Hp Hb Hb1 Hb2 IH) as (d' & E' & P' & S'). exists d'. split_and!; [exact E'|by rewrite P'|done].
Qed.

Lemma qsort_ok fuel : forall d, (length d < fuel)%nat -> sorts (qsort fuel (length d)) d.
Proof.
  induction fuel as [|fuel IH]; intros d Hf; [lia|]. cbn [qsort]. destruct (Nat.leb_spec (length d) 1) as [H1|H1].
  { exists d. split_and!; [done|done|]. apply sorted_equal. intros i j x y Hx Hy. pose proof (lookup_lt_Some _ _ _ Hx). pose proof (lookup_lt_Some _ _ _ Hy).
    assert (i = j) as -> by lia. assert (x = y) as -> by congruence. unfold le. rewrite cmp_refl. lia. }
  pose proof (steps_ok fuel d H1 (fun d1 Hd => IH d1 (Nat.lt_le_trans _ _ _ Hd (proj1 (Nat.lt_succ_r _ _) Hf)))) as Hs. unfold sorts. unfold kbind at 1. destruct (Nat.eqb_spec (length d) 2) as [H2|H2]; [|exact Hs].
  destruct d as [|x [|y [|? ?]]]; cbn [length] in H2; try lia. unfold kbind at 1. rewrite (COMPARE_eq [x; y] 0 1 x y) by done. unfold kret at 1. destruct (Z.ltb_spec 0 (f x y)) as [Hxy|Hxy]; [|exact Hs].
  exists [y; x]. split_and!; [done|by apply Permutation_swap|]. repeat constructor. by apply gt_le.
Qed.

End Qsort.

(** C34. [qsort] sorts: for every comparison function that is an order, it returns (no access
    outside the array, no failed assertion) with a permutation of the array in which every
    element is less than or equal to all that follow. *)
Theorem qsort_spec {A : Type} (f : A -> A -> Z) (HC : Comparison f) (d : list A) :
  exists d', qsort f (S (length d)) (length d) d = Done tt d' /\ d' ≡ₚ d /\ StronglySorted (fun x y => f x y <= 0) d'.
Proof. exact (qsort_ok f HC (S (length d)) d (Nat.lt_succ_diag_r _)). Qed.

Lemma qsort_spec_witness : qsort Z.sub 7 6 [5; 3; 9; 3; 1; 9] = Done tt [1; 3; 3; 5; 9; 9] /\ StronglySorted (fun x y => x - y <= 0) [1; 3; 3; 5; 9; 9].
Proof.
  assert (HC : Comparison Z.sub) by (split; lia). destruct (qsort_spec Z.sub HC [5; 3; 9; 3; 1; 9]) as (d' & E & _ & Hs). assert (E' : qsort Z.sub 7 6 [5; 3; 9; 3; 1; 9] = Done tt [1; 3; 3; 5; 9; 9]) by (vm_compute; reflexivity).
  split; [exact E'|]. cbn [length] in E. rewrite E' in E. injection E as <-. exact Hs.
Defined.
