(* ===== verification/UMalloc.v ===== *)
(** * The heap of user programs, userland/lib/libc/stdlib/malloc.c

    The heap is a sequence of blocks of 8 bytes and more, each with a header of 8 bytes that
    gives the distances to the next and to the previous header. Memory is seen in cells of 8
    bytes: every 64-bit value is a header, whose fields take up exactly 64 bits. [errx] and
    [err], which end the process, are [Halt PanicCall]; access to a cell outside the heap is
    [Halt OutOfBounds]. The option MALLOCDEBUG is off. *)

From stdpp Require Import base numbers functions list.
From Stdlib Require Import ZArith Lia.
From stdpp Require Import list_relations.
From S2P Require Import Prelude.

Open Scope Z_scope.
Open Scope k_scope.

(** userland/lib/libc/stdlib/malloc.c:71-87 (mheader). *)
Record mheader := mkmh {
  mh_prevblock : Z;
  mh_pad : bool;
  mh_magic1 : Z;
  mh_nextblock : Z;
  mh_inuse : bool;
  mh_magic2 : Z
}.

(** userland/lib/libc/stdlib/malloc.c:74-74 (MBLOCKSIZE). *)
Definition MBLOCKSIZE : Z := 8.

(** userland/lib/libc/stdlib/malloc.c:75-75 (MBLOCKSHIFT). *)
Definition MBLOCKSHIFT : Z := 3.

(** userland/lib/libc/stdlib/malloc.c:76-76 (MMAGIC). *)
Definition MMAGIC : Z := 2.

(** userland/lib/libc/stdlib/malloc.c:147-147 (PAGE_SIZE). *)
Definition PAGE_SIZE : Z := 4096.

(** userland/lib/libc/stdlib/malloc.c:125-125 (M_NEXTOFF). *)
Definition M_NEXTOFF (h : mheader) : Z := u32 (Z.shiftl (mh_nextblock h) MBLOCKSHIFT).

(** userland/lib/libc/stdlib/malloc.c:126-126 (M_PREVOFF). *)
Definition M_PREVOFF (h : mheader) : Z := u32 (Z.shiftl (mh_prevblock h) MBLOCKSHIFT).

(** userland/lib/libc/stdlib/malloc.c:127-127 (M_NEXT). *)
Definition M_NEXT (a : Z) (h : mheader) : Z := u32 (a + M_NEXTOFF h).

(** userland/lib/libc/stdlib/malloc.c:128-128 (M_PREV). *)
Definition M_PREV (a : Z) (h : mheader) : Z := u32 (a - M_PREVOFF h).

(** userland/lib/libc/stdlib/malloc.c:130-130 (M_DATA). *)
Definition M_DATA (a : Z) : Z := u32 (a + MBLOCKSIZE).

(** userland/lib/libc/stdlib/malloc.c:131-131 (M_SIZE). *)
Definition M_SIZE (h : mheader) : Z := u32 (M_NEXTOFF h - MBLOCKSIZE).

(** userland/lib/libc/stdlib/malloc.c:133-133 (M_OK). *)
Definition M_OK (h : mheader) : bool := (mh_magic1 h =? MMAGIC) && (mh_magic2 h =? MMAGIC).

(** userland/lib/libc/stdlib/malloc.c:135-135 (M_MKFIELD), stored in a field of 29 bits. *)
Definition M_MKFIELD (off : Z) : Z := wrapu 29 (Z.shiftr off MBLOCKSHIFT).

(** userland/lib/libc/stdlib/malloc.c:155-155 (__heapbase, __heaptop), the memory, the break and
    the number of calls of [sbrk]. *)
Record heap := mkheap { cells : Z -> mheader; heapbase : Z; heaptop : Z; brk : Z; calls : nat }.

Definition put_cell (a : Z) (h : mheader) (s : heap) : heap :=
  mkheap (fun x => if x =? a then h else cells s x) (heapbase s) (heaptop s) (brk s) (calls s).
Definition set_bounds (b t : Z) (s : heap) : heap := mkheap (cells s) b t (brk s) (calls s).

(** The kernel's answers: whether the [n]th call moves the break by so much. *)
Class Sbrk := moves : nat -> Z -> Z -> bool.

Section Malloc.
Context {SB : Sbrk}.
Local Abbreviation M := (K heap).

(** What sbrk(2) says: it returns the old break, or fails; [amount] is an [intptr_t]. *)
Definition sbrk (amount : Z) : M (option Z) :=
  fun s => if moves (calls s) (brk s) amount then Done (Some (brk s)) (mkheap (cells s) (heapbase s) (heaptop s) (u32 (brk s + amount)) (S (calls s)))
           else Done None (mkheap (cells s) (heapbase s) (heaptop s) (brk s) (S (calls s))).

Definition errx {A} : M A := khalt PanicCall.

Definition in_heap (a : Z) (s : heap) : bool := (heapbase s <=? a) && (a <? heaptop s).
Definition get (a : Z) : M mheader := fun s => if in_heap a s then Done (cells s a) s else Halt OutOfBounds.
Definition set (a : Z) (h : mheader) : M unit := fun s => if in_heap a s then Done tt (put_cell a h s) else Halt OutOfBounds.

Definition set_next (n : Z) (h : mheader) := mkmh (mh_prevblock h) (mh_pad h) (mh_magic1 h) n (mh_inuse h) (mh_magic2 h).
Definition set_prev (n : Z) (h : mheader) := mkmh n (mh_pad h) (mh_magic1 h) (mh_nextblock h) (mh_inuse h) (mh_magic2 h).
Definition set_inuse (b : bool) (h : mheader) := mkmh (mh_prevblock h) (mh_pad h) (mh_magic1 h) (mh_nextblock h) b (mh_magic2 h).
Definition modify (a : Z) (f : mheader -> mheader) : M unit := h <- get a ;; set a (f h).

(** userland/lib/libc/stdlib/malloc.c:160-222 (__malloc_init). *)
Definition __malloc_init : M unit :=
  s <- kget ;;
  if negb (heapbase s =? 0) || negb (heaptop s =? 0) then errx else
  x <- sbrk 0 ;;
  match x with
  | None => errx
  | Some x =>
      if x =? 0 then errx else
      kmodify (set_bounds x x) ;;;
      if negb (x mod MBLOCKSIZE =? 0) then
        let adjust := MBLOCKSIZE - x mod MBLOCKSIZE in
        y <- sbrk adjust ;;
        match y with
        | None => errx
        | Some y => if negb (y =? x) then errx else kmodify (set_bounds (u32 (x + adjust)) (u32 (x + adjust)))
        end
      else kret tt
  end.

(** userland/lib/libc/stdlib/malloc.c:280-299 (__malloc_sbrk); the size, which is unsigned,
    becomes a signed amount. *)
Definition __malloc_sbrk (size : Z) : M (option Z) :=
  x <- sbrk (s32 size) ;;
  match x with
  | None => kret None
  | Some x =>
      s <- kget ;;
      if negb (x =? heaptop s) then errx else
      kmodify (set_bounds (heapbase s) (u32 (heaptop s + size))) ;;;
      kret (Some x)
  end.

(** userland/lib/libc/stdlib/malloc.c:309-346 (__malloc_split). *)
Definition __malloc_split (mh size : Z) : M unit :=
  if negb (size mod MBLOCKSIZE =? 0) then errx else
  h <- get mh ;;
  if u32 (M_SIZE h - size) <? 2 * MBLOCKSIZE then kret tt else
  let mhnext := M_NEXT mh h in
  let oldsize := M_SIZE h in
  modify mh (set_next (M_MKFIELD (u32 (size + MBLOCKSIZE)))) ;;;
  h <- get mh ;;
  let mhnew := M_NEXT mh h in
  if mhnew =? mhnext then errx else
  set mhnew (mkmh (M_MKFIELD (u32 (size + MBLOCKSIZE))) false MMAGIC (M_MKFIELD (u32 (oldsize - size))) false MMAGIC) ;;;
  s <- kget ;;
  if negb (mhnext =? heaptop s) then
    n <- get mhnew ;; modify mhnext (set_prev (mh_nextblock n))
  else kret tt.

(** userland/lib/libc/stdlib/malloc.c:382-424 (malloc): the search. It ends at a block that
    fits, or with [i], the last block and the distance to it. *)
Fixpoint search (fuel : nat) (size i : Z) (mh : option Z) (rightprevblock : Z) : M (Z + Z * option Z * Z) :=
  s <- kget ;;
  if negb (i <? heaptop s) then kret (inr (i, mh, rightprevblock)) else
  match fuel with
  | O => khalt OutOfFuel
  | S fuel =>
      h <- get i ;;
      if negb (M_OK h) then errx else
      if negb (mh_prevblock h =? rightprevblock) then errx else
      if mh_inuse h then search fuel size (u32 (i + M_NEXTOFF h)) (Some i) (mh_nextblock h)
      else if M_SIZE h <? size then search fuel size (u32 (i + M_NEXTOFF h)) (Some i) (mh_nextblock h)
      else kret (inl i)
  end.

(** [mh != NULL && !mh->mh_inuse] *)
Definition top_free (mh : option Z) : M (option (Z * mheader)) :=
  match mh with
  | None => kret None
  | Some a => h <- get a ;; kret (if mh_inuse h then None else Some (a, h))
  end.

(** userland/lib/libc/stdlib/malloc.c:436-479 (malloc): expand the heap. *)
Definition expand (size : Z) (mh : option Z) (rightprevblock : Z) : M (option Z) :=
  t <- top_free mh ;;
  morespace <- match t with
               | Some (a, h) => kassert (M_SIZE h <? size) ;;; kret (u32 (size - M_SIZE h))
               | None => kret (u32 (MBLOCKSIZE + size))
               end ;;
  let morespace := u32 (PAGE_SIZE * (u32 (morespace + PAGE_SIZE - 1) / PAGE_SIZE)) in
  p <- __malloc_sbrk morespace ;;
  match p with
  | None => kret None
  | Some p =>
      mh <- match t with
            | Some (a, h) =>
                modify a (set_next (M_MKFIELD (u32 (M_NEXTOFF h + morespace)))) ;;;
                modify a (set_inuse true) ;;;
                kret a
            | None =>
                set p (mkmh rightprevblock false MMAGIC (M_MKFIELD morespace) true MMAGIC) ;;;
                kret p
            end ;;
      __malloc_split mh size ;;;
      kret (Some (M_DATA mh))
  end.

(** One step of the search per header that fits into the heap. *)
Definition search_fuel (s : heap) : nat := Z.to_nat ((heaptop s - heapbase s) / MBLOCKSIZE).

(** userland/lib/libc/stdlib/malloc.c:351-480 (malloc). *)
Definition malloc (size : Z) : M (option Z) :=
  s <- kget ;;
  (if heapbase s =? 0 then __malloc_init else kret tt) ;;;
  s <- kget ;;
  if (heapbase s =? 0) || (heaptop s =? 0) || (heaptop s <? heapbase s) then errx else
  let size := Z.land (u32 (size + MBLOCKSIZE - 1)) (2 ^ 32 - MBLOCKSIZE) in
  r <- search (search_fuel s) size (heapbase s) None 0 ;;
  match r with
  | inl mh =>
      __malloc_split mh size ;;;
      modify mh (set_inuse true) ;;;
      kret (Some (M_DATA mh))
  | inr (i, mh, rightprevblock) =>
      if negb (i =? heaptop s) then errx else expand size mh rightprevblock
  end.

(** 0xdeadbeef twice, as a header. *)
Definition DEADBEEF : mheader := mkmh 0x1bd5b7dd true 3 0x1bd5b7dd true 3.

(** userland/lib/libc/stdlib/malloc.c:488-497 (__malloc_deadbeef), two words at a time. *)
Fixpoint deadbeef_loop (n : nat) (a : Z) : M unit :=
  match n with O => kret tt | S n => set a DEADBEEF ;;; deadbeef_loop n (u32 (a + 8)) end.
Definition __malloc_deadbeef (a size : Z) : M unit := deadbeef_loop (Z.to_nat (size / 8)) a.

(** userland/lib/libc/stdlib/malloc.c:502-528 (__malloc_trymerge). *)
Definition __malloc_trymerge (mh mhnext : Z) : M unit :=
  h <- get mh ;;
  hn <- get mhnext ;;
  if negb (mh_nextblock h =? mh_prevblock hn) then errx else
  if mh_inuse h || mh_inuse hn then kret tt else
  let mhnextnext := M_NEXT mhnext hn in
  modify mh (set_next (M_MKFIELD (u32 (MBLOCKSIZE + M_SIZE h + MBLOCKSIZE + M_SIZE hn)))) ;;;
  s <- kget ;;
  (if negb (mhnextnext =? heaptop s) then h <- get mh ;; modify mhnextnext (set_prev (mh_nextblock h)) else kret tt) ;;;
  __malloc_deadbeef mhnext MBLOCKSIZE.

(** userland/lib/libc/stdlib/malloc.c:533-591 (free). *)
Definition free (x : Z) : M unit :=
  if x =? 0 then kret tt else
  s <- kget ;;
  if (heapbase s =? 0) || (heaptop s =? 0) || (heaptop s <? heapbase s) then errx else
  if (x <? heapbase s) || (heaptop s <=? x) then errx else
  let mh := u32 (x - MBLOCKSIZE) in
  h <- get mh ;;
  if negb (M_OK h) then errx else
  if negb (mh_inuse h) then errx else
  modify mh (set_inuse false) ;;;
  __malloc_deadbeef (M_DATA mh) (M_SIZE h) ;;;
  let mhnext := M_NEXT mh h in
  (if negb (mhnext =? heaptop s) then __malloc_trymerge mh mhnext else kret tt) ;;;
  if negb (mh =? heapbase s) then
    h <- get mh ;; __malloc_trymerge (M_PREV mh h) mh
  else kret tt.

End Malloc.
