(* ===== verification/UMallocSpec.v ===== *)
(** * The heap of user programs keeps its blocks apart *)

From stdpp Require Import base numbers functions list.
From Stdlib Require Import ZArith Lia.
From stdpp Require Import list_relations.
From S2P Require Import Prelude UMalloc.

Open Scope Z_scope.
Open Scope k_scope.

(** A block: the address of its header, its size with the header in units of 8 bytes, and
    whether it is in use. *)
Record blk := mkblk { b_at : Z; b_n : Z; b_used : bool }.

Definition hdr (p n : Z) (u : bool) : mheader := mkmh p false MMAGIC n u MMAGIC.

(** The blocks [bs] lie one after the other from [a] to [top]; [p] is the size of the block
    below. *)
Fixpoint chain (m : Z -> mheader) (a p : Z) (bs : list blk) (top : Z) : Prop :=
  match bs with
  | [] => a = top
  | b :: bs' => b_at b = a /\ 1 <= b_n b /\ m a = hdr p (b_n b) (b_used b) /\ chain m (a + 8 * b_n b) (b_n b) bs' top
  end.

Fixpoint lastn (p : Z) (bs : list blk) : Z := match bs with [] => p | b :: bs' => lastn (b_n b) bs' end.

(** No two free blocks are neighbours; [u]: the block below is in use. *)
Fixpoint apart (u : bool) (bs : list blk) : Prop :=
  match bs with [] => True | b :: bs' => (u = true \/ b_used b = true) /\ apart (b_used b) bs' end.

Fixpoint lastu (u : bool) (bs : list blk) : bool := match bs with [] => u | b :: bs' => lastu (b_used b) bs' end.

Lemma chain_app m l1 l2 top : forall a p, chain m a p (l1 ++ l2) top <-> exists mid, chain m a p l1 mid /\ chain m mid (lastn p l1) l2 top.
Proof. induction l1 as [|b l1 IH]; intros a p; cbn [app chain lastn]; [naive_solver|]. rewrite IH. naive_solver. Qed.

Lemma lastn_app p l1 l2 : lastn p (l1 ++ l2) = lastn (lastn p l1) l2.
Proof. revert p. induction l1; cbn; auto. Qed.

Lemma apart_app l1 l2 : forall u, apart u (l1 ++ l2) <-> apart u l1 /\ apart (lastu u l1) l2.
Proof. induction l1 as [|b l1 IH]; intros u; cbn [app apart lastu]; [tauto|]. rewrite IH. tauto. Qed.

Lemma chain_bounds m bs top : forall a p, chain m a p bs top -> a <= top /\ forall b, b ∈ bs -> a <= b_at b /\ b_at b + 8 * b_n b <= top /\ 1 <= b_n b.
Proof.
  induction bs as [|b bs IH]; intros a p; cbn [chain]; [intros ->; split; [lia|]; intros b []%not_elem_of_nil|]. intros (E & Hn & _ & Hc). destruct (IH _ _ Hc) as [Hle Hb].
  split; [lia|]. intros b' [->|Hin]%elem_of_cons; [lia|]. destruct (Hb b' Hin). lia.
Qed.

Lemma chain_length m bs top : forall a p, chain m a p bs top -> 8 * Z.of_nat (length bs) <= top - a.
Proof. induction bs as [|b bs IH]; intros a p; cbn [chain length]; [lia|]. intros (E & Hn & _ & Hc). pose proof (IH _ _ Hc). lia. Qed.

Lemma chain_cells m m' bs top : forall a p, chain m a p bs top -> (forall b, b ∈ bs -> m' (b_at b) = m (b_at b)) -> chain m' a p bs top.
Proof.
  induction bs as [|b bs IH]; intros a p; cbn [chain]; [done|]. intros (E & Hn & Hm & Hc) Hext. split_and!; [done|done| |].
  - rewrite <- Hm, <- E. apply Hext. by left.
  - apply IH; [done|]. intros b' Hb'. apply Hext. by right.
Qed.

(** The first header gets another distance to the block below. *)
Lemma chain_relink m m' bs top a p q : chain m a p bs top -> (forall b, b ∈ bs -> b_at b <> a -> m' (b_at b) = m (b_at b)) ->
  (a < top -> m' a = UMalloc.set_prev q (m a)) -> chain m' a q bs top.
Proof.
  destruct bs as [|b bs]; cbn [chain]; [done|]. intros (E & Hn & Hm & Hc) Hext Ha. destruct (chain_bounds _ _ _ _ _ Hc) as [Hle Hb]. split_and!; [done|done| |].
  - rewrite Ha by lia. by rewrite Hm.
  - apply (chain_cells m); [done|]. intros b' Hb'. apply Hext; [by right|]. destruct (Hb b' Hb'). lia.
Qed.

(** ** The fields of a header *)

Section Fields.
Context (p n : Z) (u : bool) (a : Z) (Hn : 1 <= n) (Ha : 0 <= a) (Htop : a + 8 * n <= 2 ^ 31).

Lemma nextoff_eq : M_NEXTOFF (hdr p n u) = 8 * n.
Proof. unfold M_NEXTOFF. cbn [mh_nextblock hdr]. rewrite Z.shiftl_mul_pow2 by done. change (2 ^ MBLOCKSHIFT) with 8. rewrite wrapu_small; lia. Qed.

Lemma size_eq : M_SIZE (hdr p n u) = 8 * n - 8.
Proof. unfold M_SIZE, MBLOCKSIZE. rewrite nextoff_eq, wrapu_small; lia. Qed.

Lemma next_eq : M_NEXT a (hdr p n u) = a + 8 * n.
Proof. unfold M_NEXT. rewrite nextoff_eq, wrapu_small; lia. Qed.

End Fields.

Lemma prev_eq p n u a : 0 <= p -> 8 * p <= a -> a < 2 ^ 31 -> M_PREV a (hdr p n u) = a - 8 * p.
Proof. intros. unfold M_PREV, M_PREVOFF. cbn [mh_prevblock hdr]. rewrite Z.shiftl_mul_pow2 by done. change (2 ^ MBLOCKSHIFT) with 8. rewrite !wrapu_small; rewrite ?wrapu_small; lia. Qed.

Lemma field_eq k : 0 <= k < 2 ^ 29 -> M_MKFIELD (8 * k) = k.
Proof. intros. unfold M_MKFIELD. rewrite Z.shiftr_div_pow2 by done. change (2 ^ MBLOCKSHIFT) with 8. rewrite Z.mul_comm, Z.div_mul by done. rewrite wrapu_small; lia. Qed.

(** ** Cells *)


Lemma get_eq a s : heapbase s <= a < heaptop s -> get a s = Done (cells s a) s.
Proof. intros. unfold get, in_heap. by rewrite (proj2 (Z.leb_le _ _)), (proj2 (Z.ltb_lt _ _)) by lia. Qed.

Lemma set_eq a h s : heapbase s <= a < heaptop s -> UMalloc.set a h s = Done tt (put_cell a h s).
Proof. intros. unfold UMalloc.set, in_heap. by rewrite (proj2 (Z.leb_le _ _)), (proj2 (Z.ltb_lt _ _)) by lia. Qed.

Lemma modify_eq a f s : heapbase s <= a < heaptop s -> modify a f s = Done tt (put_cell a (f (cells s a)) s).
Proof. intros. unfold modify, kbind. rewrite get_eq by done. by apply set_eq. Qed.

Lemma cell_eq a h s : cells (put_cell a h s) a = h.
Proof. cbn. by rewrite Z.eqb_refl. Qed.

Lemma cell_ne a h s x : x <> a -> cells (put_cell a h s) x = cells s x.
Proof. intros. cbn. by rewrite (proj2 (Z.eqb_neq _ _)). Qed.

(** The state with other cells. *)
Definition recell (s s' : heap) : Prop := heapbase s' = heapbase s /\ heaptop s' = heaptop s /\ brk s' = brk s /\ calls s' = calls s.

Section Blocks.
Context {SB : Sbrk}.

(** Bounds of the heap. *)
Definition placed (s : heap) : Prop := 0 < heapbase s /\ heapbase s mod 8 = 0 /\ heapbase s <= heaptop s <= 2 ^ 31.

(** ** Splitting *)

Lemma split_ok s l1 l2 x n u k : placed s -> chain (cells s) (heapbase s) 0 (l1 ++ mkblk x n u :: l2) (heaptop s) -> 1 <= k <= n ->
  exists s' n' rest, __malloc_split x (8 * k - 8) s = Done tt s' /\ recell s s' /\ k <= n' /\
    (n' = n /\ rest = [] \/ rest = [mkblk (x + 8 * n') (n - n') false] /\ 2 <= n - n') /\
    chain (cells s') (heapbase s) 0 (l1 ++ mkblk x n' u :: rest ++ l2) (heaptop s) /\
    forall y, y < x \/ x + 8 * n < y -> cells s' y = cells s y.
Proof.
  intros (B1 & B2 & B3) Hc Hk. apply chain_app in Hc as (mid & Hc1 & Hc2). cbn [chain b_at b_n b_used] in Hc2. destruct Hc2 as (<- & Hn & Hx & Hc2).
  destruct (chain_bounds _ _ _ _ _ Hc1) as [Hle1 Hb1]. destruct (chain_bounds _ _ _ _ _ Hc2) as [Hle2 Hb2]. set (p := lastn 0 l1) in *.
  unfold __malloc_split. replace ((8 * k - 8) mod MBLOCKSIZE) with 0 by (unfold MBLOCKSIZE; replace (8 * k - 8) with ((k - 1) * 8) by lia; by rewrite Z.mod_mul). cbn [Z.eqb negb].
  unfold kbind at 1. rewrite get_eq by lia. rewrite Hx. rewrite (size_eq p n u x) by lia. replace (8 * n - 8 - (8 * k - 8)) with (8 * (n - k)) by lia. rewrite (wrapu_small 32 (8 * (n - k))) by lia.
  unfold MBLOCKSIZE at 1. destruct (Z.ltb_spec (8 * (n - k)) (2 * 8)) as [Hs|Hs].
  - exists s, n, []. split_and!; try done; [lia|by left|]. apply chain_app. exists x. split; [done|]. by split_and!.
  - rewrite (next_eq p n u x) by lia. unfold MBLOCKSIZE. replace (8 * k - 8 + 8) with (8 * k) by lia. rewrite (wrapu_small 32 (8 * k)), (field_eq k), (field_eq (n - k)) by lia.
    unfold kbind at 1. rewrite modify_eq by lia. rewrite Hx. set (s1 := put_cell x _ s). unfold kbind at 1. rewrite get_eq by (cbn; lia). assert (C1 : cells s1 x = hdr p k u) by (unfold s1; by rewrite cell_eq). rewrite C1, (next_eq p k u x) by lia.
    rewrite (proj2 (Z.eqb_neq _ _)) by lia. unfold kbind at 1. rewrite set_eq by (cbn; lia). fold (hdr k (n - k) false). set (s2 := put_cell (x + 8 * k) _ s1).
    assert (E1 : chain (cells s2) (heapbase s) 0 l1 x).
    { apply (chain_cells (cells s)); [done|]. intros b Hb. destruct (Hb1 b Hb). unfold s2, s1. by rewrite !cell_ne by lia. }
    assert (Ex : cells s2 x = hdr p k u) by (unfold s2, s1; rewrite cell_ne by lia; by rewrite cell_eq).
    assert (Ey : cells s2 (x + 8 * k) = hdr k (n - k) false) by (unfold s2; by rewrite cell_eq).
    assert (Ez : forall z, z <> x -> z <> x + 8 * k -> cells s2 z = cells s z) by (intros z Hz1 Hz2; unfold s2, s1; by rewrite !cell_ne by done).
    unfold kbind at 1, kget. change (heaptop s2) with (heaptop s). destruct (Z.eqb_spec (x + 8 * n) (heaptop s)) as [Et|Et]; cbn [negb].
    + exists s2, k, [mkblk (x + 8 * k) (n - k) false]. split_and!; try done; [right; split; [done|lia]| |intros y Hy; apply Ez; lia]. apply chain_app. exists x. split; [done|]. cbn [app chain b_at b_n b_used].
      split_and!; try done; [lia|lia|]. destruct l2 as [|b l2]; cbn [chain] in Hc2 |- *; [lia|]. destruct (Hb2 b); [by left|]. lia.
    + unfold kbind at 1. rewrite get_eq by (cbn; lia). rewrite Ey. rewrite modify_eq by (cbn; lia). cbn [hdr mh_nextblock]. set (s3 := put_cell _ _ s2).
      assert (E3 : forall z, z <> x + 8 * n -> cells s3 z = cells s2 z) by (intros z Hz; unfold s3; by rewrite cell_ne).
      exists s3, k, [mkblk (x + 8 * k) (n - k) false]. split_and!; try done; [right; split; [done|lia]| |intros y Hy; rewrite E3, Ez by lia; done]. apply chain_app. exists x. split.
      * apply (chain_cells (cells s2)); [done|]. intros b Hb. destruct (Hb1 b Hb). apply E3. lia.
      * cbn [app chain b_at b_n b_used]. rewrite !E3, Ex, Ey by lia. split_and!; try done; [lia|lia|]. replace (x + 8 * k + 8 * (n - k)) with (x + 8 * n) by lia. apply (chain_relink (cells s) _ _ _ _ n); [done| |].
        -- intros b Hb Hne. destruct (Hb2 b Hb). rewrite E3, Ez by lia. done.
        -- intros _. unfold s3. rewrite cell_eq, Ez by lia. done.
Qed.

(** ** Freeing *)

(** The mark of a block is changed. *)
Lemma mark_ok s l1 l2 x n u v : placed s -> chain (cells s) (heapbase s) 0 (l1 ++ mkblk x n u :: l2) (heaptop s) ->
  exists s', modify x (set_inuse v) s = Done tt s' /\ recell s s' /\ chain (cells s') (heapbase s) 0 (l1 ++ mkblk x n v :: l2) (heaptop s) /\ forall z, z <> x -> cells s' z = cells s z.
Proof.
  intros (B1 & B2 & B3) Hc. apply chain_app in Hc as (mid & Hc1 & Hc2). cbn [chain b_at b_n b_used] in Hc2. destruct Hc2 as (<- & Hn & Hx & Hc2).
  destruct (chain_bounds _ _ _ _ _ Hc1) as [Hle1 Hb1]. destruct (chain_bounds _ _ _ _ _ Hc2) as [Hle2 Hb2]. rewrite modify_eq by lia. eexists. split; [done|]. split; [done|]. rewrite Hx. split; [|intros z Hz; by apply cell_ne].
  apply chain_app. exists x. split; [|cbn [chain b_at b_n b_used]; rewrite cell_eq; split_and!; try done].
  - apply (chain_cells (cells s)); [done|]. intros b Hb. destruct (Hb1 b Hb). apply cell_ne. lia.
  - apply (chain_cells (cells s)); [done|]. intros b Hb. destruct (Hb2 b Hb). apply cell_ne. lia.
Qed.

Lemma deadbeef_ok n : forall a s, heapbase s <= a -> 0 <= a -> a + 8 * Z.of_nat n <= heaptop s -> heaptop s <= 2 ^ 31 ->
  exists s', deadbeef_loop n a s = Done tt s' /\ recell s s' /\ (forall z, z < a \/ a + 8 * Z.of_nat n <= z -> cells s' z = cells s z).
Proof.
  induction n as [|n IH]; intros a s H1 H2 H3 H4; cbn [deadbeef_loop]; [by exists s|]. unfold kbind. rewrite set_eq by lia. rewrite wrapu_small by lia.
  destruct (IH (a + 8) (put_cell a DEADBEEF s)) as (s' & -> & Hr & Hf); [cbn; lia|lia|cbn; lia|cbn; lia|]. exists s'. split_and!; try done; try apply Hr.
  intros z Hz. rewrite Hf by lia. apply cell_ne. lia.
Qed.

(** Two neighbours are made one block if both are free. *)
Lemma merge_ok s l1 l2 x n u1 y n2 u2 : placed s -> chain (cells s) (heapbase s) 0 (l1 ++ mkblk x n u1 :: mkblk y n2 u2 :: l2) (heaptop s) ->
  exists s', __malloc_trymerge x y s = Done tt s' /\ recell s s' /\
    if u1 || u2 then s' = s else
      chain (cells s') (heapbase s) 0 (l1 ++ mkblk x (n + n2) false :: l2) (heaptop s) /\ cells s' y = DEADBEEF /\
      forall z, z <> x -> z <> y -> z <> y + 8 * n2 -> cells s' z = cells s z.
Proof.
  intros (B1 & B2 & B3) Hc. apply chain_app in Hc as (mid & Hc1 & Hc2). cbn [chain b_at b_n b_used] in Hc2. destruct Hc2 as (<- & Hn & Hx & -> & Hn2 & Hy & Hc2).
  destruct (chain_bounds _ _ _ _ _ Hc1) as [Hle1 Hb1]. destruct (chain_bounds _ _ _ _ _ Hc2) as [Hle2 Hb2]. set (p := lastn 0 l1) in *. set (y := x + 8 * n) in *.
  unfold __malloc_trymerge. unfold kbind at 1. rewrite get_eq by lia. unfold kbind at 1. rewrite get_eq by lia. rewrite Hx, Hy. cbn [hdr mh_nextblock mh_prevblock mh_inuse]. fold (hdr p n u1) (hdr n n2 u2). rewrite Z.eqb_refl. cbn [negb].
  destruct (u1 || u2) eqn:Eu; [by exists s|]. apply orb_false_elim in Eu as [-> ->]. rewrite (next_eq n n2 false y), (size_eq p n false x), (size_eq n n2 false y) by lia. unfold MBLOCKSIZE.
  replace (8 + (8 * n - 8) + 8 + (8 * n2 - 8)) with (8 * (n + n2)) by lia. rewrite (wrapu_small 32 (8 * (n + n2))), field_eq by lia. unfold kbind at 1. rewrite modify_eq by lia. rewrite Hx. set (s1 := put_cell x _ s).
  assert (C1 : cells s1 x = hdr p (n + n2) false) by (unfold s1; by rewrite cell_eq). assert (F1 : forall z, z <> x -> cells s1 z = cells s z) by (intros z Hz; unfold s1; by rewrite cell_ne).
  assert (H2 : exists s2, ((if negb (y + 8 * n2 =? heaptop s) then h <- get x ;; modify (y + 8 * n2) (UMalloc.set_prev (mh_nextblock h)) else kret tt) : K heap unit) s1 = Done tt s2 /\ recell s s2 /\
            (forall z, z <> y + 8 * n2 -> cells s2 z = cells s1 z) /\ chain (cells s2) (y + 8 * n2) (n + n2) l2 (heaptop s)).
  { destruct (Z.eqb_spec (y + 8 * n2) (heaptop s)) as [Et|Et]; cbn [negb].
    - exists s1. split_and!; try done. destruct l2 as [|b l2]; [done|]. destruct (Hb2 b); [by left|]. lia.
    - unfold kbind. rewrite get_eq by (cbn; lia). rewrite C1. rewrite modify_eq by (cbn; lia). eexists. split_and!; try done; [intros z Hz; by apply cell_ne|].
      apply (chain_relink (cells s) _ _ _ _ n2); [done| |].
      + intros b Hb Hne. destruct (Hb2 b Hb). rewrite cell_ne, F1 by lia. done.
      + intros _. rewrite cell_eq, F1 by lia. done. }
  destruct H2 as (s2 & E2 & (R1 & R2 & R3 & R4) & F2 & Hc3). unfold kbind at 1, kget. change (heaptop s1) with (heaptop s). unfold kbind. unfold kbind in E2. rewrite E2. unfold __malloc_deadbeef. change (Z.to_nat (8 / 8)) with 1%nat. cbn [deadbeef_loop].
  unfold kbind. rewrite set_eq by lia. eexists. split; [done|]. split; [done|]. split_and!; [|by rewrite cell_eq|].
  - apply chain_app. exists x. split.
    + apply (chain_cells (cells s)); [done|]. intros b Hb. destruct (Hb1 b Hb). rewrite cell_ne, F2, F1 by lia. done.
    + cbn [chain b_at b_n b_used]. rewrite cell_ne, F2, C1 by lia. split_and!; try done; [lia|]. replace (x + 8 * (n + n2)) with (y + 8 * n2) by lia.
      apply (chain_cells (cells s2)); [done|]. intros b Hb. destruct (Hb2 b Hb). apply cell_ne. lia.
  - intros z Hz1 Hz2 Hz3. by rewrite cell_ne, F2, F1.
Qed.

Definition used (bs : list blk) : list blk := List.filter b_used bs.

Lemma used_app l1 l2 : used (l1 ++ l2) = used l1 ++ used l2.
Proof. apply List.filter_app. Qed.

(** The data of blocks in use are the same. *)
Definition same_data (bs : list blk) (s s' : heap) : Prop :=
  forall b y, b ∈ bs -> b_used b = true -> b_at b < y < b_at b + 8 * b_n b -> cells s' y = cells s y.

(** What the heap looks like: no two free blocks are neighbours, and the block at the top is
    not an empty one. *)
Record heap_ok (bs : list blk) (s : heap) : Prop := {
  ok_placed : placed s;
  ok_brk : brk s = heaptop s;
  ok_chain : chain (cells s) (heapbase s) 0 bs (heaptop s);
  ok_apart : apart true bs;
  ok_top : 2 <= lastn 2 bs
}.

Lemma same_trans bs s1 s2 s3 : same_data bs s1 s2 -> same_data bs s2 s3 -> same_data bs s1 s3.
Proof. intros H1 H2 b y Hb Hu Hy. rewrite (H2 b y) by done. by apply (H1 b). Qed.

Lemma same_sub bs bs' s s' : same_data bs s s' -> (forall b, b ∈ bs' -> b_used b = true -> b ∈ bs) -> same_data bs' s s'.
Proof. intros H Hs b y Hb Hu. apply H; [by apply Hs|done]. Qed.

Lemma lastn_mono l n n' : n <= n' -> 2 <= lastn n l -> 2 <= lastn n' l.
Proof. destruct l; cbn; lia. Qed.

(** The parts of a chain around a block. *)
Lemma chain_around s l1 x n u l2 : chain (cells s) (heapbase s) 0 (l1 ++ mkblk x n u :: l2) (heaptop s) ->
  cells s x = hdr (lastn 0 l1) n u /\ 1 <= n /\ heapbase s <= x /\ x + 8 * n <= heaptop s /\ (x + 8 * n = heaptop s <-> l2 = []) /\ (x = heapbase s <-> l1 = []) /\
  (forall b, b ∈ l1 -> heapbase s <= b_at b /\ b_at b + 8 * b_n b <= x) /\ (forall b, b ∈ l2 -> x + 8 * n <= b_at b).
Proof.
  intros Hc. apply chain_app in Hc as (mid & Hc1 & Hc2). cbn [chain b_at b_n b_used] in Hc2. destruct Hc2 as (<- & Hn & Hx & Hc2).
  destruct (chain_bounds _ _ _ _ _ Hc1) as [Hle1 Hb1]. destruct (chain_bounds _ _ _ _ _ Hc2) as [Hle2 Hb2]. split_and!; try done.
  - destruct l2 as [|b l2]; [done|]. destruct (Hb2 b); [by left|]. split; [lia|done].
  - destruct l1 as [|b l1]; [done|]. destruct (Hb1 b); [by left|]. split; [lia|done].
  - intros b Hb. destruct (Hb1 b Hb). lia.
  - intros b Hb. destruct (Hb2 b Hb). lia.
Qed.

Lemma merge_next_ok s l1 l2 x n : placed s -> chain (cells s) (heapbase s) 0 (l1 ++ mkblk x n false :: l2) (heaptop s) -> apart true l2 -> 2 <= lastn n l2 ->
  exists s' n' l2', ((if negb (x + 8 * n =? heaptop s) then __malloc_trymerge x (x + 8 * n) else kret tt) : K heap unit) s = Done tt s' /\ recell s s' /\
    chain (cells s') (heapbase s) 0 (l1 ++ mkblk x n' false :: l2') (heaptop s) /\ apart false l2' /\ 2 <= lastn n' l2' /\ used l2' = used l2 /\ same_data (l1 ++ l2) s s'.
Proof.
  intros Hp Hc Ha Hl. destruct (chain_around _ _ _ _ _ _ Hc) as (Hx & Hn & Hx1 & Hx2 & Ht & _ & Hb1 & Hb2). destruct (Z.eqb_spec (x + 8 * n) (heaptop s)) as [Et|Et]; cbn [negb].
  - assert (l2 = []) as -> by (by apply Ht). exists s, n, []. by split_and!.
  - destruct l2 as [|[y n2 u2] l2]; [by destruct Et; apply Ht|]. assert (y = x + 8 * n) as ->.
    { apply chain_app in Hc as (mid & _ & Hc). cbn [chain b_at b_n] in Hc. by destruct Hc as (-> & _ & _ & -> & _). }
    destruct (merge_ok s l1 l2 x n false (x + 8 * n) n2 u2 Hp Hc) as (s' & E & Hr & Hs). exists s'. cbn [orb apart b_used] in Hs, Ha. destruct Ha as [_ Ha]. destruct u2.
    + subst s'. exists n, (mkblk (x + 8 * n) n2 true :: l2). split_and!; try done. split; [by right|done].
    + destruct Hs as (Hc' & _ & Hf). exists (n + n2), l2. cbn [lastn b_n] in Hl. split_and!; try done; [by apply (lastn_mono _ n2); [lia|]|]. replace (l1 ++ mkblk x n false :: mkblk (x + 8 * n) n2 false :: l2) with ((l1 ++ [mkblk x n false]) ++ mkblk (x + 8 * n) n2 false :: l2) in Hc by (by rewrite <- app_assoc).
      destruct (chain_around _ _ _ _ _ _ Hc) as (_ & Hn2 & _ & _ & _ & _ & _ & Hb3).
      intros b y Hb Hu Hy. apply elem_of_app in Hb as [Hb|Hb]; [destruct (Hb1 b Hb); apply Hf; lia|].
      apply elem_of_cons in Hb as [->|Hb]; [done|]. specialize (Hb3 b Hb). apply Hf; lia.
Qed.

Lemma merge_prev_ok s l1 l2 x n : placed s -> chain (cells s) (heapbase s) 0 (l1 ++ mkblk x n false :: l2) (heaptop s) -> apart true l1 -> apart false l2 -> 2 <= lastn n l2 ->
  exists s' bs', ((if negb (x =? heapbase s) then h <- get x ;; __malloc_trymerge (M_PREV x h) x else kret tt) : K heap unit) s = Done tt s' /\ recell s s' /\
    chain (cells s') (heapbase s) 0 bs' (heaptop s) /\ apart true bs' /\ 2 <= lastn 2 bs' /\ used bs' = used l1 ++ used l2 /\ same_data (l1 ++ l2) s s' /\
    (mh_inuse (cells s' x) = false \/ cells s' x = DEADBEEF).
Proof.
  intros Hp Hc A1 A2 Hl. destruct Hp as (B1 & B2 & B3). destruct (chain_around _ _ _ _ _ _ Hc) as (Hx & Hn & Hx1 & Hx2 & _ & Ht & Hb1 & Hb2). destruct l1 as [|[y n1 u1] l1 _] using rev_ind.
  - rewrite (proj2 (Z.eqb_eq _ _) (proj2 Ht eq_refl)). cbn [negb]. exists s, (mkblk x n false :: l2). split_and!; try done; [cbn; auto|]. left. by rewrite Hx.
  - rewrite (proj2 (Z.eqb_neq _ _)) by (intros E%Ht; by destruct l1). cbn [negb]. unfold kbind. rewrite get_eq by lia. rewrite Hx, lastn_app. cbn [lastn b_n].
    rewrite <- app_assoc in Hc. cbn [app] in Hc. assert (Hy : x = y + 8 * n1 /\ 1 <= n1 /\ heapbase s <= y).
    { destruct (chain_around _ _ _ _ _ _ Hc) as (_ & Hn1 & Hy & _). apply chain_app in Hc as (mid & _ & Hc). cbn [chain b_at b_n] in Hc. destruct Hc as (-> & _ & _ & -> & _). lia. }
    destruct Hy as (Ey & Hn1 & Hy). rewrite prev_eq by lia. replace (x - 8 * n1) with y by lia. rewrite app_assoc in A1 || idtac. apply apart_app in A1 as [A1 A3]. cbn [apart b_used] in A3. destruct A3 as [A3 _].
    destruct (merge_ok s l1 l2 y n1 u1 x n false ltac:(done) Hc) as (s' & E & Hr & Hs). exists s'. rewrite orb_false_r in Hs. destruct u1.
    + subst s'. exists (l1 ++ mkblk y n1 true :: mkblk x n false :: l2). split_and!; try done.
      * apply apart_app. split; [done|]. cbn. auto.
      * rewrite lastn_app. cbn [lastn b_n]. first [done | by apply (lastn_mono _ n); [lia|]].
      * by rewrite !used_app, <- app_assoc.
      * left. by rewrite Hx.
    + destruct Hs as (Hc' & Hd & Hf). exists (l1 ++ mkblk y (n1 + n) false :: l2). destruct A3 as [A3|A3]; [|done]. split_and!; try done.
      * apply apart_app. split; [done|]. cbn. auto.
      * rewrite lastn_app. cbn [lastn b_n]. first [done | by apply (lastn_mono _ n); [lia|]].
      * by rewrite !used_app, app_nil_r.
      * destruct (chain_around _ _ _ _ _ _ Hc) as (_ & _ & _ & _ & _ & _ & Hb3 & _). intros b z Hb Hu Hz. rewrite <- app_assoc in Hb. apply elem_of_app in Hb as [Hb|Hb]; [destruct (Hb3 b Hb); apply Hf; lia|].
        apply elem_of_cons in Hb as [->|Hb]; [done|]. specialize (Hb2 b Hb). apply Hf; lia.
      * by right.
Qed.

Lemma placed_recell s s' : recell s s' -> placed s -> placed s'.
Proof. unfold recell, placed. intros (-> & -> & _). done. Qed.

Lemma free_ok s l1 l2 x n : heap_ok (l1 ++ mkblk x n true :: l2) s ->
  exists s' bs', free (x + 8) s = Done tt s' /\ heap_ok bs' s' /\ used bs' = used l1 ++ used l2 /\ same_data (l1 ++ l2) s s' /\
    recell s s' /\ heapbase s <= x /\ x + 8 < heaptop s /\ (mh_inuse (cells s' x) = false \/ cells s' x = DEADBEEF).
Proof.
  intros [Hp Hbrk Hc Ha Hl]. pose proof Hp as (B1 & B2 & B3). destruct (chain_around _ _ _ _ _ _ Hc) as (Hx & Hn & Hx1 & Hx2 & Ht & _ & Hb1 & Hb2). apply apart_app in Ha as [A1 A2]. cbn [apart b_used] in A2. destruct A2 as [_ A2].
  rewrite lastn_app in Hl. cbn [lastn b_n] in Hl. assert (Hx3 : x + 8 < heaptop s).
  { destruct l2 as [|b l2]; [cbn in Hl; lia|]. assert (x + 8 * n <> heaptop s) by (intros E%Ht; done). lia. }
  unfold free. rewrite (proj2 (Z.eqb_neq (x + 8) 0)) by lia. unfold kbind at 1, kget. rewrite (proj2 (Z.eqb_neq (heapbase s) 0)), (proj2 (Z.eqb_neq (heaptop s) 0)), (proj2 (Z.ltb_ge (heaptop s) _)) by lia. cbn [orb].
  rewrite (proj2 (Z.ltb_ge (x + 8) _)), (proj2 (Z.leb_gt (heaptop s) _)) by lia. cbn [orb]. assert (Emh : u32 (x + 8 - MBLOCKSIZE) = x) by (unfold MBLOCKSIZE; rewrite wrapu_small; lia). rewrite !Emh.
  unfold kbind at 1. rewrite get_eq by lia. rewrite Hx. change (M_OK (hdr (lastn 0 l1) n true)) with true. change (mh_inuse (hdr (lastn 0 l1) n true)) with true. cbn [negb]. rewrite (size_eq _ n true x), (next_eq _ n true x) by lia.
  destruct (mark_ok s l1 l2 x n true false Hp Hc) as (s1 & E1 & R1 & Hc1 & F1). unfold kbind at 1. rewrite E1. clear E1. pose proof R1 as (Rb & Rt & Rk & Rc).
  unfold M_DATA, __malloc_deadbeef, MBLOCKSIZE. rewrite (wrapu_small 32 (x + 8)) by lia. replace ((8 * n - 8) / 8) with (n - 1) by (replace (8 * n - 8) with ((n - 1) * 8) by lia; by rewrite Z.div_mul).
  destruct (deadbeef_ok (Z.to_nat (n - 1)) (x + 8) s1) as (s2 & E2 & R2 & F2); [lia|lia|lia|lia|]. unfold kbind at 1. rewrite E2. clear E2. rewrite Z2Nat.id in F2 by lia. destruct R2 as (Rb2 & Rt2 & Rk2 & Rc2).
  assert (R2 : recell s s2) by (unfold recell; rewrite Rb2, Rt2, Rk2, Rc2; done).
  assert (Hc2 : chain (cells s2) (heapbase s2) 0 (l1 ++ mkblk x n false :: l2) (heaptop s2)).
  { rewrite Rb2, Rt2, Rb, Rt. apply (chain_cells (cells s1)); [done|]. intros b Hb. apply F2. apply elem_of_app in Hb as [Hb|Hb]; [destruct (Hb1 b Hb); pose proof (chain_bounds _ _ _ _ _ Hc) as [_ Hq]; destruct (Hq b); [by apply elem_of_app; left|lia]|].
    apply elem_of_cons in Hb as [->|Hb]; [cbn; lia|]. specialize (Hb2 b Hb). lia. }
  destruct (merge_next_ok s2 l1 l2 x n (placed_recell _ _ R2 Hp) Hc2 A2 Hl) as (s3 & n' & l2' & E3 & R3 & Hc3 & A3 & Hl3 & U3 & D3). pose proof R2 as (Qb & Qt & Qk & Qc). rewrite Qt in E3. unfold kbind at 1. rewrite E3. clear E3. destruct R3 as (Pb & Pt & Pk & Pc).
  assert (R3 : recell s s3) by (unfold recell; rewrite Pb, Pt, Pk, Pc; done). rewrite <- Pb, <- Pt in Hc3.
  destruct (merge_prev_ok s3 l1 l2' x n' (placed_recell _ _ R3 Hp) Hc3 A1 A3 Hl3) as (s4 & bs' & E4 & R4 & Hc4 & A4 & Hl4 & U4 & D4 & Hd). pose proof R3 as (Ob & Ot & Ok & Oc). rewrite Ob in E4. rewrite E4. clear E4. destruct R4 as (Nb & Nt & Nk & Nc).
  assert (R4 : recell s s4) by (unfold recell; rewrite Nb, Nt, Nk, Nc; done). exists s4, bs'. split; [done|]. split; [|split_and!; try done].
  - split; [by apply (placed_recell s)|rewrite Nk, Ok, Nt, Ot; done|by rewrite Nb, Nt|done|done].
  - by rewrite U4, U3.
  - apply (same_trans _ _ s2); [|apply (same_trans _ _ s3); [done|]].
    + intros b y Hb Hu Hy. apply elem_of_app in Hb as [Hb|Hb]; [destruct (Hb1 b Hb); rewrite F2, F1 by lia; done|]. specialize (Hb2 b Hb). rewrite F2, F1 by lia. done.
    + apply (same_sub (l1 ++ l2')); [done|]. intros b Hb Hu. rewrite elem_of_app in Hb |- *. destruct Hb as [Hb|Hb]; [by left|]. right. assert (Hin : In b (used l2')) by (rewrite U3; apply filter_In; split; [by apply list_elem_of_In|done]).
      apply filter_In in Hin as [Hin _]. by apply list_elem_of_In.
Qed.

(** ** Allocating *)

(** Where the search stands: at [a], behind the blocks [l1], with none of them fit for [size]. *)
Definition unfit (size : Z) (bs : list blk) : Prop := Forall (fun b => b_used b = false -> 8 * b_n b - 8 < size) bs.

Definition lastb (m : option Z) (bs : list blk) : option Z := match last bs with Some b => Some (b_at b) | None => m end.

Lemma search_ok size s : placed s -> forall bs fuel a mh p, chain (cells s) a p bs (heaptop s) -> heapbase s <= a -> (length bs <= fuel)%nat ->
  (exists l1 x n l2, search fuel size a mh p s = Done (inl x) s /\ bs = l1 ++ mkblk x n false :: l2 /\ size <= 8 * n - 8 /\ unfit size l1) \/
  (search fuel size a mh p s = Done (inr (heaptop s, lastb mh bs, lastn p bs)) s /\ unfit size bs).
Proof.
  intros (B1 & B2 & B3). induction bs as [|[x n u] bs IH]; intros fuel a mh p Hc Ha Hf; cbn [chain b_at b_n b_used] in Hc.
  - subst a. right. split; [|constructor]. destruct fuel; cbn [search]; unfold kbind, kget; by rewrite Z.ltb_irrefl.
  - destruct Hc as (-> & Hn & Hx & Hc). destruct (chain_bounds _ _ _ _ _ Hc) as [Hle _]. destruct fuel as [|fuel]; [cbn in Hf; lia|]. 
    assert (Estep : search (S fuel) size a mh p s = (if u then search fuel size (a + 8 * n) (Some a) n else if 8 * n - 8 <? size then search fuel size (a + 8 * n) (Some a) n else kret (inl a)) s).
    { cbn [search]. unfold kbind at 1, kget. rewrite (proj2 (Z.ltb_lt a _)) by lia. cbn [negb].
      unfold kbind. rewrite get_eq by lia. rewrite Hx. change (M_OK (hdr p n u)) with true. change (mh_prevblock (hdr p n u)) with p. change (mh_inuse (hdr p n u)) with u. change (mh_nextblock (hdr p n u)) with n.
      rewrite Z.eqb_refl. cbn [negb]. rewrite (nextoff_eq p n u a), (size_eq p n u a) by lia. by rewrite (wrapu_small 32 (a + 8 * n)) by lia. }
    rewrite Estep. clear Estep. cbn [length] in Hf.
    assert (Hnext : (u = false -> 8 * n - 8 < size) -> (exists l1 x0 n0 l2, search fuel size (a + 8 * n) (Some a) n s = Done (inl x0) s /\ mkblk a n u :: bs = l1 ++ mkblk x0 n0 false :: l2 /\ size <= 8 * n0 - 8 /\ unfit size l1) \/
              (search fuel size (a + 8 * n) (Some a) n s = Done (inr (heaptop s, lastb mh (mkblk a n u :: bs), lastn p (mkblk a n u :: bs))) s /\ unfit size (mkblk a n u :: bs))).
    { intros Hu. destruct (IH fuel (a + 8 * n) (Some a) n Hc ltac:(lia) ltac:(lia)) as [(l1 & y & n' & l2 & E & -> & Hs & Hl)|[E Hl]].
      - left. exists (mkblk a n u :: l1), y, n', l2. split_and!; try done. by constructor.
      - right. rewrite E. split; [|by constructor]. do 2 f_equal. unfold lastb. rewrite last_cons. by destruct (last bs). }
    destruct u; [by apply Hnext|]. destruct (Z.ltb_spec (8 * n - 8) size) as [Hs|Hs]; [by apply Hnext|]. left. exists [], a, n, bs. split_and!; try done. constructor.
Qed.

Lemma apart_weaken l : apart false l -> apart true l.
Proof. destruct l as [|b l]; [done|]. intros [_ H]. split; [by left|done]. Qed.

(** A block that has been taken into use, with what was split off. *)
Lemma taken_ok s l1 x n n' rest l2 : placed s -> brk s = heaptop s -> chain (cells s) (heapbase s) 0 (l1 ++ mkblk x n' true :: rest ++ l2) (heaptop s) ->
  (n' = n /\ rest = [] \/ rest = [mkblk (x + 8 * n') (n - n') false] /\ 2 <= n - n') -> apart true l1 -> apart false l2 -> 2 <= lastn n l2 ->
  heap_ok (l1 ++ mkblk x n' true :: rest ++ l2) s /\ used (l1 ++ mkblk x n' true :: rest ++ l2) ≡ₚ mkblk x n' true :: used (l1 ++ l2).
Proof.
  intros Hp Hb Hc Hr A1 A2 Hl. split.
  - split; [done|done|done| |].
    + apply apart_app. split; [done|]. cbn [apart b_used]. split; [by right|]. destruct Hr as [[_ ->]|[-> _]]; [by apply apart_weaken|]. cbn. auto.
    + rewrite lastn_app. cbn [lastn b_n]. rewrite lastn_app. destruct Hr as [[-> ->]|[-> Hn]]; cbn [lastn b_n]; [done|]. destruct l2; [cbn; lia|done].
  - rewrite !used_app. cbn [used List.filter b_used]. rewrite List.filter_app. fold (used rest) (used l2). replace (used rest) with (@nil blk) by (by destruct Hr as [[_ ->]|[-> _]]). cbn [app]. by rewrite Permutation_middle.
Qed.

(** The largest request for which the space asked for is a positive amount for [sbrk]. *)
Definition MAX_REQUEST : Z := 2 ^ 31 - 4104.

Lemma round_eq size : 0 <= size <= MAX_REQUEST -> Z.land (u32 (size + MBLOCKSIZE - 1)) (2 ^ 32 - MBLOCKSIZE) = 8 * ((size + 7) / 8).
Proof.
  unfold MAX_REQUEST. intros Hs. unfold MBLOCKSIZE. rewrite wrapu_small by lia. replace (size + 8 - 1) with (size + 7) by lia. change (2 ^ 32 - 8) with (Z.shiftl (Z.ones 29) 3).
  assert (E : Z.land (size + 7) (Z.shiftl (Z.ones 29) 3) = Z.shiftl (Z.land (Z.shiftr (size + 7) 3) (Z.ones 29)) 3).
  { apply Z.bits_inj'. intros i Hi. rewrite Z.land_spec. destruct (Z.lt_ge_cases i 3); [rewrite !Z.shiftl_spec_low by done; apply andb_false_r|].
    rewrite !Z.shiftl_spec, Z.land_spec, Z.shiftr_spec by lia. by replace (i - 3 + 3) with i by lia. }
  rewrite E, Z.land_ones, Z.shiftl_mul_pow2, Z.shiftr_div_pow2 by done. change (2 ^ 3) with 8. rewrite Z.mod_small; [lia|]. split; [apply Z.div_pos; lia|apply Z.div_lt_upper_bound; lia].
Qed.

(** Rounding up to pages. *)
Lemma pages_eq w : 0 < w <= 2 ^ 31 - 4096 -> exists q, u32 (PAGE_SIZE * (u32 (w + PAGE_SIZE - 1) / PAGE_SIZE)) = 8 * q /\ w <= 8 * q /\ 512 <= q /\ 8 * q <= 2 ^ 31 - 4096.
Proof.
  intros Hw. unfold PAGE_SIZE. rewrite (wrapu_small 32 (w + 4096 - 1)) by lia. pose proof (Z.div_mod (w + 4096 - 1) 4096 ltac:(done)). pose proof (Z.mod_pos_bound (w + 4096 - 1) 4096 ltac:(done)).
  exists (512 * ((w + 4096 - 1) / 4096)). rewrite wrapu_small by lia. lia.
Qed.

(** [sbrk] does not move the break out of the user's part of the address space; it may
    refuse any call. *)
Class SbrkLaws : Prop := moves_bound n b w : moves n b w = true -> b + w <= 2 ^ 31.

Context (HSB : SbrkLaws).

Lemma malloc_sbrk_ok w s : 0 < brk s -> brk s = heaptop s -> 0 <= w < 2 ^ 31 -> exists s', cells s' = cells s /\ heapbase s' = heapbase s /\ brk s' = heaptop s' /\
  ((__malloc_sbrk w s = Done None s' /\ heaptop s' = heaptop s) \/ (__malloc_sbrk w s = Done (Some (heaptop s)) s' /\ heaptop s' = heaptop s + w /\ heaptop s + w <= 2 ^ 31)).
Proof.
  intros H0 Hb Hw. unfold __malloc_sbrk. rewrite wraps_small by lia. unfold sbrk, kbind. destruct (moves (calls s) (brk s) w) eqn:E.
  - pose proof (moves_bound _ _ _ E) as Hle. cbn [kget heaptop]. rewrite Hb, Z.eqb_refl. cbn [negb kmodify kret set_bounds heaptop heapbase cells brk calls]. rewrite !wrapu_small by lia. eexists. split; [|split; [|split; [|right; split; [reflexivity|split; [reflexivity|lia]]]]]; reflexivity.
  - eexists. split; [|split; [|split; [|left; split; reflexivity]]]; done.
Qed.

(** Split a block in use off a bigger one. *)
Lemma split_used s l1 l2 x n k : placed s -> brk s = heaptop s -> chain (cells s) (heapbase s) 0 (l1 ++ mkblk x n true :: l2) (heaptop s) -> 1 <= k <= n -> apart true l1 -> apart false l2 -> 2 <= lastn n l2 ->
  exists s' n' bs', (__malloc_split x (8 * k - 8) ;;; kret (Some (M_DATA x))) s = Done (Some (x + 8)) s' /\ heap_ok bs' s' /\ used bs' ≡ₚ mkblk x n' true :: used (l1 ++ l2) /\ k <= n' /\
    forall y, y < x \/ x + 8 * n < y -> cells s' y = cells s y.
Proof.
  intros Hp Hb Hc Hk A1 A2 Hl. destruct (split_ok s l1 l2 x n true k Hp Hc Hk) as (s' & n' & rest & E & (R1 & R2 & R3 & R4) & Hn' & Hr & Hc' & Hf).
  destruct (chain_around _ _ _ _ _ _ Hc) as (_ & Hn & Hx1 & Hx2 & _). pose proof Hp as (B1 & B2 & B3). exists s', n', (l1 ++ mkblk x n' true :: rest ++ l2). unfold kbind. rewrite E. rewrite <- R1, <- R2 in Hc'.
  destruct (taken_ok s' l1 x n n' rest l2) as [Hok Hu]; [by apply (placed_recell s)|by rewrite R3, R2|done..|]. split_and!; try done. unfold M_DATA, MBLOCKSIZE. by rewrite wrapu_small by lia.
Qed.

Lemma lastb_snoc m l b : lastb m (l ++ [b]) = Some (b_at b).
Proof. unfold lastb. by rewrite last_snoc. Qed.

(** What an allocation does: it fails and leaves the blocks alone, or adds a block in use. *)
Definition allocated (k : Z) (bs : list blk) (s : heap) (r : outcome heap (option Z)) : Prop :=
  (exists s', r = Done None s' /\ heap_ok bs s' /\ cells s' = cells s) \/
  (exists x n s' bs', r = Done (Some (x + 8)) s' /\ heap_ok bs' s' /\ used bs' ≡ₚ mkblk x n true :: used bs /\ k <= n /\ same_data bs s s').

(** The top block is free and grows. *)
Lemma grow_ok s l1 a n k : heap_ok (l1 ++ [mkblk a n false]) s -> 1 <= k <= 2 ^ 28 - 512 -> n < k ->
  allocated k (l1 ++ [mkblk a n false]) s (expand (8 * k - 8) (Some a) (lastn 0 (l1 ++ [mkblk a n false])) s).
Proof.
  intros Hok Hk Hnk. pose proof Hok as [Hp Hb Hc Ha Hl]. pose proof Hp as (B1 & B2 & B3). destruct (chain_around _ _ _ _ _ _ Hc) as (Hx & Hn & Hx1 & _ & Ht & _ & Hb1 & _). specialize (proj2 Ht eq_refl) as Htop.
  apply apart_app in Ha as [A1 [A2 _]]. destruct (pages_eq (8 * (k - n)) ltac:(lia)) as (q & Eq & Hq1 & Hq2 & Hq3).
  assert (E1 : expand (8 * k - 8) (Some a) (lastn 0 (l1 ++ [mkblk a n false])) s =
    (p <- __malloc_sbrk (8 * q) ;; match p with None => kret None | Some p => modify a (set_next (M_MKFIELD (u32 (8 * n + 8 * q)))) ;;; modify a (set_inuse true) ;;; __malloc_split a (8 * k - 8) ;;; kret (Some (M_DATA a)) end) s).
  { unfold expand, top_free. unfold kbind at 1. unfold kbind at 1. rewrite get_eq by lia. rewrite Hx. change (mh_inuse (hdr (lastn 0 l1) n false)) with false. unfold kret at 1. rewrite (size_eq _ n false a) by lia.
    rewrite (proj2 (Z.ltb_lt _ _)) by lia. unfold kbind at 1. unfold kassert. unfold kbind at 1. unfold kret at 1 2. replace (8 * k - 8 - (8 * n - 8)) with (8 * (k - n)) by lia. rewrite (wrapu_small 32 (8 * (k - n))) by lia. cbv zeta. rewrite Eq.
    rewrite (nextoff_eq _ n false a) by lia.
    unfold kbind. destruct (__malloc_sbrk (8 * q) s) as [[p|] t|e t|h]; [|done..]. destruct (modify a _ t) as [? t1| |]; [|done..]. by destruct (modify a _ t1). }
  rewrite E1. clear E1. destruct (malloc_sbrk_ok (8 * q) s ltac:(lia) Hb ltac:(lia)) as (s1 & C1 & Rb & Rk & [[E Rt]|(E & Rt & Hle)]); unfold kbind at 1; rewrite E.
  - left. exists s1. split; [done|]. split; [|done]. split; [by unfold placed; rewrite Rb, Rt|done|by rewrite C1, Rb, Rt|apply Hok|done].
  - right. replace (8 * n + 8 * q) with (8 * (n + q)) by lia. rewrite (wrapu_small 32 (8 * (n + q))), field_eq by lia. unfold kbind at 1. rewrite modify_eq by lia. rewrite C1, Hx. set (s2 := put_cell a _ s1). unfold kbind at 1. rewrite modify_eq by (cbn; lia). unfold s2 at 1. rewrite cell_eq. change (set_inuse true (set_next (n + q) (hdr (lastn 0 l1) n false))) with (hdr (lastn 0 l1) (n + q) true).
    set (s3 := put_cell a _ s2). assert (F : forall z, z <> a -> cells s3 z = cells s z) by (intros z Hz; unfold s3, s2; by rewrite !cell_ne, C1).
    assert (Hc3 : chain (cells s3) (heapbase s3) 0 (l1 ++ [mkblk a (n + q) true]) (heaptop s3)).
    { change (heapbase s3) with (heapbase s1). change (heaptop s3) with (heaptop s1). rewrite Rb, Rt. apply chain_app in Hc as (mid & Hc1 & Hc2). cbn [chain b_at b_n] in Hc2. destruct Hc2 as (<- & _). apply chain_app. exists a. split.
      - apply (chain_cells (cells s)); [done|]. intros b Hb'. destruct (Hb1 b Hb'). pose proof (proj2 (chain_bounds _ _ _ _ _ Hc1) b Hb'). apply F. lia.
      - cbn [chain b_at b_n b_used]. split_and!; [done|lia|unfold s3; by rewrite cell_eq|lia]. }
    destruct (split_used s3 l1 [] a (n + q) k) as (s' & n' & bs' & E' & Hok' & Hu & Hn' & Hf); [| | |lia|done|done|cbn; lia|].
    { unfold placed. change (heapbase s3) with (heapbase s1). change (heaptop s3) with (heaptop s1). rewrite Rb, Rt. split_and!; [done|done|lia|lia]. }
    { exact Rk. }
    { exact Hc3. }
    exists a, n', s', bs'. split; [exact E'|]. split; [done|]. split; [|split; [done|]].
    + rewrite Hu, !used_app. done.
    + intros b y Hb' Hub Hy. apply elem_of_app in Hb' as [Hb'|Hb']; [|apply list_elem_of_singleton in Hb' as ->; done]. destruct (Hb1 b Hb'). rewrite Hf, F by lia. done.
Qed.

(** There is no free block at the top: a new one. *)
Lemma new_ok s bs mh k : heap_ok bs s -> 1 <= k <= 2 ^ 28 - 512 -> lastu true bs = true -> top_free mh s = Done None s ->
  allocated k bs s (expand (8 * k - 8) mh (lastn 0 bs) s).
Proof.
  intros Hok Hk Hlu Hmh. pose proof Hok as [Hp Hb Hc Ha Hl]. pose proof Hp as (B1 & B2 & B3). destruct (pages_eq (8 * k) ltac:(lia)) as (q & Eq & Hq1 & Hq2 & Hq3). destruct (chain_bounds _ _ _ _ _ Hc) as [_ Hbs].
  assert (E1 : expand (8 * k - 8) mh (lastn 0 bs) s =
    (p <- __malloc_sbrk (8 * q) ;; match p with None => kret None | Some p => UMalloc.set p (hdr (lastn 0 bs) (M_MKFIELD (8 * q)) true) ;;; __malloc_split p (8 * k - 8) ;;; kret (Some (M_DATA p)) end) s).
  { unfold expand. unfold kbind at 1. rewrite Hmh. unfold kbind at 1. unfold kret at 1. assert (Em : u32 (MBLOCKSIZE + (8 * k - 8)) = 8 * k) by (unfold MBLOCKSIZE; rewrite wrapu_small; lia). cbv zeta. rewrite !Em, !Eq.
    unfold kbind. destruct (__malloc_sbrk (8 * q) s) as [[p|] t|e t|h]; [|done..]. unfold hdr. by destruct (UMalloc.set p _ t). }
  rewrite E1. clear E1. rewrite field_eq by lia. destruct (malloc_sbrk_ok (8 * q) s ltac:(lia) Hb ltac:(lia)) as (s1 & C1 & Rb & Rk & [[E Rt]|(E & Rt & Hle)]); unfold kbind at 1; rewrite E.
  - left. exists s1. split; [done|]. split; [|done]. split; [by unfold placed; rewrite Rb, Rt|done|by rewrite C1, Rb, Rt|done|done].
  - right. unfold kbind at 1. rewrite set_eq by lia. set (x := heaptop s) in *. set (s2 := put_cell x _ s1). assert (F : forall z, z <> x -> cells s2 z = cells s z) by (intros z Hz; unfold s2; by rewrite cell_ne, C1).
    assert (Hc2 : chain (cells s2) (heapbase s2) 0 (bs ++ [mkblk x q true]) (heaptop s2)).
    { change (heapbase s2) with (heapbase s1). change (heaptop s2) with (heaptop s1). rewrite Rb, Rt. apply chain_app. exists x. split.
      - apply (chain_cells (cells s)); [done|]. intros b Hb'. destruct (Hbs b Hb'). apply F. lia.
      - cbn [chain b_at b_n b_used]. split_and!; [done|lia|unfold s2; by rewrite cell_eq|done]. }
    destruct (split_used s2 bs [] x q k) as (s' & n' & bs' & E' & Hok' & Hu & Hn' & Hf); [|exact Rk|exact Hc2|lia|done|done|cbn; lia|].
    { unfold placed. change (heapbase s2) with (heapbase s1). change (heaptop s2) with (heaptop s1). rewrite Rb, Rt. split_and!; [done|done|lia|lia]. }
    exists x, n', s', bs'. split; [exact E'|]. split; [done|]. split; [by rewrite Hu, app_nil_r|]. split; [done|]. intros b y Hb' Hub Hy. destruct (Hbs b Hb'). rewrite Hf, F by lia. done.
Qed.

Lemma lastu_snoc u l b : lastu u (l ++ [b]) = b_used b.
Proof. revert u. induction l as [|c l IH]; intros u; cbn; [done|apply IH]. Qed.

Lemma malloc_ok size bs s : heap_ok bs s -> 0 <= size <= MAX_REQUEST -> let k := (size + 7) / 8 + 1 in
  allocated k bs s (malloc size s) /\ ((exists b, b ∈ bs /\ b_used b = false /\ k <= b_n b) -> forall s', malloc size s <> Done None s').
Proof.
  intros Hok Hs k. pose proof Hok as [Hp Hb Hc Ha Hl]. pose proof Hp as (B1 & B2 & B3). pose proof (chain_length _ _ _ _ _ Hc) as Hlen.
  assert (Hk : 1 <= k <= 2 ^ 28 - 512) by (unfold k, MAX_REQUEST in *; pose proof (Z.div_pos (size + 7) 8 ltac:(lia) ltac:(lia)); pose proof (Z.div_lt_upper_bound (size + 7) 8 (2 ^ 28 - 512) ltac:(lia) ltac:(lia)); lia).
  assert (E : malloc size s = (r <- search (search_fuel s) (8 * k - 8) (heapbase s) None 0 ;;
      match r with
      | inl mh => __malloc_split mh (8 * k - 8) ;;; modify mh (set_inuse true) ;;; kret (Some (M_DATA mh))
      | inr (i, mh, rightprevblock) => if negb (i =? heaptop s) then errx else expand (8 * k - 8) mh rightprevblock
      end) s).
  { unfold malloc. unfold kbind at 1, kget at 1. rewrite (proj2 (Z.eqb_neq (heapbase s) 0)) by lia. unfold kbind at 1, kret at 1. unfold kbind at 1, kget at 1.
    rewrite (proj2 (Z.eqb_neq (heapbase s) 0)), (proj2 (Z.eqb_neq (heaptop s) 0)), (proj2 (Z.ltb_ge _ _)) by lia. cbn [orb]. rewrite round_eq by lia. by replace (8 * ((size + 7) / 8)) with (8 * k - 8) by lia. }
  rewrite E. clear E. destruct (search_ok (8 * k - 8) s Hp bs (search_fuel s) (heapbase s) None 0 Hc ltac:(lia)) as [(l1 & x & n & l2 & E & -> & Hsz & Hun)|[E Hun]].
  { unfold search_fuel, MBLOCKSIZE. apply Nat2Z.inj_le. rewrite Z2Nat.id by (apply Z.div_pos; lia). apply Z.div_le_lower_bound; lia. }
  - rewrite (kbind_done _ _ _ _ _ E). clear E. apply apart_app in Ha as [A1 [A2 A3]]. cbn [b_used] in A2, A3. rewrite lastn_app in Hl. cbn [lastn b_n] in Hl. destruct (chain_around _ _ _ _ _ _ Hc) as (_ & Hn & Hx1 & Hx2 & _ & _ & Hb1 & Hb2).
    destruct (split_ok s l1 l2 x n false k Hp Hc ltac:(lia)) as (s1 & n' & rest & E1 & R1 & Hn' & Hr & Hc1 & F1). destruct R1 as (Rb & Rt & Rk & Rc). rewrite <- Rb, <- Rt in Hc1.
    assert (Hp1 : placed s1) by (apply (placed_recell s); done). destruct (mark_ok s1 l1 (rest ++ l2) x n' false true Hp1 Hc1) as (s2 & E2 & R2 & Hc2 & F2). destruct R2 as (Qb & Qt & Qk & Qc). rewrite <- Qb, <- Qt in Hc2.
    assert (Emod : (__malloc_split x (8 * k - 8) ;;; modify x (set_inuse true) ;;; kret (Some (M_DATA x))) s = Done (Some (x + 8)) s2).
    { unfold kbind. rewrite E1, E2. unfold M_DATA, MBLOCKSIZE. by rewrite wrapu_small by lia. }
    rewrite Emod. split; [|done]. right. destruct (taken_ok s2 l1 x n n' rest l2) as [Hok2 Hu]; [by apply (placed_recell s1)|by rewrite Qk, Rk, Qt, Rt|done..|].
    eexists x, n', s2, _. split; [done|]. split; [exact Hok2|]. split; [rewrite Hu; by rewrite !used_app|]. split; [done|].
    intros b y Hb' Hub Hy. apply elem_of_app in Hb' as [Hb'|Hb']; [destruct (Hb1 b Hb'); rewrite F2, F1 by lia; done|]. apply elem_of_cons in Hb' as [->|Hb']; [done|]. specialize (Hb2 b Hb'). rewrite F2, F1 by lia. done.
  - rewrite (kbind_done _ _ _ _ _ E). clear E. rewrite Z.eqb_refl. cbn [negb]. unfold unfit in Hun. split.
    2: { intros (b & Hb' & Hu & Hn). rewrite Forall_forall in Hun. specialize (Hun b Hb' Hu). lia. }
    destruct bs as [|[a n u] l1 _] using rev_ind; [by apply new_ok|]. rewrite lastb_snoc. cbn [b_at]. destruct u.
    + apply new_ok; [done|done|by rewrite lastu_snoc|]. destruct (chain_around _ _ _ _ _ _ Hc) as (Hx & Hn & Hx1 & Hx2 & _). unfold top_free, kbind. rewrite get_eq by lia. by rewrite Hx.
    + apply grow_ok; [done|done|]. apply Forall_app in Hun as [_ Hun]. apply Forall_cons in Hun as [Hun _]. specialize (Hun eq_refl). cbn [b_n] in Hun. lia.
Qed.

(** ** Programs that use the heap *)

(** Before the first call. *)
Definition fresh (s : heap) : Prop := heapbase s = 0 /\ heaptop s = 0 /\ 0 < brk s <= 2 ^ 31 /\ brk s mod 8 = 0.

(** The first call of [sbrk], which asks for the break, may fail; the program then ends. *)
Definition no_break (s : heap) : Prop := fresh s /\ moves (calls s) (brk s) 0 = false.

Lemma malloc_no_break size s : no_break s -> malloc size s = Halt PanicCall.
Proof.
  intros [(Hb & Ht & _) Hm]. unfold malloc. unfold kbind at 1, kget at 1. rewrite Hb. cbn [Z.eqb]. unfold kbind at 1, __malloc_init.
  unfold kbind at 1, kget. rewrite Hb, Ht. cbn [Z.eqb negb orb]. unfold kbind at 1, sbrk. by rewrite Hm.
Qed.

Lemma malloc_init_ok size s : fresh s -> moves (calls s) (brk s) 0 = true -> exists s', heap_ok [] s' /\ cells s' = cells s /\ malloc size s = malloc size s'.
Proof.
  intros (Hb & Ht & Hk & Ha) Hm. set (s1 := mkheap (cells s) (heapbase s) (heaptop s) (u32 (brk s + 0)) (S (calls s))). exists (set_bounds (brk s) (brk s) s1).
  assert (Einit : __malloc_init s = Done tt (set_bounds (brk s) (brk s) s1)).
  { unfold __malloc_init. unfold kbind at 1, kget. rewrite Hb, Ht. cbn [Z.eqb negb orb]. unfold kbind at 1, sbrk. rewrite Hm. rewrite (proj2 (Z.eqb_neq (brk s) 0)) by lia. unfold kbind, kmodify, MBLOCKSIZE. rewrite Ha. reflexivity. }
  split; [|split; [done|]].
  - split; [| |done|done|done]; unfold placed; cbn [set_bounds s1 heapbase heaptop brk]; [lia|]. rewrite wrapu_small; lia.
  - unfold malloc. unfold kbind at 1, kget at 1. rewrite Hb, Z.eqb_refl. rewrite (kbind_done _ _ _ _ _ Einit). symmetry. unfold kbind at 1, kget at 1. cbn [set_bounds heapbase]. rewrite (proj2 (Z.eqb_neq (brk s) 0)) by lia. reflexivity.
Qed.

(** The blocks a program holds, as pointers and sizes. *)
Inductive reach : heap -> list (Z * Z) -> Prop :=
| reach_fresh s : fresh s -> reach s []
| reach_malloc s live size p s' : reach s live -> 0 <= size <= MAX_REQUEST -> malloc size s = Done (Some p) s' -> reach s' ((p, size) :: live)
| reach_null s live size s' : reach s live -> 0 <= size <= MAX_REQUEST -> malloc size s = Done None s' -> reach s' live
| reach_free s l1 p n l2 s' : reach s (l1 ++ (p, n) :: l2) -> free p s = Done tt s' -> reach s' (l1 ++ l2)
| reach_store s live p n y h : reach s live -> (p, n) ∈ live -> p <= y < p + n -> reach (put_cell y h s) live.

Definition fits (x : Z * Z) (b : blk) : Prop := fst x = b_at b + 8 /\ 0 <= snd x <= 8 * b_n b - 8.

Definition tracks (live : list (Z * Z)) (bs : list blk) : Prop := exists ubs, ubs ≡ₚ used bs /\ Forall2 fits live ubs.

Definition same_live (live : list (Z * Z)) (s s' : heap) : Prop := forall p n y, (p, n) ∈ live -> p <= y < p + n -> cells s' y = cells s y.

Lemma used_elem bs b : b ∈ used bs <-> b ∈ bs /\ b_used b = true.
Proof. unfold used. rewrite !list_elem_of_In. apply filter_In. Qed.

Lemma tracks_elem live bs p n : tracks live bs -> (p, n) ∈ live -> exists b, b ∈ bs /\ b_used b = true /\ fits (p, n) b.
Proof.
  intros (ubs & Hu & Hf) [i Hi]%list_elem_of_lookup. destruct (Forall2_lookup_l _ _ _ _ _ Hf Hi) as (b & Hb & Hfit). exists b.
  apply list_elem_of_lookup_2 in Hb. rewrite Hu in Hb. apply used_elem in Hb as [H1 H2]. done.
Qed.

Lemma tracks_same live bs s s' : tracks live bs -> same_data bs s s' -> same_live live s s'.
Proof. intros Ht Hs p n y Hin Hy. destruct (tracks_elem _ _ _ _ Ht Hin) as (b & Hb & Hu & [E H]). cbn [fst snd] in E, H. apply (Hs b); [done|done|lia]. Qed.

(** Take one of the blocks. *)
Lemma tracks_split l1 p n l2 bs : tracks (l1 ++ (p, n) :: l2) bs ->
  exists L1 b L2, bs = L1 ++ b :: L2 /\ b_used b = true /\ fits (p, n) b /\ tracks (l1 ++ l2) (L1 ++ L2).
Proof.
  intros (ubs & Hu & Hf). apply Forall2_app_inv_l in Hf as (u1 & u2' & Hf1 & Hf2 & ->). apply Forall2_cons_inv_l in Hf2 as (b & u2 & Hb & Hf2 & ->).
  assert (Hin : b ∈ used bs) by (rewrite <- Hu; apply elem_of_app; right; by left). apply used_elem in Hin as [Hin Hub]. apply list_elem_of_split in Hin as (L1 & L2 & ->).
  exists L1, b, L2. split_and!; try done; [apply Hb..|]. exists (u1 ++ u2). split; [|by apply Forall2_app]. rewrite !used_app in Hu |- *. cbn [used List.filter] in Hu. rewrite Hub in Hu. fold (used L2) in Hu.
  rewrite <- !Permutation_middle in Hu. by apply Permutation_cons_inv in Hu.
Qed.

Lemma store_heap_ok bs s b y h : heap_ok bs s -> b ∈ bs -> b_at b < y < b_at b + 8 * b_n b -> heap_ok bs (put_cell y h s).
Proof.
  intros [Hp Hb Hc Ha Hl] Hin Hy. split; try done. apply list_elem_of_split in Hin as (L1 & L2 & ->). destruct b as [x n u]. destruct (chain_around _ _ _ _ _ _ Hc) as (_ & Hn & _ & _ & _ & _ & Hb1 & Hb2). cbn [b_at b_n] in Hy.
  apply (chain_cells (cells s)); [done|]. intros b Hb'. apply cell_ne. pose proof (proj2 (chain_bounds _ _ _ _ _ Hc) b Hb') as Hq. apply elem_of_app in Hb' as [Hb'|[->|Hb']%elem_of_cons]; [specialize (Hb1 b Hb')|cbn [b_at]|specialize (Hb2 b Hb')]; lia.
Qed.

(** Every state is a well-formed heap with exactly the blocks of the program in use. *)
Lemma reach_heap_ok s live : reach s live -> (fresh s /\ live = []) \/ exists bs, heap_ok bs s /\ tracks live bs.
Proof.
  assert (Hm : forall s live size p s', (fresh s /\ live = []) \/ (exists bs, heap_ok bs s /\ tracks live bs) -> 0 <= size <= MAX_REQUEST -> malloc size s = Done p s' ->
            exists bs, heap_ok bs s' /\ tracks (match p with Some p => (p, size) :: live | None => live end) bs).
  { intros s0 live0 size p s' H Hs E. assert (H' : exists s1 bs, heap_ok bs s1 /\ tracks live0 bs /\ malloc size s1 = Done p s').
    { destruct H as [[Hf ->]|(bs & Hok & Ht)]; [|by exists s0, bs]. destruct (moves (calls s0) (brk s0) 0) eqn:Em; [|by rewrite malloc_no_break in E].
      destruct (malloc_init_ok size s0 Hf Em) as (s1 & Hok & _ & E1). exists s1, []. split; [done|]. split; [by exists []|congruence]. }
    destruct H' as (s1 & bs & Hok & (ubs & Hu & Hf) & E1). destruct (malloc_ok size bs s1 Hok Hs) as [[(s2 & E2 & Hok2 & _)|(x & n & s2 & bs2 & E2 & Hok2 & Hu2 & Hk & _)] _]; rewrite E1 in E2; injection E2 as -> ->.
    - exists bs. split; [done|]. by exists ubs.
    - exists bs2. split; [done|]. exists (mkblk x n true :: ubs). split; [by rewrite Hu2, Hu|]. constructor; [|done]. split; cbn [fst snd b_at b_n]; [done|]. pose proof (Z.div_mod (size + 7) 8 ltac:(done)). pose proof (Z.mod_pos_bound (size + 7) 8 ltac:(done)). lia. }
  induction 1 as [s Hf|s live size p s' _ IH Hs E|s live size s' _ IH Hs E|s l1 p n l2 s' _ IH E|s live p n y h _ IH Hin Hy].
  - by left.
  - right. exact (Hm s live size (Some p) s' IH Hs E).
  - right. exact (Hm s live size None s' IH Hs E).
  - right. destruct IH as [[_ Hl]|(bs & Hok & Ht)]; [by destruct l1|]. destruct (tracks_split _ _ _ _ _ Ht) as (L1 & [x k u] & L2 & -> & Hub & [Ep Hn] & Ht'). cbn [b_used b_at b_n fst snd] in Hub, Ep, Hn. subst u p.
    destruct (free_ok s L1 L2 x k Hok) as (s2 & bs' & E2 & Hok2 & Hu & _). rewrite E in E2. injection E2 as ->. exists bs'. split; [done|]. destruct Ht' as (ubs & Hub & Hf). exists ubs. split; [|done]. by rewrite Hu, Hub, used_app.
  - destruct IH as [[_ ->]|(bs & Hok & Ht)]; [by apply not_elem_of_nil in Hin|]. right. exists bs. split; [|done]. destruct (tracks_elem _ _ _ _ Ht Hin) as (b & Hb & _ & [Ep Hn]). cbn [fst snd] in Ep, Hn. apply (store_heap_ok bs s b); [done|done|lia].
Qed.

(** A second [free] of the same pointer ends the program. *)
Lemma free_again s x : placed s -> heapbase s <= x -> x + 8 < heaptop s -> mh_inuse (cells s x) = false \/ cells s x = DEADBEEF -> free (x + 8) s = Halt PanicCall.
Proof.
  intros (B1 & B2 & B3) H1 H2 Hd. unfold free. rewrite (proj2 (Z.eqb_neq (x + 8) 0)) by lia. unfold kbind at 1, kget. rewrite (proj2 (Z.eqb_neq (heapbase s) 0)), (proj2 (Z.eqb_neq (heaptop s) 0)), (proj2 (Z.ltb_ge (heaptop s) _)) by lia. cbn [orb].
  rewrite (proj2 (Z.ltb_ge (x + 8) _)), (proj2 (Z.leb_gt (heaptop s) _)) by lia. cbn [orb]. assert (Emh : u32 (x + 8 - MBLOCKSIZE) = x) by (unfold MBLOCKSIZE; rewrite wrapu_small; lia). rewrite !Emh.
  unfold kbind at 1. rewrite get_eq by lia. destruct Hd as [Hd|Hd]; rewrite Hd; [|done]. by destruct (M_OK (cells s x)).
Qed.

Lemma tracks_apart s bs l1 p n l2 : heap_ok bs s -> tracks (l1 ++ (p, n) :: l2) bs -> forall q m, (q, m) ∈ l1 ++ l2 -> p + n <= q \/ q + m <= p.
Proof.
  intros Hok Ht q m Hin. destruct (tracks_split _ _ _ _ _ Ht) as (L1 & [x k u] & L2 & -> & _ & [Ep Hn] & Ht'). cbn [b_at b_n fst snd] in Ep, Hn.
  destruct (tracks_elem _ _ _ _ Ht' Hin) as (b & Hb & _ & [Eq Hm]). cbn [fst snd] in Eq, Hm. destruct (chain_around _ _ _ _ _ _ (ok_chain _ _ Hok)) as (_ & _ & _ & _ & _ & _ & Hb1 & Hb2).
  apply elem_of_app in Hb as [Hb|Hb]; [specialize (Hb1 b Hb)|specialize (Hb2 b Hb)]; lia.
Qed.

End Blocks.

(** C33. The heap of user programs, over a kernel whose [sbrk] does what its manual page says:
    it returns the old break, or refuses, as often as it likes, and does not move the break
    out of the user's part of the address space. For every program that asks for at most
    2^31 - 4104 bytes at a time, frees only what it holds and writes only to what it holds:
    the blocks it holds do not overlap; [malloc] returns a block or NULL, and [free] of a
    block it holds returns, without any of the checks of the heap failing; both leave the
    contents of all other blocks alone; and [free] of the same pointer again is caught. The
    one exception is a program whose first call of [sbrk], which asks where the break is, is
    refused: its first [malloc] ends it. (This repository's kernel has no [sbrk] and answers
    ENOSYS, so there every program that calls [malloc] ends so.) *)
Theorem umalloc_safe {SB : Sbrk} (HSB : SbrkLaws) (s : heap) (live : list (Z * Z)) (HR : reach s live) :
  (forall l1 p n l2 q m, live = l1 ++ (p, n) :: l2 -> (q, m) ∈ l1 ++ l2 -> p + n <= q \/ q + m <= p) /\
  (forall size, 0 <= size <= MAX_REQUEST ->
     (exists r s', malloc size s = Done r s' /\ same_live live s s') \/ (no_break s /\ malloc size s = Halt PanicCall)) /\
  (forall l1 p n l2, live = l1 ++ (p, n) :: l2 -> exists s', free p s = Done tt s' /\ same_live (l1 ++ l2) s s' /\ free p s' = Halt PanicCall).
Proof.
  destruct (reach_heap_ok HSB s live HR) as [[Hf ->]|(bs & Hok & Ht)].
  - split_and!; [by intros []| |by intros []]. intros size Hs. destruct (moves (calls s) (brk s) 0) eqn:Em; [left|right; split; [done|by apply malloc_no_break]].
    destruct (malloc_init_ok size s Hf Em) as (s1 & Hok & C1 & ->).
    destruct (malloc_ok HSB size [] s1 Hok Hs) as [[(s2 & -> & _)|(x & n & s2 & bs2 & -> & _)] _]; eexists _, s2; (split; [done|]); by intros p m y []%not_elem_of_nil.
  - split_and!.
    + intros l1 p n l2 q m ->. by apply (tracks_apart s bs).
    + intros size Hs. left. destruct (malloc_ok HSB size bs s Hok Hs) as [[(s2 & -> & _ & C)|(x & n & s2 & bs2 & -> & _ & _ & _ & Hd)] _]; eexists _, s2; (split; [done|]); [intros p m y _ _; by rewrite C|by apply (tracks_same live bs)].
    + intros l1 p n l2 ->. destruct (tracks_split _ _ _ _ _ Ht) as (L1 & [x k u] & L2 & -> & Hub & [Ep Hn] & Ht'). cbn [b_used b_at b_n fst snd] in Hub, Ep, Hn. subst u p.
      destruct (free_ok s L1 L2 x k Hok) as (s' & bs' & E & Hok' & _ & Hd & (R1 & R2 & _) & H1 & H2 & Hdead). exists s'. split; [done|]. split; [by apply (tracks_same _ (L1 ++ L2))|].
      apply free_again; [apply Hok'|lia|lia|done].
Qed.

(** A heap that begins at 0x10000, of up to 2 GB. *)
Definition demo_sbrk : Sbrk := fun _ b w => (0x10000 <=? b + w) && (b + w <=? 2 ^ 31).

Definition demo_heap : heap := mkheap (fun _ => DEADBEEF) 0 0 0x10000 0.

Definition demo_after : heap := match malloc (SB := demo_sbrk) 10 demo_heap with Done _ s => s | _ => demo_heap end.

Lemma umalloc_safe_witness : exists s', free 0x10008 demo_after = Done tt s' /\ free 0x10008 s' = Halt PanicCall.
Proof.
  assert (HSB : @SbrkLaws demo_sbrk) by (intros n b w [_ H]%andb_true_iff; by apply Z.leb_le in H).
  assert (HR : reach (SB := demo_sbrk) demo_after [(0x10008, 10)]).
  { apply (reach_malloc (SB := demo_sbrk) demo_heap [] 10); [apply reach_fresh; vm_compute; split_and!; congruence|unfold MAX_REQUEST; lia|vm_compute; reflexivity]. }
  destruct (umalloc_safe HSB demo_after [(0x10008, 10)] HR) as (_ & _ & Hfree). destruct (Hfree [] 0x10008 10 [] eq_refl) as (s' & E & _ & E'). exists s'. exact (conj E E').
Defined.

(** Sizes just below 2^32 wrap around. The largest ones are rounded to 0, and [malloc] hands
    out a block without room for a byte; for those below, the space to be asked for is 0, and
    [malloc] fills in a header behind the end of the heap. *)
Example malloc_wraps : match malloc (SB := demo_sbrk) (2 ^ 32 - 1) demo_heap with Done p s => Some (p, M_SIZE (cells s 0x10000)) | _ => None end = Some (Some 0x10008, 0).
Proof. vm_compute. reflexivity. Qed.

Example malloc_outside : malloc (SB := demo_sbrk) (2 ^ 32 - 8) demo_heap = Halt OutOfBounds.
Proof. vm_compute. reflexivity. Qed.

(** Large requests below those are a negative amount for [sbrk]: here the break moves down by a
    page, below a block in use, and the block that was to grow is outside the heap. *)
Example malloc_shrinks : malloc (SB := demo_sbrk) (2 ^ 32 - 4104) (match malloc (SB := demo_sbrk) 4000 demo_heap with Done _ s => s | _ => demo_heap end) = Halt OutOfBounds.
Proof. vm_compute. reflexivity. Qed.
