(* ===== verification/Shell.v ===== *)
(** * The shell, userland/bin/sh/sh.c

    The program that the kernel runs first: it reads lines, starts programs, waits for them,
    and keeps a table of the jobs in the background. The system calls it makes are an
    interface ([Unix]); a string is the list of its bytes, and splitting a line into words
    is what [strtok] does (CString.v). [Halt KAssert] is a failed [assert]. *)

From stdpp Require Import base numbers functions list gmap.
From Stdlib Require Import ZArith Lia.
From stdpp Require Import list_relations.
From S2P Require Import Prelude KState ProcSyscalls CString Printf KLib.

Open Scope Z_scope.
Open Scope k_scope.

Abbreviation string := (list Z).

(** The system calls of a process. [spawn] is [fork] as the parent sees it, together with
    what the child does next: [execvp] and, if that fails, [_exit(1)]. *)
Class Unix (W : Type) := {
  spawn : list string -> W -> Z * W;
  waitpid : Z -> Z -> W -> Z * Z * W;
  chdir : string -> W -> bool * W;
  time : W -> option (Z * Z) * W
}.

(** What is printed, one constructor per message. *)
Inductive msg :=
| Prompt | BadStatus (status : Z) | Pid (pid : Z) | Exit (v : Z) | Signal (v : Z) | Core (v : Z) | Stopped (v : Z)
| Warn (what : string) | WarnPid (pid : Z) | Usage (what : string) | TooManyArgs (cmd : string) | TooManyJobs (cmd : string)
| Started (pid : Z) (cmd : string) | Elapsed (secs nsecs : Z).

(** userland/bin/sh/sh.c:61-67 (exitinfo). *)
Record exitinfo := mkei { val : Z; signaled : bool; stopped : bool; coredump : bool }.

(** userland/bin/sh/sh.c:55-55 (NARG_MAX). *)
Definition NARG_MAX : nat := 1024.

(** userland/bin/sh/sh.c:59-59 (CMDLINE_MAX). *)
Definition CMDLINE_MAX : Z := 4096.

(** userland/bin/sh/sh.c:73-73 (MAXBG). *)
Definition MAXBG : nat := 128.

(** kern/include/kern/wait.h:66-66 (WIFSIGNALED). *)
Definition WIFSIGNALED (x : Z) : bool := (WWHAT x =? 1) || (WWHAT x =? 2).

(** kern/include/kern/wait.h:71-71 (WCOREDUMP). *)
Definition WCOREDUMP (x : Z) : bool := WWHAT x =? 2.

(** kern/include/kern/wait.h:67-67 (WIFSTOPPED). *)
Definition WIFSTOPPED (x : Z) : bool := WWHAT x =? 3.

Section Shell.
Context {W : Type} {U : Unix W}.

(** userland/bin/sh/sh.c:69-74 (timing, bgpids), the output, and the rest of the system. *)
Record shell := mksh { timing : bool; bgpids : list Z; out : list msg; world : W }.
Local Abbreviation M := (K shell).

Definition print (x : msg) : M unit := kmodify (fun s => mksh (timing s) (bgpids s) (out s ++ [x]) (world s)).
Definition set_bg (i : nat) (pid : Z) : M unit := kmodify (fun s => mksh (timing s) (<[i := pid]> (bgpids s)) (out s) (world s)).
Definition sys {A} (f : W -> A * W) : M A := fun s => let '(a, w) := f (world s) in Done a (mksh (timing s) (bgpids s) (out s) w).

(** userland/bin/sh/sh.c:80-93 (can_bg). *)
Definition can_bg (s : shell) : bool := existsb (fun p => p =? 0) (bgpids s).

(** userland/bin/sh/sh.c:104-111 (remember_bg): the loop, from slot [i] on. *)
Fixpoint remember_loop (l : list Z) (i : nat) (pid : Z) : M unit :=
  match l with
  | [] => kassert false
  | p :: l => if p =? 0 then set_bg i pid else remember_loop l (S i) pid
  end.

(** userland/bin/sh/sh.c:100-112 (remember_bg). *)
Definition remember_bg (pid : Z) : M unit := s <- kget ;; remember_loop (bgpids s) 0 pid.

(** userland/bin/sh/sh.c:117-125 (exitinfo_exit); [val] has 8 bits. *)
Definition exitinfo_exit (code : Z) : exitinfo := mkei (u8 code) false false false.

(** userland/bin/sh/sh.c:131-167 (readstatus). *)
Definition readstatus (status : Z) : M exitinfo :=
  if WIFEXITED status then kret (mkei (u8 (WEXITSTATUS status)) false false false)
  else if WIFSIGNALED status && WCOREDUMP status then kret (mkei (u8 (WEXITSTATUS status)) true false true)
  else if WIFSIGNALED status then kret (mkei (u8 (WEXITSTATUS status)) true false false)
  else if WIFSTOPPED status then kret (mkei (u8 (WEXITSTATUS status)) false true false)
  else print (BadStatus status) ;;; kret (mkei (u8 status) false false false).

(** userland/bin/sh/sh.c:173-189 (printstatus). *)
Definition printstatus (ei : exitinfo) (printexitzero : bool) : M unit :=
  if signaled ei && coredump ei then print (Core (val ei))
  else if signaled ei then print (Signal (val ei))
  else if stopped ei then print (Stopped (val ei))
  else if printexitzero || negb (val ei =? 0) then print (Exit (val ei))
  else kret tt.

(** userland/bin/sh/sh.c:195-210 (dowait). *)
Definition dowait (pid : Z) : M unit :=
  r <- sys (waitpid pid 0) ;;
  let '(r, status) := r in
  if r <? 0 then print (WarnPid pid)
  else print (Pid pid) ;;; ei <- readstatus status ;; printstatus ei true.

(** userland/bin/sh/sh.c:217-236 (dowaitpoll). *)
Definition dowaitpoll (pid : Z) : M bool :=
  r <- sys (waitpid pid WNOHANG) ;;
  let '(foundpid, status) := r in
  if foundpid <? 0 then print (WarnPid pid) ;;; kret false
  else if negb (foundpid =? 0) then
    print (Pid pid) ;;; ei <- readstatus status ;; printstatus ei true ;;; kret true
  else kret false.

(** A loop over the slots of [bgpids], from the last [n] on. *)
Fixpoint each_bg (n : nat) (f : nat -> Z -> M unit) : M unit :=
  match n with
  | O => kret tt
  | S n' =>
      let i := (MAXBG - n)%nat in
      s <- kget ;;
      match bgpids s !! i with
      | Some pid => f i pid ;;; each_bg n' f
      | None => khalt OutOfBounds
      end
  end.

(** userland/bin/sh/sh.c:242-254 (waitpoll). *)
Definition waitpoll : M unit :=
  each_bg MAXBG (fun i pid => if negb (pid =? 0) then b <- dowaitpoll pid ;; if b : bool then set_bg i 0 else kret tt else kret tt).

(** [atoi] (Printf.v) of a string. *)
Definition atoi_string (s : string) : Z := default 0 (atoi (S (length s)) 0 (fun x => default 0 (s !! Z.to_nat x))).

(** userland/bin/sh/sh.c:263-293 (cmd_wait). *)
Definition cmd_wait (av : list string) : M exitinfo :=
  match av with
  | [_; arg] =>
      let pid := atoi_string arg in
      dowait pid ;;;
      each_bg MAXBG (fun i p => if p =? pid then set_bg i 0 else kret tt) ;;;
      kret (exitinfo_exit 0)
  | [_] =>
      each_bg MAXBG (fun i p => if negb (p =? 0) then dowait p ;;; set_bg i 0 else kret tt) ;;;
      kret (exitinfo_exit 0)
  | _ => print (Usage [119; 97; 105; 116]) ;;; kret (exitinfo_exit 1)
  end.

(** userland/bin/sh/sh.c:300-315 (cmd_chdir); [chdir] gives [true] for success. *)
Definition cmd_chdir (av : list string) : M exitinfo :=
  match av with
  | [_; dir] => ok <- sys (chdir dir) ;; if ok : bool then kret (exitinfo_exit 0) else print (Warn dir) ;;; kret (exitinfo_exit 1)
  | _ => print (Usage [99; 104; 100; 105; 114]) ;;; kret (exitinfo_exit 1)
  end.

(** userland/bin/sh/sh.c:322-341 (cmd_exit): [inl] is the exit of the shell. *)
Definition cmd_exit (av : list string) : M (Z + exitinfo) :=
  match av with
  | [_] => kret (inl 0)
  | [_; code] => kret (inl (atoi_string code))
  | _ => print (Usage [101; 120; 105; 116]) ;;; kret (inr (exitinfo_exit 1))
  end.

(** userland/bin/sh/sh.c:347-356 (builtins). *)
Definition builtins : list (string * (list string -> M (Z + exitinfo))) :=
  let no_exit f av := ei <- f av ;; kret (inr ei) in
  [([99; 100], no_exit cmd_chdir); ([99; 104; 100; 105; 114], no_exit cmd_chdir); ([101; 120; 105; 116], cmd_exit); ([119; 97; 105; 116], no_exit cmd_wait)].

Fixpoint find_builtin (l : list (string * (list string -> M (Z + exitinfo)))) (cmd : string) : option (list string -> M (Z + exitinfo)) :=
  match l with [] => None | (name, f) :: l => if decide (name = cmd) then Some f else find_builtin l cmd end.

(** " \t\r\n" and "&" *)
Definition blanks : string := [32; 9; 13; 10].
Definition AMPERSAND : string := [38].

(** userland/bin/sh/sh.c:420-474 (docommand): start the program and wait for it.
    A call of [__time] that fails later than in [check_timing] prints nothing here. *)
Definition run_command (args : list string) (bg : bool) : M exitinfo :=
  s <- kget ;;
  start <- (if timing s then sys time else kret None) ;;
  pid <- sys (spawn args) ;;
  if pid =? -1 then print (Warn [102; 111; 114; 107]) ;;; kret (exitinfo_exit 255) else
  if bg then remember_bg pid ;;; print (Started pid (default [] (head args))) ;;; kret (exitinfo_exit 0) else
  r <- sys (waitpid pid 0) ;;
  let '(r, status) := r in
  ei <- (if r <? 0 then print (Warn [119; 97; 105; 116; 112; 105; 100]) ;;; kret (exitinfo_exit 255) else readstatus status) ;;
  (if timing s then
     stop <- sys time ;;
     match start, stop with
     | Some (s1, n1), Some (s2, n2) =>
         let '(s2, n2) := if n2 <? n1 then (s2 - 1, n2 + 1000000000) else (s2, n2) in
         print (Elapsed (s2 - s1) (n2 - n1))
     | _, _ => kret tt
     end
   else kret tt) ;;;
  kret ei.

(** userland/bin/sh/sh.c:365-475 (docommand): [inl] is the exit of the shell. *)
Definition docommand (buf : string) : M (Z + exitinfo) :=
  let args := words_of blanks buf in
  if Nat.ltb NARG_MAX (length args) then print (TooManyArgs (default [] (head args))) ;;; kret (inr (exitinfo_exit 1)) else
  match args with
  | [] => kret (inr (exitinfo_exit 0))
  | cmd :: _ =>
      match find_builtin builtins cmd with
      | Some f => f args
      | None =>
          s <- kget ;;
          let bg := bool_decide (last args = Some AMPERSAND) in
          if bg && negb (can_bg s) then print (TooManyJobs cmd) ;;; kret (inr (exitinfo_exit 1)) else
          ei <- run_command (if bg then take (length args - 1) args else args) bg ;;
          kret (inr ei)
      end
  end.

(** userland/bin/sh/sh.c:534-544 (interactive): one pass of the loop for a line that has been
    read. [Some] is the exit of the shell. *)
Definition interactive_step (line : string) : M (option Z) :=
  print Prompt ;;;
  r <- docommand line ;;
  match r with
  | inl code => kret (Some code)
  | inr ei => printstatus ei false ;;; waitpoll ;;; kret None
  end.

(** userland/bin/sh/sh.c:547-557 (check_timing). *)
Definition check_timing : M unit :=
  t <- sys time ;;
  match t with
  | Some _ => kmodify (fun s => mksh true (bgpids s) (out s) (world s)) ;;; print (Warn [])
  | None => kret tt
  end.

(** userland/bin/sh/sh.c:579-585 (main): "sh -c command", with the exit code. *)
Definition main_c (command : string) : M Z :=
  check_timing ;;;
  r <- docommand command ;;
  match r with
  | inl code => kret code
  | inr ei => printstatus ei false ;;; kret (if signaled ei || stopped ei || negb (val ei =? 0) then 1 else 0)
  end.

End Shell.

Arguments shell W : clear implicits.

(** ** Reading a line *)

(** userland/bin/sh/sh.c:498-519 (getcmd): the loop, with the characters that are typed. *)
Fixpoint getcmd_loop (buf len : Z) (input : list Z) (pos : nat) (s : con) : option (list Z * nat * con) :=
  match input with
  | [] => None
  | ch :: input =>
      if ((ch =? 8) || (ch =? 127)) && (0 <? Z.of_nat pos) then getcmd_loop buf len input (pos - 1) (putch 8 (putch 32 (putch 8 s)))
      else if (ch =? 13) || (ch =? 10) then Some (input, pos, putch 10 (putch 13 s))
      else if (32 <=? ch) && (ch <? 127) && (Z.of_nat pos <? u32 (len - 1)) then
        getcmd_loop buf len input (S pos) (putch ch (put (buf + Z.of_nat pos) ch s))
      else getcmd_loop buf len input pos (putch 7 s)
  end.

(** userland/bin/sh/sh.c:487-521 (getcmd). *)
Definition getcmd (buf len : Z) (input : list Z) (s : con) : option (list Z * con) :=
  match getcmd_loop buf len input O s with
  | Some (rest, pos, s) => Some (rest, put (buf + Z.of_nat pos) 0 s)
  | None => None
  end.
