(* ===== verification/ShellSpec.v ===== *)
(** * The shell keeps track of its children *)

From stdpp Require Import base numbers functions list gmap.
From Stdlib Require Import ZArith Lia.
From stdpp Require Import list_relations.
From S2P Require Import Prelude UserCopy KState ProcTable ProcSyscalls CString Printf KLib Shell.

Open Scope Z_scope.
Open Scope k_scope.

(** What the manual pages say of the system calls, in terms of the children of the process
    that it has not waited for. *)
Class UnixLaws (W : Type) `{Unix W} := {
  children : W -> gset Z;
  spawn_law args w : exists pid w', spawn args w = (pid, w') /\
    (pid = -1 /\ children w' = children w \/ 0 < pid /\ (pid ∉ children w) /\ children w' = {[pid]} ∪ children w);
  wait_child pid w : pid ∈ children w -> exists status w', waitpid pid 0 w = (pid, status, w') /\ children w' = children w ∖ {[pid]};
  wait_other pid options w : pid ∉ children w -> exists r status w', waitpid pid options w = (r, status, w') /\ r < 0 /\ children w' = children w;
  wait_poll pid w : pid ∈ children w -> exists r status w', waitpid pid WNOHANG w = (r, status, w') /\
    (r = 0 /\ children w' = children w \/ r = pid /\ children w' = children w ∖ {[pid]});
  children_pos pid w : pid ∈ children w -> 0 < pid;
  chdir_law dir w : exists ok w', chdir dir w = (ok, w') /\ children w' = children w;
  time_law w : exists t w', time w = (t, w') /\ children w' = children w
}.

Section Jobs.
Context {W : Type} {U : Unix W} {L : UnixLaws W}.
Implicit Types s : shell W.

(** The table of jobs has exactly the children, each one once. *)
Record jobs (s : shell W) : Prop := {
  jobs_len : length (bgpids s) = MAXBG;
  jobs_once i j p : bgpids s !! i = Some p -> bgpids s !! j = Some p -> p <> 0 -> i = j;
  jobs_children p : p ∈ children (world s) <-> p <> 0 /\ p ∈ bgpids s
}.

(** Only the output is different. *)
Definition same (s s' : shell W) : Prop := bgpids s' = bgpids s /\ world s' = world s.

Lemma jobs_same s s' : same s s' -> jobs s -> jobs s'.
Proof. intros [E1 E2] [H1 H2 H3]. split; rewrite ?E1, ?E2; done. Qed.

Lemma jobs_eq s s' : bgpids s' = bgpids s -> children (world s') = children (world s) -> jobs s -> jobs s'.
Proof. intros E1 E2 [H1 H2 H3]. split; rewrite ?E1, ?E2; done. Qed.

Lemma readstatus_ok st s : exists ei s', readstatus st s = Done ei s' /\ same s s'.
Proof.
  unfold readstatus. destruct (WIFEXITED st); [by eexists _, _|]. destruct (WIFSIGNALED st && WCOREDUMP st); [by eexists _, _|]. destruct (WIFSIGNALED st); [by eexists _, _|].
  destruct (WIFSTOPPED st); [by eexists _, _|]. eexists _, _. split; [reflexivity|done].
Qed.

Lemma printstatus_ok ei z s : exists s', printstatus ei z s = Done tt s' /\ same s s'.
Proof. unfold printstatus. repeat case_match; eexists; (split; [reflexivity|done]). Qed.

(** What [dowait] and [dowaitpoll] print once the child is there. *)
Lemma report_ok {A} pid st (a : A) s : exists s', (print (Pid pid) ;;; ei <- readstatus st ;; printstatus ei true ;;; kret a) s = Done a s' /\ same s s'.
Proof.
  unfold kbind at 1. cbn [print kmodify]. set (s1 := mksh _ _ _ _). destruct (readstatus_ok st s1) as (ei & s2 & E2 & H1 & H2). destruct (printstatus_ok ei true s2) as (s3 & E3 & H3 & H4).
  unfold kbind. rewrite E2, E3. exists s3. split; [done|]. split; [by rewrite H3, H1|by rewrite H4, H2].
Qed.

(** A child is waited for. *)
Lemma dowait_ok pid s : exists s', dowait pid s = Done tt s' /\ bgpids s' = bgpids s /\ children (world s') = children (world s) ∖ {[pid]}.
Proof.
  unfold dowait. destruct (decide (pid ∈ children (world s))) as [Hin|Hin].
  - destruct (wait_child pid _ Hin) as (st & w & E & Hw). unfold kbind at 1, sys. rewrite E. pose proof (children_pos pid _ Hin). rewrite (proj2 (Z.ltb_ge _ _)) by lia.
    destruct (report_ok pid st tt (mksh (timing s) (bgpids s) (out s) w)) as (s' & E' & H1 & H2). exists s'. split; [|by rewrite H1, H2].
    rewrite <- E'. unfold kbind. destruct (print (Pid pid) _) as [? s1| |]; [|done..]. destruct (readstatus st s1) as [ei s2| |]; [|done..]. by destruct (printstatus ei true s2) as [[] ?| |].
  - destruct (wait_other pid 0 _ Hin) as (r & st & w & E & Hr & Hw). unfold kbind, sys. rewrite E. rewrite (proj2 (Z.ltb_lt _ _)) by done. eexists. split; [done|]. cbn [bgpids world]. split; [done|]. rewrite Hw. set_solver.
Qed.

Lemma jobs_clear s i p w o : jobs s -> bgpids s !! i = Some p -> p <> 0 -> children w = children (world s) ∖ {[p]} -> jobs (mksh (timing s) (<[i := 0]> (bgpids s)) o w).
Proof.
  intros [H1 H2 H3] Hi Hp Hw. assert (Hl : (i < length (bgpids s))%nat) by (by apply lookup_lt_Some in Hi). split; cbn [bgpids world].
  - by rewrite length_insert.
  - intros a b q Ha Hb Hq. destruct (decide (a = i)) as [->|Hai]; [rewrite list_lookup_insert_eq in Ha by done; congruence|]. destruct (decide (b = i)) as [->|Hbi]; [rewrite list_lookup_insert_eq in Hb by done; congruence|].
    rewrite list_lookup_insert_ne in Ha, Hb by done. by apply (H2 a b q).
  - intros q. rewrite Hw, elem_of_difference, H3, elem_of_singleton, !list_elem_of_lookup. split.
    + intros [[Hq (a & Ha)] Hne]. split; [done|]. exists a. rewrite list_lookup_insert_ne; [done|]. intros ->. congruence.
    + intros [Hq (a & Ha)]. destruct (decide (a = i)) as [->|Hai]; [rewrite list_lookup_insert_eq in Ha by done; congruence|]. rewrite list_lookup_insert_ne in Ha by done.
      split; [split; [done|by exists a]|]. intros ->. apply Hai. by apply (H2 a i p).
Qed.

Lemma each_bg_step n f s p : bgpids s !! (MAXBG - S n)%nat = Some p -> each_bg (S n) f s = (f (MAXBG - S n)%nat p ;;; each_bg n f) s.
Proof. intros Hp. cbn [each_bg]. unfold kbind at 1, kget. by rewrite Hp. Qed.

(** A loop over the table whose body keeps the invariant. *)
Lemma each_bg_ok f : (forall i p s, jobs s -> bgpids s !! i = Some p -> exists s', f i p s = Done tt s' /\ jobs s') ->
  forall n s, (n <= MAXBG)%nat -> jobs s -> exists s', each_bg n f s = Done tt s' /\ jobs s'.
Proof.
  intros Hf. induction n as [|n IH]; intros s Hn Hs; cbn [each_bg]; [by exists s|]. unfold kbind at 1, kget.
  destruct (lookup_lt_is_Some_2 (bgpids s) (MAXBG - S n)) as [p Hp]; [rewrite (jobs_len s Hs); unfold MAXBG in *; lia|]. rewrite Hp. destruct (Hf _ p s Hs Hp) as (s1 & E & Hs1). unfold kbind. rewrite E. apply IH; [lia|done].
Qed.

Lemma waitpoll_ok s : jobs s -> exists s', waitpoll s = Done tt s' /\ jobs s'.
Proof.
  apply each_bg_ok; [|done]. clear s. intros i p s Hs Hp. destruct (Z.eqb_spec p 0) as [->|Hne]; cbn [negb]; [by exists s|].
  assert (Hin : p ∈ children (world s)) by (apply (jobs_children s Hs); split; [done|by apply list_elem_of_lookup_2 in Hp]). pose proof (children_pos p _ Hin) as Hpos.
  destruct (wait_poll p _ Hin) as (r & st & w & E & [[-> Hw]|[-> Hw]]); unfold dowaitpoll; unfold kbind at 1; unfold kbind at 1; unfold sys; rewrite E.
  - cbn [Z.ltb Z.compare Z.eqb negb]. eexists. split; [done|]. by apply (jobs_eq s).
  - rewrite (proj2 (Z.ltb_ge p 0)) by lia. rewrite (proj2 (Z.eqb_neq p 0)) by done. cbn [negb]. destruct (report_ok p st true (mksh (timing s) (bgpids s) (out s) w)) as (s' & E' & H1 & H2). rewrite E'. eexists. split; [done|].
    unfold set_bg, kmodify. rewrite H1, H2. cbn [bgpids world]. destruct (jobs_clear s i p w [] Hs Hp Hne Hw) as [J1 J2 J3]. split; done.
Qed.

(** The entries for one process are cleared. *)
Definition clear_pid (pid p : Z) : Z := if p =? pid then 0 else p.

Lemma clear_ok pid n : forall s, (n <= MAXBG)%nat -> length (bgpids s) = MAXBG ->
  exists s', each_bg n (fun i p => if p =? pid then set_bg i 0 else kret tt) s = Done tt s' /\ world s' = world s /\
    bgpids s' = take (MAXBG - n) (bgpids s) ++ (clear_pid pid <$> drop (MAXBG - n) (bgpids s)).
Proof.
  induction n as [|n IH]; intros s Hn Hl; cbn [each_bg].
  - exists s. split_and!; [done|done|]. rewrite Nat.sub_0_r, take_ge, drop_ge by lia. by rewrite app_nil_r.
  - unfold kbind at 1, kget. destruct (lookup_lt_is_Some_2 (bgpids s) (MAXBG - S n)) as [p Hp]; [rewrite Hl; unfold MAXBG in *; lia|]. rewrite Hp.
    set (l := <[(MAXBG - S n)%nat := clear_pid pid p]> (bgpids s)).
    assert (Hstep : exists s1, ((if p =? pid then set_bg (MAXBG - S n) 0 else kret tt) : K (shell W) unit) s = Done tt s1 /\ world s1 = world s /\ bgpids s1 = l).
    { unfold l, clear_pid. destruct (p =? pid); [by eexists|]. exists s. split_and!; [done|done|]. by rewrite list_insert_id. }
    destruct Hstep as (s1 & E1 & W1 & B1). unfold kbind. rewrite E1. destruct (IH s1) as (s' & E & W' & B'); [lia|rewrite B1; unfold l; by rewrite length_insert|]. exists s'. split; [done|]. split; [by rewrite W'|].
    rewrite B', B1. unfold l. assert (Hi : (MAXBG - n = S (MAXBG - S n))%nat) by lia. rewrite Hi. rewrite take_S_r with (x := clear_pid pid p) by (apply list_lookup_insert_eq; rewrite Hl; lia).
    rewrite take_insert_ge, drop_insert_lt by lia. rewrite (drop_S (bgpids s) p (MAXBG - S n) Hp). cbn [fmap list_fmap]. by rewrite <- app_assoc.
Qed.

Lemma jobs_clear_pid s pid s' : jobs s -> bgpids s' = clear_pid pid <$> bgpids s -> children (world s') = children (world s) ∖ {[pid]} -> jobs s'.
Proof.
  intros [H1 H2 H3] B Hw. assert (Hl : forall i q, bgpids s' !! i = Some q -> q <> 0 -> bgpids s !! i = Some q /\ q <> pid).
  { intros i q. rewrite B, list_lookup_fmap. intros (p & Hp & ->)%fmap_Some Hq. unfold clear_pid in *. by destruct (Z.eqb_spec p pid). }
  split.
  - by rewrite B, length_fmap.
  - intros i j p Hi Hj Hp. destruct (Hl i p Hi Hp) as [Hi' _], (Hl j p Hj Hp) as [Hj' _]. by apply (H2 i j p).
  - intros q. rewrite Hw, elem_of_difference, H3, elem_of_singleton, !list_elem_of_lookup. split.
    + intros [[Hq (a & Ha)] Hne]. split; [done|]. exists a. rewrite B, list_lookup_fmap, Ha. cbn. unfold clear_pid. by rewrite (proj2 (Z.eqb_neq _ _)).
    + intros [Hq (a & Ha)]. destruct (Hl a q Ha Hq) as [Ha' Hne]. split; [split; [done|by exists a]|done].
Qed.

Lemma cmd_wait_ok av s : jobs s -> exists ei s', cmd_wait av s = Done ei s' /\ jobs s'.
Proof.
  intros Hs. unfold cmd_wait. destruct av as [|a [|b [|c av]]]; [by eexists _, _; split; [reflexivity|by apply (jobs_same s)]| | |by eexists _, _; split; [reflexivity|by apply (jobs_same s)]].
  - destruct (each_bg_ok (fun i p => if negb (p =? 0) then dowait p ;;; set_bg i 0 else kret tt)) with (n := MAXBG) (s := s) as (s' & E & Hs'); [|done|done|].
    + clear s Hs. intros i p s Hs Hp. destruct (Z.eqb_spec p 0) as [->|Hne]; cbn [negb]; [by exists s|]. destruct (dowait_ok p s) as (s1 & E & B & C). unfold kbind. rewrite E. eexists. split; [done|].
      unfold set_bg, kmodify. rewrite B. destruct (jobs_clear s i p (world s1) [] Hs Hp Hne C) as [J1 J2 J3]. split; done.
    + rewrite (kbind_done _ _ _ _ _ E). by eexists _, _.
  - set (pid := atoi_string b). destruct (dowait_ok pid s) as (s1 & E1 & B1 & C1). destruct (clear_ok pid MAXBG s1 ltac:(lia)) as (s2 & E2 & W2 & B2); [rewrite B1; apply (jobs_len s Hs)|].
    rewrite (kbind_done _ _ _ _ _ E1), (kbind_done _ _ _ _ _ E2). eexists _, s2. split; [done|]. apply (jobs_clear_pid s pid); [done|rewrite B2, B1, Nat.sub_diag; done|by rewrite W2].
Qed.

Lemma cmd_chdir_ok av s : jobs s -> exists ei s', cmd_chdir av s = Done ei s' /\ jobs s'.
Proof.
  intros Hs. unfold cmd_chdir. destruct av as [|a [|b [|c av]]]; try (by eexists _, _; split; [reflexivity|by apply (jobs_same s)]).
  destruct (chdir_law b (world s)) as (ok & w & E & Hw). unfold kbind, sys. rewrite E. destruct ok; eexists _, _; (split; [reflexivity|]); by apply (jobs_eq s).
Qed.

Lemma cmd_exit_ok av s : jobs s -> exists r s', cmd_exit av s = Done r s' /\ jobs s'.
Proof. intros Hs. unfold cmd_exit. destruct av as [|a [|b [|c av]]]; eexists _, _; (split; [reflexivity|]); by apply (jobs_same s). Qed.

Lemma builtin_ok cmd f av s : find_builtin builtins cmd = Some f -> jobs s -> exists r s', f av s = Done r s' /\ jobs s'.
Proof.
  intros Hf Hs. unfold builtins in Hf. cbn [find_builtin] in Hf.
  assert (Hch : exists r s', (ei <- cmd_chdir av ;; kret (inr ei)) s = Done (r : Z + exitinfo) s' /\ jobs s') by (destruct (cmd_chdir_ok av s Hs) as (ei & s' & E & Hs'); unfold kbind; rewrite E; by eexists _, _).
  repeat (destruct (decide (_ = cmd)); [injection Hf as <-; first [done | by apply cmd_exit_ok | idtac]|]); [|done].
  destruct (cmd_wait_ok av s Hs) as (ei & s' & E & Hs'). unfold kbind. rewrite E. by eexists _, _.
Qed.

Lemma remember_loop_ok pid s l : forall i, (exists j, l !! j = Some 0) ->
  exists k, l !! k = Some 0 /\ remember_loop l i pid s = set_bg (i + k) pid s.
Proof.
  induction l as [|p l IH]; intros i [j Hj]; [done|]. cbn [remember_loop]. destruct (Z.eqb_spec p 0) as [->|Hne].
  - exists O. split; [done|]. by rewrite Nat.add_0_r.
  - destruct j as [|j]; [cbn in Hj; congruence|]. destruct (IH (S i)) as (k & Hk & E); [by exists j|]. exists (S k). split; [done|]. rewrite E. by rewrite Nat.add_succ_comm.
Qed.

Lemma can_bg_free s : can_bg s = true -> exists j, bgpids s !! j = Some 0.
Proof.
  unfold can_bg. rewrite existsb_exists. intros (p & Hin & ->%Z.eqb_eq). apply list_elem_of_In in Hin. by apply list_elem_of_lookup in Hin.
Qed.

(** A child that has been started in the background is entered. *)
Lemma remember_ok s s1 pid : jobs s -> can_bg s = true -> bgpids s1 = bgpids s -> 0 < pid -> (pid ∉ children (world s)) -> children (world s1) = {[pid]} ∪ children (world s) ->
  exists s', remember_bg pid s1 = Done tt s' /\ jobs s'.
Proof.
  intros [H1 H2 H3] Hbg B Hp Hnew C. unfold remember_bg. unfold kbind, kget. rewrite B. destruct (remember_loop_ok pid s1 (bgpids s) 0 (can_bg_free s Hbg)) as (k & Hk & ->). cbn [Nat.add]. eexists. split; [reflexivity|].
  assert (Hlt : (k < length (bgpids s))%nat) by (by apply lookup_lt_Some in Hk). assert (Hno : forall a, bgpids s !! a <> Some pid).
  { intros a Ha. apply Hnew, H3. split; [lia|]. by apply list_elem_of_lookup_2 in Ha. }
  split; cbn [bgpids world]; rewrite B.
  - by rewrite length_insert.
  - intros a b q Ha Hb Hq. destruct (decide (a = k)) as [->|Hak], (decide (b = k)) as [->|Hbk]; [done| | |].
    + rewrite list_lookup_insert_eq in Ha by done. rewrite list_lookup_insert_ne in Hb by done. injection Ha as <-. by destruct (Hno b).
    + rewrite list_lookup_insert_eq in Hb by done. rewrite list_lookup_insert_ne in Ha by done. injection Hb as <-. by destruct (Hno a).
    + rewrite list_lookup_insert_ne in Ha, Hb by done. by apply (H2 a b q).
  - intros q. rewrite C, elem_of_union, elem_of_singleton, H3, !list_elem_of_lookup. split.
    + intros [->|[Hq (a & Ha)]]; (split; [lia || done|]); [exists k; by rewrite list_lookup_insert_eq|]. exists a. rewrite list_lookup_insert_ne; [done|]. intros ->. congruence.
    + intros [Hq (a & Ha)]. destruct (decide (a = k)) as [->|Hak]; [rewrite list_lookup_insert_eq in Ha by done; injection Ha as <-; by left|]. rewrite list_lookup_insert_ne in Ha by done. right. split; [done|]. by exists a.
Qed.

Lemma time_ok s : exists t s', sys time s = Done t s' /\ bgpids s' = bgpids s /\ children (world s') = children (world s).
Proof. destruct (time_law (world s)) as (t & w & E & Hw). unfold sys. rewrite E. by eexists _, _. Qed.

(** The end of a command in the foreground. *)
Lemma elapsed_ok (b : bool) (start : option (Z * Z)) (ei : exitinfo) s : jobs s -> exists s',
  ((if b then stop <- sys time ;;
       match start, stop with
       | Some (s1, n1), Some (s2, n2) => let '(s2, n2) := if n2 <? n1 then (s2 - 1, n2 + 1000000000) else (s2, n2) in print (Elapsed (s2 - s1) (n2 - n1))
       | _, _ => kret tt
       end
    else kret tt) ;;; kret ei) s = Done ei s' /\ jobs s'.
Proof.
  intros Hs. destruct b; [|by exists s]. destruct (time_ok s) as (t & s1 & E & B & C). assert (H1 : jobs s1) by (by apply (jobs_eq s)). unfold kbind. rewrite E.
  destruct start as [[a n]|], t as [[a' n']|]; try (by exists s1). destruct (n' <? n); (eexists; split; [reflexivity|by apply (jobs_same s1)]).
Qed.

Lemma run_command_ok args bg s : jobs s -> (bg = true -> can_bg s = true) -> exists ei s', run_command args bg s = Done ei s' /\ jobs s'.
Proof.
  intros Hs Hbg. unfold run_command. unfold kbind at 1, kget. assert (Hstart : exists t s1, ((if timing s then sys time else kret None) : K (shell W) _) s = Done t s1 /\ bgpids s1 = bgpids s /\ children (world s1) = children (world s)).
  { destruct (timing s); [apply time_ok|]. by eexists _, s. }
  destruct Hstart as (t & s1 & E1 & B1 & C1). rewrite (kbind_done _ _ _ _ _ E1). clear E1. destruct (spawn_law args (world s1)) as (pid & w & E & Hw).
  assert (E2 : sys (spawn args) s1 = Done pid (mksh (timing s1) (bgpids s1) (out s1) w)) by (unfold sys; by rewrite E). rewrite (kbind_done _ _ _ _ _ E2). clear E E2. set (s2 := mksh _ _ _ w).
  destruct Hw as [[-> Hw]|(Hpos & Hnew & Hw)].
  { cbn [Z.eqb Pos.eqb]. eexists _, _. split; [reflexivity|]. apply (jobs_eq s); [done|cbn [world s2]; by rewrite Hw, C1|done]. }
  rewrite (proj2 (Z.eqb_neq pid (-1))) by lia. rewrite C1 in Hnew, Hw. destruct bg.
  - destruct (remember_ok s s2 pid Hs (Hbg eq_refl) B1 Hpos Hnew Hw) as (s3 & E3 & Hs3). rewrite (kbind_done _ _ _ _ _ E3). eexists _, _. split; [reflexivity|]. by apply (jobs_same s3).
  - assert (Hin : pid ∈ children (world s2)) by (cbn [world s2]; rewrite Hw; set_solver). destruct (wait_child pid _ Hin) as (st & w' & E & Hw'). set (s3 := mksh (timing s2) (bgpids s2) (out s2) w').
    assert (E3 : sys (waitpid pid 0) s2 = Done (pid, st) s3) by (unfold sys; by rewrite E). rewrite (kbind_done _ _ _ _ _ E3). rewrite (proj2 (Z.ltb_ge pid 0)) by lia.
    assert (Hs3 : jobs s3) by (apply (jobs_eq s); [done|cbn [world s3 s2] in *; rewrite Hw', Hw; set_solver|done]).
    destruct (readstatus_ok st s3) as (ei & s4 & E4 & Hsame). rewrite (kbind_done _ _ _ _ _ E4). destruct (elapsed_ok (timing s) t ei s4) as (s5 & E5 & Hs5); [by apply (jobs_same s3)|]. by exists ei, s5.
Qed.

Lemma docommand_ok line s : jobs s -> exists r s', docommand line s = Done r s' /\ jobs s'.
Proof.
  intros Hs. unfold docommand. destruct (Nat.ltb NARG_MAX _); [eexists _, _; split; [reflexivity|by apply (jobs_same s)]|]. destruct (words_of blanks line) as [|cmd args]; [by eexists _, s|].
  destruct (find_builtin builtins cmd) as [f|] eqn:Ef; [by apply (builtin_ok cmd)|]. unfold kbind at 1, kget. set (bg := bool_decide _). destruct (bg && negb (can_bg s)) eqn:Ebg.
  - eexists _, _. split; [reflexivity|by apply (jobs_same s)].
  - destruct (run_command_ok (if bg then take (length (cmd :: args) - 1) (cmd :: args) else cmd :: args) bg s Hs) as (ei & s' & E & Hs').
    { intros ->. cbn [andb] in Ebg. by apply negb_false_iff. }
    rewrite (kbind_done _ _ _ _ _ E). by eexists _, _.
Qed.

Lemma interactive_ok line s : jobs s -> exists r s', interactive_step line s = Done r s' /\ jobs s'.
Proof.
  intros Hs. unfold interactive_step. set (s1 := mksh (timing s) (bgpids s) (out s ++ [Prompt]) (world s)). assert (E1 : print Prompt s = Done tt s1) by reflexivity. rewrite (kbind_done _ _ _ _ _ E1).
  destruct (docommand_ok line s1) as (r & s2 & E2 & Hs2); [by apply (jobs_same s)|]. rewrite (kbind_done _ _ _ _ _ E2). destruct r as [code|ei]; [by eexists _, s2|].
  destruct (printstatus_ok ei false s2) as (s3 & E3 & Hsame). rewrite (kbind_done _ _ _ _ _ E3). destruct (waitpoll_ok s3) as (s4 & E4 & Hs4); [by apply (jobs_same s2)|]. rewrite (kbind_done _ _ _ _ _ E4). by eexists _, s4.
Qed.

(** Several lines. *)
Fixpoint interactive (lines : list string) : K (shell W) (option Z) :=
  match lines with
  | [] => kret None
  | line :: lines => r <- interactive_step line ;; match r with Some code => kret (Some code) | None => interactive lines end
  end.

Lemma interactive_all lines : forall s, jobs s -> exists r s', interactive lines s = Done r s' /\ jobs s'.
Proof.
  induction lines as [|line lines IH]; intros s Hs; cbn [interactive]; [by eexists _, s|]. destruct (interactive_ok line s Hs) as (r & s1 & E & Hs1). rewrite (kbind_done _ _ _ _ _ E). destruct r; [by eexists _, s1|by apply IH].
Qed.

End Jobs.

(** C32. Over system calls that do what their manual pages say, and whatever lines are typed,
    the shell never fails its assertion, and after every command its table of background
    jobs has exactly the children that it has not waited for, each one once: no child is
    forgotten and none is waited for twice. *)
Theorem shell_jobs {W : Type} {U : Unix W} {L : UnixLaws W} (lines : list string) (s : shell W) (Hs : jobs s) :
  exists r s', interactive lines s = Done r s' /\ jobs s'.
Proof. by apply interactive_all. Qed.

(** At most one child, number 5, which ends at once. *)
#[local] Instance demo_unix : Unix bool := {
  spawn _ w := if w then (-1, w) else (5, true);
  waitpid pid _ w := if w && (pid =? 5) then (5, 0, false) else (-1, 0, w);
  chdir _ w := (true, w);
  time w := (None, w)
}.

#[local] Instance demo_laws : UnixLaws bool.
Proof.
  refine {| children (w : bool) := if w then {[5]} else ∅ |}.
  - intros args [|]; eexists _, _; (split; [reflexivity|]); [by left|right; set_solver].
  - intros pid [|] Hin; [|set_solver]. apply elem_of_singleton in Hin as ->. eexists _, _. split; [reflexivity|]. set_solver.
  - intros pid options w Hin. exists (-1), 0, w. split_and!; [|lia|done]. destruct w; [|done]. cbn. by rewrite (proj2 (Z.eqb_neq pid 5)) by set_solver.
  - intros pid [|] Hin; [|set_solver]. apply elem_of_singleton in Hin as ->. eexists _, _, _. split; [reflexivity|]. right. set_solver.
  - intros pid [|] Hin; [|set_solver]. apply elem_of_singleton in Hin as ->. lia.
  - intros dir w. by eexists _, _.
  - intros w. by eexists _, _.
Defined.

(** "a", "b &" and "wait". *)
Lemma shell_jobs_witness : exists r s', interactive [[97]; [98; 32; 38]; [119; 97; 105; 116]] (mksh false (replicate MAXBG 0) [] false) = Done r s' /\ jobs s'.
Proof.
  apply shell_jobs. split; cbn [bgpids world].
  - apply length_replicate.
  - intros i j p [-> _]%lookup_replicate. done.
  - intros p. split; [intros Hp; exfalso; set_solver|]. intros [Hp [-> _]%elem_of_replicate]. done.
Defined.

(** ** The shell on this kernel *)

(** The exit code of a program, as the kernel stores it, comes out of [readstatus] with 8 bits. *)
Theorem exit_code_shown {W : Type} (code : Z) (s : shell W) : readstatus (MKWAIT_EXIT code) s = Done (mkei (u8 code) false false false) s.
Proof.
  destruct (exit_status_roundtrip code) as (H1 & H2 & _). unfold readstatus. rewrite H1, H2. unfold kret. do 2 f_equal. unfold wraps, wrapu.
  assert (E : (code + 2 ^ (30 - 1)) mod 2 ^ 30 - 2 ^ (30 - 1) = code + (- ((code + 2 ^ (30 - 1)) / 2 ^ 30) * 2 ^ 22) * 2 ^ 8) by (pose proof (Z.div_mod (code + 2 ^ (30 - 1)) (2 ^ 30) ltac:(done)); lia).
  rewrite E. by rewrite Z.mod_add.
Qed.

(** With WNOHANG this kernel answers for every child, also one that is still running, that it
    has exited with status 0; and it leaves the child as it is. *)
Theorem kernel_nohang {W : Type} {HV : Vfs W} (s : kstate W) pa pp c status :
  curproc s = Some pa -> procs s !! pa = Some pp -> c ∈ children_list pp -> c <> p_pid pp -> good_status s status ->
  exists m, sys_waitpid_SHELL c status WNOHANG s = Done c (set_umem m s) /\ bytes_at m status [0; 0; 0; 0].
Proof.
  intros Hc Hp Hin Hne (H0 & H1 & H2 & H4 & Hm). unfold sys_waitpid_SHELL, waitpid_check. unfold kbind at 1, kbind at 1, kget. rewrite Hc. unfold kbind at 1. rewrite (proc_read_eq _ _ _ Hp).
  rewrite (proj2 (Z.eqb_neq _ _) Hne), (proj2 (Z.eqb_neq _ _) H0), (proj2 (Z.eqb_neq _ _) H1), (proj2 (Z.eqb_neq _ _) H2), H4. cbn [orb negb Z.eqb]. unfold kbind, is_child. unfold kbind.
  rewrite (proc_read_eq _ _ _ Hp). unfold kret. rewrite is_child_loop_in, bool_decide_eq_true_2 by done. cbn [Z.eqb]. change (WNOHANG =? 0) with false. change (WNOHANG =? WNOHANG) with true. cbv beta iota.
  destruct (raw_store_eq s status 0 Hm) as (m & -> & Hb & _). exists m. split; [done|]. exact Hb.
Qed.

(** So the shell reports a job that it has just started as finished, and drops it from its
    table, while the child is still there. *)
Theorem job_forgotten {W : Type} {U : Unix W} (s : shell W) (pid : Z) : 0 < pid -> bgpids s = pid :: replicate 127 0 -> waitpid pid WNOHANG (world s) = (pid, 0, world s) ->
  waitpoll s = Done tt (mksh (timing s) (replicate MAXBG 0) (out s ++ [Pid pid; Exit 0]) (world s)).
Proof.
  intros Hp Hb Hw.
  assert (Hzero : forall n s1, (n <= MAXBG)%nat -> bgpids s1 = replicate MAXBG 0 ->
            each_bg n (fun i pid => if negb (pid =? 0) then b <- dowaitpoll pid ;; if b : bool then set_bg i 0 else kret tt else kret tt) s1 = Done tt s1).
  { induction n as [|n IH]; intros s1 Hn Hs1; cbn [each_bg]; [done|]. unfold kbind at 1, kget. rewrite Hs1, lookup_replicate_2 by (unfold MAXBG in *; lia). unfold kbind at 1. cbn [Z.eqb negb kret]. apply IH; [lia|done]. }
  unfold waitpoll. change MAXBG with (S 127) at 1. rewrite (each_bg_step _ _ _ pid) by (by rewrite Hb). rewrite (proj2 (Z.eqb_neq pid 0)) by lia. cbn [negb]. change (MAXBG - 128)%nat with O.
  assert (E : (b <- dowaitpoll pid ;; if b : bool then set_bg 0 0 else kret tt) s = Done tt (mksh (timing s) (replicate MAXBG 0) (out s ++ [Pid pid; Exit 0]) (world s))).
  { unfold dowaitpoll. unfold kbind at 1. unfold kbind at 1. unfold sys. rewrite Hw. rewrite (proj2 (Z.ltb_ge pid 0)), (proj2 (Z.eqb_neq pid 0)) by lia. cbn [negb]. unfold kbind, print, kmodify, readstatus, printstatus, kret, set_bg. cbn [bgpids out world timing].
    rewrite Hb. change (WIFEXITED 0) with true. change (WEXITSTATUS 0) with 0. change (u8 0) with 0. cbn. by rewrite <- app_assoc. }
  rewrite (kbind_done _ _ _ _ _ E). by apply Hzero; [unfold MAXBG; lia|].
Qed.

(** A line that is only an ampersand starts a child without a program. *)
Example ampersand_alone : docommand [38] (mksh false (replicate MAXBG 0) [] false) = Done (inr (exitinfo_exit 0)) (mksh false (5 :: replicate 127 0) [Started 5 []] true).
Proof. vm_compute. reflexivity. Qed.

(** ** Reading a line *)

(** What a key does to the line. *)
Definition sh_key (len : Z) (line : list Z) (ch : Z) : list Z :=
  if printable ch then (if Z.of_nat (length line) <? len - 1 then line ++ [ch] else line)
  else if (ch =? 8) || (ch =? 127) then take (length line - 1) line else line.

Section Getcmd.
Context (buf len : Z) (Hlen : 1 <= len < 2 ^ 32) (m0 : memory) (out0 : list sent).

Lemma typed_alert l s : typed buf len m0 out0 l s -> typed buf len m0 out0 l (putch 7 s).
Proof. intros [Hb Hp Hl (o & Eo & Ho) Hf]. split; try done. exists (o ++ [Putch 7]). unfold putch. cbn [c_out]. rewrite Eo, <- app_assoc. split; [done|]. by rewrite shown_app, Ho. Qed.

Lemma sh_key_ok l s ch input : typed buf len m0 out0 l s -> ch <> 10 -> ch <> 13 ->
  exists s', getcmd_loop buf len (ch :: input) (length l) s = getcmd_loop buf len input (length (sh_key len l ch)) s' /\ typed buf len m0 out0 (sh_key len l ch) s'.
Proof.
  intros Hs H10 H13. cbn [getcmd_loop]. rewrite (proj2 (Z.eqb_neq ch 10)), (proj2 (Z.eqb_neq ch 13)) by done. cbn [orb]. rewrite wrapu_small by lia. unfold sh_key. fold (printable ch). destruct (printable ch) eqn:Hp.
  - assert (Hbs : (ch =? 8) || (ch =? 127) = false) by (unfold printable in Hp; bool_to_prop; by rewrite !(proj2 (Z.eqb_neq ch _)) by lia). rewrite Hbs. cbn [andb].
    destruct (Z.ltb_spec (Z.of_nat (length l)) (len - 1)) as [Hlt|Hge]; [|by exists (putch 7 s); split; [|apply typed_alert]].
    eexists. split; [|by apply (typed_char buf len m0 out0 l s ch)]. by rewrite length_app, Nat.add_1_r.
  - destruct ((ch =? 8) || (ch =? 127)) eqn:Hbs; cbn [andb]; [|by exists (putch 7 s); split; [|apply typed_alert]]. destruct l as [|c l] using rev_ind; [by exists (putch 7 s); split; [|apply typed_alert]|].
    rewrite length_app. cbn [length]. rewrite (proj2 (Z.ltb_lt 0 _)) by lia. rewrite Nat.add_sub, take_app_length. eexists. split; [done|]. by apply (backsp_ok buf len m0 out0 l c).
Qed.

Lemma sh_keys_ok keys : forall l s rest, typed buf len m0 out0 l s -> Forall (fun ch => ch <> 10 /\ ch <> 13) keys ->
  exists s', getcmd_loop buf len (keys ++ rest) (length l) s = getcmd_loop buf len rest (length (fold_left (sh_key len) keys l)) s' /\ typed buf len m0 out0 (fold_left (sh_key len) keys l) s'.
Proof.
  induction keys as [|ch keys IH]; intros l s rest Hs Hk; [by exists s|]. apply Forall_cons in Hk as [[H1 H2] Hk]. cbn [app fold_left].
  destruct (sh_key_ok l s ch (keys ++ rest) Hs H1 H2) as (s1 & -> & Hs1). by apply IH.
Qed.
End Getcmd.

(** The line that the shell reads is what the keys made of it, it is on the screen, and no
    memory outside the buffer is written. *)
Theorem getcmd_spec (buf len nl : Z) (keys rest : list Z) (s : con) : 1 <= len < 2 ^ 32 -> Forall (fun ch => ch <> 10 /\ ch <> 13) keys -> nl = 10 \/ nl = 13 ->
  let line := fold_left (sh_key len) keys [] in
  exists s' o, getcmd buf len (keys ++ nl :: rest) s = Some (rest, s') /\ Z.of_nat (length line) < len /\ cstr (c_mem s') buf line /\
    (forall x, ~ buf <= x < buf + len -> c_mem s' x = c_mem s x) /\ c_out s' = c_out s ++ o ++ [Putch 13; Putch 10] /\ shown o = line.
Proof.
  intros Hlen Hkeys Hnl line. assert (H0 : typed buf len (c_mem s) (c_out s) [] s) by (split; [done|constructor|cbn; lia|exists []; by rewrite app_nil_r|done]).
  destruct (sh_keys_ok buf len Hlen _ _ keys [] s (nl :: rest) H0 Hkeys) as (s1 & E & Hs). fold line in E, Hs. unfold getcmd. cbn [length] in E. rewrite E.
  pose proof (typed_cstr _ _ _ _ _ _ Hs) as Hc. pose proof (ty_len _ _ _ _ _ _ Hs) as Hl. destruct (ty_shown _ _ _ _ _ _ Hs) as (o & Eo & Ho).
  destruct Hnl as [->| ->]; cbn [getcmd_loop Z.eqb Pos.eqb orb andb]; eexists _, o; (split; [reflexivity|]); cbn [put putch c_mem c_out]; rewrite Eo, <- ?app_assoc;
    (split_and!; [done|done| |done|done]); intros x Hx; unfold upd; rewrite (proj2 (Z.eqb_neq _ _)) by lia; by apply (ty_frame _ _ _ _ _ _ Hs).
Qed.
