(* ===== verification/LongLong.v ===== *)
(** * 64-bit arithmetic on a 32-bit machine, common/gcc-millicode

    The routines the compiler calls for operations on [long long]. A [long long] is a
    value of [Z] in its signed range; [uiH] and [uiL] are the two 32-bit halves the
    union [uu] of longlong.h gives access to, [ll] and [ull] put two halves together.
    Every routine is shown equal to the operation on [Z] with the wrap-around of the
    64-bit type. Division is in QDivRem.v. *)

From stdpp Require Import base numbers list.
From Stdlib Require Import ZArith Lia Setoid Morphisms.
From S2P Require Import Prelude.

Open Scope Z_scope.

(** ** Congruence modulo a power of two *)

Definition eqm (n a b : Z) : Prop := (2 ^ n | a - b).

Notation "a ≡[ n ] b" := (eqm n a b) (at level 70, n at level 50).

#[global] Instance eqm_equiv n : Equivalence (eqm n).
Proof.
  split; unfold eqm.
  - intros a. rewrite Z.sub_diag. apply Z.divide_0_r.
  - intros a b [k H]. exists (- k). lia.
  - intros a b c [k H] [l H']. exists (k + l). lia.
Qed.

#[global] Instance eqm_add n : Proper (eqm n ==> eqm n ==> eqm n) Z.add.
Proof. intros a a' [k H] b b' [l H']. exists (k + l). lia. Qed.

#[global] Instance eqm_opp n : Proper (eqm n ==> eqm n) Z.opp.
Proof. intros a a' [k H]. exists (- k). lia. Qed.

#[global] Instance eqm_sub n : Proper (eqm n ==> eqm n ==> eqm n) Z.sub.
Proof. intros a a' [k H] b b' [l H']. exists (k - l). lia. Qed.

#[global] Instance eqm_mul n : Proper (eqm n ==> eqm n ==> eqm n) Z.mul.
Proof. intros a a' [k H] b b' [l H']. exists (k * b + a' * l). nia. Qed.

Lemma eqm_wrapu n a : 0 <= n -> wrapu n a ≡[n] a.
Proof. intros Hn. exists (- (a / 2 ^ n)). unfold wrapu. rewrite Z.mod_eq by lia. lia. Qed.

Lemma eqm_wraps n a : 0 <= n -> wraps n a ≡[n] a.
Proof.
  intros Hn. exists (- ((a + 2 ^ (n - 1)) / 2 ^ n)). unfold wraps. rewrite Z.mod_eq by lia. lia.
Qed.

Lemma wrapu_eqm n a b : 0 <= n -> a ≡[n] b -> wrapu n a = wrapu n b.
Proof.
  intros Hn [k H]. unfold wrapu. replace a with (b + k * 2 ^ n) by lia. apply Z.mod_add. lia.
Qed.

Lemma wraps_eqm n a b : 0 <= n -> a ≡[n] b -> wraps n a = wraps n b.
Proof.
  intros Hn [k H]. unfold wraps. replace (a + _) with (b + 2 ^ (n - 1) + k * 2 ^ n) by lia.
  by rewrite Z.mod_add by lia.
Qed.

(** A congruence of the high words. *)
Lemma eqm_high n m a b : 0 <= n -> 0 <= m -> a ≡[n] b -> a * 2 ^ m ≡[n + m] b * 2 ^ m.
Proof. intros Hn Hm [k H]. exists k. rewrite Z.pow_add_r by lia. nia. Qed.

(** ** The union [uu] *)

(** common/gcc-millicode/longlong.h:70-75 (union uu): the high word of a 64-bit value. *)
Definition uiH (x : Z) : Z := u32 (Z.shiftr x 32).

(** common/gcc-millicode/longlong.h:70-75 (union uu): its low word. *)
Definition uiL (x : Z) : Z := u32 x.

Definition siH (x : Z) : Z := s32 (Z.shiftr x 32).

Definition ull (h l : Z) : Z := h * 2 ^ 32 + l.

Definition ll (h l : Z) : Z := s64 (ull h l).

(** common/gcc-millicode/longlong.h:110-110 (HHALF). *)
Definition HHALF (x : Z) : Z := Z.shiftr x 16.

(** common/gcc-millicode/longlong.h:111-111 (LHALF). *)
Definition LHALF (x : Z) : Z := Z.land x (Z.shiftl 1 16 - 1).

(** common/gcc-millicode/longlong.h:112-112 (LHUP). *)
Definition LHUP (x : Z) : Z := u32 (Z.shiftl x 16).

(** The value of a C comparison. *)
Definition cmp (b : bool) : Z := if b then 1 else 0.

(** common/gcc-millicode/adddi3.c:46-56 (__adddi3). *)
Definition __adddi3 (a b : Z) : Z :=
  let sumL := u32 (uiL a + uiL b) in
  let sumH := u32 (u32 (uiH a + uiH b) + cmp (sumL <? uiL b)) in
  ll sumH sumL.

(** common/gcc-millicode/subdi3.c:45-55 (__subdi3). *)
Definition __subdi3 (a b : Z) : Z :=
  let diffL := u32 (uiL a - uiL b) in
  let diffH := u32 (u32 (uiH a - uiH b) - cmp (uiL a <? diffL)) in
  ll diffH diffL.

(** common/gcc-millicode/negdi2.c:43-52 (__negdi2). *)
Definition __negdi2 (a : Z) : Z :=
  let resL := u32 (- uiL a) in
  let resH := u32 (u32 (- uiH a) - cmp (0 <? resL)) in
  ll resH resL.

(** common/gcc-millicode/cmpdi2.c:45-54 (__cmpdi2). *)
Definition __cmpdi2 (a b : Z) : Z :=
  if siH a <? siH b then 0 else if siH b <? siH a then 2
  else if uiL a <? uiL b then 0 else if uiL b <? uiL a then 2 else 1.

(** common/gcc-millicode/ucmpdi2.c:44-53 (__ucmpdi2). *)
Definition __ucmpdi2 (a b : Z) : Z :=
  if uiH a <? uiH b then 0 else if uiH b <? uiH a then 2
  else if uiL a <? uiL b then 0 else if uiL b <? uiL a then 2 else 1.

(** common/gcc-millicode/ashldi3.c:44-61 (__ashldi3). *)
Definition __ashldi3 (a shift : Z) : Z :=
  if shift =? 0 then a else
  if 32 <=? shift then ll (u32 (Z.shiftl (uiL a) (shift - 32))) 0
  else ll (Z.lor (u32 (Z.shiftl (uiH a) shift)) (Z.shiftr (uiL a) (32 - shift)))
          (u32 (Z.shiftl (uiL a) shift)).

(** common/gcc-millicode/lshldi3.c:44-61 (__lshldi3). *)
Definition __lshldi3 (a shift : Z) : Z :=
  if shift =? 0 then a else
  if 32 <=? shift then ll (u32 (Z.shiftl (uiL a) (shift - 32))) 0
  else ll (Z.lor (u32 (Z.shiftl (uiH a) shift)) (Z.shiftr (uiL a) (32 - shift)))
          (u32 (Z.shiftl (uiL a) shift)).

(** common/gcc-millicode/lshrdi3.c:43-60 (__lshrdi3). *)
Definition __lshrdi3 (a shift : Z) : Z :=
  if shift =? 0 then a else
  if 32 <=? shift then ll 0 (Z.shiftr (uiH a) (shift - 32))
  else ll (Z.shiftr (uiH a) shift)
          (Z.lor (Z.shiftr (uiL a) shift) (u32 (Z.shiftl (uiH a) (32 - shift)))).

(** common/gcc-millicode/ashrdi3.c:43-73 (__ashrdi3); the machine shifts signed words
    arithmetically. *)
Definition __ashrdi3 (a shift : Z) : Z :=
  if shift =? 0 then a else
  if 32 <=? shift then
    let s := Z.shiftr (Z.shiftr (siH a) 31) 1 in
    ll (u32 s) (u32 (Z.shiftr (siH a) (shift - 32)))
  else ll (u32 (Z.shiftr (siH a) shift))
          (Z.lor (Z.shiftr (uiL a) shift) (u32 (Z.shiftl (uiH a) (32 - shift)))).

(** common/gcc-millicode/anddi3.c:43-53 (__anddi3). *)
Definition __anddi3 (a b : Z) : Z := ll (Z.land (uiH a) (uiH b)) (Z.land (uiL a) (uiL b)).

(** common/gcc-millicode/iordi3.c:43-53 (__iordi3). *)
Definition __iordi3 (a b : Z) : Z := ll (Z.lor (uiH a) (uiH b)) (Z.lor (uiL a) (uiL b)).

(** common/gcc-millicode/xordi3.c:43-53 (__xordi3). *)
Definition __xordi3 (a b : Z) : Z := ll (Z.lxor (uiH a) (uiH b)) (Z.lxor (uiL a) (uiL b)).

(** common/gcc-millicode/notdi2.c:44-53 (__one_cmpldi2). *)
Definition __one_cmpldi2 (a : Z) : Z := ll (u32 (Z.lnot (uiH a))) (u32 (Z.lnot (uiL a))).

(** common/gcc-millicode/muldi3.c:183-241 (__lmulq): 32 by 32 bits to 64. *)
Definition __lmulq (u v : Z) : Z :=
  let u1 := HHALF u in
  let u0 := LHALF u in
  let v1 := HHALF v in
  let v0 := LHALF v in
  let low := u32 (u0 * v0) in
  if (u1 =? 0) && (v1 =? 0) then low else
  let '(udiff, neg) := if u0 <=? u1 then (u32 (u1 - u0), false) else (u32 (u0 - u1), true) in
  let '(vdiff, neg) := if v1 <=? v0 then (u32 (v0 - v1), neg) else (u32 (v1 - v0), negb neg) in
  let mid := u32 (udiff * vdiff) in
  let high := u32 (u1 * v1) in
  let prodh := u32 (high + HHALF high) in
  let prodl := LHUP high in
  let '(prodh, prodl) :=
    if neg then
      let was := prodl in
      let prodl := u32 (prodl - LHUP mid) in
      (u32 (prodh - u32 (HHALF mid + cmp (was <? prodl))), prodl)
    else
      let was := prodl in
      let prodl := u32 (prodl + LHUP mid) in
      (u32 (prodh + u32 (HHALF mid + cmp (prodl <? was))), prodl) in
  let was := prodl in
  let prodl := u32 (prodl + LHUP low) in
  let prodh := u32 (prodh + u32 (HHALF low + cmp (prodl <? was))) in
  let prodl := u32 (prodl + low) in
  let prodh := if prodl <? low then u32 (prodh + 1) else prodh in
  ll prodh prodl.

(** common/gcc-millicode/muldi3.c:124-158 (__muldi3): the product of two 64-bit
    values given by their words. *)
Definition muldi3_prod (u1 u0 v1 v0 : Z) : Z :=
  if (u1 =? 0) && (v1 =? 0) then __lmulq u0 v0 else
  let low := __lmulq u0 v0 in
  let '(negmid, udiff) := if u0 <=? u1 then (false, u32 (u1 - u0)) else (true, u32 (u0 - u1)) in
  let '(negmid, vdiff) := if v1 <=? v0 then (negmid, u32 (v0 - v1)) else (negb negmid, u32 (v1 - v0)) in
  let mid := u32 (udiff * vdiff) in
  let high := u32 (u1 * v1) in
  let prodH := u32 (u32 (u32 (high + (if negmid then u32 (- mid) else mid)) + uiL low) + uiH low) in
  ll prodH (uiL low).

(** common/gcc-millicode/muldi3.c:99-164 (__muldi3). *)
Definition __muldi3 (a b : Z) : Z :=
  let '(u, negall) := if 0 <=? a then (a, false) else (s64 (- a), true) in
  let '(v, negall) := if 0 <=? b then (b, negall) else (s64 (- b), negb negall) in
  let prod := muldi3_prod (uiH u) (uiL u) (uiH v) (uiL v) in
  if negall then s64 (- prod) else prod.

(** ** The halves of a word *)

Lemma uiH_range x : 0 <= uiH x < 2 ^ 32.
Proof. apply wrapu_range; lia. Qed.

Lemma uiL_range x : 0 <= uiL x < 2 ^ 32.
Proof. apply wrapu_range; lia. Qed.

(** The two words are the value, up to multiples of 2^64. *)
Lemma halves_eqm x : ull (uiH x) (uiL x) ≡[64] x.
Proof.
  unfold ull, uiH, uiL, wrapu. rewrite Z.shiftr_div_pow2 by lia.
  exists (- (x / 2 ^ 32 / 2 ^ 32)). pose proof (Z.div_mod x (2 ^ 32)).
  pose proof (Z.div_mod (x / 2 ^ 32) (2 ^ 32)). lia.
Qed.

Lemma halves_u x : 0 <= x < 2 ^ 64 -> ull (uiH x) (uiL x) = x.
Proof.
  intros Hx. unfold ull, uiH, uiL, wrapu. rewrite Z.shiftr_div_pow2 by lia.
  rewrite (Z.mod_small (x / _)) by (split; [apply Z.div_pos|apply Z.div_lt_upper_bound]; lia).
  pose proof (Z.div_mod x (2 ^ 32)). lia.
Qed.

Lemma halves_s x : - 2 ^ 63 <= x < 2 ^ 63 -> siH x * 2 ^ 32 + uiL x = x.
Proof.
  intros Hx. unfold siH, uiL, wrapu. rewrite Z.shiftr_div_pow2 by lia.
  pose proof (Z.div_mod x (2 ^ 32)). pose proof (Z.mod_pos_bound x (2 ^ 32)).
  rewrite wraps_small by lia. lia.
Qed.

Lemma ull_split h l : 0 <= h < 2 ^ 32 -> 0 <= l < 2 ^ 32 -> uiH (ull h l) = h /\ uiL (ull h l) = l.
Proof.
  intros Hh Hl. unfold uiH, uiL, ull, wrapu. rewrite Z.shiftr_div_pow2 by lia.
  rewrite Z.div_add_l, (Z.div_small l), Z.add_0_r, Z.mod_small by lia. split; [done|].
  rewrite Z.add_comm, Z.mod_add by lia. apply Z.mod_small. lia.
Qed.

Lemma HHALF_eq x : HHALF x = x / 2 ^ 16.
Proof. unfold HHALF. by rewrite Z.shiftr_div_pow2 by lia. Qed.

Lemma LHALF_eq x : LHALF x = x mod 2 ^ 16.
Proof.
  unfold LHALF. rewrite Z.shiftl_1_l. change (2 ^ 16 - 1) with (Z.ones 16).
  by rewrite Z.land_ones by lia.
Qed.

Lemma half_split x : 0 <= x < 2 ^ 32 ->
  x = HHALF x * 2 ^ 16 + LHALF x /\ 0 <= HHALF x < 2 ^ 16 /\ 0 <= LHALF x < 2 ^ 16.
Proof.
  intros Hx. rewrite HHALF_eq, LHALF_eq. pose proof (Z.div_mod x (2 ^ 16)).
  pose proof (Z.mod_pos_bound x (2 ^ 16)). lia.
Qed.

(** [x << 16] as a [long long]. *)
Lemma HHALF_LHUP x : 0 <= x < 2 ^ 32 -> ull (HHALF x) (LHUP x) = x * 2 ^ 16.
Proof.
  intros Hx. unfold ull, LHUP, wrapu. rewrite HHALF_eq, Z.shiftl_mul_pow2 by lia.
  pose proof (Z.div_mod x (2 ^ 16)). change (2 ^ 32) with (2 ^ 16 * 2 ^ 16).
  rewrite Zmult_mod_distr_r. lia.
Qed.

Lemma LHUP_range x : 0 <= LHUP x < 2 ^ 32.
Proof. apply wrapu_range; lia. Qed.

(** ** Carries *)

Lemma ull_eqm h h' l : h ≡[32] h' -> ull h l ≡[64] ull h' l.
Proof.
  intros H. unfold ull. apply eqm_add; [|reflexivity]. apply (eqm_high 32 32); [lia..|done].
Qed.

Lemma carry_add h l y x :
  0 <= l < 2 ^ 32 -> 0 <= x < 2 ^ 32 ->
  ull (h + (y + cmp (u32 (l + x) <? l))) (u32 (l + x)) = ull h l + ull y x.
Proof.
  intros Hl Hx. unfold ull, cmp. destruct (decide (l + x < 2 ^ 32)).
  - rewrite wrapu_small by lia. destruct (Z.ltb_spec (l + x) l); lia.
  - replace (u32 (l + x)) with (l + x - 2 ^ 32)
      by (unfold wrapu; rewrite <- (Z.mod_add (l + x) (-1)) by lia; rewrite Z.mod_small; lia).
    destruct (Z.ltb_spec (l + x - 2 ^ 32) l); lia.
Qed.

Lemma borrow_sub h l y x :
  0 <= l < 2 ^ 32 -> 0 <= x < 2 ^ 32 ->
  ull (h - (y + cmp (l <? u32 (l - x)))) (u32 (l - x)) = ull h l - ull y x.
Proof.
  intros Hl Hx. unfold ull, cmp. destruct (decide (x <= l)).
  - rewrite wrapu_small by lia. destruct (Z.ltb_spec l (l - x)); lia.
  - replace (u32 (l - x)) with (l - x + 2 ^ 32)
      by (unfold wrapu; rewrite <- (Z.mod_add (l - x) 1) by lia; rewrite Z.mod_small; lia).
    destruct (Z.ltb_spec l (l - x + 2 ^ 32)); lia.
Qed.

Lemma ll_eqm h l x : ull h l ≡[64] x -> ll h l = s64 x.
Proof. intros H. by apply wraps_eqm; [lia|]. Qed.

Lemma u32_eqm x : u32 x ≡[32] x.
Proof. by apply eqm_wrapu. Qed.

(** ** Addition, subtraction, negation, comparison *)

Lemma adddi3_eq a b : __adddi3 a b = s64 (a + b).
Proof.
  apply ll_eqm. etransitivity; [apply ull_eqm; rewrite !u32_eqm; reflexivity|].
  rewrite (Z.add_comm (uiL a)), (Z.add_comm (uiH a)), <- Z.add_assoc, carry_add by apply uiL_range.
  rewrite !halves_eqm. by rewrite Z.add_comm.
Qed.

Lemma subdi3_eq a b : __subdi3 a b = s64 (a - b).
Proof.
  apply ll_eqm. etransitivity; [apply ull_eqm; rewrite !u32_eqm; reflexivity|].
  rewrite <- Z.sub_add_distr, borrow_sub by apply uiL_range. by rewrite !halves_eqm.
Qed.

Lemma negdi2_eq a : __negdi2 a = s64 (- a).
Proof.
  apply ll_eqm. etransitivity; [apply ull_eqm; rewrite !u32_eqm; reflexivity|].
  rewrite <- !(Z.sub_0_l (uiH a)), <- !(Z.sub_0_l (uiL a)), <- Z.sub_add_distr.
  rewrite borrow_sub by (try apply uiL_range; lia). rewrite !halves_eqm. reflexivity.
Qed.

Definition three_way (a b : Z) : Z := match a ?= b with Lt => 0 | Eq => 1 | Gt => 2 end.

Lemma three_way_words h l h' l' :
  0 <= l < 2 ^ 32 -> 0 <= l' < 2 ^ 32 ->
  (if h <? h' then 0 else if h' <? h then 2 else if l <? l' then 0 else if l' <? l then 2 else 1)
  = three_way (h * 2 ^ 32 + l) (h' * 2 ^ 32 + l').
Proof.
  intros. unfold three_way.
  destruct (Z.compare_spec (h * 2 ^ 32 + l) (h' * 2 ^ 32 + l')),
    (Z.ltb_spec h h'), (Z.ltb_spec h' h), (Z.ltb_spec l l'), (Z.ltb_spec l' l); lia.
Qed.

Lemma cmpdi2_eq a b :
  - 2 ^ 63 <= a < 2 ^ 63 -> - 2 ^ 63 <= b < 2 ^ 63 -> __cmpdi2 a b = three_way a b.
Proof.
  intros. unfold __cmpdi2. rewrite three_way_words by apply uiL_range. by rewrite !halves_s.
Qed.

Lemma ucmpdi2_eq a b :
  0 <= a < 2 ^ 64 -> 0 <= b < 2 ^ 64 -> __ucmpdi2 a b = three_way a b.
Proof.
  intros. unfold __ucmpdi2. rewrite three_way_words by apply uiL_range.
  fold (ull (uiH a) (uiL a)) (ull (uiH b) (uiL b)). by rewrite !halves_u.
Qed.

(** ** Multiplication *)

(** [prod += x << 16], [prod -= x << 16] and [prod += x] on a product in two words. *)
Lemma prod_add ph pl x :
  0 <= pl < 2 ^ 32 -> 0 <= x < 2 ^ 32 ->
  ull (u32 (ph + u32 (HHALF x + cmp (u32 (pl + LHUP x) <? pl)))) (u32 (pl + LHUP x))
  ≡[64] ull ph pl + x * 2 ^ 16.
Proof.
  intros Hpl Hx. etransitivity; [apply ull_eqm; rewrite !u32_eqm; reflexivity|].
  rewrite carry_add by (done || apply LHUP_range). by rewrite HHALF_LHUP.
Qed.

Lemma prod_sub ph pl x :
  0 <= pl < 2 ^ 32 -> 0 <= x < 2 ^ 32 ->
  ull (u32 (ph - u32 (HHALF x + cmp (pl <? u32 (pl - LHUP x))))) (u32 (pl - LHUP x))
  ≡[64] ull ph pl - x * 2 ^ 16.
Proof.
  intros Hpl Hx. etransitivity; [apply ull_eqm; rewrite !u32_eqm; reflexivity|].
  rewrite borrow_sub by (done || apply LHUP_range). by rewrite HHALF_LHUP.
Qed.

Lemma prod_add_low ph pl x :
  0 <= pl < 2 ^ 32 -> 0 <= x < 2 ^ 32 ->
  ull (if u32 (pl + x) <? x then u32 (ph + 1) else ph) (u32 (pl + x)) ≡[64] ull ph pl + x.
Proof.
  intros Hpl Hx. transitivity (ull (ph + (0 + cmp (u32 (x + pl) <? x))) (u32 (x + pl))).
  - rewrite (Z.add_comm x). apply ull_eqm. unfold cmp. destruct (_ <? x); [apply u32_eqm|].
    by rewrite !Z.add_0_r.
  - rewrite carry_add by done. unfold ull. apply eq_subrelation; [apply _|lia].
Qed.

(** The last statements of [__lmulq], which add [low * (2^16 + 1)] to the product. *)
Definition lmulq_tail (low : Z) (prod : Z * Z) : Z :=
  let '(prodh, prodl) := prod in
  let was := prodl in
  let prodl := u32 (prodl + LHUP low) in
  let prodh := u32 (prodh + u32 (HHALF low + cmp (prodl <? was))) in
  let prodl := u32 (prodl + low) in
  let prodh := if prodl <? low then u32 (prodh + 1) else prodh in
  ll prodh prodl.

Lemma lmulq_tail_eq low ph pl X :
  0 <= low < 2 ^ 32 -> 0 <= pl < 2 ^ 32 -> ull ph pl ≡[64] X ->
  lmulq_tail low (ph, pl) = s64 (X + low * 2 ^ 16 + low).
Proof.
  intros Hlow Hpl HX. apply ll_eqm. rewrite prod_add_low by (try apply wrapu_range; lia).
  by rewrite prod_add, HX.
Qed.

Lemma u32_range x : 0 <= u32 x < 2 ^ 32.
Proof. apply wrapu_range. lia. Qed.

Lemma lmulq_eq u v : 0 <= u < 2 ^ 32 -> 0 <= v < 2 ^ 32 -> __lmulq u v = s64 (u * v).
Proof.
  intros Hu Hv. unfold __lmulq.
  destruct (half_split u Hu) as (Eu & Hu1 & Hu0), (half_split v Hv) as (Ev & Hv1 & Hv0).
  revert Eu Hu1 Hu0 Ev Hv1 Hv0. clear Hu Hv.
  generalize (HHALF u) (LHALF u) (HHALF v) (LHALF v). intros u1 u0 v1 v0 -> Hu1 Hu0 -> Hv1 Hv0.
  cbv zeta. rewrite !(wrapu_small 32 (u0 * v0)), !(wrapu_small 32 (u1 * v1)) by nia.
  destruct ((u1 =? 0) && (v1 =? 0)) eqn:E; bool_to_prop.
  { subst. rewrite wraps_small by nia. lia. }
  set (high := u1 * v1). set (low := u0 * v0).
  assert (Hhigh : 0 <= high < 2 ^ 32) by (unfold high; nia).
  assert (Hlow : 0 <= low < 2 ^ 32) by (unfold low; nia).
  assert (Hp : ull (u32 (high + HHALF high)) (LHUP high) ≡[64] high * 2 ^ 32 + high * 2 ^ 16).
  { etransitivity; [apply ull_eqm, u32_eqm|]. pose proof (HHALF_LHUP high Hhigh). unfold ull in *.
    apply eq_subrelation; [apply _|lia]. }
  pose proof (LHUP_range high) as Hl.
  destruct (Z.leb_spec u0 u1), (Z.leb_spec v1 v0); cbn [negb];
    rewrite ?(wrapu_small 32 (u1 - u0)), ?(wrapu_small 32 (u0 - u1)), ?(wrapu_small 32 (v0 - v1)),
      ?(wrapu_small 32 (v1 - v0)) by lia; rewrite !(wrapu_small 32 (_ * _)) by nia;
    match goal with |- context [LHUP (?a * ?b)] => set (mid := a * b); assert (0 <= mid < 2 ^ 32) by (unfold mid; nia) end.
  1, 4: etransitivity; [eapply (lmulq_tail_eq low _ _ _ Hlow (u32_range _)); rewrite prod_add, Hp by done; reflexivity|].
  3, 4: etransitivity; [eapply (lmulq_tail_eq low _ _ _ Hlow (u32_range _)); rewrite prod_sub, Hp by done; reflexivity|].
  all: f_equal; unfold mid, high, low; ring.
Qed.

Lemma s64_eqm x : s64 x ≡[64] x.
Proof. by apply eqm_wraps. Qed.

(** The product modulo 2^64 from the three half-size products. *)
Lemma karatsuba u1 u0 v1 v0 low :
  low ≡[64] u0 * v0 ->
  ull (u1 * v1 + (u1 - u0) * (v0 - v1) + uiL low + uiH low) (uiL low)
  ≡[64] ull u1 u0 * ull v1 v0.
Proof.
  intros Hlow.
  assert (H32 : uiL low * 2 ^ 32 ≡[64] u0 * v0 * 2 ^ 32).
  { apply (eqm_high 32 32); [lia..|]. unfold uiL. rewrite u32_eqm. destruct Hlow as [k Hk].
    exists (k * 2 ^ 32). lia. }
  pose proof (transitivity (halves_eqm low) Hlow) as Hh. unfold ull in *.
  transitivity ((u1 * v1 + (u1 - u0) * (v0 - v1)) * 2 ^ 32 + uiL low * 2 ^ 32
                + (uiH low * 2 ^ 32 + uiL low)); [apply eq_subrelation; [apply _|ring]|].
  rewrite H32, Hh. exists (- (u1 * v1)). ring.
Qed.

Lemma muldi3_prod_eq u1 u0 v1 v0 :
  0 <= u1 < 2 ^ 32 -> 0 <= u0 < 2 ^ 32 -> 0 <= v1 < 2 ^ 32 -> 0 <= v0 < 2 ^ 32 ->
  muldi3_prod u1 u0 v1 v0 = s64 (ull u1 u0 * ull v1 v0).
Proof.
  intros Hu1 Hu0 Hv1 Hv0. unfold muldi3_prod. rewrite lmulq_eq by done.
  destruct ((u1 =? 0) && (v1 =? 0)) eqn:E; bool_to_prop; [by subst|].
  destruct (Z.leb_spec u0 u1), (Z.leb_spec v1 v0); cbn [negb]; apply ll_eqm;
    rewrite <- (karatsuba u1 u0 v1 v0 _ (s64_eqm _)); generalize (uiL (s64 (u0 * v0))); intros l;
    apply ull_eqm; rewrite !u32_eqm; apply eq_subrelation; try apply _; ring.
Qed.

(** The absolute value modulo 2^64, and its sign. *)
Lemma abs_eqm a neg : exists sg u,
  (if 0 <=? a then (a, neg) else (s64 (- a), negb neg)) = (u, xorb neg (bool_decide (a < 0))) /\
  (sg = 1 \/ sg = -1) /\ sg = (if bool_decide (a < 0) then -1 else 1) /\ u ≡[64] sg * a.
Proof.
  case_bool_decide; destruct (Z.leb_spec 0 a); try lia.
  - exists (-1), (s64 (- a)). rewrite xorb_true_r. split_and!; auto.
    rewrite s64_eqm. apply eq_subrelation; [apply _|lia].
  - exists 1, a. rewrite xorb_false_r. split_and!; auto. apply eq_subrelation; [apply _|lia].
Qed.

(** Multiplication of [long long]s, by Karatsuba's method on half words twice over, is
    multiplication modulo 2^64 for all operands, signs and overflows included. *)
Theorem muldi3_spec (a b : Z) : __muldi3 a b = s64 (a * b).
Proof.
  unfold __muldi3.
  destruct (abs_eqm a false) as (sa & u & Ea & Ha & Hsa & Hu). cbn [negb xorb] in Ea. rewrite Ea.
  destruct (abs_eqm b (bool_decide (a < 0))) as (sb & v & Eb & Hb & Hsb & Hv). rewrite Eb.
  rewrite muldi3_prod_eq by (apply uiH_range || apply uiL_range).
  assert (HX : ull (uiH u) (uiL u) * ull (uiH v) (uiL v) ≡[64] sa * sb * (a * b)).
  { rewrite !halves_eqm, Hu, Hv. apply eq_subrelation; [apply _|ring]. }
  replace (xorb _ _) with (bool_decide (sa * sb = -1)).
  2:{ subst. do 2 case_bool_decide; reflexivity. }
  clear Ea Eb Hsa Hsb. case_bool_decide as E; apply wraps_eqm; try lia; rewrite ?s64_eqm, HX;
    apply eq_subrelation; try apply _; nia.
Qed.

(** ** Shifts and bit operations *)

Lemma u32_shiftl x n : 0 <= n -> u32 (Z.shiftl x n) ≡[32] x * 2 ^ n.
Proof. intros Hn. rewrite u32_eqm, Z.shiftl_mul_pow2 by lia. reflexivity. Qed.

(** A left shift by less than a word moves the top bits of the low word up. *)
Lemma shl_words h l n :
  0 <= h < 2 ^ 32 -> 0 <= l < 2 ^ 32 -> 0 < n < 32 ->
  ull (Z.lor (u32 (Z.shiftl h n)) (Z.shiftr l (32 - n))) (u32 (Z.shiftl l n)) ≡[64] ull h l * 2 ^ n.
Proof.
  intros Hh Hl Hn. rewrite Z.shiftr_div_pow2, !Z.shiftl_mul_pow2 by lia.
  assert (E : 2 ^ 32 = 2 ^ (32 - n) * 2 ^ n) by (rewrite <- Z.pow_add_r by lia; f_equal; lia).
  assert (0 < 2 ^ n /\ 0 < 2 ^ (32 - n)) as [Hp Hq] by lia.
  unfold wrapu at 1. rewrite E, Zmult_mod_distr_r, lor_disjoint.
  2: lia. 2:{ split; [apply Z.div_pos; lia|]. apply Z.div_lt_upper_bound; nia. }
  rewrite <- Zmult_mod_distr_r, <- E. fold (u32 (h * 2 ^ n)).
  etransitivity; [apply ull_eqm; rewrite u32_eqm; reflexivity|].
  unfold ull, wrapu. rewrite E, Zmult_mod_distr_r. pose proof (Z.div_mod l (2 ^ (32 - n))).
  apply eq_subrelation; [apply _|]. nia.
Qed.

Lemma shl_high l n : 32 <= n -> ull (u32 (Z.shiftl l (n - 32))) 0 ≡[64] ull 0 l * 2 ^ n.
Proof.
  intros Hn. etransitivity; [apply ull_eqm, u32_shiftl; lia|]. unfold ull.
  replace (2 ^ n) with (2 ^ (n - 32) * 2 ^ 32) by (rewrite <- Z.pow_add_r by lia; f_equal; lia).
  apply eq_subrelation; [apply _|]. ring.
Qed.

Lemma ull_high h l n : 32 <= n -> ull h l * 2 ^ n ≡[64] ull 0 l * 2 ^ n.
Proof.
  intros Hn. exists (h * 2 ^ (n - 32)). unfold ull.
  replace (2 ^ n) with (2 ^ (n - 32) * 2 ^ 32) by (rewrite <- Z.pow_add_r by lia; f_equal; lia). ring.
Qed.

Lemma ashldi3_eq a n : - 2 ^ 63 <= a < 2 ^ 63 -> 0 <= n < 64 -> __ashldi3 a n = s64 (a * 2 ^ n).
Proof.
  intros Ha Hn. unfold __ashldi3.
  destruct (Z.eqb_spec n 0) as [->|]; [by rewrite Z.mul_1_r, wraps_small|].
  assert (E : ull (uiH a) (uiL a) * 2 ^ n ≡[64] a * 2 ^ n) by (by rewrite halves_eqm).
  destruct (Z.leb_spec 32 n); apply ll_eqm.
  - by rewrite shl_high, <- (ull_high (uiH a)), E by lia.
  - by rewrite shl_words, E by (try apply uiH_range; try apply uiL_range; lia).
Qed.

(** A right shift: [h] is the high word, signed or not, [h'] its bits. *)
Lemma shr_words h h' l n :
  h' ≡[32] h -> 0 <= l < 2 ^ 32 -> 0 < n < 32 ->
  ull (Z.shiftr h n) (Z.lor (Z.shiftr l n) (u32 (Z.shiftl h' (32 - n)))) = ull h l / 2 ^ n.
Proof.
  intros Hh Hl Hn. rewrite !Z.shiftr_div_pow2, Z.shiftl_mul_pow2 by lia.
  assert (E : 2 ^ 32 = 2 ^ (32 - n) * 2 ^ n) by (rewrite <- Z.pow_add_r by lia; f_equal; lia).
  assert (0 < 2 ^ n /\ 0 < 2 ^ (32 - n)) as [Hp Hq] by lia.
  rewrite (wrapu_eqm 32 (h' * _) (h * 2 ^ (32 - n))) by (lia || by rewrite Hh).
  unfold ull, wrapu. rewrite E, (Z.mul_comm (2 ^ (32 - n))), Zmult_mod_distr_r, Z.lor_comm, lor_disjoint;
    [|lia|split; [apply Z.div_pos; lia|apply Z.div_lt_upper_bound; nia]].
  replace (h * _) with (h * 2 ^ (32 - n) * 2 ^ n) by ring. rewrite Z.div_add_l by lia.
  pose proof (Z.div_mod h (2 ^ n)). nia.
Qed.

Lemma shr_high h l n : 0 <= l < 2 ^ 32 -> 32 <= n -> Z.shiftr h (n - 32) = ull h l / 2 ^ n.
Proof.
  intros Hl Hn. rewrite Z.shiftr_div_pow2 by lia.
  replace (2 ^ n) with (2 ^ 32 * 2 ^ (n - 32)) by (rewrite <- Z.pow_add_r by lia; f_equal; lia).
  rewrite <- Z.div_div by lia. unfold ull. by rewrite Z.div_add_l, (Z.div_small l), Z.add_0_r by lia.
Qed.

Lemma lshrdi3_eq a n : - 2 ^ 63 <= a < 2 ^ 63 -> 0 <= n < 64 -> __lshrdi3 a n = s64 (u64 a / 2 ^ n).
Proof.
  intros Ha Hn. unfold __lshrdi3.
  assert (E : u64 a = ull (uiH a) (uiL a)).
  { rewrite <- (wrapu_eqm 64 _ _ ltac:(lia) (halves_eqm a)). apply wrapu_small. unfold ull.
    pose proof (uiH_range a). pose proof (uiL_range a). lia. }
  destruct (Z.eqb_spec n 0) as [->|].
  { rewrite Z.div_1_r. rewrite <- (wraps_small 64 a) at 1 by lia.
    apply wraps_eqm; [lia|]. symmetry. by apply eqm_wrapu. }
  rewrite E. destruct (Z.leb_spec 32 n).
  - by rewrite (shr_high _ (uiL a)) by (try apply uiL_range; lia).
  - unfold ll. by rewrite (shr_words _ (uiH a)) by (try apply uiL_range; lia || reflexivity).
Qed.

Lemma siH_eqm a : uiH a ≡[32] siH a.
Proof. unfold uiH, siH. rewrite u32_eqm. symmetry. by apply eqm_wraps. Qed.

(** The sign word is the high word of every right shift. *)
Lemma sign_word x n : - 2 ^ 31 <= x < 2 ^ 31 -> 0 <= n -> Z.shiftr (Z.shiftr x 31) 1 = Z.shiftr (Z.shiftr x n) 32.
Proof.
  intros Hx Hn. rewrite !Z.shiftr_shiftr, !Z.shiftr_div_pow2 by lia.
  assert (2 ^ 32 <= 2 ^ (n + 32)) by (apply Z.pow_le_mono_r; lia). destruct (decide (0 <= x)).
  - by rewrite !Z.div_small by lia.
  - transitivity (-1); [symmetry; apply (Z.div_unique _ _ _ (x + 2 ^ 32))|
      apply (Z.div_unique _ _ _ (x + 2 ^ (n + 32)))]; lia.
Qed.

Lemma ashrdi3_eq a n : - 2 ^ 63 <= a < 2 ^ 63 -> 0 <= n < 64 -> __ashrdi3 a n = a / 2 ^ n.
Proof.
  intros Ha Hn. unfold __ashrdi3. destruct (Z.eqb_spec n 0) as [->|]; [by rewrite Z.div_1_r|].
  pose proof (halves_s a Ha) as E. fold (ull (siH a) (uiL a)) in E.
  assert (HR : - 2 ^ 63 <= a / 2 ^ n < 2 ^ 63).
  { pose proof (Z.div_mod a (2 ^ n)). pose proof (Z.mod_pos_bound a (2 ^ n)).
    assert (1 <= 2 ^ n) by (apply (Z.pow_le_mono_r 2 0); lia). nia. }
  rewrite <- (wraps_small 64 (a / 2 ^ n)) by lia. destruct (Z.leb_spec 32 n).
  - apply ll_eqm. rewrite (sign_word _ (n - 32)) by (try apply (wraps_range 32); lia).
    rewrite (shr_high _ (uiL a)), E by (try apply uiL_range; lia).
    etransitivity; [apply ull_eqm, u32_eqm|]. apply eq_subrelation; [apply _|].
    unfold ull, wrapu. rewrite Z.shiftr_div_pow2 by lia. pose proof (Z.div_mod (a / 2 ^ n) (2 ^ 32)). lia.
  - apply ll_eqm. etransitivity; [apply ull_eqm, u32_eqm|].
    rewrite (shr_words _ (uiH a)), E by (try apply uiL_range; lia || apply siH_eqm). reflexivity.
Qed.

(** Bit by bit operations work on the words. *)
Section bitwise.
Context (f : Z -> Z -> Z) (g : bool -> bool -> bool).
Hypothesis Hf : forall a b i, 0 <= i -> Z.testbit (f a b) i = g (Z.testbit a i) (Z.testbit b i).
Hypothesis Hg : g false false = false.

Lemma word_testbit x i : 0 <= i -> Z.testbit (u32 x) i = if decide (i < 32) then Z.testbit x i else false.
Proof.
  intros Hi. unfold wrapu. case_decide; [by rewrite Z.mod_pow2_bits_low by lia|].
  by rewrite Z.mod_pow2_bits_high by lia.
Qed.

Lemma f_word a b : f (u32 a) (u32 b) = u32 (f a b).
Proof.
  apply Z.bits_inj'. intros i Hi. rewrite Hf, !word_testbit, Hf by done. by case_decide.
Qed.

Lemma words_bitwise a b : ull (f (uiH a) (uiH b)) (f (uiL a) (uiL b)) ≡[64] f a b.
Proof.
  unfold uiH, uiL. rewrite !f_word.
  replace (f (Z.shiftr a 32) (Z.shiftr b 32)) with (Z.shiftr (f a b) 32); [apply halves_eqm|].
  apply Z.bits_inj'. intros i Hi. by rewrite Hf, !Z.shiftr_spec, Hf by lia.
Qed.

End bitwise.

Lemma lnot_word x : u32 (Z.lnot (u32 x)) = u32 (Z.lnot x).
Proof. apply wrapu_eqm; [lia|]. rewrite !Z.lnot_eq_pred_opp. by rewrite u32_eqm. Qed.

Lemma lnot_words a : ull (u32 (Z.lnot (uiH a))) (u32 (Z.lnot (uiL a))) ≡[64] Z.lnot a.
Proof.
  unfold uiH, uiL. rewrite !lnot_word.
  replace (Z.lnot (Z.shiftr a 32)) with (Z.shiftr (Z.lnot a) 32); [apply halves_eqm|].
  apply Z.bits_inj'. intros i Hi. by rewrite Z.lnot_spec, !Z.shiftr_spec, Z.lnot_spec by lia.
Qed.

(** ** Theorems *)

(** Addition, subtraction and negation of [long long]s are the operations modulo 2^64,
    comparison is the comparison of the values, and the bit operations are those on all
    64 bits. *)
Theorem word_ops_spec (a b : Z) (Ha : - 2 ^ 63 <= a < 2 ^ 63) (Hb : - 2 ^ 63 <= b < 2 ^ 63) :
  __adddi3 a b = s64 (a + b) /\ __subdi3 a b = s64 (a - b) /\ __negdi2 a = s64 (- a) /\
  __cmpdi2 a b = three_way a b /\ __ucmpdi2 (u64 a) (u64 b) = three_way (u64 a) (u64 b) /\
  __anddi3 a b = s64 (Z.land a b) /\ __iordi3 a b = s64 (Z.lor a b) /\
  __xordi3 a b = s64 (Z.lxor a b) /\ __one_cmpldi2 a = s64 (Z.lnot a).
Proof.
  split_and!.
  - apply adddi3_eq.
  - apply subdi3_eq.
  - apply negdi2_eq.
  - by apply cmpdi2_eq.
  - apply ucmpdi2_eq; apply wrapu_range; lia.
  - apply ll_eqm, (words_bitwise _ andb); [intros; apply Z.land_spec|done].
  - apply ll_eqm, (words_bitwise _ orb); [intros; apply Z.lor_spec|done].
  - apply ll_eqm, (words_bitwise _ xorb); [intros; apply Z.lxor_spec|done].
  - apply ll_eqm, lnot_words.
Qed.

(** Shifts of a [long long] by less than 64: the left shifts multiply modulo 2^64, the
    arithmetic right shift divides rounding down, the logical one divides the unsigned
    value. *)
Theorem shifts_spec (a n : Z) (Ha : - 2 ^ 63 <= a < 2 ^ 63) (Hn : 0 <= n < 64) :
  __ashldi3 a n = s64 (a * 2 ^ n) /\ __lshldi3 a n = s64 (a * 2 ^ n) /\
  __ashrdi3 a n = a / 2 ^ n /\ __lshrdi3 a n = s64 (u64 a / 2 ^ n).
Proof.
  split_and!; [by apply ashldi3_eq|by apply (ashldi3_eq a n)|by apply ashrdi3_eq|by apply lshrdi3_eq].
Qed.

Lemma word_ops_spec_witness : __adddi3 (2 ^ 63 - 1) 1 = s64 (2 ^ 63 - 1 + 1) /\ s64 (2 ^ 63) = - 2 ^ 63.
Proof. split; [apply (word_ops_spec (2 ^ 63 - 1) 1); lia|reflexivity]. Defined.

Lemma shifts_spec_witness : __ashrdi3 (- 5) 33 = - 5 / 2 ^ 33 /\ - 5 / 2 ^ 33 = - 1.
Proof. split; [apply (shifts_spec (- 5) 33); lia|reflexivity]. Defined.
