(* ===== verification/QDivRem.v ===== *)
(** * 64-bit division, common/gcc-millicode

    [__qdivrem] divides 64-bit numbers with 32-bit operations: Knuth's Algorithm D on
    digits in base 2^16. Its arrays are lists, its pointers [u], [v], [q] into them are
    indices [ub], [vb], [qb] of the elements they point to. The signed and unsigned
    division and remainder of [long long]s are built on it. *)

From stdpp Require Import base numbers list.
From Stdlib Require Import ZArith Lia.
From S2P Require Import Prelude.
From S2P Require Import LongLong.

Open Scope Z_scope.

(** common/gcc-millicode/qdivrem.c:45-45 (B): the base of the digits. *)
Definition B : Z := 65536.

(** common/gcc-millicode/qdivrem.c:48-48 (COMBINE). *)
Definition COMBINE (a b : Z) : Z := Z.lor (u32 (Z.shiftl a 16)) b.

(** common/gcc-millicode/qdivrem.c:270-279 (shl): [p] is the index of [p[0]] in the
    array [a]; [len] digits remain before the last one. *)
Fixpoint shl (a : list Z) (p len : nat) (sh : Z) : list Z :=
  match len with
  | O => <[p := u16 (LHALF (u32 (Z.shiftl (a !!! p) sh)))]> a
  | S len' =>
      shl (<[p := u16 (Z.lor (LHALF (u32 (Z.shiftl (a !!! p) sh))) (Z.shiftr (a !!! S p) (16 - sh)))]> a)
          (S p) len' sh
  end.

(** common/gcc-millicode/qdivrem.c:123-150 (__qdivrem): the loop that skips the leading
    zero digits of [v]: the only digit, or the new base and the number of digits. *)
Fixpoint skip_v (v : list Z) (vb n : nat) : option (Z + nat * nat) :=
  if v !!! S vb =? 0 then
    match n with
    | O => None
    | S n' => if decide (n' = 1)%nat then Some (inl (v !!! S (S vb))) else skip_v v (S vb) n'
    end
  else Some (inr (vb, n)).

(** common/gcc-millicode/qdivrem.c:136-148 (__qdivrem): division by a single digit [t]. *)
Definition short_div (u : list Z) (t : Z) : Z * Z :=
  let q1 := u16 (u !!! 1%nat / t) in
  let rbj := COMBINE (u !!! 1%nat mod t) (u !!! 2%nat) in
  let q2 := u16 (rbj / t) in
  let rbj := COMBINE (rbj mod t) (u !!! 3%nat) in
  let q3 := u16 (rbj / t) in
  let rbj := COMBINE (rbj mod t) (u !!! 4%nat) in
  let q4 := u16 (rbj / t) in
  (ull (COMBINE q1 q2) (COMBINE q3 q4), rbj mod t).

(** common/gcc-millicode/qdivrem.c:157-158 (__qdivrem): the loop that skips the leading
    zero digits of [u]; [m] does not become negative. *)
Fixpoint skip_u (u : list Z) (ub m : nat) : option (nat * nat) :=
  if u !!! S ub =? 0 then
    match m with
    | O => None
    | S m' => skip_u u (S ub) m'
    end
  else Some (ub, m).

(** common/gcc-millicode/qdivrem.c:169-171 (__qdivrem), D1: the number of bits the
    divisor is shifted by. *)
Fixpoint norm_d (fuel : nat) (t d : Z) : option Z :=
  if t <? B / 2 then
    match fuel with
    | O => None
    | S fuel' => norm_d fuel' (u32 (Z.shiftl t 1)) (d + 1)
    end
  else Some d.

(** common/gcc-millicode/qdivrem.c:205-210 (__qdivrem), D3: the loop that lowers [qhat]. *)
Fixpoint qhat_while (fuel : nat) (v1 v2 uj2 qhat rhat : Z) : option Z :=
  match fuel with
  | O => None
  | S fuel' =>
      if COMBINE rhat uj2 <? u32 (v2 * qhat) then
        let qhat := u32 (qhat - 1) in
        let rhat := u32 (rhat + v1) in
        if B <=? rhat then Some qhat else qhat_while fuel' v1 v2 uj2 qhat rhat
      else Some qhat
  end.

(** common/gcc-millicode/qdivrem.c:193-210 (__qdivrem), D3: the estimate of a quotient
    digit; the [goto] enters the loop at its body. *)
Definition get_qhat (v1 v2 uj0 uj1 uj2 : Z) : option Z :=
  if uj0 =? v1 then
    let qhat := u32 (B - 1) in
    let rhat := u32 (uj1 + v1) in
    if B <=? rhat then Some qhat else qhat_while 3 v1 v2 uj2 qhat rhat
  else
    let nn := COMBINE uj0 uj1 in
    qhat_while 3 v1 v2 uj2 (nn / v1) (nn mod v1).

(** common/gcc-millicode/qdivrem.c:217-221 (__qdivrem), D4: subtract [qhat * v] from the
    digits [u[j+1..j+i]]; [uj] is the index of [u[j]]; the final borrow is returned. *)
Fixpoint mulsub (i : nat) (u v : list Z) (uj vb : nat) (qhat t : Z) : list Z * Z :=
  match i with
  | O => (u, t)
  | S i' =>
      let t := u32 (u32 (u !!! (uj + i)%nat - u32 (v !!! (vb + i)%nat * qhat)) - t) in
      mulsub i' (<[(uj + i)%nat := LHALF t]> u) v uj vb qhat (Z.land (u32 (B - HHALF t)) (B - 1))
  end.

(** common/gcc-millicode/qdivrem.c:232-236 (__qdivrem), D6: add [v] back. *)
Fixpoint addback (i : nat) (u v : list Z) (uj vb : nat) (t : Z) : list Z * Z :=
  match i with
  | O => (u, t)
  | S i' =>
      let t := u32 (t + (u !!! (uj + i)%nat + v !!! (vb + i)%nat)) in
      addback i' (<[(uj + i)%nat := LHALF t]> u) v uj vb (HHALF t)
  end.

(** common/gcc-millicode/qdivrem.c:183-239 (__qdivrem), D3 to D6: one quotient digit. *)
Definition div_digit (u v : list Z) (uj vb n : nat) : option (list Z * Z) :=
  match get_qhat (v !!! S vb) (v !!! S (S vb)) (u !!! uj) (u !!! S uj) (u !!! S (S uj)) with
  | None => None
  | Some qhat =>
      let '(u, t) := mulsub n u v uj vb qhat 0 in
      let t := u32 (u !!! uj - t) in
      let u := <[uj := LHALF t]> u in
      if negb (HHALF t =? 0) then
        let qhat := u32 (qhat - 1) in
        let '(u, t) := addback n u v uj vb 0 in
        Some (<[uj := LHALF (u !!! uj + t)]> u, u16 qhat)
      else Some (u, u16 qhat)
  end.

(** common/gcc-millicode/qdivrem.c:182-240 (__qdivrem), D7: the loop on [j], of which
    [k] iterations remain; [uj] and [qj] are the indices of [u[j]] and [q[j]]. *)
Fixpoint div_loop (k : nat) (u v q : list Z) (uj vb n qj : nat) : option (list Z * list Z) :=
  match k with
  | O => Some (u, q)
  | S k' =>
      match div_digit u v uj vb n with
      | None => None
      | Some (u, qd) => div_loop k' u v (<[qj := qd]> q) (S uj) vb n (S qj)
      end
  end.

(** common/gcc-millicode/qdivrem.c:249-253 (__qdivrem): the remainder is shifted back;
    [i] is the index of [u[i]] and [k] the number of iterations left. *)
Fixpoint shift_back (k : nat) (u : list Z) (i : nat) (d : Z) : list Z :=
  match k with
  | O => <[i := 0]> u
  | S k' =>
      shift_back k'
        (<[i := u16 (Z.lor (Z.shiftr (u !!! i) d) (LHALF (u32 (Z.shiftl (u !!! pred i) (16 - d)))))]> u)
        (pred i) d
  end.

(** common/gcc-millicode/qdivrem.c:112-122 (__qdivrem): the digits of a number; [x] is the
    element 0. *)
Definition digits_of (x n : Z) : list Z :=
  [x; u16 (HHALF (uiH n)); u16 (LHALF (uiH n)); u16 (HHALF (uiL n)); u16 (LHALF (uiL n))].

Definition number_of (a : list Z) : Z :=
  ull (COMBINE (a !!! 1%nat) (a !!! 2%nat)) (COMBINE (a !!! 3%nat) (a !!! 4%nat)).

(** common/gcc-millicode/qdivrem.c:67-263 (__qdivrem): the quotient and, if [arq] is not
    NULL, the remainder. [None] is the trap of the division by zero. [g] is what the
    uninitialised [qspace] and [vspace[0]] hold. *)
Definition __qdivrem (g : nat -> Z) (ul vl : Z) (arq : bool) : option (Z * option Z) :=
  let rem (r : Z) := if arq then Some r else None in
  if vl =? 0 then None else
  if ul <? vl then Some (0, rem ul) else
  let u := digits_of 0 ul in
  let v := digits_of (u16 (g 5%nat)) vl in
  match skip_v v 0 4 with
  | None => None
  | Some (inl t) => let '(q, r) := short_div u t in Some (q, rem r)
  | Some (inr (vb, n)) =>
      match skip_u u 0 (4 - n) with
      | None => None
      | Some (ub, m) =>
          let q := replicate (4 - m) 0 ++ map (fun i => u16 (g i)) (seq (4 - m) (S m)) in
          match norm_d 16 (v !!! S vb) 0 with
          | None => None
          | Some d =>
              let u := if 0 <? d then shl u ub (m + n) d else u in
              let v := if 0 <? d then shl v (S vb) (n - 1) d else v in
              match div_loop (S m) u v q ub vb n (4 - m) with
              | None => None
              | Some (u, q) =>
                  let u := if d =? 0 then u else shift_back n u (ub + (m + n)) d in
                  Some (number_of q, rem (number_of u))
              end
          end
      end
  end.

(** common/gcc-millicode/udivdi3.c:43-48 (__udivdi3). *)
Definition __udivdi3 (g : nat -> Z) (a b : Z) : option Z :=
  match __qdivrem g a b false with Some (q, _) => Some q | None => None end.

(** common/gcc-millicode/umoddi3.c:43-50 (__umoddi3). *)
Definition __umoddi3 (g : nat -> Z) (a b : Z) : option Z :=
  match __qdivrem g a b true with Some (_, r) => r | None => None end.

(** common/gcc-millicode/divdi3.c:44-62 (__divdi3). *)
Definition __divdi3 (g : nat -> Z) (a b : Z) : option Z :=
  let ua := u64 a in
  let ub := u64 b in
  let '(ua, neg) := if a <? 0 then (u64 (- ua), true) else (ua, false) in
  let '(ub, neg) := if b <? 0 then (u64 (- ub), negb neg) else (ub, neg) in
  match __qdivrem g ua ub false with
  | Some (uq, _) => Some (s64 (if neg then u64 (- uq) else uq))
  | None => None
  end.

(** common/gcc-millicode/moddi3.c:45-62 (__moddi3). *)
Definition __moddi3 (g : nat -> Z) (a b : Z) : option Z :=
  let ua := u64 a in
  let ub := u64 b in
  let '(ua, neg) := if a <? 0 then (u64 (- ua), true) else (ua, false) in
  let ub := if b <? 0 then u64 (- ub) else ub in
  match __qdivrem g ua ub true with
  | Some (_, Some ur) => Some (s64 (if neg then u64 (- ur) else ur))
  | _ => None
  end.

(** ** Numbers in base [B]

    [num a i k] is the number whose digits, the most significant one first, are
    [a[i..i+k-1]]. *)

Fixpoint num (a : list Z) (i k : nat) : Z :=
  match k with
  | O => 0
  | S k' => num a i k' * B + a !!! (i + k')%nat
  end.

Definition digits (a : list Z) : Prop := forall i, 0 <= a !!! i < B.

(** [a] and [a'] agree outside of [i..i+k-1]. *)
Definition agree_out (i k : nat) (a a' : list Z) : Prop :=
  length a' = length a /\ forall x, (x < i \/ i + k <= x)%nat -> a' !!! x = a !!! x.

Lemma num_ext a a' i k :
  (forall x, (i <= x < i + k)%nat -> a !!! x = a' !!! x) -> num a i k = num a' i k.
Proof.
  induction k as [|k IH]; intros H; [done|]. cbn. rewrite IH, (H (i + k)%nat); [done|lia|].
  intros. apply H. lia.
Qed.

Lemma num_agree a a' i k j l :
  agree_out i k a a' -> (j + l <= i \/ i + k <= j)%nat -> num a' j l = num a j l.
Proof. intros [_ H] Hd. apply num_ext. intros x Hx. apply H. lia. Qed.

Lemma Bpow_succ k : B ^ Z.of_nat (S k) = B * B ^ Z.of_nat k.
Proof. rewrite Nat2Z.inj_succ, Z.pow_succ_r by lia. done. Qed.

Lemma Bpow_pos k : 0 < B ^ Z.of_nat k.
Proof. apply Z.pow_pos_nonneg; unfold B; lia. Qed.

Lemma num_range a i k : digits a -> 0 <= num a i k < B ^ Z.of_nat k.
Proof.
  intros Ha. induction k as [|k IH]; [cbn; lia|]. rewrite Bpow_succ. cbn [num].
  pose proof (Ha (i + k)%nat). nia.
Qed.

Lemma num_split a i k l :
  num a i (k + l) = num a i k * B ^ Z.of_nat l + num a (i + k) l.
Proof.
  induction l as [|l IH]; [rewrite Nat.add_0_r; cbn; lia|].
  rewrite Nat.add_succ_r, Bpow_succ. cbn [num]. rewrite IH, Nat.add_assoc. ring.
Qed.

Lemma num_head a i k : num a i (S k) = a !!! i * B ^ Z.of_nat k + num a (S i) k.
Proof.
  change (S k) with (1 + k)%nat. rewrite num_split. cbn [num]. rewrite Nat.add_0_r, Nat.add_1_r. lia.
Qed.

Lemma num_last a i k : num a i (S k) = num a i k * B + a !!! (i + k)%nat.
Proof. done. Qed.

Lemma num_zero a i k :
  digits a -> num a i k = 0 <-> forall x, (i <= x < i + k)%nat -> a !!! x = 0.
Proof.
  intros Ha. induction k as [|k IH]; [split; [lia|done]|]. rewrite num_last.
  pose proof (num_range a i k Ha). pose proof (Ha (i + k)%nat). split.
  - intros E x Hx. destruct (decide (x = i + k)%nat) as [->|]; [|apply IH]; unfold B in *; lia.
  - intros Hz. rewrite (proj2 IH), (Hz (i + k)%nat); [done|lia|]. intros. apply Hz. lia.
Qed.

Lemma digits_insert a i x : digits a -> 0 <= x < B -> digits (<[i := x]> a).
Proof.
  intros Ha Hx j. destruct (decide (i < length a)%nat).
  - rewrite list_insert_total_lookup by done. case_decide; auto.
  - rewrite list_insert_ge by lia. auto.
Qed.

Lemma agree_refl i k a : agree_out i k a a.
Proof. done. Qed.

Lemma agree_trans i k a b c : agree_out i k a b -> agree_out i k b c -> agree_out i k a c.
Proof. intros [L H] [L' H']. split; [congruence|]. intros. rewrite H', H; auto. Qed.

Lemma agree_mono i k j l a b :
  agree_out i k a b -> (j <= i)%nat -> (i + k <= j + l)%nat -> agree_out j l a b.
Proof. intros [L H] ??. split; [done|]. intros. apply H. lia. Qed.

Lemma agree_insert i x a : (i < length a)%nat -> agree_out i 1 a (<[i := x]> a).
Proof.
  intros Hi. split; [apply length_insert|]. intros j Hj. rewrite list_insert_total_lookup by done.
  rewrite decide_False; [done|lia].
Qed.

Lemma lookup_insert_eq a i (x : Z) : (i < length a)%nat -> <[i := x]> a !!! i = x.
Proof. intros Hi. rewrite list_insert_total_lookup by done. by rewrite decide_True. Qed.

(** ** D4: multiply and subtract *)

(** One digit: the borrow is what the C expressions compute. *)
Lemma borrow_digit x q t y :
  0 <= x < B -> 0 <= q < B -> 0 <= y < B -> 0 <= t < B ->
  let w := u32 (u32 (x - u32 (y * q)) - t) in
  let t' := Z.land (u32 (B - HHALF w)) (B - 1) in
  x - y * q - t = LHALF w - t' * B /\ 0 <= LHALF w < B /\ 0 <= t' < B.
Proof.
  intros Hx Hq Hy Ht w t'. unfold B in *.
  assert (Hw : w = (x - y * q - t) mod 2 ^ 32).
  { apply wrapu_eqm; [lia|]. by rewrite !u32_eqm. }
  assert (E32 : 2 ^ 32 = 65536 * 65536) by done.
  pose proof (Z.div_mod (x - y * q - t) 65536). pose proof (Z.mod_pos_bound (x - y * q - t) 65536).
  set (e := x - y * q - t) in *. assert (He : - (65535 * 65536) <= e < 65536) by nia.
  assert (HL : LHALF w = e mod 65536).
  { rewrite LHALF_eq, Hw, E32. change (2 ^ 16) with 65536. rewrite Z.rem_mul_r, Z.mul_comm by lia.
    rewrite Z.mod_add, Z.mod_mod by lia. done. }
  assert (HH : HHALF w = (e / 65536) mod 65536).
  { rewrite HHALF_eq, Hw, E32. change (2 ^ 16) with 65536. rewrite Z.rem_mul_r by lia.
    rewrite Z.add_comm, Z.mul_comm, Z.div_add_l by lia. rewrite (Z.div_small (e mod _)); lia. }
  assert (HT : t' = - (e / 65536)).
  { unfold t'. change (65536 - 1) with (Z.ones 16). rewrite Z.land_ones by lia.
    rewrite (wrapu_small 32) by (rewrite HH; pose proof (Z.mod_pos_bound (e / 65536) 65536); lia).
    rewrite HH, Zminus_mod_idemp_r. change (2 ^ 16) with 65536.
    rewrite <- (Z.mod_add _ (-1)) by lia. rewrite Z.mod_small; nia. }
  rewrite HL, HT. split; [nia|]. split; [lia|]. nia.
Qed.

Lemma mulsub_spec i u v uj vb q t u' t' :
  mulsub i u v uj vb q t = (u', t') -> digits u -> digits v -> (uj + i < length u)%nat ->
  0 <= q < B -> 0 <= t < B ->
  digits u' /\ agree_out (S uj) i u u' /\ 0 <= t' < B /\
  num u (S uj) i - q * num v (S vb) i - t = num u' (S uj) i - t' * B ^ Z.of_nat i.
Proof.
  revert u t. induction i as [|i IH]; intros u t E Hu Hv Hl Hq Ht; cbn [mulsub] in E.
  { injection E as <- <-. split_and!; auto using agree_refl; try lia. cbn. lia. }
  destruct (borrow_digit (u !!! (uj + S i)%nat) q t (v !!! (vb + S i)%nat)) as (Ed & Hd & Hb); auto.
  set (w := u32 _) in *. set (b := Z.land _ _) in *.
  assert (Hlu : (uj + i < length (<[(uj + S i)%nat := LHALF w]> u))%nat) by (rewrite length_insert; lia).
  destruct (IH _ _ E (digits_insert _ _ _ Hu Hd) Hv Hlu Hq Hb) as (Hu' & Ha & Ht' & En).
  pose proof (agree_insert (uj + S i) (LHALF w) u ltac:(lia)) as Hi.
  split_and!; auto; try lia.
  { eapply agree_trans; eapply agree_mono; eauto; lia. }
  rewrite Bpow_succ. cbn [num].
  rewrite (num_agree _ _ _ _ _ _ Hi) in En by lia.
  replace (S uj + i)%nat with (uj + S i)%nat by lia. replace (S vb + i)%nat with (vb + S i)%nat by lia.
  rewrite (proj2 Ha (uj + S i)%nat), lookup_insert_eq by lia. nia.
Qed.

Lemma addback_spec i u v uj vb t u' t' :
  addback i u v uj vb t = (u', t') -> digits u -> digits v -> (uj + i < length u)%nat ->
  0 <= t <= 1 ->
  digits u' /\ agree_out (S uj) i u u' /\ 0 <= t' <= 1 /\
  num u (S uj) i + num v (S vb) i + t = num u' (S uj) i + t' * B ^ Z.of_nat i.
Proof.
  revert u t. induction i as [|i IH]; intros u t E Hu Hv Hl Ht; cbn [addback] in E.
  { injection E as <- <-. split_and!; auto using agree_refl; try lia. cbn. lia. }
  pose proof (Hu (uj + S i)%nat). pose proof (Hv (vb + S i)%nat).
  set (w := u32 _) in E.
  assert (Hw : w = t + (u !!! (uj + S i)%nat + v !!! (vb + S i)%nat)) by (apply wrapu_small; unfold B in *; lia).
  destruct (half_split w) as (Es & HH & HL); [unfold B in *; lia|].
  assert (Hd : 0 <= LHALF w < B) by done. assert (Hb : 0 <= HHALF w <= 1) by (unfold B in *; lia).
  assert (Hlu : (uj + i < length (<[(uj + S i)%nat := LHALF w]> u))%nat) by (rewrite length_insert; lia).
  destruct (IH _ _ E (digits_insert _ _ _ Hu Hd) Hv Hlu Hb) as (Hu' & Ha & Ht' & En).
  pose proof (agree_insert (uj + S i) (LHALF w) u ltac:(lia)) as Hi.
  split_and!; auto; try lia.
  { eapply agree_trans; eapply agree_mono; eauto; lia. }
  rewrite Bpow_succ. cbn [num].
  rewrite (num_agree _ _ _ _ _ _ Hi) in En by lia.
  replace (S uj + i)%nat with (uj + S i)%nat by lia. replace (S vb + i)%nat with (vb + S i)%nat by lia.
  rewrite (proj2 Ha (uj + S i)%nat), lookup_insert_eq by lia. unfold B in *. nia.
Qed.

(** ** D3: the estimate of the quotient digit *)

Lemma COMBINE_eq a b : 0 <= a < B -> 0 <= b < B -> COMBINE a b = a * B + b.
Proof.
  unfold B. intros Ha Hb. unfold COMBINE. rewrite Z.shiftl_mul_pow2, wrapu_small by lia.
  by rewrite lor_disjoint by lia.
Qed.

Section Estimate.
(** [U] is the part of the dividend the digit is computed from, [V] the divisor; [P] is
    the weight of the third digit of [U] and the second one of [V]. *)
Context (P v1 v2 vr u0 u1 u2 ur U V : Z).
Hypothesis (HP : 0 < P) (HV : V = (v1 * B + v2) * P + vr) (HU : U = ((u0 * B + u1) * B + u2) * P + ur).
Hypothesis (Hv1 : B / 2 <= v1 < B) (Hv2 : 0 <= v2 < B) (Hvr : 0 <= vr < P).
Hypothesis (Hu0 : 0 <= u0 < B) (Hu1 : 0 <= u1 < B) (Hu2 : 0 <= u2 < B) (Hur : 0 <= ur < P).
Hypothesis (HUV : U < V * B).

Lemma v1_pos : 32768 <= v1.
Proof. apply Hv1. Qed.

Definition near (q : Z) : Prop := 0 <= q < B /\ (q - 1) * V <= U < (q + 1) * V.

(** A [qhat] that fails the test is too large. *)
Lemma qhat_too_big q r :
  0 <= q -> r = u0 * B + u1 - q * v1 -> r * B + u2 < v2 * q -> U < q * V.
Proof.
  intros Hq -> H. rewrite HU, HV.
  assert (Hle : (u0 * B + u1) * B + u2 + 1 <= q * (v1 * B + v2)) by lia.
  apply (Z.mul_le_mono_nonneg_r _ _ P) in Hle; [|lia]. nia.
Qed.

(** One that passes it is at most one too large. *)
Lemma qhat_close q r :
  0 <= q < B -> r = u0 * B + u1 - q * v1 -> v2 * q <= r * B + u2 -> (q - 1) * V <= U.
Proof.
  intros Hq -> H. assert (Hle : q * (v1 * B + v2) <= (u0 * B + u1) * B + u2) by (rewrite Z.mul_add_distr_l; lia).
  apply (Z.mul_le_mono_nonneg_r _ _ P) in Hle; [|lia].
  assert (q * vr <= B * P) by nia. pose proof v1_pos.
  assert (1 * (B * P) <= v1 * (B * P)) by (apply Z.mul_le_mono_nonneg_r; unfold B; lia).
  assert (0 <= v2 * P) by nia.
  rewrite HU, HV. nia.
Qed.

Lemma qhat_while_near fuel q r :
  0 <= q < B -> 0 <= r < B -> r = u0 * B + u1 - q * v1 -> U < (q + 1) * V ->
  B <= r + Z.of_nat fuel * v1 ->
  exists q', qhat_while fuel v1 v2 u2 q r = Some q' /\ near q'.
Proof.
  revert q r. induction fuel as [|fuel IH]; intros q r Hq Hr E Hlt Hf; [lia|]. cbn [qhat_while].
  pose proof v1_pos.
  rewrite COMBINE_eq, (wrapu_small 32) by (unfold B in *; nia || lia).
  destruct (Z.ltb_spec (r * B + u2) (v2 * q)).
  - assert (0 < q) by nia. pose proof (qhat_too_big q r ltac:(lia) E ltac:(lia)) as Hbig.
    rewrite !wrapu_small by (unfold B in *; lia).
    assert (Hbig' : U < (q - 1 + 1) * V) by (by rewrite Z.sub_add).
    destruct (Z.leb_spec B (r + v1)) as [Hge|Hlt'].
    + exists (q - 1). split; [done|]. split; [lia|]. split; [|done].
      apply (qhat_close (q - 1) (r + v1)); try lia. unfold B in *. nia.
    + apply IH; lia.
  - exists q. split; [done|]. split; [done|]. split; [|done]. by apply (qhat_close q r).
Qed.

Lemma top_le : u0 <= v1.
Proof.
  destruct (decide (u0 <= v1)) as [|Hgt]; [done|]. exfalso.
  assert (HV' : V < (v1 + 1) * B * P) by (rewrite HV; nia).
  assert (HU' : (v1 + 1) * B * B * P <= U) by (rewrite HU; unfold B in *; nia). unfold B in *. lia.
Qed.

Lemma get_qhat_near : exists q, get_qhat v1 v2 u0 u1 u2 = Some q /\ near q.
Proof.
  pose proof top_le as Htop. pose proof v1_pos as H1.
  unfold get_qhat. destruct (Z.eqb_spec u0 v1) as [E|].
  - rewrite !wrapu_small by (unfold B in *; lia).
    assert (HUq : U < (B - 1 + 1) * V) by lia.
    destruct (Z.leb_spec B (u1 + v1)).
    + exists (B - 1). split; [done|]. split; [unfold B; lia|]. split; [|done].
      apply (qhat_close (B - 1) (u1 + v1)); [unfold B; lia|lia|unfold B in *; nia].
    + apply qhat_while_near; unfold B in *; lia.
  - rewrite COMBINE_eq by done. set (nn := u0 * B + u1).
    pose proof (Z.div_mod nn v1 ltac:(lia)). pose proof (Z.mod_pos_bound nn v1 ltac:(lia)).
    assert (0 <= nn / v1) by (apply Z.div_pos; unfold nn, B in *; lia).
    assert (nn / v1 < B) by (apply Z.div_lt_upper_bound; unfold nn, B in *; lia).
    apply qhat_while_near; try lia; [|unfold B in *; lia].
    assert (Hle : nn + 1 <= (nn / v1 + 1) * v1) by lia.
    apply (Z.mul_le_mono_nonneg_r _ _ (B * P)) in Hle; [|unfold B; lia].
    assert (HU' : U < (nn + 1) * (B * P)) by (rewrite HU; fold nn; unfold B in *; nia).
    assert (HV' : v1 * (B * P) <= V) by (rewrite HV; nia). nia.
Qed.

End Estimate.

(** ** One quotient digit *)

(** What [mulsub] leaves when its quotient digit is right or one too large: the top digit
    tells which. *)
Lemma top_digit x t :
  0 <= x < B -> 0 <= t < B ->
  LHALF (u32 (x - t)) = (if t <=? x then x - t else x - t + B) /\
  (HHALF (u32 (x - t)) =? 0) = (t <=? x).
Proof.
  unfold B. intros Hx Ht. rewrite LHALF_eq, HHALF_eq. destruct (Z.leb_spec t x).
  - rewrite wrapu_small by lia. change (2 ^ 16) with 65536. rewrite Z.mod_small, Z.div_small by lia. done.
  - replace (u32 (x - t)) with (x - t + 2 ^ 32)
      by (unfold wrapu; rewrite <- (Z.mod_add (x - t) 1) by lia; rewrite Z.mod_small; lia).
    change (2 ^ 32) with (65536 * 65536). change (2 ^ 16) with 65536. rewrite Z.mod_add, Z.div_add by lia.
    rewrite <- (Z.mod_add (x - t) 1) by lia. rewrite Z.mod_small by lia. split; [lia|].
    apply Z.eqb_neq. pose proof (Z.div_le_lower_bound (x - t) 65536 (-1)). lia.
Qed.

Lemma near_cases U V q :
  0 < V -> (q - 1) * V <= U < (q + 1) * V ->
  (0 <= U - q * V /\ U / V = q /\ U mod V = U - q * V) \/
  (U - q * V < 0 /\ U / V = q - 1 /\ U mod V = U - q * V + V).
Proof.
  intros HV Hq. destruct (decide (0 <= U - q * V)); [left|right]; (split; [lia|]).
  - assert (E : U / V = q) by (symmetry; apply (Z.div_unique _ _ _ (U - q * V)); nia).
    rewrite Z.mod_eq, E by lia. lia.
  - assert (E : U / V = q - 1) by (symmetry; apply (Z.div_unique _ _ _ (U - (q - 1) * V)); nia).
    rewrite Z.mod_eq, E by lia. lia.
Qed.

Lemma qhat_digit u v uj vb n :
  digits u -> digits v -> (2 <= n)%nat -> B / 2 <= v !!! S vb ->
  num u uj n < num v (S vb) n ->
  exists q, get_qhat (v !!! S vb) (v !!! S (S vb)) (u !!! uj) (u !!! S uj) (u !!! S (S uj)) = Some q /\
    0 <= q < B /\
    (q - 1) * num v (S vb) n <= num u uj (S n) < (q + 1) * num v (S vb) n.
Proof.
  intros Hu Hv Hn Hv1 Hlt. destruct n as [|[|n]]; [lia..|].
  apply (get_qhat_near (B ^ Z.of_nat n) _ _ (num v (S (S (S vb))) n) _ _ _ (num u (S (S (S uj))) n)); auto.
  - apply Bpow_pos.
  - rewrite !num_head, !Bpow_succ. ring.
  - rewrite !num_head, !Bpow_succ. ring.
  - split; [done|apply Hv].
  - by apply num_range.
  - by apply num_range.
  - rewrite num_last. pose proof (Hu (uj + S (S n))%nat). unfold B in *. lia.
Qed.

(** D6: adding the divisor back to a difference that came out negative. *)
Lemma addback_digit u v uj vb n y :
  digits u -> digits v -> (uj + n < length u)%nat -> 0 <= y < B ->
  0 <= (y - B) * B ^ Z.of_nat n + num u (S uj) n + num v (S vb) n < num v (S vb) n ->
  exists u' t, addback n (<[uj := y]> u) v uj vb 0 = (u', t) /\
    digits (<[uj := LHALF (u' !!! uj + t)]> u') /\
    agree_out uj (S n) u (<[uj := LHALF (u' !!! uj + t)]> u') /\
    num (<[uj := LHALF (u' !!! uj + t)]> u') uj (S n)
      = (y - B) * B ^ Z.of_nat n + num u (S uj) n + num v (S vb) n.
Proof.
  intros Hu Hv Hl Hy Hr. set (P := B ^ Z.of_nat n) in *. set (V := num v (S vb) n) in *.
  destruct (addback n (<[uj := y]> u) v uj vb 0) as [u' t] eqn:Ea. exists u', t. split; [done|].
  assert (Hi : agree_out uj 1 u (<[uj := y]> u)) by (apply agree_insert; lia).
  destruct (addback_spec _ _ _ _ _ _ _ _ Ea) as (Hu' & Ha & Ht & En); auto using digits_insert;
    [rewrite length_insert; lia|lia|].
  rewrite (num_agree _ _ _ _ _ _ Hi) in En by lia. fold V P in En.
  pose proof (num_range u' (S uj) n Hu') as Hr'. pose proof (num_range v (S vb) n Hv) as HrV.
  fold P V in Hr', HrV.
  assert (Htop : y + t = B) by (unfold B in *; nia).
  rewrite (proj2 Ha uj), lookup_insert_eq, Htop by lia. change (LHALF B) with 0.
  assert (Hl' : (uj < length u')%nat) by (rewrite (proj1 Ha), length_insert; lia).
  split_and!.
  - apply digits_insert; [done|unfold B; lia].
  - eapply agree_trans; [eapply agree_mono; [exact Hi|lia..]|].
    eapply agree_trans; [eapply agree_mono; [exact Ha|lia..]|].
    eapply agree_mono; [by apply agree_insert|lia..].
  - rewrite num_head, lookup_insert_eq by done.
    rewrite (num_agree u' _ uj 1) by (by (apply agree_insert) || lia). nia.
Qed.

Lemma div_digit_spec u v uj vb n :
  digits u -> digits v -> (2 <= n)%nat -> (uj + n < length u)%nat -> B / 2 <= v !!! S vb ->
  num u uj n < num v (S vb) n ->
  exists u', div_digit u v uj vb n = Some (u', num u uj (S n) / num v (S vb) n) /\
    digits u' /\ agree_out uj (S n) u u' /\ num u' uj (S n) = num u uj (S n) mod num v (S vb) n.
Proof.
  intros Hu Hv Hn Hl Hv1 Hlt.
  destruct (qhat_digit u v uj vb n Hu Hv Hn Hv1 Hlt) as (q & Eq & Hq & Hnear).
  pose proof (num_range u uj n Hu). pose proof (num_range v (S vb) n Hv).
  unfold div_digit. rewrite Eq. clear Eq.
  destruct (mulsub n u v uj vb q 0) as [u1 t1] eqn:Em.
  destruct (mulsub_spec _ _ _ _ _ _ _ _ _ Em) as (Hu1 & Ha1 & Ht1 & En1); auto; [unfold B; lia|].
  destruct (top_digit (u1 !!! uj) t1 (Hu1 uj) Ht1) as [EL EH]. rewrite EL, EH. clear EL EH.
  rewrite (proj2 Ha1 uj) by lia.
  set (V := num v (S vb) n) in *. rewrite (num_head u) in *. set (x := u !!! uj) in *.
  assert (Hl1 : (uj < length u1)%nat) by (rewrite (proj1 Ha1); lia).
  assert (Hx : 0 <= x < B) by apply Hu.
  pose proof (num_range u1 (S uj) n Hu1) as Hr1. pose proof (Bpow_pos n) as HP.
  set (P := B ^ Z.of_nat n) in *.
  assert (EU : x * P + num u (S uj) n - q * V = (x - t1) * P + num u1 (S uj) n) by lia.
  destruct (near_cases (x * P + num u (S uj) n) V q ltac:(nia) Hnear) as [(Hs & -> & ->)|(Hs & -> & ->)].
  - assert (t1 <= x) by nia. rewrite (proj2 (Z.leb_le _ _)) by done. cbn [negb].
    eexists. split; [f_equal; f_equal; apply wrapu_small; unfold B in *; lia|].
    assert (0 <= x - t1 < B) by lia. split_and!; [by apply digits_insert| |].
    + eapply agree_trans; [eapply agree_mono; [exact Ha1|lia..]|].
      eapply agree_mono; [by apply agree_insert|lia..].
    + rewrite num_head, lookup_insert_eq by done. fold P.
      rewrite (num_agree u1 _ uj 1) by (by (apply agree_insert) || lia). lia.
  - assert (x < t1) by nia. rewrite (proj2 (Z.leb_gt _ _)) by done. cbn [negb].
    destruct (addback_digit u1 v uj vb n (x - t1 + B)) as (u3 & t3 & -> & Hu3 & Ha3 & En3);
      [done|done|rewrite (proj1 Ha1); lia|lia|fold V P; unfold B in *; nia|].
    assert (0 < q) by (pose proof (num_range u (S uj) n Hu); nia).
    eexists. split; [rewrite (wrapu_small 32); [f_equal; f_equal; apply wrapu_small|]; unfold B in *; lia|].
    split_and!; [done| |].
    + eapply agree_trans; [eapply agree_mono; [exact Ha1|lia..]|done].
    + rewrite En3. fold V P. lia.
Qed.

(** ** The loop over the digits *)

Lemma div_loop_spec k u v q uj vb n qj :
  digits u -> digits v -> digits q -> (2 <= n)%nat -> (uj + (n + k) <= length u)%nat ->
  (qj + k <= length q)%nat -> B / 2 <= v !!! S vb -> num u uj n < num v (S vb) n ->
  exists u' q', div_loop k u v q uj vb n qj = Some (u', q') /\
    digits u' /\ digits q' /\ agree_out uj (n + k) u u' /\ agree_out qj k q q' /\
    num u' uj k = 0 /\ num u' (uj + k) n < num v (S vb) n /\
    num q' qj k * num v (S vb) n + num u' (uj + k) n = num u uj (n + k).
Proof.
  revert u q uj qj. induction k as [|k IH]; intros u q uj qj Hu Hv Hq Hn Hl Hlq Hv1 Hlt; cbn [div_loop].
  { exists u, q. rewrite !Nat.add_0_r. split_and!; auto using agree_refl. }
  destruct (div_digit_spec u v uj vb n) as (u1 & -> & Hu1 & Ha1 & En1); auto; [lia|].
  set (V := num v (S vb) n) in *. set (U := num u uj (S n)) in *.
  pose proof (num_range v (S vb) n Hv) as HrV. fold V in HrV.
  pose proof (num_range u uj n Hu) as Hru. pose proof (Hu (uj + n)%nat) as Hd.
  assert (EU : U = num u uj n * B + u !!! (uj + n)%nat) by done.
  assert (HV : 0 < V) by lia.
  pose proof (Z.mod_pos_bound U V HV) as Hm. pose proof (Z.div_mod U V ltac:(lia)) as Hdm.
  assert (HQ : 0 <= U / V < B)
    by (split; [apply Z.div_pos|apply Z.div_lt_upper_bound]; unfold B in *; nia).
  pose proof (num_range u1 (S uj) n Hu1) as Hr1. rewrite num_head in En1.
  assert (Htop : u1 !!! uj = 0) by (pose proof (Hu1 uj); nia).
  destruct (IH u1 (<[qj := U / V]> q) (S uj) (S qj)) as (u' & q' & E & Hu' & Hq' & Ha & Haq & Hz & HR & En);
    auto using digits_insert; rewrite ?length_insert, ?(proj1 Ha1); try lia.
  exists u', q'. replace (uj + S k)%nat with (S uj + k)%nat by lia.
  assert (Hiq : agree_out qj 1 q (<[qj := U / V]> q)) by (apply agree_insert; lia).
  split; [exact E|]. split_and!; auto.
  - eapply agree_trans; eapply agree_mono; eauto; lia.
  - eapply agree_trans; eapply agree_mono; eauto; lia.
  - rewrite num_head, Hz, (proj2 Ha uj), Htop by lia. lia.
  - rewrite num_head, (proj2 Haq qj), lookup_insert_eq by lia.
    replace (n + S k)%nat with (S n + k)%nat by lia. rewrite num_split. fold U.
    rewrite num_split, (num_agree _ _ _ _ (S uj + n)%nat k Ha1) in En by lia.
    replace (uj + S n)%nat with (S uj + n)%nat by lia. rewrite Htop in En1.
    replace (num u1 (S uj) n) with (U mod V) in En by lia. nia.
Qed.

(** ** Shifts of digits *)

Lemma pow_split d : 0 <= d <= 16 -> B = 2 ^ (16 - d) * 2 ^ d.
Proof. intros. rewrite <- Z.pow_add_r by lia. unfold B. by replace (16 - d + d) with 16 by lia. Qed.

Lemma low_bits x d : 0 <= x < B -> 0 <= d <= 16 -> LHALF (u32 (Z.shiftl x d)) = (x mod 2 ^ (16 - d)) * 2 ^ d.
Proof.
  intros Hx Hd. rewrite LHALF_eq, Z.shiftl_mul_pow2 by lia.
  assert (2 ^ d <= 2 ^ 16) by (apply Z.pow_le_mono_r; lia).
  rewrite wrapu_small by (unfold B in *; nia). change (2 ^ 16) with B. rewrite (pow_split d Hd).
  by rewrite Zmult_mod_distr_r.
Qed.

(** The high bits of a shifted number are those of its first digit. *)
Lemma shifted_top x r P d :
  0 < P -> 0 <= r < P -> 0 <= d <= 16 -> (x * P + r) * 2 ^ d / (B * P) = x / 2 ^ (16 - d).
Proof.
  intros HP Hr Hd. rewrite (pow_split d Hd).
  replace (2 ^ (16 - d) * 2 ^ d * P) with (P * 2 ^ (16 - d) * 2 ^ d) by ring.
  rewrite Z.div_mul_cancel_r, <- Z.div_div by lia. by rewrite Z.div_add_l, (Z.div_small r), Z.add_0_r by lia.
Qed.

Lemma shl_spec a p len d :
  digits a -> (p + len < length a)%nat -> 0 < d < 16 ->
  digits (shl a p len d) /\ agree_out p (S len) a (shl a p len d) /\
  num (shl a p len d) p (S len) = (num a p (S len) * 2 ^ d) mod B ^ Z.of_nat (S len).
Proof.
  intros Ha Hl Hd. revert a p Ha Hl. induction len as [|len IH]; intros a p Ha Hl; cbn [shl].
  - rewrite low_bits by (auto; lia).
    assert (Hx : 0 <= (a !!! p) mod 2 ^ (16 - d) * 2 ^ d < B).
    { rewrite (pow_split d) by lia. pose proof (Z.mod_pos_bound (a !!! p) (2 ^ (16 - d)) ltac:(lia)). nia. }
    rewrite wrapu_small by exact Hx.
    split_and!; [by apply digits_insert|apply agree_insert; lia|].
    cbn [num]. rewrite !Nat.add_0_r, lookup_insert_eq by lia. rewrite Z.pow_1_r, !Z.add_0_l.
    rewrite (pow_split d) by lia. by rewrite Zmult_mod_distr_r.
  - assert (Hx : 0 <= a !!! S p / 2 ^ (16 - d) < 2 ^ d).
    { split; [apply Z.div_pos; [apply Ha|lia]|apply Z.div_lt_upper_bound; [lia|]].
      rewrite <- (pow_split d) by lia. apply Ha. }
    rewrite low_bits, Z.shiftr_div_pow2, lor_disjoint by (auto; lia).
    set (y := _ * 2 ^ d + _). assert (Hy : 0 <= y < B).
    { pose proof (Z.mod_pos_bound (a !!! p) (2 ^ (16 - d)) ltac:(lia)).
      unfold y. rewrite (pow_split d) by lia. nia. }
    rewrite wrapu_small by exact Hy.
    pose proof (agree_insert p y a ltac:(lia)) as Hi.
    destruct (IH (<[p := y]> a) (S p)) as (Hs & Hag & En);
      [by apply digits_insert|rewrite length_insert; lia|].
    split_and!; [done|eapply agree_trans; eapply agree_mono; eauto; lia|].
    rewrite num_head, (proj2 Hag p), lookup_insert_eq, En by lia.
    rewrite (num_agree _ _ _ _ (S p) (S len) Hi) by lia.
    rewrite (num_head a p (S len)). set (r := num a (S p) (S len)).
    pose proof (num_range a (S p) (S len) Ha) as Hr. fold r in Hr.
    assert (Etop : r * 2 ^ d / B ^ Z.of_nat (S len) = a !!! S p / 2 ^ (16 - d)).
    { unfold r. rewrite num_head, Bpow_succ. apply shifted_top; [apply Bpow_pos|by apply num_range|lia]. }
    rewrite (Bpow_succ (S len)). set (P := B ^ Z.of_nat (S len)) in *.
    rewrite Z.mul_add_distr_r, (Z.mul_comm B P).
    pose proof (Z.div_mod (r * 2 ^ d) P ltac:(lia)) as Hdm. rewrite Etop in Hdm. 
    pose proof (Z.mod_pos_bound (r * 2 ^ d) P ltac:(lia)) as Hm.
    apply Z.mod_unique_pos with (q := a !!! p / 2 ^ (16 - d)); [nia|].
    set (M := (r * 2 ^ d) mod P) in *. rewrite Hdm. unfold y. pose proof (Z.div_mod (a !!! p) (2 ^ (16 - d)) ltac:(lia)) as Hx'.
    assert (Ex : a !!! p * 2 ^ d = a !!! p / 2 ^ (16 - d) * B + a !!! p mod 2 ^ (16 - d) * 2 ^ d)
      by (rewrite (pow_split d) by lia; nia).
    transitivity (a !!! p * 2 ^ d * P + (P * (a !!! S p / 2 ^ (16 - d)) + M)); [|rewrite Ex]; ring.
Qed.

Lemma shift_back_spec k u i d :
  digits u -> (k <= i < length u)%nat -> 0 < d < 16 ->
  digits (shift_back k u i d) /\ agree_out (i - k) (S k) u (shift_back k u i d) /\
  shift_back k u i d !!! (i - k)%nat = 0 /\
  num (shift_back k u i d) (S (i - k)) k = (num u (i - k) (S k) / 2 ^ d) mod B ^ Z.of_nat k.
Proof.
  intros Hu Hi Hd. revert u i Hu Hi. induction k as [|k IH]; intros u i Hu Hi; cbn [shift_back].
  - rewrite Nat.sub_0_r. split_and!; [apply digits_insert; [done|unfold B; lia]|apply agree_insert; lia| |].
    + by rewrite lookup_insert_eq by lia.
    + cbn. by rewrite Z.mod_1_r.
  - destruct i as [|i]; [lia|]. cbn [pred]. change (S i - S k)%nat with (i - k)%nat.
    set (y := u16 _).
    assert (Hyd : y = u !!! S i / 2 ^ d + u !!! i mod 2 ^ d * 2 ^ (16 - d) /\ 0 <= y < B).
    { pose proof (Hu (S i)) as Hx. pose proof (Z.mod_pos_bound (u !!! i) (2 ^ d) ltac:(lia)).
      assert (0 <= u !!! S i / 2 ^ d < 2 ^ (16 - d)).
      { split; [apply Z.div_pos; lia|apply Z.div_lt_upper_bound; [lia|]].
        rewrite (Z.mul_comm (2 ^ d)), <- (pow_split d) by lia. apply Hu. }
      unfold y. rewrite low_bits, Z.shiftr_div_pow2, Z.lor_comm by (auto; lia).
      replace (16 - (16 - d)) with d by lia. rewrite lor_disjoint by lia.
      assert (0 <= u !!! i mod 2 ^ d * 2 ^ (16 - d) + u !!! S i / 2 ^ d < B)
        by (rewrite (pow_split d) by lia; nia).
      rewrite wrapu_small by done. lia. }
    destruct Hyd as [Ey Hy].
    pose proof (agree_insert (S i) y u ltac:(lia)) as Hins.
    destruct (IH (<[S i := y]> u) i) as (Hs & Hag & Hz & En);
      [by apply digits_insert|rewrite length_insert; lia|].
    split_and!; [done|eapply agree_trans; eapply agree_mono; eauto; lia|done|].
    rewrite (num_agree _ _ _ _ (i - k) (S k) Hins) in En by lia.
    rewrite num_last, En. replace (S (i - k) + k)%nat with (S i) by lia.
    rewrite (proj2 Hag (S i)), lookup_insert_eq by lia.
    rewrite (num_last u (i - k) (S k)). replace (i - k + S k)%nat with (S i) by lia.
    set (X := num u (i - k) (S k)).
    assert (EX : u !!! i mod 2 ^ d = X mod 2 ^ d).
    { unfold X. rewrite num_last. replace (i - k + k)%nat with i by lia.
      rewrite (pow_split d) by lia. rewrite Z.mul_assoc, Z.add_comm, Z.mod_add by lia. done. }
    rewrite EX in Ey. rewrite (Bpow_succ k), (Z.mul_comm B).
    assert (Eq : (X * B + u !!! S i) / 2 ^ d = X / 2 ^ d * B + y).
    { rewrite (pow_split d) at 1 by lia. rewrite Z.mul_assoc, Z.div_add_l by lia. rewrite Ey.
      rewrite (pow_split d) by lia. pose proof (Z.div_mod X (2 ^ d) ltac:(lia)). nia. }
    pose proof (Bpow_pos k). rewrite Eq, (Z.mul_comm (B ^ _) B), Z.rem_mul_r by (assumption || (unfold B; lia)).
    rewrite (Z.add_comm (X / 2 ^ d * B)), Z.mod_add, Z.div_add, (Z.mod_small y), (Z.div_small y) by (unfold B in *; lia). rewrite Z.add_0_l. ring.
Qed.

(** ** The other parts *)

Lemma norm_d_spec fuel t d :
  0 < t < B -> B / 2 <= t * 2 ^ Z.of_nat fuel ->
  exists e, norm_d fuel t d = Some (d + e) /\ 0 <= e <= Z.of_nat fuel /\ B / 2 <= t * 2 ^ e < B.
Proof.
  change (B / 2) with 32768. revert t d. induction fuel as [|fuel IH]; intros t d Ht Hf; cbn [norm_d];
    change (B / 2) with 32768; destruct (Z.ltb_spec t 32768).
  - cbn in Hf. lia.
  - exists 0. rewrite Z.add_0_r. split; [done|]. lia.
  - rewrite Nat2Z.inj_succ, Z.pow_succ_r in Hf by lia.
    rewrite Z.shiftl_mul_pow2, wrapu_small by lia.
    destruct (IH (t * 2 ^ 1) (d + 1)) as (e & -> & He & Hb); [unfold B; lia|lia|].
    exists (e + 1). split; [f_equal; lia|]. rewrite Z.pow_add_r by lia. lia.
  - exists 0. rewrite Z.add_0_r. split; [done|]. lia.
Qed.

Lemma skip_v_spec v vb n :
  digits v -> (2 <= n)%nat -> 0 < num v (S vb) n ->
  (exists t, skip_v v vb n = Some (inl t) /\ 0 < t < B /\ num v (S vb) n = t) \/
  (exists vb' n', skip_v v vb n = Some (inr (vb', n')) /\ (2 <= n')%nat /\ (vb' + n' = vb + n)%nat /\
     v !!! S vb' <> 0 /\ num v (S vb') n' = num v (S vb) n).
Proof.
  intros Hv. revert vb. induction n as [|n IH]; intros vb Hn Hpos; [lia|]. cbn [skip_v].
  destruct (Z.eqb_spec (v !!! S vb) 0) as [E|Hne].
  - rewrite num_head, E, Z.mul_0_l, Z.add_0_l in *. case_decide as Hd.
    + subst n. left. cbn in *. rewrite Nat.add_0_r in *. exists (v !!! S (S vb)).
      split; [done|]. pose proof (Hv (S (S vb))). lia.
    + destruct (IH (S vb)) as [?|(vb' & n' & ? & ? & ? & ?)]; [lia|done|by left|].
      right. exists vb', n'. split_and!; try done; lia.
  - right. exists vb, (S n). done.
Qed.

Lemma skip_u_spec u ub m n :
  digits u -> (1 <= n)%nat -> B ^ Z.of_nat (pred n) <= num u (S ub) (m + n) -> u !!! ub = 0 ->
  exists ub' m', skip_u u ub m = Some (ub', m') /\ (ub <= ub')%nat /\ (ub' + m' = ub + m)%nat /\
    u !!! ub' = 0 /\ num u (S ub) (ub' - ub) = 0 /\ num u (S ub') (m' + n) = num u (S ub) (m + n).
Proof.
  intros Hu Hn. revert ub. induction m as [|m IH]; intros ub Hge H0; cbn [skip_u];
    destruct (Z.eqb_spec (u !!! S ub) 0) as [E|Hne].
  - exfalso. destruct n as [|n]; [lia|]. cbn [pred Nat.add] in Hge. rewrite num_head, E in Hge.
    pose proof (num_range u (S (S ub)) n Hu). lia.
  - exists ub, 0%nat. rewrite Nat.sub_diag. split_and!; try done; lia.
  - cbn [Nat.add] in Hge. rewrite num_head, E, Z.mul_0_l, Z.add_0_l in Hge.
    destruct (IH (S ub) Hge E) as (ub' & m' & -> & Hle & Hs & Hz & Hn0 & En).
    exists ub', m'. split_and!; auto; try lia.
    + replace (ub' - ub)%nat with (S (ub' - S ub)) by lia. rewrite num_head, E, Hn0. lia.
    + cbn [Nat.add]. rewrite num_head, E. lia.
  - exists ub, (S m). rewrite Nat.sub_diag. split_and!; done.
Qed.

Lemma digits_of_digits x n : 0 <= x < B -> digits (digits_of x n).
Proof.
  intros Hx i. unfold digits_of. change B with (2 ^ 16) in *.
  destruct i as [|[|[|[|[|i]]]]]; cbn [lookup_total list_lookup_total]; try done; try (apply wrapu_range; lia).
Qed.

Lemma num_digits_of x n : 0 <= n < 2 ^ 64 -> num (digits_of x n) 1 4 = n.
Proof.
  intros Hn. destruct (half_split (uiH n) (uiH_range n)) as (EH & H1 & H2).
  destruct (half_split (uiL n) (uiL_range n)) as (EL & H3 & H4).
  unfold digits_of. rewrite !(wrapu_small 16) by done. cbn [num lookup_total list_lookup_total Nat.add].
  rewrite <- (halves_u n Hn) at 5. unfold ull, B. lia.
Qed.

Lemma number_of_num a : digits a -> number_of a = num a 1 4.
Proof.
  intros Ha. unfold number_of, ull. rewrite !COMBINE_eq by apply Ha. cbn [num Nat.add]. unfold B. lia.
Qed.

(** The quotient digit of a partial remainder is a digit. *)
Lemma short_digit r a t :
  0 <= r < t -> 0 <= a < B -> t < B ->
  COMBINE r a = r * B + a /\ u16 ((r * B + a) / t) = (r * B + a) / t /\
  0 <= (r * B + a) / t < B /\ 0 <= (r * B + a) mod t < t /\
  r * B + a = (r * B + a) / t * t + (r * B + a) mod t.
Proof.
  intros Hr Ha Ht.
  assert (0 <= (r * B + a) / t < B)
    by (split; [apply Z.div_pos|apply Z.div_lt_upper_bound]; unfold B in *; nia).
  split_and!; try lia.
  - apply COMBINE_eq; lia.
  - apply wrapu_small. done.
  - apply Z.mod_pos_bound; lia.
  - apply Z.mod_pos_bound; lia.
  - pose proof (Z.div_mod (r * B + a) t). lia.
Qed.

(** Division by one digit, digit by digit. *)
Lemma short_div_spec u t :
  digits u -> 0 < t < B -> short_div u t = (num u 1 4 / t, num u 1 4 mod t).
Proof.
  intros Hu Ht. unfold short_div. cbn [num Nat.add].
  pose proof (Hu 1%nat) as H1. pose proof (Hu 2%nat) as H2. pose proof (Hu 3%nat) as H3.
  pose proof (Hu 4%nat) as H4.
  revert H1 H2 H3 H4. generalize (u !!! 1%nat) (u !!! 2%nat) (u !!! 3%nat) (u !!! 4%nat).
  intros a1 a2 a3 a4 H1 H2 H3 H4.
  destruct (short_digit 0 a1 t) as (_ & E1 & B1 & R1 & D1); [lia..|]. rewrite Z.mul_0_l, Z.add_0_l in *.
  destruct (short_digit (a1 mod t) a2 t) as (-> & E2 & B2 & R2 & D2); [lia..|].
  set (n2 := a1 mod t * B + a2) in *.
  destruct (short_digit (n2 mod t) a3 t) as (-> & E3 & B3 & R3 & D3); [lia..|].
  set (n3 := n2 mod t * B + a3) in *.
  destruct (short_digit (n3 mod t) a4 t) as (-> & E4 & B4 & R4 & D4); [lia..|].
  set (n4 := n3 mod t * B + a4) in *.
  rewrite E1, E2, E3, E4, !COMBINE_eq by done. clear E1 E2 E3 E4.
  set (Q := ull _ _). set (N := ((a1 * B + a2) * B + a3) * B + a4).
  assert (E : N = t * Q + n4 mod t) by (unfold N, Q, ull, n4, n3, n2, B in *; lia).
  f_equal; [apply (Z.div_unique _ _ _ (n4 mod t))|apply (Z.mod_unique _ _ Q)]; lia.
Qed.

(** ** D1: normalisation *)

Lemma normalise_u u ub k d :
  digits u -> (ub + k < length u)%nat -> u !!! ub = 0 -> 0 <= d < 16 ->
  let u' := if 0 <? d then shl u ub k d else u in
  digits u' /\ agree_out ub (S k) u u' /\ num u' ub (S k) = num u (S ub) k * 2 ^ d.
Proof.
  intros Hu Hl H0 Hd. cbv zeta. pose proof (num_range u (S ub) k Hu) as Hr.
  assert (E : num u ub (S k) = num u (S ub) k) by (rewrite num_head, H0; lia).
  destruct (Z.ltb_spec 0 d).
  - destruct (shl_spec u ub k d) as (Hs & Ha & En); auto; [lia|]. split_and!; auto.
    rewrite En, E, Z.mod_small; [done|]. rewrite Bpow_succ.
    assert (2 ^ d <= 2 ^ 16) by (apply Z.pow_le_mono_r; lia). unfold B in *. nia.
  - replace d with 0 by lia. rewrite E, Z.mul_1_r. auto using agree_refl.
Qed.

Lemma head_digit v i k x :
  digits v -> x * B ^ Z.of_nat k <= num v i (S k) -> x <= v !!! i.
Proof.
  intros Hv Hx. rewrite num_head in Hx. pose proof (num_range v (S i) k Hv). nia.
Qed.

Lemma normalise_v v vb k d :
  digits v -> (S vb + k < length v)%nat -> 0 <= d < 16 -> B / 2 <= v !!! S vb * 2 ^ d < B ->
  let v' := if 0 <? d then shl v (S vb) k d else v in
  digits v' /\ num v' (S vb) (S k) = num v (S vb) (S k) * 2 ^ d /\ B / 2 <= v' !!! S vb.
Proof.
  intros Hv Hl Hd Hb. cbv zeta. destruct (Z.ltb_spec 0 d).
  2:{ replace d with 0 in * by lia. rewrite Z.mul_1_r in *. split_and!; auto. apply Hb. }
  destruct (shl_spec v (S vb) k d) as (Hs & _ & En); auto; [lia|].
  assert (Hfit : (v !!! S vb + 1) * 2 ^ d <= B).
  { assert (v !!! S vb < 2 ^ (16 - d))
      by (apply (Z.mul_lt_mono_pos_r (2 ^ d)); [lia|]; rewrite <- pow_split; lia).
    rewrite (pow_split d) by lia. apply Z.mul_le_mono_nonneg_r; lia. }
  pose proof (num_range v (S (S vb)) k Hv) as Hr. pose proof (Bpow_pos k) as HP.
  rewrite Z.mod_small in En.
  - split_and!; auto. apply (head_digit _ _ k); [done|]. rewrite En, num_head. nia.
  - rewrite Bpow_succ, num_head. pose proof (Hv (S vb)). split; [nia|].
    apply (Z.mul_le_mono_nonneg_r _ _ (B ^ Z.of_nat k)) in Hfit; [|lia]. nia.
Qed.

(** ** The whole division *)

Lemma quotient_digits g m :
  (m <= 4)%nat ->
  digits (replicate (4 - m) 0 ++ map (fun i => u16 (g i)) (seq (4 - m) (S m))) /\
  length (replicate (4 - m) 0 ++ map (fun i => u16 (g i)) (seq (4 - m) (S m))) = 5%nat /\
  num (replicate (4 - m) 0 ++ map (fun i => u16 (g i)) (seq (4 - m) (S m))) 1 (3 - m) = 0.
Proof.
  intros Hm. set (q := _ ++ _). assert (Hq : digits q); [|split_and!; [done| |]].
  - intros i. rewrite list_lookup_total_alt. destruct (_ !! i) as [x|] eqn:E; [|cbn; unfold B; lia].
    cbn. apply list_elem_of_lookup_2, elem_of_app in E as [E|E].
    + apply elem_of_replicate in E as [-> _]. unfold B. lia.
    + apply list_elem_of_fmap in E as (j & -> & _). change B with (2 ^ 16). apply wrapu_range. lia.
  - unfold q. rewrite length_app, length_replicate, length_map, length_seq. lia.
  - apply num_zero; [done|]. intros x Hx. unfold q. rewrite list_lookup_total_alt, lookup_app_l.
    + by rewrite lookup_replicate_2 by lia.
    + rewrite length_replicate. lia.
Qed.

(** Algorithm D on normalised digits gives quotient and remainder of the numbers. *)
Lemma long_div (u v q : list Z) (ub vb m n : nat) (d N V : Z) :
  digits u -> digits v -> digits q -> length u = 5%nat -> length q = 5%nat ->
  (2 <= n)%nat -> (ub + m + n = 4)%nat -> 0 <= d < 16 -> 0 < V -> B ^ Z.of_nat (pred n) <= V ->
  0 <= N < B ^ Z.of_nat (m + n) -> B / 2 <= v !!! S vb ->
  num u ub (S (m + n)) = N * 2 ^ d -> num v (S vb) n = V * 2 ^ d ->
  exists u' q', div_loop (S m) u v q ub vb n (4 - m) = Some (u', q') /\
    digits u' /\ digits q' /\ agree_out ub 5 u u' /\ agree_out (4 - m) (S m) q q' /\
    num u' ub (S m) = 0 /\ num q' (4 - m) (S m) = N / V /\
    num u' (ub + S m) n = (N mod V) * 2 ^ d.
Proof.
  intros Hu Hv Hq Hlu Hlq Hn Hs Hd HV HVl HN Hv1 Eu Ev.
  assert (Hlt : num u ub n < num v (S vb) n).
  { replace (S (m + n)) with (n + S m)%nat in Eu by lia. rewrite num_split in Eu.
    pose proof (num_range u (ub + n) (S m) Hu). pose proof (Bpow_pos (S m)).
    replace (m + n)%nat with (pred n + S m)%nat in HN by lia.
    rewrite Nat2Z.inj_add, Z.pow_add_r in HN by lia. rewrite Ev.
    assert (num u ub n < B ^ Z.of_nat (pred n) * 2 ^ d); [|nia].
    apply (Z.mul_lt_mono_pos_r (B ^ Z.of_nat (S m))); [done|]. nia. }
  destruct (div_loop_spec (S m) u v q ub vb n (4 - m)) as (u' & q' & E & Hu' & Hq' & Ha & Haq & Hz & HR & En);
    auto; try lia.
  exists u', q'. replace (n + S m)%nat with (S (m + n)) in * by lia. rewrite Eu, Ev in *.
  pose proof (num_range u' (ub + S m) n Hu') as [HR0 _].
  assert (EQ : num q' (4 - m) (S m) = N / V).
  { rewrite <- (Z.div_mul_cancel_r N V (2 ^ d)) by lia. apply (Z.div_unique _ _ _ (num u' (ub + S m) n)); lia. }
  split; [exact E|]. split_and!; auto.
  - eapply agree_mono; [exact Ha|lia..].
  - rewrite EQ in En. rewrite Z.mod_eq by lia. nia.
Qed.

(** Leading zeros do not change a number. *)
Lemma num_zeros a i k l : num a i k = 0 -> num a i (k + l) = num a (i + k) l.
Proof. intros H. rewrite num_split, H. lia. Qed.

Lemma remainder_back u ub m n d R :
  digits u -> length u = 5%nat -> (ub + m + n = 4)%nat -> 0 <= d < 16 ->
  num u 1 ub = 0 -> num u ub (S m) = 0 -> 0 <= R < B ^ Z.of_nat n ->
  num u (ub + S m) n = R * 2 ^ d ->
  number_of (if d =? 0 then u else shift_back n u (ub + (m + n)) d) = R.
Proof.
  intros Hu Hl Hs Hd Hz1 Hz2 HR En. replace (ub + S m)%nat with (S (ub + m)) in En by lia.
  assert (Hz : num u 1 (ub + m) = 0).
  { rewrite num_zeros by done. rewrite num_head in Hz2.
    pose proof (num_range u (S ub) m Hu). pose proof (Hu ub). pose proof (Bpow_pos m). cbn. nia. }
  assert (Hlast : u !!! (ub + m)%nat = 0).
  { rewrite num_last in Hz2. pose proof (num_range u ub m Hu). pose proof (Hu (ub + m)%nat).
    unfold B in *. lia. }
  assert (Hwhole : forall a, digits a -> num a 1 (ub + m) = 0 -> number_of a = num a (S (ub + m)) n).
  { intros a Ha Ha0. rewrite number_of_num by done. replace 4%nat with (ub + m + n)%nat by done.
    by rewrite num_zeros. }
  destruct (Z.eqb_spec d 0) as [->|]; [rewrite Hwhole, En; lia || done|].
  destruct (shift_back_spec n u (ub + (m + n)) d) as (HX & Ha & H0 & EX); auto; [lia..|].
  replace (ub + (m + n) - n)%nat with (ub + m)%nat in * by lia.
  rewrite Hwhole; [|done|].
  - rewrite EX, num_head, Hlast, En, Z.mul_0_l, Z.add_0_l, Z.div_mul, Z.mod_small by lia. done.
  - rewrite <- Hz. apply num_ext. intros x Hx. destruct (decide (x = ub + m)%nat) as [->|]; [congruence|].
    apply Ha. lia.
Qed.

Lemma qdivrem_eq g ul vl arq :
  0 <= ul < 2 ^ 64 -> 0 <= vl < 2 ^ 64 ->
  __qdivrem g ul vl arq =
    if vl =? 0 then None else Some (ul / vl, if arq then Some (ul mod vl) else None).
Proof.
  intros Hul Hvl. unfold __qdivrem. destruct (Z.eqb_spec vl 0) as [|Hne]; [done|].
  destruct (Z.ltb_spec ul vl); [by rewrite Z.div_small, Z.mod_small by lia|].
  pose proof (digits_of_digits 0 ul ltac:(unfold B; lia)) as Hu.
  pose proof (digits_of_digits (u16 (g 5%nat)) vl (wrapu_range 16 _ ltac:(lia))) as Hv.
  pose proof (num_digits_of 0 ul Hul) as Eu. pose proof (num_digits_of (u16 (g 5%nat)) vl Hvl) as Ev.
  assert (Hlu : length (digits_of 0 ul) = 5%nat) by done.
  assert (Hlv : length (digits_of (u16 (g 5%nat)) vl) = 5%nat) by done.
  assert (Hu0 : digits_of 0 ul !!! 0%nat = 0) by done.
  revert Hu Hv Eu Ev Hlu Hlv Hu0. generalize (digits_of 0 ul) (digits_of (u16 (g 5%nat)) vl).
  intros u v Hu Hv Eu Ev Hlu Hlv Hu0.
  destruct (skip_v_spec v 0 4 Hv) as [(t & -> & Ht & Et)|(vb & n & -> & Hn & Hs & Hv1 & En)]; [lia..| |].
  { rewrite short_div_spec by done. by rewrite Eu, <- Et, Ev. }
  rewrite Ev in En. assert (Hvp : 0 < v !!! S vb < B) by (pose proof (Hv (S vb)); lia).
  destruct n as [|k]; [lia|].
  assert (HVl : B ^ Z.of_nat k <= vl).
  { rewrite <- En, num_head. pose proof (num_range v (S (S vb)) k Hv). nia. }
  destruct (skip_u_spec u 0 (4 - S k) (S k)) as (ub & m & -> & _ & Hs' & Hub & Hz & Em); auto; [lia|..].
  { replace (4 - S k + S k)%nat with 4%nat by lia. cbn [pred]. lia. }
  replace (4 - S k + S k)%nat with 4%nat in Em by lia. rewrite Eu in Em. rewrite Nat.sub_0_r in Hz.
  destruct (norm_d_spec 16 (v !!! S vb) 0 Hvp) as (d & -> & Hd & Hb).
  { change (B / 2) with 32768. change (2 ^ Z.of_nat 16) with 65536. lia. }
  rewrite Z.add_0_l.
  assert (Hd16 : 0 <= d < 16).
  { split; [lia|]. destruct (decide (d = 16)) as [->|]; [|lia]. change (2 ^ 16) with B in Hb. unfold B in *. lia. }
  destruct (normalise_u u ub (m + S k) d) as (Hu' & Hau & Eu'); auto; [lia|].
  destruct (normalise_v v vb k d) as (Hv' & Ev' & Hv1'); auto; [lia|].
  replace (S k - 1)%nat with k by lia. set (u1 := if 0 <? d then _ else u) in *.
  set (v1 := if 0 <? d then _ else v) in *. rewrite Em in Eu'. rewrite En in Ev'.
  destruct (quotient_digits g m ltac:(lia)) as (Hq & Hlq & Hzq). set (q := _ ++ _) in *.
  pose proof (num_range u (S ub) (m + S k) Hu) as HN. rewrite Em in HN.
  pose proof (num_range v (S vb) (S k) Hv) as HNv. rewrite En in HNv.
  destruct (long_div u1 v1 q ub vb m (S k) d ul vl) as (u' & q' & -> & Hu'' & Hq' & Ha & Haq & Hz' & EQ & ER);
    auto; [by rewrite (proj1 Hau)|lia..|].
  f_equal. f_equal.
  - rewrite number_of_num by done. replace 4%nat with (3 - m + S m)%nat by lia. rewrite num_zeros.
    + by replace (1 + (3 - m))%nat with (4 - m)%nat by lia.
    + by rewrite (num_agree _ _ _ _ _ _ Haq) by lia.
  - f_equal. destruct arq; [|done]. f_equal.
    apply (remainder_back _ ub m (S k)); auto; try lia.
    + by rewrite (proj1 Ha), (proj1 Hau).
    + apply num_zero; [done|]. intros x Hx. rewrite num_zero in Hz, Hz' by done.
      destruct (decide (x = ub)) as [->|]; [apply Hz'; lia|].
      rewrite (proj2 Ha), (proj2 Hau) by lia. apply Hz. lia.
    + pose proof (Z.mod_pos_bound ul vl). lia.
Qed.

(** C38. [__qdivrem], the whole of it: for every divisor other than zero it returns, with the
    quotient and, when asked for, the remainder of the unsigned numbers, whatever its
    uninitialised arrays hold; a division by zero traps. *)
Theorem qdivrem_spec (g : nat -> Z) (ul vl : Z) (arq : bool)
    (Hu : 0 <= ul < 2 ^ 64) (Hv : 0 <= vl < 2 ^ 64) :
  __qdivrem g ul vl arq =
    if vl =? 0 then None else Some (ul / vl, if arq then Some (ul mod vl) else None).
Proof.
  apply qdivrem_eq; done.
Qed.

Lemma u64_abs a :
  - 2 ^ 63 <= a < 2 ^ 63 -> (if a <? 0 then u64 (- u64 a) else u64 a) = Z.abs a /\ 0 <= Z.abs a < 2 ^ 64.
Proof.
  intros Ha. destruct (Z.ltb_spec a 0); split; try lia; [|rewrite wrapu_small; lia].
  rewrite (wrapu_eqm 64 (- u64 a) (- a)), wrapu_small by (lia || by rewrite eqm_wrapu). lia.
Qed.

(** Dividing the absolute values and negating the result divides with truncation. *)
Lemma signed_quot a b :
  b <> 0 -> Z.quot a b = (if xorb (a <? 0) (b <? 0) then - (Z.abs a / Z.abs b) else Z.abs a / Z.abs b).
Proof.
  intros Hb. rewrite <- Z.quot_div_nonneg by lia.
  destruct (Z.ltb_spec a 0), (Z.ltb_spec b 0); cbn [xorb].
  - rewrite !Z.abs_neq by lia. by rewrite Z.quot_opp_opp.
  - rewrite Z.abs_neq, Z.abs_eq by lia. rewrite Z.quot_opp_l by lia. lia.
  - rewrite Z.abs_eq, Z.abs_neq by lia. rewrite Z.quot_opp_r by lia. lia.
  - by rewrite !Z.abs_eq by lia.
Qed.

Lemma signed_rem a b :
  b <> 0 -> Z.rem a b = (if a <? 0 then - (Z.abs a mod Z.abs b) else Z.abs a mod Z.abs b).
Proof.
  intros Hb. rewrite <- Z.rem_mod_nonneg by lia. rewrite Z.rem_abs_r by lia. destruct (Z.ltb_spec a 0).
  - rewrite Z.abs_neq by lia. rewrite Z.rem_opp_l by lia. lia.
  - by rewrite Z.abs_eq by lia.
Qed.

(** Signed division of [long long]s rounds towards zero and the remainder has the sign of
    the dividend; the only quotient that does not fit, [-2^63 / -1], wraps around to
    [-2^63]. Unsigned division and remainder are those of the unsigned values. A division
    by zero traps. *)
Theorem divdi3_spec (g : nat -> Z) (a b : Z) (Ha : - 2 ^ 63 <= a < 2 ^ 63) (Hb : - 2 ^ 63 <= b < 2 ^ 63) :
  __divdi3 g a b = (if b =? 0 then None else Some (s64 (Z.quot a b))) /\
  __moddi3 g a b = (if b =? 0 then None else Some (Z.rem a b)) /\
  __udivdi3 g (u64 a) (u64 b) = (if b =? 0 then None else Some (u64 a / u64 b)) /\
  __umoddi3 g (u64 a) (u64 b) = (if b =? 0 then None else Some (u64 a mod u64 b)).
Proof.
  destruct (u64_abs a Ha) as [Ea Ra], (u64_abs b Hb) as [Eb Rb].
  assert (E0 : (Z.abs b =? 0) = (b =? 0)) by lia.
  assert (Eu0 : (u64 b =? 0) = (b =? 0)).
  { destruct (Z.eqb_spec b 0) as [->|Hne]; [done|]. apply Z.eqb_neq. unfold wrapu. intros E.
    apply Z.mod_divide in E as [k Hk]; lia. }
  assert (Hr : forall x, 0 <= u64 x < 2 ^ 64) by (intros; apply wrapu_range; lia).
  split_and!.
  - unfold __divdi3.
    replace (if a <? 0 then (_, true) else (_, false)) with (Z.abs a, a <? 0) by (destruct (a <? 0); congruence).
    replace (if b <? 0 then (_, negb (a <? 0)) else (_, a <? 0)) with (Z.abs b, xorb (a <? 0) (b <? 0))
      by (destruct (a <? 0), (b <? 0); cbn; congruence).
    rewrite qdivrem_eq, E0 by done. destruct (Z.eqb_spec b 0); [done|]. rewrite signed_quot by done.
    f_equal. destruct (xorb _ _); [|done]. apply wraps_eqm; [lia|]. by rewrite eqm_wrapu.
  - unfold __moddi3. rewrite Eb.
    replace (if a <? 0 then (_, true) else (_, false)) with (Z.abs a, a <? 0) by (destruct (a <? 0); congruence).
    rewrite qdivrem_eq, E0 by done. destruct (Z.eqb_spec b 0); [done|].
    pose proof (Z.rem_bound_abs a b ltac:(done)). rewrite <- (wraps_small 64 (Z.rem a b)) by lia.
    rewrite signed_rem by done.
    f_equal. destruct (a <? 0); [|done]. apply wraps_eqm; [lia|]. by rewrite eqm_wrapu.
  - unfold __udivdi3. rewrite qdivrem_eq, Eu0 by done. by destruct (b =? 0).
  - unfold __umoddi3. rewrite qdivrem_eq, Eu0 by done. by destruct (b =? 0).
Qed.

(** The second division needs the add-back step (D6). *)
Lemma qdivrem_spec_witness :
  __qdivrem (fun _ => 7) (2 ^ 63 + 3) (2 ^ 61 + 1) true = Some (3, Some (2 ^ 61)) /\
  __qdivrem (fun _ => 7) 0x7fff800000000000 0x800000000001 true = Some (65534, Some 140737488289794).
Proof.
  split.
  - rewrite (qdivrem_spec (fun _ => 7) (2 ^ 63 + 3) (2 ^ 61 + 1) true) by lia. reflexivity.
  - rewrite (qdivrem_spec (fun _ => 7) 0x7fff800000000000 0x800000000001 true) by lia. reflexivity.
Defined.

Lemma divdi3_spec_witness :
  __divdi3 (fun _ => 0) (- 7) 2 = Some (- 3) /\ __divdi3 (fun _ => 0) (- 2 ^ 63) (- 1) = Some (- 2 ^ 63).
Proof.
  split.
  - rewrite (proj1 (divdi3_spec (fun _ => 0) (- 7) 2 ltac:(lia) ltac:(lia))). reflexivity.
  - rewrite (proj1 (divdi3_spec (fun _ => 0) (- 2 ^ 63) (- 1) ltac:(lia) ltac:(lia))). reflexivity.
Defined.
